(* ===== verification/_CoqProject ===== *)
-Q . S2P
Prelude.v
PyFloat.v
Routing.v
Store.v
StoreProofs.v
StoreTheorems.v
Contracts.v
PaperBroker.v
Journal.v
JournalTheorems.v
Attribution.v
Evidence.v
Service.v
Router.v
Execution.v
Health.v
Indicators.v
Regime.v
Strategies.v
Backtest.v
Stats.v
Validation.v
Portfolio.v
Signals.v
DayTrade.v
Monitors.v
Ledger.v
Reconcile.v
Policy.v
Json.v
Risk.v
Cycle.v
Worker.v
Approvals.v
Veto.v
Challengers.v
Learning.v
Specialists.v
MarketData.v
Prices.v
Prompts.v
Pipeline.v
Desk.v
Sources.v
AuditLog.v
Brokers.v
Operator.v
Clients.v
Migrations.v
