(* ===== verification/Prelude.v ===== *)
(** * Trade_pilot: a verification library for the trading stack

    Trade_pilot is a set of Python services that turn market data into orders: a strategy
    service proposes signals, the orchestrator sizes and checks them and submits orders,
    the execution service places them at a paper or a live broker, and the lifecycle store
    decides, for each strategy on each symbol (a sleeve), which of the two it may reach.
    This library models that code and proves what makes it correct.

    ** How the parts interact

    A signal is checked by the day-trade guard ([DayTrade]), the risk engine ([Risk]) and
    the policy service ([Policy]) in the orchestrator's cycle ([Cycle]); its order goes to
    the execution service ([Execution]), which asks the router ([Router]) for a venue. The
    router reads the sleeve, the live switch and the entry halts in the lifecycle store
    ([Store]) and applies the rule of [Routing]. What is filled is journalled ([Journal])
    and, once the entry is booked, watched by the monitors ([Monitors]). The ledger
    ([Ledger]) is derived from the fills; the reconciliation ([Reconcile]) compares it with
    the broker and latches the halt of the store that the router reads. Whether a sleeve
    climbs is decided by the service ([Service]) on evidence derived from backtest
    artifacts and the journal ([Evidence]); whether it falls, by the sweep ([Health]).
    The artifacts come from the backtest service: indicator series ([Indicators]), signals
    and gates ([Strategies]), the engine ([Backtest]), walk-forward validation
    ([Validation], [Stats]) and portfolios ([Portfolio]).

    The strategy service makes and stores the signals the cycle reads ([Signals]), and its
    worker trades without the orchestrator: it asks the earnings calendar, the policy
    service and the lifecycle gate itself, runs each challenger beside its champion, and
    writes the exits the cycle executes ([Worker]). What the cycle leaves to a human waits
    at the approval gateway ([Approvals]). The learner perturbs the champion of a paper
    sleeve ([Challengers]), where the veto finds nothing to object to ([Veto]), judges the
    challengers together and records them ([Learning]); a recorded proposal is what a
    challenger's sleeve trades. What is journalled is explained afterwards: the round trips
    and where their results came from ([Attribution]), the regimes they were entered into
    and the report ([Regime]), and the arguments the specialists make of an archive that
    answers as of a moment ([Specialists]), which is how a role is modelled: a program of
    the questions it may ask. Bars come from one of three providers and are archived as they
    are served ([MarketData]); the price of the moment comes from the cache a stream fills,
    the provider or the last bar, whichever is fresh enough first ([Prices]). A live order
    ends in the adapter of a vendor, which is a venue of the execution service as the paper
    broker is ([Brokers]). An operator acts through the endpoints of the orchestrator
    ([Operator]): the policy file every cycle reads, the switches, and the ladder of the
    lifecycle, which the lifecycle service of [Service] climbs.

    A signal may also come from a language model ([Pipeline]), which answers a prompt of the
    registry ([Prompts]) that quotes text of the research and sentiment services
    ([Sources]); what it answers is parsed, blended with the technical score and bounded
    before it is a signal of [Signals]. A user trades from the desk of the strategy service
    ([Desk]): a manual order goes to the policy service and the execution service as a
    worker's does. Every service reports to the audit log, whose events of the week are how
    the orchestrator and the policy service know what was spent, and a notification is a task
    that shares its object with the queue that lists it ([AuditLog]).

    Where [Worker] and [Cycle] take what another service says as an input, [Clients] computes
    that input from an answer that may be missing, be an error or hold anything, and composes
    the two; it also holds the start of the orchestrator, with its jobs. The databases are
    brought to their schema by the runner of [Migrations].

    ** The files

    - [Prelude] (this file): results, programs over a state, transactions, dicts, sorting,
      and the lemmas and tactics shared by the rest. [PyFloat]: Python's floats as an
      interface with two implementations, IEEE 754 binary64 and exact rationals.
    - [Routing], [Store], [StoreProofs], [StoreTheorems]: libs/lifecycle, [routing.py] and
      [store.py]. Each method of the store is a program over its tables; the theorems are
      about every database its methods can produce.
    - [Evidence], [Service], [Health]: libs/lifecycle, [evidence.py] and [gates.py],
      [service.py], [health.py].
    - [Contracts]: libs/contracts ([execution.py], [rate_limit.py], [sanitize.py],
      [auth.py], and the models they validate). [Prompts]: its [prompts.py].
    - [PaperBroker]: libs/brokers [paper_broker.py]; [Brokers]: its [alpaca_broker.py],
      [etoro_broker.py] and the choice between them. [Journal], [JournalTheorems]:
      libs/journal [store.py]. [Attribution], [Regime]: libs/attribution, the second
      [regime.py] and the report. [Specialists]: libs/specialists.
    - [Router], [Execution]: services/execution-service [routing.py] and [main.py].
    - [Indicators]: libs/market_data [indicators.py] and the backtest service's
      [indicator_series.py]. [MarketData]: libs/market_data [config.py] and [fetcher.py].
      [Prices]: its [realtime.py], [stream.py] and [clock.py]. [Strategies], [Backtest], [Stats], [Validation], [Portfolio]:
      the files of services/backtest-service of those names, with the strategy service's
      [rule_engine.py].
    - [DayTrade], [Monitors], [Reconcile], [Risk], [Cycle]: services/autonomy-orchestrator,
      [day_trade_tracker.py], the two monitors, [reconciliation.py], [risk_engine.py], and
      the parts of [main.py] that use them. [Operator]: the rest of [main.py], with
      [policy_config.py].
    - [Json]: what every client of a JSON document does to read it. [Clients]: the clients in
      [worker.py] and in the orchestrator's [main.py], with the start of the latter.
    - [Migrations]: tools/migrate.py, and the additive schema of the journal's [store.py].
    - [Ledger]: services/portfolio-service. [Policy]: services/policy-service.
      [Approvals]: services/approval-gateway.
    - [Signals], [Worker]: services/strategy-service, [main.py], [models.py],
      [earnings_calendar.py] and the deterministic part of [ai_pipeline.py]; [worker.py].
      [Pipeline]: the rest of [ai_pipeline.py]. [Desk]: the manual trade, the quotes, the
      charts and the watchlists of [main.py], with [config.py] and [scheduler.py].
    - [Sources]: services/research-service and services/sentiment-aggregator. [AuditLog]:
      services/audit-logger and services/notification-service, with the readers of the
      week's spend in the orchestrator and the policy service.
    - [Veto]: libs/veto. [Challengers]: libs/challengers, all but [learning.py], which is in
      [Learning] with the orchestrator's [learning_worker.py].

    ** How the code is modelled

    A Python object is a record and a method a function from the object and the world of
    the call to a result and the object after it. An exception is a value ([result]); in a
    program with a state the state survives it, except inside a database transaction
    ([txn]), which rolls back. What a call is answered from outside the process (prices,
    clocks, other services, the database driver, uuid and sha256, libm, the time zone
    database) is an argument of the definition or a field of its world record, and may
    fail where the code expects it to. Code that awaits while sharing state is given what
    other tasks do in between: [world] in [Service], [meanwhile] in [Monitors], [w_others]
    in [Cycle], [others] in [Approvals], explicit sequences of steps elsewhere. The
    interfaces where parts meet are classes: [PyFloat], [LifecycleReads], [Venue],
    [AlpacaClient], [EtoroApi],
    [Archive] (what a veto reads, which the journal answers), [Digests] and the risk
    records of [Monitors].

    The models are written over any [PyFloat]. Statements about order, guards and control
    flow hold for every arithmetic, hence of the floats that run; statements of conservation
    are at [exact], where rounding is removed, and name the error of the explicit rounding
    the code does. A timestamp is a number of microseconds, a session the ordinal of a date.

    ** What is shown

    - Routing and lifecycle: a challenger never trades live; a live entry needs the state,
      the switch, a fresh clean reconciliation and no halt; an outage does not strand exits;
      the audit trail replays to the roster; stale writers lose; only an operator clears a
      halt; promotions are made on cited evidence and demotions hold; the sweep takes an
      unhealthy sleeve down.
    - Orders: submitting twice places one order; the position cap holds; one guarded venue
      per order; an order is sent to Alpaca at most once, the wait for its fill ends, and what
      a live account fills is never seen; every order of a cycle passed every guard; an accepted entry is counted and
      protected; protection survives restarts, is dropped only on a confirmed exit, and
      brackets the entry; the day-trade budget holds for the guard and for whole cycles; a
      divergence that persists stops entries at the router.
    - The operator: one cycle and one learner at a time, whatever starts them; a sleeve is made
      live by the promotion of an admin through its gates, or by a demotion to live that asks
      for neither.
    - The worker: every order passed the calendar, the policy, the sizing and the lifecycle
      gate of its own sleeve; it trades what the backtest of its parameters says; one failure
      does not stop the rest of a run; a symbol has one exit pending; an order rests on
      a 200 that lists what the sleeve holds and on a 200 that says APPROVE, whatever the
      services answer. A signal is pending until
      it is acted on. A manual order rests on bars
      of the last two minutes and was approved for its symbol, side and size.
    - The models: whatever a language model answers, a candidate is of the symbol asked
      about, with an action and a size of the lists and a confidence within its bounds;
      untrusted text cannot close the block it is quoted in, and is read back as it was.
    - The feeds: a sentiment is within its range and no older than the cache allows; a cached
      research report is the last one of its symbol. The audit log answers each event by its
      id as it was recorded, and never changes or drops one.
    - Approvals: the first decision in time stands, and a request that ran out is not
      approved; the orders of a cycle's approvals are of rows a human approved.
    - Learning: a challenger stays within its bounds, one step from its champion, down to the
      parameters its sleeve trades; every trial of a campaign counts against each of its
      results; a batch writes proposals and reports and nothing else, and proposes nothing
      without its evidence. The veto refuses exactly by its rules and, but for its coverage
      rule, not by what was learned later.
    - Decisions: the risk engine and the policy service decide exactly by their limits, the
      gates of each promotion too.
    - Books: the paper broker, the ledger, the round trips and the backtest conserve money;
      reconciling twice writes once.
    - Reports: a report over a window that has ended is final, and so is everything the
      specialists said of a moment, whatever the roles do with their archive; the slices
      account for every trade; the five roles always answer, with evidence.
    - Market data: a price that is served is within the age limit, and one that was looked up
      leaves its verdict in the journal; what is held is not replaced by something earlier; a
      file with one bad row serves nothing; bars are archived where they are served and under
      the provider that gave them; the session is what the broker's clock just said, or the
      heuristic.
    - Migrations: a run that was interrupted resumes, to what one undisturbed run makes; the
      columns of a later release are added once and keep what was there.
    - Research: neither the journal nor the backtest sees the future; the one-pass series
      equal the live indicators; the live rule is the one that was backtested; a
      walk-forward selection is blind to the window it is judged on.

    The lemmas that end some files show, on concrete runs, where the code does not do what
    its comments or its purpose say.

    ** Fuel and bounds

    Four recursions are not structural. [business_window] walks back over calendar days
    with a fuel of seven per session asked for, and is shown to find them all. The bisection
    of [normal_ppf] halves its interval at most [PPF_FUEL] = 64 times, and is shown to stop
    before. The pairing of [Attribution] consumes a lot or a fill at each turn, and its fuel
    is their number. The wait for a fill reads the clock at most [POLLS] = 21 times, which is
    shown to be enough for a clock that a sleep moves. Python's integers are unbounded, and so is Z.

    ** Not modelled

    The HTTP layer (FastAPI, httpx, authentication wiring, the CORS settings), logging and the
    rendering of text reports have no state of their own. The vendors behind the adapters of
    real money, the data vendors and the language models are services the code calls: they
    are parameters. The journal's fire-and-forget emitter and its percentile statistics, and
    the scripts, which are command lines over the libraries, are not modelled. *)

From stdpp Require Export base gmap list strings pretty.
From Stdlib Require Export ZArith Lia.
From Stdlib Require Export Sorting.Sorted.
From Stdlib Require Import Ascii.
From stdpp Require sorting.

#[global] Set Default Proof Using "Type".
#[global] Open Scope Z_scope.

Create HintDb tp.
Create Rewrite HintDb tp.

(** ** Results: a Python call returns a value or raises *)

Inductive result (E A : Type) : Type :=
| Ok (a : A)
| Err (e : E).
Arguments Ok {E A} a.
Arguments Err {E A} e.

#[export] Instance result_ret E : MRet (result E) := fun A a => Ok a.
#[export] Instance result_bind E : MBind (result E) :=
  fun A B f r => match r with Ok a => f a | Err e => Err e end.
#[export] Instance result_fmap E : FMap (result E) :=
  fun A B f r => match r with Ok a => Ok (f a) | Err e => Err e end.

Definition is_ok {E A} (r : result E A) : bool :=
  match r with Ok _ => true | Err _ => false end.

(** ** Stateful code that may raise

    The state survives an exception: what was committed before the [raise]
    stays committed. [txn] is a database transaction, which rolls back. *)

Definition prog (S E A : Type) : Type := S -> result E A * S.

#[export] Instance prog_ret S E : MRet (prog S E) := fun A a s => (Ok a, s).
#[export] Instance prog_bind S E : MBind (prog S E) :=
  fun A B f m s =>
    match m s with
    | (Ok a, s') => f a s'
    | (Err e, s') => (Err e, s')
    end.

Definition raise {S E A} (e : E) : prog S E A := fun s => (Err e, s).
Definition reads {S E A} (f : S -> A) : prog S E A := fun s => (Ok (f s), s).
Definition modifies {S E} (f : S -> S) : prog S E unit := fun s => (Ok tt, f s).
Definition txn {S E A} (m : prog S E A) : prog S E A :=
  fun s => match m s with (Ok a, s') => (Ok a, s') | (Err e, _) => (Err e, s) end.
Definition guard_else {S E} (b : bool) (e : E) : prog S E unit :=
  if b then mret tt else raise e.
(** [try: m except: h e], with the state [m] had reached. *)
Definition catch {S E A} (m : prog S E A) (h : E -> prog S E A) : prog S E A :=
  fun s => match m s with (Ok a, s') => (Ok a, s') | (Err e, s') => h e s' end.

Lemma bind_ok {S E A B} (m : prog S E A) (k : A -> prog S E B) s b s' :
  (m ≫= k) s = (Ok b, s') <->
  exists a s1, m s = (Ok a, s1) /\ k a s1 = (Ok b, s').
Proof.
  unfold mbind, prog_bind. destruct (m s) as [[a|e] s1]; split.
  - intros H. by exists a, s1.
  - by intros (a' & s2 & [= -> ->] & ?).
  - done.
  - by intros (a' & s2 & ? & ?).
Qed.

Lemma txn_err {S E A} (m : prog S E A) s e s' :
  txn m s = (Err e, s') -> s' = s.
Proof. unfold txn. destruct (m s) as [[]]; congruence. Qed.

Lemma txn_ok {S E A} (m : prog S E A) s a s' :
  txn m s = (Ok a, s') <-> m s = (Ok a, s').
Proof. unfold txn. destruct (m s) as [[]]; split; congruence. Qed.

(** ** Slices *)

(** [l[:n]] *)
Definition slice_to {A} (n : Z) (l : list A) : list A :=
  take (Z.to_nat (if (n <? 0)%Z then Z.of_nat (length l) + n else n)) l.

(** ** Strings: the [str] methods the code calls *)

Definition upper_ascii (a : ascii) : ascii :=
  let n := nat_of_ascii a in
  if (97 <=? n)%nat && (n <=? 122)%nat then ascii_of_nat (n - 32) else a.
Definition lower_ascii (a : ascii) : ascii :=
  let n := nat_of_ascii a in
  if (65 <=? n)%nat && (n <=? 90)%nat then ascii_of_nat (n + 32) else a.

Fixpoint map_string (f : ascii -> ascii) (s : string) : string :=
  match s with
  | EmptyString => EmptyString
  | String a s' => String (f a) (map_string f s')
  end.

(** [str.upper], [str.lower], [str.strip] on ASCII text. *)
Definition upper : string -> string := map_string upper_ascii.
Definition lower : string -> string := map_string lower_ascii.

Definition is_space (a : ascii) : bool :=
  let n := nat_of_ascii a in
  (n =? 32)%nat || ((9 <=? n)%nat && (n <=? 13)%nat) || ((28 <=? n)%nat && (n <=? 31)%nat).
Fixpoint lstrip (s : string) : string :=
  match s with
  | String a s' => if is_space a then lstrip s' else s
  | EmptyString => EmptyString
  end.
Definition strip (s : string) : string :=
  String.rev (lstrip (String.rev (lstrip s))).

(** [str(n)] of an int. *)
Definition str_of_Z (z : Z) : string := pretty z.

(** [repr(s)] of an ASCII string. *)
Definition hex_digit (n : nat) : ascii :=
  ascii_of_nat (if (n <? 10)%nat then 48 + n else 87 + n).
Definition repr_char (quote : nat) (a : ascii) : string :=
  let n := nat_of_ascii a in
  if (n =? 92)%nat || (n =? quote)%nat then String (ascii_of_nat 92) (String a "")
  else if (n =? 9)%nat then "\t" else if (n =? 10)%nat then "\n"
  else if (n =? 13)%nat then "\r"
  else if (n <? 32)%nat || (126 <? n)%nat
  then "\x" +:+ String (hex_digit (n / 16)) (String (hex_digit (n mod 16)) "")
  else String a "".
Fixpoint contains_char (c : nat) (s : string) : bool :=
  match s with
  | EmptyString => false
  | String a s' => (nat_of_ascii a =? c)%nat || contains_char c s'
  end.
Fixpoint repr_body (quote : nat) (s : string) : string :=
  match s with
  | EmptyString => EmptyString
  | String a s' => repr_char quote a +:+ repr_body quote s'
  end.
Definition py_repr (s : string) : string :=
  let quote := if contains_char 39 s && negb (contains_char 34 s) then 34%nat else 39%nat in
  let q := String (ascii_of_nat quote) "" in
  q +:+ repr_body quote s +:+ q.

(** [a or b] on strings: the empty string is false. *)
Definition str_or (a b : string) : string := if decide (a = "") then b else a.
Definition str_true (a : string) : bool := negb (String.eqb a "").
Definition str_in (s : string) (l : list string) : bool := existsb (String.eqb s) l.

(** ["; ".join(parts)] *)
Fixpoint join (sep : string) (l : list string) : string :=
  match l with
  | [] => ""
  | [x] => x
  | x :: l' => x +:+ sep +:+ join sep l'
  end.

Lemma append_assoc (a b c : string) : (a +:+ b) +:+ c = a +:+ (b +:+ c).
Proof. induction a as [|x a IH]; [done|]. exact (f_equal (String x) IH). Qed.

Lemma upper_ascii_idemp a : upper_ascii (upper_ascii a) = upper_ascii a.
Proof. destruct a as [[] [] [] [] [] [] [] []]; vm_compute; reflexivity. Qed.

Lemma upper_idemp s : upper (upper s) = upper s.
Proof.
  induction s as [|a s IH]; [done|]. unfold upper in *. cbn.
  by rewrite upper_ascii_idemp, IH.
Qed.
#[export] Hint Rewrite upper_idemp : tp.

Lemma str_in_spec s l : str_in s l = true <-> s ∈ l.
Proof.
  unfold str_in. rewrite existsb_exists. setoid_rewrite String.eqb_eq.
  setoid_rewrite <- list_elem_of_In. split; [by intros (? & ? & ->)|eauto].
Qed.

(** ** Lists: stable sorting, slices, SQL-style update *)

Section sorting.
Context {A : Type} (leb : A -> A -> bool).

Fixpoint insert_by (x : A) (l : list A) : list A :=
  match l with
  | [] => [x]
  | y :: l' => if leb x y then x :: l else y :: insert_by x l'
  end.
(** [sorted(l, key=...)]: stable. *)
Definition sort_by (l : list A) : list A := foldr insert_by [] l.

Lemma insert_by_perm x l : insert_by x l ≡ₚ x :: l.
Proof.
  induction l as [|y l IH]; [done|]. cbn. destruct (leb x y); [done|].
  rewrite IH. constructor.
Qed.

Lemma sort_by_perm l : sort_by l ≡ₚ l.
Proof.
  induction l as [|x l IH]; [done|]. cbn. by rewrite insert_by_perm, IH.
Qed.

Lemma elem_of_sort_by x l : x ∈ sort_by l <-> x ∈ l.
Proof. by rewrite sort_by_perm. Qed.

Context (leb_total : forall x y, leb x y = false -> leb y x = true).

Lemma insert_by_hd x y l :
  HdRel (fun a b => leb a b = true) y l -> leb y x = true ->
  HdRel (fun a b => leb a b = true) y (insert_by x l).
Proof.
  intros Hl Hyx. destruct l as [|z l]; cbn; [by constructor|].
  inversion Hl; subst. destruct (leb x z); by constructor.
Qed.

Lemma insert_by_sorted x l :
  Sorted (fun a b => leb a b = true) l ->
  Sorted (fun a b => leb a b = true) (insert_by x l).
Proof using leb_total.
  induction l as [|y l IH]; intros Hs; cbn; [by repeat constructor|].
  inversion Hs; subst. destruct (leb x y) eqn:E; [by repeat constructor|].
  constructor; [by apply IH|]. apply insert_by_hd; auto.
Qed.

Lemma sort_by_sorted l : Sorted (fun a b => leb a b = true) (sort_by l).
Proof using leb_total.
  induction l; cbn; [constructor|by apply insert_by_sorted].
Qed.
End sorting.

(** The sorted list of elements no two of which tie does not depend on their order. *)
Lemma sort_by_unique {A} (leb : A -> A -> bool) (l l' : list A) :
  (forall x y, leb x y = false -> leb y x = true) ->
  (forall x y z, leb x y = true -> leb y z = true -> leb x z = true) ->
  (forall x y, x ∈ l -> y ∈ l -> leb x y = true -> leb y x = true -> x = y) ->
  l ≡ₚ l' -> sort_by leb l = sort_by leb l'.
Proof.
  intros Ht Htr Hu E.
  assert (forall l, StronglySorted (fun a b => leb a b = true) (sort_by leb l)) as Hs.
  { intros k. apply Sorted_StronglySorted; [intros a b c; apply Htr|by apply sort_by_sorted]. }
  apply (sorting.StronglySorted_unique_strong (fun a b => leb a b = true)); [|done..|].
  - intros x y. rewrite !elem_of_sort_by, <- E. apply Hu.
  - by rewrite !sort_by_perm, E.
Qed.

Lemma string_leb_total s1 s2 : String.leb s1 s2 = false -> String.leb s2 s1 = true.
Proof. destruct (String.leb_total s1 s2); congruence. Qed.
Lemma string_leb_trans s1 s2 s3 :
  String.leb s1 s2 = true -> String.leb s2 s3 = true -> String.leb s1 s3 = true.
Proof.
  rewrite <- !Is_true_true. apply (transitivity (R := String.le)).
Qed.

(** Sorting by an integer key. *)
Lemma sort_by_key_sorted {A} (key : A -> Z) (l : list A) :
  StronglySorted (fun a b => key a <= key b) (sort_by (fun a b => key a <=? key b) l).
Proof.
  assert (StronglySorted (fun a b => (key a <=? key b) = true)
    (sort_by (fun a b => key a <=? key b) l)) as Hs.
  { apply Sorted_StronglySorted; [intros a b c; rewrite !Z.leb_le; lia|].
    apply sort_by_sorted. intros a b. rewrite Z.leb_gt, Z.leb_le. lia. }
  induction Hs as [|x l' Hs IH Hx]; constructor; [done|].
  rewrite List.Forall_forall in Hx |- *. intros y Hy. by apply Z.leb_le, Hx.
Qed.

(** [l[-n:]] for n > 0 *)
Definition last_n {A} (n : nat) (l : list A) : list A := drop (length l - n) l.

(** [UPDATE ... SET f WHERE p]. *)
Definition update_where {A} (p : A -> bool) (f : A -> A) (l : list A) : list A :=
  map (fun r => if p r then f r else r) l.
(** [result.rowcount] of that update. *)
Definition rowcount {A} (p : A -> bool) (l : list A) : nat :=
  length (List.filter p l).

Lemma update_where_none {A} (p : A -> bool) f (l : list A) :
  rowcount p l = 0%nat -> update_where p f l = l.
Proof.
  unfold rowcount, update_where. induction l as [|x l IH]; [done|]. cbn.
  destruct (p x); cbn; [done|]. intros H. by rewrite IH.
Qed.

Lemma length_update_where {A} (p : A -> bool) f (l : list A) :
  length (update_where p f l) = length l.
Proof. apply length_map. Qed.

Lemma elem_of_map {A B} (f : A -> B) (l : list A) y :
  y ∈ map f l <-> exists x, y = f x /\ x ∈ l.
Proof.
  rewrite list_elem_of_In, in_map_iff. setoid_rewrite <- list_elem_of_In. naive_solver.
Qed.

Lemma elem_of_filter_b {A} (p : A -> bool) (l : list A) x :
  x ∈ List.filter p l <-> x ∈ l /\ p x = true.
Proof. by rewrite !list_elem_of_In, filter_In. Qed.

Lemma NoDup_map_filter {A B} (f : A -> B) (p : A -> bool) l :
  NoDup (map f l) -> NoDup (map f (List.filter p l)).
Proof.
  induction l as [|x l IH]; [done|]. cbn. intros [Hx Hn]%NoDup_cons.
  destruct (p x); [|by apply IH]. cbn. apply NoDup_cons. split; [|by apply IH].
  rewrite list_elem_of_In, in_map_iff in Hx |- *. intros (y & E & Hy). apply Hx. exists y.
  split; [done|]. by apply List.filter_In in Hy as [? _].
Qed.

Lemma NoDup_map_inj {A B} (f : A -> B) l x y :
  NoDup (map f l) -> x ∈ l -> y ∈ l -> f x = f y -> x = y.
Proof.
  induction l as [|z l IH]; intros Hn Hx Hy E; [by apply not_elem_of_nil in Hx|].
  cbn in Hn. apply NoDup_cons in Hn as [Hz Hn]. rewrite elem_of_map in Hz.
  apply elem_of_cons in Hx as [->|Hx], Hy as [->|Hy]; naive_solver.
Qed.

Lemma elem_of_update_where {A} (p : A -> bool) f (l : list A) y :
  y ∈ update_where p f l <->
  exists x, x ∈ l /\ y = if p x then f x else x.
Proof.
  unfold update_where. rewrite list_elem_of_In, in_map_iff.
  setoid_rewrite <- list_elem_of_In. naive_solver.
Qed.

Lemma map_update_where {A B} (g : A -> B) (p : A -> bool) f (l : list A) :
  (forall x, g (f x) = g x) -> map g (update_where p f l) = map g l.
Proof.
  intros H. unfold update_where. rewrite map_map. apply map_ext.
  intros x. destruct (p x); auto.
Qed.

Lemma find_some_elem {A} (p : A -> bool) l x :
  List.find p l = Some x -> x ∈ l /\ p x = true.
Proof. intros H. apply find_some in H. by rewrite list_elem_of_In. Qed.

Lemma find_unique {A} (p : A -> bool) l x :
  x ∈ l -> p x = true -> (forall y, y ∈ l -> p y = true -> y = x) ->
  List.find p l = Some x.
Proof.
  intros Hx Hp Hu. destruct (List.find p l) as [y|] eqn:E.
  - apply find_some_elem in E as [? ?]. f_equal. auto.
  - pose proof (find_none _ _ E x) as Hn. rewrite <- list_elem_of_In in Hn.
    specialize (Hn Hx). congruence.
Qed.

(** ** A loop with an index that appends one value per element

    [for i, x in enumerate(l): ...; out.append(b)], with the loop's variables as [S]. *)

Fixpoint scan {A S B} (step : nat -> S -> A -> S * B) (i : nat) (s : S) (l : list A) : list B :=
  match l with
  | [] => []
  | x :: l => let '(s, b) := step i s x in b :: scan step (Datatypes.S i) s l
  end.

(** What each iteration appends is [f] of the prefix it has reached, if the loop's
    variables after every prefix satisfy an invariant that says so. *)
Lemma scan_spec {A S B} (step : nat -> S -> A -> S * B) (f : list A -> B)
    (Inv : list A -> S -> Prop) (l : list A) (s : S) :
  Inv [] s ->
  (forall pre x rest s, l = pre ++ x :: rest -> Inv pre s ->
     Inv (pre ++ [x]) (fst (step (length pre) s x)) /\
     snd (step (length pre) s x) = f (pre ++ [x])) ->
  scan step 0 s l = map (fun i => f (take (Datatypes.S i) l)) (seq 0 (length l)).
Proof.
  intros H0 Hstep.
  assert (forall rest pre s, l = pre ++ rest -> Inv pre s ->
    scan step (length pre) s rest =
      map (fun i => f (take (Datatypes.S i) l)) (seq (length pre) (length rest))) as Hall.
  { induction rest as [|x rest IH]; intros pre s' E Hi; [done|].
    cbn. destruct (Hstep pre x rest s' E Hi) as [Hi' Hb].
    destruct (step (length pre) s' x) as [s'' b]. cbn in Hi', Hb. f_equal.
    - rewrite E, firstn_app, firstn_all2 by lia.
      replace (Datatypes.S (length pre) - length pre)%nat with 1%nat by lia. done.
    - replace (Datatypes.S (length pre)) with (length (pre ++ [x])) by (rewrite length_app; cbn; lia).
      apply IH; [by rewrite <- app_assoc|done]. }
  exact (Hall l [] s eq_refl H0).
Qed.

Lemma length_snoc {A} (l : list A) x : length (l ++ [x]) = (length l + 1)%nat.
Proof. by rewrite length_app. Qed.

Lemma take_snoc_le {A} n (l : list A) x : (n <= length l)%nat -> take n (l ++ [x]) = take n l.
Proof. intros. by rewrite take_app_le. Qed.

Lemma drop_snoc_le {A} n (l : list A) x : (n <= length l)%nat -> drop n (l ++ [x]) = drop n l ++ [x].
Proof. intros. by rewrite drop_app_le. Qed.

(** ** Python dicts with string keys, in insertion order *)

Section dict.
Context {V : Type}.
Implicit Types d : list (string * V).

Fixpoint dict_get (k : string) d : option V :=
  match d with
  | [] => None
  | (k', v) :: d' => if String.eqb k k' then Some v else dict_get k d'
  end.
(** [d[k] = v]: an existing key keeps its place. *)
Fixpoint dict_set (k : string) (v : V) d : list (string * V) :=
  match d with
  | [] => [(k, v)]
  | (k', v') :: d' => if String.eqb k k' then (k', v) :: d' else (k', v') :: dict_set k v d'
  end.
(** [d.pop(k, None)] *)
Fixpoint dict_pop (k : string) d : list (string * V) :=
  match d with
  | [] => []
  | (k', v') :: d' => if String.eqb k k' then d' else (k', v') :: dict_pop k d'
  end.
Definition dict_keys d : list string := map fst d.
Definition dict_values d : list V := map snd d.
Definition dict_in (k : string) d : bool :=
  match dict_get k d with Some _ => true | None => false end.

Lemma dict_get_in k d v : dict_get k d = Some v -> (k, v) ∈ d.
Proof.
  induction d as [|[k' v'] d IH]; cbn; [done|].
  destruct (String.eqb_spec k k') as [->|]; [intros [= ->]; constructor|].
  intros H. constructor. auto.
Qed.

(** A map built from a dict literal. *)
Lemma lookup_dict k d : (list_to_map d : gmap string V) !! k = dict_get k d.
Proof.
  induction d as [|[k' v] d IH]; [done|]. cbn. destruct (String.eqb_spec k k') as [->|Hk].
  - by rewrite lookup_insert_eq.
  - by rewrite lookup_insert_ne.
Qed.

Lemma dict_get_set k v k' d :
  dict_get k' (dict_set k v d) = if String.eqb k k' then Some v else dict_get k' d.
Proof.
  induction d as [|[k0 v0] d IH]; cbn.
  - rewrite (String.eqb_sym k' k). done.
  - destruct (String.eqb_spec k k0) as [->|Hk]; cbn.
    + rewrite (String.eqb_sym k' k0). by destruct (String.eqb k0 k').
    + destruct (String.eqb_spec k' k0) as [->|]; [|done].
      destruct (String.eqb_spec k k0); congruence.
Qed.

Lemma dict_get_pop_ne k k' d : k <> k' -> dict_get k' (dict_pop k d) = dict_get k' d.
Proof.
  intros Hk. induction d as [|[k0 v0] d IH]; cbn; [done|].
  destruct (String.eqb_spec k k0) as [->|]; cbn.
  - by destruct (String.eqb_spec k' k0).
  - by rewrite IH.
Qed.

Lemma dict_keys_set k v d :
  dict_keys (dict_set k v d) = if dict_in k d then dict_keys d else dict_keys d ++ [k].
Proof.
  unfold dict_in, dict_keys. induction d as [|[k' v'] d IH]; cbn; [done|].
  destruct (String.eqb_spec k k'); cbn; [done|]. rewrite IH. by destruct (dict_get k d).
Qed.

Lemma dict_get_None k d : dict_get k d = None <-> k ∉ dict_keys d.
Proof.
  unfold dict_keys. induction d as [|[k' v'] d IH]; cbn; [split; [by intros _ ?%not_elem_of_nil|done]|].
  destruct (String.eqb_spec k k') as [->|]; rewrite not_elem_of_cons; naive_solver.
Qed.

Lemma dict_nodup_set k v d : NoDup (dict_keys d) -> NoDup (dict_keys (dict_set k v d)).
Proof.
  intros Hd. rewrite dict_keys_set. unfold dict_in. destruct (dict_get k d) eqn:E; [done|].
  apply dict_get_None in E. apply NoDup_app. repeat split; [done| |apply NoDup_singleton].
  by intros x Hx ->%list_elem_of_singleton.
Qed.

Lemma dict_keys_pop k d x : x ∈ dict_keys (dict_pop k d) -> x ∈ dict_keys d.
Proof.
  unfold dict_keys. induction d as [|[k' v'] d IH]; cbn; [done|].
  destruct (String.eqb k k'); cbn; rewrite ?elem_of_cons; naive_solver.
Qed.

Lemma dict_nodup_pop k d : NoDup (dict_keys d) -> NoDup (dict_keys (dict_pop k d)).
Proof.
  unfold dict_keys. induction d as [|[k' v'] d IH]; cbn; [done|]. intros [Hk Hd]%NoDup_cons.
  destruct (String.eqb k k'); cbn; [done|]. apply NoDup_cons. split; [|auto].
  intros Hx. apply Hk. by apply (dict_keys_pop k).
Qed.

Lemma dict_get_pop k d : NoDup (dict_keys d) -> dict_get k (dict_pop k d) = None.
Proof.
  unfold dict_keys. induction d as [|[k' v'] d IH]; cbn; [done|]. intros [Hk Hd]%NoDup_cons.
  destruct (String.eqb_spec k k') as [->|Hne]; cbn; [by apply dict_get_None|].
  destruct (String.eqb_spec k k'); [congruence|auto].
Qed.

Lemma dict_set_set k v v' d : dict_set k v (dict_set k v' d) = dict_set k v d.
Proof.
  induction d as [|[k0 v0] d IH]; cbn; [by rewrite String.eqb_refl|].
  destruct (String.eqb_spec k k0) as [->|Hn]; cbn; [by rewrite String.eqb_refl|].
  apply String.eqb_neq in Hn. by rewrite Hn, IH.
Qed.

Lemma dict_set_elem k v d x : x ∈ dict_set k v d -> x = (k, v) \/ x ∈ d.
Proof.
  induction d as [|[k' v'] d IH]; cbn; [rewrite elem_of_cons; naive_solver|].
  destruct (String.eqb_spec k k') as [->|]; rewrite !elem_of_cons; naive_solver.
Qed.

Lemma dict_pop_elem k d x : x ∈ dict_pop k d -> x ∈ d.
Proof.
  induction d as [|[k' v'] d IH]; cbn; [done|].
  destruct (String.eqb k k'); rewrite !elem_of_cons; naive_solver.
Qed.
End dict.
Abbreviation pydict V := (list (string * V)).

(** ** Automation *)

(** Case analysis on the guards of a translated handler. *)
Ltac guards :=
  repeat match goal with
  | H : context [if ?b then _ else _] |- _ => destruct b eqn:?; simplify_eq
  | |- context [if ?b then _ else _] => destruct b eqn:?; simplify_eq
  | H : context [match ?o with Some _ => _ | None => _ end] |- _ =>
      destruct o eqn:?; simplify_eq
  | |- context [match ?o with Some _ => _ | None => _ end] =>
      destruct o eqn:?; simplify_eq
  end.

(** Boolean tests as propositions. *)
Ltac reflect_bools :=
  repeat match goal with
  | H : andb _ _ = true |- _ => apply andb_true_iff in H as [? ?]
  | H : orb _ _ = false |- _ => apply orb_false_iff in H as [? ?]
  | H : negb _ = true |- _ => apply negb_true_iff in H
  | H : negb _ = false |- _ => apply negb_false_iff in H
  | H : String.eqb _ _ = true |- _ => apply String.eqb_eq in H
  | H : String.eqb _ _ = false |- _ => apply String.eqb_neq in H
  | H : (_ =? _)%Z = true |- _ => apply Z.eqb_eq in H
  | H : (_ =? _)%Z = false |- _ => apply Z.eqb_neq in H
  | H : (_ <=? _)%Z = true |- _ => apply Z.leb_le in H
  | H : (_ <=? _)%Z = false |- _ => apply Z.leb_gt in H
  | H : (_ <? _)%Z = true |- _ => apply Z.ltb_lt in H
  | H : (_ <? _)%Z = false |- _ => apply Z.ltb_ge in H
  end.
