(* ===== verification/PyFloat.v ===== *)
(** * Python numbers

    Python's [float] as an interface [PyFloat] with two implementations:

    - [binary64], on the specification of IEEE 754 arithmetic of the Standard
      Library ([SpecFloat] at precision 53, maximal exponent 1024): rounding,
      signed zeros, infinities and NaN as CPython has them;
    - [exact], on the rationals: the same program with every rounding removed,
      in which the algebra of the ledgers holds on the nose.

    The models are written once over the interface. A theorem over every
    [PyFloat] with the laws [PyFloatLaws] (both implementations satisfy them)
    holds of the program that runs; a theorem at [exact] states what the
    arithmetic computes before rounding, and says so.

    [round(x, n)], [int(x)] and decimal literals are correctly rounded with ties
    to even, as CPython's are. *)

From S2P Require Import Prelude.
From Stdlib Require Import Floats.SpecFloat.
From Stdlib Require Export QArith.QArith Lqa QArith.Qabs QArith.Qminmax.
#[global] Open Scope Z_scope.

Class PyFloat (F : Type) := {
  nadd : F -> F -> F;
  nsub : F -> F -> F;
  nmul : F -> F -> F;
  ndiv : F -> F -> F;      (** the divisor is non-zero where the code divides *)
  nopp : F -> F;
  nabs : F -> F;
  nltb : F -> F -> bool;
  nleb : F -> F -> bool;
  neqb : F -> F -> bool;
  nlit : Z -> positive -> F;   (** the literal [p / q], correctly rounded *)
  nround : nat -> F -> F;      (** [round(x, n)] *)
  ntrunc : F -> Z;             (** [int(x)] of a finite [x] *)
  nfinite : F -> bool          (** neither infinite nor NaN *)
}.

Declare Scope py_scope.
Delimit Scope py_scope with py.
Bind Scope py_scope with PyFloat.
Infix "+" := nadd : py_scope.
Infix "-" := nsub : py_scope.
Infix "*" := nmul : py_scope.
Infix "/" := ndiv : py_scope.
Infix "<?" := nltb : py_scope.
Infix "<=?" := nleb : py_scope.
Infix "=?" := neqb : py_scope.
Notation "x >? y" := (nltb y x) : py_scope.
Notation "x >=? y" := (nleb y x) : py_scope.
Notation "- x" := (nopp x) : py_scope.

Section operations.
Context {F : Type} `{PyFloat F}.

(** [float(n)] of an int. *)
Definition nofZ (z : Z) : F := nlit z 1.
Definition nzero : F := nlit 0 1.
Definition n_one : F := nlit 1 1.

(** [min(x, y)] and [max(x, y)]: the first argument wins a tie. *)
Definition nmin (x y : F) : F := if (y <? x)%py then y else x.
Definition nmax (x y : F) : F := if (y >? x)%py then y else x.

(** [bool(x)] of a float: NaN is true. *)
Definition ntrue (x : F) : bool := negb (x =? nzero)%py.
(** [x or d] on floats. *)
Definition nor (x d : F) : F := if ntrue x then x else d.
(** [sum(l)], from the int 0, as CPython 3.11 adds: left to right. *)
Definition nsum (l : list F) : F := foldl nadd nzero l.
(** [timedelta.total_seconds()] of a number of microseconds. *)
Definition total_seconds (us : Z) : F := nlit us 1000000.
End operations.

(** The scalar values a JSON payload or a metrics dict holds. *)
Inductive pyval (F : Type) : Type :=
| PNone
| PBool (b : bool)
| PInt (z : Z)
| PFloat (x : F).
Arguments PNone {F}.
Arguments PBool {F} b.
Arguments PInt {F} z.
Arguments PFloat {F} x.

(** A JSON document. *)
Inductive json (F : Type) : Type :=
| JVal (v : pyval F)
| JStr (s : string)
| JList (l : list (json F))
| JDict (d : list (string * json F)).
Arguments JVal {F} v.
Arguments JStr {F} s.
Arguments JList {F} l.
Arguments JDict {F} d.

(** A formatted message: an f-string whose interpolated strings and ints are
    already in the text, and whose interpolated floats and JSON values keep their
    format. *)
Inductive fpart (F : Type) : Type :=
| Lit (s : string)
| Fmt (spec : string) (x : F)
| Val (v : pyval F).
Arguments Lit {F} s.
Arguments Fmt {F} spec x.
Arguments Val {F} v.
Abbreviation fstr F := (list (fpart F)).
Definition lit {F} (s : string) : fstr F := [Lit s].

Section values.
Context {F : Type} `{PyFloat F}.
(** [d.get(key)] *)
Definition py_get (d : gmap string (pyval F)) (key : string) : pyval F :=
  default PNone (d !! key).
(** [float(v)] of a value that is not None. *)
Definition py_float (v : pyval F) : option F :=
  match v with
  | PNone => None
  | PBool b => Some (nofZ (if b then 1 else 0))
  | PInt z => Some (nofZ z)
  | PFloat x => Some x
  end.
(** [bool(v)] *)
Definition py_true (v : pyval F) : bool :=
  match v with
  | PNone => false
  | PBool b => b
  | PInt z => negb (Z.eqb z 0)
  | PFloat x => ntrue x
  end.
Definition py_opt (o : option F) : pyval F :=
  match o with Some x => PFloat x | None => PNone end.
End values.

(** ** Round half to even of a fraction *)

Definition round_half_even (n d : Z) : Z :=
  let q := n / d in
  match (2 * (n mod d) ?= d)%Z with
  | Lt => q
  | Gt => q + 1
  | Eq => if Z.even q then q else q + 1
  end.

Lemma round_half_even_bounds n d :
  0 < d -> n / d <= round_half_even n d <= n / d + 1.
Proof.
  intros Hd. unfold round_half_even.
  destruct (2 * (n mod d) ?= d); [destruct (Z.even (n / d))|..]; lia.
Qed.

Lemma round_half_even_nonneg n d :
  0 < d -> 0 <= n -> 0 <= round_half_even n d.
Proof.
  intros Hd Hn. pose proof (round_half_even_bounds n d Hd).
  pose proof (Z.div_pos n d). lia.
Qed.

Lemma round_half_even_exact q d : 0 < d -> round_half_even (q * d) d = q.
Proof.
  intros Hd. unfold round_half_even. rewrite Z.div_mul, Z.mod_mul by lia. cbn -[Z.even].
  by destruct d.
Qed.

(** Rounding is within half a unit, and exact halves go to even. *)
Lemma round_half_even_half n d :
  0 < d -> 2 * Z.abs (n - round_half_even n d * d) <= d.
Proof.
  intros Hd. unfold round_half_even.
  pose proof (Z.div_mod n d ltac:(lia)) as En. pose proof (Z.mod_pos_bound n d Hd).
  assert (n - n / d * d = n mod d) as E0 by lia.
  assert (n - (n / d + 1) * d = n mod d - d) as E1 by lia.
  clear En. destruct (2 * (n mod d) ?= d) eqn:E;
    rewrite ?Z.compare_eq_iff, ?Z.compare_lt_iff, ?Z.compare_gt_iff in E;
    [destruct (Z.even (n / d))|..]; rewrite ?E0, ?E1; lia.
Qed.

Lemma round_half_even_mono n m d :
  0 < d -> n <= m -> round_half_even n d <= round_half_even m d.
Proof.
  intros Hd Hnm.
  destruct (Z.eq_dec (n / d) (m / d)) as [E|E].
  - assert (n mod d <= m mod d) by (rewrite !Z.mod_eq, E by lia; lia).
    unfold round_half_even. rewrite E.
    destruct (2 * (n mod d) ?= d) eqn:E1, (2 * (m mod d) ?= d) eqn:E2;
      rewrite ?Z.compare_eq_iff, ?Z.compare_lt_iff, ?Z.compare_gt_iff in *;
      destruct (Z.even (m / d)); lia.
  - pose proof (Z.div_le_mono n m d Hd Hnm).
    pose proof (round_half_even_bounds n d Hd).
    pose proof (round_half_even_bounds m d Hd). lia.
Qed.

Lemma round_half_even_scale n d c :
  0 < d -> 0 < c -> round_half_even (n * c) (d * c) = round_half_even n d.
Proof.
  intros Hd Hc. unfold round_half_even.
  rewrite Z.div_mul_cancel_r, Z.mul_mod_distr_r by lia.
  replace (2 * (n mod d * c) ?= d * c) with (2 * (n mod d) ?= d); [done|].
  rewrite Z.mul_assoc. destruct (Z.compare_spec (2 * (n mod d)) d) as [E|E|E]; symmetry.
  - apply Z.compare_eq_iff. by rewrite E.
  - apply Z.compare_lt_iff. by apply Z.mul_lt_mono_pos_r.
  - apply Z.compare_gt_iff. by apply Z.mul_lt_mono_pos_r.
Qed.

(** ** binary64 *)

Module B64.
Definition prec : Z := 53.
Definition emax : Z := 1024.

(** [n / d] correctly rounded, with the sign [s] of the result given: the
    division of IEEE 754 before its operands are rounded. *)
Definition of_frac (s : bool) (n : Z) (d : positive) : spec_float :=
  match n with
  | Zpos p =>
      let '(mz, ez, lz) := SFdiv_core_binary prec emax (Zpos p) 0 (Zpos d) 0 in
      binary_round_aux prec emax s mz ez lz
  | _ => S754_zero s
  end.

Definition lit (n : Z) (d : positive) : spec_float :=
  of_frac (n <? 0) (Z.abs n) d.

(** [round(x, k)]: the decimal nearest to the exact value of [x], ties to
    even, then the float nearest to that decimal. *)
Definition round (k : nat) (x : spec_float) : spec_float :=
  match x with
  | S754_finite s m e =>
      if 0 <=? e then x
      else
        let ten := Z.pow 10 (Z.of_nat k) in
        of_frac s (round_half_even (Zpos m * ten) (Z.pow 2 (- e))) (Z.to_pos ten)
  | _ => x
  end.

Definition trunc (x : spec_float) : Z :=
  match x with
  | S754_finite s m e =>
      cond_Zopp s (if 0 <=? e then Z.shiftl (Zpos m) e else Z.shiftr (Zpos m) (- e))
  | _ => 0
  end.

(** Neither infinite nor NaN, and in the format. *)
Definition finite (x : spec_float) : bool :=
  match x with
  | S754_zero _ => true
  | S754_finite _ m e => bounded prec emax m e
  | _ => false
  end.
End B64.

#[export] Instance binary64 : PyFloat spec_float := {|
  nadd := SFadd B64.prec B64.emax;
  nsub := SFsub B64.prec B64.emax;
  nmul := SFmul B64.prec B64.emax;
  ndiv := SFdiv B64.prec B64.emax;
  nopp := SFopp;
  nabs := SFabs;
  nltb := SFltb;
  nleb := SFleb;
  neqb := SFeqb;
  nlit := B64.lit;
  nround := B64.round;
  ntrunc := B64.trunc;
  nfinite := B64.finite
|}.

(** ** Exact arithmetic *)

Module Exact.
Definition round (k : nat) (x : Q) : Q :=
  let ten := Z.pow 10 (Z.of_nat k) in
  round_half_even (Qnum x * ten) (Zpos (Qden x)) # Z.to_pos ten.
Definition trunc (x : Q) : Z := Z.quot (Qnum x) (Zpos (Qden x)).
Definition ltb (x y : Q) : bool := negb (Qle_bool y x).
End Exact.

#[export] Instance exact : PyFloat Q := {|
  nadd := Qplus;
  nsub := Qminus;
  nmul := Qmult;
  ndiv := Qdiv;
  nopp := Qopp;
  nabs := Qabs;
  nltb := Exact.ltb;
  nleb := Qle_bool;
  neqb := Qeq_bool;
  nlit := Qmake;
  nround := Exact.round;
  ntrunc := Exact.trunc;
  nfinite := fun _ => true
|}.

(** ** What both arithmetics satisfy *)

Section laws.
Context {F : Type} `{PyFloat F}.
(** [x == x], false of NaN only. *)
Definition nord (x : F) : bool := (x =? x)%py.
End laws.

Class PyFloatLaws (F : Type) `{PyFloat F} : Prop := {
  nltb_trans (x y z : F) : nltb x y = true -> nltb y z = true -> nltb x z = true;
  nleb_trans (x y z : F) : nleb x y = true -> nleb y z = true -> nleb x z = true;
  nltb_nleb (x y : F) : nltb x y = true -> nleb x y = true;
  nleb_nltb (x y : F) : nleb x y = true -> nltb y x = false;
  nord_total (x y : F) : nord x = true -> nord y = true -> nltb x y = false -> nleb y x = true;
  neqb_nleb (x y : F) : neqb x y = nleb x y && nleb y x;
  nleb_nord (x y : F) : nleb x y = true -> nord x = true /\ nord y = true;
  nfinite_nord (x : F) : nfinite x = true -> nord x = true;
  nord_nlit (n : Z) (d : positive) : nord (nlit n d) = true;
  nlit_nonneg (n : Z) (d : positive) : 0 <= n -> nleb nzero (nlit n d) = true;
  nabs_nonneg (x : F) : nord x = true -> nleb nzero (nabs x) = true;
  nsub_nonneg (x y : F) :
    nfinite x = true -> nfinite y = true -> nleb y x = true -> nleb nzero (nsub x y) = true;
  nadd_nonneg (x y : F) :
    nleb nzero x = true -> nleb nzero y = true -> nleb nzero (nadd x y) = true;
  nsub_self (x : F) : nltb nzero (nsub x x) = false;
  (** If [x - x] is not zero, then [x] is NaN or infinite. *)
  nsub_stuck (x y : F) : nltb x nzero = false -> nleb (nsub x x) nzero = false ->
    nltb y x = false -> nltb nzero (nsub y x) = false
}.

(** *** binary64: comparison is lexicographic on (class, exponent, mantissa) *)

Module B64Laws.
Definition key (x : spec_float) : Z * Z * Z :=
  match x with
  | S754_infinity true => (-2, 0, 0)
  | S754_finite true m e => (-1, - e, Zneg m)
  | S754_zero _ | S754_nan => (0, 0, 0)
  | S754_finite false m e => (1, e, Zpos m)
  | S754_infinity false => (2, 0, 0)
  end.
Definition key_lt (p q : Z * Z * Z) : Prop :=
  let '(a, b, c) := p in let '(a', b', c') := q in
  a < a' \/ (a = a' /\ (b < b' \/ (b = b' /\ c < c'))).

Lemma compare_key x y :
  match SFcompare x y with
  | Some Lt => x <> S754_nan /\ y <> S754_nan /\ key_lt (key x) (key y)
  | Some Gt => x <> S754_nan /\ y <> S754_nan /\ key_lt (key y) (key x)
  | Some Eq => x <> S754_nan /\ y <> S754_nan /\ key x = key y
  | None => x = S754_nan \/ y = S754_nan
  end.
Proof.
  destruct x as [[]|[]| |[] mx ex], y as [[]|[]| |[] my ey]; cbn;
    try (repeat split; (done || lia)); try tauto.
  all: change (Pos.compare_cont Eq mx my) with (Pos.compare mx my).
  all: destruct (Z.compare_spec ex ey); destruct (Pos.compare_spec mx my);
    subst; cbn; repeat split; try done; lia.
Qed.

Lemma ltb_key x y :
  SFltb x y = true <-> x <> S754_nan /\ y <> S754_nan /\ key_lt (key x) (key y).
Proof.
  unfold SFltb. pose proof (compare_key x y).
  destruct (SFcompare x y) as [[]|]; split; try done;
    destruct (key x) as [[]], (key y) as [[]]; cbn in *; intros; simplify_eq; naive_solver lia.
Qed.

Lemma leb_key x y :
  SFleb x y = true <-> x <> S754_nan /\ y <> S754_nan /\ ~ key_lt (key y) (key x).
Proof.
  unfold SFleb. pose proof (compare_key x y).
  destruct (SFcompare x y) as [[]|]; split; try done;
    destruct (key x) as [[]], (key y) as [[]]; cbn in *; intros; simplify_eq; naive_solver lia.
Qed.

Lemma eqb_leb x y : SFeqb x y = SFleb x y && SFleb y x.
Proof.
  apply eq_true_iff_eq. rewrite andb_true_iff, !leb_key.
  unfold SFeqb. pose proof (compare_key x y).
  destruct (SFcompare x y) as [[]|]; split; try done;
    destruct (key x) as [[]], (key y) as [[]]; cbn in *; intros; simplify_eq; naive_solver lia.
Qed.

Lemma ord_iff x : SFeqb x x = true <-> x <> S754_nan.
Proof.
  rewrite eqb_leb, andb_true_iff, !leb_key. destruct (key x) as [[]]; cbn. naive_solver lia.
Qed.

(** The sign of a rounded result is the sign it is given. *)
Definition of_sign (s : bool) (x : spec_float) : Prop :=
  match x with
  | S754_zero s' | S754_infinity s' | S754_finite s' _ _ => s' = s
  | S754_nan => False
  end.

Lemma shr_1_nonneg r : 0 <= shr_m r -> 0 <= shr_m (shr_1 r).
Proof. destruct r as [[|[]|[]] ? ?]; cbn; lia. Qed.

Lemma iter_pos_inv {A} (P : A -> Prop) (f : A -> A) (n : positive) (x : A) :
  (forall y, P y -> P (f y)) -> P x -> P (SpecFloat.iter_pos f n x).
Proof. intros Hf. revert x. induction n; cbn; auto. Qed.

Lemma shr_fexp_nonneg p ex m e l : 0 <= m -> 0 <= shr_m (fst (shr_fexp p ex m e l)).
Proof.
  intros Hm. unfold shr_fexp, shr.
  assert (0 <= shr_m (shr_record_of_loc m l)) by (destruct l as [|[]]; done).
  destruct (_ - e); cbn; try done.
  by apply (iter_pos_inv (fun r => 0 <= shr_m r)); auto using shr_1_nonneg.
Qed.

Lemma round_aux_sign s m e l :
  0 <= m -> of_sign s (binary_round_aux B64.prec B64.emax s m e l).
Proof.
  intros Hm. unfold binary_round_aux.
  pose proof (shr_fexp_nonneg B64.prec B64.emax m e l Hm) as H1.
  destruct (shr_fexp _ _ m e l) as [r1 e1]; cbn in H1.
  assert (0 <= round_nearest_even (shr_m r1) (loc_of_shr_record r1)) as H2.
  { unfold round_nearest_even. destruct (loc_of_shr_record r1) as [|[]]; try lia.
    destruct (Z.even _); lia. }
  pose proof (shr_fexp_nonneg B64.prec B64.emax _ e1 loc_Exact H2) as H3.
  destruct (shr_fexp _ _ _ e1 loc_Exact) as [r2 e2]; cbn in H3.
  destruct (shr_m r2); [done| |lia]. by destruct (e2 <=? _).
Qed.

Lemma round_sign s m e : of_sign s (binary_round B64.prec B64.emax s m e).
Proof. unfold binary_round. destruct (shl_align _ _ _). by apply round_aux_sign. Qed.

Lemma of_frac_sign s n d : of_sign s (B64.of_frac s n d).
Proof.
  unfold B64.of_frac. destruct n as [|p|p]; [done| |done].
  destruct (SFdiv_core_binary _ _ _ _ _ _) as [[mz ez] lz] eqn:E.
  apply round_aux_sign. revert E. unfold SFdiv_core_binary.
  match goal with |- context [Z.div_eucl ?a ?b] => set (n' := a) end.
  assert (0 <= n') as Hn.
  { subst n'. destruct (_ - _); [lia| |lia]. by apply Z.shiftl_nonneg. }
  pose proof (Z.div_pos n' (Zpos d) ltac:(lia) ltac:(lia)) as Hq.
  unfold Z.div in Hq. destruct (Z.div_eucl n' (Zpos d)) as [q r]. by intros [= <- <- <-].
Qed.

Lemma of_sign_nonneg x : of_sign false x -> SFleb (B64.lit 0 1) x = true.
Proof.
  change (B64.lit 0 1) with (S754_zero false). rewrite leb_key.
  destruct x as [[]|[]| |[]]; cbn; intros; simplify_eq; (repeat split; (done || lia)).
Qed.

Lemma nonneg_cases x :
  SFleb (B64.lit 0 1) x = true -> of_sign false x \/ x = S754_zero true.
Proof.
  change (B64.lit 0 1) with (S754_zero false). rewrite leb_key.
  destruct x as [[]|[]| |[]]; cbn; naive_solver lia.
Qed.

Lemma digits_bounds m : 2 ^ (Zpos (digits2_pos m) - 1) <= Zpos m < 2 ^ Zpos (digits2_pos m).
Proof.
  assert (forall d p, 2 ^ (Zpos d - 1) <= Zpos p < 2 ^ Zpos d ->
            2 ^ (Zpos (Pos.succ d) - 1) <= 2 * Zpos p /\ 2 * Zpos p + 1 < 2 ^ Zpos (Pos.succ d)) as Hs.
  { intros d p [Hl Hu]. rewrite Pos2Z.inj_succ, Z.pow_succ_r by lia.
    replace (Z.succ (Zpos d) - 1) with (Z.succ (Zpos d - 1)) by lia.
    rewrite Z.pow_succ_r by lia. lia. }
  induction m as [m IH|m IH|]; cbn [digits2_pos]; [| |done];
    apply Hs in IH; lia.
Qed.

Lemma shl_align_spec m e e' : e' <= e ->
  Zpos (fst (shl_align m e e')) = Zpos m * 2 ^ (e - e').
Proof.
  intros Hle. unfold shl_align. destruct (e' - e) as [|p|p] eqn:E; cbn.
  - replace (e - e') with 0 by lia. lia.
  - lia.
  - replace (e - e') with (Zpos p) by lia. clear E Hle.
    induction p as [|p IH] using Pos.peano_ind; [cbn; lia|].
    rewrite Pos.iter_succ, Pos2Z.inj_succ, Z.pow_succ_r by lia.
    rewrite Pos2Z.inj_xO, IH. lia.
Qed.

Lemma bounded_le mx ex my ey ez :
  bounded B64.prec B64.emax mx ex = true -> bounded B64.prec B64.emax my ey = true ->
  ez = Z.min ex ey ->
  ey < ex \/ (ex = ey /\ Zpos my <= Zpos mx) ->
  Zpos my * 2 ^ (ey - ez) <= Zpos mx * 2 ^ (ex - ez).
Proof.
  unfold bounded, canonical_mantissa, fexp, emin, B64.prec, B64.emax.
  rewrite !andb_true_iff, !Z.eqb_eq. intros [Hx _] [Hy _] -> [Hlt|[-> Hle]].
  - rewrite Z.min_r, Z.sub_diag by lia.
    pose proof (digits_bounds mx). pose proof (digits_bounds my).
    assert (Zpos (digits2_pos mx) = 53) as Ex by lia. rewrite Ex in *.
    assert (2 ^ Zpos (digits2_pos my) <= 2 ^ 53) by (apply Z.pow_le_mono_r; lia).
    assert (2 ^ 1 <= 2 ^ (ex - ey)) by (apply Z.pow_le_mono_r; lia).
    change (2 ^ (53 - 1)) with (2 ^ 52) in *. nia.
  - rewrite Z.min_id, Z.sub_diag. lia.
Qed.

Lemma sub_nonneg x y :
  B64.finite x = true -> B64.finite y = true -> SFleb y x = true ->
  SFleb (B64.lit 0 1) (SFsub B64.prec B64.emax x y) = true.
Proof.
  intros Hx Hy Hle. apply leb_key in Hle as (_ & _ & Hle).
  destruct x as [sx|[]| |sx mx ex], y as [sy|[]| |sy my ey]; try done;
    [by destruct sx, sy|apply of_sign_nonneg; destruct sy; cbn in *; try done; lia
    |apply of_sign_nonneg; destruct sx; cbn in *; try done; lia|].
  cbn [SFsub]. set (ez := Z.min ex ey). unfold B64.finite in *.
  rewrite !shl_align_spec by lia.
  assert (0 <= cond_Zopp sx (Zpos mx * 2 ^ (ex - ez)) - cond_Zopp sy (Zpos my * 2 ^ (ey - ez))) as H0.
  { pose proof (bounded_le mx ex my ey ez Hx Hy eq_refl).
    pose proof (bounded_le my ey mx ex ez Hy Hx ltac:(lia)).
    assert (0 < 2 ^ (ex - ez)) by (apply Z.pow_pos_nonneg; lia).
    assert (0 < 2 ^ (ey - ez)) by (apply Z.pow_pos_nonneg; lia).
    destruct sx, sy; cbn in Hle |- *; try lia; nia. }
  destruct (_ - _) as [|p|p]; [done| |lia]. apply of_sign_nonneg.
  apply round_sign.
Qed.

Lemma add_nonneg x y :
  SFleb (B64.lit 0 1) x = true -> SFleb (B64.lit 0 1) y = true ->
  SFleb (B64.lit 0 1) (SFadd B64.prec B64.emax x y) = true.
Proof.
  intros Hx%nonneg_cases Hy%nonneg_cases.
  assert (of_sign false x -> of_sign false y -> of_sign false (SFadd B64.prec B64.emax x y)) as Hpos.
  { destruct x as [[]|[]| |[] mx ex], y as [[]|[]| |[] my ey]; try done.
    intros _ _. cbn [SFadd cond_Zopp binary_normalize Z.add]. apply round_sign. }
  destruct Hx as [Hx| ->], Hy as [Hy| ->]; [by apply of_sign_nonneg, Hpos| | |done].
  - destruct x as [[]|[]| |[]]; try done; by apply of_sign_nonneg.
  - destruct y as [[]|[]| |[]]; try done; by apply of_sign_nonneg.
Qed.

Lemma sub_self x : SFsub B64.prec B64.emax x x = S754_nan \/
  exists s, SFsub B64.prec B64.emax x x = S754_zero s.
Proof.
  destruct x as [[]|[]| |s m e]; [right; by eexists..|by left|by left|by left|].
  right. cbn [SFsub]. rewrite Z.sub_diag. by eexists.
Qed.

Lemma sub_stuck x y : SFltb x (B64.lit 0 1) = false ->
  SFleb (SFsub B64.prec B64.emax x x) (B64.lit 0 1) = false -> SFltb y x = false ->
  SFltb (B64.lit 0 1) (SFsub B64.prec B64.emax y x) = false.
Proof.
  destruct (sub_self x) as [E|[s E]]; rewrite E; [|by destruct s].
  intros Hx _ Hy. destruct x as [[]|[]| |sx m e]; try done.
  - by destruct y as [[]|[]| |[]].
  - by destruct y as [[]|[]| |[]].
  - cbn [SFsub] in E. rewrite Z.sub_diag in E. done.
Qed.

Lemma abs_nonneg x : SFeqb x x = true -> SFleb (B64.lit 0 1) (SFabs x) = true.
Proof. intros H%ord_iff. apply of_sign_nonneg. by destruct x. Qed.
End B64Laws.

#[export] Instance binary64_laws : PyFloatLaws spec_float.
Proof.
  constructor; cbn [nltb nleb neqb nlit nabs nsub nadd nfinite binary64]; unfold nord, nzero;
    cbn [neqb nlit binary64].
  - intros x y z. rewrite !B64Laws.ltb_key.
    destruct (B64Laws.key x) as [[]], (B64Laws.key y) as [[]], (B64Laws.key z) as [[]]; cbn.
    intuition (try done); lia.
  - intros x y z. rewrite !B64Laws.leb_key.
    destruct (B64Laws.key x) as [[]], (B64Laws.key y) as [[]], (B64Laws.key z) as [[]]; cbn.
    intuition (try done); lia.
  - intros x y. rewrite B64Laws.ltb_key, B64Laws.leb_key.
    destruct (B64Laws.key x) as [[]], (B64Laws.key y) as [[]]; cbn. intuition (try done); lia.
  - intros x y. rewrite <- not_true_iff_false, B64Laws.ltb_key, B64Laws.leb_key. tauto.
  - intros x y. rewrite !B64Laws.ord_iff, <- not_true_iff_false, B64Laws.ltb_key, B64Laws.leb_key.
    tauto.
  - apply B64Laws.eqb_leb.
  - intros x y. rewrite B64Laws.leb_key, !B64Laws.ord_iff. tauto.
  - intros x. rewrite B64Laws.ord_iff. by destruct x.
  - intros n d. rewrite B64Laws.ord_iff. unfold B64.lit.
    pose proof (B64Laws.of_frac_sign (n <? 0) (Z.abs n) d). by destruct (B64.of_frac _ _ _).
  - intros n d Hn. apply B64Laws.of_sign_nonneg. unfold B64.lit.
    replace (n <? 0)%Z with false by (symmetry; by apply Z.ltb_ge). apply B64Laws.of_frac_sign.
  - apply B64Laws.abs_nonneg.
  - apply B64Laws.sub_nonneg.
  - apply B64Laws.add_nonneg.
  - intros x. destruct (B64Laws.sub_self x) as [E|[[] E]]; by rewrite E.
  - apply B64Laws.sub_stuck.
Qed.

(** *** Exact arithmetic *)

Lemma Q_ltb_lt x y : Exact.ltb x y = true <-> (x < y)%Q.
Proof.
  unfold Exact.ltb. rewrite negb_true_iff, <- not_true_iff_false, Qle_bool_iff. split; lra.
Qed.
Lemma Q_ltb_ge x y : Exact.ltb x y = false <-> (y <= x)%Q.
Proof. rewrite <- not_true_iff_false, Q_ltb_lt. split; lra. Qed.

#[export] Instance exact_laws : PyFloatLaws Q.
Proof.
  constructor; cbn [nltb nleb neqb nlit nabs nsub nadd nfinite exact]; unfold nord, nzero;
    cbn [neqb nlit exact]; intros *;
    rewrite ?Q_ltb_lt, ?Q_ltb_ge, ?Qle_bool_iff, ?Qeq_bool_iff; try lra; try done.
  - apply eq_true_iff_eq. rewrite andb_true_iff, !Qle_bool_iff, Qeq_bool_iff. lra.
  - unfold Qle. cbn. lia.
  - intros _. apply Qabs_nonneg.
  - intros _ H. exfalso. apply not_true_iff_false in H. apply H, Qle_bool_iff. lra.
Qed.

Lemma Q_nmin_spec x y : (nmin x y == Qmin x y)%Q.
Proof.
  unfold nmin. cbn. destruct (Exact.ltb y x) eqn:E;
    [apply Q_ltb_lt in E; symmetry; apply Q.min_r; lra|apply Q_ltb_ge in E; symmetry; apply Q.min_l; lra].
Qed.
Lemma Q_nmax_spec x y : (nmax x y == Qmax x y)%Q.
Proof.
  unfold nmax. cbn. destruct (Exact.ltb x y) eqn:E;
    [apply Q_ltb_lt in E; symmetry; apply Q.max_r; lra|apply Q_ltb_ge in E; symmetry; apply Q.max_l; lra].
Qed.

Lemma Q_nltb x y : (x <? y)%py = true <-> (x < y)%Q.
Proof. apply Q_ltb_lt. Qed.
Lemma Q_nltb_ge x y : (x <? y)%py = false <-> (y <= x)%Q.
Proof. apply Q_ltb_ge. Qed.
Lemma Q_nleb x y : (x <=? y)%py = true <-> (x <= y)%Q.
Proof. apply Qle_bool_iff. Qed.
Lemma Q_nleb_gt x y : (x <=? y)%py = false <-> (y < x)%Q.
Proof. rewrite <- not_true_iff_false, Q_nleb. split; lra. Qed.
Lemma Q_neqb x y : (x =? y)%py = true <-> (x == y)%Q.
Proof. apply Qeq_bool_iff. Qed.
Lemma Q_neqb_ne x y : (x =? y)%py = false <-> ~ (x == y)%Q.
Proof. by rewrite <- not_true_iff_false, Q_neqb. Qed.

(** Float tests on rationals as propositions. *)
Ltac reflect_Q :=
  repeat match goal with
  | H : nltb _ _ = true |- _ => apply Q_nltb in H
  | H : nltb _ _ = false |- _ => apply Q_nltb_ge in H
  | H : nleb _ _ = true |- _ => apply Q_nleb in H
  | H : nleb _ _ = false |- _ => apply Q_nleb_gt in H
  | H : neqb _ _ = true |- _ => apply Q_neqb in H
  | H : neqb _ _ = false |- _ => apply Q_neqb_ne in H
  | H : (_ && _) = true |- _ => apply andb_true_iff in H as [? ?]
  | H : (_ || _) = false |- _ => apply orb_false_iff in H as [? ?]
  end.

(** Half a unit of the [k]-th decimal. *)
Definition half_ulp (k : nat) : Q := 1 # (2 * Z.to_pos (10 ^ Z.of_nat k)).

(** [round(x, k)] is within half a unit of the last decimal, and monotone. *)
Lemma Q_round_close k x :
  (x - half_ulp k <= nround k x)%Q /\ (nround k x <= x + half_ulp k)%Q.
Proof.
  cbn [nround exact]. unfold Exact.round, half_ulp.
  assert (0 < 10 ^ Z.of_nat k) as Ht by (apply Z.pow_pos_nonneg; lia).
  set (t := 10 ^ Z.of_nat k) in *. destruct x as [n d]. cbn [Qnum Qden].
  pose proof (round_half_even_half (n * t) (Zpos d) ltac:(lia)) as Hr.
  set (r := round_half_even (n * t) (Zpos d)) in *.
  assert (Zpos (Z.to_pos t) = t) as Et by (apply Z2Pos.id; lia).
  unfold Qle, Qplus, Qminus, Qopp, Qplus. cbn [Qnum Qden].
  rewrite !Pos2Z.inj_mul, Et. split; nia.
Qed.

Lemma Q_round_mono k x y : (x <= y)%Q -> (nround k x <= nround k y)%Q.
Proof.
  cbn [nround exact]. unfold Exact.round, Qle. destruct x as [n d], y as [m e]. cbn [Qnum Qden].
  intros H. assert (0 < 10 ^ Z.of_nat k) as Ht by (apply Z.pow_pos_nonneg; lia).
  set (t := 10 ^ Z.of_nat k) in *. apply Z.mul_le_mono_nonneg_r; [lia|].
  rewrite <- (round_half_even_scale (n * t) (Zpos d) (Zpos e)) by lia.
  rewrite <- (round_half_even_scale (m * t) (Zpos e) (Zpos d)) by lia.
  rewrite (Z.mul_comm (Zpos e) (Zpos d)). apply round_half_even_mono; nia.
Qed.

(** The classical doubles: as CPython answers. *)
Example b64_point_one : nlit 1 10 = S754_finite false 7205759403792794 (-56).
Proof. reflexivity. Qed.
Example b64_sum : SFeqb (nadd (nlit 1 10) (nlit 2 10)) (nlit 3 10) = false.
Proof. vm_compute. reflexivity. Qed.
Example b64_round_tie : nround 2 (nlit 2675 1000) = nlit 267 100 :> spec_float.
Proof. vm_compute. reflexivity. Qed.
