(* ===== verification/Routing.v ===== *)
(** * Lifecycle routing: which broker, if any, an order may reach

    Models [libs/lifecycle/src/lifecycle/routing.py]: the pure decision from a
    sleeve's state, the operator's live switch, the order's intent and the
    entry halt to one of four routes, and the guard at the adapter boundary. *)

From S2P Require Import Prelude.

(** The sleeve states are strings in the database and in the code; the
    constants of [store.STATES]. *)
Module St.
Definition candidate := "candidate".
Definition paper := "paper".
Definition live := "live".
Definition probation := "probation".
Definition retired := "retired".
End St.

Inductive OrderIntent := ENTRY | REDUCE_ONLY.
Inductive ExecutionRoute := BLOCKED | SHADOW | SIMULATED | LIVE.
#[export] Instance OrderIntent_eq : EqDecision OrderIntent.
Proof. solve_decision. Defined.
#[export] Instance ExecutionRoute_eq : EqDecision ExecutionRoute.
Proof. solve_decision. Defined.

(** [route.value] *)
Definition route_value (r : ExecutionRoute) : string :=
  match r with
  | BLOCKED => "blocked" | SHADOW => "shadow" | SIMULATED => "simulated" | LIVE => "live"
  end.

Definition NON_LIVE_ROUTES : list ExecutionRoute := [BLOCKED; SHADOW; SIMULATED].

Definition POSITION_NONE := "none".
Definition POSITION_SIMULATED := "simulated".
Definition POSITION_LIVE := "live".

Record RouteDecision := { route : ExecutionRoute; reason : string }.

Definition places_order (d : RouteDecision) : bool :=
  match route d with SIMULATED | LIVE => true | _ => false end.
Definition is_live (d : RouteDecision) : bool :=
  match route d with LIVE => true | _ => false end.

Definition _position_route (position_environment : string) : ExecutionRoute :=
  if String.eqb position_environment POSITION_LIVE then LIVE
  else if String.eqb position_environment POSITION_SIMULATED then SIMULATED
  else SHADOW.

Definition resolve_route (state : string) (intent : OrderIntent) (live_mode_enabled : bool)
    (position_environment : string) (entries_halted : bool) (halt_reason : string)
    (origin : string) : RouteDecision :=
  let reducing := match intent with REDUCE_ONLY => true | ENTRY => false end in
  let live_mode_enabled :=
    if String.eqb origin "challenger" && negb reducing then false else live_mode_enabled in
  if reducing then
    let route := _position_route position_environment in
    if decide (route = SHADOW) then
      {| route := SHADOW; reason := "reduce_only_but_no_position_environment" |}
    else {| route := route; reason := "reduce_only_exit_to_" +:+ route_value route |}
  else if entries_halted then
    {| route := BLOCKED; reason := str_or halt_reason "entries_halted" |}
  else if String.eqb state "candidate" then
    {| route := SHADOW; reason := "candidate_shadow_only" |}
  else if String.eqb state "paper" then
    {| route := SIMULATED; reason := "paper_sleeve" |}
  else if String.eqb state "live" then
    if negb live_mode_enabled then
      {| route := BLOCKED; reason := "live_mode_disabled_by_operator" |}
    else {| route := LIVE; reason := "live_sleeve_live_mode_enabled" |}
  else if str_in state ["probation"; "retired"] then
    {| route := BLOCKED; reason := "sleeve_" +:+ state |}
  else {| route := BLOCKED; reason := "unknown_state_" +:+ state |}.

Inductive PermissionError := LiveAdapterRefused (route : ExecutionRoute) (adapter_name : string).

Definition assert_not_live (route : ExecutionRoute) (adapter_name : string)
    : result PermissionError unit :=
  if decide (route ∈ NON_LIVE_ROUTES) then Err (LiveAdapterRefused route adapter_name)
  else Ok tt.

(** ** The decision table

    [route_spec] is the module's contract, stated as a relation: one rule per
    way an order may go. *)

Inductive route_spec (state : string) (live_mode : bool) (position : string)
    (halted : bool) (origin : string) : OrderIntent -> ExecutionRoute -> Prop :=
| spec_exit_live : position = POSITION_LIVE ->
    route_spec state live_mode position halted origin REDUCE_ONLY LIVE
| spec_exit_simulated : position = POSITION_SIMULATED ->
    route_spec state live_mode position halted origin REDUCE_ONLY SIMULATED
| spec_exit_none : position <> POSITION_LIVE -> position <> POSITION_SIMULATED ->
    route_spec state live_mode position halted origin REDUCE_ONLY SHADOW
| spec_entry_halted : halted = true ->
    route_spec state live_mode position halted origin ENTRY BLOCKED
| spec_entry_candidate : halted = false -> state = St.candidate ->
    route_spec state live_mode position halted origin ENTRY SHADOW
| spec_entry_paper : halted = false -> state = St.paper ->
    route_spec state live_mode position halted origin ENTRY SIMULATED
| spec_entry_live : halted = false -> state = St.live -> live_mode = true ->
    origin <> "challenger" ->
    route_spec state live_mode position halted origin ENTRY LIVE
| spec_entry_live_off : halted = false -> state = St.live ->
    live_mode = false \/ origin = "challenger" ->
    route_spec state live_mode position halted origin ENTRY BLOCKED
| spec_entry_other : halted = false -> state ∉ [St.candidate; St.paper; St.live] ->
    route_spec state live_mode position halted origin ENTRY BLOCKED.

Lemma route_spec_det state live_mode position halted origin intent r r' :
  route_spec state live_mode position halted origin intent r ->
  route_spec state live_mode position halted origin intent r' -> r = r'.
Proof.
  intros H H'; destruct H; inversion H'; subst; try done; try set_solver; naive_solver.
Qed.

Lemma resolve_route_sound state intent live_mode position halted halt_reason origin :
  route_spec state live_mode position halted origin intent
    (route (resolve_route state intent live_mode position halted halt_reason origin)).
Proof.
  unfold resolve_route, _position_route. destruct intent; cbn.
  - destruct halted; [by constructor|].
    destruct (String.eqb_spec state "candidate"); [by constructor|].
    destruct (String.eqb_spec state "paper"); [by constructor|].
    destruct (String.eqb_spec state "live").
    + destruct (String.eqb_spec origin "challenger"); cbn.
      * apply spec_entry_live_off; auto.
      * destruct live_mode; cbn; [by apply spec_entry_live|apply spec_entry_live_off; auto].
    + cbn. case_match; cbn; apply spec_entry_other; set_solver.
  - destruct (String.eqb_spec position POSITION_LIVE); cbn; [by constructor|].
    destruct (String.eqb_spec position POSITION_SIMULATED); cbn; by constructor.
Qed.

(** C37. The router implements its decision table: the route
    [resolve_route] returns is exactly the one the table names, for every state,
    intent, switch, position environment, halt and origin. *)
Theorem resolve_route_refines state intent live_mode position halted halt_reason origin r :
  route (resolve_route state intent live_mode position halted halt_reason origin) = r <->
  route_spec state live_mode position halted origin intent r.
Proof.
  split.
  - intros <-. apply resolve_route_sound.
  - intros H. eapply route_spec_det; [apply resolve_route_sound|exact H].
Qed.

Lemma assert_not_live_ok d name :
  is_live d = true -> assert_not_live (route d) name = Ok tt.
Proof. destruct d as [[] ?]; cbn; try done. Qed.

Lemma assert_not_live_refuses r name :
  r <> LIVE -> assert_not_live r name = Err (LiveAdapterRefused r name).
Proof. by destruct r. Qed.
