(* ===== verification/Store.v ===== *)
(** * The lifecycle store

    Models [libs/lifecycle/src/lifecycle/store.py]: the roster and its audit
    trail, the operator's live switch, the reconciliation latch, journal health,
    and the evidence, artifact, proposal and learning tables, with the
    constraints of [migrations/0001] to [0004]. A table is a list of rows in
    insertion order with the next value of its [BIGSERIAL]; a table keyed by its
    primary key is a map. Each method is one program over the whole database;
    a [with engine.begin()] block is [txn]. Timestamps are microseconds, and
    [now] is the clock at the call. *)

From S2P Require Import Prelude PyFloat Routing.

Definition datetime := Z.
Definition seconds (n : Z) : Z := n * 1000000.

Definition DEFAULT_ACCOUNT := "default".
Definition STATES : list string := ["candidate"; "paper"; "live"; "probation"; "retired"].

Definition sleeve_key (strategy_id symbol : string) : string :=
  upper symbol +:+ ":" +:+ strategy_id.

(** [POSITION_ON_ENTRY.get(state, d)] *)
Definition POSITION_ON_ENTRY (to_state d : string) : string :=
  if String.eqb to_state "paper" then POSITION_SIMULATED
  else if String.eqb to_state "live" then POSITION_LIVE else d.

Inductive StoreError :=
| LifecycleStoreError (msg : string)
| ConcurrentTransitionError (key : string) (expected : Z)
| SleeveNotFoundError (msg : string)
| ChallengerCannotGoLiveError (key : string)
| LifecycleUnavailableError (msg : string)
| IntegrityError (constraint : string)
| KeyError (key : string)
| OtherException (msg : string).

(** A row of [lifecycle.sleeve]; [Sleeve] is the same record, built only from a
    row the database returned. *)
Record Sleeve := {
  id : Z;
  strategy_id : string;
  strategy_version : string;
  symbol : string;
  asset_class : string;
  account_id : string;
  state : string;
  version : Z;
  since : datetime;
  reason : string;
  probation_count : Z;
  position_environment : string;
  origin : string
}.

Definition key (s : Sleeve) : string := symbol s +:+ ":" +:+ strategy_id s.
Definition can_enter (s : Sleeve) : bool := str_in (state s) ["paper"; "live"].

Record Transition := {
  t_sleeve_id : Z;
  seq : Z;
  from_state : string;
  to_state : string;
  t_reason : string;
  actor : string;
  evidence_snapshot_id : option Z;
  t_created_at : datetime
}.

Record ReconciliationHalt := {
  halted : bool;
  consecutive_breaks : Z;
  first_failure_at : option datetime;
  last_ok_at : option datetime;
  last_checked_at : option datetime;
  last_error : string;
  halt_reason : string
}.

(** A row of [reconciliation_state]: the latch, and who cleared it last. *)
Record ReconRow := {
  r_halt : ReconciliationHalt;
  cleared_by : string;
  cleared_at : option datetime
}.

Record EnvRow := { live_mode : bool; updated_by : string; env_reason : string }.

Record StoreSettings := {
  s_account_id : string;
  dependency_grace_seconds : Z;
  breaks_before_halt : Z
}.

Record HealthRow := {
  h_strategy_id : string;
  h_symbol : string;
  h_environment : string;
  expected_observations : Z;
  actual_observations : Z;
  gap_count : Z;
  eligible_for_learning : bool;
  last_gap_at : option datetime;
  status : string
}.

Record Artifact (F : Type) := {
  a_id : Z;
  a_kind : string;
  a_strategy_id : string;
  a_strategy_version : string;
  a_symbol : string;
  a_asset_class : string;
  a_environment : string;
  a_account_id : string;
  a_window_start : datetime;
  a_window_end : datetime;
  a_data_version : string;
  a_model_version : string;
  a_payload : gmap string (pyval F);
  a_content_hash : string;
  a_produced_by : string;
  a_created_at : datetime
}.

Record Scope := {
  sc_strategy_id : string;
  sc_strategy_version : string;
  sc_symbol : string;
  sc_asset_class : string;
  sc_environment : string;
  sc_broker : string;
  sc_account_id : string;
  sc_portfolio_id : string;
  sc_window_start : datetime;
  sc_window_end : datetime;
  sc_data_version : string;
  sc_model_version : string
}.

(** One entry of [source_artifacts]. *)
Record SourceRef := {
  sr_id : Z;
  sr_kind : string;
  sr_content_hash : string;
  sr_created_at : datetime;
  sr_produced_by : option string
}.

Record Evidence (F : Type) := {
  e_id : Z;
  e_scope : Scope;
  e_metrics : gmap string (pyval F);
  e_source_artifacts : list SourceRef;
  e_content_hash : string;
  e_created_at : datetime
}.

(** The dict [challenger] a proposal arrives as. *)
Record ChallengerDict (F : Type) := {
  c_challenger_id : string;
  c_strategy_id : string;
  c_symbol : string;
  c_base_version : string;
  c_parameters : gmap string F;
  c_rationale : string;
  c_clamped : list string;
  c_bounds_version : string;
  c_generator : string
}.

Record Proposal (F : Type) := {
  p_id : Z;
  p_campaign_id : string;
  p_challenger : ChallengerDict F;
  p_account_id : string;
  deflated_sharpe_campaign : option F;
  deflated_sharpe_own_search : option F;
  pooled_trials : Z;
  out_of_sample_sharpe : option F;
  survived : bool;
  p_created_at : datetime
}.

(** The dict [report] of a learning cycle. The two authority entries may be
    missing, which [report.get] reads as None. *)
Record Report := {
  deployment_authority : option bool;
  promotion_authority : option bool;
  rep_content_hash : string;
  rep_campaign_id : string;
  rep_strategy_id : string;
  rep_symbol : string;
  rep_base_version : string;
  rep_status : string;
  rep_as_of : datetime
}.

Record LearningCycle := { l_id : Z; l_account_id : string; l_report : Report }.

Arguments a_id {F}. Arguments a_kind {F}. Arguments a_strategy_id {F}.
Arguments a_strategy_version {F}. Arguments a_symbol {F}. Arguments a_asset_class {F}.
Arguments a_environment {F}. Arguments a_account_id {F}. Arguments a_window_start {F}.
Arguments a_window_end {F}. Arguments a_data_version {F}. Arguments a_model_version {F}.
Arguments a_payload {F}. Arguments a_content_hash {F}. Arguments a_produced_by {F}.
Arguments a_created_at {F}. Arguments e_id {F}. Arguments e_scope {F}.
Arguments e_metrics {F}. Arguments e_source_artifacts {F}. Arguments e_content_hash {F}.
Arguments e_created_at {F}. Arguments c_challenger_id {F}. Arguments c_strategy_id {F}.
Arguments c_symbol {F}. Arguments c_base_version {F}. Arguments c_parameters {F}.
Arguments c_rationale {F}. Arguments c_clamped {F}. Arguments c_bounds_version {F}.
Arguments c_generator {F}. Arguments p_id {F}. Arguments p_campaign_id {F}.
Arguments p_challenger {F}. Arguments p_account_id {F}. Arguments p_created_at {F}.
Arguments deflated_sharpe_campaign {F}. Arguments deflated_sharpe_own_search {F}.
Arguments pooled_trials {F}. Arguments out_of_sample_sharpe {F}. Arguments survived {F}.

(** The database. *)
Record DB (F : Type) := {
  sleeve : list Sleeve;
  sleeve_next : Z;
  transition_log : list Transition;
  environment : gmap string EnvRow;
  reconciliation : gmap (string * string * string) ReconRow;
  journal_health : gmap (string * datetime * datetime) HealthRow;
  artifact : list (Artifact F);
  evidence_snapshot : list (Evidence F);
  challenger_proposal : list (Proposal F);
  learning_cycle : list LearningCycle
}.
Arguments sleeve {F}. Arguments sleeve_next {F}. Arguments transition_log {F}.
Arguments environment {F}. Arguments reconciliation {F}. Arguments journal_health {F}.
Arguments artifact {F}. Arguments evidence_snapshot {F}.
Arguments challenger_proposal {F}. Arguments learning_cycle {F}.

Section setters.
Context {F : Type}.
Implicit Types d : DB F.
Definition set_sleeves (l : list Sleeve) (next : Z) d : DB F :=
  {| sleeve := l; sleeve_next := next; transition_log := transition_log d;
     environment := environment d; reconciliation := reconciliation d;
     journal_health := journal_health d; artifact := artifact d;
     evidence_snapshot := evidence_snapshot d;
     challenger_proposal := challenger_proposal d; learning_cycle := learning_cycle d |}.
Definition set_log (l : list Transition) d : DB F :=
  {| sleeve := sleeve d; sleeve_next := sleeve_next d; transition_log := l;
     environment := environment d; reconciliation := reconciliation d;
     journal_health := journal_health d; artifact := artifact d;
     evidence_snapshot := evidence_snapshot d;
     challenger_proposal := challenger_proposal d; learning_cycle := learning_cycle d |}.
Definition set_environment m d : DB F :=
  {| sleeve := sleeve d; sleeve_next := sleeve_next d; transition_log := transition_log d;
     environment := m; reconciliation := reconciliation d;
     journal_health := journal_health d; artifact := artifact d;
     evidence_snapshot := evidence_snapshot d;
     challenger_proposal := challenger_proposal d; learning_cycle := learning_cycle d |}.
Definition set_reconciliation m d : DB F :=
  {| sleeve := sleeve d; sleeve_next := sleeve_next d; transition_log := transition_log d;
     environment := environment d; reconciliation := m;
     journal_health := journal_health d; artifact := artifact d;
     evidence_snapshot := evidence_snapshot d;
     challenger_proposal := challenger_proposal d; learning_cycle := learning_cycle d |}.
Definition set_journal_health m d : DB F :=
  {| sleeve := sleeve d; sleeve_next := sleeve_next d; transition_log := transition_log d;
     environment := environment d; reconciliation := reconciliation d;
     journal_health := m; artifact := artifact d;
     evidence_snapshot := evidence_snapshot d;
     challenger_proposal := challenger_proposal d; learning_cycle := learning_cycle d |}.
Definition set_research arts evs props cycles d : DB F :=
  {| sleeve := sleeve d; sleeve_next := sleeve_next d; transition_log := transition_log d;
     environment := environment d; reconciliation := reconciliation d;
     journal_health := journal_health d; artifact := arts; evidence_snapshot := evs;
     challenger_proposal := props; learning_cycle := cycles |}.

Definition empty_db : DB F :=
  {| sleeve := []; sleeve_next := 1; transition_log := []; environment := ∅;
     reconciliation := ∅; journal_health := ∅; artifact := []; evidence_snapshot := [];
     challenger_proposal := []; learning_cycle := [] |}.
End setters.

(** ** Reads: every one is a query *)

Section reads.
Context {F : Type} (settings : StoreSettings).
Implicit Types d : DB F.

(** [account_id or self._settings.account_id] *)
Definition account_or (account : option string) : string :=
  match account with
  | Some a => str_or a (s_account_id settings)
  | None => s_account_id settings
  end.

Definition is_sleeve (strategy symbol_ account : string) (r : Sleeve) : bool :=
  String.eqb (strategy_id r) strategy && String.eqb (symbol r) symbol_ &&
  String.eqb (account_id r) account.

Definition get (strategy symbol_ : string) (account : option string) d : option Sleeve :=
  List.find (is_sleeve strategy (upper symbol_) (account_or account)) (sleeve d).

Definition require (strategy symbol_ : string) (account : option string) d
    : result StoreError Sleeve :=
  match get strategy symbol_ account d with
  | None => Err (SleeveNotFoundError
      (upper symbol_ +:+ ":" +:+ strategy +:+ " is not registered"))
  | Some s => Ok s
  end.

Definition sleeve_leb (a b : Sleeve) : bool :=
  match String.compare (symbol a) (symbol b) with
  | Lt => true
  | Gt => false
  | Eq => match String.compare (strategy_id a) (strategy_id b) with
          | Gt => false | _ => true end
  end.
Definition all (account : option string) d : list Sleeve :=
  sort_by sleeve_leb
    (List.filter (fun r => String.eqb (account_id r) (account_or account)) (sleeve d)).

Definition live_sleeves (account : option string) d : list Sleeve :=
  List.filter (fun s => String.eqb (state s) "live") (all account d).

Definition transitions (sleeve_id : Z) (limit : nat) d : list Transition :=
  take limit (sort_by (fun a b => Z.leb (seq b) (seq a))
    (List.filter (fun t => Z.eqb (t_sleeve_id t) sleeve_id) (transition_log d))).

Definition live_mode_enabled (account : option string) d : bool :=
  match environment d !! account_or account with
  | Some row => live_mode row
  | None => false
  end.

Definition paper_challengers (symbol_ account : option string) d : list Sleeve :=
  List.filter (fun r =>
    String.eqb (origin r) "challenger" && String.eqb (state r) "paper" &&
    String.eqb (account_id r) (account_or account) &&
    match symbol_ with None => true | Some s => String.eqb (symbol r) (upper s) end)
    (sleeve d).

Definition validation_artifact (artifact_id : Z) d : option (Artifact F) :=
  List.find (fun a => Z.eqb (a_id a) artifact_id) (artifact d).

Definition evidence (snapshot_id : Z) d : option (Evidence F) :=
  List.find (fun e => Z.eqb (e_id e) snapshot_id) (evidence_snapshot d).

Definition opt_is {A} (f : A -> string) (o : option string) (a : A) : bool :=
  match o with None => true | Some s => String.eqb (f a) s end.

Definition challenger_proposals (strategy symbol_ campaign challenger account : option string)
    (limit : nat) d : list (Proposal F) :=
  take limit (sort_by (fun a b => Z.leb (p_created_at b) (p_created_at a))
    (List.filter (fun p =>
      opt_is (fun p => c_challenger_id (p_challenger p)) challenger p &&
      opt_is (fun p => c_strategy_id (p_challenger p)) strategy p &&
      opt_is (fun p => c_symbol (p_challenger p)) (option_map upper symbol_) p &&
      opt_is p_campaign_id campaign p && opt_is p_account_id account p)
      (challenger_proposal d))).

Definition learning_cycles (strategy symbol_ account : option string) (limit : nat) d
    : list LearningCycle :=
  take limit (sort_by (fun a b => Z.leb (rep_as_of (l_report b)) (rep_as_of (l_report a)))
    (List.filter (fun c =>
      String.eqb (l_account_id c) (account_or account) &&
      opt_is (fun c => rep_strategy_id (l_report c)) strategy c &&
      opt_is (fun c => rep_symbol (l_report c)) (option_map upper symbol_) c)
      (learning_cycle d))).

Definition no_halt : ReconciliationHalt :=
  {| halted := false; consecutive_breaks := 0; first_failure_at := None;
     last_ok_at := None; last_checked_at := None; last_error := ""; halt_reason := "" |}.

Definition reconciliation_state (broker env : string) (account : option string) d
    : ReconciliationHalt :=
  match reconciliation d !! (account_or account, broker, env) with
  | None => no_halt
  | Some row => r_halt row
  end.
End reads.

(** ** Writes: transactional, optimistically locked, never silently failing *)

Section writes.
Context {F : Type} (settings : StoreSettings).
Local Abbreviation M := (prog (DB F) StoreError).

Definition with_sleeve (f : Sleeve -> Sleeve) (p : Sleeve -> bool) : M unit :=
  modifies (fun d => set_sleeves (update_where p f (sleeve d)) (sleeve_next d) d).

(** [update(sleeve).where(id == i, version == v)] with its new values; the
    columns the statement does not name keep theirs. *)
Definition at_version (i v : Z) (r : Sleeve) : bool :=
  Z.eqb (id r) i && Z.eqb (version r) v.

Definition by_id (i : Z) (r : Sleeve) : bool := Z.eqb (id r) i.

(** [select(sleeve).where(id == i).first()], which [_row_to_sleeve] fails on
    when there is no row. *)
Definition row_by_id (i : Z) : M Sleeve :=
  fun d => match List.find (by_id i) (sleeve d) with
           | Some r => (Ok r, d)
           | None => (Err (OtherException "AttributeError"), d)
           end.

(** The insert into [lifecycle.transition], under its UNIQUE (sleeve_id, seq)
    and its reference to the evidence table. *)
Definition _append_transition (sleeve_id sq : Z) (from_ to_ reason_ actor_ : string)
    (evidence_id : option Z) (now : datetime) : M unit :=
  dup ← reads (fun d => existsb (fun t => Z.eqb (t_sleeve_id t) sleeve_id && Z.eqb (seq t) sq)
                          (transition_log d));
  if dup : bool then raise (IntegrityError "transition_seq_unique") else
  dangling ← reads (fun d => match evidence_id with
    | None => false
    | Some e => negb (existsb (fun x => Z.eqb (e_id x) e) (evidence_snapshot d)) end);
  if dangling : bool then raise (IntegrityError "transition_evidence_snapshot_id_fkey") else
  modifies (fun d => set_log (transition_log d ++
    [{| t_sleeve_id := sleeve_id; seq := sq; from_state := from_; to_state := to_;
        t_reason := reason_; actor := actor_; evidence_snapshot_id := evidence_id;
        t_created_at := now |}]) d).

Definition re_registered (now : datetime) (r : Sleeve) : Sleeve :=
  {| id := id r; strategy_id := strategy_id r; strategy_version := strategy_version r;
     symbol := symbol r; asset_class := asset_class r; account_id := account_id r;
     state := "candidate"; version := version r + 1; since := now;
     reason := "re-registered"; probation_count := probation_count r;
     position_environment := position_environment r; origin := origin r |}.

Definition register (strategy symbol_ : string) (strategy_version_ asset_class_ : string)
    (account : option string) (actor_ origin_ : string) (now : datetime) : M Sleeve :=
  let account := account_or settings account in
  let symbol_ := upper symbol_ in
  txn (
    existing ← reads (fun d => List.find (is_sleeve strategy symbol_ account) (sleeve d));
    match existing with
    | Some row =>
        if negb (String.eqb (state row) "retired") then mret row else
        let new_version := version row + 1 in
        _ ← with_sleeve (re_registered now) (at_version (id row) (version row));
        _ ← _append_transition (id row) new_version (state row) "candidate"
              "re-registered" actor_ None now;
        row_by_id (id row)
    | None =>
        if negb (str_in origin_ ["human"; "challenger"])
        then raise (IntegrityError "sleeve_origin_known") else
        new_id ← reads sleeve_next;
        let inserted :=
          {| id := new_id; strategy_id := strategy; strategy_version := strategy_version_;
             symbol := symbol_; asset_class := asset_class_; account_id := account;
             state := "candidate"; version := 1; since := now; reason := "registered";
             probation_count := 0; position_environment := POSITION_NONE;
             origin := origin_ |} in
        _ ← modifies (fun d => set_sleeves (sleeve d ++ [inserted]) (new_id + 1) d);
        _ ← _append_transition new_id 1 "none" "candidate" "registered" actor_ None now;
        mret inserted
    end).

Definition transitioned (to_ reason_ : string) (new_version probation : Z)
    (position : string) (now : datetime) (r : Sleeve) : Sleeve :=
  {| id := id r; strategy_id := strategy_id r; strategy_version := strategy_version r;
     symbol := symbol r; asset_class := asset_class r; account_id := account_id r;
     state := to_; version := new_version; since := now; reason := reason_;
     probation_count := probation; position_environment := position;
     origin := origin r |}.

(** The check under [if to_state == "live"]: the origin is read from the row,
    not from the caller's copy. *)
Definition live_barrier (s : Sleeve) (to_ : string) : M unit :=
  if String.eqb to_ "live" then
    row ← reads (fun d => List.find (by_id (id s)) (sleeve d));
    match row with
    | Some r => if String.eqb (origin r) "challenger"
                then raise (ChallengerCannotGoLiveError (key s)) else mret tt
    | None => mret tt
    end
  else mret tt.

(** [store.transition]; [s] is the caller's snapshot, however old. *)
Definition transition (s : Sleeve) (to_ reason_ actor_ : string)
    (evidence_id expected_version : option Z) (now : datetime) : M Sleeve :=
  if negb (str_in to_ STATES) then raise (LifecycleStoreError ("Unknown state " +:+ to_)) else
  let expected := default (version s) expected_version in
  let new_version := expected + 1 in
  let probation := probation_count s +
    (if String.eqb to_ "probation" && negb (String.eqb (state s) "probation") then 1 else 0) in
  let position := POSITION_ON_ENTRY to_ (position_environment s) in
  txn (
    _ ← live_barrier s to_;
    matched ← reads (fun d => rowcount (at_version (id s) expected) (sleeve d));
    _ ← with_sleeve (transitioned to_ reason_ new_version probation position now)
          (at_version (id s) expected);
    if negb (Nat.eqb matched 1) then raise (ConcurrentTransitionError (key s) expected) else
    _ ← _append_transition (id s) new_version (state s) to_ reason_ actor_ evidence_id now;
    row_by_id (id s)).

Definition AUTOMATION : list string := ["system"; "learner"; "auto"; "automation"].

Definition adopted (now : datetime) (r : Sleeve) : Sleeve :=
  {| id := id r; strategy_id := strategy_id r; strategy_version := strategy_version r;
     symbol := symbol r; asset_class := asset_class r; account_id := account_id r;
     state := state r; version := version r + 1; since := since r; reason := reason r;
     probation_count := probation_count r;
     position_environment := position_environment r; origin := "human" |}.

Definition adopt_challenger (s : Sleeve) (actor_ reason_ : string) (now : datetime)
    : M Sleeve :=
  let named := strip actor_ in
  if String.eqb named "" || str_in (lower named) AUTOMATION
  then raise (LifecycleStoreError "adopt_challenger needs a named human actor") else
  if String.eqb (strip reason_) ""
  then raise (LifecycleStoreError "adopt_challenger needs a reason") else
  txn (
    row ← reads (fun d => List.find (by_id (id s)) (sleeve d));
    match row with
    | None => raise (SleeveNotFoundError ("sleeve " +:+ str_of_Z (id s) +:+ " is gone"))
    | Some row =>
        if negb (String.eqb (origin row) "challenger") then mret row else
        let new_version := version row + 1 in
        _ ← with_sleeve (adopted now) (at_version (id s) (version row));
        _ ← _append_transition (id s) new_version (state row) (state row)
              ("challenger adopted: " +:+ strip reason_) named None now;
        row_by_id (id s)
    end).

Definition set_live_mode (enabled : bool) (actor_ reason_ : string)
    (account : option string) : M bool :=
  let account := account_or settings account in
  _ ← txn (modifies (fun d => set_environment
        (<[account := {| live_mode := enabled; updated_by := actor_; env_reason := reason_ |}]>
           (environment d)) d));
  mret enabled.

Definition next_id {A} (f : A -> Z) (l : list A) : Z := foldr Z.max 0 (map f l) + 1.

Definition record_challenger_proposal (campaign_id : string) (c : ChallengerDict F)
    (dsr_campaign dsr_own : option F) (trials : Z) (oos : option F) (survived_ : bool)
    (account : option string) (now : datetime) : M Z :=
  let account := account_or settings account in
  txn (
    existing ← reads (fun d => List.find (fun p =>
        String.eqb (p_campaign_id p) campaign_id &&
        String.eqb (c_challenger_id (p_challenger p)) (c_challenger_id c))
        (challenger_proposal d));
    match existing with
    | Some p => mret (p_id p)
    | None =>
        new_id ← reads (fun d => next_id p_id (challenger_proposal d));
        let row :=
          {| p_id := new_id; p_campaign_id := campaign_id;
             p_challenger :=
               {| c_challenger_id := c_challenger_id c; c_strategy_id := c_strategy_id c;
                  c_symbol := upper (c_symbol c); c_base_version := c_base_version c;
                  c_parameters := c_parameters c; c_rationale := c_rationale c;
                  c_clamped := c_clamped c; c_bounds_version := c_bounds_version c;
                  c_generator := c_generator c |};
             p_account_id := account; deflated_sharpe_campaign := dsr_campaign;
             deflated_sharpe_own_search := dsr_own; pooled_trials := trials;
             out_of_sample_sharpe := oos; survived := survived_; p_created_at := now |} in
        _ ← modifies (fun d => set_research (artifact d) (evidence_snapshot d)
              (challenger_proposal d ++ [row]) (learning_cycle d) d);
        mret new_id
    end).

Definition LEARNING_STATUS : list string :=
  ["VETOED"; "VETO_INCOMPLETE"; "INSUFFICIENT_PAPER_EVIDENCE"; "NO_CHALLENGERS";
   "RECORDED"; "EVALUATED_UNRECORDED"].

Definition record_learning_cycle (report : Report) (account : option string) : M Z :=
  if negb (bool_decide (deployment_authority report = Some false))
  then raise (LifecycleStoreError "a learning cycle cannot have deployment authority") else
  if negb (bool_decide (promotion_authority report = Some false))
  then raise (LifecycleStoreError "a learning cycle cannot have promotion authority") else
  let account := account_or settings account in
  if negb (Nat.eqb (String.length (rep_content_hash report)) 64)
  then raise (LifecycleStoreError "learning cycle requires a content hash") else
  txn (
    existing ← reads (fun d => List.find (fun c =>
        String.eqb (rep_campaign_id (l_report c)) (rep_campaign_id report))
        (learning_cycle d));
    match existing with
    | Some c => mret (l_id c)
    | None =>
        if negb (str_in (rep_status report) LEARNING_STATUS)
        then raise (IntegrityError "learning_cycle_status_check") else
        new_id ← reads (fun d => next_id l_id (learning_cycle d));
        let stored :=
          {| deployment_authority := Some false; promotion_authority := Some false;
             rep_content_hash := rep_content_hash report;
             rep_campaign_id := rep_campaign_id report;
             rep_strategy_id := rep_strategy_id report;
             rep_symbol := upper (rep_symbol report);
             rep_base_version := rep_base_version report;
             rep_status := rep_status report; rep_as_of := rep_as_of report |} in
        _ ← modifies (fun d => set_research (artifact d) (evidence_snapshot d)
              (challenger_proposal d)
              (learning_cycle d ++
                [{| l_id := new_id; l_account_id := account; l_report := stored |}]) d);
        mret new_id
    end).
End writes.

Section research_tables.
Context {F : Type} (settings : StoreSettings).
Local Abbreviation M := (prog (DB F) StoreError).
(** SHA-256 of the canonical JSON of a payload; nothing depends on its value. *)
Context (evidence_hash : Scope -> gmap string (pyval F) -> list SourceRef -> string).
Context (artifact_hash : Artifact F -> string).

Definition ENVIRONMENTS : list string := ["backtest"; "paper"; "live"].
Definition ARTIFACT_KINDS : list string :=
  ["walk_forward"; "portfolio_correlation"; "parameter_sensitivity"].

Definition upper_scope (s : Scope) : Scope :=
  {| sc_strategy_id := sc_strategy_id s; sc_strategy_version := sc_strategy_version s;
     sc_symbol := upper (sc_symbol s); sc_asset_class := sc_asset_class s;
     sc_environment := sc_environment s; sc_broker := sc_broker s;
     sc_account_id := sc_account_id s; sc_portfolio_id := sc_portfolio_id s;
     sc_window_start := sc_window_start s; sc_window_end := sc_window_end s;
     sc_data_version := sc_data_version s; sc_model_version := sc_model_version s |}.

Definition record_evidence (scope : Scope) (metrics : gmap string (pyval F))
    (sources : list SourceRef) (now : datetime) : M Z :=
  let scope := upper_scope scope in
  txn (
    if negb (str_in (sc_environment scope) ENVIRONMENTS)
    then raise (IntegrityError "evidence_environment_known") else
    if (sc_window_end scope <? sc_window_start scope)%Z
    then raise (IntegrityError "evidence_window_ordered") else
    new_id ← reads (fun d => next_id e_id (evidence_snapshot d));
    let row := {| e_id := new_id; e_scope := scope; e_metrics := metrics;
                  e_source_artifacts := sources;
                  e_content_hash := evidence_hash scope metrics sources;
                  e_created_at := now |} in
    _ ← modifies (fun d => set_research (artifact d) (evidence_snapshot d ++ [row])
          (challenger_proposal d) (learning_cycle d) d);
    mret new_id).

(** [a] carries the arguments; its id, hash and creation time are the row's. *)
Definition record_validation_artifact (a : Artifact F) (account : option string)
    (now : datetime) : M Z :=
  let account := account_or settings account in
  txn (
    if negb (str_in (a_kind a) ARTIFACT_KINDS)
    then raise (IntegrityError "artifact_kind_known") else
    if negb (str_in (a_environment a) ENVIRONMENTS)
    then raise (IntegrityError "artifact_environment_known") else
    if (a_window_end a <? a_window_start a)%Z
    then raise (IntegrityError "artifact_window_ordered") else
    new_id ← reads (fun d => next_id a_id (artifact d));
    let row :=
      {| a_id := new_id; a_kind := a_kind a; a_strategy_id := a_strategy_id a;
         a_strategy_version := a_strategy_version a; a_symbol := upper (a_symbol a);
         a_asset_class := a_asset_class a; a_environment := a_environment a;
         a_account_id := account; a_window_start := a_window_start a;
         a_window_end := a_window_end a; a_data_version := a_data_version a;
         a_model_version := a_model_version a; a_payload := a_payload a;
         a_content_hash := artifact_hash a; a_produced_by := a_produced_by a;
         a_created_at := now |} in
    _ ← modifies (fun d => set_research (artifact d ++ [row]) (evidence_snapshot d)
          (challenger_proposal d) (learning_cycle d) d);
    mret new_id).
End research_tables.

(** ** The reconciliation latch and journal health *)

Section latch.
Context {F : Type} (settings : StoreSettings).
Local Abbreviation M := (prog (DB F) StoreError).

(** The state one check leaves, before it is written. *)
Definition next_latch (current : ReconciliationHalt) (ok : bool) (breaks : Z)
    (error : string) (dependency_available : bool) (moment : datetime)
    : bool * Z * option datetime * string :=
  if negb dependency_available then
    let first := default moment (first_failure_at current) in
    let unavailable_for := moment - first in
    if (seconds (dependency_grace_seconds settings) <=? unavailable_for)%Z then
      (true, consecutive_breaks current, Some first,
       "reconciliation dependency unavailable for " +:+
       str_of_Z (Z.quot unavailable_for 1000000) +:+ "s (grace " +:+
       str_of_Z (dependency_grace_seconds settings) +:+ "s): " +:+ error)
    else (halted current, consecutive_breaks current, Some first, halt_reason current)
  else if ok then (halted current, 0, None, halt_reason current)
  else
    let consecutive := consecutive_breaks current + 1 in
    let first := default moment (first_failure_at current) in
    if (breaks_before_halt settings <=? consecutive)%Z then
      (true, consecutive, Some first,
       str_of_Z breaks +:+ " position break(s) persisted across " +:+
       str_of_Z consecutive +:+ " checks")
    else (halted current, consecutive, Some first, halt_reason current).

(** [INSERT ... ON CONFLICT (account_id, broker, environment) DO UPDATE]. *)
Definition upsert_recon (k : string * string * string)
    (fresh : ReconciliationHalt) (merge : ReconciliationHalt -> ReconciliationHalt)
    (d : DB F) : DB F :=
  let row := match reconciliation d !! k with
    | None => {| r_halt := fresh; cleared_by := ""; cleared_at := None |}
    | Some r => {| r_halt := merge (r_halt r); cleared_by := cleared_by r;
                   cleared_at := cleared_at r |}
    end in
  set_reconciliation (<[k := row]> (reconciliation d)) d.

Definition opt_or {A} (a b : option A) : option A :=
  match a with Some _ => a | None => b end.

Definition record_reconciliation (broker env : string) (ok : bool) (breaks : Z)
    (error : string) (dependency_available : bool) (account : option string)
    (now : datetime) : M ReconciliationHalt :=
  let account_ := account_or settings account in
  current ← reads (reconciliation_state settings broker env (Some account_));
  let '(halted_, consecutive, first, reason_) :=
    next_latch current ok breaks error dependency_available now in
  let written :=
    {| halted := halted_; consecutive_breaks := consecutive; first_failure_at := first;
       last_ok_at := if ok && dependency_available then Some now else None;
       last_checked_at := Some now; last_error := error; halt_reason := reason_ |} in
  _ ← txn (modifies (upsert_recon (account_, broker, env) written
        (fun old =>
          {| halted := halted_; consecutive_breaks := consecutive; first_failure_at := first;
             last_ok_at := opt_or (last_ok_at written) (last_ok_at old);
             last_checked_at := Some now; last_error := error; halt_reason := reason_ |})));
  reads (reconciliation_state settings broker env (Some account_)).

Definition halt_entries (broker env reason_ : string) (account : option string)
    (now : datetime) : M ReconciliationHalt :=
  let account_ := account_or settings account in
  _ ← txn (modifies (upsert_recon (account_, broker, env)
        {| halted := true; consecutive_breaks := 1; first_failure_at := Some now;
           last_ok_at := None; last_checked_at := Some now; last_error := reason_;
           halt_reason := reason_ |}
        (fun old =>
          {| halted := true; consecutive_breaks := consecutive_breaks old;
             first_failure_at := opt_or (first_failure_at old) (Some now);
             last_ok_at := last_ok_at old; last_checked_at := Some now;
             last_error := reason_; halt_reason := reason_ |})));
  reads (reconciliation_state settings broker env (Some account_)).

Definition clear_reconciliation_halt (broker env actor_ reason_ : string)
    (account : option string) (now : datetime) : M ReconciliationHalt :=
  if String.eqb (strip actor_) ""
  then raise (LifecycleStoreError "Clearing a halt requires an identified actor") else
  let account_ := account_or settings account in
  _ ← txn (
    row ← reads (fun d => reconciliation d !! (account_, broker, env));
    match row with
    | None => raise (LifecycleStoreError
        ("No reconciliation state for " +:+ account_ +:+ "/" +:+ broker +:+ "/" +:+ env))
    | Some r =>
        let h := r_halt r in
        modifies (fun d => set_reconciliation (<[(account_, broker, env) :=
          {| r_halt := {| halted := false; consecutive_breaks := 0;
                          first_failure_at := None; last_ok_at := last_ok_at h;
                          last_checked_at := last_checked_at h;
                          last_error := last_error h; halt_reason := "" |};
             cleared_by := actor_; cleared_at := Some now |}]> (reconciliation d)) d)
    end);
  reads (reconciliation_state settings broker env (Some account_)).

(** The returned dict is the written row. *)
Definition record_journal_health (scope_key strategy symbol_ env : string)
    (window_start window_end : datetime) (expected actual gaps : Z)
    (last_gap : option datetime) : M HealthRow :=
  let eligible := Z.eqb gaps 0 && (expected <=? actual)%Z in
  let status_ := if eligible then "ok" else if negb (Z.eqb gaps 0) then "gap" else "incomplete" in
  let fresh :=
    {| h_strategy_id := strategy; h_symbol := upper symbol_; h_environment := env;
       expected_observations := expected; actual_observations := actual; gap_count := gaps;
       eligible_for_learning := eligible; last_gap_at := last_gap; status := status_ |} in
  txn (
    old ← reads (fun d => journal_health d !! (scope_key, window_start, window_end));
    let row := match old with
      | None => fresh
      | Some o =>
          {| h_strategy_id := h_strategy_id o; h_symbol := h_symbol o;
             h_environment := h_environment o; expected_observations := expected;
             actual_observations := actual; gap_count := gaps;
             eligible_for_learning := eligible; last_gap_at := last_gap;
             status := status_ |}
      end in
    _ ← modifies (fun d => set_journal_health
          (<[(scope_key, window_start, window_end) := row]> (journal_health d)) d);
    mret row).
End latch.
