(* ===== verification/StoreProofs.v ===== *)
(** * The store keeps its promises

    Every state the lifecycle store can reach, through any sequence of its
    methods run by any number of processes holding snapshots of any age, keeps
    one row per identity, an audit trail that replays to the roster, the
    challenger barrier and the position environment an exit needs. *)

From S2P Require Import Prelude PyFloat Routing Store.

(** ** Replaying the audit trail *)

Section replay.
Context {F : Type}.

Definition history (i : Z) (d : DB F) : list Transition :=
  List.filter (fun t => Z.eqb (t_sleeve_id t) i) (transition_log d).

(** One entry applies to (version, state) when it carries the next sequence
    number and starts from the state reached. *)
Definition replay_step (acc : option (Z * string)) (t : Transition) : option (Z * string) :=
  match acc with
  | Some (n, s) =>
      if Z.eqb (seq t) (n + 1) && String.eqb (from_state t) s
      then Some (n + 1, to_state t) else None
  | None => None
  end.
Definition replay (l : list Transition) : option (Z * string) :=
  foldl replay_step (Some (0, "none")) l.

Lemma replay_snoc l t n s :
  replay l = Some (n, s) -> seq t = n + 1 -> from_state t = s ->
  replay (l ++ [t]) = Some (n + 1, to_state t).
Proof.
  intros Hl Hs Hf. unfold replay in *. rewrite foldl_app, Hl. cbn.
  by rewrite Hs, Hf, Z.eqb_refl, String.eqb_refl.
Qed.

Lemma replay_None l : foldl replay_step None l = None.
Proof. by induction l. Qed.

(** A trail that replays is numbered 1, 2, ..., n. *)
Lemma replay_seqs l n s :
  replay l = Some (n, s) -> n = Z.of_nat (length l) /\ map seq l = seqZ 1 n.
Proof.
  revert n s. induction l as [|t l IH] using rev_ind; intros n s.
  - intros [= <- <-]. done.
  - unfold replay. rewrite foldl_app. cbn. fold (replay l).
    destruct (replay l) as [[m s']|]; [|done]. cbn.
    destruct (Z.eqb_spec (seq t) (m + 1)) as [Hs|]; [|done]. cbn.
    destruct (String.eqb _ _); [|done]. intros [= <- <-].
    destruct (IH m s' eq_refl) as [Hm Hseq]. subst m.
    rewrite length_app, map_app, Hseq. cbn [map length]. rewrite Hs. split; [lia|].
    rewrite seqZ_app by lia. f_equal. rewrite (Z.add_comm _ 1). done.
Qed.

Lemma history_app i (l : list Transition) t :
  List.filter (fun t => Z.eqb (t_sleeve_id t) i) (l ++ [t]) =
  List.filter (fun t => Z.eqb (t_sleeve_id t) i) l ++
    (if Z.eqb (t_sleeve_id t) i then [t] else []).
Proof. rewrite List.filter_app. cbn. by destruct (Z.eqb _ _). Qed.
End replay.

(** ** The invariant *)

Definition ident (r : Sleeve) : string * string * string :=
  (strategy_id r, symbol r, account_id r).

Record row_ok {F} (d : DB F) (r : Sleeve) : Prop := {
  ok_version : 1 <= version r;
  ok_state : state r ∈ STATES;
  ok_symbol : upper (symbol r) = symbol r;
  ok_origin : origin r ∈ ["human"; "challenger"];
  ok_barrier : origin r = "challenger" -> state r <> "live";
  ok_live : state r = "live" -> position_environment r = POSITION_LIVE;
  ok_paper : state r = "paper" -> position_environment r = POSITION_SIMULATED;
  ok_position : position_environment r ∈ [POSITION_NONE; POSITION_SIMULATED; POSITION_LIVE];
  ok_replay : replay (history (id r) d) = Some (version r, state r)
}.

(** A snapshot is honest: it is the row it was read from, unless the row has
    moved to a later version since. *)
Definition honest {F} (d : DB F) (s : Sleeve) : Prop :=
  id s < sleeve_next d /\
  forall r, r ∈ sleeve d -> id r = id s ->
    version s <= version r /\ (version s = version r -> s = r).

Record inv {F} (d : DB F) (seen : list Sleeve) : Prop := {
  inv_ids : NoDup (map id (sleeve d));
  inv_idents : NoDup (map ident (sleeve d));
  inv_next : forall r, r ∈ sleeve d -> id r < sleeve_next d;
  inv_log : forall t, t ∈ transition_log d -> t_sleeve_id t < sleeve_next d;
  inv_rows : forall r, r ∈ sleeve d -> row_ok d r;
  inv_seen : forall s, s ∈ seen -> honest d s
}.

Lemma by_id_spec i r : by_id i r = true <-> id r = i.
Proof. apply Z.eqb_eq. Qed.

Lemma at_version_spec i v r : at_version i v r = true <-> id r = i /\ version r = v.
Proof. unfold at_version. by rewrite andb_true_iff, !Z.eqb_eq. Qed.

Lemma is_sleeve_spec st sy ac r :
  is_sleeve st sy ac r = true <-> ident r = (st, sy, ac).
Proof.
  unfold is_sleeve, ident. rewrite !andb_true_iff, !String.eqb_eq. naive_solver.
Qed.

Lemma rowcount_unique {F} (d : DB F) i v :
  NoDup (map id (sleeve d)) ->
  rowcount (at_version i v) (sleeve d) =
    match List.find (by_id i) (sleeve d) with
    | Some r => if Z.eqb (version r) v then 1%nat else 0%nat
    | None => 0%nat
    end.
Proof.
  unfold rowcount. induction (sleeve d) as [|r l IH]; intros Hn; [done|].
  cbn in Hn. apply NoDup_cons in Hn as [Hr Hn]. specialize (IH Hn). cbn.
  unfold by_id at 1, at_version at 1. destruct (Z.eqb_spec (id r) i) as [<-|]; cbn; [|done].
  assert (List.filter (at_version (id r) v) l = []) as Hnil.
  { clear IH Hn. induction l as [|x l IH]; [done|]. cbn in Hr |- *.
    apply not_elem_of_cons in Hr as [Hx Hr]. unfold at_version at 1.
    destruct (Z.eqb_spec (id x) (id r)); [congruence|]. by apply IH. }
  destruct (Z.eqb (version r) v); cbn; by rewrite Hnil.
Qed.

(** *** One row moves one version on, with its trail entry *)

Section update.
Context {F : Type}.
Implicit Types d : DB F.

Definition moved (f : Sleeve -> Sleeve) (r : Sleeve) (t : Transition) d : DB F :=
  set_log (transition_log d ++ [t])
    (set_sleeves (update_where (at_version (id r) (version r)) f (sleeve d)) (sleeve_next d) d).

Lemma elem_of_moved f r t d x :
  NoDup (map id (sleeve d)) -> r ∈ sleeve d ->
  x ∈ sleeve (moved f r t d) <-> x = f r \/ (x ∈ sleeve d /\ id x <> id r).
Proof.
  intros Hn Hr. cbn. rewrite elem_of_update_where. split.
  - intros (y & Hy & ->). destruct (at_version _ _ y) eqn:E.
    + apply at_version_spec in E as [E _]. left. f_equal. by apply (NoDup_map_inj id (sleeve d)).
    + right. split; [done|]. intros E'.
      assert (y = r) as -> by (by apply (NoDup_map_inj id (sleeve d))).
      assert (at_version (id r) (version r) r = true) by (by apply at_version_spec). congruence.
  - intros [->|[Hx Hne]].
    + exists r. split; [done|].
      by assert (at_version (id r) (version r) r = true) as -> by (by apply at_version_spec).
    + exists x. split; [done|]. destruct (at_version _ _ x) eqn:E; [|done].
      by apply at_version_spec in E as [? _].
Qed.

Lemma inv_moved f r t d seen :
  inv d seen -> r ∈ sleeve d ->
  id (f r) = id r -> ident (f r) = ident r -> version (f r) = version r + 1 ->
  t_sleeve_id t = id r -> seq t = version r + 1 -> from_state t = state r ->
  to_state t = state (f r) -> state (f r) ∈ STATES ->
  origin (f r) ∈ ["human"; "challenger"] ->
  (origin (f r) = "challenger" -> state (f r) <> "live") ->
  (state (f r) = "live" -> position_environment (f r) = POSITION_LIVE) ->
  (state (f r) = "paper" -> position_environment (f r) = POSITION_SIMULATED) ->
  position_environment (f r) ∈ [POSITION_NONE; POSITION_SIMULATED; POSITION_LIVE] ->
  (forall x, id (f x) = id x) -> (forall x, ident (f x) = ident x) ->
  inv (moved f r t d) (sleeve (moved f r t d) ++ seen).
Proof.
  intros [Hids Hidents Hnext Hlog Hrows Hseen] Hr Eid Eident Ever Et Eseq Efrom Eto
    Hst Hor Hbar Hlive Hpap Hpos Fid Fident.
  pose proof (Hrows r Hr) as Hok.
  assert (forall x, x ∈ sleeve (moved f r t d) -> row_ok (moved f r t d) x) as Hrows'.
  { intros x [->|[Hx Hne]]%elem_of_moved; [| |done|done].
    - destruct Hok. constructor; try done; [lia| |].
      + unfold ident in Eident. congruence.
      + unfold history. cbn. rewrite history_app. rewrite Eid, Et, Z.eqb_refl, Ever.
        rewrite <- Eto. eapply replay_snoc; eauto.
    - destruct (Hrows x Hx). constructor; try done.
      unfold history. cbn. rewrite history_app.
      replace (t_sleeve_id t =? id x) with false by (symmetry; apply Z.eqb_neq; lia).
      by rewrite app_nil_r. }
  constructor; [| | | |done|].
  - cbn. by rewrite map_update_where.
  - cbn. by rewrite map_update_where.
  - intros x [->|[Hx _]]%elem_of_moved; [| |done|done]; [rewrite Eid|]; by apply Hnext.
  - intros x. cbn. rewrite elem_of_app, list_elem_of_singleton.
    intros [?| ->]; [by apply Hlog|]. rewrite Et. by apply Hnext.
  - intros s [Hs|Hs]%elem_of_app.
    + split.
      { apply elem_of_moved in Hs as [->|[Hs _]]; [| |done|done]; [rewrite Eid|]; by apply Hnext. }
      intros x Hx E. assert (NoDup (map id (sleeve (moved f r t d)))) as Hn'
        by (cbn; by rewrite map_update_where).
      assert (x = s) as -> by (by apply (NoDup_map_inj id (sleeve (moved f r t d)))). done.
    + destruct (Hseen s Hs) as [Hlt Hh]. split; [done|].
      intros x [->|[Hx Hne]]%elem_of_moved E; [| |done|done]; [|by apply Hh].
      rewrite Eid in E. destruct (Hh r Hr E) as [Hle _]. rewrite Ever. split; [lia|lia].
Qed.

(** *** A new row, with its first trail entry *)

Definition inserted (r : Sleeve) (t : Transition) d : DB F :=
  set_log (transition_log d ++ [t]) (set_sleeves (sleeve d ++ [r]) (id r + 1) d).

Lemma inv_inserted r t d seen :
  inv d seen -> id r = sleeve_next d -> version r = 1 -> state r = "candidate" ->
  upper (symbol r) = symbol r -> origin r ∈ ["human"; "challenger"] ->
  position_environment r = POSITION_NONE ->
  (forall x, x ∈ sleeve d -> ident x <> ident r) ->
  t_sleeve_id t = id r -> seq t = 1 -> from_state t = "none" -> to_state t = "candidate" ->
  inv (inserted r t d) (sleeve (inserted r t d) ++ seen).
Proof.
  intros [Hids Hidents Hnext Hlog Hrows Hseen] Eid Ever Est Esy Hor Hpos Hfresh Et Eseq Efr Eto.
  assert (history (id r) d = []) as Hnil.
  { unfold history. assert (forall t, t ∈ transition_log d -> t_sleeve_id t < id r) as H
      by (rewrite Eid; done). clear -H. induction (transition_log d) as [|x l IH]; [done|]. cbn.
    destruct (Z.eqb_spec (t_sleeve_id x) (id r)); [|apply IH; set_solver].
    assert (t_sleeve_id x < id r) by (apply H; set_solver). lia. }
  assert (forall x, x ∈ sleeve (inserted r t d) <-> x ∈ sleeve d \/ x = r) as Hel
    by (intros x; cbn; by rewrite elem_of_app, list_elem_of_singleton).
  assert (NoDup (map id (sleeve (inserted r t d)))) as Hids'.
  { cbn. rewrite map_app. apply NoDup_app. repeat split; [done| |apply NoDup_singleton].
    intros i Hi. cbn. rewrite list_elem_of_singleton. intros ->.
    apply elem_of_map in Hi as (x & E & Hx).
    specialize (Hnext x Hx). lia. }
  constructor; [done| | | | |].
  - cbn. rewrite map_app. apply NoDup_app. repeat split; [done| |apply NoDup_singleton].
    intros i Hi. cbn. rewrite list_elem_of_singleton. intros ->.
    apply elem_of_map in Hi as (x & E & Hx).
    by apply (Hfresh x).
  - intros x [Hx| ->]%Hel; cbn; [specialize (Hnext x Hx)|]; lia.
  - intros x. cbn. rewrite elem_of_app, list_elem_of_singleton.
    intros [Hx| ->]; [specialize (Hlog x Hx)|]; lia.
  - intros x [Hx| ->]%Hel.
    + destruct (Hrows x Hx). constructor; try done. unfold history. cbn.
      rewrite history_app. specialize (Hnext x Hx).
      replace (t_sleeve_id t =? id x) with false by (symmetry; apply Z.eqb_neq; lia).
      by rewrite app_nil_r.
    + constructor; rewrite ?Ever, ?Est, ?Hpos; try done; try (by apply str_in_spec).
      unfold history. cbn. rewrite history_app. unfold history in Hnil.
      rewrite Hnil, Et, Z.eqb_refl. cbn. by rewrite Eseq, Efr, Eto.
  - intros s [Hs|Hs]%elem_of_app.
    + split; [apply Hel in Hs as [Hs| ->]; cbn; [specialize (Hnext s Hs)|]; lia|].
      intros x Hx E. assert (x = s) as -> by (by apply (NoDup_map_inj id (sleeve (inserted r t d)))).
      done.
    + destruct (Hseen s Hs) as [Hlt Hh]. split; [cbn; lia|].
      intros x [Hx| ->]%Hel E; [by apply Hh|lia].
Qed.

(** *** Methods that leave the roster alone *)

Definition same_roster d d' : Prop :=
  sleeve d' = sleeve d /\ sleeve_next d' = sleeve_next d /\
  transition_log d' = transition_log d.

Lemma inv_same d d' seen :
  inv d seen -> same_roster d d' -> inv d' (sleeve d' ++ seen).
Proof.
  intros [Hids Hidents Hnext Hlog Hrows Hseen] (Es & En & El).
  constructor; rewrite ?Es, ?En, ?El; try done.
  - intros r Hr. destruct (Hrows r Hr). constructor; try done. unfold history. by rewrite El.
  - intros s [Hs|Hs]%elem_of_app; unfold honest; rewrite Es, En; [|by apply Hseen].
    split; [by apply Hnext|]. intros r Hr E.
    assert (r = s) as -> by (by apply (NoDup_map_inj id (sleeve d))). done.
Qed.
End update.

(** ** What each roster method does *)

Ltac run_prog :=
  unfold mbind, prog_bind, mret, prog_ret, reads, modifies, raise, with_sleeve in *; cbn in *.

Section roster_methods.
Context {F : Type} (settings : StoreSettings).
Implicit Types d : DB F.

Lemma append_transition_cases sid sq fr to re ac ev now d :
  match _append_transition sid sq fr to re ac ev now d with
  | (Ok _, d') =>
      d' = set_log (transition_log d ++
        [{| t_sleeve_id := sid; seq := sq; from_state := fr; to_state := to; t_reason := re;
            actor := ac; evidence_snapshot_id := ev; t_created_at := now |}]) d
  | (Err e, d') => d' = d /\ (exists c, e = IntegrityError c)
  end.
Proof.
  unfold _append_transition. run_prog. destruct (existsb _ (transition_log d)); cbn; [eauto|].
  destruct ev as [e|]; cbn; [destruct (negb _); cbn; eauto|done].
Qed.

Lemma find_by_id d r :
  NoDup (map id (sleeve d)) -> r ∈ sleeve d -> List.find (by_id (id r)) (sleeve d) = Some r.
Proof.
  intros Hn Hr. apply find_unique; [done|by apply by_id_spec|].
  intros y Hy E%by_id_spec. by apply (NoDup_map_inj id (sleeve d)).
Qed.

(** The row a move leaves behind. *)
Lemma row_by_id_moved f r t d :
  NoDup (map id (sleeve d)) -> r ∈ sleeve d -> (forall x, id (f x) = id x) ->
  row_by_id (id r) (moved f r t d) = (Ok (f r), moved f r t d).
Proof.
  intros Hn Hr Hf. unfold row_by_id.
  rewrite <- (Hf r), (find_by_id (moved f r t d) (f r)); [done| |].
  - cbn. by rewrite map_update_where.
  - apply elem_of_moved; auto.
Qed.

Definition trail (s : Sleeve) (v : Z) (from_ to_ reason_ actor_ : string) ev now : Transition :=
  {| t_sleeve_id := id s; seq := v; from_state := from_; to_state := to_;
     t_reason := reason_; actor := actor_; evidence_snapshot_id := ev; t_created_at := now |}.

Lemma live_barrier_cases s to_ d :
  NoDup (map id (sleeve d)) ->
  (live_barrier s to_ d = (Ok tt, d) /\
     (to_ = "live" -> forall r, r ∈ sleeve d -> id r = id s -> origin r <> "challenger")) \/
  (live_barrier s to_ d = (Err (ChallengerCannotGoLiveError (key s)), d) /\ to_ = "live" /\
     exists r, r ∈ sleeve d /\ id r = id s /\ origin r = "challenger").
Proof.
  intros Hn. unfold live_barrier. destruct (String.eqb_spec to_ "live") as [->|Hl]; [|by left].
  run_prog. destruct (List.find (by_id (id s)) (sleeve d)) as [r|] eqn:Hf.
  - apply find_some_elem in Hf as [Hr Hid%by_id_spec].
    destruct (String.eqb_spec (origin r) "challenger"); [right|left]; split; eauto 6.
    intros _ x Hx Ex. assert (x = r) as -> by (apply (NoDup_map_inj id (sleeve d)); congruence).
    done.
  - left. split; [done|]. intros _ r Hr E _.
    pose proof (find_none _ _ Hf r) as Hx. rewrite <- list_elem_of_In in Hx.
    specialize (Hx Hr). apply by_id_spec in E. congruence.
Qed.

(** Whether the optimistic version check matches a row, and which. *)
Lemma version_check i v d :
  NoDup (map id (sleeve d)) ->
  (rowcount (at_version i v) (sleeve d) = 1%nat /\
     exists r, r ∈ sleeve d /\ id r = i /\ version r = v) \/
  (rowcount (at_version i v) (sleeve d) = 0%nat /\
     forall r, r ∈ sleeve d -> id r = i -> version r <> v).
Proof.
  intros Hn. rewrite rowcount_unique by done.
  destruct (List.find (by_id i) (sleeve d)) as [r|] eqn:Hf.
  - apply find_some_elem in Hf as [Hr Hid%by_id_spec].
    destruct (Z.eqb_spec (version r) v); [left|right]; split; eauto.
    intros x Hx Ex. by assert (x = r) as -> by (apply (NoDup_map_inj id (sleeve d)); congruence).
  - right. split; [done|]. intros r Hr E _.
    pose proof (find_none _ _ Hf r) as Hx. rewrite <- list_elem_of_In in Hx.
    specialize (Hx Hr). apply by_id_spec in E. congruence.
Qed.

Definition probation_after (s : Sleeve) (to_ : string) : Z :=
  probation_count s +
    (if String.eqb to_ "probation" && negb (String.eqb (state s) "probation") then 1 else 0).

(** What a transition does: it moves the one row at the snapshot's version, or
    raises for one of four reasons and changes nothing. *)
Lemma transition_cases s to_ reason_ actor_ ev now d :
  NoDup (map id (sleeve d)) ->
  let f := transitioned to_ reason_ (version s + 1) (probation_after s to_)
      (POSITION_ON_ENTRY to_ (position_environment s)) now in
  match transition s to_ reason_ actor_ ev None now d with
  | (Ok r', d') => exists r, r ∈ sleeve d /\ id r = id s /\ version r = version s /\
      to_ ∈ STATES /\ (to_ = "live" -> origin r <> "challenger") /\ r' = f r /\
      d' = moved f r (trail s (version s + 1) (state s) to_ reason_ actor_ ev now) d
  | (Err e, d') => d' = d /\
      (to_ ∉ STATES \/
       (exists r, r ∈ sleeve d /\ id r = id s /\ to_ = "live" /\ origin r = "challenger") \/
       (forall r, r ∈ sleeve d -> id r = id s -> version r <> version s) \/
       (exists c, e = IntegrityError c))
  end.
Proof.
  intros Hn f. unfold transition. destruct (str_in to_ STATES) eqn:Hst; cbn [negb].
  2: { split; [done|]. left. rewrite <- str_in_spec. congruence. }
  apply str_in_spec in Hst. unfold txn. cbn [default]. unfold mbind, prog_bind.
  destruct (live_barrier_cases s to_ d Hn) as [[-> Hb]|(-> & Hl & Hc)].
  2: { split; [done|]. destruct Hc as (r & ? & ? & ?). eauto 10. }
  unfold reads, with_sleeve, modifies. fold (probation_after s to_).
  destruct (version_check (id s) (version s) d Hn) as [[-> (r & Hr & Hid & Hv)]|[-> Hnone]].
  2: { split; [done|]. auto. }
  cbn [Nat.eqb negb]. fold f.
  match goal with |- context [_append_transition ?a ?b ?c ?e ?g ?h ?i ?j ?k] =>
    pose proof (append_transition_cases a b c e g h i j k) as Ha;
    destruct (_append_transition a b c e g h i j k) as [[[]|e0] d1] eqn:Ea end.
  2: { destruct Ha as [_ [cc ->]]. eauto 10. }
  assert (d1 = moved f r (trail s (version s + 1) (state s) to_ reason_ actor_ ev now) d) as ->
    by (subst d1; unfold moved; by rewrite Hid, Hv).
  pose proof (row_by_id_moved f r (trail s (version s + 1) (state s) to_ reason_ actor_ ev now) d
    Hn Hr (fun _ => eq_refl)) as Hrow.
  rewrite Hid in Hrow. rewrite Hrow. exists r. eauto 10.
Qed.

Lemma register_cases st sy ver ac account actor_ origin_ now d :
  NoDup (map id (sleeve d)) -> NoDup (map ident (sleeve d)) ->
  let account' := account_or settings account in
  match register settings st sy ver ac account actor_ origin_ now d with
  | (Ok r', d') =>
      (r' ∈ sleeve d /\ ident r' = (st, upper sy, account') /\ state r' <> "retired" /\ d' = d) \/
      (exists r, r ∈ sleeve d /\ ident r = (st, upper sy, account') /\ state r = "retired" /\
         r' = re_registered now r /\
         d' = moved (re_registered now) r
                (trail r (version r + 1) (state r) "candidate" "re-registered" actor_ None now) d) \/
      ((forall r, r ∈ sleeve d -> ident r <> (st, upper sy, account')) /\
         ident r' = (st, upper sy, account') /\ id r' = sleeve_next d /\ version r' = 1 /\
         state r' = "candidate" /\ origin r' = origin_ /\ probation_count r' = 0 /\
         position_environment r' = POSITION_NONE /\ origin_ ∈ ["human"; "challenger"] /\
         d' = inserted r' (trail r' 1 "none" "candidate" "registered" actor_ None now) d)
  | (Err e, d') => d' = d /\ (exists c, e = IntegrityError c)
  end.
Proof.
  intros Hn Hi account'. subst account'. unfold register, txn, mbind, prog_bind, reads.
  destruct (List.find (is_sleeve st (upper sy) (account_or settings account)) (sleeve d)) as [r|] eqn:Hf.
  - apply find_some_elem in Hf as [Hr E%is_sleeve_spec].
    destruct (String.eqb_spec (state r) "retired") as [Hs|Hs]; cbn [negb]; [|left; done].
    unfold with_sleeve, modifies.
    match goal with |- context [_append_transition ?a ?b ?c ?e ?g ?h ?i ?j ?k] =>
      pose proof (append_transition_cases a b c e g h i j k) as Ha;
      destruct (_append_transition a b c e g h i j k) as [[[]|e0] d1] eqn:Ea end.
    2: { destruct Ha as [_ [cc ->]]. eauto. }
    subst d1.
    match goal with |- context [row_by_id _ ?x] => change x with
      (moved (re_registered now) r (trail r (version r + 1) (state r) "candidate"
         "re-registered" actor_ None now) d) end.
    rewrite row_by_id_moved by done. right. left. exists r. repeat split; try done.
  - destruct (str_in origin_ _) eqn:Ho; cbn [negb]; [|unfold raise; by eauto].
    apply str_in_spec in Ho. unfold modifies.
    match goal with |- context [_append_transition ?a ?b ?c ?e ?g ?h ?i ?j ?k] =>
      pose proof (append_transition_cases a b c e g h i j k) as Ha;
      destruct (_append_transition a b c e g h i j k) as [[[]|e0] d1] eqn:Ea end.
    2: { destruct Ha as [_ [cc ->]]. eauto. }
    subst d1. right. right. split; [|done].
    intros r Hr E. pose proof (find_none _ _ Hf r) as Hx. rewrite <- list_elem_of_In in Hx.
    specialize (Hx Hr). apply is_sleeve_spec in E. congruence.
Qed.

Lemma adopt_cases s actor_ reason_ now d :
  NoDup (map id (sleeve d)) ->
  match adopt_challenger s actor_ reason_ now d with
  | (Ok r', d') => exists r, r ∈ sleeve d /\ id r = id s /\
      strip actor_ <> "" /\ lower (strip actor_) ∉ AUTOMATION /\ strip reason_ <> "" /\
      ((origin r <> "challenger" /\ r' = r /\ d' = d) \/
       (origin r = "challenger" /\ r' = adopted now r /\
        d' = moved (adopted now) r
          (trail r (version r + 1) (state r) (state r)
             ("challenger adopted: " +:+ strip reason_) (strip actor_) None now) d))
  | (Err _, d') => d' = d
  end.
Proof.
  intros Hn. unfold adopt_challenger.
  destruct (String.eqb_spec (strip actor_) "") as [|Ha]; [done|]. cbn [orb].
  destruct (str_in (lower (strip actor_)) AUTOMATION) eqn:Hau; [done|].
  destruct (String.eqb_spec (strip reason_) "") as [|Hr]; [done|].
  assert (lower (strip actor_) ∉ AUTOMATION) as Hau' by (rewrite <- str_in_spec; congruence).
  unfold txn, mbind, prog_bind, reads.
  destruct (List.find (by_id (id s)) (sleeve d)) as [r|] eqn:Hf; [|done].
  apply find_some_elem in Hf as [Hrd E%by_id_spec].
  destruct (String.eqb_spec (origin r) "challenger") as [Ho|Ho]; cbn [negb]; [|by exists r; auto 10].
  unfold with_sleeve, modifies. rewrite <- E.
  match goal with |- context [_append_transition ?a ?b ?c ?e ?g ?h ?i ?j ?k] =>
    pose proof (append_transition_cases a b c e g h i j k) as Hap;
    destruct (_append_transition a b c e g h i j k) as [[[]|e0] d1] eqn:Ea end.
  2: { done. }
  subst d1.
  match goal with |- context [row_by_id _ ?x] => change x with
    (moved (adopted now) r (trail r (version r + 1) (state r) (state r)
             ("challenger adopted: " +:+ strip reason_) (strip actor_) None now) d) end.
  rewrite row_by_id_moved by done. exists r. auto 10.
Qed.
End roster_methods.

(** ** Every method, and the states they can reach *)

Inductive op (F : Type) :=
| OpRegister (strategy symbol_ version_ asset : string) (account : option string)
    (actor_ origin_ : string)
| OpTransition (s : Sleeve) (to_ reason_ actor_ : string) (evidence_id : option Z)
| OpAdopt (s : Sleeve) (actor_ reason_ : string)
| OpSetLiveMode (enabled : bool) (actor_ reason_ : string) (account : option string)
| OpProposal (campaign : string) (c : ChallengerDict F) (dsr_campaign dsr_own : option F)
    (trials : Z) (oos : option F) (survived_ : bool) (account : option string)
| OpLearningCycle (report : Report) (account : option string)
| OpEvidence (scope : Scope) (metrics : gmap string (pyval F)) (sources : list SourceRef)
| OpArtifact (a : Artifact F) (account : option string)
| OpReconcile (broker env : string) (ok : bool) (breaks : Z) (error : string)
    (available : bool) (account : option string)
| OpHalt (broker env reason_ : string) (account : option string)
| OpClearHalt (broker env actor_ reason_ : string) (account : option string)
| OpHealth (scope_key strategy symbol_ env : string) (window_start window_end : datetime)
    (expected actual gaps : Z) (last_gap : option datetime).
Arguments OpRegister {F}. Arguments OpTransition {F}. Arguments OpAdopt {F}.
Arguments OpSetLiveMode {F}. Arguments OpProposal {F}. Arguments OpLearningCycle {F}.
Arguments OpEvidence {F}. Arguments OpArtifact {F}. Arguments OpReconcile {F}.
Arguments OpHalt {F}. Arguments OpClearHalt {F}. Arguments OpHealth {F}.

Section reachable.
Context {F : Type} (settings : StoreSettings).
Context (evidence_hash : Scope -> gmap string (pyval F) -> list SourceRef -> string).
Context (artifact_hash : Artifact F -> string).
Implicit Types d : DB F.

(** The database after a call; a call that raises keeps what it committed. *)
Definition run (o : op F) (now : datetime) (d : DB F) : DB F :=
  match o with
  | OpRegister st sy ver ac acct actor_ origin_ =>
      snd (register settings st sy ver ac acct actor_ origin_ now d)
  | OpTransition s to_ reason_ actor_ ev => snd (transition s to_ reason_ actor_ ev None now d)
  | OpAdopt s actor_ reason_ => snd (adopt_challenger s actor_ reason_ now d)
  | OpSetLiveMode e a r acct => snd (set_live_mode settings e a r acct d)
  | OpProposal c ch dc dn tr oos sv acct =>
      snd (record_challenger_proposal settings c ch dc dn tr oos sv acct now d)
  | OpLearningCycle r acct => snd (record_learning_cycle settings r acct d)
  | OpEvidence sc m src => snd (record_evidence evidence_hash sc m src now d)
  | OpArtifact a acct => snd (record_validation_artifact settings artifact_hash a acct now d)
  | OpReconcile b e ok br er av acct =>
      snd (record_reconciliation settings b e ok br er av acct now d)
  | OpHalt b e r acct => snd (halt_entries settings b e r acct now d)
  | OpClearHalt b e a r acct => snd (clear_reconciliation_halt settings b e a r acct now d)
  | OpHealth k st sy e ws we ex ac g lg =>
      snd (record_journal_health k st sy e ws we ex ac g lg d)
  end.

(** The snapshot a call was given, which some earlier read returned. *)
Definition op_snapshot (o : op F) : option Sleeve :=
  match o with
  | OpTransition s _ _ _ _ | OpAdopt s _ _ => Some s
  | _ => None
  end.

(** One call of one of the store's methods, by any process. [seen] are the rows
    some process has read so far; a call may be given any of them. *)
Inductive step : DB F * list Sleeve -> DB F * list Sleeve -> Prop :=
| step_call d seen o now :
    (forall s, op_snapshot o = Some s -> s ∈ seen) ->
    step (d, seen) (run o now d, sleeve (run o now d) ++ seen).

(** What any sequence of calls can make of an empty database. *)
Definition reachable (d : DB F) (seen : list Sleeve) : Prop :=
  rtc step (empty_db, []) (d, seen).

Ltac frame := unfold txn, mbind, prog_bind, reads, modifies, mret, prog_ret, raise, upsert_recon;
  cbn; repeat case_match; cbn in *; simplify_eq; repeat split; done.

Lemma run_same_roster o now d :
  match o with OpRegister _ _ _ _ _ _ _ | OpTransition _ _ _ _ _ | OpAdopt _ _ _ => False
             | _ => True end ->
  same_roster d (run o now d).
Proof.
  destruct o; cbn [run]; intros H; try done; clear H.
  - unfold record_challenger_proposal; frame.
  - unfold record_learning_cycle; frame.
  - unfold record_evidence; frame.
  - unfold record_validation_artifact; frame.
  - unfold record_reconciliation; frame.
  - unfold clear_reconciliation_halt; frame.
Qed.

Lemma same_roster_refl d : same_roster d d.
Proof. done. Qed.

Lemma inv_run o now d seen :
  inv d seen -> (forall s, op_snapshot o = Some s -> s ∈ seen) ->
  inv (run o now d) (sleeve (run o now d) ++ seen).
Proof.
  intros Hinv Hsn. destruct o; try (eapply inv_same; [done|by apply run_same_roster]).
  - cbn [run]. pose proof (register_cases settings strategy symbol_ version_ asset account actor_
      origin_ now d (inv_ids _ _ Hinv) (inv_idents _ _ Hinv)) as Hc.
    destruct (register _ _ _ _ _ _ _ _ _ d) as [[r'|e] d']; cbn [snd].
    + destruct Hc as [(_ & _ & _ & ->)|[(r & Hr & Hid & Hst & -> & ->)|
        (Hf & Hid & Hn & Hv & Hst & Ho & _ & Hp & Hor & ->)]].
      * eapply inv_same; [done|apply same_roster_refl].
      * pose proof (inv_rows _ _ Hinv r Hr) as [].
        eapply inv_moved; cbn; try done; by apply str_in_spec.
      * eapply inv_inserted; try done; [|by rewrite Ho|by rewrite Hid].
        unfold ident in Hid. injection Hid as _ -> _. apply upper_idemp.
    + destruct Hc as [-> _]. eapply inv_same; [done|apply same_roster_refl].
  - cbn [run]. pose proof (transition_cases s to_ reason_ actor_ evidence_id now d
      (inv_ids _ _ Hinv)) as Hc. cbn zeta in Hc.
    destruct (transition _ _ _ _ _ _ _ d) as [[r'|e] d']; cbn [snd].
    + destruct Hc as (r & Hr & Hid & Hv & Hst & Hnc & _ & ->).
      pose proof (inv_seen _ _ Hinv s (Hsn s eq_refl)) as [_ Hh].
      assert (s = r) as -> by (by apply (Hh r Hr Hid)).
      pose proof (inv_rows _ _ Hinv r Hr) as [].
      eapply inv_moved; cbn; try done.
      * intros Ho ->. by apply Hnc.
      * by intros ->.
      * by intros ->.
      * unfold POSITION_ON_ENTRY. repeat case_match; [by apply str_in_spec..|done].
    + destruct Hc as [-> _]. eapply inv_same; [done|apply same_roster_refl].
  - cbn [run]. pose proof (adopt_cases s actor_ reason_ now d (inv_ids _ _ Hinv)) as Hc.
    destruct (adopt_challenger _ _ _ _ d) as [[r'|e] d']; cbn [snd].
    + destruct Hc as (r & Hr & Hid & _ & _ & _ & [(_ & _ & ->)|(Ho & _ & ->)]).
      * eapply inv_same; [done|apply same_roster_refl].
      * pose proof (inv_rows _ _ Hinv r Hr) as [].
        eapply inv_moved; cbn; try done. by apply str_in_spec.
    + subst d'. eapply inv_same; [done|apply same_roster_refl].
Qed.

(** What no method removes: a sleeve's row and the recorded evidence. *)
Definition keeps d d' : Prop :=
  (forall r, r ∈ sleeve d -> exists r', r' ∈ sleeve d' /\ id r' = id r /\ ident r' = ident r) /\
  (forall x, x ∈ evidence_snapshot d -> x ∈ evidence_snapshot d').

Lemma keeps_refl d : keeps d d.
Proof. split; [|done]. intros r Hr. by exists r. Qed.

Lemma keeps_same d d' :
  sleeve d' = sleeve d -> evidence_snapshot d' = evidence_snapshot d -> keeps d d'.
Proof. unfold keeps. intros -> ->. apply keeps_refl. Qed.

Lemma keeps_moved f r t d : (forall x, id (f x) = id x) -> (forall x, ident (f x) = ident x) ->
  keeps d (moved f r t d).
Proof.
  intros Hi Hd. split; [|done]. intros x Hx.
  exists (if at_version (id r) (version r) x then f x else x). split.
  - apply elem_of_update_where. by exists x.
  - by destruct (at_version _ _ x).
Qed.

Lemma run_keeps o now d :
  NoDup (map id (sleeve d)) -> NoDup (map ident (sleeve d)) -> keeps d (run o now d).
Proof.
  intros Hi Hd. destruct o; cbn [run].
  - pose proof (register_cases settings strategy symbol_ version_ asset account actor_
      origin_ now d Hi Hd) as Hc.
    destruct (register _ _ _ _ _ _ _ _ _ d) as [[r'|e] d']; cbn [snd];
      [|destruct Hc as [-> _]; apply keeps_refl].
    destruct Hc as [(_ & _ & _ & ->)|[(r & Hr & Hid & Hst & -> & ->)|
      (_ & _ & _ & _ & _ & _ & _ & _ & _ & ->)]]; [apply keeps_refl|by apply keeps_moved|].
    split; [|done]. intros x Hx. exists x. split; [cbn; apply elem_of_app; by left|done].
  - pose proof (transition_cases s to_ reason_ actor_ evidence_id now d Hi) as Hc.
    cbn zeta in Hc. destruct (transition _ _ _ _ _ _ _ d) as [[r'|e] d']; cbn [snd].
    + destruct Hc as (r & _ & _ & _ & _ & _ & _ & ->). by apply keeps_moved.
    + destruct Hc as [-> _]. apply keeps_refl.
  - pose proof (adopt_cases s actor_ reason_ now d Hi) as Hc.
    destruct (adopt_challenger _ _ _ _ d) as [[r'|e] d']; cbn [snd].
    + destruct Hc as (r & _ & _ & _ & _ & _ & [(_ & _ & ->)|(_ & _ & ->)]);
        [apply keeps_refl|by apply keeps_moved].
    + subst d'. apply keeps_refl.
  - by apply keeps_same.
  - unfold record_challenger_proposal, txn, mbind, prog_bind, reads, modifies, mret, prog_ret; cbn.
    repeat case_match; cbn in *; simplify_eq; by apply keeps_same.
  - unfold record_learning_cycle, txn, mbind, prog_bind, reads, modifies, mret, prog_ret, raise; cbn.
    repeat case_match; cbn in *; simplify_eq; by apply keeps_same.
  - unfold record_evidence, txn, mbind, prog_bind, reads, modifies, mret, prog_ret, raise; cbn.
    repeat case_match; cbn in *; simplify_eq; try (by apply keeps_same; cbn).
    split; [intros r Hr; by exists r|]. intros x Hx. cbn. apply elem_of_app. by left.
  - unfold record_validation_artifact, txn, mbind, prog_bind, reads, modifies, mret, prog_ret, raise; cbn.
    repeat case_match; cbn in *; simplify_eq; by apply keeps_same.
  - unfold record_reconciliation, txn, mbind, prog_bind, reads, modifies, mret, prog_ret, raise, upsert_recon; cbn.
    repeat case_match; cbn in *; simplify_eq; by apply keeps_same.
  - by apply keeps_same.
  - unfold clear_reconciliation_halt, txn, mbind, prog_bind, reads, modifies, mret, prog_ret, raise; cbn.
    repeat case_match; cbn in *; simplify_eq; by apply keeps_same.
  - by apply keeps_same.
Qed.

Lemma inv_empty : inv (@empty_db F) [].
Proof.
  constructor; cbn; try apply NoDup_nil_2; intros x Hx; by apply not_elem_of_nil in Hx.
Qed.

Lemma inv_steps d seen d' seen' :
  rtc step (d, seen) (d', seen') -> inv d seen -> inv d' seen' /\ (forall s, s ∈ seen -> s ∈ seen').
Proof.
  intros Hs. remember (d, seen) as x eqn:Ex. remember (d', seen') as y eqn:Ey.
  revert d seen Ex. induction Hs as [x|x y z Hxy _ IH]; intros d seen -> Hinv; simplify_eq; [done|].
  inversion Hxy; subst. destruct (IH eq_refl _ _ eq_refl) as [? Hsub]; [by apply inv_run|].
  split; [done|]. intros s Hs. apply Hsub. apply elem_of_app. by right.
Qed.

Lemma keeps_trans d1 d2 d3 : keeps d1 d2 -> keeps d2 d3 -> keeps d1 d3.
Proof.
  intros [H1 E1] [H2 E2]. split; [|by auto]. intros r Hr.
  destruct (H1 r Hr) as (r2 & Hr2 & ? & ?). destruct (H2 r2 Hr2) as (r3 & Hr3 & ? & ?).
  exists r3. split; [done|]. split; congruence.
Qed.

Lemma keeps_steps d seen d' seen' :
  rtc step (d, seen) (d', seen') -> inv d seen -> keeps d d'.
Proof.
  intros Hs. remember (d, seen) as x eqn:Ex. remember (d', seen') as y eqn:Ey.
  revert d seen Ex. induction Hs as [x|x y z Hxy _ IH]; intros d seen -> Hinv; simplify_eq;
    [apply keeps_refl|].
  inversion Hxy; subst. eapply keeps_trans; [apply run_keeps; apply Hinv|].
  apply (IH eq_refl _ _ eq_refl). by apply inv_run.
Qed.

Lemma reachable_inv d seen : reachable d seen -> inv d seen.
Proof. intros H. by apply (inv_steps _ _ _ _ H), inv_empty. Qed.
End reachable.
