(* ===== verification/StoreTheorems.v ===== *)
(** * Theorems about the lifecycle store

    What holds of every database the store's methods can produce
    ([StoreProofs.reachable]), and what each roster method and the
    reconciliation latch do. *)

From S2P Require Import Prelude PyFloat Routing Store StoreProofs.
From Stdlib Require Import Floats.SpecFloat.

Section theorems.
Context {F : Type} (settings : StoreSettings).
Context (evidence_hash : Scope -> gmap string (pyval F) -> list SourceRef -> string).
Context (artifact_hash : Artifact F -> string).
Implicit Types d : DB F.
Local Abbreviation run := (run settings evidence_hash artifact_hash).
Local Abbreviation step := (step settings evidence_hash artifact_hash).
Local Abbreviation reachable := (reachable settings evidence_hash artifact_hash).


(** C33. The append-only trail is the roster: in every reachable database the
    entries of a sleeve are numbered 1, 2, ..., version, each starts from the
    state the one before it reached, and replaying them gives the sleeve's
    version and state. *)
Theorem audit_trail_replays d seen r :
  reachable d seen -> r ∈ sleeve d ->
  replay (history (id r) d) = Some (version r, state r) /\
  map seq (history (id r) d) = seqZ 1 (version r).
Proof.
  intros H%reachable_inv Hr. pose proof (ok_replay _ _ (inv_rows _ _ H r Hr)) as Hrep.
  split; [done|]. by apply replay_seqs in Hrep as [_ ?].
Qed.

(** Every reachable roster knows where a sleeve's position is: a live
    sleeve's exits go to the live venue and a paper sleeve's to the simulator,
    one row per (strategy, symbol, account). *)
Theorem roster_exit_venue d seen r mode h why :
  reachable d seen -> r ∈ sleeve d ->
  let exit := route (resolve_route (state r) REDUCE_ONLY mode (position_environment r) h why (origin r)) in
  (state r = "live" -> exit = LIVE) /\ (state r = "paper" -> exit = SIMULATED) /\
  (forall r', r' ∈ sleeve d -> ident r' = ident r -> r' = r).
Proof.
  intros H%reachable_inv Hr exit. pose proof (inv_rows _ _ H r Hr) as Hok.
  repeat split.
  - intros Hs. subst exit. by rewrite (ok_live _ _ Hok Hs).
  - intros Hs. subst exit. by rewrite (ok_paper _ _ Hok Hs).
  - intros r' Hr' E. by apply (NoDup_map_inj ident (sleeve d)); [apply H|..].
Qed.

(** No lost update: once a transition from a snapshot has committed, every
    later transition from the same snapshot, after any calls in between,
    raises and changes nothing. *)
Theorem no_lost_update d seen s to1 why1 who1 ev1 now1 r d1 d2 seen2 to2 why2 who2 ev2 now2 :
  reachable d seen -> s ∈ seen ->
  transition s to1 why1 who1 ev1 None now1 d = (Ok r, d1) ->
  rtc step (d1, sleeve d1 ++ seen) (d2, seen2) ->
  exists e, transition s to2 why2 who2 ev2 None now2 d2 = (Err e, d2).
Proof.
  intros Hinv%reachable_inv Hs Htr Hsteps.
  pose proof (transition_cases s to1 why1 who1 ev1 now1 d (inv_ids _ _ Hinv)) as Hc.
  rewrite Htr in Hc. destruct Hc as (x & Hx & Hid & Hv & _ & _ & -> & _).
  assert (inv d1 (sleeve d1 ++ seen)) as Hinv1.
  { replace d1 with (run (OpTransition s to1 why1 who1 ev1) now1 d) by (cbn; by rewrite Htr).
    apply inv_run; [done|]. by intros ? [= ->]. }
  pose proof (inv_steps _ _ _ _ _ _ _ Hsteps Hinv1) as [Hinv2 Hsub].
  set (x' := transitioned _ _ _ _ _ _ x) in *.
  assert (x' ∈ sleeve d1) as Hx'.
  { pose proof (transition_cases s to1 why1 who1 ev1 now1 d (inv_ids _ _ Hinv)) as Hc.
    rewrite Htr in Hc. destruct Hc as (y & Hy & Hidy & _ & _ & _ & E & ->).
    assert (y = x) as -> by (apply (NoDup_map_inj id (sleeve d)); [apply Hinv|..]; congruence).
    apply elem_of_moved; [apply Hinv|done|]. by left. }
  pose proof (inv_seen _ _ Hinv2 x' (Hsub x' ltac:(apply elem_of_app; by left))) as [_ Hh].
  pose proof (transition_cases s to2 why2 who2 ev2 now2 d2 (inv_ids _ _ Hinv2)) as Hc2.
  destruct (transition s to2 why2 who2 ev2 None now2 d2) as [[r2|e] d2']; cbn zeta in Hc2.
  - destruct Hc2 as (y & Hy & Hidy & Hvy & _).
    destruct (Hh y Hy) as [Hle _]; [cbn; congruence|]. cbn in Hle. lia.
  - destruct Hc2 as [-> _]. eauto.
Qed.

Lemma fresh_seq d seen r :
  inv d seen -> r ∈ sleeve d ->
  existsb (fun t => Z.eqb (t_sleeve_id t) (id r) && Z.eqb (seq t) (version r + 1))
    (transition_log d) = false.
Proof.
  intros Hinv Hr. apply not_true_iff_false. rewrite existsb_exists.
  intros (t & Ht & [Hid Hsq]%andb_true_iff).
  pose proof (ok_replay _ _ (inv_rows _ _ Hinv r Hr)) as Hrep.
  apply replay_seqs in Hrep as [_ Hseqs].
  assert (seq t ∈ map seq (history (id r) d)) as Hin.
  { apply elem_of_map. exists t. split; [done|]. apply elem_of_filter_b.
    by rewrite list_elem_of_In. }
  rewrite Hseqs, elem_of_seqZ in Hin. apply Z.eqb_eq in Hsq. lia.
Qed.

Definition evidence_exists (ev : option Z) d : Prop :=
  forall e, ev = Some e -> exists x, x ∈ evidence_snapshot d /\ e_id x = e.

Lemma dangling_spec ev d :
  match ev with
  | None => false
  | Some e => negb (existsb (fun x => Z.eqb (e_id x) e) (evidence_snapshot d))
  end = false <-> evidence_exists ev d.
Proof.
  unfold evidence_exists. destruct ev as [e|]; [|naive_solver].
  rewrite negb_false_iff, existsb_exists. setoid_rewrite Z.eqb_eq.
  setoid_rewrite <- list_elem_of_In. naive_solver.
Qed.

(** What a transition from a snapshot some process read comes to. *)
Lemma transition_outcome d seen s to_ why who ev now :
  inv d seen -> s ∈ seen ->
  let f := transitioned to_ why (version s + 1) (probation_after s to_)
             (POSITION_ON_ENTRY to_ (position_environment s)) now in
  match transition s to_ why who ev None now d with
  | (Ok r, d') =>
      to_ ∈ STATES /\ s ∈ sleeve d /\ evidence_exists ev d /\
      (to_ = "live" -> origin s <> "challenger") /\ r = f s /\
      d' = moved f s (trail s (version s + 1) (state s) to_ why who ev now) d
  | (Err e, d') =>
      d' = d /\
      (to_ ∉ STATES \/ (s ∉ sleeve d /\ (to_ <> "live" -> e = ConcurrentTransitionError (key s) (version s))) \/
       ~ evidence_exists ev d \/ (to_ = "live" /\ origin s = "challenger"))
  end.
Proof.
  intros Hinv Hs. pose proof (inv_ids _ _ Hinv) as Hn.
  pose proof (inv_seen _ _ Hinv s Hs) as [_ Hh].
  pose proof (transition_cases s to_ why who ev now d Hn) as Hc. cbn zeta in Hc.
  unfold transition in *. destruct (str_in to_ STATES) eqn:Hst; cbn [negb] in *.
  2: { split; [done|]. left. rewrite <- str_in_spec. congruence. }
  revert Hc. unfold txn. cbn [default]. unfold mbind, prog_bind.
  destruct (live_barrier_cases s to_ d Hn) as [[-> Hb]|(-> & Hl & r & Hr & Hid & Ho)].
  2: { intros _. split; [done|]. right. 
       destruct (Z.eq_dec (version s) (version r)) as [E|E].
       - right. right. destruct (Hh r Hr Hid) as [_ Heq]. by rewrite (Heq E).
       - left. split; [|by intros ?]. intros Hsd. apply E.
         by rewrite (NoDup_map_inj id (sleeve d) s r Hn Hsd Hr (eq_sym Hid)). }
  unfold reads, with_sleeve, modifies.
  destruct (version_check (id s) (version s) d Hn) as [[-> (r & Hr & Hid & Hv)]|[-> Hnone]].
  2: { intros _. split; [done|]. right. left. split; [|done]. intros Hsd. by apply (Hnone s Hsd). }
  destruct (Hh r Hr Hid) as [_ Heq]. specialize (Heq (eq_sym Hv)). subst r.
  cbn [Nat.eqb negb]. unfold _append_transition, mbind, prog_bind, reads.
  cbn [transition_log set_sleeves evidence_snapshot].
  rewrite (fresh_seq d seen s Hinv Hr).
  match goal with |- context [if ?b then raise _ else _] => destruct b eqn:Hev end.
  { intros _. split; [done|]. right. right. left.
    intros Hex%dangling_spec. cbn [evidence_snapshot set_sleeves] in Hev. congruence. }
  cbn [evidence_snapshot set_sleeves] in Hev. apply dangling_spec in Hev. unfold modifies.
  match goal with |- context [row_by_id ?i ?x] =>
    pose proof (row_by_id_moved (transitioned to_ why (version s + 1) (probation_after s to_)
      (POSITION_ON_ENTRY to_ (position_environment s)) now) s
      (trail s (version s + 1) (state s) to_ why who ev now) d Hn Hr (fun _ => eq_refl)) as Hrow;
    change x with (moved (transitioned to_ why (version s + 1) (probation_after s to_)
      (POSITION_ON_ENTRY to_ (position_environment s)) now) s
      (trail s (version s + 1) (state s) to_ why who ev now) d); rewrite Hrow end.
  intros _. apply str_in_spec in Hst. repeat split; try done.
  intros E. by apply (Hb E s).
Qed.

(** C15. "Move a sleeve, or raise. There is no third outcome": from a snapshot
    some process read, a transition succeeds exactly when the state is known,
    the row has not moved since, the cited evidence exists and, for live, the
    row is not a challenger's; it then writes that one row, and otherwise the
    database is untouched. *)
Theorem transition_spec d seen s to_ why who ev now :
  reachable d seen -> s ∈ seen ->
  match transition s to_ why who ev None now d with
  | (Ok r, d') =>
      to_ ∈ STATES /\ s ∈ sleeve d /\ evidence_exists ev d /\
      (to_ = "live" -> origin s <> "challenger") /\
      r = transitioned to_ why (version s + 1) (probation_after s to_)
            (POSITION_ON_ENTRY to_ (position_environment s)) now s /\
      (forall x, x ∈ sleeve d' <-> x = r \/ (x ∈ sleeve d /\ id x <> id s))
  | (Err _, d') =>
      d' = d /\
      (to_ ∉ STATES \/ s ∉ sleeve d \/ ~ evidence_exists ev d \/
       (to_ = "live" /\ origin s = "challenger"))
  end.
Proof.
  intros Hinv%reachable_inv Hs. pose proof (inv_ids _ _ Hinv) as Hn.
  pose proof (transition_outcome d seen s to_ why who ev now Hinv Hs) as Hc. cbn zeta in Hc.
  destruct (transition _ _ _ _ _ _ _ d) as [[r|e] d'].
  - destruct Hc as (Hst & Hr & Hev & Hb & -> & ->). repeat split; try done; by apply elem_of_moved.
  - destruct Hc as [-> Hc]. split; [done|]. tauto.
Qed.

(** The only call that clears the challenger barrier is [adopt_challenger],
    with an actor that is neither blank nor one of the automated callers and a
    reason; it moves no state and is the next entry of the trail. *)
Theorem only_adoption_clears_barrier d seen o now r r' :
  reachable d seen -> (forall s, op_snapshot o = Some s -> s ∈ seen) ->
  r ∈ sleeve d -> r' ∈ sleeve (run o now d) -> id r' = id r ->
  origin r = "challenger" -> origin r' <> "challenger" ->
  exists s who why, o = OpAdopt s who why /\
    strip who <> "" /\ lower (strip who) ∉ AUTOMATION /\ strip why <> "" /\
    state r' = state r /\
    transition_log (run o now d) = transition_log d ++
      [trail r (version r + 1) (state r) (state r)
         ("challenger adopted: " +:+ strip why) (strip who) None now].
Proof.
  intros Hinv%reachable_inv Hsn Hr Hr' Hid Ho Ho'. pose proof (inv_ids _ _ Hinv) as Hn.
  assert (forall x, x ∈ sleeve d -> id x = id r -> x = r) as Hu
    by (intros x Hx E; by apply (NoDup_map_inj id (sleeve d))).
  assert (sleeve (run o now d) = sleeve d -> False) as Hsame.
  { intros E. rewrite E in Hr'. apply Ho'. by rewrite (Hu r' Hr' Hid). }
  destruct o; try (exfalso; apply Hsame;
    refine (proj1 (run_same_roster settings evidence_hash artifact_hash _ now d _)); exact I).
  - exfalso. cbn [run] in *.
    pose proof (register_cases settings strategy symbol_ version_ asset account actor_ origin_
      now d Hn (inv_idents _ _ Hinv)) as Hc.
    destruct (register _ _ _ _ _ _ _ _ _ d) as [[x|e] d']; cbn [snd] in *;
      [|by destruct Hc as [-> _]].
    destruct Hc as [(_ & _ & _ & ->)|[(y & Hy & _ & _ & _ & ->)|(_ & _ & Hix & _ & _ & _ & _ & _ & _ & ->)]];
      [done| |].
    + apply elem_of_moved in Hr' as [->|[Hr' _]]; [| |done|done];
        [by rewrite (Hu y Hy Hid) in Ho'|by rewrite (Hu r' Hr' Hid) in Ho'].
    + cbn in Hr'. apply elem_of_app in Hr' as [Hr'|Hr'];
        [by rewrite (Hu r' Hr' Hid) in Ho'|].
      apply list_elem_of_singleton in Hr' as ->. pose proof (inv_next _ _ Hinv r Hr). lia.
  - exfalso. cbn [run] in *.
    pose proof (transition_cases s to_ reason_ actor_ evidence_id now d Hn) as Hc. cbn zeta in Hc.
    destruct (transition _ _ _ _ _ _ _ d) as [[x|e] d']; cbn [snd] in *;
      [|by destruct Hc as [-> _]].
    destruct Hc as (y & Hy & _ & _ & _ & _ & _ & ->).
    apply elem_of_moved in Hr' as [->|[Hr' _]]; [| |done|done];
      [by rewrite (Hu y Hy Hid) in Ho'|by rewrite (Hu r' Hr' Hid) in Ho'].
  - cbn [run] in *. pose proof (adopt_cases s actor_ reason_ now d Hn) as Hc.
    destruct (adopt_challenger _ _ _ _ d) as [[x|e] d']; cbn [snd] in *; [|by subst d'].
    destruct Hc as (y & Hy & _ & Hw & Hau & Hwhy & [(_ & _ & ->)|(Hoy & _ & ->)]); [done|].
    apply elem_of_moved in Hr' as [->|[Hr' _]]; [| |done|done];
      [|by rewrite (Hu r' Hr' Hid) in Ho'].
    rewrite (Hu y Hy Hid) in *. exists s, actor_, reason_. done.
Qed.

(** Registering is idempotent, except that a retired sleeve comes back as a
    candidate, with its probation count, origin and position environment: coming
    back does not launder the record. *)
Theorem register_spec d seen st sy ver ac account who origin_ now r d' :
  reachable d seen ->
  register settings st sy ver ac account who origin_ now d = (Ok r, d') ->
  ident r = (st, upper sy, account_or settings account) /\ r ∈ sleeve d' /\
  match List.find (is_sleeve st (upper sy) (account_or settings account)) (sleeve d) with
  | None => state r = "candidate" /\ version r = 1 /\ probation_count r = 0 /\ origin r = origin_
  | Some old =>
      probation_count r = probation_count old /\ origin r = origin old /\
      position_environment r = position_environment old /\
      (state old <> "retired" -> r = old /\ d' = d) /\
      (state old = "retired" -> state r = "candidate" /\ version r = version old + 1)
  end.
Proof.
  intros Hinv%reachable_inv Hreg.
  pose proof (register_cases settings st sy ver ac account who origin_ now d
    (inv_ids _ _ Hinv) (inv_idents _ _ Hinv)) as Hc. rewrite Hreg in Hc.
  assert (forall x, x ∈ sleeve d -> ident x = (st, upper sy, account_or settings account) ->
    List.find (is_sleeve st (upper sy) (account_or settings account)) (sleeve d) = Some x) as Hfind.
  { intros x Hx E. apply find_unique; [done|by apply is_sleeve_spec|].
    intros y Hy Ey%is_sleeve_spec. apply (NoDup_map_inj ident (sleeve d)); [apply Hinv|..]; congruence. }
  destruct Hc as [(Hr & E & Hs & ->)|[(x & Hx & E & Hs & -> & ->)|
    (Hf & E & _ & Hv & Hs & Ho & Hpc & _ & _ & ->)]].
  - rewrite (Hfind r Hr E). repeat split; done.
  - rewrite (Hfind x Hx E). split; [done|]. split; [|done].
    apply elem_of_moved; [apply Hinv|done|by left].
  - split; [done|]. split; [cbn; apply elem_of_app; right; by apply list_elem_of_singleton|].
    destruct (List.find _ (sleeve d)) as [y|] eqn:Hy; [|done].
    apply find_some_elem in Hy as [Hy Ey%is_sleeve_spec]. by apply (Hf y Hy) in Ey.
Qed.
End theorems.

(** ** The reconciliation latch *)

Section latch_theorems.
Context {F : Type} (settings : StoreSettings).
Context (evidence_hash : Scope -> gmap string (pyval F) -> list SourceRef -> string).
Context (artifact_hash : Artifact F -> string).
Implicit Types d : DB F.
Local Abbreviation run := (run settings evidence_hash artifact_hash).

Lemma next_latch_halted h ok breaks error av now :
  halted h = true -> fst (fst (fst (next_latch settings h ok breaks error av now))) = true.
Proof. intros Hh. unfold next_latch. repeat case_match; cbn; congruence. Qed.

Lemma upsert_recon_lookup k k' fresh merge d :
  reconciliation (upsert_recon k fresh merge d) !! k' =
    if decide (k = k') then
      Some (match reconciliation d !! k with
            | None => {| r_halt := fresh; cleared_by := ""; cleared_at := None |}
            | Some r => {| r_halt := merge (r_halt r); cleared_by := cleared_by r;
                           cleared_at := cleared_at r |}
            end)
    else reconciliation d !! k'.
Proof.
  unfold upsert_recon. cbn. rewrite lookup_insert. case_decide; [|done].
  by destruct (reconciliation d !! k).
Qed.

Lemma account_or_Some account : account_or settings (Some (account_or settings account)) = account_or settings account.
Proof.
  destruct account as [a|]; cbn; unfold str_or; repeat case_decide; congruence.
Qed.


(** What one check leaves: a good check resets the counter and the grace clock
    but not the halt; a break counts and halts at the threshold; an outage counts
    nothing and halts once the grace period since the first failure is spent. The
    call returns the state it left. *)
Theorem record_reconciliation_spec b e ok breaks error available account now d :
  let h := reconciliation_state settings b e account d in
  let res := record_reconciliation settings b e ok breaks error available account now d in
  let h' := reconciliation_state settings b e account (snd res) in
  fst res = Ok h' /\ last_checked_at h' = Some now /\
  (if available then
     if ok then
       consecutive_breaks h' = 0 /\ first_failure_at h' = None /\
       last_ok_at h' = Some now /\ halted h' = halted h
     else
       consecutive_breaks h' = consecutive_breaks h + 1 /\ last_ok_at h' = last_ok_at h /\
       first_failure_at h' = Some (default now (first_failure_at h)) /\
       halted h' = halted h || (breaks_before_halt settings <=? consecutive_breaks h + 1)%Z
   else
     consecutive_breaks h' = consecutive_breaks h /\ last_ok_at h' = last_ok_at h /\
     first_failure_at h' = Some (default now (first_failure_at h)) /\
     halted h' = halted h ||
       (seconds (dependency_grace_seconds settings) <=? now - default now (first_failure_at h))%Z).
Proof.
  cbn zeta. unfold record_reconciliation, txn, mbind, prog_bind, reads, modifies.
  unfold reconciliation_state. rewrite !account_or_Some.
  set (k := (account_or settings account, b, e)).
  set (h := match reconciliation d !! k with Some row => r_halt row | None => no_halt end).
  destruct (next_latch settings h ok breaks error available now) as [[[h1 c1] f1] w1] eqn:Hl.
  cbn -[upsert_recon]. rewrite upsert_recon_lookup, decide_True by done.
  split; [done|]. subst h. unfold next_latch in Hl.
  destruct available, ok; cbn in Hl |- *; destruct (reconciliation d !! k) as [row|]; cbn in Hl |- *;
    repeat case_match; simplify_eq; cbn;
    repeat (split; try done); rewrite ?orb_true_r, ?orb_false_r; done.
Qed.

(** [n] failing checks in a row, each at its own time. *)
Definition failing_checks b e account (checks : list (Z * string * datetime)) d : DB F :=
  foldl (fun d '(breaks, error, now) =>
    snd (record_reconciliation settings b e false breaks error true account now d)) d checks.

(** Breaks are believed exactly when they persist: from an open latch whose
    counter is [c], [n] > 0 consecutive failing checks leave the counter at
    [c + n], and entries halted if and only if the threshold is reached. *)
Theorem breaks_halt_at_threshold b e account checks d :
  let h := reconciliation_state settings b e account d in
  let h' := reconciliation_state settings b e account (failing_checks b e account checks d) in
  halted h = false -> checks <> [] ->
  consecutive_breaks h' = consecutive_breaks h + Z.of_nat (length checks) /\
  (halted h' = true <->
   breaks_before_halt settings <= consecutive_breaks h + Z.of_nat (length checks)).
Proof.
  cbn zeta. intros Hh. induction checks as [|[[br er] now] checks IH] using rev_ind; [done|]. intros _.
  unfold failing_checks in *. rewrite foldl_app. cbn [foldl].
  set (d1 := foldl _ d checks) in *.
  pose proof (record_reconciliation_spec b e false br er true account now d1) as Hs.
  cbn zeta in Hs. destruct Hs as (_ & _ & Hc & _ & _ & Hhalt). rewrite Hc, Hhalt.
  rewrite length_app, Nat2Z.inj_add. cbn [length].
  destruct checks as [|ch checks]; [subst d1; cbn [foldl length] in *|].
  - rewrite Hh. cbn [orb]. rewrite Z.leb_le. split; [lia|]. split; lia.
  - destruct IH as [IHc IHh]; [done|]. rewrite IHc, orb_true_iff, IHh, Z.leb_le. lia.
Qed.
End latch_theorems.

(** ** Witnesses *)

Module Demo.
Definition settings : StoreSettings :=
  {| s_account_id := DEFAULT_ACCOUNT; dependency_grace_seconds := 600; breaks_before_halt := 2 |}.
Definition ehash : Scope -> gmap string (pyval spec_float) -> list SourceRef -> string :=
  fun _ _ _ => "hash".
Definition ahash : Artifact spec_float -> string := fun _ => "hash".
Definition run := run settings ehash ahash.

Definition sleeve0 (origin_ : string) : Sleeve :=
  {| id := 1; strategy_id := "ema"; strategy_version := "v1"; symbol := "AAPL";
     asset_class := "equity"; account_id := "default"; state := "candidate"; version := 1;
     since := 5; reason := "registered"; probation_count := 0;
     position_environment := POSITION_NONE; origin := origin_ |}.
Definition registered (origin_ : string) : DB spec_float :=
  run (OpRegister "ema" "aapl" "v1" "equity" None "ann" origin_) 5 empty_db.
Definition promoted (origin_ : string) : DB spec_float :=
  run (OpTransition (sleeve0 origin_) "paper" "promoted" "ann" None) 6 (registered origin_).
Definition sleeve1 (origin_ : string) : Sleeve :=
  transitioned "paper" "promoted" 2 0 POSITION_SIMULATED 6 (sleeve0 origin_).

Definition registered_seen origin_ := sleeve (registered origin_) ++ [].
Definition promoted_seen origin_ := sleeve (promoted origin_) ++ registered_seen origin_.

Lemma registered_reachable o : reachable settings ehash ahash (registered o) (registered_seen o).
Proof.
  eapply rtc_l; [|apply rtc_refl].
  exact (step_call settings ehash ahash empty_db []
    (OpRegister "ema" "aapl" "v1" "equity" None "ann" o) 5 ltac:(intros s Hs; discriminate Hs)).
Qed.

Lemma sleeve0_seen o : o ∈ ["human"; "challenger"] -> sleeve0 o ∈ registered_seen o.
Proof.
  intros [->| ->%list_elem_of_singleton]%elem_of_cons; vm_compute; constructor.
Qed.

Lemma promoted_reachable o : o ∈ ["human"; "challenger"] ->
  reachable settings ehash ahash (promoted o) (promoted_seen o).
Proof.
  intros Ho. eapply rtc_r; [apply registered_reachable|].
  refine (step_call settings ehash ahash (registered o) (registered_seen o)
    (OpTransition (sleeve0 o) "paper" "promoted" "ann" None) 6 _).
  intros s [= <-]. by apply sleeve0_seen.
Qed.

Lemma sleeve1_in o : o ∈ ["human"; "challenger"] -> sleeve1 o ∈ sleeve (promoted o).
Proof.
  intros [->| ->%list_elem_of_singleton]%elem_of_cons; vm_compute; constructor.
Qed.
End Demo.

Lemma human_known : "human" ∈ ["human"; "challenger"].
Proof. constructor. Qed.
Lemma challenger_known : "challenger" ∈ ["human"; "challenger"].
Proof. constructor. constructor. Qed.


Lemma audit_trail_replays_witness :
  replay (history 1 (Demo.promoted "human")) = Some (2, "paper") /\
  map seq (history 1 (Demo.promoted "human")) = seqZ 1 2.
Proof.
  exact (audit_trail_replays _ _ _ _ _ _ (Demo.promoted_reachable _ human_known)
    (Demo.sleeve1_in _ human_known)).
Defined.

Lemma roster_exit_venue_witness :
  route (resolve_route "paper" REDUCE_ONLY false POSITION_SIMULATED true "" "human") = SIMULATED.
Proof.
  destruct (roster_exit_venue _ _ _ _ _ _ false true "" (Demo.promoted_reachable _ human_known)
    (Demo.sleeve1_in _ human_known)) as (_ & H & _). exact (H eq_refl).
Defined.

Lemma no_lost_update_witness :
  exists e, transition (Demo.sleeve0 "human") "retired" "decayed" "bob" None None 7
      (Demo.promoted "human") = (Err e, Demo.promoted "human").
Proof.
  eapply (no_lost_update Demo.settings Demo.ehash Demo.ahash (Demo.registered "human") _
    (Demo.sleeve0 "human") "paper" "promoted" "ann" None 6 (Demo.sleeve1 "human")
    (Demo.promoted "human")).
  - apply Demo.registered_reachable.
  - by apply Demo.sleeve0_seen, human_known.
  - vm_compute. reflexivity.
  - apply rtc_refl.
Defined.

Lemma transition_spec_witness :
  transition (Demo.sleeve0 "human") "paper" "promoted" "ann" None None 6 (Demo.registered "human")
    = (Ok (Demo.sleeve1 "human"), Demo.promoted "human") /\
  Demo.sleeve0 "human" ∈ sleeve (Demo.registered "human").
Proof.
  assert (transition (Demo.sleeve0 "human") "paper" "promoted" "ann" None None 6
    (Demo.registered "human") = (Ok (Demo.sleeve1 "human"), Demo.promoted "human")) as E
    by (vm_compute; reflexivity).
  pose proof (transition_spec _ _ _ _ _ (Demo.sleeve0 "human") "paper" "promoted" "ann" None 6
    (Demo.registered_reachable "human") (Demo.sleeve0_seen _ human_known)) as H.
  rewrite E in H. split; [exact E|apply H].
Defined.

Lemma only_adoption_clears_barrier_witness :
  exists s who why, @OpAdopt spec_float (Demo.sleeve1 "challenger") " Ann " "reviewed" = OpAdopt s who why /\
    strip who <> "".
Proof.
  set (o := OpAdopt (Demo.sleeve1 "challenger") " Ann " "reviewed" : op spec_float).
  destruct (only_adoption_clears_barrier Demo.settings Demo.ehash Demo.ahash
    (Demo.promoted "challenger") _ o 8 (Demo.sleeve1 "challenger")
    (adopted 8 (Demo.sleeve1 "challenger")) (Demo.promoted_reachable _ challenger_known))
    as (s & who & why & E & Hw & _).
  - intros s [= <-]. apply elem_of_app. left. apply Demo.sleeve1_in, challenger_known.
  - apply Demo.sleeve1_in, challenger_known.
  - vm_compute. constructor.
  - reflexivity.
  - reflexivity.
  - vm_compute. discriminate.
  - exists s, who, why. split; [exact E|exact Hw].
Defined.

Lemma register_spec_witness :
  match register Demo.settings "ema" "AAPL" "v2" "equity" None "bob" "human" 9
    (Demo.promoted "challenger") with
  | (Ok r, d') => origin r = "challenger" /\ d' = Demo.promoted "challenger"
  | _ => False
  end.
Proof.
  pose proof (register_spec Demo.settings Demo.ehash Demo.ahash (Demo.promoted "challenger") _
    "ema" "AAPL" "v2" "equity" None "bob" "human" 9 (Demo.sleeve1 "challenger")
    (Demo.promoted "challenger") (Demo.promoted_reachable _ challenger_known)
    ltac:(vm_compute; reflexivity)) as H.
  vm_compute in H. vm_compute. split; [apply H|reflexivity].
Defined.


Lemma breaks_halt_at_threshold_witness :
  let d := failing_checks Demo.settings "paper" "paper" None [(1, "", 10); (1, "", 20)]
    (@empty_db spec_float) in
  halted (reconciliation_state Demo.settings "paper" "paper" None d) = true.
Proof.
  cbn zeta. apply (breaks_halt_at_threshold Demo.settings "paper" "paper" None
    [(1, "", 10); (1, "", 20)] (@empty_db spec_float)); [reflexivity|discriminate|].
  vm_compute. discriminate.
Defined.
