(* ===== verification/Contracts.v ===== *)
(** * Shared contracts: order pricing, rate limiting, authentication

    Models [libs/contracts/src/contracts]: [execution.py] (marketable limits,
    implementation shortfall, participation caps), [rate_limit.py] (the token
    bucket), [sanitize.py] and [auth.py] (the internal and admin keys). *)

From S2P Require Import Prelude PyFloat.
From Stdlib Require Import Ascii.

Record HTTPException := { status_code : Z; detail : string }.

(** ** models.py: the contracts the execution path carries *)

Inductive OrderStatus := NEW | ACCEPTED | PARTIALLY_FILLED | FILLED | REJECTED | CANCELLED.
#[export] Instance OrderStatus_eq : EqDecision OrderStatus.
Proof. solve_decision. Defined.

Definition status_value (s : OrderStatus) : string :=
  match s with
  | NEW => "NEW" | ACCEPTED => "ACCEPTED" | PARTIALLY_FILLED => "PARTIALLY_FILLED"
  | FILLED => "FILLED" | REJECTED => "REJECTED" | CANCELLED => "CANCELLED"
  end.

(** [rq_fields_set] is pydantic's [model_fields_set]: the fields the caller named. *)
Record ExecutionOrderRequest (F : Type) := {
  rq_signal_id : string;
  rq_symbol : string;
  rq_side : string;
  rq_qty : Z;
  rq_order_type : string;
  rq_time_in_force : string;
  rq_stop_loss_rate : option F;
  rq_take_profit_rate : option F;
  rq_limit_price : option F;
  rq_decision_price : option F;
  rq_strategy_id : string;
  rq_account_id : string;
  rq_reduce_only : bool;
  rq_fields_set : list string
}.
Arguments rq_signal_id {F}. Arguments rq_symbol {F}. Arguments rq_side {F}.
Arguments rq_qty {F}. Arguments rq_order_type {F}. Arguments rq_time_in_force {F}.
Arguments rq_stop_loss_rate {F}. Arguments rq_take_profit_rate {F}.
Arguments rq_limit_price {F}. Arguments rq_decision_price {F}.
Arguments rq_strategy_id {F}. Arguments rq_account_id {F}. Arguments rq_reduce_only {F}.
Arguments rq_fields_set {F}.

Record ClosePositionRequest (F : Type) := {
  cl_symbol : string;
  cl_position_id : string;
  cl_signal_id : string;
  cl_units : option F;
  cl_qty : option F;
  cl_strategy_id : string;
  cl_account_id : string;
  cl_fields_set : list string
}.
Arguments cl_symbol {F}. Arguments cl_position_id {F}. Arguments cl_signal_id {F}.
Arguments cl_units {F}. Arguments cl_qty {F}. Arguments cl_strategy_id {F}.
Arguments cl_account_id {F}. Arguments cl_fields_set {F}.

Record BrokerPosition (F : Type) := {
  bp_symbol : string;
  bp_qty : F;
  bp_position_id : option string;
  bp_market_value : F;
  bp_average_price : F;
  bp_unrealized_pnl : F
}.
Arguments bp_symbol {F}. Arguments bp_qty {F}. Arguments bp_position_id {F}.
Arguments bp_market_value {F}. Arguments bp_average_price {F}. Arguments bp_unrealized_pnl {F}.

Record AccountInfo (F : Type) := {
  buying_power : F;
  equity : F;
  ai_cash : F;
  mode : string
}.
Arguments buying_power {F}. Arguments equity {F}. Arguments ai_cash {F}. Arguments mode {F}.

Section request.
Context {F : Type} `{PyFloat F}.
Definition len_between (lo hi : nat) (s : string) : bool :=
  (lo <=? String.length s)%nat && (String.length s <=? hi)%nat.
Definition positive_or_none (x : option F) : bool :=
  match x with Some v => nltb nzero v | None => true end.

(** The field constraints pydantic enforces before a handler runs. *)
Definition valid_order_request (r : ExecutionOrderRequest F) : bool :=
  len_between 1 128 (rq_signal_id r) && len_between 1 32 (rq_symbol r) &&
  (0 <? rq_qty r)%Z && (rq_qty r <=? 1000000)%Z &&
  str_in (rq_order_type r) ["MARKET"; "LIMIT"] &&
  str_in (rq_time_in_force r) ["DAY"; "GTC"; "IOC"] &&
  positive_or_none (rq_stop_loss_rate r) && positive_or_none (rq_take_profit_rate r) &&
  positive_or_none (rq_limit_price r) && positive_or_none (rq_decision_price r) &&
  len_between 1 128 (rq_strategy_id r) && len_between 1 128 (rq_account_id r).

Definition valid_close_request (r : ClosePositionRequest F) : bool :=
  len_between 1 32 (cl_symbol r) && len_between 1 128 (cl_position_id r) &&
  len_between 1 128 (cl_signal_id r) && positive_or_none (cl_units r) &&
  positive_or_none (cl_qty r) && len_between 1 128 (cl_strategy_id r) &&
  len_between 1 128 (cl_account_id r).
End request.

(** ** execution.py *)

Definition BUY := "BUY".
Definition SELL := "SELL".

Inductive ValueError := ValueErr (msg : string).

Section execution.
Context {F : Type} `{PyFloat F}.
Local Open Scope py_scope.

Definition marketable_limit_price (reference_price : option F) (side : string)
    (tolerance_bps : F) : result ValueError (option F) :=
  match reference_price with
  | None => Ok None
  | Some ref =>
      if ref <=? nzero then Ok None
      else if tolerance_bps <? nzero
      then Err (ValueErr "tolerance_bps must not be negative")
      else
        let drift := ref * (tolerance_bps / nofZ 10000) in
        let limit := if String.eqb (upper side) BUY then ref + drift else ref - drift in
        Ok (Some (nround 4 (nmax limit (nlit 1 10000))))
  end.

Definition limit_is_marketable (limit_price market_price : F) (side : string) : bool :=
  if String.eqb (upper side) BUY then market_price <=? limit_price
  else market_price >=? limit_price.

Definition limit_fill_price (limit_price market_price : F) (side : string) : option F :=
  if negb (limit_is_marketable limit_price market_price side) then None
  else if String.eqb (upper side) BUY then Some (nmin market_price limit_price)
  else Some (nmax market_price limit_price).

(** [not p or p <= 0] of a price that may be None. *)
Definition unusable (p : option F) : bool :=
  match p with None => true | Some x => negb (ntrue x) || (x <=? nzero) end.

Definition implementation_shortfall_bps (decision_price fill_price : option F)
    (side : string) : option F :=
  if unusable decision_price || unusable fill_price then None
  else match decision_price, fill_price with
    | Some d, Some f =>
        let raw := (f - d) / d in
        let signed := if String.eqb (upper side) BUY then raw else - raw in
        Some (nround 4 (signed * nofZ 10000))
    | _, _ => None
    end.

Definition participation_capped_qty (qty : Z) (average_volume : option F)
    (max_participation_pct : F) : Z :=
  if (qty <=? 0)%Z then 0%Z
  else if unusable average_volume || (max_participation_pct <=? nzero) then qty
  else match average_volume with
    | Some v => let ceiling := ntrunc (v * max_participation_pct) in
                Z.max 0 (Z.min qty ceiling)
    | None => qty
    end.

(** [bars] by their volume; None where the bar has none. *)
Definition average_daily_volume (volumes : list (option F)) (bars_per_day : option F)
    : option F :=
  let volumes := map (fun v => nor (default nzero v) nzero) volumes in
  let volumes := List.filter (fun v => v >? nzero) volumes in
  match volumes with
  | [] => None
  | _ =>
      let mean_bar_volume := nsum volumes / nofZ (Z.of_nat (length volumes)) in
      Some (mean_bar_volume * nor (default nzero bars_per_day) n_one)
  end.
End execution.

(** ** rate_limit.py *)

Section rate_limit.
Context {F : Type} `{PyFloat F}.
Local Open Scope py_scope.

Record TokenBucket := {
  _max : Z;
  _rate : F;
  _buckets : gmap string (F * F)
}.

Definition new_bucket (max_tokens refill_rate_per_minute : Z) : TokenBucket :=
  {| _max := max_tokens; _rate := nofZ refill_rate_per_minute / nofZ 60; _buckets := ∅ |}.

Definition put_bucket (b : TokenBucket) (key : string) (e : F * F) : TokenBucket :=
  {| _max := _max b; _rate := _rate b; _buckets := <[key := e]> (_buckets b) |}.

(** [first] is the clock when the default entry is made, [now] the clock after. *)
Definition consume (b : TokenBucket) (key : string) (first now : F) : bool * TokenBucket :=
  let '(tokens, last_refill) := default (nofZ (_max b), first) (_buckets b !! key) in
  let elapsed := now - last_refill in
  let tokens := nmin (nofZ (_max b)) (tokens + elapsed * _rate b) in
  if tokens <? n_one then (false, put_bucket b key (tokens, now))
  else (true, put_bucket b key (tokens - n_one, now)).

Definition rate_limit_write (b : TokenBucket) (host : option string) (first now : F)
    : result HTTPException unit * TokenBucket :=
  let ip := default "unknown" host in
  let '(allowed, b) := consume b ip first now in
  if allowed then (Ok tt, b)
  else (Err {| status_code := 429;
               detail := "Rate limit exceeded. Max 10 write requests per minute." |}, b).
End rate_limit.
Arguments TokenBucket F : clear implicits.

(** ** sanitize.py *)

Definition symbol_char (a : ascii) : bool :=
  let n := nat_of_ascii a in
  ((65 <=? n)%nat && (n <=? 90)%nat) || ((48 <=? n)%nat && (n <=? 57)%nat) ||
  (n =? 46)%nat || (n =? 47)%nat.
Fixpoint forall_chars (p : ascii -> bool) (s : string) : bool :=
  match s with EmptyString => true | String a s' => p a && forall_chars p s' end.

(** [re.match(r"^[A-Z0-9./]{1,20}$", s)]; [$] also matches before a final newline,
    which [strip] has removed. *)
Definition symbol_format (s : string) : bool :=
  (1 <=? String.length s)%nat && (String.length s <=? 20)%nat && forall_chars symbol_char s.

Definition sanitize_symbol (s : string) : result HTTPException string :=
  let cleaned := upper (strip s) in
  if negb (symbol_format cleaned)
  then Err {| status_code := 422; detail := "Invalid symbol format: " +:+ py_repr s |}
  else Ok cleaned.

Definition validate_positive_amount {F} `{PyFloat F} (value : F) (field_name : string)
    : result HTTPException F :=
  if (value <=? nzero)%py
  then Err {| status_code := 422; detail := field_name +:+ " must be positive" |}
  else Ok (nround 2 value).

(** ** auth.py: the environment is a map of variables *)

Section auth.
Context (environ : gmap string string).

Definition env_get (name d : string) : string := default d (environ !! name).

Definition _insecure_development_bypass_enabled : bool :=
  let app_env := lower (strip (env_get "APP_ENV" "")) in
  let broker := lower (strip (env_get "BROKER" "paper")) in
  let allowed := lower (strip (env_get "ALLOW_INSECURE_DEV_AUTH" "false")) in
  str_in app_env ["development"; "test"] && String.eqb broker "paper" &&
  String.eqb allowed "true".

Definition _required_secret (name : string) : result HTTPException (option string) :=
  let value := env_get name "" in
  if str_true value then Ok (Some value)
  else if _insecure_development_bypass_enabled then Ok None
  else Err {| status_code := 503;
              detail := name +:+ " is not configured; authentication fails closed" |}.

Definition _matches (supplied : option string) (expected : string) : bool :=
  match supplied with Some s => String.eqb s expected | None => false end.

Definition verify_internal_key (x_internal_key : option string) : result HTTPException unit :=
  expected ← _required_secret "INTERNAL_API_KEY";
  match expected with
  | None => Ok tt
  | Some expected =>
      if negb (_matches x_internal_key expected)
      then Err {| status_code := 401; detail := "Invalid internal API key" |}
      else Ok tt
  end.

Definition verify_admin_key (x_internal_key x_admin_key : option string)
    : result HTTPException unit :=
  _ ← verify_internal_key x_internal_key;
  expected_internal ← _required_secret "INTERNAL_API_KEY";
  expected_admin ← _required_secret "ADMIN_API_KEY";
  match expected_internal, expected_admin with
  | Some ei, Some ea =>
      if String.eqb ei ea
      then Err {| status_code := 503;
                  detail := "ADMIN_API_KEY must be distinct from INTERNAL_API_KEY" |}
      else if negb (_matches x_admin_key ea)
      then Err {| status_code := 401; detail := "Invalid admin API key" |}
      else Ok tt
  | _, _ => Ok tt
  end.
End auth.

(** ** Theorems *)

(** A marketable limit protects the price: whatever the market does between
    the decision and the fill, a buy under the limit pays at most the tolerance
    over the reference and a sell receives at least the reference less it, up to
    the rounding of the limit to four decimals and its floor at 0.0001 (exact
    arithmetic). *)
Theorem marketable_limit_protects (ref tol limit market fill : Q) side :
  marketable_limit_price (Some ref) side tol = Ok (Some limit) ->
  limit_fill_price limit market side = Some fill ->
  fill = market /\
  if String.eqb (upper side) BUY
  then (fill <= Qmax (ref * (1 + tol / 10000)) (1 # 10000) + half_ulp 4)%Q
  else (Qmax (ref * (1 - tol / 10000)) (1 # 10000) - half_ulp 4 <= fill)%Q.
Proof.
  unfold marketable_limit_price, limit_fill_price, limit_is_marketable.
  destruct (ref <=? nzero)%py eqn:Hr; [done|]. destruct (tol <? nzero)%py eqn:Ht; [done|].
  set (l := nround 4 _). intros Hl. assert (limit = l) as -> by congruence. clear Hl. reflect_Q.
  set (x := if String.eqb (upper side) BUY then (ref + ref * (tol / nofZ 10000))%py
            else (ref - ref * (tol / nofZ 10000))%py) in *.
  pose proof (Q_round_close 4 (nmax x (nlit 1 10000))) as [Hlo Hhi].
  pose proof (Q_nmax_spec x (nlit 1 10000)) as Hm. fold l in Hlo, Hhi. subst x.
  change (nofZ 10000 : Q) with (10000 # 1) in *. change (nlit 1 10000 : Q) with (1 # 10000) in *.
  cbn [nadd nsub nmul ndiv exact] in *.
  destruct (String.eqb (upper side) BUY).
  - destruct (market <=? l)%py eqn:E; [|done]. cbn [negb]. unfold nmin.
    destruct (l <? market)%py eqn:E'; reflect_Q; [lra|]. intros [= <-]. split; [done|].
    rewrite Hm in Hhi.
    assert (ref + ref * (tol / (10000 # 1)) == ref * (1 + tol / 10000))%Q as Er by field.
    rewrite Er in Hhi. lra.
  - destruct (l <=? market)%py eqn:E; [|done]. cbn [negb]. unfold nmax.
    destruct (market <? l)%py eqn:E'; reflect_Q; [lra|]. intros [= <-]. split; [done|].
    rewrite Hm in Hlo.
    assert (ref - ref * (tol / (10000 # 1)) == ref * (1 - tol / 10000))%Q as Er by field.
    rewrite Er in Hlo. lra.
Qed.

(** A capped order keeps its sign, never grows, and respects the ceiling. *)
Lemma participation_capped_bounds {F} `{PyFloat F} qty volume (pct : F) :
  let r := participation_capped_qty qty volume pct in
  0 <= r <= Z.max 0 qty /\
  (forall v, volume = Some v -> unusable volume = false -> (pct <=? nzero)%py = false ->
     r <= Z.max 0 (ntrunc (v * pct)%py)).
Proof.
  cbn zeta. unfold participation_capped_qty.
  destruct (Z.leb_spec qty 0) as [Hq|Hq]; [split; [|intros v _ _ _]; lia|].
  split.
  - destruct (_ || _); [lia|]. destruct volume; lia.
  - intros v -> -> ->. cbn [orb]. lia.
Qed.

(** *** The rate limit *)

Section bucket_bound.
(** Requests in arrival order: the key and the two clock readings. *)
Definition requests := list (string * Q * Q).

Fixpoint serve (b : TokenBucket Q) (l : requests) : list (string * bool) * TokenBucket Q :=
  match l with
  | [] => ([], b)
  | (key, first, now) :: l' =>
      let '(ok, b') := consume b key first now in
      let '(out, b'') := serve b' l' in ((key, ok) :: out, b'')
  end.

(** How many requests of [key] went through. *)
Definition admitted (key : string) (out : list (string * bool)) : nat :=
  length (List.filter (fun '(k, ok) => String.eqb k key && ok) out).

(** The clock is monotone, from [t]. *)
Fixpoint monotone (t : Q) (l : requests) : Prop :=
  match l with
  | [] => True
  | (_, first, now) :: l' => (t <= first)%Q /\ (first <= now)%Q /\ monotone now l'
  end.
Definition end_of (t : Q) (l : requests) : Q := default t (option_map snd (last l)).

Definition entry_of (b : TokenBucket Q) (key : string) (t : Q) : Q * Q :=
  default (inject_Z (_max b), t) (_buckets b !! key).

(** What a key may still spend by the time [t]: its tokens and what the time since
    its last refill is worth. *)
Definition credit (b : TokenBucket Q) (key : string) (t : Q) : Q :=
  let '(tokens, last_refill) := entry_of b key t in (tokens + (t - last_refill) * _rate b)%Q.

Definition bucket_ok (b : TokenBucket Q) (t : Q) : Prop :=
  (0 <= _rate b)%Q /\ 0 <= _max b /\
  forall key e, _buckets b !! key = Some e -> (0 <= fst e)%Q /\ (snd e <= t)%Q.

Lemma credit_mono b key t t' :
  bucket_ok b t -> (t <= t')%Q -> (credit b key t' <= credit b key t + (t' - t) * _rate b)%Q.
Proof.
  intros (Hr & Hm & _) Ht. unfold credit, entry_of.
  destruct (_buckets b !! key) as [[tok last]|]; cbn -[inject_Z]; nra.
Qed.

Lemma consume_step b key first now t ok b' :
  bucket_ok b t -> (t <= first)%Q -> (first <= now)%Q ->
  consume b key first now = (ok, b') ->
  bucket_ok b' now /\ _rate b' = _rate b /\ _max b' = _max b /\
  (forall k, k <> key -> _buckets b' !! k = _buckets b !! k) /\
  (credit b' key now + (if ok then 1 else 0) <= credit b key now)%Q.
Proof.
  intros (Hr & Hm & He) Ht Hf. unfold consume.
  destruct (default (nofZ (_max b), first) (_buckets b !! key)) as [tok last] eqn:Ed.
  assert ((0 <= tok)%Q /\ (last <= now)%Q) as [Htok Hlast].
  { destruct (_buckets b !! key) as [e|] eqn:Ee; cbn in Ed.
    - subst e. destruct (He _ _ Ee); cbn in *; lra.
    - injection Ed as <- <-. split; [|lra]. unfold Qle. cbn. lia. }
  pose proof (Q_nmin_spec (nofZ (_max b)) (tok + (now - last) * _rate b)%py) as Hmin.
  set (m := nmin _ _) in *. cbn [nadd nsub nmul exact] in *.
  assert ((0 <= m)%Q) as Hm0.
  { rewrite Hmin. apply Q.min_glb; [unfold Qle; cbn; lia|].
    assert (0 <= (now - last) * _rate b)%Q by nra. lra. }
  assert ((m <= credit b key now)%Q) as Hmle.
  { rewrite Hmin. unfold credit, entry_of.
    destruct (_buckets b !! key) as [e|]; cbn in Ed.
    - subst e. apply Q.le_min_r.
    - injection Ed as <- <-. eapply Qle_trans; [apply Q.le_min_l|].
      unfold nofZ, inject_Z. cbn. lra. }
  assert (forall e, (0 <= fst e)%Q -> snd e = now -> bucket_ok (put_bucket b key e) now) as Hok.
  { intros e H0 Hs. split; [done|]. split; [done|]. intros k e'. cbn.
    rewrite lookup_insert_Some. intros [[<- <-]|[_ Hk]]; [split; [done|rewrite Hs; lra]|].
    destruct (He _ _ Hk). split; [done|lra]. }
  assert (forall x, (credit (put_bucket b key (x, now)) key now == x)%Q) as Hcr.
  { intros x. unfold credit, entry_of. cbn. rewrite lookup_insert, decide_True by done. cbn. ring. }
  assert (forall e k, k <> key -> _buckets (put_bucket b key e) !! k = _buckets b !! k) as Hother.
  { intros e k Hk. cbn. by rewrite lookup_insert_ne. }
  destruct (m <? n_one)%py eqn:E; intros [= <- <-]; reflect_Q; change (n_one : Q) with 1%Q in *;
    (split; [apply Hok; [cbn; lra|done]|]); (split; [done|]); (split; [done|]);
    (split; [by apply Hother|]); rewrite Hcr; cbn [nsub exact]; lra.
Qed.

Lemma credit_other b b' key t :
  _buckets b' !! key = _buckets b !! key -> _rate b' = _rate b -> _max b' = _max b ->
  credit b' key t = credit b key t.
Proof. unfold credit, entry_of. by intros -> -> ->. Qed.

Lemma credit_nonneg b key t : bucket_ok b t -> (0 <= credit b key t)%Q.
Proof.
  intros (Hr & Hm & He). unfold credit, entry_of.
  destruct (_buckets b !! key) as [[tok last]|] eqn:Ee; cbn -[inject_Z].
  - destruct (He _ _ Ee) as [H1 H2]; cbn in *.
    assert (0 <= (t - last) * _rate b)%Q by nra. lra.
  - assert (0 <= inject_Z (_max b))%Q by (unfold Qle; cbn; lia).
    assert ((t - t) * _rate b == 0)%Q by ring. lra.
Qed.

Lemma serve_bound key l : forall b t,
  bucket_ok b t -> monotone t l ->
  (inject_Z (Z.of_nat (admitted key (fst (serve b l)))) <=
     credit b key t + (end_of t l - t) * _rate b)%Q.
Proof.
  induction l as [|[[k first] now] l IH]; intros b t Hok Hmon.
  { pose proof (credit_nonneg b key t Hok). change (end_of t []) with t.
    assert ((t - t) * _rate b == 0)%Q as -> by ring. cbn [serve fst].
    change (inject_Z (Z.of_nat (admitted key []))) with 0%Q. lra. }
  destruct Hmon as (Ht & Hf & Hmon). cbn [serve].
  destruct (consume b k first now) as [ok b'] eqn:Ec.
  destruct (consume_step b k first now t ok b' Hok Ht Hf Ec) as (Hok' & Er & Em & Hoth & Hcred).
  specialize (IH b' now Hok' Hmon). rewrite Er in IH.
  assert (end_of t ((k, first, now) :: l) = end_of now l) as ->.
  { unfold end_of. destruct l as [|x l]; [done|]. rewrite last_cons_cons.
    destruct (last (x :: l)) eqn:El; [done|]. by apply last_None in El. }
  pose proof (credit_mono b key t now Hok ltac:(lra)) as Hcm.
  destruct (serve b' l) as [out b'']. cbn [fst] in *. unfold admitted in *. cbn [List.filter].
  destruct (String.eqb_spec k key) as [->|Hk]; cbn [andb].
  - destruct ok; cbn [length]; [rewrite Nat2Z.inj_succ, <- Z.add_1_r, inject_Z_plus;
      change (inject_Z 1) with 1%Q|]; lra.
  - rewrite (credit_other b b' key now (Hoth key (not_eq_sym Hk)) Er Em) in IH. lra.
Qed.
End bucket_bound.

(** The rate limit holds: from a fresh bucket, whatever the other clients do,
    no key gets more requests through over a span of time than the burst size
    plus what the span refills (exact arithmetic). *)
Theorem rate_limit_holds max_tokens per_minute key reqs start :
  0 <= max_tokens -> 0 <= per_minute -> monotone start reqs ->
  (inject_Z (Z.of_nat (admitted key (fst (serve (new_bucket max_tokens per_minute) reqs)))) <=
     inject_Z max_tokens + (end_of start reqs - start) * (inject_Z per_minute / 60))%Q.
Proof.
  intros Hm Hp Hmon. pose proof (serve_bound key reqs (new_bucket max_tokens per_minute) start) as H.
  assert ((_rate (new_bucket max_tokens per_minute) == inject_Z per_minute / 60)%Q) as Er by done.
  rewrite Er in H. assert ((credit (new_bucket max_tokens per_minute) key start == inject_Z max_tokens)%Q) as Ec.
  { unfold credit, entry_of. cbn -[inject_Z Qmult Qplus Qminus Qdiv].
    rewrite lookup_empty. cbn [default]. generalize ((per_minute # 1) / 60)%Q. intros r. simpl. ring. }
  rewrite Ec in H. apply H; [|done]. split; [|split; [done|]].
  - rewrite Er. apply Qle_shift_div_l; [lra|]. unfold Qle. cbn. lia.
  - intros k e He. unfold new_bucket in He. cbn [_buckets] in He. by rewrite lookup_empty in He.
Qed.

Lemma required_secret_closed environ name :
  _insecure_development_bypass_enabled environ = false ->
  exists e, _required_secret environ name =
    match environ !! name with
    | Some v => if String.eqb v "" then Err e else Ok (Some v)
    | None => Err e
    end.
Proof.
  intros Hb. eexists. unfold _required_secret, env_get, str_true. rewrite Hb.
  destruct (environ !! name) as [v|]; [|reflexivity].
  change (default "" (Some v)) with v. by destruct (String.eqb v "").
Qed.

(** The admin key fails closed: where the development bypass is off, an admin
    request passes exactly when both secrets are configured, they differ, and the
    request carries both. *)
Theorem verify_admin_key_spec environ x_internal x_admin :
  _insecure_development_bypass_enabled environ = false ->
  (verify_admin_key environ x_internal x_admin = Ok tt <->
   exists i a, environ !! "INTERNAL_API_KEY" = Some i /\ environ !! "ADMIN_API_KEY" = Some a /\
     i <> "" /\ a <> "" /\ i <> a /\ x_internal = Some i /\ x_admin = Some a).
Proof.
  intros Hb. unfold verify_admin_key, verify_internal_key, _matches.
  destruct (required_secret_closed environ "INTERNAL_API_KEY" Hb) as [e1 ->].
  destruct (required_secret_closed environ "ADMIN_API_KEY" Hb) as [e2 ->].
  split.
  - repeat (case_match; cbn -[String.eqb] in *; simplify_eq; try done); reflect_bools; subst.
    all: eauto 10.
  - intros (i & a & -> & -> & Hi & Ha & Hia & -> & ->). apply String.eqb_neq in Hi, Ha, Hia.
    by rewrite Hi, Ha; cbn -[String.eqb]; rewrite !String.eqb_refl, Hia.
Qed.

(** ** Witnesses *)

Lemma marketable_limit_protects_witness :
  (100 <= Qmax (100 * (1 + 20 / 10000)) (1 # 10000) + half_ulp 4)%Q.
Proof.
  exact (proj2 (marketable_limit_protects 100 20 (nround 4 (100 + 100 * (20 / 10000))%Q) 100 100 "buy"
    eq_refl eq_refl)).
Defined.

Lemma rate_limit_holds_witness :
  (inject_Z (Z.of_nat (admitted "ip" (fst (serve (new_bucket 1 10)
     [("ip", 0, 0); ("ip", 1, 1); ("ip", 6, 6)]%Q)))) <= 1 + (6 - 0) * (10 / 60))%Q.
Proof.
  apply (rate_limit_holds 1 10 "ip" [("ip", 0, 0); ("ip", 1, 1); ("ip", 6, 6)]%Q 0%Q);
    [lia|lia|cbn; lra].
Defined.

Lemma verify_admin_key_spec_witness :
  verify_admin_key (<["INTERNAL_API_KEY" := "i"]> (<["ADMIN_API_KEY" := "a"]> ∅)) (Some "i") (Some "a")
    = Ok tt.
Proof.
  apply (verify_admin_key_spec (<["INTERNAL_API_KEY" := "i"]> (<["ADMIN_API_KEY" := "a"]> ∅))
    (Some "i") (Some "a")); [vm_compute; reflexivity|].
  exists "i", "a". repeat split; discriminate || reflexivity.
Defined.
