(* ===== verification/PaperBroker.v ===== *)
(** * The paper broker

    Models [libs/brokers/src/brokers/paper_broker.py] and the result type of
    [base.py]: the simulator's ledger (cash, positions, realized P&L, orders), the
    orders and closes that change it, and its state file. The market price, the
    clock, the fresh order id and whether the file could be written are arguments
    of the call. *)

From S2P Require Import Prelude PyFloat Store Contracts.
From Stdlib Require Import Floats.SpecFloat.

Record BrokerResult (F : Type) := {
  br_status : OrderStatus;
  br_external_order_id : string;
  br_fill_price : option F;
  br_rejection_reason : option (fstr F)
}.
Arguments br_status {F}. Arguments br_external_order_id {F}.
Arguments br_fill_price {F}. Arguments br_rejection_reason {F}.

Record PaperPosition (F : Type) := {
  pp_symbol : string;
  pp_qty : F;
  pp_average_price : F;
  pp_opened_at : option datetime
}.
Arguments pp_symbol {F}. Arguments pp_qty {F}. Arguments pp_average_price {F}.
Arguments pp_opened_at {F}.

(** An entry of [state.orders]. *)
Record PaperOrder (F : Type) := {
  po_order_id : string;
  po_signal_id : string;
  po_symbol : string;
  po_side : string;
  po_qty : F;
  po_fill_price : F;
  po_notional : F;
  po_submitted_at : datetime;
  po_close : bool
}.
Arguments po_order_id {F}. Arguments po_signal_id {F}. Arguments po_symbol {F}.
Arguments po_side {F}. Arguments po_qty {F}. Arguments po_fill_price {F}.
Arguments po_notional {F}. Arguments po_submitted_at {F}. Arguments po_close {F}.

Record PaperState (F : Type) := {
  cash : F;
  starting_cash : F;
  realized_pnl : F;
  positions : pydict (PaperPosition F);
  orders : list (PaperOrder F)
}.
Arguments cash {F}. Arguments starting_cash {F}. Arguments realized_pnl {F}.
Arguments positions {F}. Arguments orders {F}.

(** The broker: its settings, its state in memory and its state file. [None] is no
    file; the payload is the dict [to_dict] writes. *)
Record PaperBroker (F : Type) := {
  _max_qty : Z;
  _starting_cash : F;
  _slippage_bps : F;
  _state : PaperState F;
  _file : option (PaperState F)
}.
Arguments _max_qty {F}. Arguments _starting_cash {F}. Arguments _slippage_bps {F}.
Arguments _state {F}. Arguments _file {F}.

Section broker.
Context {F : Type} `{PyFloat F}.
Local Open Scope py_scope.
Implicit Types (st : PaperState F) (b : PaperBroker F).

(** *** The state and its file *)

Definition fresh_state (c : F) : PaperState F :=
  {| cash := c; starting_cash := c; realized_pnl := nzero; positions := []; orders := [] |}.

(** [to_dict]: everything, with the last 500 orders. *)
Definition to_dict st : PaperState F :=
  {| cash := cash st; starting_cash := starting_cash st; realized_pnl := realized_pnl st;
     positions := positions st; orders := last_n 500 (orders st) |}.

(** [PaperPosition.from_dict] *)
Definition position_from_dict (p : PaperPosition F) : PaperPosition F :=
  {| pp_symbol := upper (pp_symbol p); pp_qty := pp_qty p;
     pp_average_price := pp_average_price p; pp_opened_at := pp_opened_at p |}.

(** A dict comprehension: a later key overwrites an earlier one. *)
Definition dict_of {V} (l : pydict V) : pydict V :=
  foldl (fun d '(k, v) => dict_set k v d) [] l.

Definition _load_state (default_cash : F) (file : option (PaperState F)) : PaperState F :=
  match file with
  | None => fresh_state default_cash
  | Some payload =>
      {| cash := cash payload; starting_cash := starting_cash payload;
         realized_pnl := realized_pnl payload;
         positions := dict_of (map (fun '(s, p) => (upper s, position_from_dict p))
                                 (positions payload));
         orders := orders payload |}
  end.

Definition with_state st b : PaperBroker F :=
  {| _max_qty := _max_qty b; _starting_cash := _starting_cash b;
     _slippage_bps := _slippage_bps b; _state := st; _file := _file b |}.

(** Write to a temporary file, then replace: all or nothing. *)
Definition _save_state (writable : bool) b : PaperBroker F :=
  if writable then
    {| _max_qty := _max_qty b; _starting_cash := _starting_cash b;
       _slippage_bps := _slippage_bps b; _state := _state b;
       _file := Some (to_dict (_state b)) |}
  else b.

Definition init (max_qty : Z) (starting slippage : F) (file : option (PaperState F))
    : PaperBroker F :=
  {| _max_qty := max_qty; _starting_cash := starting; _slippage_bps := slippage;
     _state := _load_state starting file; _file := file |}.

(** *** Prices *)

(** [mark] is what [mark_price(symbol)] returned. *)
Definition _fill_price b (mark : option F) (side : string) : option F :=
  match mark with
  | None => None
  | Some price =>
      if price <=? nzero then None
      else
        let drift := price * (_slippage_bps b / nofZ 10000) in
        Some (nround 6 (if String.eqb side "BUY" then price + drift else price - drift))
  end.

(** *** The ledger *)

Definition put_position (symbol : string) (p : PaperPosition F) st : PaperState F :=
  {| cash := cash st; starting_cash := starting_cash st; realized_pnl := realized_pnl st;
     positions := dict_set symbol p (positions st); orders := orders st |}.
Definition pop_position (symbol : string) st : PaperState F :=
  {| cash := cash st; starting_cash := starting_cash st; realized_pnl := realized_pnl st;
     positions := dict_pop symbol (positions st); orders := orders st |}.
Definition set_cash (c : F) st : PaperState F :=
  {| cash := c; starting_cash := starting_cash st; realized_pnl := realized_pnl st;
     positions := positions st; orders := orders st |}.
Definition add_realized (x : F) st : PaperState F :=
  {| cash := cash st; starting_cash := starting_cash st;
     realized_pnl := realized_pnl st + x; positions := positions st; orders := orders st |}.
Definition add_order (o : PaperOrder F) st : PaperState F :=
  {| cash := cash st; starting_cash := starting_cash st; realized_pnl := realized_pnl st;
     positions := positions st; orders := orders st ++ [o] |}.

Definition opened (symbol : string) (qty price : F) (now : datetime) : PaperPosition F :=
  {| pp_symbol := symbol; pp_qty := qty; pp_average_price := price; pp_opened_at := Some now |}.
Definition resized (p : PaperPosition F) (qty avg : F) : PaperPosition F :=
  {| pp_symbol := pp_symbol p; pp_qty := qty; pp_average_price := avg;
     pp_opened_at := pp_opened_at p |}.

Definition _apply_buy (symbol : string) (qty price : F) (now : datetime) st : PaperState F :=
  let st :=
    match dict_get symbol (positions st) with
    | None => put_position symbol (opened symbol qty price now) st
    | Some p =>
        if pp_qty p =? nzero then put_position symbol (opened symbol qty price now) st
        else if pp_qty p >? nzero then
          let total_cost := pp_average_price p * pp_qty p + price * qty in
          let qty' := pp_qty p + qty in
          put_position symbol (resized p qty' (total_cost / qty')) st
        else
          let covered := nmin qty (nabs (pp_qty p)) in
          let st := add_realized ((pp_average_price p - price) * covered) st in
          let qty' := pp_qty p + qty in
          if qty' >? nzero then put_position symbol (resized p qty' price) st
          else if qty' =? nzero then pop_position symbol st
          else put_position symbol (resized p qty' (pp_average_price p)) st
    end in
  set_cash (cash st - price * qty) st.

Definition _apply_sell (symbol : string) (qty price : F) (now : datetime) st : PaperState F :=
  let st :=
    match dict_get symbol (positions st) with
    | None => put_position symbol (opened symbol (- qty) price now) st
    | Some p =>
        if pp_qty p =? nzero then put_position symbol (opened symbol (- qty) price now) st
        else if pp_qty p >? nzero then
          let closed := nmin qty (pp_qty p) in
          let st := add_realized ((price - pp_average_price p) * closed) st in
          let qty' := pp_qty p - qty in
          if qty' =? nzero then pop_position symbol st
          else if qty' <? nzero then put_position symbol (resized p qty' price) st
          else put_position symbol (resized p qty' (pp_average_price p)) st
        else
          let total := pp_average_price p * nabs (pp_qty p) + price * qty in
          let qty' := pp_qty p - qty in
          put_position symbol (resized p qty' (total / nabs qty')) st
    end in
  set_cash (cash st + price * qty) st.

(** *** Orders *)

Definition _reject (uuid : string) (reason : fstr F) : BrokerResult F :=
  {| br_status := REJECTED; br_external_order_id := uuid; br_fill_price := None;
     br_rejection_reason := Some reason |}.

Definition place_order (request : ExecutionOrderRequest F) (mark : option F) (uuid : string)
    (now : datetime) (writable : bool) b : BrokerResult F * PaperBroker F :=
  let symbol := upper (rq_symbol request) in
  if String.eqb symbol "REJECT" then (_reject uuid (lit "symbol_rejected"), b) else
  if (_max_qty b <? rq_qty request)%Z then (_reject uuid (lit "qty_limit_exceeded"), b) else
  let side := upper (rq_side request) in
  if negb (str_in side ["BUY"; "SELL"])
  then (_reject uuid (lit ("unsupported_side: " +:+ py_repr (rq_side request))), b) else
  match _fill_price b mark side with
  | None => (_reject uuid (lit "no_market_price"), b)
  | Some price =>
      let limited :=
        match rq_limit_price request with
        | Some limit =>
            if String.eqb (upper (rq_order_type request)) "LIMIT" && ntrue limit
            then limit_fill_price limit price side else Some price
        | None => Some price
        end in
      match limited with
      | None =>
          ({| br_status := CANCELLED; br_external_order_id := uuid; br_fill_price := None;
              br_rejection_reason := Some (lit "limit_not_marketable") |}, b)
      | Some price =>
          let qty := nofZ (rq_qty request) in
          let notional := price * qty in
          if String.eqb side "BUY" && (notional >? cash (_state b)) then
            (_reject uuid [Lit "insufficient_cash: need $"; Fmt ",.2f" notional;
                           Lit ", have $"; Fmt ",.2f" (cash (_state b))], b)
          else
            let st := if String.eqb side "BUY" then _apply_buy symbol qty price now (_state b)
                      else _apply_sell symbol qty price now (_state b) in
            let st := add_order
              {| po_order_id := uuid; po_signal_id := rq_signal_id request;
                 po_symbol := symbol; po_side := side; po_qty := qty; po_fill_price := price;
                 po_notional := nround 2 notional; po_submitted_at := now;
                 po_close := false |} st in
            ({| br_status := ACCEPTED; br_external_order_id := uuid;
                br_fill_price := Some price; br_rejection_reason := None |},
             _save_state writable (with_state st b))
      end
  end.

Definition cancel_order (order_id : string) b : bool := false.

(** *** Closes *)

Definition _resolve_symbol (position_id : string) (symbol : option string) st : option string :=
  let held s := dict_in s (positions st) in
  let asked := match symbol with Some s => if str_true s then Some (upper s) else None
                               | None => None end in
  match asked with
  | Some s => if held s then Some s else
      let candidate := upper position_id in
      if held candidate then Some candidate else
      match List.find (fun o => String.eqb (upper (po_order_id o)) candidate &&
                         held (upper (po_symbol o))) (rev (orders st)) with
      | Some o => Some (upper (po_symbol o))
      | None => Some s
      end
  | None =>
      let candidate := upper position_id in
      if held candidate then Some candidate else
      match List.find (fun o => String.eqb (upper (po_order_id o)) candidate &&
                         held (upper (po_symbol o))) (rev (orders st)) with
      | Some o => Some (upper (po_symbol o))
      | None => None
      end
  end.

(** [None] is the [False] the code returns. [mark] prices the resolved symbol. *)
Definition close_position (position_id : string) (units : option F) (symbol : option string)
    (mark : string -> option F) (uuid : string) (now : datetime) (writable : bool) b
    : option (PaperOrder F) * PaperBroker F :=
  match _resolve_symbol position_id symbol (_state b) with
  | None => (None, b)
  | Some symbol =>
      match dict_get symbol (positions (_state b)) with
      | None => (None, b)
      | Some p =>
          if pp_qty p =? nzero then (None, b) else
          let qty := match units with
            | Some u => if ntrue u then nmin (nabs u) (nabs (pp_qty p)) else nabs (pp_qty p)
            | None => nabs (pp_qty p)
            end in
          let side := if pp_qty p >? nzero then "SELL" else "BUY" in
          match _fill_price b (mark symbol) side with
          | None => (None, b)
          | Some price =>
              let st := if String.eqb side "SELL" then _apply_sell symbol qty price now (_state b)
                        else _apply_buy symbol qty price now (_state b) in
              let close_record :=
                {| po_order_id := uuid; po_signal_id := "close-" +:+ symbol;
                   po_symbol := symbol; po_side := side; po_qty := qty;
                   po_fill_price := price; po_notional := nround 2 (price * qty);
                   po_submitted_at := now; po_close := true |} in
              (Some close_record, _save_state writable (with_state (add_order close_record st) b))
          end
      end
  end.

(** *** Account and positions *)

Definition get_positions (mark : string -> option F) b : list (BrokerPosition F) :=
  map (fun p =>
         let m := nor (default nzero (mark (pp_symbol p))) (pp_average_price p) in
         {| bp_symbol := pp_symbol p; bp_qty := pp_qty p; bp_position_id := None;
            bp_market_value := nround 2 (m * pp_qty p);
            bp_average_price := nround 6 (pp_average_price p);
            bp_unrealized_pnl := nround 2 ((m - pp_average_price p) * pp_qty p) |})
    (List.filter (fun p => negb (pp_qty p =? nzero)) (dict_values (positions (_state b)))).

Definition get_account (mark : string -> option F) b : AccountInfo F :=
  let positions_value := nsum (map bp_market_value (get_positions mark b)) in
  let c := cash (_state b) in
  {| buying_power := nround 2 (nmax c nzero); equity := nround 2 (c + positions_value);
     ai_cash := nround 2 c; mode := "paper" |}.

Definition get_order_history b : list (PaperOrder F) := orders (_state b).
Definition realized_pnl_rounded b : F := nround 2 (realized_pnl (_state b)).

Definition reset (writable : bool) b : PaperBroker F :=
  _save_state writable (with_state (fresh_state (_starting_cash b)) b).
End broker.

(** ** Well-formed ledgers, and the state file *)

Section wellformed.
Context {F : Type} `{PyFloat F}.
Implicit Types (st : PaperState F) (b : PaperBroker F).

(** Every position is filed once, under its own upper-case symbol. *)
Record wf st : Prop := {
  wf_nodup : NoDup (dict_keys (positions st));
  wf_keys : forall k p, (k, p) ∈ positions st -> upper k = k /\ pp_symbol p = k
}.

Lemma wf_fresh c : wf (fresh_state c).
Proof. split; [constructor|]. cbn. by intros k p ?%not_elem_of_nil. Qed.

Lemma wf_put symbol p st :
  wf st -> upper symbol = symbol -> pp_symbol p = symbol -> wf (put_position symbol p st).
Proof.
  intros [Hn Hk] Hu Hs. split; cbn; [by apply dict_nodup_set|].
  intros k q [[= -> ->]|?]%dict_set_elem; eauto.
Qed.

Lemma wf_pop symbol st : wf st -> wf (pop_position symbol st).
Proof.
  intros [Hn Hk]. split; cbn; [by apply dict_nodup_pop|].
  intros k q Hq%dict_pop_elem. eauto.
Qed.

Lemma wf_same st st' : positions st' = positions st -> wf st -> wf st'.
Proof. intros E [Hn Hk]. by split; rewrite E. Qed.

Lemma wf_get st symbol p : wf st -> dict_get symbol (positions st) = Some p ->
  upper symbol = symbol /\ pp_symbol p = symbol.
Proof. intros [_ Hk] Hp. by apply Hk, dict_get_in. Qed.

Lemma wf_cash c st : wf st -> wf (set_cash c st).
Proof. by apply wf_same. Qed.
Lemma wf_realized x st : wf st -> wf (add_realized x st).
Proof. by apply wf_same. Qed.
Lemma wf_order o st : wf st -> wf (add_order o st).
Proof. by apply wf_same. Qed.
Hint Resolve wf_put wf_pop wf_cash wf_realized wf_order : tp.

Lemma wf_apply (buy : bool) symbol qty price now st :
  wf st -> upper symbol = symbol ->
  wf (if buy then _apply_buy symbol qty price now st else _apply_sell symbol qty price now st).
Proof.
  intros Hwf Hu. destruct buy; unfold _apply_buy, _apply_sell; apply wf_cash;
    destruct (dict_get symbol (positions st)) as [p|] eqn:Hp; auto with tp;
    destruct (wf_get st symbol p Hwf Hp) as [_ Hs]; repeat case_match; auto with tp.
Qed.

Lemma dict_of_id {V} (f : string * V -> string * V) (l : pydict V) :
  (forall x, x ∈ l -> f x = x) -> NoDup (dict_keys l) -> dict_of (map f l) = l.
Proof.
  intros Hf. rewrite (map_ext_in f (fun x => x)), map_id
    by (intros x Hx; apply Hf; by rewrite list_elem_of_In).
  unfold dict_of. clear Hf.
  assert (forall d, NoDup (dict_keys (d ++ l)) ->
    foldl (fun d '(k, v) => dict_set k v d) d l = d ++ l) as Hgen; [|by apply (Hgen [])].
  induction l as [|[k v] l IH]; intros d Hn; cbn; [by rewrite app_nil_r|].
  rewrite IH; unfold dict_keys in *.
  - assert (dict_set k v d = d ++ [(k, v)]) as ->; [|by rewrite <- app_assoc].
    assert (k ∉ map fst d) as Hk.
    { rewrite map_app in Hn. apply NoDup_app in Hn as (_ & Hd & _). intros Hk.
      apply (Hd k Hk). cbn. constructor. }
    clear -Hk. induction d as [|[k' v'] d IH]; [done|]. cbn in *.
    apply not_elem_of_cons in Hk as [Hne Hk].
    destruct (String.eqb_spec k k'); [congruence|]. by rewrite IH.
  - assert (dict_set k v d = d ++ [(k, v)]) as ->; [|by rewrite <- app_assoc].
    assert (k ∉ map fst d) as Hk.
    { rewrite map_app in Hn. apply NoDup_app in Hn as (_ & Hd & _). intros Hk.
      apply (Hd k Hk). cbn. constructor. }
    clear -Hk. induction d as [|[k' v'] d IH]; [done|]. cbn in *.
    apply not_elem_of_cons in Hk as [Hne Hk].
    destruct (String.eqb_spec k k'); [congruence|]. by rewrite IH.
Qed.

(** What is written is what is read back. *)
Lemma load_wf c st : wf st -> _load_state c (Some st) = st.
Proof.
  intros [Hn Hk]. unfold _load_state. rewrite dict_of_id; [by destruct st| |done].
  intros [k p] Hx. destruct (Hk k p Hx) as [Hu Hs]. rewrite Hu. f_equal.
  unfold position_from_dict. destruct p; cbn in *. subst. by rewrite Hu.
Qed.
End wellformed.

(** ** Calls, and the ledgers they can produce *)

Inductive call (F : Type) :=
| Place (request : ExecutionOrderRequest F) (mark : option F) (uuid : string) (now : datetime)
    (writable : bool)
| Close (position_id : string) (units : option F) (symbol : option string)
    (mark : string -> option F) (uuid : string) (now : datetime) (writable : bool)
| Restart
| Reset (writable : bool).
Arguments Place {F}. Arguments Close {F}. Arguments Restart {F}. Arguments Reset {F}.

Section calls.
Context {F : Type} `{PyFloat F}.
Implicit Types (st : PaperState F) (b : PaperBroker F).

(** A restart reads the file whatever the last write did. *)
Definition perform (c : call F) b : PaperBroker F :=
  match c with
  | Place r mark uuid now w => snd (place_order r mark uuid now w b)
  | Close pid units sym mark uuid now w => snd (close_position pid units sym mark uuid now w b)
  | Restart => init (_max_qty b) (_starting_cash b) (_slippage_bps b) (_file b)
  | Reset w => reset w b
  end.

(** Orders carry a positive quantity (pydantic's [gt=0]). *)
Definition valid_call (c : call F) : Prop :=
  match c with Place r _ _ _ _ => 0 < rq_qty r | _ => True end.

Definition performed (cs : list (call F)) b : PaperBroker F := foldl (fun b c => perform c b) b cs.

(** The order a call would put through: what both order paths have in common. *)
Definition filled (buy : bool) symbol qty price now (o : PaperOrder F) st : PaperState F :=
  add_order o (if buy then _apply_buy symbol qty price now st
               else _apply_sell symbol qty price now st).

Lemma place_order_cases r mark uuid now w b :
  (exists res, place_order r mark uuid now w b = (res, b) /\ br_fill_price res = None /\
     br_status res <> ACCEPTED) \/
  (exists price o res,
     place_order r mark uuid now w b =
       (res, _save_state w (with_state
          (filled (String.eqb (upper (rq_side r)) "BUY") (upper (rq_symbol r))
             (nofZ (rq_qty r)) price now o (_state b)) b)) /\
     br_status res = ACCEPTED /\ br_fill_price res = Some price /\
     (upper (rq_side r) = "BUY" \/ upper (rq_side r) = "SELL") /\
     (upper (rq_side r) = "BUY" -> (price * nofZ (rq_qty r) >? cash (_state b))%py = false) /\
     exists base, _fill_price b mark (upper (rq_side r)) = Some base /\
       (price = base \/ exists l, rq_limit_price r = Some l /\
          limit_fill_price l base (upper (rq_side r)) = Some price) /\
       (forall l, rq_limit_price r = Some l -> ntrue l = true ->
          upper (rq_order_type r) = "LIMIT" ->
          limit_fill_price l base (upper (rq_side r)) = Some price)).
Proof.
  unfold place_order, filled.
  destruct (String.eqb_spec (upper (rq_symbol r)) "REJECT"); [left; by eexists|].
  destruct (_ <? _)%Z; [left; by eexists|].
  destruct (str_in (upper (rq_side r)) ["BUY"; "SELL"]) eqn:Hs; cbn [negb]; [|left; by eexists].
  apply str_in_spec in Hs.
  assert (upper (rq_side r) = "BUY" \/ upper (rq_side r) = "SELL") as Hside
    by (rewrite !elem_of_cons, elem_of_nil in Hs; tauto). clear Hs.
  destruct (_fill_price b mark (upper (rq_side r))) as [base|] eqn:Hb; [|left; by eexists].
  match goal with |- context [match ?l with Some _ => _ | None => _ end] =>
    destruct l as [price|] eqn:Hl end.
  2: { destruct (rq_limit_price r); [|done]. left. by eexists. }
  destruct (String.eqb (upper (rq_side r)) "BUY" && _) eqn:Hc; [left; by eexists|].
  right. eexists price, _, _. split; [reflexivity|]. repeat split; try done.
  - intros E. rewrite E in Hc. cbn in Hc. done.
  - exists base. split; [done|].
    destruct (rq_limit_price r) as [l|]; [|split; [left; congruence|done]].
    destruct (String.eqb_spec (upper (rq_order_type r)) "LIMIT") as [E|E]; cbn [andb] in Hl.
    + destruct (ntrue l) eqn:Ht; [|split; [left; congruence|intros l' [= <-]; congruence]].
      split; [right; eauto|]. by intros l' [= <-].
    + split; [left; congruence|]. by intros l' [= <-].
Qed.

Lemma close_position_cases pid units sym mark uuid now w b :
  close_position pid units sym mark uuid now w b = (None, b) \/
  (exists symbol p price o,
     close_position pid units sym mark uuid now w b =
       (Some o, _save_state w (with_state
          (filled (negb (pp_qty p >? nzero)%py) symbol (po_qty o) price now o (_state b)) b)) /\
     dict_get symbol (positions (_state b)) = Some p /\ (pp_qty p =? nzero)%py = false /\
     po_symbol o = symbol /\ po_fill_price o = price /\ po_close o = true /\
     po_side o = (if (pp_qty p >? nzero)%py then "SELL" else "BUY") /\
     po_qty o = match units with
       | Some u => if ntrue u then nmin (nabs u) (nabs (pp_qty p)) else nabs (pp_qty p)
       | None => nabs (pp_qty p) end).
Proof.
  unfold close_position, filled. destruct (_resolve_symbol _ _ _) as [symbol|]; [|by left].
  destruct (dict_get symbol _) as [p|] eqn:Hp; [|by left].
  destruct (pp_qty p =? nzero)%py eqn:Hz; [by left|].
  destruct (_fill_price _ _ _) as [price|]; [|by left].
  match goal with |- (Some ?o, _) = _ \/ _ => right; exists symbol, p, price, o end.
  destruct (pp_qty p >? nzero)%py; repeat (split; [done|]); done.
Qed.
End calls.

(** ** The books balance (exact arithmetic) *)

Section balance.
Implicit Types (st : PaperState Q) (b : PaperBroker Q).

Fixpoint dsum {V} (f : V -> Q) (d : pydict V) : Q :=
  match d with [] => 0 | (_, v) :: d' => f v + dsum f d' end%Q.
Definition get_or0 {V} (f : V -> Q) (k : string) (d : pydict V) : Q :=
  match dict_get k d with Some v => f v | None => 0%Q end.

Lemma dsum_set {V} (f : V -> Q) k v d :
  (dsum f (dict_set k v d) == dsum f d - get_or0 f k d + f v)%Q.
Proof.
  unfold get_or0. induction d as [|[k' v'] d IH]; cbn; [ring|].
  destruct (String.eqb k k'); cbn; [ring|]. rewrite IH. ring.
Qed.
Lemma dsum_pop {V} (f : V -> Q) k d :
  (dsum f (dict_pop k d) == dsum f d - get_or0 f k d)%Q.
Proof.
  unfold get_or0. induction d as [|[k' v'] d IH]; cbn; [ring|].
  destruct (String.eqb k k'); cbn; [ring|]. rewrite IH. ring.
Qed.

(** What the open positions cost. *)
Definition at_cost (p : PaperPosition Q) : Q := (pp_qty p * pp_average_price p)%Q.
Definition inventory st : Q := dsum at_cost (positions st).

Definition balanced st : Prop :=
  (cash st + inventory st == starting_cash st + realized_pnl st)%Q.

(** The change in cash, inventory and realized P&L of one applied order. *)
Lemma apply_balanced (buy : bool) symbol qty price now st :
  (0 < qty)%Q -> balanced st ->
  balanced (if buy then _apply_buy symbol qty price now st else _apply_sell symbol qty price now st).
Proof.
  intros Hq. unfold balanced, inventory.
  assert (forall (p : PaperPosition Q), dict_get symbol (positions st) = Some p ->
    get_or0 at_cost symbol (positions st) = at_cost p) as Hg by (intros p Hp; unfold get_or0; by rewrite Hp).
  assert (dict_get symbol (positions st) = None ->
    get_or0 at_cost symbol (positions st) = 0%Q) as Hg0 by (intros Hp; unfold get_or0; by rewrite Hp).
  destruct buy; unfold _apply_buy, _apply_sell.
  - destruct (dict_get symbol (positions st)) as [p|] eqn:Hp;
      [specialize (Hg p eq_refl); clear Hg0
      |specialize (Hg0 eq_refl); cbn -[dict_set]; rewrite dsum_set, Hg0; unfold at_cost; cbn; intros; lra].
    destruct (pp_qty p =? nzero)%py eqn:E0; reflect_Q.
    { cbn -[dict_set]. rewrite dsum_set, Hg. unfold at_cost; cbn.
      change (nzero : Q) with 0%Q in E0. intros. rewrite E0. lra. }
    change (nzero : Q) with 0%Q in *.
    destruct (nltb 0%Q (pp_qty p)) eqn:E1; reflect_Q.
    { cbn -[dict_set]. rewrite dsum_set, Hg. unfold at_cost; cbn. intros Hb.
      assert ((pp_qty p + qty) *
        ((pp_average_price p * pp_qty p + price * qty) / (pp_qty p + qty)) ==
        pp_average_price p * pp_qty p + price * qty)%Q as -> by (field; lra). lra. }
    pose proof (Q_nmin_spec qty (nabs (pp_qty p))) as Hm.
    set (c := nmin qty (nabs (pp_qty p))) in *. cbn [nabs nadd exact] in *.
    rewrite (Qabs_neg (pp_qty p)) in Hm by lra.
    destruct (nltb 0%Q (pp_qty p + qty)%Q) eqn:E2; reflect_Q.
    { rewrite Q.min_r in Hm by lra. cbn -[dict_set]. rewrite dsum_set, Hg. unfold at_cost; cbn.
      intros. rewrite Hm. lra. }
    rewrite Q.min_l in Hm by lra.
    destruct (neqb (pp_qty p + qty)%Q 0%Q) eqn:E3; reflect_Q; cbn -[dict_set dict_pop];
      rewrite ?dsum_set, ?dsum_pop, Hg; unfold at_cost; cbn; intros; rewrite Hm; [|lra].
    assert (pp_qty p == - qty)%Q as -> by lra. lra.
  - destruct (dict_get symbol (positions st)) as [p|] eqn:Hp;
      [specialize (Hg p eq_refl); clear Hg0
      |specialize (Hg0 eq_refl); cbn -[dict_set]; rewrite dsum_set, Hg0; unfold at_cost; cbn; intros; lra].
    destruct (pp_qty p =? nzero)%py eqn:E0; reflect_Q.
    { cbn -[dict_set]. rewrite dsum_set, Hg. unfold at_cost; cbn.
      change (nzero : Q) with 0%Q in E0. intros. rewrite E0. lra. }
    change (nzero : Q) with 0%Q in *.
    destruct (nltb 0%Q (pp_qty p)) eqn:E1; reflect_Q.
    2: { cbn -[dict_set]. rewrite dsum_set, Hg. unfold at_cost; cbn. intros Hb.
      rewrite (Qabs_neg (pp_qty p)), (Qabs_neg (pp_qty p - qty)) by lra.
      assert ((pp_qty p - qty) *
        ((pp_average_price p * - pp_qty p + price * qty) / - (pp_qty p - qty)) ==
        pp_average_price p * pp_qty p - price * qty)%Q as -> by (field; lra). lra. }
    pose proof (Q_nmin_spec qty (pp_qty p)) as Hm. set (c := nmin qty (pp_qty p)) in *.
    cbn [nsub exact] in *.
    destruct (neqb (pp_qty p - qty)%Q 0%Q) eqn:E3; reflect_Q.
    { rewrite Q.min_l in Hm by lra. cbn -[dict_pop]. rewrite dsum_pop, Hg. unfold at_cost; cbn.
      intros. rewrite Hm. assert (pp_qty p == qty)%Q as -> by lra. lra. }
    destruct (nltb (pp_qty p - qty)%Q 0%Q) eqn:E2; reflect_Q.
    + rewrite Q.min_r in Hm by lra. cbn -[dict_set]. rewrite dsum_set, Hg. unfold at_cost; cbn.
      intros. rewrite Hm. lra.
    + rewrite Q.min_l in Hm by lra. cbn -[dict_set]. rewrite dsum_set, Hg. unfold at_cost; cbn.
      intros. rewrite Hm. lra.
Qed.
End balance.

(** ** What every sequence of calls preserves *)

Lemma last_n_idemp {A} n (l : list A) : last_n n (last_n n l) = last_n n l.
Proof.
  unfold last_n. rewrite length_drop, drop_drop. f_equal. lia.
Qed.

Section preservation.
Context {F : Type} `{PyFloat F}.
Context (P : PaperState F -> Prop).
Context (P_wf : forall st, P st -> wf st).
Context (P_fresh : forall c, P (fresh_state c)).
Context (P_to_dict : forall st, P st -> P (to_dict st)).
Context (P_filled : forall buy symbol qty price now o st, P st -> upper symbol = symbol ->
  ((exists z, 0 < z /\ qty = nofZ z) \/
   (exists p x, dict_get symbol (positions st) = Some p /\ (pp_qty p =? nzero)%py = false /\
      qty = match x with
       | Some u => if ntrue u then nmin (nabs u) (nabs (pp_qty p)) else nabs (pp_qty p)
       | None => nabs (pp_qty p) end)) ->
  P (filled buy symbol qty price now o st)).

Definition holds (b : PaperBroker F) : Prop :=
  P (_state b) /\ forall f, _file b = Some f -> P f.

Lemma holds_init m c s : holds (init m c s None).
Proof using P_fresh. split; [apply P_fresh|done]. Qed.

Lemma holds_saved w st b : holds b -> P st -> holds (_save_state w (with_state st b)).
Proof using P_to_dict.
  intros [Hs Hf] Hst. destruct w; [|split; cbn; [done|exact Hf]].
  split; cbn; [done|]. intros f [= <-]. by apply P_to_dict.
Qed.

Lemma holds_perform c b : valid_call c -> holds b -> holds (perform c b).
Proof using P_wf P_fresh P_to_dict P_filled.
  intros Hv Hb. destruct c as [r mark uuid now w|pid units sym mark uuid now w| |w]; cbn [perform].
  - destruct (place_order_cases r mark uuid now w b) as
      [(res & -> & _ & _)|(price & o & res & -> & _)]; cbn [snd]; [done|].
    apply holds_saved; [done|]. apply P_filled; [exact (proj1 Hb)|apply upper_idemp|].
    left. exists (rq_qty r). split; [exact Hv|done].
  - destruct (close_position_cases pid units sym mark uuid now w b) as
      [->|(symbol & p & price & o & -> & Hp & Hz & _ & _ & _ & _ & Hq)]; cbn [snd]; [done|].
    apply holds_saved; [done|].
    destruct (wf_get _ _ _ (P_wf _ (proj1 Hb)) Hp) as [Hu _].
    apply P_filled; [exact (proj1 Hb)|done|]. right. exists p, units. done.
  - destruct Hb as [Hs Hf]. split; cbn; [|exact Hf]. destruct (_file b) as [f|]; [|apply P_fresh].
    specialize (Hf f eq_refl). by rewrite load_wf by auto.
  - apply holds_saved; [done|apply P_fresh].
Qed.

Lemma holds_performed cs b : Forall valid_call cs -> holds b -> holds (performed cs b).
Proof using P_wf P_fresh P_to_dict P_filled.
  unfold performed. revert b. induction cs as [|c cs IH]; intros b Hv Hb; [done|].
  apply Forall_cons in Hv as [Hc Hcs]. cbn. apply IH; [done|]. by apply holds_perform.
Qed.
End preservation.

Section wf_calls.
Context {F : Type} `{PyFloat F}.
Implicit Types (st : PaperState F) (b : PaperBroker F).

Lemma wf_to_dict st : wf st -> wf (to_dict st).
Proof. by apply wf_same. Qed.

Lemma wf_filled buy symbol qty price now o st :
  wf st -> upper symbol = symbol -> wf (filled buy symbol qty price now o st).
Proof. intros. by apply wf_order, wf_apply. Qed.

Lemma to_dict_idemp st : to_dict (to_dict st) = to_dict st.
Proof.
  destruct st. unfold to_dict.
  cbn [orders cash starting_cash realized_pnl positions]. by rewrite last_n_idemp.
Qed.

(** Every write of these calls succeeds. *)
Definition writes (c : call F) : Prop :=
  match c with Place _ _ _ _ w | Close _ _ _ _ _ _ w | Reset w => w = true | Restart => True end.

(** Memory and file agree. *)
Definition in_sync b : Prop :=
  wf (_state b) /\
  match _file b with Some f => f = to_dict (_state b) | None => _state b = fresh_state (_starting_cash b) end.

Lemma in_sync_perform c b : writes c -> in_sync b -> in_sync (perform c b).
Proof.
  intros Hw [Hwf Hf]. destruct c as [r mark uuid now w|pid units sym mark uuid now w| |w]; cbn [perform writes] in *;
    subst.
  - destruct (place_order_cases r mark uuid now true b) as
      [(res & -> & _ & _)|(price & o & res & -> & _)]; cbn [snd]; [done|].
    split; [|done]. apply wf_filled; [done|apply upper_idemp].
  - destruct (close_position_cases pid units sym mark uuid now true b) as
      [->|(symbol & p & price & o & -> & Hp & _)]; cbn [snd]; [done|].
    split; [|done]. apply wf_filled; [done|]. by apply (wf_get _ _ _ Hwf Hp).
  - unfold in_sync, init. cbn -[_load_state]. destruct (_file b) as [f|]; [|split; [apply wf_fresh|done]].
    subst f. rewrite load_wf by by apply wf_to_dict. split; [by apply wf_to_dict|].
    by rewrite to_dict_idemp.
  - split; [apply wf_fresh|done].
Qed.

(** Restarting loses nothing: as long as the state file could be written, at
    any point of any run the broker that starts again from its file has the same
    cash, P&L and positions, and the last 500 orders. *)
Theorem restart_restores max_qty starting slippage cs :
  Forall writes cs ->
  let b := performed cs (init max_qty starting slippage None) in
  _state (perform Restart b) = to_dict (_state b).
Proof.
  intros Hw. cbn zeta.
  assert (forall cs b, Forall writes cs -> in_sync b -> in_sync (performed cs b)) as Hall.
  { clear. unfold performed. induction cs as [|c cs IH]; intros b Hw Hb; [done|].
    apply Forall_cons in Hw as [? ?]. cbn. apply IH; [done|]. by apply in_sync_perform. }
  destruct (Hall cs (init max_qty starting slippage None) Hw) as [Hwf Hf].
  { split; [apply wf_fresh|done]. }
  set (b := performed cs _) in *. cbn -[_load_state]. destruct (_file b) as [f|].
  - subst f. by rewrite load_wf by by apply wf_to_dict.
  - rewrite Hf. done.
Qed.
End wf_calls.

(** The books balance: whatever orders, closes, restarts and failed writes the
    simulator goes through, cash plus the cost of the open positions is the
    starting cash plus the realized P&L, and no symbol has two positions (exact
    arithmetic). *)
Theorem paper_books_balance max_qty (starting slippage : Q) cs :
  Forall valid_call cs ->
  let st := _state (performed cs (init max_qty starting slippage None)) in
  (cash st + inventory st == starting_cash st + realized_pnl st)%Q /\
  NoDup (dict_keys (positions st)).
Proof.
  intros Hv. cbn zeta.
  assert (holds (fun st => wf st /\ balanced st) (performed cs (init max_qty starting slippage None)))
    as [[Hwf Hb] _]; [|split; [done|apply Hwf]].
  apply holds_performed; [by intros st [? ?]| |intros st [? ?]; split; [by apply wf_to_dict|done]|
    |done|].
  - intros c. split; [apply wf_fresh|]. unfold balanced, inventory. cbn. lra.
  - intros buy symbol qty price now o st [Hwf Hb] Hu Hq. split; [by apply wf_filled|].
    assert (0 < qty)%Q as Hpos.
    { destruct Hq as [(z & Hz & ->)|(p & x & _ & Hz & ->)].
      - unfold Qlt. cbn. lia.
      - reflect_Q. change (nzero : Q) with 0%Q in Hz.
        assert (0 < nabs (pp_qty p))%Q as Ha.
        { cbn. apply Qnot_le_lt. intros Hle. apply Hz. pose proof (Qabs_nonneg (pp_qty p)).
          destruct (Qlt_le_dec (pp_qty p) 0) as [Hlt|Hge];
            [rewrite Qabs_neg in Hle by lra|rewrite Qabs_pos in Hle by lra]; lra. }
        destruct x as [u|]; [|done]. destruct (ntrue u) eqn:Hu'; [|done].
        rewrite Q_nmin_spec. apply Q.min_glb_lt; [|done].
        unfold ntrue in Hu'. apply negb_true_iff in Hu'. reflect_Q.
        change (nzero : Q) with 0%Q in Hu'. cbn. apply Qnot_le_lt. intros Hle. apply Hu'.
        pose proof (Qabs_nonneg u). destruct (Qlt_le_dec u 0) as [Hlt|Hge];
            [rewrite Qabs_neg in Hle by lra|rewrite Qabs_pos in Hle by lra]; lra. }
    exact (apply_balanced buy symbol qty price now st Hpos Hb).
  - split; [split; [apply wf_fresh|]|done]. unfold balanced, inventory. cbn. lra.
Qed.

(** ** Orders and closes *)

Section guards.
Context {F : Type} `{HF : PyFloat F} `{HL : !PyFloatLaws F}.

Lemma cash_apply_buy symbol qty (price : F) now st :
  cash (_apply_buy symbol qty price now st) = nsub (cash st) (nmul price qty).
Proof. unfold _apply_buy. cbn. repeat case_match; done. Qed.

(** A buy never overdraws: whatever the order, if the cash was not negative it
    is not negative after. The two hypotheses exclude infinities and NaN. *)
Theorem buy_keeps_cash (r : ExecutionOrderRequest F) mark uuid now w b :
  upper (rq_side r) = "BUY" ->
  nfinite (cash (_state b)) = true -> (nzero <=? cash (_state b))%py = true ->
  let '(res, b') := place_order r mark uuid now w b in
  match br_fill_price res with
  | None => b' = b
  | Some price =>
      nfinite (price * nofZ (rq_qty r))%py = true ->
      cash (_state b') = (cash (_state b) - price * nofZ (rq_qty r))%py /\
      (nzero <=? cash (_state b'))%py = true
  end.
Proof using HL.
  intros Hs Hfc Hc. destruct (place_order_cases r mark uuid now w b) as
    [(res & -> & -> & _)|(price & o & res & -> & _ & -> & _ & Hcash & _)]; [done|].
  intros Hfn. specialize (Hcash Hs). rewrite Hs. unfold filled. cbn [String.eqb Ascii.eqb Bool.eqb].
  assert (cash (_state (_save_state w (with_state (add_order o
    (_apply_buy (upper (rq_symbol r)) (nofZ (rq_qty r)) price now (_state b))) b))) =
    (cash (_state b) - price * nofZ (rq_qty r))%py) as E.
  { transitivity (cash (_apply_buy (upper (rq_symbol r)) (nofZ (rq_qty r)) price now (_state b)));
      [by destruct w|apply cash_apply_buy]. }
  split; [exact E|]. rewrite E. apply nsub_nonneg; [done|done|].
  apply nord_total; [by apply nfinite_nord|by apply nfinite_nord|exact Hcash].
Qed.

(** A limit order respects its limit: a buy is never filled above it, a sell
    never below it, and an order that cannot fill inside it leaves no trace. *)
Theorem limit_order_respects_limit (r : ExecutionOrderRequest F) mark uuid now w b limit :
  rq_limit_price r = Some limit -> ntrue limit = true -> upper (rq_order_type r) = "LIMIT" ->
  let '(res, b') := place_order r mark uuid now w b in
  match br_fill_price res with
  | None => b' = b
  | Some price =>
      (upper (rq_side r) = "BUY" /\ (price <=? limit)%py = true) \/
      (upper (rq_side r) = "SELL" /\ (limit <=? price)%py = true)
  end.
Proof using HL.
  intros Hl Ht Ho. destruct (place_order_cases r mark uuid now w b) as
    [(res & -> & -> & _)|(price & o & res & -> & _ & -> & Hside & _ & base & _ & _ & Hlim)]; [done|].
  specialize (Hlim limit Hl Ht Ho). revert Hlim.
  unfold limit_fill_price, limit_is_marketable.
  destruct Hside as [E|E]; rewrite E; unfold upper, map_string, upper_ascii; cbn [String.eqb];
    change (String.eqb (upper "BUY") BUY) with true; change (String.eqb (upper "SELL") BUY) with false;
    cbn -[nmin nmax].
  - destruct (base <=? limit)%py eqn:Hle; [|done]. cbn -[nmin]. intros [= <-]. left. split; [done|].
    unfold nmin. by rewrite (nleb_nltb _ _ Hle).
  - destruct (limit <=? base)%py eqn:Hle; [|done]. cbn -[nmax]. intros [= <-]. right. split; [done|].
    unfold nmax. by rewrite (nleb_nltb _ _ Hle).
Qed.
End guards.

Lemma closed_qty_bounds (p : PaperPosition Q) (units : option Q) :
  (pp_qty p =? nzero)%py = false ->
  let q := match units with
    | Some u => if ntrue u then nmin (nabs u) (nabs (pp_qty p)) else nabs (pp_qty p)
    | None => nabs (pp_qty p) end in
  (0 < q)%Q /\ (q <= Qabs (pp_qty p))%Q.
Proof.
  intros Hz. reflect_Q. change (nzero : Q) with 0%Q in Hz. cbn zeta. cbn [nabs exact].
  assert (forall x, ~ x == 0 -> 0 < Qabs x)%Q as Habs.
  { intros x Hx. pose proof (Qabs_nonneg x). apply Qnot_le_lt. intros Hle. apply Hx.
    destruct (Qlt_le_dec x 0); [rewrite Qabs_neg in * by lra|rewrite Qabs_pos in * by lra]; lra. }
  pose proof (Habs _ Hz). destruct units as [u|]; [|split; [done|lra]].
  destruct (ntrue u) eqn:Hu; [|split; [done|lra]]. unfold ntrue in Hu. apply negb_true_iff in Hu.
  reflect_Q. change (nzero : Q) with 0%Q in Hu. rewrite Q_nmin_spec.
  split; [apply Q.min_glb_lt; auto|apply Q.le_min_r].
Qed.

(** The part of [_apply_buy] and [_apply_sell] a close uses. *)
Lemma apply_closes symbol (q price : Q) now st p :
  NoDup (dict_keys (positions st)) -> dict_get symbol (positions st) = Some p ->
  (pp_qty p =? nzero)%py = false -> (0 < q <= Qabs (pp_qty p))%Q ->
  let st' := if negb (pp_qty p >? nzero)%py then _apply_buy symbol q price now st
             else _apply_sell symbol q price now st in
  match dict_get symbol (positions st') with
  | None => (q == Qabs (pp_qty p))%Q
  | Some p' => (0 < pp_qty p * pp_qty p')%Q /\ (Qabs (pp_qty p') == Qabs (pp_qty p) - q)%Q /\
      pp_average_price p' = pp_average_price p
  end /\
  (realized_pnl st' == realized_pnl st +
     (if (pp_qty p >? nzero)%py then price - pp_average_price p
      else pp_average_price p - price) * q)%Q /\
  (forall k, k <> symbol -> dict_get k (positions st') = dict_get k (positions st)).
Proof.
  intros Hn Hp Hz [Hq0 Hq]. cbn zeta. unfold _apply_buy, _apply_sell. rewrite Hp, Hz.
  change (nzero : Q) with 0%Q. cbn [nabs nadd nsub exact].
  destruct (nltb 0%Q (pp_qty p)) eqn:Hpos; cbn [negb]; reflect_Q; change (nzero : Q) with 0%Q in *.
  - assert (Qabs (pp_qty p) == pp_qty p)%Q as HA by (apply Qabs_pos; lra).
    pose proof (Q_nmin_spec q (pp_qty p)) as Hm.
    rewrite Q.min_l in Hm by lra.
    destruct (neqb (pp_qty p - q)%Q 0%Q) eqn:E; reflect_Q.
    + cbn -[dict_pop nmin]. rewrite dict_get_pop, Hm by done. split; [lra|]. split; [done|].
      intros k Hk. by apply dict_get_pop_ne.
    + destruct (nltb (pp_qty p - q)%Q 0%Q) eqn:E'; reflect_Q; [lra|].
      cbn -[dict_set nmin]. rewrite dict_get_set, String.eqb_refl, Hm. cbn.
      split; [|split; [done|]].
      * rewrite (Qabs_pos (pp_qty p - q)) by lra. split; [|split; [lra|done]].
        apply Qmult_lt_0_compat; [done|]. apply Qnot_le_lt. intros ?. apply E. lra.
      * intros k Hk. rewrite dict_get_set. apply String.eqb_neq in Hk.
        by rewrite String.eqb_sym, Hk.
  - assert (pp_qty p < 0)%Q as Hneg by (apply Qnot_le_lt; intros ?; apply Hz; lra).
    pose proof (Q_nmin_spec q (Qabs (pp_qty p))) as Hm. rewrite Q.min_l in Hm by done.
    assert (Qabs (pp_qty p) == - pp_qty p)%Q as HA by (apply Qabs_neg; lra).
    destruct (nltb 0%Q (pp_qty p + q)%Q) eqn:E'; reflect_Q; [lra|].
    destruct (neqb (pp_qty p + q)%Q 0%Q) eqn:E; reflect_Q.
    + cbn -[dict_pop nmin]. rewrite dict_get_pop, Hm by done.
      split; [lra|]. split; [done|].
      intros k Hk. by apply dict_get_pop_ne.
    + cbn -[dict_set nmin]. rewrite dict_get_set, String.eqb_refl, Hm. cbn.
      split; [|split; [done|]].
      * rewrite (Qabs_neg (pp_qty p + q)) by lra. split; [|split; [lra|done]].
        assert (pp_qty p * (pp_qty p + q) == - pp_qty p * - (pp_qty p + q))%Q as -> by ring.
        apply Qmult_lt_0_compat; [lra|]. apply Qnot_le_lt. intros ?. apply E. lra.
      * intros k Hk. rewrite dict_get_set. apply String.eqb_neq in Hk.
        by rewrite String.eqb_sym, Hk.
Qed.

(** A close only reduces: it fills on the opposite side for at most the open
    quantity, never flips the position, realizes the closed part at the fill, and
    leaves every other symbol alone; a refused close changes nothing (exact
    arithmetic). *)
Theorem close_only_reduces pid (units : option Q) sym mark uuid now w b :
  wf (_state b) ->
  let '(closed, b') := close_position pid units sym mark uuid now w b in
  match closed with
  | None => b' = b
  | Some o =>
      exists p, dict_get (po_symbol o) (positions (_state b)) = Some p /\
        po_side o = (if (pp_qty p >? nzero)%py then "SELL" else "BUY") /\
        (0 < po_qty o <= Qabs (pp_qty p))%Q /\
        match dict_get (po_symbol o) (positions (_state b')) with
        | None => (po_qty o == Qabs (pp_qty p))%Q
        | Some p' => (0 < pp_qty p * pp_qty p')%Q /\
            (Qabs (pp_qty p') == Qabs (pp_qty p) - po_qty o)%Q /\
            pp_average_price p' = pp_average_price p
        end /\
        (realized_pnl (_state b') == realized_pnl (_state b) +
           (if (pp_qty p >? nzero)%py then po_fill_price o - pp_average_price p
            else pp_average_price p - po_fill_price o) * po_qty o)%Q /\
        (forall k, k <> po_symbol o ->
           dict_get k (positions (_state b')) = dict_get k (positions (_state b)))
  end.
Proof.
  intros Hwf. destruct (close_position_cases pid units sym mark uuid now w b) as
    [->|(symbol & p & price & o & -> & Hp & Hz & -> & -> & _ & Hside & Hq)]; [done|].
  exists p. split; [done|]. split; [done|]. clear Hside.
  assert (0 < po_qty o <= Qabs (pp_qty p))%Q as Hb by (rewrite Hq; by apply closed_qty_bounds).
  split; [done|]. set (q := po_qty o) in *. clear Hq.
  set (st' := _state (_save_state _ _)).
  assert (forall k, dict_get k (positions st') = dict_get k (positions
    (if negb (pp_qty p >? nzero)%py then _apply_buy symbol q price now (_state b)
     else _apply_sell symbol q price now (_state b)))) as Epos by (intros k; subst st'; by destruct w).
  assert (realized_pnl st' = realized_pnl
    (if negb (pp_qty p >? nzero)%py then _apply_buy symbol q price now (_state b)
     else _apply_sell symbol q price now (_state b))) as Er by (subst st'; by destruct w).
  rewrite Er, Epos. setoid_rewrite Epos. clear Er Epos st'.
  apply (apply_closes symbol q price now (_state b) p); try done; apply Hwf.
Qed.

(** ** Witnesses: a run at binary64 and one at the rationals *)

Module Demo.
Definition order {F} (side : string) (qty : Z) (limit : option F)
    : ExecutionOrderRequest F :=
  {| rq_signal_id := "s"; rq_symbol := "aapl"; rq_side := side; rq_qty := qty;
     rq_order_type := if limit is Some _ then "LIMIT" else "MARKET"; rq_time_in_force := "DAY";
     rq_stop_loss_rate := None; rq_take_profit_rate := None; rq_limit_price := limit;
     rq_decision_price := None; rq_strategy_id := "ema"; rq_account_id := "default";
     rq_reduce_only := false; rq_fields_set := [] |}.
Definition start {F} `{PyFloat F} : PaperBroker F := init 1000 (nofZ 100000) (nofZ 2) None.
Definition run {F} `{PyFloat F} : list (call F) :=
  [Place (order "buy" 10 None) (Some (nofZ 100)) "o1" 5 true;
   Close "x" (Some (nofZ 4)) (Some "AAPL") (fun _ => Some (nofZ 101)) "o2" 6 true; Restart].
End Demo.

Lemma restart_restores_witness :
  _state (perform Restart (performed Demo.run (@Demo.start spec_float binary64))) =
  to_dict (_state (performed Demo.run Demo.start)).
Proof.
  exact (restart_restores (F := spec_float) 1000 (nofZ 100000) (nofZ 2) Demo.run
    ltac:(repeat constructor)).
Defined.

Lemma paper_books_balance_witness :
  let st := _state (performed Demo.run (@Demo.start Q exact)) in
  (cash st + inventory st == 100000 + realized_pnl st)%Q.
Proof.
  exact (proj1 (paper_books_balance 1000 100000 2 Demo.run ltac:(repeat constructor))).
Defined.

Lemma buy_keeps_cash_witness :
  (nzero <=? cash (_state (snd (place_order (Demo.order "buy" 10 None) (Some (nofZ 100)) "o" 5 true
     (@Demo.start spec_float binary64)))))%py = true.
Proof.
  pose proof (buy_keeps_cash (HF := binary64) (Demo.order "buy" 10 None) (Some (nofZ 100)) "o" 5 true
    (@Demo.start spec_float binary64) eq_refl ltac:(vm_compute; reflexivity) ltac:(vm_compute; reflexivity)) as H.
  destruct (place_order _ _ _ _ _ _) as [res b'] eqn:E in H.
  assert (br_fill_price res = Some (nlit 10002 100)) as Ef.
  { replace res with (fst (res, b')) by reflexivity. rewrite <- E. vm_compute. reflexivity. }
  rewrite Ef in H. destruct H as [_ H]; [vm_compute; reflexivity|]. rewrite E. exact H.
Defined.

Lemma limit_order_respects_limit_witness :
  let r := Demo.order "sell" 10 (Some (nofZ 99)) in
  let '(res, _) := place_order r (Some (nofZ 100)) "o" 5 true (@Demo.start spec_float binary64) in
  exists price, br_fill_price res = Some price /\ (nofZ 99 <=? price)%py = true.
Proof.
  pose proof (limit_order_respects_limit (HF := binary64) (Demo.order "sell" 10 (Some (nofZ 99))) (Some (nofZ 100)) "o" 5
    true (@Demo.start spec_float binary64) (nofZ 99) eq_refl eq_refl eq_refl) as H.
  cbn zeta. destruct (place_order _ _ _ _ _ _) as [res b'] eqn:E in H |- *.
  assert (br_fill_price res = Some (nlit 9998 100)) as Ef.
  { replace res with (fst (res, b')) by reflexivity. rewrite <- E. vm_compute. reflexivity. }
  rewrite Ef in H. exists (nlit 9998 100). split; [exact Ef|].
  destruct H as [[Hs _]|[_ H]]; [vm_compute in Hs; discriminate|exact H].
Defined.

Lemma close_only_reduces_witness :
  let b := performed [Place (Demo.order "buy" 10 None) (Some 100%Q) "o1" 5 true] Demo.start in
  let '(closed, b') := close_position "x" (Some 4%Q) (Some "AAPL") (fun _ => Some 101%Q) "o2" 6 true b in
  exists o p, closed = Some o /\ (0 < po_qty o <= Qabs (pp_qty p))%Q /\
    dict_get (po_symbol o) (positions (_state b)) = Some p.
Proof.
  cbn zeta. set (b := performed _ _).
  assert (wf (_state b)) as Hwf by (apply wf_filled; [apply wf_fresh|reflexivity]).
  pose proof (close_only_reduces "x" (Some 4%Q) (Some "AAPL") (fun _ => Some 101%Q) "o2" 6 true b Hwf) as H.
  destruct (close_position _ _ _ _ _ _ _ _) as [closed b'] eqn:E in H |- *.
  destruct closed as [o|]; [|vm_compute in E; discriminate E].
  destruct H as (p & Hp & _ & Hq & _). exists o, p. split; [reflexivity|]. split; [exact Hq|exact Hp].
Defined.
