(* ===== verification/Journal.v ===== *)
(** * The point-in-time journal

    Models [libs/journal/src/journal/store.py] over the tables of [models.py]: the
    best-effort writes (bars with their revisions, prices, sentiment, headlines,
    research, decisions, executions), the as-of reads, and the reads the gates and
    the position cap are built on. A table is the list of its rows in insertion
    order. [io] is the exception the database raises at the call, if it does; one
    clock reading serves a call. *)

From S2P Require Import Prelude PyFloat Store Contracts.

Definition io := option string.

(** A bar as a provider hands it over: fields that do not convert are [None]. *)
Record BarIn (F : Type) := {
  in_timestamp : option datetime;
  in_ohlc : option (F * F * F * F);
  in_volume : option F
}.
Arguments in_timestamp {F}. Arguments in_ohlc {F}. Arguments in_volume {F}.

Record BarObservation (F : Type) := {
  b_symbol : string;
  b_timeframe : string;
  b_bar_ts : datetime;
  b_open : F;
  b_high : F;
  b_low : F;
  b_close : F;
  b_volume : F;
  b_source : string;
  b_observed_at : datetime;
  b_payload_hash : string;
  b_revision : Z;
  b_provider_meta : json F
}.
Arguments b_symbol {F}. Arguments b_timeframe {F}. Arguments b_bar_ts {F}.
Arguments b_open {F}. Arguments b_high {F}. Arguments b_low {F}. Arguments b_close {F}.
Arguments b_volume {F}. Arguments b_source {F}. Arguments b_observed_at {F}.
Arguments b_payload_hash {F}. Arguments b_revision {F}. Arguments b_provider_meta {F}.

Record PriceObservation (F : Type) := {
  pr_symbol : string;
  pr_price : F;
  pr_price_ts : datetime;
  pr_observed_at : datetime;
  pr_age_seconds : F;
  pr_source : string;
  pr_accepted : bool
}.

(** Sentiment, headline and research rows: what they say, and when it was seen. *)
Record Observation (A : Type) := {
  ob_symbol : string;
  ob_observed_at : datetime;
  ob_data : A
}.
Arguments ob_symbol {A}. Arguments ob_observed_at {A}. Arguments ob_data {A}.

Record SentimentData (F : Type) := { score : F; confidence : F; sources : string }.
Record HeadlineData := { headline : string; hl_source : string; published_at : option datetime }.
Record ResearchData (F : Type) := {
  sentiment : string; headline_summary : string; risk_factors : string;
  confidence_modifier : F; model_version : string; generated_at : datetime
}.

Record Decision (F : Type) := {
  d_decision_id : string;
  d_correlation_id : string;
  d_ts : datetime;
  d_symbol : string;
  d_stage : string;
  d_action : string;
  d_outcome : string;
  d_reason : string;
  d_inputs : json F;
  d_outputs : json F
}.
Arguments d_decision_id {F}. Arguments d_ts {F}. Arguments d_symbol {F}. Arguments d_stage {F}.

Record ExecutionQuality (F : Type) := {
  x_order_id : string;
  x_signal_id : string;
  x_symbol : string;
  x_side : string;
  x_qty : F;
  x_order_type : string;
  x_limit_price : option F;
  x_decision_price : option F;
  x_fill_price : option F;
  x_shortfall_bps : option F;
  x_filled : bool;
  x_outcome : string;
  x_decision_ts : datetime;
  x_strategy_id : string;
  x_strategy_version : string;
  x_environment : string;
  x_account_id : string;
  x_broker : string;
  x_fees : F;
  x_filled_qty : F;
  x_cancelled : bool;
  x_rejected : bool;
  x_recorded_at : datetime
}.
Arguments x_order_id {F}. Arguments x_signal_id {F}. Arguments x_symbol {F}.
Arguments x_side {F}. Arguments x_qty {F}. Arguments x_order_type {F}.
Arguments x_limit_price {F}. Arguments x_decision_price {F}. Arguments x_fill_price {F}.
Arguments x_shortfall_bps {F}. Arguments x_filled {F}. Arguments x_outcome {F}.
Arguments x_decision_ts {F}. Arguments x_strategy_id {F}. Arguments x_strategy_version {F}.
Arguments x_environment {F}. Arguments x_account_id {F}. Arguments x_broker {F}.
Arguments x_fees {F}. Arguments x_filled_qty {F}. Arguments x_cancelled {F}.
Arguments x_rejected {F}. Arguments x_recorded_at {F}.

Record Journal (F : Type) := {
  enabled : bool;
  bars : list (BarObservation F);
  prices : list (PriceObservation F);
  sentiments : list (Observation (SentimentData F));
  headlines : list (Observation HeadlineData);
  researches : list (Observation (ResearchData F));
  decisions : list (Decision F);
  executions : list (ExecutionQuality F)
}.
Arguments enabled {F}. Arguments bars {F}. Arguments prices {F}. Arguments sentiments {F}.
Arguments headlines {F}. Arguments researches {F}. Arguments decisions {F}.
Arguments executions {F}.

Section setters.
Context {F : Type}.
Implicit Types j : Journal F.
Definition set_bars l j : Journal F :=
  {| enabled := enabled j; bars := l; prices := prices j; sentiments := sentiments j;
     headlines := headlines j; researches := researches j; decisions := decisions j;
     executions := executions j |}.
Definition set_prices l j : Journal F :=
  {| enabled := enabled j; bars := bars j; prices := l; sentiments := sentiments j;
     headlines := headlines j; researches := researches j; decisions := decisions j;
     executions := executions j |}.
Definition set_sentiments l j : Journal F :=
  {| enabled := enabled j; bars := bars j; prices := prices j; sentiments := l;
     headlines := headlines j; researches := researches j; decisions := decisions j;
     executions := executions j |}.
Definition set_headlines l j : Journal F :=
  {| enabled := enabled j; bars := bars j; prices := prices j; sentiments := sentiments j;
     headlines := l; researches := researches j; decisions := decisions j;
     executions := executions j |}.
Definition set_researches l j : Journal F :=
  {| enabled := enabled j; bars := bars j; prices := prices j; sentiments := sentiments j;
     headlines := headlines j; researches := l; decisions := decisions j;
     executions := executions j |}.
Definition set_decisions l j : Journal F :=
  {| enabled := enabled j; bars := bars j; prices := prices j; sentiments := sentiments j;
     headlines := headlines j; researches := researches j; decisions := l;
     executions := executions j |}.
Definition set_executions l j : Journal F :=
  {| enabled := enabled j; bars := bars j; prices := prices j; sentiments := sentiments j;
     headlines := headlines j; researches := researches j; decisions := decisions j;
     executions := l |}.

(** [_insert]: best effort. *)
Definition _insert (e : io) (add : Journal F -> Journal F) j : Journal F :=
  if enabled j then match e with Some _ => j | None => add j end else j.
End setters.

(** [str[:n]] *)
Definition clip (n : nat) (s : string) : string := String.substring 0 n s.
Definition days (n : Z) : Z := n * 86400000000.

(** ** Writes *)

Section writes.
Context {F : Type} `{PyFloat F}.
(** SHA-256 of the printed values. *)
Context (_payload_hash : F -> F -> F -> F -> F -> string).
Implicit Types j : Journal F.

Definition record_decision (stage outcome symbol action reason : string)
    (inputs outputs : json F) (correlation_id : string) (ts : option datetime)
    (uuid : string) (now : datetime) (e : io) j : string * Journal F :=
  if negb (enabled j) then (uuid, j) else
  (uuid, _insert e (fun j => set_decisions (decisions j ++
    [{| d_decision_id := uuid; d_correlation_id := str_or correlation_id uuid;
        d_ts := default now ts; d_symbol := upper symbol; d_stage := stage;
        d_action := action; d_outcome := outcome; d_reason := clip 2000 reason;
        d_inputs := inputs; d_outputs := outputs |}]) j) j).

Definition _record_rejected_bars (symbol timeframe : string) (count : Z) (uuid : string)
    (now : datetime) (e : io) j : Journal F :=
  snd (record_decision "data_quality" "bars_rejected" symbol ""
    "missing_or_invalid_market_timestamp"
    (JDict [("timeframe", JStr timeframe); ("rejected", JVal (PInt count))])
    (JDict []) "" None uuid now e j).

(** One bar of a fetch, as a row of revision 0, or [None] when it is rejected. *)
Definition bar_row (symbol timeframe source : string) (meta : json F) (now : datetime)
    (b : BarIn F) : option (BarObservation F) :=
  match in_timestamp b, in_ohlc b with
  | Some ts, Some (o, h, l, c) =>
      let v := nor (default nzero (in_volume b)) nzero in
      Some {| b_symbol := upper symbol; b_timeframe := timeframe; b_bar_ts := ts;
              b_open := o; b_high := h; b_low := l; b_close := c; b_volume := v;
              b_source := source; b_observed_at := now;
              b_payload_hash := _payload_hash o h l c v; b_revision := 0;
              b_provider_meta := meta |}
  | _, _ => None
  end.

Definition same_bar (a b : BarObservation F) : bool :=
  String.eqb (b_symbol a) (b_symbol b) && String.eqb (b_timeframe a) (b_timeframe b) &&
  Z.eqb (b_bar_ts a) (b_bar_ts b).

Definition with_revision (n : Z) (b : BarObservation F) : BarObservation F :=
  {| b_symbol := b_symbol b; b_timeframe := b_timeframe b; b_bar_ts := b_bar_ts b;
     b_open := b_open b; b_high := b_high b; b_low := b_low b; b_close := b_close b;
     b_volume := b_volume b; b_source := b_source b; b_observed_at := b_observed_at b;
     b_payload_hash := b_payload_hash b; b_revision := n;
     b_provider_meta := b_provider_meta b |}.

(** A failed read leaves every revision at 0. *)
Definition _number_revisions (e : io) (rows : list (BarObservation F)) j
    : list (BarObservation F) :=
  match e with
  | Some _ => rows
  | None => map (fun r => with_revision (Z.of_nat (rowcount (same_bar r) (bars j))) r) rows
  end.

(** UNIQUE (symbol, timeframe, bar_ts, payload_hash) *)
Definition duplicate (r x : BarObservation F) : bool :=
  same_bar r x && String.eqb (b_payload_hash r) (b_payload_hash x).

(** [INSERT ... ON CONFLICT DO NOTHING], row by row. *)
Definition insert_new (held : list (BarObservation F)) (r : BarObservation F)
    : list (BarObservation F) :=
  if existsb (duplicate r) held then held else held ++ [r].

Definition _insert_ignoring_duplicates (e : io) (rows : list (BarObservation F)) j
    : Z * Journal F :=
  if negb (enabled j) then (0, j) else
  match e with
  | Some _ => (0, j)
  | None =>
      let after := foldl insert_new (bars j) rows in
      (Z.of_nat (length after) - Z.of_nat (length (bars j)), set_bars after j)
  end.

Definition record_bars (symbol timeframe : string) (bs : list (BarIn F)) (source : string)
    (meta : json F) (uuid : string) (now : datetime) (e_decision e_number e_insert : io) j
    : Z * Journal F :=
  if negb (enabled j) || (match bs with [] => true | _ => false end) then (0, j) else
  let rows := omap (bar_row symbol timeframe source meta now) bs in
  let rejected := Z.of_nat (length bs) - Z.of_nat (length rows) in
  let j := if Z.eqb rejected 0 then j
           else _record_rejected_bars symbol timeframe rejected uuid now e_decision j in
  match rows with
  | [] => (0, j)
  | _ => _insert_ignoring_duplicates e_insert (_number_revisions e_number rows j) j
  end.

Definition record_price (symbol : string) (price : F) (price_ts : option datetime)
    (source : string) (accepted : bool) (now : datetime) (e : io) j : Journal F :=
  let stamp := default now price_ts in
  _insert e (fun j => set_prices (prices j ++
    [{| pr_symbol := upper symbol; pr_price := price; pr_price_ts := stamp;
        pr_observed_at := now; pr_age_seconds := nmax nzero (total_seconds (now - stamp));
        pr_source := source; pr_accepted := accepted |}]) j) j.

Definition record_sentiment (symbol : string) (s c : F) (srcs : list string)
    (now : datetime) (e : io) j : Journal F :=
  _insert e (fun j => set_sentiments (sentiments j ++
    [{| ob_symbol := upper symbol; ob_observed_at := now;
        ob_data := {| score := s; confidence := c; sources := clip 256 (join "," srcs) |} |}]) j) j.

(** [items]: the headline text and when it was published. *)
Definition record_headlines (symbol : string) (items : list (string * option datetime))
    (source : string) (now : datetime) (e : io) j : Journal F :=
  foldl (fun j '(text, published) =>
    let text := strip text in
    if String.eqb text "" then j else
    _insert e (fun j => set_headlines (headlines j ++
      [{| ob_symbol := upper symbol; ob_observed_at := now;
          ob_data := {| headline := clip 1000 text; hl_source := clip 32 source;
                        published_at := published |} |}]) j) j) j items.

(** [risk_json] is the JSON of the list of risk factors. *)
Definition record_research (symbol sentiment_ summary risk_json : string) (modifier : F)
    (version_ : string) (generated : option datetime) (now : datetime) (e : io) j : Journal F :=
  _insert e (fun j => set_researches (researches j ++
    [{| ob_symbol := upper symbol; ob_observed_at := now;
        ob_data := {| sentiment := clip 16 sentiment_; headline_summary := clip 4000 summary;
                      risk_factors := clip 4000 risk_json; confidence_modifier := modifier;
                      model_version := clip 64 version_;
                      generated_at := default now generated |} |}]) j) j.

(** The keyword arguments of [record_execution] the callers use. *)
Definition record_execution (symbol side : string) (qty : F)
    (decision_price fill_price : option F) (order_type : string) (limit_price : option F)
    (order_id signal_id outcome : string)
    (strategy version_ environment_ account broker_ : string) (fees : F)
    (filled_qty : option F) (cancelled rejected : bool) (now : datetime) (e : io) j
    : option F * Journal F :=
  let filled := match fill_price with Some p => (p >? nzero)%py | None => false end in
  let shortfall :=
    if filled && (match decision_price with Some d => ntrue d | None => false end)
    then implementation_shortfall_bps decision_price fill_price side else None in
  if negb (enabled j) then (shortfall, j) else
  (shortfall, _insert e (fun j => set_executions (executions j ++
    [{| x_order_id := order_id; x_signal_id := signal_id; x_symbol := upper symbol;
        x_side := upper side; x_qty := nor qty nzero; x_order_type := upper order_type;
        x_limit_price := limit_price; x_decision_price := decision_price;
        x_fill_price := fill_price; x_shortfall_bps := shortfall; x_filled := filled;
        x_outcome := outcome; x_decision_ts := now; x_strategy_id := strategy;
        x_strategy_version := version_; x_environment := environment_;
        x_account_id := account; x_broker := broker_; x_fees := nor fees nzero;
        x_filled_qty := match filled_qty with
          | Some q => q | None => if filled then qty else nzero end;
        x_cancelled := cancelled; x_rejected := rejected; x_recorded_at := now |}]) j) j).
End writes.

(** ** As-of reads *)

(** Keep the first row seen for each key: [if key not in latest: latest[key] = row]. *)
Definition first_per {A} (key : A -> Z) (l : list A) : list A :=
  foldl (fun latest x => if existsb (fun y => Z.eqb (key y) (key x)) latest
                         then latest else latest ++ [x]) [] l.

Section as_of.
Context {F : Type}.
Implicit Types j : Journal F.

(** A read of a disabled or failing journal is empty. *)
Definition or_empty {A} (e : io) (j : Journal F) (rows : list A) : list A :=
  if negb (enabled j) then [] else match e with Some _ => [] | None => rows end.

Definition is_series (symbol timeframe : string) (b : BarObservation F) : bool :=
  String.eqb (b_symbol b) (upper symbol) && String.eqb (b_timeframe b) timeframe.

(** ORDER BY bar_ts DESC, observed_at DESC *)
Definition newest_first (a b : BarObservation F) : bool :=
  (b_bar_ts b <? b_bar_ts a) ||
  (Z.eqb (b_bar_ts a) (b_bar_ts b) && (b_observed_at b <=? b_observed_at a)).

Definition bars_as_of (symbol timeframe : string) (as_of : datetime) (limit : nat) (e : io) j
    : list (BarObservation F) :=
  or_empty e j (
    let rows := sort_by newest_first
      (List.filter (fun b => is_series symbol timeframe b && (b_observed_at b <=? as_of)) (bars j)) in
    let latest := first_per b_bar_ts rows in
    last_n limit (sort_by (fun a b => b_bar_ts a <=? b_bar_ts b) latest)).

Definition bar_revisions (symbol timeframe : string) (bar_ts : datetime) (e : io) j
    : list (BarObservation F) :=
  or_empty e j (sort_by (fun a b => b_observed_at a <=? b_observed_at b)
    (List.filter (fun b => is_series symbol timeframe b && Z.eqb (b_bar_ts b) bar_ts) (bars j))).

(** The newest [limit] observations of the window, oldest first. *)
Definition windowed {A} (symbol : string) (as_of window : Z) (limit : nat)
    (rows : list (Observation A)) : list (Observation A) :=
  rev (take limit (sort_by (fun a b => ob_observed_at b <=? ob_observed_at a)
    (List.filter (fun r => String.eqb (ob_symbol r) (upper symbol) &&
       (ob_observed_at r <=? as_of) && (as_of - window <=? ob_observed_at r)) rows))).

Definition sentiment_as_of symbol as_of window limit e j :=
  or_empty e j (windowed symbol as_of window limit (sentiments j)).
Definition headlines_as_of symbol as_of window limit e j :=
  or_empty e j (windowed symbol as_of window limit (headlines j)).
Definition research_as_of symbol as_of window limit e j :=
  or_empty e j (windowed symbol as_of window limit (researches j)).

(** ORDER BY ts LIMIT n *)
Definition decisions_as_of (as_of : datetime) (symbol stage : option string)
    (window_start : option datetime) (limit : nat) (e : io) j : list (Decision F) :=
  or_empty e j (take limit (sort_by (fun a b => d_ts a <=? d_ts b)
    (List.filter (fun d => (d_ts d <=? as_of) &&
       opt_is d_symbol (option_map upper symbol) d && opt_is d_stage stage d &&
       match window_start with Some w => w <=? d_ts d | None => true end) (decisions j)))).

Definition recent_decisions (limit : nat) (symbol : option string) (e : io) j
    : list (Decision F) :=
  or_empty e j (take limit (sort_by (fun a b => d_ts b <=? d_ts a)
    (List.filter (fun d => match symbol with
       | Some s => if str_true s then String.eqb (d_symbol d) (upper s) else true
       | None => true end) (decisions j)))).

(** GROUP BY timeframe *)
Definition bar_timeframes (symbol : string) (e : io) j : pydict Z :=
  or_empty e j (foldl (fun d b => dict_set (b_timeframe b)
      (default 0 (dict_get (b_timeframe b) d) + 1) d) []
    (List.filter (fun b => String.eqb (b_symbol b) (upper symbol)) (bars j))).
End as_of.

(** ** What the gates and the position cap read *)

(** The dict [scoped_execution_metrics] returns when the journal answers. *)
Record ExecutionMetrics (F : Type) := {
  m_orders : Z;
  m_fills : Z;
  m_misses : Z;
  m_partial_fills : Z;
  m_cancellations : Z;
  m_rejections : Z;
  m_execution_cash_effect : F;
  m_fees : F;
  m_mean_shortfall_bps : option F;
  m_worst_shortfall_bps : option F;
  m_fill_rate : option F
}.
Arguments m_orders {F}. Arguments m_fills {F}. Arguments m_misses {F}.
Arguments m_partial_fills {F}. Arguments m_cancellations {F}. Arguments m_rejections {F}.
Arguments m_execution_cash_effect {F}. Arguments m_fees {F}.
Arguments m_mean_shortfall_bps {F}. Arguments m_worst_shortfall_bps {F}.
Arguments m_fill_rate {F}.

Record Completeness (F : Type) := {
  k_expected_observations : Z;
  k_actual_observations : Z;
  k_gap_count : Z;
  k_gaps : list (datetime * datetime * F);
  k_stale_minutes : option F;
  k_stale : bool;
  k_complete : bool;
  k_last_gap_at : option datetime
}.
Arguments k_expected_observations {F}. Arguments k_actual_observations {F}.
Arguments k_gap_count {F}. Arguments k_gaps {F}. Arguments k_stale_minutes {F}.
Arguments k_stale {F}. Arguments k_complete {F}. Arguments k_last_gap_at {F}.

Section aggregates.
Context {F : Type} `{PyFloat F}.
(** [SUM] of the database. *)
Context (sql_sum : list F -> F).
Local Open Scope py_scope.
Implicit Types j : Journal F.

Definition in_scope (strategy symbol environment_ account : string) (r : ExecutionQuality F) : bool :=
  String.eqb (x_strategy_id r) strategy && String.eqb (x_symbol r) (upper symbol) &&
  String.eqb (x_environment r) environment_ && String.eqb (x_account_id r) account.

Definition in_window (start stop : option datetime) (r : ExecutionQuality F) : bool :=
  match start with Some s => (s <=? x_recorded_at r)%Z | None => true end &&
  match stop with Some s => (x_recorded_at r <=? s)%Z | None => true end.

Definition count {A} (p : A -> bool) (l : list A) : Z := Z.of_nat (rowcount p l).

(** [max(l)] of a non-empty list. *)
Definition nmaximum (x : F) (l : list F) : F := foldl nmax x l.

Definition opt_true (x : option F) : bool := match x with Some v => ntrue v | None => false end.

(** The signed cash effect of a fill against its decision price. *)
Definition cash_effect (acc : F) (r : ExecutionQuality F) : F :=
  match x_decision_price r, x_fill_price r with
  | Some d, Some f =>
      if ntrue d && ntrue f then
        let direction := if String.eqb (upper (x_side r)) "SELL" then n_one else - n_one in
        acc + direction * (f - d) * nor (nor (x_filled_qty r) (x_qty r)) nzero
      else acc
  | _, _ => acc
  end.

(** [Err] is the answer with ["available": False] and its reason. *)
Definition scoped_execution_metrics (strategy symbol environment_ account : string)
    (version_ : option string) (start stop : option datetime) (e : io) j
    : result string (ExecutionMetrics F) :=
  if negb (enabled j) then Err "journal_disabled" else
  match e with
  | Some exc => Err exc
  | None =>
      let rows := List.filter (fun r => in_scope strategy symbol environment_ account r &&
                      opt_is x_strategy_version version_ r && in_window start stop r)
                    (executions j) in
      match rows with
      | [] => Ok {| m_orders := 0; m_fills := 0; m_misses := 0; m_partial_fills := 0;
                    m_cancellations := 0; m_rejections := 0; m_execution_cash_effect := nzero;
                    m_fees := nzero; m_mean_shortfall_bps := None;
                    m_worst_shortfall_bps := None; m_fill_rate := None |}
      | _ =>
          let n := Z.of_nat (length rows) in
          let fills := List.filter x_filled rows in
          let nf := Z.of_nat (length fills) in
          let shortfalls := omap x_shortfall_bps rows in
          Ok {| m_orders := n; m_fills := nf; m_misses := (n - nf)%Z;
                m_partial_fills := count (fun r => ntrue (x_filled_qty r) && ntrue (x_qty r) &&
                                       (x_filled_qty r <? x_qty r)) fills;
                m_cancellations := count x_cancelled rows;
                m_rejections := count x_rejected rows;
                m_execution_cash_effect := nround 4 (foldl cash_effect nzero fills);
                m_fees := nround 4 (nsum (map (fun r => nor (x_fees r) nzero) rows));
                m_mean_shortfall_bps := match shortfalls with
                  | [] => None
                  | _ => Some (nround 4 (nsum shortfalls /
                                 nofZ (Z.of_nat (length shortfalls)))) end;
                m_worst_shortfall_bps := match shortfalls with
                  | [] => None | x :: l => Some (nround 4 (nmaximum x l)) end;
                m_fill_rate := Some (nround 4 (nofZ nf / nofZ n)) |}
      end
  end.

(** [GROUP BY side]: the sides in order of first appearance. *)
Definition sides_of (rows : list (ExecutionQuality F)) : list string :=
  foldl (fun acc r => if str_in (x_side r) acc then acc else acc ++ [x_side r]) [] rows.

Definition net_position (strategy symbol environment_ account : string) (e : io) j : option F :=
  if negb (enabled j) then None else
  match e with
  | Some _ => None
  | None =>
      let rows := List.filter (fun r => in_scope strategy symbol environment_ account r &&
                                   x_filled r) (executions j) in
      Some (foldl (fun net side =>
        let signed := sql_sum (map x_filled_qty
                        (List.filter (fun r => String.eqb (x_side r) side) rows)) in
        net + (if String.eqb (upper side) "BUY" then signed else - signed))
        nzero (sides_of rows))
  end.

Definition execution_rows (strategy version_ symbol environment_ account : option string)
    (start stop : option datetime) (limit : nat) (e : io) j : list (ExecutionQuality F) :=
  or_empty e j (take limit (sort_by (fun a b => (x_recorded_at a <=? x_recorded_at b)%Z)
    (List.filter (fun r => opt_is x_strategy_id strategy r &&
       opt_is x_strategy_version version_ r && opt_is x_symbol (option_map upper symbol) r &&
       opt_is x_environment environment_ r && opt_is x_account_id account r &&
       in_window start stop r) (executions j)))).

(** SELECT DISTINCT bar_ts ... ORDER BY bar_ts *)
Definition stamps (symbol timeframe : string) (start stop : datetime) j : list datetime :=
  sort_by Z.leb (nodup Z.eq_dec (map b_bar_ts
    (List.filter (fun b => is_series symbol timeframe b && (start <=? b_bar_ts b)%Z &&
       (b_bar_ts b <=? stop)%Z) (bars j)))).

(** Consecutive stamps further apart than the tolerance. *)
Fixpoint gaps_between (tolerance : F) (l : list datetime) : list (datetime * datetime * F) :=
  match l with
  | earlier :: (later :: _) as l' =>
      let minutes := total_seconds (later - earlier) / nofZ 60 in
      if minutes >? tolerance
      then (earlier, later, nround 2 minutes) :: gaps_between tolerance l'
      else gaps_between tolerance l'
  | _ => []
  end.

Definition completeness (symbol timeframe : string) (start stop : datetime)
    (expected_interval_minutes : F) (e : io) j : result string (Completeness F) :=
  if negb (enabled j) then Err "journal_disabled" else
  match e with
  | Some exc => Err exc
  | None =>
      let st := stamps symbol timeframe start stop j in
      let actual := Z.of_nat (length st) in
      let span_minutes := total_seconds (stop - start) / nofZ 60 in
      let expected := if expected_interval_minutes >? nzero
                      then Z.max 1 (ntrunc (span_minutes / expected_interval_minutes))
                      else actual in
      let tolerance := expected_interval_minutes * nlit 3 2 in
      let gaps := gaps_between tolerance st in
      let stale_minutes := option_map (fun t => nround 2 (total_seconds (stop - t) / nofZ 60))
                             (last st) in
      let stale := match stale_minutes with Some m => m >? tolerance | None => false end in
      let ok := negb (Z.eqb actual 0) && (match gaps with [] => true | _ => false end) && negb stale in
      let last_gap := option_map (fun '(_, to, _) => to) (last gaps) in
      Ok {| k_expected_observations := expected; k_actual_observations := actual;
            k_gap_count := Z.of_nat (length gaps); k_gaps := take 20 gaps;
            k_stale_minutes := stale_minutes; k_stale := stale; k_complete := ok;
            k_last_gap_at := if stale then last st else last_gap |}
  end.
End aggregates.
