(* ===== verification/JournalTheorems.v ===== *)
(** * Theorems about the journal

    No read as of a moment sees what was recorded after it; the series read as of a
    moment is the newest version of each bar known then; the net position follows
    the fills; completeness means no hole. *)

From S2P Require Import Prelude PyFloat Store Contracts Journal.
From Stdlib Require Import Floats.SpecFloat.

(** ** The journal only grows, and what it gains is stamped with the clock *)

Inductive jwrite (F : Type) :=
| WBars (symbol timeframe : string) (bs : list (BarIn F)) (source : string) (meta : json F)
    (uuid : string) (e_decision e_number e_insert : io)
| WPrice (symbol : string) (price : F) (price_ts : option datetime) (source : string)
    (accepted : bool) (e : io)
| WSentiment (symbol : string) (s c : F) (srcs : list string) (e : io)
| WHeadlines (symbol : string) (items : list (string * option datetime)) (source : string) (e : io)
| WResearch (symbol sentiment_ summary risk : string) (modifier : F) (version_ : string)
    (generated : option datetime) (e : io)
| WDecision (stage outcome symbol action reason : string) (inputs outputs : json F)
    (correlation_id : string) (ts : option datetime) (uuid : string) (e : io)
| WExecution (symbol side : string) (qty : F) (decision_price fill_price : option F)
    (order_type : string) (limit_price : option F) (order_id signal_id outcome : string)
    (strategy version_ environment_ account broker_ : string) (fees : F)
    (filled_qty : option F) (cancelled rejected : bool) (e : io).
Arguments WBars {F}. Arguments WPrice {F}. Arguments WSentiment {F}. Arguments WHeadlines {F}.
Arguments WResearch {F}. Arguments WDecision {F}. Arguments WExecution {F}.

Section growth.
Context {F : Type} `{PyFloat F}.
Context (payload_hash : F -> F -> F -> F -> F -> string).
Implicit Types j : Journal F.

Definition jrun (w : jwrite F) (now : datetime) j : Journal F :=
  match w with
  | WBars sy tf bs src meta uuid e1 e2 e3 =>
      snd (record_bars payload_hash sy tf bs src meta uuid now e1 e2 e3 j)
  | WPrice sy p ts src acc e => record_price sy p ts src acc now e j
  | WSentiment sy s c srcs e => record_sentiment sy s c srcs now e j
  | WHeadlines sy items src e => record_headlines sy items src now e j
  | WResearch sy se su ri mo ve ge e => record_research sy se su ri mo ve ge now e j
  | WDecision st ou sy ac re i o c ts uuid e =>
      snd (record_decision st ou sy ac re i o c ts uuid now e j)
  | WExecution sy si q dp fp ot lp oi sg ou st ve en ac br fe fq ca rj e =>
      snd (record_execution sy si q dp fp ot lp oi sg ou st ve en ac br fe fq ca rj now e j)
  end.

(** A decision is stamped by the clock unless its caller dates it. *)
Definition dated_after (c : datetime) (w : jwrite F) : Prop :=
  match w with WDecision _ _ _ _ _ _ _ _ (Some ts) _ _ => c < ts | _ => True end.

Definition grows {A} (stamp : A -> datetime) (c : datetime) (l l' : list A) : Prop :=
  exists new, l' = l ++ new /\ forall x, x ∈ new -> c < stamp x.

Record extends (c : datetime) j j' : Prop := {
  ext_enabled : enabled j' = enabled j;
  ext_bars : grows b_observed_at c (bars j) (bars j');
  ext_sentiments : grows ob_observed_at c (sentiments j) (sentiments j');
  ext_headlines : grows ob_observed_at c (headlines j) (headlines j');
  ext_researches : grows ob_observed_at c (researches j) (researches j');
  ext_decisions : grows d_ts c (decisions j) (decisions j');
  ext_executions : grows x_recorded_at c (executions j) (executions j')
}.

Lemma grows_refl {A} (stamp : A -> datetime) c l : grows stamp c l l.
Proof. exists []. rewrite app_nil_r. split; [done|]. by intros x ?%not_elem_of_nil. Qed.

Lemma grows_one {A} (stamp : A -> datetime) c l x : c < stamp x -> grows stamp c l (l ++ [x]).
Proof. intros Hx. exists [x]. split; [done|]. by intros y ->%list_elem_of_singleton. Qed.

Lemma grows_trans {A} (stamp : A -> datetime) c l1 l2 l3 :
  grows stamp c l1 l2 -> grows stamp c l2 l3 -> grows stamp c l1 l3.
Proof.
  intros (n1 & -> & H1) (n2 & -> & H2). exists (n1 ++ n2). split; [by rewrite app_assoc|].
  intros x [?|?]%elem_of_app; auto.
Qed.

Lemma extends_refl c j : extends c j j.
Proof. constructor; [done|apply grows_refl..]. Qed.

Lemma extends_trans c j1 j2 j3 : extends c j1 j2 -> extends c j2 j3 -> extends c j1 j3.
Proof. intros [] []. constructor; [congruence|eapply grows_trans; eauto..]. Qed.

(** A write that appends to one table. *)
Lemma extends_insert c e (add : Journal F -> Journal F) j :
  (forall j, extends c j (add j)) -> extends c j (_insert e add j).
Proof.
  intros Ha. unfold _insert. destruct (enabled j); [|apply extends_refl].
  destruct e; [apply extends_refl|apply Ha].
Qed.

Ltac one_table := apply extends_insert; intros; constructor; cbn;
  first [done | apply grows_refl | apply grows_one; first [done | cbn; lia]].

Lemma insert_all_grows c rows held :
  (forall r, r ∈ rows -> c < b_observed_at r) ->
  grows b_observed_at c held (foldl (insert_new (F := F)) held rows).
Proof.
  revert held. induction rows as [|r rows IH]; intros held Hr; [apply grows_refl|]. cbn.
  eapply grows_trans; [|apply IH; intros; apply Hr; by constructor].
  unfold insert_new. destruct (existsb _ _); [apply grows_refl|].
  apply grows_one, Hr. constructor.
Qed.

Lemma extends_decision c st ou sy ac re i o cid ts uuid now e j :
  c < default now ts -> extends c j (snd (record_decision st ou sy ac re i o cid ts uuid now e j)).
Proof.
  intros Hc. unfold record_decision. destruct (enabled j) eqn:He; cbn [negb snd];
    [|apply extends_refl]. one_table.
Qed.

Lemma bar_rows_stamped sy tf src meta now (bs : list (BarIn F)) r :
  r ∈ omap (bar_row payload_hash sy tf src meta now) bs -> b_observed_at r = now.
Proof.
  rewrite list_elem_of_omap. intros (b & _ & Hb). unfold bar_row in Hb.
  destruct (in_timestamp b), (in_ohlc b) as [[[[? ?] ?] ?]|]; by simplify_eq.
Qed.

Lemma number_revisions_stamped e rows j r :
  r ∈ _number_revisions e rows j -> exists r', r' ∈ rows /\ b_observed_at r = b_observed_at r'.
Proof.
  unfold _number_revisions. destruct e; [eauto|]. rewrite elem_of_map.
  intros (r' & -> & ?). by exists r'.
Qed.

Lemma jrun_extends c w now j : c < now -> dated_after c w -> extends c j (jrun w now j).
Proof.
  intros Hc Hd. destruct w; cbn [jrun].
  - unfold record_bars. destruct (_ || _); [apply extends_refl|].
    set (rows := omap (bar_row payload_hash symbol timeframe source meta now) bs). 
    match goal with |- context [if Z.eqb ?a ?b then j else ?x] =>
      set (j1 := if Z.eqb a b then j else x) end.
    assert (extends c j j1) as H1.
    { subst j1. destruct (Z.eqb _ _); [apply extends_refl|]. by apply extends_decision. }
    destruct rows as [|r rs] eqn:Hrows; [exact H1|]. eapply extends_trans; [exact H1|].
    unfold _insert_ignoring_duplicates. destruct (enabled j1); cbn [negb]; [|apply extends_refl].
    destruct e_insert; cbn [snd]; [apply extends_refl|].
    constructor; cbn; try apply grows_refl; [done|]. apply insert_all_grows.
    intros x (x' & Hx & ->)%number_revisions_stamped. rewrite <- Hrows in Hx.
    by rewrite (bar_rows_stamped _ _ _ _ _ _ _ Hx).
  - one_table.
  - one_table.
  - clear Hd. unfold record_headlines. revert j. induction items as [|[text pub] items IH]; intros j;
      [apply extends_refl|]. cbn. eapply extends_trans; [|apply IH].
    destruct (String.eqb _ _); [apply extends_refl|]. one_table.
  - one_table.
  - apply extends_decision. by destruct ts.
  - unfold record_execution. destruct (enabled j) eqn:He; cbn [negb snd]; [|apply extends_refl].
    one_table.
Qed.

Definition jruns (ws : list (jwrite F * datetime)) j : Journal F :=
  foldl (fun j '(w, now) => jrun w now j) j ws.

Lemma jruns_extends c ws j :
  Forall (fun '(w, now) => c < now /\ dated_after c w) ws -> extends c j (jruns ws j).
Proof.
  revert j. induction ws as [|[w now] ws IH]; intros j Hw; [apply extends_refl|].
  apply Forall_cons in Hw as [[Hc Hd] Hw]. cbn.
  eapply extends_trans; [by apply jrun_extends|by apply IH].
Qed.

(** Reads as of [c] filter the new rows out. *)
Lemma grows_filter {A} (stamp : A -> datetime) c l l' (p : A -> bool) :
  grows stamp c l l' -> (forall x, c < stamp x -> p x = false) ->
  List.filter p l' = List.filter p l.
Proof.
  intros (new & -> & Hnew) Hp. rewrite List.filter_app.
  assert (List.filter p new = []) as ->; [|by rewrite app_nil_r].
  induction new as [|x new IH]; [done|]. cbn. rewrite Hp by (apply Hnew; constructor).
  apply IH. intros y Hy. apply Hnew. by constructor.
Qed.

(** Each read as of a moment, after whatever is recorded later. *)
Lemma bars_later c ws j symbol timeframe limit e :
  Forall (fun '(w, now) => c < now /\ dated_after c w) ws ->
  bars_as_of symbol timeframe c limit e (jruns ws j) = bars_as_of symbol timeframe c limit e j.
Proof.
  intros Hw. destruct (jruns_extends c ws j Hw) as [He Hb _ _ _ _ _]. unfold bars_as_of, or_empty. rewrite He.
  rewrite (grows_filter _ c _ _ _ Hb); [done|]. intros x Hx.
  replace (b_observed_at x <=? c) with false by (symmetry; by apply Z.leb_gt). by rewrite andb_false_r.
Qed.

Lemma windowed_later {A} symbol c window limit (l l' : list (Observation A)) : grows ob_observed_at c l l' ->
  windowed symbol c window limit l' = windowed symbol c window limit l.
Proof.
  intros Hg. unfold windowed. rewrite (grows_filter _ c l l' _ Hg); [done|].
  intros x Hx. replace (ob_observed_at x <=? c) with false by (symmetry; by apply Z.leb_gt).
  by rewrite andb_false_r.
Qed.

Lemma observations_later c ws j symbol window limit e :
  Forall (fun '(w, now) => c < now /\ dated_after c w) ws ->
  sentiment_as_of symbol c window limit e (jruns ws j) = sentiment_as_of symbol c window limit e j /\
  headlines_as_of symbol c window limit e (jruns ws j) = headlines_as_of symbol c window limit e j /\
  research_as_of symbol c window limit e (jruns ws j) = research_as_of symbol c window limit e j.
Proof.
  intros Hw. destruct (jruns_extends c ws j Hw) as [He _ Hs Hh Hr _ _].
  unfold sentiment_as_of, headlines_as_of, research_as_of, or_empty. rewrite He.
  by rewrite (windowed_later _ _ _ _ _ _ Hs), (windowed_later _ _ _ _ _ _ Hh), (windowed_later _ _ _ _ _ _ Hr).
Qed.

Lemma executions_later c ws j strategy version_ symbol environment_ account start limit e :
  Forall (fun '(w, now) => c < now /\ dated_after c w) ws ->
  execution_rows strategy version_ symbol environment_ account start (Some c) limit e (jruns ws j) =
  execution_rows strategy version_ symbol environment_ account start (Some c) limit e j.
Proof.
  intros Hw. destruct (jruns_extends c ws j Hw) as [He _ _ _ _ _ Hx]. unfold execution_rows, or_empty. rewrite He.
  rewrite (grows_filter _ c _ _ _ Hx); [done|]. intros x Hx0. unfold in_window.
  replace (x_recorded_at x <=? c) with false by (symmetry; by apply Z.leb_gt). by rewrite !andb_false_r.
Qed.

Lemma decisions_later c ws j symbol stage start limit e :
  Forall (fun '(w, now) => c < now /\ dated_after c w) ws ->
  decisions_as_of c symbol stage start limit e (jruns ws j) = decisions_as_of c symbol stage start limit e j.
Proof.
  intros Hw. destruct (jruns_extends c ws j Hw) as [He _ _ _ _ Hd _]. unfold decisions_as_of, or_empty. rewrite He.
  rewrite (grows_filter _ c _ _ _ Hd); [done|]. intros x Hx.
  replace (d_ts x <=? c) with false by (symmetry; by apply Z.leb_gt). done.
Qed.

(** What comes after a moment comes after every earlier one. *)
Lemma later_mono c c' (ws : list (jwrite F * datetime)) : c <= c' ->
  Forall (fun '(w, now) => c' < now /\ dated_after c' w) ws ->
  Forall (fun '(w, now) => c < now /\ dated_after c w) ws.
Proof.
  intros Hc Hw. eapply Forall_impl; [exact Hw|]. intros [w now] [Hn Hd]. split; [lia|].
  destruct w; cbn in *; try done. by destruct ts; [lia|].
Qed.

(** C28. No look-ahead: whatever is recorded after a moment, every read as of that moment
    answers as it did then: the bars with their revisions, the sentiment, the
    headlines, the research and the decisions (unless a caller back-dates a
    decision). *)
Theorem no_lookahead c ws j symbol timeframe window limit sym stage start e :
  Forall (fun '(w, now) => c < now /\ dated_after c w) ws ->
  let j' := jruns ws j in
  bars_as_of symbol timeframe c limit e j' = bars_as_of symbol timeframe c limit e j /\
  sentiment_as_of symbol c window limit e j' = sentiment_as_of symbol c window limit e j /\
  headlines_as_of symbol c window limit e j' = headlines_as_of symbol c window limit e j /\
  research_as_of symbol c window limit e j' = research_as_of symbol c window limit e j /\
  decisions_as_of c sym stage start limit e j' = decisions_as_of c sym stage start limit e j.
Proof.
  intros Hw j'. destruct (observations_later c ws j symbol window limit e Hw) as (Hs & Hh & Hr).
  split; [by apply bars_later|]. split; [done|]. split; [done|]. split; [done|]. by apply decisions_later.
Qed.
End growth.

(** ** The series as of a moment *)

Section series.
Context {A : Type} (key : A -> Z).

Lemma first_per_snoc l x :
  first_per key (l ++ [x]) =
    if existsb (fun y => Z.eqb (key y) (key x)) (first_per key l)
    then first_per key l else first_per key l ++ [x].
Proof. unfold first_per. by rewrite foldl_app. Qed.

Lemma first_per_spec l :
  NoDup (map key (first_per key l)) /\
  (forall x, x ∈ l -> exists y, y ∈ first_per key l /\ key y = key x) /\
  (forall y, y ∈ first_per key l -> exists l1 l2, l = l1 ++ y :: l2 /\
     forall z, z ∈ l1 -> key z <> key y).
Proof.
  induction l as [|x l IH] using rev_ind.
  { split; [constructor|]. split; [by intros x ?%not_elem_of_nil|].
    cbn. by intros y ?%not_elem_of_nil. }
  destruct IH as (Hn & Hc & Hf). rewrite first_per_snoc.
  destruct (existsb _ _) eqn:E.
  - apply existsb_exists in E as (y & Hy & E%Z.eqb_eq). rewrite <- list_elem_of_In in Hy.
    split; [done|]. split.
    + intros z [Hz| ->%list_elem_of_singleton]%elem_of_app; [auto|eauto].
    + intros z Hz. destruct (Hf z Hz) as (l1 & l2 & -> & Hl). exists l1, (l2 ++ [x]).
      by rewrite <- app_assoc.
  - assert (forall y, y ∈ first_per key l -> key y <> key x) as Hne.
    { intros y Hy Ey. apply not_true_iff_false in E. apply E. apply existsb_exists.
      exists y. rewrite <- list_elem_of_In. split; [done|by apply Z.eqb_eq]. }
    split; [|split].
    + rewrite map_app. apply NoDup_app. repeat split; [done| |apply NoDup_singleton].
      intros k Hk ->%list_elem_of_singleton. apply elem_of_map in Hk as (y & Ek & Hy).
      by apply (Hne y Hy).
    + intros z [Hz| ->%list_elem_of_singleton]%elem_of_app.
      * destruct (Hc z Hz) as (y & Hy & Ey). exists y. split; [|done]. apply elem_of_app. by left.
      * exists x. split; [|done]. apply elem_of_app. right. constructor.
    + intros z [Hz| ->%list_elem_of_singleton]%elem_of_app.
      * destruct (Hf z Hz) as (l1 & l2 & -> & Hl). exists l1, (l2 ++ [x]). by rewrite <- app_assoc.
      * exists l, []. split; [done|]. intros z Hz Ez. destruct (Hc z Hz) as (y & Hy & Ey).
        apply (Hne y Hy). congruence.
Qed.
End series.

Lemma strictly_ascending {A} (key : A -> Z) l :
  StronglySorted (fun a b => (key a <=? key b) = true) l -> NoDup (map key l) ->
  StronglySorted (fun a b => key a < key b) l.
Proof.
  induction 1 as [|x l Hs IH Hx]; [constructor|]. cbn. intros [Hnx Hnd]%NoDup_cons.
  constructor; [by apply IH|]. rewrite List.Forall_forall in Hx |- *. intros y Hy.
  specialize (Hx y Hy). apply Z.leb_le in Hx.
  assert (key x <> key y); [|lia]. intros E. apply Hnx. apply elem_of_map.
  exists y. by rewrite list_elem_of_In.
Qed.

Lemma Sorted_all {A} (leb : A -> A -> bool) l :
  (forall x y z, leb x y = true -> leb y z = true -> leb x z = true) ->
  Sorted (fun a b => leb a b = true) l -> StronglySorted (fun a b => leb a b = true) l.
Proof. intros Ht. apply Sorted_StronglySorted. intros x y z. apply Ht. Qed.

Lemma StronglySorted_app_r {A} (R : A -> A -> Prop) l1 x l2 y :
  StronglySorted R (l1 ++ x :: l2) -> y ∈ l2 -> R x y.
Proof.
  induction l1 as [|z l1 IH]; cbn; intros Hs Hy; inversion Hs as [|? ? Hs' Hf]; subst; [|auto].
  rewrite List.Forall_forall in Hf. apply Hf. by rewrite <- list_elem_of_In.
Qed.

Lemma StronglySorted_drop {A} (R : A -> A -> Prop) n l :
  StronglySorted R l -> StronglySorted R (drop n l).
Proof.
  revert n. induction l as [|x l IH]; intros [|n] Hs; cbn; auto; try done.
  apply IH. by inversion Hs.
Qed.

Section bars.
Context {F : Type}.
Implicit Types j : Journal F.

(** The series as of a moment is what was known then: one bar per market timestamp,
    in order, each the newest version observed by that moment; and, within the
    limit, every timestamp observed by then has its bar. *)
Theorem bars_as_of_spec symbol timeframe as_of limit j :
  enabled j = true ->
  let out := bars_as_of symbol timeframe as_of limit None j in
  let known b := b ∈ bars j /\ is_series symbol timeframe b = true /\ b_observed_at b <= as_of in
  StronglySorted (fun a b => b_bar_ts a < b_bar_ts b) out /\
  (forall b, b ∈ out -> known b /\
     forall x, known x -> b_bar_ts x = b_bar_ts b -> b_observed_at x <= b_observed_at b) /\
  ((length (bars j) <= limit)%nat ->
     forall x, known x -> exists b, b ∈ out /\ b_bar_ts b = b_bar_ts x).
Proof.
  intros He out known. subst out. unfold bars_as_of, or_empty. rewrite He. cbn [negb].
  set (rows := sort_by newest_first _). set (asc := fun a b : BarObservation F => b_bar_ts a <=? b_bar_ts b).
  assert (forall b, b ∈ rows <-> known b) as Hrows.
  { intros b. subst rows known. rewrite elem_of_sort_by, elem_of_filter_b, andb_true_iff, Z.leb_le. tauto. }
  assert (StronglySorted (fun a b => newest_first a b = true) rows) as Hsort.
  { apply Sorted_all; [|apply sort_by_sorted]; unfold newest_first.
    - intros x y z. rewrite !orb_true_iff, !andb_true_iff, !Z.ltb_lt, !Z.eqb_eq, !Z.leb_le. lia.
    - intros x y. rewrite orb_false_iff, andb_false_iff, orb_true_iff, andb_true_iff,
        !Z.ltb_lt, !Z.ltb_ge, !Z.eqb_eq, !Z.eqb_neq, !Z.leb_le, !Z.leb_gt. lia. }
  destruct (first_per_spec b_bar_ts rows) as (Hn & Hc & Hf). set (latest := first_per b_bar_ts rows) in *.
  assert (forall b, b ∈ sort_by asc latest <-> b ∈ latest) as Hel by (intros; apply elem_of_sort_by).
  assert (StronglySorted (fun a b => b_bar_ts a < b_bar_ts b) (sort_by asc latest)) as Hasc.
  { assert (StronglySorted (fun a b => asc a b = true) (sort_by asc latest)) as Hs.
    { apply Sorted_all; [intros x y z; unfold asc; rewrite !Z.leb_le; lia|].
      apply sort_by_sorted. intros x y. unfold asc. rewrite Z.leb_gt, Z.leb_le. lia. }
    assert (NoDup (map b_bar_ts (sort_by asc latest))) as Hnd
      by (by rewrite (sort_by_perm asc latest)).
    by apply strictly_ascending. }
  split; [|split].
  - by apply StronglySorted_drop.
  - intros b Hb. assert (b ∈ latest) as Hbl.
    { apply Hel. unfold last_n in Hb. rewrite <- (take_drop (length (sort_by asc latest) - limit)
        (sort_by asc latest)). apply elem_of_app. by right. }
    destruct (Hf b Hbl) as (l1 & l2 & E & Hl1). split; [apply Hrows; rewrite E; set_solver|].
    intros x Hx Ex. apply Hrows in Hx. rewrite E in Hx, Hsort.
    apply elem_of_app in Hx as [Hx|Hx]; [by destruct (Hl1 x Hx)|].
    apply elem_of_cons in Hx as [->|Hx]; [lia|].
    pose proof (StronglySorted_app_r _ _ _ _ x Hsort Hx) as Hbx. unfold newest_first in Hbx.
    rewrite orb_true_iff, andb_true_iff, Z.ltb_lt, Z.eqb_eq, Z.leb_le in Hbx. lia.
  - intros Hlim x Hx. apply Hrows in Hx. destruct (Hc x Hx) as (y & Hy & Ey).
    exists y. split; [|done]. unfold last_n.
    assert (length (sort_by asc latest) <= limit)%nat as Hle.
    { rewrite (Permutation_length (sort_by_perm asc latest)).
      transitivity (length rows); [|transitivity (length (bars j)); [|exact Hlim]].
      - subst latest. clear. unfold first_per. induction rows as [|r l IH] using rev_ind; [done|].
        rewrite foldl_app, length_app. cbn. destruct (existsb _ _); rewrite ?length_app; cbn; lia.
      - subst rows. rewrite (Permutation_length (sort_by_perm _ _)). apply filter_length_le. }
    replace (length (sort_by asc latest) - limit)%nat with 0%nat by lia. by apply Hel.
Qed.
End bars.

(** ** The net position is the sum of the fills (exact arithmetic) *)

Section net.
(** The database's SUM adds. *)
Context (sql_sum : list Q -> Q).
Context (sql_sum_spec : forall l, (sql_sum l == nsum l)%Q).
Implicit Types j : Journal Q.

Fixpoint qsum {A} (f : A -> Q) (l : list A) : Q :=
  match l with [] => 0 | x :: l' => f x + qsum f l' end%Q.

Lemma foldl_qadd {A} (f : A -> Q) l a : (foldl (fun n x => n + f x) a l == a + qsum f l)%Q.
Proof. revert a. induction l as [|x l IH]; intros a; cbn; [ring|]. rewrite IH. ring. Qed.

Lemma nsum_qsum l : (nsum l == qsum (fun x => x) l)%Q.
Proof. unfold nsum. cbn [nadd exact]. rewrite (foldl_qadd (fun x => x)). cbn. change (nzero : Q) with 0%Q. ring. Qed.

Lemma qsum_app {A} (f : A -> Q) l l' : (qsum f (l ++ l') == qsum f l + qsum f l')%Q.
Proof. induction l as [|x l IH]; cbn; [ring|]. rewrite IH. ring. Qed.

Lemma qsum_ext {A} (f g : A -> Q) l : (forall x, x ∈ l -> f x == g x)%Q -> (qsum f l == qsum g l)%Q.
Proof.
  induction l as [|x l IH]; intros Hf; cbn; [done|]. rewrite (Hf x) by constructor.
  rewrite IH; [done|]. intros y Hy. apply Hf. by constructor.
Qed.

Definition signed_fill (r : ExecutionQuality Q) : Q :=
  if String.eqb (upper (x_side r)) "BUY" then x_filled_qty r else (- x_filled_qty r)%Q.
Definition side_total (rows : list (ExecutionQuality Q)) (side : string) : Q :=
  let signed := sql_sum (map x_filled_qty (List.filter (fun r => String.eqb (x_side r) side) rows)) in
  if String.eqb (upper side) "BUY" then signed else (- signed)%Q.

Lemma side_total_spec rows side :
  (side_total rows side == qsum (fun r => if String.eqb (x_side r) side then signed_fill r else 0) rows)%Q.
Proof using sql_sum_spec.
  unfold side_total. pose proof (sql_sum_spec (map x_filled_qty
    (List.filter (fun r => String.eqb (x_side r) side) rows))) as Hs. rewrite nsum_qsum in Hs.
  set (t := sql_sum _) in *. clearbody t. cbn zeta.
  transitivity (if String.eqb (upper side) "BUY" then qsum (fun x => x) (map x_filled_qty
      (List.filter (fun r => String.eqb (x_side r) side) rows)) else
    - qsum (fun x => x) (map x_filled_qty (List.filter (fun r => String.eqb (x_side r) side) rows)))%Q.
  { destruct (String.eqb (upper side) "BUY"); by rewrite Hs. }
  clear Hs t. induction rows as [|r rows IH]; cbn -[upper]; [by destruct (String.eqb _ _)|].
  destruct (String.eqb_spec (x_side r) side) as [<-|]; cbn -[upper]; [|rewrite <- IH; ring].
  rewrite <- IH. unfold signed_fill. destruct (String.eqb (upper (x_side r)) "BUY"); ring.
Qed.

Lemma indicator_sum sides side (c : Q) :
  NoDup sides ->
  (qsum (fun s => if String.eqb side s then c else 0) sides == if str_in side sides then c else 0)%Q.
Proof.
  induction sides as [|s sides IH]; intros Hn; [done|]. apply NoDup_cons in Hn as [Hs Hn].
  cbn [qsum]. specialize (IH Hn). unfold str_in in *. cbn [existsb].
  destruct (String.eqb_spec side s) as [->|]; cbn [orb]; rewrite IH.
  - destruct (existsb (String.eqb s) sides) eqn:E; [by apply str_in_spec in E|ring].
  - destruct (existsb _ sides); ring.
Qed.

Lemma sides_of_spec rows :
  NoDup (sides_of rows) /\ forall r, r ∈ rows -> x_side (F := Q) r ∈ sides_of rows.
Proof.
  unfold sides_of. induction rows as [|r rows [Hn Hc]] using rev_ind;
    [split; [constructor|by intros r ?%not_elem_of_nil]|].
  rewrite foldl_app. cbn. set (acc := foldl _ [] rows) in *.
  destruct (str_in (x_side r) acc) eqn:E.
  - apply str_in_spec in E. split; [done|].
    intros x [?| ->%list_elem_of_singleton]%elem_of_app; auto.
  - assert (x_side r ∉ acc) as Hr by (rewrite <- str_in_spec; congruence). split.
    + apply NoDup_app. repeat split; [done| |apply NoDup_singleton].
      by intros s Hs ->%list_elem_of_singleton.
    + intros x [?| ->%list_elem_of_singleton]%elem_of_app; apply elem_of_app; [left; auto|right; constructor].
Qed.

Lemma qsum_swap {A B} (f : A -> B -> Q) l l' :
  (qsum (fun a => qsum (fun b => f a b) l') l == qsum (fun b => qsum (fun a => f a b) l) l')%Q.
Proof.
  induction l as [|a l IH]; cbn.
  - induction l' as [|b l' IH']; cbn; [done|]. rewrite <- IH'. ring.
  - rewrite IH. clear IH. induction l' as [|b l' IH']; cbn; [ring|]. rewrite <- IH'. ring.
Qed.

Definition scope_fills strategy symbol env account j : list (ExecutionQuality Q) :=
  List.filter (fun r => in_scope strategy symbol env account r && x_filled r) (executions j).

Lemma net_position_sum strategy symbol env account j :
  enabled j = true ->
  exists net, net_position sql_sum strategy symbol env account None j = Some net /\
    (net == qsum signed_fill (scope_fills strategy symbol env account j))%Q.
Proof using sql_sum_spec.
  intros He. unfold net_position. rewrite He. cbn [negb]. eexists. split; [reflexivity|].
  fold (scope_fills strategy symbol env account j). set (rows := scope_fills _ _ _ _ j).
  destruct (sides_of_spec rows) as [Hn Hc].
  transitivity (qsum (side_total rows) (sides_of rows)).
  { cbn [nadd nopp exact]. rewrite (foldl_qadd (side_total rows)). change (nzero : Q) with 0%Q. ring. }
  rewrite (qsum_ext _ (fun side => qsum (fun r => if String.eqb (x_side r) side then signed_fill r else 0) rows)%Q)
    by (intros; apply side_total_spec).
  rewrite qsum_swap. apply qsum_ext. intros r Hr. rewrite indicator_sum by done.
  replace (str_in (x_side r) (sides_of rows)) with true; [done|].
  symmetry. apply str_in_spec. auto.
Qed.

Lemma net_position_recorded symbol side qty dp fp ot lp oid sid outcome strategy version_
    env account broker_ fees now st' sy' env' ac' j :
  enabled j = true ->
  let j' := snd (record_execution symbol side qty dp fp ot lp oid sid outcome strategy version_
                   env account broker_ fees None false false now None j) in
  exists net net', net_position sql_sum st' sy' env' ac' None j = Some net /\
    net_position sql_sum st' sy' env' ac' None j' = Some net' /\
    (net' == net +
       if (match fp with Some p => (p >? nzero)%py | None => false end) &&
          (String.eqb strategy st' && String.eqb (upper symbol) (upper sy') &&
           String.eqb env env' && String.eqb account ac')
       then (if String.eqb (upper side) "BUY" then qty else - qty) else 0)%Q.
Proof using sql_sum_spec.
  intros He j'. destruct (net_position_sum st' sy' env' ac' j He) as (net & E & Hnet).
  assert (enabled j' = true) as He' by (subst j'; unfold record_execution, _insert; by rewrite He).
  destruct (net_position_sum st' sy' env' ac' j' He') as (net' & E' & Hnet').
  exists net, net'. split; [done|]. split; [done|]. rewrite Hnet', Hnet.
  unfold scope_fills. subst j'. unfold record_execution, _insert. rewrite He. cbn -[upper in_scope].
  rewrite List.filter_app, qsum_app. apply Qplus_inj_l. cbn [List.filter]. unfold in_scope at 1. cbn -[upper].
  rewrite (andb_comm (_ && _) (match fp with Some _ => _ | None => _ end)).
  destruct (match fp with Some _ => _ | None => _ end) eqn:Hf; cbn -[upper]; [|ring].
  destruct (String.eqb strategy st' && _ && _ && _); cbn -[upper]; [|ring].
  unfold signed_fill. cbn -[upper]. rewrite upper_idemp. destruct (String.eqb _ _); ring.
Qed.
(** The net position follows the fills: recording an execution moves the net position of
    its own scope by its signed filled quantity if it filled, and leaves every
    other scope (another strategy, symbol, environment or account) as it was. *)
Theorem net_position_tracks symbol side qty dp fp ot lp oid sid outcome strategy version_
    env account broker_ fees now st' sy' env' ac' j :
  enabled j = true ->
  let j' := snd (record_execution symbol side qty dp fp ot lp oid sid outcome strategy version_
                   env account broker_ fees None false false now None j) in
  exists net net', net_position sql_sum st' sy' env' ac' None j = Some net /\
    net_position sql_sum st' sy' env' ac' None j' = Some net' /\
    (net' == net +
       if (match fp with Some p => (p >? nzero)%py | None => false end) &&
          (String.eqb strategy st' && String.eqb (upper symbol) (upper sy') &&
           String.eqb env env' && String.eqb account ac')
       then (if String.eqb (upper side) "BUY" then qty else - qty) else 0)%Q.
Proof using sql_sum_spec. intros He. by apply net_position_recorded. Qed.
End net.

(** ** Completeness *)

Section completeness.
Context {F : Type} `{PyFloat F}.
Implicit Types j : Journal F.

Lemma gaps_between_nil tolerance l :
  gaps_between (F := F) tolerance l = [] <->
  (forall i a b, l !! i = Some a -> l !! S i = Some b ->
     (total_seconds (b - a) / nofZ 60 >? tolerance)%py = false).
Proof.
  induction l as [|a [|b l] IH]; [done|split; [by intros _ [|i]|done]|].
  cbn [gaps_between]. destruct (_ >? tolerance)%py eqn:E; split.
  - done.
  - intros Hall. specialize (Hall 0%nat a b eq_refl eq_refl). congruence.
  - intros Hg [|i] x y Hx Hy; [cbn in Hx, Hy; by simplify_eq|].
    rewrite IH in Hg. by apply (Hg i x y).
  - intros Hall. apply IH. intros i x y Hx Hy. by apply (Hall (S i) x y).
Qed.

Lemma stamps_spec symbol timeframe start stop j t :
  t ∈ stamps symbol timeframe start stop j <->
  exists b, b ∈ bars j /\ is_series symbol timeframe b = true /\ start <= b_bar_ts b <= stop /\
    b_bar_ts b = t.
Proof.
  unfold stamps. rewrite elem_of_sort_by, list_elem_of_In, nodup_In, <- list_elem_of_In, elem_of_map.
  split.
  - intros (b & -> & [Hb Hp]%elem_of_filter_b). reflect_bools. exists b. auto.
  - intros (b & Hb & Hs & [Hl Hu] & <-). exists b. split; [done|]. apply elem_of_filter_b.
    split; [done|]. rewrite Hs. cbn [andb]. apply andb_true_iff. by rewrite !Z.leb_le.
Qed.

Lemma stamps_ascending symbol timeframe start stop j :
  StronglySorted Z.lt (stamps symbol timeframe start stop j).
Proof.
  apply (strictly_ascending (fun t => t)).
  - apply Sorted_all; [intros x y z; rewrite !Z.leb_le; lia|].
    apply sort_by_sorted. intros x y. rewrite Z.leb_gt, Z.leb_le. lia.
  - rewrite map_id. unfold stamps. rewrite sort_by_perm. apply NoDup_ListNoDup, NoDup_nodup.
Qed.

(** A window is complete exactly when it holds a bar, no two consecutive bars are more
    than one and a half intervals apart, and the last bar is no older than that at
    the end of the window; the gaps are counted. *)
Theorem completeness_spec symbol timeframe start stop (interval : F) j k :
  completeness symbol timeframe start stop interval None j = Ok k ->
  let st := stamps symbol timeframe start stop j in
  let tolerance := (interval * nlit 3 2)%py in
  StronglySorted Z.lt st /\
  (forall t, t ∈ st <-> exists b, b ∈ bars j /\ is_series symbol timeframe b = true /\
     start <= b_bar_ts b <= stop /\ b_bar_ts b = t) /\
  k_actual_observations k = Z.of_nat (length st) /\
  (k_complete k = true <->
     (exists t, last st = Some t /\
        (nround 2 (total_seconds (stop - t) / nofZ 60) >? tolerance)%py = false) /\
     (forall i a b, st !! i = Some a -> st !! S i = Some b ->
        (total_seconds (b - a) / nofZ 60 >? tolerance)%py = false)).
Proof.
  unfold completeness. destruct (enabled j); [|done]. intros [= <-]. cbn zeta.
  split; [apply stamps_ascending|]. split; [intros; apply stamps_spec|]. split; [done|].
  cbn [k_complete]. set (st := stamps _ _ _ _ _). rewrite <- gaps_between_nil.
  destruct (last st) as [t|] eqn:El; cbn.
  - assert (Z.eqb (Z.of_nat (length st)) 0 = false) as -> by (destruct st; [done|apply Z.eqb_neq; cbn; lia]).
    cbn. destruct (gaps_between _ st); cbn; [|naive_solver].
    rewrite negb_true_iff. split; [intros; split; [by eexists|done]|].
    by intros [(t' & [= <-] & ?) _].
  - apply last_None in El as ->. cbn. naive_solver.
Qed.
End completeness.

(** ** Three things the archive does *)

Module Demo.
Definition bar64 (ts v : Z) : BarIn spec_float :=
  {| in_timestamp := Some ts; in_ohlc := Some (nofZ v, nofZ v, nofZ v, nofZ v);
     in_volume := Some (nofZ 1) |}.
(** A stand-in for the payload hash that tells these bars apart. *)
Definition hash (o h l c v : spec_float) : string := str_of_Z (ntrunc c).
Definition empty {F} : Journal F :=
  {| enabled := true; bars := []; prices := []; sentiments := []; headlines := [];
     researches := []; decisions := []; executions := [] |}.
Definition fetch (ts v now : Z) (j : Journal spec_float) : Journal spec_float :=
  snd (record_bars hash "aapl" "15m" [bar64 ts v] "feed" (JDict []) "u" now None None None j).
Definition minutes (n : Z) : datetime := n * 60000000.
End Demo.

(** A provider that revises a bar and then takes the revision back: the third fetch
    is dropped as a duplicate of the first, and the series keeps the revision. *)
Lemma reverted_bar_is_lost :
  let j := Demo.fetch 100 10 3 (Demo.fetch 100 11 2 (Demo.fetch 100 10 1 Demo.empty)) in
  map b_close (bars_as_of "AAPL" "15m" 3 10 None j) = [nofZ 11].
Proof. vm_compute. reflexivity. Qed.

(** Two sessions of a quarter-hour series: the night between them is a gap, so the
    window is not complete. *)
Lemma overnight_is_a_gap :
  let j := Demo.fetch (Demo.minutes 1440) 10 2 (Demo.fetch (Demo.minutes 390) 10 1 Demo.empty) in
  exists k, completeness "AAPL" "15m" 0 (Demo.minutes 1440) (nofZ 15) None j = Ok k /\
    k_complete k = false /\ k_gap_count k = 1.
Proof. eexists. split; [vm_compute; reflexivity|]. split; reflexivity. Qed.

(** One bar at the end of a twenty-day window: complete. *)
Lemma leading_hole_is_complete :
  let j := Demo.fetch (Demo.minutes 28800) 10 1 Demo.empty in
  exists k, completeness "AAPL" "15m" 0 (Demo.minutes 28800) (nofZ 15) None j = Ok k /\
    k_complete k = true /\ k_actual_observations k = 1 /\ k_expected_observations k = 1920.
Proof. eexists. split; [vm_compute; reflexivity|]. repeat split; reflexivity. Qed.

(** A full window of decisions is read from its oldest end. *)
Lemma decisions_as_of_keeps_oldest :
  let decide t j := snd (record_decision (F := spec_float) "s" "o" "aapl" "" "" (JDict []) (JDict []) "" None "u" t None j) in
  let j := decide 3 (decide 2 (decide 1 Demo.empty)) in
  map d_ts (decisions_as_of 9 None None None 2 None j) = [1; 2].
Proof. vm_compute. reflexivity. Qed.

(** ** Witnesses *)

Lemma no_lookahead_witness :
  bars_as_of "aapl" "15m" 1 10 None (Demo.fetch 100 11 2 (Demo.fetch 100 10 1 Demo.empty)) =
  bars_as_of "aapl" "15m" 1 10 None (Demo.fetch 100 10 1 Demo.empty).
Proof.
  exact (proj1 (no_lookahead Demo.hash 1
    [(WBars "aapl" "15m" [Demo.bar64 100 11] "feed" (JDict []) "u" None None None, 2)]
    (Demo.fetch 100 10 1 Demo.empty) "aapl" "15m" 0 10 None None None None
    ltac:(repeat constructor))).
Defined.

Lemma bars_as_of_spec_witness :
  let out := bars_as_of "aapl" "15m" 2 10 None (Demo.fetch 100 11 2 (Demo.fetch 100 10 1 Demo.empty)) in
  StronglySorted (fun a b => b_bar_ts a < b_bar_ts b) out.
Proof.
  exact (proj1 (bars_as_of_spec "aapl" "15m" 2 10 (Demo.fetch 100 11 2 (Demo.fetch 100 10 1 Demo.empty))
    eq_refl)).
Defined.

Lemma net_position_tracks_witness :
  let j' := snd (record_execution "aapl" "buy" 5%Q None (Some 100%Q) "MARKET" None "o" "s" "filled"
                   "ema" "v1" "paper" "default" "paper" 0%Q None false false 1 None Demo.empty) in
  exists net net', net_position nsum "ema" "AAPL" "paper" "default" None Demo.empty = Some net /\
    net_position nsum "ema" "AAPL" "paper" "default" None j' = Some net' /\ (net' == net + 5)%Q.
Proof.
  destruct (net_position_tracks nsum (fun l => Qeq_refl _) "aapl" "buy" 5%Q None (Some 100%Q) "MARKET" None
    "o" "s" "filled" "ema" "v1" "paper" "default" "paper" 0%Q 1 "ema" "AAPL" "paper" "default" Demo.empty
    eq_refl) as (net & net' & E & E' & Eq).
  exists net, net'. split; [exact E|]. split; [exact E'|]. exact Eq.
Defined.

Lemma completeness_spec_witness :
  let j := Demo.fetch (Demo.minutes 30) 10 2 (Demo.fetch (Demo.minutes 15) 10 1 Demo.empty) in
  exists k, completeness "AAPL" "15m" 0 (Demo.minutes 30) (nofZ 15) None j = Ok k /\
    k_actual_observations k = Z.of_nat (length (stamps "AAPL" "15m" 0 (Demo.minutes 30) j)).
Proof.
  cbn zeta. set (j := Demo.fetch _ _ _ _).
  destruct (completeness "AAPL" "15m" 0 (Demo.minutes 30) (nofZ 15) None j) as [k|e] eqn:E;
    [|vm_compute in E; discriminate E].
  exists k. split; [reflexivity|].
  exact (proj1 (proj2 (proj2 (completeness_spec "AAPL" "15m" 0 (Demo.minutes 30) (nofZ 15) j k E)))).
Defined.
