(* ===== verification/Attribution.v ===== *)
(** * Attribution: round trips and where their result came from

    Models [libs/attribution/src/attribution]: [models.py] (legs, round trips,
    attributions), [roundtrips.py] (FIFO pairing of the execution record within a
    scope), [attribute.py] (the three price components and the excursions; the
    regimes and the report are in [Regime]), [counterfactual.py], and the
    performance figures of [report.py]. Python's [x ** y] on floats is libm's
    [pow], the parameter [fpow]. *)

From S2P Require Import Prelude PyFloat Store Contracts Journal.
From Stdlib Require Import Floats.SpecFloat.

Record Leg (F : Type) := {
  l_side : string;
  l_qty : F;
  l_decision_price : option F;
  l_fill_price : option F;
  l_at : datetime;
  l_fees : F;
  l_order_id : string;
  l_outcome : string
}.
Arguments l_side {F}. Arguments l_qty {F}. Arguments l_decision_price {F}.
Arguments l_fill_price {F}. Arguments l_at {F}. Arguments l_fees {F}.
Arguments l_order_id {F}. Arguments l_outcome {F}.

Record RoundTrip (F : Type) := {
  t_strategy_id : string;
  t_symbol : string;
  t_environment : string;
  t_account_id : string;
  t_strategy_version : string;
  t_entry : Leg F;
  t_exit : Leg F;
  t_qty : F
}.
Arguments t_strategy_id {F}. Arguments t_symbol {F}. Arguments t_environment {F}.
Arguments t_account_id {F}. Arguments t_strategy_version {F}. Arguments t_entry {F}.
Arguments t_exit {F}. Arguments t_qty {F}.

Section models.
Context {F : Type} `{PyFloat F}.
Local Open Scope py_scope.

Definition usable (l : Leg F) : bool :=
  match l_fill_price l with Some p => p >? nzero | None => false end.
Definition direction (t : RoundTrip F) : Z :=
  if String.eqb (upper (l_side (t_entry t))) "BUY" then 1 else -1.
Definition held_for_minutes (t : RoundTrip F) : F :=
  total_seconds (l_at (t_exit t) - l_at (t_entry t)) / nofZ 60.
Definition realized_per_share (t : RoundTrip F) : option F :=
  if usable (t_entry t) && usable (t_exit t) then
    match l_fill_price (t_entry t), l_fill_price (t_exit t) with
    | Some en, Some ex => Some (nofZ (direction t) * (ex - en))
    | _, _ => None
    end
  else None.
Definition realized (t : RoundTrip F) : option F :=
  option_map (fun p => p * t_qty t) (realized_per_share t).
End models.

(** ** roundtrips.py *)

Section pairing.
Context {F : Type} `{PyFloat F}.
Local Open Scope py_scope.

Definition _leg (r : ExecutionQuality F) : Leg F :=
  {| l_side := upper (x_side r); l_qty := nor (nor (x_filled_qty r) (x_qty r)) nzero;
     l_decision_price := x_decision_price r; l_fill_price := x_fill_price r;
     l_at := x_recorded_at r; l_fees := nor (x_fees r) nzero; l_order_id := x_order_id r;
     l_outcome := x_outcome r |}.

Definition side_direction (side : string) : option Z :=
  if String.eqb side "BUY" then Some 1%Z
  else if String.eqb side "SELL" then Some (-1)%Z else None.

Definition scope_key : Type := string * string * string * string * string.
Definition key_of (r : ExecutionQuality F) : scope_key :=
  (x_strategy_id r, x_strategy_version r, upper (x_symbol r), x_environment r, x_account_id r).
Definition key_eqb (a b : scope_key) : bool := bool_decide (a = b).

Definition participates (r : ExecutionQuality F) : bool :=
  x_filled r && opt_true (x_fill_price r).

(** The groups, in order of first appearance, each with its rows in order. *)
Definition add_to_group (groups : list (scope_key * list (ExecutionQuality F)))
    (r : ExecutionQuality F) : list (scope_key * list (ExecutionQuality F)) :=
  if existsb (fun g => key_eqb (fst g) (key_of r)) groups
  then map (fun g => if key_eqb (fst g) (key_of r) then (fst g, snd g ++ [r]) else g) groups
  else groups ++ [(key_of r, [r])].

Definition trip_of (k : scope_key) (entry exit : Leg F) (qty : F) : RoundTrip F :=
  let '(strategy, version_, symbol, env, account) := k in
  {| t_strategy_id := strategy; t_symbol := symbol; t_environment := env;
     t_account_id := account; t_strategy_version := version_; t_entry := entry;
     t_exit := exit; t_qty := qty |}.

(** The state of one scope: the trips so far, the open lots and their direction. *)
Record Book := {
  bk_trips : list (RoundTrip F);
  bk_open : list (Leg F * F);
  bk_direction : Z
}.

(** The while loop: an opposing fill nets against the open lots, oldest first.
    [None] is running out of fuel. *)
Fixpoint offset (k : scope_key) (fuel : nat) (leg : Leg F) (leg_direction : Z)
    (remaining : F) (b : Book) : option (F * Book) :=
  match fuel with
  | O => None
  | S fuel =>
      if (remaining >? nzero) && Z.eqb leg_direction (- bk_direction b) then
        match bk_open b with
        | [] => Some (remaining, b)
        | (entry, available) :: rest =>
            let matched := nmin available remaining in
            let trips := bk_trips b ++ [trip_of k entry leg matched] in
            let left := available - matched in
            offset k fuel leg leg_direction (remaining - matched)
              {| bk_trips := trips;
                 bk_open := if left <=? nzero then rest else (entry, left) :: rest;
                 bk_direction := bk_direction b |}
        end
      else Some (remaining, b)
  end.

(** One row of the scope. Each turn of the loop but the last two closes a lot. *)
Definition pair_row (k : scope_key) (b : Book) (r : ExecutionQuality F) : option Book :=
  let leg := _leg r in
  if l_qty leg <=? nzero then Some b else
  match side_direction (l_side leg) with
  | None => Some b
  | Some d =>
      match offset k (S (S (length (bk_open b)))) leg d (l_qty leg) b with
      | None => None
      | Some (remaining, b) =>
          if remaining >? nzero then
            Some {| bk_trips := bk_trips b; bk_open := bk_open b ++ [(leg, remaining)];
                    bk_direction := d |}
          else match bk_open b with
            | [] => Some {| bk_trips := bk_trips b; bk_open := []; bk_direction := 0 |}
            | _ => Some b
            end
      end
  end.

Definition empty_book : Book := {| bk_trips := []; bk_open := []; bk_direction := 0 |}.

Fixpoint pair_scope (k : scope_key) (b : Book) (rows : list (ExecutionQuality F)) : option Book :=
  match rows with
  | [] => Some b
  | r :: rows' => match pair_row k b r with Some b' => pair_scope k b' rows' | None => None end
  end.

Definition by_time (a b : ExecutionQuality F) : bool := (x_recorded_at a <=? x_recorded_at b)%Z.

Fixpoint pair_groups (groups : list (scope_key * list (ExecutionQuality F)))
    : option (list (RoundTrip F)) :=
  match groups with
  | [] => Some []
  | (k, rows) :: rest =>
      match pair_scope k empty_book (sort_by by_time rows), pair_groups rest with
      | Some b, Some trips => Some (bk_trips b ++ trips)
      | _, _ => None
      end
  end.

Definition pair_round_trips (rows : list (ExecutionQuality F)) : option (list (RoundTrip F)) :=
  let groups := foldl add_to_group [] (List.filter participates rows) in
  option_map (sort_by (fun a b => (l_at (t_exit a) <=? l_at (t_exit b))%Z)) (pair_groups groups).

Definition load_round_trips (strategy version_ symbol environment_ : option string)
    (account : string) (start stop : option datetime) (limit : nat) (e : io) (j : Journal F)
    : option (list (RoundTrip F)) :=
  pair_round_trips (execution_rows strategy version_ symbol environment_ (Some account)
                      start stop limit e j).
End pairing.

(** ** attribute.py *)

Record Attribution (F : Type) := {
  a_round_trip : RoundTrip F;
  signal : option F;
  entry_execution : option F;
  exit_execution : option F;
  fees : F;
  missing : list string
}.
Arguments a_round_trip {F}. Arguments signal {F}. Arguments entry_execution {F}.
Arguments exit_execution {F}. Arguments fees {F}. Arguments missing {F}.

(** A bar of a point-in-time series: its stamp and prices. *)
Record Bar (F : Type) := { bar_ts : datetime; open_ : F; high : F; low : F; close : F }.
Arguments bar_ts {F}. Arguments open_ {F}. Arguments high {F}. Arguments low {F}. Arguments close {F}.

Section attribution.
Context {F : Type} `{PyFloat F}.
Local Open Scope py_scope.

Definition attribute (t : RoundTrip F) : Attribution F :=
  let entry := t_entry t in
  let exit_ := t_exit t in
  let dir := nofZ (direction t) in
  let missing :=
    (if usable entry then [] else ["entry_fill_price"]) ++
    (if usable exit_ then [] else ["exit_fill_price"]) ++
    (if opt_true (l_decision_price entry) then [] else ["entry_decision_price"]) ++
    (if opt_true (l_decision_price exit_) then [] else ["exit_decision_price"]) in
  let fees := nround 6 (nor (l_fees entry) nzero + nor (l_fees exit_) nzero) in
  match missing, l_decision_price entry, l_decision_price exit_, l_fill_price entry,
        l_fill_price exit_ with
  | [], Some ed, Some xd, Some ef, Some xf =>
      {| a_round_trip := t; signal := Some (nround 6 (dir * (xd - ed)));
         entry_execution := Some (nround 6 (dir * (ed - ef)));
         exit_execution := Some (nround 6 (dir * (xf - xd)));
         fees := fees; missing := [] |}
  | _, _, _, _, _ =>
      {| a_round_trip := t; signal := None; entry_execution := None; exit_execution := None;
         fees := fees; missing := missing |}
  end.

Definition complete (a : Attribution F) : bool :=
  match missing a with [] => true | _ => false end.

Definition total (a : Attribution F) : option F :=
  if complete a then
    let or0 x := nor (default nzero x) nzero in
    Some (or0 (signal a) + or0 (entry_execution a) + or0 (exit_execution a))
  else None.

Definition identity_holds (tolerance : F) (a : Attribution F) : bool :=
  match realized_per_share (a_round_trip a), total a with
  | Some r, Some t => nabs (t - r) <=? tolerance
  | _, _ => false
  end.

Definition _bars_between (t : RoundTrip F) (bars : list (Bar F)) : list (Bar F) :=
  List.filter (fun b => (l_at (t_entry t) <=? bar_ts b)%Z && (bar_ts b <=? l_at (t_exit t))%Z) bars.

(** [max(l)] and [min(l)] of a list that may be empty. *)
Definition max_of (l : list F) : option F :=
  match l with [] => None | x :: l' => Some (foldl nmax x l') end.
Definition min_of (l : list F) : option F :=
  match l with [] => None | x :: l' => Some (foldl nmin x l') end.

(** The excursions and the capture ratio: [None] where the code reports none. *)
Definition excursions (t : RoundTrip F) (bars : list (Bar F))
    : option (F * F * option F) :=
  let window := _bars_between t bars in
  match max_of (map high window), min_of (map low window), l_fill_price (t_entry t) with
  | Some hi, Some lo, Some entry =>
      if ntrue entry then
        let favourable := if (0 <? direction t)%Z then hi - entry else entry - lo in
        let adverse := if (0 <? direction t)%Z then lo - entry else entry - hi in
        let capture := match realized_per_share t with
          | Some r => if favourable >? nzero then Some (nround 4 (r / favourable)) else None
          | None => None end in
        Some (nround 6 favourable, nround 6 adverse, capture)
      else None
  | _, _, _ => None
  end.
End attribution.

(** ** counterfactual.py: per share and against the actual result *)

Section counterfactuals.
Context {F : Type} `{PyFloat F}.
Local Open Scope py_scope.

Definition hold_to_end_of_window (t : RoundTrip F) (bars : list (Bar F)) : option (F * F) :=
  match last bars, realized_per_share t, l_fill_price (t_entry t) with
  | Some b, Some actual, Some entry =>
      let alternative := nofZ (direction t) * (close b - entry) in
      Some (nround 6 alternative, nround 6 (alternative - actual))
  | _, _, _ => None
  end.

Definition stop_at (t : RoundTrip F) (bars : list (Bar F)) (distance : F) : option (F * F) :=
  match bars, realized_per_share t, l_fill_price (t_entry t) with
  | [], _, _ => None
  | _, Some actual, Some entry =>
      if distance <=? nzero then None else
      let dir := direction t in
      let stop_price := entry - nofZ dir * distance in
      let touched b := if (0 <? dir)%Z then low b <=? stop_price else high b >=? stop_price in
      match List.find touched bars with
      | Some b =>
          let fill := if (0 <? dir)%Z then nmin stop_price (open_ b) else nmax stop_price (open_ b) in
          let alternative := nofZ dir * (fill - entry) in
          Some (nround 6 alternative, nround 6 (alternative - actual))
      | None => Some (nround 6 actual, nzero)
      end
  | _, _, _ => None
  end.

Definition perfect_exit (t : RoundTrip F) (bars : list (Bar F)) : option (F * F) :=
  match bars, realized_per_share t, l_fill_price (t_entry t) with
  | [], _, _ => None
  | _, Some actual, Some entry =>
      match (if (0 <? direction t)%Z then max_of (map high bars) else min_of (map low bars)) with
      | None => None
      | Some best =>
          let alternative := nofZ (direction t) * (best - entry) in
          Some (nround 6 alternative, nround 6 (alternative - actual))
      end
  | _, _, _ => None
  end.
End counterfactuals.

(** ** report.py: performance from trades *)

Record Performance (F : Type) := {
  p_trades : Z;
  p_realized_total : F;
  p_sharpe : option F;
  p_sharpe_annualised : option F;
  p_sharpe_annualised_std_error : option F;
  p_trades_per_year : option F;
  p_span_days : option F;
  p_max_drawdown_amount : option F;
  p_max_cumulative_loss : option F;
  p_max_drawdown_pct : option F;
  p_win_rate : option F
}.
Arguments p_trades {F}. Arguments p_realized_total {F}. Arguments p_sharpe {F}.
Arguments p_sharpe_annualised {F}. Arguments p_sharpe_annualised_std_error {F}.
Arguments p_trades_per_year {F}. Arguments p_span_days {F}. Arguments p_max_drawdown_amount {F}.
Arguments p_max_cumulative_loss {F}. Arguments p_max_drawdown_pct {F}. Arguments p_win_rate {F}.

Section performance.
Context {F : Type} `{PyFloat F}.
Context (fpow : F -> F -> F).
Local Open Scope py_scope.

Definition by_exit (a b : RoundTrip F) : bool := (l_at (t_exit a) <=? l_at (t_exit b))%Z.

Definition realized_series (trips : list (RoundTrip F)) : list F :=
  omap realized (sort_by by_exit trips).

Definition nlen {A} (l : list A) : F := nofZ (Z.of_nat (length l)).

(** The cumulative curve: equity, peak, trough and worst fall. *)
Definition curve_step (acc : F * F * F * F) (value : F) : F * F * F * F :=
  let '(equity, peak, trough, worst) := acc in
  let equity := equity + value in
  let peak := nmax peak equity in
  let trough := nmin trough equity in
  (equity, peak, trough, nmax worst (peak - equity)).
Definition curve (series : list F) : F * F * F * F :=
  foldl curve_step (nzero, nzero, nzero, nzero) series.

Definition MIN_SPAN_DAYS_TO_ANNUALISE : F := nofZ 5.
Definition DAYS_PER_YEAR : F := nlit 36525 100.

(** The annualised Sharpe, its standard error, the trade frequency and the span. *)
Definition _annualised (trips : list (RoundTrip F)) (per_trade_sharpe : option F) (n : Z)
    : option F * option F * option F * option F :=
  let blank := (None, None, None, None) in
  match per_trade_sharpe with
  | None => blank
  | Some sr =>
      if (n <? 2)%Z then blank else
      let exits := sort_by Z.leb (map (fun t => l_at (t_exit t))
        (List.filter (fun t => match realized t with Some _ => true | None => false end) trips)) in
      match exits, last exits with
      | first :: _ :: _, Some final =>
          let span_days := total_seconds (final - first) / nofZ 86400 in
          if span_days <? MIN_SPAN_DAYS_TO_ANNUALISE
          then (None, None, None, Some (nround 3 span_days))
          else
            let trades_per_year := nofZ (n - 1) * DAYS_PER_YEAR / span_days in
            let root := fpow trades_per_year (nlit 1 2) in
            let std_error := fpow ((n_one + fpow sr (nofZ 2) / nofZ 2) / nofZ n) (nlit 1 2) in
            (Some (nround 4 (sr * root)), Some (nround 4 (std_error * root)),
             Some (nround 2 trades_per_year), Some (nround 3 span_days))
      | _, _ => blank
      end
  end.

Definition performance_from_trades (trips : list (RoundTrip F)) (capital_base : option F)
    : Performance F :=
  let series := realized_series trips in
  let n := Z.of_nat (length series) in
  let realized_total := match series with [] => nzero | _ => nround 4 (nsum series) end in
  if (n <? 2)%Z then
    {| p_trades := n; p_realized_total := realized_total; p_sharpe := None;
       p_sharpe_annualised := None; p_sharpe_annualised_std_error := None;
       p_trades_per_year := None; p_span_days := None; p_max_drawdown_amount := None;
       p_max_cumulative_loss := None; p_max_drawdown_pct := None; p_win_rate := None |}
  else
    let mean := nsum series / nlen series in
    let variance := nsum (map (fun v => fpow (v - mean) (nofZ 2)) series) / nlen series in
    let deviation := fpow variance (nlit 1 2) in
    let sharpe := if deviation >? nzero then Some (nround 4 (mean / deviation)) else None in
    let '(_, _, trough, worst) := curve series in
    let '(ann, se, tpy, span) := _annualised trips sharpe n in
    {| p_trades := n; p_realized_total := realized_total; p_sharpe := sharpe;
       p_sharpe_annualised := ann; p_sharpe_annualised_std_error := se;
       p_trades_per_year := tpy; p_span_days := span;
       p_max_drawdown_amount := Some (nround 4 worst);
       p_max_cumulative_loss := Some (nround 4 trough);
       p_max_drawdown_pct := match capital_base with
         | Some c => if ntrue c && (c >? nzero) then Some (nround 6 (worst / c)) else None
         | None => None end;
       p_win_rate := Some (nround 4 (nofZ (count (fun v => v >? nzero) series) / nlen series)) |}.
End performance.

(** ** The pairing balances (exact arithmetic) *)

Section pairing_theorems.
Implicit Types (b : Book (F := Q)) (r : ExecutionQuality Q).

Fixpoint rsum {A} (f : A -> Q) (l : list A) : Q :=
  match l with [] => 0 | x :: l' => f x + rsum f l' end%Q.

Lemma rsum_app {A} (f : A -> Q) l l' : (rsum f (l ++ l') == rsum f l + rsum f l')%Q.
Proof. induction l as [|x l IH]; cbn; [ring|]. rewrite IH. ring. Qed.

Lemma rsum_perm {A} (f : A -> Q) l l' : l ≡ₚ l' -> (rsum f l == rsum f l')%Q.
Proof.
  induction 1; cbn; [done|by rewrite IHPermutation|ring|by rewrite IHPermutation1].
Qed.

Definition price (l : Leg Q) : Q := default 0%Q (l_fill_price l).
Definition side_sign (side : string) : Q :=
  if String.eqb side "BUY" then 1%Q else if String.eqb side "SELL" then (-1)%Q else 0%Q.
Definition lots_qty b : Q := rsum snd (bk_open b).
Definition lots_value b : Q := rsum (fun '(l, a) => a * price l)%Q (bk_open b).
Definition trips_value (l : list (RoundTrip Q)) : Q := rsum (fun t => default 0%Q (realized t)) l.

(** Signed quantity and cash flow of a fill. *)
Definition signed_qty r : Q := (side_sign (upper (x_side r)) * l_qty (_leg r))%Q.
Definition cash_flow r : Q := (- (signed_qty r * price (_leg r)))%Q.

(** An open lot: a positive quantity bought or sold at a usable price. *)
Definition lot_ok (d : Z) (x : Leg Q * Q) : Prop :=
  (0 < snd x)%Q /\ side_direction (l_side (fst x)) = Some d /\
  (usable (fst x) = true /\ upper (l_side (fst x)) = l_side (fst x)).

Lemma side_direction_cases s d : side_direction s = Some d ->
  (s = "BUY" /\ d = 1) \/ (s = "SELL" /\ d = -1).
Proof.
  unfold side_direction. destruct (String.eqb_spec s "BUY"); [intros [= <-]; auto|].
  destruct (String.eqb_spec s "SELL"); [intros [= <-]; auto|done].
Qed.

Lemma realized_trip k d x (leg : Leg Q) q :
  lot_ok d x -> usable leg = true ->
  (default 0%Q (realized (trip_of k (fst x) leg q)) ==
     inject_Z d * (price leg - price (fst x)) * q)%Q.
Proof.
  intros (_ & Hd & Hu & Hup) Hl. destruct k as [[[[? ?] ?] ?] ?].
  unfold realized, realized_per_share, direction, trip_of. cbn -[upper usable]. rewrite Hu, Hl, Hup.
  unfold price. unfold usable in *. destruct (l_fill_price (fst x)); [|done].
  destruct (l_fill_price leg); [|done]. cbn -[String.eqb].
  apply side_direction_cases in Hd as [[-> ->]|[-> ->]]; cbn; unfold inject_Z; ring.
Qed.

Lemma offset_spec k leg (d : Z) : forall fuel rem b,
  Forall (lot_ok (bk_direction b)) (bk_open b) -> (0 <= rem)%Q ->
  usable leg = true ->
  ((rem == 0)%Q /\ (0 < fuel)%nat) \/ (S (length (bk_open b)) < fuel)%nat ->
  exists rem' b', offset k fuel leg d rem b = Some (rem', b') /\
    bk_direction b' = bk_direction b /\ Forall (lot_ok (bk_direction b)) (bk_open b') /\
    (0 <= rem' <= rem)%Q /\
    (lots_qty b' == lots_qty b - (rem - rem'))%Q /\
    (trips_value (bk_trips b') == trips_value (bk_trips b) +
       inject_Z (bk_direction b) * (lots_value b' - lots_value b + (rem - rem') * price leg))%Q /\
    ((rem' == 0)%Q \/ bk_open b' = [] \/ d <> - bk_direction b) /\
    ((rem' < rem)%Q -> d = - bk_direction b).
Proof.
  induction fuel as [|fuel IH]; intros rem b Hlots Hrem Hleg Hfuel; [destruct Hfuel; lia|].
  cbn [offset].
  assert (forall (x y z c : Q), (x == x + c * (y - y + (z - z) * price leg))%Q) as Hsame
    by (intros; ring).
  destruct ((rem >? nzero)%py && Z.eqb d (- bk_direction b)) eqn:Hg.
  2: { exists rem, b. split; [done|]. split; [done|]. split; [done|]. split; [lra|].
       split; [ring|]. split; [apply Hsame|]. split; [|lra].
       apply andb_false_iff in Hg as [Hg|Hg]; [left|right; right; by apply Z.eqb_neq].
       reflect_Q. change (nzero : Q) with 0%Q in Hg. lra. }
  apply andb_true_iff in Hg as [Hg Hd%Z.eqb_eq]. reflect_Q. change (nzero : Q) with 0%Q in Hg.
  destruct (bk_open b) as [|[entry avail] rest] eqn:Eo.
  { exists rem, b. rewrite Eo. split; [done|]. split; [done|]. split; [done|]. split; [lra|].
    split; [ring|]. split; [apply Hsame|]. split; [by right; left|lra]. }
  apply Forall_cons in Hlots as [Hx Hrest]. pose proof Hx as (Ha & _). cbn [fst snd] in Ha.
  pose proof (Q_nmin_spec avail rem) as Hm. set (m := nmin avail rem) in *.
  cbn [nsub exact]. change (nzero : Q) with 0%Q.
  assert (0 < m)%Q as Hm0 by (rewrite Hm; by apply Q.min_glb_lt).
  assert (m <= avail)%Q as Hma by (rewrite Hm; apply Q.le_min_l).
  assert (m <= rem)%Q as Hmr by (rewrite Hm; apply Q.le_min_r).
  match goal with |- context [offset k fuel leg d (rem - m)%Q ?b1] =>
    destruct (IH (rem - m)%Q b1) as (rem' & b' & -> & Edir & Hl' & Hr' & Hq' & Hv' & Hend & Hlt) end.
  - cbn [bk_open bk_direction]. destruct (nleb (avail - m)%Q 0%Q) eqn:El; reflect_Q; [done|].
    constructor; [|done]. destruct Hx as (_ & Hx). split; [cbn [snd]; lra|exact Hx].
  - lra.
  - done.
  - cbn [bk_open length] in *. destruct Hfuel as [[? _]|Hfuel]; [lra|].
    destruct (nleb (avail - m)%Q 0%Q) eqn:El; reflect_Q; [right; cbn [length]; lia|left].
    split; [|lia]. rewrite Hm in El |- *. destruct (Qlt_le_dec avail rem);
      [rewrite Q.min_l in El by lra; lra|rewrite Q.min_r by lra; ring].
  - cbn [bk_direction bk_open bk_trips] in *.
    exists rem', b'. split; [done|]. split; [done|]. split; [done|]. split; [lra|].
    unfold lots_qty, lots_value in *. rewrite Eo. cbn [bk_open rsum snd] in *.
    assert (trips_value (bk_trips b ++ [trip_of k entry leg m]) ==
      trips_value (bk_trips b) + inject_Z (bk_direction b) * (price leg - price entry) * m)%Q as Etv.
    { unfold trips_value. rewrite rsum_app. cbn [rsum]. 
      rewrite (realized_trip k (bk_direction b) (entry, avail) leg m Hx Hleg). cbn [fst]. ring. }
    rewrite Etv in Hv'. clear Etv.
    destruct (nleb (avail - m)%Q 0%Q) eqn:El; reflect_Q; cbn [rsum snd] in *.
    + assert (m == avail)%Q as Em by lra. split; [rewrite Hq', Em; ring|].
      split; [rewrite Hv', Em; ring|]. split; [done|]. intros _. done.
    + split; [rewrite Hq'; ring|]. split; [rewrite Hv'; ring|]. split; [done|]. done.
Qed.

(** The bookkeeping of one scope after some rows. *)
Record book_ok b (net cash : Q) : Prop := {
  bok_lots : Forall (lot_ok (bk_direction b)) (bk_open b);
  bok_net : (inject_Z (bk_direction b) * lots_qty b == net)%Q;
  bok_value : (trips_value (bk_trips b) == cash + inject_Z (bk_direction b) * lots_value b)%Q
}.

(** A recorded fill of positive quantity on a known side, at a positive price. *)
Definition fill_ok r : Prop :=
  side_direction (upper (x_side r)) <> None /\ (0 < l_qty (_leg r))%Q /\ usable (_leg r) = true /\
  participates r = true.

Lemma pair_row_spec k b net cash r :
  book_ok b net cash -> fill_ok r ->
  exists b', pair_row k b r = Some b' /\ book_ok b' (net + signed_qty r) (cash + cash_flow r).
Proof.
  intros [Hlots Hnet Hval] (Hside & Hq & Hu & _). unfold pair_row.
  destruct (l_qty (_leg r) <=? nzero)%py eqn:E; reflect_Q; [change (nzero : Q) with 0%Q in E; lra|].
  clear E. cbn [l_side _leg]. destruct (side_direction (upper (x_side r))) as [d|] eqn:Ed; [|done].
  destruct (offset_spec k (_leg r) d (S (S (length (bk_open b)))) (l_qty (_leg r)) b Hlots)
    as (rem & b' & -> & Edir & Hl' & Hr & Hq' & Hv' & Hend & Hlt); [lra|done|right; lia|].
  set (q := l_qty (_leg r)) in *. set (p := price (_leg r)) in *.
  assert (signed_qty r == inject_Z d * q)%Q as Es.
  { unfold signed_qty, side_sign. fold q. apply side_direction_cases in Ed as [[-> ->]|[-> ->]]; done. }
  assert (cash_flow r == - (inject_Z d * q * p))%Q as Ec by (unfold cash_flow; rewrite Es; done).
  clear Hside. set (D := bk_direction b) in *.
  assert ((rem == q)%Q \/ d = - D) as Hor.
  { destruct (Qlt_le_dec rem q) as [Hlt'|]; [right; auto|left; lra]. }
  destruct (rem >? nzero)%py eqn:Erem; reflect_Q; change (nzero : Q) with 0%Q in *.
  - eexists. split; [reflexivity|].
    assert (lot_ok d (_leg r, rem)) as Hnew.
    { split; [done|]. cbn [fst]. split; [exact Ed|]. split; [done|]. apply upper_idemp. }
    destruct Hend as [Hend|Hend]; [lra|].
    assert ((bk_open b' = [] /\ True) \/ (D = d /\ rem == q)%Q) as Hcase.
    { destruct Hend as [?|Hne]; [by left|]. destruct (bk_open b') as [|x l] eqn:Eb; [by left|right].
      apply Forall_cons in Hl' as [(_ & Hx & _) _].
      apply side_direction_cases in Hx. apply side_direction_cases in Ed.
      split; [lia|]. destruct Hor as [?|?]; [done|congruence]. }
    split; cbn [bk_open bk_direction bk_trips].
    + apply Forall_app. split; [|by constructor].
      destruct Hcase as [[-> _]|[<- _]]; [constructor|done].
    + unfold lots_qty in *. cbn [bk_open]. rewrite rsum_app. cbn [rsum snd]. rewrite Es, <- Hnet.
      destruct Hcase as [[E0 _]|[<- Erq]]; [rewrite E0 in *; cbn [rsum] in *|].
      * destruct Hor as [Eq| ->]; [rewrite Eq in *|rewrite inject_Z_opp];
          [assert (rsum snd (bk_open b) == 0)%Q as -> by lra; ring|].
        assert (rsum snd (bk_open b) == q - rem)%Q as -> by lra. ring.
      * rewrite Hq'. ring_simplify. rewrite Erq. ring.
    + rewrite Hv', Hval, Ec. unfold lots_value in *. cbn [bk_open]. rewrite rsum_app. cbn [rsum].
      fold p. destruct Hcase as [[E0 _]|[<- Erq]].
      * unfold lots_qty in Hq'. rewrite E0 in *. cbn [rsum] in *.
        destruct Hor as [Eq| ->]; [|rewrite inject_Z_opp; ring].
        rewrite Eq in *. assert (rsum snd (bk_open b) == 0)%Q as Ez by lra.
        assert (bk_open b = []) as ->; [|cbn [rsum]; ring].
        { destruct (bk_open b) as [|x l]; [done|]. exfalso. cbn [rsum] in Ez.
          apply Forall_cons in Hlots as [(Hx & _) Hl].
          assert (0 <= rsum snd l)%Q; [|lra]. clear -Hl. induction Hl as [|y l (Hy & _) _ IH]; cbn; lra. }
      * rewrite Erq. ring.
  - assert (rem == 0)%Q as Er0 by lra. assert (d = - D) as -> by (destruct Hor; [lra|done]).
    assert (book_ok b' (net + signed_qty r) (cash + cash_flow r)) as Hok.
    { split; rewrite ?Edir; fold D; [done| |].
      - rewrite Es, <- Hnet, Hq', Er0, inject_Z_opp. ring.
      - rewrite Hv', Hval, Ec, Er0, inject_Z_opp. fold p. ring. }
    destruct (bk_open b') as [|x l] eqn:Eb; [|by eexists].
    eexists. split; [reflexivity|]. destruct Hok as [_ Hn Hv].
    unfold lots_qty, lots_value in *. rewrite Eb in Hn, Hv. cbn [rsum] in Hn, Hv.
    split; cbn; [constructor|rewrite <- Hn; ring|rewrite Hv; ring].
Qed.

Lemma pair_scope_spec k rows : forall b net cash,
  book_ok b net cash -> Forall fill_ok rows ->
  exists b', pair_scope k b rows = Some b' /\
    book_ok b' (net + rsum signed_qty rows) (cash + rsum cash_flow rows).
Proof.
  induction rows as [|r rows IH]; intros b net cash Hb Hr; cbn [pair_scope rsum].
  - exists b. split; [done|]. destruct Hb as [? Hn Hv]. split; [done|rewrite Hn; ring|rewrite Hv; ring].
  - apply Forall_cons in Hr as [Hr Hrows].
    destruct (pair_row_spec k b net cash r Hb Hr) as (b1 & -> & Hb1).
    destruct (IH b1 _ _ Hb1 Hrows) as (b' & -> & [? Hn Hv]). exists b'. split; [done|].
    split; [done|rewrite Hn; ring|rewrite Hv; ring].
Qed.

Lemma lots_qty_zero b d : Forall (lot_ok d) (bk_open b) -> (lots_qty b == 0)%Q -> bk_open b = [].
Proof.
  intros Hl. unfold lots_qty. destruct (bk_open b) as [|x l]; [done|]. cbn [rsum]. intros H0. exfalso.
  apply Forall_cons in Hl as [(Hx & _) Hl].
  assert (0 <= rsum snd l)%Q; [|lra]. clear -Hl. induction Hl as [|y l (Hy & _) _ IH]; cbn; lra.
Qed.
End pairing_theorems.

(** ** Round trips never cross scopes *)

Section scopes.
Context {F : Type} `{PyFloat F}.

(** The trip pairs two recorded fills of one scope, the entry no later than the
    exit and on the other side. *)
Definition within (k : scope_key) (done : list (ExecutionQuality F)) (t : RoundTrip F) : Prop :=
  exists r1 r2 q d, r1 ∈ done /\ r2 ∈ done /\ t = trip_of k (_leg r1) (_leg r2) q /\
    x_recorded_at r1 <= x_recorded_at r2 /\
    side_direction (upper (x_side r1)) = Some d /\ side_direction (upper (x_side r2)) = Some (- d).
Definition lot_of (done : list (ExecutionQuality F)) (d : Z) (x : Leg F * F) : Prop :=
  exists r, r ∈ done /\ fst x = _leg r /\ side_direction (upper (x_side r)) = Some d.

Lemma offset_within k r d done : forall fuel rem b rem' b',
  r ∈ done -> side_direction (upper (x_side r)) = Some d ->
  (forall x, x ∈ done -> x_recorded_at x <= x_recorded_at r) ->
  Forall (lot_of done (bk_direction b)) (bk_open b) -> Forall (within k done) (bk_trips b) ->
  offset k fuel (_leg r) d rem b = Some (rem', b') ->
  Forall (lot_of done (bk_direction b')) (bk_open b') /\ Forall (within k done) (bk_trips b') /\
  bk_direction b' = bk_direction b /\
  ((rem' >? nzero)%py = true -> bk_open b' = [] \/ d <> - bk_direction b).
Proof.
  induction fuel as [|fuel IH]; intros rem b rem' b' Hr Hd Ht Hl Hw; [done|]. cbn [offset].
  destruct ((rem >? nzero)%py && Z.eqb d (- bk_direction b)) eqn:Hg.
  2: { intros [= <- <-]. split; [done|]. split; [done|]. split; [done|]. intros Hp. right.
       rewrite Hp in Hg. cbn in Hg. by apply Z.eqb_neq. }
  apply andb_true_iff in Hg as [_ Hg%Z.eqb_eq].
  destruct (bk_open b) as [|[entry avail] rest] eqn:Eo.
  { intros [= <- <-]. rewrite Eo. split; [constructor|]. split; [done|]. split; [done|]. by left. }
  apply Forall_cons in Hl as [Hx Hl]. intros Ho.
  eapply IH in Ho; [|exact Hr|exact Hd|exact Ht|clear IH Ho..].
  - cbn [bk_direction] in Ho. exact Ho.
  - cbn [bk_direction bk_open]. destruct (_ <=? _)%py; [done|]. by constructor.
  - cbn [bk_trips]. apply Forall_app. split; [done|]. constructor; [|constructor].
    destruct Hx as (r1 & Hr1 & E1 & Hd1). cbn [fst] in E1. subst entry.
    exists r1, r, (nmin avail rem), (bk_direction b). rewrite Hd, Hg. auto 10.
Qed.

Lemma pair_row_within k r done b b' :
  (forall x, x ∈ done -> x_recorded_at x <= x_recorded_at r) -> r ∈ done ->
  Forall (lot_of done (bk_direction b)) (bk_open b) -> Forall (within k done) (bk_trips b) ->
  pair_row k b r = Some b' ->
  Forall (lot_of done (bk_direction b')) (bk_open b') /\ Forall (within k done) (bk_trips b').
Proof.
  intros Ht Hr Hl Hw. unfold pair_row. destruct (_ <=? _)%py; [by intros [= <-]|].
  destruct (side_direction (l_side (_leg r))) as [d|] eqn:Hd; [|by intros [= <-]].
  destruct (offset _ _ _ _ _ b) as [[rem b1]|] eqn:Ho; [|done].
  destruct (offset_within k r d done _ _ _ _ _ Hr Hd Ht Hl Hw Ho) as (Hl1 & Hw1 & Edir & Hend).
  destruct (rem >? nzero)%py eqn:Hrem.
  - intros [= <-]. cbn [bk_open bk_trips bk_direction]. split; [|done].
    apply Forall_app. split; [|constructor; [|constructor]; by exists r].
    destruct (Hend eq_refl) as [->|Hne]; [constructor|].
    rewrite Forall_forall in Hl1 |- *. intros x Hx. destruct (Hl1 x Hx) as (r1 & Hr1 & E1 & Hd1).
    exists r1. split; [done|]. split; [done|]. rewrite Hd1. f_equal.
    apply side_direction_cases in Hd1. apply side_direction_cases in Hd. lia.
  - destruct (bk_open b1) eqn:Eb; intros [= <-]; [|by rewrite Eb].
    cbn. split; [constructor|done].
Qed.

Lemma within_mono k done done' t : (forall x, x ∈ done -> x ∈ done') -> within k done t -> within k done' t.
Proof. intros Hs (r1 & r2 & q & d & ? & ? & ?). exists r1, r2, q, d. auto. Qed.
Lemma lot_of_mono d done done' x : (forall x, x ∈ done -> x ∈ done') -> lot_of done d x -> lot_of done' d x.
Proof. intros Hs (r & ? & ?). exists r. auto. Qed.

Lemma pair_scope_within k rows : forall done b b',
  StronglySorted (fun x y => x_recorded_at x <= x_recorded_at y) rows ->
  (forall x y, x ∈ done -> y ∈ rows -> x_recorded_at x <= x_recorded_at y) ->
  Forall (lot_of done (bk_direction b)) (bk_open b) -> Forall (within k done) (bk_trips b) ->
  pair_scope k b rows = Some b' -> Forall (within k (done ++ rows)) (bk_trips b').
Proof.
  induction rows as [|r rows IH]; intros done b b' Hs Hd Hl Hw; cbn [pair_scope].
  - intros [= <-]. by rewrite app_nil_r.
  - destruct (pair_row k b r) as [b1|] eqn:Hp; [|done]. inversion Hs as [|? ? Hs' Hr]; subst.
    rewrite List.Forall_forall in Hr.
    assert (forall x, x ∈ done -> x ∈ done ++ [r]) as Hsub by (intros; apply elem_of_app; by left).
    destruct (pair_row_within k r (done ++ [r]) b b1) as [Hl1 Hw1]; try done.
    + intros x [Hx| ->%list_elem_of_singleton]%elem_of_app; [|lia]. apply Hd; [done|constructor].
    + apply elem_of_app. right. constructor.
    + eapply Forall_impl; [exact Hl|]. intros x. by apply lot_of_mono.
    + eapply Forall_impl; [exact Hw|]. intros x. by apply within_mono.
    + intros Hp'. replace (done ++ r :: rows) with ((done ++ [r]) ++ rows) by by rewrite <- app_assoc.
      eapply IH; eauto. intros x y [Hx| ->%list_elem_of_singleton]%elem_of_app Hy.
      * apply Hd; [done|by constructor].
      * apply Hr. by rewrite <- list_elem_of_In.
Qed.

(** Each group holds exactly the rows of its key. *)
Lemma groups_spec (rows : list (ExecutionQuality F)) : forall k l,
  (k, l) ∈ foldl add_to_group [] rows -> forall r, r ∈ l -> r ∈ rows /\ key_of r = k.
Proof.
  induction rows as [|x rows IH] using rev_ind; intros k l; [by intros ?%not_elem_of_nil|].
  rewrite foldl_app. cbn [foldl]. unfold add_to_group at 1.
  set (groups := foldl add_to_group [] rows) in *. intros Hin r Hr.
  assert (r ∈ rows /\ key_of r = k \/ r = x /\ key_of x = k) as [[? ?]|[-> ?]];
    [|split; [apply elem_of_app; by left|done]|split; [apply elem_of_app; right; constructor|done]].
  destruct (existsb _ _).
  - apply elem_of_map in Hin as ([k0 l0] & E & Hg). cbn [fst snd] in E.
    unfold key_eqb in E. case_bool_decide as Hk; simplify_eq; [|left; by apply (IH k0 l0)].
    apply elem_of_app in Hr as [Hr| ->%list_elem_of_singleton]; [left; by apply (IH _ l0)|by right].
  - apply elem_of_app in Hin as [Hg|Hg]; [left; by apply (IH k l)|].
    apply list_elem_of_singleton in Hg. simplify_eq. apply list_elem_of_singleton in Hr as ->. by right.
Qed.

(** Every trip pairs two rows of the record, of one scope. *)
Lemma trips_scoped (rows : list (ExecutionQuality F)) trips :
  pair_round_trips rows = Some trips ->
  StronglySorted (fun a b => l_at (t_exit a) <= l_at (t_exit b)) trips /\
  forall t, t ∈ trips -> exists r1 r2 q,
    r1 ∈ rows /\ r2 ∈ rows /\ participates r1 = true /\ participates r2 = true /\
    key_of r1 = key_of r2 /\ t = trip_of (key_of r1) (_leg r1) (_leg r2) q /\
    x_recorded_at r1 <= x_recorded_at r2 /\ upper (x_side r1) <> upper (x_side r2).
Proof.
  unfold pair_round_trips. set (groups := foldl add_to_group [] _).
  destruct (pair_groups groups) as [l|] eqn:Hp; [|done]. intros [= <-]. split.
  { apply (sort_by_key_sorted (fun t : RoundTrip F => l_at (t_exit t))). }
  intros t Ht. apply elem_of_sort_by in Ht.
  assert (forall k rs, (k, rs) ∈ groups -> forall r, r ∈ rs ->
    r ∈ List.filter participates rows /\ key_of r = k) as Hg by (intros k rs; apply groups_spec).
  clearbody groups. revert l Hp Ht.
  induction groups as [|[k rs] groups IH]; intros l; cbn [pair_groups];
    [intros [= <-] ?%not_elem_of_nil; done|].
  destruct (pair_scope k empty_book (sort_by by_time rs)) as [b|] eqn:Hb; [|done].
  destruct (pair_groups groups) as [l1|]; [|done]. intros [= <-] [Ht|Ht]%elem_of_app.
  2: { apply (IH (fun k rs Hk => Hg k rs ltac:(by constructor)) l1 eq_refl Ht). }
  apply (pair_scope_within k _ [] empty_book b) in Hb; [..|constructor|constructor].
  - rewrite Forall_forall in Hb. destruct (Hb t Ht) as (r1 & r2 & q & d & H1 & H2 & -> & Hle & Hd1 & Hd2).
    cbn [app] in H1, H2. apply elem_of_sort_by in H1, H2.
    destruct (Hg k rs ltac:(constructor) r1 H1) as [[Hr1 Hp1]%elem_of_filter_b E1].
    destruct (Hg k rs ltac:(constructor) r2 H2) as [[Hr2 Hp2]%elem_of_filter_b E2].
    exists r1, r2, q. rewrite E1, E2. repeat (split; [done|]). intros E. rewrite E, Hd2 in Hd1.
    apply side_direction_cases in Hd2. injection Hd1. lia.
  - apply (sort_by_key_sorted (x_recorded_at (F := F))).
  - by intros x y ?%not_elem_of_nil.
Qed.

(** No round trip mixes scopes: whatever the record, every trip pairs a fill with a
    later fill of the opposite side of the same strategy, version, symbol,
    environment and account, and the trips come out in order of their exits. *)
Theorem trips_within_scope (rows : list (ExecutionQuality F)) trips :
  pair_round_trips rows = Some trips ->
  StronglySorted (fun a b => l_at (t_exit a) <= l_at (t_exit b)) trips /\
  forall t, t ∈ trips -> exists r1 r2 q,
    r1 ∈ rows /\ r2 ∈ rows /\ participates r1 = true /\ participates r2 = true /\
    key_of r1 = key_of r2 /\ t = trip_of (key_of r1) (_leg r1) (_leg r2) q /\
    x_recorded_at r1 <= x_recorded_at r2 /\ upper (x_side r1) <> upper (x_side r2).
Proof. apply trips_scoped. Qed.
End scopes.

(** ** The pairing loop ends, whatever the floats *)

Section termination.
Context {F : Type} `{HF : PyFloat F} `{HL : !PyFloatLaws F}.
Local Open Scope py_scope.

(** No open lot is negative (it may be NaN or infinite). *)
Definition lots_kept (b : Book (F := F)) : Prop :=
  Forall (fun x => (snd x <? nzero) = false) (bk_open b).

Lemma offset_ends k leg d : forall fuel rem b,
  lots_kept b ->
  (fuel <> 0%nat /\ (rem >? nzero) = false) \/ (S (length (bk_open b)) < fuel)%nat ->
  exists rem' b', offset k fuel leg d rem b = Some (rem', b') /\ lots_kept b'.
Proof using HL.
  induction fuel as [|fuel IH]; intros rem b Hk Hf; [destruct Hf as [[]|]; [done|lia]|].
  cbn [offset]. destruct (rem >? nzero) eqn:Hr; cbn [andb]; [|by exists rem, b].
  destruct Hf as [[_ ?]|Hf]; [done|]. destruct (Z.eqb d _); [|by exists rem, b].
  unfold lots_kept in *. destruct (bk_open b) as [|[entry available] rest] eqn:Eo.
  { exists rem, b. by rewrite Eo. }
  apply Forall_cons in Hk as [Ha Hk]. cbn [snd] in Ha. cbn [length] in Hf.
  set (matched := nmin available rem).
  destruct (available - matched <=? nzero) eqn:Hleft.
  - apply IH; [done|]. right. cbn [bk_open]. lia.
  - apply IH; cbn [bk_open]; [constructor; [cbn [snd]|done]|].
    + destruct (available - matched <? nzero) eqn:E; [|done]. by rewrite (nltb_nleb _ _ E) in Hleft.
    + left. split; [lia|]. subst matched. unfold nmin in *.
      destruct (rem <? available) eqn:E; [apply nsub_self|by apply nsub_stuck].
Qed.

Lemma pair_scope_ends k rows : forall b, lots_kept b -> exists b', pair_scope k b rows = Some b'.
Proof using HL.
  induction rows as [|r rows IH]; intros b Hk; cbn [pair_scope]; [by exists b|].
  assert (exists b', pair_row k b r = Some b' /\ lots_kept b') as (b' & -> & Hk'); [|by apply IH].
  unfold pair_row. destruct (_ <=? _); [by exists b|].
  destruct (side_direction _) as [d|]; [|by exists b].
  destruct (offset_ends k (_leg r) d (S (S (length (bk_open b)))) (l_qty (_leg r)) b Hk)
    as (rem & b1 & -> & Hk1); [right; lia|].
  destruct (rem >? nzero) eqn:E.
  - eexists. split; [reflexivity|]. apply Forall_app. split; [done|]. constructor; [|constructor].
    cbn [snd]. apply nleb_nltb, nltb_nleb, E.
  - destruct (bk_open b1) eqn:Eb; eexists; (split; [reflexivity|]); [constructor|done].
Qed.

(** The pairing loop ends on every record, NaN and infinite quantities included:
    the round trips of an execution record always exist. *)
Theorem pairing_terminates (rows : list (ExecutionQuality F)) :
  exists trips, pair_round_trips rows = Some trips.
Proof using HL.
  unfold pair_round_trips. generalize (foldl add_to_group [] (List.filter participates rows)).
  intros groups. assert (exists l, pair_groups groups = Some l) as [l ->]; [|by eexists].
  induction groups as [|[k rs] groups [l IH]]; cbn [pair_groups]; [by eexists|]. rewrite IH.
  destruct (pair_scope_ends k (sort_by by_time rs) empty_book) as [b ->]; [constructor|]. by eexists.
Qed.
End termination.

(** ** The reports read the series as of the exit *)

Section report.
Context {F : Type} `{PyFloat F}.

Definition bar_of (b : BarObservation F) : Bar F :=
  {| bar_ts := b_bar_ts b; open_ := b_open b; high := b_high b; low := b_low b; close := b_close b |}.
Definition _point_in_time_bars (e : io) (j : Journal F) (t : RoundTrip F) (timeframe : string)
    : list (Bar F) :=
  map bar_of (bars_as_of (t_symbol t) timeframe (l_at (t_exit t)) 1000 e j).

(** The alternatives [build_report] lists for a trip: holding, the perfect exit, and
    stops at 1%, 2% and 3% of the entry. *)
Definition run_counterfactuals (t : RoundTrip F) (bars : list (Bar F)) : list (option (F * F)) :=
  [hold_to_end_of_window t bars; perfect_exit t bars] ++
  match l_fill_price (t_entry t) with
  | Some entry => if ntrue entry
      then map (fun pct => stop_at t bars (nmul entry (nlit pct 100))) [1; 2; 3] else []
  | None => []
  end.
End report.

(** ** Theorems *)

Lemma add_to_group_same (k : scope_key) (rows l : list (ExecutionQuality Q)) :
  Forall (fun r => key_of r = k) rows -> foldl add_to_group [(k, l)] rows = [(k, l ++ rows)].
Proof.
  revert l. induction rows as [|r rows IH]; intros l Hr; [by rewrite app_nil_r|].
  apply Forall_cons in Hr as [Hk Hr]. cbn [foldl]. unfold add_to_group. rewrite Hk.
  cbn [existsb map fst snd]. unfold key_eqb. rewrite bool_decide_true by done. cbn [orb].
  rewrite IH by done. by rewrite <- app_assoc.
Qed.

(** Attribution agrees with the money: the fills of one scope always pair up, and
    the realized result of the round trips is the scope's net cash flow plus what
    the open lots cost; a scope that ends flat has realized exactly its cash
    (exact arithmetic). *)
Theorem round_trips_realize_cash k (rows : list (ExecutionQuality Q)) :
  Forall fill_ok rows -> Forall (fun r => key_of r = k) rows ->
  exists trips lots d, pair_round_trips rows = Some trips /\
    Forall (fun x => 0 < snd x)%Q lots /\
    (inject_Z d * rsum snd lots == rsum signed_qty rows)%Q /\
    (trips_value trips ==
       rsum cash_flow rows + inject_Z d * rsum (fun '(l, q) => q * price l) lots)%Q /\
    ((rsum signed_qty rows == 0)%Q -> lots = [] /\ (trips_value trips == rsum cash_flow rows)%Q).
Proof.
  intros Hok Hk. unfold pair_round_trips.
  assert (List.filter participates rows = rows) as ->.
  { clear Hk. induction Hok as [|r rows (_ & _ & _ & Hp) _ IH]; [done|]. cbn. by rewrite Hp, IH. }
  destruct rows as [|r rows].
  { exists [], [], 0. cbn. split; [done|]. split; [constructor|]. split; [ring|]. split; [ring|].
    intros _. split; [done|lra]. }
  apply Forall_cons in Hk as [Hk Hkr].
  assert (foldl add_to_group [] (r :: rows) = [(k, r :: rows)]) as ->.
  { cbn [foldl]. unfold add_to_group at 2. cbn [existsb app]. rewrite Hk. by apply add_to_group_same. }
  cbn [pair_groups].
  destruct (pair_scope_spec k (sort_by by_time (r :: rows)) empty_book 0 0) as (b & -> & [Hl Hn Hv]).
  { split; cbn; [constructor|ring|ring]. }
  { rewrite Forall_forall in Hok |- *. intros x Hx. apply Hok. by apply elem_of_sort_by in Hx. }
  rewrite (rsum_perm signed_qty _ _ (sort_by_perm by_time (r :: rows))), Qplus_0_l in Hn.
  rewrite (rsum_perm cash_flow _ _ (sort_by_perm by_time (r :: rows))), Qplus_0_l in Hv.
  cbn [option_map]. rewrite app_nil_r.
  eexists _, (bk_open b), (bk_direction b). split; [reflexivity|].
  assert (forall f, trips_value (sort_by f (bk_trips b)) == trips_value (bk_trips b))%Q as Hperm
    by (intros f; apply rsum_perm, sort_by_perm).
  split; [eapply Forall_impl; [exact Hl|]; by intros x [? _]|].
  split; [exact Hn|]. split; [rewrite Hperm; exact Hv|]. intros H0.
  assert (bk_open b = []) as Eb.
  { destruct (bk_open b) as [|x l] eqn:E; [done|].
    pose proof Hl as Hl'. apply Forall_cons in Hl' as [(_ & Hd & _) _].
    rewrite <- E. rewrite <- E in Hl. apply (lots_qty_zero b (bk_direction b) Hl). rewrite H0 in Hn.
    apply side_direction_cases in Hd as [[_ Hd]|[_ Hd]]; rewrite Hd in Hn;
      unfold inject_Z in Hn; lra. }
  split; [done|]. rewrite Hperm, Hv. unfold lots_value. rewrite Eb. cbn. ring.
Qed.

(** The decomposition is an identity up to the rounding of its three parts: a
    complete attribution's components sum to the realized result within 1.5
    millionths (exact arithmetic). *)
Theorem attribution_identity (t : RoundTrip Q) :
  complete (attribute t) = true ->
  exists r tot, realized_per_share t = Some r /\ total (attribute t) = Some tot /\
    (Qabs (tot - r) <= 15 # 10000000)%Q.
Proof.
  unfold complete, attribute, total, realized_per_share.
  destruct (usable (t_entry t)) eqn:Hu1; [|done]. destruct (usable (t_exit t)) eqn:Hu2;
    [|done].
  destruct (opt_true (l_decision_price (t_entry t))) eqn:Hd1; [|done].
  destruct (opt_true (l_decision_price (t_exit t))) eqn:Hd2; [|done].
  unfold usable in *. cbn [app].
  destruct (l_decision_price (t_entry t)) as [ed|]; [|done].
  destruct (l_decision_price (t_exit t)) as [xd|]; [|done].
  destruct (l_fill_price (t_entry t)) as [ef|]; [|done].
  destruct (l_fill_price (t_exit t)) as [xf|]; [|done]. cbn [andb]. intros _.
  eexists _, _. split; [reflexivity|]. split; [reflexivity|].
  set (dir := nofZ (direction t)). unfold complete. cbn [missing signal entry_execution exit_execution].
  assert (forall x : Q, nor (default nzero (Some x)) nzero == x)%Q as Hnor.
  { intros x. change (default nzero (Some x)) with x. unfold nor, ntrue.
    destruct (neqb x nzero) eqn:E; cbn; [|done]. reflect_Q. by rewrite E. }
  cbn [nadd nsub nmul exact]. rewrite !Hnor.
  pose proof (Q_round_close 6 (dir * (xd - ed))%Q) as [H1 H2].
  pose proof (Q_round_close 6 (dir * (ed - ef))%Q) as [H3 H4].
  pose proof (Q_round_close 6 (dir * (xf - xd))%Q) as [H5 H6].
  change (half_ulp 6) with (1 # 2000000)%Q in *. cbn [nround exact] in *.
  set (a := Exact.round 6 (dir * (xd - ed))%Q) in *. set (b := Exact.round 6 (dir * (ed - ef))%Q) in *.
  set (c := Exact.round 6 (dir * (xf - xd))%Q) in *. clearbody a b c.
  apply Qabs_Qle_condition.
  setoid_replace (dir * (xf - ef))%Q with (dir * (xd - ed) + dir * (ed - ef) + dir * (xf - xd))%Q
    using relation Qeq by ring.
  split; lra.
Qed.

(** ** Concrete records *)

Module Sample.
Definition row {F} `{PyFloat F} (id side : string) (qty decided filled : F) (at_ : datetime) : ExecutionQuality F :=
  {| x_order_id := id; x_signal_id := ""; x_symbol := "AAPL"; x_side := side; x_qty := qty;
     x_order_type := "MARKET"; x_limit_price := None; x_decision_price := Some decided;
     x_fill_price := Some filled; x_shortfall_bps := None; x_filled := true;
     x_outcome := "filled"; x_decision_ts := at_; x_strategy_id := "momentum";
     x_strategy_version := "1"; x_environment := "paper"; x_account_id := "default";
     x_broker := "paper"; x_fees := nzero; x_filled_qty := qty; x_cancelled := false;
     x_rejected := false; x_recorded_at := at_ |}.
Definition bought : ExecutionQuality Q := row "1" "BUY" 10%Q 100%Q 100%Q 1.
Definition sold : ExecutionQuality Q := row "2" "SELL" 10%Q 102%Q 102%Q 2.
Definition hold : RoundTrip Q := trip_of (key_of bought) (_leg bought) (_leg sold) 10%Q.

(** Four prices whose attribution is right to the last recorded decimal. *)
Definition thin : RoundTrip Q :=
  let b := row "1" "BUY" 10%Q (1000000004 # 10000000)%Q 100%Q 1 in
  let s := row "2" "SELL" 10%Q (1010000008 # 10000000)%Q (1020000012 # 10000000)%Q 2 in
  trip_of (key_of b) (_leg b) (_leg s) 10%Q.
Definition bar (at_ : datetime) (p : Q) : Bar Q :=
  {| bar_ts := at_; open_ := p; high := p; low := p; close := p |}.
End Sample.

Lemma trips_within_scope_witness :
  exists trips, pair_round_trips [Sample.bought; Sample.sold] = Some trips /\
    forall t, t ∈ trips -> exists r1 r2 q,
      r1 ∈ [Sample.bought; Sample.sold] /\ r2 ∈ [Sample.bought; Sample.sold] /\
      t = trip_of (key_of r1) (_leg r1) (_leg r2) q /\ upper (x_side r1) <> upper (x_side r2).
Proof.
  destruct (pair_round_trips [Sample.bought; Sample.sold]) as [trips|] eqn:E;
    [|vm_compute in E; discriminate E].
  exists trips. split; [reflexivity|]. intros t Ht.
  destruct (proj2 (trips_within_scope [Sample.bought; Sample.sold] trips E) t Ht)
    as (r1 & r2 & q & H1 & H2 & _ & _ & _ & H3 & _ & H4).
  by exists r1, r2, q.
Defined.

(** Binary64, with a quantity that is not a number between two that are infinite. *)
Lemma pairing_terminates_witness :
  exists trips : list (RoundTrip spec_float),
    pair_round_trips [Sample.row "1" "BUY" (S754_infinity false) nzero nzero 1;
                      Sample.row "2" "SELL" S754_nan nzero nzero 2;
                      Sample.row "3" "SELL" (S754_infinity false) nzero nzero 3] = Some trips.
Proof. apply pairing_terminates. Defined.

Lemma round_trips_realize_cash_witness :
  (rsum signed_qty [Sample.bought; Sample.sold] == 0)%Q /\
  exists trips, pair_round_trips [Sample.bought; Sample.sold] = Some trips /\
    (trips_value trips == 20)%Q.
Proof.
  split; [reflexivity|].
  destruct (round_trips_realize_cash (key_of Sample.bought) [Sample.bought; Sample.sold])
    as (trips & lots & d & Hp & _ & _ & _ & Hflat).
  - repeat (constructor; [vm_compute; repeat split; (congruence || eauto)|]). constructor.
  - repeat constructor.
  - exists trips. split; [exact Hp|]. exact (proj2 (Hflat eq_refl)).
Defined.

Lemma attribution_identity_witness :
  complete (attribute Sample.hold) = true /\
  exists r tot, realized_per_share Sample.hold = Some r /\ total (attribute Sample.hold) = Some tot /\
    (Qabs (tot - r) <= 15 # 10000000)%Q.
Proof. split; [reflexivity|]. exact (attribution_identity Sample.hold eq_refl). Defined.

(** The check [identity_holds] allows one millionth: a complete attribution whose
    parts are each right to the sixth decimal can fail it. *)
Example identity_holds_too_tight :
  complete (attribute Sample.thin) = true /\
  identity_holds (nlit 1 1000000) (attribute Sample.thin) = false.
Proof. split; vm_compute; reflexivity. Qed.

(** The alternatives are read off every bar known at the exit: the best exit of a
    hold over [1, 2] is found at a bar of time 0, before the position existed. *)
Example perfect_exit_before_entry :
  l_at (t_entry Sample.hold) = 1%Z /\
  perfect_exit Sample.hold [Sample.bar 0 500; Sample.bar 1 100; Sample.bar 2 102]
    = Some (nround 6 400%Q, nround 6 398%Q).
Proof. split; vm_compute; reflexivity. Qed.
