(* ===== verification/Evidence.v ===== *)
(** * Promotion evidence and its gates

    Models [libs/lifecycle/src/lifecycle/evidence.py] and [gates.py]: what the server
    derives from the artifact table and the journal before a promotion, and the
    conditions under which each step of the ladder is allowed. *)

From S2P Require Import Prelude PyFloat Store Contracts Journal Attribution.

Definition WALK_FORWARD := "walk_forward".
Definition PORTFOLIO_CORRELATION := "portfolio_correlation".

(** [de_scope] is [None] while the scope has no window, as when nothing was usable. *)
Record DerivedEvidence (F : Type) := {
  de_scope : option Scope;
  de_metrics : gmap string (pyval F);
  de_source_artifacts : list SourceRef;
  de_problems : list string
}.
Arguments de_scope {F}. Arguments de_metrics {F}. Arguments de_source_artifacts {F}.
Arguments de_problems {F}.

Record GateThresholds (F : Type) := {
  min_deflated_sharpe : F;
  min_oos_trades : Z;
  require_positive_oos_return : bool;
  min_paper_days : F;
  min_paper_orders : Z;
  min_paper_fills : Z;
  require_measured_costs : bool;
  require_complete_journal : bool;
  max_correlation_with_live : F;
  require_non_negative_paper_pnl : bool
}.
Arguments min_deflated_sharpe {F}. Arguments min_oos_trades {F}.
Arguments require_positive_oos_return {F}. Arguments min_paper_days {F}.
Arguments min_paper_orders {F}. Arguments min_paper_fills {F}.
Arguments require_measured_costs {F}. Arguments require_complete_journal {F}.
Arguments max_correlation_with_live {F}. Arguments require_non_negative_paper_pnl {F}.

Record GateResult (F : Type) := {
  allowed : bool;
  target : option string;
  passed : list (fstr F);
  failed : list (fstr F)
}.
Arguments allowed {F}. Arguments target {F}. Arguments passed {F}. Arguments failed {F}.

Section evidence.
Context {F : Type} `{PyFloat F}.
Context (fpow : F -> F -> F).
Local Open Scope py_scope.

Definition usable (e : DerivedEvidence F) : bool :=
  match de_problems e with [] => true | _ => false end.

Definition _scope_matches (a : Artifact F) (s : Sleeve) (expected_kind : string)
    : option string :=
  let id_ := str_of_Z (a_id a) in
  if negb (String.eqb (a_kind a) expected_kind) then
    Some ("artifact " +:+ id_ +:+ " is a " +:+ a_kind a +:+ ", expected " +:+ expected_kind)
  else if negb (String.eqb (a_strategy_id a) (strategy_id s)) then
    Some ("artifact " +:+ id_ +:+ " is for strategy " +:+ py_repr (a_strategy_id a) +:+
          ", sleeve is " +:+ py_repr (strategy_id s))
  else if negb (String.eqb (upper (a_symbol a)) (upper (symbol s))) then
    Some ("artifact " +:+ id_ +:+ " is for " +:+ a_symbol a +:+ ", sleeve is " +:+ symbol s)
  else if str_true (strategy_version s) &&
          negb (String.eqb (a_strategy_version a) (strategy_version s)) then
    Some ("artifact " +:+ id_ +:+ " is for strategy version " +:+
          py_repr (a_strategy_version a) +:+ ", sleeve is " +:+ py_repr (strategy_version s))
  else None.

Definition ref_of (produced : bool) (a : Artifact F) : SourceRef :=
  {| sr_id := a_id a; sr_kind := a_kind a; sr_content_hash := a_content_hash a;
     sr_created_at := a_created_at a;
     sr_produced_by := if produced then Some (a_produced_by a) else None |}.

(** One cited id: the problem it raises or the artifact it names. *)
Definition cite (d : DB F) (s : Sleeve) (artifact_id : Z) : string + Artifact F :=
  match validation_artifact artifact_id d with
  | None => inl ("artifact " +:+ str_of_Z artifact_id +:+ " does not exist")
  | Some a => match _scope_matches a s WALK_FORWARD with
              | Some mismatch => inl mismatch
              | None => inr a
              end
  end.
Definition lefts {A B} (l : list (A + B)) : list A :=
  omap (fun x => match x with inl a => Some a | inr _ => None end) l.
Definition rights {A B} (l : list (A + B)) : list B :=
  omap (fun x => match x with inl _ => None | inr b => Some b end) l.

(** [max(l, key=...)]: the first of the largest. *)
Definition max_by {A} (key : A -> Z) (x : A) (l : list A) : A :=
  foldl (fun best y => if (key best <? key y)%Z then y else best) x l.

Definition BACKTEST_METRICS : list string :=
  ["deflated_sharpe_ratio"; "probabilistic_sharpe_ratio"; "out_of_sample_sharpe";
   "out_of_sample_return_pct"; "out_of_sample_trades"; "out_of_sample_max_drawdown_pct";
   "n_trials"; "parameter_stability"; "n_folds"].

Definition derive_backtest_evidence (d : DB F) (s : Sleeve) (artifact_ids : list Z)
    : DerivedEvidence F :=
  match artifact_ids with
  | [] =>
      {| de_scope := None; de_metrics := ∅; de_source_artifacts := [];
         de_problems := ["no validation artifact cited — run the walk-forward and record its result before requesting promotion"] |}
  | _ =>
      let cited := map (cite d s) artifact_ids in
      let problems := lefts cited in
      match rights cited with
      | [] =>
          {| de_scope := None; de_metrics := ∅; de_source_artifacts := [];
             de_problems := match problems with [] => ["no usable artifact"] | _ => problems end |}
      | first :: others =>
          let latest := max_by a_created_at first others in
          {| de_scope := Some
               {| sc_strategy_id := strategy_id s; sc_strategy_version := strategy_version s;
                  sc_symbol := symbol s; sc_asset_class := asset_class s;
                  sc_environment := "backtest"; sc_broker := "none";
                  sc_account_id := account_id s; sc_portfolio_id := "none";
                  sc_window_start := foldl Z.min (a_window_start first) (map a_window_start others);
                  sc_window_end := foldl Z.max (a_window_end first) (map a_window_end others);
                  sc_data_version := a_data_version latest;
                  sc_model_version := a_model_version latest |};
             de_metrics := list_to_map
               (map (fun k => (k, py_get (a_payload latest) k)) BACKTEST_METRICS);
             de_source_artifacts := map (ref_of true) (first :: others);
             de_problems := problems |}
      end
  end.

(** The correlation of the cited artifact, its reference, and what is wrong with it. *)
Definition correlation_of (d : DB F) (s : Sleeve) (artifact_id : option Z)
    : pyval F * list SourceRef * list string :=
  match artifact_id with
  | None => (PNone, [], [])
  | Some i =>
      match validation_artifact i d with
      | None => (PNone, [], ["correlation artifact " +:+ str_of_Z i +:+ " does not exist"])
      | Some a =>
          match _scope_matches a s PORTFOLIO_CORRELATION with
          | Some mismatch => (PNone, [], [mismatch])
          | None => (py_get (a_payload a) "max_correlation_with_live", [ref_of false a], [])
          end
      end
  end.

Definition opt_map_val {A} (f : A -> pyval F) (o : option A) : pyval F :=
  match o with Some x => f x | None => PNone end.

(** [e_exec], [e_rows], [e_bars]: what the journal's database raises at each read.
    [fpow] is libm's power. *)
Definition derive_paper_evidence (d : DB F) (j : Journal F) (e_exec e_rows e_bars : io)
    (s : Sleeve) (window_start window_end : datetime) (correlation_artifact_id : option Z)
    (expected_interval_minutes : F) (timeframe : string) : DerivedEvidence F :=
  let execution := scoped_execution_metrics (strategy_id s) (symbol s) "paper" (account_id s)
    (Some (strategy_version s)) (Some window_start) (Some window_end) e_exec j in
  let ex {A} (get : ExecutionMetrics F -> A) : option A :=
    match execution with Ok m => Some (get m) | Err _ => None end in
  let round_trips := default [] (load_round_trips (Some (strategy_id s))
    (Some (strategy_version s)) (Some (symbol s)) (Some "paper") (account_id s)
    (Some window_start) (Some window_end) 5000 e_rows j) in
  let performance := performance_from_trades fpow round_trips None in
  let complete := completeness (symbol s) timeframe window_start window_end
    expected_interval_minutes e_bars j in
  let '(correlation, refs, correlation_problems) := correlation_of d s correlation_artifact_id in
  let paper_days := nmax nzero (total_seconds (window_end - window_start) / nofZ 86400) in
  let count0 get := PInt (default 0%Z (ex get)) in
  let opt_float (o : option (option F)) := opt_map_val PFloat (default None o) in
  {| de_scope := Some
       {| sc_strategy_id := strategy_id s; sc_strategy_version := strategy_version s;
          sc_symbol := symbol s; sc_asset_class := asset_class s; sc_environment := "paper";
          sc_broker := "paper"; sc_account_id := account_id s; sc_portfolio_id := account_id s;
          sc_window_start := window_start; sc_window_end := window_end; sc_data_version := "";
          sc_model_version := strategy_version s |};
     de_metrics := list_to_map
       [("paper_days", PFloat (nround 2 paper_days));
        ("paper_orders", count0 m_orders);
        ("paper_fills", count0 m_fills);
        ("paper_misses", count0 m_misses);
        ("partial_fills", count0 m_partial_fills);
        ("cancellations", count0 m_cancellations);
        ("rejections", count0 m_rejections);
        ("fill_rate", opt_float (ex m_fill_rate));
        ("closed_round_trips", PInt (p_trades performance));
        ("gross_realized_pnl", PFloat (p_realized_total performance));
        ("realized_pnl", PFloat (nround 4 (nor (p_realized_total performance) nzero -
                                    nor (default nzero (ex m_fees)) nzero)));
        ("execution_cash_effect", PFloat (default nzero (ex m_execution_cash_effect)));
        ("fees", PFloat (default nzero (ex m_fees)));
        ("measured_shortfall_bps", opt_float (ex m_mean_shortfall_bps));
        ("worst_shortfall_bps", opt_float (ex m_worst_shortfall_bps));
        ("journal_complete", match complete with Ok k => PBool (k_complete k) | Err _ => PNone end);
        ("journal_gap_count", match complete with Ok k => PInt (k_gap_count k) | Err _ => PNone end);
        ("max_correlation_with_live", correlation)];
     de_source_artifacts := refs;
     de_problems :=
       match execution with Ok _ => [] | Err why => ["execution records unavailable: " +:+ why] end ++
       match complete with Ok _ => [] | Err why => ["journal completeness unavailable: " +:+ why] end ++
       correlation_problems |}.
End evidence.

(** ** gates.py *)

Section gates.
Context {F : Type} `{PyFloat F}.
Local Open Scope py_scope.

Definition reason (r : GateResult F) : fstr F :=
  if allowed r then lit ("all " +:+ str_of_Z (Z.of_nat (length (passed r))) +:+ " gates passed")
  else match failed r with
    | [] => lit "no gate evaluated"
    | x :: l => foldl (fun acc y => acc ++ lit "; " ++ y) x l
    end.

Definition refused (problems : list string) : GateResult F :=
  {| allowed := false; target := None; passed := []; failed := map lit problems |}.

Definition _check (r : GateResult F) (ok : bool) (description : fstr F) : GateResult F :=
  {| allowed := allowed r; target := target r;
     passed := if ok then passed r ++ [description] else passed r;
     failed := if ok then failed r else failed r ++ [description] |}.

Definition _num (metrics : gmap string (pyval F)) (k : string) : option F :=
  py_float (py_get metrics k).

Definition ok_if (o : option F) (test : F -> bool) : bool :=
  match o with Some x => test x | None => false end.

(** [result.allowed = not result.failed], and the target with it. *)
Definition settle (to_ : string) (r : GateResult F) : GateResult F :=
  let ok := match failed r with [] => true | _ => false end in
  {| allowed := ok; target := if ok then Some to_ else None; passed := passed r;
     failed := failed r |}.

Definition evaluate_to_paper (e : DerivedEvidence F) (t : GateThresholds F) : GateResult F :=
  if negb (usable e) then refused (de_problems e) else
  let m := de_metrics e in
  let r := refused [] in
  let dsr := _num m "deflated_sharpe_ratio" in
  let r := _check r (ok_if dsr (fun x => x >=? min_deflated_sharpe t))
    match dsr with
    | Some x => [Lit "deflated Sharpe ratio "; Fmt "" x; Lit " >= "; Fmt "" (min_deflated_sharpe t)]
    | None => lit "the cited artifact has no deflated Sharpe ratio" end in
  let trades := _num m "out_of_sample_trades" in
  let r := _check r (ok_if trades (fun x => x >=? nofZ (min_oos_trades t)))
    match trades with
    | Some x => [Lit "out-of-sample trades "; Fmt "g" x; Lit (" >= " +:+ str_of_Z (min_oos_trades t))]
    | None => lit "the cited artifact has no out-of-sample trade count" end in
  let ret := _num m "out_of_sample_return_pct" in
  let r := if require_positive_oos_return t then
      _check r (ok_if ret (fun x => x >? nzero))
        match ret with
        | Some x => [Lit "out-of-sample return "; Fmt ".2%" x; Lit " is positive"]
        | None => lit "the cited artifact has no out-of-sample return" end
    else r in
  settle "paper" r.

(** [Err]: formatting a missing number of days raises. *)
Definition evaluate_to_live (e : DerivedEvidence F) (t : GateThresholds F)
    : result string (GateResult F) :=
  if negb (usable e) then Ok (refused (de_problems e)) else
  let m := de_metrics e in
  match _num m "paper_days" with
  | None => Err "TypeError"
  | Some days =>
      let r := _check (refused []) (days >=? min_paper_days t)
        [Lit "paper traded for "; Fmt ".1f" days; Lit " days >= "; Fmt "" (min_paper_days t)] in
      let orders := nor (default nzero (_num m "paper_orders")) nzero in
      let r := _check r (orders >=? nofZ (min_paper_orders t))
        [Fmt "g" orders; Lit (" paper orders >= " +:+ str_of_Z (min_paper_orders t))] in
      let fills := nor (default nzero (_num m "paper_fills")) nzero in
      let r := _check r (fills >=? nofZ (min_paper_fills t))
        [Fmt "g" fills; Lit (" simulated fills >= " +:+ str_of_Z (min_paper_fills t))] in
      let shortfall := _num m "measured_shortfall_bps" in
      let r := if require_measured_costs t then
          _check r (match shortfall with Some _ => true | None => false end)
            match shortfall with
            | Some x => [Lit "execution cost measured at "; Fmt ".2f" x; Lit "bps"]
            | None => lit "no measured execution cost — the backtest is still assuming one" end
        else r in
      let complete := py_get m "journal_complete" in
      let r := if require_complete_journal t then
          _check r (match complete with PBool true => true | _ => false end)
            (if py_true complete then lit "journal complete over the evidence window"
             else [Lit "journal has "; Val (py_get m "journal_gap_count");
                   Lit " gap(s) in the evidence window"])
        else r in
      let pnl := _num m "realized_pnl" in
      let r := if require_non_negative_paper_pnl t then
          _check r (ok_if pnl (fun x => x >=? nzero))
            match pnl with
            | Some x => [Lit "paper realized P&L after fees "; Fmt "" x; Lit " is not negative"]
            | None => lit "no paper P&L recorded" end
        else r in
      let correlation := _num m "max_correlation_with_live" in
      let r := _check r (ok_if correlation (fun x => x <? max_correlation_with_live t))
        match correlation with
        | Some x => [Lit "correlation with live sleeves "; Fmt "" x; Lit " < ";
                     Fmt "" (max_correlation_with_live t)]
        | None => lit "correlation with live sleeves not measured" end in
      Ok (settle "live" r)
  end.

(** [_probation_result] of service.py. *)
Definition _probation_result (e : DerivedEvidence F) : GateResult F :=
  match de_problems e with
  | [] => {| allowed := true; target := Some "paper";
             passed := [lit "returning to paper to re-earn the live gates"]; failed := [] |}
  | _ => refused (de_problems e)
  end.
End gates.

(** ** Theorems *)

Section theorems.
Context {F : Type} `{PyFloat F}.
Context (fpow : F -> F -> F).
Local Open Scope py_scope.
Implicit Types (r : GateResult F) (t : GateThresholds F).

Lemma check_failed r ok msg : failed (_check r ok msg) = [] <-> failed r = [] /\ ok = true.
Proof.
  cbn. destruct ok; [naive_solver|]. split; [|by intros [_ ?]].
  intros E%(f_equal length). rewrite length_app in E. cbn in E. lia.
Qed.

Lemma check_if_failed (b : bool) r ok msg :
  failed (if b then _check r ok msg else r) = [] <-> failed r = [] /\ (b = true -> ok = true).
Proof. destruct b; [rewrite check_failed; naive_solver|naive_solver]. Qed.

Lemma settle_allowed to_ r : allowed (settle to_ r) = true <-> failed r = [].
Proof. cbn. by destruct (failed r). Qed.

(** What a settled or refused result says: a target exactly when allowed, and a
    stated cause exactly when not. *)
Definition coherent (to_ : string) r : Prop :=
  (allowed r = true -> target r = Some to_) /\
  (allowed r = false -> target r = None /\ failed r <> []).
Lemma settle_coherent to_ r : coherent to_ (settle to_ r).
Proof. unfold coherent, settle. cbn. by destruct (failed r). Qed.
Lemma refused_coherent to_ problems : problems <> [] -> coherent to_ (refused problems).
Proof. intros Hp. split; [done|]. split; [done|]. by destruct problems. Qed.

Lemma to_paper_coherent e t : coherent "paper" (evaluate_to_paper e t).
Proof.
  unfold evaluate_to_paper, usable.
  destruct (de_problems e) eqn:E; [apply settle_coherent|by apply refused_coherent].
Qed.
Lemma to_live_coherent e t r : evaluate_to_live e t = Ok r -> coherent "live" r.
Proof.
  unfold evaluate_to_live, usable. destruct (de_problems e) eqn:E; cbn [negb].
  - destruct (_num _ "paper_days"); [|done]. intros [= <-]. apply settle_coherent.
  - intros [= <-]. by apply refused_coherent.
Qed.
Lemma probation_coherent (e : DerivedEvidence F) : coherent "paper" (_probation_result e).
Proof.
  unfold _probation_result. destruct (de_problems e); [by split|by apply refused_coherent].
Qed.

Lemma usable_problems (e : DerivedEvidence F) : usable e = true <-> de_problems e = [].
Proof. unfold usable. by destruct (de_problems e). Qed.

(** An artifact of the kind asked for, of this sleeve's strategy, symbol and, when
    the sleeve names one, version. *)
Definition describes (a : Artifact F) (s : Sleeve) (kind : string) : Prop :=
  a_kind a = kind /\ a_strategy_id a = strategy_id s /\ upper (a_symbol a) = upper (symbol s) /\
  (strategy_version s <> "" -> a_strategy_version a = strategy_version s).

Lemma scope_matches_spec a s kind : _scope_matches a s kind = None <-> describes a s kind.
Proof.
  unfold _scope_matches, describes, str_true.
  destruct (String.eqb_spec (a_kind a) kind); cbn; [|naive_solver].
  destruct (String.eqb_spec (a_strategy_id a) (strategy_id s)); cbn; [|naive_solver].
  destruct (String.eqb_spec (upper (a_symbol a)) (upper (symbol s))); cbn; [|naive_solver].
  destruct (String.eqb_spec (strategy_version s) ""); cbn; [naive_solver|].
  destruct (String.eqb_spec (a_strategy_version a) (strategy_version s)); naive_solver.
Qed.

Lemma no_lefts {A B} (l : list (A + B)) : lefts l = [] <-> Forall (fun x => is_Some (match x with inr b => Some b | _ => None end)) l.
Proof.
  unfold lefts. induction l as [|[a|b] l IH]; cbn; [naive_solver| |].
  - split; [done|]. intros Hf%Forall_cons. by destruct Hf as [[? ?] _].
  - rewrite IH, Forall_cons. naive_solver.
Qed.

Lemma correlation_of_ok d s artifact corr refs :
  correlation_of d s artifact = (corr, refs, []) ->
  (artifact = None /\ corr = PNone) \/
  exists i a, artifact = Some i /\ validation_artifact i d = Some a /\
    describes a s PORTFOLIO_CORRELATION /\ corr = py_get (a_payload a) "max_correlation_with_live".
Proof.
  unfold correlation_of. destruct artifact as [i|]; [|intros [= <- <-]; by left].
  destruct (validation_artifact i d) as [a|] eqn:Ea; [|done].
  destruct (_scope_matches a s _) eqn:Em; [done|]. intros [= <- <-]. right. exists i, a.
  split; [done|]. split; [done|]. split; [by apply scope_matches_spec|done].
Qed.

Definition at_least (n minimum : Z) : bool := nor (nofZ n) nzero >=? nofZ minimum.

(** Live is reached only on the record: for every sleeve, journal and artifact table
    the gate answers without raising, and it allows exactly when the paper journal
    could be read over the window, holds enough days, orders and fills of that
    sleeve, has measured its costs, is complete, shows no loss after fees, and a
    correlation artifact of that sleeve is below the limit; the derived evidence is
    scoped to the paper environment and the sleeve's own account. *)
Theorem live_gate_spec d j e_exec e_rows e_bars s start stop artifact interval timeframe t :
  let e := derive_paper_evidence fpow d j e_exec e_rows e_bars s start stop artifact interval timeframe in
  let trips := default [] (load_round_trips (Some (strategy_id s)) (Some (strategy_version s))
    (Some (symbol s)) (Some "paper") (account_id s) (Some start) (Some stop) 5000 e_rows j) in
  let days := nmax nzero (total_seconds (stop - start) / nofZ 86400) in
  exists r, evaluate_to_live e t = Ok r /\ coherent "live" r /\
    (allowed r = true <-> exists m k i a c,
      scoped_execution_metrics (strategy_id s) (symbol s) "paper" (account_id s)
        (Some (strategy_version s)) (Some start) (Some stop) e_exec j = Ok m /\
      completeness (symbol s) timeframe start stop interval e_bars j = Ok k /\
      artifact = Some i /\ validation_artifact i d = Some a /\ describes a s PORTFOLIO_CORRELATION /\
      py_float (py_get (a_payload a) "max_correlation_with_live") = Some c /\
      (c <? max_correlation_with_live t) = true /\
      (nround 2 days >=? min_paper_days t) = true /\
      at_least (m_orders m) (min_paper_orders t) = true /\
      at_least (m_fills m) (min_paper_fills t) = true /\
      (require_measured_costs t = true -> m_mean_shortfall_bps m <> None) /\
      (require_complete_journal t = true -> k_complete k = true) /\
      (require_non_negative_paper_pnl t = true ->
         (nround 4 (nor (p_realized_total (performance_from_trades fpow trips None)) nzero -
                    nor (m_fees m) nzero) >=? nzero) = true)).
Proof.
  cbn zeta. unfold derive_paper_evidence.
  destruct (scoped_execution_metrics _ _ _ _ _ _ _ _ _) as [m|why] eqn:Em.
  2: { destruct (correlation_of d s artifact) as [[corr refs] problems].
       eexists. split; [reflexivity|]. split; [by apply refused_coherent|].
       split; [done|]. by intros (? & ? & ? & ? & ? & ? & _). }
  destruct (completeness _ _ _ _ _ _ _) as [k|why] eqn:Ek.
  2: { destruct (correlation_of d s artifact) as [[corr refs] problems].
       eexists. split; [reflexivity|]. split; [by apply refused_coherent|].
       split; [done|]. by intros (? & ? & ? & ? & ? & ? & ? & _). }
  destruct (correlation_of d s artifact) as [[corr refs] problems] eqn:Ec.
  unfold evaluate_to_live. unfold usable. cbn [de_problems app].
  destruct problems as [|p problems].
  2: { eexists. split; [reflexivity|]. split; [by apply refused_coherent|]. split; [done|].
       intros (m' & k' & i & a & c & _ & _ & -> & Ea & Hd & _). unfold correlation_of in Ec.
       rewrite Ea, (proj2 (scope_matches_spec a s _) Hd) in Ec. done. }
  cbn [negb de_metrics]. unfold _num, py_get.
  match goal with |- context [list_to_map ?l] => set (figures := l) end.
  pose proof (fun k => lookup_dict k figures) as Hfig. set (m0 := list_to_map figures) in *.
  rewrite !Hfig. clear Hfig m0. subst figures. cbn [dict_get String.eqb Ascii.eqb Bool.eqb].
  cbn [default py_float opt_map_val].
  eexists. split; [reflexivity|]. split; [apply settle_coherent|].
  rewrite settle_allowed, check_failed, !check_if_failed, !check_failed.
  unfold Datatypes.id. apply correlation_of_ok in Ec.
  generalize (performance_from_trades fpow (default [] (load_round_trips (Some (strategy_id s))
    (Some (strategy_version s)) (Some (symbol s)) (Some "paper") (account_id s) (Some start)
    (Some stop) 5000 e_rows j)) None) as perf. intros perf.
  assert (match py_float (opt_map_val PFloat (m_mean_shortfall_bps m)) with
          | Some _ => true | None => false end = true <-> m_mean_shortfall_bps m <> None) as Hcost
    by (by destruct (m_mean_shortfall_bps m)).
  assert (match PBool (F := F) (k_complete k) with PBool true => true | _ => false end = true <->
          k_complete k = true) as Hcomplete by (by destruct (k_complete k)).
  rewrite Hcost, Hcomplete. split.
  - intros [[[[[[[_ Hd] Ho] Hf] Hs] Hk] Hp] Hc].
    destruct Ec as [[-> ->]|(i & a & -> & Ea & Hm & ->)]; [done|]. unfold ok_if, py_get in Hc.
    destruct (py_float _) as [c|] eqn:Epc in Hc; [|done].
    exists m, k, i, a, c. by split_and!.
  - intros (m' & k' & i & a & c & Em' & Ek' & -> & Ea & Hm & Epc & Hc & Hd & Ho & Hf & Hs & Hk & Hp).
    assert (m' = m) as -> by congruence. assert (k' = k) as -> by congruence.
    destruct Ec as [[? _]|(i' & a' & Ei & Ea' & _ & ->)]; [done|].
    assert (a' = a) as -> by congruence. clear Em Ek. unfold ok_if, py_get. split_and!; try done.
    revert Epc. unfold default, Datatypes.id. by intros ->.
Qed.

Lemma max_by_spec {A} (key : A -> Z) l : forall x,
  max_by key x l ∈ x :: l /\ (forall y, y ∈ x :: l -> key y <= key (max_by key x l))%Z.
Proof.
  induction l as [|z l IH] using rev_ind; intros x.
  { split; [constructor|]. intros y ->%list_elem_of_singleton. done. }
  destruct (IH x) as [Hin Hmax]. unfold max_by in *. rewrite foldl_app. cbn [foldl].
  set (best := foldl _ x l) in *. rewrite app_comm_cons. destruct (Z.ltb_spec (key best) (key z)).
  - split; [apply elem_of_app; right; constructor|].
    intros y [Hy| ->%list_elem_of_singleton]%elem_of_app; [|lia]. specialize (Hmax y Hy). lia.
  - split; [apply elem_of_app; by left|].
    intros y [Hy| ->%list_elem_of_singleton]%elem_of_app; [by apply Hmax|lia].
Qed.

(** The artifacts the ids name, when every one exists and describes the sleeve. *)
Definition cited d s (ids : list Z) (artifacts : list (Artifact F)) : Prop :=
  Forall2 (fun i a => validation_artifact i d = Some a /\ describes a s WALK_FORWARD) ids artifacts.

Lemma cite_spec d s i a :
  cite d s i = inr a <-> validation_artifact i d = Some a /\ describes a s WALK_FORWARD.
Proof.
  unfold cite. destruct (validation_artifact i d) as [a'|]; [|naive_solver].
  destruct (_scope_matches a' s WALK_FORWARD) eqn:E.
  - split; [done|]. intros [[= ->] Hd%scope_matches_spec]. congruence.
  - apply scope_matches_spec in E. naive_solver.
Qed.

Lemma cited_spec d s ids l :
  cited d s ids l <-> lefts (map (cite d s) ids) = [] /\ rights (map (cite d s) ids) = l.
Proof.
  unfold cited, lefts, rights. revert l. induction ids as [|i ids IH]; intros l.
  { split; [by intros ->%Forall2_nil_inv_l|]. intros [_ <-]. constructor. }
  cbn [map]. destruct (cite d s i) as [p|a] eqn:E; cbn.
  - split; [|by intros []]. intros Hl. inversion Hl as [|? a ? l1 Hc _]; subst.
    apply cite_spec in Hc. congruence.
  - destruct l as [|a' l]; [split; [by intros ?%Forall2_length|by intros [_ ?]]|].
    rewrite Forall2_cons, IH, <- cite_spec, E. naive_solver.
Qed.

(** Paper is reached only on stored validation: the gate allows exactly when
    artifacts were cited, every one of them exists and is a walk-forward of this
    sleeve's strategy, symbol and version, and the most recent of them meets the
    deflated Sharpe, trade-count and return thresholds. *)
Theorem paper_gate_spec d s ids t :
  let r := evaluate_to_paper (derive_backtest_evidence d s ids) t in
  coherent "paper" r /\
  (allowed r = true <-> exists first others, cited d s ids (first :: others) /\
    let latest := max_by a_created_at first others in
    let figure k := py_float (py_get (a_payload latest) k) in
    (latest ∈ first :: others /\
     forall a, a ∈ first :: others -> (a_created_at a <= a_created_at latest)%Z) /\
    ok_if (figure "deflated_sharpe_ratio") (fun x => x >=? min_deflated_sharpe t) = true /\
    ok_if (figure "out_of_sample_trades") (fun x => x >=? nofZ (min_oos_trades t)) = true /\
    (require_positive_oos_return t = true ->
       ok_if (figure "out_of_sample_return_pct") (fun x => x >? nzero) = true)).
Proof.
  cbn zeta. unfold derive_backtest_evidence. destruct ids as [|i ids].
  { split; [by apply refused_coherent|]. split; [done|]. by intros (? & ? & Hc%Forall2_length & _). }
  setoid_rewrite cited_spec. set (cs := map (cite d s) (i :: ids)).
  unfold evaluate_to_paper, usable. destruct (rights cs) as [|first others] eqn:Er; cbn [de_problems].
  { destruct (lefts cs); cbn [negb];
      (split; [by apply refused_coherent|]; split; [done|]; by intros (? & ? & [_ ?] & _)). }
  destruct (lefts cs) as [|p ps]; cbn [negb].
  2: { split; [by apply refused_coherent|]. split; [done|]. by intros (? & ? & [? _] & _). }
  split; [apply settle_coherent|]. cbn [de_metrics]. unfold _num, py_get. rewrite !lookup_dict.
  cbn [dict_get String.eqb Ascii.eqb Bool.eqb map BACKTEST_METRICS].
  rewrite settle_allowed, check_if_failed, !check_failed.
  pose proof (max_by_spec a_created_at others first) as Hmax. split.
  - intros [[[_ Hd] Ht] Hr]. by exists first, others.
  - intros (f & o & [_ E] & _ & Hd & Ht & Hr). injection E as <- <-. by split_and!.
Qed.
End theorems.
