(* ===== verification/Service.v ===== *)
(** * The lifecycle service

    Models [libs/lifecycle/src/lifecycle/service.py]: the advisory gate before an
    entry, the roster facade, and the two ways a sleeve changes state, demotion and
    promotion on derived evidence. The reads a gate makes are an interface,
    [LifecycleReads], since each of them may fail and the database may move between
    two of them; [world] stands for what other processes do to the database between
    two statements of a method. *)

From S2P Require Import Prelude PyFloat Routing Store StoreProofs.
From S2P Require Import StoreTheorems Contracts Journal Attribution Evidence.
From Stdlib Require Import Floats.SpecFloat.

(** ** What a client reads of the authority *)

Class LifecycleReads (W : Type) := {
  read_sleeve : string -> string -> option string -> W -> result StoreError (option Sleeve);
  read_live_mode : option string -> W -> result StoreError bool;
  read_halt : string -> string -> option string -> W -> result StoreError ReconciliationHalt
}.

(** The database, answering. *)
#[export] Instance steady_reads F : LifecycleReads (StoreSettings * DB F) := {
  read_sleeve st sy account '(settings, d) := Ok (get settings st sy account d);
  read_live_mode account '(settings, d) := Ok (live_mode_enabled settings account d);
  read_halt b e account '(settings, d) := Ok (reconciliation_state settings b e account d)
}.

(** Each read of the three sees a database of its own, or raises. *)
Record Snapshots (F : Type) := {
  sn_settings : StoreSettings;
  sn_sleeve : result StoreError (DB F);
  sn_live_mode : result StoreError (DB F);
  sn_halt : result StoreError (DB F)
}.
Arguments sn_settings {F}. Arguments sn_sleeve {F}. Arguments sn_live_mode {F}. Arguments sn_halt {F}.
#[export] Instance racing_reads F : LifecycleReads (Snapshots F) := {
  read_sleeve st sy account w := get (sn_settings w) st sy account <$> sn_sleeve w;
  read_live_mode account w := live_mode_enabled (sn_settings w) account <$> sn_live_mode w;
  read_halt b e account w := reconciliation_state (sn_settings w) b e account <$> sn_halt w
}.

(** [str(exc)] *)
Definition exn_str (e : StoreError) : string :=
  match e with
  | LifecycleStoreError m | SleeveNotFoundError m | LifecycleUnavailableError m
  | OtherException m | IntegrityError m => m
  | ConcurrentTransitionError k v =>
      k +:+ " moved since it was read (expected version " +:+ str_of_Z v +:+
      "); re-read and decide again"
  | ChallengerCannotGoLiveError k =>
      k +:+ " was derived from a challenger proposal and cannot be promoted to live. Adopting it is a human action: call adopt_challenger with a named actor, which is recorded as a transition, and then promote it on its own evidence."
  | KeyError k => py_repr k
  end.

Record GateAnswer := { permitted : bool; ga_reason : string; available : bool }.

Definition NEXT_STATE (s : string) : option string :=
  if String.eqb s "candidate" then Some "paper"
  else if String.eqb s "paper" then Some "live"
  else if String.eqb s "probation" then Some "paper" else None.

Section may_open.
Context {W : Type} `{HW : LifecycleReads W}.

Definition refuse (why : string) : GateAnswer :=
  {| permitted := false; ga_reason := why; available := true |}.
Definition outage (why : string) : GateAnswer :=
  {| permitted := false; ga_reason := why; available := false |}.

(** [authority] is [None] when no store is configured. *)
Definition may_open (authority : option W) (strategy symbol_ : string) (account : option string)
    : GateAnswer :=
  match authority with
  | None => outage "no_lifecycle_authority"
  | Some w =>
      match read_sleeve strategy symbol_ account w with
      | Err e => outage ("lifecycle_unavailable: " +:+ exn_str e)
      | Ok None => refuse "sleeve_not_registered"
      | Ok (Some s) =>
          if negb (str_in (state s) ["paper"; "live"]) then refuse ("sleeve_" +:+ state s) else
          let live := String.eqb (state s) "live" in
          let env := if live then "live" else "paper" in
          match (if live then read_live_mode account w else Ok true) with
          | Err e => outage ("lifecycle_unavailable: " +:+ exn_str e)
          | Ok false => refuse "live_mode_disabled_by_operator"
          | Ok true =>
              match read_halt env env account w with
              | Err e => outage ("lifecycle_unavailable: " +:+ exn_str e)
              | Ok halt =>
                  if halted halt then refuse (str_or (halt_reason halt) "entries_halted")
                  else {| permitted := true; ga_reason := state s; available := true |}
              end
          end
      end
  end.

Lemma may_open_cases authority strategy symbol_ account :
  let a := may_open authority strategy symbol_ account in
  (permitted a = true <-> exists w s h, authority = Some w /\
     read_sleeve strategy symbol_ account w = Ok (Some s) /\
     (state s = "paper" \/ (state s = "live" /\ read_live_mode account w = Ok true)) /\
     read_halt (state s) (state s) account w = Ok h /\ halted h = false) /\
  (available a = false -> permitted a = false).
Proof.
  cbn zeta. unfold may_open. destruct authority as [w|].
  2: { split; [split; [done|]|done]. by intros (? & ? & ? & ? & _). }
  (* Whatever the reads are, the existential speaks of these. *)
  assert (forall a : GateAnswer,
    (permitted a = true <-> exists s h, read_sleeve strategy symbol_ account w = Ok (Some s) /\
       (state s = "paper" \/ (state s = "live" /\ read_live_mode account w = Ok true)) /\
       read_halt (state s) (state s) account w = Ok h /\ halted h = false) ->
    (available a = false -> permitted a = false) ->
    (permitted a = true <-> exists w0 s h, Some w = Some w0 /\
       read_sleeve strategy symbol_ account w0 = Ok (Some s) /\
       (state s = "paper" \/ (state s = "live" /\ read_live_mode account w0 = Ok true)) /\
       read_halt (state s) (state s) account w0 = Ok h /\ halted h = false) /\
    (available a = false -> permitted a = false)) as Hred.
  { intros a Ha Hav. split; [|done]. rewrite Ha. split; [|by intros (w0 & s & h & [= <-] & ?); exists s, h].
    intros (s & h & ?). by exists w, s, h. }
  destruct (read_sleeve strategy symbol_ account w) as [[s|]|e]; [|apply Hred; [split; [done|]|done]..];
    [|by intros (? & ? & ? & _)..].
  destruct (str_in (state s) ["paper"; "live"]) eqn:Hst; cbn [negb].
  2: { apply Hred; [split; [done|]|done]. intros (s' & h & [= <-] & Hs & _).
       by destruct Hs as [Hs|[Hs _]]; rewrite Hs in Hst. }
  apply str_in_spec in Hst. rewrite !elem_of_cons in Hst.
  destruct Hst as [Hst|[Hst|Hst%not_elem_of_nil]]; [| |done]; rewrite Hst; cbn [String.eqb Ascii.eqb Bool.eqb].
  - destruct (read_halt "paper" "paper" account w) as [h|e] eqn:Eh; [destruct (halted h) eqn:Ehalt|];
      apply Hred; try done; (split; [try done|]).
    1, 4: intros (s' & h' & E & Hs & Eh' & Ehh); injection E as <-; rewrite Hst, Eh in Eh'; congruence.
    + intros _. exists s, h. rewrite Hst. auto 10.
    + done.
  - destruct (read_live_mode account w) as [[]|e] eqn:El.
    2, 3: apply Hred; [split; [done|]|done]; intros (s' & h & E & Hs & _); injection E as <-;
      destruct Hs as [Hs|[_ Hs]]; congruence.
    destruct (read_halt "live" "live" account w) as [h|e] eqn:Eh; [destruct (halted h) eqn:Ehalt|];
      apply Hred; try done; (split; [try done|]).
    1, 4: intros (s' & h' & E & Hs & Eh' & Ehh); injection E as <-; rewrite Hst, Eh in Eh'; congruence.
    + intros _. exists s, h. rewrite Hst. auto 10.
    + done.
Qed.

(** The gate fails closed: an entry is worth attempting exactly when every read
    answered, the sleeve is a paper or live one, the operator's switch is on for a
    live one, and the halt of its environment is not set; an answer without the
    authority is never a permission. *)
Theorem may_open_spec authority strategy symbol_ account :
  let a := may_open authority strategy symbol_ account in
  (permitted a = true <-> exists w s h, authority = Some w /\
     read_sleeve strategy symbol_ account w = Ok (Some s) /\
     (state s = "paper" \/ (state s = "live" /\ read_live_mode account w = Ok true)) /\
     read_halt (state s) (state s) account w = Ok h /\ halted h = false) /\
  (available a = false -> permitted a = false).
Proof. apply may_open_cases. Qed.
End may_open.

(** ** The service *)

Record LifecycleService (F : Type) := {
  _store : option StoreSettings;
  _thresholds : GateThresholds F
}.
Arguments _store {F}. Arguments _thresholds {F}.

Section service.
Context {F : Type} `{HF : PyFloat F}.
Context (fpow : F -> F -> F).
Context (evidence_hash : Scope -> gmap string (pyval F) -> list SourceRef -> string).
Local Abbreviation M := (prog (DB F) StoreError).
Implicit Types sv : LifecycleService F.

(** [timedelta(days=x)] in microseconds: the whole days exactly, the rest of the
    product rounded half to even. *)
Definition timedelta_days (x : F) : Z :=
  days (ntrunc x) +
  ntrunc (nround 0 (nmul (nofZ (days 1)) (nsub x (nofZ (ntrunc x))))).

(** [_require] *)
Definition _require sv : M StoreSettings :=
  match _store sv with
  | None => raise (LifecycleUnavailableError "No lifecycle authority configured. Set LIFECYCLE_DATABASE_URL; the JSON registry is a single-process development store, not a substitute for shared state.")
  | Some settings => mret settings
  end.

Definition register_sleeve sv (strategy symbol_ version_ asset : string) (account : option string)
    (actor_ origin_ : string) (now : datetime) : M Sleeve :=
  settings ← _require sv;
  register settings strategy symbol_ version_ asset account actor_ origin_ now.

Definition get_sleeve sv (strategy symbol_ : string) (account : option string) : M (option Sleeve) :=
  settings ← _require sv; reads (get settings strategy symbol_ account).

Definition all_sleeves sv (account : option string) : M (list Sleeve) :=
  settings ← _require sv; reads (all settings account).

(** [e]: what the database raises at the read, if anything. *)
Definition challengers sv (e : io) (symbol_ : string) (d : DB F) : list Sleeve :=
  match _store sv, e with
  | Some settings, None => paper_challengers settings (Some symbol_) None d
  | _, _ => []
  end.

Definition challenger_parameters sv (e : io) (challenger_id : string) (d : DB F)
    : option (gmap string F) :=
  match _store sv, e with
  | Some settings, None =>
      match challenger_proposals None None None (Some challenger_id) None 1 d with
      | [] => None
      | p :: _ => Some (c_parameters (p_challenger p))
      end
  | _, _ => None
  end.

Section interleaved.
(** What other processes do to the database before the [n]-th statement. *)
Context (world : nat -> DB F -> DB F).
Definition others (n : nat) : M unit := modifies (world n).

Definition demote sv (strategy symbol_ to_ why who : string) (account : option string)
    (now : datetime) : M Sleeve :=
  settings ← _require sv;
  found ← reads (get settings strategy symbol_ account);
  match found with
  | None => raise (LifecycleUnavailableError
              (symbol_ +:+ ":" +:+ strategy +:+ " is not registered"))
  | Some s =>
      _ ← others 0;
      catch (transition s to_ why who None None now) (fun e =>
        match e with
        | ConcurrentTransitionError _ _ =>
            _ ← others 1;
            again ← reads (get settings strategy symbol_ account);
            match again with
            | None => mret s
            | Some fresh =>
                if String.eqb (state fresh) to_ then mret fresh else
                _ ← others 2;
                transition fresh to_ why who None None now
            end
        | _ => raise e
        end)
  end.

Definition not_promoted (why : string) : GateResult F :=
  {| allowed := false; target := None; passed := []; failed := [lit why] |}.

(** The evidence for the step up from [s], and what its gate says. [None] in
    [paper_window_days] is twice the least paper period. *)
Definition evaluate sv (s : Sleeve) (artifact_ids : list Z) (correlation : option Z)
    (paper_window_days : option F) (j : Journal F) (e_exec e_rows e_bars : io)
    (now : datetime) (d : DB F) : DerivedEvidence F * result string (GateResult F) :=
  let th := _thresholds sv in
  if String.eqb (state s) "candidate" then
    let e := derive_backtest_evidence d s artifact_ids in (e, Ok (evaluate_to_paper e th))
  else
    let window := timedelta_days (default (nmul (min_paper_days th) (nofZ 2)) paper_window_days) in
    let e := derive_paper_evidence fpow d j e_exec e_rows e_bars s (now - window) now
               correlation (nofZ 15) "15m" in
    (e, if String.eqb (state s) "paper" then evaluate_to_live e th
        else Ok (_probation_result e)).

Definition promote sv (strategy symbol_ : string) (artifact_ids : list Z)
    (correlation : option Z) (paper_window_days : option F) (j : Journal F)
    (e_exec e_rows e_bars : io) (who : string) (account : option string) (now : datetime)
    : M (option Sleeve * GateResult F) :=
  settings ← _require sv;
  found ← reads (get settings strategy symbol_ account);
  match found with
  | None => mret (None, not_promoted "sleeve is not registered")
  | Some s =>
      match NEXT_STATE (state s) with
      | None => mret (Some s, not_promoted
          (if String.eqb (state s) "live" then "already live"
           else "retired sleeves must be re-registered before promotion"))
      | Some next =>
          _ ← others 0;
          ev ← reads (evaluate sv s artifact_ids correlation paper_window_days j e_exec e_rows
                        e_bars now);
          match ev with
          | (_, Err exc) => raise (OtherException exc)
          | (e, Ok result_) =>
              if negb (allowed result_) then mret (Some s, result_) else
              _ ← others 1;
              match de_scope e with
              | None => raise (OtherException "TypeError")
              | Some scope =>
                  snapshot_id ← record_evidence evidence_hash scope (de_metrics e)
                                  (de_source_artifacts e) now;
                  _ ← others 2;
                  moved_ ← transition s (default next (target result_))
                    ("promoted: all " +:+ str_of_Z (Z.of_nat (length (passed result_))) +:+
                     " gates passed") who (Some snapshot_id) None now;
                  mret (Some moved_, result_)
              end
          end
      end
  end.
End interleaved.

(** *** Theorems *)

Section safety.
Context (settings : StoreSettings) (artifact_hash : Artifact F -> string).
Implicit Types d : DB F.
(** Whatever other processes do is calls of the store's own methods, on rows they read. *)
Definition calls_only (world : nat -> DB F -> DB F) : Prop :=
  forall n d seen, inv d seen ->
    exists seen', rtc (step settings evidence_hash artifact_hash) (d, sleeve d ++ seen) (world n d, seen').

Lemma inv_read d seen : inv d seen -> inv d (sleeve d ++ seen).
Proof. intros Hi. by eapply inv_same. Qed.

Lemma world_inv world n d seen : calls_only world -> inv d seen ->
  exists seen', inv (world n d) seen' /\ (forall s, s ∈ seen -> s ∈ seen') /\ keeps d (world n d).
Proof.
  intros Hw Hi. destruct (Hw n d seen Hi) as [seen' Hs]. exists seen'.
  pose proof (inv_read _ _ Hi) as Hr. destruct (inv_steps _ _ _ _ _ _ _ Hs Hr) as [? Hsub].
  split; [done|]. split; [|by eapply keeps_steps].
  intros s Hx. apply Hsub, elem_of_app. by right.
Qed.

Lemma get_spec st sy account d s : get settings st sy account d = Some s ->
  s ∈ sleeve d /\ ident s = (st, upper sy, account_or settings account).
Proof.
  unfold get. intros [Hs Hi%is_sleeve_spec]%find_some_elem. split; [done|]. exact Hi.
Qed.

Lemma get_of_ident st sy account d r :
  NoDup (map ident (sleeve d)) -> r ∈ sleeve d ->
  ident r = (st, upper sy, account_or settings account) ->
  get settings st sy account d = Some r.
Proof.
  intros Hn Hr Hi. unfold get. apply find_unique; [done|by apply is_sleeve_spec|].
  intros y Hy Ey%is_sleeve_spec. apply (NoDup_map_inj ident (sleeve d)); try done. congruence.
Qed.

Lemma world_get world n st sy account d seen s :
  calls_only world -> inv d seen -> get settings st sy account d = Some s ->
  exists seen' fresh, inv (world n d) seen' /\ s ∈ seen' /\ fresh ∈ seen' /\
    get settings st sy account (world n d) = Some fresh /\ id fresh = id s.
Proof.
  intros Hw Hi Hg. destruct (get_spec _ _ _ _ _ Hg) as [Hs Eid].
  destruct (world_inv world n d _ Hw (inv_read _ _ Hi)) as (seen' & Hi' & Hsub & [Hk _]).
  destruct (Hk s Hs) as (fresh & Hf & Ei & Ed).
  exists (sleeve (world n d) ++ seen'), fresh. split; [by apply inv_read|].
  split; [apply elem_of_app; right; apply Hsub, elem_of_app; by left|].
  split; [apply elem_of_app; by left|]. split; [|done].
  apply get_of_ident; [apply Hi'|done|]. congruence.
Qed.

(** A transition to a state other than live, without evidence, succeeds or has lost a race. *)
Lemma move_or_race d seen s to_ why who now :
  inv d seen -> s ∈ seen -> to_ ∈ STATES -> to_ <> "live" ->
  match transition s to_ why who None None now d with
  | (Ok r, d') => s ∈ sleeve d /\ state r = to_ /\ r ∈ sleeve d' /\ ident r = ident s
  | (Err e, d') => d' = d /\ s ∉ sleeve d /\ e = ConcurrentTransitionError (key s) (version s)
  end.
Proof.
  intros Hi Hs Hto Hl. pose proof (transition_outcome d seen s to_ why who None now Hi Hs) as Hc.
  cbn zeta in Hc. destruct (transition _ _ _ _ _ _ _ d) as [[r|e] d'].
  - destruct Hc as (_ & Hd & _ & _ & -> & ->). split; [done|]. split; [done|]. split; [|done].
    apply elem_of_moved; [apply Hi|done|by left].
  - destruct Hc as [-> [?|[[Hd He]|[Hev|[? _]]]]]; try done; [auto|].
    exfalso. apply Hev. by intros e' ?.
Qed.

(** Taking a sleeve down holds against races: whatever other processes did before
    the first attempt, and however they moved the sleeve, [demote] returns with the
    sleeve's row in the state asked for, unless the row is moved a second time
    between the retry's read and its write. *)
Theorem demote_holds world sv st sy to_ why who account now d seen s0 :
  reachable settings evidence_hash artifact_hash d seen ->
  _store sv = Some settings -> calls_only world ->
  get settings st sy account d = Some s0 -> to_ ∈ STATES -> to_ <> "live" ->
  (forall d' r, r ∈ sleeve d' -> id r = id s0 -> r ∈ sleeve (world 2%nat d')) ->
  exists r d', demote world sv st sy to_ why who account now d = (Ok r, d') /\
    state r = to_ /\ r ∈ sleeve d' /\ ident r = (st, upper sy, account_or settings account).
Proof.
  intros Hi%reachable_inv Hst Hw Hg Hto Hl Hstill.
  destruct (get_spec _ _ _ _ _ Hg) as [_ E0].
  destruct (world_get world 0 _ _ _ _ _ _ Hw Hi Hg) as (seen1 & f1 & Hi1 & Hs1 & _ & Hg1 & E1).
  unfold demote, _require. rewrite Hst.
  unfold mbind, prog_bind, mret, prog_ret, reads. rewrite Hg. unfold others, modifies, catch.
  pose proof (move_or_race (world 0%nat d) seen1 s0 to_ why who now Hi1 Hs1 Hto Hl) as Hc.
  destruct (transition s0 _ _ _ _ _ _ _) as [[r|e] d1].
  { destruct Hc as (_ & Es & Hr & Ei). exists r, d1. split; [done|]. split; [done|].
    split; [done|]. congruence. }
  destruct Hc as (-> & _ & ->). cbn beta iota.
  destruct (world_get world 1 _ _ _ _ _ _ Hw Hi1 Hg1) as (seen2 & f2 & Hi2 & _ & Hf2 & Hg2 & E2).
  rewrite Hg2. destruct (get_spec _ _ _ _ _ Hg2) as [Hin2 Ei2].
  destruct (String.eqb_spec (state f2) to_) as [Et|Et].
  { exists f2, (world 1%nat (world 0%nat d)). by split_and!. }
  destruct (world_inv world 2 _ _ Hw Hi2) as (seen3 & Hi3 & Hsub & _).
  pose proof (move_or_race (world 2%nat (world 1%nat (world 0%nat d))) seen3 f2 to_ why who now Hi3
    (Hsub _ Hf2) Hto Hl) as Hc.
  destruct (transition f2 _ _ _ _ _ _ _) as [[r|e] d3].
  - destruct Hc as (_ & Es & Hr & Ei). exists r, d3. split; [done|]. split; [done|].
    split; [done|]. congruence.
  - destruct Hc as (_ & Hn & _). exfalso. apply Hn, Hstill; [done|]. congruence.
Qed.

Lemma record_evidence_cases scope m src now d :
  match record_evidence evidence_hash scope m src now d with
  | (Ok i, d') => same_roster d d' /\
      exists x, x ∈ evidence_snapshot d' /\ e_id x = i /\ e_metrics x = m /\
        e_scope x = upper_scope scope
  | (Err _, d') => d' = d
  end.
Proof.
  unfold record_evidence, txn, mbind, prog_bind, reads, modifies, mret, prog_ret, raise.
  destruct (negb _); [done|]. destruct (_ <? _); [done|]. cbn. split; [done|].
  eexists. split; [apply elem_of_app; right; constructor|]. done.
Qed.

Lemma evaluate_target sv s ids corr w j e1 e2 e3 now d e g next :
  NEXT_STATE (state s) = Some next ->
  evaluate sv s ids corr w j e1 e2 e3 now d = (e, Ok g) -> coherent next g.
Proof.
  unfold NEXT_STATE, evaluate. destruct (String.eqb (state s) "candidate").
  - intros [= <-] [= _ <-]. apply to_paper_coherent.
  - destruct (String.eqb (state s) "paper"); [|destruct (String.eqb (state s) "probation"); [|done]].
    + intros [= <-] [= _ Hg]. by eapply to_live_coherent.
    + intros [= <-] [= _ <-]. apply probation_coherent.
Qed.

(** C35. A promotion is one rung, on the evidence: under any interleaving with other
    processes, a promotion that succeeds moves the very row the evidence was derived
    for one step up the ladder, never a challenger to live, and appends a transition
    that cites a stored snapshot of that evidence; a refused one writes nothing, and
    one that raises leaves the roster as the other processes left it. *)
Theorem promote_spec world sv st sy ids corr w j e1 e2 e3 who account now d seen :
  reachable settings evidence_hash artifact_hash d seen ->
  _store sv = Some settings -> calls_only world ->
  match promote world sv st sy ids corr w j e1 e2 e3 who account now d with
  | (Ok (found, g), d') =>
      if allowed g then
        exists s r e x t, get settings st sy account d = Some s /\ found = Some r /\
          evaluate sv s ids corr w j e1 e2 e3 now (world 0%nat d) = (e, Ok g) /\
          NEXT_STATE (state s) = Some (state r) /\
          r ∈ sleeve d' /\ ident r = ident s /\ version r = version s + 1 /\
          (state r = "live" -> origin s <> "challenger") /\
          x ∈ evidence_snapshot d' /\ e_metrics x = de_metrics e /\
          (exists scope, de_scope e = Some scope /\ e_scope x = upper_scope scope) /\
          last (transition_log d') = Some t /\ t_sleeve_id t = id s /\
          from_state t = state s /\ to_state t = state r /\ evidence_snapshot_id t = Some (e_id x)
      else found = get settings st sy account d /\ (d' = d \/ d' = world 0%nat d)
  | (Err _, d') => exists d1, same_roster d1 d' /\
      (d1 = world 0%nat d \/ d1 = world 1%nat (world 0%nat d) \/ exists d0, d1 = world 2%nat d0)
  end.
Proof.
  intros Hi%reachable_inv Hst Hw. unfold promote, _require. rewrite Hst.
  unfold mbind, prog_bind, mret, prog_ret, reads, others, modifies, raise.
  destruct (get settings st sy account d) as [s|] eqn:Hg; [|cbn; auto].
  destruct (NEXT_STATE (state s)) as [next|] eqn:Hn; [|cbn; auto].
  destruct (evaluate sv s _ _ _ _ _ _ _ _ _) as [e [g|exc]] eqn:He.
  2: { exists (world 0%nat d). split; [done|]. by left. }
  destruct (allowed g) eqn:Ha; cbn [negb]; [|rewrite Ha; auto].
  destruct (de_scope e) as [scope|] eqn:Hsc.
  2: { exists (world 1%nat (world 0%nat d)). split; [done|]. auto. }
  destruct (world_get world 0 _ _ _ _ _ _ Hw Hi Hg) as (seen1 & _ & Hi1 & Hs1 & _).
  destruct (world_inv world 1 _ _ Hw Hi1) as (seen2 & Hi2 & Hsub2 & _).
  set (d2 := world 1%nat (world 0%nat d)) in *.
  pose proof (record_evidence_cases scope (de_metrics e) (de_source_artifacts e) now d2) as Hr.
  destruct (record_evidence _ _ _ _ _ d2) as [[i|exc] d3].
  2: { subst d3. exists d2. split; [done|]. auto. }
  destruct Hr as [Hsame (x & Hx & Ei & Em & Es)].
  destruct (world_inv world 2 _ _ Hw (inv_same _ _ _ Hi2 Hsame)) as (seen4 & Hi4 & Hsub4 & [_ Hk]).
  assert (s ∈ seen4) as Hs4 by (apply Hsub4, elem_of_app; right; by apply Hsub2).
  destruct (evaluate_target _ _ _ _ _ _ _ _ _ _ _ _ _ _ Hn He) as [Ht _]. rewrite (Ht Ha).
  cbn [default]. clear Ht.
  match goal with |- context [transition s ?to_ ?why who ?ev None now] =>
    pose proof (transition_outcome (world 2%nat d3) seen4 s next why who ev now Hi4 Hs4) as Hc end.
  cbn zeta in Hc. unfold Datatypes.id.
  destruct (transition s next _ who (Some i) None now (world 2%nat d3)) as [[r|exc] d5].
  - destruct Hc as (_ & Hin & _ & Hb & -> & ->). cbn beta iota. rewrite Ha.
    eexists s, _, e, x, _. split; [done|]. split; [reflexivity|]. split; [done|].
    split; [done|]. split; [apply elem_of_moved; [apply Hi4|done|by left]|].
    split; [done|]. split; [done|]. split; [exact Hb|]. split; [by apply Hk|].
    split; [done|]. split; [by exists scope|]. split; [apply last_snoc|].
    repeat (split; [done|]). cbn. by rewrite Ei.
  - destruct Hc as [-> _]. exists (world 2%nat d3). split; [done|]. right. right. by exists d3.
Qed.
End safety.
End service.

(** ** Concrete runs *)

Module Ladder.
Definition minutes (n : Z) : Z := n * 60000000.
Definition fpow (x _ : spec_float) : spec_float := x.
Definition thresholds : GateThresholds spec_float :=
  {| min_deflated_sharpe := nlit 95 100; min_oos_trades := 30;
     require_positive_oos_return := true; min_paper_days := nlit 1 96; min_paper_orders := 2;
     min_paper_fills := 2; require_measured_costs := true; require_complete_journal := true;
     max_correlation_with_live := nlit 7 10; require_non_negative_paper_pnl := true |}.
Definition service : LifecycleService spec_float :=
  {| _store := Some Demo.settings; _thresholds := thresholds |}.

(** The paper sleeve of the store's example, with a correlation artifact. *)
Definition correlation : Artifact spec_float :=
  {| a_id := 0; a_kind := PORTFOLIO_CORRELATION; a_strategy_id := "ema";
     a_strategy_version := "v1"; a_symbol := "aapl"; a_asset_class := "equity";
     a_environment := "paper"; a_account_id := "default"; a_window_start := 0; a_window_end := 1;
     a_data_version := ""; a_model_version := "";
     a_payload := {[ "max_correlation_with_live" := PFloat (nlit 2 10) ]};
     a_content_hash := ""; a_produced_by := "ann"; a_created_at := 0 |}.
Definition roster : DB spec_float :=
  Demo.run (OpArtifact correlation None) 7 (Demo.promoted "human").
Definition seen : list Sleeve := sleeve roster ++ Demo.promoted_seen "human".
Lemma reachable_roster : reachable Demo.settings Demo.ehash Demo.ahash roster seen.
Proof.
  eapply rtc_r; [exact (Demo.promoted_reachable _ human_known)|].
  exact (step_call Demo.settings Demo.ehash Demo.ahash (Demo.promoted "human") _
    (OpArtifact correlation None) 7 ltac:(intros s Hs; discriminate Hs)).
Qed.

(** A half hour of paper trading: a bar every quarter, a purchase and a sale. *)
Definition empty : Journal spec_float :=
  {| enabled := true; bars := []; prices := []; sentiments := []; headlines := [];
     researches := []; decisions := []; executions := [] |}.
Definition see (at_ : Z) (j : Journal spec_float) : Journal spec_float :=
  snd (record_bars (fun _ _ _ _ _ => "h") "AAPL" "15m"
    [{| in_timestamp := Some at_;
        in_ohlc := Some (nofZ 10, nofZ 10, nofZ 10, nofZ 10); in_volume := None |}]
    "feed" (JDict []) "u" at_ None None None j).
Definition fill (side : string) (decided filled : Z) (at_ : Z) (j : Journal spec_float)
    : Journal spec_float :=
  snd (record_execution "AAPL" side (nofZ 5) (Some (nofZ decided)) (Some (nofZ filled)) "MARKET"
    None side "s" "filled" "ema" "v1" "paper" "default" "paper" nzero None false false at_ None j).
Definition paper_run : Journal spec_float :=
  fill "sell" 12 12 (minutes 20) (fill "buy" 10 10 (minutes 10)
    (see (minutes 30) (see (minutes 15) (see 0 empty)))).

(** Another process puts the sleeve on probation before each statement. *)
Definition meddling (n : nat) (d : DB spec_float) : DB spec_float :=
  match n, get Demo.settings "ema" "AAPL" None d with
  | 0%nat, Some s => Demo.run (OpTransition s "probation" "drawdown" "monitor" None) 8 d
  | _, _ => d
  end.
Lemma meddling_calls : calls_only Demo.ehash Demo.settings Demo.ahash meddling.
Proof.
  intros n d seen0 _. unfold meddling.
  destruct n as [|n]; [|eexists; apply rtc_refl].
  destruct (get Demo.settings "ema" "AAPL" None d) as [s|] eqn:Hg; [|eexists; apply rtc_refl].
  eexists. eapply rtc_l; [|apply rtc_refl].
  apply (step_call Demo.settings Demo.ehash Demo.ahash d (sleeve d ++ seen0)
    (OpTransition s "probation" "drawdown" "monitor" None) 8).
  intros s' [= <-]. apply elem_of_app. left. by apply (get_spec Demo.settings "ema" "AAPL" None).
Qed.
Definition promotion := promote fpow Demo.ehash (fun _ d => d) service "ema" "AAPL" [] (Some 1)
  None paper_run None None None "ann" None (minutes 30) roster.
Lemma allowed_live :
  match fst promotion with Ok (_, g) => allowed g | Err _ => false end = true.
Proof. vm_compute. reflexivity. Qed.
Lemma on_paper : get Demo.settings "ema" "AAPL" None roster = Some (Demo.sleeve1 "human").
Proof. vm_compute. reflexivity. Qed.
Lemma quiet_calls : calls_only Demo.ehash Demo.settings Demo.ahash (fun _ d => d).
Proof. intros n d seen0 _. eexists. apply rtc_refl. Qed.
End Ladder.

Lemma demote_holds_witness :
  exists r d', demote Ladder.meddling Ladder.service "ema" "aapl" "retired" "operator" "ann" None 9
                 Ladder.roster = (Ok r, d') /\
    state r = "retired" /\ r ∈ sleeve d' /\ ident r = ("ema", "AAPL", "default").
Proof.
  exact (demote_holds Demo.ehash Demo.settings Demo.ahash Ladder.meddling Ladder.service
    "ema" "aapl" "retired" "operator" "ann" None 9 Ladder.roster Ladder.seen (Demo.sleeve1 "human")
    Ladder.reachable_roster eq_refl Ladder.meddling_calls ltac:(vm_compute; reflexivity)
    ltac:(repeat constructor) ltac:(discriminate) (fun d' r Hr _ => Hr)).
Defined.

(** The retry was needed: the row had been put on probation in between. *)
Example demote_retried :
  (version <$> fst (demote Ladder.meddling Ladder.service "ema" "aapl" "retired" "operator" "ann"
     None 9 Ladder.roster)) = Ok 4.
Proof. vm_compute. reflexivity. Qed.

Lemma promote_spec_witness :
  exists r g d', promote Ladder.fpow Demo.ehash (fun _ d => d) Ladder.service "ema" "AAPL" [] (Some 1)
      None Ladder.paper_run None None None "ann" None (Ladder.minutes 30) Ladder.roster
      = (Ok (Some r, g), d') /\ allowed g = true /\ state r = "live" /\
    exists x t, x ∈ evidence_snapshot d' /\ last (transition_log d') = Some t /\
      evidence_snapshot_id t = Some (e_id x).
Proof.
  pose proof (promote_spec Ladder.fpow Demo.ehash Demo.settings Demo.ahash (fun _ d => d) Ladder.service
    "ema" "AAPL" [] (Some 1) None Ladder.paper_run None None None "ann" None (Ladder.minutes 30)
    Ladder.roster Ladder.seen Ladder.reachable_roster eq_refl Ladder.quiet_calls) as Hp.
  pose proof Ladder.allowed_live as Ha. unfold Ladder.promotion in Ha.
  destruct (promote _ _ _ _ _ _ _ _ _ _ _ _ _ _ _ _ _) as [[[found g]|e] d']; [|discriminate Ha].
  cbn in Ha. rewrite Ha in Hp.
  destruct Hp as (s & r & ev & x & t & Hg & -> & _ & Hn & _ & _ & _ & _ & Hx & _ & _ & Ht & _ & _ & _ & Hi).
  exists r, g, d'. split; [reflexivity|]. split; [exact Ha|]. split; [|by exists x, t].
  rewrite Ladder.on_paper in Hg. injection Hg as <-. cbn in Hn. by injection Hn as <-.
Defined.

(** An artifact measured in another account, for another environment, still describes
    the sleeve: neither is compared. *)
Example scope_ignores_account_and_environment :
  let a := {| a_id := 1; a_kind := WALK_FORWARD; a_strategy_id := "ema"; a_strategy_version := "v1";
              a_symbol := "AAPL"; a_asset_class := "crypto"; a_environment := "live";
              a_account_id := "someone-else"; a_window_start := 0; a_window_end := 1;
              a_data_version := ""; a_model_version := ""; a_payload := ∅ : gmap string (pyval spec_float);
              a_content_hash := ""; a_produced_by := ""; a_created_at := 0 |} in
  _scope_matches a (Demo.sleeve0 "human") WALK_FORWARD = None.
Proof. reflexivity. Qed.
