(* ===== verification/Router.v ===== *)
(** * Server-side broker routing

    Models [services/execution-service/src/execution_service/routing.py]: the router
    that resolves each order against the lifecycle authority, binds the adapter the
    route names, and remembers where positions were last seen so that an outage does
    not strand an exit. The authority is the interface [LifecycleReads]; whether the
    store's factory connects and which broker the environment configures are
    arguments of the call. Ages are compared in microseconds. *)

From S2P Require Import Prelude PyFloat Routing Store StoreProofs StoreTheorems Service.
From Stdlib Require Import Floats.SpecFloat.

(** The adapter objects: the simulator, or the real-money client of a class. *)
Inductive Adapter := Simulated | Broker (class_ : string).
#[export] Instance Adapter_eq : EqDecision Adapter.
Proof. solve_decision. Defined.

Record RoutedOrder := {
  decision : RouteDecision;
  adapter : option Adapter;
  adapter_name : string;
  ro_strategy_version : string
}.
Definition ro_places_order (r : RoutedOrder) : bool :=
  places_order (decision r) && match adapter r with Some _ => true | None => false end.

Definition route_key : Type := string * string * string.

(** [_live]: [None] while unresolved. *)
Record BrokerRouter := {
  has_store : bool;
  has_factory : bool;
  _live : option (option string);
  _last_known_routes : gmap route_key (ExecutionRoute * string)
}.

Definition set_store (b : bool) (r : BrokerRouter) : BrokerRouter :=
  {| has_store := b; has_factory := has_factory r; _live := _live r;
     _last_known_routes := _last_known_routes r |}.
Definition set_live (l : option string) (r : BrokerRouter) : BrokerRouter :=
  {| has_store := has_store r; has_factory := has_factory r; _live := Some l;
     _last_known_routes := _last_known_routes r |}.
Definition set_routes m (r : BrokerRouter) : BrokerRouter :=
  {| has_store := has_store r; has_factory := has_factory r; _live := _live r;
     _last_known_routes := m |}.

(** What the environment of a call supplies. *)
Record Env := {
  connects : bool;                   (** the store factory succeeds *)
  configured_broker : string * bool; (** [get_broker]: its class, [is_live_trading] *)
  max_age_setting : Z;               (** [int(RECONCILE_MAX_AGE_SECONDS)] *)
  clock : datetime
}.
Definition max_age (e : Env) : Z := Z.max 30 (max_age_setting e).

Definition _live_adapter (e : Env) (r : BrokerRouter) : option string * BrokerRouter :=
  match _live r with
  | Some l => (l, r)
  | None =>
      let l := if snd (configured_broker e) then Some (fst (configured_broker e)) else None in
      (l, set_live l r)
  end.

(** Whether there is a store after trying to connect. *)
Definition _resolve_store (e : Env) (r : BrokerRouter) : bool * BrokerRouter :=
  if has_store r || negb (has_factory r) then (has_store r, r)
  else if connects e then (true, set_store true r) else (false, r).

Definition blocked (why : string) : RoutedOrder :=
  {| decision := {| route := BLOCKED; Routing.reason := why |}; adapter := None;
     adapter_name := "none"; ro_strategy_version := "" |}.

Definition _bind (e : Env) (d : RouteDecision) (version_ : string) (r : BrokerRouter)
    : RoutedOrder * BrokerRouter :=
  match route d with
  | SIMULATED =>
      ({| decision := d; adapter := Some Simulated; adapter_name := "paper";
          ro_strategy_version := version_ |}, r)
  | LIVE =>
      let '(l, r) := _live_adapter e r in
      match l with
      | None => (blocked "no_live_adapter_configured", r)
      | Some name =>
          ({| decision := d; adapter := Some (Broker name); adapter_name := name;
              ro_strategy_version := version_ |}, r)
      end
  | SHADOW | BLOCKED =>
      ({| decision := d; adapter := None; adapter_name := "none"; ro_strategy_version := "" |}, r)
  end.

Definition _authority_lost (e : Env) (intent : OrderIntent) (why : string) (k : route_key)
    (r : BrokerRouter) : RoutedOrder * BrokerRouter :=
  match intent with
  | ENTRY => (blocked why, r)
  | REDUCE_ONLY =>
      match _last_known_routes r !! k with
      | None => (blocked ("exit_route_unknown_during_" +:+ why), r)
      | Some (rt, version_) =>
          _bind e {| route := rt; Routing.reason := "last_known_exit_during_" +:+ why |} version_ r
      end
  end.

(** What an outage reads like. *)
Definition outage_reason (x : StoreError) : string :=
  match x with
  | LifecycleUnavailableError m => m
  | _ => "lifecycle_unavailable: " +:+ exn_str x
  end.

(** The venue a sleeve's position was last in, as remembered. *)
Definition observe (k : route_key) (s : Sleeve) (m : gmap route_key (ExecutionRoute * string))
    : gmap route_key (ExecutionRoute * string) :=
  let p := lower (position_environment s) in
  if String.eqb p "live" then <[k := (LIVE, Store.strategy_version s)]> m
  else if str_in p ["paper"; "simulated"] then <[k := (SIMULATED, Store.strategy_version s)]> m
  else m.

Section route.
Context {W : Type} `{HW : LifecycleReads W}.

(** The three reads, in order. *)
Definition read_all (w : W) (strategy symbol_ account : string)
    : result StoreError (option Sleeve * bool * ReconciliationHalt) :=
  match read_sleeve strategy symbol_ (Some account) w with
  | Err x => Err x
  | Ok s =>
      match read_live_mode (Some account) w with
      | Err x => Err x
      | Ok live_mode_ =>
          let env := if live_mode_ then "live" else "paper" in
          match read_halt env env (Some account) w with
          | Err x => Err x
          | Ok h => Ok (s, live_mode_, h)
          end
      end
  end.

Definition intent_of (reduce_only : bool) : OrderIntent :=
  if reduce_only then REDUCE_ONLY else ENTRY.

Definition route_order (e : Env) (w : W) (strategy symbol_ account : string)
    (reduce_only : bool) (r : BrokerRouter) : RoutedOrder * BrokerRouter :=
  let intent := intent_of reduce_only in
  let k := (strategy, upper symbol_, account) in
  let '(store, r) := _resolve_store e r in
  if negb store && has_factory r then
    _authority_lost e intent "lifecycle_authority_unreachable" k r
  else if negb store then
    ({| decision := {| route := SIMULATED; Routing.reason :=
          if reduce_only then "reduce_only_exit_to_simulated"
          else "no_lifecycle_authority_simulated_only" |};
        adapter := Some Simulated; adapter_name := "paper"; ro_strategy_version := "" |}, r)
  else
  match read_all w strategy symbol_ account with
  | Err x => _authority_lost e intent (outage_reason x) k r
  | Ok (None, _, _) => (blocked "sleeve_not_registered", r)
  | Ok (Some s, live_mode_, halt) =>
      let r := set_routes (observe k s (_last_known_routes r)) r in
      let d := resolve_route (state s) intent live_mode_ (position_environment s)
                 (halted halt) (halt_reason halt) (origin s) in
      let stale :=
        match intent, route d with
        | ENTRY, LIVE =>
            match last_checked_at halt with
            | None => Some "live_reconciliation_not_run"
            | Some checked =>
                let age := clock e - checked in
                if seconds (max_age e) <? age
                then Some ("live_reconciliation_stale:" +:+ str_of_Z (Z.quot age 1000000) +:+
                           "s>" +:+ str_of_Z (max_age e) +:+ "s")
                else None
            end
        | _, _ => None
        end in
      match stale with
      | Some why => (blocked why, r)
      | None => _bind e d (Store.strategy_version s) r
      end
  end.

Definition operating_state (e : Env) (w : W) (account : string) (r : BrokerRouter)
    : string * BrokerRouter :=
  let '(store, r) := _resolve_store e r in
  if negb store then (if has_factory r then "STARTING" else "PAPER_ONLY", r) else
  match read_live_mode (Some account) w with
  | Err _ => ("EXIT_ONLY", r)
  | Ok false => ("READY", r)
  | Ok true =>
      match read_halt "live" "live" (Some account) w with
      | Err _ => ("EXIT_ONLY", r)
      | Ok h =>
          (match last_checked_at h with
           | None => "RECONCILING"
           | Some checked =>
               if halted h then "EXIT_ONLY"
               else if seconds (max_age e) <? clock e - checked then "EXIT_ONLY" else "READY"
           end, r)
      end
  end.

(** [build_router]: no URL, a store that connected, or one that did not yet. *)
Definition build_router (url_configured connected : bool) : BrokerRouter :=
  {| has_store := url_configured && connected; has_factory := url_configured;
     _live := None; _last_known_routes := ∅ |}.
End route.

(** ** What the router guarantees *)

Section theorems.
Context {W : Type} `{HW : LifecycleReads W}.

(** The authority is lost for a call: configured, and it cannot be reached or a read raises. *)
Definition lost (e : Env) (w : W) (st sy ac : string) (r : BrokerRouter) : Prop :=
  (fst (_resolve_store e r) = false /\ has_factory r = true) \/
  (fst (_resolve_store e r) = true /\ exists x, read_all w st sy ac = Err x).

(** The class of the live client in use, if it is one. *)
Definition live_client (e : Env) (r : BrokerRouter) : option string := fst (_live_adapter e r).

Lemma resolve_store_frame e r :
  has_factory (snd (_resolve_store e r)) = has_factory r /\
  _live (snd (_resolve_store e r)) = _live r /\
  _last_known_routes (snd (_resolve_store e r)) = _last_known_routes r.
Proof.
  unfold _resolve_store. destruct (has_store r || _); [done|]. by destruct (connects e).
Qed.

Lemma live_client_ext e r r' : _live r = _live r' -> live_client e r = live_client e r'.
Proof. unfold live_client, _live_adapter. intros ->. by destruct (_live r'). Qed.

Lemma bind_spec e d v r :
  let o := fst (_bind e d v r) in
  match route d with
  | SIMULATED => adapter o = Some Simulated
  | LIVE => adapter o = option_map Broker (live_client e r)
  | _ => adapter o = None
  end /\ (adapter o <> None -> decision o = d).
Proof.
  cbn zeta. unfold _bind, live_client. destruct (route d) eqn:E; try done.
  destruct (_live_adapter e r) as [[n|] r']; done.
Qed.

Lemma bind_broker e d v r n :
  adapter (fst (_bind e d v r)) = Some (Broker n) -> route d = LIVE /\ live_client e r = Some n.
Proof.
  destruct (bind_spec e d v r) as [Hb _]. intros Ha. rewrite Ha in Hb.
  destruct (route d); try done. split; [done|]. by destruct (live_client e r); simplify_eq/=.
Qed.

Lemma live_entry st lm pos h why o :
  route (resolve_route st ENTRY lm pos h why o) = LIVE ->
  st = "live" /\ lm = true /\ h = false /\ o <> "challenger".
Proof.
  unfold resolve_route. destruct h; [done|].
  destruct (String.eqb st "candidate"); [done|]. destruct (String.eqb st "paper"); [done|].
  destruct (String.eqb_spec st "live"); [|by destruct (str_in _ _)].
  destruct (String.eqb_spec o "challenger"); cbn; [done|]. by destruct lm.
Qed.

Lemma live_exit st lm pos h why o :
  route (resolve_route st REDUCE_ONLY lm pos h why o) = LIVE -> pos = POSITION_LIVE.
Proof.
  unfold resolve_route, _position_route. cbn [negb andb].
  destruct (String.eqb_spec pos POSITION_LIVE); [done|].
  by destruct (String.eqb pos POSITION_SIMULATED).
Qed.

(** C2. Real money needs the authority: an order reaches a real-money client only if
    that client declares live trading, and, for an entry, the authority answered all
    three reads at this call with a live sleeve that is not a challenger's, the
    operator's switch on, no halt, and a reconciliation no older than the limit; for
    an exit, the sleeve's position is a live one, or the authority is lost and live
    is where the router last saw the position. *)
Theorem live_order_needs_authority e w st sy ac ro r n :
  adapter (fst (route_order e w st sy ac ro r)) = Some (Broker n) ->
  live_client e r = Some n /\
  (_live r = None -> configured_broker e = (n, true)) /\
  if ro then
    (exists s lm h, read_all w st sy ac = Ok (Some s, lm, h) /\ position_environment s = POSITION_LIVE) \/
    (lost e w st sy ac r /\ exists v, _last_known_routes r !! (st, upper sy, ac) = Some (LIVE, v))
  else
    exists s h checked, read_all w st sy ac = Ok (Some s, true, h) /\
      state s = "live" /\ origin s <> "challenger" /\ halted h = false /\
      last_checked_at h = Some checked /\ clock e - checked <= seconds (max_age e).
Proof.
  intros Ha.
  assert (live_client e r = Some n -> _live r = None -> configured_broker e = (n, true)) as Hconf.
  { unfold live_client, _live_adapter. intros Hl E. rewrite E in Hl.
    destruct (configured_broker e) as [c []]; [|done]. cbn in Hl. congruence. }
  enough (live_client e r = Some n /\
    if ro then
      (exists s lm h, read_all w st sy ac = Ok (Some s, lm, h) /\ position_environment s = POSITION_LIVE) \/
      (lost e w st sy ac r /\ exists v, _last_known_routes r !! (st, upper sy, ac) = Some (LIVE, v))
    else exists s h checked, read_all w st sy ac = Ok (Some s, true, h) /\
      state s = "live" /\ origin s <> "challenger" /\ halted h = false /\
      last_checked_at h = Some checked /\ clock e - checked <= seconds (max_age e)) as [Hl Hrest]
    by auto.
  clear Hconf. revert Ha. unfold route_order, lost.
  destruct (resolve_store_frame e r) as (Ef & El & Er).
  destruct (_resolve_store e r) as [store r1]. cbn [fst snd] in *. rewrite Ef.
  rewrite <- (live_client_ext e r1 r El), <- Er. unfold intent_of.
  assert (forall why, adapter (fst (_authority_lost e (if ro then REDUCE_ONLY else ENTRY) why
            (st, upper sy, ac) r1)) = Some (Broker n) ->
          ro = true /\ live_client e r1 = Some n /\
          exists v, _last_known_routes r1 !! (st, upper sy, ac) = Some (LIVE, v)) as Hlost.
  { intros why. unfold _authority_lost. destruct ro; [|done].
    destruct (_last_known_routes r1 !! _) as [[rt v]|]; [|done].
    intros [Hr Hl]%bind_broker. cbn in Hr. subst rt. eauto. }
  destruct store; cbn [negb andb].
  2: { destruct (has_factory r); [|done]. intros (-> & Hl & Hv)%Hlost.
       split; [done|]. right. split; [by left|exact Hv]. }
  destruct (read_all w st sy ac) as [[[[s|] lm] h]|x] eqn:Eread; [|done|].
  2: { intros (-> & Hl & Hv)%Hlost. split; [done|]. right. split; [right; eauto|exact Hv]. }
  destruct ro.
  - intros [Hr Hl]%bind_broker. split; [rewrite <- Hl; by apply live_client_ext|]. apply live_exit in Hr. left. eauto 10.
  - destruct (route _) eqn:Hr; [intros [? _]%bind_broker; congruence..|].
    apply live_entry in Hr as (Hst & -> & Hh & Ho).
    destruct (last_checked_at h) as [checked|] eqn:Ec; [|done].
    destruct (Z.ltb_spec (seconds (max_age e)) (clock e - checked)); [done|].
    intros [_ Hl]%bind_broker. split; [rewrite <- Hl; by apply live_client_ext|]. exists s, h, checked. by split_and!.
Qed.

(** *** What the router remembers, over a sequence of orders *)

(** An order as it arrives, with what the authority answers at that moment. *)
Record call := {
  c_env : Env; c_world : W; c_strategy : string; c_symbol : string; c_account : string;
  c_reduce_only : bool
}.
Definition key_of (c : call) : route_key := (c_strategy c, upper (c_symbol c), c_account c).
Definition serve1 (c : call) (r : BrokerRouter) : RoutedOrder * BrokerRouter :=
  route_order (c_env c) (c_world c) (c_strategy c) (c_symbol c) (c_account c) (c_reduce_only c) r.
Definition serve (cs : list call) (r : BrokerRouter) : BrokerRouter :=
  foldl (fun r c => snd (serve1 c r)) r cs.

(** The venue this call's read of the roster shows, if it shows one. *)
Definition venue (position version_ : string) : option (ExecutionRoute * string) :=
  let p := lower position in
  if String.eqb p "live" then Some (LIVE, version_)
  else if str_in p ["paper"; "simulated"] then Some (SIMULATED, version_) else None.
Definition shows (c : call) (r : BrokerRouter) : option (ExecutionRoute * string) :=
  if fst (_resolve_store (c_env c) r) then
    match read_all (c_world c) (c_strategy c) (c_symbol c) (c_account c) with
    | Ok (Some s, _, _) => venue (position_environment s) (Store.strategy_version s)
    | _ => None
    end
  else None.

(** The last venue shown for a key. *)
Fixpoint last_shown (k : route_key) (cs : list call) (r : BrokerRouter)
    (acc : option (ExecutionRoute * string)) : option (ExecutionRoute * string) :=
  match cs with
  | [] => acc
  | c :: cs' =>
      last_shown k cs' (snd (serve1 c r))
        (if decide (key_of c = k) then match shows c r with Some v => Some v | None => acc end
         else acc)
  end.

Lemma live_adapter_frame e r :
  let r' := snd (_live_adapter e r) in
  has_store r' = has_store r /\ has_factory r' = has_factory r /\
  _last_known_routes r' = _last_known_routes r.
Proof. unfold _live_adapter. by destruct (_live r). Qed.

Lemma bind_frame e d v r :
  has_factory (snd (_bind e d v r)) = has_factory r /\
  _last_known_routes (snd (_bind e d v r)) = _last_known_routes r.
Proof.
  unfold _bind. pose proof (live_adapter_frame e r) as (_ & H2 & H3).
  destruct (route d); try done. by destruct (_live_adapter e r) as [[n|] r'].
Qed.

Lemma lost_frame e i why k r :
  has_factory (snd (_authority_lost e i why k r)) = has_factory r /\
  _last_known_routes (snd (_authority_lost e i why k r)) = _last_known_routes r.
Proof.
  unfold _authority_lost. destruct i; [done|].
  destruct (_last_known_routes r !! k) as [[rt v]|]; [|done]. apply bind_frame.
Qed.

Lemma observe_lookup k k' s m :
  observe k s m !! k' =
  if decide (k = k') then
    match venue (position_environment s) (Store.strategy_version s) with
    | Some v => Some v | None => m !! k' end
  else m !! k'.
Proof.
  unfold observe, venue.
  destruct (decide (k = k')) as [->|Hk]; repeat case_match; try done;
    by rewrite ?lookup_insert_eq, ?lookup_insert_ne.
Qed.

Lemma serve1_routes c r k :
  has_factory (snd (serve1 c r)) = has_factory r /\
  _last_known_routes (snd (serve1 c r)) !! k =
    if decide (key_of c = k) then
      match shows c r with Some v => Some v | None => _last_known_routes r !! k end
    else _last_known_routes r !! k.
Proof.
  unfold serve1, route_order, shows. fold (key_of c).
  destruct (resolve_store_frame (c_env c) r) as (Ef & _ & Er).
  destruct (_resolve_store (c_env c) r) as [store r1]. cbn [fst snd] in *.
  destruct store; cbn [negb andb].
  2: { destruct (has_factory r1) eqn:E.
       - destruct (lost_frame (c_env c) (intent_of (c_reduce_only c))
           "lifecycle_authority_unreachable" (key_of c) r1) as [-> ->].
         split; [congruence|]. rewrite Er. by destruct (decide _).
       - cbn. split; [congruence|]. rewrite Er. by destruct (decide _). }
  destruct (read_all _ _ _ _) as [[[[s|] lm] h]|x].
  - match goal with |- context [match ?o with Some why => (blocked why, ?r2) | None => _ end] =>
      set (stale := o); set (r2' := r2) end.
    assert (has_factory r2' = has_factory r /\ _last_known_routes r2' !! k =
      if decide (key_of c = k) then match venue (position_environment s) (Store.strategy_version s) with
        | Some v => Some v | None => _last_known_routes r !! k end
      else _last_known_routes r !! k) as Hr2.
    { subst r2'. cbn. rewrite observe_lookup, Er. by split. }
    destruct stale; [exact Hr2|]. by destruct (bind_frame (c_env c) (resolve_route (state s)
      (intent_of (c_reduce_only c)) lm (position_environment s) (halted h) (halt_reason h) (origin s))
      (Store.strategy_version s) r2') as [-> ->].
  - cbn. rewrite Er. split; [done|]. by destruct (decide _).
  - destruct (lost_frame (c_env c) (intent_of (c_reduce_only c)) (outage_reason x) (key_of c) r1)
      as [-> ->]. rewrite Er. split; [done|]. by destruct (decide _).
Qed.

Lemma serve_routes k cs : forall r,
  has_factory (serve cs r) = has_factory r /\
  _last_known_routes (serve cs r) !! k = last_shown k cs r (_last_known_routes r !! k).
Proof.
  induction cs as [|c cs IH]; intros r; [done|]. cbn [serve foldl last_shown].
  destruct (IH (snd (serve1 c r))) as [E1 E2]. destruct (serve1_routes c r k) as [Hf Hk].
  fold (serve cs (snd (serve1 c r))). split; [congruence|]. by rewrite E2, Hk.
Qed.

(** An outage stops entries and never loses an exit: after any sequence of orders
    since the process started, an order that finds a configured authority
    unreachable or a read raising is refused if it is an entry, and if it only
    reduces goes to the venue the roster last showed for that sleeve (the simulator,
    or the live client if there is one), and nowhere when none was ever shown. *)
Theorem outage_exits_by_last_seen cs connected c :
  let r := serve cs (build_router true connected) in
  lost (c_env c) (c_world c) (c_strategy c) (c_symbol c) (c_account c) r ->
  adapter (fst (serve1 c r)) =
  if c_reduce_only c then
    match last_shown (key_of c) cs (build_router true connected) None with
    | Some (SIMULATED, _) => Some Simulated
    | Some (LIVE, _) => option_map Broker (live_client (c_env c) r)
    | _ => None
    end
  else None.
Proof.
  cbn zeta. intros Hlost.
  destruct (serve_routes (key_of c) cs (build_router true connected)) as [Hf Hk].
  set (r := serve cs (build_router true connected)) in *.
  cbn [build_router _last_known_routes] in Hk. rewrite lookup_empty in Hk. rewrite <- Hk. clear Hk.
  unfold serve1, route_order, lost in *. fold (key_of c).
  destruct (resolve_store_frame (c_env c) r) as (Ef & El & Er).
  destruct (_resolve_store (c_env c) r) as [store r1]. cbn [fst snd] in *.
  assert (forall why, adapter (fst (_authority_lost (c_env c) (intent_of (c_reduce_only c)) why (key_of c) r1)) =
    if c_reduce_only c then
      match _last_known_routes r !! key_of c with
      | Some (SIMULATED, _) => Some Simulated
      | Some (LIVE, _) => option_map Broker (live_client (c_env c) r)
      | _ => None end
    else None) as Hgoal.
  { intros why. unfold _authority_lost, intent_of. destruct (c_reduce_only c); [|done].
    rewrite Er. destruct (_last_known_routes r !! key_of c) as [[rt v]|]; [|done].
    pose proof (bind_spec (c_env c) {| route := rt; Routing.reason := "last_known_exit_during_" +:+ why |}
      v r1) as [Hb _]. cbn [route] in Hb. rewrite (live_client_ext _ r1 r El) in Hb.
    by destruct rt. }
  destruct Hlost as [[-> Hfac]|[-> [x Hx]]]; cbn [negb andb].
  - rewrite Ef, Hfac. apply Hgoal.
  - rewrite Hx. apply Hgoal.
Qed.

(** The advisory gate and the router agree: when [may_open] says an entry is worth
    attempting, the router sends a paper sleeve's order to the simulator (with the
    live switch off) and a human live sleeve's order to the live client, provided
    the broker was reconciled recently. *)
Theorem advice_agrees e w st sy ac r s :
  permitted (may_open (Some w) st sy (Some ac)) = true ->
  fst (_resolve_store e r) = true -> read_sleeve st sy (Some ac) w = Ok (Some s) ->
  (state s = "paper" -> read_live_mode (Some ac) w = Ok false ->
     adapter (fst (route_order e w st sy ac false r)) = Some Simulated) /\
  (state s = "live" -> origin s <> "challenger" ->
     (exists h checked, read_halt "live" "live" (Some ac) w = Ok h /\
        last_checked_at h = Some checked /\ clock e - checked <= seconds (max_age e)) ->
     adapter (fst (route_order e w st sy ac false r)) = option_map Broker (live_client e r)).
Proof.
  intros (w' & s' & h & Ew & Es & Hst & Eh & Hh)%(proj1 (proj1 (may_open_cases _ _ _ _))) Hstore Hs.
  injection Ew as <-. assert (s' = s) as -> by congruence.
  unfold route_order. destruct (resolve_store_frame e r) as (_ & El & _).
  destruct (_resolve_store e r) as [store r1]. cbn [fst snd] in *. subst store. cbn [negb andb].
  unfold read_all. rewrite Hs. split.
  - intros Hp ->. rewrite Hp in Eh. rewrite Eh. cbn zeta. rewrite Hh, Hp. done.
  - intros Hl Ho (h' & checked & Eh' & Ec & Hage). rewrite Hl in Eh, Hst.
    destruct Hst as [?|[_ ->]]; [done|]. rewrite Eh. assert (h' = h) as -> by congruence.
    cbn zeta. rewrite Hh, Ec, Hl. unfold resolve_route. cbn [intent_of negb andb].
    destruct (String.eqb_spec (origin s) "challenger"); [done|]. cbn.
    destruct (Z.ltb_spec (seconds (max_age e)) (clock e - checked)); [lia|].
    set (r2 := set_routes _ r1). rewrite <- (live_client_ext e r2 r El). unfold live_client, _bind. cbn.
    by destruct (_live_adapter e r2) as [[client|] r3].
Qed.

(** With the live switch on, the router reads the halt of the live environment for every
    sleeve: a paper entry that the gate refuses for its own environment's halt is
    placed on the simulator. *)
Lemma paper_halt_ignored_in_live_mode e w st sy ac r s h h' :
  fst (_resolve_store e r) = true -> read_sleeve st sy (Some ac) w = Ok (Some s) ->
  state s = "paper" -> read_live_mode (Some ac) w = Ok true ->
  read_halt "paper" "paper" (Some ac) w = Ok h -> halted h = true ->
  read_halt "live" "live" (Some ac) w = Ok h' -> halted h' = false ->
  permitted (may_open (Some w) st sy (Some ac)) = false /\
  adapter (fst (route_order e w st sy ac false r)) = Some Simulated.
Proof.
  intros Hstore Hs Hp Hlm Eh Hh Eh' Hh'. split.
  - unfold may_open. rewrite Hs, Hp. cbn. by rewrite Eh, Hh.
  - unfold route_order. destruct (_resolve_store e r) as [store r1]. cbn [fst] in *. subst store.
    cbn [negb andb]. unfold read_all. rewrite Hs, Hlm. cbn zeta. rewrite Eh', Hh', Hp. done.
Qed.
End theorems.

(** ** Concrete orders *)

Module Desk.
Definition env : Env :=
  {| connects := true; configured_broker := ("EToroBroker", true); max_age_setting := 600;
     clock := 20 |}.
Definition router : BrokerRouter := build_router true true.
(** The human sleeve promoted to live, with the switch on and the broker reconciled. *)
Definition live_roster : DB SpecFloat.spec_float :=
  Demo.run (OpReconcile "live" "live" true 0 "" true None) 12
    (Demo.run (OpSetLiveMode true "ann" "go" None) 11
      (Demo.run (OpTransition (Demo.sleeve1 "human") "live" "up" "ann" None) 10 (Demo.promoted "human"))).
Definition world : StoreSettings * DB SpecFloat.spec_float := (Demo.settings, live_roster).
Definition entry : call :=
  {| c_env := env; c_world := world; c_strategy := "ema"; c_symbol := "aapl";
     c_account := "default"; c_reduce_only := false |}.
End Desk.

Lemma live_order_needs_authority_witness :
  adapter (fst (route_order Desk.env Desk.world "ema" "aapl" "default" false Desk.router))
    = Some (Broker "EToroBroker") /\
  exists s h checked, read_all Desk.world "ema" "aapl" "default" = Ok (Some s, true, h) /\
    state s = "live" /\ last_checked_at h = Some checked.
Proof.
  assert (adapter (fst (route_order Desk.env Desk.world "ema" "aapl" "default" false Desk.router))
    = Some (Broker "EToroBroker")) as Ha by (vm_compute; reflexivity).
  split; [exact Ha|].
  destruct (live_order_needs_authority _ _ _ _ _ _ _ _ Ha) as (_ & _ & s & h & checked & H1 & H2 & _ & _ & H3 & _).
  by exists s, h, checked.
Defined.

(** The same orders over an authority that stops answering. *)
Module Outage.
Definition up : Snapshots SpecFloat.spec_float :=
  {| sn_settings := Demo.settings; sn_sleeve := Ok Desk.live_roster;
     sn_live_mode := Ok Desk.live_roster; sn_halt := Ok Desk.live_roster |}.
Definition down : Snapshots SpecFloat.spec_float :=
  {| sn_settings := Demo.settings; sn_sleeve := Ok Desk.live_roster;
     sn_live_mode := Err (OtherException "connection reset"); sn_halt := Ok Desk.live_roster |}.
Definition order (w : Snapshots SpecFloat.spec_float) (reduce : bool) : call :=
  {| c_env := Desk.env; c_world := w; c_strategy := "ema"; c_symbol := "AAPL";
     c_account := "default"; c_reduce_only := reduce |}.
End Outage.

Lemma outage_exits_by_last_seen_witness :
  adapter (fst (serve1 (Outage.order Outage.down true)
    (serve [Outage.order Outage.up false] (build_router true true)))) = Some (Broker "EToroBroker").
Proof.
  rewrite (outage_exits_by_last_seen [Outage.order Outage.up false] true (Outage.order Outage.down true)).
  - vm_compute. reflexivity.
  - right. split; [vm_compute; reflexivity|].
    exists (OtherException "connection reset"). vm_compute. reflexivity.
Defined.

Lemma advice_agrees_witness :
  adapter (fst (route_order Desk.env Desk.world "ema" "aapl" "default" false Desk.router))
    = Some (Broker "EToroBroker").
Proof.
  refine (proj2 (advice_agrees Desk.env Desk.world "ema" "aapl" "default" Desk.router
    (transitioned "live" "up" 3 0 POSITION_LIVE 10 (Demo.sleeve1 "human")) _ _ _) _ _ _).
  - vm_compute. reflexivity.
  - reflexivity.
  - vm_compute. reflexivity.
  - reflexivity.
  - discriminate.
  - eexists _, 12. split; [vm_compute; reflexivity|]. split; [reflexivity|]. vm_compute. discriminate.
Defined.
