(* ===== verification/Execution.v ===== *)
(** * The execution service

    Models [services/execution-service/src/execution_service/main.py] over the tables
    of its [models.py]: orders with their idempotency keys, the position cap, the
    refusals that are recorded without a broker, fills and events, closes, and the
    reads of the service. The venues an order can reach are the interface [Venue],
    which the paper broker implements; what the clock, the uuid generator and the
    market answer during a call is its [Tick]. *)

From S2P Require Import Prelude PyFloat Routing Store StoreProofs StoreTheorems.
From S2P Require Import Contracts PaperBroker Journal JournalTheorems Service Router.
From Stdlib Require Import Floats.SpecFloat.

(** What one call draws from the outside. *)
Record Tick (F : Type) := {
  tk_env : Env;                      (** of the router *)
  tk_now : datetime;
  tk_mark : string -> option F;      (** the market price of a symbol *)
  tk_writable : bool;                (** the paper book's file *)
  tk_broker_uuid : string;
  tk_order_uuid : string;
  tk_unplaced_uuid : string;
  tk_fill_uuid : string;
  tk_net : io;                       (** the journal's database, at the read of the position *)
  tk_record : io                     (** and at the record of the execution *)
}.
Arguments tk_env {F}. Arguments tk_now {F}. Arguments tk_mark {F}. Arguments tk_writable {F}.
Arguments tk_broker_uuid {F}. Arguments tk_order_uuid {F}. Arguments tk_unplaced_uuid {F}.
Arguments tk_fill_uuid {F}. Arguments tk_net {F}. Arguments tk_record {F}.

(** ** Venues *)

(** What [close_position] returns: something false, a bare true, or the fill. *)
Inductive Closed (F : Type) :=
| NotClosed
| Accepted
| ClosedFill (side : string) (qty fill_price : option F) (order_id : string).
Arguments NotClosed {F}. Arguments Accepted {F}. Arguments ClosedFill {F}.

Inductive CloseError := NotImplemented (msg : string) | BadValue (msg : string) | BrokerCrash (msg : string).

Class Venue (F B : Type) := {
  v_place : ExecutionOrderRequest F -> Tick F -> B -> result string (BrokerResult F) * B;
  (** [None] when the adapter has no [close_position]. *)
  v_close : option (string -> Z -> option F -> string -> Tick F -> B -> result CloseError (Closed F) * B);
  v_requires_match : bool;
  v_positions : option (Tick F -> B -> list (BrokerPosition F) * B);
  v_resolver : option (string -> B -> result CloseError Z * B)
}.

#[export] Instance paper_venue F `{PyFloat F} : Venue F (PaperBroker F) := {
  v_place request t b :=
    let '(r, b') := place_order request (tk_mark t (upper (rq_symbol request))) (tk_broker_uuid t)
                      (tk_now t) (tk_writable t) b in (Ok r, b');
  v_close := Some (fun position_id _ units symbol t b =>
    let '(c, b') := close_position position_id units (Some symbol) (tk_mark t) (tk_broker_uuid t)
                      (tk_now t) (tk_writable t) b in
    (Ok match c with
        | None => NotClosed
        | Some o => ClosedFill (po_side o) (Some (po_qty o)) (Some (po_fill_price o)) (po_order_id o)
        end, b'));
  v_requires_match := false;
  v_positions := Some (fun t b => (get_positions (tk_mark t) b, b));
  v_resolver := None
}.

(** ** The tables *)

Record OrderRecord (F : Type) := {
  o_order_id : string;
  o_signal_id : string;
  o_symbol : string;
  o_side : string;
  o_qty : Z;
  o_order_type : string;
  o_time_in_force : string;
  o_status : string;
  o_external_order_id : string;
  o_idempotency_key : string;
  o_payload_hash : string;
  o_rejection_reason : option (fstr F);
  o_created_at : datetime
}.
Arguments o_order_id {F}. Arguments o_signal_id {F}. Arguments o_symbol {F}. Arguments o_side {F}.
Arguments o_qty {F}. Arguments o_order_type {F}. Arguments o_time_in_force {F}.
Arguments o_status {F}. Arguments o_external_order_id {F}. Arguments o_idempotency_key {F}.
Arguments o_payload_hash {F}. Arguments o_rejection_reason {F}. Arguments o_created_at {F}.

Record FillRecord (F : Type) := {
  f_fill_id : string;
  f_order_id : string;
  f_external_order_id : string;
  f_signal_id : string;
  f_symbol : string;
  f_side : string;
  f_qty : Z;
  f_price : F;
  f_filled_at : datetime
}.
Arguments f_fill_id {F}. Arguments f_order_id {F}. Arguments f_external_order_id {F}.
Arguments f_signal_id {F}. Arguments f_symbol {F}. Arguments f_side {F}. Arguments f_qty {F}.
Arguments f_price {F}. Arguments f_filled_at {F}.

Inductive EventPayload (F : Type) :=
| Submitted (request : ExecutionOrderRequest F)
| Outcome (rejection_reason : option (fstr F))
| Filled (fill : FillRecord F)
| NotPlaced (route_ : string) (why : fstr F) (strategy account : string) (reduce_only : bool).
Arguments Submitted {F}. Arguments Outcome {F}. Arguments Filled {F}. Arguments NotPlaced {F}.

Record ExecutionEventRecord (F : Type) := {
  ev_order_id : string;
  ev_external_order_id : string;
  ev_signal_id : string;
  ev_symbol : string;
  ev_type : string;
  ev_order_status : string;
  ev_payload : EventPayload F;
  ev_created_at : datetime
}.
Arguments ev_order_id {F}. Arguments ev_type {F}. Arguments ev_payload {F}.

Record ExecDB (F : Type) := {
  db_orders : list (OrderRecord F);
  db_fills : list (FillRecord F);
  db_events : list (ExecutionEventRecord F)
}.
Arguments db_orders {F}. Arguments db_fills {F}. Arguments db_events {F}.

Record ExecutionOrderResponse (F : Type) := {
  rs_order_id : string;
  rs_external_order_id : string;
  rs_signal_id : string;
  rs_symbol : string;
  rs_side : string;
  rs_qty : Z;
  rs_order_type : string;
  rs_time_in_force : string;
  rs_status : string;
  rs_created_at : datetime;
  rs_rejection_reason : option (fstr F)
}.
Arguments rs_order_id {F}. Arguments rs_status {F}. Arguments rs_rejection_reason {F}.

(** The process: its router, the two venues, the journal and the database. *)
Record Exec (F S L : Type) := {
  ex_router : BrokerRouter;
  ex_simulated : S;
  ex_real : L;
  ex_journal : Journal F;
  ex_db : ExecDB F
}.
Arguments ex_router {F S L}. Arguments ex_simulated {F S L}. Arguments ex_real {F S L}.
Arguments ex_journal {F S L}. Arguments ex_db {F S L}.

Inductive Failure := Http (e : HTTPException) | Crash (msg : string).

Section service.
Context {F : Type} `{HF : PyFloat F}.
(** SHA-256 of the request's JSON; the database's SUM; the text of a message. *)
Context (_hash_payload : ExecutionOrderRequest F -> string).
Context (sql_sum : list F -> F) (render : fstr F -> string).
Context {S L : Type} `{HS : Venue F S} `{HL : Venue F L}.
Context {W : Type} `{HW : LifecycleReads W}.
Context (max_position_qty : Z).
Local Open Scope py_scope.
Implicit Types (x : Exec F S L) (q : ExecutionOrderRequest F) (t : Tick F).

Definition with_db d x : Exec F S L :=
  {| ex_router := ex_router x; ex_simulated := ex_simulated x; ex_real := ex_real x;
     ex_journal := ex_journal x; ex_db := d |}.
Definition with_journal j x : Exec F S L :=
  {| ex_router := ex_router x; ex_simulated := ex_simulated x; ex_real := ex_real x;
     ex_journal := j; ex_db := ex_db x |}.
Definition with_router r x : Exec F S L :=
  {| ex_router := r; ex_simulated := ex_simulated x; ex_real := ex_real x;
     ex_journal := ex_journal x; ex_db := ex_db x |}.
Definition with_simulated b x : Exec F S L :=
  {| ex_router := ex_router x; ex_simulated := b; ex_real := ex_real x;
     ex_journal := ex_journal x; ex_db := ex_db x |}.
Definition with_real b x : Exec F S L :=
  {| ex_router := ex_router x; ex_simulated := ex_simulated x; ex_real := b;
     ex_journal := ex_journal x; ex_db := ex_db x |}.

Definition with_symbol (s : string) q : ExecutionOrderRequest F :=
  {| rq_signal_id := rq_signal_id q; rq_symbol := s; rq_side := rq_side q; rq_qty := rq_qty q;
     rq_order_type := rq_order_type q; rq_time_in_force := rq_time_in_force q;
     rq_stop_loss_rate := rq_stop_loss_rate q; rq_take_profit_rate := rq_take_profit_rate q;
     rq_limit_price := rq_limit_price q; rq_decision_price := rq_decision_price q;
     rq_strategy_id := rq_strategy_id q; rq_account_id := rq_account_id q;
     rq_reduce_only := rq_reduce_only q; rq_fields_set := rq_fields_set q |}.

Definition _to_response (o : OrderRecord F) : ExecutionOrderResponse F :=
  {| rs_order_id := o_order_id o; rs_external_order_id := o_external_order_id o;
     rs_signal_id := o_signal_id o; rs_symbol := o_symbol o; rs_side := o_side o;
     rs_qty := o_qty o; rs_order_type := o_order_type o;
     rs_time_in_force := o_time_in_force o; rs_status := o_status o;
     rs_created_at := o_created_at o; rs_rejection_reason := o_rejection_reason o |}.

Definition by_key (k : string) (o : OrderRecord F) : bool := String.eqb (o_idempotency_key o) k.

(** The UNIQUE columns: order_id, external_order_id, idempotency_key. *)
Definition clashes (o o' : OrderRecord F) : bool :=
  String.eqb (o_order_id o) (o_order_id o') ||
  String.eqb (o_external_order_id o) (o_external_order_id o') ||
  String.eqb (o_idempotency_key o) (o_idempotency_key o').

Definition _persist_event (o : OrderRecord F) (type_ : string) (payload : EventPayload F)
    (d : ExecDB F) : ExecDB F :=
  {| db_orders := db_orders d; db_fills := db_fills d;
     db_events := db_events d ++
       [{| ev_order_id := o_order_id o; ev_external_order_id := o_external_order_id o;
           ev_signal_id := o_signal_id o; ev_symbol := o_symbol o; ev_type := type_;
           ev_order_status := o_status o; ev_payload := payload;
           ev_created_at := o_created_at o |}] |}.

Definition fill_of (o : OrderRecord F) (fill_id : string) (fill_price : option F) : FillRecord F :=
  {| f_fill_id := fill_id; f_order_id := o_order_id o;
     f_external_order_id := o_external_order_id o; f_signal_id := o_signal_id o;
     f_symbol := o_symbol o; f_side := o_side o; f_qty := o_qty o;
     f_price := default (nofZ 100) fill_price; f_filled_at := o_created_at o |}.
Definition _persist_fill (f : FillRecord F) (d : ExecDB F) : ExecDB F :=
  {| db_orders := db_orders d; db_fills := db_fills d ++ [f]; db_events := db_events d |}.

Definition order_of q t (status_ external key_ hash : string) (why : option (fstr F))
    : OrderRecord F :=
  {| o_order_id := tk_order_uuid t; o_signal_id := rq_signal_id q; o_symbol := rq_symbol q;
     o_side := rq_side q; o_qty := rq_qty q; o_order_type := rq_order_type q;
     o_time_in_force := rq_time_in_force q; o_status := status_;
     o_external_order_id := external; o_idempotency_key := key_; o_payload_hash := hash;
     o_rejection_reason := why; o_created_at := tk_now t |}.

(** [session.add] and [flush]: [None] is the IntegrityError. *)
Definition add_order (o : OrderRecord F) (d : ExecDB F) : option (ExecDB F) :=
  if existsb (clashes o) (db_orders d) then None
  else Some {| db_orders := db_orders d ++ [o]; db_fills := db_fills d; db_events := db_events d |}.

Definition environment_of (routed : RoutedOrder) : string :=
  if is_live (decision routed) then "live" else "paper".

(** Why this order may not open or extend a position; [None] if it may. *)
Definition _position_cap_refusal q (routed : RoutedOrder) t (j : Journal F) : option (fstr F) :=
  match net_position sql_sum (rq_strategy_id q) (rq_symbol q) (environment_of routed)
          (rq_account_id q) (tk_net t) j with
  | None => Some (lit "position_unknowable: the journal cannot say what this sleeve already holds, so the order is refused")
  | Some net =>
      let qty := nofZ (rq_qty q) in
      let signed := if String.eqb (upper (rq_side q)) "BUY" then qty else - qty in
      let new_net := net + signed in
      let eps := nlit 1 1000000000 in
      if rq_reduce_only q then
        if nabs net <=? eps then Some (lit "reduce_only_no_position")
        else if net * signed >=? nzero then
          Some [Lit "reduce_only_wrong_side: holding "; Fmt "+g" net; Lit ", order "; Fmt "+g" signed;
                Lit " would increase exposure"]
        else if nabs signed >? nabs net + eps then
          Some [Lit "reduce_only_exceeds_position: holding "; Fmt "+g" net; Lit ", order ";
                Fmt "+g" signed; Lit " could reverse the position"]
        else if nabs new_net >? nabs net + eps then Some (lit "reduce_only_invariant_failed")
        else None
      else
        let cap := nofZ max_position_qty in
        if (nabs new_net >? cap) && (nabs new_net >? nabs net) then
          Some [Lit "position_cap: "; Fmt "+g" net; Lit " "; Fmt "+g" signed; Lit " would hold ";
                Fmt "+g" new_net; Lit " against a cap of "; Fmt "g" cap;
                Lit (" for " +:+ rq_strategy_id q +:+ "/" +:+ rq_symbol q)]
        else None
  end.

Definition _record_unplaced q (routed : RoutedOrder) t (key_ hash : string)
    (why : option (fstr F)) x : result Failure (ExecutionOrderResponse F) * Exec F S L :=
  let why := match why with
    | Some (_ :: _ as r) => r | _ => lit (Routing.reason (decision routed)) end in
  let rt := route_value (route (decision routed)) in
  let o := order_of q t (status_value REJECTED) ("unplaced-" +:+ tk_unplaced_uuid t) key_ hash
             (Some (Lit (rt +:+ ": ") :: why)) in
  match add_order o (ex_db x) with
  | None => (Err (Crash "IntegrityError"), x)
  | Some d =>
      let d := _persist_event o "order.not_placed"
                 (NotPlaced rt why (rq_strategy_id q) (rq_account_id q) (rq_reduce_only q)) d in
      (Ok (_to_response o), with_db d x)
  end.

Definition explicit_identity (fields : list string) : bool :=
  str_in "strategy_id" fields && str_in "account_id" fields.

(** [routed.adapter.place_order]: the adapter is an object, whose state changes. *)
Definition place_at (a : Adapter) q t x : result string (BrokerResult F) * Exec F S L :=
  match a with
  | Simulated => let '(r, b) := v_place q t (ex_simulated x) in (r, with_simulated b x)
  | Broker _ => let '(r, b) := v_place q t (ex_real x) in (r, with_real b x)
  end.

Definition _record_execution_quality q (o : OrderRecord F) (b : BrokerResult F)
    (routed : RoutedOrder) t (j : Journal F) : Journal F :=
  snd (record_execution (rq_symbol q) (rq_side q) (nofZ (rq_qty q)) (rq_decision_price q)
    (br_fill_price b) (rq_order_type q) (rq_limit_price q) (o_order_id o) (rq_signal_id q)
    (str_or (match br_rejection_reason b with Some r => render r | None => "" end)
            (lower (status_value (br_status b))))
    (rq_strategy_id q) (ro_strategy_version routed) (environment_of routed) (rq_account_id q)
    (adapter_name routed) nzero None false false (tk_now t) (tk_record t) j).

Definition filled_status (s : OrderStatus) : bool :=
  match s with ACCEPTED | FILLED | PARTIALLY_FILLED => true | _ => false end.

Definition mismatch : Failure :=
  Http {| status_code := 409; detail := "Idempotency key payload mismatch" |}.

(** After the broker answered: insert, events, measurement, fill, commit. *)
Definition persist_order q (routed : RoutedOrder) t (key_ hash : string) (b : BrokerResult F) x
    : result Failure (ExecutionOrderResponse F) * Exec F S L :=
  let o := order_of q t (status_value (br_status b)) (br_external_order_id b) key_ hash
             (br_rejection_reason b) in
  match add_order o (ex_db x) with
  | None =>
      match List.find (by_key key_) (db_orders (ex_db x)) with
      | Some existing =>
          if String.eqb (o_payload_hash existing) hash then (Ok (_to_response existing), x)
          else (Err mismatch, x)
      | None => (Err mismatch, x)
      end
  | Some d =>
      let d := _persist_event o "order.submitted" (Submitted q) d in
      let d := _persist_event o ("order." +:+ lower (o_status o)) (Outcome (br_rejection_reason b)) d in
      let x := with_journal (_record_execution_quality q o b routed t (ex_journal x)) x in
      let d :=
        if (match br_fill_price b with Some _ => true | None => false end) &&
           filled_status (br_status b) then
          let f := fill_of o (tk_fill_uuid t) (br_fill_price b) in
          _persist_event o "fill.recorded" (Filled f) (_persist_fill f d)
        else d in
      (Ok (_to_response o), with_db d x)
  end.

(** [rivals]: the orders other requests commit between this request's lookup of its
    key and its insert. *)
Definition add_rivals (rivals : list (OrderRecord F)) (d : ExecDB F) : ExecDB F :=
  {| db_orders := db_orders d ++ rivals; db_fills := db_fills d; db_events := db_events d |}.

Definition create_order (w : W) t (rivals : list (OrderRecord F)) q (key_ : string) x
    : result Failure (ExecutionOrderResponse F) * Exec F S L :=
  match sanitize_symbol (rq_symbol q) with
  | Err e => (Err (Http e), x)
  | Ok symbol_ =>
      let q := with_symbol symbol_ q in
      let hash := _hash_payload q in
      match List.find (by_key key_) (db_orders (ex_db x)) with
      | Some existing =>
          if negb (String.eqb (o_payload_hash existing) hash) then (Err mismatch, x)
          else (Ok (_to_response existing), x)
      | None =>
          let '(routed, r) := route_order (tk_env t) w (rq_strategy_id q) (rq_symbol q)
                                (rq_account_id q) (rq_reduce_only q) (ex_router x) in
          let x := with_db (add_rivals rivals (ex_db x)) (with_router r x) in
          match adapter routed, ro_places_order routed with
          | Some a, true =>
              if is_live (decision routed) && negb (explicit_identity (rq_fields_set q)) then
                _record_unplaced q routed t key_ hash
                  (Some (lit "live_order_requires_explicit_strategy_and_account")) x
              else
              match _position_cap_refusal q routed t (ex_journal x) with
              | Some refusal => _record_unplaced q routed t key_ hash (Some refusal) x
              | None =>
                  match (if is_live (decision routed)
                         then assert_not_live (route (decision routed)) (adapter_name routed)
                         else Ok tt) with
                  | Err _ => (Err (Crash "PermissionError"), x)
                  | Ok _ =>
                      match place_at a q t x with
                      | (Err exc, x) => (Err (Crash exc), x)
                      | (Ok b, x) => persist_order q routed t key_ hash b x
                      end
                  end
              end
          | _, _ => _record_unplaced q routed t key_ hash None x
          end
      end
  end.

(** *** Closes *)

Definition http (code : Z) (why : string) : Failure := Http {| status_code := code; detail := why |}.

(** The checks before the close: the position id must name a position of the symbol at
    venues that address positions by id, and the units must not exceed it. *)
Definition close_guard (requires : bool) (positions : option (list (BrokerPosition F)))
    (symbol_ position_id : string) (units : option F) : option HTTPException :=
  if negb requires then None else
  match positions with
  | None => Some {| status_code := 501; detail := "broker_cannot_verify_position_identity" |}
  | Some ps =>
      match List.filter (fun p => String.eqb (upper (bp_symbol p)) symbol_ &&
               bool_decide (bp_position_id p = Some position_id)) ps with
      | [] => Some {| status_code := 409; detail := "position_id_does_not_match_symbol" |}
      | p :: _ =>
          match units with
          | Some u => if u >? nabs (bp_qty p)
                      then Some {| status_code := 422; detail := "close_units_exceed_broker_position" |}
                      else None
          | None => None
          end
      end
  end.

(** What a close does at the adapter: the checks, the instrument, the close itself. Only
    an instrument that is not found is a missing one; any other error of the lookup is
    not caught. *)
Definition close_with {B} `{HV : Venue F B} t (symbol_ position_id : string) (units : option F) (b : B)
    : result Failure (Closed F) * B :=
  match v_close with
  | None => (Err (http 501 "broker_does_not_support_position_close"), b)
  | Some close =>
      let '(positions, b) :=
        match v_positions with
        | Some read => if v_requires_match then let '(ps, b) := read t b in (Some ps, b) else (None, b)
        | None => (None, b)
        end in
      match close_guard v_requires_match positions symbol_ position_id units with
      | Some e => (Err (Http e), b)
      | None =>
          let '(instrument, b) := match v_resolver with Some resolve => resolve symbol_ b | None => (Ok 0, b) end in
          match instrument with
          | Err (BadValue why) => (Err (http 404 why), b)
          | Err (NotImplemented why) | Err (BrokerCrash why) => (Err (Crash why), b)
          | Ok instrument =>
              match close position_id instrument units symbol_ t b with
              | (Err (NotImplemented why), b) => (Err (http 501 why), b)
              | (Err (BadValue why), b) => (Err (http 404 why), b)
              | (Err (BrokerCrash why), b) => (Err (Crash why), b)
              | (Ok NotClosed, b) => (Err (http 502 "position_close_failed"), b)
              | (Ok closed, b) => (Ok closed, b)
              end
          end
      end
  end.
Definition close_at (a : Adapter) t (symbol_ position_id : string) (units : option F) x
    : result Failure (Closed F) * Exec F S L :=
  match a with
  | Simulated => let '(r, b) := close_with t symbol_ position_id units (ex_simulated x) in (r, with_simulated b x)
  | Broker _ => let '(r, b) := close_with t symbol_ position_id units (ex_real x) in (r, with_real b x)
  end.

(** The answer: whether the fill was confirmed, and the environment. *)
Definition close_order (w : W) t (c : ClosePositionRequest F) x
    : result Failure (bool * string) * Exec F S L :=
  match sanitize_symbol (cl_symbol c) with
  | Err e => (Err (Http e), x)
  | Ok symbol_ =>
      let '(routed, r) := route_order (tk_env t) w (cl_strategy_id c) symbol_ (cl_account_id c)
                            true (ex_router x) in
      let x := with_router r x in
      match adapter routed, ro_places_order routed with
      | Some a, true =>
          if is_live (decision routed) && negb (explicit_identity (cl_fields_set c)) then
            (Err (http 422 "live_close_requires_explicit_strategy_and_account"), x) else
          let units := match cl_units c with Some u => Some u | None => cl_qty c end in
          match close_at a t symbol_ (cl_position_id c) units x with
          | (Err e, x) => (Err e, x)
          | (Ok (ClosedFill side qty price order_id), x) =>
              let filled_qty := nor (default nzero qty) (nor (default nzero units) nzero) in
              if opt_true price && str_true side && (filled_qty >? nzero) then
                let j := snd (record_execution symbol_ side filled_qty None price "MARKET" None
                  (str_or order_id (cl_position_id c)) (cl_signal_id c) "closed"
                  (cl_strategy_id c) (ro_strategy_version routed) (environment_of routed)
                  (cl_account_id c) (adapter_name routed) nzero None false false
                  (tk_now t) (tk_record t) (ex_journal x)) in
                (Ok (true, environment_of routed), with_journal j x)
              else (Ok (false, environment_of routed), x)
          | (Ok _, x) => (Ok (false, environment_of routed), x)
          end
      | _, _ => (Err (http 409 ("close_not_routable: " +:+ Routing.reason (decision routed))), x)
      end
  end.

(** *** Reads *)

Definition get_order (order_id : string) x : result Failure (ExecutionOrderResponse F) :=
  match List.find (fun o => String.eqb (o_order_id o) order_id) (db_orders (ex_db x)) with
  | None => Err (http 404 "Order not found")
  | Some o => Ok (_to_response o)
  end.

Definition list_orders (limit : nat) (symbol_ status_ : option string) x
    : result Failure (list (ExecutionOrderResponse F)) :=
  let given o := match o with Some s => if str_true s then Some s else None | None => None end in
  match match given symbol_ with
        | None => Ok None
        | Some s => match sanitize_symbol s with Ok s' => Ok (Some s') | Err e => Err (Http e) end
        end with
  | Err e => Err e
  | Ok s =>
      Ok (map _to_response (take limit
        (sort_by (fun a b => (o_created_at b <=? o_created_at a)%Z)
          (List.filter (fun o => opt_is o_symbol s o &&
             opt_is o_status (option_map upper (given status_)) o) (db_orders (ex_db x))))))
  end.

Definition get_order_fills (order_id : string) x : result Failure (list (FillRecord F)) :=
  match List.find (fun o => String.eqb (o_order_id o) order_id) (db_orders (ex_db x)) with
  | None => Err (http 404 "Order not found")
  | Some _ => Ok (List.filter (fun f => String.eqb (f_order_id f) order_id) (db_fills (ex_db x)))
  end.

Definition list_fills x : list (FillRecord F) := db_fills (ex_db x).
Definition list_execution_events x : list (ExecutionEventRecord F) := db_events (ex_db x).

(** The net of both environments, paper first. *)
Definition sleeve_exposure (symbol_ strategy account : string) (e : io) x
    : result Failure (pydict F) :=
  match sanitize_symbol symbol_ with
  | Err err => Err (Http err)
  | Ok clean =>
      let net env := net_position sql_sum strategy clean env account e (ex_journal x) in
      match net "paper", net "live" with
      | Some p, Some l => Ok [("paper", p); ("live", l)]
      | _, _ => Err (http 503 "position_unknowable")
      end
  end.

(** ** Idempotency *)

Lemma find_app {A} (p : A -> bool) l l' :
  List.find p (l ++ l') = match List.find p l with Some a => Some a | None => List.find p l' end.
Proof. induction l as [|a l IH]; cbn; [done|]. by destruct (p a). Qed.

Lemma add_order_find o d d' : add_order o d = Some d' ->
  List.find (by_key (o_idempotency_key o)) (db_orders d') = Some o.
Proof.
  unfold add_order. destruct (existsb _ _) eqn:E; [done|]. intros [= <-]. cbn.
  rewrite find_app. destruct (List.find _ (db_orders d)) as [y|] eqn:Ef.
  - apply List.find_some in Ef as [Hy Hk]. unfold by_key in Hk.
    assert (existsb (clashes o) (db_orders d) = true); [|congruence].
    apply existsb_exists. exists y. split; [done|]. unfold clashes.
    rewrite (String.eqb_sym (o_idempotency_key o)), Hk. apply orb_true_r.
  - cbn. unfold by_key. by rewrite String.eqb_refl.
Qed.

(** The stored order a key answers with, after a success. *)
Definition stored (k hash : string) (r : ExecutionOrderResponse F) x : Prop :=
  exists o, List.find (by_key k) (db_orders (ex_db x)) = Some o /\ o_payload_hash o = hash /\
    _to_response o = r.

Lemma unplaced_stored q routed t k hash why x r x' :
  _record_unplaced q routed t k hash why x = (Ok r, x') -> stored k hash r x'.
Proof.
  unfold _record_unplaced. destruct (add_order _ _) as [d|] eqn:Ea; [|done].
  intros [= <- <-]. eexists. split; [|by split; [|reflexivity]]. cbn.
  by apply (add_order_find _ _ _ Ea).
Qed.

Lemma persist_stored q routed t k hash b x r x' :
  persist_order q routed t k hash b x = (Ok r, x') -> stored k hash r x'.
Proof.
  unfold persist_order. destruct (add_order _ _) as [d|] eqn:Ea.
  - intros [= <- <-]. eexists. split; [|by split; [|reflexivity]].
    pose proof (add_order_find _ _ _ Ea) as Hf. cbn [o_idempotency_key order_of] in Hf.
    cbn -[add_order]. by destruct (_ && _).
  - destruct (List.find _ _) as [o|] eqn:Ef; [|done].
    destruct (String.eqb_spec (o_payload_hash o) hash) as [Eh|]; [|done].
    intros [= <- <-]. by exists o.
Qed.

Lemma create_stored w t rivals q k x r x' s :
  sanitize_symbol (rq_symbol q) = Ok s ->
  create_order w t rivals q k x = (Ok r, x') -> stored k (_hash_payload (with_symbol s q)) r x'.
Proof.
  intros Hs. unfold create_order. rewrite Hs.
  destruct (List.find _ _) as [o|] eqn:Ef.
  - destruct (String.eqb_spec (o_payload_hash o) (_hash_payload (with_symbol s q))) as [Eh|]; [|done].
    intros [= <- <-]. by exists o.
  - destruct (route_order _ _ _ _ _ _ _) as [routed rt].
    destruct (adapter routed) as [a|]; [destruct (ro_places_order routed)|];
      [|by apply unplaced_stored|by apply unplaced_stored].
    destruct (_ && _); [by apply unplaced_stored|].
    destruct (_position_cap_refusal _ _ _ _); [by apply unplaced_stored|].
    destruct (if is_live _ then _ else _); [|done].
    destruct (place_at _ _ _ _) as [[b|exc] x1]; [by apply persist_stored|done].
Qed.

(** C4. An idempotency key is honoured once: after an order succeeded, whatever is
    sent again under its key, with any clock, market, authority or concurrent
    requests, changes nothing at all; the same payload gets the first response back
    and another payload is refused. *)
Theorem create_order_idempotent w t rivals q k x r x' s :
  sanitize_symbol (rq_symbol q) = Ok s ->
  create_order w t rivals q k x = (Ok r, x') ->
  forall w2 t2 rivals2 q2 s2, sanitize_symbol (rq_symbol q2) = Ok s2 ->
    create_order w2 t2 rivals2 q2 k x' =
      (if String.eqb (_hash_payload (with_symbol s q)) (_hash_payload (with_symbol s2 q2))
       then Ok r else Err mismatch, x').
Proof.
  intros Hs Hc w2 t2 rivals2 q2 s2 Hs2.
  destruct (create_stored _ _ _ _ _ _ _ _ _ Hs Hc) as (o & Hf & Hh & Hr).
  unfold create_order. rewrite Hs2, Hf, Hh.
  by destruct (String.eqb _ _); cbn; rewrite ?Hr.
Qed.

(** ** One venue, behind every guard *)

Definition untouched x x' : Prop :=
  ex_simulated x' = ex_simulated x /\ ex_real x' = ex_real x /\ ex_journal x' = ex_journal x.

(** What the call did at the venue [a]: only that venue's state moved. *)
Definition placed_at (a : Adapter) q t x (r : result string (BrokerResult F)) x' : Prop :=
  match a with
  | Simulated => v_place q t (ex_simulated x) = (r, ex_simulated x') /\ ex_real x' = ex_real x
  | Broker _ => v_place q t (ex_real x) = (r, ex_real x') /\ ex_simulated x' = ex_simulated x
  end.

(** The guards an order passed, and where it was routed. *)
Record cleared (w : W) t q (k : string) x (routed : RoutedOrder) (a : Adapter) : Prop := {
  cl_fresh : List.find (by_key k) (db_orders (ex_db x)) = None;
  cl_routed : fst (route_order (tk_env t) w (rq_strategy_id q) (rq_symbol q) (rq_account_id q)
                (rq_reduce_only q) (ex_router x)) = routed;
  cl_adapter : adapter routed = Some a;
  cl_places : ro_places_order routed = true;
  cl_explicit : is_live (decision routed) = true -> explicit_identity (rq_fields_set q) = true;
  cl_cap : _position_cap_refusal q routed t (ex_journal x) = None
}.

Lemma unplaced_untouched q routed t k hash why x :
  untouched x (snd (_record_unplaced q routed t k hash why x)).
Proof. unfold _record_unplaced. by destruct (add_order _ _). Qed.

Lemma persist_untouched q routed t k hash b x x' res :
  persist_order q routed t k hash b x = (res, x') ->
  ex_simulated x' = ex_simulated x /\ ex_real x' = ex_real x /\
  (ex_journal x' = ex_journal x \/
   exists o, ex_journal x' = _record_execution_quality q o b routed t (ex_journal x)).
Proof.
  unfold persist_order. destruct (add_order _ _) as [d|].
  - intros [= _ <-]. cbn. eauto.
  - destruct (List.find _ _) as [o|]; [destruct (String.eqb _ _)|]; intros [= _ <-]; auto.
Qed.

Lemma create_cases w t rivals q k x res x' :
  create_order w t rivals q k x = (res, x') ->
  untouched x x' \/
  exists s routed a r, sanitize_symbol (rq_symbol q) = Ok s /\
    cleared w t (with_symbol s q) k x routed a /\
    placed_at a (with_symbol s q) t x r x' /\
    (ex_journal x' = ex_journal x \/
     exists b o, r = Ok b /\
       ex_journal x' = _record_execution_quality (with_symbol s q) o b routed t (ex_journal x)).
Proof.
  unfold create_order. destruct (sanitize_symbol _) as [s|e] eqn:Hs; [|intros [= _ <-]; by left].
  set (q' := with_symbol s q).
  destruct (List.find _ _) as [o|] eqn:Ef; [destruct (negb _); intros [= _ <-]; by left|].
  destruct (route_order _ _ _ _ _ _ _) as [routed rt] eqn:Er.
  set (x0 := with_db _ _). assert (untouched x x0) as H0 by done.
  assert (forall why p, _record_unplaced q' routed t k (_hash_payload q') why x0 = p -> p = (res, x') ->
    untouched x x') as Hu.
  { intros why p <- E. pose proof (unplaced_untouched q' routed t k (_hash_payload q') why x0) as Hn.
    rewrite E in Hn. exact Hn. }
  destruct (adapter routed) as [a|] eqn:Ea; [|intros E; left; by eapply Hu].
  destruct (ro_places_order routed) eqn:Ep; [|intros E; left; by eapply Hu].
  destruct (is_live (decision routed) && _) eqn:El; [intros E; left; by eapply Hu|].
  destruct (_position_cap_refusal _ _ _ _) eqn:Ecap; [intros E; left; by eapply Hu|].
  destruct (if is_live _ then _ else _); [|intros [= _ <-]; by left].
  assert (cleared w t q' k x routed a) as Hc.
  { split; try done; [by rewrite Er|]. intros Hl. rewrite Hl in El. cbn in El. by destruct (explicit_identity _). }
  destruct (place_at a q' t x0) as [r x1] eqn:Epl. intros E. right. exists s, routed, a, r.
  split; [done|]. split; [done|].
  assert (placed_at a q' t x r x1 /\ ex_journal x1 = ex_journal x) as [Hpl Hj].
  { unfold place_at in Epl. destruct a; cbn in *;
      destruct (v_place _ _ _) as [r' b']; by simplify_eq/=. }
  destruct r as [b|exc]; [|by simplify_eq/=; auto].
  destruct (persist_untouched _ _ _ _ _ _ _ _ _ E) as (E1 & E2 & E3).
  split; [unfold placed_at in *; destruct a; by rewrite E1, E2|].
  rewrite Hj in E3. destruct E3 as [E3|[o E3]]; [by left|right; eauto].
Qed.

Lemma routed_environment e w st sy ac ro r a :
  adapter (fst (route_order e w st sy ac ro r)) = Some a ->
  environment_of (fst (route_order e w st sy ac ro r)) =
    match a with Simulated => "paper" | Broker _ => "live" end.
Proof.
  assert (forall d v r, adapter (fst (_bind e d v r)) = Some a ->
    environment_of (fst (_bind e d v r)) = match a with Simulated => "paper" | Broker _ => "live" end) as Hb.
  { intros d v r0. unfold _bind, environment_of, is_live. destruct (route d) eqn:Ed; try done.
    - intros [= <-]. cbn. by rewrite Ed.
    - destruct (_live_adapter e r0) as [[n|] r1]; [|done]. intros [= <-]. cbn. by rewrite Ed. }
  unfold route_order. destruct (_resolve_store e r) as [store r1].
  assert (forall i why k, adapter (fst (_authority_lost e i why k r1)) = Some a ->
    environment_of (fst (_authority_lost e i why k r1)) =
      match a with Simulated => "paper" | Broker _ => "live" end) as Hl.
  { intros i why k. unfold _authority_lost. destruct i; [done|].
    destruct (_last_known_routes r1 !! k) as [[rt v]|]; [apply Hb|done]. }
  destruct (negb store && has_factory r1); [apply Hl|]. destruct (negb store); [by intros [= <-]|].
  destruct (read_all w st sy ac) as [[[[s|] lm] h]|exc]; [|done|apply Hl].
  match goal with |- context [match ?o with Some why => (blocked why, _) | None => _ end] =>
    destruct o end; [done|apply Hb].
Qed.

(** An order touches one venue, behind every guard: a call of [create_order] either
    leaves both venues and the journal as they were, or its key was new, the route
    named that venue, the cap did not refuse it, a live order named its sleeve, and
    only that venue changed; what is journalled, if anything, is one execution whose
    environment is the venue's own kind of money. *)
Theorem one_guarded_venue w t rivals q k x res x' :
  create_order w t rivals q k x = (res, x') ->
  untouched x x' \/
  exists s routed a r, sanitize_symbol (rq_symbol q) = Ok s /\
    cleared w t (with_symbol s q) k x routed a /\
    placed_at a (with_symbol s q) t x r x' /\
    (executions (ex_journal x') = executions (ex_journal x) \/
     exists row, executions (ex_journal x') = executions (ex_journal x) ++ [row] /\
       x_environment row = (match a with Simulated => "paper" | Broker _ => "live" end) /\
       x_strategy_id row = rq_strategy_id q /\ x_account_id row = rq_account_id q /\
       x_symbol row = upper s /\ x_broker row = adapter_name routed).
Proof.
  intros Hc. destruct (create_cases _ _ _ _ _ _ _ _ Hc) as [?|(s & routed & a & r & Hs & Hcl & Hp & Hj)];
    [by left|right].
  exists s, routed, a, r. split; [done|]. split; [done|]. split; [done|].
  destruct Hj as [->|(b & o & _ & ->)]; [by left|]. unfold _record_execution_quality, record_execution, _insert.
  destruct (enabled (ex_journal x)); cbn [negb]; [|by left].
  destruct (tk_record t); [by left|]. right. eexists. split; [reflexivity|]. cbn [x_environment
    x_strategy_id x_account_id x_symbol x_broker]. split; [|done].
  destruct Hcl as [_ <- Ha _ _ _]. by apply routed_environment.
Qed.
End service.

(** ** The position cap (exact arithmetic) *)

Section cap.
Context (_hash_payload : ExecutionOrderRequest Q -> string).
Context (sql_sum : list Q -> Q) (render : fstr Q -> string).
Context {S L : Type} `{HS : Venue Q S} `{HL : Venue Q L}.
Context {W : Type} `{HW : LifecycleReads W}.
Context (max_position_qty : Z).
(** The database adds what it is given. *)
Context (sql_sum_spec : forall l, (sql_sum l == nsum l)%Q).
Implicit Types (x : Exec Q S L) (q : ExecutionOrderRequest Q) (t : Tick Q).
Local Abbreviation create := (create_order _hash_payload sql_sum render max_position_qty).

Definition net (st sy env ac : string) x : option Q := net_position sql_sum st sy env ac None (ex_journal x).

Definition signed q : Q := if String.eqb (upper (rq_side q)) "BUY" then inject_Z (rq_qty q) else (- inject_Z (rq_qty q))%Q.

Lemma net_upper st sy env ac e (j : Journal Q) :
  net_position sql_sum st (upper sy) env ac e j = net_position sql_sum st sy env ac e j.
Proof.
  unfold net_position. destruct (enabled j); [|done]. destruct e; [done|]. cbn [negb].
  assert (List.filter (fun r => in_scope st (upper sy) env ac r && x_filled r) (executions j) =
          List.filter (fun r => in_scope st sy env ac r && x_filled r) (executions j)) as ->; [|done].
  apply List.filter_ext. intros r. unfold in_scope. by rewrite upper_idemp.
Qed.

(** How a call moves the net position of a scope. *)
Lemma net_step w t rivals q k x res x' :
  create w t rivals q k x = (res, x') ->
  forall st sy env ac n', net st sy env ac x' = Some n' ->
  exists n, net st sy env ac x = Some n /\
    ((n' == n)%Q \/ exists s routed a, sanitize_symbol (rq_symbol q) = Ok s /\
      cleared sql_sum max_position_qty w t (with_symbol s q) k x routed a /\
      st = rq_strategy_id q /\ upper sy = upper s /\ env = environment_of routed /\
      ac = rq_account_id q /\ (n' == n + signed q)%Q).
Proof using sql_sum_spec.
  intros Hc st sy env ac n' Hn'.
  destruct (create_cases _ _ _ _ _ _ _ _ _ _ _ _ Hc) as [(_ & _ & Ej)|(s & routed & a & r & Hs & Hcl & _ & Hj)].
  { unfold net in *. rewrite Ej in Hn'. exists n'. split; [done|]. left. reflexivity. }
  assert (ex_journal x' = ex_journal x -> exists n, net st sy env ac x = Some n /\ (n' == n)%Q) as Hsame.
  { intros Ej. unfold net in *. rewrite Ej in Hn'. exists n'. split; [done|reflexivity]. }
  destruct Hj as [Ej|(b & o & _ & Ej)]; [destruct (Hsame Ej) as (n & ? & ?); eauto|].
  unfold _record_execution_quality in Ej. destruct (tk_record t) as [exc|] eqn:Et.
  { destruct Hsame as (n & ? & ?); [|eauto]. rewrite Ej. unfold record_execution, _insert.
    by destruct (enabled (ex_journal x)). }
  destruct (enabled (ex_journal x)) eqn:Een.
  2: { destruct Hsame as (n & ? & ?); [|eauto]. rewrite Ej. unfold record_execution, _insert.
       by rewrite Een. }
  rewrite <- Et in Ej. unfold net in *. rewrite Ej, Et in Hn'.
  match type of Hn' with context [record_execution ?a1 ?a2 ?a3 ?a4 ?a5 ?a6 ?a7 ?a8 ?a9 ?b1 ?b2 ?b3 ?b4 ?b5 ?b6 ?b7
      None false false ?now None ?j] =>
    destruct (net_position_recorded sql_sum sql_sum_spec a1 a2 a3 a4 a5 a6 a7 a8 a9 b1 b2 b3 b4 b5 b6 b7 now
      st sy env ac j Een) as (n & n1 & En & En1 & Eq) end.
  exists n. split; [done|]. rewrite En1 in Hn'. injection Hn' as <-. rewrite Eq.
  destruct (match br_fill_price b with Some _ => _ | None => _ end); cbn [andb]; [|left; ring].
  destruct (String.eqb _ st && _ && _ && _) eqn:Em; [|left; ring]. right.
  rewrite !andb_true_iff, !String.eqb_eq in Em. destruct Em as [[[E1 E2] E3] E4].
  exists s, routed, a. split; [done|]. split; [done|]. by split_and!.
Qed.

(** What the guard lets through, at the net it read. *)
Definition eps : Q := 1 # 1000000000.
Lemma cap_allows w t q k x routed a st sy env ac n :
  cleared sql_sum max_position_qty w t q k x routed a ->
  st = rq_strategy_id q -> upper sy = upper (rq_symbol q) -> env = environment_of routed ->
  ac = rq_account_id q -> net st sy env ac x = Some n ->
  if rq_reduce_only q then
    (eps < Qabs n /\ n * signed q < 0 /\ Qabs (signed q) <= Qabs n + eps)%Q
  else (Qabs (n + signed q) <= inject_Z max_position_qty \/ Qabs (n + signed q) <= Qabs n)%Q.
Proof using.
  intros Hcl -> Hsy -> -> Hn. destruct Hcl as [_ _ _ _ _ Hcap].
  unfold _position_cap_refusal in Hcap.
  assert (net_position sql_sum (rq_strategy_id q) (rq_symbol q) (environment_of routed)
    (rq_account_id q) (tk_net t) (ex_journal x) = None \/
    net_position sql_sum (rq_strategy_id q) (rq_symbol q) (environment_of routed)
      (rq_account_id q) (tk_net t) (ex_journal x) = Some n) as [E|E].
  { unfold net in Hn. rewrite <- net_upper, Hsy, net_upper in Hn. unfold net_position in *.
    destruct (enabled (ex_journal x)); [|done]. destruct (tk_net t); auto. }
  { by rewrite E in Hcap. }
  rewrite E in Hcap. clear E. change (nlit 1 1000000000 : Q) with eps in Hcap.
  assert ((if String.eqb (upper (rq_side q)) "BUY" then nofZ (rq_qty q) else nopp (nofZ (rq_qty q))) = signed q)
    as Es by done.
  rewrite Es in Hcap. cbn [nadd nmul nabs exact] in Hcap.
  destruct (rq_reduce_only q).
  - destruct (_ <=? _)%py eqn:H1; [done|]. destruct (_ >=? _)%py eqn:H2 in Hcap; [done|].
    destruct (_ >? _)%py eqn:H3 in Hcap; [done|]. reflect_Q.
    change (nzero : Q) with 0%Q in *. by split_and!.
  - destruct (_ && _) eqn:H1; [done|]. apply andb_false_iff in H1.
    destruct H1 as [H1|H1]; reflect_Q; [left|right]; exact H1.
Qed.

(** A call of [create_order], with whatever the outside answers. *)
Definition step x x' : Prop :=
  exists w t rivals q k, x' = snd (create w t rivals q k x).

Definition within_cap x : Prop :=
  forall st sy env ac n, net st sy env ac x = Some n -> (Qabs n <= inject_Z max_position_qty)%Q.

Lemma within_cap_step x x' : 1 <= max_position_qty -> within_cap x -> step x x' -> within_cap x'.
Proof using sql_sum_spec.
  intros Hcap Hx (w & t & rivals & q & k & ->) st sy env ac n' Hn'.
  destruct (create w t rivals q k x) as [res x'] eqn:Hc. cbn [snd] in Hn'.
  destruct (net_step _ _ _ _ _ _ _ _ Hc _ _ _ _ _ Hn') as (n & Hn & [E|(s & routed & a & Hs & Hcl & E1 & E2 & E3 & E4 & E)]).
  { rewrite E. by eapply Hx. }
  pose proof (cap_allows _ _ _ _ _ _ _ st sy env ac n Hcl E1 E2 E3 E4 Hn) as Ha.
  specialize (Hx _ _ _ _ _ Hn). rewrite E.
  change (signed (with_symbol s q)) with (signed q) in Ha. cbn [rq_reduce_only with_symbol] in Ha.
  destruct (rq_reduce_only q).
  - destruct Ha as (H1 & H2 & H3).
    assert (1 <= inject_Z max_position_qty)%Q by (unfold Qle; cbn; lia).
    unfold eps in *. revert H1 H2 H3 Hx. generalize (signed q) as c. intros c H1 H2 H3 Hx.
    apply Qabs_Qle_condition in Hx as [Hx1 Hx2]. apply Qabs_Qle_condition.
    revert H1 H3. apply (Qabs_case n); apply (Qabs_case c); intros; split; nra.
  - destruct Ha as [Ha|Ha]; [exact Ha|]. by eapply Qle_trans.
Qed.

(** C14. No sleeve stacks beyond its cap: from a journal without executions, whatever orders
    arrive, in whatever order, with whatever market, authority, concurrent requests
    and journal failures, the net position the journal gives any sleeve in either
    environment never exceeds the cap in absolute value (exact arithmetic; one
    request at a time). *)
Theorem position_cap_holds x0 x :
  1 <= max_position_qty -> executions (ex_journal x0) = [] -> rtc step x0 x -> within_cap x.
Proof using sql_sum_spec.
  intros Hcap H0 Hr. revert H0.
  assert (executions (ex_journal x0) = [] -> within_cap x0) as Hinit.
  { intros E st sy env ac n. unfold net, net_position. rewrite E.
    destruct (enabled _); [|done]. cbn. intros [= <-]. unfold Qle. cbn. lia. }
  intros H0. specialize (Hinit H0). clear H0.
  induction Hr as [x|x y z Hxy _ IH]; [done|]. apply IH. by eapply within_cap_step.
Qed.

(** A reduce-only order only reduces: whatever the call does, the net position of the
    order's sleeve stays between where it was and zero (to the guard's tolerance of
    1e-9), and every other sleeve's is unchanged. *)
Theorem reduce_only_reduces w t rivals q k x res x' s st sy env ac n n' :
  create w t rivals q k x = (res, x') -> rq_reduce_only q = true ->
  sanitize_symbol (rq_symbol q) = Ok s ->
  net st sy env ac x = Some n -> net st sy env ac x' = Some n' ->
  ((0 <= n -> - eps <= n' <= n) /\ (n <= 0 -> n <= n' <= eps) /\
   (st <> rq_strategy_id q \/ upper sy <> upper s \/ ac <> rq_account_id q -> n' == n))%Q.
Proof using sql_sum_spec.
  intros Hc Hro Hs Hn Hn'.
  destruct (net_step _ _ _ _ _ _ _ _ Hc _ _ _ _ _ Hn') as (n0 & Hn0 & [E|(s' & routed & a & Hs' & Hcl & E1 & E2 & E3 & E4 & E)]);
    assert (n0 = n) as -> by congruence.
  { unfold eps. rewrite E. split; [|split]; [intros; split; lra..|done]. }
  assert (s' = s) as -> by congruence.
  pose proof (cap_allows _ _ _ _ _ _ _ st sy env ac n Hcl E1 E2 E3 E4 Hn) as Ha.
  change (signed (with_symbol s q)) with (signed q) in Ha. cbn [rq_reduce_only with_symbol] in Ha.
  rewrite Hro in Ha. destruct Ha as (H1 & H2 & H3). rewrite E. unfold eps in *.
  revert H1 H2 H3. generalize (signed q) as c. intros c H1 H2 H3.
  split; [|split].
  - intros Hpos. rewrite (Qabs_pos n) in H1, H3 by done. revert H3. apply (Qabs_case c); intros; split; nra.
  - intros Hneg. rewrite (Qabs_neg n) in H1, H3 by done. revert H3. apply (Qabs_case c); intros; split; nra.
  - intros [?|[?|?]]; congruence.
Qed.
End cap.

(** ** Concrete orders *)

Module Shop.
Definition tick (n : Z) : Tick Q :=
  {| tk_env := Desk.env; tk_now := n; tk_mark := fun _ => Some 100%Q; tk_writable := true;
     tk_broker_uuid := "b" +:+ str_of_Z n; tk_order_uuid := "o" +:+ str_of_Z n;
     tk_unplaced_uuid := "u" +:+ str_of_Z n; tk_fill_uuid := "f" +:+ str_of_Z n;
     tk_net := None; tk_record := None |}.
Definition order (strategy side : string) (qty : Z) (reduce : bool) : ExecutionOrderRequest Q :=
  {| rq_signal_id := "sig"; rq_symbol := "aapl"; rq_side := side; rq_qty := qty;
     rq_order_type := "MARKET"; rq_time_in_force := "DAY"; rq_stop_loss_rate := None;
     rq_take_profit_rate := None; rq_limit_price := None; rq_decision_price := Some 100%Q;
     rq_strategy_id := strategy; rq_account_id := "default"; rq_reduce_only := reduce;
     rq_fields_set := ["strategy_id"; "account_id"] |}.
Definition hash (q : ExecutionOrderRequest Q) : string :=
  rq_strategy_id q +:+ rq_symbol q +:+ rq_side q +:+ str_of_Z (rq_qty q).
Definition text (m : fstr Q) : string := "message".
(** A roster of two paper sleeves on one symbol. *)
Definition roster : StoreSettings * DB spec_float :=
  (StoreTheorems.Demo.settings,
   StoreTheorems.Demo.run (OpTransition (transitioned "candidate" "registered" 1 0 POSITION_NONE 7
       {| id := 2; strategy_id := "rsi"; strategy_version := "v1"; symbol := "AAPL";
          asset_class := "equity"; account_id := "default"; state := "candidate"; version := 1;
          since := 7; Store.reason := "registered"; probation_count := 0;
          position_environment := POSITION_NONE; origin := "human" |}) "paper" "up" "ann" None) 8
     (StoreTheorems.Demo.run (OpRegister "rsi" "aapl" "v1" "equity" None "ann" "human") 7 (StoreTheorems.Demo.promoted "human"))).
Definition closed_shop : Exec Q (PaperBroker Q) (PaperBroker Q) :=
  {| ex_router := build_router true true; ex_simulated := init 1000 1000000%Q 0%Q None;
     ex_real := init 1000 1000000%Q 0%Q None;
     ex_journal := JournalTheorems.Demo.empty;
     ex_db := {| db_orders := []; db_fills := []; db_events := [] |} |}.
Abbreviation create n q k x := (create_order hash nsum text 10 roster (tick n) [] q k x).
(** One sleeve holds six shares, the other two. *)
Definition open_shop : Exec Q (PaperBroker Q) (PaperBroker Q) :=
  snd (create 2 (order "rsi" "BUY" 2 false) "k2" (snd (create 1 (order "ema" "BUY" 6 false) "k1" closed_shop))).
Lemma opened : rtc (step hash nsum text 10 (W := StoreSettings * DB spec_float)) closed_shop open_shop.
Proof.
  eapply rtc_l; [|eapply rtc_l; [|apply rtc_refl]].
  - exists roster, (tick 1), [], (order "ema" "BUY" 6 false), "k1". reflexivity.
  - exists roster, (tick 2), [], (order "rsi" "BUY" 2 false), "k2". reflexivity.
Qed.
Definition exposure (strategy : string) (x : Exec Q (PaperBroker Q) (PaperBroker Q)) : option Q :=
  option_map Qred (net nsum strategy "AAPL" "paper" "default" x).

(** A further purchase, and a sale that reduces. *)
Definition more : ExecutionOrderRequest Q := order "ema" "BUY" 3 false.
Definition less : ExecutionOrderRequest Q := order "ema" "SELL" 4 true.
Definition larger_shop : Exec Q (PaperBroker Q) (PaperBroker Q) :=
  Eval vm_compute in snd (create 3 more "k3" open_shop).
Definition smaller_shop : Exec Q (PaperBroker Q) (PaperBroker Q) :=
  Eval vm_compute in snd (create 3 less "k3" open_shop).
Lemma larger : exists r, create 3 more "k3" open_shop = (Ok r, larger_shop).
Proof. eexists. vm_compute. reflexivity. Qed.
Lemma smaller : exists r, create 3 less "k3" open_shop = (Ok r, smaller_shop).
Proof. eexists. vm_compute. reflexivity. Qed.
Lemma larger_recorded : length (executions (ex_journal open_shop)) = 2%nat /\
  length (executions (ex_journal larger_shop)) = 3%nat.
Proof. split; vm_compute; reflexivity. Qed.
Lemma larger_route : adapter (fst (route_order Desk.env roster "ema" "AAPL" "default" false
  (ex_router open_shop))) = Some Simulated.
Proof. vm_compute. reflexivity. Qed.
Lemma smaller_net : exists n n', net nsum "ema" "AAPL" "paper" "default" open_shop = Some n /\
  (n == 6)%Q /\ net nsum "ema" "AAPL" "paper" "default" smaller_shop = Some n'.
Proof.
  eexists _, _. split; [vm_compute; reflexivity|]. split; [reflexivity|]. vm_compute. reflexivity.
Qed.
End Shop.

Example shop_positions :
  Shop.exposure "ema" Shop.open_shop = Some 6%Q /\ Shop.exposure "rsi" Shop.open_shop = Some 2%Q.
Proof. split; vm_compute; reflexivity. Qed.

Lemma create_order_idempotent_witness :
  exists r, fst (Shop.create 3 Shop.more "k3" Shop.open_shop) = Ok r /\
    Shop.create 4 Shop.more "k3" Shop.larger_shop = (Ok r, Shop.larger_shop).
Proof.
  destruct Shop.larger as [r E]. exists r. split; [rewrite E; reflexivity|].
  exact (create_order_idempotent Shop.hash nsum Shop.text 10 Shop.roster (Shop.tick 3) []
    Shop.more "k3" Shop.open_shop r Shop.larger_shop "AAPL" eq_refl E
    Shop.roster (Shop.tick 4) [] Shop.more "AAPL" eq_refl).
Defined.

Lemma one_guarded_venue_witness :
  exists row, executions (ex_journal Shop.larger_shop) =
    executions (ex_journal Shop.open_shop) ++ [row] /\ x_environment row = "paper".
Proof.
  destruct Shop.larger as [r E].
  pose proof Shop.larger_recorded as [Hlen0 Hlen]. pose proof Shop.larger_route as Hroute.
  destruct (one_guarded_venue Shop.hash nsum Shop.text 10 Shop.roster (Shop.tick 3) [] Shop.more "k3"
    Shop.open_shop (Ok r) Shop.larger_shop E)
    as [(_ & _ & Ej)|(s & routed & a & b & Hs & Hcl & _ & [Ej|(row & Ej & Env & _)])];
    [rewrite Ej in Hlen; lia|rewrite Ej in Hlen; lia|].
  exists row. split; [exact Ej|]. rewrite Env. injection Hs as <-.
  pose proof (cl_adapter _ _ _ _ _ _ _ _ _ Hcl) as Ha.
  rewrite <- (cl_routed _ _ _ _ _ _ _ _ _ Hcl) in Ha.
  change (adapter (fst (route_order Desk.env Shop.roster "ema" "AAPL" "default" false
    (ex_router Shop.open_shop))) = Some a) in Ha.
  rewrite Hroute in Ha. by injection Ha as <-.
Defined.

Lemma position_cap_holds_witness : within_cap nsum 10 Shop.open_shop.
Proof.
  exact (position_cap_holds Shop.hash nsum Shop.text 10 (fun l => Qeq_refl _) Shop.closed_shop
    Shop.open_shop ltac:(lia) eq_refl Shop.opened).
Defined.

Lemma reduce_only_reduces_witness :
  exists n', net nsum "ema" "AAPL" "paper" "default" Shop.smaller_shop = Some n' /\
    (- eps <= n' <= 6)%Q.
Proof.
  destruct Shop.smaller as [r E]. destruct Shop.smaller_net as (n & n' & En & Hn & En').
  exists n'. split; [exact En'|].
  destruct (reduce_only_reduces Shop.hash nsum Shop.text 10 (fun l => Qeq_refl _) Shop.roster (Shop.tick 3)
    [] Shop.less "k3" Shop.open_shop (Ok r) Shop.smaller_shop "AAPL" "ema" "AAPL" "paper" "default" n n'
    E eq_refl eq_refl En En') as (H1 & _). rewrite <- Hn. apply H1. rewrite Hn. discriminate.
Defined.

(** ** What the concrete shop also shows *)

Module Faults.
(** Two orders whose cap checks both ran before either was recorded are both let
    through, and together hold more than the cap of ten. *)
Definition routed : RoutedOrder :=
  fst (route_order Desk.env Shop.roster "ema" "AAPL" "default" false (ex_router Shop.closed_shop)).
Definition eight : ExecutionOrderRequest Q := with_symbol "AAPL" (Shop.order "ema" "BUY" 8 false).
Definition answer : BrokerResult Q :=
  {| br_status := ACCEPTED; br_external_order_id := "b"; br_fill_price := Some 100%Q;
     br_rejection_reason := None |}.
Definition recorded (n : Z) (j : Journal Q) : Journal Q :=
  _record_execution_quality Shop.text eight
    (order_of eight (Shop.tick n) "ACCEPTED" "b" "k" "h" None) answer routed (Shop.tick n) j.

(** A close for the sleeve that holds six of the book's eight shares. *)
Definition close_request : ClosePositionRequest Q :=
  {| cl_symbol := "AAPL"; cl_position_id := "AAPL"; cl_signal_id := "stop"; cl_units := None;
     cl_qty := None; cl_strategy_id := "ema"; cl_account_id := "default"; cl_fields_set := [] |}.
Definition closed : Exec Q (PaperBroker Q) (PaperBroker Q) :=
  snd (close_order Shop.roster (Shop.tick 5) close_request Shop.open_shop).
End Faults.

Example cap_check_not_atomic :
  let j := ex_journal Shop.closed_shop in
  _position_cap_refusal nsum 10 Faults.eight Faults.routed (Shop.tick 1) j = None /\
  _position_cap_refusal nsum 10 Faults.eight Faults.routed (Shop.tick 2) j = None /\
  option_map Qred (net_position nsum "ema" "AAPL" "paper" "default" None
    (Faults.recorded 2 (Faults.recorded 1 j))) = Some 16%Q.
Proof. repeat split; vm_compute; reflexivity. Qed.

(** It sells all eight, and books all eight to the one sleeve: that sleeve is now two
    short, and the other one still long two of a position that is gone. *)
Example close_flattens_other_sleeves :
  positions (_state (ex_simulated Faults.closed)) = [] /\
  Shop.exposure "ema" Faults.closed = Some (-2)%Q /\ Shop.exposure "rsi" Faults.closed = Some 2%Q.
Proof. repeat split; vm_compute; reflexivity. Qed.
