(* ===== verification/Health.v ===== *)
(** * Demotion triggers and the scheduled sweep

    Models [libs/lifecycle/src/lifecycle/health.py]: when a live sleeve stops being
    healthy, the sweep that takes it down, the journal gaps it records and the halt
    it raises on them. The sweep runs against the store through the service's
    [demote], with every read and write free to fail ([Faults]) and other processes
    free to interfere between two statements. *)

From S2P Require Import Prelude PyFloat Routing Store StoreProofs.
From S2P Require Import StoreTheorems Contracts Journal Attribution Evidence Service.
From Stdlib Require Import Floats.SpecFloat.

Record HealthThresholds (F : Type) := {
  max_live_drawdown_pct : F;
  max_live_drawdown_amount : option F;
  capital_base : option F;
  min_live_trades_before_decay_check : Z;
  sharpe_decay_sigmas : F;
  min_sharpe_decay : F;
  max_losing_win_rate : F;
  journal_gap_grace_minutes : F
}.
Arguments max_live_drawdown_pct {F}. Arguments max_live_drawdown_amount {F}.
Arguments capital_base {F}. Arguments min_live_trades_before_decay_check {F}.
Arguments sharpe_decay_sigmas {F}. Arguments min_sharpe_decay {F}.
Arguments max_losing_win_rate {F}. Arguments journal_gap_grace_minutes {F}.

Record LiveMetrics (F : Type) := {
  trades : Z;
  sharpe : option F;
  sharpe_annualised : option F;
  sharpe_annualised_std_error : option F;
  trades_per_year : option F;
  span_days : option F;
  max_drawdown_pct : option F;
  max_drawdown_amount : option F;
  validated_sharpe : pyval F;
  realized_total : option F;
  win_rate : option F
}.
Arguments trades {F}. Arguments sharpe {F}. Arguments sharpe_annualised {F}.
Arguments sharpe_annualised_std_error {F}. Arguments trades_per_year {F}.
Arguments span_days {F}. Arguments max_drawdown_pct {F}. Arguments max_drawdown_amount {F}.
Arguments validated_sharpe {F}. Arguments realized_total {F}. Arguments win_rate {F}.

Record HealthCheck (F : Type) := {
  healthy : bool;
  demote_to : option string;
  reasons : list (fstr F);
  warnings : list string
}.
Arguments healthy {F}. Arguments demote_to {F}. Arguments reasons {F}. Arguments warnings {F}.

Record SweepResult := {
  checked : Z;
  demoted : list string;
  journal_gaps : list string;
  entries_blocked : bool;
  errors : list string;
  sw_warnings : list string
}.

(** What the databases raise during one sleeve's turn, if anything, and what other
    processes do to the roster before statement [n] of it. *)
Record Faults (F : Type) := {
  f_completeness : io;
  f_rows : io;
  f_transitions : io;
  f_evidence : io;
  f_health : io;
  f_halt : io;
  f_demote : io;
  f_world : nat -> DB F -> DB F
}.
Arguments f_completeness {F}. Arguments f_rows {F}. Arguments f_transitions {F}.
Arguments f_evidence {F}. Arguments f_health {F}. Arguments f_halt {F}.
Arguments f_demote {F}. Arguments f_world {F}.

Section triggers.
Context {F : Type} `{HF : PyFloat F}.
Local Open Scope py_scope.

(** The field defaults; [from_env] overrides them. *)
Definition default_thresholds : HealthThresholds F :=
  {| max_live_drawdown_pct := nlit 15 100; max_live_drawdown_amount := None;
     capital_base := None; min_live_trades_before_decay_check := 20;
     sharpe_decay_sigmas := n_one; min_sharpe_decay := nlit 1 2;
     max_losing_win_rate := nlit 2 10; journal_gap_grace_minutes := nofZ 60 |}.

(** The drawdown trigger: its reasons and its warnings. *)
Definition drawdown_trigger (m : LiveMetrics F) (t : HealthThresholds F)
    : list (fstr F) * list string :=
  match max_drawdown_pct m, max_drawdown_amount m, max_live_drawdown_amount t with
  | Some drawdown, _, _ =>
      if drawdown >? max_live_drawdown_pct t then
        ([[Lit "live drawdown "; Fmt ".1%" drawdown;
           Lit " of the declared capital base exceeds the ";
           Fmt ".1%" (max_live_drawdown_pct t); Lit " limit"]], [])
      else ([], [])
  | None, Some amount, Some limit =>
      if amount >? limit then
        ([[Lit "live drawdown "; Fmt ",.2f" amount; Lit " exceeds the "; Fmt ",.2f" limit;
           Lit " limit"]], [])
      else ([], [])
  | None, Some _, None =>
      ([], ["drawdown not checked: set LIFECYCLE_CAPITAL_BASE_USD for a percentage limit, or LIFECYCLE_MAX_LIVE_DRAWDOWN_USD for an absolute one"])
  | None, None, _ => ([], [])
  end.

Definition decay_trigger (m : LiveMetrics F) (t : HealthThresholds F) : list (fstr F) :=
  if (trades m <? min_live_trades_before_decay_check t)%Z then [] else
  match sharpe_annualised m, py_float (validated_sharpe m) with
  | Some live, Some expected =>
      let gap := expected - live in
      let band := min_sharpe_decay t in
      let band := match sharpe_annualised_std_error m with
        | Some error => nmax band (sharpe_decay_sigmas t * error)
        | None => band
        end in
      if gap >? band then
        [[Lit "live Sharpe "; Fmt ".2f" live; Lit " annualised is "; Fmt ".2f" gap;
          Lit " below the validated "; Fmt ".2f" expected;
          Lit (" over " +:+ str_of_Z (trades m) +:+ " trades (demotion band ");
          Fmt ".2f" band; Lit ")"]]
      else []
  | _, _ => []
  end.

Definition losing_trigger (m : LiveMetrics F) (t : HealthThresholds F) : list (fstr F) :=
  match realized_total m, win_rate m with
  | Some total, Some rate =>
      if (min_live_trades_before_decay_check t <=? trades m)%Z && (total <? nzero) &&
         (rate <=? max_losing_win_rate t) then
        [[Lit "losing outright: "; Fmt "+.2f" total;
          Lit (" over " +:+ str_of_Z (trades m) +:+ " trades at a "); Fmt ".0%" rate;
          Lit " win rate"]]
      else []
  | _, _ => []
  end.

Definition evaluate_health (state : string) (m : LiveMetrics F) (t : HealthThresholds F)
    : HealthCheck F :=
  if negb (String.eqb state "live") then
    {| healthy := true; demote_to := None; reasons := []; warnings := [] |}
  else
    let '(drawdown, warnings_) := drawdown_trigger m t in
    match drawdown ++ decay_trigger m t ++ losing_trigger m t with
    | [] => {| healthy := true; demote_to := None; reasons := []; warnings := warnings_ |}
    | reasons_ => {| healthy := false; demote_to := Some "probation"; reasons := reasons_;
                     warnings := warnings_ |}
    end.

Definition no_metrics : LiveMetrics F :=
  {| trades := 0; sharpe := None; sharpe_annualised := None; sharpe_annualised_std_error := None;
     trades_per_year := None; span_days := None; max_drawdown_pct := None;
     max_drawdown_amount := None; validated_sharpe := PNone; realized_total := None;
     win_rate := None |}.
End triggers.

Section sweep.
Context {F : Type} `{HF : PyFloat F}.
Context (fpow : F -> F -> F).
(** [str] of an exception, and the text of a formatted message. *)
Context (text : StoreError -> string) (render : fstr F -> string).
Local Open Scope py_scope.
Local Abbreviation M := (prog (DB F) StoreError).
Implicit Types (sv : LifecycleService F) (t : HealthThresholds F) (f : Faults F).

(** A statement whose database may raise. *)
Definition failing {A} (e : io) (m : M A) : M A :=
  match e with Some exc => raise (OtherException exc) | None => m end.

(** The snapshot of the newest transition to live that cites one. *)
Fixpoint cited_sharpe (d : DB F) (l : list Transition) : pyval F :=
  match l with
  | [] => PNone
  | x :: l =>
      match evidence_snapshot_id x with
      | Some i =>
          if negb (String.eqb (to_state x) "live") || Z.eqb i 0 then cited_sharpe d l else
          match evidence i d with
          | Some snapshot => py_get (e_metrics snapshot) "out_of_sample_sharpe"
          | None => cited_sharpe d l
          end
      | None => cited_sharpe d l
      end
  end.

(** The loop reaches a snapshot read. *)
Definition cites_live (l : list Transition) : bool :=
  existsb (fun x => String.eqb (to_state x) "live" &&
    match evidence_snapshot_id x with Some i => negb (Z.eqb i 0) | None => false end) l.

(** The read of the snapshot is outside the [try] of the read of the transitions. *)
Definition _validated_sharpe f (s : Sleeve) : M (pyval F) :=
  match f_transitions f with
  | Some _ => mret PNone
  | None =>
      l ← reads (transitions (id s) 20);
      if cites_live l then failing (f_evidence f) (reads (fun d => cited_sharpe d l))
      else mret PNone
  end.

Definition _live_metrics f (j : Journal F) (s : Sleeve) (window_start moment : datetime)
    (capital_base_ : option F) : M (LiveMetrics F) :=
  match load_round_trips (Some (strategy_id s)) None (Some (symbol s)) (Some "live")
          (account_id s) (Some window_start) (Some moment) 5000 (f_rows f) j with
  | None => mret no_metrics
  | Some trips =>
      let p := performance_from_trades fpow trips capital_base_ in
      validated ← _validated_sharpe f s;
      mret {| trades := p_trades p; sharpe := p_sharpe p;
              sharpe_annualised := p_sharpe_annualised p;
              sharpe_annualised_std_error := p_sharpe_annualised_std_error p;
              trades_per_year := p_trades_per_year p; span_days := p_span_days p;
              max_drawdown_pct := p_max_drawdown_pct p;
              max_drawdown_amount := p_max_drawdown_amount p;
              validated_sharpe := validated; realized_total := Some (p_realized_total p);
              win_rate := p_win_rate p |}
  end.

Definition add_error (e : string) (r : SweepResult) : SweepResult :=
  {| checked := checked r; demoted := demoted r; journal_gaps := journal_gaps r;
     entries_blocked := entries_blocked r; errors := errors r ++ [e];
     sw_warnings := sw_warnings r |}.
Definition add_demoted (x : string) (r : SweepResult) : SweepResult :=
  {| checked := checked r; demoted := demoted r ++ [x]; journal_gaps := journal_gaps r;
     entries_blocked := entries_blocked r; errors := errors r; sw_warnings := sw_warnings r |}.
Definition add_gap (x : string) (r : SweepResult) : SweepResult :=
  {| checked := checked r; demoted := demoted r; journal_gaps := journal_gaps r ++ [x];
     entries_blocked := entries_blocked r; errors := errors r; sw_warnings := sw_warnings r |}.
Definition set_blocked (b : bool) (r : SweepResult) : SweepResult :=
  {| checked := checked r; demoted := demoted r; journal_gaps := journal_gaps r;
     entries_blocked := b; errors := errors r; sw_warnings := sw_warnings r |}.
Definition count_checked (r : SweepResult) : SweepResult :=
  {| checked := (checked r + 1)%Z; demoted := demoted r; journal_gaps := journal_gaps r;
     entries_blocked := entries_blocked r; errors := errors r; sw_warnings := sw_warnings r |}.
Definition add_warnings (l : list string) (r : SweepResult) : SweepResult :=
  {| checked := checked r; demoted := demoted r; journal_gaps := journal_gaps r;
     entries_blocked := entries_blocked r; errors := errors r;
     sw_warnings := foldl (fun acc w => if str_in w acc then acc else acc ++ [w])
                      (sw_warnings r) l |}.

(** Past the grace period the gap halts entries through the reconciliation latch. *)
Definition halt_on_gap (settings : StoreSettings) f t (s : Sleeve) (age_minutes : F)
    (now : datetime) (r : SweepResult) : M SweepResult :=
  let environment_ := str_or (position_environment s) "paper" in
  catch (
    halt ← failing (f_halt f) (halt_entries settings environment_ environment_
      (render [Lit ("journal gap for " +:+ key s +:+ " unresolved for "); Fmt ".0f" age_minutes;
               Lit " minutes (grace "; Fmt ".0f" (journal_gap_grace_minutes t); Lit ")"]) None now);
    mret (set_blocked (halted halt) r))
  (fun e => mret (add_error (key s +:+ ": could not halt on journal gap: " +:+ text e) r)).

Definition _record_gap (settings : StoreSettings) f (s : Sleeve) (k : Completeness F)
    (window_start moment : datetime) t (now : datetime) (r : SweepResult) : M SweepResult :=
  stored ← catch (
    _ ← failing (f_health f) (record_journal_health (key s) (strategy_id s) (symbol s)
          (str_or (position_environment s) "paper") window_start moment
          (k_expected_observations k) (k_actual_observations k) (k_gap_count k) None);
    mret None)
    (fun e => mret (Some e));
  match stored with
  | Some e => mret (add_error (key s +:+ ": journal health not recorded: " +:+ text e) r)
  | None =>
      match k_last_gap_at k with
      | None => mret r
      | Some gap_at =>
          let age_minutes := total_seconds (moment - gap_at) / nofZ 60 in
          if age_minutes <? journal_gap_grace_minutes t then mret r
          else halt_on_gap settings f t s age_minutes now r
      end
  end.

(** The body of the loop. [now] is the store's clock. *)
Definition sweep_one (settings : StoreSettings) sv f (j : Journal F) t (timeframe : string)
    (interval : F) (window_start moment now : datetime) (s : Sleeve) (r : SweepResult)
    : M SweepResult :=
  let r := count_checked r in
  r ← match completeness (symbol s) timeframe window_start moment interval (f_completeness f) j with
      | Ok k => if k_complete k then mret r
                else _record_gap settings f s k window_start moment t now (add_gap (key s) r)
      | Err _ => mret r
      end;
  metrics ← _live_metrics f j s window_start moment (capital_base t);
  let check := evaluate_health (state s) metrics t in
  let r := add_warnings (warnings check) r in
  if healthy check then mret r else
  let reason_ := render (mjoin (match reasons check with
    | [] => [] | x :: l => x :: map (fun y => Lit "; " :: y) l end)) in
  catch (
    _ ← failing (f_demote f) (demote (f_world f) sv (strategy_id s) (symbol s)
          (str_or (default "" (demote_to check)) "probation") reason_ "health-sweep" None now);
    mret (add_demoted (key s +:+ ": " +:+ reason_) r))
  (fun e => mret (add_error (key s +:+ ": demotion failed: " +:+ text e) r)).

Fixpoint sweep_loop (settings : StoreSettings) sv (fs : nat -> Faults F) (j : Journal F) t
    (timeframe : string) (interval : F) (window_start moment now : datetime) (n : nat)
    (l : list Sleeve) (r : SweepResult) : M SweepResult :=
  match l with
  | [] => mret r
  | s :: l =>
      r ← sweep_one settings sv (fs n) j t timeframe interval window_start moment now s r;
      sweep_loop settings sv fs j t timeframe interval window_start moment now (S n) l r
  end.

Definition empty_result : SweepResult :=
  {| checked := 0; demoted := []; journal_gaps := []; entries_blocked := false; errors := [];
     sw_warnings := [] |}.

Definition run_health_sweep sv (e_all : io) (fs : nat -> Faults F) (j : Journal F) t
    (timeframe : string) (interval : F) (window_hours : Z) (moment now : datetime)
    : M SweepResult :=
  let window_start := (moment - seconds (3600 * window_hours))%Z in
  match _store sv with
  | None => mret (add_error "no lifecycle authority configured" empty_result)
  | Some settings =>
      match e_all with
      | Some exc => mret (add_error ("roster unreadable: " +:+ exc) empty_result)
      | None =>
          roster ← reads (all settings None);
          sweep_loop settings sv fs j t timeframe interval window_start moment now 0
            (List.filter (fun s => String.eqb (state s) "live") roster) empty_result
      end
  end.
End sweep.

(** ** What the sweep does to the roster when nobody interferes *)

Section theorems.
Context {F : Type} `{HF : PyFloat F}.
Context (fpow : F -> F -> F) (text : StoreError -> string) (render : fstr F -> string).
Context (settings : StoreSettings) (evidence_hash : Scope -> gmap string (pyval F) -> list SourceRef -> string).
Context (artifact_hash : Artifact F -> string).
Implicit Types (d : DB F) (t : HealthThresholds F) (f : Faults F) (sv : LifecycleService F).

(** Everything but the row and the trail of sleeve [i], and what is not the roster. *)
Definition only_sleeve (i : Z) d d' : Prop :=
  evidence_snapshot d' = evidence_snapshot d /\
  (forall x, id x <> i -> x ∈ sleeve d' <-> x ∈ sleeve d) /\
  (forall k, k <> i -> history k d' = history k d).

Definition roster_kept d d' : Prop :=
  same_roster d d' /\ evidence_snapshot d' = evidence_snapshot d.

Lemma roster_kept_only i d d' : roster_kept d d' -> only_sleeve i d d'.
Proof.
  intros [(Hs & _ & Hl) He]. split; [done|]. split; [by rewrite Hs|]. intros k _. unfold history. by rewrite Hl.
Qed.

(** Past a failing statement the sweep goes on with an error noted. *)
Lemma halt_on_gap_kept f t (s : Sleeve) age now r d :
  match halt_on_gap text render settings f t s age now r d with
  | (Ok r', d') => roster_kept d d' /\ incl (errors r) (errors r')
  | (Err _, _) => False
  end.
Proof.
  unfold halt_on_gap, catch, failing. destruct (f_halt f).
  { cbn. split; [done|]. by apply incl_appl, incl_refl. }
  unfold halt_entries, txn. run_prog. split; [done|]. apply incl_refl.
Qed.

Lemma record_gap_kept f (s : Sleeve) k ws moment t now r d :
  match _record_gap text render settings f s k ws moment t now r d with
  | (Ok r', d') => roster_kept d d' /\ incl (errors r) (errors r')
  | (Err _, _) => False
  end.
Proof.
  unfold _record_gap. unfold mbind at 1, prog_bind at 1. unfold catch at 1, failing.
  destruct (f_health f); [cbn; split; [done|by apply incl_appl, incl_refl]|].
  set (m := record_journal_health _ _ _ _ _ _ _ _ _ _).
  assert (exists h d1, m d = (Ok h, d1) /\ roster_kept d d1) as (h & d1 & E & Hk).
  { subst m. unfold record_journal_health, txn. run_prog. eexists _, _. by split. }
  unfold mbind at 1, prog_bind at 1. rewrite E. cbn [mret prog_ret]. unfold mret, prog_ret.
  destruct (k_last_gap_at k); [|split; [done|apply incl_refl]].
  destruct (nltb _ _); [split; [done|apply incl_refl]|].
  match goal with |- context [halt_on_gap ?a ?b ?c ?e ?g ?h ?i ?n ?o ?p] =>
    pose proof (halt_on_gap_kept e g h i n o p) as Hh; destruct (halt_on_gap a b c e g h i n o p) as [[]] end; [|done].
  destruct Hh as [[(? & ? & ?) ?] Hi], Hk as [(? & ? & ?) ?]. split; [|done]. unfold roster_kept, same_roster.
  by split_and!; congruence.
Qed.

(** The metrics read the sleeve's own trail and the evidence, and write nothing. *)
Lemma live_metrics_reads f j (s : Sleeve) ws moment cb d :
  snd (_live_metrics fpow f j s ws moment cb d) = d.
Proof.
  unfold _live_metrics. destruct (load_round_trips _ _ _ _ _ _ _ _ _ _); [|done].
  unfold mbind, prog_bind, _validated_sharpe, failing, mret, prog_ret, reads, raise.
  destruct (f_transitions f); [done|]. unfold mbind, prog_bind. cbn -[cites_live transitions].
  destruct (cites_live _), (f_evidence f); done.
Qed.

Lemma cited_sharpe_ext d d' l : evidence_snapshot d' = evidence_snapshot d ->
  cited_sharpe d' l = cited_sharpe d l.
Proof.
  intros E. induction l as [|x l IH]; [done|]. cbn. unfold evidence. rewrite E, IH. done.
Qed.

Lemma live_metrics_ext f j (s : Sleeve) ws moment cb d d' :
  history (id s) d' = history (id s) d -> evidence_snapshot d' = evidence_snapshot d ->
  fst (_live_metrics fpow f j s ws moment cb d') = fst (_live_metrics fpow f j s ws moment cb d).
Proof.
  intros Hh He. unfold _live_metrics. destruct (load_round_trips _ _ _ _ _ _ _ _ _ _); [|done].
  unfold mbind, prog_bind, _validated_sharpe, failing, mret, prog_ret, reads, raise.
  assert (transitions (id s) 20 d' = transitions (id s) 20 d) as Ht by
    (unfold transitions; unfold history in Hh; by rewrite Hh).
  destruct (f_transitions f); [done|]. unfold mbind, prog_bind. cbn -[cites_live transitions]. rewrite Ht.
  destruct (cites_live _), (f_evidence f); cbn; try done. by rewrite (cited_sharpe_ext d d').
Qed.

(** What [demote] writes for an unhealthy sleeve. *)
Definition parked (why : string) (now : datetime) (s : Sleeve) : Sleeve :=
  transitioned "probation" why (version s + 1) (probation_after s "probation")
    (POSITION_ON_ENTRY "probation" (position_environment s)) now s.

Lemma demote_quiet world sv (s : Sleeve) why now d seen :
  (forall n d0, world n d0 = d0) -> _store sv = Some settings -> inv d seen ->
  s ∈ sleeve d -> account_id s = account_or settings None ->
  exists d', demote world sv (strategy_id s) (symbol s) "probation" why "health-sweep" None now d =
      (Ok (parked why now s), d') /\
    (exists seen', inv d' seen') /\ parked why now s ∈ sleeve d' /\ only_sleeve (id s) d d'.
Proof using evidence_hash artifact_hash.
  intros Hw Hst Hi Hs Ha. unfold demote, _require. rewrite Hst.
  assert (get settings (strategy_id s) (symbol s) None d = Some s) as Hg.
  { apply (get_of_ident settings); [apply Hi|done|]. unfold ident.
    by rewrite (ok_symbol _ _ (inv_rows _ _ Hi s Hs)), Ha. }
  unfold mbind, prog_bind, mret, prog_ret, reads. rewrite Hg. unfold others, modifies, catch.
  rewrite Hw.
  assert (s ∈ sleeve d ++ seen) as Hin by (apply elem_of_app; by left).
  pose proof (transition_outcome d _ s "probation" why "health-sweep" None now (inv_read _ _ Hi) Hin) as Hc.
  pose proof (inv_run settings evidence_hash artifact_hash (OpTransition s "probation" why "health-sweep" None)
    now d _ (inv_read _ _ Hi)) as Hrun. cbn [run op_snapshot] in Hrun.
  cbn zeta in Hc. destruct (transition _ _ _ _ _ _ _ d) as [[r|e] d1].
  - destruct Hc as (_ & _ & _ & _ & -> & Ed). exists d1. split; [done|]. cbn [snd] in Hrun.
    split; [eexists; apply Hrun; by intros s' [= <-]|]. subst d1.
    split; [apply elem_of_moved; [apply Hi|done|by left]|]. split; [done|]. split.
    + intros x Hx. rewrite elem_of_moved by (done || apply Hi). split; [|auto].
      intros [->|[? _]]; [by destruct Hx|done].
    + intros k Hk. unfold history. cbn. rewrite List.filter_app. cbn.
      destruct (Z.eqb_spec (id s) k); [congruence|]. by rewrite app_nil_r.
  - exfalso. destruct Hc as [_ [Hn|[[Hn _]|[Hn|[Hn _]]]]]; try done.
    + apply Hn. unfold STATES. rewrite !elem_of_cons. auto.
    + apply Hn. by intros e' ?.
Qed.

Lemma unhealthy_probation st m t : healthy (evaluate_health (F := F) st m t) = false ->
  st = "live" /\ demote_to (evaluate_health st m t) = Some "probation".
Proof.
  unfold evaluate_health. destruct (String.eqb_spec st "live"); [|done].
  cbn. destruct (drawdown_trigger m t) as [r w]. destruct (r ++ _); done.
Qed.

(** What one turn does to the sleeve it looks at. *)
Definition turn_outcome f t (check : HealthCheck F) (s : Sleeve) d' (r' : SweepResult) : Prop :=
  if healthy check then s ∈ sleeve d'
  else match f_demote f with
       | Some exc => s ∈ sleeve d' /\
           (key s +:+ ": demotion failed: " +:+ text (OtherException exc)) ∈ errors r'
       | None => exists row, row ∈ sleeve d' /\ id row = id s /\ state row = "probation" /\
           version row = version s + 1 /\ position_environment row = position_environment s
       end.

Lemma turn_outcome_kept f t check s d d' r r' i :
  turn_outcome f t check s d r -> only_sleeve i d d' -> id s <> i -> incl (errors r) (errors r') ->
  turn_outcome f t check s d' r'.
Proof.
  intros Ho (_ & Hx & _) Hi He. unfold turn_outcome in *. destruct (healthy check).
  { by apply Hx. }
  destruct (f_demote f).
  - destruct Ho as [Hs Herr]. split; [by apply Hx|]. apply list_elem_of_In, He, list_elem_of_In, Herr.
  - destruct Ho as (row & Hr & E & Hrest). exists row. split; [apply Hx; congruence|done].
Qed.

Lemma only_sleeve_trans i d1 d2 d3 : only_sleeve i d1 d2 -> only_sleeve i d2 d3 -> only_sleeve i d1 d3.
Proof.
  intros (E1 & X1 & H1) (E2 & X2 & H2). split; [congruence|]. split.
  - intros x Hx. by rewrite X2, X1.
  - intros k Hk. by rewrite H2, H1.
Qed.

Lemma sweep_one_step sv f j t timeframe interval ws moment now (s : Sleeve) r d seen :
  (forall n d0, f_world f n d0 = d0) -> _store sv = Some settings -> inv d seen ->
  s ∈ sleeve d -> account_id s = account_or settings None ->
  match sweep_one fpow text render settings sv f j t timeframe interval ws moment now s r d with
  | (Err _, _) => True
  | (Ok r', d') => exists m,
      fst (_live_metrics fpow f j s ws moment (capital_base t) d) = Ok m /\
      (exists seen', inv d' seen') /\ only_sleeve (id s) d d' /\ incl (errors r) (errors r') /\
      turn_outcome f t (evaluate_health (state s) m t) s d' r'
  end.
Proof using evidence_hash artifact_hash.
  intros Hw Hst Hi Hs Ha. unfold sweep_one. unfold mbind at 1, prog_bind at 1.
  set (gap := match completeness _ _ _ _ _ _ _ with Ok _ => _ | Err _ => _ end).
  assert (exists r1 d1, gap d = (Ok r1, d1) /\ roster_kept d d1 /\ incl (errors r) (errors r1))
    as (r1 & d1 & -> & Hk & He).
  { subst gap. destruct (completeness _ _ _ _ _ _ _) as [k|]; [destruct (k_complete k)|].
    - exists (count_checked r), d. split_and!; [done|done|apply incl_refl].
    - pose proof (record_gap_kept f s k ws moment t now (add_gap (key s) (count_checked r)) d) as Hg.
      destruct (_record_gap _ _ _ _ _ _ _ _ _ _ _ d) as [[r1|] d1]; [|done].
      destruct Hg as [Hg He]. by exists r1, d1.
    - exists (count_checked r), d. split_and!; [done|done|apply incl_refl]. }
  clear gap. cbn beta iota. unfold mbind at 1, prog_bind at 1.
  pose proof (roster_kept_only (id s) _ _ Hk) as Ho.
  destruct Hk as [Hr Hev]. assert (exists seen1, inv d1 seen1) as [seen1 Hi1] by
    (eexists; by eapply inv_same).
  assert (s ∈ sleeve d1) as Hs1 by (destruct Hr as (-> & _); done).
  pose proof (live_metrics_ext f j s ws moment (capital_base t) d d1
    ltac:(unfold history; by destruct Hr as (_ & _ & ->)) Hev) as Hm.
  pose proof (live_metrics_reads f j s ws moment (capital_base t) d1) as Hd.
  destruct (_live_metrics fpow f j s ws moment (capital_base t) d1) as [[m|] d2]; [|done].
  cbn [fst snd] in Hm, Hd. subst d2. cbn beta iota zeta.
  set (check := evaluate_health (state s) m t) in *. set (r2 := add_warnings _ r1).
  destruct (healthy check) eqn:Hh.
  { exists m. fold check. unfold turn_outcome. rewrite Hh. split_and!; eauto. }
  destruct (unhealthy_probation _ _ _ Hh) as [_ Hp]. fold check in Hp. rewrite Hp.
  unfold catch, failing. cbn [default from_option].
  destruct (f_demote f) as [exc|] eqn:Hf.
  { cbn. exists m. fold check. unfold turn_outcome. rewrite Hh, Hf. split_and!; eauto; cbn.
    - apply incl_appl. exact He.
    - apply elem_of_app. right. by left. }
  unfold mbind, prog_bind. change (str_or (Datatypes.id "probation") "probation") with "probation".
  match goal with |- context [demote _ _ _ _ _ ?why _ _ _ _] =>
    destruct (demote_quiet (f_world f) sv s why now d1 seen1 Hw Hst Hi1 Hs1 Ha) as (d3 & -> & Hi3 & Hp3 & Ho3) end.
  cbn. exists m. fold check. unfold turn_outcome. rewrite Hh, Hf.
  split_and!; [by rewrite <- Hm|done|by eapply only_sleeve_trans|exact He|].
  eexists. by split_and!.
Qed.

Lemma sweep_loop_turns sv fs j t timeframe interval ws moment now : _store sv = Some settings ->
  (forall i n d0, f_world (fs i) n d0 = d0) ->
  forall l n r d seen r' d', inv d seen -> NoDup (map id l) ->
  (forall s, s ∈ l -> s ∈ sleeve d /\ account_id s = account_or settings None) ->
  sweep_loop fpow text render settings sv fs j t timeframe interval ws moment now n l r d = (Ok r', d') ->
  incl (errors r) (errors r') /\
  (forall x, x ∈ sleeve d -> id x ∉ map id l -> x ∈ sleeve d') /\
  forall i s, l !! i = Some s -> exists m,
    fst (_live_metrics fpow (fs (n + i)%nat) j s ws moment (capital_base t) d) = Ok m /\
    turn_outcome (fs (n + i)%nat) t (evaluate_health (state s) m t) s d' r'.
Proof using evidence_hash artifact_hash.
  intros Hst Hw. induction l as [|s l IH]; intros n r d seen r' d' Hi Hn Hl.
  { intros [= <- <-]. split_and!; [apply incl_refl|done|done]. }
  cbn [sweep_loop]. unfold mbind, prog_bind.
  destruct (Hl s ltac:(by left)) as [Hs Ha]. apply NoDup_cons in Hn as [Hns Hn].
  pose proof (sweep_one_step sv (fs n) j t timeframe interval ws moment now s r d seen (Hw n) Hst Hi Hs Ha) as H1.
  destruct (sweep_one _ _ _ _ _ _ _ _ _ _ _ _ _ s r d) as [[r1|] d1]; [|done].
  destruct H1 as (m & Hm & (seen1 & Hi1) & Ho & He1 & Hout). intros Hloop.
  assert (forall x, x ∈ l -> id x <> id s) as Hne.
  { intros x Hx E. apply Hns. rewrite <- E. apply elem_of_map. by exists x. }
  destruct (IH (S n) r1 d1 seen1 r' d' Hi1 Hn) as (He2 & Hkeep & Hturns); [|done|].
  { intros x Hx. destruct (Hl x ltac:(by right)) as [Hxs Hxa]. split; [|done]. apply Ho; auto. }
  split; [by eapply incl_tran|]. split.
  { intros x Hx Hni. cbn in Hni. apply not_elem_of_cons in Hni as [? ?]. apply Hkeep; [|done]. by apply Ho. }
  intros [|i] x Hx; cbn in Hx.
  - injection Hx as <-. rewrite Nat.add_0_r. exists m. split; [done|].
    (* the later turns leave this sleeve's row alone *)
    unfold turn_outcome in *. destruct (healthy _); [by apply Hkeep|].
    destruct (f_demote _).
    + destruct Hout as [? Herr]. split; [by apply Hkeep|]. apply list_elem_of_In, He2, list_elem_of_In, Herr.
    + destruct Hout as (row & Hr & E & Hrest). exists row. split; [|done]. apply Hkeep; [done|by rewrite E].
  - destruct (Hturns i x Hx) as (mx & Hmx & Hox). exists mx. rewrite Nat.add_succ_r. split; [|done].
    rewrite <- Hmx. symmetry. apply live_metrics_ext; [|by destruct Ho].
    apply Ho, Hne, list_elem_of_lookup. eauto.
Qed.

End theorems.

(** ** The decay check cannot run (exact arithmetic)

    The sweep looks back [window_hours], 24 where the orchestrator calls it, and a
    Sharpe ratio is annualised only over a span of at least five days. *)

Lemma paired_exits (rows : list (ExecutionQuality Q)) trips x :
  pair_round_trips rows = Some trips -> x ∈ trips ->
  exists r, r ∈ rows /\ l_at (t_exit x) = x_recorded_at r.
Proof.
  intros Hp Hx. destruct (proj2 (trips_scoped rows trips Hp) x Hx)
    as (r1 & r2 & q & _ & H2 & _ & _ & _ & -> & _).
  exists r2. split; [done|]. unfold trip_of. by destruct (key_of r1) as [[[[? ?] ?] ?] ?].
Qed.

Lemma rows_in_window {F} `{PyFloat F} st ve sy en ac start stop limit e (j : Journal F) r :
  r ∈ execution_rows st ve sy en ac (Some start) (Some stop) limit e j ->
  start <= x_recorded_at r <= stop.
Proof.
  unfold execution_rows, or_empty. intros Hr. destruct (enabled j); [|by apply not_elem_of_nil in Hr].
  destruct e; [by apply not_elem_of_nil in Hr|].
  apply elem_of_take in Hr as (i & Hr & _).
  apply list_elem_of_lookup_2, elem_of_sort_by, elem_of_filter_b in Hr as [_ Hp].
  unfold in_window in Hp. rewrite !andb_true_iff, !Z.leb_le in Hp. tauto.
Qed.

Lemma annualised_short fpow (trips : list (RoundTrip Q)) sr n lo hi :
  (forall x, x ∈ trips -> lo <= l_at (t_exit x) <= hi) -> hi - lo < seconds (86400 * 5) ->
  fst (fst (fst (_annualised fpow trips sr n))) = None.
Proof.
  intros Hw Hs. unfold _annualised. destruct sr as [sr|]; [|done]. destruct (n <? 2); [done|].
  set (exits := sort_by Z.leb _).
  assert (forall y, y ∈ exits -> lo <= y <= hi) as He.
  { intros y Hy. apply elem_of_sort_by, elem_of_map in Hy as (x & -> & [Hx _]%elem_of_filter_b). by apply Hw. }
  destruct exits as [|first [|second rest]] eqn:E; [done|done|].
  destruct (last (first :: second :: rest)) as [final|] eqn:El; [|done].
  assert (lo <= first <= hi) as H1 by (apply He; by left).
  assert (lo <= final <= hi) as H2 by (apply He; apply last_Some in El as [l' ->]; apply elem_of_app; right; by left).
  match goal with |- context [if ?b then _ else _] => assert (b = true) as -> end; [|done].
  unfold MIN_SPAN_DAYS_TO_ANNUALISE, total_seconds, nofZ. apply Q_nltb.
  cbn [nlit ndiv exact]. unfold seconds in Hs.
  apply Qlt_shift_div_r; [done|]. unfold Qlt, Qmult. cbn [Qnum Qden]. lia.
Qed.

(** Whatever a sleeve has done, the sweep's window holds no annualised Sharpe, so its
    decay trigger is silent. *)
Lemma decay_check_cannot_run fpow f (j : Journal Q) (s : Sleeve) moment hours cb t d m :
  hours < 120 ->
  fst (_live_metrics fpow f j s (moment - seconds (3600 * hours)) moment cb d) = Ok m ->
  sharpe_annualised m = None /\ decay_trigger m t = [].
Proof.
  intros Hh Hm. assert (sharpe_annualised m = None) as E.
  2: { split; [done|]. unfold decay_trigger. rewrite E. by case_match. }
  unfold _live_metrics in Hm. destruct (load_round_trips _ _ _ _ _ _ _ _ _ _) as [trips|] eqn:Ht;
    [|cbn in Hm; by injection Hm as <-].
  unfold mbind, prog_bind in Hm. destruct (_validated_sharpe f s d) as [[v|] d']; [|done].
  injection Hm as <-. cbn [sharpe_annualised]. unfold performance_from_trades.
  destruct (_ <? 2); [done|]. destruct (curve _) as [[[? ?] ?] ?].
  match goal with |- context [_annualised fpow trips ?sr ?n] =>
    pose proof (annualised_short fpow trips sr n (moment - seconds (3600 * hours)) moment) as Ha;
    destruct (_annualised fpow trips sr n) as [[[? ?] ?] ?] end.
  cbn [p_sharpe_annualised]. apply Ha; [|unfold seconds; lia].
  intros x Hx. destruct (paired_exits _ _ _ Ht Hx) as (r & Hr & ->). by eapply rows_in_window.
Qed.

(** ** A concrete sweep *)

Module Morning.
Definition live_db : DB spec_float :=
  Demo.run (OpTransition (Demo.sleeve1 "human") "live" "promoted" "ann" None) 7 (Demo.promoted "human").
Definition live_seen : list Sleeve := sleeve live_db ++ Demo.promoted_seen "human".
Lemma live_reachable : reachable Demo.settings Demo.ehash Demo.ahash live_db live_seen.
Proof.
  eapply rtc_r; [exact (Demo.promoted_reachable _ human_known)|].
  refine (step_call Demo.settings Demo.ehash Demo.ahash (Demo.promoted "human") _
    (OpTransition (Demo.sleeve1 "human") "live" "promoted" "ann" None) 7 _).
  intros s [= <-]. apply elem_of_app. left. exact (Demo.sleeve1_in _ human_known).
Qed.

Definition minutes (n : Z) : Z := n * 60000000.
(** A bar every quarter from [start], [n] of them. *)
Definition session (start : Z) (n : nat) (j : Journal spec_float) : Journal spec_float :=
  foldl (fun j k => Ladder.see (start + minutes (15 * Z.of_nat k)) j) j (List.seq 0 n).
Definition trade (side : string) (price at_ : Z) (j : Journal spec_float) : Journal spec_float :=
  snd (record_execution "AAPL" side (nofZ 10) (Some (nofZ price)) (Some (nofZ price)) "MARKET"
    None side "s" "filled" "ema" "v1" "live" "default" "alpaca" nzero None false false at_ None j).
(** Two losing trades in a session, the second of which exceeds the limit. *)
Definition losing : Journal spec_float :=
  trade "sell" 80 (minutes 40) (trade "buy" 100 (minutes 30) (trade "sell" 95 (minutes 20)
    (trade "buy" 100 (minutes 10) (session 0 4 Ladder.empty)))).
Definition limits : HealthThresholds spec_float :=
  {| max_live_drawdown_pct := nlit 15 100; max_live_drawdown_amount := Some (nofZ 100);
     capital_base := None; min_live_trades_before_decay_check := 20;
     sharpe_decay_sigmas := n_one; min_sharpe_decay := nlit 1 2;
     max_losing_win_rate := nlit 2 10; journal_gap_grace_minutes := nofZ 60 |}.
Definition quiet : Faults spec_float :=
  {| f_completeness := None; f_rows := None; f_transitions := None; f_evidence := None;
     f_health := None; f_halt := None; f_demote := None; f_world := fun _ d => d |}.
Abbreviation sweep j moment :=
  (run_health_sweep Ladder.fpow (fun _ => "") (fun _ => "why") Ladder.service None (fun _ => quiet) j
     limits "15m" (nofZ 15) 24 moment moment live_db).
Definition live_sleeve : Sleeve :=
  transitioned "live" "promoted" 3 0 POSITION_LIVE 7 (Demo.sleeve1 "human").
Lemma live_sleeve_is : live_sleeves Demo.settings None live_db !! 0%nat = Some live_sleeve.
Proof. vm_compute. reflexivity. Qed.
Lemma losing_is_unhealthy :
  match fst (_live_metrics Ladder.fpow quiet losing live_sleeve
               (minutes 45 - seconds (3600 * 24)) (minutes 45) None live_db) with
  | Ok m => healthy (evaluate_health "live" m limits)
  | Err _ => true
  end = false.
Proof. vm_compute. reflexivity. Qed.
Lemma losing_swept : is_ok (fst (sweep losing (minutes 45))) = true.
Proof. vm_compute. reflexivity. Qed.
End Morning.


(** A day and the next morning's first bars, all recorded. At 10:35 the close of the
    night before is a gap an hour old, and the sweep halts live entries. *)
Example overnight_close_halts_entries :
  let j := Morning.session (Morning.minutes 1440) 5 (Morning.session 0 26 Ladder.empty) in
  match Morning.sweep j (Morning.minutes 1505) with
  | (Ok r, d) => entries_blocked r &&
      halted (reconciliation_state Demo.settings "live" "live" None d)
  | _ => false
  end = true.
Proof. vm_compute. reflexivity. Qed.

(** A symbol with no bar at all in the window is never a reason to halt. *)
Example no_bars_no_halt :
  match Morning.sweep Ladder.empty (Morning.minutes 1505) with
  | (Ok r, d) => match journal_gaps r with [] => false | _ => true end &&
      negb (halted (reconciliation_state Demo.settings "live" "live" None d))
  | _ => false
  end = true.
Proof. vm_compute. reflexivity. Qed.

(** The evidence a promotion to live stores is the paper record, which holds no
    validated Sharpe: there is nothing for the decay check to compare with. *)
Example promotion_stores_no_validated_sharpe :
  let d := snd Ladder.promotion in
  match get Demo.settings "ema" "AAPL" None d with
  | Some s => String.eqb (state s) "live" &&
      match fst (_validated_sharpe Morning.quiet s d) with Ok PNone => true | _ => false end
  | None => false
  end = true.
Proof. vm_compute. reflexivity. Qed.

(** An unreadable snapshot is not caught: it ends the whole sweep. *)
Example snapshot_failure_ends_the_sweep :
  let f := {| f_completeness := None; f_rows := None; f_transitions := None;
              f_evidence := Some "timeout"; f_health := None; f_halt := None; f_demote := None;
              f_world := fun _ d => d |} in
  fst (run_health_sweep Ladder.fpow (fun _ => "") (fun _ => "why") Ladder.service None (fun _ => f)
         Ladder.empty Morning.limits "15m" (nofZ 15) 24 (Morning.minutes 30) 0 (snd Ladder.promotion))
  = Err (OtherException "timeout").
Proof. vm_compute. reflexivity. Qed.
