(* ===== verification/Indicators.v ===== *)
(** * Technical indicators, and the backtest's one-pass series of them

    Models [libs/market_data/src/market_data/indicators.py], what the live strategy
    reads, and [services/backtest-service/src/backtest_service/indicator_series.py],
    the single-pass rewrite the backtester uses. The second file promises that its
    value at every bar is what the first computes on the bars up to it; the theorems
    of this file prove it for every arithmetic, so that the floats agree bit for bit. *)

From S2P Require Import Prelude PyFloat Store.
From Stdlib Require Import Floats.SpecFloat.

Section indicators.
Context {F : Type} `{HF : PyFloat F}.
(** [x ** y] of libm. *)
Context (fpow : F -> F -> F).
Local Open Scope py_scope.
Implicit Types closes highs lows opens : list F.

(** An int in a float expression. *)
Definition nnat (n : nat) : F := nofZ (Z.of_nat n).

(** ** indicators.py *)

(** [closes[i] - closes[i - 1]] for i = 1, 2, ... *)
Fixpoint deltas closes : list F :=
  match closes with
  | a :: (b :: _) as rest => (b - a) :: deltas rest
  | _ => []
  end.

Definition gain (d : F) : F := nmax d nzero.
Definition loss (d : F) : F := nabs (nmin d nzero).

(** One step of Wilder's smoothing. *)
Definition wilder (period : nat) (avg x : F) : F :=
  (avg * nnat (period - 1) + x) / nnat period.

(** The mean of the first [period] values, smoothed over the rest. *)
Definition wilder_average (period : nat) (l : list F) : F :=
  foldl (wilder period) (nsum (take period l) / nnat period) (drop period l).

Definition rsi_of (avg_gain avg_loss : F) : F :=
  if avg_loss =? nzero then nofZ 100
  else nofZ 100 - nofZ 100 / (n_one + avg_gain / avg_loss).

Definition compute_rsi closes (period : nat) : F :=
  if (length closes <? period + 1)%nat then nofZ 50 else
  let ds := deltas closes in
  rsi_of (wilder_average period (map gain ds)) (wilder_average period (map loss ds)).

Definition ema_multiplier (period : nat) : F := nofZ 2 / nnat (period + 1).
Definition ema_step (period : nat) (ema price : F) : F :=
  (price - ema) * ema_multiplier period + ema.

(** The average of the first [period] values, smoothed over the rest. *)
Definition ema_average (period : nat) (l : list F) : F :=
  foldl (ema_step period) (nsum (take period l) / nnat period) (drop period l).

Definition compute_ema closes (period : nat) : F :=
  match last closes with
  | None => nzero
  | Some c => if (length closes <? period)%nat then c else ema_average period closes
  end.

(** The MACD values, from index [slow] on: the two averages and the values so far. *)
Definition macd_step (fast slow : nat) (acc : F * F * list F) (price : F) : F * F * list F :=
  let '(ema_fast, ema_slow, values) := acc in
  let ema_fast := ema_step fast ema_fast price in
  let ema_slow := ema_step slow ema_slow price in
  (ema_fast, ema_slow, values ++ [ema_fast - ema_slow]).
Definition macd_seed (fast slow : nat) closes : F * F * list F :=
  (nsum (take fast closes) / nnat fast, nsum (take slow closes) / nnat slow, []).
Definition macd_state (fast slow : nat) closes : F * F * list F :=
  foldl (macd_step fast slow) (macd_seed fast slow closes) (drop slow closes).

(** Line, signal and histogram. *)
Definition compute_macd closes (fast slow signal_period : nat) : F * F * F :=
  if (length closes <? slow + signal_period)%nat then (nzero, nzero, nzero) else
  let values := snd (macd_state fast slow closes) in
  let line := default nzero (last values) in
  if (length values <? signal_period)%nat then (line, nzero, nzero) else
  let sig := ema_average signal_period values in
  (line, sig, line - sig).

Definition mean_of (l : list F) (n : nat) : F := nsum l / nnat n.
Definition variance_of (l : list F) (middle : F) (n : nat) : F :=
  nsum (map (fun p => fpow (p - middle) (nofZ 2)) l) / nnat n.

(** Upper, middle and lower band. *)
Definition compute_bollinger closes (period : nat) (std_dev : F) : F * F * F :=
  if (length closes <? period)%nat then (nzero, nzero, nzero) else
  let window := last_n period closes in
  let middle := mean_of window period in
  let std := fpow (variance_of window middle period) (nlit 1 2) in
  (middle + std_dev * std, middle, middle - std_dev * std).

(** A bar's high, low and close; the columns of one list of bars are of one length. *)
Definition hlc highs lows closes : list (F * F * F) := combine (combine highs lows) closes.

Definition true_range (prev_close high low : F) : F :=
  nmax (nmax (high - low) (nabs (high - prev_close))) (nabs (low - prev_close)).

Fixpoint true_ranges (bars : list (F * F * F)) : list F :=
  match bars with
  | (_, _, pc) :: ((h, l, _) :: _) as rest => true_range pc h l :: true_ranges rest
  | _ => []
  end.

Definition compute_atr highs lows closes (period : nat) : F :=
  if (length highs <? 2)%nat || (length lows <? 2)%nat || (length closes <? 2)%nat then
    match last highs, last lows with Some h, Some l => h - l | _, _ => nzero end
  else
    let tr_list := true_ranges (hlc highs lows closes) in
    if (length tr_list <? period)%nat then
      nsum (map (fun '(h, l) => h - l) (combine highs lows)) / nnat (length highs)
    else wilder_average period tr_list.

Definition ADX_PERIOD : nat := 14.
Definition ADX_NEUTRAL : F := nofZ 25.
Definition ADX_MIN_BARS : nat := (ADX_PERIOD + 2)%nat.
Definition adx_is_computable (bars_count period : nat) : bool := (period + 2 <=? bars_count)%nat.

(** True range and directional movements of a bar after the one before it. *)
Definition movement (prev bar : F * F * F) : F * F * F :=
  let '(prev_high, prev_low, prev_close) := prev in
  let '(high, low, _) := bar in
  let up_move := high - prev_high in
  let down_move := prev_low - low in
  (true_range prev_close high low,
   if (up_move >? down_move) && (up_move >? nzero) then up_move else nzero,
   if (down_move >? up_move) && (down_move >? nzero) then down_move else nzero).
Fixpoint movements (bars : list (F * F * F)) : list (F * F * F) :=
  match bars with
  | prev :: (bar :: _) as rest => movement prev bar :: movements rest
  | _ => []
  end.

Definition nfst3 (m : F * F * F) : F := fst (fst m).
Definition nsnd3 (m : F * F * F) : F := snd (fst m).
Definition nthd3 (m : F * F * F) : F := snd m.

(** The Wilder sums of true range and movements over the first [period] bars. *)
Definition adx_seed (period : nat) (ms : list (F * F * F)) : F * F * F :=
  let first := take period ms in
  (nsum (map nfst3 first), nsum (map nsnd3 first), nsum (map nthd3 first)).

(** One more bar: the new sums and its DX. *)
Definition adx_smooth (period : nat) (sums m : F * F * F) : F * F * F :=
  let '(atr, plus, minus) := sums in
  (atr - atr / nnat period + nfst3 m, plus - plus / nnat period + nsnd3 m,
   minus - minus / nnat period + nthd3 m).
Definition dx_of (sums : F * F * F) : F :=
  let '(atr, plus, minus) := sums in
  let plus_di := if atr >? nzero then nofZ 100 * plus / atr else nzero in
  let minus_di := if atr >? nzero then nofZ 100 * minus / atr else nzero in
  let di_sum := plus_di + minus_di in
  if di_sum >? nzero then nofZ 100 * nabs (plus_di - minus_di) / di_sum else nzero.
Definition dx_step (period : nat) (acc : F * F * F * list F) (m : F * F * F)
    : F * F * F * list F :=
  let '(sums, dxs) := acc in
  let sums := adx_smooth period sums m in (sums, dxs ++ [dx_of sums]).
Definition dx_state (period : nat) (ms : list (F * F * F)) : F * F * F * list F :=
  foldl (dx_step period) (adx_seed period ms, []) (drop period ms).

Definition adx_of (period : nat) (dx_list : list F) : F :=
  match dx_list with
  | [] => ADX_NEUTRAL
  | _ =>
      let adx := if (period <=? length dx_list)%nat
                 then nsum (take period dx_list) / nnat period
                 else nsum dx_list / nnat (length dx_list) in
      foldl (wilder period) adx (drop period dx_list)
  end.

Definition compute_adx highs lows closes (period : nat) : F :=
  if (length highs <? period + 2)%nat || (length lows <? period + 2)%nat ||
     (length closes <? period + 2)%nat then ADX_NEUTRAL else
  let ms := movements (hlc highs lows closes) in
  if (length ms <? period)%nat then ADX_NEUTRAL else
  adx_of period (snd (dx_state period ms)).

(** The last two bars, the newest first. *)
Definition last_two (l : list F) : option (F * F) :=
  match rev l with x :: y :: _ => Some (x, y) | _ => None end.

Definition detect_patterns opens highs lows closes : list string :=
  match last_two opens, last_two highs, last_two lows, last_two closes with
  | Some (o, po), Some (h, _), Some (low, _), Some (c, pc) =>
      let body := nabs (c - o) in
      let candle_range := if h =? low then nlit 1 1000000000 else h - low in
      let upper_shadow := h - nmax o c in
      let lower_shadow := nmin o c - low in
      (if body <=? nlit 1 10 * candle_range then ["doji"] else []) ++
      (if (lower_shadow >=? nofZ 2 * body) && (upper_shadow <=? body) && (body >? nzero)
       then ["hammer"] else []) ++
      (if (upper_shadow >=? nofZ 2 * body) && (lower_shadow <=? body) && (body >? nzero)
       then ["shooting_star"] else []) ++
      (if (pc <? po) && (c >? o) && (c >=? po) && (o <=? pc) then ["bullish_engulfing"] else []) ++
      (if (pc >? po) && (c <? o) && (c <=? po) && (o >=? pc) then ["bearish_engulfing"] else [])
  | _, _, _, _ => []
  end.

Definition _bb_position (price upper lower : F) : F :=
  let band_width := upper - lower in
  if band_width <=? nzero then nlit 1 2
  else nmax nzero (nmin n_one ((price - lower) / band_width)).

Definition _derive_signal_tags (price rsi macd_hist ema_20 ema_50 bb_pos : F) : list string :=
  (if rsi >? nofZ 70 then ["overbought"] else if rsi <? nofZ 30 then ["oversold"] else []) ++
  (if macd_hist >? nzero then ["macd_bullish"]
   else if macd_hist <? nzero then ["macd_bearish"] else []) ++
  (if price >? ema_20 then ["above_ema20"] else []) ++
  (if price >? ema_50 then ["above_ema50"] else []) ++
  (if bb_pos >? nlit 8 10 then ["near_upper_band"]
   else if bb_pos <? nlit 2 10 then ["near_lower_band"] else []).

(** [sum] of a list of bools. *)
Definition votes (l : list bool) : nat := length (List.filter (fun b => b) l).

Definition _derive_trend (rsi macd_hist ema_20 ema_50 price : F) : string :=
  if Nat.leb 3 (votes [price >? ema_20; price >? ema_50; ema_20 >? ema_50; macd_hist >? nzero;
                   rsi >? nofZ 55]) then "bullish"
  else if Nat.leb 3 (votes [price <? ema_20; price <? ema_50; ema_20 <? ema_50; macd_hist <? nzero;
                        rsi <? nofZ 45]) then "bearish"
  else "neutral".
End indicators.

(** ** models.py *)

Record OHLCVBar (F : Type) := {
  ob_symbol : string;
  ob_timestamp : datetime;
  ob_open : F;
  ob_high : F;
  ob_low : F;
  ob_close : F;
  ob_volume : F
}.
Arguments ob_symbol {F}. Arguments ob_timestamp {F}. Arguments ob_open {F}.
Arguments ob_high {F}. Arguments ob_low {F}. Arguments ob_close {F}. Arguments ob_volume {F}.

Record TechnicalIndicators (F : Type) := {
  rsi_14 : F;
  macd_line : F;
  macd_signal : F;
  macd_histogram : F;
  bb_upper : F;
  bb_middle : F;
  bb_lower : F;
  bb_position : F;
  ema_20 : F;
  ema_50 : F
}.
Arguments rsi_14 {F}. Arguments macd_line {F}. Arguments macd_signal {F}.
Arguments macd_histogram {F}. Arguments bb_upper {F}. Arguments bb_middle {F}.
Arguments bb_lower {F}. Arguments bb_position {F}. Arguments ema_20 {F}. Arguments ema_50 {F}.

Record TASummary (F : Type) := {
  ta_symbol : string;
  as_of : datetime;
  bars_count : nat;
  indicators : TechnicalIndicators F;
  adx : F;
  patterns : list string;
  signal_tags : list string;
  trend_direction : string;
  data_source : string;
  current_price : option F
}.
Arguments ta_symbol {F}. Arguments as_of {F}. Arguments bars_count {F}.
Arguments indicators {F}. Arguments adx {F}. Arguments patterns {F}. Arguments signal_tags {F}.
Arguments trend_direction {F}. Arguments data_source {F}. Arguments current_price {F}.

Section summary.
Context {F : Type} `{HF : PyFloat F}.
Context (fpow : F -> F -> F).

Definition default_indicators : TechnicalIndicators F :=
  {| rsi_14 := nofZ 50; macd_line := nzero; macd_signal := nzero; macd_histogram := nzero;
     bb_upper := nzero; bb_middle := nzero; bb_lower := nzero; bb_position := nlit 1 2;
     ema_20 := nzero; ema_50 := nzero |}.

Definition build_ta_summary (symbol : string) (bars : list (OHLCVBar F)) (source : string)
    (now : datetime) : TASummary F :=
  match last bars with
  | None =>
      {| ta_symbol := symbol; as_of := now; bars_count := 0; indicators := default_indicators;
         adx := ADX_NEUTRAL; patterns := []; signal_tags := []; trend_direction := "neutral";
         data_source := source; current_price := None |}
  | Some newest =>
      let opens := map ob_open bars in
      let highs := map ob_high bars in
      let lows := map ob_low bars in
      let closes := map ob_close bars in
      let price := ob_close newest in
      let rsi := compute_rsi closes 14 in
      let '(line, sig, hist) := compute_macd closes 12 26 9 in
      let '(upper, middle, lower) := compute_bollinger fpow closes 20 (nofZ 2) in
      let e20 := compute_ema closes 20 in
      let e50 := compute_ema closes 50 in
      let bb_pos := _bb_position price upper lower in
      {| ta_symbol := symbol; as_of := ob_timestamp newest; bars_count := length bars;
         indicators :=
           {| rsi_14 := nround 4 rsi; macd_line := nround 6 line; macd_signal := nround 6 sig;
              macd_histogram := nround 6 hist; bb_upper := nround 4 upper;
              bb_middle := nround 4 middle; bb_lower := nround 4 lower;
              bb_position := nround 4 bb_pos; ema_20 := nround 4 e20; ema_50 := nround 4 e50 |};
         adx := nround 4 (compute_adx highs lows closes ADX_PERIOD);
         patterns := detect_patterns opens highs lows closes;
         signal_tags := _derive_signal_tags price rsi hist e20 e50 bb_pos;
         trend_direction := _derive_trend rsi hist e20 e50 price;
         data_source := source; current_price := Some (nround 4 price) |}
  end.
End summary.

(** ** indicator_series.py *)

Record IndicatorSeries (F : Type) := {
  ema_fast : list F;
  ema_slow : list F;
  rsi : list F;
  macd_hist : list F
}.
Arguments ema_fast {F}. Arguments ema_slow {F}. Arguments rsi {F}. Arguments macd_hist {F}.

Record BollingerSeries (F : Type) := {
  upper : list F;
  middle : list F;
  lower : list F
}.
Arguments upper {F}. Arguments middle {F}. Arguments lower {F}.

Section series.
Context {F : Type} `{HF : PyFloat F}.
Context (fpow : F -> F -> F).
Local Open Scope py_scope.
Implicit Types closes highs lows : list F.

(** [closes[i]] *)
Definition at_ closes (i : nat) : F := nth i closes nzero.

Definition _ema_series closes (period : nat) : list F :=
  scan (fun i ema price =>
    let length_ := (i + 1)%nat in
    if (length_ <? period)%nat then (ema, price) else
    let ema := if (length_ =? period)%nat then nsum (take period closes) / nnat period
               else (price - ema) * (nofZ 2 / nnat (period + 1)) + ema in
    (ema, ema)) 0 nzero closes.

Definition _rsi_series closes (period : nat) : list F :=
  scan (fun i '(avg_gain, avg_loss) _ =>
    let length_ := (i + 1)%nat in
    if (length_ <? period + 1)%nat then (avg_gain, avg_loss, nofZ 50) else
    let '(avg_gain, avg_loss) :=
      if (length_ =? period + 1)%nat then
        let ds := map (fun j => at_ closes j - at_ closes (j - 1)) (List.seq 1 period) in
        (nsum (map (fun d => nmax d nzero) ds) / nnat period,
         nsum (map (fun d => nabs (nmin d nzero)) ds) / nnat period)
      else
        let delta := at_ closes i - at_ closes (i - 1) in
        ((avg_gain * nnat (period - 1) + nmax delta nzero) / nnat period,
         (avg_loss * nnat (period - 1) + nabs (nmin delta nzero)) / nnat period) in
    (avg_gain, avg_loss,
     if avg_loss =? nzero then nofZ 100
     else let rs := avg_gain / avg_loss in nofZ 100 - nofZ 100 / (n_one + rs)))
    0 (nzero, nzero) closes.

Definition _macd_hist_series closes (fast slow signal_period : nat) : list F :=
  let minimum := (slow + signal_period)%nat in
  let mult_fast := nofZ 2 / nnat (fast + 1) in
  let mult_slow := nofZ 2 / nnat (slow + 1) in
  scan (fun i '(ema_fast, ema_slow, macd_values, sig) price =>
    let length_ := (i + 1)%nat in
    if (length_ <=? slow)%nat then (ema_fast, ema_slow, macd_values, sig, nzero) else
    let '(ema_fast, ema_slow) :=
      if (length_ =? slow + 1)%nat
      then (nsum (take fast closes) / nnat fast, nsum (take slow closes) / nnat slow)
      else (ema_fast, ema_slow) in
    let ema_fast := (price - ema_fast) * mult_fast + ema_fast in
    let ema_slow := (price - ema_slow) * mult_slow + ema_slow in
    let newest := ema_fast - ema_slow in
    let macd_values := macd_values ++ [newest] in
    if (length_ <? minimum)%nat then (ema_fast, ema_slow, macd_values, sig, nzero) else
    let sig := if (length macd_values =? signal_period)%nat
               then nsum (take signal_period macd_values) / nnat signal_period
               else (newest - sig) * (nofZ 2 / nnat (signal_period + 1)) + sig in
    (ema_fast, ema_slow, macd_values, sig, newest - sig))
    0 (nzero, nzero, [], nzero) closes.

Definition build closes (ema_fast_period ema_slow_period : nat) : IndicatorSeries F :=
  {| ema_fast := _ema_series closes ema_fast_period;
     ema_slow := _ema_series closes ema_slow_period;
     rsi := _rsi_series closes 14; macd_hist := _macd_hist_series closes 12 26 9 |}.

(** One row per bar: upper, middle, lower. *)
Definition bollinger_rows closes (period : nat) (std_dev : F) : list (F * F * F) :=
  scan (fun i (_ : unit) _ =>
    if (i + 1 <? period)%nat then (tt, (nzero, nzero, nzero)) else
    let window := take period (drop (i + 1 - period) closes) in
    let mean := nsum window / nnat period in
    let variance := nsum (map (fun price => fpow (price - mean) (nofZ 2)) window) / nnat period in
    let spread := std_dev * fpow variance (nlit 1 2) in
    (tt, (mean + spread, mean, mean - spread))) 0 tt closes.
Definition bollinger closes (period : nat) (std_dev : F) : BollingerSeries F :=
  let rows := bollinger_rows closes period std_dev in
  {| upper := map nfst3 rows; middle := map nsnd3 rows; lower := map nthd3 rows |}.

(** The loop's variables: the sums, the count, the running sum and the current ADX. *)
Definition adx_series highs lows closes (period : nat) : list F :=
  let bars := hlc highs lows closes in
  let n := length closes in
  if (n <? period + 2)%nat then repeat ADX_NEUTRAL n else
  let ms := movements bars in
  ADX_NEUTRAL :: scan (fun i '(sums, dx_count, dx_running_sum, adx_state) m =>
    let tr_count := (i + 1)%nat in
    if (tr_count <? period)%nat then (sums, dx_count, dx_running_sum, adx_state, ADX_NEUTRAL)
    else if (tr_count =? period)%nat then
      (adx_seed period ms, dx_count, dx_running_sum, adx_state, ADX_NEUTRAL)
    else
      let sums := adx_smooth period sums m in
      let dx := dx_of sums in
      let dx_count := (dx_count + 1)%nat in
      let dx_running_sum := dx_running_sum + dx in
      let adx_state :=
        if (dx_count <? period)%nat then dx_running_sum / nnat dx_count
        else if (dx_count =? period)%nat then dx_running_sum / nnat period
        else (adx_state * nnat (period - 1) + dx) / nnat period in
      (sums, dx_count, dx_running_sum, adx_state, adx_state))
    0 ((nzero, nzero, nzero), 0%nat, nzero, nzero) ms.
End series.

(** ** The series are what the indicators compute on every prefix *)

Section agreement.
Context {F : Type} `{HF : PyFloat F}.
Context (fpow : F -> F -> F).
Local Open Scope py_scope.
Implicit Types closes highs lows l : list F.

(** The values of [f] on the prefixes of lengths 1, 2, ... *)
Definition on_prefixes {A B} (f : list A -> B) (l : list A) : list B :=
  map (fun i => f (take (S i) l)) (List.seq 0 (length l)).

Lemma foldl_from_snoc {S A} (g : S -> A -> S) s n (l : list A) x : (n <= length l)%nat ->
  foldl g s (drop n (l ++ [x])) = g (foldl g s (drop n l)) x.
Proof. intros. by rewrite drop_snoc_le, foldl_app. Qed.

Lemma take_prefix {A} n (pre : list A) x rest : (n <= length pre + 1)%nat ->
  take n (pre ++ x :: rest) = take n (pre ++ [x]).
Proof.
  intros Hn. replace (pre ++ x :: rest) with ((pre ++ [x]) ++ rest) by by rewrite <- app_assoc.
  rewrite take_app_le; [done|]. rewrite length_app. cbn. lia.
Qed.

Lemma ema_average_snoc period l x : (period <= length l)%nat ->
  ema_average period (l ++ [x]) = ema_step period (ema_average period l) x.
Proof. intros. unfold ema_average. by rewrite foldl_from_snoc, take_snoc_le. Qed.

Lemma wilder_average_snoc period l x : (period <= length l)%nat ->
  wilder_average period (l ++ [x]) = wilder period (wilder_average period l) x.
Proof. intros. unfold wilder_average. by rewrite foldl_from_snoc, take_snoc_le. Qed.

Ltac nat_cases :=
  repeat match goal with
  | |- context [Nat.ltb ?a ?b] => destruct (Nat.ltb_spec a b)
  | |- context [Nat.eqb ?a ?b] => destruct (Nat.eqb_spec a b)
  | |- context [Nat.leb ?a ?b] => destruct (Nat.leb_spec a b)
  end; try lia.

Lemma ema_series_agrees closes period : (1 <= period)%nat ->
  _ema_series closes period = on_prefixes (fun l => compute_ema l period) closes.
Proof.
  intros Hp. unfold _ema_series, on_prefixes.
  apply (scan_spec _ (fun l => compute_ema l period)
    (fun pre ema => (period <= length pre)%nat -> ema = ema_average period pre)); [cbn; lia|].
  intros pre x rest ema E Hi. unfold compute_ema. rewrite last_snoc, length_snoc. nat_cases; [split; [lia|done]|..].
  - assert (nsum (take period closes) / nnat period = ema_average period (pre ++ [x])) as ->; [|done].
    unfold ema_average. by rewrite E, drop_ge, take_prefix by (rewrite ?length_snoc; lia).
  - change ((x - ema) * (nofZ 2 / nnat (period + 1)) + ema) with (ema_step period ema x).
    by rewrite Hi, ema_average_snoc by lia.
Qed.

Lemma deltas_snoc l y x : deltas ((l ++ [y]) ++ [x]) = deltas (l ++ [y]) ++ [x - y].
Proof.
  induction l as [|a l IH]; [done|]. destruct l as [|b l]; [done|]. cbn in *. by rewrite IH.
Qed.

Lemma length_deltas l : length (deltas l) = (length l - 1)%nat.
Proof.
  induction l as [|a l IH]; [done|]. destruct l as [|b l]; [done|]. cbn in *. lia.
Qed.

Lemma at_app_l l l' i : (i < length l)%nat -> at_ (l ++ l') i = at_ l i.
Proof. intros. unfold at_. by rewrite app_nth1. Qed.

Lemma deltas_at l : deltas l = map (fun j => at_ l j - at_ l (j - 1)) (List.seq 1 (length l - 1)).
Proof.
  induction l as [|x l IH] using rev_ind; [done|].
  destruct l as [|y l _] using rev_ind; [done|]. rewrite deltas_snoc, IH.
  rewrite !length_snoc. replace (length l + 1 - 1)%nat with (length l) by lia.
  replace (length l + 1 + 1 - 1)%nat with (S (length l)) by lia.
  rewrite seq_S, map_app. f_equal.
  - apply map_ext_in. intros j Hj%in_seq. by rewrite !(at_app_l _ [x]) by (rewrite length_snoc; lia).
  - cbn. unfold at_. rewrite (app_nth2 _ [x]) by (rewrite length_snoc; lia).
    rewrite (app_nth1 (l ++ [y])) by (rewrite length_snoc; lia).
    rewrite (app_nth2 l) by lia. rewrite length_snoc. cbn.
    replace (S (length l) - (length l + 1))%nat with 0%nat by lia.
    replace (length l - 0 - length l)%nat with 0%nat by lia. done.
Qed.

Lemma rsi_series_agrees closes period : (1 <= period)%nat ->
  _rsi_series closes period = on_prefixes (fun l => compute_rsi l period) closes.
Proof.
  intros Hp. unfold _rsi_series, on_prefixes.
  apply (scan_spec _ (fun l => compute_rsi l period)
    (fun pre '(g, s) => (period + 1 <= length pre)%nat ->
       g = wilder_average period (map gain (deltas pre)) /\
       s = wilder_average period (map loss (deltas pre)))); [cbn; lia|].
  intros pre x rest [g s] E Hi. cbn beta iota zeta. unfold compute_rsi. rewrite length_snoc.
  nat_cases; [split; [cbn; lia|done]|..].
  - assert (deltas (pre ++ [x]) = map (fun j => at_ closes j - at_ closes (j - 1)) (List.seq 1 period)) as Ed.
    { rewrite deltas_at, length_snoc. replace (length pre + 1 - 1)%nat with period by lia.
      apply map_ext_in. intros j Hj%in_seq. subst closes.
      replace (pre ++ x :: rest) with ((pre ++ [x]) ++ rest) by by rewrite <- app_assoc.
      by rewrite !(at_app_l _ rest) by (rewrite length_snoc; lia). }
    cbn [fst snd]. rewrite <- Ed.
    assert (forall h : F -> F, wilder_average period (map h (deltas (pre ++ [x]))) =
      nsum (map h (deltas (pre ++ [x]))) / nnat period) as Ew.
    { intros h. unfold wilder_average.
      assert (length (map h (deltas (pre ++ [x]))) = period) as El by
        (rewrite length_map, length_deltas, length_snoc; lia).
      rewrite drop_ge, take_ge by lia. done. }
    rewrite !Ew. done.
  - destruct (Hi ltac:(lia)) as [-> ->]. cbn [fst snd].
    destruct pre as [|y pre _] using rev_ind; [cbn in *; lia|].
    assert (at_ closes (length (pre ++ [y])) - at_ closes (length (pre ++ [y]) - 1) = x - y) as Ed.
    { subst closes. unfold at_. rewrite app_nth2, Nat.sub_diag by lia.
      rewrite app_nth1 by (rewrite length_snoc; lia). rewrite app_nth2 by (rewrite length_snoc; lia).
      rewrite length_snoc. cbn. by replace (length pre + 1 - 1 - length pre)%nat with 0%nat by lia. }
    rewrite Ed, deltas_snoc, !map_app. cbn [map].
    rewrite length_snoc in *.
    rewrite !wilder_average_snoc by (rewrite length_map, length_deltas, length_snoc; lia).
    done.
Qed.

Lemma macd_state_snoc fast slow l x : (fast <= slow)%nat -> (slow <= length l)%nat ->
  macd_state fast slow (l ++ [x]) = macd_step fast slow (macd_state fast slow l) x.
Proof.
  intros. unfold macd_state, macd_seed. by rewrite foldl_from_snoc, !take_snoc_le by lia.
Qed.

Lemma macd_state_seed fast slow l : length l = slow -> macd_state fast slow l = macd_seed fast slow l.
Proof. intros. unfold macd_state. by rewrite drop_ge by lia. Qed.

Lemma macd_hist_series_agrees closes fast slow signal_period :
  (fast <= slow)%nat -> (1 <= signal_period)%nat ->
  _macd_hist_series closes fast slow signal_period =
    on_prefixes (fun l => snd (compute_macd l fast slow signal_period)) closes.
Proof.
  intros Hfs Hsp. unfold _macd_hist_series, on_prefixes.
  apply (scan_spec _ (fun l => snd (compute_macd l fast slow signal_period))
    (fun pre '(ef, es, values, sig) =>
       (slow < length pre -> macd_state fast slow pre = (ef, es, values))%nat /\
       length values = (length pre - slow)%nat /\
       (slow + signal_period <= length pre -> sig = ema_average signal_period values)%nat));
    [cbn; split_and!; lia|].
  intros pre x rest [[[ef es] values] sig] E (Hst & Hlen & Hsig). cbn beta iota zeta.
  unfold compute_macd. rewrite length_snoc.
  destruct (Nat.leb_spec (length pre + 1) slow) as [Hle|Hgt].
  { nat_cases. split; [cbn; split_and!; lia|done]. }
  set (seeds := if (length pre + 1 =? slow + 1)%nat then _ else (ef, es)).
  assert (macd_state fast slow pre = (seeds.1, seeds.2, values)) as Epre.
  { subst seeds. destruct (Nat.eqb_spec (length pre + 1) (slow + 1)).
    - rewrite macd_state_seed by lia. unfold macd_seed. subst closes.
      rewrite !take_app_le by lia. destruct values; [done|cbn in Hlen; lia].
    - rewrite Hst by lia. done. }
  destruct seeds as [ef' es']. cbn [fst snd] in Epre. cbn beta iota zeta.
  pose proof (macd_state_snoc fast slow pre x Hfs ltac:(lia)) as Enew. rewrite Epre in Enew.
  cbn [macd_step] in Enew. change ((x - ef') * (nofZ 2 / nnat (fast + 1)) + ef') with (ema_step fast ef' x).
  change ((x - es') * (nofZ 2 / nnat (slow + 1)) + es') with (ema_step slow es' x).
  rewrite Enew. cbn [snd]. set (newest := ema_step fast ef' x - ema_step slow es' x) in *.
  rewrite length_snoc, Hlen, last_snoc. cbn [default].
  destruct (Nat.ltb_spec (length pre + 1) (slow + signal_period)) as [Hs|Hs].
  { split; [|done]. cbn [fst]. rewrite !length_snoc. split_and!; [done|lia|lia]. }
  nat_cases; cbn [fst snd]; rewrite ?length_snoc.
  - assert (nsum (take signal_period (values ++ [newest])) / nnat signal_period =
      ema_average signal_period (values ++ [newest])) as ->.
    { unfold ema_average. by rewrite drop_ge by (rewrite length_snoc; lia). }
    split; [split_and!; [done|lia|done]|done].
  - change ((newest - sig) * (nofZ 2 / nnat (signal_period + 1)) + sig) with (ema_step signal_period sig newest).
    rewrite Hsig, <- ema_average_snoc by lia. split; [split_and!; [done|lia|done]|done].
Qed.

Lemma bollinger_rows_agree closes period std_dev : (1 <= period)%nat ->
  bollinger_rows fpow closes period std_dev =
    on_prefixes (fun l => let '(u, m, w) := compute_bollinger fpow l period std_dev in (u, m, w)) closes.
Proof.
  intros Hp. unfold bollinger_rows, on_prefixes.
  apply (scan_spec _ (fun l => let '(u, m, w) := compute_bollinger fpow l period std_dev in (u, m, w))
    (fun _ _ => True)); [done|].
  intros pre x rest [] E _. split; [done|]. unfold compute_bollinger. rewrite length_snoc.
  nat_cases; [done|]. unfold last_n. rewrite length_snoc.
  assert (take period (drop (length pre + 1 - period) closes) =
    drop (length pre + 1 - period) (pre ++ [x])) as ->; [|done].
  subst closes. replace (pre ++ x :: rest) with ((pre ++ [x]) ++ rest) by by rewrite <- app_assoc.
  rewrite drop_app_le by (rewrite length_snoc; lia).
  rewrite take_app_le by (rewrite length_drop, length_snoc; lia).
  rewrite take_ge by (rewrite length_drop, length_snoc; lia). done.
Qed.

(** *** The directional index *)

Lemma length_movements bars : length (movements bars) = (length bars - 1)%nat.
Proof.
  induction bars as [|a l IH]; [done|]. destruct l as [|b l]; [done|]. cbn in *. lia.
Qed.

Lemma movements_take bars i : movements (take (S i) bars) = take i (movements bars).
Proof.
  revert i. induction bars as [|a l IH]; intros [|i]; try done. destruct l as [|b l]; [done|].
  change (movements (a :: b :: l)) with (movement a b :: movements (b :: l)).
  change (take (S i) (movement a b :: movements (b :: l))) with (movement a b :: take i (movements (b :: l))).
  by rewrite <- IH.
Qed.

Lemma dx_state_snoc period ms m : (period <= length ms)%nat ->
  dx_state period (ms ++ [m]) = dx_step period (dx_state period ms) m.
Proof. intros. unfold dx_state, adx_seed. by rewrite foldl_from_snoc, take_snoc_le. Qed.

Lemma dx_state_seed period ms : (length ms <= period)%nat -> dx_state period ms = (adx_seed period ms, []).
Proof. intros. unfold dx_state. by rewrite drop_ge by lia. Qed.

Lemma length_dx_state period ms :
  length (snd (dx_state period ms)) = (length ms - period)%nat.
Proof.
  induction ms as [|m ms IH] using rev_ind; [by rewrite dx_state_seed by (cbn; lia)|]. rewrite length_snoc.
  destruct (Nat.le_gt_cases period (length ms)).
  - rewrite dx_state_snoc by lia. unfold dx_step. destruct (dx_state period ms). cbn in *.
    rewrite length_snoc. lia.
  - rewrite dx_state_seed by (rewrite length_snoc; lia). cbn. lia.
Qed.

Lemma nsum_snoc l x : nsum (l ++ [x]) = nsum l + x.
Proof. unfold nsum. by rewrite foldl_app. Qed.

Lemma nnil (l : list F) : length l <> 0%nat -> forall A (a b : A), match l with [] => a | _ => b end = b.
Proof. by destruct l. Qed.

Lemma adx_of_snoc period dxs dx : (1 <= period)%nat ->
  adx_of period (dxs ++ [dx]) =
    let n := (length dxs + 1)%nat in
    if (n <? period)%nat then (nsum dxs + dx) / nnat n
    else if (n =? period)%nat then (nsum dxs + dx) / nnat period
    else wilder period (adx_of period dxs) dx.
Proof.
  intros Hp. cbn zeta. unfold adx_of at 1. rewrite nnil by (rewrite length_snoc; lia).
  rewrite length_snoc. nat_cases.
  - by rewrite drop_ge, nsum_snoc by (rewrite length_snoc; lia).
  - rewrite drop_ge, take_ge, nsum_snoc by (rewrite length_snoc; lia). done.
  - rewrite foldl_from_snoc, take_snoc_le by lia. unfold adx_of. rewrite nnil by lia. by nat_cases.
Qed.

(** The ADX from the movements of a prefix of the bars. *)
Definition adx_after (period : nat) (ms : list (F * F * F)) : F :=
  if (length ms <=? period)%nat then ADX_NEUTRAL else adx_of period (snd (dx_state period ms)).

Lemma adx_loop_agrees period ms : (1 <= period)%nat ->
  scan (fun i '(sums, dx_count, dx_running_sum, adx_state) m =>
    let tr_count := (i + 1)%nat in
    if (tr_count <? period)%nat then (sums, dx_count, dx_running_sum, adx_state, ADX_NEUTRAL)
    else if (tr_count =? period)%nat then
      (adx_seed period ms, dx_count, dx_running_sum, adx_state, ADX_NEUTRAL)
    else
      let sums := adx_smooth period sums m in
      let dx := dx_of sums in
      let dx_count := (dx_count + 1)%nat in
      let dx_running_sum := dx_running_sum + dx in
      let adx_state :=
        if (dx_count <? period)%nat then dx_running_sum / nnat dx_count
        else if (dx_count =? period)%nat then dx_running_sum / nnat period
        else (adx_state * nnat (period - 1) + dx) / nnat period in
      (sums, dx_count, dx_running_sum, adx_state, adx_state))
    0 ((nzero, nzero, nzero), 0%nat, nzero, nzero) ms
  = on_prefixes (adx_after period) ms.
Proof.
  intros Hp. unfold on_prefixes. apply (scan_spec _ (adx_after period)
    (fun pre '(sums, n, total, st) => exists dxs, n = length dxs /\ total = nsum dxs /\
       length dxs = (length pre - period)%nat /\ (dxs <> [] -> st = adx_of period dxs) /\
       ((period <= length pre)%nat -> dx_state period pre = (sums, dxs)))).
  { exists []. split_and!; try done. cbn. lia. }
  intros pre m rest [[[sums n] total] st] E (dxs & -> & -> & Hlen & Hst & Hdx). cbn beta iota zeta.
  unfold adx_after. rewrite length_snoc.
  destruct (Nat.ltb_spec (length pre + 1) period) as [H1|H1].
  { nat_cases. split; [|done]. exists dxs. split_and!; try done; lia. }
  destruct (Nat.eqb_spec (length pre + 1) period) as [H2|H2].
  { nat_cases. split; [|done]. exists dxs. split_and!; try done; [lia|].
    intros _. rewrite dx_state_seed by (rewrite length_snoc; lia). unfold adx_seed.
    rewrite E, (take_prefix period pre m rest) by lia. destruct dxs; [done|cbn in Hlen; lia]. }
  set (sums' := adx_smooth period sums m). set (dx := dx_of sums').
  assert (dx_state period (pre ++ [m]) = (sums', dxs ++ [dx])) as Enew by
    (rewrite dx_state_snoc, Hdx by lia; done).
  rewrite Enew. cbn [snd]. set (st' := if (_ <? period)%nat then _ else _).
  assert (st' = adx_of period (dxs ++ [dx])) as ->.
  { subst st'. rewrite adx_of_snoc by done. cbn zeta. nat_cases; [done..|].
    rewrite Hst; [done|]. intros ->. cbn in *. lia. }
  cbn [fst snd]. split; [|by nat_cases]. exists (dxs ++ [dx]).
  rewrite length_snoc, nsum_snoc. split_and!; [done|done|lia|done|done].
Qed.

Lemma take_hlc n highs lows closes :
  hlc (take n highs) (take n lows) (take n closes) = take n (hlc highs lows closes).
Proof.
  unfold hlc. revert highs lows closes.
  induction n as [|n IH]; intros [|h highs] [|l lows] [|c closes]; try done. cbn. f_equal. apply IH.
Qed.

(** ADX at bar [i] of the series is [compute_adx] on the bars up to it. *)
Lemma adx_series_agrees highs lows closes period : (1 <= period)%nat ->
  length highs = length closes -> length lows = length closes ->
  adx_series highs lows closes period =
    map (fun i => compute_adx (take (S i) highs) (take (S i) lows) (take (S i) closes) period)
      (List.seq 0 (length closes)).
Proof.
  intros Hp Eh El. unfold adx_series.
  assert (length (hlc highs lows closes) = length closes) as Ehlc by
    (unfold hlc; rewrite !length_combine; lia).
  assert (forall i, (i < length closes)%nat ->
    compute_adx (take (S i) highs) (take (S i) lows) (take (S i) closes) period =
    adx_after period (take i (movements (hlc highs lows closes)))) as Hadx.
  { intros i Hi. unfold compute_adx, adx_after. rewrite take_hlc, movements_take.
    rewrite !length_take, length_movements, Ehlc, Eh, El. nat_cases; done. }
  destruct (Nat.ltb_spec (length closes) (period + 2)).
  - apply (nth_ext _ _ ADX_NEUTRAL ADX_NEUTRAL); [by rewrite repeat_length, length_map, length_seq|].
    intros i Hi. rewrite repeat_length in Hi. rewrite nth_repeat.
    rewrite (nth_indep _ _ (compute_adx (take 1 highs) (take 1 lows) (take 1 closes) period)) by
      by rewrite length_map, length_seq.
    rewrite (map_nth (fun i => compute_adx (take (S i) highs) (take (S i) lows) (take (S i) closes) period) _ 0%nat).
    rewrite seq_nth, Hadx by lia. unfold adx_after.
    rewrite length_take, length_movements, Ehlc. nat_cases; done.
  - rewrite adx_loop_agrees by done. unfold on_prefixes.
    destruct (length closes) as [|n] eqn:En; [lia|]. cbn [List.seq map]. f_equal.
    + rewrite <- (Nat.add_0_l 1), Nat.add_0_l. rewrite Hadx by lia. unfold adx_after. cbn. done.
    + rewrite length_movements, Ehlc, <- seq_shift, map_map. replace (S n - 1)%nat with n by lia.
      apply map_ext_in. intros i Hi%in_seq. by rewrite <- Hadx by lia.
Qed.
End agreement.

(** The backtester sees what the live system would have seen: at every bar, each
    series of the one-pass rewrite holds exactly, float for float, what the live
    indicator computes on the bars up to that one, so none of them looks ahead. *)
Theorem indicator_series_agree {F} `{PyFloat F} fpow (highs lows closes : list F)
    (fast slow bb_period adx_period : nat) (std_dev : F) :
  (1 <= fast)%nat -> (1 <= slow)%nat -> (1 <= bb_period)%nat -> (1 <= adx_period)%nat ->
  length highs = length closes -> length lows = length closes ->
  let s := build closes fast slow in
  let b := bollinger fpow closes bb_period std_dev in
  ema_fast s = on_prefixes (fun l => compute_ema l fast) closes /\
  ema_slow s = on_prefixes (fun l => compute_ema l slow) closes /\
  rsi s = on_prefixes (fun l => compute_rsi l 14) closes /\
  macd_hist s = on_prefixes (fun l => snd (compute_macd l 12 26 9)) closes /\
  combine (combine (upper b) (middle b)) (lower b) =
    on_prefixes (fun l => compute_bollinger fpow l bb_period std_dev) closes /\
  adx_series highs lows closes adx_period =
    map (fun i => compute_adx (take (S i) highs) (take (S i) lows) (take (S i) closes) adx_period)
      (List.seq 0 (length closes)).
Proof.
  intros H1 H2 H3 H4 H5 H6. cbn [build bollinger ema_fast ema_slow rsi macd_hist upper middle lower].
  split_and!.
  - by apply ema_series_agrees.
  - by apply ema_series_agrees.
  - apply rsi_series_agrees. lia.
  - apply macd_hist_series_agrees; lia.
  - transitivity (bollinger_rows fpow closes bb_period std_dev).
    + induction (bollinger_rows fpow closes bb_period std_dev) as [|[[u m] w] l IH]; [done|].
      cbn. f_equal. exact IH.
    + rewrite bollinger_rows_agree by done. unfold on_prefixes. apply map_ext.
      intros i. by destruct (compute_bollinger _ _ _ _) as [[u m] w].
  - by apply adx_series_agrees.
Qed.

(** ** Ranges (exact arithmetic) *)

Section ranges.
Local Open Scope Q_scope.

Lemma nsum_nonneg (l : list Q) : Forall (fun x => 0 <= x) l -> 0 <= nsum l.
Proof.
  unfold nsum. assert (forall acc : Q, 0 <= acc -> Forall (fun x => 0 <= x) l -> 0 <= foldl nadd acc l) as H.
  { induction l as [|x l IH]; intros acc Ha Hl; [done|]. apply Forall_cons in Hl as [Hx Hl].
    cbn. apply IH; [cbn; lra|done]. }
  apply H. cbn. done.
Qed.

Lemma wilder_average_nonneg period (l : list Q) : (1 <= period)%nat ->
  Forall (fun x => 0 <= x) l -> 0 <= wilder_average period l.
Proof.
  intros Hp Hl. assert (0 < (nnat period : Q)) as Hn by (unfold nnat, nofZ, Qlt; cbn; lia).
  assert (0 <= (nnat (period - 1) : Q)) as Hn1 by (unfold nnat, nofZ, Qle; cbn; lia).
  unfold wilder_average.
  assert (0 <= nsum (take period l) / nnat period) as H0.
  { apply Qle_shift_div_l; [done|]. rewrite Qmult_0_l. by apply nsum_nonneg, Forall_take. }
  assert (Forall (fun x => 0 <= x) (drop period l)) as Hd by by apply Forall_drop.
  revert H0 Hd. cbn [ndiv exact]. generalize (nsum (take period l) / nnat period).
  induction (drop period l) as [|x r IH]; intros a Ha Hr; [done|].
  apply Forall_cons in Hr as [Hx Hr]. cbn [foldl]. apply IH; [|done].
  unfold wilder. cbn [nadd nmul ndiv exact]. apply Qle_shift_div_l; [done|]. rewrite Qmult_0_l.
  pose proof (Qmult_le_0_compat _ _ Ha Hn1). lra.
Qed.

(** RSI is between 0 and 100 whatever the closes. *)
Lemma rsi_range (closes : list Q) period : (1 <= period)%nat ->
  0 <= compute_rsi closes period /\ compute_rsi closes period <= 100.
Proof.
  intros Hp. unfold compute_rsi. destruct (_ <? _)%nat; [split; done|].
  set (g := wilder_average _ (map gain _)). set (s := wilder_average _ (map loss _)).
  assert (0 <= g) as Hg.
  { apply wilder_average_nonneg; [done|]. apply Forall_forall. intros x (d & -> & _)%elem_of_map.
    unfold gain. rewrite Q_nmax_spec. apply Q.le_max_r. }
  assert (0 <= s) as Hs.
  { apply wilder_average_nonneg; [done|]. apply Forall_forall. intros x (d & -> & _)%elem_of_map.
    apply Qabs_nonneg. }
  unfold rsi_of. destruct (neqb s nzero) eqn:E; [split; done|]. reflect_Q.
  change (nzero : Q) with 0 in E. cbn [nsub ndiv nadd exact]. change (nofZ 100 : Q) with 100. change (n_one : Q) with 1.
  assert (0 < s) as Hs' by (apply Qnot_le_lt; intros ?; apply E; lra).
  assert (0 <= g / s) as Hgs by (apply Qle_shift_div_l; [done|lra]).
  revert Hgs. generalize (g / s). intros r Hgs.
  assert (0 <= 100 / (1 + r)) by (apply Qle_shift_div_l; lra).
  assert (100 / (1 + r) <= 100) by (apply Qle_shift_div_r; lra). lra.
Qed.

(** The Bollinger position is a fraction. *)
Lemma bb_position_range (price up low : Q) : 0 <= _bb_position price up low <= 1.
Proof.
  unfold _bb_position. destruct (nleb _ _); [split; [done|]; unfold Qle; cbn; lia|].
  rewrite Q_nmax_spec, Q_nmin_spec. change (nzero : Q) with 0. change (n_one : Q) with 1. split; [apply Q.le_max_l|].
  apply Q.max_lub; [done|apply Q.le_min_l].
Qed.
End ranges.

(** ** Concrete bars: sixty quarters of an hour at binary64 *)

Module Tape.
Definition fpow (x _ : spec_float) : spec_float := x.
Definition price (i : nat) : spec_float := nlit (1000 + Z.of_nat (i * i * 7 mod 61)) 10.
Definition closes : list spec_float := map price (List.seq 0 60).
Definition highs : list spec_float := map (fun c => nadd c (nlit 1 2)) closes.
Definition lows : list spec_float := map (fun c => nsub c (nlit 3 10)) closes.
End Tape.

Lemma indicator_series_agree_witness :
  nth 50 (rsi (build Tape.closes 20 50)) nzero = compute_rsi (take 51 Tape.closes) 14 /\
  nth 40 (adx_series Tape.highs Tape.lows Tape.closes ADX_PERIOD) nzero =
    compute_adx (take 41 Tape.highs) (take 41 Tape.lows) (take 41 Tape.closes) ADX_PERIOD.
Proof.
  destruct (indicator_series_agree Tape.fpow Tape.highs Tape.lows Tape.closes 20 50 20 ADX_PERIOD
    (nofZ 2)) as (_ & _ & Hr & _ & _ & Ha); [unfold ADX_PERIOD; lia..|reflexivity|reflexivity|].
  split; [rewrite Hr|rewrite Ha]; reflexivity.
Defined.
