(* ===== verification/Regime.v ===== *)
(** * What the market was doing, and the report

    Models [libs/attribution/src/attribution/regime.py] (the reading of a regime, the
    shift, the slices), the regime part of [attribute.py] (the diagnostics), and
    [build_report] of [report.py] with the coverage of [models.py]. A price of a bar that
    [float] refuses is [None], as is a stamp that does not parse; the bars of the journal
    have neither. *)

From S2P Require Import Prelude PyFloat Store Contracts Journal JournalTheorems Attribution Indicators.
From Stdlib Require Import Floats.SpecFloat.

Record RawBar (F : Type) := {
  raw_ts : option datetime;
  raw_high : option F;
  raw_low : option F;
  raw_close : option F
}.
Arguments raw_ts {F}. Arguments raw_high {F}. Arguments raw_low {F}. Arguments raw_close {F}.

Definition UNAVAILABLE : string := "unknown".

Record RegimeReading (F : Type) := {
  label : string;
  volatility : string;
  rg_adx : option F;
  atr_pct : option F;
  net_move_pct : option F;
  bars_used : nat;
  available : bool;
  rg_reason : string;
  point_in_time : string
}.
Arguments label {F}. Arguments volatility {F}. Arguments rg_adx {F}. Arguments atr_pct {F}.
Arguments net_move_pct {F}. Arguments bars_used {F}. Arguments available {F}.
Arguments rg_reason {F}. Arguments point_in_time {F}.

Section regime.
Context {F : Type} `{PyFloat F}.
Local Open Scope py_scope.

Definition ADX_TREND_THRESHOLD : F := nofZ 20.
Definition MIN_BARS_FOR_ADX : nat := ADX_MIN_BARS.
Definition MIN_BARS_FOR_VOLATILITY : nat := 20.
Definition VOLATILITY_BAND : F := nlit 35 100.

(** Bars at or before the moment, oldest first. *)
Definition at_or_before (moment : datetime) (b : RawBar F) : bool :=
  match raw_ts b with Some t => (t <=? moment)%Z | None => false end.
Definition earlier_bar (a b : RawBar F) : bool :=
  (default 0%Z (raw_ts a) <=? default 0%Z (raw_ts b))%Z.
Definition bars_up_to (bars : list (RawBar F)) (moment : datetime) : list (RawBar F) :=
  sort_by earlier_bar (List.filter (at_or_before moment) bars).

Definition _median (values : list F) : F :=
  let ordered := sort_by nleb values in
  let middle := Nat.div (length ordered) 2 in
  if Nat.eqb (Nat.modulo (length ordered) 2) 0
  then (nth (middle - 1) ordered nzero + nth middle ordered nzero) / nofZ 2
  else nth middle ordered nzero.

Definition _volatility (highs lows closes : list F) : string * option F :=
  let atr := compute_atr highs lows closes ADX_PERIOD in
  let price := default nzero (last closes) in
  if negb (ntrue price) then (UNAVAILABLE, None) else
  let atr_pct := atr / price in
  if (length closes <? MIN_BARS_FOR_VOLATILITY)%nat then (UNAVAILABLE, Some atr_pct) else
  let ranges := map (fun '(h, l, c) => (h - l) / c)
    (List.filter (fun '(_, _, c) => ntrue c) (hlc highs lows closes)) in
  if (length ranges <? MIN_BARS_FOR_VOLATILITY)%nat then (UNAVAILABLE, Some atr_pct) else
  let reference := _median ranges in
  if reference <=? nzero then (UNAVAILABLE, Some atr_pct) else
  let ratio := atr_pct / reference in
  (if ratio >=? n_one + VOLATILITY_BAND then "agitated"
   else if ratio <=? n_one - VOLATILITY_BAND then "calm" else "normal", Some atr_pct).

(** The numbers of a column, where none is missing. *)
Definition column (f : RawBar F -> option F) (window : list (RawBar F)) : option (list F) :=
  mapM f window.

Definition unreadable (n : nat) (reason how : string) : RegimeReading F :=
  {| label := UNAVAILABLE; volatility := UNAVAILABLE; rg_adx := None; atr_pct := None;
     net_move_pct := None; bars_used := n; available := false; rg_reason := reason;
     point_in_time := how |}.

Definition trend_label (adx : F) (net_move : option F) : string :=
  if adx <? ADX_TREND_THRESHOLD then "ranging" else
  match net_move with
  | None => "trending_unsigned"
  | Some m => if m >=? nzero then "trending_up" else "trending_down"
  end.

Definition classify (bars : list (RawBar F)) (moment : datetime) (how : string) : RegimeReading F :=
  let window := bars_up_to bars moment in
  let n := length window in
  if (n <? MIN_BARS_FOR_ADX)%nat then
    unreadable n ("need " +:+ str_of_Z (Z.of_nat MIN_BARS_FOR_ADX) +:+ " bars to compute ADX, have "
                  +:+ str_of_Z (Z.of_nat n)) how
  else
  match column raw_high window, column raw_low window, column raw_close window with
  | Some highs, Some lows, Some closes =>
      let adx := compute_adx highs lows closes ADX_PERIOD in
      let start := nth (n - MIN_BARS_FOR_ADX) closes nzero in
      let end_ := default nzero (last closes) in
      let net_move := if ntrue start then Some ((end_ - start) / start) else None in
      let '(volatility, atr_pct) := _volatility highs lows closes in
      {| label := trend_label adx net_move; volatility := volatility;
         rg_adx := Some (nround 4 adx); atr_pct := nround 6 <$> atr_pct;
         net_move_pct := nround 6 <$> net_move; bars_used := n; available := true;
         rg_reason := ""; point_in_time := how |}
  | _, _, _ => unreadable n "series has bars with missing high/low/close" how
  end.

(** Whether the regime changed under the trade: [changed] is [None] where an end could
    not be classified. *)
Record Shift := {
  changed : option bool;
  from_ : string;
  to_ : string;
  volatility_from : option string;
  volatility_to : option string
}.
Definition describe_shift (entry exit_ : RegimeReading F) : Shift :=
  if negb (available entry && available exit_) then
    {| changed := None; from_ := label entry; to_ := label exit_; volatility_from := None;
       volatility_to := None |}
  else
    {| changed := Some (negb (String.eqb (label entry) (label exit_))); from_ := label entry;
       to_ := label exit_; volatility_from := Some (volatility entry);
       volatility_to := Some (volatility exit_) |}.
End regime.

(** ** attribute.py: the diagnostics *)

Record Diagnostics (F : Type) := {
  dg_exit_reason : string;
  dg_held_for_minutes : F;
  entry_regime : RegimeReading F;
  exit_regime : RegimeReading F;
  regime_shift : Shift;
  bars_in_hold : nat;                        (** none: the excursions are not available *)
  dg_excursions : option (F * F * option F)  (** favourable, adverse, capture ratio *)
}.
Arguments dg_exit_reason {F}. Arguments dg_held_for_minutes {F}. Arguments entry_regime {F}.
Arguments exit_regime {F}. Arguments regime_shift {F}. Arguments bars_in_hold {F}.
Arguments dg_excursions {F}.

(** An attribution with its diagnostics. *)
Record Explained (F : Type) := {
  e_attribution : Attribution F;
  diagnostics : Diagnostics F
}.
Arguments e_attribution {F}. Arguments diagnostics {F}.

Section diagnostics.
Context {F : Type} `{PyFloat F}.

Definition raw_of (b : Bar F) : RawBar F :=
  {| raw_ts := Some (bar_ts b); raw_high := Some (high b); raw_low := Some (low b);
     raw_close := Some (close b) |}.

(** The entry is read from the series as of the entry, where the caller has it. *)
Definition _regime (t : RoundTrip F) (bars : list (Bar F)) (entry_bars : option (list (Bar F)))
    : RegimeReading F * RegimeReading F * Shift :=
  let entry := match entry_bars with
    | Some series => classify (map raw_of series) (l_at (t_entry t)) "as_of"
    | None => classify (map raw_of bars) (l_at (t_entry t)) "exit_series"
    end in
  let exit_ := classify (map raw_of bars) (l_at (t_exit t)) "as_of" in
  (entry, exit_, describe_shift entry exit_).

Definition _diagnostics (t : RoundTrip F) (bars : list (Bar F)) (entry_bars : option (list (Bar F)))
    : Diagnostics F :=
  let '(entry, exit_, shift) := _regime t bars entry_bars in
  {| dg_exit_reason := str_or (l_outcome (t_exit t)) "unknown";
     dg_held_for_minutes := nround 2 (held_for_minutes t);
     entry_regime := entry; exit_regime := exit_; regime_shift := shift;
     bars_in_hold := length (_bars_between t bars); dg_excursions := excursions t bars |}.

Definition explain (t : RoundTrip F) (bars : list (Bar F)) (entry_bars : option (list (Bar F)))
    : Explained F :=
  {| e_attribution := attribute t; diagnostics := _diagnostics t bars entry_bars |}.
End diagnostics.

(** ** report.py: the slices, the totals, the coverage *)

Record RegimeSlice (F : Type) := {
  sl_regime : string;
  sl_trades : nat;
  sl_realized : F;
  sl_from_signal : F;
  sl_execution_cost : F;
  sl_wins : nat;
  sl_incomplete : nat;
  sl_symbols : gset string
}.
Arguments sl_regime {F}. Arguments sl_trades {F}. Arguments sl_realized {F}.
Arguments sl_from_signal {F}. Arguments sl_execution_cost {F}. Arguments sl_wins {F}.
Arguments sl_incomplete {F}. Arguments sl_symbols {F}.

(** What [to_dict] publishes of a slice. *)
Record SliceRow (F : Type) := {
  sr_regime : string;
  sr_trades : nat;
  sr_realized : F;
  sr_from_signal : F;
  sr_execution_cost : F;
  sr_win_rate : option F;
  sr_incomplete : nat;
  sr_symbols : list string
}.
Arguments sr_regime {F}. Arguments sr_trades {F}. Arguments sr_realized {F}.
Arguments sr_from_signal {F}. Arguments sr_execution_cost {F}. Arguments sr_win_rate {F}.
Arguments sr_incomplete {F}. Arguments sr_symbols {F}.

Record ByRegime (F : Type) := {
  slices : list (string * RegimeSlice F);
  shift_known : nat;
  shifted : nat;
  shift_realized : F;
  steady_realized : F
}.
Arguments slices {F}. Arguments shift_known {F}. Arguments shifted {F}.
Arguments shift_realized {F}. Arguments steady_realized {F}.

Record CoverageReport (F : Type) := {
  cv_round_trips : nat;
  cv_attributable : nat;
  missing_counts : list (string * nat);
  environments : list (string * nat);
  identity_failures : nat
}.
Arguments cv_round_trips {F}. Arguments cv_attributable {F}. Arguments missing_counts {F}.
Arguments environments {F}. Arguments identity_failures {F}.

Record Totals (F : Type) := {
  to_trades : nat;
  to_realized : F;
  from_signal : F;
  from_entry_execution : F;
  from_exit_execution : F;
  execution_cost_total : F;
  to_fees : F;
  net_of_fees : F;
  mean_capture_ratio : option F;
  identity : F;
  identity_matches_realized : bool
}.
Arguments to_trades {F}. Arguments to_realized {F}. Arguments from_signal {F}.
Arguments from_entry_execution {F}. Arguments from_exit_execution {F}.
Arguments execution_cost_total {F}. Arguments to_fees {F}. Arguments net_of_fees {F}.
Arguments mean_capture_ratio {F}. Arguments identity {F}. Arguments identity_matches_realized {F}.

Section report.
Context {F : Type} `{PyFloat F}.
Local Open Scope py_scope.

Definition win_rate (s : RegimeSlice F) : option F :=
  if (sl_trades s =? 0)%nat then None
  else Some (nround 4 (nnat (sl_wins s) / nnat (sl_trades s))).

Definition slice_to_dict (s : RegimeSlice F) : SliceRow F :=
  {| sr_regime := sl_regime s; sr_trades := sl_trades s; sr_realized := nround 4 (sl_realized s);
     sr_from_signal := nround 4 (sl_from_signal s);
     sr_execution_cost := nround 4 (sl_execution_cost s); sr_win_rate := win_rate s;
     sr_incomplete := sl_incomplete s;
     sr_symbols := sort_by String.leb (elements (sl_symbols s)) |}.

Definition new_slice (k : string) : RegimeSlice F :=
  {| sl_regime := k; sl_trades := 0; sl_realized := nzero; sl_from_signal := nzero;
     sl_execution_cost := nzero; sl_wins := 0; sl_incomplete := 0; sl_symbols := ∅ |}.

(** The slice a trade is counted in: the regime it was entered into. *)
Definition slot_of (x : Explained F) : string :=
  let reading := entry_regime (diagnostics x) in
  if available reading then label reading else UNAVAILABLE.

Definition or0 (x : option F) : F := nor (default nzero x) nzero.

Definition add_trade (slot : RegimeSlice F) (x : Explained F) : RegimeSlice F :=
  let a := e_attribution x in
  let t := a_round_trip a in
  {| sl_regime := sl_regime slot;
     sl_trades := S (sl_trades slot);
     sl_realized := match realized t with Some r => sl_realized slot + r | None => sl_realized slot end;
     sl_from_signal := if complete a then sl_from_signal slot + or0 (signal a) * t_qty t
                       else sl_from_signal slot;
     sl_execution_cost :=
       if complete a then sl_execution_cost slot + (or0 (entry_execution a) + or0 (exit_execution a)) * t_qty t
       else sl_execution_cost slot;
     sl_wins := match realized t with
       | Some r => if r >? nzero then S (sl_wins slot) else sl_wins slot
       | None => sl_wins slot end;
     sl_incomplete := if complete a then sl_incomplete slot else S (sl_incomplete slot);
     sl_symbols := {[t_symbol t]} ∪ sl_symbols slot |}.

Definition regime_step (acc : ByRegime F) (x : Explained F) : ByRegime F :=
  let k := slot_of x in
  let slot := default (new_slice k) (dict_get k (slices acc)) in
  let r := or0 (realized (a_round_trip (e_attribution x))) in
  let slices := dict_set k (add_trade slot x) (slices acc) in
  match changed (regime_shift (diagnostics x)) with
  | None => {| slices := slices; shift_known := shift_known acc; shifted := shifted acc;
               shift_realized := shift_realized acc; steady_realized := steady_realized acc |}
  | Some true =>
      {| slices := slices; shift_known := S (shift_known acc); shifted := S (shifted acc);
         shift_realized := shift_realized acc + r; steady_realized := steady_realized acc |}
  | Some false =>
      {| slices := slices; shift_known := S (shift_known acc); shifted := shifted acc;
         shift_realized := shift_realized acc; steady_realized := steady_realized acc + r |}
  end.

Definition group_by_regime (l : list (Explained F)) : ByRegime F :=
  foldl regime_step {| slices := []; shift_known := 0; shifted := 0; shift_realized := nzero;
                       steady_realized := nzero |} l.

(** The largest slices first; the published totals are rounded. *)
Definition _by_regime (l : list (Explained F)) : list (SliceRow F) * (nat * nat * F * F) :=
  let g := group_by_regime l in
  (map slice_to_dict (sort_by (fun a b => (sl_trades b <=? sl_trades a)%nat) (dict_values (slices g))),
   (shift_known g, shifted g, nround 4 (shift_realized g), nround 4 (steady_realized g))).

Definition _totals (l : list (Explained F)) : option (Totals F) :=
  let whole := List.filter (fun x => complete (e_attribution x)) l in
  match whole with
  | [] => None
  | _ =>
      let weigh (get : Attribution F -> F) :=
        nround 4 (nsum (map (fun x => get (e_attribution x) * t_qty (a_round_trip (e_attribution x))) whole)) in
      let signal_ := weigh (fun a => or0 (signal a)) in
      let entry := weigh (fun a => or0 (entry_execution a)) in
      let exit_ := weigh (fun a => or0 (exit_execution a)) in
      let fees_ := nround 4 (nsum (map (fun x => fees (e_attribution x)) whole)) in
      let realized_ := weigh (fun a => or0 (realized_per_share (a_round_trip a))) in
      let captures := omap (fun x => match dg_excursions (diagnostics x) with
        | Some (_, _, c) => c | None => None end) whole in
      Some {| to_trades := length whole; to_realized := realized_; from_signal := signal_;
              from_entry_execution := entry; from_exit_execution := exit_;
              execution_cost_total := nround 4 (entry + exit_); to_fees := fees_;
              net_of_fees := nround 4 (realized_ - fees_);
              mean_capture_ratio := match captures with
                | [] => None
                | _ => Some (nround 4 (nsum captures / nlen captures)) end;
              identity := nround 4 (signal_ + entry + exit_);
              identity_matches_realized :=
                nabs ((signal_ + entry + exit_) - realized_) <? nlit 1 10000 |}
  end.

(** [d[k] = d.get(k, 0) + 1]. *)
Definition bump (k : string) (d : list (string * nat)) : list (string * nat) :=
  dict_set k (S (default 0%nat (dict_get k d))) d.

Definition cover (c : CoverageReport F) (x : Explained F) : CoverageReport F :=
  let a := e_attribution x in
  {| cv_round_trips := cv_round_trips c;
     cv_attributable := if complete a then S (cv_attributable c) else cv_attributable c;
     missing_counts := foldl (fun d k => bump k d) (missing_counts c) (missing a);
     environments := bump (t_environment (a_round_trip a)) (environments c);
     identity_failures :=
       if complete a && negb (identity_holds (nlit 1 1000000) a) then S (identity_failures c)
       else identity_failures c |}.

Definition coverage_of (l : list (Explained F)) : CoverageReport F :=
  foldl cover {| cv_round_trips := length l; cv_attributable := 0; missing_counts := [];
                 environments := []; identity_failures := 0 |} l.

Definition coverage (c : CoverageReport F) : option F :=
  if (cv_round_trips c =? 0)%nat then None
  else Some (nround 4 (nnat (cv_attributable c) / nnat (cv_round_trips c))).

Definition verdict (c : CoverageReport F) : string :=
  if (cv_round_trips c =? 0)%nat then
    "no closed round trips in the archive — nothing to explain yet"
  else if negb (identity_failures c =? 0)%nat then
    str_of_Z (Z.of_nat (identity_failures c)) +:+ " attribution(s) did not reconstruct the " +:+
    "realised result — the decomposition is wrong, not merely incomplete"
  else
    let share := or0 (coverage c) in
    if share >=? nlit 95 100 then "the archive explains essentially every closed trade"
    else if share >=? nlit 7 10 then
      "most trades are explainable; the gaps below are what to fix before " +:+
      "relying on attribution"
    else "the archive cannot explain most of its own trades — later learning " +:+
         "phases would be built on sand until the gaps below are closed".

Record Report := {
  rp_coverage : CoverageReport F;
  rp_totals : option (Totals F);
  exit_reasons : list (string * nat);
  rp_by_regime : list (SliceRow F) * (nat * nat * F * F);
  attributions : list (Explained F);
  counterfactuals : list (string * datetime * option F * list (option (F * F)))
}.

Definition _entry_bars (e : io) (j : Journal F) (t : RoundTrip F) (timeframe : string) : list (Bar F) :=
  map bar_of (bars_as_of (t_symbol t) timeframe (l_at (t_entry t)) 1000 e j).

(** One trade of the report: its explanation and the series it was made from. [reads] is
    how the two reads of the archive go. *)
Definition explain_trade (with_series : bool) (timeframe : string) (reads : RoundTrip F -> io * io)
    (j : Journal F) (t : RoundTrip F) : Explained F * list (Bar F) :=
  let '(e_exit, e_entry) := reads t in
  let bars := if with_series then _point_in_time_bars e_exit j t timeframe else [] in
  let entry_bars := if with_series then Some (_entry_bars e_entry j t timeframe) else None in
  (explain t bars entry_bars, bars).

Definition report_of (with_counterfactuals with_regime : bool) (timeframe : string)
    (reads : RoundTrip F -> io * io) (j : Journal F) (trips : list (RoundTrip F)) : Report :=
  let rows := map (explain_trade (with_counterfactuals || with_regime) timeframe reads j) trips in
  let explained := map fst rows in
  {| rp_coverage := coverage_of explained; rp_totals := _totals explained;
     exit_reasons := foldl (fun d x => bump (dg_exit_reason (diagnostics x)) d) [] explained;
     rp_by_regime := _by_regime explained;
     attributions := explained;
     counterfactuals := omap (fun '(x, bars) =>
       let t := a_round_trip (e_attribution x) in
       if with_counterfactuals && negb (match bars with [] => true | _ => false end)
       then Some (t_symbol t, l_at (t_exit t), realized_per_share t, run_counterfactuals t bars)
       else None) rows |}.

(** [None] is the pairing running out of fuel, which it does not. *)
Definition build_report (strategy symbol environment_ : option string) (account : string)
    (start stop : option datetime) (timeframe : string) (with_counterfactuals with_regime : bool)
    (limit : nat) (e : io) (reads : RoundTrip F -> io * io) (j : Journal F) : option Report :=
  report_of with_counterfactuals with_regime timeframe reads j <$>
    load_round_trips strategy None symbol environment_ account start stop limit e j.
End report.

(** ** Readings *)

Section readings.
Context {F : Type} `{PyFloat F}.
Implicit Types bars : list (RawBar F).

Lemma bars_up_to_later bars later moment :
  Forall (fun b => at_or_before moment b = false) later ->
  bars_up_to (bars ++ later) moment = bars_up_to bars moment.
Proof.
  intros Hl. unfold bars_up_to. rewrite List.filter_app. f_equal.
  assert (List.filter (at_or_before moment) later = []) as ->; [|apply app_nil_r].
  induction Hl as [|b later Hb _ IH]; [done|]. cbn. by rewrite Hb.
Qed.

Lemma column_some (f : RawBar F -> option F) window xs :
  column f window = Some xs -> map Some xs = map f window /\ length xs = length window.
Proof.
  unfold column. intros Hc. pose proof (length_mapM _ _ _ Hc) as Hl. apply mapM_Some in Hc.
  split; [|done]. clear Hl. induction Hc as [|b x window xs Hb _ IH]; [done|]. cbn. by rewrite Hb, IH.
Qed.

Lemma column_none (f : RawBar F -> option F) window b :
  b ∈ window -> f b = None -> column f window = None.
Proof. intros Hb Hf. apply mapM_None, Exists_exists. by exists b. Qed.

(** Past the bar count, the ADX is the one of the recurrence. *)
Lemma adx_is_computed highs lows closes n : (ADX_MIN_BARS <= n)%nat ->
  length highs = n -> length lows = n -> length closes = n ->
  exists dx dxs, snd (dx_state ADX_PERIOD (movements (hlc highs lows closes))) = dx :: dxs /\
    compute_adx highs lows closes ADX_PERIOD = adx_of ADX_PERIOD (dx :: dxs).
Proof.
  unfold ADX_MIN_BARS, ADX_PERIOD. intros Hn Eh El Ec.
  assert (length (hlc highs lows closes) = n) as E by (unfold hlc; rewrite !length_combine; lia).
  pose proof (length_dx_state 14 (movements (hlc highs lows closes))) as Hl.
  rewrite length_movements, E in Hl. unfold compute_adx. rewrite length_movements, E, Eh, El, Ec.
  destruct (Nat.ltb_spec n (14 + 2)); [lia|]. cbn [orb].
  destruct (Nat.ltb_spec (n - 1) 14); [lia|].
  destruct (snd _) as [|dx dxs] eqn:Ed; [cbn in Hl; lia|]. by exists dx, dxs.
Qed.

Lemma trend_label_known adx net : trend_label adx net <> UNAVAILABLE.
Proof. unfold trend_label. destruct (nltb _ _), net as [m|]; [done..| |done]. by destruct (nleb _ _). Qed.
End readings.

(** A classification refuses to guess: it is available exactly when sixteen bars stand
    at or before the moment, every one with its prices, and then its ADX is the one of
    the recurrence over those bars and never the indicator's neutral sentinel; otherwise
    no number is given, the label is the unknown one and the reason is. Bars after the
    moment change nothing. *)
Theorem classify_refuses_to_guess {F} `{PyFloat F} (bars later : list (RawBar F)) moment how :
  Forall (fun b => at_or_before moment b = false) later ->
  let window := bars_up_to bars moment in
  let r := classify (bars ++ later) moment how in
  r = classify bars moment how /\ bars_used r = length window /\ point_in_time r = how /\
  (available r = true <->
     (16 <= length window)%nat /\
     Forall (fun b => raw_high b <> None /\ raw_low b <> None /\ raw_close b <> None) window) /\
  (available r = true -> label r <> UNAVAILABLE /\
     exists highs lows closes dx dxs,
       map Some highs = map raw_high window /\ map Some lows = map raw_low window /\
       map Some closes = map raw_close window /\
       snd (dx_state 14 (movements (hlc highs lows closes))) = dx :: dxs /\
       rg_adx r = Some (nround 4 (adx_of 14 (dx :: dxs)))) /\
  (available r = false -> label r = UNAVAILABLE /\ volatility r = UNAVAILABLE /\ rg_adx r = None /\
     atr_pct r = None /\ net_move_pct r = None /\ rg_reason r <> "").
Proof.
  intros Hl window r. assert (r = classify bars moment how) as E.
  { unfold r, classify. by rewrite bars_up_to_later. }
  split; [done|]. rewrite E. clear r E. unfold classify. fold window.
  change MIN_BARS_FOR_ADX with 16%nat.
  destruct (Nat.ltb_spec (length window) 16) as [Hn|Hn]; [by repeat split; cbn; try done; lia|].
  destruct (column raw_high window) as [highs|] eqn:Eh.
  2: { repeat split; cbn; try done. intros [_ Hall]. apply mapM_None, Exists_exists in Eh as (b & Hb & Ef).
       by destruct (proj1 (Forall_forall _ _) Hall b Hb) as (? & _). }
  destruct (column raw_low window) as [lows|] eqn:El.
  2: { repeat split; cbn; try done. intros [_ Hall]. apply mapM_None, Exists_exists in El as (b & Hb & Ef).
       by destruct (proj1 (Forall_forall _ _) Hall b Hb) as (_ & ? & _). }
  destruct (column raw_close window) as [closes|] eqn:Ec.
  2: { repeat split; cbn; try done. intros [_ Hall]. apply mapM_None, Exists_exists in Ec as (b & Hb & Ef).
       by destruct (proj1 (Forall_forall _ _) Hall b Hb) as (_ & _ & ?). }
  destruct (_volatility highs lows closes) as [v a]. cbn [available bars_used point_in_time label rg_adx].
  split; [done|]. split; [done|]. split; [|split; [|done]].
  - split; [intros _; split; [done|]|done]. apply Forall_forall. intros b Hb.
    repeat split; intros Hf.
    + by rewrite (column_none _ _ _ Hb Hf) in Eh.
    + by rewrite (column_none _ _ _ Hb Hf) in El.
    + by rewrite (column_none _ _ _ Hb Hf) in Ec.
  - intros _. split; [apply trend_label_known|].
    apply column_some in Eh as [Eh Lh], El as [El Ll], Ec as [Ec Lc].
    destruct (adx_is_computed highs lows closes (length window) Hn Lh Ll Lc) as (dx & dxs & Ed & Ea).
    exists highs, lows, closes, dx, dxs. rewrite Ea. auto.
Qed.

(** ** A report over a window that has ended is final *)

Section finality.
Context {F : Type} `{PyFloat F}.
Context (payload_hash : F -> F -> F -> F -> F -> string).
Implicit Types j : Journal F.

Lemma explain_trade_later c ws j with_series timeframe reads (t : RoundTrip F) :
  Forall (fun '(w, now) => c < now /\ dated_after c w) ws ->
  l_at (t_entry t) <= c -> l_at (t_exit t) <= c ->
  explain_trade with_series timeframe reads (jruns payload_hash ws j) t =
  explain_trade with_series timeframe reads j t.
Proof.
  intros Hw Hen Hex. unfold explain_trade, _point_in_time_bars, _entry_bars. destruct (reads t) as [e1 e2].
  destruct with_series; [|done].
  rewrite !bars_later; [done|by apply (later_mono _ c)..].
Qed.

Lemma trips_before c strategy symbol environment_ account start limit e j trips :
  load_round_trips strategy None symbol environment_ account start (Some c) limit e j = Some trips ->
  Forall (fun t => l_at (t_entry t) <= c /\ l_at (t_exit t) <= c) trips.
Proof.
  unfold load_round_trips. intros Hp. apply Forall_forall. intros t Ht.
  destruct (proj2 (trips_scoped _ _ Hp) t Ht) as (r1 & r2 & q & H1 & H2 & _ & _ & _ & -> & _ & _).
  assert (forall r, r ∈ execution_rows strategy None symbol environment_ (Some account) start (Some c) limit e j ->
    x_recorded_at r <= c) as Hb.
  { intros r. unfold execution_rows, or_empty. destruct (enabled j), e; cbn [negb]; try by intros ?%not_elem_of_nil.
    intros Hr%elem_of_take. destruct Hr as (i & Hr & _). apply list_elem_of_lookup_2, elem_of_sort_by in Hr.
    apply elem_of_filter_b in Hr as [_ Hr]. unfold in_window in Hr. by reflect_bools. }
  unfold trip_of. destruct (key_of r1) as [[[[? ?] ?] ?] ?]. cbn. auto.
Qed.
End finality.

(** A report over a window that has ended is final: whatever the journal records after
    the end of the window, bars, revisions, fills or anything else, the report is the
    one that was made then, its attributions, regimes and counterfactuals included. And
    the regime a trade was entered into is read from what was held at its entry: what
    is recorded during the hold does not change it. *)
Theorem report_is_final {F} `{PyFloat F} payload_hash c ws (j : Journal F) strategy symbol environment_
    account start timeframe with_cf with_regime limit e reads :
  Forall (fun '(w, now) => c < now /\ dated_after c w) ws ->
  let j' := jruns payload_hash ws j in
  build_report strategy symbol environment_ account start (Some c) timeframe with_cf with_regime limit e reads j' =
    build_report strategy symbol environment_ account start (Some c) timeframe with_cf with_regime limit e reads j /\
  (forall t, c = l_at (t_entry t) ->
     entry_regime (diagnostics (fst (explain_trade true timeframe reads j' t))) =
     entry_regime (diagnostics (fst (explain_trade true timeframe reads j t)))).
Proof.
  intros Hw j'. split.
  - unfold build_report. pose proof (trips_before c strategy symbol environment_ account start limit e j) as Ht.
    unfold load_round_trips in *. unfold j'. rewrite executions_later by done.
    destruct (pair_round_trips _) as [trips|]; [|done]. specialize (Ht trips eq_refl).
    cbn [fmap option_fmap option_map]. unfold report_of. do 2 f_equal.
    all: rewrite (map_ext_in (explain_trade _ timeframe reads (jruns payload_hash ws j))
           (explain_trade (with_cf || with_regime) timeframe reads j)); [done|].
    all: intros t Hin; rewrite <- list_elem_of_In in Hin; rewrite Forall_forall in Ht; destruct (Ht t Hin);
         by apply (explain_trade_later payload_hash c).
  - intros t ->. unfold explain_trade, _entry_bars. destruct (reads t) as [e1 e2]. unfold j'.
    by rewrite (bars_later _ _ _ _ _ _ _ e2 Hw).
Qed.

(** ** The slices *)

Section slicing.
Context {F : Type} `{PyFloat F}.
Implicit Types l : list (Explained F).

Definition in_slot (k : string) (x : Explained F) : bool := String.eqb (slot_of x) k.
(** The reference: a slice is its trades alone, added one by one. *)
Definition slice_of (k : string) l : option (RegimeSlice F) :=
  match List.filter (in_slot k) l with
  | [] => None
  | mine => Some (foldl add_trade (new_slice k) mine)
  end.

Definition shift_is (b : bool) (x : Explained F) : bool :=
  match changed (regime_shift (diagnostics x)) with Some b' => Bool.eqb b b' | None => false end.

Lemma slices_step acc (x : Explained F) :
  slices (regime_step acc x) =
    dict_set (slot_of x) (add_trade (default (new_slice (slot_of x)) (dict_get (slot_of x) (slices acc))) x) (slices acc).
Proof. unfold regime_step. by destruct (changed _) as [[]|]. Qed.

Lemma group_snoc l x : group_by_regime (l ++ [x]) = regime_step (group_by_regime l) x.
Proof. unfold group_by_regime. by rewrite foldl_app. Qed.

Lemma slices_spec l k : dict_get k (slices (group_by_regime l)) = slice_of k l.
Proof.
  induction l as [|x l IH] using rev_ind; [done|]. rewrite group_snoc, slices_step, dict_get_set.
  unfold slice_of in *. rewrite List.filter_app. cbn [List.filter]. unfold in_slot at 2.
  destruct (String.eqb_spec (slot_of x) k) as [->|]; [|by rewrite app_nil_r].
  rewrite IH. destruct (List.filter (in_slot k) l) as [|y mine]; [done|].
  cbn [app default]. f_equal. by rewrite app_comm_cons, foldl_app.
Qed.

Lemma slices_nodup l : NoDup (dict_keys (slices (group_by_regime l))).
Proof.
  induction l as [|x l IH] using rev_ind; [constructor|]. rewrite group_snoc, slices_step.
  by apply dict_nodup_set.
Qed.

(** What setting a key changes in a sum over the values. *)
Lemma sum_dict_set {V} (f : V -> nat) k v (d : pydict V) :
  (sum_list_with f (dict_values (dict_set k v d)) + match dict_get k d with Some old => f old | None => 0 end =
   sum_list_with f (dict_values d) + f v)%nat.
Proof.
  unfold dict_values. induction d as [|[k' v'] d IH]; cbn; [lia|].
  destruct (String.eqb k k'); cbn; lia.
Qed.

Lemma count_snoc {A} (p : A -> bool) (l : list A) x :
  length (List.filter p (l ++ [x])) = (length (List.filter p l) + if p x then 1 else 0)%nat.
Proof. rewrite List.filter_app, length_app. cbn. by destruct (p x). Qed.

Lemma sum_list_with_map {A B} (f : B -> nat) (g : A -> B) (l : list A) :
  sum_list_with f (map g l) = sum_list_with (fun x => f (g x)) l.
Proof. induction l as [|x l IH]; cbn; by rewrite ?IH. Qed.

Lemma slices_count (f : RegimeSlice F -> nat) (p : Explained F -> bool) l :
  (forall k, f (new_slice k) = 0%nat) ->
  (forall s x, f (add_trade s x) = (f s + if p x then 1 else 0)%nat) ->
  sum_list_with f (dict_values (slices (group_by_regime l))) = length (List.filter p l).
Proof.
  intros H0 Hs. induction l as [|x l IH] using rev_ind; [done|].
  rewrite group_snoc, slices_step, count_snoc, <- IH.
  set (d := slices (group_by_regime l)). set (k := slot_of x).
  pose proof (sum_dict_set f k (add_trade (default (new_slice k) (dict_get k d)) x) d) as E.
  rewrite Hs in E. destruct (dict_get k d) as [old|]; cbn [from_option] in *; unfold id, Datatypes.id in *; [|rewrite H0 in E]; lia.
Qed.

Lemma shifts_counted l :
  shift_known (group_by_regime l) =
    (length (List.filter (shift_is true) l) + length (List.filter (shift_is false) l))%nat /\
  shifted (group_by_regime l) = length (List.filter (shift_is true) l).
Proof.
  induction l as [|x l [IH1 IH2]] using rev_ind; [done|]. rewrite group_snoc, !count_snoc.
  assert (forall b, shift_is b x = match changed (regime_shift (diagnostics x)) with
    | Some b' => Bool.eqb b b' | None => false end) as E by done.
  rewrite !E. unfold regime_step. destruct (changed _) as [[]|]; cbn; lia.
Qed.
End slicing.

(** The slices account for every trade. Whatever the floats, a slice is exactly its own
    trades added one by one, each trade in the slice of the regime it was entered into
    or among the unknown; the counts of trades and of incomplete ones add up to all of
    them; and a trade counts as shifted, as steady or as neither. *)
Theorem regimes_account_for_every_trade {F} `{PyFloat F} (l : list (Explained F)) :
  let g := group_by_regime l in
  (forall k, dict_get k (slices g) = slice_of k l) /\
  NoDup (dict_keys (slices g)) /\
  sum_list_with sr_trades (fst (_by_regime l)) = length l /\
  sum_list_with sr_incomplete (fst (_by_regime l)) =
    length (List.filter (fun x => negb (complete (e_attribution x))) l) /\
  shifted g = length (List.filter (shift_is true) l) /\
  shift_known g = (shifted g + length (List.filter (shift_is false) l))%nat.
Proof.
  intros g. split; [intros k; apply slices_spec|]. split; [apply slices_nodup|].
  destruct (shifts_counted l) as [Hk Hs]. fold g in Hk, Hs.
  assert (forall f : SliceRow F -> nat, sum_list_with f (fst (_by_regime l)) =
    sum_list_with (fun s => f (slice_to_dict s)) (dict_values (slices g))) as Hp.
  { intros f. unfold _by_regime. cbn [fst].
    rewrite sum_list_with_map. apply sum_list_with_Permutation_proper, sort_by_perm. }
  rewrite !Hp. split; [|split; [|lia]].
  - unfold g. rewrite (slices_count _ (fun _ => true)); [|done|intros; cbn; lia].
    f_equal. clear. induction l as [|x l IH]; [done|]. cbn. by rewrite IH.
  - unfold g. rewrite (slices_count _ (fun x => negb (complete (e_attribution x)))); [done|done|].
    intros s x. cbn. destruct (complete _); cbn; lia.
Qed.

(** ** What the report adds up to (exact arithmetic) *)

Lemma rsum_dict_set {V} (f : V -> Q) k v (d : pydict V) :
  (rsum f (dict_values (dict_set k v d)) + match dict_get k d with Some old => f old | None => 0 end ==
   rsum f (dict_values d) + f v)%Q.
Proof.
  unfold dict_values. induction d as [|[k' v'] d IH]; cbn; [ring|].
  destruct (String.eqb k k'); cbn; [ring|]. rewrite <- Qplus_assoc, IH. ring.
Qed.

Definition realized_of (x : Explained Q) : Q := default 0%Q (realized (a_round_trip (e_attribution x))).

Lemma or0_exact (o : option Q) : (or0 o == default 0%Q o)%Q.
Proof.
  unfold or0, nor, ntrue. destruct o as [x|]; [|done]. change (default nzero (Some x)) with x.
  destruct (neqb x nzero) eqn:E; cbn; [|done]. reflect_Q. by rewrite E.
Qed.

(** The slices split the realized result of the trades between them, and the two totals
    of the shift are the results of the trades whose regime is known at both ends. *)
Theorem regimes_split_the_result (l : list (Explained Q)) :
  let g := group_by_regime l in
  (rsum sl_realized (dict_values (slices g)) == trips_value (map (fun x => a_round_trip (e_attribution x)) l))%Q /\
  (shift_realized g == rsum realized_of (List.filter (shift_is true) l))%Q /\
  (steady_realized g == rsum realized_of (List.filter (shift_is false) l))%Q.
Proof.
  induction l as [|x l IH] using rev_ind; [done|]. cbv zeta in *. destruct IH as (IH1 & IH2 & IH3).
  rewrite group_snoc, !List.filter_app. split.
  - rewrite slices_step, map_app. unfold trips_value in *. rewrite rsum_app, <- IH1. cbn [map rsum].
    set (d := slices (group_by_regime l)). set (k := slot_of x).
    pose proof (rsum_dict_set sl_realized k (add_trade (default (new_slice k) (dict_get k d)) x) d) as E.
    set (d' := dict_set k _ d) in *. clearbody d'.
    assert (sl_realized (add_trade (default (new_slice k) (dict_get k d)) x) ==
      sl_realized (default (new_slice k) (dict_get k d)) + realized_of x)%Q as Ea.
    { cbn [sl_realized add_trade]. unfold realized_of. destruct (realized _); cbn [from_option]; [done|ring]. }
    rewrite Ea in E. unfold realized_of in E.
    destruct (dict_get k d) as [old|]; cbn [from_option] in *; unfold id, Datatypes.id in *; [lra|].
    change (sl_realized (new_slice k)) with 0%Q in E. lra.
  - assert (forall b, shift_is b x = match changed (regime_shift (diagnostics x)) with
      | Some b' => Bool.eqb b b' | None => false end) as E by done.
    rewrite !rsum_app. cbn [List.filter]. rewrite !E. unfold regime_step.
    pose proof (or0_exact (realized (a_round_trip (e_attribution x)))) as Er. fold (realized_of x) in Er.
    destruct (changed _) as [[]|]; cbn [Bool.eqb rsum shift_realized steady_realized nadd exact]; rewrite ?Er, ?IH2, ?IH3; split; ring.
Qed.

(** ** Concrete readings *)

Module Tapes.
Definition raw (i : nat) (p : spec_float) : RawBar spec_float :=
  {| raw_ts := Some (Z.of_nat i); raw_high := Some (nadd p (nlit 1 2)); raw_low := Some (nsub p (nlit 1 2));
     raw_close := Some p |}.
(** A steady climb of [n] bars. *)
Definition climb (n : nat) : list (RawBar spec_float) :=
  map (fun i => raw i (nofZ (100 + Z.of_nat i))) (List.seq 0 n).
Definition late : RawBar spec_float := raw 99 (nofZ 1).
Definition hash (_ _ _ _ _ : Q) : string := "h".
Definition journal : Journal Q :=
  {| enabled := true; bars := []; prices := []; sentiments := []; headlines := [];
     researches := []; decisions := []; executions := [Sample.bought; Sample.sold] |}.
(** A bar of the hold, recorded after the exit. *)
Definition revision : jwrite Q * datetime :=
  (WBars "AAPL" "15m" [{| in_timestamp := Some 1%Z; in_ohlc := Some (1%Q, 1%Q, 1%Q, 1%Q); in_volume := None |}]
     "feed" (JDict []) "u" None None None, 9%Z).
Definition reads (_ : RoundTrip Q) : io * io := (None, None).
End Tapes.

Lemma late_bar : Forall (fun b => at_or_before 20 b = false) [Tapes.late].
Proof. constructor; [done|constructor]. Qed.
Lemma climb_reads : available (classify (Tapes.climb 18) 20 "as_of") = true /\
  label (classify (Tapes.climb 18) 20 "as_of") = "trending_up" /\
  available (classify (Tapes.climb 15) 20 "as_of") = false.
Proof. by vm_compute. Qed.

Lemma classify_refuses_to_guess_witness :
  Forall (fun b => at_or_before 20 b = false) [Tapes.late] /\
  label (classify (Tapes.climb 18 ++ [Tapes.late]) 20 "as_of") = "trending_up" /\
  label (classify (Tapes.climb 15 ++ [Tapes.late]) 20 "as_of") = UNAVAILABLE.
Proof.
  destruct climb_reads as (Ha & Hl & Hn). split; [exact late_bar|].
  destruct (classify_refuses_to_guess (Tapes.climb 18) _ 20 "as_of" late_bar) as (E & _).
  destruct (classify_refuses_to_guess (Tapes.climb 15) _ 20 "as_of" late_bar) as (E' & _ & _ & _ & _ & Hu).
  rewrite E. split; [exact Hl|]. rewrite E' in Hu |- *. exact (proj1 (Hu Hn)).
Defined.

Lemma revision_is_later : Forall (fun '(w, now) => 2 < now /\ dated_after 2 w) [Tapes.revision].
Proof. repeat constructor. Qed.

Lemma report_is_final_witness :
  bars (jruns Tapes.hash [Tapes.revision] Tapes.journal) <> bars Tapes.journal /\
  build_report None None None "default" None (Some 2) "15m" true true 10 None Tapes.reads
    (jruns Tapes.hash [Tapes.revision] Tapes.journal) =
  build_report None None None "default" None (Some 2) "15m" true true 10 None Tapes.reads Tapes.journal.
Proof.
  split; [vm_compute; discriminate|].
  exact (proj1 (report_is_final Tapes.hash 2 [Tapes.revision] Tapes.journal None None None "default" None
    "15m" true true 10 None Tapes.reads revision_is_later)).
Defined.

(** The report reads rounding as a wrong decomposition: the one trade of this record is
    explained to the last recorded decimal, and the verdict says the decomposition is
    wrong. *)
Example rounding_reads_as_wrong :
  let x := explain Sample.thin [] None in
  complete (e_attribution x) = true /\ identity_failures (coverage_of [x]) = 1%nat /\
  verdict (coverage_of [x]) =
    "1 attribution(s) did not reconstruct the realised result — the decomposition is wrong, not merely incomplete".
Proof. vm_compute. auto. Qed.

(** The check of the totals allows a ten-thousandth on sums of parts rounded to six
    decimals and then weighted by their quantities: a thousand of those shares fail it. *)
Example totals_check_ignores_size :
  let big := {| t_strategy_id := t_strategy_id Sample.thin; t_symbol := t_symbol Sample.thin;
    t_environment := t_environment Sample.thin; t_account_id := t_account_id Sample.thin;
    t_strategy_version := t_strategy_version Sample.thin; t_entry := t_entry Sample.thin;
    t_exit := t_exit Sample.thin; t_qty := 1000%Q |} in
  identity_matches_realized <$> _totals [explain big [] None] = Some false.
Proof. vm_compute. reflexivity. Qed.

(** Without the regime asked for, the regimes of the report are read all the same where
    the counterfactuals are. *)
Example regime_flag_needs_company (j : Journal Q) trips :
  rp_by_regime (report_of true false "15m" Tapes.reads j trips) =
  rp_by_regime (report_of true true "15m" Tapes.reads j trips).
Proof. reflexivity. Qed.
