(* ===== verification/Strategies.v ===== *)
(** * The strategies: the backtester's rules, its gates, and the live rule

    Models [services/backtest-service/src/backtest_service/strategies.py] and
    [entry_gates.py], the [StrategyParams] and [ParameterGrid] of [models.py] there,
    and [services/strategy-service/src/strategy_service/rule_engine.py]. Shown: a
    signal depends on the bars up to its own and no other, whatever the strategy and
    the gates; the gates only ever suppress a BUY; a configuration of a grid is valid;
    and the live rule decides what the backtest's rule decides on the same figures. *)

From S2P Require Import Prelude PyFloat Store Indicators.
From Stdlib Require Import Floats.SpecFloat.

(** ** models.py: the parameters *)

Record StrategyParams (F : Type) := {
  sp_ema_fast : Z;
  sp_ema_slow : Z;
  rsi_buy_min : F;
  rsi_buy_max : F;
  macd_hist_min : F;
  bb_period : Z;
  bb_std : F;
  rsi_oversold : F;
  rsi_overbought : F
}.
Arguments sp_ema_fast {F}. Arguments sp_ema_slow {F}. Arguments rsi_buy_min {F}.
Arguments rsi_buy_max {F}. Arguments macd_hist_min {F}. Arguments bb_period {F}.
Arguments bb_std {F}. Arguments rsi_oversold {F}. Arguments rsi_overbought {F}.

(** What [StrategyParams(...)] raises: pydantic's field bounds, then the validator. *)
Inductive ValidationError :=
| OutOfBounds (field : string)
| BadOrdering (field : string).
#[export] Instance ValidationError_dec : EqDecision ValidationError.
Proof. solve_decision. Defined.

Section params.
Context {F : Type} `{HF : PyFloat F}.
Local Open Scope py_scope.

Definition default_params : StrategyParams F :=
  {| sp_ema_fast := 20; sp_ema_slow := 50; rsi_buy_min := nofZ 45; rsi_buy_max := nofZ 70;
     macd_hist_min := nzero; bb_period := 20; bb_std := nofZ 2; rsi_oversold := nofZ 30;
     rsi_overbought := nofZ 70 |}.

(** An integer field with [ge] and [le], and a percentage. *)
Definition int_between (name : string) (lo hi v : Z) : list ValidationError :=
  if (lo <=? v)%Z && (v <=? hi)%Z then [] else [OutOfBounds name].
Definition percentage (name : string) (v : F) : list ValidationError :=
  if (v >=? nzero) && (v <=? nofZ 100) then [] else [OutOfBounds name].

Definition field_errors (p : StrategyParams F) : list ValidationError :=
  int_between "ema_fast" 2 200 (sp_ema_fast p) ++ int_between "ema_slow" 3 400 (sp_ema_slow p) ++
  percentage "rsi_buy_min" (rsi_buy_min p) ++ percentage "rsi_buy_max" (rsi_buy_max p) ++
  int_between "bb_period" 5 200 (bb_period p) ++
  (if (bb_std p >? nzero) && (bb_std p <=? nofZ 5) then [] else [OutOfBounds "bb_std"]) ++
  percentage "rsi_oversold" (rsi_oversold p) ++ percentage "rsi_overbought" (rsi_overbought p).

Definition _check_ordering (p : StrategyParams F) : result ValidationError (StrategyParams F) :=
  if (sp_ema_slow p <=? sp_ema_fast p)%Z then Err (BadOrdering "ema_fast")
  else if rsi_buy_min p >=? rsi_buy_max p then Err (BadOrdering "rsi_buy_min")
  else if rsi_oversold p >=? rsi_overbought p then Err (BadOrdering "rsi_oversold")
  else Ok p.

(** The model validator runs only on fields that are all within their bounds. *)
Definition validate (p : StrategyParams F) : result ValidationError (StrategyParams F) :=
  match field_errors p with
  | [] => _check_ordering p
  | e :: _ => Err e
  end.

Definition rsi_sell_min (p : StrategyParams F) : F := nofZ 100 - rsi_buy_max p.
Definition rsi_sell_max (p : StrategyParams F) : F := nofZ 100 - rsi_buy_min p.
Definition min_warmup_bars (p : StrategyParams F) : Z :=
  Z.max (Z.max (sp_ema_slow p + 1) (bb_period p + 1)) 35.

(** [parts[name]()]: empty where the code's lambda returns None. *)
Definition label_part (p : StrategyParams F) (name : string) : fstr F :=
  if String.eqb name "ema_fast" then
    lit ("ema" +:+ str_of_Z (sp_ema_fast p) +:+ "/" +:+ str_of_Z (sp_ema_slow p))
  else if String.eqb name "rsi_buy_min" then
    [Lit "rsi"; Fmt "g" (rsi_buy_min p); Lit "-"; Fmt "g" (rsi_buy_max p)]
  else if String.eqb name "macd_hist_min" then [Lit "macd>"; Fmt "g" (macd_hist_min p)]
  else if String.eqb name "bb_period" then lit ("bb" +:+ str_of_Z (bb_period p))
  else if String.eqb name "bb_std" then [Lit "sd"; Fmt "g" (bb_std p)]
  else if String.eqb name "rsi_oversold" then [Lit "rsi<"; Fmt "g" (rsi_oversold p)]
  else if String.eqb name "rsi_overbought" then [Lit "rsi>"; Fmt "g" (rsi_overbought p)]
  else [].
Definition PARAM_FIELDS : list string :=
  ["ema_fast"; "ema_slow"; "rsi_buy_min"; "rsi_buy_max"; "macd_hist_min"; "bb_period"; "bb_std";
   "rsi_oversold"; "rsi_overbought"].

(** [' '.join(part for part in rendered if part)] *)
Fixpoint spaced (parts : list (fstr F)) : fstr F :=
  match parts with
  | [] => []
  | [part] => part
  | part :: rest => part ++ Lit " " :: spaced rest
  end.
Definition label (p : StrategyParams F) (fields : option (list string)) : fstr F :=
  let selected := default PARAM_FIELDS fields in
  spaced (List.filter (fun part => negb (Nat.eqb (length part) 0)) (map (label_part p) selected)).
End params.

(** ** strategies.py *)

Inductive Signal := BUY | SELL | HOLD.
#[export] Instance Signal_dec : EqDecision Signal.
Proof. solve_decision. Defined.

Record Strategy (F : Type) := {
  st_name : string;
  description : string;
  signals : list (OHLCVBar F) -> StrategyParams F -> list Signal;
  param_fields : list string;
  warmup : StrategyParams F -> Z
}.
Arguments st_name {F}. Arguments description {F}. Arguments signals {F}.
Arguments param_fields {F}. Arguments warmup {F}.

Definition MACD_WARMUP : Z := 35.
Definition MOMENTUM_FIELDS : list string :=
  ["ema_fast"; "ema_slow"; "rsi_buy_min"; "rsi_buy_max"; "macd_hist_min"].
Definition REVERSION_FIELDS : list string :=
  ["bb_period"; "bb_std"; "rsi_oversold"; "rsi_overbought"].

Section strategies.
Context {F : Type} `{HF : PyFloat F}.
Context (fpow : F -> F -> F).
Local Open Scope py_scope.
Implicit Types (bars : list (OHLCVBar F)) (params : StrategyParams F).

Definition momentum_warmup params : Z := Z.max (sp_ema_slow params + 1) MACD_WARMUP.

(** The rule on one bar's figures. *)
Definition momentum_rule params (ema_fast ema_slow rsi macd_hist : F) : Signal :=
  let buy := (ema_fast >? ema_slow) && ((rsi_buy_min params <? rsi) && (rsi <? rsi_buy_max params))
             && (macd_hist >? macd_hist_min params) in
  let sell := (ema_fast <? ema_slow) &&
              ((rsi_sell_min params <? rsi) && (rsi <? rsi_sell_max params)) &&
              (macd_hist <? - macd_hist_min params) in
  if buy then BUY else if sell then SELL else HOLD.

Definition momentum_signals bars params : list Signal :=
  let warmup := momentum_warmup params in
  let closes := map ob_close bars in
  let series := build closes (Z.to_nat (sp_ema_fast params)) (Z.to_nat (sp_ema_slow params)) in
  map (fun i =>
    if (Z.of_nat i + 1 <? warmup)%Z then HOLD
    else momentum_rule params (at_ (ema_fast series) i) (at_ (ema_slow series) i)
           (at_ (rsi series) i) (at_ (macd_hist series) i))
    (List.seq 0 (length bars)).

Definition reversion_warmup params : Z := Z.max (bb_period params + 1) 15.

Definition reversion_rule params (close lower middle rsi : F) : Signal :=
  let buy := (close <? lower) && (rsi <? rsi_oversold params) in
  let sell := (close >? middle) || (rsi >? rsi_overbought params) in
  if buy then BUY else if sell then SELL else HOLD.

Definition reversion_signals bars params : list Signal :=
  let warmup := reversion_warmup params in
  let closes := map ob_close bars in
  let bands := bollinger fpow closes (Z.to_nat (bb_period params)) (bb_std params) in
  let rsi := _rsi_series closes 14 in
  map (fun i =>
    if (Z.of_nat i + 1 <? warmup)%Z then HOLD
    else reversion_rule params (at_ closes i) (at_ (lower bands) i) (at_ (middle bands) i)
           (at_ rsi i))
    (List.seq 0 (length bars)).

Definition REGISTRY : list (string * Strategy F) :=
  [("ema_rsi_macd",
    {| st_name := "ema_rsi_macd";
       description := "Dual-EMA trend with RSI and MACD confirmation. Buys strength.";
       signals := momentum_signals; param_fields := MOMENTUM_FIELDS;
       warmup := momentum_warmup |});
   ("bollinger_reversion",
    {| st_name := "bollinger_reversion";
       description := "Buys a close below the lower Bollinger band with RSI oversold; " +:+
                      "exits on a return to the mean. Buys weakness.";
       signals := reversion_signals; param_fields := REVERSION_FIELDS;
       warmup := reversion_warmup |})].

Definition DEFAULT_STRATEGY : string := "ema_rsi_macd".

Definition strategy_names : list string := sort_by String.leb (dict_keys REGISTRY).

(** The [ValueError] of an unknown name, with its message. *)
Definition get_strategy (name : string) : result string (Strategy F) :=
  match dict_get name REGISTRY with
  | Some s => Ok s
  | None => Err ("Unknown strategy " +:+ py_repr name +:+ ". Available: " +:+
                 join ", " strategy_names)
  end.

(** ** entry_gates.py *)

Definition REGIME_ADX_FLOOR : F := nofZ 20.
Definition VOLUME_LOOKBACK : nat := 20.

Definition regime_is_tradable (adx : F) (bars_count period : nat) : bool :=
  if (bars_count <? period + 2)%nat then false else adx >=? REGIME_ADX_FLOOR.

Definition volume_confirms (volumes : list F) (index lookback : nat) : bool :=
  if (length volumes <=? index)%nat then false else
  let window := take (index + 1 - (index + 1 - lookback)) (drop (index + 1 - lookback) volumes) in
  match window with
  | [] => false
  | _ => at_ volumes index >? nsum window / nnat (length window)
  end.

Definition gate (adx volumes : list F) (regime_gate volume_gate : bool) (i : nat) (s : Signal)
    : Signal :=
  match s with
  | BUY =>
      if regime_gate && negb (regime_is_tradable (at_ adx i) (i + 1) ADX_PERIOD) then HOLD
      else if volume_gate && negb (volume_confirms volumes i VOLUME_LOOKBACK) then HOLD
      else BUY
  | _ => s
  end.

Definition apply bars (sigs : list Signal) (regime_gate volume_gate : bool) : list Signal :=
  if negb (regime_gate || volume_gate) || Nat.eqb (length bars) 0 then sigs else
  let highs := map ob_high bars in
  let lows := map ob_low bars in
  let closes := map ob_close bars in
  let volumes := map (fun bar => nor (ob_volume bar) nzero) bars in
  let adx := if regime_gate then adx_series highs lows closes ADX_PERIOD else [] in
  imap (gate adx volumes regime_gate volume_gate) sigs.
End strategies.

(** ** models.py: the grid of a search *)

Record ParameterGrid (F : Type) := {
  pg_ema_fast : list Z;
  pg_ema_slow : list Z;
  pg_rsi_buy_min : list F;
  pg_rsi_buy_max : list F;
  pg_macd_hist_min : list F;
  pg_bb_period : list Z;
  pg_bb_std : list F;
  pg_rsi_oversold : list F;
  pg_rsi_overbought : list F
}.
Arguments pg_ema_fast {F}. Arguments pg_ema_slow {F}. Arguments pg_rsi_buy_min {F}.
Arguments pg_rsi_buy_max {F}. Arguments pg_macd_hist_min {F}. Arguments pg_bb_period {F}.
Arguments pg_bb_std {F}. Arguments pg_rsi_oversold {F}. Arguments pg_rsi_overbought {F}.

Section grid.
Context {F : Type} `{HF : PyFloat F}.
Context (fpow : F -> F -> F).
(** The characters of a formatted label. *)
Context (text : fstr F -> string).
Implicit Types (params : StrategyParams F) (grid : ParameterGrid F).

Definition default_grid : ParameterGrid F :=
  {| pg_ema_fast := [10; 20; 30]; pg_ema_slow := [40; 50; 60];
     pg_rsi_buy_min := map nofZ [40; 45; 50]; pg_rsi_buy_max := map nofZ [65; 70; 75];
     pg_macd_hist_min := [nzero]; pg_bb_period := [10; 20; 30];
     pg_bb_std := [nlit 15 10; nofZ 2; nlit 25 10];
     pg_rsi_oversold := map nofZ [25; 30; 35]; pg_rsi_overbought := [nofZ 70] |}.

Definition _axes grid : list (string * list (pyval F)) :=
  [("ema_fast", map PInt (pg_ema_fast grid)); ("ema_slow", map PInt (pg_ema_slow grid));
   ("rsi_buy_min", map PFloat (pg_rsi_buy_min grid));
   ("rsi_buy_max", map PFloat (pg_rsi_buy_max grid));
   ("macd_hist_min", map PFloat (pg_macd_hist_min grid));
   ("bb_period", map PInt (pg_bb_period grid)); ("bb_std", map PFloat (pg_bb_std grid));
   ("rsi_oversold", map PFloat (pg_rsi_oversold grid));
   ("rsi_overbought", map PFloat (pg_rsi_overbought grid))].

Definition _live_axes grid (strategy : option string)
    : result string (list (string * list (pyval F))) :=
  let axes := _axes grid in
  match strategy with
  | None => Ok axes
  | Some name =>
      s ← get_strategy fpow name;
      mret (map (fun '(name, values) =>
              (name, if str_in name (param_fields s) then values else take 1 values))
            (List.filter (fun axis => negb (Nat.eqb (length (snd axis)) 0)) axes))
  end.

(** [getattr(params, name)] of the nine fields, and the field set to a value of its type. *)
Definition get_param (name : string) params : pyval F :=
  if String.eqb name "ema_fast" then PInt (sp_ema_fast params)
  else if String.eqb name "ema_slow" then PInt (sp_ema_slow params)
  else if String.eqb name "rsi_buy_min" then PFloat (rsi_buy_min params)
  else if String.eqb name "rsi_buy_max" then PFloat (rsi_buy_max params)
  else if String.eqb name "macd_hist_min" then PFloat (macd_hist_min params)
  else if String.eqb name "bb_period" then PInt (bb_period params)
  else if String.eqb name "bb_std" then PFloat (bb_std params)
  else if String.eqb name "rsi_oversold" then PFloat (rsi_oversold params)
  else if String.eqb name "rsi_overbought" then PFloat (rsi_overbought params)
  else PNone.

Definition set_param (name : string) (v : pyval F) params : StrategyParams F :=
  let i (field : string) (old : Z) :=
    match v with PInt z => if String.eqb name field then z else old | _ => old end in
  let f (field : string) (old : F) :=
    match v with PFloat x => if String.eqb name field then x else old | _ => old end in
  {| sp_ema_fast := i "ema_fast" (sp_ema_fast params);
     sp_ema_slow := i "ema_slow" (sp_ema_slow params);
     rsi_buy_min := f "rsi_buy_min" (rsi_buy_min params);
     rsi_buy_max := f "rsi_buy_max" (rsi_buy_max params);
     macd_hist_min := f "macd_hist_min" (macd_hist_min params);
     bb_period := i "bb_period" (bb_period params);
     bb_std := f "bb_std" (bb_std params);
     rsi_oversold := f "rsi_oversold" (rsi_oversold params);
     rsi_overbought := f "rsi_overbought" (rsi_overbought params) |}.

(** [StrategyParams] of the named values, before its validation. *)
Definition construct (names : list string) (values : list (pyval F)) : StrategyParams F :=
  foldl (fun p '(name, v) => set_param name v p) default_params (combine names values).

(** [itertools.product]: the last axis varies fastest. *)
Fixpoint product {A} (axes : list (list A)) : list (list A) :=
  match axes with
  | [] => [[]]
  | values :: rest => flat_map (fun v => map (cons v) (product rest)) values
  end.

Definition oks {E A} (l : list (result E A)) : list A :=
  flat_map (fun r => match r with Ok a => [a] | Err _ => [] end) l.

Definition combinations grid (strategy : option string) : result string (list (StrategyParams F)) :=
  axes ← _live_axes grid strategy;
  mret (oks (map (fun values => validate (construct (map fst axes) values))
                 (product (map snd axes)))).

(** [a == b] of two numbers of one type. *)
Definition val_eqb (a b : pyval F) : bool :=
  match a, b with
  | PInt x, PInt y => Z.eqb x y
  | PFloat x, PFloat y => neqb x y
  | _, _ => false
  end.
(** [values.index(current)] *)
Fixpoint index_of (current : pyval F) (values : list (pyval F)) : option nat :=
  match values with
  | [] => None
  | v :: rest => if val_eqb v current then Some 0%nat else S <$> index_of current rest
  end.

(** The candidates one step away along an axis, in the order of the offsets. *)
Definition steps params (axis : string * list (pyval F)) : list (StrategyParams F) :=
  let '(name, values) := axis in
  match index_of (get_param name params) values with
  | None => []
  | Some index =>
      oks (map (fun v => validate (set_param name v params))
             ((if Nat.eqb index 0 then [] else option_list (values !! (index - 1)%nat)) ++
              option_list (values !! (index + 1)%nat)))
  end.

Definition neighbours grid params (strategy : option string)
    : result string (list (StrategyParams F)) :=
  axes ← _live_axes grid strategy;
  mret (snd (foldl (fun '(seen, found) candidate =>
      let l := text (label candidate None) in
      if str_in l seen then (seen, found) else (l :: seen, found ++ [candidate]))
    ([text (label params None)], []) (flat_map (steps params) axes))).
End grid.

(** ** rule_engine.py: the live rule *)

Inductive Risk := LOW | MEDIUM | HIGH.
#[export] Instance Risk_dec : EqDecision Risk.
Proof. solve_decision. Defined.

Record RuleSignal (F : Type) := {
  rs_action : Signal;
  rs_confidence : F;
  risk_score : Risk;
  reasoning : fstr F;
  size_pct : F
}.
Arguments rs_action {F}. Arguments rs_confidence {F}. Arguments risk_score {F}.
Arguments reasoning {F}. Arguments size_pct {F}.

Definition action_str (a : Signal) : string :=
  match a with BUY => "BUY" | SELL => "SELL" | HOLD => "HOLD" end.

Section rules.
Context {F : Type} `{HF : PyFloat F}.
Local Open Scope py_scope.
Implicit Types (ta : TASummary F) (bars : list (OHLCVBar F)).

Definition _SIZE_BY_RISK (r : Risk) : F :=
  match r with LOW => nlit 2 100 | MEDIUM => nlit 15 1000 | HIGH => nlit 5 1000 end.

Definition CHAMPION_PARAMETERS : list (string * F) :=
  [("ema_fast", nofZ 20); ("ema_slow", nofZ 50); ("rsi_buy_min", nofZ 45);
   ("rsi_buy_max", nofZ 70); ("macd_hist_min", nzero)].

(** [{**CHAMPION_PARAMETERS, **(parameters or {})}] *)
Definition active_parameters (parameters : list (string * F)) : list (string * F) :=
  foldl (fun d '(k, v) => dict_set k v d) CHAMPION_PARAMETERS parameters.
Definition active (parameters : list (string * F)) (k : string) : F :=
  default nzero (dict_get k (active_parameters parameters)).

(** Both patterns of a direction, in the order [sorted] gives them. *)
Definition matched (names patterns : list string) : list string :=
  List.filter (fun n => str_in n patterns) names.
Definition py_list (l : list string) : string := "[" +:+ join ", " (map py_repr l) +:+ "]".

Definition _rule_confidence (adx rsi macd_hist ema_fast ema_slow : F) (action : Signal) : F :=
  let confidence := nlit 65 100 in
  let confidence := if adx >? nofZ 25 then confidence + nlit 1 10 else confidence in
  let agree := match action with
    | BUY => (rsi >? nofZ 50) && (macd_hist >? nzero) && (ema_fast >? ema_slow)
    | SELL => (rsi <? nofZ 50) && (macd_hist <? nzero) && (ema_fast <? ema_slow)
    | HOLD => false
    end in
  let confidence := if agree then confidence + nlit 5 100 else confidence in
  nmin confidence (nlit 95 100).

Definition _rule_risk (adx rsi : F) : Risk :=
  if (rsi >? nofZ 70) || (rsi <? nofZ 30) then HIGH
  else if (adx >? nofZ 25) && ((nofZ 45 <? rsi) && (rsi <? nofZ 65)) then LOW
  else MEDIUM.

(** The pattern bonus on the last two or three bars. *)
Definition _pattern_bonus (bars : option (list (OHLCVBar F))) (action : Signal)
    (confidence : F) (reasoning : fstr F) : F * fstr F :=
  match bars with
  | None => (confidence, reasoning)
  | Some bars =>
      if (length bars <? 2)%nat then (confidence, reasoning) else
      let slice_ := if Nat.leb 3 (length bars) then last_n 3 bars else bars in
      let patterns := detect_patterns (map ob_open slice_) (map ob_high slice_)
                        (map ob_low slice_) (map ob_close slice_) in
      let bonus m := (nmin (nlit 95 100) (confidence + nlit 1 10),
                      reasoning ++ lit (" | Pattern: " +:+ py_list m)) in
      match action, matched ["bullish_engulfing"; "hammer"] patterns,
            matched ["bearish_engulfing"; "shooting_star"] patterns with
      | BUY, (_ :: _) as m, _ => bonus m
      | SELL, _, (_ :: _) as m => bonus m
      | _, _, _ => (confidence, reasoning)
      end
  end.

(** The averages the rule compares: the champion's are in the summary; other periods,
    which are positive, are computed from the bars, and [inr] is how many there are
    when there are too few. *)
Definition rule_averages ta (bars : option (list (OHLCVBar F))) (fast slow : Z)
    : F * F + nat :=
  if (fast =? 20)%Z && (slow =? 50)%Z then inl (ema_20 (indicators ta), ema_50 (indicators ta))
  else
    let closes := List.filter ntrue (map ob_close (default [] bars)) in
    if (Z.of_nat (length closes) <? slow)%Z then inr (length closes)
    else inl (compute_ema closes (Z.to_nat fast), compute_ema closes (Z.to_nat slow)).

Definition evaluate_rules ta (sentiment_block_threshold : option F) (sentiment_score : option F)
    (bars : option (list (OHLCVBar F))) (parameters : list (string * F)) : RuleSignal F :=
  let rsi := rsi_14 (indicators ta) in
  let macd_hist := macd_histogram (indicators ta) in
  let adx := adx ta in
  let rsi_buy_min := active parameters "rsi_buy_min" in
  let rsi_buy_max := active parameters "rsi_buy_max" in
  let macd_hist_min := active parameters "macd_hist_min" in
  let ema_fast_period := ntrunc (active parameters "ema_fast") in
  let ema_slow_period := ntrunc (active parameters "ema_slow") in
  match rule_averages ta bars ema_fast_period ema_slow_period with
  | inr n =>
      {| rs_action := HOLD; rs_confidence := nzero; risk_score := HIGH;
         reasoning := lit ("EMA(" +:+ str_of_Z ema_fast_period +:+ "/" +:+
           str_of_Z ema_slow_period +:+ ") needs " +:+ str_of_Z ema_slow_period +:+
           " bars, have " +:+ str_of_Z (Z.of_nat n) +:+ " — not evaluated");
         size_pct := nzero |}
  | inl (ema_fast, ema_slow) =>
      let rsi_sell_min := nofZ 100 - rsi_buy_max in
      let rsi_sell_max := nofZ 100 - rsi_buy_min in
      let buy_conditions := (ema_fast >? ema_slow) &&
        ((rsi_buy_min <? rsi) && (rsi <? rsi_buy_max)) && (macd_hist >? macd_hist_min) in
      let sell_conditions := (ema_fast <? ema_slow) &&
        ((rsi_sell_min <? rsi) && (rsi <? rsi_sell_max)) && (macd_hist <? - macd_hist_min) in
      let action := if buy_conditions then BUY else if sell_conditions then SELL else HOLD in
      let confidence := _rule_confidence adx rsi macd_hist ema_fast ema_slow action in
      let risk := _rule_risk adx rsi in
      let reasoning := [Lit ("EMA" +:+ str_of_Z ema_fast_period +:+ "="); Fmt ".2f" ema_fast;
        Lit (if ema_fast >? ema_slow then " > " else " <= ");
        Lit ("EMA" +:+ str_of_Z ema_slow_period +:+ "="); Fmt ".2f" ema_slow;
        Lit ", RSI="; Fmt ".1f" rsi; Lit ", MACD_hist="; Fmt ".6f" macd_hist;
        Lit ", ADX="; Fmt ".1f" adx; Lit (" -> " +:+ action_str action)] in
      let threshold := default (nlit (-3) 10) sentiment_block_threshold in
      let '(action, reasoning, confidence) :=
        match action, sentiment_score with
        | BUY, Some score =>
            if score <? threshold then
              (HOLD, reasoning ++ [Lit " | Sentiment gate blocked BUY (score="; Fmt ".2f" score;
                                   Lit " < "; Val (PFloat threshold); Lit ")"],
               nmin confidence (nlit 55 100))
            else (action, reasoning, confidence)
        | _, _ => (action, reasoning, confidence)
        end in
      let '(confidence, reasoning) := _pattern_bonus bars action confidence reasoning in
      {| rs_action := action; rs_confidence := nround 4 confidence; risk_score := risk;
         reasoning := reasoning; size_pct := _SIZE_BY_RISK risk |}
  end.
End rules.

(** ** A signal is a function of the bars up to its own *)

Section prefixes.
Context {F : Type} `{HF : PyFloat F}.
Context (fpow : F -> F -> F).
Local Open Scope py_scope.
Implicit Types (bars : list (OHLCVBar F)) (params : StrategyParams F).

Lemma on_prefixes_take {A B} (f : list A -> B) l n :
  on_prefixes f (take n l) = take n (on_prefixes f l).
Proof.
  unfold on_prefixes. rewrite firstn_map, take_seq, length_take.
  apply map_ext_in. intros i Hi%in_seq. rewrite take_take. f_equal. f_equal. lia.
Qed.

Lemma length_on_prefixes {A B} (f : list A -> B) l : length (on_prefixes f l) = length l.
Proof. unfold on_prefixes. by rewrite length_map, length_seq. Qed.

Lemma at_on_prefixes {A} (f : list A -> F) (l : list A) i : (i < length l)%nat ->
  at_ (on_prefixes f l) i = f (take (S i) l).
Proof.
  intros Hi. unfold at_, on_prefixes.
  rewrite nth_lookup, list_lookup_fmap, lookup_seq_lt by done. done.
Qed.

(** The rules on the bars seen so far. *)
Definition momentum_at params bars : Signal :=
  let closes := map ob_close bars in
  if (Z.of_nat (length bars) <? momentum_warmup params)%Z then HOLD
  else momentum_rule params (compute_ema closes (Z.to_nat (sp_ema_fast params)))
         (compute_ema closes (Z.to_nat (sp_ema_slow params))) (compute_rsi closes 14)
         (snd (compute_macd closes 12 26 9)).

Definition reversion_at params bars : Signal :=
  let closes := map ob_close bars in
  let '(_, middle, lower) := compute_bollinger fpow closes (Z.to_nat (bb_period params)) (bb_std params) in
  if (Z.of_nat (length bars) <? reversion_warmup params)%Z then HOLD
  else reversion_rule params (default nzero (last closes)) lower middle (compute_rsi closes 14).

Definition gates_at (regime_gate volume_gate : bool) bars (s : Signal) : Signal :=
  let n := length bars in
  let adx := compute_adx (map ob_high bars) (map ob_low bars) (map ob_close bars) ADX_PERIOD in
  let volumes := map (fun bar => nor (ob_volume bar) nzero) bars in
  match s with
  | BUY =>
      if regime_gate && negb (regime_is_tradable adx n ADX_PERIOD) then HOLD
      else if volume_gate && negb (volume_confirms volumes (n - 1) VOLUME_LOOKBACK) then HOLD
      else BUY
  | _ => s
  end.

(** Fields a rule divides by are positive. *)
Definition periods_ok params : Prop :=
  (1 <= sp_ema_fast params)%Z /\ (1 <= sp_ema_slow params)%Z /\ (1 <= bb_period params)%Z.

Lemma momentum_on_prefixes bars params : periods_ok params ->
  momentum_signals bars params = on_prefixes (momentum_at params) bars.
Proof.
  intros (H1 & H2 & _). unfold momentum_signals, on_prefixes. apply map_ext_in.
  intros i Hi%in_seq. unfold momentum_at. rewrite length_take_le by lia.
  replace (Z.of_nat i + 1)%Z with (Z.of_nat (S i)) by lia. destruct (_ <? _)%Z; [done|].
  cbn [build ema_fast ema_slow rsi macd_hist].
  rewrite !ema_series_agrees, rsi_series_agrees, macd_hist_series_agrees by lia.
  rewrite !at_on_prefixes by (rewrite length_map; lia). by rewrite !firstn_map.
Qed.

Lemma default_last_take (l : list F) i : (i < length l)%nat -> default nzero (last (take (S i) l)) = at_ l i.
Proof.
  intros Hi. destruct (lookup_lt_is_Some_2 l i Hi) as [x Hx].
  rewrite (take_S_r _ _ _ Hx), last_snoc. unfold at_. by rewrite nth_lookup, Hx.
Qed.

Lemma reversion_on_prefixes bars params : periods_ok params ->
  reversion_signals fpow bars params = on_prefixes (reversion_at params) bars.
Proof.
  intros (_ & _ & H3). unfold reversion_signals, on_prefixes. apply map_ext_in.
  intros i Hi%in_seq. unfold reversion_at. rewrite length_take_le by lia.
  replace (Z.of_nat i + 1)%Z with (Z.of_nat (S i)) by lia.
  rewrite rsi_series_agrees by lia. cbn [bollinger lower middle].
  rewrite bollinger_rows_agree by lia. unfold on_prefixes at 1 2. rewrite !map_map.
  fold (@on_prefixes F F). rewrite <- !firstn_map.
  set (closes := map ob_close bars).
  assert (length closes = length bars) as El by apply length_map.
  unfold at_ at 2 3. rewrite !nth_lookup, !list_lookup_fmap, !lookup_seq_lt by lia. cbn [fmap option_fmap option_map default].
  rewrite default_last_take, at_on_prefixes by lia.
  destruct (compute_bollinger _ _ _ _) as [[u m] w] eqn:E. cbn. by destruct (_ <? _)%Z.
Qed.

Lemma signals_on_prefixes name s bars params : get_strategy fpow name = Ok s -> periods_ok params ->
  exists f, forall bars', signals s bars' params = on_prefixes f bars'.
Proof.
  intros Hs Hp. unfold get_strategy in Hs. cbn in Hs.
  destruct (String.eqb _ _); [injection Hs as <-|destruct (String.eqb _ _); [injection Hs as <-|done]].
  - exists (momentum_at params). intros. by apply momentum_on_prefixes.
  - exists (reversion_at params). intros. by apply reversion_on_prefixes.
Qed.

Lemma take_window {A} (l : list A) i k : (k <= i)%nat ->
  take (i - k) (drop k (take i l)) = take (i - k) (drop k l).
Proof.
  intros Hk. rewrite !firstn_skipn_comm, take_take. f_equal. f_equal. lia.
Qed.

Lemma volume_confirms_take (volumes : list F) i lookback : (i < length volumes)%nat ->
  volume_confirms (take (S i) volumes) i lookback = volume_confirms volumes i lookback.
Proof.
  intros Hi. unfold volume_confirms. rewrite length_take_le by lia.
  destruct (Nat.leb_spec (S i) i); [lia|]. destruct (Nat.leb_spec (length volumes) i); [lia|].
  replace (S i) with (i + 1)%nat by lia. rewrite take_window by lia.
  unfold at_. rewrite !nth_lookup, lookup_take_lt by lia. done.
Qed.

(** The gated signals, bar by bar. *)
Lemma apply_on_prefixes bars (f : list (OHLCVBar F) -> Signal) regime_gate volume_gate :
  apply bars (on_prefixes f bars) regime_gate volume_gate =
    on_prefixes (fun pre => gates_at regime_gate volume_gate pre (f pre)) bars.
Proof.
  unfold apply. destruct (regime_gate || volume_gate) eqn:Hg; cbn [negb orb].
  2:{ apply orb_false_iff in Hg as [-> ->]. unfold on_prefixes. apply map_ext. intros i.
      unfold gates_at. by destruct (f _). }
  destruct bars as [|b0 bars0] eqn:Eb; [done|]. rewrite <- Eb.
  replace (length bars =? 0)%nat with false by by subst.
  apply list_eq. intros i. rewrite list_lookup_imap. unfold on_prefixes. rewrite !list_lookup_fmap.
  destruct (Nat.lt_ge_cases i (length bars)) as [Hi|Hi].
  2:{ by rewrite lookup_seq_ge by done. }
  rewrite lookup_seq_lt by done. cbn. f_equal. unfold gate, gates_at.
  rewrite length_take_le by lia. replace (S i - 1)%nat with i by lia. rewrite <- !firstn_map.
  destruct (f _); [|done..].
  rewrite volume_confirms_take by (rewrite length_map; lia). replace (i + 1)%nat with (S i) by lia.
  destruct regime_gate; cbn [andb]; [|done].
  rewrite adx_series_agrees by (rewrite ?length_map; unfold ADX_PERIOD; lia).
  unfold at_ at 1. rewrite nth_lookup, list_lookup_fmap, lookup_seq_lt by (rewrite length_map; lia).
  done.
Qed.

(** A gate turns a BUY into a HOLD, and nothing else. *)
Lemma gates_only_suppress bars (sigs : list Signal) regime_gate volume_gate i s :
  apply bars sigs regime_gate volume_gate !! i = Some s ->
  exists s0, sigs !! i = Some s0 /\ (s = s0 \/ s0 = BUY /\ s = HOLD).
Proof.
  unfold apply. destruct (_ || _); [eauto|]. rewrite list_lookup_imap, fmap_Some.
  intros (s0 & H0 & ->). exists s0. split; [done|].
  unfold gate. destruct s0; [|auto..]. repeat case_match; auto.
Qed.
End prefixes.

(** ** What a search tries *)

Section search.
Context {F : Type} `{HF : PyFloat F}.
Context (fpow : F -> F -> F).
Local Open Scope py_scope.
Implicit Types (p q : StrategyParams F).

Definition params_wf p : Prop :=
  (2 <= sp_ema_fast p /\ sp_ema_fast p < sp_ema_slow p /\ sp_ema_slow p <= 400 /\
   5 <= bb_period p <= 200)%Z /\
  (rsi_buy_min p >=? rsi_buy_max p) = false /\ (rsi_oversold p >=? rsi_overbought p) = false /\
  (bb_std p >? nzero) = true.

Lemma validate_ok p q : validate p = Ok q -> q = p /\ params_wf p.
Proof.
  unfold validate, params_wf. destruct (field_errors p) eqn:E; [|done].
  unfold field_errors in E. repeat apply app_nil in E as [? E].
  unfold int_between, _check_ordering in *. repeat case_match; try discriminate.
  intros [= <-]. reflect_bools. split; [done|]. split; [lia|]. done.
Qed.

Lemma params_wf_periods p : params_wf p -> periods_ok p.
Proof. unfold params_wf, periods_ok. lia. Qed.

Lemma elem_of_oks {E A} (l : list (result E A)) a : a ∈ oks l <-> Ok a ∈ l.
Proof.
  unfold oks. rewrite !list_elem_of_In, in_flat_map. split.
  - intros ([x|e] & Hr & Ha); [|done]. cbn in Ha. destruct Ha as [->|[]]. done.
  - intros H. exists (Ok a). split; [done|]. by left.
Qed.

Definition typed (name : string) (v : pyval F) : Prop :=
  match v with
  | PInt _ => name = "ema_fast" \/ name = "ema_slow" \/ name = "bb_period"
  | PFloat _ => name ∈ PARAM_FIELDS /\ name <> "ema_fast" /\ name <> "ema_slow" /\ name <> "bb_period"
  | _ => False
  end.

Ltac each_field H := repeat (apply elem_of_cons in H as [->|H]); [..|by apply elem_of_nil in H].

Lemma get_set_same name v p : typed name v -> get_param name (set_param name v p) = v.
Proof.
  destruct v as [|b|z|x]; cbn; [done|done| |].
  - by intros [->|[->| ->]].
  - intros (Hn & ? & ? & ?). unfold PARAM_FIELDS in Hn. each_field Hn; done.
Qed.

Lemma get_set_other f name v p : f ∈ PARAM_FIELDS -> f <> name ->
  get_param f (set_param name v p) = get_param f p.
Proof.
  intros Hf Hne. unfold PARAM_FIELDS in Hf.
  each_field Hf; cbn; destruct v; try done; by rewrite (proj2 (String.eqb_neq name _)) by congruence.
Qed.

Lemma params_ext p q : (forall f, f ∈ PARAM_FIELDS -> get_param f p = get_param f q) -> p = q.
Proof.
  intros H.
  assert (Forall (fun f => get_param f p = get_param f q) PARAM_FIELDS) as Hall by by apply Forall_forall.
  unfold PARAM_FIELDS in Hall. rewrite !Forall_cons in Hall. cbn in Hall. destruct p, q; cbn in *.
  destruct Hall as (? & ? & ? & ? & ? & ? & ? & ? & ? & _). congruence.
Qed.

Lemma get_construct_other f names values p : f ∈ PARAM_FIELDS -> f ∉ names ->
  get_param f (foldl (fun p '(name, v) => set_param name v p) p (combine names values)) = get_param f p.
Proof.
  intros Hf. revert values p. induction names as [|n names IH]; intros [|v values] p Hn; try done.
  apply not_elem_of_cons in Hn as [? ?]. cbn. by rewrite IH, get_set_other.
Qed.

Lemma get_construct f v names values p : NoDup names -> Forall2 typed names values ->
  f ∈ PARAM_FIELDS -> (f, v) ∈ combine names values ->
  get_param f (foldl (fun p '(name, v) => set_param name v p) p (combine names values)) = v.
Proof.
  intros Hnd Ht Hf. revert p. induction Ht as [|n x names values Hnx Ht IH]; intros p Hin; [by apply elem_of_nil in Hin|].
  apply NoDup_cons in Hnd as [Hn Hnd]. cbn in *. apply elem_of_cons in Hin as [[= <- <-]|Hin]; [|by apply IH].
  rewrite get_construct_other by done. by apply get_set_same.
Qed.

Lemma elem_of_product {A} (axes : list (list A)) values :
  values ∈ product axes <-> Forall2 (fun v axis => v ∈ axis) values axes.
Proof.
  revert values. induction axes as [|axis axes IH]; intros values.
  - cbn. rewrite elem_of_cons, elem_of_nil. split.
    + intros [->|[]]. constructor.
    + intros H. inversion H. by left.
  - cbn. rewrite list_elem_of_In, in_flat_map. setoid_rewrite in_map_iff. split.
    + intros (v & Hv & rest & <- & Hr). constructor; [by apply list_elem_of_In|].
      by apply IH, list_elem_of_In.
    + intros H. inversion H as [|v ? rest ? Hv Hr]; subst. exists v. split; [by apply list_elem_of_In|].
      exists rest. split; [done|]. by apply list_elem_of_In, IH.
Qed.

Lemma NoDup_product {A} (axes : list (list A)) : Forall NoDup axes -> NoDup (product axes).
Proof.
  induction 1 as [|axis axes Ha _ IH]; cbn; [repeat constructor; by apply not_elem_of_nil|].
  induction Ha as [|v axis Hv Ha IHa]; cbn; [constructor|]. apply NoDup_app. split_and!.
  - apply NoDup_fmap_2; [|done]. intros a b [=]. done.
  - intros l (r & -> & _)%elem_of_map (v' & Hv' & Hin)%list_elem_of_In%in_flat_map.
    apply in_map_iff in Hin as (? & [= -> ->] & _). by apply Hv, list_elem_of_In.
  - done.
Qed.

(** What the live axes of a grid without repeated values satisfy. *)
Definition axes_ok (fields : list string) (axes : list (string * list (pyval F))) : Prop :=
  NoDup (map fst axes) /\
  Forall (fun a => fst a ∈ PARAM_FIELDS /\ Forall (typed (fst a)) (snd a) /\ NoDup (snd a) /\
                   (fst a ∉ fields -> (length (snd a) <= 1)%nat)) axes.

Definition grid_distinct (grid : ParameterGrid F) : Prop := Forall (fun a => NoDup (snd a)) (_axes grid).

Lemma typed_ints name l : name = "ema_fast" \/ name = "ema_slow" \/ name = "bb_period" ->
  Forall (typed name) (map PInt l).
Proof. intros. by apply Forall_map, Forall_forall. Qed.

Lemma typed_floats name l : name ∈ PARAM_FIELDS /\ name <> "ema_fast" /\ name <> "ema_slow" /\ name <> "bb_period" ->
  Forall (typed name) (map PFloat l).
Proof. intros. by apply Forall_map, Forall_forall. Qed.

Lemma in_fields name : bool_decide (name ∈ PARAM_FIELDS) = true -> name ∈ PARAM_FIELDS.
Proof. by intros ?%bool_decide_eq_true. Qed.

Lemma axes_typed (grid : ParameterGrid F) : Forall (fun a => fst a ∈ PARAM_FIELDS /\ Forall (typed (fst a)) (snd a)) (_axes grid).
Proof.
  unfold _axes. rewrite !Forall_cons. cbn [fst snd].
  split_and!; first [apply in_fields; by vm_compute | apply typed_ints; tauto | apply Forall_nil; done | idtac];
    apply typed_floats; (split_and!; [apply in_fields; by vm_compute|done..]).
Qed.

Lemma names_axes (grid : ParameterGrid F) : map fst (_axes grid) = PARAM_FIELDS.
Proof. done. Qed.

Lemma live_axes_ok (grid : ParameterGrid F) name s axes : grid_distinct grid -> get_strategy fpow name = Ok s ->
  _live_axes fpow grid (Some name) = Ok axes -> axes_ok (param_fields s) axes.
Proof.
  intros Hd Hs. unfold _live_axes. rewrite Hs. cbv zeta.
  pose proof (axes_typed grid) as Ht. pose proof (names_axes grid) as En. revert Hd Ht En.
  unfold grid_distinct. generalize (_axes grid). intros ax Hd Ht En [= <-]. unfold axes_ok. split.
  - rewrite map_map. rewrite (map_ext _ fst) by by intros [].
    apply NoDup_map_filter. rewrite En. apply (bool_decide_unpack _). by vm_compute.
  - apply Forall_map, Forall_forall. intros [n values] Hin. apply elem_of_filter_b in Hin as [Hin _].
    rewrite Forall_forall in Ht, Hd.
    destruct (Ht _ Hin) as [Hn Hty]. specialize (Hd _ Hin). cbn in *.
    destruct (str_in n (param_fields s)) eqn:E; (split; [done|]).
    + split_and!; [done..|]. intros Hnot. by apply str_in_spec in E.
    + split_and!; [by apply Forall_take| |rewrite length_take; lia].
      eapply sublist_NoDup; [done|apply sublist_take].
Qed.

Lemma elem_of_combine {A B} (l : list A) (k : list B) i a b :
  l !! i = Some a -> k !! i = Some b -> (a, b) ∈ combine l k.
Proof.
  revert k i. induction l as [|x l IH]; intros [|y k] [|i]; cbn; intros Ha Hb; try done.
  - simplify_eq. by left.
  - right. by eapply IH.
Qed.

Lemma product_fields fields axes values values' :
  axes_ok fields axes -> values ∈ product (map snd axes) -> values' ∈ product (map snd axes) ->
  (forall f, f ∈ fields -> get_param f (construct (map fst axes) values) =
                           get_param f (construct (map fst axes) values')) -> values = values'.
Proof.
  intros [Hnd Hok] Hv%elem_of_product Hv'%elem_of_product Hf.
  assert (forall vs, Forall2 (fun v axis => v ∈ axis) vs (map snd axes) -> Forall2 typed (map fst axes) vs) as Hty.
  { clear -Hok. intros vs H. revert vs H. induction Hok as [|[n vals] axes (_ & Ht & _) _ IH]; intros vs H;
      inversion H; subst; constructor; [by eapply Forall_forall|by apply IH]. }
  apply list_eq. intros i.
  destruct (axes !! i) as [[n axis]|] eqn:Ei.
  2:{ rewrite !lookup_ge_None_2; [done|..]; apply lookup_ge_None_1 in Ei;
      [apply Forall2_length in Hv'|apply Forall2_length in Hv]; rewrite length_map in *; lia. }
  assert (map snd axes !! i = Some axis) as Es by (rewrite list_lookup_fmap, Ei; done).
  assert (map fst axes !! i = Some n) as En by (rewrite list_lookup_fmap, Ei; done).
  destruct (Forall2_lookup_r _ _ _ _ _ Hv Es) as (v & Ev & Hin).
  destruct (Forall2_lookup_r _ _ _ _ _ Hv' Es) as (v' & Ev' & Hin'). rewrite Ev, Ev'. f_equal.
  rewrite Forall_lookup in Hok. destruct (Hok _ _ Ei) as (Hn & _ & _ & Hsingle). cbn in *.
  destruct (decide (n ∈ fields)) as [Hr|Hr].
  - specialize (Hf n Hr). unfold construct in Hf.
    rewrite (get_construct n v), (get_construct n v') in Hf; auto;
      by eapply elem_of_combine.
  - specialize (Hsingle Hr). destruct axis as [|a [|b axis]]; cbn in *; [by apply elem_of_nil in Hin| |lia].
    apply list_elem_of_singleton in Hin, Hin'. congruence.
Qed.

Lemma NoDup_oks {A B E} (f : A -> result E B) (l : list A) : NoDup l ->
  (forall x y b, x ∈ l -> y ∈ l -> f x = Ok b -> f y = Ok b -> x = y) -> NoDup (oks (map f l)).
Proof.
  intros Hnd Hinj. induction Hnd as [|x l Hx Hnd IH]; [constructor|].
  change (oks (map f (x :: l))) with ((match f x with Ok a => [a] | Err _ => [] end) ++ oks (map f l)).
  assert (NoDup (oks (map f l))) as Hl.
  { apply IH. intros y z b Hy Hz. apply Hinj; by right. }
  destruct (f x) as [b|e] eqn:Ex; [|done]. cbn. constructor; [|done].
  intros Hin%elem_of_oks. apply elem_of_map in Hin as (y & Ey & Hy).
  apply Hx. rewrite (Hinj x y b); [done|by left|by right|done|done].
Qed.

Lemma combinations_inv (grid : ParameterGrid F) name cs : combinations fpow grid (Some name) = Ok cs ->
  exists s axes, get_strategy fpow name = Ok s /\ _live_axes fpow grid (Some name) = Ok axes /\
    cs = oks (map (fun values => validate (construct (map fst axes) values)) (product (map snd axes))).
Proof.
  unfold combinations. destruct (_live_axes fpow grid (Some name)) as [axes|] eqn:E; [|done].
  intros [= <-]. unfold _live_axes in E. destruct (get_strategy fpow name) as [s|]; [|done]. eauto.
Qed.
End search.

(** C39. A search counts each trial once, and each is well formed: every configuration of
    a grid without repeated values has both its EMA speeds ordered and its bands non-empty,
    no configuration occurs twice, and two that agree on the parameters their strategy
    reads are the same. *)
Theorem trials_are_genuine {F} `{PyFloat F} fpow (grid : ParameterGrid F) name s cs :
  grid_distinct grid -> get_strategy fpow name = Ok s -> combinations fpow grid (Some name) = Ok cs ->
  Forall params_wf cs /\ NoDup cs /\
  (forall c c', c ∈ cs -> c' ∈ cs ->
     (forall f, f ∈ param_fields s -> get_param f c = get_param f c') -> c = c').
Proof.
  intros Hd Hs Hc. destruct (combinations_inv _ _ _ _ Hc) as (s' & axes & Hs' & Ha & ->).
  simplify_eq. pose proof (live_axes_ok fpow _ _ _ _ Hd Hs Ha) as Hok.
  assert (forall c, c ∈ oks (map (fun values => validate (construct (map fst axes) values)) (product (map snd axes))) ->
    params_wf c /\ exists values, values ∈ product (map snd axes) /\ c = construct (map fst axes) values) as Hin.
  { intros c (values & Ev & Hv)%elem_of_oks%elem_of_map. symmetry in Ev.
    apply validate_ok in Ev as [-> Hwf]. eauto. }
  split_and!.
  - apply Forall_forall. intros c Hc'. by apply Hin.
  - apply NoDup_oks.
    + apply NoDup_product. apply Forall_map, Forall_forall. intros a Ha'. destruct Hok as [_ Hok].
      rewrite Forall_forall in Hok. by apply Hok.
    + intros x y b Hx Hy Ex Ey. apply validate_ok in Ex as [-> _], Ey as [Ey _].
      eapply product_fields; eauto. intros f _. by rewrite Ey.
  - intros c c' (_ & v & Hv & ->)%Hin (_ & v' & Hv' & ->)%Hin Hf.
    by rewrite (product_fields _ _ v v' Hok Hv Hv' Hf).
Qed.

(** ** The live rule and the backtest's *)

Section live.
Context {F : Type} `{HF : PyFloat F}.
Context (fpow : F -> F -> F).
Local Open Scope py_scope.

(** A dict of parameters that records a configuration. *)
Definition records (parameters : list (string * F)) (p : StrategyParams F) : Prop :=
  ntrunc (active parameters "ema_fast") = sp_ema_fast p /\
  ntrunc (active parameters "ema_slow") = sp_ema_slow p /\
  active parameters "rsi_buy_min" = rsi_buy_min p /\
  active parameters "rsi_buy_max" = rsi_buy_max p /\
  active parameters "macd_hist_min" = macd_hist_min p.

(** What the sentiment gate makes of a decision. *)
Definition sentiment_gate (threshold score : option F) (s : Signal) : Signal :=
  match s, score with
  | BUY, Some score => if score <? default (nlit (-3) 10) threshold then HOLD else BUY
  | _, _ => s
  end.

Lemma live_decision ta threshold score bars parameters p a b : records parameters p ->
  rule_averages ta bars (sp_ema_fast p) (sp_ema_slow p) = inl (a, b) ->
  rs_action (evaluate_rules ta threshold score bars parameters) =
    sentiment_gate threshold score
      (momentum_rule p a b (rsi_14 (indicators ta)) (macd_histogram (indicators ta))).
Proof.
  intros (Ef & Es & E1 & E2 & E3) Ha. unfold evaluate_rules. rewrite Ef, Es, E1, E2, E3, Ha. cbv zeta.
  unfold momentum_rule, rsi_sell_min, rsi_sell_max. set (buy := _ && _ && _). set (sell := _ && _ && _).
  set (s := if buy then BUY else _). cbv zeta. unfold sentiment_gate.
  destruct s, score as [score|]; try destruct (score <? _); cbn;
    destruct (_pattern_bonus _ _ _ _); done.
Qed.

Lemma last_on_prefixes {A B} (f : list A -> B) l : l <> [] -> last (on_prefixes f l) = Some (f l).
Proof.
  intros Hl. unfold on_prefixes. destruct (exists_last Hl) as (l0 & x & ->).
  rewrite length_snoc, seq_app, map_app. cbn [List.seq map]. rewrite last_snoc. f_equal. f_equal.
  apply take_ge. rewrite length_snoc. lia.
Qed.

Lemma filter_id {A} (p : A -> bool) l : Forall (fun x => p x = true) l -> List.filter p l = l.
Proof. induction 1 as [|x l Hx _ IH]; [done|]. cbn. by rewrite Hx, IH. Qed.

(** The averages the live rule reads: the summary's rounded ones where it has them. *)
Definition live_averages (p : StrategyParams F) (closes : list F) : F * F :=
  if (sp_ema_fast p =? 20)%Z && (sp_ema_slow p =? 50)%Z
  then (nround 4 (compute_ema closes 20), nround 4 (compute_ema closes 50))
  else (compute_ema closes (Z.to_nat (sp_ema_fast p)), compute_ema closes (Z.to_nat (sp_ema_slow p))).

(** What the live rule decides on: the figures of the backtest, rounded. *)
Definition rounded_rule (p : StrategyParams F) (closes : list F) : Signal :=
  momentum_rule p (fst (live_averages p closes)) (snd (live_averages p closes))
    (nround 4 (compute_rsi closes 14)) (nround 6 (snd (compute_macd closes 12 26 9))).

Lemma rounded_decision sym (bars : list (OHLCVBar F)) source now threshold score parameters p :
  records parameters p -> bars <> [] -> (momentum_warmup p <= Z.of_nat (length bars))%Z ->
  Forall (fun x => ntrue x = true) (map ob_close bars) ->
  rs_action (evaluate_rules (build_ta_summary fpow sym bars source now) threshold score (Some bars) parameters) =
    sentiment_gate threshold score (rounded_rule p (map ob_close bars)).
Proof.
  intros Hr Hb Hw Hc. set (ta := build_ta_summary _ _ _ _ _). set (closes := map ob_close bars) in *.
  assert (ema_20 (indicators ta) = nround 4 (compute_ema closes 20) /\
    ema_50 (indicators ta) = nround 4 (compute_ema closes 50) /\
    rsi_14 (indicators ta) = nround 4 (compute_rsi closes 14) /\
    macd_histogram (indicators ta) = nround 6 (snd (compute_macd closes 12 26 9))) as (E1 & E2 & E3 & E4).
  { unfold ta, build_ta_summary. fold closes. destruct (last bars) eqn:El; [|by apply last_None in El].
    destruct (compute_macd closes 12 26 9) as [[ml ms] mh]. destruct (compute_bollinger _ _ _ _) as [[u m] w].
    by cbn. }
  unfold rounded_rule. rewrite <- E3, <- E4. apply live_decision; [done|]. unfold rule_averages, live_averages.
  destruct ((sp_ema_fast p =? 20)%Z && (sp_ema_slow p =? 50)%Z).
  { by rewrite E1, E2. }
  cbn [default]. change (Datatypes.id bars) with bars. rewrite filter_id by done. unfold closes. rewrite length_map.
  unfold momentum_warmup in Hw. destruct (Z.ltb_spec (Z.of_nat (length bars)) (sp_ema_slow p)); [lia|done].
Qed.

Lemma momentum_at_warm p bars : (momentum_warmup p <= Z.of_nat (length bars))%Z ->
  momentum_at p bars = momentum_rule p (compute_ema (map ob_close bars) (Z.to_nat (sp_ema_fast p)))
    (compute_ema (map ob_close bars) (Z.to_nat (sp_ema_slow p))) (compute_rsi (map ob_close bars) 14)
    (snd (compute_macd (map ob_close bars) 12 26 9)).
Proof. intros Hw. unfold momentum_at. destruct (Z.ltb_spec (Z.of_nat (length bars)) (momentum_warmup p)); [lia|done]. Qed.
End live.

(** The strategy that trades is the strategy that was tested: once warm, on bars whose
    indicators the summary's rounding leaves as they are, the live rule with a recorded
    configuration decides what the backtest's rule signals at the last bar, but for a BUY
    that the sentiment gate holds back. *)
Theorem live_rule_is_the_backtested_one {F} `{PyFloat F} fpow sym (bars : list (OHLCVBar F)) source
    now threshold score parameters p :
  params_wf p -> records parameters p -> bars <> [] ->
  (momentum_warmup p <= Z.of_nat (length bars))%Z ->
  Forall (fun x => ntrue x = true) (map ob_close bars) ->
  let closes := map ob_close bars in
  nround 4 (compute_ema closes 20) = compute_ema closes 20 ->
  nround 4 (compute_ema closes 50) = compute_ema closes 50 ->
  nround 4 (compute_rsi closes 14) = compute_rsi closes 14 ->
  nround 6 (snd (compute_macd closes 12 26 9)) = snd (compute_macd closes 12 26 9) ->
  exists s, last (momentum_signals bars p) = Some s /\
    rs_action (evaluate_rules (build_ta_summary fpow sym bars source now) threshold score (Some bars)
      parameters) = sentiment_gate threshold score s.
Proof.
  intros Hwf Hr Hb Hw Hc closes H20 H50 Hrsi Hh.
  rewrite momentum_on_prefixes by by apply params_wf_periods.
  rewrite last_on_prefixes by done. eexists. split; [done|].
  rewrite momentum_at_warm by done. rewrite (rounded_decision fpow sym bars source now threshold score parameters p) by done.
  unfold rounded_rule, live_averages. fold closes. rewrite Hrsi, Hh.
  destruct ((sp_ema_fast p =? 20)%Z && (sp_ema_slow p =? 50)%Z) eqn:Ep; [|done].
  apply andb_true_iff in Ep as [->%Z.eqb_eq ->%Z.eqb_eq]. cbn [fst snd]. by rewrite H20, H50.
Qed.

Module Desk.
Definition fpow (x _ : spec_float) : spec_float := x.
Definition bar (i : nat) (c : spec_float) : OHLCVBar spec_float :=
  {| ob_symbol := "MSFT"; ob_timestamp := 86400000000 * Z.of_nat i; ob_open := c; ob_high := c;
     ob_low := c; ob_close := c; ob_volume := nofZ 1000 |}.
Definition flat : list (OHLCVBar spec_float) := map (fun i => bar i (nofZ 10)) (List.seq 0 51).
(** Prices in whole cents, between 10.00 and 10.30. *)
Definition choppy : list (OHLCVBar spec_float) :=
  map (fun i => bar i (nlit (1000 + Z.of_nat (i * i * 2 mod 31)) 100)) (List.seq 0 74).
Definition small_grid : ParameterGrid spec_float :=
  {| pg_ema_fast := [10; 20]; pg_ema_slow := [40]; pg_rsi_buy_min := [nofZ 45];
     pg_rsi_buy_max := [nofZ 70]; pg_macd_hist_min := [nzero]; pg_bb_period := [10; 20];
     pg_bb_std := [nofZ 2; nlit 5 2]; pg_rsi_oversold := [nofZ 30; nofZ 80];
     pg_rsi_overbought := [nofZ 70] |}.
End Desk.

Lemma live_rule_is_the_backtested_one_witness :
  exists s, last (momentum_signals Desk.flat default_params) = Some s /\
    rs_action (evaluate_rules (build_ta_summary Desk.fpow "MSFT" Desk.flat "yahoo" 0) None
      (Some (nofZ (-1))) (Some Desk.flat) []) =
      sentiment_gate (None : option spec_float) (Some (nofZ (-1))) s.
Proof.
  apply (live_rule_is_the_backtested_one Desk.fpow "MSFT" Desk.flat "yahoo" 0 None (Some (nofZ (-1))) []
    default_params); [|by repeat split|done|by vm_compute| |by vm_compute..].
  - unfold params_wf. split; [cbn; lia|]. by vm_compute.
  - vm_compute. by repeat constructor.
Defined.

(** On this tape the backtest buys and the live rule, which reads the summary's rounded
    figures, holds. *)
Lemma rounding_changes_the_decision :
  last (momentum_signals Desk.choppy default_params) = Some BUY /\
  rs_action (evaluate_rules (build_ta_summary Desk.fpow "MSFT" Desk.choppy "yahoo" 0) None None
    (Some Desk.choppy) []) = HOLD.
Proof. split; by vm_compute. Qed.

Lemma trials_are_genuine_witness :
  exists cs, combinations Desk.fpow Desk.small_grid (Some "bollinger_reversion") = Ok cs /\
    length cs = 4%nat /\ Forall params_wf cs /\ NoDup cs.
Proof.
  eexists. split; [reflexivity|]. split; [reflexivity|].
  edestruct (trials_are_genuine Desk.fpow Desk.small_grid "bollinger_reversion") as (Hwf & Hnd & _);
    [|reflexivity|reflexivity|by split].
  unfold grid_distinct, _axes, Desk.small_grid. cbn. rewrite !Forall_cons, Forall_nil. cbn [snd].
  split_and!; try done; apply NoDup_ListNoDup; repeat constructor; cbn; by intuition discriminate.
Defined.
