(* ===== verification/Backtest.v ===== *)
(** * The backtest engine

    Models [services/backtest-service/src/backtest_service/engine.py] and the request and
    result types of [models.py] it uses. A run is a fold of [sim_step] over the bars; the
    time zone data behind [_session_date], [math.sqrt] and [**] are parameters. Shown: the
    engine does not look ahead, its books balance to the rounding of its trades, it never
    trades on credit, and a higher cost never gives a better result, so that the
    breakeven spread of a cost sweep is one. *)

From S2P Require Import Prelude PyFloat Store Indicators Strategies.
From Stdlib Require Import Floats.SpecFloat QArith Qabs Lqa.
Local Close Scope Q_scope.

Definition US_SESSION_MINUTES : Z := 390.
Definition TRADING_DAYS_PER_YEAR : Z := 252.

Record BacktestRequest (F : Type) := {
  bq_symbol : string;
  bq_strategy : string;
  period_days : Z;
  initial_capital : F;
  risk_per_trade_pct : F;
  atr_stop_multiplier : F;
  bq_params : StrategyParams F;
  timeframe : string;
  intraday_minutes : Z;
  commission_pct : F;
  spread_bps : F;
  slippage_bps : F;
  regime_gate : bool;
  volume_gate : bool
}.
Arguments bq_symbol {F}. Arguments bq_strategy {F}. Arguments period_days {F}.
Arguments initial_capital {F}. Arguments risk_per_trade_pct {F}.
Arguments atr_stop_multiplier {F}. Arguments bq_params {F}. Arguments timeframe {F}.
Arguments intraday_minutes {F}. Arguments commission_pct {F}. Arguments spread_bps {F}.
Arguments slippage_bps {F}. Arguments regime_gate {F}. Arguments volume_gate {F}.

Record TradeRecord (F : Type) := {
  entry_date : datetime;
  exit_date : datetime;
  td_symbol : string;
  td_action : string;
  td_entry_price : F;
  td_exit_price : F;
  pnl : F;
  pnl_pct : F;
  td_costs : F;
  exit_reason : string;
  same_day : bool
}.
Arguments entry_date {F}. Arguments exit_date {F}. Arguments td_symbol {F}.
Arguments td_action {F}. Arguments td_entry_price {F}. Arguments td_exit_price {F}.
Arguments pnl {F}. Arguments pnl_pct {F}. Arguments td_costs {F}. Arguments exit_reason {F}.
Arguments same_day {F}.

Record BacktestResult (F : Type) := {
  br_symbol : string;
  br_strategy : string;
  br_period_days : Z;
  br_timeframe : string;
  br_intraday_minutes : Z;
  br_bars_count : nat;
  br_initial_capital : F;
  final_value : F;
  total_return_pct : F;
  gross_return_pct : F;
  br_total_costs : F;
  max_drawdown_pct : F;
  sharpe_ratio : F;
  total_trades : nat;
  win_rate : F;
  profit_factor : F;
  avg_trade_pnl : F;
  day_trades : nat;
  max_day_trades_in_5_sessions : nat;
  br_trades : list (TradeRecord F);
  generated_at : datetime
}.

Record CostScenario (F : Type) := {
  cs_spread_bps : F;
  cs_commission_pct : F;
  cs_total_return_pct : F;
  cs_sharpe_ratio : F;
  cs_profit_factor : F;
  cs_total_trades : nat;
  cs_total_costs : F
}.
Arguments cs_spread_bps {F}. Arguments cs_total_return_pct {F}.

Record CostSensitivityResult (F : Type) := {
  sr_symbol : string;
  sr_timeframe : string;
  sr_gross_return_pct : F;
  scenarios : list (CostScenario F);
  breakeven_spread_bps : option F
}.
Arguments scenarios {F}. Arguments breakeven_spread_bps {F}.

(** The locals of the loop. *)
Record SimState (F : Type) := {
  equity : F;
  position : F;
  entry_price : F;
  entry_cost : F;
  entry_stamp : option datetime;
  stop_price : F;
  trades : list (TradeRecord F);
  equity_curve : list F;
  total_costs : F
}.
Arguments equity {F}. Arguments position {F}. Arguments entry_price {F}. Arguments entry_cost {F}.
Arguments entry_stamp {F}. Arguments stop_price {F}. Arguments trades {F}.
Arguments equity_curve {F}. Arguments total_costs {F}.

Record _Simulation (F : Type) := {
  final_equity : F;
  sim_equity_curve : list F;
  sim_trades : list (TradeRecord F);
  sim_total_costs : F
}.
Arguments final_equity {F}. Arguments sim_equity_curve {F}. Arguments sim_trades {F}.
Arguments sim_total_costs {F}.

Section engine.
Context {F : Type} `{HF : PyFloat F}.
Context (fpow : F -> F -> F) (fsqrt : F -> F).
(** The market date of an instant, from the time zone database. *)
Context (_session_date : datetime -> string).
Local Open Scope py_scope.
Implicit Types (request : BacktestRequest F) (bars : list (OHLCVBar F)) (sigs : list Signal)
  (st : SimState F) (curve : list F).

Definition is_intraday request : bool := String.eqb (timeframe request) "intraday".

Definition periods_per_year request : F :=
  if negb (is_intraday request) then nofZ TRADING_DAYS_PER_YEAR
  else nofZ TRADING_DAYS_PER_YEAR *
       (nofZ US_SESSION_MINUTES / nofZ (intraday_minutes request)).

Definition cost_per_side_pct request : F :=
  commission_pct request + (spread_bps request / nofZ 2 + slippage_bps request) / nofZ 10000.

(** The gaps between consecutive bars, in minutes. *)
Fixpoint gap_minutes bars : list F :=
  match bars with
  | a :: (b :: _) as rest =>
      total_seconds (ob_timestamp b - ob_timestamp a)%Z / nofZ 60 :: gap_minutes rest
  | _ => []
  end.

Definition infer_bar_minutes bars : option F :=
  if (length bars <? 3)%nat then None else
  let gaps := sort_by nleb (gap_minutes bars) in
  let median := at_ gaps (length gaps / 2) in
  if median >? nzero then Some median else None.

Definition periods_per_year_for request bars : F :=
  if negb (is_intraday request) then periods_per_year request else
  match infer_bar_minutes bars with
  | None => periods_per_year request
  | Some observed => nofZ TRADING_DAYS_PER_YEAR * (nofZ US_SESSION_MINUTES / observed)
  end.

Definition _compute_signals bars request : result string (list Signal) :=
  s ← get_strategy fpow (bq_strategy request);
  mret (apply bars (signals s bars (bq_params request)) (regime_gate request) (volume_gate request)).

Definition _warmup_for request : result string Z :=
  s ← get_strategy fpow (bq_strategy request);
  mret (warmup s (bq_params request)).

(** ** _simulate *)

(** [equity_curve.append(x)] *)
Definition record_equity (x : F) st : SimState F :=
  {| equity := equity st; position := position st; entry_price := entry_price st;
     entry_cost := entry_cost st; entry_stamp := entry_stamp st; stop_price := stop_price st;
     trades := trades st; equity_curve := equity_curve st ++ [x]; total_costs := total_costs st |}.
Definition mark (next_bar : OHLCVBar F) st : SimState F :=
  record_equity (equity st + position st * ob_open next_bar) st.

Definition initial_state request : SimState F :=
  {| equity := initial_capital request; position := nzero; entry_price := nzero;
     entry_cost := nzero; entry_stamp := None; stop_price := nzero; trades := [];
     equity_curve := [initial_capital request]; total_costs := nzero |}.

(** A BUY while flat: None where the code records the equity and continues. *)
Definition enter request (cost_per_side atr : F) (next_bar : OHLCVBar F) st : option (SimState F) :=
  let quote := ob_open next_bar in
  let stop_distance := atr * atr_stop_multiplier request in
  if (quote <=? nzero) || (stop_distance <=? nzero) then None else
  let shares := (equity st * risk_per_trade_pct request) / stop_distance in
  let fill := quote * (n_one + cost_per_side) in
  let shares := if shares * fill >? equity st then equity st / fill else shares in
  if shares <=? nzero then None else
  let cost := shares * quote * cost_per_side in
  Some {| equity := equity st - shares * fill; position := shares; entry_price := quote;
          entry_cost := cost; entry_stamp := Some (ob_timestamp next_bar);
          stop_price := quote - stop_distance; trades := trades st;
          equity_curve := equity_curve st; total_costs := total_costs st + cost |}.

(** The round trip booked at a quote, and the flat state after it. *)
Definition book request st (quote cost proceeds : F) (bar_stamp exit_stamp : datetime)
    (reason : string) : TradeRecord F :=
  let gross_entry := position st * entry_price st in
  {| entry_date := default bar_stamp (entry_stamp st); exit_date := exit_stamp;
     td_symbol := bq_symbol request; td_action := "BUY_SELL";
     td_entry_price := nround 4 (entry_price st); td_exit_price := nround 4 quote;
     pnl := nround 2 (proceeds - (gross_entry + entry_cost st));
     pnl_pct := nround 4 ((quote - entry_price st) / entry_price st);
     td_costs := nround 2 (entry_cost st + cost); exit_reason := reason;
     same_day := match entry_stamp st with
                 | Some stamp => String.eqb (_session_date stamp) (_session_date exit_stamp)
                 | None => false
                 end |}.

Definition leave request st (quote cost_per_side : F) (bar_stamp exit_stamp : datetime)
    (reason : string) : SimState F :=
  let fill := quote * (n_one - cost_per_side) in
  let cost := position st * quote * cost_per_side in
  let proceeds := position st * fill in
  {| equity := equity st + proceeds; position := nzero; entry_price := nzero;
     entry_cost := nzero; entry_stamp := None; stop_price := nzero;
     trades := trades st ++ [book request st quote cost proceeds bar_stamp exit_stamp reason];
     equity_curve := equity_curve st; total_costs := total_costs st + cost |}.

(** One iteration, on bar [i] and the next. *)
Definition sim_step request bars sigs (cost_per_side : F) st (i : nat) : SimState F :=
  match bars !! i, bars !! S i with
  | Some bar, Some next_bar =>
      let sig := nth i sigs HOLD in
      if position st =? nzero then
        match sig with
        | BUY =>
            let slice_ := take (S i) bars in
            let atr := compute_atr (map ob_high slice_) (map ob_low slice_) (map ob_close slice_) 14 in
            match enter request cost_per_side atr next_bar st with
            | None => record_equity (equity st) st
            | Some st => mark next_bar st
            end
        | _ => mark next_bar st
        end
      else if ob_low bar <=? stop_price st then
        mark next_bar (leave request st (nmin (stop_price st) (ob_open bar)) cost_per_side
                         (ob_timestamp bar) (ob_timestamp bar) "stop")
      else match sig with
      | SELL =>
          mark next_bar (leave request st (ob_open next_bar) cost_per_side
                           (ob_timestamp bar) (ob_timestamp next_bar) "signal")
      | _ => mark next_bar st
      end
  | _, _ => st
  end.

Definition sim_loop request bars sigs (cost_per_side : F) (start_index : nat) : SimState F :=
  foldl (sim_step request bars sigs cost_per_side) (initial_state request)
    (List.seq start_index (length bars - 1 - start_index)).

(** What is still open is closed at the last close; the proceeds associate differently. *)
Definition close_out request bars (cost_per_side : F) st : SimState F :=
  match last bars with
  | Some last_bar =>
      if position st >? nzero then
        let quote := ob_close last_bar in
        let cost := position st * quote * cost_per_side in
        let proceeds := position st * quote * (n_one - cost_per_side) in
        let equity := equity st + proceeds in
        {| equity := equity; position := position st; entry_price := entry_price st;
           entry_cost := entry_cost st; entry_stamp := entry_stamp st;
           stop_price := stop_price st;
           trades := trades st ++ [book request st quote cost proceeds (ob_timestamp last_bar)
                                     (ob_timestamp last_bar) "end_of_data"];
           equity_curve := equity_curve st ++ [equity]; total_costs := total_costs st + cost |}
      else st
  | None => st
  end.

Definition _simulate request bars sigs (cost_per_side : F) (start_index : nat) : _Simulation F :=
  let st := close_out request bars cost_per_side
              (sim_loop request bars sigs cost_per_side start_index) in
  {| final_equity := equity st; sim_equity_curve := equity_curve st; sim_trades := trades st;
     sim_total_costs := total_costs st |}.

(** ** The figures of a run *)

Definition _max_day_trades_in_window (trades : list (TradeRecord F)) bars (window : nat) : nat :=
  let day_trade_dates := map (fun t => _session_date (exit_date t)) (List.filter same_day trades) in
  match day_trade_dates with
  | [] => 0%nat
  | _ =>
      let counts date := length (List.filter (String.eqb date) day_trade_dates) in
      let sessions := sort_by String.leb (remove_dups (map (fun b => _session_date (ob_timestamp b)) bars)) in
      foldl (fun peak index =>
          let first := (index + 1 - window)%nat in
          let span := take (index + 1 - first) (drop first sessions) in
          Nat.max peak (list_sum (map counts span)))
        0%nat (List.seq 0 (length sessions))
  end.

(** The per-bar returns of a curve, where the earlier value is positive. *)
Fixpoint curve_returns curve : list F :=
  match curve with
  | a :: (b :: _) as rest =>
      if a >? nzero then (b - a) / a :: curve_returns rest else curve_returns rest
  | _ => []
  end.

Definition _compute_sharpe curve (periods_per_year : F) : F :=
  if (length curve <? 2)%nat then nzero else
  match curve_returns curve with
  | [] => nzero
  | returns =>
      let n := nnat (length returns) in
      let mean := nsum returns / n in
      let variance := nsum (map (fun r => fpow (r - mean) (nofZ 2)) returns) / n in
      let std := fsqrt variance in
      if std =? nzero then nzero else (mean / std) * fsqrt periods_per_year
  end.

Definition PROFIT_FACTOR_NO_LOSSES : F := nlit 99999 100.

Definition _profit_factor (trades : list (TradeRecord F)) : F :=
  let gains := nsum (map pnl (List.filter (fun t => pnl t >? nzero) trades)) in
  let losses := - nsum (map pnl (List.filter (fun t => pnl t <? nzero) trades)) in
  if losses <=? nzero then (if gains >? nzero then PROFIT_FACTOR_NO_LOSSES else nzero)
  else nmin (gains / losses) PROFIT_FACTOR_NO_LOSSES.

Definition _max_drawdown curve : F :=
  snd (foldl (fun '(peak, worst) value =>
      let peak := nmax peak value in
      (peak, if peak >? nzero then nmax worst ((peak - value) / peak) else worst))
    (default nzero (head curve), nzero) curve).

(** ** run_backtest and run_cost_sensitivity *)

Definition too_few_bars (warmup : Z) (n : nat) : string :=
  "Need at least " +:+ str_of_Z (warmup + 1) +:+ " bars for indicator warm-up, got " +:+
  str_of_Z (Z.of_nat n).

Definition run_backtest request bars (now : datetime) : result string (BacktestResult F) :=
  warmup ← _warmup_for request;
  if (Z.of_nat (length bars) <? warmup + 1)%Z then Err (too_few_bars warmup (length bars)) else
  sigs ← _compute_signals bars request;
  let net := _simulate request bars sigs (cost_per_side_pct request) 0 in
  let gross := _simulate request bars sigs nzero 0 in
  let capital := initial_capital request in
  let observed_minutes := infer_bar_minutes bars in
  let n := length (sim_trades net) in
  mret {| br_symbol := bq_symbol request; br_strategy := bq_strategy request;
          br_period_days := period_days request; br_timeframe := timeframe request;
          br_intraday_minutes :=
            match observed_minutes with
            | Some m => if is_intraday request && ntrue m then ntrunc (nround 0 m)
                        else intraday_minutes request
            | None => intraday_minutes request
            end;
          br_bars_count := length bars; br_initial_capital := capital;
          final_value := nround 2 (final_equity net);
          total_return_pct := nround 4 ((final_equity net - capital) / capital);
          gross_return_pct := nround 4 ((final_equity gross - capital) / capital);
          br_total_costs := nround 2 (sim_total_costs net);
          max_drawdown_pct := nround 4 (_max_drawdown (sim_equity_curve net));
          sharpe_ratio := nround 4 (_compute_sharpe (sim_equity_curve net)
                                      (periods_per_year_for request bars));
          total_trades := n;
          win_rate :=
            if Nat.eqb n 0 then nzero
            else nround 4 (nnat (length (List.filter (fun t => pnl t >? nzero) (sim_trades net)))
                           / nnat n);
          profit_factor := nround 4 (_profit_factor (sim_trades net));
          avg_trade_pnl :=
            if Nat.eqb n 0 then nzero else nround 2 (nsum (map pnl (sim_trades net)) / nnat n);
          day_trades := length (List.filter same_day (sim_trades net));
          max_day_trades_in_5_sessions := _max_day_trades_in_window (sim_trades net) bars 5;
          br_trades := sim_trades net; generated_at := now |}.

(** [request.model_copy(update={"spread_bps": spread})] *)
Definition with_spread request (spread : F) : BacktestRequest F :=
  {| bq_symbol := bq_symbol request; bq_strategy := bq_strategy request;
     period_days := period_days request; initial_capital := initial_capital request;
     risk_per_trade_pct := risk_per_trade_pct request;
     atr_stop_multiplier := atr_stop_multiplier request; bq_params := bq_params request;
     timeframe := timeframe request; intraday_minutes := intraday_minutes request;
     commission_pct := commission_pct request; spread_bps := spread;
     slippage_bps := slippage_bps request; regime_gate := regime_gate request;
     volume_gate := volume_gate request |}.

Definition default_ladder : list F := map nofZ [0; 1; 2; 5; 10; 20; 50]%Z.

(** The return of the run at a spread, before rounding. *)
Definition spread_run request bars sigs (spread : F) : _Simulation F :=
  let variant := with_spread request spread in
  _simulate variant bars sigs (cost_per_side_pct variant) 0.
Definition spread_return request bars sigs (spread : F) : F :=
  (final_equity (spread_run request bars sigs spread) - initial_capital request)
  / initial_capital request.

Definition scenario request bars sigs (spread : F) : CostScenario F :=
  let run := spread_run request bars sigs spread in
  {| cs_spread_bps := spread; cs_commission_pct := commission_pct request;
     cs_total_return_pct := nround 4 (spread_return request bars sigs spread);
     cs_sharpe_ratio := nround 4 (_compute_sharpe (sim_equity_curve run)
                                    (periods_per_year_for (with_spread request spread) bars));
     cs_profit_factor := nround 4 (_profit_factor (sim_trades run));
     cs_total_trades := length (sim_trades run);
     cs_total_costs := nround 2 (sim_total_costs run) |}.

Definition run_cost_sensitivity request bars (spreads_bps : option (list F))
    : result string (CostSensitivityResult F) :=
  let ladder := default default_ladder spreads_bps in
  sigs ← _compute_signals bars request;
  let capital := initial_capital request in
  let '(scenarios, breakeven) :=
    foldl (fun '(scenarios, breakeven) spread =>
        (scenarios ++ [scenario request bars sigs spread],
         if spread_return request bars sigs spread >? nzero then Some spread else breakeven))
      ([], None) (sort_by nleb ladder) in
  let gross := _simulate request bars sigs nzero 0 in
  mret {| sr_symbol := bq_symbol request; sr_timeframe := timeframe request;
          sr_gross_return_pct := nround 4 ((final_equity gross - capital) / capital);
          scenarios := scenarios; breakeven_spread_bps := breakeven |}.
End engine.

(** ** The engine does not look ahead *)

Section lookahead.
Context {F : Type} `{HF : PyFloat F}.
Context (fpow : F -> F -> F) (_session_date : datetime -> string).
Implicit Types (request : BacktestRequest F) (bars : list (OHLCVBar F)) (sigs : list Signal).

Lemma compute_signals_on_prefixes request bars sigs : periods_ok (bq_params request) ->
  _compute_signals fpow bars request = Ok sigs ->
  exists f, forall bars', _compute_signals fpow bars' request = Ok (on_prefixes f bars').
Proof.
  intros Hp. unfold _compute_signals.
  destruct (get_strategy fpow (bq_strategy request)) as [s|] eqn:Es; [|done]. intros _.
  destruct (signals_on_prefixes fpow _ _ [] _ Es Hp) as [f Hf].
  eexists. intros bars'. change (Ok s ≫= ?k) with (k s). cbv beta.
  rewrite Hf, apply_on_prefixes. reflexivity.
Qed.

(** What one iteration reads. *)
Lemma sim_step_local request bars bars' sigs sigs' c st n i : (S i < n)%nat ->
  take n bars = take n bars' -> take n sigs = take n sigs' ->
  sim_step _session_date request bars sigs c st i = sim_step _session_date request bars' sigs' c st i.
Proof.
  intros Hi Hb Hs.
  assert (forall j, (j < n)%nat -> bars !! j = bars' !! j) as Hl.
  { intros j Hj. rewrite <- (lookup_take_lt bars n), <- (lookup_take_lt bars' n) by done. by rewrite Hb. }
  assert (take (S i) bars = take (S i) bars') as Ht.
  { replace (S i) with (S i `min` n)%nat by lia. rewrite <- !take_take. by rewrite Hb. }
  assert (nth i sigs HOLD = nth i sigs' HOLD) as Hn.
  { rewrite !nth_lookup. rewrite <- (lookup_take_lt sigs n), <- (lookup_take_lt sigs' n) by lia. by rewrite Hs. }
  unfold sim_step. rewrite !Hl, Ht, Hn by lia. done.
Qed.

Lemma foldl_ext {A B} (f g : B -> A -> B) (l : list A) b :
  (forall b a, a ∈ l -> f b a = g b a) -> foldl f b l = foldl g b l.
Proof.
  revert b. induction l as [|a l IH]; intros b H; [done|]. cbn. rewrite (H b a) by by left.
  apply IH. intros. apply H. by right.
Qed.

Lemma step_appends request bars sigs c st i : (S i < length bars)%nat ->
  exists x, equity_curve (sim_step _session_date request bars sigs c st i) = equity_curve st ++ [x].
Proof.
  intros Hi. unfold sim_step.
  destruct (lookup_lt_is_Some_2 bars i) as [bar ->]; [lia|].
  destruct (lookup_lt_is_Some_2 bars (S i)) as [next_bar ->]; [done|].
  destruct (neqb _ _).
  - destruct (nth i sigs HOLD); [|by eexists..]. destruct (enter _ _ _ _ _) as [st'|] eqn:E; [|by eexists].
    eexists. cbn. f_equal. unfold enter in E. cbv zeta in E. by repeat case_match; simplify_eq.
  - destruct (nleb _ _); [by eexists|]. by destruct (nth i sigs HOLD); eexists.
Qed.

Lemma loop_appends request bars sigs c st i k : (i + k < length bars)%nat ->
  exists l, length l = k /\
    equity_curve (foldl (sim_step _session_date request bars sigs c) st (List.seq i k)) = equity_curve st ++ l.
Proof.
  revert i st. induction k as [|k IH]; intros i st Hik; [exists []; by rewrite app_nil_r|].
  cbn. destruct (IH (S i) (sim_step _session_date request bars sigs c st i)) as (l & Hl & ->); [lia|].
  destruct (step_appends request bars sigs c st i) as [x ->]; [lia|].
  exists (x :: l). cbn. rewrite Hl, <- app_assoc. done.
Qed.

(** The first points of a run's curve are the curve of the loop over the first bars. *)
Lemma curve_prefix request bars sigs c start n : (start < n <= length bars)%nat ->
  take (n - start) (sim_equity_curve (_simulate _session_date request bars sigs c start)) =
  equity_curve (foldl (sim_step _session_date request bars sigs c) (initial_state request)
    (List.seq start (n - 1 - start))).
Proof.
  intros Hn. unfold _simulate, sim_loop. cbn [sim_equity_curve].
  replace (length bars - 1 - start)%nat with ((n - 1 - start) + (length bars - n))%nat by lia.
  rewrite seq_app, foldl_app. set (st := foldl _ _ (List.seq start _)).
  destruct (loop_appends request bars sigs c (initial_state request) start (n - 1 - start)) as (l & Hl & E); [lia|].
  fold st in E. cbn [equity_curve initial_state] in E.
  destruct (loop_appends request bars sigs c st (start + (n - 1 - start)) (length bars - n)) as (l' & _ & E'); [lia|].
  set (st' := foldl _ st _) in *.
  assert (exists l'', equity_curve (close_out _session_date request bars c st') = equity_curve st ++ l'') as [l'' ->].
  { unfold close_out. destruct (last bars); [|eauto]. destruct (nltb _ _); [|eauto].
    cbn. rewrite E', <- app_assoc. eauto. }
  apply take_app_length'. rewrite E. cbn. lia.
Qed.
End lookahead.

(** C19. A backtest knows no more than the past: if two histories agree on their first n bars,
    then whatever the strategy and the gates, they get the same first n signals and the
    same equity up to the open of bar n. *)
Theorem backtest_no_lookahead {F} `{PyFloat F} fpow _session_date (request : BacktestRequest F)
    (bars bars' : list (OHLCVBar F)) sigs sigs' c start n :
  params_wf (bq_params request) ->
  take n bars = take n bars' -> (start < n <= length bars)%nat -> (n <= length bars')%nat ->
  _compute_signals fpow bars request = Ok sigs ->
  _compute_signals fpow bars' request = Ok sigs' ->
  take n sigs = take n sigs' /\
  take (n - start) (sim_equity_curve (_simulate _session_date request bars sigs c start)) =
  take (n - start) (sim_equity_curve (_simulate _session_date request bars' sigs' c start)).
Proof.
  intros Hp%params_wf_periods Hb Hn Hn' Hs Hs'.
  destruct (compute_signals_on_prefixes fpow _ _ _ Hp Hs) as [f Hf]. rewrite Hf in Hs, Hs'. simplify_eq.
  assert (take n (on_prefixes f bars) = take n (on_prefixes f bars')) as Hsig
    by by rewrite <- !on_prefixes_take, Hb.
  split; [done|]. rewrite !curve_prefix by lia. f_equal. apply foldl_ext. intros st i Hi.
  apply list_elem_of_In, in_seq in Hi. apply (sim_step_local _ _ _ _ _ _ _ _ n); [lia|done..].
Qed.

(** ** Invariants of the loop *)

Section invariants.
Context {F : Type} `{HF : PyFloat F}.
Context (_session_date : datetime -> string).
Implicit Types (request : BacktestRequest F) (bars : list (OHLCVBar F)) (st : SimState F).

(** A price at which the loop leaves a position: a bar's open, or the stop that a bar has
    traded through, at the open if that is lower. *)
Definition exit_quote bars st (quote : F) : Prop :=
  (exists bar, bar ∈ bars /\ nleb (ob_low bar) (stop_price st) = true /\
     quote = nmin (stop_price st) (ob_open bar)) \/
  (exists bar, bar ∈ bars /\ quote = ob_open bar).

Lemma loop_invariant (P : SimState F -> Prop) request bars sigs c start :
  P (initial_state request) ->
  (forall x st, P st -> P (record_equity x st)) ->
  (forall st st' atr next_bar, next_bar ∈ bars -> P st -> neqb (position st) nzero = true ->
     enter request c atr next_bar st = Some st' -> P st') ->
  (forall st quote stamp stamp' reason, P st -> neqb (position st) nzero = false ->
     exit_quote bars st quote -> P (leave _session_date request st quote c stamp stamp' reason)) ->
  P (sim_loop _session_date request bars sigs c start).
Proof.
  intros H0 Hrec Henter Hleave. unfold sim_loop. revert H0. generalize (initial_state request).
  induction (List.seq start _) as [|i l IH]; intros st H; [done|]. cbn. apply IH.
  unfold sim_step. destruct (bars !! i) as [bar|] eqn:Eb; [|done].
  destruct (bars !! S i) as [next_bar|] eqn:En; [|done].
  apply list_elem_of_lookup_2 in Eb, En. unfold mark.
  destruct (neqb _ _) eqn:Ep.
  - destruct (nth i sigs HOLD); [|by apply Hrec..]. destruct (enter _ _ _ _ _) eqn:Ee; [|by apply Hrec].
    apply Hrec. eauto.
  - destruct (nleb _ _) eqn:Es.
    + apply Hrec, Hleave; [done|done|]. left. eauto.
    + destruct (nth i sigs HOLD); try by apply Hrec. apply Hrec, Hleave; [done|done|]. right. eauto.
Qed.

(** What [enter] opens. *)
Lemma enter_spec request c atr next_bar st st' : enter request c atr next_bar st = Some st' ->
  exists shares, let quote := ob_open next_bar in
    let stop_distance := nmul atr (atr_stop_multiplier request) in
    let sized := ndiv (nmul (equity st) (risk_per_trade_pct request)) stop_distance in
    let fill := nmul quote (nadd n_one c) in
    nleb quote nzero = false /\ nleb stop_distance nzero = false /\ nleb shares nzero = false /\
    shares = (if nltb (equity st) (nmul sized fill) then ndiv (equity st) fill else sized) /\
    st' = {| equity := nsub (equity st) (nmul shares fill); position := shares; entry_price := quote;
             entry_cost := nmul (nmul shares quote) c; entry_stamp := Some (ob_timestamp next_bar);
             stop_price := nsub quote stop_distance; trades := trades st;
             equity_curve := equity_curve st;
             total_costs := nadd (total_costs st) (nmul (nmul shares quote) c) |}.
Proof.
  unfold enter. cbv zeta. destruct (nleb _ _) eqn:E1; [done|]. cbn [orb].
  destruct (nleb (nmul atr _) _) eqn:E2; [done|]. destruct (nleb _ _) eqn:E3 at 1; [done|].
  intros [= <-]. eexists. split_and!; done.
Qed.
End invariants.

(** ** The books balance *)

Section books.
Local Open Scope Q_scope.
Context (_session_date : datetime -> string).
Implicit Types (request : BacktestRequest Q) (st : SimState Q) (trades : list (TradeRecord Q)).

(** The rounding of [n] booked figures, to half a cent each. *)
Definition cents (n : nat) : Q := nnat n * half_ulp 2.

Definition near (n : nat) (x y : Q) : Prop := x <= y + cents n /\ y <= x + cents n.

Lemma cents_S n : cents (n + 1) == cents n + half_ulp 2.
Proof.
  unfold cents, nnat, nofZ, half_ulp. cbn [nlit exact]. rewrite Nat2Z.inj_add.
  unfold Qeq, Qmult, Qplus. cbn [Qnum Qden]. lia.
Qed.

Definition balanced (capital : Q) st : Prop :=
  0 <= position st /\ (position st == 0 -> entry_cost st == 0) /\
  near (length (trades st)) (equity st + position st * entry_price st + entry_cost st)
    (capital + nsum (map pnl (trades st))) /\
  near (length (trades st)) (total_costs st) (nsum (map td_costs (trades st)) + entry_cost st).

Lemma balanced_record capital x st : balanced capital st -> balanced capital (record_equity x st).
Proof. done. Qed.

Lemma balanced_initial request : balanced (initial_capital request) (initial_state request).
Proof.
  unfold balanced, near, cents. cbn. unfold nzero, nnat, nofZ. cbn. repeat split; try lra; unfold Qle; cbn; lia.
Qed.

Lemma balanced_enter request c atr next_bar st st' :
  balanced (initial_capital request) st -> neqb (position st) nzero = true ->
  enter request c atr next_bar st = Some st' -> balanced (initial_capital request) st'.
Proof.
  intros (Hp & Hc & He & Ht) Hz Hent. destruct (enter_spec _ _ _ _ _ _ Hent) as (shares & _ & _ & Hs & _ & ->).
  reflect_Q. change (nzero : Q) with 0 in *. specialize (Hc Hz). unfold balanced, near in *.
  cbn [position entry_price entry_cost equity trades total_costs nadd nsub nmul exact] in *.
  change (n_one : Q) with 1. split; [lra|]. split; [lra|]. rewrite Hz in He.
  split; [split; lra|]. destruct Ht. split; lra.
Qed.

Lemma near_booked n x y p q : near n x y -> p == q -> near (n + 1) (x + p) (y + nround 2 q).
Proof.
  intros [H1 H2] E. pose proof (Q_round_close 2 q) as [H3 H4]. pose proof (cents_S n) as Hn.
  unfold near. rewrite Hn. split; lra.
Qed.

(** A position left at any price, with proceeds net of its cost. *)
Lemma balanced_leave capital st st' t (cost proceeds : Q) : balanced capital st ->
  position st' == 0 -> entry_cost st' == 0 -> equity st' == equity st + proceeds ->
  trades st' = trades st ++ [t] -> total_costs st' == total_costs st + cost ->
  pnl t = nround 2 (proceeds - (position st * entry_price st + entry_cost st)) ->
  td_costs t = nround 2 (entry_cost st + cost) -> balanced capital st'.
Proof.
  intros (Hp & Hc & He & Ht) E1 E2 E3 E4 E5 E6 E7. unfold balanced. rewrite E4, !map_app, length_app.
  cbn [map length]. rewrite !nsum_snoc, E6, E7. cbn [nadd exact]. split; [lra|]. split; [done|].
  pose proof (near_booked _ _ _ _ _ He (Qeq_refl (proceeds - (position st * entry_price st + entry_cost st)))) as Ha.
  pose proof (near_booked _ _ _ _ _ Ht (Qeq_refl (entry_cost st + cost))) as Hb.
  unfold near in *. rewrite E1, E2, E3, E5. split; split; lra.
Qed.

Lemma balanced_loop request bars sigs c start :
  balanced (initial_capital request) (sim_loop _session_date request bars sigs c start).
Proof.
  apply (loop_invariant _ (balanced (initial_capital request))).
  - apply balanced_initial.
  - intros. by apply balanced_record.
  - intros st st' atr next_bar _. apply balanced_enter.
  - intros st quote stamp stamp' reason Hb _ _.
    by eapply (balanced_leave _ st).
Qed.
End books.

(** The books of a backtest balance: the final equity is the capital plus the profit of
    every recorded trade, and the total costs are those of the trades, to within the half
    cent each trade's figures are rounded by. *)
Theorem simulation_balances _session_date (request : BacktestRequest Q) bars sigs c start :
  let s := _simulate _session_date request bars sigs c start in
  near (length (sim_trades s)) (final_equity s) (initial_capital request + nsum (map pnl (sim_trades s)))%Q /\
  near (length (sim_trades s)) (sim_total_costs s) (nsum (map td_costs (sim_trades s))).
Proof.
  intros s. unfold s, _simulate. cbn [sim_trades final_equity sim_total_costs].
  pose proof (balanced_loop _session_date request bars sigs c start) as Hb.
  set (st := sim_loop _ _ _ _ _ _) in *. unfold close_out.
  assert (forall st, balanced (initial_capital request) st -> (position st == 0)%Q ->
    near (length (trades st)) (equity st) (initial_capital request + nsum (map pnl (trades st)))%Q /\
    near (length (trades st)) (total_costs st) (nsum (map td_costs (trades st)))) as Hflat.
  { intros st' (_ & Hc & He & Ht) Hz. specialize (Hc Hz). unfold near in *. rewrite Hz in He.
    split; split; lra. }
  destruct (last bars) as [lb|] eqn:El.
  - destruct (nltb _ _) eqn:E; reflect_Q; change (nzero : Q) with 0%Q in *.
    + set (cost := nmul (nmul (position st) (ob_close lb)) c).
      set (proceeds := nmul (nmul (position st) (ob_close lb)) _).
      set (t := book _ _ _ _ _ _ _ _ _).
      apply (Hflat {| equity := nadd (equity st) proceeds; position := nzero; entry_price := nzero;
        entry_cost := nzero; entry_stamp := None; stop_price := nzero; trades := trades st ++ [t];
        equity_curve := []; total_costs := nadd (total_costs st) cost |}); [|done].
      by apply (balanced_leave _ st _ t cost proceeds).
    + apply Hflat; [done|]. destruct Hb as [Hp _]. lra.
  - destruct bars as [|b bars]; [|by apply last_None in El].
    apply Hflat; [done|]. unfold st. cbn. done.
Qed.

(** ** A higher cost never helps *)

Section costs.
Local Open Scope Q_scope.
Context (_session_date : datetime -> string).
Implicit Types (request : BacktestRequest Q) (bars : list (OHLCVBar Q)) (st : SimState Q).

Definition priced bars : Prop :=
  forall bar, bar ∈ bars -> 0 < ob_open bar /\ 0 < ob_low bar /\ 0 < ob_close bar.

(** The state of a cheaper run and of a dearer one, after the same bars. *)
Definition dominates st1 st2 : Prop :=
  0 <= equity st2 <= equity st1 /\ 0 <= position st2 <= position st1 /\
  stop_price st1 = stop_price st2 /\
  (position st1 == 0 /\ position st2 == 0 /\ 0 < equity st2 \/ 0 < position st2).

(** The shares bought, at [k] per unit of equity or for all of it. *)
Definition sized (E k f s : Q) : Prop := E < E * k * f /\ s * f == E \/ E * k * f <= E /\ s == E * k.

Lemma sizing E1 E2 k f1 f2 s1 s2 : 0 < E2 <= E1 -> 0 < k -> 0 < f1 <= f2 ->
  sized E1 k f1 s1 -> sized E2 k f2 s2 ->
  0 < s2 <= s1 /\ 0 <= E2 - s2 * f2 <= E1 - s1 * f1.
Proof.
  intros [HE2 HE] Hk [Hf1 Hf] H1 H2.
  assert (k * f1 <= k * f2) as Hkf by nra.
  assert (forall E f, 0 < E -> E < E * k * f -> 1 < k * f) as Hcap by (intros; nra).
  assert (forall E f, 0 < E -> E * k * f <= E -> k * f <= 1) as Hunc by (intros; nra).
  destruct H1 as [[C1 S1]|[C1 S1]], H2 as [[C2 S2]|[C2 S2]].
  - split; [|split; lra]. assert (0 < s2) by nra. split; [done|]. apply Qnot_lt_le. intros Hlt.
    assert (s1 * f1 < s2 * f1) by nra. assert (s2 * f1 <= s2 * f2) by nra. lra.
  - apply Hcap in C1; [|lra]. apply Hunc in C2; lra.
  - apply Hcap in C2; [|lra]. split.
    + assert (0 < s2) by nra. split; [done|]. rewrite S1.
      assert (s2 <= E2 * k) by (apply Qnot_lt_le; intros Hlt; assert (E2 * k * f2 < s2 * f2) by nra; nra). nra.
    + rewrite S1. split; lra.
  - apply Hunc in C1; [|lra]. apply Hunc in C2; [|lra]. rewrite S1, S2.
    split; [split; nra|]. split; [nra|]. nra.
Qed.

Lemma sized_shares E r sd f : 0 < E -> 0 < r -> 0 < sd -> 0 < f ->
  let z := nmul E r in
  sized E (r / sd) f (if nltb E (nmul (ndiv z sd) f) then ndiv E f else ndiv z sd).
Proof.
  intros HE Hr Hsd Hf z. unfold z, sized. cbn [nmul ndiv exact].
  assert (E * (r / sd) * f == E * r / sd * f) as Ek by (field; lra).
  destruct (nltb E _) eqn:Ec; reflect_Q; [left|right]; rewrite Ek; (split; [done|]); field; lra.
Qed.

Lemma enter_iff request c atr nb st : 0 < risk_per_trade_pct request -> 0 <= c -> 0 < equity st ->
  enter request c atr nb st = None <-> ob_open nb <= 0 \/ nmul atr (atr_stop_multiplier request) <= 0.
Proof.
  intros Hr Hc HE. unfold enter. cbv zeta. change (nzero : Q) with 0. change (n_one : Q) with 1.
  destruct (nleb (ob_open nb) _) eqn:E1; cbn [orb]; reflect_Q; [tauto|].
  destruct (nleb (nmul atr _) _) eqn:E2; reflect_Q; [tauto|].
  set (sd := nmul atr _) in *. set (f := nmul (ob_open nb) _).
  assert (0 < f) as Hf by (unfold f; cbn [nmul nadd exact]; nra).
  pose proof (sized_shares _ _ _ _ HE Hr E2 Hf) as Hs. cbv zeta in Hs. set (s := if nltb _ _ then _ else _) in *.
  assert (0 < risk_per_trade_pct request / sd) as Hk by (apply Qlt_shift_div_l; lra).
  destruct (sizing _ _ _ _ _ _ _ (conj HE (Qle_refl _)) Hk (conj Hf (Qle_refl _)) Hs Hs) as [[Hs0 _] _].
  destruct (nleb s _) eqn:E3; reflect_Q; [lra|]. split; [done|lra].
Qed.

Lemma dominates_enter request c1 c2 atr nb st1 st2 :
  0 < risk_per_trade_pct request -> 0 <= c1 <= c2 -> dominates st1 st2 -> position st2 == 0 ->
  match enter request c1 atr nb st1, enter request c2 atr nb st2 with
  | Some st1', Some st2' => dominates st1' st2'
  | None, None => True
  | _, _ => False
  end.
Proof.
  intros Hr [Hc0 Hc] (HE & Hp & Hst & Hpos) Hz. assert (0 < equity st2) as HE2 by (destruct Hpos; lra).
  pose proof (enter_iff request c1 atr nb st1 Hr Hc0 ltac:(lra)) as H1.
  pose proof (enter_iff request c2 atr nb st2 Hr ltac:(lra) HE2) as H2.
  destruct (enter request c1 atr nb st1) as [st1'|] eqn:E1, (enter request c2 atr nb st2) as [st2'|] eqn:E2.
  - destruct (enter_spec _ _ _ _ _ _ E1) as (s1 & Hq & Hsd & _ & Es1 & ->).
    destruct (enter_spec _ _ _ _ _ _ E2) as (s2 & _ & _ & _ & Es2 & ->). reflect_Q.
    change (nzero : Q) with 0 in *. change (n_one : Q) with 1 in *.
    set (sd := nmul atr _) in *. cbn [nadd exact] in *.
    assert (0 < nmul (ob_open nb) (1 + c1) <= nmul (ob_open nb) (1 + c2)) as Hf by (cbn [nmul exact]; nra).
    assert (0 < risk_per_trade_pct request / sd) as Hk by (apply Qlt_shift_div_l; lra).
    pose proof (sized_shares (equity st1) _ sd (nmul (ob_open nb) (1 + c1)) ltac:(lra) Hr Hsd (proj1 Hf)) as S1.
    pose proof (sized_shares (equity st2) _ sd (nmul (ob_open nb) (1 + c2)) HE2 Hr Hsd
      (Qlt_le_trans _ _ _ (proj1 Hf) (proj2 Hf))) as S2.
    cbv zeta in S1, S2. rewrite <- Es1 in S1. rewrite <- Es2 in S2.
    destruct (sizing _ _ _ _ _ _ _ (conj HE2 (proj2 HE)) Hk Hf S1 S2) as [Hs Hcash].
    unfold dominates. cbn [equity position stop_price]. split; [exact Hcash|]. split; [lra|]. split; [done|].
    right. lra.
  - discriminate (proj2 H1 (proj1 H2 eq_refl)).
  - discriminate (proj2 H2 (proj1 H1 eq_refl)).
  - done.
Qed.

Lemma dominates_record x1 x2 st1 st2 : dominates st1 st2 ->
  dominates (record_equity x1 st1) (record_equity x2 st2).
Proof. done. Qed.

Lemma dominates_leave request c1 c2 st1 st2 q s s' r : 0 <= c1 <= c2 -> c2 < 1 -> 0 < q ->
  dominates st1 st2 -> 0 < position st2 ->
  dominates (leave _session_date request st1 q c1 s s' r) (leave _session_date request st2 q c2 s s' r).
Proof.
  intros [Hc0 Hc] Hc1 Hq (HE & Hp & Hst & _) Hpos. unfold dominates, leave.
  cbn [equity position stop_price nadd nmul nsub exact]. change (nzero : Q) with 0. change (n_one : Q) with 1.
  assert (0 < q * (1 - c2)) as H2 by nra. assert (q * (1 - c2) <= q * (1 - c1)) as H1 by nra.
  assert (0 < position st2 * (q * (1 - c2))) by nra.
  assert (position st2 * (q * (1 - c2)) <= position st1 * (q * (1 - c1))) by nra.
  split; [split; lra|]. split; [split; lra|]. split; [done|]. left. split_and!; lra.
Qed.

Lemma dominates_step request bars sigs c1 c2 st1 st2 i :
  priced bars -> 0 < risk_per_trade_pct request -> 0 <= c1 <= c2 -> c2 < 1 -> dominates st1 st2 ->
  dominates (sim_step _session_date request bars sigs c1 st1 i)
            (sim_step _session_date request bars sigs c2 st2 i).
Proof.
  intros Hb Hr Hc Hc1 Hd. pose proof Hd as (HE & Hp & Hst & Hpos). unfold sim_step.
  destruct (bars !! i) as [bar|] eqn:Eb; [|done]. destruct (bars !! S i) as [nb|] eqn:En; [|done].
  apply list_elem_of_lookup_2, Hb in Eb, En. cbv zeta. unfold mark.
  assert (neqb (position st1) nzero = neqb (position st2) nzero) as ->.
  { destruct (neqb (position st1) _) eqn:E1, (neqb (position st2) _) eqn:E2; try done; reflect_Q;
      change (nzero : Q) with 0 in *; exfalso; destruct Hpos; lra. }
  destruct (neqb (position st2) _) eqn:Ez; reflect_Q; change (nzero : Q) with 0 in *.
  - destruct (nth i sigs HOLD); [|done..].
    pose proof (dominates_enter request c1 c2 (compute_atr (map ob_high (take (S i) bars))
      (map ob_low (take (S i) bars)) (map ob_close (take (S i) bars)) 14) nb st1 st2 Hr Hc Hd Ez) as He.
    by destruct (enter _ c1 _ _ _), (enter _ c2 _ _ _).
  - assert (0 < position st2) as Hpos2 by (destruct Hpos; lra). rewrite Hst.
    destruct (nleb (ob_low bar) _) eqn:Es; reflect_Q.
    + apply dominates_record, dominates_leave; [done|done| |done|done].
      assert (nmin (stop_price st2) (ob_open bar) == Qmin (stop_price st2) (ob_open bar)) as -> by apply Q_nmin_spec.
      apply Q.min_glb_lt; lra.
    + destruct (nth i sigs HOLD); [done| |done]. apply dominates_record, dominates_leave; try done. apply En.
Qed.

Lemma dominates_loop request bars sigs c1 c2 start :
  priced bars -> 0 < initial_capital request -> 0 < risk_per_trade_pct request ->
  0 <= c1 <= c2 -> c2 < 1 ->
  dominates (sim_loop _session_date request bars sigs c1 start)
            (sim_loop _session_date request bars sigs c2 start).
Proof.
  intros Hb HE Hr Hc Hc1. unfold sim_loop.
  assert (dominates (initial_state request) (initial_state request)) as H0.
  { unfold dominates, initial_state. cbn [equity position stop_price]. change (nzero : Q) with 0.
    split; [lra|]. split; [lra|]. split; [done|]. left. split_and!; [done..|lra]. }
  revert H0. generalize (initial_state request) at 1 3. generalize (initial_state request).
  induction (List.seq start _) as [|i l IH]; intros st2 st1 Hd; [done|]. cbn. apply IH. by apply dominates_step.
Qed.

Lemma final_equity_antitone request bars sigs c1 c2 start :
  priced bars -> 0 < initial_capital request -> 0 < risk_per_trade_pct request ->
  0 <= c1 <= c2 -> c2 < 1 ->
  0 < final_equity (_simulate _session_date request bars sigs c2 start) /\
  final_equity (_simulate _session_date request bars sigs c2 start) <=
  final_equity (_simulate _session_date request bars sigs c1 start).
Proof.
  intros Hb HE Hr Hc Hc1. pose proof (dominates_loop request bars sigs c1 c2 start Hb HE Hr Hc Hc1) as Hd.
  unfold _simulate. cbn [final_equity]. unfold close_out.
  destruct (last bars) as [lb|] eqn:El.
  - pose proof (Hb lb ltac:(by apply last_Some_elem_of)) as (_ & _ & Hcl).
    set (s1 := sim_loop _ _ _ _ c1 _) in *. set (s2 := sim_loop _ _ _ _ c2 _) in *.
    destruct Hd as (He & Hp & _ & Hpos).
    destruct (nltb _ (position s2)) eqn:E2, (nltb _ (position s1)) eqn:E1; reflect_Q;
      change (nzero : Q) with 0 in *; cbn [equity]; try (exfalso; destruct Hpos; lra); [|destruct Hpos; lra].
    cbn [nadd nmul nsub exact]. change (n_one : Q) with 1.
    assert (0 < position s2 * ob_close lb * (1 - c2)) by (apply Qmult_lt_0_compat; [nra|lra]).
    assert (position s2 * ob_close lb * (1 - c2) <= position s1 * ob_close lb * (1 - c1)).
    { assert (0 < ob_close lb * (1 - c2)) by nra. assert (ob_close lb * (1 - c2) <= ob_close lb * (1 - c1)) by nra. nra. }
    split; lra.
  - destruct bars as [|b bars]; [|by apply last_None in El]. cbn. split; [done|apply Qle_refl].
Qed.
End costs.

(** Costs only ever cost: on the same bars and signals, and whatever the sizing caps do on
    the way, a run at a higher cost per side ends with no more equity than one at a lower
    cost, and never with none: the account cannot be traded into the ground on credit. *)
Theorem costs_never_help _session_date (request : BacktestRequest Q) bars sigs c1 c2 start :
  priced bars -> (0 < initial_capital request)%Q -> (0 < risk_per_trade_pct request)%Q ->
  (0 <= c1 <= c2)%Q -> (c2 < 1)%Q ->
  (0 < final_equity (_simulate _session_date request bars sigs c2 start))%Q /\
  (final_equity (_simulate _session_date request bars sigs c2 start) <=
   final_equity (_simulate _session_date request bars sigs c1 start))%Q.
Proof. apply final_equity_antitone. Qed.

Section breakeven.
Local Open Scope Q_scope.
Context (fpow : Q -> Q -> Q) (fsqrt : Q -> Q) (_session_date : datetime -> string).
Implicit Types (request : BacktestRequest Q) (bars : list (OHLCVBar Q)).

(** The requests the service accepts, with a spread that leaves less than the whole price. *)
Definition costed request (spread : Q) : Prop :=
  0 <= commission_pct request /\ 0 <= slippage_bps request /\ 0 <= spread /\
  cost_per_side_pct (with_spread request spread) < 1.

Lemma spread_cost_mono request s1 s2 : s1 <= s2 ->
  cost_per_side_pct (with_spread request s1) <= cost_per_side_pct (with_spread request s2).
Proof.
  intros H. unfold cost_per_side_pct, with_spread. cbn [commission_pct spread_bps slippage_bps nadd ndiv exact].
  change (nofZ 2 : Q) with 2. change (nofZ 10000 : Q) with 10000. unfold Qdiv.
  change (/ 2) with (1#2). change (/ 10000) with (1#10000). lra.
Qed.

Lemma spread_cost_nonneg request s : costed request s -> 0 <= cost_per_side_pct (with_spread request s).
Proof.
  intros (H1 & H2 & H3 & _). unfold cost_per_side_pct, with_spread.
  cbn [commission_pct spread_bps slippage_bps nadd ndiv exact].
  change (nofZ 2 : Q) with 2. change (nofZ 10000 : Q) with 10000. unfold Qdiv.
  change (/ 2) with (1#2). change (/ 10000) with (1#10000). lra.
Qed.

Lemma spread_return_antitone request bars sigs s1 s2 :
  priced bars -> 0 < initial_capital request -> 0 < risk_per_trade_pct request ->
  costed request s1 -> costed request s2 -> s1 <= s2 ->
  spread_return _session_date request bars sigs s2 <= spread_return _session_date request bars sigs s1.
Proof.
  intros Hb HE Hr H1 H2 Hs. unfold spread_return, spread_run. cbn [nsub ndiv exact].
  pose proof (final_equity_antitone _session_date request bars sigs
    (cost_per_side_pct (with_spread request s1)) (cost_per_side_pct (with_spread request s2)) 0 Hb HE Hr
    (conj (spread_cost_nonneg _ _ H1) (spread_cost_mono _ _ _ Hs)) (proj2 (proj2 (proj2 H2)))) as [_ Hf].
  change (_simulate _session_date (with_spread request ?s)) with (_simulate _session_date request).
  unfold Qdiv. apply Qmult_le_compat_r; [lra|]. apply Qlt_le_weak, Qinv_lt_0_compat, HE.
Qed.

(** The sweep ends with the last spread whose return is positive. *)
Lemma breakeven_last {A B} (pos : A -> bool) (f : B -> A -> B) l acc :
  snd (foldl (fun '(a, b) s => (f a s, if pos s then Some s else b)) (acc, None) l) =
    last (List.filter pos l).
Proof.
  induction l as [|x l IH] using rev_ind; [done|].
  rewrite foldl_app, List.filter_app. cbn. destruct (foldl _ _ l) as [a b]. cbn in *. subst b.
  destruct (pos x); [by rewrite last_snoc|by rewrite app_nil_r].
Qed.

Lemma last_filter_split {A} (pos : A -> bool) l s : last (List.filter pos l) = Some s ->
  exists l1 l2, l = l1 ++ s :: l2 /\ pos s = true /\ Forall (fun x => pos x = false) l2.
Proof.
  induction l as [|x l IH] using rev_ind; [done|]. rewrite List.filter_app. cbn.
  destruct (pos x) eqn:E.
  - rewrite last_snoc. intros [= <-]. by exists l, [].
  - rewrite app_nil_r. intros (l1 & l2 & -> & Hp & Hl)%IH. exists l1, (l2 ++ [x]).
    rewrite <- app_assoc. split_and!; [done..|]. by apply Forall_app_2, Forall_singleton.
Qed.

Lemma sorted_split_le l1 (s : Q) l2 x : Sorted (fun x y => nleb x y = true) (l1 ++ s :: l2) ->
  x ∈ l1 -> x <= s.
Proof.
  intros Hs. apply Sorted_StronglySorted in Hs; [|intros a b c; apply nleb_trans].
  induction l1 as [|y l1 IH]; [by intros ?%elem_of_nil|]. cbn in Hs. inversion Hs as [|? ? Hs' Hall]; subst.
  intros [->|Hx]%elem_of_cons; [|by apply IH].
  rewrite List.Forall_forall in Hall. apply Q_nleb, Hall. apply in_or_app. right. by left.
Qed.
End breakeven.

(** The breakeven spread is one: in a sweep over any ladder of spreads, the strategy returns
    more than nothing at exactly the spreads up to the reported one, and at none if no
    breakeven is reported. *)
Theorem breakeven_is_a_threshold fpow fsqrt _session_date (request : BacktestRequest Q) bars ladder sigs r :
  priced bars -> (0 < initial_capital request)%Q -> (0 < risk_per_trade_pct request)%Q ->
  (forall s, s ∈ ladder -> costed request s) ->
  _compute_signals fpow bars request = Ok sigs ->
  run_cost_sensitivity fpow fsqrt _session_date request bars (Some ladder) = Ok r ->
  forall s, s ∈ ladder ->
    (0 < spread_return _session_date request bars sigs s)%Q <->
    exists b, breakeven_spread_bps r = Some b /\ b ∈ ladder /\ (s <= b)%Q.
Proof.
  intros Hb HE Hr Hl Hs Hrun s Hin. unfold run_cost_sensitivity in Hrun. rewrite Hs in Hrun.
  cbn [mbind result_bind default] in Hrun. change (Datatypes.id ladder) with ladder in Hrun.
  set (ret := spread_return _session_date request bars sigs) in *. set (asc := sort_by nleb ladder) in *.
  pose proof (breakeven_last (fun s => nltb nzero (ret s))
    (fun l s => l ++ [scenario fpow fsqrt _session_date request bars sigs s]) asc []) as Hlast.
  destruct (foldl _ _ asc) as [scs be] eqn:Ef. injection Hrun as <-. cbn [breakeven_spread_bps].
  cbn [snd] in Hlast. subst be.
  assert (forall x, x ∈ asc <-> x ∈ ladder) as Hasc by (intros; apply elem_of_sort_by).
  assert (Sorted (fun x y : Q => nleb x y = true) asc) as Hsort.
  { apply sort_by_sorted. intros x y Hxy. apply Q_nleb_gt in Hxy. apply Q_nleb. lra. }
  split.
  - intros Hpos. assert (s ∈ List.filter (fun s => nltb nzero (ret s)) asc) as Hf.
    { apply elem_of_filter_b. split; [by apply Hasc|]. by apply Q_nltb. }
    destruct (last (List.filter _ asc)) as [b|] eqn:El; [|by apply last_None in El; rewrite El in Hf; apply elem_of_nil in Hf].
    exists b. destruct (last_filter_split _ _ _ El) as (l1 & l2 & E & _ & Hl2).
    split; [done|]. split; [apply Hasc; rewrite E; apply elem_of_app; right; by left|].
    apply elem_of_filter_b in Hf as [Hin' Hps]. rewrite E in Hin', Hsort.
    apply elem_of_app in Hin' as [H1|[->|H2]%elem_of_cons].
    + by eapply sorted_split_le.
    + apply Qle_refl.
    + rewrite Forall_forall in Hl2. by rewrite (Hl2 _ H2) in Hps.
  - intros (b & El & Hbin & Hle). destruct (last_filter_split _ _ _ El) as (_ & _ & _ & Hp & _).
    apply Q_nltb in Hp. change (nzero : Q) with 0%Q in Hp.
    assert (ret b <= ret s)%Q by (apply spread_return_antitone; auto). lra.
Qed.

(** ** Refusals *)

Lemma warmup_holds {F} `{PyFloat F} fpow name (s : Strategy F) bars params i :
  get_strategy fpow name = Ok s -> (i < length bars)%nat -> (Z.of_nat i + 1 < warmup s params)%Z ->
  signals s bars params !! i = Some HOLD.
Proof.
  intros Hs Hi Hw. unfold get_strategy in Hs. cbn in Hs.
  destruct (String.eqb _ _); [injection Hs as <-|destruct (String.eqb _ _); [injection Hs as <-|done]];
    cbn [signals warmup] in *; unfold momentum_signals, reversion_signals;
    rewrite list_lookup_fmap, lookup_seq_lt by done; cbn [fmap option_fmap option_map];
    by rewrite (proj2 (Z.ltb_lt _ _)) by lia.
Qed.

Lemma apply_hold {F} `{PyFloat F} (bars : list (OHLCVBar F)) sigs rg vg i :
  sigs !! i = Some HOLD -> apply bars sigs rg vg !! i = Some HOLD.
Proof.
  intros Hi. unfold apply. destruct (_ || _); [done|]. by rewrite list_lookup_imap, Hi.
Qed.

(** A backtest refuses what it cannot run: it raises for a strategy that is not registered,
    naming those that are, and for fewer bars than the strategy's warm-up and one more;
    on anything else it returns, and no bar before the warm-up carries a signal. *)
Theorem run_backtest_refuses {F} `{PyFloat F} fpow fsqrt _session_date (request : BacktestRequest F) bars now :
  match get_strategy fpow (bq_strategy request) with
  | Err e =>
      e = "Unknown strategy " +:+ py_repr (bq_strategy request) +:+
          ". Available: bollinger_reversion, ema_rsi_macd" /\
      run_backtest fpow fsqrt _session_date request bars now = Err e
  | Ok s =>
      let warmup := warmup s (bq_params request) in
      if (Z.of_nat (length bars) <=? warmup)%Z then
        run_backtest fpow fsqrt _session_date request bars now = Err (too_few_bars warmup (length bars))
      else
        exists r sigs, run_backtest fpow fsqrt _session_date request bars now = Ok r /\
          br_bars_count _ r = length bars /\
          _compute_signals fpow bars request = Ok sigs /\
          forall i, (Z.of_nat i + 1 < warmup)%Z -> sigs !! i = Some HOLD
  end.
Proof.
  unfold run_backtest, _warmup_for, _compute_signals.
  destruct (get_strategy fpow (bq_strategy request)) as [s|e] eqn:Es.
  - cbn [mbind result_bind mret result_ret]. cbv zeta. destruct (Z.leb_spec (Z.of_nat (length bars)) (warmup s (bq_params request))) as [Hle|Hlt].
    + destruct (Z.ltb_spec (Z.of_nat (length bars)) (warmup s (bq_params request) + 1)); [done|lia].
    + destruct (Z.ltb_spec (Z.of_nat (length bars)) (warmup s (bq_params request) + 1)); [lia|].
      do 2 eexists. split; [reflexivity|]. split; [done|]. split; [reflexivity|].
      intros i Hi. apply apply_hold, (warmup_holds fpow _ _ _ _ _ Es); lia.
  - cbn [mbind result_bind mret result_ret]. split; [|done].
    unfold get_strategy in Es. destruct (dict_get _ _); [done|]. injection Es as <-. reflexivity.
Qed.

(** ** The drawdown of a curve *)

Section drawdown.
Local Open Scope Q_scope.
Implicit Types (curve : list Q).

(** [d] is the deepest relative fall from one value of the curve to itself or a later one. *)
Definition falls curve (a b : Q) : Prop :=
  exists l1 l2, curve = l1 ++ a :: l2 /\ b ∈ a :: l2 /\ 0 < a.

Lemma falls_snoc curve a b v : falls (curve ++ [v]) a b ->
  falls curve a b \/ b = v /\ 0 < a /\ a ∈ curve ++ [v].
Proof.
  intros (l1 & l2 & E & Hb & Ha). destruct l2 as [|c l2] using rev_ind.
  - apply app_inj_tail in E as [-> ->]. apply list_elem_of_singleton in Hb as ->.
    right. split_and!; [done..|]. apply elem_of_app. right. by left.
  - clear IHl2. rewrite app_comm_cons, app_assoc in E. apply app_inj_tail in E as [-> ->].
    rewrite app_comm_cons in Hb. apply elem_of_app in Hb as [Hb|Hb%list_elem_of_singleton].
    + left. by exists l1, l2.
    + right. split_and!; [done..|]. apply elem_of_app. left. apply elem_of_app. right. by left.
Qed.

Lemma falls_app curve v a b : falls curve a b -> falls (curve ++ [v]) a b.
Proof.
  intros (l1 & l2 & -> & Hb & Ha). exists l1, (l2 ++ [v]). rewrite <- app_assoc. split; [done|].
  split; [|done]. rewrite app_comm_cons. apply elem_of_app. by left.
Qed.

Lemma falls_last curve a v : a ∈ curve ++ [v] -> 0 < a -> falls (curve ++ [v]) a v.
Proof.
  intros [(l1 & l2 & ->)%list_elem_of_split| ->%list_elem_of_singleton]%elem_of_app Ha.
  - exists l1, (l2 ++ [v]). rewrite <- app_assoc. split_and!; [done| |done].
    rewrite app_comm_cons. apply elem_of_app. right. by left.
  - exists curve, []. split_and!; [done|by left|done].
Qed.

Lemma relative_fall_mono a peak v : 0 <= v -> 0 < a -> a <= peak -> (a - v) / a <= (peak - v) / peak.
Proof.
  intros Hv Ha Hp. apply Qle_shift_div_l; [lra|].
  assert ((a - v) / a * peak == peak - v * (peak / a)) as -> by (field; lra).
  assert (1 <= peak / a) by (apply Qle_shift_div_l; lra). nra.
Qed.

Lemma max_drawdown_inv c0 l : 0 <= c0 -> Forall (fun v => 0 <= v) l ->
  let '(peak, worst) := foldl (fun '(peak, worst) value =>
      let peak := nmax peak value in
      (peak, if nltb nzero peak then nmax worst (ndiv (nsub peak value) peak) else worst)) (c0, nzero) l in
  (peak == c0 \/ exists x, x ∈ l /\ peak == x) /\ c0 <= peak /\ (forall x, x ∈ l -> x <= peak) /\
  0 <= worst /\ (forall a b, falls l a b -> (a - b) / a <= worst) /\
  (worst == 0 \/ exists a b, (falls l a b \/ a = c0 /\ 0 < a /\ b ∈ l) /\ worst == (a - b) / a).
Proof.
  intros H0 Hl. induction l as [|v l IH] using rev_ind.
  { cbn. split_and!; [by left|lra|intros ? []%elem_of_nil|done| |by left].
    intros a b (l1 & l2 & E & _). by destruct l1. }
  apply Forall_app in Hl as [Hl Hv]. apply Forall_cons in Hv as [Hv _]. specialize (IH Hl). rewrite foldl_app. cbn [foldl].
  destruct (foldl _ _ l) as [peak worst]. destruct IH as (Hat & Hc & Hmax & Hw & Hfall & Hwit).
  set (peak' := nmax peak v). assert (peak' == Qmax peak v) as Ep by apply Q_nmax_spec.
  assert (peak <= peak' /\ v <= peak') as [Hp Hpv] by (rewrite Ep; split; [apply Q.le_max_l|apply Q.le_max_r]).
  assert (peak' == c0 \/ exists x, x ∈ l ++ [v] /\ peak' == x) as Hat'.
  { destruct (Q.max_dec peak v) as [E|E].
    - destruct Hat as [E'|(x & Hx & E')]; [left; lra|right; exists x; split; [apply elem_of_app; by left|lra]].
    - right. exists v. split; [apply elem_of_app; right; by left|lra]. }
  assert (forall x, x ∈ l ++ [v] -> x <= peak') as Hmax'.
  { intros x [Hx| ->%list_elem_of_singleton]%elem_of_app; [specialize (Hmax x Hx); lra|done]. }
  split; [done|]. split; [lra|]. split; [done|].
  change (nzero : Q) with 0. destruct (nltb 0 peak') eqn:E; reflect_Q.
  - set (fall := ndiv (nsub peak' v) peak'). pose proof (Q_nmax_spec worst fall) as Em.
    set (worst' := nmax worst fall) in *.
    assert (worst <= worst' /\ fall <= worst') as [H1 H2] by (rewrite Em; split; [apply Q.le_max_l|apply Q.le_max_r]).
    split; [lra|]. split.
    + intros a b [Hf|(-> & Ha & Hin)]%falls_snoc; [specialize (Hfall a b Hf); lra|].
      specialize (Hmax' a Hin). pose proof (relative_fall_mono a peak' v Hv Ha Hmax') as Hm.
      change ((peak' - v) / peak') with fall in Hm. lra.
    + destruct (Q.max_dec worst fall) as [E'|E'].
      * destruct Hwit as [Hz|(a & b & Hab & Ew)]; [left; lra|]. right. exists a, b. split; [|lra].
        destruct Hab as [Hab|(-> & Ha & Hb)]; [left; by apply falls_app|right].
        split_and!; [done..|apply elem_of_app; by left].
      * right. destruct Hat' as [Ec|(x & Hx & Ex)].
        -- exists c0, v. split; [right; split_and!; [done|lra|apply elem_of_app; right; by left]|].
           rewrite <- Ec. change ((peak' - v) / peak') with fall. lra.
        -- exists x, v. split; [left; apply falls_last; [done|lra]|].
           rewrite <- Ex. change ((peak' - v) / peak') with fall. lra.
  - split; [done|]. split.
    + intros a b [Hf|(-> & Ha & Hin)]%falls_snoc; [by apply Hfall|]. specialize (Hmax' a Hin). lra.
    + destruct Hwit as [Hz|(a & b & Hab & Ew)]; [by left|]. right. exists a, b. split; [|done].
      destruct Hab as [Hab|(-> & Ha & Hb)]; [left; by apply falls_app|right].
      split_and!; [done..|apply elem_of_app; by left].
Qed.
End drawdown.

(** The reported drawdown is the deepest there was: on a curve that is never negative it is at
    least every relative fall from one point to a later one, it is one of them unless it
    is zero, and it is between nothing and everything. *)
Theorem max_drawdown_is_deepest (curve : list Q) : Forall (fun v => 0 <= v)%Q curve ->
  let d := _max_drawdown curve in
  (0 <= d <= 1)%Q /\
  (forall a b, falls curve a b -> ((a - b) / a <= d)%Q) /\
  ((d == 0)%Q \/ exists a b, falls curve a b /\ (d == (a - b) / a)%Q).
Proof.
  intros Hc. destruct curve as [|c0 l].
  { cbn. split_and!; [done|done| |by left]. intros a b (l1 & l2 & E & _). by destruct l1. }
  cbv zeta. unfold _max_drawdown. cbn [head default].
  pose proof (max_drawdown_inv c0 (c0 :: l) ltac:(by inversion Hc) Hc) as Hinv.
  destruct (foldl _ _ _) as [peak worst]. destruct Hinv as (_ & _ & _ & Hw & Hfall & Hwit). cbn [snd].
  assert ((worst == 0)%Q \/ exists a b, falls (c0 :: l) a b /\ (worst == (a - b) / a)%Q) as Hwit'.
  { destruct Hwit as [?|(a & b & [Hab|(-> & Ha & Hb)] & E)]; [by left|right; by exists a, b|].
    right. exists c0, b. split; [|done]. by exists [], l. }
  split_and!; [done| |done|done].
  destruct Hwit' as [E|(a & b & (l1 & l2 & El & Hb & Ha) & E)]; rewrite E; [done|].
  apply Qle_shift_div_r; [done|].
  assert (0 <= b)%Q. { rewrite Forall_forall in Hc. apply Hc. rewrite El. apply elem_of_app. by right. }
  lra.
Qed.

(** ** Concrete runs *)

Module Bench.
Definition fpow {F} (x _ : F) : F := x.
Definition fsqrt {F} (x : F) : F := x.
Definition day (t : datetime) : string := str_of_Z (t / seconds 86400).
Section bench.
Context {F : Type} `{PyFloat F}.
Definition bar (i : nat) (o h l c : Z) : OHLCVBar F :=
  {| ob_symbol := "MSFT"; ob_timestamp := (seconds 900 * Z.of_nat i)%Z; ob_open := nofZ o;
     ob_high := nofZ h; ob_low := nofZ l; ob_close := nofZ c; ob_volume := nofZ 1000 |}.
(** Falling by one a bar, from 100. *)
Definition falling (n : nat) : list (OHLCVBar F) :=
  map (fun i => let p := (100 - Z.of_nat i)%Z in bar i p (p + 1) (p - 1) p) (List.seq 0 n).
(** Falling, then recovering. *)
Definition dip : list (OHLCVBar F) :=
  falling 17 ++ [bar 17 85 87 84 86; bar 18 88 92 87 91; bar 19 95 96 94 95].
Definition reversion : BacktestRequest F :=
  {| bq_symbol := "MSFT"; bq_strategy := "bollinger_reversion"; period_days := 30;
     initial_capital := nofZ 1000; risk_per_trade_pct := nlit 1 100; atr_stop_multiplier := nofZ 2;
     bq_params := {| sp_ema_fast := 20; sp_ema_slow := 50; rsi_buy_min := nofZ 45; rsi_buy_max := nofZ 70;
       macd_hist_min := nzero; bb_period := 5; bb_std := nlit 1 10; rsi_oversold := nofZ 30;
       rsi_overbought := nofZ 70 |};
     timeframe := "daily"; intraday_minutes := 15; commission_pct := nzero; spread_bps := nofZ 5;
     slippage_bps := nofZ 1; regime_gate := false; volume_gate := false |}.
(** Falling, then a last bar that closes higher. *)
Definition bounce : list (OHLCVBar F) := falling 16 ++ [bar 16 86 92 85 90].
(** Three bars: a BUY filled at the second, and a crash in the last that closes unchanged. *)
Definition crash : list (OHLCVBar F) :=
  [bar 0 100 102 98 100; bar 1 100 101 99 100; bar 2 100 101 10 100].
End bench.
End Bench.

Lemma backtest_no_lookahead_witness :
  exists sigs sigs',
    _compute_signals Bench.fpow (Bench.falling 20) (Bench.reversion (F := spec_float)) = Ok sigs /\
    _compute_signals Bench.fpow Bench.dip (Bench.reversion (F := spec_float)) = Ok sigs' /\
    take 17 sigs = take 17 sigs' /\ sigs <> sigs' /\
    take 17 (sim_equity_curve (_simulate Bench.day (Bench.reversion (F := spec_float)) (Bench.falling 20) sigs nzero 0)) =
    take 17 (sim_equity_curve (_simulate Bench.day Bench.reversion Bench.dip sigs' nzero 0)).
Proof.
  eexists _, _. split; [vm_compute; reflexivity|]. split; [vm_compute; reflexivity|].
  edestruct (fun s s' => backtest_no_lookahead Bench.fpow Bench.day (Bench.reversion (F := spec_float))
    (Bench.falling 20) Bench.dip s s' nzero 0 17) as [H1 H2];
    [|vm_compute; reflexivity|cbn; lia|cbn; lia|vm_compute; reflexivity|vm_compute; reflexivity|].
  - unfold params_wf. cbn [bq_params Bench.reversion sp_ema_fast sp_ema_slow bb_period]. split; [lia|]. by vm_compute.
  - split; [exact H1|]. split; [discriminate|exact H2].
Defined.

Lemma costs_never_help_witness :
  (final_equity (_simulate Bench.day Bench.reversion Bench.dip [BUY; HOLD; SELL] (1 # 100) 0) <=
   final_equity (_simulate Bench.day Bench.reversion Bench.dip [BUY; HOLD; SELL] 0 0))%Q.
Proof.
  apply (costs_never_help Bench.day Bench.reversion Bench.dip [BUY; HOLD; SELL] 0 (1 # 100) 0); try done.
  intros b Hb. unfold Bench.dip, Bench.falling in Hb. cbn in Hb.
  repeat (apply elem_of_cons in Hb as [->|Hb]; [done|]). by apply elem_of_nil in Hb.
Defined.

Lemma breakeven_is_a_threshold_witness :
  exists r, run_cost_sensitivity Bench.fpow Bench.fsqrt Bench.day Bench.reversion Bench.bounce (Some [700; 10; 100]%Q) = Ok r /\
    breakeven_spread_bps r = Some 100%Q /\
    (0 < spread_return Bench.day Bench.reversion Bench.bounce
           (match _compute_signals Bench.fpow Bench.bounce Bench.reversion with Ok l => l | Err _ => [] end) 10)%Q.
Proof.
  eexists. split; [vm_compute; reflexivity|]. split; [reflexivity|].
  eapply (breakeven_is_a_threshold Bench.fpow Bench.fsqrt Bench.day Bench.reversion Bench.bounce [700; 10; 100]%Q);
    [|done|done| | |vm_compute; reflexivity|by right; left|].
  - intros b Hb. unfold Bench.bounce, Bench.falling in Hb. cbn in Hb.
    repeat (apply elem_of_cons in Hb as [->|Hb]; [done|]). by apply elem_of_nil in Hb.
  - intros s Hs. repeat (apply elem_of_cons in Hs as [->|Hs]; [by repeat split|]). by apply elem_of_nil in Hs.
  - vm_compute; reflexivity.
  - exists 100%Q. split; [reflexivity|]. split; [by right; right; left|done].
Defined.

Lemma max_drawdown_is_deepest_witness :
  (_max_drawdown [100; 120; 90; 130; 104]%Q == 1 # 4)%Q /\ ((120 - 90) / 120 <= _max_drawdown [100; 120; 90; 130; 104])%Q.
Proof.
  split; [reflexivity|].
  apply (max_drawdown_is_deepest [100; 120; 90; 130; 104]%Q); [by repeat constructor|].
  exists [100%Q], [90; 130; 104]%Q. split; [done|]. split; [by right; left|done].
Defined.

(** The loop stops one bar short, so the last bar's low is compared with no stop: the
    position that fell through it is closed at the bar's close instead. *)
Lemma last_bar_has_no_stop :
  map (fun t => (exit_reason t, td_exit_price t))
    (sim_trades (_simulate Bench.day Bench.reversion Bench.crash [BUY; HOLD; HOLD] (0 : Q) 0)) =
  [("end_of_data", 1000000 # 10000)]%Q.
Proof. reflexivity. Qed.
