(* ===== verification/Stats.v ===== *)
(** * Statistics of a backtest

    Models [services/backtest-service/src/backtest_service/stats.py]. The functions of
    libm it calls ([math.erf], [math.sqrt], [**]) are parameters. Shown: the bisection
    behind [normal_ppf] stops within its fuel, on a value as close to the one it looks for
    as the tolerance asks. *)

From S2P Require Import Prelude PyFloat Indicators.
From Stdlib Require Import Floats.SpecFloat QArith Qabs Lqa.
Local Close Scope Q_scope.

Section stats.
Context {F : Type} `{HF : PyFloat F}.
Context (fpow : F -> F -> F) (fsqrt erf : F -> F).
Local Open Scope py_scope.
Implicit Types (values returns trial_sharpes : list F).

Definition EULER_MASCHERONI : F := nlit 5772156649015329 10000000000000000.
(** [math.e] *)
Definition math_e : F := nlit 2718281828459045 1000000000000000.

Definition normal_cdf (z : F) : F := nlit 1 2 * (n_one + erf (z / fsqrt (nofZ 2))).

(** The [while] loop of [normal_ppf], for at most [fuel] iterations. *)
Fixpoint bisect (fuel : nat) (p tolerance low high : F) : option (F * F) :=
  if negb (high - low >? tolerance) then Some (low, high) else
  match fuel with
  | O => None
  | S fuel =>
      let mid := (low + high) / nofZ 2 in
      if normal_cdf mid <? p then bisect fuel p tolerance mid high
      else bisect fuel p tolerance low mid
  end.

Definition PPF_FUEL : nat := 64.
Definition ppf_tolerance : F := nlit 1 1000000000000.

Inductive StatsError := NotAProbability (p : F) | OutOfFuel.

Definition normal_ppf (p : F) : result StatsError F :=
  if negb ((nzero <? p) && (p <? n_one)) then Err (NotAProbability p) else
  match bisect PPF_FUEL p ppf_tolerance (nofZ (-40)) (nofZ 40) with
  | Some (low, high) => Ok ((low + high) / nofZ 2)
  | None => Err OutOfFuel
  end.

Definition mean values : F :=
  match values with [] => nzero | _ => nsum values / nnat (length values) end.

(** [sum((v - mu) ** k for v in values) / len(values)], of scaled deviations. *)
Definition moment (k : Z) values (scale : F -> F) : F :=
  nsum (map (fun v => fpow (scale v) (nofZ k)) values) / nnat (length values).

Definition stdev values : F :=
  if (length values <? 2)%nat then nzero else
  let mu := mean values in fsqrt (moment 2 values (fun v => v - mu)).

Definition skewness values : F :=
  if (length values <? 3)%nat then nzero else
  let sigma := stdev values in
  if sigma =? nzero then nzero else
  let mu := mean values in moment 3 values (fun v => (v - mu) / sigma).

Definition kurtosis values : F :=
  if (length values <? 4)%nat then nofZ 3 else
  let sigma := stdev values in
  if sigma =? nzero then nofZ 3 else
  let mu := mean values in moment 4 values (fun v => (v - mu) / sigma).

Definition sharpe_ratio returns : F :=
  if (length returns <? 2)%nat then nzero else
  let sigma := stdev returns in
  if sigma =? nzero then nzero else mean returns / sigma.

Definition annualise (per_period_sharpe periods_per_year : F) : F :=
  per_period_sharpe * fsqrt periods_per_year.

Definition probabilistic_sharpe_ratio returns (benchmark_sharpe : F) : option F :=
  let n := length returns in
  if (n <? 4)%nat then None else
  let observed := sharpe_ratio returns in
  if (observed =? nzero) && (stdev returns =? nzero) then None else
  let skew := skewness returns in
  let kurt := kurtosis returns in
  let variance_term := n_one - skew * observed + ((kurt - n_one) / nofZ 4) * fpow observed (nofZ 2) in
  if variance_term <=? nzero then None else
  let z := (observed - benchmark_sharpe) * fsqrt (nnat (n - 1)) / fsqrt variance_term in
  Some (normal_cdf z).

Definition expected_max_sharpe (n_trials : nat) (trial_sharpe_variance : F) : result StatsError F :=
  if (n_trials <=? 1)%nat || (trial_sharpe_variance <=? nzero) then Ok nzero else
  let sigma := fsqrt trial_sharpe_variance in
  a ← normal_ppf (n_one - n_one / nnat n_trials);
  b ← normal_ppf (n_one - n_one / (nnat n_trials * math_e));
  mret (sigma * ((n_one - EULER_MASCHERONI) * a + EULER_MASCHERONI * b)).

Definition deflated_sharpe_ratio returns trial_sharpes (n_trials : option nat)
    : result StatsError (option F) :=
  if (length returns <? 4)%nat then Ok None else
  match trial_sharpes with
  | [] => Ok (probabilistic_sharpe_ratio returns nzero)
  | _ =>
      let count := match n_trials with
        | None => length trial_sharpes
        | Some n => Nat.max n (length trial_sharpes)
        end in
      benchmark ← expected_max_sharpe count (fpow (stdev trial_sharpes) (nofZ 2));
      mret (probabilistic_sharpe_ratio returns benchmark)
  end.

Fixpoint returns_from_equity (equity_curve : list F) : list F :=
  match equity_curve with
  | a :: (b :: _) as rest =>
      if a >? nzero then (b - a) / a :: returns_from_equity rest else returns_from_equity rest
  | _ => []
  end.
End stats.
Arguments StatsError F : clear implicits.
Arguments NotAProbability {F} p.
Arguments OutOfFuel {F}.

(** ** The bisection (exact arithmetic) *)

Section bisection.
Local Open Scope Q_scope.
Context (fsqrt erf : Q -> Q).
Notation cdf := (normal_cdf fsqrt erf).

Lemma bisect_terminates fuel p tol low high :
  (high - low) * (1 # Z.to_pos (2 ^ Z.of_nat fuel)) <= tol ->
  exists l h, bisect fsqrt erf fuel p tol low high = Some (l, h).
Proof.
  revert low high. induction fuel as [|fuel IH]; intros low high H; cbn [bisect].
  - change (1 # Z.to_pos (2 ^ Z.of_nat 0)) with 1 in H. destruct (nltb tol (nsub high low)) eqn:E; cbn [negb]; [|eauto].
    reflect_Q. cbn [nsub exact] in E. lra.
  - destruct (nltb tol (nsub high low)) eqn:E; cbn [negb]; [|eauto].
    assert ((1 # Z.to_pos (2 ^ Z.of_nat (S fuel))) == (1#2) * (1 # Z.to_pos (2 ^ Z.of_nat fuel))) as E2.
    { rewrite Nat2Z.inj_succ, Z.pow_succ_r, Z2Pos.inj_mul by (try apply Z.pow_pos_nonneg; lia). reflexivity. }
    rewrite E2 in H. revert IH H. generalize (1 # Z.to_pos (2 ^ Z.of_nat fuel)). intros w IH H. assert (ndiv (nadd low high) (nofZ 2) == (low + high) * (1#2)) as Em by reflexivity.
    destruct (nltb _ p); apply IH; cbn [nadd nsub exact]; rewrite Em.
    + assert (high - (low + high) * (1#2) == (high - low) * (1#2)) as -> by ring. lra.
    + assert ((low + high) * (1#2) - low == (high - low) * (1#2)) as -> by ring. lra.
Qed.

Lemma bisect_brackets fuel p tol low high l h :
  bisect fsqrt erf fuel p tol low high = Some (l, h) -> low <= high ->
  cdf low < p -> p <= cdf high ->
  cdf l < p /\ p <= cdf h /\ low <= l /\ l <= h /\ h <= high /\ h - l <= tol.
Proof.
  revert low high. induction fuel as [|fuel IH]; intros low high; cbn [bisect];
    destruct (nltb tol (nsub high low)) eqn:E; cbn [negb]; intros H Hlh Hl Hh; try done.
  1, 3: injection H as <- <-; reflect_Q; cbn [nsub exact] in E; split_and!; lra || done.
  set (mid := ndiv (nadd low high) (nofZ 2)) in *.
  assert (mid == (low + high) * (1#2)) as Em by reflexivity.
  destruct (nltb (cdf mid) p) eqn:Ec; reflect_Q.
  - destruct (IH mid high H) as (? & ? & ? & ? & ? & ?); [lra|done..|]. split_and!; lra || done.
  - destruct (IH low mid H) as (? & ? & ? & ? & ? & ?); [lra|done..|]. split_and!; lra || done.
Qed.
End bisection.

(** The inverse normal is found: for a probability the bisection stops before its fuel ends,
    and the answer is within the tolerance of a point where the distribution function
    crosses it, for any function that is below it at -40 and not at 40; for anything else
    it raises. *)
Theorem normal_ppf_spec fsqrt erf (p : Q) :
  (0 < p < 1 -> normal_cdf fsqrt erf (- (40)) < p <= normal_cdf fsqrt erf 40 ->
   exists x l h, normal_ppf fsqrt erf p = Ok x /\ l <= x <= h /\ h - l <= 1 # 1000000000000 /\
     normal_cdf fsqrt erf l < p <= normal_cdf fsqrt erf h)%Q /\
  (~ (0 < p < 1)%Q -> normal_ppf fsqrt erf p = Err (NotAProbability p)).
Proof.
  unfold normal_ppf. change (nzero : Q) with 0%Q. change (n_one : Q) with 1%Q. split.
  - intros [H0 H1] [Hl Hh]. rewrite (proj2 (Q_nltb 0 p) H0), (proj2 (Q_nltb p 1) H1). cbn [andb negb].
    destruct (bisect_terminates fsqrt erf PPF_FUEL p ppf_tolerance (nofZ (-40)) (nofZ 40)) as (l & h & E).
    { vm_compute. discriminate. }
    rewrite E. destruct (bisect_brackets fsqrt erf _ _ _ _ _ _ _ E) as (Hl' & Hh' & _ & Hlh & _ & Ht);
      [unfold Qle; cbn; lia|exact Hl|exact Hh|].
    exists (ndiv (nadd l h) (nofZ 2)), l, h. split; [done|].
    assert (ndiv (nadd l h) (nofZ 2) == (l + h) * (1#2))%Q as -> by reflexivity.
    split; [split; lra|]. by split.
  - intros Hn. destruct (nltb 0%Q p) eqn:E0, (nltb p 1%Q) eqn:E1; try done. reflect_Q. by destruct Hn.
Qed.

Lemma normal_ppf_spec_witness :
  exists x l h, normal_ppf (fun x => x) (fun z => z / 40)%Q (3 # 4)%Q = Ok x /\ (l <= x <= h)%Q /\
    (h - l <= 1 # 1000000000000)%Q.
Proof.
  destruct (proj1 (normal_ppf_spec (fun x => x) (fun z => z / 40)%Q (3 # 4))) as (x & l & h & H1 & H2 & H3 & _);
    [by split|by split|]. exists x, l, h. split; [exact H1|]. by split.
Defined.
