(* ===== verification/Validation.v ===== *)
(** * Walk-forward analysis and parameter sensitivity

    Models [services/backtest-service/src/backtest_service/validation.py] and the result
    types of [models.py] it fills. The signal cache is a state threaded through the
    scoring calls. Shown: the folds are ordered windows that tile the end of the history,
    each after its training data by the embargo; and the configuration a test window
    judges was chosen from the bars of its training window and no others. *)

From S2P Require Import Prelude PyFloat Store Indicators Strategies Backtest Stats.
From Stdlib Require Import Floats.SpecFloat.

Definition MIN_TRADES_TO_SELECT : nat := 3.
Definition MIN_OOS_TRADES_FOR_CONFIDENCE : nat := 30.

(** ** Folds *)

Record Fold := {
  index : nat;
  train_end : Z;
  test_start : Z;
  test_end : Z
}.
Definition train_bars (f : Fold) : Z := train_end f.
Definition test_bars (f : Fold) : Z := test_end f - test_start f.

Definition fold_at (n_bars n_splits warmup embargo_bars min_train_bars window k : Z) (i : nat) : Fold :=
  let test_start := warmup + min_train_bars + k * window in
  {| index := i; train_end := Z.max 0 (test_start - embargo_bars); test_start := test_start;
     test_end := if k <? n_splits - 1 then test_start + window else n_bars |}.

Definition make_folds (n_bars n_splits warmup embargo_bars min_train_bars : Z)
    : result string (list Fold) :=
  if n_splits <? 1 then Err ("n_splits must be at least 1, got " +:+ str_of_Z n_splits) else
  let tradeable := n_bars - warmup in
  if tradeable <=? 0 then Ok [] else
  let test_total := tradeable - min_train_bars in
  if test_total <=? 0 then Ok [] else
  let window := test_total / n_splits in
  if window <? 2 then Ok [] else
  Ok (foldl (fun folds k =>
        let f := fold_at n_bars n_splits warmup embargo_bars min_train_bars window
                   (Z.of_nat k) (length folds) in
        if (train_end f <? warmup + min_train_bars / 2) || (test_end f - test_start f <? 2)
        then folds else folds ++ [f]) [] (List.seq 0 (Z.to_nat n_splits))).

(** ** Results *)

Record ParamScore (F : Type) := {
  ps_params : StrategyParams F;
  ps_label : string;
  ps_sharpe_ratio : F;
  ps_total_return_pct : F;
  ps_total_trades : nat;
  ps_profit_factor : F
}.
Arguments ps_params {F}. Arguments ps_label {F}. Arguments ps_sharpe_ratio {F}.
Arguments ps_total_return_pct {F}.

Record FoldResult (F : Type) := {
  fr_fold : nat;
  fr_train_bars : Z;
  fr_test_bars : Z;
  fr_train_end : datetime;
  fr_test_start : datetime;
  fr_test_end : datetime;
  selected_params : StrategyParams F;
  selected_label : string;
  in_sample_sharpe : F;
  in_sample_trades : nat;
  out_of_sample_sharpe : F;
  out_of_sample_return_pct : F;
  out_of_sample_trades : nat;
  out_of_sample_profit_factor : F
}.
Arguments fr_fold {F}. Arguments selected_params {F}. Arguments out_of_sample_trades {F}.

Record WalkForwardResult (F : Type) := {
  wf_symbol : string;
  wf_timeframe : string;
  wf_bars_count : nat;
  n_folds : nat;
  n_trials : nat;
  objective : string;
  wf_embargo_bars : Z;
  wf_folds : list (FoldResult F);
  wf_in_sample_sharpe : F;
  wf_out_of_sample_sharpe : F;
  wf_out_of_sample_return_pct : F;
  out_of_sample_max_drawdown_pct : F;
  wf_out_of_sample_trades : nat;
  sharpe_degradation : F;
  wf_trial_sharpes : list F;
  out_of_sample_returns : list F;
  wf_probabilistic_sharpe_ratio : option F;
  wf_deflated_sharpe_ratio : option F;
  trial_sharpe_dispersion : F;
  parameter_stability : F;
  wf_warnings : list (fstr F)
}.
Arguments wf_folds {F}.

Record ParameterSensitivityResult (F : Type) := {
  ss_symbol : string;
  ss_timeframe : string;
  grid_size : nat;
  best : ParamScore F;
  worst : ParamScore F;
  ss_scores : list (ParamScore F);
  profitable_count : nat;
  profitable_fraction : F;
  neighbour_count : nat;
  neighbour_mean_sharpe : option F;
  plateau_ratio : option F;
  sharpe_dispersion : F;
  ss_warnings : list (fstr F)
}.
Arguments best {F}. Arguments worst {F}. Arguments ss_scores {F}.

(** What the searches raise: a [ValueError], or what the statistics raise. *)
Inductive SearchError (F : Type) :=
| ValueError (msg : string)
| InStats (e : StatsError F).
Arguments ValueError {F} msg. Arguments InStats {F} e.

Definition in_stats {F A} (r : result (StatsError F) A) : result (SearchError F) A :=
  match r with Ok a => Ok a | Err e => Err (InStats e) end.
Definition in_value {F A} (r : result string A) : result (SearchError F) A :=
  match r with Ok a => Ok a | Err e => Err (ValueError e) end.
Definition lift {S E A} (r : result E A) : prog S E A := fun s => (r, s).

(** [for x in l: acc = f(acc, x)] in the monad. *)
Fixpoint for_each {S E A B} (f : B -> A -> prog S E B) (acc : B) (l : list A) : prog S E B :=
  match l with
  | [] => mret acc
  | x :: l => acc ← f acc x; for_each f acc l
  end.

Section search.
Context {F : Type} `{HF : PyFloat F}.
Context (fpow : F -> F -> F) (fsqrt erf : F -> F) (_session_date : datetime -> string).
Context (text : fstr F -> string).
Local Open Scope py_scope.
Implicit Types (request : BacktestRequest F) (bars : list (OHLCVBar F)) (params : StrategyParams F)
  (grid : ParameterGrid F) (combos : list (StrategyParams F)).

(** The dict of [_SignalCache]. *)
Definition _SignalCache : Type := list (string * list Signal).
Definition scored (A : Type) : Type := prog _SignalCache (SearchError F) A.

(** [request.model_copy(update={"params": params})] *)
Definition with_params request params : BacktestRequest F :=
  {| bq_symbol := bq_symbol request; bq_strategy := bq_strategy request;
     period_days := period_days request; initial_capital := initial_capital request;
     risk_per_trade_pct := risk_per_trade_pct request;
     atr_stop_multiplier := atr_stop_multiplier request; bq_params := params;
     timeframe := timeframe request; intraday_minutes := intraday_minutes request;
     commission_pct := commission_pct request; spread_bps := spread_bps request;
     slippage_bps := slippage_bps request; regime_gate := regime_gate request;
     volume_gate := volume_gate request |}.

Definition for_params request bars params : scored (list Signal) :=
  let key := text (label params None) in
  cache ← reads (fun c => c);
  match dict_get key cache with
  | Some sigs => mret sigs
  | None =>
      sigs ← lift (in_value (_compute_signals fpow bars (with_params request params)));
      _ ← modifies (dict_set key sigs);
      mret sigs
  end.

(** Per-period Sharpe, return, trades, profit factor and returns. *)
Definition Score : Type := F * F * nat * F * list F.

Definition run_score request (window : list (OHLCVBar F)) (sigs : list Signal) (start_index : nat) : Score :=
  let run := _simulate _session_date request window sigs (cost_per_side_pct request) start_index in
  let returns := returns_from_equity (sim_equity_curve run) in
  let capital := initial_capital request in
  (sharpe_ratio fpow fsqrt returns, (final_equity run - capital) / capital,
   length (sim_trades run), _profit_factor (sim_trades run), returns).

Definition _score request bars params (start_index end_index : nat) : scored Score :=
  let variant := with_params request params in
  cached ← for_params request bars params;
  mret (run_score variant (take end_index bars) (take end_index cached) start_index).

Definition _objective_value (objective : string) (sharpe total_return pf : F) : F :=
  if String.eqb objective "return" then total_return
  else if String.eqb objective "profit_factor" then pf
  else sharpe.

(** The winner of a training window so far: value, configuration, Sharpe and trades. *)
Definition Best : Type := option (F * StrategyParams F * F * nat).

Definition consider (objective : string) (b : Best) params (s : Score) : Best :=
  let '(sharpe, total_return, trades, pf, _) := s in
  if (trades <? MIN_TRADES_TO_SELECT)%nat then b else
  let value := _objective_value objective sharpe total_return pf in
  match b with
  | None => Some (value, params, sharpe, trades)
  | Some (v, _, _, _) => if value >? v then Some (value, params, sharpe, trades) else b
  end.

Definition select request bars combos (warmup train_end : nat) (objective : string) : scored Best :=
  for_each (fun b params =>
    s ← _score request bars params warmup train_end;
    mret (consider objective b params s)) None combos.

Definition stamp_at bars (i : nat) : datetime :=
  match bars !! i with Some b => ob_timestamp b | None => 0%Z end.

(** The lists the loop over the folds appends to. *)
Record Walk := {
  fold_results : list (FoldResult F);
  oos_returns : list F;
  in_sample_sharpes : list F;
  selected : list (StrategyParams F);
  warnings : list (fstr F)
}.
Definition warn (w : fstr F) (wk : Walk) : Walk :=
  {| fold_results := fold_results wk; oos_returns := oos_returns wk;
     in_sample_sharpes := in_sample_sharpes wk; selected := selected wk;
     warnings := warnings wk ++ [w] |}.

Definition fold_skipped (f : Fold) : fstr F :=
  lit ("Fold " +:+ str_of_Z (Z.of_nat (index f)) +:+ ": no configuration traded at least " +:+
       str_of_Z (Z.of_nat MIN_TRADES_TO_SELECT) +:+ " times in training — fold skipped.").

Definition strategy_label (strategy : Strategy F) params : string :=
  text (label params (Some (param_fields strategy))).

Definition walk_fold request bars combos (strategy : Strategy F) (warmup : nat) (objective : string)
    (periods : F) (wk : Walk) (f : Fold) : scored Walk :=
  best ← select request bars combos warmup (Z.to_nat (train_end f)) objective;
  match best with
  | None => mret (warn (fold_skipped f) wk)
  | Some (_, params, is_sharpe, is_trades) =>
      s ← _score request bars params (Z.to_nat (test_start f)) (Z.to_nat (test_end f));
      let '(oos_sharpe, oos_return, oos_trades, oos_pf, fold_returns) := s in
      mret {| fold_results := fold_results wk ++
                [{| fr_fold := index f; fr_train_bars := train_bars f; fr_test_bars := test_bars f;
                    fr_train_end := stamp_at bars (Z.to_nat (Z.max 0 (train_end f - 1)));
                    fr_test_start := stamp_at bars (Z.to_nat (test_start f));
                    fr_test_end := stamp_at bars (Nat.min (Z.to_nat (test_end f)) (length bars) - 1);
                    selected_params := params; selected_label := strategy_label strategy params;
                    in_sample_sharpe := nround 4 (annualise fsqrt is_sharpe periods);
                    in_sample_trades := is_trades;
                    out_of_sample_sharpe := nround 4 (annualise fsqrt oos_sharpe periods);
                    out_of_sample_return_pct := nround 4 oos_return;
                    out_of_sample_trades := oos_trades;
                    out_of_sample_profit_factor := nround 4 oos_pf |}];
              oos_returns := oos_returns wk ++ fold_returns;
              in_sample_sharpes := in_sample_sharpes wk ++ [is_sharpe];
              selected := selected wk ++ [params]; warnings := warnings wk |}
  end.

(** The stitched curve, from 1. *)
Definition stitch (returns : list F) : list F :=
  n_one :: scan (fun _ equity r => let e := equity * (n_one + r) in (e, e)) 0 n_one returns.

Definition _rounded (v : option F) : option F := nround 4 <$> v.

Definition _parameter_stability (selected : list (StrategyParams F)) (fields : option (list string)) : F :=
  match selected with
  | [] => nzero
  | _ =>
      let keys := map (fun p => text (label p fields)) selected in
      let counts := map (fun k => length (List.filter (String.eqb k) keys)) (remove_dups keys) in
      nnat (foldr Nat.max 0%nat counts) / nnat (length selected)
  end.

Definition empty_grid_msg : string := "Parameter grid is empty — every combination was invalid".

(** [max(strategy.warmup_bars(p) for p in combos)], of a non-empty list. *)
Definition warmup_of (strategy : Strategy F) combos : Z :=
  match combos with
  | [] => 0%Z
  | p :: rest => foldl (fun m p => Z.max m (warmup strategy p)) (warmup strategy p) rest
  end.

Definition walk_folds request bars combos (strategy : Strategy F) (objective : string)
    (w : Z) (periods : F) (folds : list Fold) (wk : Walk) : scored Walk :=
  for_each (walk_fold request bars combos strategy (Z.to_nat w) objective periods) wk folds.

Definition trials request bars combos (w : Z) : scored (list F) :=
  for_each (fun acc params =>
    s ← _score request bars params (Z.to_nat w) (length bars);
    let '(sharpe, _, _, _, _) := s in mret (acc ++ [sharpe])) [] combos.

Definition walk_forward request bars grid (n_splits : Z) (embargo_bars : option Z) (objective : string)
    : result (SearchError F) (WalkForwardResult F) :=
  combos ← in_value (combinations fpow grid (Some (bq_strategy request)));
  if Nat.eqb (length combos) 0 then Err (ValueError empty_grid_msg) else
  strategy ← in_value (get_strategy fpow (bq_strategy request));
  let w := warmup_of strategy combos in
  let embargo := default w embargo_bars in
  let min_train := Z.max (w * 2) 60 in
  folds ← in_value (make_folds (Z.of_nat (length bars)) n_splits w embargo min_train);
  if Nat.eqb (length folds) 0 then
    Err (ValueError ("Not enough data for " +:+ str_of_Z n_splits +:+ " walk-forward folds: " +:+
      str_of_Z (Z.of_nat (length bars)) +:+ " bars, " +:+ str_of_Z w +:+
      " needed for warm-up and " +:+ str_of_Z min_train +:+
      " for the first training window. Increase period_days or reduce n_splits."))
  else
    let periods := periods_per_year_for request bars in
    let wk0 := {| fold_results := []; oos_returns := []; in_sample_sharpes := []; selected := [];
      warnings := if (Z.of_nat (length folds) <? n_splits)%Z
        then [lit ("Only " +:+ str_of_Z (Z.of_nat (length folds)) +:+ " of " +:+ str_of_Z n_splits +:+
                   " folds had enough data; the rest were dropped.")] else [] |} in
    fst ((
      wk ← walk_folds request bars combos strategy objective w periods folds wk0;
      if Nat.eqb (length (fold_results wk)) 0 then
        raise (ValueError ("No fold produced a usable result — no configuration traded enough in " +:+
          "any training window. The strategy may be too selective for this data."))
      else
        let curve := stitch (oos_returns wk) in
        let equity := default n_one (last curve) in
        let oos_sharpe_per_period := sharpe_ratio fpow fsqrt (oos_returns wk) in
        let is_mean := nsum (in_sample_sharpes wk) / nnat (length (in_sample_sharpes wk)) in
        trial_sharpes ← trials request bars combos w;
        let total_oos_trades := list_sum (map out_of_sample_trades (fold_results wk)) in
        let stability := _parameter_stability (selected wk) (Some (param_fields strategy)) in
        let warnings := warnings wk ++
          (if (total_oos_trades <? MIN_OOS_TRADES_FOR_CONFIDENCE)%nat then
             [lit ("Only " +:+ str_of_Z (Z.of_nat total_oos_trades) +:+
                   " out-of-sample trades. A Sharpe ratio computed " +:+
                   "from a handful of round trips is dominated by which ones they happened " +:+
                   "to be — treat every figure here as an anecdote, not a measurement.")] else []) ++
          (if (stability <? nlit 1 2) && Nat.ltb 1 (length (selected wk)) then
             [[Lit "Parameter stability "; Fmt ".0%" stability;
               Lit (": the folds disagree about which " +:+
                    "configuration is best, which is what fitting to noise looks like.")]] else []) in
        deflated ← lift (in_stats (deflated_sharpe_ratio fpow fsqrt erf (oos_returns wk) trial_sharpes None));
        mret {| wf_symbol := bq_symbol request; wf_timeframe := timeframe request;
          wf_bars_count := length bars; n_folds := length (fold_results wk); n_trials := length combos;
          objective := objective; wf_embargo_bars := embargo; wf_folds := fold_results wk;
          wf_in_sample_sharpe := nround 4 (annualise fsqrt is_mean periods);
          wf_out_of_sample_sharpe := nround 4 (annualise fsqrt oos_sharpe_per_period periods);
          wf_out_of_sample_return_pct := nround 4 (equity - n_one);
          out_of_sample_max_drawdown_pct := nround 4 (_max_drawdown curve);
          wf_out_of_sample_trades := total_oos_trades;
          sharpe_degradation := nround 4 (annualise fsqrt (is_mean - oos_sharpe_per_period) periods);
          wf_trial_sharpes := map (nround 8) trial_sharpes;
          out_of_sample_returns := map (nround 10) (oos_returns wk);
          wf_probabilistic_sharpe_ratio :=
            _rounded (probabilistic_sharpe_ratio fpow fsqrt erf (oos_returns wk) nzero);
          wf_deflated_sharpe_ratio := _rounded deflated;
          trial_sharpe_dispersion := nround 4 (annualise fsqrt (stdev fpow fsqrt trial_sharpes) periods);
          parameter_stability := nround 4 stability;
          wf_warnings := warnings |}
      ) []).

(** ** parameter_sensitivity *)

Definition score_of request bars (strategy : Strategy F) (periods : F) params (s : Score) : ParamScore F :=
  let '(sharpe, total_return, trades, pf, _) := s in
  {| ps_params := params; ps_label := strategy_label strategy params;
     ps_sharpe_ratio := nround 4 (annualise fsqrt sharpe periods);
     ps_total_return_pct := nround 4 total_return; ps_total_trades := trades;
     ps_profit_factor := nround 4 pf |}.

Definition score_grid request bars combos (strategy : Strategy F) (w : Z) (periods : F)
    : scored (list (string * ParamScore F)) :=
  for_each (fun scores params =>
    s ← _score request bars params (Z.to_nat w) (length bars);
    mret (dict_set (strategy_label strategy params) (score_of request bars strategy periods params s) scores))
    [] combos.

(** [sorted(..., key=sharpe, reverse=True)]: descending, equal ones in their order. *)
Definition by_sharpe (l : list (ParamScore F)) : list (ParamScore F) :=
  sort_by (fun a b => ps_sharpe_ratio b <=? ps_sharpe_ratio a) l.

Definition parameter_sensitivity request bars grid
    : result (SearchError F) (ParameterSensitivityResult F) :=
  combos ← in_value (combinations fpow grid (Some (bq_strategy request)));
  if Nat.eqb (length combos) 0 then Err (ValueError empty_grid_msg) else
  strategy ← in_value (get_strategy fpow (bq_strategy request));
  let w := warmup_of strategy combos in
  if (Z.of_nat (length bars) <=? w + 2)%Z then
    Err (ValueError ("Need more than " +:+ str_of_Z (w + 2) +:+ " bars to score this grid, got " +:+
                     str_of_Z (Z.of_nat (length bars))))
  else
  let periods := periods_per_year_for request bars in
  scores ← fst (score_grid request bars combos strategy w periods []);
  let values := dict_values scores in
  let ranked := by_sharpe values in
  match ranked, last ranked with
  | best :: _, Some worst =>
      adjacent ← in_value (neighbours fpow text grid (ps_params best) (Some (bq_strategy request)));
      let neighbours := omap (fun n => dict_get (strategy_label strategy n) scores) adjacent in
      let neighbour_sharpes := map ps_sharpe_ratio neighbours in
      let neighbour_mean := match neighbour_sharpes with
        | [] => None
        | _ => Some (nsum neighbour_sharpes / nnat (length neighbour_sharpes))
        end in
      let profitable := length (List.filter (fun s => ps_total_return_pct s >? nzero) values) in
      let plateau_ratio := match neighbour_mean with
        | Some m => if ps_sharpe_ratio best >? nzero then Some (nround 4 (m / ps_sharpe_ratio best)) else None
        | None => None
        end in
      let warnings :=
        (match plateau_ratio, neighbour_mean with
         | Some r, Some m =>
             if r <? nlit 1 2 then
               [[Lit "The best configuration's neighbours average "; Fmt ".2f" m; Lit (" Sharpe " +:+
                 "against its own "); Fmt ".2f" (ps_sharpe_ratio best);
                 Lit (". That is a spike, not a plateau: " +:+
                 "one step away in any single parameter and most of the result is gone.")]]
             else []
         | _, _ => []
         end) ++
        (if nnat profitable / nnat (length values) <? nlit 1 4 then
           [lit ("Only " +:+ str_of_Z (Z.of_nat profitable) +:+ "/" +:+ str_of_Z (Z.of_nat (length values)) +:+
                 " configurations were profitable. The " +:+
                 "winner is being drawn from a mostly losing population.")] else []) in
      mret {| ss_symbol := bq_symbol request; ss_timeframe := timeframe request;
        grid_size := length combos; best := best; worst := worst; ss_scores := ranked;
        profitable_count := profitable;
        profitable_fraction := nround 4 (nnat profitable / nnat (length values));
        neighbour_count := length neighbours; neighbour_mean_sharpe := nround 4 <$> neighbour_mean;
        plateau_ratio := plateau_ratio;
        sharpe_dispersion := nround 4 (stdev fpow fsqrt (map ps_sharpe_ratio values));
        ss_warnings := warnings |}
  | _, _ => Err (ValueError empty_grid_msg)
  end.
End search.

(** ** The folds *)

(** What [make_folds] promises of one fold, and of the sequence of them. *)
Definition fold_ok (n_bars warmup embargo_bars min_train_bars : Z) (f : Fold) : Prop :=
  train_end f = test_start f - embargo_bars /\ warmup + min_train_bars / 2 <= train_end f /\
  warmup + min_train_bars <= test_start f /\ test_start f + 2 <= test_end f /\ test_end f <= n_bars.

Definition tiled (folds : list Fold) : Prop :=
  forall i f g, folds !! i = Some f -> folds !! S i = Some g -> test_end f = test_start g.

Lemma tiled_snoc folds g : tiled folds ->
  (forall f, last folds = Some f -> test_end f = test_start g) -> tiled (folds ++ [g]).
Proof.
  intros Ht Hl i f g' Hf Hg.
  destruct (Nat.lt_ge_cases (S i) (length folds)) as [Hi|Hi].
  - rewrite lookup_app_l in Hf, Hg by lia. by eapply Ht.
  - assert (S i = length folds) as E.
    { apply lookup_lt_Some in Hg. rewrite length_app in Hg. cbn in Hg. lia. }
    rewrite E, lookup_app_r, Nat.sub_diag in Hg by lia. injection Hg as <-.
    rewrite lookup_app_l in Hf by lia. apply Hl.
    rewrite last_lookup, <- E. done.
Qed.

(** The loop of [make_folds] after [k] candidates: once one is kept, so are the later ones. *)
Lemma folds_loop n_bars n_splits warmup embargo_bars min_train_bars window (k : nat) :
  1 <= warmup -> 0 <= min_train_bars -> 2 <= window ->
  warmup + min_train_bars + n_splits * window <= n_bars -> Z.of_nat k <= n_splits ->
  let folds := foldl (fun folds k =>
      let f := fold_at n_bars n_splits warmup embargo_bars min_train_bars window (Z.of_nat k) (length folds) in
      if (train_end f <? warmup + min_train_bars / 2) || (test_end f - test_start f <? 2)
      then folds else folds ++ [f]) [] (List.seq 0 k) in
  Forall (fold_ok n_bars warmup embargo_bars min_train_bars) folds /\ tiled folds /\
  (forall i f, folds !! i = Some f -> index f = i) /\
  (forall f, last folds = Some f ->
     test_start f = warmup + min_train_bars + (Z.of_nat k - 1) * window /\
     test_end f = if Z.of_nat k <? n_splits then test_start f + window else n_bars).
Proof.
  intros Hw Hm Hwin Htotal Hk. induction k as [|k IH].
  { cbn. split_and!; [constructor|by intros ? ? ? ?|by intros ? ?|done]. }
  assert (0 <= min_train_bars / 2) as Hhalf by (apply Z.div_pos; lia).
  rewrite seq_S, foldl_app. cbn [foldl]. destruct IH as (Hall & Ht & Hix & Hl); [lia|].
  set (folds := foldl _ [] _) in *. rewrite Nat.add_0_l.
  set (f := fold_at _ _ _ _ _ _ _ _).
  assert (test_start f = warmup + min_train_bars + Z.of_nat k * window) as Es by done.
  assert (test_end f = if Z.of_nat k <? n_splits - 1 then test_start f + window else n_bars) as Ee by done.
  assert (train_end f = Z.max 0 (test_start f - embargo_bars)) as Et by done.
  assert (test_start f + window <= test_end f /\ test_end f <= n_bars) as [He1 He2].
  { rewrite Ee, Es. destruct (Z.ltb_spec (Z.of_nat k) (n_splits - 1)); nia. }
  destruct (Z.ltb_spec (test_end f - test_start f) 2) as [Hshort|_]; [lia|]. rewrite orb_false_r.
  assert (forall g, last folds = Some g -> test_end g = test_start f /\ test_start g <= test_start f) as Hchain.
  { intros g Hg. destruct (Hl g Hg) as [E1 E2]. rewrite E2, E1, Es.
    destruct (Z.ltb_spec (Z.of_nat k) n_splits); [|lia]. nia. }
  destruct (Z.ltb_spec (train_end f) (warmup + min_train_bars / 2)) as [Hd|Hkeep].
  - assert (folds = []) as ->.
    { destruct (last folds) as [g|] eqn:Eg; [|by apply last_None in Eg]. exfalso.
      destruct (Hchain g eq_refl) as [_ Hle].
      assert (fold_ok n_bars warmup embargo_bars min_train_bars g) as (Eg1 & Eg2 & _).
      { rewrite Forall_forall in Hall. by apply Hall, last_Some_elem_of. }
      lia. }
    split_and!; [constructor|by intros ? ? ? ?|by intros ? ?|done].
  - split_and!.
    + apply Forall_app. split; [done|]. constructor; [|constructor]. unfold fold_ok. split_and!; nia.
    + apply tiled_snoc; [done|]. intros g Hg. by apply Hchain.
    + intros i g Hg. destruct (Nat.lt_ge_cases i (length folds)) as [Hi|Hi].
      * rewrite lookup_app_l in Hg by lia. by apply Hix.
      * assert (i = length folds) as ->.
        { apply lookup_lt_Some in Hg. rewrite length_app in Hg. cbn in Hg. lia. }
        rewrite lookup_app_r, Nat.sub_diag in Hg by lia. by injection Hg as <-.
    + intros g. rewrite last_snoc. intros [= <-]. rewrite Es, Ee. split; [lia|].
      rewrite Es. destruct (Z.ltb_spec (Z.of_nat k) (n_splits - 1)), (Z.ltb_spec (Z.of_nat (S k)) n_splits); lia.
Qed.

Lemma make_folds_spec n_bars n_splits warmup embargo_bars min_train_bars folds :
  1 <= warmup -> 0 <= min_train_bars ->
  make_folds n_bars n_splits warmup embargo_bars min_train_bars = Ok folds ->
  Forall (fold_ok n_bars warmup embargo_bars min_train_bars) folds /\ tiled folds /\
  (forall i f, folds !! i = Some f -> index f = i) /\
  (forall f, last folds = Some f -> test_end f = n_bars).
Proof.
  intros Hw Hm. unfold make_folds. destruct (Z.ltb_spec n_splits 1); [done|]. cbv zeta.
  assert (Forall (fold_ok n_bars warmup embargo_bars min_train_bars) [] /\ tiled [] /\
    (forall i (f : Fold), [] !! i = Some f -> index f = i) /\
    (forall f : Fold, last [] = Some f -> test_end f = n_bars)) as Hnil.
  { split_and!; [constructor|by intros ? ? ? ?|by intros ? ?|done]. }
  destruct (Z.leb_spec (n_bars - warmup) 0); [by intros [= <-]|].
  destruct (Z.leb_spec (n_bars - warmup - min_train_bars) 0); [by intros [= <-]|].
  set (window := (_ / n_splits)) in *. destruct (Z.ltb_spec window 2); [by intros [= <-]|].
  intros [= <-].
  assert (n_splits * window <= n_bars - warmup - min_train_bars) by (apply Z.mul_div_le; lia).
  destruct (folds_loop n_bars n_splits warmup embargo_bars min_train_bars window (Z.to_nat n_splits))
    as (Hall & Ht & Hix & Hl); [lia..|].
  split_and!; [done..|]. intros f Hf. destruct (Hl f Hf) as [_ ->].
  by destruct (Z.ltb_spec (Z.of_nat (Z.to_nat n_splits)) n_splits); [lia|].
Qed.

(** ** Selection sees the training window only *)

Section selection.
Context {F : Type} `{HF : PyFloat F}.
Context (fpow : F -> F -> F) (fsqrt erf : F -> F) (_session_date : datetime -> string).
Context (text : fstr F -> string).
Context (request : BacktestRequest F) (combos : list (StrategyParams F)).
(** The combinations are valid, their labels tell them apart, and the strategy exists. *)
Context (combos_wf : Forall params_wf combos).
Context (labels_distinct : forall p q, p ∈ combos -> q ∈ combos ->
  text (label p None) = text (label q None) -> p = q).
Context (s : Strategy F) (registered : get_strategy fpow (bq_strategy request) = Ok s).
Implicit Types (bars : list (OHLCVBar F)) (p : StrategyParams F).

Notation signals_of bars p := (_compute_signals fpow bars (with_params request p)).

(** Every entry holds the signals of the configurations with its label. *)
Definition cache_ok bars (cache : _SignalCache) : Prop :=
  forall p sigs, p ∈ combos -> dict_get (text (label p None)) cache = Some sigs ->
    signals_of bars p = Ok sigs.

Lemma for_params_spec bars p cache : p ∈ combos -> cache_ok bars cache ->
  exists sigs cache', for_params fpow text request bars p cache = (Ok sigs, cache') /\
    signals_of bars p = Ok sigs /\ cache_ok bars cache'.
Proof using combos_wf labels_distinct registered.
  intros Hp Hc. unfold for_params, reads, lift, modifies. unfold mbind, prog_bind, mret, prog_ret.
  destruct (dict_get _ cache) as [sigs|] eqn:E.
  { exists sigs, cache. split_and!; [done|by apply Hc|done]. }
  assert (exists sigs, signals_of bars p = Ok sigs) as [sigs Es].
  { unfold _compute_signals. cbn [bq_strategy with_params]. rewrite registered. by eexists. }
  rewrite Es. cbn [in_value]. do 2 eexists. split; [reflexivity|]. split; [done|].
  intros q sigs' Hq. rewrite dict_get_set. destruct (String.eqb_spec (text (label p None)) (text (label q None))) as [El|El]; [|by apply Hc].
  intros [= <-]. by rewrite (labels_distinct q p Hq Hp (eq_sym El)).
Qed.

(** A score is a function of the bars it runs over. *)
Definition score_on bars p (start : nat) : option (@Score F) :=
  match signals_of bars p with
  | Ok sigs => Some (run_score fpow fsqrt _session_date (with_params request p) bars sigs start)
  | Err _ => None
  end.

Lemma signals_take bars p sigs n : p ∈ combos -> signals_of bars p = Ok sigs ->
  signals_of (take n bars) p = Ok (take n sigs).
Proof using combos_wf.
  intros Hp Hs. rewrite Forall_forall in combos_wf.
  destruct (compute_signals_on_prefixes fpow (with_params request p) bars sigs) as [f Hf];
    [by apply params_wf_periods, combos_wf|done|].
  rewrite Hf in Hs. injection Hs as <-. by rewrite Hf, on_prefixes_take.
Qed.

Lemma _score_spec bars p start n cache : p ∈ combos -> cache_ok bars cache ->
  exists sc cache', _score fpow fsqrt _session_date text request bars p start n cache = (Ok sc, cache') /\
    score_on (take n bars) p start = Some sc /\ cache_ok bars cache'.
Proof using combos_wf labels_distinct registered.
  intros Hp Hc. destruct (for_params_spec bars p cache Hp Hc) as (sigs & cache' & E & Es & Hc').
  unfold _score. unfold mbind, prog_bind, mret, prog_ret. rewrite E. do 2 eexists.
  split; [reflexivity|]. split; [|done]. unfold score_on. by rewrite (signals_take _ _ _ _ Hp Es).
Qed.

(** The winner, as a fold over the scores of the training window. *)
Definition winner bars (warmup : nat) (objective : string) (b : @Best F) (ps : list (StrategyParams F)) : @Best F :=
  foldl (fun b p => match score_on bars p warmup with
                    | Some sc => consider objective b p sc
                    | None => b
                    end) b ps.

Lemma select_spec bars warmup n objective cache : cache_ok bars cache ->
  exists cache', select fpow fsqrt _session_date text request bars combos warmup n objective cache =
    (Ok (winner (take n bars) warmup objective None combos), cache') /\ cache_ok bars cache'.
Proof using combos_wf labels_distinct registered.
  unfold select. generalize (@None (F * StrategyParams F * F * nat)) as b.
  assert (forall ps, (forall p, p ∈ ps -> p ∈ combos) -> forall b cache, cache_ok bars cache ->
    exists cache', for_each (fun b p =>
      sc ← _score fpow fsqrt _session_date text request bars p warmup n;
      mret (consider objective b p sc)) b ps cache =
    (Ok (winner (take n bars) warmup objective b ps), cache') /\ cache_ok bars cache') as H.
  { induction ps as [|p ps IH]; intros Hin b c Hc; [by exists c|].
    destruct (_score_spec bars p warmup n c) as (sc & c' & E & Es & Hc'); [apply Hin; by left|done|].
    destruct (IH ltac:(intros q Hq; apply Hin; by right) (consider objective b p sc) c' Hc')
      as (c'' & E' & Hc'').
    exists c''. split; [|done]. cbn [for_each]. unfold mbind at 1, prog_bind at 1.
    unfold mbind at 1, prog_bind at 1. rewrite E. cbn. rewrite E'. by rewrite Es. }
  intros b. by apply H.
Qed.
End selection.


Module Campaign.
(** Labels with their numbers in hundredths. *)
Definition text (l : fstr spec_float) : string :=
  foldr (fun part s => match part with
    | Lit t => t +:+ s
    | Fmt _ x => str_of_Z (ntrunc (nmul x (nofZ 100))) +:+ s
    | Val _ => s
    end) "" l.
Definition request : BacktestRequest spec_float := Bench.reversion.
Definition combos : list (StrategyParams spec_float) :=
  match combinations Bench.fpow Desk.small_grid (Some "bollinger_reversion") with Ok l => l | Err _ => [] end.
Definition strategy : Strategy spec_float :=
  match get_strategy Bench.fpow "bollinger_reversion" with
  | Ok s => s
  | Err _ => {| st_name := ""; description := ""; signals := momentum_signals; param_fields := [];
                warmup := momentum_warmup |}
  end.
Definition long : list (OHLCVBar spec_float) := Bench.dip ++ map (fun b => b) (Bench.falling 40).
Definition other : list (OHLCVBar spec_float) := Bench.dip ++ take 20 (Bench.falling 40) ++ Bench.dip.
End Campaign.

