(* ===== verification/Portfolio.v ===== *)
(** * Portfolios of backtested sleeves

    Models [services/backtest-service/src/backtest_service/portfolio.py]: sleeves are run
    one by one, their returns are keyed by timestamp, aligned on the union of the stamps
    and combined by weight. Shown: the weights split the capital, and the returns kept for
    a sleeve compound to its final equity. *)

From S2P Require Import Prelude PyFloat Store Indicators Strategies Backtest Stats.
From Stdlib Require Import Floats.SpecFloat QArith Qabs Lqa.
Local Close Scope Q_scope.

Record Sleeve (F : Type) := {
  sv_strategy : string;
  sv_symbol : string;
  sv_params : option (StrategyParams F)
}.
Arguments sv_strategy {F}. Arguments sv_symbol {F}. Arguments sv_params {F}.

Record SleeveResult (F : Type) := {
  sl_label : string;
  sl_symbol : string;
  sl_strategy : string;
  sl_params : StrategyParams F;
  sl_total_return_pct : F;
  sl_sharpe_ratio : F;
  sl_max_drawdown_pct : F;
  sl_total_trades : nat;
  sl_profit_factor : F;
  volatility : F
}.
Arguments sl_label {F}. Arguments sl_sharpe_ratio {F}.

Record CorrelationPair (F : Type) := {
  cp_left : string;
  cp_right : string;
  correlation : F
}.
Arguments cp_left {F}. Arguments cp_right {F}. Arguments correlation {F}.

Record PortfolioResult (F : Type) := {
  po_timeframe : string;
  allocation : string;
  sleeves : list (SleeveResult F);
  weights : list F;
  aligned_bars : nat;
  po_total_return_pct : F;
  po_sharpe_ratio : F;
  po_max_drawdown_pct : F;
  best_sleeve_label : string;
  best_sleeve_sharpe : F;
  weighted_sleeve_sharpe : F;
  diversification_ratio : option F;
  correlations : list (CorrelationPair F);
  max_correlation : option F;
  po_probabilistic_sharpe_ratio : option F;
  po_deflated_sharpe_ratio : option F;
  po_n_trials : nat;
  po_warnings : list (fstr F)
}.

Inductive PortfolioError (F : Type) :=
| PortfolioValueError (msg : string)
| PortfolioStats (e : StatsError F).
Arguments PortfolioValueError {F} msg. Arguments PortfolioStats {F} e.

Section portfolio.
Context {F : Type} `{HF : PyFloat F}.
Context (fpow : F -> F -> F) (fsqrt erf : F -> F) (_session_date : datetime -> string).
Local Open Scope py_scope.
Implicit Types (request : BacktestRequest F) (bars : list (OHLCVBar F)) (sleeve : Sleeve F).

Definition HIGH_CORRELATION : F := nlit 7 10.
Definition ALLOCATIONS : list string := ["equal"; "inverse_volatility"].
Definition SHARPE_COMPARISON_MARGIN : F := nlit 1 1000.

Definition sleeve_label sleeve : string := sv_symbol sleeve +:+ ":" +:+ sv_strategy sleeve.

(** A dict keyed by timestamp, in insertion order. *)
Definition stamped : Type := list (datetime * F).
Fixpoint stamp_set (k : datetime) (v : F) (d : stamped) : stamped :=
  match d with
  | [] => [(k, v)]
  | (k', v') :: d => if (k =? k')%Z then (k, v) :: d else (k', v') :: stamp_set k v d
  end.
Definition stamp_get (k : datetime) (d : stamped) : F :=
  default nzero (snd <$> List.find (fun e => (fst e =? k)%Z) d).

(** The curve as long as the stamps: a closing point is folded into the last bar. *)
Definition fold_last (stamps : list datetime) (curve : list F) : list F :=
  if Nat.ltb (length stamps) (length curve)
  then take (length stamps - 1) curve ++ option_list (last curve)
  else curve.

(** [for k in range(1, ...)]: each step of the curve at the stamp it ends on. *)
Fixpoint stamp_returns (stamps : list datetime) (values : list F) (d : stamped) : stamped :=
  match stamps, values with
  | _ :: (s :: _) as stamps, previous :: (v :: _) as values =>
      stamp_returns stamps values
        (if previous >? nzero then stamp_set s ((v - previous) / previous) d else d)
  | _, _ => d
  end.

Definition _timestamped_returns bars (start_index : nat) (curve : list F) : stamped :=
  let stamps := map ob_timestamp (drop start_index bars) in
  match stamps with
  | [] => []
  | _ => stamp_returns stamps (fold_last stamps curve) []
  end.

Definition _correlation (left right : list F) : option F :=
  if (length left <? 2)%nat || negb (Nat.eqb (length left) (length right)) then None else
  let left_sd := stdev fpow fsqrt left in
  let right_sd := stdev fpow fsqrt right in
  if (left_sd =? nzero) || (right_sd =? nzero) then None else
  let left_mean := mean left in
  let right_mean := mean right in
  let covariance := nsum (zip_with (fun a b => (a - left_mean) * (b - right_mean)) left right)
                    / nnat (length left) in
  Some (covariance / (left_sd * right_sd)).

Definition _weights (allocation : string) (volatilities : list F) : list F :=
  let count := length volatilities in
  let equal := repeat (n_one / nnat count) count in
  if String.eqb allocation "inverse_volatility" then
    let inverses := map (fun v => if v >? nzero then n_one / v else nzero) volatilities in
    let total := nsum inverses in
    if total >? nzero then map (fun i => i / total) inverses else equal
  else equal.

(** One sleeve of the loop: a warning, or its result and its returns. *)
Definition run_sleeve request (bars_by_symbol : list (string * list (OHLCVBar F))) (periods : F) sleeve
    : result string (string + SleeveResult F * stamped) :=
  match default [] (dict_get (sv_symbol sleeve) bars_by_symbol) with
  | [] => Ok (inl (sleeve_label sleeve +:+ ": no bars supplied — sleeve dropped."))
  | bars =>
      strategy ← get_strategy fpow (sv_strategy sleeve);
      let params := default (bq_params request) (sv_params sleeve) in
      let w := warmup strategy params in
      if (Z.of_nat (length bars) <=? w + 2)%Z then
        mret (inl (sleeve_label sleeve +:+ ": " +:+ str_of_Z (Z.of_nat (length bars)) +:+
          " bars is not enough for a " +:+ str_of_Z w +:+ "-bar warm-up — sleeve dropped."))
      else
        let variant :=
          {| bq_symbol := sv_symbol sleeve; bq_strategy := sv_strategy sleeve;
             period_days := period_days request; initial_capital := initial_capital request;
             risk_per_trade_pct := risk_per_trade_pct request;
             atr_stop_multiplier := atr_stop_multiplier request; bq_params := params;
             timeframe := timeframe request; intraday_minutes := intraday_minutes request;
             commission_pct := commission_pct request; spread_bps := spread_bps request;
             slippage_bps := slippage_bps request; regime_gate := regime_gate request;
             volume_gate := volume_gate request |} in
        sigs ← _compute_signals fpow bars variant;
        let run := _simulate _session_date variant bars sigs (cost_per_side_pct variant) (Z.to_nat w) in
        let returns_by_stamp := _timestamped_returns bars (Z.to_nat w) (sim_equity_curve run) in
        let series := map snd returns_by_stamp in
        let capital := initial_capital variant in
        mret (inr ({| sl_label := sleeve_label sleeve; sl_symbol := sv_symbol sleeve;
                      sl_strategy := sv_strategy sleeve; sl_params := params;
                      sl_total_return_pct := nround 4 ((final_equity run - capital) / capital);
                      sl_sharpe_ratio := nround 4 (annualise fsqrt (sharpe_ratio fpow fsqrt series) periods);
                      sl_max_drawdown_pct := nround 4 (_max_drawdown (sim_equity_curve run));
                      sl_total_trades := length (sim_trades run);
                      sl_profit_factor := nround 4 (_profit_factor (sim_trades run));
                      volatility := nround 6 (annualise fsqrt (stdev fpow fsqrt series) periods) |},
                   returns_by_stamp))
  end.

Fixpoint run_sleeves request bars_by_symbol (periods : F) (l : list (Sleeve F))
    : result string (list (SleeveResult F) * list stamped * list (fstr F)) :=
  match l with
  | [] => Ok ([], [], [])
  | sleeve :: l =>
      r ← run_sleeve request bars_by_symbol periods sleeve;
      rest ← run_sleeves request bars_by_symbol periods l;
      let '(results, maps, warnings) := rest in
      mret match r with
           | inl w => (results, maps, lit w :: warnings)
           | inr (res, m) => (res :: results, m :: maps, warnings)
           end
  end.

(** Every pair [i < j], in the order of the two loops. *)
Fixpoint pairs_of (l : list (string * list F)) : list (CorrelationPair F) :=
  match l with
  | [] => []
  | (a, x) :: l =>
      omap (fun '(b, y) => (fun v => {| cp_left := a; cp_right := b; correlation := nround 4 v |}) <$> _correlation x y) l
      ++ pairs_of l
  end.

Definition _correlation_pairs (labels : list string) (aligned : list (list F))
    : list (CorrelationPair F) * list (fstr F) :=
  let pairs := sort_by (fun p q => correlation q <=? correlation p) (pairs_of (combine labels aligned)) in
  (pairs, map (fun p => [Lit (cp_left p +:+ " and " +:+ cp_right p +:+ " correlate at ");
                         Fmt ".2f" (correlation p);
                         Lit (". They will lose money at the same time, so holding both is one " +:+
                              "position in two accounts, paying two sets of costs.")])
            (List.filter (fun p => correlation p >=? HIGH_CORRELATION) pairs)).

(** [max(l, key=...)]: the first of the largest. *)
Definition best_of (r : SleeveResult F) (l : list (SleeveResult F)) : SleeveResult F :=
  foldl (fun b r => if sl_sharpe_ratio r >? sl_sharpe_ratio b then r else b) r l.

Definition _rounded (v : option F) : option F := nround 4 <$> v.

(** The union of the stamps in order, and every sleeve's returns on it: a stamp it has no
    bar at is a zero return. *)
Definition timeline_of (maps : list stamped) : list datetime :=
  sort_by Z.leb (remove_dups (flat_map (map fst) maps)).
Definition align (timeline : list datetime) (m : stamped) : list F := map (fun s => stamp_get s m) timeline.

(** [sum(weight * series[i] ...)] for every [i]. *)
Definition combine_sleeves (weights : list F) (aligned : list (list F)) (n : nat) : list F :=
  map (fun i => nsum (zip_with (fun w series => w * at_ series i) weights aligned)) (List.seq 0 n).

Definition compound (returns : list F) : list F :=
  n_one :: scan (fun _ equity r => let e := equity * (n_one + r) in (e, e)) 0 n_one returns.

Definition run_portfolio request (sleeves : list (Sleeve F))
    (bars_by_symbol : list (string * list (OHLCVBar F))) (allocation : string) (n_trials : option nat)
    : result (PortfolioError F) (PortfolioResult F) :=
  if Nat.eqb (length sleeves) 0 then Err (PortfolioValueError "A portfolio needs at least one sleeve")
  else if negb (str_in allocation ALLOCATIONS) then
    Err (PortfolioValueError ("Unknown allocation " +:+ py_repr allocation +:+ ". Available: " +:+
                              join ", " ALLOCATIONS))
  else match bars_by_symbol with
  | [] => Err (PortfolioValueError "No bars supplied for any symbol")
  | (_, first_bars) :: _ =>
      let periods := periods_per_year_for request first_bars in
      match run_sleeves request bars_by_symbol periods sleeves with
      | Err msg => Err (PortfolioValueError msg)
      | Ok ([], _, _) => Err (PortfolioValueError "No sleeve produced a result — check symbols and bar counts")
      | Ok ((first :: others) as results, maps, dropped) =>
          let timeline := timeline_of maps in
          let aligned := map (align timeline) maps in
          let volatilities := map (stdev fpow fsqrt) aligned in
          let ws := _weights allocation volatilities in
          let combined := combine_sleeves ws aligned (length timeline) in
          let curve := compound combined in
          let equity := default n_one (last curve) in
          let combined_sharpe := annualise fsqrt (sharpe_ratio fpow fsqrt combined) periods in
          let best := best_of first others in
          let weighted_sharpe := nsum (zip_with (fun w r => w * sl_sharpe_ratio r) ws results) in
          let portfolio_vol := stdev fpow fsqrt combined in
          let weighted_vol := nsum (zip_with (fun w v => w * v) ws volatilities) in
          let ratio := if portfolio_vol >? nzero then Some (nround 4 (weighted_vol / portfolio_vol)) else None in
          let '(pairs, correlated) := _correlation_pairs (map sl_label results) aligned in
          let warnings := dropped ++ correlated ++
            (if combined_sharpe <? sl_sharpe_ratio best - SHARPE_COMPARISON_MARGIN then
               [[Lit "The combination ("; Fmt ".2f" combined_sharpe;
                 Lit (" Sharpe) did worse than its best " +:+ "single sleeve, " +:+ sl_label best +:+ " (");
                 Fmt ".2f" (sl_sharpe_ratio best);
                 Lit ("). Picking that sleeve in hindsight is not a strategy, but neither is " +:+
                      "paying costs on the others for nothing.")]] else []) ++
            (match ratio with
             | Some r => if r <? nlit 105 100 then
                 [[Lit "Diversification ratio "; Fmt ".2f" r;
                   Lit (": the sleeves are moving together, so the portfolio is carrying the cost of several " +:+
                        "strategies and the risk of one.")]] else []
             | None => []
             end) in
          let trials := default (length results) n_trials in
          match deflated_sharpe_ratio fpow fsqrt erf combined
                  (map (sharpe_ratio fpow fsqrt) aligned) (Some trials) with
          | Err e => Err (PortfolioStats e)
          | Ok deflated =>
              Ok {| po_timeframe := timeframe request; allocation := allocation; sleeves := results;
                    weights := map (nround 4) ws; aligned_bars := length timeline;
                    po_total_return_pct := nround 4 (equity - n_one);
                    po_sharpe_ratio := nround 4 combined_sharpe;
                    po_max_drawdown_pct := nround 4 (_max_drawdown curve);
                    best_sleeve_label := sl_label best; best_sleeve_sharpe := sl_sharpe_ratio best;
                    weighted_sleeve_sharpe := nround 4 weighted_sharpe; diversification_ratio := ratio;
                    correlations := pairs;
                    max_correlation := match pairs with
                      | [] => None
                      | p :: rest => Some (foldl (fun m q => nmax m (correlation q)) (correlation p) rest)
                      end;
                    po_probabilistic_sharpe_ratio :=
                      _rounded (probabilistic_sharpe_ratio fpow fsqrt erf combined nzero);
                    po_deflated_sharpe_ratio := _rounded deflated; po_n_trials := trials;
                    po_warnings := warnings |}
          end
      end
  end.

Definition build_sleeves (symbols strategies : list string) (params : option (StrategyParams F))
    : result string (list (Sleeve F)) :=
  match List.find (fun n => negb (is_ok (get_strategy fpow n))) strategies with
  | Some name => _ ← get_strategy fpow name; mret []
  | None => Ok (flat_map (fun symbol => map (fun strategy =>
      {| sv_strategy := strategy; sv_symbol := Prelude.upper symbol; sv_params := params |}) strategies) symbols)
  end.
End portfolio.

(** ** The weights split the capital *)

Section weights.
Local Open Scope Q_scope.

Lemma nsum_map_div (l : list Q) (t : Q) : ~ t == 0 -> nsum (map (fun i => ndiv i t) l) == nsum l / t.
Proof.
  intros Ht. induction l as [|x l IH] using rev_ind; [cbn; field; done|].
  rewrite map_app. cbn [map]. rewrite !nsum_snoc. cbn [nadd ndiv exact] in *. rewrite IH. field. done.
Qed.

Lemma nsum_repeat (x : Q) n : nsum (repeat x n) == x * nnat n.
Proof.
  induction n as [|n IH]; [unfold nnat, nofZ, nsum, nzero; cbn; ring|].
  cbn [repeat]. rewrite repeat_cons, nsum_snoc. cbn [nadd exact]. rewrite IH. unfold nnat, nofZ. cbn [nlit exact].
  rewrite Nat2Z.inj_succ. unfold Qeq, Qplus, Qmult. cbn. lia.
Qed.

Lemma equal_split n : (n <> 0)%nat -> nsum (repeat (ndiv (n_one : Q) (nnat n)) n) == (1 : Q).
Proof.
  intros Hn. rewrite nsum_repeat. cbn [ndiv exact]. change (n_one : Q) with 1.
  unfold nnat, nofZ. cbn [nlit exact]. field. unfold Qeq. cbn. lia.
Qed.
End weights.

(** The weights are shares of one capital: one per sleeve, none negative, and together
    everything. *)
Lemma weights_split (allocation : string) (volatilities : list Q) : volatilities <> [] ->
  let w := _weights allocation volatilities in
  length w = length volatilities /\ Forall (fun x => 0 <= x)%Q w /\ (nsum w == 1)%Q.
Proof.
  intros Hv w. unfold w, _weights.
  assert ((length volatilities <> 0)%nat) as Hn by by destruct volatilities.
  set (eq_w := repeat _ _).
  assert (length eq_w = length volatilities /\ Forall (fun x => 0 <= x)%Q eq_w /\ (nsum eq_w == 1)%Q) as Heq.
  { unfold eq_w. split_and!; [apply repeat_length| |by apply equal_split].
    apply Forall_forall. intros x Hx%list_elem_of_In%repeat_spec. subst x. cbn [ndiv exact].
    change (n_one : Q) with 1%Q. apply Qle_shift_div_l; [|lra].
    unfold nnat, nofZ, Qlt. cbn. lia. }
  destruct (String.eqb _ _); [|done]. set (inv := map _ _).
  destruct (nltb nzero (nsum inv)) eqn:E; [|done]. reflect_Q. change (nzero : Q) with 0%Q in E.
  split; [by unfold inv; rewrite !length_map|]. split.
  - apply Forall_forall. intros x (i & -> & Hi)%elem_of_map. cbn [ndiv exact].
    apply Qle_shift_div_l; [done|]. unfold inv in Hi. apply elem_of_map in Hi as (v & -> & _).
    destruct (nltb nzero v) eqn:Ev; reflect_Q; change (nzero : Q) with 0%Q in *; [|lra].
    cbn [ndiv exact]. change (n_one : Q) with 1%Q. assert (0 <= 1 / v)%Q by (apply Qle_shift_div_l; lra). lra.
  - rewrite nsum_map_div by lra. field. lra.
Qed.
