(* ===== verification/Signals.v ===== *)
(** * Signals: the earnings gate, the deterministic builder and the table of signals

    Models, of [services/strategy-service/src/strategy_service]: [earnings_calendar.py] (the
    cached verdict on earnings and what it says when the calendar cannot answer), the
    deterministic builder of [ai_pipeline.py], and the calls of [main.py] that write, list
    and consume signals over the table of [models.py]. The calendar, the language model and
    the bars are answers of the outside, and may fail. A signal's horizon and source, which
    nothing reads, are left out. Shown: a verdict on earnings is never older than its time
    to live, and is the configured posture when the calendar is down; and a signal that is
    stored is listed, as it was but for its strategy, until it is acted on. *)

From S2P Require Import PyFloat Store Contracts Indicators Strategies Prelude.
From Stdlib Require Import Floats.SpecFloat QArith Lqa.
Local Close Scope Q_scope.
Local Open Scope Z_scope.

(** [RuntimeError], and every other exception. *)
Inductive exn := RuntimeError (msg : string) | Uncaught (msg : string).

Definition DEFAULT_LIVE_STRATEGY : string := "ema_rsi_macd".

Record SignalCandidate (F : Type) := {
  sc_signal_id : string;
  sc_symbol : string;
  sc_ts : datetime;
  candidate_action : string;
  sc_confidence : F;
  sc_size_pct : F;
  sc_model_version : string;
  sc_risk_score : string;
  sc_strategy : string;
  sc_as_of : option datetime;   (** of its technical summary *)
  sc_research_summary : option string;
  sc_acted_on : bool
}.
Arguments sc_signal_id {F}. Arguments sc_symbol {F}. Arguments sc_ts {F}. Arguments candidate_action {F}.
Arguments sc_confidence {F}. Arguments sc_size_pct {F}. Arguments sc_model_version {F}.
Arguments sc_risk_score {F}. Arguments sc_strategy {F}. Arguments sc_as_of {F}.
Arguments sc_research_summary {F}. Arguments sc_acted_on {F}.

(** ** earnings_calendar.py *)

Record BlackoutCheck := { bc_active : bool; bc_checked : bool; bc_reason : string }.

Section earnings.
Context {F : Type} `{HF : PyFloat F}.
(** [str(date)] of the ordinal of a date. *)
Context (isodate : Z -> string).
Local Open Scope py_scope.

Definition _SUCCESS_TTL_SECONDS : F := nofZ 21600.
Definition _FAILURE_TTL_SECONDS : F := nofZ 600.

(** [_cache] and [_warned_open]. *)
Record EarningsGate := {
  _cache : gmap (string * Z) (F * BlackoutCheck);
  _warned_open : gset string
}.
Definition reset_earnings_gate : EarningsGate := {| _cache := ∅; _warned_open := ∅ |}.

Definition _fail_closed (raw : option string) : result string bool :=
  let raw := lower (strip (default "false" raw)) in
  if str_in raw ["true"; "false"] then Ok (String.eqb raw "true")
  else Err ("EARNINGS_GATE_FAIL_CLOSED must be 'true' or 'false', got " +:+ py_repr raw).

(** The calendar's dates, or the exception it raised. *)
Definition Calendar : Type := result string (list Z).

Definition _unanswered (symbol exc : string) (fail_closed : bool) (warned : gset string)
    : BlackoutCheck * gset string :=
  if fail_closed
  then ({| bc_active := true; bc_checked := false; bc_reason := "calendar unreachable, fail-closed: " +:+ exc |}, warned)
  else ({| bc_active := false; bc_checked := false; bc_reason := "calendar unreachable, failing open: " +:+ exc |},
        {[ symbol ]} ∪ warned).

Definition _consult_calendar (symbol : string) (blackout_days : Z) (fail_closed : bool) (today : Z)
    (calendar : Calendar) (warned : gset string) : BlackoutCheck * gset string :=
  match calendar with
  | Err exc => _unanswered symbol exc fail_closed warned
  | Ok dates =>
      (match List.find (fun ed => Z.abs (ed - today) <=? blackout_days)%Z dates with
       | Some ed =>
           {| bc_active := true; bc_checked := true;
              bc_reason := "earnings " +:+ isodate ed +:+ " (" +:+ str_of_Z (Z.abs (ed - today)) +:+ "d away)" |}
       | None => {| bc_active := false; bc_checked := true; bc_reason := "no earnings inside the blackout window" |}
       end, warned ∖ {[ symbol ]})
  end.

Definition ttl_of (check : BlackoutCheck) : F :=
  if bc_checked check then _SUCCESS_TTL_SECONDS else _FAILURE_TTL_SECONDS.

(** [now] is [time.monotonic()], [today] the date in UTC. *)
Definition check_earnings_blackout (raw : option string) (symbol : string) (blackout_days : Z) (now : F) (today : Z)
    (calendar : Calendar) (g : EarningsGate) : result string BlackoutCheck * EarningsGate :=
  match _fail_closed raw with
  | Err e => (Err e, g)
  | Ok fail_closed =>
      let key := (upper symbol, blackout_days) in
      let ask :=
        let '(check, warned) := _consult_calendar (upper symbol) blackout_days fail_closed today calendar (_warned_open g) in
        (Ok check, {| _cache := <[key := (now + ttl_of check, check)]> (_cache g); _warned_open := warned |}) in
      match _cache g !! key with
      | Some (until, check) => if until >? now then (Ok check, g) else ask
      | None => ask
      end
  end.

Definition is_earnings_blackout (raw : option string) (symbol : string) (blackout_days : Z) (now : F) (today : Z)
    (calendar : Calendar) (g : EarningsGate) : result string bool * EarningsGate :=
  let '(r, g) := check_earnings_blackout raw symbol blackout_days now today calendar g in
  (bc_active <$> r, g).

(** [_earnings_blackout_for] of the orchestrator: the two days are the default, and the gate
    itself may be missing from the container. *)
Definition _earnings_blackout_for (missing : bool) (raw : option string) (symbol : string) (now : F) (today : Z)
    (calendar : Calendar) (g : EarningsGate) : result string bool * EarningsGate :=
  if missing then (Ok (String.eqb (lower (strip (default "false" raw))) "true"), g)
  else is_earnings_blackout raw symbol 2 now today calendar g.
End earnings.
Arguments EarningsGate F : clear implicits.

(** ** The deterministic builder *)

Definition risk_value (r : Risk) : string := match r with LOW => "LOW" | MEDIUM => "MEDIUM" | HIGH => "HIGH" end.

Section builder.
Context {F : Type} `{HF : PyFloat F}.
Context (fpow : F -> F -> F).
Local Open Scope py_scope.

(** The constraints pydantic puts on a candidate. *)
Definition candidate (s : SignalCandidate F) : result exn (SignalCandidate F) :=
  if (nzero <=? sc_confidence s) && (sc_confidence s <=? n_one) &&
     ((nzero <? sc_size_pct s) && (sc_size_pct s <=? n_one))
  then Ok s else Err (Uncaught "validation error for SignalCandidate").

(** A candidate from a rule's signal, with the defaults of the other fields. *)
Definition candidate_of (signal_id symbol : string) (now : datetime) (model_version : string) (r : RuleSignal F)
    : result exn (SignalCandidate F) :=
  candidate {| sc_signal_id := signal_id; sc_symbol := upper symbol; sc_ts := now;
               candidate_action := action_str (rs_action r); sc_confidence := rs_confidence r;
               sc_size_pct := Strategies.size_pct r; sc_model_version := model_version;
               sc_risk_score := risk_value (Strategies.risk_score r); sc_strategy := DEFAULT_LIVE_STRATEGY;
               sc_as_of := None; sc_research_summary := None; sc_acted_on := false |}.

Definition _build_deterministic_signal (threshold : F) (signal_id symbol : string) (now : datetime)
    (ta_summary : option (TASummary F)) (sentiment_score : option F) (bars : option (list (OHLCVBar F)))
    : result exn (SignalCandidate F) :=
  match ta_summary with
  | Some ta =>
      candidate_of signal_id symbol now "strategy-rule-v1"
        (evaluate_rules ta (Some threshold) sentiment_score bars [])
  | None =>
      candidate {| sc_signal_id := signal_id; sc_symbol := upper symbol; sc_ts := now; candidate_action := "HOLD";
                   sc_confidence := nzero; sc_size_pct := nlit 5 1000;
                   sc_model_version := "strategy-rule-v1/no-data"; sc_risk_score := "HIGH";
                   sc_strategy := DEFAULT_LIVE_STRATEGY; sc_as_of := None;
                   sc_research_summary := Some "market_data_unavailable"; sc_acted_on := false |}
  end.

(** [fetch_bars] and the summary of what it returned; None is an exception. *)
Definition _market_snapshot (symbol source : string) (now : datetime) (fetched : option (list (OHLCVBar F)))
    : option (TASummary F) * list (OHLCVBar F) :=
  match fetched with
  | None | Some [] => (None, [])
  | Some bars => (Some (build_ta_summary fpow symbol bars source now), bars)
  end.
End builder.

(** ** The table of signals *)

(** A row has no strategy. *)
Record SignalRecord (F : Type) := {
  sg_signal_id : string;
  sg_symbol : string;
  sg_ts : datetime;
  sg_action : string;
  sg_confidence : F;
  sg_size_pct : F;
  sg_model_version : string;
  sg_risk_score : option string;
  sg_as_of : option datetime;
  sg_research_summary : option string;
  acted_on : bool
}.
Arguments sg_signal_id {F}. Arguments sg_symbol {F}. Arguments sg_ts {F}. Arguments sg_action {F}.
Arguments sg_confidence {F}. Arguments sg_size_pct {F}. Arguments sg_model_version {F}.
Arguments sg_risk_score {F}. Arguments sg_as_of {F}. Arguments sg_research_summary {F}. Arguments acted_on {F}.

Section table.
Context {F : Type} `{HF : PyFloat F}.
Context (fpow : F -> F -> F).

(** The rows in insertion order. *)
Definition SignalDB : Type := list (SignalRecord F).

Definition record_of (s : SignalCandidate F) : SignalRecord F :=
  {| sg_signal_id := sc_signal_id s; sg_symbol := sc_symbol s; sg_ts := sc_ts s; sg_action := candidate_action s;
     sg_confidence := sc_confidence s; sg_size_pct := sc_size_pct s; sg_model_version := sc_model_version s;
     sg_risk_score := Some (sc_risk_score s); sg_as_of := sc_as_of s; sg_research_summary := sc_research_summary s;
     acted_on := sc_acted_on s |}.

(** The primary key is the id of the signal. [ok] is false when the write fails. *)
Definition _persist_signal (ok : bool) (s : SignalCandidate F) (d : SignalDB) : result exn unit * SignalDB :=
  if ok && negb (existsb (fun r => String.eqb (sg_signal_id r) (sc_signal_id s)) d)
  then (Ok tt, d ++ [record_of s]) else (Err (Uncaught "database error"), d).

Definition _to_candidate (row : SignalRecord F) : SignalCandidate F :=
  {| sc_signal_id := sg_signal_id row; sc_symbol := sg_symbol row; sc_ts := sg_ts row; candidate_action := sg_action row;
     sc_confidence := sg_confidence row; sc_size_pct := sg_size_pct row; sc_model_version := sg_model_version row;
     sc_risk_score := str_or (default "" (sg_risk_score row)) "MEDIUM"; sc_strategy := DEFAULT_LIVE_STRATEGY;
     sc_as_of := sg_as_of row; sc_research_summary := sg_research_summary row; sc_acted_on := acted_on row |}.

(** The rows a listing asks for. *)
Definition selected (symbol : option string) (acted : option bool) (action : option string) (row : SignalRecord F) : bool :=
  (match symbol with Some s => negb (str_true s) || String.eqb (sg_symbol row) (upper s) | None => true end) &&
  (match acted with Some b => Bool.eqb (acted_on row) b | None => true end) &&
  (match action with Some a => String.eqb (sg_action row) a | None => true end).

Definition newer (a b : SignalRecord F) : bool := (sg_ts b <=? sg_ts a).

Definition list_signals (limit : nat) (symbol : option string) (acted : option bool) (action : option string)
    (d : SignalDB) : list (SignalCandidate F) :=
  map _to_candidate (take limit (sort_by newer (List.filter (selected symbol acted action) d))).

Definition acted (row : SignalRecord F) : SignalRecord F :=
  {| sg_signal_id := sg_signal_id row; sg_symbol := sg_symbol row; sg_ts := sg_ts row; sg_action := sg_action row;
     sg_confidence := sg_confidence row; sg_size_pct := sg_size_pct row; sg_model_version := sg_model_version row;
     sg_risk_score := sg_risk_score row; sg_as_of := sg_as_of row; sg_research_summary := sg_research_summary row;
     acted_on := true |}.

Definition mark_signal_acted (signal_id : string) (d : SignalDB) : result HTTPException string * SignalDB :=
  match List.find (fun r => String.eqb (sg_signal_id r) signal_id) d with
  | None => (Err {| status_code := 404; detail := "Signal not found" |}, d)
  | Some _ => (Ok signal_id, update_where (fun r => String.eqb (sg_signal_id r) signal_id) acted d)
  end.
End table.
Arguments SignalDB F : clear implicits.

(** ** /v1/signals/generate *)

Section generate.
Context {F : Type} `{HF : PyFloat F}.
Context (fpow : F -> F -> F) (isodate : Z -> string).

Definition target_symbol (symbols : list string) (symbol : option string) : string :=
  match map (fun s => upper (strip s)) (List.filter (fun s => str_true (strip s)) symbols) with
  | s :: _ => s
  | [] => upper (strip (str_or (default "" symbol) "AAPL"))
  end.

(** What one request finds: the model's answer, the bars, the calendar and the database. *)
Record GenerateWorld := {
  gw_uuid : string;
  gw_now : datetime;
  gw_ai : result exn (SignalCandidate F);
  gw_fetched : option (list (OHLCVBar F));
  gw_source : string;
  gw_posture : option string;
  gw_monotonic : F;
  gw_today : Z;
  gw_calendar : Calendar;
  gw_write_ok : bool
}.

Definition held (s : SignalCandidate F) : SignalCandidate F :=
  {| sc_signal_id := sc_signal_id s; sc_symbol := sc_symbol s; sc_ts := sc_ts s; candidate_action := "HOLD";
     sc_confidence := sc_confidence s; sc_size_pct := sc_size_pct s; sc_model_version := sc_model_version s;
     sc_risk_score := sc_risk_score s; sc_strategy := sc_strategy s; sc_as_of := sc_as_of s;
     sc_research_summary := sc_research_summary s; sc_acted_on := sc_acted_on s |}.

Definition generate_signal (use_ai : bool) (threshold : F) (blackout_days : Z) (target : string) (w : GenerateWorld)
    (x : EarningsGate F * SignalDB F) : result exn (SignalCandidate F) * (EarningsGate F * SignalDB F) :=
  let '(g, d) := x in
  let signal :=
    if use_ai then gw_ai w
    else let '(ta, bars) := _market_snapshot fpow target (gw_source w) (gw_now w) (gw_fetched w) in
         _build_deterministic_signal threshold (gw_uuid w) target (gw_now w) ta None (Some bars) in
  match signal with
  | Err e => (Err e, x)
  | Ok signal =>
      match is_earnings_blackout isodate (gw_posture w) target blackout_days (gw_monotonic w) (gw_today w) (gw_calendar w) g with
      | (Err e, g) => (Err (Uncaught e), (g, d))
      | (Ok blackout, g) =>
          let signal := if blackout && String.eqb (candidate_action signal) "BUY" then held signal else signal in
          match _persist_signal (gw_write_ok w) signal d with
          | (Err e, d) => (Err e, (g, d))
          | (Ok _, d) => (Ok signal, (g, d))
          end
      end
  end.
End generate.
Arguments GenerateWorld F : clear implicits.

(** ** A verdict on earnings is recent *)

Section recent.
Context {F : Type} `{HF : PyFloat F}.
Context (isodate : Z -> string).

Record Ask := { a_raw : option string; a_symbol : string; a_days : Z; a_now : F; a_today : Z; a_calendar : Calendar }.
Definition asked (a : Ask) (g : EarningsGate F) : result string BlackoutCheck * EarningsGate F :=
  check_earnings_blackout isodate (a_raw a) (a_symbol a) (a_days a) (a_now a) (a_today a) (a_calendar a) g.
Definition gate_after (asks : list Ask) : EarningsGate F := foldl (fun g a => snd (asked a g)) reset_earnings_gate asks.

(** The verdict [a] gets from the calendar itself. *)
Definition verdict (a : Ask) : option BlackoutCheck :=
  match _fail_closed (a_raw a) with
  | Ok closed => Some (fst (_consult_calendar isodate (upper (a_symbol a)) (a_days a) closed (a_today a) (a_calendar a) ∅))
  | Err _ => None
  end.
Definition ask_key (a : Ask) : string * Z := (upper (a_symbol a), a_days a).

Lemma consult_warned symbol days closed today calendar w w' :
  fst (_consult_calendar isodate symbol days closed today calendar w) =
  fst (_consult_calendar isodate symbol days closed today calendar w').
Proof. unfold _consult_calendar, _unanswered. by destruct calendar; [|destruct closed]. Qed.

(** Where a cached verdict comes from. *)
Definition sourced (asks : list Ask) (g : EarningsGate F) : Prop :=
  forall k until check, _cache g !! k = Some (until, check) ->
  exists a, a ∈ asks /\ ask_key a = k /\ verdict a = Some check /\ until = nadd (a_now a) (ttl_of check).

Lemma asked_sourced asks a g :
  sourced asks g -> sourced (asks ++ [a]) (snd (asked a g)) /\
  forall check, fst (asked a g) = Ok check ->
    verdict a = Some check \/
    exists until, _cache g !! ask_key a = Some (until, check) /\ nltb (a_now a) until = true.
Proof.
  intros Hg. unfold asked, check_earnings_blackout, verdict. change (upper (a_symbol a), a_days a) with (ask_key a).
  assert (sourced (asks ++ [a]) g) as Hold.
  { intros k u c Hk. destruct (Hg k u c Hk) as (b & Hb & ?). exists b. split; [apply elem_of_app; by left|done]. }
  destruct (_fail_closed (a_raw a)) as [closed|] eqn:Ef; [|split; [done|discriminate]].
  pose proof (consult_warned (upper (a_symbol a)) (a_days a) closed (a_today a) (a_calendar a) (_warned_open g) ∅) as Hw.
  destruct (_consult_calendar _ _ _ _ _ _ (_warned_open g)) as [check warned]. cbn [fst] in Hw.
  assert (forall c, verdict a = Some c -> sourced (asks ++ [a])
    {| _cache := <[ask_key a := (nadd (a_now a) (ttl_of c), c)]> (_cache g); _warned_open := warned |}) as Hnew.
  { intros c Hc k u c' Hk. cbn [_cache] in Hk. apply lookup_insert_Some in Hk as [[<- [= <- <-]]|[_ Hk]]; [|by apply Hold].
    exists a. split; [apply elem_of_app; right; by apply list_elem_of_singleton|done]. }
  assert (verdict a = Some check) as Hv by (unfold verdict; by rewrite Ef, Hw).
  destruct (_cache g !! ask_key a) as [[until c]|] eqn:Ek; [destruct (nltb (a_now a) until) eqn:Eu|]; cbn [fst snd].
  - split; [done|]. intros ? [= <-]. right. by exists until.
  - split; [by apply Hnew|]. intros ? [= <-]. left. by rewrite <- Hw.
  - split; [by apply Hnew|]. intros ? [= <-]. left. by rewrite <- Hw.
Qed.

Lemma gate_sourced asks : sourced asks (gate_after asks).
Proof.
  induction asks as [|a asks IH] using rev_ind.
  - intros k u c Hk. cbn in Hk. by rewrite lookup_empty in Hk.
  - unfold gate_after. rewrite foldl_app. apply asked_sourced, IH.
Qed.

(** A verdict on earnings is never stale, and never silent about an outage. Whatever was
    asked before, the verdict on a symbol is one the calendar gave to a question about that
    symbol and window, this one or one less than its time to live ago; and a verdict the
    calendar did not give is the posture configured when it was formed. *)
Theorem earnings_verdict_is_recent (asks : list Ask) (a : Ask) check :
  fst (asked a (gate_after asks)) = Ok check ->
  exists b, b ∈ asks ++ [a] /\ ask_key b = ask_key a /\ verdict b = Some check /\
    (b = a \/ nltb (a_now a) (nadd (a_now b) (ttl_of check)) = true) /\
    (bc_checked check = false ->
       ttl_of check = _FAILURE_TTL_SECONDS /\ _fail_closed (a_raw b) = Ok (bc_active check) /\
       exists exc, a_calendar b = Err exc).
Proof.
  intros H. destruct (asked_sourced asks a (gate_after asks) (gate_sourced asks)) as [_ Hc].
  assert (forall b, verdict b = Some check -> bc_checked check = false ->
    ttl_of check = _FAILURE_TTL_SECONDS /\ _fail_closed (a_raw b) = Ok (bc_active check) /\
    exists exc, a_calendar b = Err exc) as Hd.
  { intros b Hb Hk. unfold ttl_of. rewrite Hk. split; [done|]. unfold verdict in Hb.
    destruct (_fail_closed (a_raw b)) as [closed|]; [|done]. injection Hb as <-. unfold _consult_calendar, _unanswered in *.
    destruct (a_calendar b) as [dates|exc]; [by destruct (List.find _ _)|]. by destruct closed; eauto. }
  destruct (Hc check H) as [Hv|(until & Hk & Hlt)].
  - exists a. split; [apply elem_of_app; right; by apply list_elem_of_singleton|]. eauto 10.
  - destruct (gate_sourced asks _ _ _ Hk) as (b & Hb & Ek & Hv & ->).
    exists b. split; [apply elem_of_app; by left|]. eauto 10.
Qed.
End recent.
Arguments Ask F : clear implicits.

(** ** A signal is pending until it is acted on *)

Section pending.
Context {F : Type} `{HF : PyFloat F}.

Inductive SignalOp := Write (ok : bool) (s : SignalCandidate F) | Act (signal_id : string).
Definition perform_op (d : SignalDB F) (o : SignalOp) : SignalDB F :=
  match o with
  | Write ok s => snd (_persist_signal ok s d)
  | Act signal_id => snd (mark_signal_acted signal_id d)
  end.
Definition perform_ops (ops : list SignalOp) : SignalDB F := foldl perform_op [] ops.

(** A signal as the table gives it back. *)
Definition read_back (s : SignalCandidate F) : SignalCandidate F := _to_candidate (record_of s).
Definition writes_id (i : string) (o : SignalOp) : Prop :=
  match o with Write ok s => ok = true /\ sc_signal_id s = i | Act _ => False end.

Definition acts_on (i : string) (o : SignalOp) : bool :=
  match o with Act j => String.eqb i j | Write _ _ => false end.

(** Stored by the first successful write of its id, and acted on since or not. *)
Definition stored_by (ops : list SignalOp) (row : SignalRecord F) : Prop :=
  exists pre s post, ops = pre ++ Write true s :: post /\
    Forall (fun o => ~ writes_id (sc_signal_id s) o) pre /\
    row = if existsb (acts_on (sc_signal_id s)) post then acted (record_of s) else record_of s.

(** What one more operation does to a stored row. *)
Definition touched (o : SignalOp) (row : SignalRecord F) : SignalRecord F :=
  if acts_on (sg_signal_id row) o then acted row else row.

Lemma stored_snoc ops o row : stored_by (ops ++ [o]) row <->
  (exists r, stored_by ops r /\ row = touched o r) \/
  (exists s, o = Write true s /\ Forall (fun o => ~ writes_id (sc_signal_id s) o) ops /\ row = record_of s).
Proof.
  assert (forall s post, (if existsb (acts_on (sc_signal_id s)) (post ++ [o]) then acted (record_of s) else record_of s) =
    touched o (if existsb (acts_on (sc_signal_id s)) post then acted (record_of s) else record_of s)) as Ht.
  { intros s post. rewrite existsb_app. cbn [existsb]. rewrite orb_false_r.
    destruct (existsb _ post); cbn [orb]; unfold touched; cbn [sg_signal_id record_of acted]; by destruct (acts_on _ o). }
  split.
  - intros (pre & s & post & E & Hp & ->). destruct post as [|o' post _] using rev_ind.
    + apply app_inj_tail in E as [-> ->]. right. by exists s.
    + rewrite app_comm_cons, app_assoc in E. apply app_inj_tail in E as [-> <-]. left. rewrite Ht.
      eexists. split; [|done]. by exists pre, s, post.
  - intros [(r & (pre & s & post & -> & Hp & ->) & ->)|(s & -> & Hp & ->)]; [|by exists ops, s, []].
    exists pre, s, (post ++ [o]). rewrite Ht. by rewrite <- app_assoc.
Qed.

Lemma act_rows i (d : SignalDB F) row :
  row ∈ snd (mark_signal_acted i d) <-> exists r, r ∈ d /\ row = touched (Act i) r.
Proof.
  unfold mark_signal_acted, touched, acts_on. destruct (List.find _ d) as [r0|] eqn:E; cbn [snd]; [apply elem_of_update_where|].
  assert (forall r, r ∈ d -> String.eqb (sg_signal_id r) i = false) as Hn.
  { intros r Hr. apply (List.find_none _ _ E). by apply list_elem_of_In. }
  split; [intros Hr; exists row; by rewrite Hn|]. intros (r & Hr & ->). by rewrite Hn.
Qed.

Lemma touched_id o row : sg_signal_id (touched o row) = sg_signal_id row.
Proof. unfold touched. by destruct (acts_on _ _). Qed.

Lemma known_spec i (d : SignalDB F) :
  existsb (fun r => String.eqb (sg_signal_id r) i) d = true <-> exists r, r ∈ d /\ sg_signal_id r = i.
Proof. rewrite existsb_exists. setoid_rewrite list_elem_of_In. setoid_rewrite String.eqb_eq. done. Qed.

(** The ids of the table are those written. *)
Lemma table_ids ops i : (exists r, r ∈ perform_ops ops /\ sg_signal_id r = i) <-> exists o, o ∈ ops /\ writes_id i o.
Proof.
  induction ops as [|o ops IH] using rev_ind; [split; by intros (? & ?%not_elem_of_nil & _)|].
  unfold perform_ops. rewrite foldl_app. cbn [foldl]. fold (perform_ops ops).
  assert ((exists r, r ∈ perform_op (perform_ops ops) o /\ sg_signal_id r = i) <->
    (exists r, r ∈ perform_ops ops /\ sg_signal_id r = i) \/ writes_id i o) as ->.
  { destruct o as [ok s|j]; cbn [perform_op writes_id].
    - unfold _persist_signal. destruct ok; cbn [andb]; [|naive_solver].
      destruct (existsb _ _) eqn:E; cbn [negb snd].
      + apply known_spec in E. naive_solver.
      + setoid_rewrite elem_of_app. setoid_rewrite list_elem_of_singleton. split; [naive_solver|].
        intros [(r & ? & ?)|[_ <-]]; [by exists r; auto|]. exists (record_of s). auto.
    - setoid_rewrite act_rows. split.
      + intros (r & (r' & Hr & ->) & Hi). rewrite touched_id in Hi. left. by exists r'.
      + intros [(r & Hr & Hi)|[]]. exists (touched (Act j) r). rewrite touched_id. split; [by exists r|done]. }
  rewrite IH. setoid_rewrite elem_of_app. setoid_rewrite list_elem_of_singleton. naive_solver.
Qed.

Lemma table_rows ops row : row ∈ perform_ops ops <-> stored_by ops row.
Proof.
  revert row. induction ops as [|o ops IH] using rev_ind; intros row.
  - split; [by intros ?%not_elem_of_nil|]. intros ([|o pre] & s & post & E & _); done.
  - rewrite stored_snoc. setoid_rewrite <- IH. unfold perform_ops. rewrite foldl_app. cbn [foldl]. fold (perform_ops ops).
    destruct o as [ok s|i]; cbn [perform_op]; [|rewrite act_rows; naive_solver].
    assert ((exists r, r ∈ perform_ops ops /\ row = touched (Write ok s) r) <-> row ∈ perform_ops ops) as ->
      by (unfold touched; cbn; naive_solver).
    unfold _persist_signal. destruct ok; cbn [andb snd]; [|naive_solver].
    pose proof (known_spec (sc_signal_id s) (perform_ops ops)) as Hk. rewrite table_ids in Hk.
    destruct (existsb _ (perform_ops ops)); cbn [negb snd].
    + destruct (proj1 Hk eq_refl) as (o & Ho & Hw). split; [auto|]. intros [?|(s' & [= <-] & Hn & ->)]; [done|].
      rewrite Forall_forall in Hn. by destruct (Hn o Ho).
    + rewrite elem_of_app, list_elem_of_singleton. split; [|naive_solver].
      intros [?| ->]; [auto|]. right. exists s. split; [done|]. split; [|done].
      apply Forall_forall. intros o Ho Hw. by assert (false = true) by (apply Hk; eauto).
Qed.

(** A signal is offered from the moment it is stored until it is acted on, as it was but
    for its strategy. Whatever was written and acted on, in whatever order and with
    whatever failures, the signals listed as pending for a symbol and an action are exactly
    those a first successful write of their id stored and nothing has acted on since; none
    is lost, changed, or offered again. *)
Theorem signals_pending_until_acted (ops : list SignalOp) limit symbol action c :
  (length (perform_ops ops) <= limit)%nat -> symbol <> "" ->
  c ∈ list_signals limit (Some symbol) (Some false) (Some action) (perform_ops ops) <->
  exists pre s post, ops = pre ++ Write true s :: post /\
    Forall (fun o => ~ writes_id (sc_signal_id s) o) pre /\ Act (sc_signal_id s) ∉ post /\
    sc_acted_on s = false /\ sc_symbol s = upper symbol /\ candidate_action s = action /\ c = read_back s.
Proof.
  intros Hl Hs. unfold list_signals. rewrite elem_of_map.
  assert (forall post i, existsb (acts_on i) post = false <-> Act i ∉ post) as Ha.
  { intros post i. rewrite <- not_true_iff_false, existsb_exists. setoid_rewrite <- list_elem_of_In. split.
    - intros Hn Hin. apply Hn. exists (Act i). split; [done|apply String.eqb_refl].
    - intros Hn ([|j] & Hin & Hj); [done|]. cbn in Hj. apply String.eqb_eq in Hj as ->. done. }
  assert (forall row, row ∈ take limit (sort_by newer (List.filter (selected (Some symbol) (Some false) (Some action)) (perform_ops ops)))
    <-> stored_by ops row /\ acted_on row = false /\ sg_symbol row = upper symbol /\ sg_action row = action) as Hr.
  { intros row. rewrite take_ge.
    - rewrite elem_of_sort_by, elem_of_filter_b, table_rows. unfold selected, str_true.
      apply String.eqb_neq in Hs. rewrite Hs. cbn [negb orb].
      rewrite !andb_true_iff, !String.eqb_eq, Bool.eqb_true_iff. naive_solver.
    - rewrite sort_by_perm. etransitivity; [apply List.filter_length_le|done]. }
  setoid_rewrite Hr. split.
  - intros (row & -> & (pre & s & post & -> & Hp & ->) & Hf & Hsy & Hac).
    destruct (existsb (acts_on (sc_signal_id s)) post) eqn:E; [done|]. apply Ha in E.
    by exists pre, s, post.
  - intros (pre & s & post & -> & Hp & Hn & Hf & Hsy & Hac & ->). exists (record_of s).
    split; [done|]. split; [|done]. exists pre, s, post. apply Ha in Hn. by rewrite Hn.
Qed.
End pending.
Arguments SignalOp F : clear implicits.

(** ** On concrete calls *)

Module Calls.
Definition isodate (d : Z) : string := str_of_Z d.
Definition ask (now : Q) (calendar : Calendar) : Ask Q :=
  {| a_raw := Some " TRUE"; a_symbol := "aapl"; a_days := 2; a_now := now; a_today := 738000; a_calendar := calendar |}.
(** The calendar is down at noon, and answers five minutes later. *)
Definition down : Ask Q := ask 0%Q (Err "timeout").
Definition up : Ask Q := ask 300%Q (Ok [738001]).
Definition later : Ask Q := ask 601%Q (Ok [738010]).
Definition signal (id action : string) : SignalCandidate Q :=
  {| sc_signal_id := id; sc_symbol := "AAPL"; sc_ts := 5; candidate_action := action; sc_confidence := 1%Q;
     sc_size_pct := 1%Q; sc_model_version := "v1"; sc_risk_score := "LOW"; sc_strategy := "bb_rsi_reversion";
     sc_as_of := None; sc_research_summary := None; sc_acted_on := false |}.
Definition ops : list (SignalOp Q) :=
  [Write true (signal "s1" "BUY"); Act "s2"; Write true (signal "s2" "BUY"); Write false (signal "s3" "BUY"); Act "s1"].
End Calls.

Lemma earnings_verdict_is_recent_witness :
  exists check, fst (asked Calls.isodate Calls.up (gate_after Calls.isodate [Calls.down])) = Ok check /\
    bc_checked check = false /\ bc_active check = true /\
    nltb 300%Q (nadd (a_now Calls.down) (ttl_of check)) = true.
Proof.
  destruct (fst (asked Calls.isodate Calls.up (gate_after Calls.isodate [Calls.down]))) as [check|] eqn:E;
    [|vm_compute in E; discriminate].
  destruct (earnings_verdict_is_recent Calls.isodate [Calls.down] Calls.up check E) as (b & Hb & _ & _ & Ht & Hf).
  assert (bc_checked check = false) as Hc by (vm_compute in E; injection E as <-; reflexivity).
  exists check. split; [done|]. split; [done|]. destruct (Hf Hc) as (Hf1 & Hf2 & Hf3).
  split; [vm_compute in E; injection E as <-; reflexivity|]. by rewrite Hf1.
Defined.

(** The failure is kept for ten minutes, then the calendar is asked again. *)
Lemma outage_is_retried :
  let '(first, g) := asked Calls.isodate Calls.down reset_earnings_gate in
  let '(second, g) := asked Calls.isodate Calls.up g in
  let '(third, _) := asked Calls.isodate Calls.later g in
  map (fun r => match r with Ok c => (bc_active c, bc_checked c) | Err _ => (false, false) end) [first; second; third] =
  [(true, false); (true, false); (false, true)].
Proof. vm_compute. reflexivity. Qed.

Lemma signals_pending_until_acted_witness :
  forall c, c ∈ list_signals 10 (Some "aapl") (Some false) (Some "BUY") (perform_ops Calls.ops) <->
    c = read_back (Calls.signal "s2" "BUY").
Proof.
  intros c. split.
  - intros H. vm_compute in H. by apply list_elem_of_singleton in H.
  - intros ->. apply (signals_pending_until_acted Calls.ops 10 "aapl" "BUY"); [vm_compute; lia|discriminate|].
    exists [Write true (Calls.signal "s1" "BUY"); Act "s2"], (Calls.signal "s2" "BUY"),
      [Write false (Calls.signal "s3" "BUY"); Act "s1"].
    split; [reflexivity|]. split; [repeat constructor; by intros []|].
    split; [|repeat split; reflexivity]. by intros [?|[?|?%elem_of_nil]%elem_of_cons]%elem_of_cons.
Defined.

(** A stored signal has lost the strategy it was made by: the signal of a sleeve comes back
    as the default strategy's. *)
Lemma strategy_is_not_stored :
  map sc_strategy (list_signals 10 None None None (perform_ops [Write true (Calls.signal "s1" "EXIT")])) = ["ema_rsi_macd"].
Proof. vm_compute. reflexivity. Qed.
