(* ===== verification/DayTrade.v ===== *)
(** * The pattern-day-trader guard

    Models [services/autonomy-orchestrator/src/autonomy_orchestrator/day_trade_tracker.py].
    A session is a day number (the ordinal of its date); the market date of an instant
    comes from the time zone database and is a parameter. Shown: the window has its five
    sessions and only forgets as time passes, and an account whose every entry was asked
    for never takes more day trades in a window than allowed, across closes, days and
    restarts. *)

From S2P Require Import Prelude PyFloat Store.
From Stdlib Require Import Floats.SpecFloat.

Definition FINRA_DAY_TRADE_LIMIT : Z := 4.
Definition ROLLING_SESSIONS : nat := 5.

(** [date.weekday()] of a date's ordinal: day 1 was a Monday. *)
Definition weekday (d : Z) : Z := (d + 6) mod 7.
Definition is_business (d : Z) : bool := weekday d <? 5.

(** The [while] loop of [business_window]: [k] more dates to find, from [cursor] back. *)
Fixpoint window_back (fuel : nat) (cursor : Z) (k : nat) : option (list Z) :=
  match k with
  | O => Some []
  | S k' =>
      match fuel with
      | O => None
      | S fuel =>
          if is_business cursor then cons cursor <$> window_back fuel (cursor - 1) k'
          else window_back fuel (cursor - 1) k
      end
  end.

(** Of any seven days five are business days: seven per session are enough. *)
Definition window_fuel (sessions : nat) : nat := 7 * sessions.
Definition business_window (today : Z) (sessions : nat) : list Z :=
  today :: default [] (window_back (window_fuel sessions) (today - 1) (sessions - 1)).

(** ** The tracker *)

Record PDTSettings (F : Type) := {
  enabled : bool;
  equity_threshold_usd : F;
  max_day_trades : Z
}.
Arguments enabled {F}. Arguments equity_threshold_usd {F}. Arguments max_day_trades {F}.

Record PDTDecision (F : Type) := {
  allowed : bool;
  pdt_reason : string;
  pd_day_trades_used : Z;
  pd_day_trades_remaining : Z;
  pd_equity : option F;
  pd_open_today : Z
}.
Arguments allowed {F}. Arguments pdt_reason {F}.

(** The two dicts, and what the state file holds: None while there is none. *)
Definition Sessions : Type := list (string * Z).
Definition Counts : Type := list (Z * Z).
Record DayTradeTracker := {
  _open_sessions : Sessions;
  _day_trades : Counts;
  saved : option (Sessions * Counts)
}.

(** [d[day] = d.get(day, 0) + 1] *)
Fixpoint add_day (day : Z) (d : Counts) : Counts :=
  match d with
  | [] => [(day, 1)]
  | (k, n) :: d => if day =? k then (k, n + 1) :: d else (k, n) :: add_day day d
  end.
Definition in_days (window : list Z) (day : Z) : bool := existsb (Z.eqb day) window.
Definition zsum (l : list Z) : Z := foldr Z.add 0 l.

(** [_count_locked], [open_today] and [_prune_locked] at a session. *)
Definition _count_locked (t : DayTradeTracker) (today : Z) : Z :=
  let window := business_window today ROLLING_SESSIONS in
  zsum (map snd (List.filter (fun e => in_days window (fst e)) (_day_trades t))).
Definition open_today (t : DayTradeTracker) (today : Z) : Z :=
  Z.of_nat (length (List.filter (fun e => snd e =? today) (_open_sessions t))).
Definition _prune_locked (d : Counts) (today : Z) : Counts :=
  let window := business_window today (ROLLING_SESSIONS * 3) in
  List.filter (fun e => in_days window (fst e)) d.

(** [_save]: a failure is logged and leaves the file as it was. *)
Definition _save (ok : bool) (t : DayTradeTracker) : DayTradeTracker :=
  {| _open_sessions := _open_sessions t; _day_trades := _day_trades t;
     saved := if ok then Some (_open_sessions t, _day_trades t) else saved t |}.

Definition with_open (o : Sessions) (t : DayTradeTracker) : DayTradeTracker :=
  {| _open_sessions := o; _day_trades := _day_trades t; saved := saved t |}.
Definition with_trades (d : Counts) (t : DayTradeTracker) : DayTradeTracker :=
  {| _open_sessions := _open_sessions t; _day_trades := d; saved := saved t |}.

(** [setdefault]: a position already open keeps its session. *)
Definition record_open (symbol : string) (today : Z) (ok : bool) (t : DayTradeTracker) : DayTradeTracker :=
  let key := upper symbol in
  _save ok (match dict_get key (_open_sessions t) with
            | Some _ => t
            | None => with_open (dict_set key today (_open_sessions t)) t
            end).

Definition record_close (symbol : string) (today : Z) (ok : bool) (t : DayTradeTracker)
    : bool * DayTradeTracker :=
  let key := upper symbol in
  let opened_on := dict_get key (_open_sessions t) in
  let t := with_open (dict_pop key (_open_sessions t)) t in
  let is_day_trade := match opened_on with Some d => d =? today | None => false end in
  let t := if is_day_trade then with_trades (add_day today (_day_trades t)) t else t in
  let t := with_trades (_prune_locked (_day_trades t) today) t in
  (is_day_trade, _save ok t).

(** [_load] at the start of a process; an unreadable file starts it empty. *)
Definition _load (file : option (Sessions * Counts)) (today : Z) : DayTradeTracker :=
  match file with
  | Some (o, d) =>
      {| _open_sessions := foldl (fun acc '(k, v) => dict_set (upper k) v acc) [] o;
         _day_trades := _prune_locked d today; saved := file |}
  | None => {| _open_sessions := []; _day_trades := []; saved := file |}
  end.

Definition reset (ok : bool) (t : DayTradeTracker) : DayTradeTracker :=
  _save ok (with_trades [] (with_open [] t)).

Section guard.
Context {F : Type} `{HF : PyFloat F}.
Local Open Scope py_scope.

Definition FINRA_EQUITY_THRESHOLD_USD : F := nofZ 25000.
Definition default_settings : PDTSettings F :=
  {| enabled := true; equity_threshold_usd := FINRA_EQUITY_THRESHOLD_USD;
     max_day_trades := (FINRA_DAY_TRADE_LIMIT - 1)%Z |}.

Definition committed (t : DayTradeTracker) (today : Z) : Z :=
  (_count_locked t today + open_today t today)%Z.

Definition check_entry (s : PDTSettings F) (equity : option F) (today : Z) (t : DayTradeTracker)
    : PDTDecision F :=
  if negb (enabled s) then
    {| allowed := true; pdt_reason := "pdt_disabled"; pd_day_trades_used := 0;
       pd_day_trades_remaining := 0; pd_equity := equity; pd_open_today := 0 |}
  else
    let used := _count_locked t today in
    let opened := open_today t today in
    let remaining := Z.max 0 (max_day_trades s - committed t today) in
    let above := match equity with Some e => e >=? equity_threshold_usd s | None => false end in
    if above then
      {| allowed := true; pdt_reason := "above_pdt_equity_threshold"; pd_day_trades_used := used;
         pd_day_trades_remaining := remaining; pd_equity := equity; pd_open_today := opened |}
    else if (max_day_trades s <=? committed t today)%Z then
      {| allowed := false;
         pdt_reason := "pdt_day_trade_limit (" +:+ str_of_Z used +:+ " taken" +:+
           (if (opened =? 0)%Z then "" else " + " +:+ str_of_Z opened +:+ " open today") +:+
           " of " +:+ str_of_Z (max_day_trades s) +:+ " in " +:+
           str_of_Z (Z.of_nat ROLLING_SESSIONS) +:+ " sessions)";
         pd_day_trades_used := used; pd_day_trades_remaining := 0; pd_equity := equity;
         pd_open_today := opened |}
    else
      {| allowed := true; pdt_reason := "within_day_trade_budget"; pd_day_trades_used := used;
         pd_day_trades_remaining := remaining; pd_equity := equity; pd_open_today := opened |}.
End guard.

(** ** The window *)

(** Business days in the [n] days before [t]. *)
Fixpoint business_before (t : Z) (n : nat) : nat :=
  match n with
  | O => 0
  | S n => ((if is_business (t - 1) then 1 else 0) + business_before (t - 1) n)%nat
  end.

Lemma business_before_pos t n : (n <> 0)%nat -> is_business (t - Z.of_nat n) = true ->
  (1 <= business_before t n)%nat.
Proof.
  revert t. induction n as [|n IH]; intros t Hn Hb; [lia|]. cbn.
  destruct n as [|n]; [change (Z.of_nat 1) with 1 in Hb; rewrite Hb; lia|].
  specialize (IH (t - 1) ltac:(lia)). replace (t - 1 - Z.of_nat (S n)) with (t - Z.of_nat (S (S n))) in IH by lia.
  specialize (IH Hb). lia.
Qed.

Lemma window_back_spec fuel cursor k l d : window_back fuel cursor k = Some l ->
  d ∈ l <-> d <= cursor /\ is_business d = true /\
            (business_before (cursor + 1) (Z.to_nat (cursor + 1 - d)) <= k)%nat.
Proof.
  assert (forall l, @Some (list Z) [] = Some l ->
    d ∈ l <-> d <= cursor /\ is_business d = true /\
              (business_before (cursor + 1) (Z.to_nat (cursor + 1 - d)) <= 0)%nat) as Hnil.
  { intros l' [= <-]. split; [by intros ?%elem_of_nil|]. intros (Hd & Hb & Hc).
    assert (1 <= business_before (cursor + 1) (Z.to_nat (cursor + 1 - d)))%nat; [|lia].
    apply business_before_pos; [lia|]. by replace (cursor + 1 - Z.of_nat (Z.to_nat (cursor + 1 - d))) with d by lia. }
  revert cursor k l Hnil. induction fuel as [|fuel IH]; intros cursor [|k] l Hnil H; cbn in H; [by apply Hnil|done|by apply Hnil|].
  assert (forall l, @Some (list Z) [] = Some l ->
    d ∈ l <-> d <= cursor - 1 /\ is_business d = true /\
              (business_before (cursor - 1 + 1) (Z.to_nat (cursor - 1 + 1 - d)) <= 0)%nat) as Hnil'.
  { intros l' [= <-]. split; [by intros ?%elem_of_nil|]. intros (Hd & Hb & Hc).
    assert (1 <= business_before (cursor - 1 + 1) (Z.to_nat (cursor - 1 + 1 - d)))%nat; [|lia].
    apply business_before_pos; [lia|]. by replace (cursor - 1 + 1 - Z.of_nat (Z.to_nat (cursor - 1 + 1 - d))) with d by lia. }
  assert (forall d, d <= cursor -> business_before (cursor + 1) (Z.to_nat (cursor + 1 - d)) =
    ((if is_business cursor then 1 else 0) + business_before cursor (Z.to_nat (cursor - d)))%nat) as Hbb.
  { intros e He. replace (Z.to_nat (cursor + 1 - e)) with (S (Z.to_nat (cursor - e))) by lia.
    cbn. by replace (cursor + 1 - 1) with cursor by lia. }
  destruct (is_business cursor) eqn:Eb.
  - destruct (window_back fuel (cursor - 1) k) as [l'|] eqn:El; [|done]. injection H as <-.
    specialize (IH _ _ _ Hnil' El). rewrite elem_of_cons, IH. replace (cursor - 1 + 1) with cursor by lia.
    split.
    + intros [->|(Hd & Hb & Hc)].
      * split_and!; [lia|done|]. rewrite Hbb by lia. replace (Z.to_nat (cursor - cursor)) with 0%nat by lia. cbn [business_before]. lia.
      * split_and!; [lia|done|]. rewrite Hbb by lia. lia.
    + intros (Hd & Hb & Hc). destruct (decide (d = cursor)); [by left|right].
      split_and!; [lia|done|]. rewrite Hbb in Hc by lia. lia.
  - specialize (IH _ _ _ Hnil' H). rewrite IH. replace (cursor - 1 + 1) with cursor by lia. split.
    + intros (Hd & Hb & Hc). split_and!; [lia|done|]. rewrite Hbb by lia. lia.
    + intros (Hd & Hb & Hc). assert (d <> cursor) by congruence. split_and!; [lia|done|].
      rewrite Hbb in Hc by lia. lia.
Qed.

Lemma window_back_mono fuel fuel' cursor k l : (fuel <= fuel')%nat ->
  window_back fuel cursor k = Some l -> window_back fuel' cursor k = Some l.
Proof.
  revert fuel' cursor k l. induction fuel as [|fuel IH]; intros [|fuel'] cursor [|k] l Hf H; cbn in *; try done; [lia|].
  destruct (is_business cursor).
  - destruct (window_back fuel (cursor - 1) k) eqn:E; [|done]. by rewrite (IH fuel' _ _ _ ltac:(lia) E).
  - by apply IH; [lia|].
Qed.

Lemma business_soon d : is_business d = true \/ is_business (d - 1) = true \/ is_business (d - 2) = true.
Proof. unfold is_business, weekday. rewrite !Z.ltb_lt. Z.to_euclidean_division_equations. lia. Qed.

Lemma window_back_total k cursor : exists l, window_back (7 * k) cursor k = Some l /\ length l = k.
Proof.
  revert cursor. induction k as [|k IH]; intros cursor; [by exists []|].
  assert (forall c, is_business c = true -> forall fuel, (7 * k + 1 <= fuel)%nat ->
    exists l, window_back fuel c (S k) = Some l /\ length l = S k) as Hb.
  { intros c Hc [|fuel] Hf; [lia|]. destruct (IH (c - 1)) as (l & E & El). exists (c :: l). cbn.
    rewrite Hc, (window_back_mono (7 * k) fuel _ _ _ ltac:(lia) E). cbn. by rewrite El. }
  assert (forall c fuel, is_business c = false -> window_back (S fuel) c (S k) = window_back fuel (c - 1) (S k)) as Hn
    by (intros c fuel Hc; cbn; by rewrite Hc).
  replace (7 * S k)%nat with (S (S (7 * k + 5))) by lia.
  destruct (is_business cursor) eqn:E0; [apply Hb; [done|lia]|]. rewrite Hn by done.
  destruct (is_business (cursor - 1)) eqn:E1; [apply Hb; [done|lia]|]. rewrite Hn by done.
  destruct (business_soon cursor) as [?|[?|E2]]; try congruence.
  replace (cursor - 1 - 1) with (cursor - 2) by lia. apply Hb; [done|lia].
Qed.

Lemma elem_of_window d today n : (1 <= n)%nat ->
  d ∈ business_window today n <-> d = today \/ d < today /\ is_business d = true /\
    (business_before today (Z.to_nat (today - d)) <= n - 1)%nat.
Proof.
  intros Hn. unfold business_window, window_fuel.
  destruct (window_back_total (n - 1) (today - 1)) as (l & E & _).
  rewrite (window_back_mono (7 * (n - 1)) (7 * n) _ _ _ ltac:(lia) E). cbn [default].
  change (Datatypes.id l) with l. rewrite elem_of_cons, (window_back_spec _ _ _ _ d E).
  replace (today - 1 + 1) with today by lia.
  split; (intros [->|(H1 & H2 & H3)]; [by left|right]); (split_and!; [lia|done|done]).
Qed.

Lemma length_window today n : (1 <= n)%nat -> length (business_window today n) = n.
Proof.
  intros Hn. unfold business_window, window_fuel.
  destruct (window_back_total (n - 1) (today - 1)) as (l & E & El).
  rewrite (window_back_mono (7 * (n - 1)) (7 * n) _ _ _ ltac:(lia) E). cbn. change (Datatypes.id l) with l. lia.
Qed.

Lemma business_before_app t a b :
  business_before t (a + b) = (business_before t a + business_before (t - Z.of_nat a) b)%nat.
Proof.
  revert t. induction a as [|a IH]; intros t; cbn [business_before Nat.add]; [by rewrite Z.sub_0_r|].
  rewrite IH. replace (t - 1 - Z.of_nat a) with (t - Z.of_nat (S a)) by lia. lia.
Qed.

(** As time passes the window only forgets what is already past. *)
Lemma window_forgets d today later n : (1 <= n)%nat -> today <= later -> d <= today ->
  d ∈ business_window later n -> d ∈ business_window today n.
Proof.
  intros Hn Hl Hd. rewrite !elem_of_window by done. intros [->|(H1 & H2 & H3)]; [left; lia|].
  destruct (decide (d = today)); [by left|right]. split_and!; [lia|done|].
  replace (Z.to_nat (later - d)) with (Z.to_nat (later - today) + Z.to_nat (today - d))%nat in H3 by lia.
  rewrite business_before_app in H3. replace (later - Z.of_nat (Z.to_nat (later - today))) with today in H3 by lia. lia.
Qed.

Lemma window_grows d today n m : (1 <= n <= m)%nat -> d ∈ business_window today n -> d ∈ business_window today m.
Proof.
  intros Hn. rewrite !elem_of_window by lia. intros [->|(H1 & H2 & H3)]; [by left|right]. split_and!; [done..|lia].
Qed.

(** ** The budget *)

Lemma in_days_spec window d : in_days window d = true <-> d ∈ window.
Proof.
  unfold in_days. rewrite existsb_exists. split.
  - intros (x & Hx & ->%Z.eqb_eq). by apply list_elem_of_In.
  - intros Hd. exists d. split; [by apply list_elem_of_In|apply Z.eqb_refl].
Qed.

Definition used_in (window : list Z) (d : Counts) : Z :=
  zsum (map snd (List.filter (fun e => in_days window (fst e)) d)).

Definition counts_ok (today : Z) (d : Counts) : Prop := Forall (fun e => fst e <= today /\ 0 <= snd e) d.

Lemma used_in_cons window k n d :
  used_in window ((k, n) :: d) = (if in_days window k then n else 0) + used_in window d.
Proof. unfold used_in. cbn. by destruct (in_days window k). Qed.

Lemma used_add_day window today d :
  used_in window (add_day today d) = used_in window d + (if in_days window today then 1 else 0).
Proof.
  induction d as [|[k n] d IH]; cbn [add_day]; [rewrite used_in_cons; apply Z.add_comm|].
  destruct (Z.eqb_spec today k) as [->|]; rewrite !used_in_cons; [destruct (in_days window k); lia|]. rewrite IH. lia.
Qed.

Lemma counts_add_day today d : counts_ok today d -> counts_ok today (add_day today d).
Proof.
  induction 1 as [|[k n] d [Hk Hn] Hd IH]; cbn [add_day]; [constructor; [cbn; lia|constructor]|].
  cbn in *. destruct (Z.eqb_spec today k) as [->|]; (constructor; [cbn; lia|done]).
Qed.

Lemma used_prune window today d : (forall x, x ∈ window -> x ∈ business_window today (ROLLING_SESSIONS * 3)) ->
  used_in window (_prune_locked d today) = used_in window d.
Proof.
  intros Hw. unfold _prune_locked. induction d as [|[k n] d IH]; [done|]. cbn [List.filter fst].
  destruct (in_days (business_window today _) k) eqn:E; rewrite !used_in_cons; [by rewrite IH|].
  destruct (in_days window k) eqn:E'; [|by rewrite IH].
  apply in_days_spec, Hw, in_days_spec in E'. congruence.
Qed.

Lemma counts_prune today now d : counts_ok today d -> counts_ok today (_prune_locked d now).
Proof.
  unfold counts_ok. rewrite !Forall_forall. intros H e [He _]%elem_of_filter_b. by apply H.
Qed.

Lemma used_later today later d : counts_ok today d -> today <= later ->
  used_in (business_window later ROLLING_SESSIONS) d <= used_in (business_window today ROLLING_SESSIONS) d.
Proof.
  intros Hd Hl. induction Hd as [|[k n] d [Hk Hn] Hd IH]; [apply Z.le_refl|].
  rewrite !used_in_cons. cbn [fst snd] in *. destruct (in_days (business_window later _) k) eqn:E.
  - assert (in_days (business_window today ROLLING_SESSIONS) k = true) as ->; [|lia].
    apply in_days_spec. apply in_days_spec in E. eapply window_forgets; try done. unfold ROLLING_SESSIONS. lia.
  - destruct (in_days (business_window today _) k); lia.
Qed.

Lemma used_nonneg window today d : counts_ok today d -> 0 <= used_in window d.
Proof.
  induction 1 as [|[k n] d [_ Hn] _ IH]; [apply Z.le_refl|]. rewrite used_in_cons. cbn [fst snd] in *.
  destruct (in_days window k); lia.
Qed.

(** *** Positions open this session *)

Definition opened_on (today : Z) (o : Sessions) : Z :=
  Z.of_nat (length (List.filter (fun e => snd e =? today) o)).

Lemma opened_on_cons today k v o :
  opened_on today ((k, v) :: o) = (if v =? today then 1 else 0) + opened_on today o.
Proof. unfold opened_on. cbn. destruct (v =? today); cbn [length]; lia. Qed.

Lemma opened_on_set today k o : dict_get k o = None ->
  opened_on today (dict_set k today o) = opened_on today o + 1.
Proof.
  induction o as [|[k' v] o IH]; cbn [dict_get dict_set]; [by rewrite opened_on_cons, Z.eqb_refl|].
  destruct (String.eqb k k'); [done|]. intros H. rewrite !opened_on_cons, IH by done. lia.
Qed.

Lemma opened_on_pop today k o : NoDup (dict_keys o) ->
  opened_on today (dict_pop k o) =
    opened_on today o - (match dict_get k o with Some d => if d =? today then 1 else 0 | None => 0 end).
Proof.
  unfold dict_keys. induction o as [|[k' v] o IH]; [done|]. cbn [map fst]. intros [Hk Hn]%NoDup_cons.
  cbn [dict_pop dict_get]. destruct (String.eqb_spec k k') as [->|Hne].
  - rewrite opened_on_cons. lia.
  - rewrite !opened_on_cons, IH by done. lia.
Qed.

Lemma opened_on_later today later o : Forall (fun e => snd e <= today) o -> today < later -> opened_on later o = 0.
Proof.
  induction 1 as [|[k v] o Hv _ IH]; intros Hl; [done|]. rewrite opened_on_cons, IH by done. cbn in *.
  destruct (Z.eqb_spec v later); lia.
Qed.

(** ** Runs: entries asked for, closes, nights and restarts *)

Inductive Event (F : Type) :=
| Entry (symbol : string) (equity : option F)
| Close (symbol : string)
| Sleep (days : nat)
| Restart.
Arguments Entry {F} symbol equity. Arguments Close {F} symbol. Arguments Sleep {F} days.
Arguments Restart {F}.

(** The tracker, the session, and the sessions of every day trade taken so far. *)
Record Account := {
  tracker : DayTradeTracker;
  today : Z;
  taken : list Z
}.

Definition step {F} `{PyFloat F} (s : PDTSettings F) (a : Account) (e : Event F) : Account :=
  match e with
  | Entry symbol equity =>
      if allowed (check_entry s equity (today a) (tracker a))
      then {| tracker := record_open symbol (today a) true (tracker a); today := today a; taken := taken a |}
      else a
  | Close symbol =>
      let '(is_day_trade, t) := record_close symbol (today a) true (tracker a) in
      {| tracker := t; today := today a;
         taken := if is_day_trade then today a :: taken a else taken a |}
  | Sleep days => {| tracker := tracker a; today := today a + Z.of_nat days; taken := taken a |}
  | Restart => {| tracker := _load (saved (tracker a)) (today a); today := today a; taken := taken a |}
  end.

Definition taken_in (window log : list Z) : Z := Z.of_nat (length (List.filter (in_days window) log)).

(** What holds of the two dicts on a session, given the day trades that were taken. *)
Record budget_ok (limit today : Z) (log : list Z) (o : Sessions) (d : Counts) : Prop := {
  bo_keys : NoDup (dict_keys o);
  bo_upper : Forall (fun e => upper (fst e) = fst e /\ snd e <= today) o;
  bo_counts : counts_ok today d;
  bo_log : forall later, today <= later ->
    used_in (business_window later ROLLING_SESSIONS) d = taken_in (business_window later ROLLING_SESSIONS) log;
  bo_budget : used_in (business_window today ROLLING_SESSIONS) d + opened_on today o <= limit
}.

Lemma used_prune_later today later d : counts_ok today d -> today <= later ->
  used_in (business_window later ROLLING_SESSIONS) (_prune_locked d today) =
    used_in (business_window later ROLLING_SESSIONS) d.
Proof.
  intros Hd Hl. unfold _prune_locked. induction Hd as [|[k n] d [Hk _] Hd IH]; [done|]. cbn [List.filter fst].
  destruct (in_days (business_window today (ROLLING_SESSIONS * 3)) k) eqn:E; rewrite !used_in_cons; [by rewrite IH|].
  destruct (in_days (business_window later _) k) eqn:E'; [|by rewrite IH].
  assert (in_days (business_window today (ROLLING_SESSIONS * 3)) k = true); [|congruence].
  apply in_days_spec. apply in_days_spec in E'. apply (window_grows _ _ ROLLING_SESSIONS); [unfold ROLLING_SESSIONS; lia|].
  eapply window_forgets; try done. unfold ROLLING_SESSIONS. lia.
Qed.

Lemma budget_prune limit today log o d : budget_ok limit today log o d ->
  budget_ok limit today log o (_prune_locked d today).
Proof.
  intros [H1 H2 H3 H4 H5]. split; [done|done|by apply counts_prune| |].
  - intros later Hl. rewrite used_prune_later by done. auto.
  - by rewrite used_prune_later.
Qed.

Lemma budget_later limit today later log o d : budget_ok limit today log o d -> today <= later ->
  budget_ok limit later log o d.
Proof.
  intros [H1 H2 H3 H4 H5] Hl. split; [done| | | |].
  - eapply Forall_impl; [done|]. cbn. intros e [? ?]. split; [done|lia].
  - eapply Forall_impl; [done|]. cbn. intros e [? ?]. split; lia.
  - intros l' Hl'. apply H4. lia.
  - pose proof (used_later today later d H3 Hl). destruct (decide (today = later)) as [->|]; [done|].
    rewrite (opened_on_later today later); [| |lia].
    + pose proof (Nat2Z.is_nonneg (length (List.filter (fun e => snd e =? today) o))).
      unfold opened_on in H5. lia.
    + eapply Forall_impl; [done|]. cbn. tauto.
Qed.

Lemma dict_set_elem_upper k v (o : Sessions) today : upper k = k -> v <= today ->
  Forall (fun e => upper (fst e) = fst e /\ snd e <= today) o ->
  Forall (fun e => upper (fst e) = fst e /\ snd e <= today) (dict_set k v o).
Proof.
  rewrite !Forall_forall. intros Hk Hv Ho e [->|He]%dict_set_elem; [done|by apply Ho].
Qed.

Lemma budget_open limit today log o d k : budget_ok limit today log o d -> upper k = k ->
  dict_get k o = None -> used_in (business_window today ROLLING_SESSIONS) d + opened_on today o < limit ->
  budget_ok limit today log (dict_set k today o) d.
Proof.
  intros [H1 H2 H3 H4 H5] Hk Hg Hb. split; [by apply dict_nodup_set|by apply dict_set_elem_upper|done|done|].
  rewrite opened_on_set by done. lia.
Qed.

Lemma taken_in_cons window x log :
  taken_in window (x :: log) = (if in_days window x then 1 else 0) + taken_in window log.
Proof. unfold taken_in. cbn. destruct (in_days window x); cbn [length]; lia. Qed.

Lemma today_in_window today n : in_days (business_window today n) today = true.
Proof. apply in_days_spec. by left. Qed.

Lemma budget_close limit today log o d k : budget_ok limit today log o d ->
  let traded := match dict_get k o with Some v => v =? today | None => false end in
  budget_ok limit today (if traded then today :: log else log) (dict_pop k o)
    (if traded then add_day today d else d).
Proof.
  intros [H1 H2 H3 H4 H5] traded. split.
  - by apply dict_nodup_pop.
  - rewrite !Forall_forall in *. intros e He%dict_pop_elem. by apply H2.
  - destruct traded; [by apply counts_add_day|done].
  - intros later Hl. destruct traded; [|by apply H4]. rewrite used_add_day, taken_in_cons, H4 by done. lia.
  - rewrite opened_on_pop by done.
    assert ((match dict_get k o with Some v => if v =? today then 1 else 0 | None => 0 end) =
      if traded then 1 else 0) as -> by (unfold traded; by destruct (dict_get k o)).
    destruct traded; [|lia]. rewrite used_add_day, today_in_window. lia.
Qed.

(** Loading a dict whose keys are already upper case gives it back. *)
Lemma load_same (o : Sessions) :
  NoDup (dict_keys o) -> Forall (fun e => upper (fst e) = fst e) o ->
  foldl (fun acc '(k, v) => dict_set (upper k) v acc) [] o = o.
Proof.
  intros Hn Hu. assert (forall acc, NoDup (dict_keys (acc ++ o)) ->
    foldl (fun acc '(k, v) => dict_set (upper k) v acc) acc o = acc ++ o) as H; [|by apply H].
  clear Hn. induction Hu as [|[k v] o Hk Hu IH]; intros acc Hn; cbn; [by rewrite app_nil_r|]. cbn in Hk. rewrite Hk.
  assert (dict_set k v acc = acc ++ [(k, v)]) as ->.
  { unfold dict_keys in Hn. rewrite map_app in Hn. cbn in Hn.
    apply NoDup_app in Hn as (_ & Hd & _). clear IH. induction acc as [|[k' v'] acc IHa]; [done|]. cbn in *.
    destruct (String.eqb_spec k k') as [->|].
    - exfalso. apply (Hd k'); [by left|by left].
    - rewrite IHa; [done|]. intros x Hx. apply Hd. by right. }
  rewrite IH; [by rewrite <- app_assoc|]. by rewrite <- app_assoc.
Qed.

(** What holds of a tracker and of what it would load. *)
Definition account_ok (limit : Z) (a : Account) : Prop :=
  budget_ok limit (today a) (taken a) (_open_sessions (tracker a)) (_day_trades (tracker a)) /\
  match saved (tracker a) with
  | Some (o, d) => budget_ok limit (today a) (taken a) o d
  | None => taken a = []
  end.

Lemma no_trades_ok limit today : 0 <= limit -> budget_ok limit today [] [] [].
Proof. intros. split; [constructor|constructor|constructor|done|]. unfold used_in, opened_on, zsum. cbn [List.filter map foldr length]. lia. Qed.

Definition below {F} `{PyFloat F} (s : PDTSettings F) (e : Event F) : Prop :=
  match e with
  | Entry _ (Some equity) => nleb (equity_threshold_usd s) equity = false
  | _ => True
  end.

Lemma committed_budget t now :
  committed t now = used_in (business_window now ROLLING_SESSIONS) (_day_trades t) + opened_on now (_open_sessions t).
Proof. done. Qed.

Lemma entry_allowed {F} `{PyFloat F} (s : PDTSettings F) equity symbol now t :
  enabled s = true -> below s (Entry symbol equity) -> allowed (check_entry s equity now t) = true ->
  committed t now < max_day_trades s.
Proof.
  intros He Hb. unfold check_entry. rewrite He. cbn [negb]. cbn [below] in Hb.
  assert ((match equity with Some e => nleb (equity_threshold_usd s) e | None => false end) = false) as ->
    by by destruct equity.
  destruct (Z.leb_spec (max_day_trades s) (committed t now)); cbn; [done|]. done.
Qed.

Lemma step_ok {F} `{PyFloat F} (s : PDTSettings F) a e : enabled s = true -> 0 <= max_day_trades s ->
  below s e -> account_ok (max_day_trades s) a -> account_ok (max_day_trades s) (step s a e).
Proof.
  intros He Hm Hb [Hcur Hfile]. destruct e as [symbol equity|symbol|days|]; cbn [step].
  - destruct (allowed _) eqn:Ea; [|done]. apply (entry_allowed s equity symbol) in Ea; [|done..].
    rewrite committed_budget in Ea. unfold account_ok, record_open, _save. cbn [tracker today taken _open_sessions _day_trades saved].
    destruct (dict_get _ _) eqn:Eg; [done|]. cbn [_open_sessions _day_trades with_open].
    assert (budget_ok (max_day_trades s) (today a) (taken a)
      (dict_set (upper symbol) (today a) (_open_sessions (tracker a))) (_day_trades (tracker a))) as Hnew
      by (apply budget_open; [done|apply upper_idemp|done|done]).
    by split.
  - unfold record_close. cbv zeta. unfold account_ok, _save.
    set (k := upper symbol). set (traded := match dict_get k _ with Some d => _ | None => false end).
    pose proof (budget_prune _ _ _ _ _ (budget_close _ _ _ _ _ k Hcur)) as Hnew. fold traded in Hnew. cbv zeta in Hnew.
    destruct traded; cbn [tracker today taken _open_sessions _day_trades saved with_open with_trades] in *; by split.
  - unfold account_ok. cbn [tracker today taken]. split; [apply (budget_later _ (today a)); [done|lia]|].
    destruct (saved (tracker a)) as [[o d]|]; [|done]. apply (budget_later _ (today a)); [done|lia].
  - unfold account_ok. cbn [tracker today taken]. destruct (saved (tracker a)) as [[o d]|] eqn:Es; cbn [_load _open_sessions _day_trades saved].
    + split; [|done]. rewrite load_same; [by apply budget_prune|apply Hfile|].
      eapply Forall_impl; [apply Hfile|]. cbn. tauto.
    + split; [|done]. rewrite Hfile. by apply no_trades_ok.
Qed.

(** The guard keeps its one promise: an account under the threshold that asks before every entry
    never has more day trades in five sessions than it may take, however many of its
    positions are closed the same session, across nights and restarts. *)
Theorem day_trade_budget_holds {F} `{PyFloat F} (s : PDTSettings F) (day0 : Z) (events : list (Event F)) :
  enabled s = true -> 0 <= max_day_trades s -> Forall (below s) events ->
  let a := foldl (step s) {| tracker := _load None day0; today := day0; taken := [] |} events in
  taken_in (business_window (today a) ROLLING_SESSIONS) (taken a) + open_today (tracker a) (today a)
    <= max_day_trades s.
Proof.
  intros He Hm Hb.
  assert (account_ok (max_day_trades s) {| tracker := _load None day0; today := day0; taken := [] |}) as H0.
  { split; [by apply no_trades_ok|done]. }
  revert H0. generalize {| tracker := _load None day0; today := day0; taken := [] |}.
  induction Hb as [|e events Hbe Hb IH]; intros a Ha; cbn [foldl]; [|by apply IH, step_ok].
  destruct Ha as [[_ _ _ Hl Hbud] _]. rewrite <- Hl by lia. exact Hbud.
Qed.

(** ** Concrete accounts *)

Module Pdt.
Definition settings : PDTSettings spec_float := default_settings.
(** A Monday. *)
Definition monday : Z := 738886.
Definition busy : list (Event spec_float) :=
  [Entry "msft" None; Close "MSFT"; Entry "AAPL" (Some (nofZ 9000)); Entry "NVDA" None; Entry "TSLA" None;
   Close "AAPL"; Restart; Close "NVDA"; Sleep 1; Entry "AMD" None; Sleep 6; Entry "AMD" None; Close "AMD"].
End Pdt.

Lemma day_trade_budget_holds_witness :
  let a := foldl (step Pdt.settings) {| tracker := _load None Pdt.monday; today := Pdt.monday; taken := [] |} Pdt.busy in
  length (taken a) = 4%nat /\
  taken_in (business_window (today a) ROLLING_SESSIONS) (taken a) + open_today (tracker a) (today a) <= 3.
Proof.
  split; [vm_compute; reflexivity|].
  apply (day_trade_budget_holds Pdt.settings Pdt.monday Pdt.busy); [reflexivity|vm_compute; discriminate|].
  repeat constructor.
Defined.

(** The open positions are keyed by symbol: two sleeves that open and close the same
    symbol in a session take two day trades, and one is counted. *)
Lemma shared_symbol_is_counted_once :
  let t := record_open "MSFT" Pdt.monday true (record_open "MSFT" Pdt.monday true (_load None Pdt.monday)) in
  let '(first, t) := record_close "MSFT" Pdt.monday true t in
  let '(second, t) := record_close "MSFT" Pdt.monday true t in
  (first, second, _count_locked t Pdt.monday) = (true, false, 1).
Proof. vm_compute. reflexivity. Qed.

(** A position held over night and added to keeps its first session: bought and sold the
    same day, it is not counted. *)
Lemma added_position_is_not_counted :
  let t := record_open "MSFT" Pdt.monday true (_load None Pdt.monday) in
  let t := record_open "MSFT" (Pdt.monday + 1) true t in
  fst (record_close "MSFT" (Pdt.monday + 1) true t) = false.
Proof. vm_compute. reflexivity. Qed.
