(* ===== verification/Monitors.v ===== *)
(** * Stop-loss and take-profit monitors

    Models [services/autonomy-orchestrator/src/autonomy_orchestrator/stop_loss_monitor.py]
    and [take_profit_monitor.py], and what [main.py] there does with them: registering the
    protection of a fill, and booking what a check has closed. The two monitors are one
    section over a class of risk records. An exit is a request to the execution service,
    awaited: other tasks may register and remove protection meanwhile, and the request,
    the price read and the write of the state file may each fail. Shown: protection is
    kept per position and survives a restart, a stop is dropped only when its exit was
    confirmed, and a registered stop and target lie on the two sides of the entry, so that
    what fires books a loss or a gain. *)

From S2P Require Import PyFloat Store Indicators DayTrade Prelude.
From Stdlib Require Import Ascii Floats.SpecFloat QArith Qabs Lqa.
Local Close Scope Q_scope.

(** ** Records *)

Record StopLossRecord (F : Type) := {
  ss_symbol : string;
  ss_entry_price : F;
  stop_price : F;
  ss_position_id : string;
  ss_qty : F;
  ss_side : string;
  ss_strategy_id : string;
  ss_account_id : string;
  ss_created_at : datetime
}.
Arguments ss_symbol {F}. Arguments ss_entry_price {F}. Arguments stop_price {F}.
Arguments ss_position_id {F}. Arguments ss_qty {F}. Arguments ss_side {F}.
Arguments ss_strategy_id {F}. Arguments ss_account_id {F}. Arguments ss_created_at {F}.

Record TakeProfitRecord (F : Type) := {
  tp_symbol : string;
  tp_entry_price : F;
  target_price : F;
  tp_position_id : string;
  tp_qty : F;
  tp_side : string;
  tp_strategy_id : string;
  target_gain_usd : F;
  tp_account_id : string;
  tp_created_at : datetime
}.
Arguments tp_symbol {F}. Arguments tp_entry_price {F}. Arguments target_price {F}.
Arguments tp_position_id {F}. Arguments tp_qty {F}. Arguments tp_side {F}.
Arguments tp_strategy_id {F}. Arguments target_gain_usd {F}. Arguments tp_account_id {F}.
Arguments tp_created_at {F}.

(** What a monitor reads of a record, and the price at which it acts. *)
Class RiskRecord (F R : Type) := {
  rr_symbol : R -> string;
  rr_entry_price : R -> F;
  rr_position_id : R -> string;
  rr_qty : R -> F;
  rr_side : R -> string;
  rr_strategy_id : R -> string;
  rr_account_id : R -> string;
  rr_reached : R -> F -> bool
}.
Arguments rr_entry_price {F R _}. Arguments rr_qty {F R _}. Arguments rr_reached {F R _}.
Arguments rr_symbol F {R _}. Arguments rr_position_id F {R _}. Arguments rr_side F {R _}.
Arguments rr_strategy_id F {R _}. Arguments rr_account_id F {R _}.

Definition is_sell (side : string) : bool := String.eqb (upper side) "SELL".

Definition breached {F} `{PyFloat F} (r : StopLossRecord F) (price : F) : bool :=
  if is_sell (ss_side r) then nleb (stop_price r) price else nleb price (stop_price r).
Definition reached {F} `{PyFloat F} (r : TakeProfitRecord F) (price : F) : bool :=
  if is_sell (tp_side r) then nleb price (target_price r) else nleb (target_price r) price.

#[export] Instance stop_loss_record {F} `{PyFloat F} : RiskRecord F (StopLossRecord F) :=
  {| rr_symbol := ss_symbol; rr_entry_price := ss_entry_price; rr_position_id := ss_position_id;
     rr_qty := ss_qty; rr_side := ss_side; rr_strategy_id := ss_strategy_id;
     rr_account_id := ss_account_id; rr_reached := breached |}.
#[export] Instance take_profit_record {F} `{PyFloat F} : RiskRecord F (TakeProfitRecord F) :=
  {| rr_symbol := tp_symbol; rr_entry_price := tp_entry_price; rr_position_id := tp_position_id;
     rr_qty := tp_qty; rr_side := tp_side; rr_strategy_id := tp_strategy_id;
     rr_account_id := tp_account_id; rr_reached := reached |}.

(** ** Keys: [json.dumps] of a list of strings, with the compact separators *)

Definition hex4 (n : nat) : string :=
  "00" +:+ String (hex_digit (n / 16)) (String (hex_digit (n mod 16)) "").
Definition quote_char : ascii := ascii_of_nat 34.
Definition backslash : ascii := ascii_of_nat 92.

(** [ensure_ascii]: printable ASCII as it is, the short escapes, [\u00xx] for the rest. *)
Definition json_char (a : ascii) : string :=
  let n := nat_of_ascii a in
  if (n =? 34)%nat || (n =? 92)%nat then String backslash (String a "")
  else if (n =? 10)%nat then String backslash "n"
  else if (n =? 13)%nat then String backslash "r"
  else if (n =? 9)%nat then String backslash "t"
  else if (n =? 12)%nat then String backslash "f"
  else if (n =? 8)%nat then String backslash "b"
  else if (32 <=? n)%nat && (n <=? 126)%nat then String a ""
  else String backslash ("u" +:+ hex4 n).
Fixpoint json_chars (s : string) : string :=
  match s with
  | EmptyString => ""
  | String a s => json_char a +:+ json_chars s
  end.
Definition json_quote (s : string) : string :=
  String quote_char (json_chars s +:+ String quote_char "").
Definition json_list (l : list string) : string := "[" +:+ join "," (map json_quote l) +:+ "]".

(** [risk_record_key] of the four fields. *)
Definition key_of (symbol strategy_id account_id position_id : string) : string :=
  if negb (str_true strategy_id) then upper symbol
  else json_list [str_or account_id "default"; strategy_id; upper symbol; position_id].

Section monitor.
Context {F : Type} `{HF : PyFloat F} {R : Type} `{HR : !RiskRecord F R}.
Notation symbol_of := (rr_symbol F).

Definition risk_record_key (r : R) : string :=
  key_of (symbol_of r) (rr_strategy_id F r) (rr_account_id F r) (rr_position_id F r).

(** ** The monitor and its state file *)

Inductive StateFile :=
| NoPath
| Missing
| Unreadable
| Saved (rows : list (string * R)).

Record Monitor := {
  tracked : list (string * R);
  state_file : StateFile
}.

(** The key of a stored row: a scoped one as it is, a symbol in upper case. *)
Definition stored_key (key : string) : string :=
  if String.prefix "[" key then key else upper key.

Definition load_records (f : StateFile) : list (string * R) :=
  match f with
  | Saved rows => foldl (fun d '(k, r) => dict_set (stored_key k) r d) [] rows
  | _ => []
  end.

(** Write, then rename: a write that fails leaves the file there was. *)
Definition save_records (ok : bool) (m : Monitor) : Monitor :=
  {| tracked := tracked m;
     state_file := match state_file m with
                   | NoPath => NoPath
                   | f => if ok then Saved (tracked m) else f
                   end |}.

(** A new process, over the file the last one left. *)
Definition start (f : StateFile) : Monitor := {| tracked := load_records f; state_file := f |}.

Definition with_tracked (d : list (string * R)) (m : Monitor) : Monitor :=
  {| tracked := d; state_file := state_file m |}.

Definition register (r : R) (ok : bool) (m : Monitor) : Monitor :=
  save_records ok (with_tracked (dict_set (risk_record_key r) r (tracked m)) m).

Definition same_symbol (symbol : string) (r : R) : bool :=
  String.eqb (upper (symbol_of r)) (upper symbol).

Definition get (symbol strategy_id account_id position_id : string) (m : Monitor) : option R :=
  if str_true strategy_id then dict_get (key_of symbol strategy_id account_id position_id) (tracked m)
  else match List.filter (same_symbol symbol) (dict_values (tracked m)) with
       | [r] => Some r
       | _ => None
       end.

(** Without a strategy, every record of the symbol goes. *)
Definition remove (symbol strategy_id account_id position_id : string) (ok : bool) (m : Monitor) : Monitor :=
  save_records ok
    (if str_true strategy_id
     then with_tracked (dict_pop (key_of symbol strategy_id account_id position_id) (tracked m)) m
     else with_tracked (foldl (fun d '(k, r) => if same_symbol symbol r then dict_pop k d else d)
                          (tracked m) (tracked m)) m).

Definition remove_key (key : string) (ok : bool) (m : Monitor) : Monitor :=
  save_records ok (with_tracked (dict_pop key (tracked m)) m).

(** ** check_all *)

(** What other tasks do while an exit is awaited. *)
Inductive Op :=
| Register (r : R) (ok : bool)
| Remove (symbol strategy_id account_id position_id : string) (ok : bool).
Definition perform (op : Op) (m : Monitor) : Monitor :=
  match op with
  | Register r ok => register r ok m
  | Remove symbol strategy_id account_id position_id ok => remove symbol strategy_id account_id position_id ok m
  end.
Definition performs (ops : list Op) (m : Monitor) : Monitor := foldl (fun m op => perform op m) m ops.

(** The price read, the answer of the execution service, and the rest of the world. *)
Inductive Quote := PriceRaised | NoPrice | At (price : F).
Record Turn := {
  quote : Quote;
  exit_confirmed : bool;
  meanwhile : list Op;
  write_ok : bool
}.

(** One record of the snapshot. *)
Definition check_one (acc : list string * Monitor) (e : string * R) (t : Turn) : list string * Monitor :=
  let '(triggered, m) := acc in
  let '(key, record) := e in
  match quote t with
  | At price =>
      if rr_reached record price then
        let m := performs (meanwhile t) m in
        if exit_confirmed t then (triggered ++ [key], remove_key key (write_ok t) m) else (triggered, m)
      else (triggered, m)
  | _ => (triggered, m)
  end.

(** [check_all]: over the records there are at its start, one turn for each. *)
Definition check_all (turns : list Turn) (m : Monitor) : list string * Monitor :=
  foldl (fun acc '(e, t) => check_one acc e t) ([], m) (combine (tracked m) turns).

(** The body of the close request of [_trigger_exit] and [_trigger_close]. *)
Record ClosePayload := {
  cp_symbol : string;
  cp_qty : option F;
  cp_position_id : string;
  cp_strategy_id : string;
  cp_account_id : string
}.
Definition close_payload (r : R) : ClosePayload :=
  {| cp_symbol := symbol_of r; cp_qty := if ntrue (rr_qty r) then Some (rr_qty r) else None;
     cp_position_id := rr_position_id F r; cp_strategy_id := str_or (rr_strategy_id F r) "ema_rsi_macd";
     cp_account_id := rr_account_id F r |}.

(** P&L on a closed position, or None when it cannot be determined. *)
Definition _realized_pnl (record : R) (exit_price : option F) : option F :=
  match exit_price with
  | None => None
  | Some price =>
      let qty := nor (rr_qty record) nzero in
      let entry := nor (rr_entry_price record) nzero in
      if nleb qty nzero || nleb entry nzero then None
      else let direction := if is_sell (rr_side F record) then nopp n_one else n_one in
           Some (nmul (nmul (nsub price entry) qty) direction)
  end.
End monitor.
Arguments StateFile R : clear implicits.
Arguments Monitor R : clear implicits.
Arguments Op R : clear implicits.
Arguments Turn F R : clear implicits.
Arguments Quote F : clear implicits.
Arguments NoPath {R}. Arguments Missing {R}. Arguments Unreadable {R}. Arguments Saved {R}.
Arguments PriceRaised {F}. Arguments NoPrice {F}. Arguments At {F}.

(** ** What the orchestrator does with the monitors *)

Section orchestrator.
Context {F : Type} `{HF : PyFloat F}.
Local Open Scope py_scope.

(** What a fill's order says, the settings read, and a notification. *)
Record FilledOrder := {
  order_entry_price : F;
  order_qty : F;
  external_order_id : string;
  order_id : string
}.
Record Limits := {
  account : string;
  take_profit_target_usd : F;
  monthly_loss_limit_usd : F;
  monthly_profit_target_usd : F
}.
Record RiskState := {
  stop_loss_monitor : option (Monitor (StopLossRecord F));
  take_profit_monitor : option (Monitor (TakeProfitRecord F));
  day_trades : DayTradeTracker;
  monthly_realized_loss_usd : F;
  monthly_realized_profit_usd : F;
  notices : list string
}.

Definition with_monitors sl tp (s : RiskState) : RiskState :=
  {| stop_loss_monitor := sl; take_profit_monitor := tp; day_trades := day_trades s;
     monthly_realized_loss_usd := monthly_realized_loss_usd s;
     monthly_realized_profit_usd := monthly_realized_profit_usd s; notices := notices s |}.
Definition with_days d (s : RiskState) : RiskState :=
  {| stop_loss_monitor := stop_loss_monitor s; take_profit_monitor := take_profit_monitor s;
     day_trades := d; monthly_realized_loss_usd := monthly_realized_loss_usd s;
     monthly_realized_profit_usd := monthly_realized_profit_usd s; notices := notices s |}.
Definition add_loss x (s : RiskState) : RiskState :=
  {| stop_loss_monitor := stop_loss_monitor s; take_profit_monitor := take_profit_monitor s;
     day_trades := day_trades s; monthly_realized_loss_usd := monthly_realized_loss_usd s + x;
     monthly_realized_profit_usd := monthly_realized_profit_usd s; notices := notices s |}.
Definition add_profit x (s : RiskState) : RiskState :=
  {| stop_loss_monitor := stop_loss_monitor s; take_profit_monitor := take_profit_monitor s;
     day_trades := day_trades s; monthly_realized_loss_usd := monthly_realized_loss_usd s;
     monthly_realized_profit_usd := monthly_realized_profit_usd s + x; notices := notices s |}.
Definition notify (what : string) (s : RiskState) : RiskState :=
  {| stop_loss_monitor := stop_loss_monitor s; take_profit_monitor := take_profit_monitor s;
     day_trades := day_trades s; monthly_realized_loss_usd := monthly_realized_loss_usd s;
     monthly_realized_profit_usd := monthly_realized_profit_usd s; notices := notices s ++ [what] |}.

(** [str(order.get("external_order_id") or order.get("order_id") or symbol)] *)
Definition position_of (order : FilledOrder) (symbol : string) : string :=
  str_or (external_order_id order) (str_or (order_id order) symbol).

Definition stop_record (limits : Limits) (symbol : string) (order : FilledOrder)
    (price_bars : list (OHLCVBar F)) (side strategy_id : string) (now : datetime) : StopLossRecord F :=
  let entry_price := order_entry_price order in
  let distance :=
    match price_bars with
    | [] => entry_price * nlit 2 100
    | _ =>
        let atr := compute_atr (map ob_high price_bars) (map ob_low price_bars) (map ob_close price_bars) 14 in
        if atr >? nzero then atr * nofZ 2 else entry_price * nlit 2 100
    end in
  {| ss_symbol := symbol; ss_entry_price := entry_price;
     stop_price := if is_sell side then entry_price + distance else entry_price - distance;
     ss_position_id := position_of order symbol; ss_qty := order_qty order; ss_side := side;
     ss_strategy_id := strategy_id; ss_account_id := account limits; ss_created_at := now |}.

Definition _register_stop_loss (limits : Limits) (symbol : string) (order : FilledOrder)
    (price_bars : list (OHLCVBar F)) (side strategy_id : string) (now : datetime) (ok : bool)
    (s : RiskState) : RiskState :=
  match stop_loss_monitor s with
  | None => s
  | Some m =>
      if order_entry_price order <=? nzero then s
      else with_monitors (Some (register (F := F)
             (stop_record limits symbol order price_bars side strategy_id now) ok m))
             (take_profit_monitor s) s
  end.

Definition target_record (limits : Limits) (symbol : string) (order : FilledOrder)
    (side strategy_id : string) (now : datetime) : TakeProfitRecord F :=
  let entry_price := order_entry_price order in
  let qty := order_qty order in
  let gain_per_share := if qty >? nzero then take_profit_target_usd limits / qty
                        else entry_price * nlit 6 100 in
  {| tp_symbol := symbol; tp_entry_price := entry_price;
     target_price := if is_sell side then entry_price - gain_per_share else entry_price + gain_per_share;
     tp_position_id := position_of order symbol; tp_qty := qty; tp_side := side;
     tp_strategy_id := strategy_id; target_gain_usd := take_profit_target_usd limits;
     tp_account_id := account limits; tp_created_at := now |}.

Definition _register_take_profit (limits : Limits) (symbol : string) (order : FilledOrder)
    (side strategy_id : string) (now : datetime) (ok : bool) (s : RiskState) : RiskState :=
  if order_entry_price order <=? nzero then s else
  match take_profit_monitor s with
  | None => s
  | Some m => with_monitors (stop_loss_monitor s)
      (Some (register (F := F) (target_record limits symbol order side strategy_id now) ok m)) s
  end.

(** [_clear_risk_records]: from both monitors. *)
Definition _clear_risk_records (symbol strategy_id account_id position_id : string) (ok : bool)
    (s : RiskState) : RiskState :=
  let a := str_or account_id "default" in
  with_monitors (remove (F := F) symbol strategy_id a position_id ok <$> stop_loss_monitor s)
    (remove (F := F) symbol strategy_id a position_id ok <$> take_profit_monitor s) s.

(** The second price read of a booking: it may raise, and then the check ends there. *)
Inductive BookQuote := BookRaised | Book (price : option F).

Definition book_stop (limits : Limits) (today : Z) (ok : bool) (record : StopLossRecord F)
    (price : BookQuote) (s : RiskState) : bool * RiskState :=
  let symbol := upper (ss_symbol record) in
  let s := _clear_risk_records (ss_symbol record) (ss_strategy_id record) (ss_account_id record)
             (ss_position_id record) ok s in
  let s := with_days (snd (record_close symbol today ok (day_trades s))) s in
  match price with
  | BookRaised => (false, s)
  | Book p =>
      let s := match _realized_pnl record p with
               | None => s
               | Some realized => add_loss (nmax nzero (- realized)) s
               end in
      let s := notify "stop_loss_triggered" s in
      let s := if monthly_realized_loss_usd s >=? monthly_loss_limit_usd limits * nlit 7 10
               then notify "loss_warning" s else s in
      let s := if monthly_realized_loss_usd s >=? monthly_loss_limit_usd limits
               then notify "loss_limit_hit" s else s in
      (true, s)
  end.

Definition book_target (limits : Limits) (today : Z) (ok : bool) (record : TakeProfitRecord F)
    (price : BookQuote) (s : RiskState) : bool * RiskState :=
  let symbol := upper (tp_symbol record) in
  let s := _clear_risk_records (tp_symbol record) (tp_strategy_id record) (tp_account_id record)
             (tp_position_id record) ok s in
  let s := with_days (snd (record_close symbol today ok (day_trades s))) s in
  match price with
  | BookRaised => (false, s)
  | Book p =>
      let s := match _realized_pnl record p with
               | None => s
               | Some realized => add_profit (nmax nzero realized) s
               end in
      let s := notify "take_profit" s in
      let s := if monthly_realized_profit_usd s >=? monthly_profit_target_usd limits
               then notify "profit_target_hit" s else s in
      (true, s)
  end.

(** The loop over what fired: the records as they were before the check. *)
Fixpoint book_all {R} (book : R -> BookQuote -> RiskState -> bool * RiskState)
    (before : list (string * R)) (triggered : list string) (prices : list BookQuote)
    (s : RiskState) : RiskState :=
  match triggered, prices with
  | key :: triggered, price :: prices =>
      match dict_get key before with
      | None => book_all book before triggered prices s
      | Some record =>
          let '(goes_on, s) := book record price s in
          if goes_on then book_all book before triggered prices s else s
      end
  | _, _ => s
  end.

Definition _run_stop_loss_check (limits : Limits) (today : Z) (ok : bool)
    (turns : list (Turn F (StopLossRecord F))) (prices : list BookQuote) (s : RiskState) : RiskState :=
  match stop_loss_monitor s with
  | None => s
  | Some m =>
      let '(triggered, m') := check_all turns m in
      book_all (book_stop limits today ok) (tracked m) triggered prices
        (with_monitors (Some m') (take_profit_monitor s) s)
  end.

Definition _run_take_profit_check (limits : Limits) (today : Z) (ok : bool)
    (turns : list (Turn F (TakeProfitRecord F))) (prices : list BookQuote) (s : RiskState) : RiskState :=
  match take_profit_monitor s with
  | None => s
  | Some m =>
      let '(triggered, m') := check_all turns m in
      book_all (book_target limits today ok) (tracked m) triggered prices
        (with_monitors (stop_loss_monitor s) (Some m') s)
  end.
End orchestrator.
Arguments FilledOrder F : clear implicits.
Arguments Limits F : clear implicits.
Arguments RiskState F : clear implicits.

(** ** Keys are injective: a decoder of the escaped text *)

Definition hex_value (a : ascii) : nat :=
  let n := nat_of_ascii a in if (n <=? 57)%nat then (n - 48)%nat else (n - 87)%nat.

(** One character of the text, and what follows it; none at the closing quote. *)
Definition unescape (s : string) : option (ascii * string) :=
  match s with
  | EmptyString => None
  | String c rest =>
      if Ascii.eqb c quote_char then None
      else if negb (Ascii.eqb c backslash) then Some (c, rest)
      else match rest with
           | String "n" rest => Some (ascii_of_nat 10, rest)
           | String "r" rest => Some (ascii_of_nat 13, rest)
           | String "t" rest => Some (ascii_of_nat 9, rest)
           | String "f" rest => Some (ascii_of_nat 12, rest)
           | String "b" rest => Some (ascii_of_nat 8, rest)
           | String "u" (String _ (String _ (String x (String y rest)))) =>
               Some (ascii_of_nat (16 * hex_value x + hex_value y), rest)
           | String c rest => Some (c, rest)
           | EmptyString => None
           end
  end.

Lemma unescape_char a x : unescape (json_char a +:+ x) = Some (a, x).
Proof. destruct a as [[] [] [] [] [] [] [] []]; vm_compute; reflexivity. Qed.

Lemma json_chars_inj a b x y :
  json_chars a +:+ String quote_char x = json_chars b +:+ String quote_char y -> a = b /\ x = y.
Proof.
  revert b. induction a as [|c a IH]; intros [|d b] E; cbn in E; rewrite ?append_assoc in E.
  - by injection E.
  - apply (f_equal unescape) in E. by rewrite unescape_char in E.
  - apply (f_equal unescape) in E. by rewrite unescape_char in E.
  - apply (f_equal unescape) in E. rewrite !unescape_char in E. injection E as -> E.
    apply IH in E as [-> ->]. done.
Qed.

Lemma json_quote_app a x : json_quote a +:+ x = String quote_char (json_chars a +:+ String quote_char x).
Proof. exact (f_equal (String quote_char) (append_assoc _ _ _)). Qed.

Lemma json_quote_inj a b x y : json_quote a +:+ x = json_quote b +:+ y -> a = b /\ x = y.
Proof. rewrite !json_quote_app. intros [= E]. by apply json_chars_inj in E. Qed.

Lemma char_append_inj c x y : String c "" +:+ x = String c "" +:+ y -> x = y.
Proof. by intros [= E]. Qed.

Lemma json_list_inj a b c d a' b' c' d' :
  json_list [a; b; c; d] = json_list [a'; b'; c'; d'] ->
  a = a' /\ b = b' /\ c = c' /\ d = d'.
Proof.
  unfold json_list. cbn [map join]. rewrite !append_assoc.
  intros [-> [-> [-> [-> _]%char_append_inj%json_quote_inj]%char_append_inj%json_quote_inj
    ]%char_append_inj%json_quote_inj]%char_append_inj%json_quote_inj. done.
Qed.

Section keys.
Context {F : Type} `{HF : PyFloat F} {R : Type} `{HR : !RiskRecord F R}.
Implicit Types (m : Monitor R) (r : R).

(** The position a scoped record protects. *)
Definition position_id_of (symbol strategy_id account_id position_id : string) :=
  (str_or account_id "default", strategy_id, upper symbol, position_id).
Definition identity r :=
  position_id_of (rr_symbol F r) (rr_strategy_id F r) (rr_account_id F r) (rr_position_id F r).

Lemma key_of_inj s st a p s' st' a' p' :
  str_true st = true -> str_true st' = true ->
  key_of s st a p = key_of s' st' a' p' <-> position_id_of s st a p = position_id_of s' st' a' p'.
Proof.
  intros H H'. unfold key_of, position_id_of. rewrite H, H'. cbn [negb]. split.
  - intros (-> & -> & -> & ->)%json_list_inj. done.
  - by intros [= -> -> -> ->].
Qed.

Lemma stored_key_of s st a p : stored_key (key_of s st a p) = key_of s st a p.
Proof.
  unfold key_of. destruct (str_true st); cbn [negb]; [done|].
  unfold stored_key. by destruct (String.prefix "[" (upper s)); rewrite ?upper_idemp.
Qed.

(** ** The invariant, and what a restart finds *)

Definition well_keyed (d : list (string * R)) : Prop :=
  NoDup (dict_keys d) /\ forall k r, (k, r) ∈ d -> k = risk_record_key (F := F) r.
Definition monitor_ok m : Prop := well_keyed (tracked m).

Lemma well_keyed_set r d : well_keyed d -> well_keyed (dict_set (risk_record_key (F := F) r) r d).
Proof.
  intros [Hn Hk]. split; [by apply dict_nodup_set|].
  intros k r' [[= -> ->]|H]%dict_set_elem; [done|by apply Hk].
Qed.
Lemma well_keyed_pop k d : well_keyed d -> well_keyed (dict_pop k d).
Proof. intros [Hn Hk]. split; [by apply dict_nodup_pop|]. intros ? ? ?%dict_pop_elem. by apply Hk. Qed.
Lemma well_keyed_pops (p : R -> bool) l d :
  well_keyed d -> well_keyed (foldl (fun d '(k, r) => if p r then dict_pop k d else d) d l).
Proof.
  revert d. induction l as [|[k r] l IH]; intros d H; [done|]. cbn. apply IH.
  destruct (p r); [by apply well_keyed_pop|done].
Qed.

Lemma dict_set_new {V} k (v : V) d : k ∉ dict_keys d -> dict_set k v d = d ++ [(k, v)].
Proof.
  induction d as [|[k' v'] d IH]; [done|]. cbn. rewrite not_elem_of_cons. intros [Hk Hd].
  destruct (String.eqb_spec k k'); [done|]. by rewrite IH.
Qed.

Lemma load_rows d acc :
  NoDup (dict_keys (acc ++ d)) -> (forall k r, (k, r) ∈ d -> k = risk_record_key (F := F) r) ->
  foldl (fun d '(k, r) => dict_set (stored_key k) r d) acc d = acc ++ d.
Proof.
  revert acc. induction d as [|[k r] d IH]; intros acc Hn Hk; [by rewrite app_nil_r|].
  cbn. rewrite (Hk k r (list_elem_of_here _ _)). unfold risk_record_key. rewrite stored_key_of.
  fold (risk_record_key (F := F) r). rewrite <- (Hk k r (list_elem_of_here _ _)).
  rewrite dict_set_new.
  - rewrite IH, <- app_assoc; [done| |by intros k' r' H; apply Hk; constructor].
    by rewrite <- app_assoc.
  - unfold dict_keys in *. rewrite map_app in Hn. apply NoDup_app in Hn as (_ & Hd & _).
    intros H. apply (Hd k H). constructor.
Qed.

Lemma load_saved d : well_keyed d -> load_records (Saved d) = d.
Proof. intros [Hn Hk]. exact (load_rows d [] Hn Hk). Qed.

Definition writes (op : Op R) : bool :=
  match op with Register _ ok | Remove _ _ _ _ ok => ok end.

Lemma perform_ok op m : monitor_ok m -> monitor_ok (perform op m).
Proof.
  unfold monitor_ok. intros H. destruct op as [r ok|s st a p ok]; cbn; [by apply well_keyed_set|].
  destruct (str_true st); cbn; [by apply well_keyed_pop|by apply well_keyed_pops].
Qed.
Lemma performs_ok ops m : monitor_ok m -> monitor_ok (performs ops m).
Proof.
  revert m. induction ops as [|op ops IH]; intros m H; [done|]. cbn. by apply IH, perform_ok.
Qed.
Lemma remove_key_ok k ok m : monitor_ok m -> monitor_ok (remove_key k ok m).
Proof. apply well_keyed_pop. Qed.

Lemma state_file_perform op m :
  state_file m <> NoPath ->
  state_file (perform op m) = if writes op then Saved (tracked (perform op m)) else state_file m.
Proof.
  intros H. destruct op as [r ok|s st a p ok]; cbn.
  - by destruct (state_file m), ok.
  - destruct (str_true st); cbn; by destruct (state_file m), ok.
Qed.

Lemma state_file_performs ops m : state_file m <> NoPath -> state_file (performs ops m) <> NoPath.
Proof.
  revert m. induction ops as [|op ops IH]; intros m H; [done|]. cbn. apply IH.
  rewrite state_file_perform by done. by destruct (writes op).
Qed.


Lemma dict_get_pop_eq {V} k k' (d : list (string * V)) :
  NoDup (dict_keys d) -> dict_get k' (dict_pop k d) = if String.eqb k k' then None else dict_get k' d.
Proof.
  intros H. destruct (String.eqb_spec k k') as [->|]; [by apply dict_get_pop|by apply dict_get_pop_ne].
Qed.

Lemma key_eqb s st a p s' st' a' p' :
  str_true st = true -> str_true st' = true ->
  String.eqb (key_of s st a p) (key_of s' st' a' p') =
  bool_decide (position_id_of s st a p = position_id_of s' st' a' p').
Proof.
  intros H H'. apply eq_true_iff_eq. rewrite String.eqb_eq, bool_decide_eq_true. by apply key_of_inj.
Qed.

(** Protection is per position: what a registration sets, a lookup finds and a removal
    drops is the record of that account, sleeve, symbol and position, whatever characters
    those names hold; the protection of every other scoped position is untouched. *)
Theorem protection_is_per_position r ok m s st a p s' st' a' p' ok' :
  monitor_ok m -> str_true (rr_strategy_id F r) = true -> str_true st = true -> str_true st' = true ->
  get (F := F) s st a p (register r ok m) =
    (if bool_decide (identity r = position_id_of s st a p) then Some r else get s st a p m) /\
  get (F := F) s st a p (remove (F := F) s' st' a' p' ok' m) =
    (if bool_decide (position_id_of s' st' a' p' = position_id_of s st a p) then None
     else get s st a p m).
Proof.
  intros [Hn _] Hr H H'. unfold get, register, remove. rewrite H, H'. cbn [tracked save_records with_tracked].
  unfold risk_record_key, identity. rewrite dict_get_set, dict_get_pop_eq, !key_eqb by done. done.
Qed.

(** ** What a check does *)

Definition fires (e : string * R) (t : Turn F R) : bool :=
  match quote t with
  | At price => rr_reached (snd e) price && exit_confirmed t
  | _ => false
  end.

Lemma triggered_eq es acc :
  fst (foldl (fun acc '(e, t) => check_one acc e t) acc es) =
  fst acc ++ map (fun x => fst (fst x)) (List.filter (fun x => fires (fst x) (snd x)) es).
Proof.
  revert acc. induction es as [|[[k r] t] es IH]; intros [tr m]; [cbn; by rewrite app_nil_r|].
  cbn [foldl]. rewrite IH. unfold fires, check_one. cbn [List.filter fst snd].
  destruct (quote t); [done..|]. destruct (rr_reached r price); [|done]. cbn [andb].
  destruct (exit_confirmed t); [|done]. cbn. by rewrite <- app_assoc.
Qed.

(** Some other task's removal names this key, or every record of a symbol. *)
Definition removes (k : string) (op : Op R) : Prop :=
  match op with
  | Register _ _ => False
  | Remove s st a p _ => str_true st = false \/ key_of s st a p = k
  end.

#[local] Instance removes_decision k op : Decision (removes k op).
Proof. destruct op; apply _. Defined.

Lemma perform_keeps op m k :
  monitor_ok m -> dict_in k (tracked m) = true -> ~ removes k op -> dict_in k (tracked (perform op m)) = true.
Proof.
  intros [Hn _] H Hr. unfold dict_in in *. destruct op as [r ok|s st a p ok]; cbn in *.
  - rewrite dict_get_set. by destruct (String.eqb _ _).
  - destruct (str_true st) eqn:E; cbn; [|naive_solver]. rewrite dict_get_pop_ne; [done|naive_solver].
Qed.

Lemma performs_keeps ops m k :
  monitor_ok m -> dict_in k (tracked m) = true -> (forall op, op ∈ ops -> ~ removes k op) ->
  dict_in k (tracked (performs ops m)) = true.
Proof.
  revert m. induction ops as [|op ops IH]; intros m Hm H Hr; [done|]. cbn.
  apply IH; [by apply perform_ok| |intros; apply Hr; by constructor].
  apply perform_keeps; [done..|]. apply Hr. constructor.
Qed.

(** The step of one record keeps every key but its own, fired, and those another task removed. *)
Lemma check_one_keeps tr m e t k :
  monitor_ok m -> dict_in k (tracked m) = true -> (forall op, op ∈ meanwhile t -> ~ removes k op) ->
  ~ (fst e = k /\ fires e t = true) ->
  monitor_ok (snd (check_one (tr, m) e t)) /\ dict_in k (tracked (snd (check_one (tr, m) e t))) = true.
Proof.
  destruct e as [k0 r]. unfold fires, check_one. cbn [fst snd]. intros Hm H Ho Hf.
  destruct (quote t); [done..|]. destruct (rr_reached r price); [|done]. cbn [andb] in Hf.
  assert (dict_in k (tracked (performs (meanwhile t) m)) = true) as Hk by by apply performs_keeps.
  destruct (exit_confirmed t); cbn [snd]; [|by split; [apply performs_ok|]].
  split; [by apply remove_key_ok, performs_ok|]. cbn. unfold dict_in in *.
  rewrite dict_get_pop_ne; naive_solver.
Qed.

Lemma check_keeps es tr m k :
  monitor_ok m -> dict_in k (tracked m) = true ->
  (forall e t op, (e, t) ∈ es -> op ∈ meanwhile t -> ~ removes k op) ->
  (forall e t, (e, t) ∈ es -> ~ (fst e = k /\ fires e t = true)) ->
  dict_in k (tracked (snd (foldl (fun acc '(e, t) => check_one acc e t) (tr, m) es))) = true.
Proof.
  revert tr m. induction es as [|[e t] es IH]; intros tr m Hm H Ho Hf; [done|]. cbn [foldl].
  destruct (check_one_keeps tr m e t k) as [Hm' H'];
    [done..|intros; eapply Ho; [|done]; constructor|apply Hf; constructor|].
  destruct (check_one (tr, m) e t) as [tr' m']. apply IH; [done|done| |].
  - intros e' t' op Hin. apply (Ho e' t'). by constructor.
  - intros e' t' Hin. apply Hf. by constructor.
Qed.

(** C22. A check reports exactly the records whose level the price had reached and whose
    exit the execution service confirmed, in order, and never drops protection otherwise:
    a record tracked before the check and gone after it was reported, or another task
    removed it while an exit was awaited. A price that cannot be read, a level not
    reached and an exit that failed all leave the record in place. *)
Theorem protection_dropped_only_on_exit turns m :
  monitor_ok m ->
  fst (check_all turns m) =
    map (fun x => fst (fst x)) (List.filter (fun x => fires (fst x) (snd x)) (combine (tracked m) turns)) /\
  forall k, dict_in k (tracked m) = true -> dict_in k (tracked (snd (check_all turns m))) = false ->
    k ∈ fst (check_all turns m) \/
    exists t op, t ∈ turns /\ op ∈ meanwhile t /\ removes k op.
Proof.
  intros Hm. assert (fst (check_all turns m) = map (fun x => fst (fst x))
    (List.filter (fun x => fires (fst x) (snd x)) (combine (tracked m) turns))) as Ht by apply triggered_eq.
  split; [done|]. intros k Hk Hgone. rewrite Ht.
  destruct (decide (k ∈ map (fun x => fst (fst x))
    (List.filter (fun x => fires (fst x) (snd x)) (combine (tracked m) turns)))) as [|Hn]; [by left|right].
  destruct (decide (Exists (fun t => Exists (removes k) (meanwhile t)) turns)) as [He|Hno].
  - apply Exists_exists in He as (t & Hin & (op & Ho & Hr)%Exists_exists). eauto.
  - exfalso. apply not_true_iff_false in Hgone. apply Hgone. apply check_keeps; [done|done| |].
    + intros e t op Hin Hop Hr. apply Hno. apply Exists_exists. exists t.
      split; [apply list_elem_of_In; apply list_elem_of_In in Hin; by apply in_combine_r in Hin|].
      apply Exists_exists. eauto.
    + intros e t Hin [<- Hf]. apply Hn. apply elem_of_map. exists (e, t). split; [done|].
      by apply elem_of_filter_b.
Qed.
End keys.

(** ** The levels of a fill, exact arithmetic *)

Section levels.
Local Open Scope Q_scope.

Definition direction (side : string) : Q := if is_sell side then -1 else 1.

Lemma nor_pos (x : Q) : 0 < x -> nor x nzero = x.
Proof.
  intros H. unfold nor, ntrue. destruct (neqb x nzero) eqn:E; [|done]. reflect_Q.
  change (nzero : Q) with 0 in E. lra.
Qed.

Lemma realized_pnl_Q {R} `{HR : !RiskRecord Q R} (r : R) p :
  0 < rr_qty r -> 0 < rr_entry_price r ->
  _realized_pnl r (Some p) = Some ((p - rr_entry_price r) * rr_qty r * direction (rr_side Q r)).
Proof.
  intros Hq He. unfold _realized_pnl. rewrite !nor_pos by done. unfold direction.
  change (nopp n_one : Q) with (-1). change (n_one : Q) with 1.
  destruct (_ || _) eqn:E; [|by destruct (is_sell _)].
  apply orb_true_iff in E. change (nzero : Q) with 0 in E. destruct E; reflect_Q; lra.
Qed.

(** How far a stop and a target lie from the entry. *)
Definition stop_distance (price_bars : list (OHLCVBar Q)) (entry : Q) : Q :=
  let atr := compute_atr (map ob_high price_bars) (map ob_low price_bars) (map ob_close price_bars) 14 in
  match price_bars with
  | [] => entry * (2 # 100)
  | _ => if nltb 0 atr then atr * 2 else entry * (2 # 100)
  end.

Lemma stop_price_Q limits symbol order bars side strategy_id now :
  stop_price (stop_record (F := Q) limits symbol order bars side strategy_id now) ==
  order_entry_price order - direction side * stop_distance bars (order_entry_price order).
Proof.
  unfold stop_record, stop_distance, direction. cbn [stop_price nadd nsub nmul nlit exact].
  change (nzero : Q) with 0. change (nofZ 2 : Q) with 2.
  destruct (is_sell side), bars; try destruct (nltb _ _); lra.
Qed.

Lemma stop_distance_pos bars entry : 0 < entry -> 0 < stop_distance bars entry.
Proof.
  intros H. unfold stop_distance. destruct bars; [lra|].
  destruct (nltb _ _) eqn:E; [|lra]. reflect_Q. lra.
Qed.

Lemma target_price_Q limits symbol order side strategy_id now :
  0 < order_qty order ->
  target_price (target_record (F := Q) limits symbol order side strategy_id now) ==
  order_entry_price order + direction side * (take_profit_target_usd limits / order_qty order).
Proof.
  intros H. unfold target_record, direction. cbn [target_price nadd nsub nmul ndiv nlit exact].
  change (nzero : Q) with 0. assert (nltb 0 (order_qty order) = true) as -> by by apply Q_nltb.
  destruct (is_sell side); lra.
Qed.

Lemma breached_Q (r : StopLossRecord Q) p :
  breached r p = true <-> direction (ss_side r) * p <= direction (ss_side r) * stop_price r.
Proof. unfold breached, direction. destruct (is_sell _); rewrite Q_nleb; split; lra. Qed.
Lemma reached_Q (r : TakeProfitRecord Q) p :
  reached r p = true <-> direction (tp_side r) * target_price r <= direction (tp_side r) * p.
Proof. unfold reached, direction. destruct (is_sell _); rewrite Q_nleb; split; lra. Qed.

Lemma signed_shift side e d :
  direction side * (e - direction side * d) == direction side * e - d /\
  direction side * (e + direction side * d) == direction side * e + d.
Proof. unfold direction. destruct (is_sell side); split; ring. Qed.

(** A price at least [d] beyond the entry, against or with the position. *)
Lemma pnl_at_most side p e q d :
  0 < q -> direction side * p <= direction side * e - d -> (p - e) * q * direction side <= - (d * q).
Proof.
  intros Hq H. assert ((p - e) * q * direction side == (direction side * p - direction side * e) * q) as -> by ring.
  assert (- (d * q) == - d * q) as -> by ring. apply Qmult_le_compat_r; lra.
Qed.
Lemma pnl_at_least side p e q d :
  0 < q -> direction side * e + d <= direction side * p -> d * q <= (p - e) * q * direction side.
Proof.
  intros Hq H. assert ((p - e) * q * direction side == (direction side * p - direction side * e) * q) as -> by ring.
  apply Qmult_le_compat_r; lra.
Qed.

(** The protection registered for a fill brackets it. The stop lies beyond the entry
    against the position and the target beyond it in its favour, so that neither fires at
    the entry price and no price fires both; a price that fires the stop books a loss of
    at least its distance on the quantity, and one that reaches the target books at least
    the gain aimed at. *)
Theorem protection_brackets_entry limits symbol order bars side strategy_id now p :
  0 < order_entry_price order -> 0 < order_qty order -> 0 < take_profit_target_usd limits ->
  let stop := stop_record (F := Q) limits symbol order bars side strategy_id now in
  let target := target_record (F := Q) limits symbol order side strategy_id now in
  let lost := stop_distance bars (order_entry_price order) * order_qty order in
  breached stop (order_entry_price order) = false /\
  reached target (order_entry_price order) = false /\
  (breached stop p && reached target p = false) /\
  0 < lost /\
  (breached stop p = true -> exists x, _realized_pnl stop (Some p) = Some x /\ x <= - lost) /\
  (reached target p = true -> exists x, _realized_pnl target (Some p) = Some x /\ take_profit_target_usd limits <= x).
Proof.
  intros He Hq Ht stop target lost.
  pose proof (stop_distance_pos bars _ He) as Hd.
  assert (0 < take_profit_target_usd limits / order_qty order) as Hg by (apply Qlt_shift_div_l; lra).
  assert (forall p, breached stop p = true -> direction side * p <=
    direction side * order_entry_price order - stop_distance bars (order_entry_price order)) as Hb.
  { intros p'. rewrite breached_Q. unfold stop. rewrite stop_price_Q. cbn [ss_side stop_record].
    by rewrite (proj1 (signed_shift _ _ _)). }
  assert (forall p, reached target p = true -> direction side * order_entry_price order +
    take_profit_target_usd limits / order_qty order <= direction side * p) as Hr.
  { intros p'. rewrite reached_Q. unfold target. rewrite target_price_Q by done. cbn [tp_side target_record].
    by rewrite (proj2 (signed_shift _ _ _)). }
  repeat split.
  - apply not_true_iff_false. intros H%Hb. lra.
  - apply not_true_iff_false. intros H%Hr. lra.
  - apply not_true_iff_false. intros [H1%Hb H2%Hr]%andb_true_iff. lra.
  - by apply Qmult_lt_0_compat.
  - intros H%Hb. rewrite realized_pnl_Q by done. eexists. split; [done|]. by apply (pnl_at_most side).
  - intros H%Hr. rewrite realized_pnl_Q by done. eexists. split; [done|].
    assert (take_profit_target_usd limits == take_profit_target_usd limits / order_qty order * order_qty order) as -> by (field; lra).
    by apply (pnl_at_least side).
Qed.
End levels.

(** ** On concrete runs *)

Module Protect.
Local Open Scope Q_scope.
Definition stop_of (symbol strategy_id position : string) (level : Q) : StopLossRecord Q :=
  {| ss_symbol := symbol; ss_entry_price := 100; stop_price := level; ss_position_id := position;
     ss_qty := 10; ss_side := "BUY"; ss_strategy_id := strategy_id; ss_account_id := "";
     ss_created_at := 0%Z |}.
Definition empty : Monitor (StopLossRecord Q) := start Missing.
Definition ops : list (Op (StopLossRecord Q)) :=
  [Register (stop_of "msft" "ema" "p1" 95) true; Register (stop_of "MSFT" "rsi" "p2" 90) false;
   Remove "MSFT" "ema" "" "p0" true].
Definition last_op : Op (StopLossRecord Q) := Register (stop_of "AAPL" "" "p3" 80) true.
Definition book : Monitor (StopLossRecord Q) := perform (F := Q) last_op (performs (F := Q) ops empty).
Lemma empty_ok : monitor_ok (F := Q) empty.
Proof. split; [constructor|]. by intros ? ? ?%not_elem_of_nil. Defined.
Lemma book_ok : monitor_ok (F := Q) book.
Proof. apply perform_ok, performs_ok, empty_ok. Defined.

Definition turn (price : Q) (confirmed : bool) (ops : list (Op (StopLossRecord Q))) : Turn Q (StopLossRecord Q) :=
  {| quote := At price; exit_confirmed := confirmed; meanwhile := ops; write_ok := true |}.
Definition limits : Limits Q :=
  {| account := "default"; take_profit_target_usd := 30; monthly_loss_limit_usd := 200;
     monthly_profit_target_usd := 500 |}.
Definition order : FilledOrder Q :=
  {| order_entry_price := 100; order_qty := 10; external_order_id := ""; order_id := "o1" |}.
End Protect.


(** A new stop of one sleeve: found, and the other sleeve's stop on the symbol as it was. *)
Lemma protection_is_per_position_witness :
  get (F := Q) "msft" "ema" "default" "p4" (register (F := Q) (Protect.stop_of "MSFT" "ema" "p4" 99%Q) true Protect.book)
    = Some (Protect.stop_of "MSFT" "ema" "p4" 99%Q) /\
  get (F := Q) "msft" "rsi" "default" "p2" (remove (F := Q) "msft" "ema" "" "p1" true Protect.book)
    = Some (Protect.stop_of "MSFT" "rsi" "p2" 90%Q).
Proof.
  split.
  - rewrite (proj1 (protection_is_per_position (F := Q) (Protect.stop_of "MSFT" "ema" "p4" 99%Q) true Protect.book
      "msft" "ema" "default" "p4" "msft" "ema" "" "p1" true Protect.book_ok eq_refl eq_refl eq_refl)).
    reflexivity.
  - rewrite (proj2 (protection_is_per_position (F := Q) (Protect.stop_of "MSFT" "ema" "p4" 99%Q) true Protect.book
      "msft" "rsi" "default" "p2" "msft" "ema" "" "p1" true Protect.book_ok eq_refl eq_refl eq_refl)).
    reflexivity.
Defined.

(** One stop fires and exits, one fires and its exit fails, one is not reached. *)
Definition three_turns : list (Turn Q (StopLossRecord Q)) :=
  [Protect.turn 94%Q true []; Protect.turn 85%Q false []; Protect.turn 85%Q true []].
Lemma protection_dropped_only_on_exit_witness :
  length (fst (check_all three_turns Protect.book)) = 1%nat /\
  (dict_in "AAPL" (tracked (snd (check_all three_turns Protect.book))) = false ->
   "AAPL" ∈ fst (check_all three_turns Protect.book) \/
   exists t op, t ∈ three_turns /\ op ∈ meanwhile t /\ removes "AAPL" op).
Proof.
  pose proof (protection_dropped_only_on_exit (F := Q) three_turns Protect.book Protect.book_ok) as [Ht Hk].
  split; [rewrite Ht; reflexivity|]. by apply Hk.
Defined.

Lemma protection_brackets_entry_witness :
  exists x, _realized_pnl (F := Q) (stop_record Protect.limits "MSFT" Protect.order [] "SELL" "ema" 0%Z)
              (Some 103%Q) = Some x /\ (x <= - (100 * (2 # 100) * 10))%Q.
Proof.
  apply (protection_brackets_entry Protect.limits "MSFT" Protect.order [] "SELL" "ema" 0%Z 103%Q);
    reflexivity.
Defined.

(** The record of a position opened without a strategy exits: the protection other sleeves
    hold on the symbol is dropped with it. *)
Lemma legacy_exit_clears_every_sleeve :
  let m := performs (F := Q) [Register (Protect.stop_of "AAPL" "" "p1" 80%Q) true;
                              Register (Protect.stop_of "AAPL" "ema" "p2" 95%Q) true] Protect.empty in
  let s := {| stop_loss_monitor := Some m; take_profit_monitor := None;
              day_trades := _load None 738000; monthly_realized_loss_usd := 0%Q;
              monthly_realized_profit_usd := 0%Q; notices := [] |} in
  let s' := _run_stop_loss_check Protect.limits 738000 true
              [Protect.turn 79%Q true []; {| quote := NoPrice; exit_confirmed := false; meanwhile := [];
                                             write_ok := true |}]
              [Book (Some 79%Q)] s in
  (length (tracked m), tracked <$> stop_loss_monitor s') = (2%nat, Some []).
Proof. vm_compute. reflexivity. Qed.

(** A position registered without a strategy while the exit of the one before it on the
    symbol is awaited shares its key: the confirmed exit drops the new stop. *)
Lemma legacy_reentry_loses_its_stop :
  let m := performs (F := Q) [Register (Protect.stop_of "AAPL" "" "p1" 80%Q) true] Protect.empty in
  let '(triggered, m') :=
    check_all [Protect.turn 79%Q true [Register (Protect.stop_of "AAPL" "" "p2" 70%Q) true]] m in
  (triggered, tracked m') = (["AAPL"], []).
Proof. vm_compute. reflexivity. Qed.

(** Two stops fire and exit; the second price read of the first raises: neither loss is
    booked to the month, and both records are gone. *)
Lemma failed_price_read_loses_the_losses :
  let m := performs (F := Q) [Register (Protect.stop_of "AAPL" "ema" "p1" 80%Q) true;
                              Register (Protect.stop_of "MSFT" "ema" "p2" 80%Q) true] Protect.empty in
  let s := {| stop_loss_monitor := Some m; take_profit_monitor := None;
              day_trades := _load None 738000; monthly_realized_loss_usd := 0%Q;
              monthly_realized_profit_usd := 0%Q; notices := [] |} in
  let s' := _run_stop_loss_check Protect.limits 738000 true
              [Protect.turn 79%Q true []; Protect.turn 79%Q true []] [BookRaised; Book (Some 79%Q)] s in
  (monthly_realized_loss_usd s', tracked <$> stop_loss_monitor s') = (0%Q, Some []).
Proof. vm_compute. reflexivity. Qed.
