(* ===== verification/Ledger.v ===== *)
(** * The derived ledger

    Models [services/portfolio-service/src/portfolio_service/reconcile.py], the fill rows of
    [execution_reader.py], and the two reads and the reconcile call of [main.py] over the
    tables of [models.py]. The hash of a request is a parameter. Shown: the ledger's books
    balance against the cash of the fills, whatever flips and partial closes they hold; its
    result does not depend on the order the fills arrive in; and a repeated reconcile
    answers what the first one did and writes nothing. *)

From S2P Require Import PyFloat Store Prelude.
From Stdlib Require Import Floats.SpecFloat QArith Qabs Lqa.
Local Close Scope Q_scope.

(** ** Fills and positions *)

Record Fill (F : Type) := {
  l_fill_id : string;
  l_order_id : string;
  l_external_order_id : string;
  l_signal_id : string;
  l_symbol : string;
  l_side : string;
  l_qty : Z;
  l_price : F;
  l_filled_at : datetime
}.
Arguments l_fill_id {F}. Arguments l_order_id {F}. Arguments l_external_order_id {F}.
Arguments l_signal_id {F}. Arguments l_symbol {F}. Arguments l_side {F}. Arguments l_qty {F}.
Arguments l_price {F}. Arguments l_filled_at {F}.

Record PositionState (F : Type) := {
  net_qty : Z;
  average_cost : F;
  st_realized : F;
  last_fill_price : F
}.
Arguments net_qty {F}. Arguments average_cost {F}. Arguments st_realized {F}. Arguments last_fill_price {F}.

Record PositionRecord (F : Type) := {
  pr_symbol : string;
  pr_net_qty : Z;
  pr_average_cost : F;
  pr_realized_pnl : F;
  pr_unrealized_pnl : F;
  pr_market_price : F;
  pr_market_value : F;
  pr_updated_at : datetime
}.
Arguments pr_symbol {F}. Arguments pr_net_qty {F}. Arguments pr_average_cost {F}.
Arguments pr_realized_pnl {F}. Arguments pr_unrealized_pnl {F}. Arguments pr_market_price {F}.
Arguments pr_market_value {F}. Arguments pr_updated_at {F}.

Record PortfolioSnapshot (F : Type) := {
  sn_as_of : datetime;
  sn_positions : list (PositionRecord F);
  sn_realized_pnl : F;
  sn_unrealized_pnl : F;
  sn_gross_exposure : F
}.
Arguments sn_as_of {F}. Arguments sn_positions {F}. Arguments sn_realized_pnl {F}.
Arguments sn_unrealized_pnl {F}. Arguments sn_gross_exposure {F}.

(** [PortfolioReconcileRequest] *)
Record Request (F : Type) := {
  latest_quotes : gmap string F;
  req_as_of : option datetime
}.
Arguments latest_quotes {F}. Arguments req_as_of {F}.

Record Response (F : Type) := {
  snapshot : PortfolioSnapshot F;
  processed_fill_count : nat;
  idempotent : bool;
  reconcile_key : string
}.
Arguments snapshot {F}. Arguments processed_fill_count {F}. Arguments idempotent {F}.
Arguments reconcile_key {F}.

Section ledger.
Context {F : Type} `{HF : PyFloat F}.
Local Open Scope py_scope.

(** A position before its first fill. *)
Definition flat_position : PositionState F :=
  {| net_qty := 0; average_cost := nzero; st_realized := nzero; last_fill_price := nzero |}.

Definition signed_qty (fill : Fill F) : Z :=
  if String.eqb (upper (l_side fill)) "BUY" then l_qty fill else (- l_qty fill)%Z.

(** Both signs agree, or nothing is open. *)
Definition opens (net signed : Z) : bool :=
  ((net =? 0) || ((0 <? net) && (0 <? signed)) || ((net <? 0) && (signed <? 0)))%Z.

Definition _apply_fill (s : PositionState F) (fill : Fill F) : PositionState F :=
  let signed := signed_qty fill in
  let price := l_price fill in
  if opens (net_qty s) signed then
    let new_qty := (net_qty s + signed)%Z in
    let total_cost := nofZ (Z.abs (net_qty s)) * average_cost s + nofZ (Z.abs signed) * price in
    {| net_qty := new_qty;
       average_cost := if (new_qty =? 0)%Z then nzero else total_cost / nofZ (Z.abs new_qty);
       st_realized := st_realized s; last_fill_price := price |}
  else
    let closing_qty := nofZ (Z.min (Z.abs (net_qty s)) (Z.abs signed)) in
    let realized :=
      st_realized s + (if (0 <? net_qty s)%Z then closing_qty * (price - average_cost s)
                       else closing_qty * (average_cost s - price)) in
    let remaining := (net_qty s + signed)%Z in
    {| net_qty := remaining;
       average_cost :=
         if (remaining =? 0)%Z then nzero
         else if ((0 <? net_qty s) && (0 <? remaining) || (net_qty s <? 0) && (remaining <? 0))%Z
         then average_cost s else price;
       st_realized := realized; last_fill_price := price |}.

Definition _compute_unrealized (net : Z) (average_cost market_price : F) : F :=
  if (0 <? net)%Z then nofZ net * (market_price - average_cost)
  else if (net <? 0)%Z then nofZ (Z.abs net) * (average_cost - market_price) else nzero.

(** [(item.filled_at, item.fill_id)] *)
Definition fill_leb (a b : Fill F) : bool :=
  (l_filled_at a <? l_filled_at b)%Z ||
  ((l_filled_at a =? l_filled_at b)%Z && String.leb (l_fill_id a) (l_fill_id b)).

(** The loop over the sorted fills: one state per symbol. *)
Definition apply_to (positions : gmap string (PositionState F)) (fill : Fill F)
    : gmap string (PositionState F) :=
  <[l_symbol fill := _apply_fill (default flat_position (positions !! l_symbol fill)) fill]> positions.
Definition positions_of (fills : list (Fill F)) : gmap string (PositionState F) :=
  foldl apply_to ∅ (sort_by fill_leb fills).

Definition market_price_of (request : Request F) (symbol : string) (s : PositionState F) : F :=
  default (nor (last_fill_price s) (average_cost s)) (latest_quotes request !! symbol).

(** [PositionRecord(...)], whose fields are validated. *)
Definition position_record (request : Request F) (as_of : datetime) (symbol : string)
    (s : PositionState F) : result string (PositionRecord F) :=
  let market_price := market_price_of request symbol s in
  let r :=
    {| pr_symbol := symbol; pr_net_qty := net_qty s; pr_average_cost := nround 6 (average_cost s);
       pr_realized_pnl := nround 6 (st_realized s);
       pr_unrealized_pnl := nround 6 (_compute_unrealized (net_qty s) (average_cost s) market_price);
       pr_market_price := nround 6 market_price;
       pr_market_value := nround 6 (nofZ (net_qty s) * market_price); pr_updated_at := as_of |} in
  if negb (nzero <=? pr_average_cost r) then Err "average_cost"
  else if negb (nzero <=? pr_market_price r) then Err "market_price" else Ok r.

(** The variables of the second loop. *)
Record Totals := {
  records : list (PositionRecord F);
  realized_total : F;
  unrealized_total : F;
  gross_exposure : F
}.
Definition no_totals : Totals :=
  {| records := []; realized_total := nzero; unrealized_total := nzero; gross_exposure := nzero |}.

(** A flat symbol is skipped. *)
Definition total_one (request : Request F) (as_of : datetime) (positions : gmap string (PositionState F))
    (t : Totals) (symbol : string) : result string Totals :=
  let s := default flat_position (positions !! symbol) in
  if (net_qty s =? 0)%Z then Ok t else
  let market_price := market_price_of request symbol s in
  match position_record request as_of symbol s with
  | Err e => Err e
  | Ok r =>
      Ok {| records := records t ++ [r];
            realized_total := realized_total t + st_realized s;
            unrealized_total := unrealized_total t
              + _compute_unrealized (net_qty s) (average_cost s) market_price;
            gross_exposure := gross_exposure t + nabs (nofZ (net_qty s) * market_price) |}
  end.
Fixpoint total_all (request : Request F) (as_of : datetime) positions (t : Totals)
    (symbols : list string) : result string Totals :=
  match symbols with
  | [] => Ok t
  | symbol :: symbols =>
      match total_one request as_of positions t symbol with
      | Err e => Err e
      | Ok t => total_all request as_of positions t symbols
      end
  end.

Definition _default_as_of (fills : list (Fill F)) (now : datetime) : datetime :=
  match fills with
  | [] => now
  | f :: fills => foldl Z.max (l_filled_at f) (map l_filled_at fills)
  end.

(** What the key of a reconcile is the hash of. *)
Definition Payload : Type :=
  list (string * string * string * Z * F * datetime) * gmap string F * option datetime.
Definition key_payload (fills : list (Fill F)) (request : Request F) : Payload :=
  (map (fun f => (l_fill_id f, l_symbol f, l_side f, l_qty f, l_price f, l_filled_at f)) fills,
   latest_quotes request, req_as_of request).
Context (sha256_of : Payload -> string).
Definition build_reconcile_key (fills : list (Fill F)) (request : Request F) : string :=
  sha256_of (key_payload fills request).

Definition snapshot_of (as_of : datetime) (t : Totals) : PortfolioSnapshot F :=
  {| sn_as_of := as_of; sn_positions := records t;
     sn_realized_pnl := nround 6 (realized_total t);
     sn_unrealized_pnl := nround 6 (unrealized_total t);
     sn_gross_exposure := nround 6 (gross_exposure t) |}.

(** The symbols of the positions, sorted. *)
Definition symbols_of (positions : gmap string (PositionState F)) : list string :=
  sort_by String.leb (map fst (map_to_list positions)).

Definition reconcile_portfolio (fills : list (Fill F)) (request : Request F) (now : datetime)
    : result string (Response F) :=
  let positions := positions_of fills in
  let as_of := default (_default_as_of fills now) (req_as_of request) in
  t ← total_all request as_of positions no_totals (symbols_of positions);
  mret {| snapshot := snapshot_of as_of t; processed_fill_count := length fills;
          idempotent := false; reconcile_key := build_reconcile_key fills request |}.

(** ** The service *)

Record SnapshotRow := {
  sr_reconcile_key : string;
  sr_as_of : datetime;
  positions_json : list (PositionRecord F);   (** written and read back by [json] *)
  sr_realized_pnl : F;
  sr_unrealized_pnl : F;
  sr_gross_exposure : F;
  sr_processed_fill_count : nat;
  sr_created_at : datetime
}.
Record PnLRow := {
  pn_reconcile_key : string;
  pn_as_of : datetime;
  pn_realized_pnl : F;
  pn_unrealized_pnl : F;
  pn_gross_exposure : F
}.
(** The three tables; a position row carries the key of the reconcile that wrote it. *)
Record PortfolioDB := {
  position_rows : list (PositionRecord F * string);
  snapshot_rows : list SnapshotRow;
  pnl_rows : list PnLRow
}.

Definition stored_snapshot (row : SnapshotRow) : PortfolioSnapshot F :=
  {| sn_as_of := sr_as_of row; sn_positions := positions_json row; sn_realized_pnl := sr_realized_pnl row;
     sn_unrealized_pnl := sr_unrealized_pnl row; sn_gross_exposure := sr_gross_exposure row |}.

(** [fill_from_execution]: the contract validates the quantity and the price. *)
Definition fill_from_execution (f : Fill F) : result string (Fill F) :=
  if (l_qty f <=? 0)%Z then Err "qty" else if negb (l_price f >? nzero) then Err "price" else Ok f.
Fixpoint fills_from (rows : list (Fill F)) : result string (list (Fill F)) :=
  match rows with
  | [] => Ok []
  | f :: rows => f ← fill_from_execution f; fs ← fills_from rows; mret (f :: fs)
  end.

Definition list_positions (d : PortfolioDB) : list (PositionRecord F) :=
  sort_by (fun a b => String.leb (pr_symbol a) (pr_symbol b)) (map fst (position_rows d)).

(** The latest snapshot; without one, an empty book as of the last fill. *)
Definition get_snapshot (execution_fills : list (Fill F)) (now : datetime) (d : PortfolioDB)
    : PortfolioSnapshot F :=
  match List.hd_error (sort_by (fun a b => sr_created_at b <=? sr_created_at a)%Z (snapshot_rows d)) with
  | Some row => stored_snapshot row
  | None =>
      {| sn_as_of := match last execution_fills with Some f => l_filled_at f | None => now end;
         sn_positions := []; sn_realized_pnl := nzero; sn_unrealized_pnl := nzero;
         sn_gross_exposure := nzero |}
  end.

(** [list_execution_fills]: by time, then id. *)
Definition list_execution_fills (rows : list (Fill F)) : list (Fill F) := sort_by fill_leb rows.

Definition write_snapshot (response : Response F) (now : datetime) (d : PortfolioDB) : PortfolioDB :=
  let s := snapshot response in
  let k := reconcile_key response in
  {| position_rows := map (fun p => (p, k)) (sn_positions s);
     snapshot_rows := snapshot_rows d ++
       [{| sr_reconcile_key := k; sr_as_of := sn_as_of s; positions_json := sn_positions s;
           sr_realized_pnl := sn_realized_pnl s; sr_unrealized_pnl := sn_unrealized_pnl s;
           sr_gross_exposure := sn_gross_exposure s;
           sr_processed_fill_count := processed_fill_count response; sr_created_at := now |}];
     pnl_rows := pnl_rows d ++
       [{| pn_reconcile_key := k; pn_as_of := sn_as_of s; pn_realized_pnl := sn_realized_pnl s;
           pn_unrealized_pnl := sn_unrealized_pnl s; pn_gross_exposure := sn_gross_exposure s |}] |}.

Definition stored_response (row : SnapshotRow) : Response F :=
  {| snapshot := stored_snapshot row; processed_fill_count := sr_processed_fill_count row;
     idempotent := true; reconcile_key := sr_reconcile_key row |}.

(** [reconcile]: one transaction after the fills are read. *)
Definition reconcile (execution_rows : list (Fill F)) (request : Request F) (now : datetime)
    (d : PortfolioDB) : result string (Response F) * PortfolioDB :=
  match fills_from (list_execution_fills execution_rows) with
  | Err e => (Err e, d)
  | Ok fills =>
      match reconcile_portfolio fills request now with
      | Err e => (Err e, d)
      | Ok response =>
          match List.find (fun row => String.eqb (sr_reconcile_key row) (reconcile_key response))
                  (snapshot_rows d) with
          | Some existing => (Ok (stored_response existing), d)
          | None => (Ok response, write_snapshot response now d)
          end
      end
  end.
End ledger.
Arguments Totals F : clear implicits.
Arguments PortfolioDB F : clear implicits.
Arguments SnapshotRow F : clear implicits.

(** ** Fills in any order *)

Section order.
Context {F : Type} `{HF : PyFloat F}.
Context (sha256_of : Payload (F := F) -> string).

Lemma fill_leb_total (a b : Fill F) : fill_leb a b = false -> fill_leb b a = true.
Proof.
  unfold fill_leb. rewrite orb_false_iff, andb_false_iff, Z.ltb_ge, Z.eqb_neq, orb_true_iff, andb_true_iff,
    Z.ltb_lt, Z.eqb_eq.
  intros [? [?|H]]; [left; lia|]. destruct (Z.eq_dec (l_filled_at a) (l_filled_at b)); [right|left; lia].
  split; [lia|by apply string_leb_total].
Qed.
Lemma fill_leb_trans (a b c : Fill F) : fill_leb a b = true -> fill_leb b c = true -> fill_leb a c = true.
Proof.
  unfold fill_leb. rewrite !orb_true_iff, !andb_true_iff, !Z.ltb_lt, !Z.eqb_eq.
  intros [?|[? H]] [?|[? H']]; [left; lia..|right; split; [lia|]]. by apply (string_leb_trans _ (l_fill_id b)).
Qed.

Lemma sort_fills_perm (l l' : list (Fill F)) :
  NoDup (map l_fill_id l) -> l ≡ₚ l' -> sort_by fill_leb l = sort_by fill_leb l'.
Proof.
  intros Hn. apply sort_by_unique; [apply fill_leb_total|apply fill_leb_trans|].
  intros x y Hx Hy. unfold fill_leb. rewrite !orb_true_iff, !andb_true_iff, !Z.ltb_lt, !Z.eqb_eq.
  intros [?|[? H]] [?|[? H']]; [lia..|]. apply (NoDup_map_inj l_fill_id l); [done..|].
  by apply String.leb_antisym.
Qed.

(** ** A repeated reconcile *)

Lemma fills_from_nil (rows fs : list (Fill F)) : fills_from rows = Ok fs -> fs = rows.
Proof.
  revert fs. induction rows as [|f rows IH]; intros fs; cbn; [by intros [= <-]|].
  unfold fill_from_execution. destruct (l_qty f <=? 0)%Z; [done|]. destruct (negb _); [done|]. cbn.
  destruct (fills_from rows) as [fs'|]; cbn; [|done]. intros [= <-]. by rewrite (IH fs').
Qed.

(** Whether the totals can be taken does not depend on the clock, nor does the key. *)
Lemma reconcile_portfolio_later fills request now now' (r : Response F) :
  reconcile_portfolio sha256_of fills request now = Ok r ->
  exists r', reconcile_portfolio sha256_of fills request now' = Ok r' /\ reconcile_key r' = reconcile_key r.
Proof.
  unfold reconcile_portfolio. intros H. destruct fills as [|f fills].
  - exists {| snapshot := snapshot_of (default now' (req_as_of request)) no_totals;
              processed_fill_count := 0; idempotent := false;
              reconcile_key := build_reconcile_key sha256_of [] request |}.
    split; [done|]. by injection H as <-.
  - exists r. done.
Qed.

Lemma find_snoc {A} (p : A -> bool) l x : List.find p l = None -> p x = true -> List.find p (l ++ [x]) = Some x.
Proof.
  induction l as [|y l IH]; cbn; [by intros _ ->|]. destruct (p y); [done|auto].
Qed.

(** Reconciling is idempotent. Once a request has been reconciled, the same request
    over the same fills, whatever order they are read in and whenever it comes, is
    answered with the same snapshot, count and key, is marked idempotent, and writes
    nothing. *)
Theorem reconcile_idempotent rows rows' request now now' (d d1 : PortfolioDB F) (r : Response F) :
  NoDup (map l_fill_id rows) -> rows ≡ₚ rows' ->
  reconcile sha256_of rows request now d = (Ok r, d1) ->
  reconcile sha256_of rows' request now' d1 =
    (Ok {| snapshot := snapshot r; processed_fill_count := processed_fill_count r; idempotent := true;
           reconcile_key := reconcile_key r |}, d1).
Proof.
  intros Hn E. unfold reconcile, list_execution_fills. rewrite <- (sort_fills_perm _ _ Hn E).
  destruct (fills_from (sort_by fill_leb rows)) as [fills|]; [|done].
  destruct (reconcile_portfolio sha256_of fills request now) as [r0|] eqn:Er; [|done].
  destruct (reconcile_portfolio_later _ _ _ now' _ Er) as (r1 & -> & Ek). rewrite Ek.
  destruct (List.find _ (snapshot_rows d)) as [row|] eqn:Ef; intros [= <- <-]; [by rewrite Ef|].
  cbn [snapshot_rows write_snapshot]. rewrite (find_snoc _ _ _ Ef) by (cbn; apply String.eqb_refl).
  unfold stored_response, stored_snapshot. cbn. by destruct (snapshot r0).
Qed.
End order.

(** ** The books, exact arithmetic *)

Section books.
Local Open Scope Q_scope.
Implicit Types (s : PositionState Q) (fill : Fill Q).

Definition of_symbol (symbol : string) (l : list (Fill Q)) : list (Fill Q) :=
  List.filter (fun f => String.eqb (l_symbol f) symbol) l.
Definition shares (l : list (Fill Q)) : Z := foldr (fun f n => (signed_qty f + n)%Z) 0%Z l.
(** Cash the fills brought in: sales less purchases. *)
Definition cash (l : list (Fill Q)) : Q :=
  foldr (fun f c => - (inject_Z (signed_qty f) * l_price f) + c) 0 l.

Ltac ints := repeat match goal with |- context [nofZ ?z] => change (nofZ z : Q) with (inject_Z z) end;
  change (nzero : Q) with 0; cbn [nadd nsub nmul ndiv exact].

(** Realized profit is the cash, plus the open shares at their average cost. *)
Definition balanced s (c : Q) : Prop := st_realized s == c + inject_Z (net_qty s) * average_cost s.

Lemma inject_Z_abs_pos z : (0 < z)%Z -> inject_Z (Z.abs z) == inject_Z z.
Proof. intros. by rewrite Z.abs_eq by lia. Qed.
Lemma inject_Z_abs_neg z : (z < 0)%Z -> inject_Z (Z.abs z) == - inject_Z z.
Proof. intros. rewrite Z.abs_neq by lia. by rewrite inject_Z_opp. Qed.
Lemma inject_Z_nonzero z : z <> 0%Z -> ~ inject_Z z == 0.
Proof. intros H E. apply H. unfold inject_Z, Qeq in E. cbn in E. lia. Qed.

Lemma balanced_open s fill c :
  balanced s c -> opens (net_qty s) (signed_qty fill) = true ->
  balanced (_apply_fill s fill) (- (inject_Z (signed_qty fill) * l_price fill) + c).
Proof.
  unfold balanced, _apply_fill. intros Hb Ho. rewrite Ho. cbn [net_qty average_cost st_realized].
  set (n := net_qty s) in *. set (k := signed_qty fill) in *.
  rewrite Hb. ints.
  destruct (n + k =? 0)%Z eqn:Ez.
  - assert (n = 0 /\ k = 0)%Z as [En Ek].
    { unfold opens in Ho. apply Z.eqb_eq in Ez. rewrite !orb_true_iff, !andb_true_iff, !Z.ltb_lt, Z.eqb_eq in Ho. lia. }
    rewrite En, Ek. cbn [Z.add]. change (inject_Z 0) with 0. ring.
  - apply Z.eqb_neq in Ez.
    assert (~ inject_Z (n + k) == 0) as Hnz by by apply inject_Z_nonzero.
    unfold opens in Ho. apply orb_true_iff in Ho as [[Ho|Ho]%orb_true_iff|Ho].
    + apply Z.eqb_eq in Ho. rewrite Ho in *. rewrite Z.add_0_l in *. change (Z.abs 0) with 0%Z.
      change (inject_Z 0) with 0.
      destruct (Z.lt_trichotomy k 0) as [Hk|[Hk|Hk]]; [|congruence|].
      * rewrite inject_Z_abs_neg by done. field. done.
      * rewrite inject_Z_abs_pos by done. field. done.
    + apply andb_true_iff in Ho as [H1%Z.ltb_lt H2%Z.ltb_lt]. rewrite !inject_Z_abs_pos by lia.
      rewrite inject_Z_plus in *. field. done.
    + apply andb_true_iff in Ho as [H1%Z.ltb_lt H2%Z.ltb_lt]. rewrite !inject_Z_abs_neg by lia.
      rewrite inject_Z_plus in *. field. intros E. apply Hnz. lra.
Qed.

(** A fill against the position: closed down, flat, or flipped. *)
Lemma balanced_close s fill c :
  balanced s c -> opens (net_qty s) (signed_qty fill) = false ->
  balanced (_apply_fill s fill) (- (inject_Z (signed_qty fill) * l_price fill) + c).
Proof.
  unfold balanced, _apply_fill. intros Hb Ho. rewrite Ho. cbn [net_qty average_cost st_realized].
  set (n := net_qty s) in *. set (k := signed_qty fill) in *.
  ints. rewrite Hb.
  unfold opens in Ho. rewrite !orb_false_iff, !andb_false_iff, !Z.ltb_ge, Z.eqb_neq in Ho.
  destruct (0 <? n)%Z eqn:En; [apply Z.ltb_lt in En|apply Z.ltb_ge in En].
  - destruct (Z.eqb_spec (n + k) 0) as [Ez|Ez].
    + replace (Z.min (Z.abs n) (Z.abs k)) with n by lia. rewrite Ez. replace k with (- n)%Z by lia.
      rewrite inject_Z_opp. change (inject_Z 0) with 0. ring.
    + destruct (0 <? n + k)%Z eqn:Er; [apply Z.ltb_lt in Er|apply Z.ltb_ge in Er].
      * replace (Z.min (Z.abs n) (Z.abs k)) with (- k)%Z by lia. cbn [andb orb].
        rewrite inject_Z_plus, inject_Z_opp. ring.
      * replace (Z.min (Z.abs n) (Z.abs k)) with n by lia. cbn [andb orb].
        assert ((n <? 0)%Z = false) as -> by (apply Z.ltb_ge; lia). cbn [andb].
        rewrite inject_Z_plus. ring.
  - assert ((n <? 0)%Z = true) as -> by (apply Z.ltb_lt; lia). cbn [andb orb].
    destruct (Z.eqb_spec (n + k) 0) as [Ez|Ez].
    + replace (Z.min (Z.abs n) (Z.abs k)) with (- n)%Z by lia. rewrite Ez. replace k with (- n)%Z by lia.
      rewrite !inject_Z_opp. change (inject_Z 0) with 0. ring.
    + destruct (n + k <? 0)%Z eqn:Er; [apply Z.ltb_lt in Er|apply Z.ltb_ge in Er].
      * replace (Z.min (Z.abs n) (Z.abs k)) with k by lia. rewrite inject_Z_plus. ring.
      * replace (Z.min (Z.abs n) (Z.abs k)) with (- n)%Z by lia. rewrite inject_Z_plus, inject_Z_opp. ring.
Qed.

Lemma balanced_apply s fill c :
  balanced s c -> balanced (_apply_fill s fill) (- (inject_Z (signed_qty fill) * l_price fill) + c).
Proof.
  intros Hb. destruct (opens (net_qty s) (signed_qty fill)) eqn:E;
    [by apply balanced_open|by apply balanced_close].
Qed.

Lemma net_apply s fill : net_qty (_apply_fill s fill) = (net_qty s + signed_qty fill)%Z.
Proof. unfold _apply_fill. by destruct (opens _ _). Qed.

(** What the fills of a symbol leave, one after the other. *)
Lemma apply_to_lookup l m symbol :
  foldl apply_to m l !! symbol =
    match of_symbol symbol l with
    | [] => m !! symbol
    | l' => Some (foldl _apply_fill (default flat_position (m !! symbol)) l')
    end.
Proof.
  revert m. induction l as [|f l IH]; intros m; [done|]. cbn [foldl]. rewrite IH. clear IH.
  unfold of_symbol. cbn [List.filter]. destruct (String.eqb_spec (l_symbol f) symbol) as [<-|Hn].
  - unfold apply_to. rewrite lookup_insert_eq. cbn [default]. by destruct (List.filter _ l).
  - unfold apply_to. rewrite lookup_insert_ne by done. done.
Qed.

Lemma shares_cons f l : shares (f :: l) = (signed_qty f + shares l)%Z.
Proof. reflexivity. Qed.

Lemma balanced_all l : forall s c, balanced s c ->
  balanced (foldl _apply_fill s l) (foldl (fun c f => - (inject_Z (signed_qty f) * l_price f) + c) c l) /\
  net_qty (foldl _apply_fill s l) = (net_qty s + shares l)%Z.
Proof.
  induction l as [|f l IH]; intros s c Hb; cbn [foldl]; [split; [done|unfold shares; cbn [foldr]; lia]|].
  destruct (IH _ _ (balanced_apply s f c Hb)) as [H1 H2]. split; [done|].
  rewrite H2, net_apply, shares_cons. lia.
Qed.

Lemma cash_foldl l c :
  foldl (fun c f => - (inject_Z (signed_qty f) * l_price f) + c) c l == cash l + c.
Proof.
  revert c. induction l as [|f l IH]; intros c; cbn [foldl]; [unfold cash; cbn; ring|].
  rewrite IH. change (cash (f :: l)) with (- (inject_Z (signed_qty f) * l_price f) + cash l). ring.
Qed.

Lemma cash_cons f l : cash (f :: l) = - (inject_Z (signed_qty f) * l_price f) + cash l.
Proof. reflexivity. Qed.
Lemma cash_perm l l' : l ≡ₚ l' -> cash l == cash l'.
Proof.
  induction 1 as [|x l l' _ IH|x y l|l l' l'' _ IH _ IH']; rewrite ?cash_cons; [done|by rewrite IH|ring|by rewrite IH].
Qed.
Lemma shares_perm l l' : l ≡ₚ l' -> shares l = shares l'.
Proof. induction 1; rewrite ?shares_cons; lia. Qed.
Lemma of_symbol_perm symbol l l' : l ≡ₚ l' -> of_symbol symbol l ≡ₚ of_symbol symbol l'.
Proof.
  unfold of_symbol. induction 1 as [|x l l' _ IH|x y l|l l' l'' _ IH _ IH']; [done| | |by rewrite IH].
  - cbn. destruct (String.eqb _ _); [by rewrite IH|done].
  - cbn. destruct (String.eqb _ _), (String.eqb _ _); try done. constructor.
Qed.

Lemma unrealized_Q n avg m : _compute_unrealized n avg m == inject_Z n * (m - avg).
Proof.
  unfold _compute_unrealized. ints. destruct (0 <? n)%Z eqn:E; [done|]. apply Z.ltb_ge in E.
  destruct (n <? 0)%Z eqn:E'; [apply Z.ltb_lt in E'; rewrite inject_Z_abs_neg by done; ring|].
  apply Z.ltb_ge in E'. replace n with 0%Z by lia. change (inject_Z 0) with 0. ring.
Qed.

End books.

(** ** On concrete fills *)

Module Book.
Local Open Scope Q_scope.
Definition fill (fill_id symbol side : string) (qty : Z) (price : Q) (at_ : Z) : Fill Q :=
  {| l_fill_id := fill_id; l_order_id := "o"; l_external_order_id := "x"; l_signal_id := "s";
     l_symbol := symbol; l_side := side; l_qty := qty; l_price := price; l_filled_at := at_ |}.
(** Long, flipped short, and partly covered; and a round trip. *)
Definition fills : list (Fill Q) :=
  [fill "f1" "MSFT" "BUY" 10 100 1; fill "f2" "MSFT" "SELL" 15 110 2; fill "f3" "MSFT" "buy" 2 90 3;
   fill "f4" "AAPL" "BUY" 10 100 4; fill "f5" "AAPL" "SELL" 10 130 5].
Definition request : Request Q := {| latest_quotes := {[ "MSFT" := 95 ]}; req_as_of := None |}.
Definition sha (p : Payload (F := Q)) : string := str_of_Z (Z.of_nat (length (fst (fst p)))).
Definition empty : PortfolioDB Q := {| position_rows := []; snapshot_rows := []; pnl_rows := [] |}.
End Book.


Lemma reconcile_idempotent_witness :
  exists r d1,
    reconcile Book.sha Book.fills Book.request 7%Z Book.empty = (Ok r, d1) /\ idempotent r = false /\
    reconcile Book.sha (rev Book.fills) Book.request 9%Z d1 =
      (Ok {| snapshot := snapshot r; processed_fill_count := processed_fill_count r; idempotent := true;
             reconcile_key := reconcile_key r |}, d1).
Proof.
  destruct (reconcile Book.sha Book.fills Book.request 7%Z Book.empty) as [[r|e] d1] eqn:E;
    [|vm_compute in E; discriminate].
  exists r, d1. split; [done|]. split; [vm_compute in E; injection E as <- _; reflexivity|].
  apply (reconcile_idempotent Book.sha Book.fills (rev Book.fills) Book.request 7%Z 9%Z Book.empty d1 r); [|apply Permutation_rev|done].
  apply (bool_decide_unpack _). by vm_compute.
Defined.

(** The profit of a symbol that is flat again is left out of the snapshot's total: three
    hundred dollars of round trip on AAPL, and a realized profit of one hundred and
    forty. *)
Lemma closed_profit_is_not_reported :
  match fst (reconcile Book.sha Book.fills Book.request 7%Z Book.empty) with
  | Ok r => bool_decide (Qeq_bool (sn_realized_pnl (snapshot r)) (140 # 1)%Q = true) &&
            Qeq_bool (default 0%Q (st_realized <$> positions_of Book.fills !! "AAPL")) (300 # 1)%Q
  | Err _ => false
  end = true.
Proof. vm_compute. reflexivity. Qed.
