(* ===== verification/Reconcile.v ===== *)
(** * Reconciliation of the broker against the ledger

    Models [services/autonomy-orchestrator/src/autonomy_orchestrator/reconciliation.py] and
    [_run_reconciliation] of [main.py]: the comparison of two views of the positions, the
    counter of consecutive breaks, and the check that feeds the latch of the lifecycle
    store. A fetch and each call of the store may fail. Shown: a comparison reports
    exactly the identities whose totals differ beyond the tolerance, however the rows are
    split or ordered; and a divergence that persists stops every entry at the router,
    through the store, until an operator clears it. *)

From S2P Require Import PyFloat Routing Store StoreProofs StoreTheorems.
From S2P Require Import Contracts Journal Attribution Evidence Service Router Prelude.
From Stdlib Require Import Floats.SpecFloat QArith Qabs Lqa.
Local Close Scope Q_scope.
Local Open Scope Z_scope.

(** ** compare_positions *)

(** A quantity in a JSON row: absent or null, of a type [float] refuses, or a number. *)
Inductive Num (F : Type) := Absent | Refused | Number (x : F).
Arguments Absent {F}. Arguments Refused {F}. Arguments Number {F}.

(** The text [str] gives of the other fields; empty when absent or null. *)
Record Row (F : Type) := {
  rw_symbol : string;
  rw_account_id : string;
  rw_broker : string;
  rw_asset_class : string;
  rw_qty : Num F;
  rw_net_qty : Num F
}.
Arguments rw_symbol {F}. Arguments rw_account_id {F}. Arguments rw_broker {F}.
Arguments rw_asset_class {F}. Arguments rw_qty {F}. Arguments rw_net_qty {F}.

Definition Identity : Type := string * string * string * string.

Record PositionBreak (F : Type) := {
  pb_symbol : string;
  broker_qty : F;
  ledger_qty : F;
  pb_account_id : string;
  pb_broker : string;
  pb_asset_class : string
}.
Arguments pb_symbol {F}. Arguments broker_qty {F}. Arguments ledger_qty {F}.
Arguments pb_account_id {F}. Arguments pb_broker {F}. Arguments pb_asset_class {F}.

(** Lexicographic order of the identities. *)
Definition id_leb (a b : Identity) : bool :=
  let '(a1, a2, a3, a4) := a in
  let '(b1, b2, b3, b4) := b in
  if negb (String.eqb a1 b1) then String.leb a1 b1
  else if negb (String.eqb a2 b2) then String.leb a2 b2
  else if negb (String.eqb a3 b3) then String.leb a3 b3 else String.leb a4 b4.

Section compare.
Context {F : Type} `{HF : PyFloat F}.
Local Open Scope py_scope.

Definition QTY_TOLERANCE : F := nlit 1 1000000.

Definition difference (b : PositionBreak F) : F := broker_qty b - ledger_qty b.
Definition kind (b : PositionBreak F) : string :=
  if ledger_qty b =? nzero then "untracked_position"
  else if broker_qty b =? nzero then "phantom_position" else "quantity_mismatch".
Definition identity_text (b : PositionBreak F) : string :=
  pb_symbol b
  +:+ (if str_true (pb_account_id b) then " acct=" +:+ pb_account_id b else "")
  +:+ (if str_true (pb_broker b) then " broker=" +:+ pb_broker b else "").
Definition describe (b : PositionBreak F) : fstr F :=
  [Lit (identity_text b +:+ ": broker "); Fmt "g" (broker_qty b); Lit " vs ledger ";
   Fmt "g" (ledger_qty b); Lit (" (" +:+ kind b +:+ ")")].

(** [_qty]: the first of the names that holds a number. *)
Definition _qty (first second : Num F) : F :=
  match first, second with
  | Number x, _ => x
  | _, Number x => x
  | _, _ => nzero
  end.

Definition identity_of (r : Row F) : Identity :=
  (upper (strip (rw_symbol r)), upper (rw_account_id r), lower (rw_broker r), lower (rw_asset_class r)).
Definition named (r : Row F) : bool := str_true (upper (strip (rw_symbol r))).

Definition add_row (qty : Row F -> F) (totals : gmap Identity F) (r : Row F) : gmap Identity F :=
  if named r then <[identity_of r := default nzero (totals !! identity_of r) + qty r]> totals else totals.
Definition _aggregate (qty : Row F -> F) (rows : list (Row F)) : gmap Identity F :=
  foldl (add_row qty) ∅ rows.

Definition broker_view (r : Row F) : F := _qty (rw_qty r) (rw_net_qty r).
Definition ledger_view (r : Row F) : F := _qty (rw_net_qty r) (rw_qty r).

(** [set(broker) | set(ledger)], sorted. *)
Definition identities (broker ledger : gmap Identity F) : list Identity :=
  sort_by id_leb (elements (dom broker ∪ dom ledger)).

Definition break_of (k : Identity) (b l : F) : PositionBreak F :=
  let '(symbol, account_id, broker_name, asset_class) := k in
  {| pb_symbol := symbol; broker_qty := b; ledger_qty := l; pb_account_id := account_id;
     pb_broker := broker_name; pb_asset_class := asset_class |}.

Definition compare_one (broker ledger : gmap Identity F) (k : Identity) : list (PositionBreak F) :=
  let b := default nzero (broker !! k) in
  let l := default nzero (ledger !! k) in
  if nabs (b - l) >? QTY_TOLERANCE then [break_of k b l] else [].

Definition compare_positions (broker_positions ledger_positions : list (Row F)) : list (PositionBreak F) :=
  let broker := _aggregate broker_view broker_positions in
  let ledger := _aggregate ledger_view ledger_positions in
  concat (map (compare_one broker ledger) (identities broker ledger)).

(** ** The reconciler *)

Record ReconciliationResult := {
  checked_at : datetime;
  rr_ok : bool;
  breaks : list (PositionBreak F);
  broker_symbols : nat;
  ledger_symbols : nat;
  rr_error : option string;
  rr_consecutive_breaks : Z;
  rr_halted : bool
}.

Record Reconciler := {
  _breaks_before_halt : Z;
  _consecutive_breaks : Z;
  last_result : option ReconciliationResult
}.

Definition entries_blocked (r : Reconciler) : bool := (_breaks_before_halt r <=? _consecutive_breaks r)%Z.

Definition with_result (n : Z) (res : ReconciliationResult) (r : Reconciler) : Reconciler :=
  {| _breaks_before_halt := _breaks_before_halt r; _consecutive_breaks := n; last_result := Some res |}.

(** The two fetches, the first failure ending the check. *)
Definition Views : Type := result string (list (Row F) * list (Row F)).

Definition check (views : Views) (now : datetime) (r : Reconciler) : ReconciliationResult * Reconciler :=
  match views with
  | Err exc =>
      let res := {| checked_at := now; rr_ok := false; breaks := []; broker_symbols := 0; ledger_symbols := 0;
                    rr_error := Some exc; rr_consecutive_breaks := _consecutive_breaks r;
                    rr_halted := entries_blocked r |} in
      (res, with_result (_consecutive_breaks r) res r)
  | Ok (broker_positions, ledger_positions) =>
      let found := compare_positions broker_positions ledger_positions in
      let n := match found with [] => 0%Z | _ => (_consecutive_breaks r + 1)%Z end in
      let ok := match found with [] => true | _ => false end in
      let res := {| checked_at := now; rr_ok := ok; breaks := found;
                    broker_symbols := length broker_positions; ledger_symbols := length ledger_positions;
                    rr_error := None; rr_consecutive_breaks := n;
                    rr_halted := (_breaks_before_halt r <=? n)%Z |} in
      (res, with_result n res r)
  end.

Definition reset_reconciler (r : Reconciler) : Reconciler :=
  {| _breaks_before_halt := _breaks_before_halt r; _consecutive_breaks := 0; last_result := None |}.
End compare.
Arguments ReconciliationResult F : clear implicits.
Arguments Reconciler F : clear implicits.
Arguments Views F : clear implicits.

(** ** _run_reconciliation: the check feeds the durable latch *)

Section run.
Context {F : Type} `{HF : PyFloat F} (settings : StoreSettings).

(** Which of the store's two calls answer; None while no store is configured. *)
Record StoreUp := { live_mode_up : bool; record_up : bool }.

(** The audit event and the journalled decision of one run. *)
Record Report := { alerted : bool; outcome : option string }.

Definition set_durable (h : ReconciliationHalt) (res : ReconciliationResult F) : ReconciliationResult F :=
  {| checked_at := checked_at res; rr_ok := rr_ok res; breaks := breaks res;
     broker_symbols := broker_symbols res; ledger_symbols := ledger_symbols res; rr_error := rr_error res;
     rr_consecutive_breaks := consecutive_breaks h; rr_halted := halted h |}.

Definition report_of (res : ReconciliationResult F) : Report :=
  let notable := match breaks res with [] => str_true (default "" (rr_error res)) | _ => true end in
  {| alerted := notable;
     outcome := if notable then Some (if rr_halted res then "rejected" else "skipped") else None |}.

Definition _run_reconciliation (account : string) (store : option StoreUp) (views : Views F)
    (now : datetime) (r : Reconciler F) (d : DB F)
    : ReconciliationResult F * Report * Reconciler F * DB F :=
  let '(res, r) := check views now r in
  match store with
  | Some up =>
      if live_mode_up up && record_up up then
        let environment := if live_mode_enabled settings (Some account) d then "live" else "paper" in
        match record_reconciliation settings environment environment (rr_ok res)
                (Z.of_nat (length (breaks res))) (default "" (rr_error res))
                (match rr_error res with None => true | Some _ => false end) (Some account)
                (checked_at res) d with
        | (Ok durable, d) =>
            let res := set_durable durable res in
            (res, report_of res, with_result (_consecutive_breaks r) res r, d)
        | (Err _, d) => (res, report_of res, r, d)
        end
      else (res, report_of res, r, d)
  | None => (res, report_of res, r, d)
  end.

(** One run after the other, at the times given. *)
Definition runs (account : string) (views : list (Views F * datetime)) (w : Reconciler F * DB F)
    : Reconciler F * DB F :=
  foldl (fun w '(v, now) =>
    let '(_, _, r, d) :=
      _run_reconciliation account (Some {| live_mode_up := true; record_up := true |}) v now (fst w) (snd w) in
    (r, d)) w views.
End run.

(** ** A comparison reports the identities that differ *)

Section compared.
Local Open Scope Q_scope.
Implicit Types (rows : list (Row Q)) (k : Identity).

Definition total_of (view : Row Q -> Q) rows k : Q :=
  foldr (fun r acc => if named r && bool_decide (identity_of r = k) then view r + acc else acc) 0 rows.

Lemma add_rows_total view rows k : forall m,
  default 0 (foldl (add_row view) m rows !! k) == default 0 (m !! k) + total_of view rows k.
Proof.
  induction rows as [|r rows IH]; intros m; cbn [foldl total_of foldr]; [lra|].
  rewrite IH. fold (total_of view rows k). unfold add_row. destruct (named r); [|done]. cbn [andb].
  case_bool_decide as E.
  - subst k. rewrite lookup_insert_eq. cbn [default nadd exact]. change (nzero : Q) with 0. unfold Datatypes.id. ring.
  - by rewrite lookup_insert_ne by done.
Qed.

Lemma aggregate_total view rows k : default nzero (_aggregate view rows !! k) == total_of view rows k.
Proof.
  unfold _aggregate. change (nzero : Q) with 0. rewrite add_rows_total, lookup_empty. cbn. lra.
Qed.

Definition break_id (b : PositionBreak Q) : Identity :=
  (pb_symbol b, pb_account_id b, pb_broker b, pb_asset_class b).
Lemma break_id_of k x y : break_id (break_of k x y) = k.
Proof. by destruct k as [[[a b] c] d]. Qed.

Lemma elem_of_breaks broker ledger b :
  b ∈ concat (map (compare_one broker ledger) (identities broker ledger)) <->
  exists k, k ∈ identities broker ledger /\
    nltb QTY_TOLERANCE (nabs (nsub (default nzero (broker !! k)) (default nzero (ledger !! k)))) = true /\
    b = break_of k (default nzero (broker !! k)) (default nzero (ledger !! k)).
Proof.
  rewrite list_elem_of_In, in_concat. setoid_rewrite in_map_iff. split.
  - intros (l & (k & <- & Hk) & Hb). exists k. split; [by apply list_elem_of_In|].
    unfold compare_one in Hb. destruct (nltb _ _); [|done]. by destruct Hb as [<-|].
  - intros (k & Hk & E & ->). exists (compare_one broker ledger k). split; [exists k; split; [done|by apply list_elem_of_In]|].
    unfold compare_one. rewrite E. by left.
Qed.

Lemma Qabs_sub_eq a b c d : a == c -> b == d -> Qabs (a - b) == Qabs (c - d).
Proof. intros -> ->. reflexivity. Qed.

(** A comparison is exact about what diverges. A break is reported for an identity
    (symbol, account, broker and asset class) precisely when the sums of what the two
    views hold of it differ by more than the tolerance, in however many rows and in
    whatever order each view gives them, and at most once. *)
Theorem compare_reports_divergence broker_rows ledger_rows k :
  (k ∈ map break_id (compare_positions broker_rows ledger_rows) <->
   QTY_TOLERANCE < Qabs (total_of broker_view broker_rows k - total_of ledger_view ledger_rows k)) /\
  NoDup (map break_id (compare_positions broker_rows ledger_rows)).
Proof.
  unfold compare_positions. set (b := _aggregate broker_view broker_rows). set (l := _aggregate ledger_view ledger_rows).
  assert (forall k, nltb QTY_TOLERANCE (nabs (nsub (default nzero (b !! k)) (default nzero (l !! k)))) = true <->
    QTY_TOLERANCE < Qabs (total_of broker_view broker_rows k - total_of ledger_view ledger_rows k)) as Hq.
  { intros k'. rewrite Q_nltb. cbn [nabs nsub exact].
    pose proof (Qabs_sub_eq _ _ _ _ (aggregate_total broker_view broker_rows k')
      (aggregate_total ledger_view ledger_rows k')) as E. fold b l in E. split; intros; lra. }
  split.
  - rewrite elem_of_map. setoid_rewrite elem_of_breaks. rewrite <- Hq. split.
    + intros (x & -> & k' & Hk & E & ->). by rewrite break_id_of.
    + intros E. exists (break_of k (default nzero (b !! k)) (default nzero (l !! k))).
      split; [by rewrite break_id_of|]. exists k. split; [|done].
      unfold identities. rewrite elem_of_sort_by, elem_of_elements, elem_of_union, !elem_of_dom.
      destruct (b !! k), (l !! k); [eauto..|]. vm_compute in E. discriminate.
  - assert (NoDup (identities b l)) as Hn.
    { unfold identities. rewrite sort_by_perm. apply NoDup_elements. }
    clear Hq. induction Hn as [|x ks Hx Hn IH]; [constructor|]. cbn [map concat]. rewrite map_app.
    unfold compare_one at 1. destruct (nltb _ _); [|done]. cbn [map app]. rewrite break_id_of.
    constructor; [|done]. intros Hin. apply Hx.
    apply elem_of_map in Hin as (y & -> & Hy). apply list_elem_of_In, in_concat in Hy as (z & Hz & Hy).
    apply in_map_iff in Hz as (k' & <- & Hk'). unfold compare_one in Hy. destruct (nltb _ _); [|done].
    destruct Hy as [<-|[]]. rewrite break_id_of. by apply list_elem_of_In.
Qed.
End compared.

(** ** The counter, and what a divergence that persists does *)

Section persists.
Context {F : Type} `{HF : PyFloat F} (settings : StoreSettings).
Implicit Types (d : DB F) (r : Reconciler F).

Definition diverges (v : Views F) : bool :=
  match v with
  | Ok (b, l) => match compare_positions b l with [] => false | _ => true end
  | Err _ => false
  end.
Definition unreachable (v : Views F) : bool := match v with Err _ => true | Ok _ => false end.

(** The breaks since the last check that found none; an outage neither counts nor clears. *)
Definition streak (vs : list (Views F)) : Z :=
  foldl (fun n v => if unreachable v then n else if diverges v then (n + 1)%Z else 0%Z) 0%Z vs.

Definition checks (vs : list (Views F * datetime)) r : Reconciler F :=
  foldl (fun r '(v, now) => snd (check v now r)) r vs.

Lemma check_count v now r :
  _breaks_before_halt (snd (check v now r)) = _breaks_before_halt r /\
  _consecutive_breaks (snd (check v now r)) =
    if unreachable v then _consecutive_breaks r else if diverges v then (_consecutive_breaks r + 1)%Z else 0%Z.
Proof. destruct v as [[b l]|e]; cbn; [|done]. by destruct (compare_positions b l). Qed.

Lemma checks_count vs r n :
  _consecutive_breaks r = n ->
  _breaks_before_halt (checks vs r) = _breaks_before_halt r /\
  _consecutive_breaks (checks vs r) =
    foldl (fun n v => if unreachable v then n else if diverges v then (n + 1)%Z else 0%Z) n (map fst vs).
Proof.
  revert r n. induction vs as [|[v now] vs IH]; intros r n Hn; [done|]. cbn [checks foldl map fst].
  destruct (check_count v now r) as [Hb Hc]. fold (checks vs (snd (check v now r))).
  destruct (IH (snd (check v now r)) _ Hc) as [H1 H2]. rewrite H1, H2, Hb, Hn. done.
Qed.

(** Divergence must persist to be believed. After any checks, entries are blocked
    exactly when the breaks since the last clean comparison reach the threshold; checks
    that could not reach a service neither count nor clear. *)
Theorem blocked_iff_divergence_persists vs r :
  _consecutive_breaks r = 0%Z ->
  entries_blocked (checks vs r) = (_breaks_before_halt r <=? streak (map fst vs))%Z.
Proof.
  intros H. destruct (checks_count vs r 0 H) as [Hb Hc]. unfold entries_blocked. by rewrite Hb, Hc.
Qed.

(** *** Through the store to the router *)

Definition live_env account d : string := if live_mode_enabled settings (Some account) d then "live" else "paper".
Definition latch account d : ReconciliationHalt :=
  reconciliation_state settings (live_env account d) (live_env account d) (Some account) d.

Lemma record_keeps_mode b e ok n error available account now d account' :
  live_mode_enabled settings account' (snd (record_reconciliation settings b e ok n error available account now d)) =
  live_mode_enabled settings account' d.
Proof.
  unfold record_reconciliation, txn, mbind, prog_bind, reads, modifies.
  by destruct (next_latch _ _ _ _ _ _ _) as [[[? ?] ?] ?].
Qed.

(** A run that finds a break adds one to the latch and halts it at the threshold. *)
Lemma run_breaks account v now r d :
  diverges v = true ->
  let w := _run_reconciliation settings account (Some {| live_mode_up := true; record_up := true |}) v now r d in
  let d' := snd w in
  live_env account d' = live_env account d /\
  consecutive_breaks (latch account d') = consecutive_breaks (latch account d) + 1 /\
  halted (latch account d') =
    halted (latch account d) || (breaks_before_halt settings <=? consecutive_breaks (latch account d) + 1)%Z.
Proof.
  intros Hv. cbn zeta. unfold _run_reconciliation. destruct v as [[b l]|e]; [|done]. cbn [diverges check] in *.
  destruct (compare_positions b l) as [|x xs] eqn:Eb; [done|].
  cbn [andb live_mode_up record_up rr_ok breaks rr_error checked_at default].
  fold (live_env account d). set (en := live_env account d).
  set (n := Z.of_nat (length (x :: xs))). change (default "" None) with "".
  pose proof (record_reconciliation_spec settings en en false n "" true (Some account) now d) as Hs.
  pose proof (record_keeps_mode en en false n "" true (Some account) now d (Some account)) as Hm.
  cbn zeta in Hs. destruct (record_reconciliation _ _ _ _ _ _ _ _ _ d) as [res d'] eqn:Er. cbn [fst snd] in *.
  destruct Hs as (-> & _ & Hc & _ & _ & Hh). cbn [snd].
  assert (live_env account d' = en) as El by (unfold en, live_env; by rewrite Hm).
  split; [done|]. unfold latch. rewrite El. fold en. by rewrite Hc, Hh.
Qed.

Lemma runs_break account vs : forall r d,
  Forall (fun v => diverges (fst v) = true) vs ->
  let d' := snd (runs settings account vs (r, d)) in
  live_env account d' = live_env account d /\
  consecutive_breaks (latch account d') = consecutive_breaks (latch account d) + Z.of_nat (length vs) /\
  (halted (latch account d) = true \/
   (vs <> [] /\ (breaks_before_halt settings <= consecutive_breaks (latch account d) + Z.of_nat (length vs))) ->
   halted (latch account d') = true).
Proof.
  induction vs as [|[v now] vs IH]; intros r d Hv; cbn [runs foldl length].
  - split; [done|]. split; [cbn [snd]; lia|]. intros [?|[? _]]; done.
  - apply Forall_cons in Hv as [Hv Hvs]. cbn [fst snd] in *.
    pose proof (run_breaks account v now r d Hv) as Hr. cbn zeta in Hr.
    destruct (_run_reconciliation _ _ _ _ _ _ _) as [[[res rep] r1] d1]. cbn [snd] in Hr.
    destruct Hr as (E1 & C1 & H1). specialize (IH r1 d1 Hvs). cbn zeta in IH.
    fold (runs settings account vs (r1, d1)). destruct IH as (E2 & C2 & H2).
    split; [congruence|]. split; [rewrite C2, C1; lia|].
    intros Hh. apply H2. rewrite H1, C1. destruct Hh as [-> | [_ Hn]]; [by left|].
    destruct vs as [|v' vs]; [left|right; split; [done|]].
    + apply orb_true_iff. right. apply Z.leb_le. cbn [length] in Hn. lia.
    + cbn [length] in *. lia.
Qed.

(** C16. A divergence that persists stops every entry. When as many consecutive runs as the
    store's threshold asks for find the broker and the ledger apart, whatever the state of
    the latch before, every entry the router is then asked to route on that account is
    refused: no adapter, whatever the sleeve. *)
Theorem divergence_blocks_entries account vs r d e strategy symbol_ router :
  Forall (fun v => diverges (fst v) = true) vs -> vs <> [] ->
  0 <= consecutive_breaks (latch account d) -> breaks_before_halt settings <= Z.of_nat (length vs) ->
  has_store router = true ->
  let d' := snd (runs settings account vs (r, d)) in
  let routed := fst (route_order e (settings, d') strategy symbol_ account false router) in
  route (decision routed) = BLOCKED /\ adapter routed = None.
Proof.
  intros Hv Hne Hc Hn Hs. cbn zeta. pose proof (runs_break account vs r d Hv) as Hr. cbn zeta in Hr.
  set (d' := snd (runs settings account vs (r, d))) in *. destruct Hr as (_ & _ & Hh).
  assert (halted (latch account d') = true) as Hl by (apply Hh; right; split; [done|lia]).
  unfold latch, live_env in Hl.
  unfold route_order, _resolve_store. rewrite Hs. cbn [orb negb andb].
  unfold read_all. cbn [read_sleeve read_live_mode read_halt steady_reads].
  destruct (get settings strategy symbol_ (Some account) d') as [s|]; [|done].
  unfold resolve_route. rewrite Hl. cbn [intent_of route]. done.
Qed.
End persists.

(** ** On concrete views *)

Module Books.
Local Open Scope Q_scope.
Definition row (symbol : string) (qty : Q) : Row Q :=
  {| rw_symbol := symbol; rw_account_id := ""; rw_broker := ""; rw_asset_class := "";
     rw_qty := Number qty; rw_net_qty := Absent |}.
Definition ledger_row (symbol : string) (qty : Q) : Row Q :=
  {| rw_symbol := symbol; rw_account_id := ""; rw_broker := ""; rw_asset_class := "";
     rw_qty := Absent; rw_net_qty := Number qty |}.
(** Two lots at the broker; the ledger has the first. *)
Definition broker : list (Row Q) := [row "AAPL" 100; row " msft" 10; row "aapl" 50].
Definition ledger : list (Row Q) := [ledger_row "MSFT" 10; ledger_row "AAPL" 100].
Definition views : Views Q := Ok (broker, ledger).
Definition reconciler : Reconciler Q :=
  {| _breaks_before_halt := 2; _consecutive_breaks := 0; last_result := None |}.
Definition env : Env :=
  {| connects := true; configured_broker := ("alpaca", true); max_age_setting := 900; clock := 0%Z |}.
End Books.

Lemma blocked_iff_divergence_persists_witness :
  entries_blocked (checks [(Books.views, 1); (Err "timeout", 2); (Books.views, 3)] Books.reconciler) = true.
Proof. rewrite blocked_iff_divergence_persists; reflexivity. Defined.

Lemma divergence_blocks_entries_witness :
  let vs := [(Books.views, 10); (Books.views, 20)] in
  let d' := snd (runs Demo.settings "default" vs (Books.reconciler, @empty_db Q)) in
  adapter (fst (route_order Books.env (Demo.settings, d') "ema" "AAPL" "default" false
                  (build_router true true))) = None.
Proof.
  cbn zeta. apply (divergence_blocks_entries Demo.settings "default" [(Books.views, 10); (Books.views, 20)]
    Books.reconciler (@empty_db Q) Books.env "ema" "AAPL" (build_router true true));
    [repeat constructor|discriminate|vm_compute; discriminate..|reflexivity].
Defined.
