(* ===== verification/Policy.v ===== *)
(** * The policy service

    Models [services/policy-service/src/policy_service]: [rules.py] (the rules a signal is
    put through, with the market clock, the trading hours and the weekly spend they read),
    [merged_policy_config] of [config.py], and the calls of [main.py] over the tables of
    [models.py]. Also [is_market_hours] of
    [services/autonomy-orchestrator/src/autonomy_orchestrator/policy_config.py], the other
    reader of the same trading hours. The local time in a zone, the clock of the broker and
    the audit log are inputs of a call, and each may fail; numbers read from the
    environment are already parsed. Shown: a decision is exactly what the limits say, the
    reasons are the limits broken, and a stored decision reads back with its reasons. *)

From S2P Require Import PyFloat Store Prelude.
From Stdlib Require Import Ascii Floats.SpecFloat.

(** ** Text *)

(** [s.split(c)] *)
Fixpoint split_on (c : ascii) (s : string) : list string :=
  match s with
  | EmptyString => [""]
  | String a s =>
      if Ascii.eqb a c then "" :: split_on c s
      else match split_on c s with
           | [] => [String a ""]
           | x :: xs => String a x :: xs
           end
  end.

Definition digit_of (a : ascii) : option Z :=
  let n := Z.of_nat (nat_of_ascii a) in if (48 <=? n) && (n <=? 57) then Some (n - 48) else None.
Fixpoint digits (acc : Z) (s : string) : option Z :=
  match s with
  | EmptyString => Some acc
  | String a s => match digit_of a with Some d => digits (10 * acc + d) s | None => None end
  end.
(** [int(s)] of plain decimal text. *)
Definition py_int (s : string) : option Z :=
  match strip s with
  | EmptyString => None
  | String "-" EmptyString | String "+" EmptyString => None
  | String "-" s => Z.opp <$> digits 0 s
  | String "+" s => digits 0 s
  | s => digits 0 s
  end.

(** ** Configuration *)

Record TradingHours := {
  th_enabled : option bool;
  th_timezone : option string;
  th_days : option (list string);
  th_start : option string;
  th_end : option string
}.
Definition no_hours : TradingHours :=
  {| th_enabled := None; th_timezone := None; th_days := None; th_start := None; th_end := None |}.
(** [not trading_hours]: the dict has no key. *)
Definition hours_empty (h : TradingHours) : bool :=
  match h with
  | {| th_enabled := None; th_timezone := None; th_days := None; th_start := None; th_end := None |} => true
  | _ => false
  end.

(** The YAML baseline; a key it lacks is None. *)
Record PolicyConfig (F : Type) := {
  kill_switch : pyval F;
  symbol_allowlist : option (list string);
  trading_hours : option TradingHours;
  weekly_notional_cap_usd : option F;
  max_position_size_pct : option F;
  cfg_max_daily_drawdown_pct : option F;
  tier1_alert_threshold_usd : option F;
  tier3_hard_approval_required_usd : option F;
  max_concurrent_positions : option Z;
  cfg_risk_per_trade_pct : option F;
  cfg_atr_stop_multiplier : option F;
  max_sector_concentration : option Z
}.
Arguments kill_switch {F}. Arguments symbol_allowlist {F}. Arguments trading_hours {F}.
Arguments weekly_notional_cap_usd {F}. Arguments max_position_size_pct {F}.
Arguments cfg_max_daily_drawdown_pct {F}. Arguments tier1_alert_threshold_usd {F}.
Arguments tier3_hard_approval_required_usd {F}. Arguments max_concurrent_positions {F}.
Arguments cfg_risk_per_trade_pct {F}. Arguments cfg_atr_stop_multiplier {F}.
Arguments max_sector_concentration {F}.

Record PolicySettings (F : Type) := {
  max_size_pct : F;
  confidence_floor : F;
  max_data_age_seconds : Z;
  min_liquidity_score : F;
  max_daily_drawdown_pct : F;
  auto_approve_low_risk : bool;
  auto_reject_high_risk : bool;
  use_alpaca_clock : bool;
  alpaca_api_key : string
}.
Arguments max_size_pct {F}. Arguments confidence_floor {F}. Arguments max_data_age_seconds {F}.
Arguments min_liquidity_score {F}. Arguments max_daily_drawdown_pct {F}.
Arguments auto_approve_low_risk {F}. Arguments auto_reject_high_risk {F}.
Arguments use_alpaca_clock {F}. Arguments alpaca_api_key {F}.

(** The variables of the environment the two readers share. *)
Record PolicyEnv (F : Type) := {
  POLICY_MAX_SIZE_PCT : option F;
  POLICY_MAX_DAILY_DRAWDOWN_PCT : option F;
  POLICY_KILL_SWITCH : option string;
  POLICY_WEEKLY_CAP_USD : option F;
  POLICY_DISABLE_TRADING_HOURS : option string
}.
Arguments POLICY_MAX_SIZE_PCT {F}. Arguments POLICY_MAX_DAILY_DRAWDOWN_PCT {F}.
Arguments POLICY_KILL_SWITCH {F}. Arguments POLICY_WEEKLY_CAP_USD {F}.
Arguments POLICY_DISABLE_TRADING_HOURS {F}.

(** ** Requests and decisions *)

Record PolicyEvaluationRequest (F : Type) := {
  pq_signal_id : string;
  pq_symbol : string;
  pq_confidence : F;
  pq_size_pct : F;
  data_age_seconds : Z;
  market_open : bool;
  event_blackout_active : bool;
  liquidity_score : F;
  symbol_allowed : bool;
  daily_drawdown_pct : F;
  pq_risk_score : string
}.
Arguments pq_signal_id {F}. Arguments pq_symbol {F}. Arguments pq_confidence {F}.
Arguments pq_size_pct {F}. Arguments data_age_seconds {F}. Arguments market_open {F}.
Arguments event_blackout_active {F}. Arguments liquidity_score {F}. Arguments symbol_allowed {F}.
Arguments daily_drawdown_pct {F}. Arguments pq_risk_score {F}.

Record PolicyDecision (F : Type) := {
  pd_signal_id : string;
  pd_decision : string;
  pd_reasons : list string;
  approved_size_pct : F;
  policy_version : string;
  pd_tier : Z
}.
Arguments pd_signal_id {F}. Arguments pd_decision {F}. Arguments pd_reasons {F}.
Arguments approved_size_pct {F}. Arguments policy_version {F}. Arguments pd_tier {F}.

(** Now, in a zone: the day as [%a] has it, and the microseconds since midnight. *)
Record LocalTime := { lt_day : string; lt_micros : Z }.

Definition WEEKDAYS : list string := ["Mon"; "Tue"; "Wed"; "Thu"; "Fri"].

(** Hours and minutes, as [replace] takes them. *)
Definition clock_of (s : string) : option Z :=
  match map py_int (split_on ":" s) with
  | [Some h; Some m] =>
      if (0 <=? h) && (h <=? 23) && (0 <=? m) && (m <=? 59) then Some ((h * 60 + m) * 60000000) else None
  | _ => None
  end.

(** Inside the hours of a day; malformed text raises. *)
Definition within_day (h : TradingHours) (now : LocalTime) : result string bool :=
  if negb (str_in (lt_day now) (default WEEKDAYS (th_days h))) then Ok false
  else match clock_of (default "09:30" (th_start h)), clock_of (default "16:00" (th_end h)) with
       | Some start, Some stop => Ok ((start <=? lt_micros now) && (lt_micros now <=? stop))
       | _, _ => Err "ValueError"
       end.

Section policy.
Context {F : Type} `{HF : PyFloat F}.
Context (local_now : string -> option LocalTime).
Local Open Scope py_scope.

(** [_within_trading_hours] of the policy service: no hours, no limit; an unknown zone, none. *)
Definition _within_trading_hours (config : PolicyConfig F) : result string bool :=
  let h := default no_hours (trading_hours config) in
  if hours_empty h || negb (default true (th_enabled h)) then Ok true
  else match local_now (default "America/New_York" (th_timezone h)) with
       | None => Ok true
       | Some now => within_day h now
       end.

(** [is_market_hours] of the orchestrator: no hours, the default ones. *)
Definition is_market_hours (config : PolicyConfig F) : result string bool :=
  let h := default no_hours (trading_hours config) in
  if negb (default true (th_enabled h)) then Ok true
  else match local_now (default "America/New_York" (th_timezone h)) with
       | None => Ok true
       | Some now => within_day h now
       end.

(** [str(x).lower() == "true"] of the baseline's value. *)
Definition switch_on (v : pyval F) : bool := match v with PBool b => b | _ => false end.

Definition merged_policy_config (s : PolicySettings F) (env : PolicyEnv F) (baseline : PolicyConfig F)
    : PolicyConfig F :=
  {| kill_switch := PBool (match POLICY_KILL_SWITCH env with
                           | Some v => String.eqb (lower v) "true"
                           | None => switch_on (kill_switch baseline)
                           end);
     symbol_allowlist := symbol_allowlist baseline;
     trading_hours :=
       if String.eqb (lower (default "false" (POLICY_DISABLE_TRADING_HOURS env))) "true"
       then let h := default no_hours (trading_hours baseline) in
            Some {| th_enabled := Some false; th_timezone := th_timezone h; th_days := th_days h;
                    th_start := th_start h; th_end := th_end h |}
       else trading_hours baseline;
     weekly_notional_cap_usd :=
       match POLICY_WEEKLY_CAP_USD env with Some x => Some x | None => weekly_notional_cap_usd baseline end;
     max_position_size_pct :=
       Some (default (default (max_size_pct s * nofZ 100) (max_position_size_pct baseline))
               (POLICY_MAX_SIZE_PCT env));
     cfg_max_daily_drawdown_pct :=
       Some (default (default (max_daily_drawdown_pct s * nofZ 100) (cfg_max_daily_drawdown_pct baseline))
               (POLICY_MAX_DAILY_DRAWDOWN_PCT env));
     tier1_alert_threshold_usd := tier1_alert_threshold_usd baseline;
     tier3_hard_approval_required_usd := tier3_hard_approval_required_usd baseline;
     max_concurrent_positions := max_concurrent_positions baseline;
     cfg_risk_per_trade_pct := cfg_risk_per_trade_pct baseline;
     cfg_atr_stop_multiplier := cfg_atr_stop_multiplier baseline;
     max_sector_concentration := max_sector_concentration baseline |}.

(** ** What the rules read *)

(** [_alpaca_market_open]: cached for thirty seconds; an unreachable clock reads as open. *)
Definition ClockCache : Type := option (bool * F).
Definition _CLOCK_CACHE_TTL : F := nofZ 30.
Definition _alpaca_market_open (monotonic : F) (answer : option bool) (cache : ClockCache)
    : bool * ClockCache :=
  let fresh := match cache with
               | Some (is_open, fetched_at) =>
                   if monotonic - fetched_at <? _CLOCK_CACHE_TTL then Some is_open else None
               | None => None
               end in
  match fresh with
  | Some is_open => (is_open, cache)
  | None => match answer with
            | Some is_open => (is_open, Some (is_open, monotonic))
            | None => (true, cache)
            end
  end.

(** [_weekly_spend]: the amounts of the rows the audit log returns; a failure reads as zero. *)
Definition _weekly_spend (rows : option (list F)) : F :=
  match rows with Some amounts => nsum amounts | None => nzero end.

Definition _decision_tier (config : PolicyConfig F) (amount_usd : F) : Z :=
  if amount_usd >=? default (nofZ 500) (tier3_hard_approval_required_usd config) then 3
  else if amount_usd >=? default (nofZ 200) (tier1_alert_threshold_usd config) then 2 else 1.

(** What the world answers during one evaluation. *)
Record PolicyWorld := {
  monotonic : F;
  alpaca_answer : option bool;
  audit_rows : option (list F)
}.

(** The market is closed, and the name of the rule that says so. *)
Definition market_reason (s : PolicySettings F) (q : PolicyEvaluationRequest F) (w : PolicyWorld)
    (cache : ClockCache) : list string * ClockCache :=
  if use_alpaca_clock s && str_true (alpaca_api_key s) then
    let '(is_open, cache) := _alpaca_market_open (monotonic w) (alpaca_answer w) cache in
    (if is_open then [] else ["alpaca_market_closed"], cache)
  else (if market_open q then [] else ["market_closed"], cache).

Definition symbol_reason (config : PolicyConfig F) (q : PolicyEvaluationRequest F) : list string :=
  let allowlist := map upper (default [] (symbol_allowlist config)) in
  if match allowlist with [] => false | _ => negb (str_in (upper (pq_symbol q)) allowlist) end
  then ["symbol_not_allowed"]
  else if symbol_allowed q then [] else ["symbol_not_allowed"].

Definition when (b : bool) (reason : string) : list string := if b then [reason] else [].

Definition cap_of (s : PolicySettings F) (config : PolicyConfig F) : F :=
  default (max_size_pct s * nofZ 100) (max_position_size_pct config) / nofZ 100.
Definition drawdown_limit (s : PolicySettings F) (config : PolicyConfig F) : F :=
  default (max_daily_drawdown_pct s * nofZ 100) (cfg_max_daily_drawdown_pct config) / nofZ 100.
Definition weekly_exceeded (config : PolicyConfig F) (q : PolicyEvaluationRequest F) (w : PolicyWorld) : bool :=
  _weekly_spend (audit_rows w) + pq_size_pct q * nofZ 100000 >? default nzero (weekly_notional_cap_usd config).

(** The hard rules, in the order they are checked. *)
Definition hard_reasons (s : PolicySettings F) (config : PolicyConfig F) (q : PolicyEvaluationRequest F)
    (w : PolicyWorld) (market : list string) (within : bool) : list string :=
  when (max_data_age_seconds s <? data_age_seconds q)%Z "stale_data" ++
  when (pq_size_pct q >? cap_of s config) "max_size_exceeded" ++
  when (liquidity_score q <? min_liquidity_score s) "liquidity_too_low" ++
  market ++
  when (event_blackout_active q) "event_blackout" ++
  when (py_true (kill_switch config)) "kill_switch_active" ++
  symbol_reason config q ++
  when (negb within) "outside_trading_hours" ++
  when (daily_drawdown_pct q >=? drawdown_limit s config) "daily_drawdown_limit" ++
  when (weekly_exceeded config q w) "weekly_notional_cap_exceeded".

Definition decided (q : PolicyEvaluationRequest F) (decision : string) (reasons : list string) (size : F)
    (tier : Z) : PolicyDecision F * list string :=
  ({| pd_signal_id := pq_signal_id q; pd_decision := decision; pd_reasons := reasons;
      approved_size_pct := size; policy_version := "risk_policy_v1"; pd_tier := tier |}, reasons).

Definition evaluate_policy (s : PolicySettings F) (env : PolicyEnv F) (baseline : PolicyConfig F)
    (q : PolicyEvaluationRequest F) (w : PolicyWorld) (cache : ClockCache)
    : result string (PolicyDecision F * list string) * ClockCache :=
  let config := merged_policy_config s env baseline in
  if String.eqb (pq_risk_score q) "HIGH" && auto_reject_high_risk s then
    (Ok (decided q "REJECT" ["high_risk_auto_reject"] nzero 1), cache)
  else
    let '(market, cache) := market_reason s q w cache in
    match _within_trading_hours config with
    | Err e => (Err e, cache)
    | Ok within =>
        match hard_reasons s config q w market within with
        | (_ :: _) as reasons => (Ok (decided q "REJECT" reasons nzero 3), cache)
        | [] =>
            let size := nmin (pq_size_pct q) (cap_of s config) in
            let tier := _decision_tier config (size * nofZ 100000) in
            if String.eqb (pq_risk_score q) "LOW" && auto_approve_low_risk s then
              (Ok (decided q "APPROVE" ["low_risk_auto_approved"] size tier), cache)
            else if pq_confidence q <? confidence_floor s then
              (Ok (decided q "REVIEW" ["confidence_below_floor"] size tier), cache)
            else (Ok (decided q "APPROVE" [] size tier), cache)
        end
    end.

(** ** The service: every evaluation is stored with its reasons *)

Record PolicyEvaluationRecord := {
  pe_id : Z;
  pe_signal_id : string;
  pe_symbol : string;
  pe_decision : string;
  pe_approved_size_pct : F;
  pe_policy_version : string;
  reasons_json : string;
  pe_created_at : datetime
}.
Record PolicyDB := {
  evaluations : list PolicyEvaluationRecord;
  rule_hits : list (Z * string)
}.

Definition _persist_decision (q : PolicyEvaluationRequest F) (decision : PolicyDecision F)
    (hits : list string) (now : datetime) (d : PolicyDB) : PolicyDB :=
  let id := (1 + foldr (fun r m => Z.max (pe_id r) m) 0 (evaluations d))%Z in
  {| evaluations := evaluations d ++
       [{| pe_id := id; pe_signal_id := pq_signal_id q; pe_symbol := pq_symbol q;
           pe_decision := pd_decision decision; pe_approved_size_pct := approved_size_pct decision;
           pe_policy_version := policy_version decision; reasons_json := join "," (pd_reasons decision);
           pe_created_at := now |}];
     rule_hits := rule_hits d ++ map (fun h => (id, h)) hits |}.

(** [POST /v1/policy/evaluate]: no answer without its record. *)
Definition evaluate (s : PolicySettings F) (env : PolicyEnv F) (baseline : PolicyConfig F)
    (q : PolicyEvaluationRequest F) (w : PolicyWorld) (db_up : bool) (now : datetime)
    (st : ClockCache * PolicyDB) : result string (PolicyDecision F) * (ClockCache * PolicyDB) :=
  let '(cache, d) := st in
  match evaluate_policy s env baseline q w cache with
  | (Err e, cache) => (Err e, (cache, d))
  | (Ok (decision, hits), cache) =>
      if db_up then (Ok decision, (cache, _persist_decision q decision hits now d))
      else (Err "database", (cache, d))
  end.

Record EvaluationResponse := {
  er_signal_id : string;
  er_symbol : string;
  er_decision : string;
  er_reasons : list string;
  er_approved_size_pct : F;
  er_policy_version : string;
  er_created_at : datetime
}.
Definition response_of (row : PolicyEvaluationRecord) : EvaluationResponse :=
  {| er_signal_id := pe_signal_id row; er_symbol := pe_symbol row; er_decision := pe_decision row;
     er_reasons := List.filter str_true (split_on "," (reasons_json row));
     er_approved_size_pct := pe_approved_size_pct row; er_policy_version := pe_policy_version row;
     er_created_at := pe_created_at row |}.

(** Newest first, at most [limit]. *)
Definition list_evaluations (limit : nat) (symbol decision : option string) (d : PolicyDB)
    : list EvaluationResponse :=
  let matches (o : option string) (v : string) :=
    match o with Some x => negb (str_true x) || String.eqb v (upper x) | None => true end in
  map response_of (take limit
    (sort_by (fun a b => pe_created_at b <=? pe_created_at a)%Z
       (List.filter (fun r => matches symbol (pe_symbol r) && matches decision (pe_decision r))
          (evaluations d)))).
End policy.
Arguments PolicyWorld F : clear implicits.
Arguments ClockCache F : clear implicits.
Arguments PolicyDB F : clear implicits.
Arguments EvaluationResponse F : clear implicits.

(** ** A stored decision reads back *)

Fixpoint lacks (c : ascii) (s : string) : bool :=
  match s with EmptyString => true | String a s => negb (Ascii.eqb a c) && lacks c s end.

Lemma split_lacks c x : lacks c x = true -> split_on c x = [x].
Proof.
  induction x as [|a x IH]; [done|]. cbn. destruct (Ascii.eqb a c); [done|]. cbn. intros H. by rewrite IH.
Qed.
Lemma split_sep c x y : lacks c x = true -> split_on c (x +:+ String c "" +:+ y) = x :: split_on c y.
Proof.
  intros H. induction x as [|a x IH].
  - change (split_on c (String c y) = "" :: split_on c y). cbn -[Ascii.eqb]. by rewrite Ascii.eqb_refl.
  - change (split_on c (String a (x +:+ String c "" +:+ y)) = String a x :: split_on c y).
    cbn -[Ascii.eqb] in H |- *. destruct (Ascii.eqb a c); [done|]. by rewrite IH.
Qed.

(** What a list of names must be for [",".join] and [split(",")] to be inverse. *)
Definition plain (c : ascii) (x : string) : bool := str_true x && lacks c x.
Lemma split_join c l : forallb (plain c) l = true ->
  List.filter str_true (split_on c (join (String c "") l)) = l.
Proof.
  induction l as [|x l IH]; [done|]. cbn [forallb join]. unfold plain at 1.
  rewrite !andb_true_iff. intros [[Hx Hc] Hl]. destruct l as [|y l].
  - rewrite split_lacks by done. cbn. by rewrite Hx.
  - rewrite split_sep by done. cbn [List.filter]. rewrite Hx. by rewrite (IH Hl).
Qed.

Lemma forallb_app {A} (p : A -> bool) l l' : forallb p (l ++ l') = forallb p l && forallb p l'.
Proof. apply List.forallb_app. Qed.

(** ** The rules, one by one *)

Section each_rule.
Context {F : Type} `{HF : PyFloat F}.
Implicit Types (s : PolicySettings F) (config : PolicyConfig F) (q : PolicyEvaluationRequest F)
  (w : PolicyWorld F).

Definition tradable s q w cache : bool :=
  if use_alpaca_clock s && str_true (alpaca_api_key s)
  then fst (_alpaca_market_open (monotonic w) (alpaca_answer w) cache) else market_open q.
Definition listed config q : bool :=
  match default [] (symbol_allowlist config) with
  | [] => true
  | l => str_in (upper (pq_symbol q)) (map upper l)
  end.

Lemma when_nil b r : when b r = [] <-> b = false.
Proof. by destruct b. Qed.

Lemma symbol_reason_nil config q : symbol_reason config q = [] <-> listed config q = true /\ symbol_allowed q = true.
Proof.
  unfold symbol_reason, listed. destruct (default [] (symbol_allowlist config)) as [|x l]; cbn [map].
  - destruct (symbol_allowed q); intuition congruence.
  - destruct (str_in _ _), (symbol_allowed q); cbn; intuition congruence.
Qed.

Lemma market_nil s q w cache : fst (market_reason s q w cache) = [] <-> tradable s q w cache = true.
Proof.
  unfold market_reason, tradable. destruct (_ && _).
  - destruct (_alpaca_market_open _ _ _) as [[] ?]; cbn; intuition congruence.
  - destruct (market_open q); cbn; intuition congruence.
Qed.
End each_rule.

Section rules.
Context {F : Type} `{HF : PyFloat F}.
Context (local_now : string -> option LocalTime).
Implicit Types (s : PolicySettings F) (config : PolicyConfig F) (q : PolicyEvaluationRequest F)
  (w : PolicyWorld F).

Lemma plain_when b r : plain "," r = true -> forallb (plain ",") (when b r) = true.
Proof. intros H. destruct b; [|done]. cbn. by rewrite H. Qed.

Lemma hard_reasons_plain s config q w cache within :
  forallb (plain ",") (hard_reasons s config q w (fst (market_reason s q w cache)) within) = true.
Proof.
  unfold hard_reasons. rewrite !forallb_app, !plain_when by reflexivity.
  assert (forallb (plain ",") (fst (market_reason s q w cache)) = true) as ->.
  { unfold market_reason. destruct (_ && _); [|by destruct (market_open q)].
    destruct (_alpaca_market_open _ _ _) as [[] ?]; done. }
  assert (forallb (plain ",") (symbol_reason config q) = true) as ->; [|done].
  unfold symbol_reason. by repeat case_match.
Qed.

Lemma reasons_plain s env baseline q w cache d hits cache' :
  evaluate_policy local_now s env baseline q w cache = (Ok (d, hits), cache') ->
  forallb (plain ",") (pd_reasons d) = true /\ hits = pd_reasons d.
Proof.
  unfold evaluate_policy. destruct (_ && _); [by intros [= <- <- _]|].
  pose proof (hard_reasons_plain s (merged_policy_config s env baseline) q w cache) as Hp.
  destruct (market_reason s q w cache) as [market c]. cbn [fst] in Hp.
  destruct (_within_trading_hours _ _) as [within|]; [|done]. specialize (Hp within).
  destruct (hard_reasons _ _ _ _ _ _) as [|r rs]; [|by intros [= <- <- _]].
  destruct (_ && _); [by intros [= <- <- _]|]. destruct (nltb _ _); by intros [= <- <- _].
Qed.

(** A stored decision reads back as it was made: after an evaluation answered, the record
    it left is listed with the decision, the size and every reason in order, and its rule
    hits are those reasons. An evaluation whose record cannot be written is not answered. *)
Theorem evaluations_read_back s env baseline q w up now cache d dec cache' d' :
  evaluate local_now s env baseline q w up now (cache, d) = (Ok dec, (cache', d')) ->
  up = true /\
  exists row, evaluations d' = evaluations d ++ [row] /\
    response_of row =
      {| er_signal_id := pq_signal_id q; er_symbol := pq_symbol q; er_decision := pd_decision dec;
         er_reasons := pd_reasons dec; er_approved_size_pct := approved_size_pct dec;
         er_policy_version := policy_version dec; er_created_at := now |} /\
    rule_hits d' = rule_hits d ++ map (fun h => (pe_id row, h)) (pd_reasons dec) /\
    forall r, r ∈ evaluations d -> pe_id r < pe_id row.
Proof.
  unfold evaluate. destruct (evaluate_policy _ _ _ _ _ _ _) as [[[dec' hits]|e] c] eqn:E; [|done].
  apply reasons_plain in E as [Hp ->]. destruct up; [|done]. intros [= -> -> <-]. split; [done|].
  eexists. split; [reflexivity|]. split; [|split; [reflexivity|]].
  - unfold response_of. cbn. by rewrite (split_join "," _ Hp).
  - cbn. intros r Hr. clear -Hr. induction (evaluations d) as [|x l IH]; [by apply not_elem_of_nil in Hr|].
    apply elem_of_cons in Hr as [->|Hr]; cbn [foldr]; [lia|]. specialize (IH Hr). lia.
Qed.

(** ** What a decision means *)

(** The limits of the policy, as one condition. *)
Record limits_kept s config q w cache : Prop := {
  fresh : data_age_seconds q <= max_data_age_seconds s;
  sized : nltb (cap_of s config) (pq_size_pct q) = false;
  liquid : nltb (liquidity_score q) (min_liquidity_score s) = false;
  open : tradable s q w cache = true;
  no_blackout : event_blackout_active q = false;
  switch_off : py_true (kill_switch config) = false;
  on_list : listed config q = true /\ symbol_allowed q = true;
  in_hours : _within_trading_hours local_now config = Ok true;
  drawdown_ok : nleb (drawdown_limit s config) (daily_drawdown_pct q) = false;
  weekly_ok : weekly_exceeded config q w = false
}.

Lemma hard_reasons_nil s config q w cache within :
  _within_trading_hours local_now config = Ok within ->
  hard_reasons s config q w (fst (market_reason s q w cache)) within = [] <-> limits_kept s config q w cache.
Proof.
  intros Hw. unfold hard_reasons.
  rewrite !app_nil, !when_nil, symbol_reason_nil, market_nil, Z.ltb_ge, negb_false_iff.
  split.
  - intros (? & ? & ? & ? & ? & ? & ? & -> & ? & ?). by constructor.
  - intros []. destruct on_list0. split_and!; try done. congruence.
Qed.

(** An approval is one the limits allow. *)
Lemma approval_keeps_limits s env baseline q w cache d hits cache' :
  evaluate_policy local_now s env baseline q w cache = (Ok (d, hits), cache') ->
  pd_decision d = "APPROVE" -> limits_kept s (merged_policy_config s env baseline) q w cache.
Proof.
  unfold evaluate_policy. destruct (_ && auto_reject_high_risk s); [by intros [= <- _ _]|].
  destruct (market_reason s q w cache) as [market c] eqn:Em.
  destruct (_within_trading_hours local_now _) as [within|] eqn:Ew; [|done].
  pose proof (hard_reasons_nil s _ q w cache within Ew) as Hn. rewrite Em in Hn. cbn [fst] in Hn.
  destruct (hard_reasons _ _ _ _ _ _) as [|r rs]; [intros _ _; by apply Hn|]. by intros [= <- _ _].
Qed.

Definition rejects_high s q : bool := String.eqb (pq_risk_score q) "HIGH" && auto_reject_high_risk s.
Definition approves_low s q : bool := String.eqb (pq_risk_score q) "LOW" && auto_approve_low_risk s.

(** The policy decides what its limits say. A signal is approved exactly when it is not
    a high risk to be refused outright, every limit holds (age, size, liquidity, market,
    blackout, kill switch, allowlist, hours, drawdown, weekly notional) and its confidence
    reaches the floor or its risk is low enough not to need it; it goes to review when only
    the confidence is missing, and is refused with at least one reason otherwise. What is
    not refused keeps the size it asked for, which the cap allows. *)
Theorem policy_decides_by_its_limits s env baseline q w cache d hits cache' :
  evaluate_policy local_now s env baseline q w cache = (Ok (d, hits), cache') ->
  let config := merged_policy_config s env baseline in
  let passes := rejects_high s q = false /\ limits_kept s config q w cache in
  (pd_decision d = "APPROVE" <->
     passes /\ (approves_low s q = true \/ nltb (pq_confidence q) (confidence_floor s) = false)) /\
  (pd_decision d = "REVIEW" <->
     passes /\ approves_low s q = false /\ nltb (pq_confidence q) (confidence_floor s) = true) /\
  (pd_decision d = "REJECT" <-> ~ passes) /\
  (pd_decision d = "REJECT" -> pd_reasons d <> [] /\ approved_size_pct d = nzero) /\
  (pd_decision d <> "REJECT" -> approved_size_pct d = pq_size_pct q).
Proof.
  unfold evaluate_policy. fold (rejects_high s q) (approves_low s q).
  set (config := merged_policy_config s env baseline).
  destruct (rejects_high s q) eqn:Eh.
  { intros [= <- _ _]. cbn. naive_solver. }
  destruct (market_reason s q w cache) as [market c] eqn:Em.
  destruct (_within_trading_hours local_now config) as [within|] eqn:Ew; [|done].
  pose proof (hard_reasons_nil s config q w cache within Ew) as Hn. rewrite Em in Hn. cbn [fst] in Hn.
  destruct (hard_reasons s config q w market within) as [|r rs].
  - assert (limits_kept s config q w cache) as Hk by by apply Hn.
    assert (nmin (pq_size_pct q) (cap_of s config) = pq_size_pct q) as Es.
    { unfold nmin. by rewrite (sized _ _ _ _ _ Hk). }
    destruct (approves_low s q) eqn:El; [|destruct (nltb (pq_confidence q) (confidence_floor s)) eqn:Ec];
      intros [= <- _ _]; cbn; rewrite Es; naive_solver.
  - assert (~ limits_kept s config q w cache) as Hk by (intros H; apply Hn in H; done).
    intros [= <- _ _]. cbn. naive_solver.
Qed.
End rules.

(** ** On concrete requests *)

Module Rules.
Definition env : PolicyEnv spec_float :=
  {| POLICY_MAX_SIZE_PCT := None; POLICY_MAX_DAILY_DRAWDOWN_PCT := None; POLICY_KILL_SWITCH := None;
     POLICY_WEEKLY_CAP_USD := None; POLICY_DISABLE_TRADING_HOURS := None |}.
(** [float(os.getenv("POLICY_MAX_SIZE_PCT", "0.02"))] *)
Definition settings (env : PolicyEnv spec_float) : PolicySettings spec_float :=
  {| max_size_pct := default (nlit 2 100) (POLICY_MAX_SIZE_PCT env); confidence_floor := nlit 60 100;
     max_data_age_seconds := 30; min_liquidity_score := nlit 70 100;
     max_daily_drawdown_pct := default (nlit 3 100) (POLICY_MAX_DAILY_DRAWDOWN_PCT env);
     auto_approve_low_risk := true; auto_reject_high_risk := true; use_alpaca_clock := false;
     alpaca_api_key := "" |}.
Definition hours : TradingHours :=
  {| th_enabled := Some true; th_timezone := Some "America/New_York"; th_days := Some WEEKDAYS;
     th_start := Some "09:30"; th_end := Some "16:00" |}.
Definition baseline (hours : option TradingHours) : PolicyConfig spec_float :=
  {| kill_switch := PBool false; symbol_allowlist := Some ["aapl"; "MSFT"]; trading_hours := hours;
     weekly_notional_cap_usd := Some (nofZ 37500); max_position_size_pct := None;
     cfg_max_daily_drawdown_pct := None; tier1_alert_threshold_usd := None;
     tier3_hard_approval_required_usd := None; max_concurrent_positions := None;
     cfg_risk_per_trade_pct := None; cfg_atr_stop_multiplier := None; max_sector_concentration := None |}.
(** Eleven in the morning of a Tuesday; and of a Saturday. *)
Definition tuesday (zone : string) : option LocalTime := Some {| lt_day := "Tue"; lt_micros := 39600000000 |}.
Definition saturday (zone : string) : option LocalTime := Some {| lt_day := "Sat"; lt_micros := 39600000000 |}.
Definition request (symbol : string) (size confidence : spec_float) (age : Z) : PolicyEvaluationRequest spec_float :=
  {| pq_signal_id := "s1"; pq_symbol := symbol; pq_confidence := confidence; pq_size_pct := size;
     data_age_seconds := age; market_open := true; event_blackout_active := false;
     liquidity_score := nlit 95 100; symbol_allowed := true; daily_drawdown_pct := nzero;
     pq_risk_score := "MEDIUM" |}.
Definition world (rows : option (list spec_float)) : PolicyWorld spec_float :=
  {| monotonic := nzero; alpaca_answer := None; audit_rows := rows |}.
Definition verdict zone env base q rows : option (string * list string) :=
  match evaluate_policy zone (settings env) env base q (world rows) None with
  | (Ok (d, _), _) => Some (pd_decision d, pd_reasons d)
  | _ => None
  end.
End Rules.

(** At the cap, and just over it with a stale, unknown symbol on a Saturday. *)
Lemma policy_decides_by_its_limits_witness :
  Rules.verdict Rules.tuesday Rules.env (Rules.baseline (Some Rules.hours))
    (Rules.request "AAPL" (nlit 2 100) (nlit 9 10) 30) (Some []) = Some ("APPROVE", []) /\
  exists d hits cache,
    evaluate_policy Rules.saturday (Rules.settings Rules.env) Rules.env (Rules.baseline (Some Rules.hours))
      (Rules.request "TSLA" (nlit 3 100) (nlit 9 10) 31) (Rules.world None) None = (Ok (d, hits), cache) /\
    pd_reasons d = ["stale_data"; "max_size_exceeded"; "symbol_not_allowed"; "outside_trading_hours"] /\
    (pd_decision d = "REJECT" -> pd_reasons d <> [] /\ approved_size_pct d = nzero).
Proof.
  split; [vm_compute; reflexivity|].
  destruct (evaluate_policy Rules.saturday (Rules.settings Rules.env) Rules.env (Rules.baseline (Some Rules.hours))
      (Rules.request "TSLA" (nlit 3 100) (nlit 9 10) 31) (Rules.world None) None) as [[[d hits]|] cache] eqn:E;
    [|vm_compute in E; discriminate].
  exists d, hits, cache. split; [done|].
  split; [vm_compute in E; injection E as <- _ _; reflexivity|].
  apply (policy_decides_by_its_limits _ _ _ _ _ _ _ _ _ _ E).
Defined.

Lemma evaluations_read_back_witness :
  exists dec cache' d' row,
    evaluate Rules.saturday (Rules.settings Rules.env) Rules.env (Rules.baseline (Some Rules.hours))
      (Rules.request "TSLA" (nlit 3 100) (nlit 9 10) 31) (Rules.world None) true 5
      (None, {| evaluations := []; rule_hits := [] |}) = (Ok dec, (cache', d')) /\
    evaluations d' = [row] /\ er_reasons (response_of row) = pd_reasons dec /\ length (pd_reasons dec) = 4%nat.
Proof.
  destruct (evaluate Rules.saturday (Rules.settings Rules.env) Rules.env (Rules.baseline (Some Rules.hours))
      (Rules.request "TSLA" (nlit 3 100) (nlit 9 10) 31) (Rules.world None) true 5
      (None, {| evaluations := []; rule_hits := [] |})) as [[dec|] [cache' d']] eqn:E; [|vm_compute in E; discriminate].
  destruct (evaluations_read_back _ _ _ _ _ _ _ _ _ _ _ _ _ E) as (_ & row & H1 & H2 & _).
  exists dec, cache', d', row. split; [done|]. split; [exact H1|]. split; [by rewrite H2|].
  vm_compute in E. injection E as <- _ _. reflexivity.
Defined.

(** The default of the size setting is a fraction, two hundredths; the same text in the
    variable it is read from is taken as a percentage when the configuration is merged, a
    hundredth of it. *)
Lemma cap_variable_has_two_units :
  let set := {| POLICY_MAX_SIZE_PCT := Some (nlit 2 100); POLICY_MAX_DAILY_DRAWDOWN_PCT := None;
                POLICY_KILL_SWITCH := None; POLICY_WEEKLY_CAP_USD := None;
                POLICY_DISABLE_TRADING_HOURS := None |} in
  let base := Rules.baseline (Some Rules.hours) in
  let cap env := cap_of (Rules.settings env) (merged_policy_config (Rules.settings env) env base) in
  neqb (cap Rules.env) (nlit 2 100) && neqb (cap set) (nlit 2 10000) &&
  neqb (max_size_pct (Rules.settings set)) (max_size_pct (Rules.settings Rules.env)) = true.
Proof. vm_compute. reflexivity. Qed.

(** Without trading hours in the configuration the policy service trades at any time, and
    the orchestrator in the default hours only. *)
Lemma absent_hours_read_differently :
  _within_trading_hours Rules.saturday (Rules.baseline None) = Ok true /\
  is_market_hours Rules.saturday (Rules.baseline None) = Ok false.
Proof. split; reflexivity. Qed.

(** An evaluation is stored under the symbol as the request has it, and looked up in upper
    case: one asked for in lower case is never found by its symbol. *)
Lemma lower_case_symbol_is_not_found :
  match evaluate Rules.tuesday (Rules.settings Rules.env) Rules.env (Rules.baseline None)
          (Rules.request "aapl" (nlit 2 100) (nlit 9 10) 30) (Rules.world None) true 5
          (None, {| evaluations := []; rule_hits := [] |}) with
  | (Ok dec, (_, d)) =>
      (pd_decision dec, length (list_evaluations 20 None None d), length (list_evaluations 20 (Some "aapl") None d))
  | _ => ("", 0%nat, 0%nat)
  end = ("APPROVE", 1%nat, 0%nat).
Proof. vm_compute. reflexivity. Qed.

(** The audit log of the week is full, and the cap spent; while it cannot be read, the week
    reads as unspent and the order passes. *)
Lemma unreadable_spend_passes :
  let q := Rules.request "AAPL" (nlit 2 100) (nlit 9 10) 0 in
  let base := Rules.baseline (Some Rules.hours) in
  (Rules.verdict Rules.tuesday Rules.env base q (Some [nofZ 37000]),
   Rules.verdict Rules.tuesday Rules.env base q None) =
  (Some ("REJECT", ["weekly_notional_cap_exceeded"]), Some ("APPROVE", [])).
Proof. vm_compute. reflexivity. Qed.
