(* ===== verification/Json.v ===== *)
(** * JSON documents as the code reads them

    The reads of a parsed document the services share: subscripts and [get], truth and
    [or], [float], [int] and [str] of a value, iteration. What a float prints as, and what
    text and floats convert to, are parameters: the rest is Python's own. *)

From S2P Require Import Prelude PyFloat Policy.
From Stdlib Require Import Ascii String.

Section reads.
Context {F : Type} `{PyFloat F}.
(** [float(text)]; [int] of a float; [str] of a float or a container. *)
Context (float_of : string -> option F) (truncate : F -> option Z) (repr : json F -> string).
Local Open Scope py_scope.

(** [d[k]] *)
Definition field (k : string) (v : json F) : option (json F) :=
  match v with JDict d => dict_get k d | _ => None end.

(** [d.get(k)] of a dict. *)
Definition json_get (k : string) (d : list (string * json F)) : json F := default (JVal PNone) (dict_get k d).

(** [v.get(k)]: only a dict has it. *)
Definition field_get (k : string) (v : json F) : option (json F) :=
  match v with JDict d => Some (json_get k d) | _ => None end.

(** [bool(v)] *)
Definition json_true (v : json F) : bool :=
  match v with
  | JVal v => py_true v
  | JStr s => str_true s
  | JList l => match l with [] => false | _ => true end
  | JDict d => match d with [] => false | _ => true end
  end.

(** [v1 or v2 or ... or last] *)
Definition json_or (l : list (json F)) (final : json F) : json F :=
  foldr (fun v rest => if json_true v then v else rest) final l.

(** [d.get(k1) or d.get(k2) or ... or last] *)
Definition get_or (ks : list string) (final : json F) (d : list (string * json F)) : json F :=
  json_or (map (fun k => json_get k d) ks) final.

(** [float(v)] *)
Definition json_float (v : json F) : option F :=
  match v with
  | JVal (PFloat x) => Some x
  | JVal (PInt z) => Some (nofZ z)
  | JVal (PBool b) => Some (nofZ (if b then 1 else 0))
  | JStr s => float_of s
  | _ => None
  end.

(** [int(v)] *)
Definition json_int (v : json F) : option Z :=
  match v with
  | JVal (PFloat x) => truncate x
  | JVal (PInt z) => Some z
  | JVal (PBool b) => Some (if b then 1 else 0)
  | JStr s => py_int s
  | _ => None
  end.

(** [str(v)] *)
Definition json_str (v : json F) : string :=
  match v with
  | JStr s => s
  | JVal PNone => "None"
  | JVal (PBool b) => if b then "True" else "False"
  | JVal (PInt z) => str_of_Z z
  | v => repr v
  end.

(** [for row in rows] *)
Definition iterate (rows : json F) : option (list (json F)) :=
  match rows with
  | JList l => Some l
  | JDict d => Some (map (fun kv => JStr (fst kv)) d)
  | JStr s => Some (map (fun c => JStr (String c "")) (list_ascii_of_string s))
  | JVal _ => None
  end.
End reads.

(** ** JSON inside a text *)

(** From the first opening brace, and of that up to the last closing one: what
    [re.search] finds for a brace, anything, and a brace. *)
Fixpoint from_brace (s : string) : option string :=
  match s with
  | EmptyString => None
  | String a s' => if Nat.eqb (nat_of_ascii a) 123 then Some s else from_brace s'
  end.
Fixpoint upto_brace (s : string) : option string :=
  match s with
  | EmptyString => None
  | String a s' =>
      match upto_brace s' with
      | Some kept => Some (String a kept)
      | None => if Nat.eqb (nat_of_ascii a) 125 then Some (String a "") else None
      end
  end.
Definition braced (s : string) : option string := s ← from_brace s; upto_brace s.

(** A first true value, or the last one. *)
Lemma json_or_spec {F} `{PyFloat F} l final :
  json_or l final = final \/ exists v, v ∈ l /\ json_true v = true /\ json_or l final = v.
Proof.
  induction l as [|v l IH]; [by left|]. cbn. destruct (json_true v) eqn:E.
  - right. exists v. split; [left|done].
  - destruct IH as [IH|(w & Hw & Ht & He)]; [by left|right]. exists w. split; [by right|done].
Qed.
