(* ===== verification/Risk.v ===== *)
(** * The orchestrator's risk engine

    Models [services/autonomy-orchestrator/src/autonomy_orchestrator/risk_engine.py]: the
    checks a signal passes before the policy service sees it, and the volatility sizing of
    its position. The portfolio is what [_portfolio_state] returns. Shown: what an approval
    means, rule by rule; that the size approved stays within the cap to the rounding of the
    answer; and that volatility sizing risks the share of buying power it is told to. *)

From S2P Require Import PyFloat Store Indicators Policy Prelude.
From Stdlib Require Import Floats.SpecFloat QArith Qabs Lqa.
Local Close Scope Q_scope.
Local Open Scope Z_scope.

Definition SECTOR_MAP : list (string * string) :=
  [("SPY", "equity_index"); ("QQQ", "equity_index"); ("IWM", "equity_index"); ("TLT", "bonds");
   ("BND", "bonds"); ("SHY", "bonds"); ("GLD", "commodities"); ("AAPL", "tech"); ("MSFT", "tech");
   ("GOOGL", "tech"); ("AMZN", "tech"); ("NVDA", "tech"); ("META", "tech")].
Definition sector_of (symbol : string) : string := default "other" (dict_get (upper symbol) SECTOR_MAP).

(** [_portfolio_state]: the symbols of the positions, None where a row has none. *)
Record PortfolioState (F : Type) := {
  ps_positions : list (option string);
  buying_power : F;
  ps_daily_drawdown_pct : F
}.
Arguments ps_positions {F}. Arguments buying_power {F}. Arguments ps_daily_drawdown_pct {F}.

Record RiskAssessment (F : Type) := {
  ra_approved : bool;
  ra_reason : string;
  adjusted_size_pct : F;
  ra_tier : Z
}.
Arguments ra_approved {F}. Arguments ra_reason {F}. Arguments adjusted_size_pct {F}. Arguments ra_tier {F}.

Section risk.
Context {F : Type} `{HF : PyFloat F}.
Context (local_now : string -> option LocalTime).
Local Open Scope py_scope.

Definition compute_atr_size_pct (atr entry_price buying_power risk_per_trade_pct atr_stop_multiplier : F) : F :=
  if (atr <=? nzero) || (entry_price <=? nzero) || (buying_power <=? nzero) then nzero else
  let stop_distance := atr * atr_stop_multiplier in
  if stop_distance <=? nzero then nzero else
  let shares := (buying_power * risk_per_trade_pct) / stop_distance in
  let notional := shares * entry_price in
  notional / buying_power.

Definition refused (reason : string) (tier : Z) : RiskAssessment F :=
  {| ra_approved := false; ra_reason := reason; adjusted_size_pct := nzero; ra_tier := tier |}.

(** The size cap, and the size before rounding: the signal's, or the volatility's when there
    are bars for it, under the cap. *)
Definition risk_cap (config : PolicyConfig F) : F := default (nofZ 5) (max_position_size_pct config) / nofZ 100.
Definition sized (size_pct : F) (p : PortfolioState F) (config : PolicyConfig F)
    (price_bars : option (list (OHLCVBar F))) : F :=
  let cap := risk_cap config in
  match price_bars with
  | Some bars =>
      if (15 <=? length bars)%nat then
        let atr := compute_atr (map ob_high bars) (map ob_low bars) (map ob_close bars) 14 in
        let entry_price := match last bars with Some b => ob_close b | None => nzero end in
        let atr_size := compute_atr_size_pct atr entry_price (buying_power p)
                          (default (nlit 1 100) (cfg_risk_per_trade_pct config))
                          (default (nofZ 2) (cfg_atr_stop_multiplier config)) in
        if atr_size >? nzero then nmin atr_size cap else nmin size_pct cap
      else nmin size_pct cap
  | None => nmin size_pct cap
  end.

Definition same_sector (sector : string) (p : PortfolioState F) : Z :=
  Z.of_nat (length (List.filter (fun o => String.eqb (sector_of (default "" o)) sector) (ps_positions p))).

Definition risk_tier (config : PolicyConfig F) (proposed_amount : F) : Z := _decision_tier config proposed_amount.

Definition spends_over (size_pct : F) (p : PortfolioState F) (weekly_spend : F) (config : PolicyConfig F) : bool :=
  weekly_spend + buying_power p * size_pct >? default nzero (weekly_notional_cap_usd config).

Definition evaluate_risk (symbol : string) (size_pct : F) (p : PortfolioState F) (weekly_spend : F)
    (config : PolicyConfig F) (price_bars : option (list (OHLCVBar F))) : result string (RiskAssessment F) :=
  if py_true (kill_switch config) then Ok (refused "kill_switch_active" 3) else
  if negb (str_in (upper symbol) (map upper (default [] (symbol_allowlist config))))
  then Ok (refused "symbol_not_allowed" 3) else
  match is_market_hours local_now config with
  | Err e => Err e
  | Ok false => Ok (refused "outside_trading_hours" 2)
  | Ok true =>
      if spends_over size_pct p weekly_spend config then Ok (refused "weekly_notional_cap_exceeded" 3) else
      if (default 10 (max_concurrent_positions config) <=? Z.of_nat (length (ps_positions p)))%Z
      then Ok (refused "max_concurrent_positions_reached" 2) else
      let size := sized size_pct p config price_bars in
      if ps_daily_drawdown_pct p >? default (nofZ 3) (cfg_max_daily_drawdown_pct config) / nofZ 100
      then Ok (refused "daily_drawdown_limit" 3) else
      let sector := sector_of symbol in
      if negb (String.eqb sector "other") &&
         (default 2 (max_sector_concentration config) <=? same_sector sector p)%Z
      then Ok (refused ("sector_concentration_limit (" +:+ sector +:+ ")") 1) else
      let adjusted := nround 4 size in
      if (nzero <=? adjusted) && (adjusted <=? n_one) then
        Ok {| ra_approved := true; ra_reason := "approved"; adjusted_size_pct := adjusted;
              ra_tier := risk_tier config (buying_power p * size) |}
      else Err "ValidationError"
  end.
End risk.

(** ** What an approval means *)

Section approved.
Context {F : Type} `{HF : PyFloat F}.
Context (local_now : string -> option LocalTime).

(** The limits of the risk engine, as one condition. *)
Record risk_limits (symbol : string) (size_pct : F) (p : PortfolioState F) (weekly_spend : F)
    (config : PolicyConfig F) : Prop := {
  kill_off : py_true (kill_switch config) = false;
  allowed_symbol : str_in (upper symbol) (map upper (default [] (symbol_allowlist config))) = true;
  hours_open : is_market_hours local_now config = Ok true;
  weekly_room : spends_over size_pct p weekly_spend config = false;
  position_room : Z.of_nat (length (ps_positions p)) < default 10 (max_concurrent_positions config);
  drawdown_room :
    nltb (ndiv (default (nofZ 3) (cfg_max_daily_drawdown_pct config)) (nofZ 100)) (ps_daily_drawdown_pct p) = false;
  sector_room : sector_of symbol = "other" \/
    same_sector (sector_of symbol) p < default 2 (max_sector_concentration config)
}.

(** The risk engine approves a signal exactly when every limit holds: kill switch,
    allowlist, hours, weekly notional, number of positions, drawdown and sector. A refusal
    carries no size; an approval carries the size of the rule in force, rounded, and the
    tier of the amount it comes to. *)
Theorem risk_approves_within_limits symbol size_pct p weekly_spend config bars r :
  evaluate_risk local_now symbol size_pct p weekly_spend config bars = Ok r ->
  (ra_approved r = true <-> risk_limits symbol size_pct p weekly_spend config) /\
  (ra_approved r = true ->
     adjusted_size_pct r = nround 4 (sized size_pct p config bars) /\
     ra_tier r = risk_tier config (nmul (buying_power p) (sized size_pct p config bars))) /\
  (ra_approved r = false -> adjusted_size_pct r = nzero).
Proof.
  unfold evaluate_risk.
  destruct (py_true (kill_switch config)) eqn:E1.
  { intros [= <-]. cbn. split; [|done]. split; [done|]. intros []. congruence. }
  destruct (str_in _ _) eqn:E2; cbn [negb].
  2: { intros [= <-]. cbn. split; [|done]. split; [done|]. intros []. congruence. }
  destruct (is_market_hours local_now config) as [[]|] eqn:E3; [| |done].
  2: { intros [= <-]. cbn. split; [|done]. split; [done|]. intros []. congruence. }
  destruct (spends_over _ _ _ _) eqn:E4.
  { intros [= <-]. cbn. split; [|done]. split; [done|]. intros []. congruence. }
  destruct (_ <=? _)%Z eqn:E5.
  { apply Z.leb_le in E5. intros [= <-]. cbn. split; [|done]. split; [done|]. intros []. lia. }
  apply Z.leb_gt in E5. destruct (nltb _ (ps_daily_drawdown_pct p)) eqn:E6.
  { intros [= <-]. cbn. split; [|done]. split; [done|]. intros []. congruence. }
  destruct (negb _ && _) eqn:E7.
  { apply andb_true_iff in E7 as [E7%negb_true_iff%String.eqb_neq E8%Z.leb_le].
    intros [= <-]. cbn. split; [|done]. split; [done|]. intros []. destruct sector_room0; [done|lia]. }
  apply andb_false_iff in E7. destruct (_ && _); [|done].
  intros [= <-]. cbn. split; [|done]. split; [|done]. intros _.
  constructor; try done. destruct E7 as [E7%negb_false_iff%String.eqb_eq|E7%Z.leb_gt]; auto.
Qed.
End approved.

(** ** The size, exact arithmetic *)

Section size.
Local Open Scope Q_scope.

Lemma nmin_le (x y : Q) : nmin x y <= y.
Proof. unfold nmin. destruct (nltb y x) eqn:E; reflect_Q; lra. Qed.

Lemma sized_le size_pct p config bars : sized (F := Q) size_pct p config bars <= risk_cap config.
Proof.
  unfold sized. destruct bars as [bars|]; [|apply nmin_le].
  destruct (15 <=? length bars)%nat; [|apply nmin_le]. destruct (nltb _ _); apply nmin_le.
Qed.

(** The size of an approval is within the cap by half a unit of the rounding. *)
Lemma approved_size_capped local_now symbol size_pct p weekly_spend config bars r :
  evaluate_risk (F := Q) local_now symbol size_pct p weekly_spend config bars = Ok r -> ra_approved r = true ->
  adjusted_size_pct r <= risk_cap config + half_ulp 4.
Proof.
  intros H Ha. destruct (risk_approves_within_limits _ _ _ _ _ _ _ _ H) as (_ & Hs & _).
  destruct (Hs Ha) as [-> _]. pose proof (sized_le size_pct p config bars).
  destruct (Q_round_close 4 (sized size_pct p config bars)). lra.
Qed.

(** Volatility sizing risks what it is told to: a position of the size it returns,
    stopped out at the multiple of the average true range that its size was taken from,
    loses that share of the buying power exactly. *)
Theorem atr_size_risks_its_share atr entry_price power share mult :
  0 < atr -> 0 < entry_price -> 0 < power -> 0 < mult ->
  let size := compute_atr_size_pct (F := Q) atr entry_price power share mult in
  let shares := size * power / entry_price in
  shares * (atr * mult) == power * share.
Proof.
  intros Ha He Hp Hm. cbn zeta. unfold compute_atr_size_pct. change (nzero : Q) with 0.
  assert (0 < atr * mult) as Hd by by apply Qmult_lt_0_compat.
  destruct (_ || _) eqn:E.
  { rewrite !orb_true_iff in E. destruct E as [[E|E]|E]; reflect_Q; lra. }
  cbn [nmul ndiv exact]. assert (nleb (atr * mult) 0 = false) as -> by by apply Q_nleb_gt.
  field. repeat split; lra.
Qed.
End size.

(** ** On concrete signals *)

Module Signals.
Definition bar (open high low close : Q) : OHLCVBar Q :=
  {| ob_symbol := "AAPL"; ob_timestamp := 0; ob_open := open; ob_high := high; ob_low := low; ob_close := close; ob_volume := 0%Q |}.
Definition quiet : list (OHLCVBar Q) := repeat (bar 100 (1001 # 10) (999 # 10) 100) 20.
Definition config : PolicyConfig Q :=
  {| kill_switch := PBool false; symbol_allowlist := Some ["AAPL"; "TSM"]; trading_hours := Some Rules.hours;
     weekly_notional_cap_usd := Some 3000%Q; max_position_size_pct := Some 15%Q;
     cfg_max_daily_drawdown_pct := None; tier1_alert_threshold_usd := None;
     tier3_hard_approval_required_usd := None; max_concurrent_positions := None;
     cfg_risk_per_trade_pct := Some (1 # 10)%Q; cfg_atr_stop_multiplier := None; max_sector_concentration := None |}.
Definition portfolio : PortfolioState Q :=
  {| ps_positions := [Some "MSFT"; None]; buying_power := 100000%Q; ps_daily_drawdown_pct := 0%Q |}.
End Signals.

Lemma risk_approves_within_limits_witness :
  exists r, evaluate_risk Rules.tuesday "aapl" (2 # 100)%Q Signals.portfolio 0%Q Signals.config None = Ok r /\
    ra_approved r = true /\ risk_limits Rules.tuesday "aapl" (2 # 100)%Q Signals.portfolio 0%Q Signals.config.
Proof.
  destruct (evaluate_risk Rules.tuesday "aapl" (2 # 100)%Q Signals.portfolio 0%Q Signals.config None) as [r|] eqn:E;
    [|vm_compute in E; discriminate].
  exists r. assert (ra_approved r = true) as Ha by (vm_compute in E; injection E as <-; reflexivity).
  split; [done|]. split; [done|]. by apply (risk_approves_within_limits _ _ _ _ _ _ _ _ E).
Defined.

Lemma atr_size_risks_its_share_witness :
  (compute_atr_size_pct (F := Q) 2 100 50000 (1 # 100) 2 * 50000 / 100 * (2 * 2) == 50000 * (1 # 100))%Q.
Proof. apply (atr_size_risks_its_share 2 100 50000 (1 # 100) 2); reflexivity. Defined.

(** The weekly cap is checked against the size the signal asked for, and the volatility of
    the bars may then size the order above it: two thousand dollars asked for, fifteen
    thousand approved, in a week capped at three. *)
Lemma volatility_size_passes_the_weekly_cap :
  match evaluate_risk Rules.tuesday "AAPL" (2 # 100)%Q Signals.portfolio 0%Q Signals.config (Some Signals.quiet) with
  | Ok r => ra_approved r && Qeq_bool (adjusted_size_pct r) (15 # 100) &&
            nltb 3000%Q (nmul (buying_power Signals.portfolio) (adjusted_size_pct r))
  | Err _ => false
  end = true.
Proof. vm_compute. reflexivity. Qed.

(** A signal clamped to the cap and then rounded to four decimals may lie above it, where
    the policy service, reading the same cap, refuses it. *)
Lemma rounded_size_exceeds_the_cap :
  let config := {| kill_switch := PBool false; symbol_allowlist := Some ["AAPL"]; trading_hours := Some Rules.hours;
                   weekly_notional_cap_usd := Some (nofZ 90000); max_position_size_pct := Some (nlit 1236 1000);
                   cfg_max_daily_drawdown_pct := None; tier1_alert_threshold_usd := None;
                   tier3_hard_approval_required_usd := None; max_concurrent_positions := None;
                   cfg_risk_per_trade_pct := None; cfg_atr_stop_multiplier := None;
                   max_sector_concentration := None |} : PolicyConfig spec_float in
  let portfolio := {| ps_positions := []; buying_power := nofZ 100000; ps_daily_drawdown_pct := nzero |} in
  match evaluate_risk Rules.tuesday "AAPL" (nlit 5 100) portfolio nzero config None with
  | Ok r => (ra_approved r,
             Rules.verdict Rules.tuesday Rules.env config (Rules.request "AAPL" (adjusted_size_pct r) (nlit 9 10) 0) (Some []))
  | Err _ => (false, None)
  end = (true, Some ("REJECT", ["max_size_exceeded"])).
Proof. vm_compute. reflexivity. Qed.
