(* ===== verification/Cycle.v ===== *)
(** * The orchestrator's trading cycle

    Models the cycle of [services/autonomy-orchestrator/src/autonomy_orchestrator/main.py]:
    [run_cycle] with the deferred approvals, the pending signals and the exit pass, the
    sizing and submission of an order, the monthly limits and the weekly spend. The
    components it calls are those of [Risk], [DayTrade], [Monitors] and [Reconcile]; what the
    other services answer (a price, a verdict, an order, a gate) is an input of the signal
    it is asked for, and so is what other tasks do to the shared state while one is awaited.
    An exception is a value: a [RuntimeError] halts the cycle, any other leaves it. What the
    cycle does to the outside is a list of events. Shown: an order passed every guard, an
    accepted order is counted and protected, and the busy flag is released whatever
    happens. *)

From S2P Require Import PyFloat Store Contracts Indicators Signals Policy DayTrade Monitors Reconcile Risk Prelude.
From Stdlib Require Import Floats.SpecFloat QArith Qabs Lqa.
Local Close Scope Q_scope.
Local Open Scope Z_scope.

(** The body of an order's answer: [order.get(...)] of the fields the cycle reads. *)
Record OrderBody (F : Type) := {
  ob_status : string;
  rejection_reason : string;
  body_external_order_id : string;
  body_order_id : string;
  amount_usd : F;
  body_entry_price : F;
  body_qty : Z
}.
Arguments ob_status {F}. Arguments rejection_reason {F}. Arguments body_external_order_id {F}.
Arguments body_order_id {F}. Arguments amount_usd {F}. Arguments body_entry_price {F}. Arguments body_qty {F}.

(** What the execution service answers to a submission. *)
Inductive Submission := Unreachable (exc : string) | Answer (status reason external_order_id order_id : string).

(** What the cycle does to the other services, in order. *)
Inductive Action (F : Type) :=
| Submit (request : ExecutionOrderRequest F)
| CloseOrder (symbol position_id signal_id strategy_id : string)
| AskApproval (signal_id : string) (amount : F) (tier : Z)
| AskPolicy (request : PolicyEvaluationRequest F)
| Audit (event_type signal_id : string) (amount : F)
| Decide (stage outcome signal_id : string)
| Acted (signal_id : string).
Arguments Submit {F}. Arguments CloseOrder {F}. Arguments AskApproval {F}. Arguments AskPolicy {F}.
Arguments Audit {F}. Arguments Decide {F}. Arguments Acted {F}.

(** Settings and environment of the process. *)
Record CycleEnv (F : Type) := {
  ce_limits : Limits F;
  ce_pdt : PDTSettings F;
  max_adv_participation : F;
  use_limit_orders : bool;
  limit_tolerance_bps : F;
  bars_per_day : F;
  cfg_stop_loss_pct : option F;
  cfg_take_profit_pct : option F
}.
Arguments ce_limits {F}. Arguments ce_pdt {F}. Arguments max_adv_participation {F}.
Arguments use_limit_orders {F}. Arguments limit_tolerance_bps {F}. Arguments bars_per_day {F}.
Arguments cfg_stop_loss_pct {F}. Arguments cfg_take_profit_pct {F}.

(** The policy service's answer: unreachable, or a decision with its reasons. *)
Inductive PolicyAnswer := PolicyDown (exc : string) | Verdict (decision : string) (reasons : list string).

(** What one signal's turn finds. [w_others] is what other tasks do to the shared state
    between the guard's check and the record of the order. *)
Record SignalWorld (F : Type) := {
  w_today : Z;
  w_now : datetime;
  w_bars : option (list (OHLCVBar F));
  w_local_now : string -> option LocalTime;
  w_blackout : result string bool;
  w_policy : PolicyAnswer;
  w_gate : option string;
  w_quote : option F;
  w_submission : Submission;
  w_write_ok : bool;
  w_others : RiskState F -> RiskState F
}.
Arguments w_today {F}. Arguments w_now {F}. Arguments w_bars {F}. Arguments w_local_now {F}.
Arguments w_blackout {F}. Arguments w_policy {F}. Arguments w_gate {F}. Arguments w_quote {F}.
Arguments w_submission {F}. Arguments w_write_ok {F}. Arguments w_others {F}.

(** [OrchestratorState], less what the cycle does not read. *)
Record OrchestratorState (F : Type) := {
  running : bool;
  risk : RiskState F;
  weekly_notional_used : F;
  trades_today : Z;
  reconciler : Reconciler F;
  monthly_reset : Z * Z
}.
Arguments running {F}. Arguments risk {F}. Arguments weekly_notional_used {F}.
Arguments trades_today {F}. Arguments reconciler {F}. Arguments monthly_reset {F}.

(** The counters of the summary. *)
Record Summary := {
  status : string;
  why : string;
  approved : Z;
  rejected : Z;
  review : Z;
  executed : Z;
  signals : Z;
  paper_only : Z;
  closed : Z
}.
Definition empty_summary : Summary :=
  {| status := "completed"; why := ""; approved := 0; rejected := 0; review := 0; executed := 0;
     signals := 0; paper_only := 0; closed := 0 |}.
Definition count_signal (s : Summary) : Summary :=
  {| status := status s; why := why s; approved := approved s; rejected := rejected s; review := review s;
     executed := executed s; signals := signals s + 1; paper_only := paper_only s; closed := closed s |}.
Definition count_rejected (s : Summary) : Summary :=
  {| status := status s; why := why s; approved := approved s; rejected := rejected s + 1; review := review s;
     executed := executed s; signals := signals s; paper_only := paper_only s; closed := closed s |}.
Definition count_review (s : Summary) : Summary :=
  {| status := status s; why := why s; approved := approved s; rejected := rejected s; review := review s + 1;
     executed := executed s; signals := signals s; paper_only := paper_only s; closed := closed s |}.
Definition count_paper (s : Summary) : Summary :=
  {| status := status s; why := why s; approved := approved s; rejected := rejected s; review := review s;
     executed := executed s; signals := signals s; paper_only := paper_only s + 1; closed := closed s |}.
Definition count_executed (s : Summary) : Summary :=
  {| status := status s; why := why s; approved := approved s + 1; rejected := rejected s; review := review s;
     executed := executed s + 1; signals := signals s; paper_only := paper_only s; closed := closed s |}.
Definition count_closed (n : Z) (s : Summary) : Summary :=
  {| status := status s; why := why s; approved := approved s; rejected := rejected s; review := review s;
     executed := executed s + n; signals := signals s; paper_only := paper_only s; closed := n |}.
Definition count_more (n : Z) (s : Summary) : Summary :=
  {| status := status s; why := why s; approved := approved s; rejected := rejected s; review := review s;
     executed := executed s + n; signals := signals s; paper_only := paper_only s; closed := closed s |}.
Definition halt_summary (reason : string) (s : Summary) : Summary :=
  {| status := "halted"; why := reason; approved := approved s; rejected := rejected s; review := review s;
     executed := executed s; signals := signals s; paper_only := paper_only s; closed := closed s |}.

Section cycle.
Context {F : Type} `{HF : PyFloat F}.
Local Open Scope py_scope.

Definition with_running (b : bool) (s : OrchestratorState F) : OrchestratorState F :=
  {| running := b; risk := risk s; weekly_notional_used := weekly_notional_used s; trades_today := trades_today s;
     reconciler := reconciler s; monthly_reset := monthly_reset s |}.
Definition with_risk (r : RiskState F) (s : OrchestratorState F) : OrchestratorState F :=
  {| running := running s; risk := r; weekly_notional_used := weekly_notional_used s; trades_today := trades_today s;
     reconciler := reconciler s; monthly_reset := monthly_reset s |}.
Definition with_weekly (x : F) (s : OrchestratorState F) : OrchestratorState F :=
  {| running := running s; risk := risk s; weekly_notional_used := x; trades_today := trades_today s;
     reconciler := reconciler s; monthly_reset := monthly_reset s |}.
Definition with_trade (s : OrchestratorState F) : OrchestratorState F :=
  {| running := running s; risk := risk s; weekly_notional_used := weekly_notional_used s;
     trades_today := (trades_today s + 1)%Z; reconciler := reconciler s; monthly_reset := monthly_reset s |}.
Definition with_reconciler (r : Reconciler F) (s : OrchestratorState F) : OrchestratorState F :=
  {| running := running s; risk := risk s; weekly_notional_used := weekly_notional_used s; trades_today := trades_today s;
     reconciler := r; monthly_reset := monthly_reset s |}.

(** ** Reads *)

Definition _side_of (action : string) : string := upper action.
Definition _strategy_of (signal : SignalCandidate F) : string := str_or (sc_strategy signal) DEFAULT_LIVE_STRATEGY.
Definition _order_accepted (order : OrderBody F) : bool :=
  negb (str_in (upper (ob_status order)) ["REJECTED"; "CANCELLED"]).

(** [_portfolio_state]: None while a service is unreachable; each answer is None unless it
    came with 200. *)
Definition _portfolio_state (answers : option (option (list (option string)) * option F)) : PortfolioState F :=
  let '(positions, power) := default (None, None) answers in
  {| ps_positions := default [] positions; buying_power := default (nofZ 100000) power;
     ps_daily_drawdown_pct := nzero |}.

(** The amounts of the audit rows of type [trade.executed]; None when they cannot be read. *)
Definition _weekly_spend_of (rows : option (list F)) : F :=
  match rows with Some amounts => nround 2 (nsum amounts) | None => nzero end.
Definition _weekly_spend_safe (rows : option (list F)) (s : OrchestratorState F) : F :=
  let spend := _weekly_spend_of rows in
  if (spend =? nzero) && (weekly_notional_used s >? nzero) then weekly_notional_used s else spend.

Definition reset_month (month : Z * Z) (s : OrchestratorState F) : OrchestratorState F :=
  let r := risk s in
  {| running := running s;
     risk := {| stop_loss_monitor := stop_loss_monitor r; take_profit_monitor := take_profit_monitor r;
                day_trades := day_trades r; monthly_realized_loss_usd := nzero;
                monthly_realized_profit_usd := nzero; notices := notices r |};
     weekly_notional_used := weekly_notional_used s; trades_today := trades_today s;
     reconciler := reconciler s; monthly_reset := month |}.
Definition _check_monthly_reset (month : Z * Z) (s : OrchestratorState F) : OrchestratorState F :=
  if ((fst month =? fst (monthly_reset s)) && (snd month =? snd (monthly_reset s)))%Z then s
  else reset_month month s.
Definition _monthly_limits_ok (limits : Limits F) (month : Z * Z) (s : OrchestratorState F)
    : bool * OrchestratorState F :=
  let s := _check_monthly_reset month s in
  (negb (monthly_realized_loss_usd (risk s) >=? monthly_loss_limit_usd limits) &&
   negb (monthly_realized_profit_usd (risk s) >=? monthly_profit_target_usd limits), s).

(** ** The policy request of a signal *)

Definition _policy_request (signal : SignalCandidate F) (r : RiskAssessment F) (config : PolicyConfig F)
    (p : PortfolioState F) (w : SignalWorld F) : result exn (PolicyEvaluationRequest F) :=
  match w_blackout w with
  | Err e => Err (Uncaught e)
  | Ok blackout =>
      match is_market_hours (w_local_now w) config with
      | Err e => Err (Uncaught e)
      | Ok open =>
          let size := nor (adjusted_size_pct r) (sc_size_pct signal) in
          if negb ((size >? nzero) && (size <=? n_one)) then Err (Uncaught "validation error") else
          Ok {| pq_signal_id := sc_signal_id signal; pq_symbol := sc_symbol signal;
                pq_confidence := sc_confidence signal; pq_size_pct := size;
                data_age_seconds := Z.max 0 (Z.quot (w_now w - default 0 (sc_as_of signal)) 1000000)%Z;
                market_open := open; event_blackout_active := blackout; liquidity_score := nlit 95 100;
                symbol_allowed := str_in (upper (sc_symbol signal)) (map upper (default [] (symbol_allowlist config)));
                daily_drawdown_pct := ps_daily_drawdown_pct p; pq_risk_score := sc_risk_score signal |}
      end
  end.

(** ** _submit_order *)

Definition no_order (reason : string) : OrderBody F :=
  {| ob_status := "REJECTED"; rejection_reason := reason; body_external_order_id := ""; body_order_id := "";
     amount_usd := nzero; body_entry_price := nzero; body_qty := 0 |}.

(** The request of an order of [qty] shares. *)
Definition order_request (env : CycleEnv F) (signal : SignalCandidate F) (qty : Z) (price : F) (limit_price : option F)
    : ExecutionOrderRequest F :=
  let marketable := match limit_price with Some _ => true | None => false end in
  {| rq_signal_id := sc_signal_id signal; rq_symbol := sc_symbol signal; rq_side := candidate_action signal;
     rq_qty := qty; rq_order_type := if marketable then "LIMIT" else "MARKET";
     rq_time_in_force := if marketable then "IOC" else "DAY";
     rq_stop_loss_rate := Some (price * (n_one - default (nlit 3 100) (cfg_stop_loss_pct env)));
     rq_take_profit_rate := Some (price * (n_one + default (nlit 6 100) (cfg_take_profit_pct env)));
     rq_limit_price := limit_price; rq_decision_price := Some price; rq_strategy_id := _strategy_of signal;
     rq_account_id := account (ce_limits env); rq_reduce_only := false;
     rq_fields_set := ["signal_id"; "symbol"; "side"; "qty"; "order_type"; "time_in_force"; "limit_price";
                       "decision_price"; "stop_loss_rate"; "take_profit_rate"; "strategy_id"; "account_id"] |}.

(** The shares the amount buys at the price, trimmed to the participation cap. *)
Definition order_qty_of (env : CycleEnv F) (amount price : F) (bars : option (list (OHLCVBar F))) : Z :=
  let qty := ntrunc (amount / price) in
  let adv := average_daily_volume (map (fun b => Some (ob_volume b)) (default [] bars)) (Some (bars_per_day env)) in
  let capped := participation_capped_qty qty adv (max_adv_participation env) in
  if (capped <? qty)%Z then capped else qty.

Definition _submit_order (env : CycleEnv F) (signal : SignalCandidate F) (r : RiskAssessment F)
    (p : PortfolioState F) (w : SignalWorld F) : result exn (OrderBody F) * list (Action F) :=
  let amount := nround 2 (buying_power p * adjusted_size_pct r) in
  match w_quote w with
  | None => (Ok (no_order "no_quote_for_sizing"), [])
  | Some price =>
      if price <=? nzero then (Ok (no_order "no_quote_for_sizing"), []) else
      if negb (nfinite (amount / price)) then (Err (Uncaught "cannot convert float to integer"), []) else
      let qty := order_qty_of env amount price (w_bars w) in
      if (qty <? 1)%Z then (Ok (no_order "qty_below_one_share"), []) else
      match (if use_limit_orders env
             then marketable_limit_price (Some price) (_side_of (candidate_action signal)) (limit_tolerance_bps env)
             else Ok None) with
      | Err (ValueErr e) => (Err (Uncaught e), [])
      | Ok limit_price =>
          (Ok match w_submission w with
              | Unreachable exc => no_order ("execution_unreachable: " +:+ exc)
              | Answer st reason external_id id =>
                  {| ob_status := st; rejection_reason := reason; body_external_order_id := external_id;
                     body_order_id := id; amount_usd := amount; body_entry_price := price; body_qty := qty |}
              end,
           [Submit (order_request env signal qty price limit_price)])
      end
  end.

Definition filled_order (b : OrderBody F) : FilledOrder F :=
  {| order_entry_price := body_entry_price b; order_qty := nofZ (body_qty b);
     external_order_id := body_external_order_id b; order_id := body_order_id b |}.

(** An accepted entry: counted by the day-trade guard, protected by both monitors. *)
Definition book_entry (env : CycleEnv F) (signal : SignalCandidate F) (order : OrderBody F) (w : SignalWorld F)
    (s : OrchestratorState F) : OrchestratorState F :=
  let side := _side_of (candidate_action signal) in
  let r := with_days (record_open (sc_symbol signal) (w_today w) (w_write_ok w) (day_trades (risk s))) (risk s) in
  let r := _register_stop_loss (ce_limits env) (sc_symbol signal) (filled_order order) (default [] (w_bars w))
             side (_strategy_of signal) (w_now w) (w_write_ok w) r in
  let r := _register_take_profit (ce_limits env) (sc_symbol signal) (filled_order order) side
             (_strategy_of signal) (w_now w) (w_write_ok w) r in
  with_risk r s.

(** ** One pending signal *)

(** The variables of the loop, and what was done so far. *)
Record Loop := {
  l_state : OrchestratorState F;
  l_weekly : F;
  l_summary : Summary;
  l_actions : list (Action F)
}.
Definition on_summary (f : Summary -> Summary) (l : Loop) : Loop :=
  {| l_state := l_state l; l_weekly := l_weekly l; l_summary := f (l_summary l); l_actions := l_actions l |}.
Definition on_state (f : OrchestratorState F -> OrchestratorState F) (l : Loop) : Loop :=
  {| l_state := f (l_state l); l_weekly := l_weekly l; l_summary := l_summary l; l_actions := l_actions l |}.
Definition act (a : list (Action F)) (l : Loop) : Loop :=
  {| l_state := l_state l; l_weekly := l_weekly l; l_summary := l_summary l; l_actions := l_actions l ++ a |}.
Definition spend (x : F) (l : Loop) : Loop :=
  {| l_state := with_weekly (l_weekly l + x) (l_state l); l_weekly := l_weekly l + x; l_summary := l_summary l;
     l_actions := l_actions l |}.

Definition others (w : SignalWorld F) (l : Loop) : Loop :=
  on_state (fun s => with_risk (w_others w (risk s)) s) l.

Definition rejected_by (event : string) (signal : SignalCandidate F) (l : Loop) : Loop :=
  act [Audit event (sc_signal_id signal) nzero] l.

(** [if decision == "APPROVE" and risk.tier < 3]: the gate, the order, and its books. *)
Definition trade (env : CycleEnv F) (signal : SignalCandidate F) (r : RiskAssessment F) (p : PortfolioState F)
    (w : SignalWorld F) (l : Loop) : result exn unit * Loop :=
  match w_gate w with
  | Some _ =>
      (Ok tt, act [Decide "lifecycle_gate" "not_traded" (sc_signal_id signal);
                   Audit "signal.paper_only" (sc_signal_id signal) nzero; Acted (sc_signal_id signal)]
                (on_summary count_paper l))
  | None =>
      match _submit_order env signal r p w with
      | (Err e, done_) => (Err e, act done_ l)
      | (Ok order, done_) =>
          let l := act done_ l in
          if negb (_order_accepted order) then
            (Ok tt, rejected_by "signal.rejected" signal (on_summary count_rejected l))
          else
            let l := on_state (book_entry env signal order w) l in
            let l := act [Decide "order" "executed" (sc_signal_id signal)] l in
            let l := on_state with_trade (spend (amount_usd order) l) in
            (Ok tt, act [Audit "trade.executed" (sc_signal_id signal) (amount_usd order); Acted (sc_signal_id signal)]
                      (on_summary count_executed l))
      end
  end.

Definition signal_turn (env : CycleEnv F) (config : PolicyConfig F) (p : PortfolioState F) (equity : option F)
    (halted_ : bool) (signal : SignalCandidate F) (w : SignalWorld F) (l : Loop) : result exn unit * Loop :=
  let l := on_summary count_signal l in
  if halted_ then (Ok tt, on_summary count_rejected l) else
  let pdt := check_entry (ce_pdt env) equity (w_today w) (day_trades (risk (l_state l))) in
  if negb (allowed pdt) then
    (Ok tt, rejected_by "signal.rejected" signal
              (act [Decide "pdt" "rejected" (sc_signal_id signal)] (on_summary count_rejected (others w l))))
  else
  match evaluate_risk (w_local_now w) (sc_symbol signal) (sc_size_pct signal) p (l_weekly l) config (w_bars w) with
  | Err e => (Err (Uncaught e), l)
  | Ok r =>
      if negb (ra_approved r) then
        (Ok tt, rejected_by "signal.rejected" signal
                  (act [Decide "risk" "rejected" (sc_signal_id signal)] (on_summary count_rejected (others w l))))
      else
      match _policy_request signal r config p w with
      | Err e => (Err e, l)
      | Ok q =>
          let l := others w (act [AskPolicy q] l) in
          match w_policy w with
          | PolicyDown exc => (Err (RuntimeError ("Policy service unreachable: " +:+ exc)), l)
          | Verdict decision _ =>
              if String.eqb decision "APPROVE" && (ra_tier r <? 3)%Z then trade env signal r p w l
              else if String.eqb decision "REVIEW" || (3 <=? ra_tier r)%Z then
                (Ok tt, act [AskApproval (sc_signal_id signal)
                               (nround 2 (nofZ 100000 * nor (adjusted_size_pct r) (sc_size_pct signal))) (ra_tier r);
                             Audit "signal.review" (sc_signal_id signal) nzero] (on_summary count_review l))
              else (Ok tt, rejected_by "signal.rejected" signal (on_summary count_rejected l))
          end
      end
  end.

(** A loop over signals: an exception ends it. *)
Fixpoint each {A} (body : A -> Loop -> result exn unit * Loop) (xs : list A) (l : Loop) : result exn unit * Loop :=
  match xs with
  | [] => (Ok tt, l)
  | x :: xs =>
      match body x l with
      | (Ok _, l) => each body xs l
      | (Err e, l) => (Err e, l)
      end
  end.

(** ** _process_approvals *)

(** One approved row; the flag says whether the loop goes on. *)
Definition approval_turn (env : CycleEnv F) (config : PolicyConfig F) (p : PortfolioState F) (equity : option F)
    (signal : SignalCandidate F) (w : SignalWorld F) (l : Loop) : result exn bool * Loop :=
  if negb (allowed (check_entry (ce_pdt env) equity (w_today w) (day_trades (risk (l_state l))))) then (Ok false, l) else
  match evaluate_risk (w_local_now w) (sc_symbol signal) (sc_size_pct signal) p (l_weekly l) config (w_bars w) with
  | Err e => (Err (Uncaught e), l)
  | Ok r =>
      if negb (ra_approved r) then (Ok true, rejected_by "approval.stale_rejected" signal (others w l)) else
      match _policy_request signal r config p w with
      | Err e => (Err e, l)
      | Ok q =>
          let l := others w (act [AskPolicy q] l) in
          match w_policy w with
          | PolicyDown exc => (Err (RuntimeError ("Policy service unreachable: " +:+ exc)), l)
          | Verdict decision _ =>
              if negb (String.eqb decision "APPROVE") then
                (Ok true, rejected_by "approval.stale_rejected" signal l)
              else
              match _submit_order env signal r p w with
              | (Err e, done_) => (Err e, act done_ l)
              | (Ok order, done_) =>
                  let l := act done_ l in
                  if negb (_order_accepted order) then (Ok true, l)
                  else
                    (Ok true, act [Audit "trade.executed.approval" (sc_signal_id signal) (amount_usd order);
                                   Acted (sc_signal_id signal)]
                                (spend (amount_usd order) (on_state (book_entry env signal order w) l)))
              end
          end
      end
  end.

Fixpoint approvals (env : CycleEnv F) (config : PolicyConfig F) (p : PortfolioState F) (equity : option F)
    (rows : list (SignalCandidate F * SignalWorld F)) (l : Loop) : result exn unit * Loop :=
  match rows with
  | [] => (Ok tt, l)
  | (signal, w) :: rows =>
      match approval_turn env config p equity signal w l with
      | (Err e, l) => (Err e, l)
      | (Ok false, l) => (Ok tt, l)
      | (Ok true, l) => approvals env config p equity rows l
      end
  end.

(** What the deferred approvals find; [ap_rows] is None unless the gateway answered 200. *)
Record ApprovalsWorld := {
  ap_rows : option (list (SignalCandidate F * SignalWorld F));
  ap_config : PolicyConfig F;
  ap_portfolio : option (option (list (option string)) * option F);
  ap_audit_rows : option (list F);
  ap_month : Z * Z;
  ap_equity : option F;
  ap_today : Z
}.

Definition _process_approvals (env : CycleEnv F) (w : ApprovalsWorld) (s : OrchestratorState F)
    : result exn unit * OrchestratorState F * list (Action F) :=
  match ap_rows w with
  | None => (Ok tt, s, [])
  | Some rows =>
      if py_true (kill_switch (ap_config w)) then (Ok tt, s, []) else
      let p := _portfolio_state (ap_portfolio w) in
      let weekly := _weekly_spend_of (ap_audit_rows w) in
      let '(ok, s) := _monthly_limits_ok (ce_limits env) (ap_month w) s in
      if negb ok then (Ok tt, s, []) else
      if negb (allowed (check_entry (ce_pdt env) (ap_equity w) (ap_today w) (day_trades (risk s)))) then
        (Ok tt, s, map (fun row => Audit "signal.rejected" (sc_signal_id (fst row)) nzero) rows)
      else
        let '(res, l) := approvals env (ap_config w) p (ap_equity w) rows
          {| l_state := s; l_weekly := weekly; l_summary := empty_summary; l_actions := [] |} in
        (res, l_state l, l_actions l)
  end.

(** ** _process_exit_signals *)

(** A position row: its symbol and the identity the close names. *)
Record ExitsWorld := {
  ex_positions : option (list (string * string));
  ex_signals : list (SignalCandidate F * option Z);   (** with the status code of the close *)
  ex_today : Z;
  ex_write_ok : bool
}.

(** [_clear_risk_records(signal.symbol)]: a string has none of the attributes it reads. *)
Definition clear_after_exit (symbol : string) (ok : bool) (r : RiskState F) : RiskState F :=
  _clear_risk_records "" "" "default" "" ok r.

Definition exit_turn (positions : list (string * string)) (w : ExitsWorld) (x : SignalCandidate F * option Z)
    (acc : Z * OrchestratorState F * list (Action F)) : Z * OrchestratorState F * list (Action F) :=
  let '(n, s, a) := acc in
  let '(signal, code) := x in
  match List.find (fun row => String.eqb (upper (fst row)) (upper (sc_symbol signal))) (rev positions) with
  | None => (n, s, a)
  | Some row =>
      let position_id := str_or (snd row) (sc_symbol signal) in
      let a := a ++ [CloseOrder (sc_symbol signal) position_id (sc_signal_id signal) (_strategy_of signal)] in
      match code with
      | Some c =>
          if ((c =? 200) || (c =? 201))%Z then
            let r := clear_after_exit (sc_symbol signal) (ex_write_ok w) (risk s) in
            let r := with_days (snd (record_close (sc_symbol signal) (ex_today w) (ex_write_ok w) (day_trades r))) r in
            ((n + 1)%Z, with_risk r s, a ++ [Audit "trade.closed" (sc_signal_id signal) nzero; Acted (sc_signal_id signal)])
          else (n, s, a)
      | None => (n, s, a)
      end
  end.

Definition _process_exit_signals (w : ExitsWorld) (s : OrchestratorState F)
    : Z * OrchestratorState F * list (Action F) :=
  foldl (fun acc x => exit_turn (default [] (ex_positions w)) w x acc) (0%Z, s, []) (ex_signals w).

(** ** run_cycle *)

Record CycleWorld := {
  cw_config : PolicyConfig F;
  cw_audit_rows : option (list F);
  cw_approvals : ApprovalsWorld;
  cw_month : Z * Z;
  cw_signals : list (SignalCandidate F * SignalWorld F);
  cw_portfolio : option (option (list (option string)) * option F);
  cw_equity : option F;
  cw_views : Views F;
  cw_now : datetime;
  cw_exits : ExitsWorld;
  cw_eod : option ExitsWorld   (** [close_positions_eod], inside its quarter of an hour *)
}.

(** Everything inside the [try]. *)
Definition cycle_body (env : CycleEnv F) (w : CycleWorld) (s : OrchestratorState F) : result exn unit * Loop :=
  let weekly := _weekly_spend_safe (cw_audit_rows w) s in
  let s := with_weekly weekly s in
  match _process_approvals env (cw_approvals w) s with
  | (Err e, s, a) => (Err e, {| l_state := s; l_weekly := weekly; l_summary := empty_summary; l_actions := a |})
  | (Ok _, s, a) =>
      let '(ok, s) := _monthly_limits_ok (ce_limits env) (cw_month w) s in
      let l := {| l_state := s; l_weekly := weekly; l_summary := empty_summary; l_actions := a |} in
      if negb ok then (Ok tt, l) else
      let pending := List.filter (fun x => negb (String.eqb (candidate_action (fst x)) "EXIT")) (cw_signals w) in
      let p := _portfolio_state (cw_portfolio w) in
      let '(reconciliation, r) := check (cw_views w) (cw_now w) (reconciler s) in
      let l := on_state (with_reconciler r) l in
      let l := if rr_halted reconciliation then act [Decide "reconcile" "rejected" ""] l else l in
      match each (fun x => signal_turn env (cw_config w) p (cw_equity w) (rr_halted reconciliation) (fst x) (snd x))
              pending l with
      | (Err e, l) => (Err e, l)
      | (Ok _, l) =>
          let '(n, s, a) := _process_exit_signals (cw_exits w) (l_state l) in
          let l := act a (on_summary (count_closed n) (on_state (fun _ => s) l)) in
          match cw_eod w with
          | None => (Ok tt, l)
          | Some eod =>
              let '(n, s, a) := _process_exit_signals eod (l_state l) in
              (Ok tt, act a (on_summary (count_more n) (on_state (fun _ => s) l)))
          end
      end
  end.

(** The summary the caller gets, or the exception that left; the state and the actions. *)
Definition run_cycle (env : CycleEnv F) (w : CycleWorld) (s : OrchestratorState F)
    : result exn Summary * OrchestratorState F * list (Action F) :=
  if py_true (kill_switch (cw_config w)) then
    (Ok (halt_summary "kill_switch_active" empty_summary), s, [])
  else
    let '(res, l) := cycle_body env w (with_running true s) in
    let s := with_running false (l_state l) in
    let a := l_actions l ++ [Audit "orchestrator.cycle" "" nzero] in
    match res with
    | Ok _ => (Ok (l_summary l), s, a)
    | Err (RuntimeError msg) => (Ok (halt_summary msg (l_summary l)), s, a)
    | Err e => (Err e, s, a)
    end.
End cycle.
Arguments Loop F : clear implicits.
Arguments ApprovalsWorld F : clear implicits.
Arguments ExitsWorld F : clear implicits.
Arguments CycleWorld F : clear implicits.

(** ** Orders pass every guard *)

Section guards.
Context {F : Type} `{HF : PyFloat F}.
Implicit Types (l : Loop F) (signal : SignalCandidate F) (w : SignalWorld F) (o : ExecutionOrderRequest F).

(** What an order of a signal has passed: the day-trade guard in the state it found, the
    risk engine at the week's spend, the policy service, and it is for that signal. *)
Record cleared (env : CycleEnv F) (config : PolicyConfig F) (p : PortfolioState F) (equity : option F)
    signal w o (r : RiskAssessment F) : Prop := {
  cl_day_trades : exists t, allowed (check_entry (ce_pdt env) equity (w_today w) t) = true;
  cl_risk : exists weekly, evaluate_risk (w_local_now w) (sc_symbol signal) (sc_size_pct signal) p weekly config
                             (w_bars w) = Ok r /\ ra_approved r = true;
  cl_policy : exists reasons, w_policy w = Verdict "APPROVE" reasons;
  cl_order : Submit o ∈ snd (_submit_order env signal r p w)
}.

Definition submits (o : ExecutionOrderRequest F) (a : list (Action F)) : Prop := Submit o ∈ a.

Lemma submits_app o a b : submits o (a ++ b) <-> submits o a \/ submits o b.
Proof. apply elem_of_app. Qed.

Ltac no_submit := repeat (rewrite elem_of_cons in * ); rewrite ?elem_of_nil in *; naive_solver.

Lemma trade_submits env signal r p w l o :
  submits o (l_actions (snd (trade env signal r p w l))) ->
  submits o (l_actions l) \/ (w_gate w = None /\ Submit o ∈ snd (_submit_order env signal r p w)).
Proof.
  unfold trade, rejected_by. destruct (w_gate w).
  - cbn. rewrite submits_app. intros [?|H]; [by left|]. unfold submits in H. no_submit.
  - destruct (_submit_order env signal r p w) as [[order|e] done_]; cbn.
    + destruct (_order_accepted order); cbn; rewrite !submits_app; intros H; unfold submits in *; no_submit.
    + rewrite submits_app. unfold submits. tauto.
Qed.

Lemma signal_turn_submits env config p equity halted_ signal w l o :
  submits o (l_actions (snd (signal_turn env config p equity halted_ signal w l))) ->
  submits o (l_actions l) \/
  (halted_ = false /\ w_gate w = None /\ exists r, ra_tier r < 3 /\ cleared env config p equity signal w o r).
Proof.
  unfold signal_turn, rejected_by. destruct halted_; [by left|].
  destruct (allowed (check_entry _ _ _ _)) eqn:Ed; cbn [negb]; [|cbn; rewrite !submits_app; unfold submits; no_submit].
  destruct (evaluate_risk _ _ _ _ _ _ _) as [r|e] eqn:Er; [|by left].
  destruct (ra_approved r) eqn:Ea; cbn [negb]; [|cbn; rewrite !submits_app; unfold submits; no_submit].
  destruct (_policy_request _ _ _ _ _) as [q|e] eqn:Eq; [|by left].
  destruct (w_policy w) as [exc|decision reasons] eqn:Ew; [cbn; rewrite submits_app; unfold submits; no_submit|].
  destruct (String.eqb decision "APPROVE" && (ra_tier r <? 3)) eqn:E.
  - apply andb_true_iff in E as [->%String.eqb_eq Et%Z.ltb_lt]. intros [H|[Hg H]]%trade_submits.
    + cbn in H. rewrite submits_app in H. unfold submits in *. no_submit.
    + right. split; [done|]. split; [done|]. exists r. split; [done|]. split; [eauto..|done].
  - destruct (_ || _); cbn; rewrite !submits_app; unfold submits; no_submit.
Qed.

Lemma each_submits {A} (body : A -> Loop F -> result exn unit * Loop F) (P : A -> Prop) o xs l :
  (forall x l, x ∈ xs -> submits o (l_actions (snd (body x l))) -> submits o (l_actions l) \/ P x) ->
  submits o (l_actions (snd (each body xs l))) -> submits o (l_actions l) \/ exists x, x ∈ xs /\ P x.
Proof.
  revert l. induction xs as [|x xs IH]; intros l Hb; cbn [each]; [by left|].
  destruct (body x l) as [[u|e] l'] eqn:E.
  - intros H. apply IH in H as [H|(y & Hy & HP)]; [|right; exists y; split; [by constructor|done]|].
    + pose proof (Hb x l (list_elem_of_here _ _)) as Hx. rewrite E in Hx. cbn in Hx. apply Hx in H as [?|?]; [by left|].
      right. exists x. split; [constructor|done].
    + intros y l'' Hy. apply Hb. by constructor.
  - intros H. pose proof (Hb x l (list_elem_of_here _ _)) as Hx. rewrite E in Hx. cbn in Hx, H.
    apply Hx in H as [?|?]; [by left|]. right. exists x. split; [constructor|done].
Qed.

Lemma approval_turn_submits env config p equity signal w l o :
  submits o (l_actions (snd (approval_turn env config p equity signal w l))) ->
  submits o (l_actions l) \/ exists r, cleared env config p equity signal w o r.
Proof.
  unfold approval_turn, rejected_by.
  destruct (allowed (check_entry _ _ _ _)) eqn:Ed; cbn [negb]; [|by left].
  destruct (evaluate_risk _ _ _ _ _ _ _) as [r|e] eqn:Er; [|by left].
  destruct (ra_approved r) eqn:Ea; cbn [negb]; [|cbn; rewrite !submits_app; unfold submits; no_submit].
  destruct (_policy_request _ _ _ _ _) as [q|e] eqn:Eq; [|by left].
  destruct (w_policy w) as [exc|decision reasons] eqn:Ew; [cbn; rewrite submits_app; unfold submits; no_submit|].
  destruct (String.eqb decision "APPROVE") eqn:E; cbn [negb]; [|cbn; rewrite !submits_app; unfold submits; no_submit].
  apply String.eqb_eq in E as ->.
  destruct (_submit_order env signal r p w) as [[order|e] done_] eqn:Es;
    [destruct (_order_accepted order)|]; cbn; rewrite ?submits_app; intros H;
    (assert (submits o (l_actions l) \/ submits o done_) as [?|?] by (unfold submits in *; no_submit));
    [by left|right|by left|right|by left|right]; exists r; (split; [eauto..|by rewrite Es]).
Qed.

Lemma approvals_submits env config p equity rows l o :
  submits o (l_actions (snd (approvals env config p equity rows l))) ->
  submits o (l_actions l) \/
  exists signal w r, (signal, w) ∈ rows /\ cleared env config p equity signal w o r.
Proof.
  revert l. induction rows as [|[signal w] rows IH]; intros l; cbn [approvals]; [by left|].
  pose proof (approval_turn_submits env config p equity signal w l o) as Ht.
  destruct (approval_turn env config p equity signal w l) as [[[]|e] l'] eqn:E; cbn [snd] in *; intros H.
  - apply IH in H as [H|(s & w' & r & Hin & Hc)].
    + apply Ht in H as [?|[r Hc]]; [by left|]. right. exists signal, w, r. split; [constructor|done].
    + right. exists s, w', r. split; [by constructor|done].
  - apply Ht in H as [?|[r Hc]]; [by left|]. right. exists signal, w, r. split; [constructor|done].
  - apply Ht in H as [?|[r Hc]]; [by left|]. right. exists signal, w, r. split; [constructor|done].
Qed.

Lemma process_approvals_submits env (w : ApprovalsWorld F) s o :
  submits o (snd (_process_approvals env w s)) ->
  py_true (kill_switch (ap_config w)) = false /\
  exists rows signal wld r, ap_rows w = Some rows /\ (signal, wld) ∈ rows /\
    cleared env (ap_config w) (_portfolio_state (ap_portfolio w)) (ap_equity w) signal wld o r.
Proof.
  unfold _process_approvals. destruct (ap_rows w) as [rows|]; [|intros H; cbn in H; unfold submits in H; no_submit].
  destruct (py_true _); [intros H; cbn in H; unfold submits in H; no_submit|].
  destruct (_monthly_limits_ok _ _ _) as [[] s']; cbn [negb]; [|intros H; cbn in H; unfold submits in H; no_submit].
  destruct (allowed _); cbn [negb].
  - destruct (approvals _ _ _ _ _ _) as [res l] eqn:E. cbn [snd]. intros H.
    pose proof (approvals_submits env (ap_config w) (_portfolio_state (ap_portfolio w)) (ap_equity w) rows
      {| l_state := s'; l_weekly := _weekly_spend_of (ap_audit_rows w); l_summary := empty_summary; l_actions := [] |} o) as Ha.
    rewrite E in Ha. apply Ha in H as [H|(sg & wl & r & Hin & Hc)]; [unfold submits in H; cbn in H; no_submit|].
    split; [done|]. exists rows, sg, wl, r. done.
  - cbn [snd]. intros H. unfold submits in H. apply elem_of_map in H as (x & Hx & _). done.
Qed.

Lemma exits_submit_nothing (w : ExitsWorld F) s o : ~ submits o (snd (_process_exit_signals w s)).
Proof.
  unfold _process_exit_signals. generalize (default [] (ex_positions w)). intros ps.
  assert (forall xs acc, ~ submits o (snd acc) -> ~ submits o (snd (foldl (fun acc x => exit_turn ps w x acc) acc xs))) as H.
  { induction xs as [|[sg code] xs IH]; intros [[n s'] a] Ha; [done|]. cbn [foldl]. apply IH.
    unfold exit_turn. destruct (List.find _ _) as [row|]; [|done].
    destruct code as [c|]; [destruct (_ || _)|]; cbn [snd] in *; rewrite ?submits_app; unfold submits in *; no_submit. }
  apply H. cbn. unfold submits. no_submit.
Qed.

(** The approvals leave the reconciler as it was. *)
Lemma monthly_reconciler limits month (s : OrchestratorState F) :
  reconciler (snd (_monthly_limits_ok limits month s)) = reconciler s.
Proof. unfold _monthly_limits_ok, _check_monthly_reset. cbn. by destruct (_ && _). Qed.

Lemma approval_turn_reconciler env config p equity signal w l :
  reconciler (l_state (snd (approval_turn env config p equity signal w l))) = reconciler (l_state l).
Proof.
  unfold approval_turn, rejected_by. destruct (allowed _); [|done]. cbn [negb].
  destruct (evaluate_risk _ _ _ _ _ _ _) as [r|]; [|done]. destruct (ra_approved r); [|done]. cbn [negb].
  destruct (_policy_request _ _ _ _ _); [|done]. destruct (w_policy w); [done|].
  destruct (String.eqb _ _); [|done]. cbn [negb].
  destruct (_submit_order _ _ _ _ _) as [[order|] ?]; [|done]. by destruct (_order_accepted order).
Qed.

Lemma process_approvals_reconciler env (w : ApprovalsWorld F) s :
  reconciler (snd (fst (_process_approvals env w s))) = reconciler s.
Proof.
  unfold _process_approvals. destruct (ap_rows w) as [rows|]; [|done]. destruct (py_true _); [done|].
  pose proof (monthly_reconciler (ce_limits env) (ap_month w) s) as Hm.
  destruct (_monthly_limits_ok _ _ _) as [[] s']; cbn [negb snd] in *; [|done].
  destruct (allowed _); [|done]. cbn [negb].
  destruct (approvals _ _ _ _ _ _) as [res l] eqn:E. cbn [fst snd]. rewrite <- Hm.
  assert (forall rows l0, reconciler (l_state (snd (approvals env (ap_config w) (_portfolio_state (ap_portfolio w))
    (ap_equity w) rows l0))) = reconciler (l_state l0)) as H.
  { intros rs. induction rs as [|[sg wl] rs IH]; intros l0; [done|]. cbn [approvals].
    pose proof (approval_turn_reconciler env (ap_config w) (_portfolio_state (ap_portfolio w)) (ap_equity w) sg wl l0) as Ht.
    destruct (approval_turn _ _ _ _ _ _ _) as [[[]|] l1]; cbn [snd] in *; [by rewrite IH|done..]. }
  specialize (H rows {| l_state := s'; l_weekly := _weekly_spend_of (ap_audit_rows w);
                        l_summary := empty_summary; l_actions := [] |}).
  by rewrite E in H.
Qed.

(** The part of the body after the entries submits nothing of its own. *)
Lemma exit_pass_submits (w : CycleWorld F) l res l' o :
  (let '(n, s, a) := _process_exit_signals (cw_exits w) (l_state l) in
   let l := act a (on_summary (count_closed n) (on_state (fun _ => s) l)) in
   match cw_eod w with
   | None => (Ok tt, l)
   | Some eod =>
       let '(n, s, a) := _process_exit_signals eod (l_state l) in
       (Ok tt, act a (on_summary (count_more n) (on_state (fun _ => s) l)))
   end) = (res : result exn unit, l') ->
  submits o (l_actions l') -> submits o (l_actions l).
Proof.
  pose proof (exits_submit_nothing (cw_exits w) (l_state l) o) as N3.
  destruct (_process_exit_signals (cw_exits w) (l_state l)) as [[n s3] a3]. cbn [snd] in N3. cbv zeta.
  destruct (cw_eod w) as [eod|].
  - match goal with |- context [_process_exit_signals eod ?st] => pose proof (exits_submit_nothing eod st o) as N4;
      destruct (_process_exit_signals eod st) as [[n4 s4] a4] end.
    intros [= _ <-] H. cbn in H, N4. rewrite !submits_app in H. tauto.
  - intros [= _ <-] H. cbn in H. rewrite !submits_app in H. tauto.
Qed.

(** The orders a body leaves were there after the approvals, or come from a pending signal. *)
Lemma body_submits env (w : CycleWorld F) s res l o :
  cycle_body env w s = (res, l) -> submits o (l_actions l) ->
  submits o (snd (_process_approvals env (cw_approvals w) (with_weekly (_weekly_spend_safe (cw_audit_rows w) s) s))) \/
  exists x, x ∈ cw_signals w /\ candidate_action (fst x) <> "EXIT" /\
    rr_halted (fst (check (cw_views w) (cw_now w) (reconciler s))) = false /\
    w_gate (snd x) = None /\
    exists r, ra_tier r < 3 /\
      cleared env (cw_config w) (_portfolio_state (cw_portfolio w)) (cw_equity w) (fst x) (snd x) o r.
Proof.
  unfold cycle_body. set (s0 := with_weekly _ s).
  pose proof (process_approvals_reconciler env (cw_approvals w) s0) as Hrec.
  destruct (_process_approvals env (cw_approvals w) s0) as [[[u|e] s1] a1]; cbn [snd fst] in *;
    [|intros [= _ <-]; by left].
  pose proof (monthly_reconciler (ce_limits env) (cw_month w) s1) as Hm.
  destruct (_monthly_limits_ok _ _ _) as [[] s2]; cbn [negb snd] in *; [|intros [= _ <-]; by left].
  rewrite Hrec in Hm. change (reconciler s0) with (reconciler s) in Hm. rewrite Hm. clear Hm Hrec.
  destruct (check _ _ _) as [recon rc]. set (l0 := if rr_halted recon then _ else _).
  assert (submits o (l_actions l0) -> submits o a1) as H0.
  { unfold l0. destruct (rr_halted recon); cbn; [|done]. rewrite submits_app. unfold submits. no_submit. }
  set (pending := List.filter _ (cw_signals w)).
  intros Eb Hl. match type of Eb with context [each ?b pending l0] => set (body := b) in * end.
  assert (submits o (l_actions (snd (each body pending l0)))) as Heach.
  { destruct (each body pending l0) as [[v|e] l1]; [|by injection Eb as _ <-]. exact (exit_pass_submits _ _ _ _ _ Eb Hl). }
  apply (each_submits body (fun x => rr_halted recon = false /\ w_gate (snd x) = None /\ exists r, ra_tier r < 3 /\
    cleared env (cw_config w) (_portfolio_state (cw_portfolio w)) (cw_equity w) (fst x) (snd x) o r)) in Heach.
  - destruct Heach as [H|(x & Hin & Hr & Hg & Hc)]; [left; auto|right].
    apply elem_of_filter_b in Hin as [Hin Hx]. exists x. split; [done|].
    split; [by apply negb_true_iff, String.eqb_neq in Hx|]. done.
  - intros x l' _. apply signal_turn_submits.
Qed.

End guards.

(** ** An accepted entry is counted and protected *)

Section protected.
Context {F : Type} `{HF : PyFloat F}.
Implicit Types (l : Loop F) (signal : SignalCandidate F) (w : SignalWorld F).

(** An order the broker took has a positive price and the amount the sizing came to. *)
Lemma accepted_order env signal r p w order a :
  _submit_order env signal r p w = (Ok order, a) -> _order_accepted order = true ->
  nleb (body_entry_price order) nzero = false /\ 1 <= body_qty order /\
  amount_usd order = nround 2 (nmul (buying_power p) (adjusted_size_pct r)).
Proof.
  unfold _submit_order. destruct (w_quote w) as [price|]; [|by intros [= <- _]].
  destruct (nleb price nzero) eqn:Ep; [by intros [= <- _]|]. destruct (negb (nfinite _)); [done|].
  destruct (Z.ltb_spec (order_qty_of env (nround 2 (nmul (buying_power p) (adjusted_size_pct r))) price (w_bars w)) 1);
    [by intros [= <- _]|].
  destruct (if use_limit_orders env then _ else _) as [lp|[]]; [|done].
  destruct (w_submission w); intros [= <- _]; [done|]. done.
Qed.

Lemma registered_stop limits symbol order bars side strategy now ok (s : RiskState F) m :
  nleb (order_entry_price order) nzero = false -> stop_loss_monitor s = Some m ->
  let rec := stop_record limits symbol order bars side strategy now in
  exists m', stop_loss_monitor (_register_stop_loss limits symbol order bars side strategy now ok s) = Some m' /\
    dict_get (risk_record_key (F := F) rec) (tracked m') = Some rec.
Proof.
  intros Hp Hm rec. unfold _register_stop_loss. rewrite Hm, Hp. eexists. split; [reflexivity|].
  cbn [tracked register save_records with_tracked]. by rewrite dict_get_set, String.eqb_refl.
Qed.

Lemma registered_target limits symbol order side strategy now ok (s : RiskState F) m :
  nleb (order_entry_price order) nzero = false -> take_profit_monitor s = Some m ->
  let rec := target_record limits symbol order side strategy now in
  exists m', take_profit_monitor (_register_take_profit limits symbol order side strategy now ok s) = Some m' /\
    dict_get (risk_record_key (F := F) rec) (tracked m') = Some rec.
Proof.
  intros Hp Hm rec. unfold _register_take_profit. rewrite Hm, Hp. eexists. split; [reflexivity|].
  cbn [tracked register save_records with_tracked]. by rewrite dict_get_set, String.eqb_refl.
Qed.

(** What a registration leaves alone. *)
Lemma register_frame limits symbol order bars side strategy now ok (s : RiskState F) :
  take_profit_monitor (_register_stop_loss limits symbol order bars side strategy now ok s) = take_profit_monitor s /\
  day_trades (_register_stop_loss limits symbol order bars side strategy now ok s) = day_trades s /\
  stop_loss_monitor (_register_take_profit limits symbol order side strategy now ok s) = stop_loss_monitor s /\
  day_trades (_register_take_profit limits symbol order side strategy now ok s) = day_trades s.
Proof.
  unfold _register_stop_loss, _register_take_profit.
  destruct (stop_loss_monitor s) eqn:E, (take_profit_monitor s) eqn:E', (nleb _ _); cbn; rewrite ?E, ?E'; done.
Qed.

Lemma record_open_opens symbol today ok t : dict_in (upper symbol) (_open_sessions (record_open symbol today ok t)) = true.
Proof.
  unfold dict_in, record_open. cbn [_save _open_sessions]. destruct (dict_get (upper symbol) (_open_sessions t)) eqn:E.
  - by rewrite E.
  - cbn [_open_sessions with_open]. by rewrite dict_get_set, String.eqb_refl.
Qed.

(** C11. An entry the broker took is never left unwatched. When a signal's turn books a
    trade, the order had a positive price and at least one share; the symbol is open in
    the day-trade guard, the stop and the target computed from that price and quantity are
    in the two monitors under the position's own keys, and the week's spend has grown by
    the amount of the order. *)
Theorem accepted_entry_is_protected env signal r p w l l' :
  trade env signal r p w l = (Ok tt, l') ->
  trades_today (l_state l') = trades_today (l_state l) + 1 ->
  exists order a, _submit_order env signal r p w = (Ok order, a) /\
    nleb (body_entry_price order) nzero = false /\ 1 <= body_qty order /\
    l_weekly l' = nadd (l_weekly l) (amount_usd order) /\
    dict_in (upper (sc_symbol signal)) (_open_sessions (day_trades (risk (l_state l')))) = true /\
    (forall m, stop_loss_monitor (risk (l_state l)) = Some m ->
       let rec := stop_record (ce_limits env) (sc_symbol signal) (filled_order order) (default [] (w_bars w))
                    (_side_of (candidate_action signal)) (_strategy_of signal) (w_now w) in
       exists m', stop_loss_monitor (risk (l_state l')) = Some m' /\
         dict_get (risk_record_key (F := F) rec) (tracked m') = Some rec) /\
    (forall m, take_profit_monitor (risk (l_state l)) = Some m ->
       let rec := target_record (ce_limits env) (sc_symbol signal) (filled_order order)
                    (_side_of (candidate_action signal)) (_strategy_of signal) (w_now w) in
       exists m', take_profit_monitor (risk (l_state l')) = Some m' /\
         dict_get (risk_record_key (F := F) rec) (tracked m') = Some rec).
Proof.
  unfold trade, rejected_by. destruct (w_gate w); [intros [= <-]; cbn; lia|].
  destruct (_submit_order env signal r p w) as [[order|] a] eqn:Es; [|done].
  destruct (_order_accepted order) eqn:Ea; cbn [negb]; [|intros [= <-]; cbn; lia].
  intros [= <-] _. destruct (accepted_order _ _ _ _ _ _ _ Es Ea) as (Hp & Hq & _).
  exists order, a. split; [done|]. split; [done|]. split; [done|].
  cbn [l_state l_weekly on_summary on_state act spend risk with_trade with_weekly book_entry with_risk].
  set (r0 := with_days _ _). set (side := _side_of _). set (st := _strategy_of signal).
  destruct (register_frame (ce_limits env) (sc_symbol signal) (filled_order order) (default [] (w_bars w)) side st
    (w_now w) (w_write_ok w) r0) as (F1 & F2 & _ & _).
  set (r1 := _register_stop_loss _ _ _ _ _ _ _ _ r0) in *.
  destruct (register_frame (ce_limits env) (sc_symbol signal) (filled_order order) (default [] (w_bars w)) side st
    (w_now w) (w_write_ok w) r1) as (_ & _ & F3 & F4).
  split; [done|]. split; [rewrite F4, F2; apply record_open_opens|]. split.
  - intros m Hm. rewrite F3. by apply (registered_stop _ _ _ _ _ _ _ _ _ m).
  - intros m Hm. apply (registered_target _ _ _ _ _ _ _ _ m); [done|]. by rewrite F1.
Qed.
End protected.

(** ** The cycle follows the day-trade guard's protocol *)

Section day_trades.
Context {F : Type} `{HF : PyFloat F}.
Context (pdt : PDTSettings F) (session : Z).
Implicit Types (t : DayTradeTracker) (l : Loop F).

(** Under the threshold, or unknown. *)
Definition poor (equity : option F) : Prop := below pdt (Entry "" equity).

Definition close_all (symbols : list string) t : DayTradeTracker :=
  foldl (fun t symbol => snd (record_close symbol session true t)) t symbols.

(** From an account in order whose tracker is [t], a history of guarded entries and closes
    of this session leads to the tracker [t']. *)
Definition follows t t' : Prop :=
  forall a, DayTrade.today a = session -> tracker a = t -> account_ok (max_day_trades pdt) a ->
  exists events, Forall (below pdt) events /\
    tracker (foldl (step pdt) a events) = t' /\ DayTrade.today (foldl (step pdt) a events) = session.

Context (Hen : enabled pdt = true) (Hmax : 0 <= max_day_trades pdt).

Lemma run_ok events a : Forall (below pdt) events -> account_ok (max_day_trades pdt) a ->
  account_ok (max_day_trades pdt) (foldl (step pdt) a events).
Proof using HF Hen Hmax.
  intros H. revert a. induction H as [|e events He _ IH]; intros a Ha; [done|]. cbn [foldl]. by apply IH, step_ok.
Qed.

Lemma follows_refl t : follows t t.
Proof. intros a Hs Ht _. by exists []. Qed.

Lemma follows_trans t1 t2 t3 : follows t1 t2 -> follows t2 t3 -> follows t1 t3.
Proof using HF Hen Hmax.
  intros H1 H2 a Hs Ht Ha. destruct (H1 a Hs Ht Ha) as (e1 & B1 & T1 & S1).
  destruct (H2 (foldl (step pdt) a e1) S1 T1 (run_ok e1 a B1 Ha)) as (e2 & B2 & T2 & S2).
  exists (e1 ++ e2). rewrite foldl_app. split; [by apply Forall_app|done].
Qed.

Lemma step_close symbol a : DayTrade.today a = session ->
  tracker (step pdt a (Close symbol)) = snd (record_close symbol session true (tracker a)) /\
  DayTrade.today (step pdt a (Close symbol)) = session.
Proof. intros Hs. cbn [step]. rewrite Hs. by destruct (record_close _ _ _ _). Qed.

Lemma follows_closes symbols t : follows t (close_all symbols t).
Proof using HF Hen Hmax.
  revert t. induction symbols as [|s symbols IH]; intros t; [apply follows_refl|].
  apply (follows_trans _ (snd (record_close s session true t))); [|apply IH].
  intros a Hs Ht Ha. exists [Close s]. split; [by repeat constructor|]. cbn [foldl]. rewrite <- Ht. by apply step_close.
Qed.

(** A close moves a commitment from open to used, or drops none of this session's. *)
Lemma close_commits symbol t taken :
  account_ok (max_day_trades pdt) {| tracker := t; DayTrade.today := session; DayTrade.taken := taken |} ->
  committed (snd (record_close symbol session true t)) session = committed t session.
Proof.
  intros [[Hk _ Hc _ _] _]. cbn [tracker DayTrade.today] in *. rewrite !committed_budget.
  unfold record_close. cbn [snd _save _day_trades _open_sessions with_open with_trades].
  assert (forall x, x ∈ business_window session ROLLING_SESSIONS -> x ∈ business_window session (ROLLING_SESSIONS * 3)) as Hw.
  { intros x. apply window_grows. unfold ROLLING_SESSIONS. lia. }
  assert (in_days (business_window session ROLLING_SESSIONS) session = true) as Hin.
  { apply in_days_spec, elem_of_window; [unfold ROLLING_SESSIONS; lia|by left]. }
  set (traded := match dict_get _ _ with Some d => _ | None => false end).
  assert (opened_on session (dict_pop (upper symbol) (_open_sessions t)) =
    opened_on session (_open_sessions t) - (if traded then 1 else 0)) as Ho.
  { rewrite opened_on_pop by done. unfold traded. by destruct (dict_get _ _) as [d|]; [destruct (d =? session)|]. }
  destruct traded; cbn [_day_trades _open_sessions with_open with_trades]; rewrite used_prune, Ho by done;
    [rewrite used_add_day, Hin|]; lia.
Qed.

Lemma allowed_below equity t : poor equity -> allowed (check_entry pdt equity session t) = true <-> committed t session < max_day_trades pdt.
Proof using Hen.
  intros Hb. split; [by apply (entry_allowed pdt equity "" session t)|].
  intros Hc. unfold check_entry. rewrite Hen. cbn [negb].
  assert ((match equity with Some e => nleb (equity_threshold_usd pdt) e | None => false end) = false) as -> by by destruct equity.
  destruct (Z.leb_spec (max_day_trades pdt) (committed t session)); [lia|done].
Qed.

Lemma closes_commit symbols : forall a, DayTrade.today a = session -> account_ok (max_day_trades pdt) a ->
  committed (close_all symbols (tracker a)) session = committed (tracker a) session.
Proof using HF Hen Hmax.
  induction symbols as [|s symbols IH]; intros a Hs Ha; [done|]. cbn [close_all foldl].
  destruct (step_close s a Hs) as [Et Es].
  assert (account_ok (max_day_trades pdt) (step pdt a (Close s))) as Ha' by by apply step_ok.
  specialize (IH _ Es Ha'). rewrite Et in IH. unfold close_all in IH. rewrite IH.
  apply (close_commits s (tracker a) (DayTrade.taken a)). destruct a as [t d tk]. cbn in *. by subst d.
Qed.

(** An entry the guard allowed, recorded after other tasks have closed positions. *)
Lemma follows_entry symbol equity symbols t :
  poor equity -> allowed (check_entry pdt equity session t) = true ->
  follows t (record_open symbol session true (close_all symbols t)).
Proof using HF Hen Hmax.
  intros Hb Hal a Hs Ht Ha. subst t.
  destruct (follows_closes symbols (tracker a) a Hs eq_refl Ha) as (e1 & B1 & T1 & S1).
  exists (e1 ++ [Entry symbol equity]). rewrite foldl_app. cbn [foldl step].
  split; [apply Forall_app; split; [done|repeat constructor; exact Hb]|]. rewrite S1, T1.
  apply allowed_below in Hal; [|done].
  assert (allowed (check_entry pdt equity session (close_all symbols (tracker a))) = true) as ->; [|done].
  apply allowed_below; [done|]. by rewrite (closes_commit symbols a).
Qed.

(** *** Turn by turn *)

Definition day_of l : DayTradeTracker := day_trades (risk (l_state l)).

(** A world of this session, whose writes reach the file, in which the other tasks' part in
    the day trades is to close positions. *)
Definition steady (w : SignalWorld F) : Prop :=
  w_today w = session /\ w_write_ok w = true /\
  exists symbols, forall r, day_trades (w_others w r) = close_all symbols (day_trades r).

Lemma book_entry_day env signal order w s :
  w_today w = session -> w_write_ok w = true ->
  day_trades (risk (book_entry env signal order w s)) =
    record_open (sc_symbol signal) session true (day_trades (risk s)).
Proof.
  intros Ht Hw. unfold book_entry. rewrite Ht, Hw. cbn [risk with_risk].
  set (r0 := with_days _ _).
  destruct (register_frame (ce_limits env) (sc_symbol signal) (filled_order order) (default [] (w_bars w))
    (_side_of (candidate_action signal)) (_strategy_of signal) (w_now w) true r0) as (_ & F2 & _ & _).
  set (r1 := _register_stop_loss _ _ _ _ _ _ _ _ r0) in *.
  destruct (register_frame (ce_limits env) (sc_symbol signal) (filled_order order) (default [] (w_bars w))
    (_side_of (candidate_action signal)) (_strategy_of signal) (w_now w) true r1) as (_ & _ & _ & F4).
  rewrite F4, F2. done.
Qed.

Lemma turn_follows env config p equity halted_ signal w l :
  ce_pdt env = pdt -> poor equity -> steady w ->
  follows (day_of l) (day_of (snd (signal_turn env config p equity halted_ signal w l))).
Proof using HF Hen Hmax.
  intros Hp Hb (Ht & Hw & symbols & Ho). unfold signal_turn, rejected_by, day_of.
  destruct halted_; [apply follows_refl|]. rewrite Hp, Ht. cbn [l_state on_summary].
  destruct (allowed (check_entry pdt equity session (day_trades (risk (l_state l))))) eqn:Ed; cbn [negb].
  2: { cbn. rewrite Ho. by apply follows_closes. }
  destruct (evaluate_risk _ _ _ _ _ _ _) as [r|]; [|apply follows_refl].
  destruct (ra_approved r); cbn [negb]; [|cbn; rewrite Ho; by apply follows_closes].
  destruct (_policy_request _ _ _ _ _) as [q|]; [|apply follows_refl].
  destruct (w_policy w) as [|decision reasons]; [cbn; rewrite Ho; by apply follows_closes|].
  destruct (String.eqb decision "APPROVE" && _).
  - unfold trade, rejected_by. destruct (w_gate w); [cbn; rewrite Ho; by apply follows_closes|].
    destruct (_submit_order env signal r p w) as [[order|] a]; [|cbn; rewrite Ho; by apply follows_closes].
    destruct (_order_accepted order); cbn [negb]; [|cbn; rewrite Ho; by apply follows_closes].
    cbn [snd l_state on_summary act on_state spend risk with_trade with_weekly others].
    rewrite book_entry_day by done. cbn [risk with_risk]. rewrite Ho. by apply (follows_entry _ equity).
  - destruct (_ || _); cbn; rewrite Ho; by apply follows_closes.
Qed.

Lemma approval_follows env config p equity signal w l :
  ce_pdt env = pdt -> poor equity -> steady w ->
  follows (day_of l) (day_of (snd (approval_turn env config p equity signal w l))).
Proof using HF Hen Hmax.
  intros Hp Hb (Ht & Hw & symbols & Ho). unfold approval_turn, rejected_by, day_of. rewrite Hp, Ht.
  destruct (allowed (check_entry pdt equity session (day_trades (risk (l_state l))))) eqn:Ed; cbn [negb];
    [|apply follows_refl].
  destruct (evaluate_risk _ _ _ _ _ _ _) as [r|]; [|apply follows_refl].
  destruct (ra_approved r); cbn [negb]; [|cbn; rewrite Ho; by apply follows_closes].
  destruct (_policy_request _ _ _ _ _) as [q|]; [|apply follows_refl].
  destruct (w_policy w) as [|decision reasons]; [cbn; rewrite Ho; by apply follows_closes|].
  destruct (String.eqb decision "APPROVE"); cbn [negb]; [|cbn; rewrite Ho; by apply follows_closes].
  destruct (_submit_order env signal r p w) as [[order|] a]; [|cbn; rewrite Ho; by apply follows_closes].
  destruct (_order_accepted order); cbn [negb]; [|cbn; rewrite Ho; by apply follows_closes].
  cbn [snd l_state on_summary act on_state spend risk with_weekly others].
  rewrite book_entry_day by done. cbn [risk with_risk]. rewrite Ho. by apply (follows_entry _ equity).
Qed.

Lemma each_follows {A} (body : A -> Loop F -> result exn unit * Loop F) xs : forall l,
  (forall x l, x ∈ xs -> follows (day_of l) (day_of (snd (body x l)))) ->
  follows (day_of l) (day_of (snd (each body xs l))).
Proof using HF Hen Hmax.
  induction xs as [|x xs IH]; intros l Hb; [apply follows_refl|]. cbn [each].
  pose proof (Hb x l (list_elem_of_here _ _)) as Hx. destruct (body x l) as [[u|e] l']; cbn [snd] in *; [|done].
  apply (follows_trans _ (day_of l')); [done|]. apply IH. intros y l'' Hy. apply Hb. by constructor.
Qed.

Lemma approvals_follow env config p equity rows : forall l,
  ce_pdt env = pdt -> poor equity -> Forall (fun row => steady (snd row)) rows ->
  follows (day_of l) (day_of (snd (approvals env config p equity rows l))).
Proof using HF Hen Hmax.
  induction rows as [|[signal w] rows IH]; intros l Hp Hb Hs; [apply follows_refl|].
  apply Forall_cons in Hs as [Hw Hs]. cbn [approvals snd] in *.
  pose proof (approval_follows env config p equity signal w l Hp Hb Hw) as Hx.
  destruct (approval_turn _ _ _ _ _ _ _) as [[[]|e] l']; cbn [snd] in *; [|done..].
  apply (follows_trans _ (day_of l')); [done|]. by apply IH.
Qed.

Lemma monthly_day limits month (s : OrchestratorState F) :
  day_trades (risk (snd (_monthly_limits_ok limits month s))) = day_trades (risk s).
Proof. unfold _monthly_limits_ok, _check_monthly_reset. cbn. by destruct (_ && _). Qed.

Lemma exits_follow (w : ExitsWorld F) s :
  ex_today w = session -> ex_write_ok w = true ->
  follows (day_trades (risk s)) (day_trades (risk (snd (fst (_process_exit_signals w s))))).
Proof using HF Hen Hmax.
  intros Ht Hw. unfold _process_exit_signals. generalize (default [] (ex_positions w)). intros ps.
  assert (forall xs n s a, follows (day_trades (risk s))
    (day_trades (risk (snd (fst (foldl (fun acc x => exit_turn ps w x acc) (n, s, a) xs)))))) as H; [|apply H].
  induction xs as [|[signal code] xs IH]; intros n s' a; [apply follows_refl|]. cbn [foldl].
  unfold exit_turn at 2. destruct (List.find _ _) as [row|]; [|apply IH].
  destruct code as [c|]; [|apply IH]. destruct (_ || _)%bool; [|apply IH].
  eapply (follows_trans); [|apply IH]. cbn [risk with_risk day_trades with_days]. rewrite Ht, Hw.
  apply (follows_closes [sc_symbol signal]).
Qed.

Definition exits_steady (w : ExitsWorld F) : Prop := ex_today w = session /\ ex_write_ok w = true.

Lemma body_follows env (w : CycleWorld F) s :
  ce_pdt env = pdt -> poor (cw_equity w) -> poor (ap_equity (cw_approvals w)) ->
  Forall (fun x => steady (snd x)) (cw_signals w) ->
  Forall (fun x => steady (snd x)) (default [] (ap_rows (cw_approvals w))) ->
  exits_steady (cw_exits w) -> (forall x, cw_eod w = Some x -> exits_steady x) ->
  follows (day_trades (risk s)) (day_of (snd (cycle_body env w s))).
Proof using HF Hen Hmax.
  intros Hp Hb Hb' Hs Hr [Hx1 Hx2] He. unfold cycle_body.
  set (s0 := with_weekly _ s).
  assert (follows (day_trades (risk s0)) (day_trades (risk (snd (fst (_process_approvals env (cw_approvals w) s0)))))) as Ha.
  { unfold _process_approvals. destruct (ap_rows (cw_approvals w)) as [rows|]; [|apply follows_refl].
    destruct (py_true _); [apply follows_refl|].
    pose proof (monthly_day (ce_limits env) (ap_month (cw_approvals w)) s0) as Hm.
    destruct (_monthly_limits_ok _ _ _) as [[] s1]; cbn [negb snd fst] in *; [|rewrite Hm; apply follows_refl].
    destruct (allowed _); cbn [negb]; [|rewrite <- Hm; apply follows_refl].
    match goal with |- context [approvals ?a ?b ?c ?d ?e ?f] =>
      pose proof (approvals_follow a b c d e f Hp Hb' Hr) as Hap; destruct (approvals a b c d e f) as [res l] end.
    cbn [snd fst] in *. rewrite <- Hm. exact Hap. }
  destruct (_process_approvals _ _ _) as [[[u|e] s1] a1]; cbn [snd fst] in Ha; [|exact Ha].
  apply (follows_trans _ (day_trades (risk s1))); [exact Ha|]. clear Ha.
  pose proof (monthly_day (ce_limits env) (cw_month w) s1) as Hm.
  destruct (_monthly_limits_ok _ _ _) as [[] s2]; cbn [negb snd] in *;
    [|unfold day_of; cbn; rewrite Hm; apply follows_refl].
  rewrite <- Hm. destruct (check _ _ _) as [recon rc].
  set (l0 := if rr_halted recon then _ else _).
  assert (day_trades (risk s2) = day_of l0) as -> by (unfold l0; by destruct (rr_halted recon)).
  match goal with |- context [each ?b ?xs l0] =>
    assert (follows (day_of l0) (day_of (snd (each b xs l0)))) as Hl end.
  { apply each_follows. intros [signal wl] l Hin%elem_of_filter_b. apply turn_follows; [done..|].
    destruct Hin as [Hin _]. rewrite Forall_forall in Hs. by apply (Hs _ Hin). }
  destruct (each _ _ l0) as [[v|e] l1]; cbn [snd] in *; [|exact Hl].
  apply (follows_trans _ _ _ Hl). clear Hl.
  pose proof (exits_follow (cw_exits w) (l_state l1) Hx1 Hx2) as H3.
  destruct (_process_exit_signals (cw_exits w) (l_state l1)) as [[n s3] a3]. cbn [snd fst] in H3.
  destruct (cw_eod w) as [eod|]; [|exact H3].
  destruct (He eod eq_refl) as [Ho1 Ho2].
  match goal with |- context [_process_exit_signals eod ?st] => pose proof (exits_follow eod st Ho1 Ho2) as H4;
    destruct (_process_exit_signals eod st) as [[n4 s4] a4] end. cbn [snd fst] in H4.
  by apply (follows_trans _ _ _ H3).
Qed.

End day_trades.

(** A cycle never stays busy: the flag it took is released whether it completed, halted or
    raised. *)
Lemma cycle_releases {F} `{PyFloat F} env (w : CycleWorld F) s :
  running s = false -> running (snd (fst (run_cycle env w s))) = false.
Proof. intros Hr. unfold run_cycle. destruct (py_true _); [done|]. by destruct (cycle_body _ _ _) as [[u|[m|m]] l]. Qed.

(** ** On concrete cycles *)

Module Cycles.
Definition limits : Limits spec_float :=
  {| account := "default"; take_profit_target_usd := nofZ 30; monthly_loss_limit_usd := nofZ 500;
     monthly_profit_target_usd := nofZ 1000 |}.
Definition env : CycleEnv spec_float :=
  {| ce_limits := limits; ce_pdt := Pdt.settings; max_adv_participation := nlit 1 100; use_limit_orders := true;
     limit_tolerance_bps := nofZ 20; bars_per_day := nofZ 1; cfg_stop_loss_pct := None; cfg_take_profit_pct := None |}.
Definition config : PolicyConfig spec_float := Rules.baseline (Some Rules.hours).
Definition signal (id symbol action : string) (size : spec_float) : SignalCandidate spec_float :=
  {| sc_signal_id := id; sc_symbol := symbol; sc_ts := 0; candidate_action := action; sc_confidence := nlit 9 10;
     sc_size_pct := size; sc_model_version := "v1"; sc_risk_score := "MEDIUM"; sc_strategy := ""; sc_as_of := Some 0;
     sc_research_summary := None; sc_acted_on := false |}.
Definition now : datetime := 10000000.
(** A price of 100, an approval, a fill; another task closes [closed] meanwhile. *)
Definition world (verdict : PolicyAnswer) (closed : list string) : SignalWorld spec_float :=
  {| w_today := Pdt.monday; w_now := now; w_bars := None; w_local_now := Rules.tuesday; w_blackout := Ok false;
     w_policy := verdict; w_gate := None; w_quote := Some (nofZ 100);
     w_submission := Answer "FILLED" "" "e1" "o1"; w_write_ok := true;
     w_others := fun r => with_days (close_all Pdt.monday closed (day_trades r)) r |}.
Definition start : OrchestratorState spec_float :=
  {| running := false;
     risk := {| stop_loss_monitor := Some (Monitors.start Missing); take_profit_monitor := Some (Monitors.start Missing);
                day_trades := _load None Pdt.monday; monthly_realized_loss_usd := nzero;
                monthly_realized_profit_usd := nzero; notices := [] |};
     weekly_notional_used := nzero; trades_today := 0;
     reconciler := {| _breaks_before_halt := 2; _consecutive_breaks := 0; last_result := None |};
     monthly_reset := (2024, 1) |}.
Definition no_exits : ExitsWorld spec_float :=
  {| ex_positions := Some []; ex_signals := []; ex_today := Pdt.monday; ex_write_ok := true |}.
Definition approvals_of (rows : list (SignalCandidate spec_float * SignalWorld spec_float)) : ApprovalsWorld spec_float :=
  {| ap_rows := Some rows; ap_config := config; ap_portfolio := None; ap_audit_rows := Some []; ap_month := (2024, 1);
     ap_equity := Some (nofZ 9000); ap_today := Pdt.monday |}.
Definition cycle approved pending exits : CycleWorld spec_float :=
  {| cw_config := config; cw_audit_rows := Some []; cw_approvals := approvals_of approved; cw_month := (2024, 1);
     cw_signals := pending; cw_portfolio := None; cw_equity := Some (nofZ 9000); cw_views := Ok ([], []);
     cw_now := now; cw_exits := exits; cw_eod := None |}.
Definition approve : PolicyAnswer := Verdict "APPROVE" [].
Definition entry : SignalCandidate spec_float * SignalWorld spec_float :=
  (signal "s1" "aapl" "BUY" (nlit 4 1000), world approve []).
Definition reviewed : SignalCandidate spec_float * SignalWorld spec_float :=
  (signal "s2" "MSFT" "BUY" (nlit 2 100), world approve ["AAPL"]).
Definition order_of (o : ExecutionOrderRequest spec_float) : string * string * Z := (rq_signal_id o, rq_symbol o, rq_qty o).
Fixpoint orders (a : list (Action spec_float)) : list (string * string * Z) :=
  match a with [] => [] | Submit o :: a => order_of o :: orders a | _ :: a => orders a end.
(** The state a cycle leaves, what it did, and its counters. *)
Definition after w s := snd (fst (run_cycle env w s)).
Definition did w s : list (Action spec_float) := snd (run_cycle env w s).
Definition counters w s : option (string * Z * Z * Z * Z) :=
  match fst (fst (run_cycle env w s)) with
  | Ok r => Some (status r, executed r, rejected r, review r, closed r)
  | Err _ => None
  end.
End Cycles.


Lemma accepted_entry_is_protected_witness :
  let l := {| l_state := Cycles.start; l_weekly := nzero; l_summary := empty_summary; l_actions := [] |} in
  let r := {| ra_approved := true; ra_tier := 0; ra_reason := "ok"; adjusted_size_pct := nlit 4 1000 |} in
  exists l' order, trade Cycles.env (fst Cycles.entry) r (_portfolio_state None) (snd Cycles.entry) l = (Ok tt, l') /\
    body_qty order = 4 /\ l_weekly l' = nadd nzero (amount_usd order) /\
    dict_in "AAPL" (_open_sessions (day_trades (risk (l_state l')))) = true.
Proof.
  cbn zeta. destruct (trade _ _ _ _ _ _) as [[u|e] l'] eqn:E; [|vm_compute in E; discriminate].
  destruct u. destruct (accepted_entry_is_protected _ _ _ _ _ _ _ E) as (order & a & Eo & _ & _ & Hw & Hin & _).
  { vm_compute in E. injection E as <-. reflexivity. }
  exists l', order. split; [done|]. split; [|by split].
  vm_compute in Eo. injection Eo as <- _. reflexivity.
Defined.


(** *** What the runs show *)

(** An entry, and the exit signal that closes it in the next cycle: the trade is closed,
    its stop and its target stay, since the exit names its symbol where the record of the
    position is read. *)
Lemma exit_leaves_protection :
  let s := Cycles.after (Cycles.cycle [] [Cycles.entry] Cycles.no_exits) Cycles.start in
  let exits := {| ex_positions := Some [("AAPL", "e1")];
                  ex_signals := [(Cycles.signal "x1" "AAPL" "EXIT" nzero, Some 200)];
                  ex_today := Pdt.monday; ex_write_ok := true |} in
  let w := Cycles.cycle [] [] exits in
  let count s := (length <$> (tracked <$> stop_loss_monitor (risk s)), length <$> (tracked <$> take_profit_monitor (risk s))) in
  (Cycles.counters w s, count s, count (Cycles.after w s)) =
  (Some ("completed", 1, 0, 0, 1), (Some 1%nat, Some 1%nat), (Some 1%nat, Some 1%nat)).
Proof. vm_compute. reflexivity. Qed.

(** Positions with an exit signal are not closed in a month that has reached a limit, nor
    in a cycle in which the policy service cannot be reached. *)
Lemma exits_wait_for_entries :
  let exits := {| ex_positions := Some [("AAPL", "e1")];
                  ex_signals := [(Cycles.signal "x1" "AAPL" "EXIT" nzero, Some 200)];
                  ex_today := Pdt.monday; ex_write_ok := true |} in
  let lost := with_risk (add_loss (nofZ 500) (risk Cycles.start)) Cycles.start in
  let down := (Cycles.signal "s1" "aapl" "BUY" (nlit 4 1000), Cycles.world (PolicyDown "timeout") []) in
  (Cycles.counters (Cycles.cycle [] [] exits) lost, Cycles.counters (Cycles.cycle [] [down] exits) Cycles.start,
   Cycles.counters (Cycles.cycle [] [] exits) Cycles.start) =
  (Some ("completed", 0, 0, 0, 0), Some ("halted", 0, 0, 0, 0), Some ("completed", 1, 0, 0, 1)).
Proof. vm_compute. reflexivity. Qed.

(** What the policy service rejects outright is put to a human when it is large enough. *)
Lemma rejected_signal_asks_a_human :
  let large := (Cycles.signal "s1" "aapl" "BUY" (nlit 2 100), Cycles.world (Verdict "REJECT" ["stale_data"]) []) in
  let small := (Cycles.signal "s1" "aapl" "BUY" (nlit 4 1000), Cycles.world (Verdict "REJECT" ["stale_data"]) []) in
  (Cycles.counters (Cycles.cycle [] [large] Cycles.no_exits) Cycles.start,
   Cycles.counters (Cycles.cycle [] [small] Cycles.no_exits) Cycles.start) =
  (Some ("completed", 0, 0, 1, 0), Some ("completed", 0, 1, 0, 0)).
Proof. vm_compute. reflexivity. Qed.

(** The human's answer does not change the verdict: asked again, the policy service answers
    as it did, and the approved row is refused. *)
Lemma approved_review_is_not_executed :
  let q w := match w with (sg, wl) => match evaluate_risk (w_local_now wl) (sc_symbol sg) (sc_size_pct sg) (_portfolio_state None) nzero Cycles.config None with
             | Ok r => match _policy_request sg r Cycles.config (_portfolio_state None) wl with Ok q => Some q | _ => None end
             | _ => None end end in
  let unsure := {| sc_signal_id := "s1"; sc_symbol := "aapl"; sc_ts := 0; candidate_action := "BUY"; sc_confidence := nlit 5 10;
                   sc_size_pct := nlit 4 1000; sc_model_version := "v1"; sc_risk_score := "MEDIUM"; sc_strategy := "";
                   sc_as_of := Some 0; sc_research_summary := None; sc_acted_on := false |} in
  match q (unsure, Cycles.world Cycles.approve []) with
  | Some q =>
      match Rules.verdict Rules.tuesday Rules.env Cycles.config q (Some []) with
      | Some (decision, reasons) =>
          let row := (unsure, Cycles.world (Verdict decision reasons) []) in
          (decision, Cycles.counters (Cycles.cycle [] [row] Cycles.no_exits) Cycles.start,
           Cycles.orders (Cycles.did (Cycles.cycle [row] [] Cycles.no_exits) Cycles.start))
      | None => ("", None, [])
      end
  | None => ("", None, [])
  end = ("REVIEW", Some ("completed", 0, 0, 1, 0), []).
Proof. vm_compute. reflexivity. Qed.

(** The row a human approved stays approved at the gateway: the next cycle submits it
    again, and when the execution service answers with the order it has already, counts its
    amount a second time. *)
Lemma approved_row_is_executed_again :
  let w := Cycles.cycle [Cycles.reviewed] [] Cycles.no_exits in
  let s := Cycles.after w Cycles.start in
  (Cycles.orders (Cycles.did w Cycles.start), Cycles.orders (Cycles.did w s),
   neqb (weekly_notional_used s) (nofZ 2000)) =
  ([("s2", "MSFT", 20)], [("s2", "MSFT", 20)], true).
Proof. vm_compute. reflexivity. Qed.

(** An order executed from an approval is audited under a type of its own, and the week's
    spend sums the rows of the other: the spend an approval leaves is read as nothing by
    the approvals of the next cycle. *)
Lemma approval_spend_is_not_counted :
  let w := Cycles.cycle [Cycles.reviewed] [] Cycles.no_exits in
  let amounts := List.concat (map (fun a => match a with Audit "trade.executed" _ x => [x] | _ => [] end) (Cycles.did w Cycles.start)) in
  (length (Cycles.orders (Cycles.did w Cycles.start)), neqb (_weekly_spend_of (Some amounts)) nzero) = (1%nat, true).
Proof. vm_compute. reflexivity. Qed.

(** A short entry is sent with a stop below its price and a target above it. *)
Lemma short_entry_has_long_protection :
  let o := order_request Cycles.env (Cycles.signal "s1" "aapl" "SELL" (nlit 4 1000)) 4 (nofZ 100) None in
  match rq_stop_loss_rate o, rq_take_profit_rate o with
  | Some stop, Some target => nltb stop (nofZ 100) && nltb (nofZ 100) target
  | _, _ => false
  end = true.
Proof. vm_compute. reflexivity. Qed.

(** A signal that says to hold is pending like an entry: it is sized and submitted, with
    its action as the side of the order. *)
Lemma hold_signal_is_submitted :
  let hold := (Cycles.signal "s1" "aapl" "HOLD" (nlit 4 1000), Cycles.world Cycles.approve []) in
  map (fun a => match a with Submit o => (rq_side o, rq_qty o) | _ => ("", 0) end)
    (List.filter (fun a => match a with Submit _ => true | _ => false end)
       (Cycles.did (Cycles.cycle [] [hold] Cycles.no_exits) Cycles.start)) = [("HOLD", 4)].
Proof. vm_compute. reflexivity. Qed.
