(* ===== verification/Worker.v ===== *)
(** * The trade worker

    Models [services/strategy-service/src/strategy_service/worker.py]: one cycle over the
    watchlist, with the exit signals of the open positions, the champion and the paper
    challengers of each symbol, the entry gates, and the pipeline an entry goes through to
    the execution service. The bars, the model, the accounts and the answers of the other
    services are inputs of the symbol or of the signal they are asked for, and may fail; the
    roster is the lifecycle store of [Service], read at its own moment. The gross exposure
    of the policy request, which no rule reads, is left out. Shown: an order of the worker
    passed every guard and belongs to a sleeve the roster names; on the figures the backtest
    has, the worker decides what the backtest signals; a failure costs the symbol it
    happens in and no other; and a symbol never has two exit signals pending. *)

From S2P Require Import PyFloat Store StoreProofs StoreTheorems Contracts Indicators Strategies Policy Journal Evidence Service Signals Prelude.
From Stdlib Require Import Floats.SpecFloat QArith.
Local Close Scope Q_scope.
Local Open Scope Z_scope.

Record WorkerSettings (F : Type) := {
  watchlist : list string;
  use_ai : bool;
  block_threshold : F;
  volume_confirm_enabled : bool;
  wk_stop_loss_pct : F;
  wk_take_profit_pct : F;
  max_hold : Z;                 (** microseconds *)
  wk_max_participation : F;
  wk_use_limit_orders : bool;
  wk_tolerance_bps : F;
  wk_bars_per_day : F;
  wk_source : string            (** of the bars: intraday or daily *)
}.
Arguments watchlist {F}. Arguments use_ai {F}. Arguments block_threshold {F}. Arguments volume_confirm_enabled {F}.
Arguments wk_stop_loss_pct {F}. Arguments wk_take_profit_pct {F}. Arguments max_hold {F}.
Arguments wk_max_participation {F}. Arguments wk_use_limit_orders {F}. Arguments wk_tolerance_bps {F}.
Arguments wk_bars_per_day {F}. Arguments wk_source {F}.

(** What the pipeline of one entry finds. *)
Record EntryWorld (F : Type) := {
  ew_exposure : option (list (string * F));   (** None unless the answer was a dict, with 200 *)
  ew_account : option F;                      (** the buying power of a 200 *)
  ew_session_open : bool;
  ew_snapshot_age : option Z;                 (** of the freshest price, if there is one *)
  ew_now : datetime;
  ew_blackout : result string bool;
  ew_policy : option (string * option F);     (** the decision of a 200, and the size it approves *)
  ew_price : option F;
  ew_roster : option (Snapshots F);           (** None without an authority *)
  ew_submitted : bool                         (** answered 200 or 201 *)
}.
Arguments ew_exposure {F}. Arguments ew_account {F}. Arguments ew_session_open {F}. Arguments ew_snapshot_age {F}.
Arguments ew_now {F}. Arguments ew_blackout {F}. Arguments ew_policy {F}. Arguments ew_price {F}.
Arguments ew_roster {F}. Arguments ew_submitted {F}.

(** What the worker does to the outside. *)
Inductive WorkerEvent (F : Type) :=
| AskedPolicy (request : PolicyEvaluationRequest F)
| Gated (strategy_id signal_id reason : string) (qty : Z)
| Placed (key : string) (request : ExecutionOrderRequest F) (accepted : bool).
Arguments AskedPolicy {F}. Arguments Gated {F}. Arguments Placed {F}.

(** [WorkerRunResult], and the events so far. *)
Record Run (F : Type) := {
  symbols_processed : Z;
  signals_generated : Z;
  orders_submitted : Z;
  orders_gated : Z;
  errors : list string;
  events : list (WorkerEvent F)
}.
Arguments symbols_processed {F}. Arguments signals_generated {F}. Arguments orders_submitted {F}.
Arguments orders_gated {F}. Arguments errors {F}. Arguments events {F}.

Record WorkerState := { is_running : bool; last_run_error : option string }.

Definition exn_text (e : exn) : string := match e with RuntimeError m | Uncaught m => m end.

Section worker.
Context {F : Type} `{HF : PyFloat F}.
Context (fpow : F -> F -> F).
Local Open Scope py_scope.

(** ** What a part of a cycle adds to its result *)

Definition empty_run : Run F :=
  {| symbols_processed := 0; signals_generated := 0; orders_submitted := 0; orders_gated := 0; errors := []; events := [] |}.
Definition plus (a b : Run F) : Run F :=
  {| symbols_processed := (symbols_processed a + symbols_processed b)%Z;
     signals_generated := (signals_generated a + signals_generated b)%Z;
     orders_submitted := (orders_submitted a + orders_submitted b)%Z;
     orders_gated := (orders_gated a + orders_gated b)%Z;
     errors := errors a ++ errors b; events := events a ++ events b |}.
Definition generated : Run F :=
  {| symbols_processed := 0; signals_generated := 1; orders_submitted := 0; orders_gated := 0; errors := []; events := [] |}.
Definition event (e : WorkerEvent F) : Run F :=
  {| symbols_processed := 0; signals_generated := 0; orders_submitted := 0; orders_gated := 0; errors := []; events := [e] |}.
Definition failed (message : string) : Run F :=
  {| symbols_processed := 0; signals_generated := 0; orders_submitted := 0; orders_gated := 0; errors := [message]; events := [] |}.
Definition submitted : Run F :=
  {| symbols_processed := 0; signals_generated := 0; orders_submitted := 1; orders_gated := 0; errors := []; events := [] |}.
Definition gated (e : WorkerEvent F) : Run F :=
  {| symbols_processed := 0; signals_generated := 0; orders_submitted := 0; orders_gated := 1; errors := []; events := [e] |}.
Definition processed : Run F :=
  {| symbols_processed := 1; signals_generated := 0; orders_submitted := 0; orders_gated := 0; errors := []; events := [] |}.

(** ** The entry gates *)

Definition _apply_entry_gates (cfg : WorkerSettings F) (signal : SignalCandidate F) (ta : option (TASummary F))
    (bars : list (OHLCVBar F)) : SignalCandidate F :=
  if negb (String.eqb (candidate_action signal) "BUY") then signal else
  let count := match ta with Some ta => bars_count ta | None => 0%nat end in
  let adx := match ta with Some ta => adx ta | None => ADX_NEUTRAL end in
  if negb (adx_is_computable count ADX_PERIOD) then held signal
  else if adx <? nofZ 20 then held signal
  else if volume_confirm_enabled cfg && negb (Nat.eqb (length bars) 0) then
    let volumes := map (fun bar => nor (ob_volume bar) nzero) bars in
    match last volumes with
    | Some current =>
        let average := nsum (last_n 20 volumes) / nofZ (Z.of_nat (Nat.min (length volumes) 20)) in
        if current <=? average then held signal else signal
    | None => signal
    end
  else signal.

(** ** One entry *)

Definition _compute_qty (size_pct buying_power : F) (reference_price : option F) : result exn Z :=
  match reference_price with
  | None => Ok 0%Z
  | Some price =>
      if price <=? nzero then Ok 0%Z
      else let shares := size_pct * buying_power / price in
           if nfinite shares then Ok (ntrunc shares) else Err (Uncaught "cannot convert float to integer")
  end.

(** The age of the data, whether the market is open and whether earnings are near; an age
    below zero is refused. *)
Definition _market_context (w : EntryWorld F) (bars : list (OHLCVBar F)) : result exn (Z * bool * bool) :=
  let age :=
    match ew_snapshot_age w, last bars with
    | Some age, _ => age
    | None, Some bar => Z.quot (ew_now w - ob_timestamp bar)%Z 1000000
    | None, None => 10000%Z
    end in
  match ew_blackout w with
  | Err e => Err (Uncaught e)
  | Ok blackout => if (age <? 0)%Z then Err (Uncaught "validation error for MarketContext")
                   else Ok (age, ew_session_open w, blackout)
  end.

Definition entry_request (signal : SignalCandidate F) (context : Z * bool * bool) : PolicyEvaluationRequest F :=
  let '(age, session_open, blackout) := context in
  {| pq_signal_id := sc_signal_id signal; pq_symbol := sc_symbol signal; pq_confidence := sc_confidence signal;
     pq_size_pct := sc_size_pct signal; data_age_seconds := age; market_open := session_open;
     event_blackout_active := blackout; liquidity_score := nlit 95 100; symbol_allowed := true;
     daily_drawdown_pct := nzero; pq_risk_score := sc_risk_score signal |}.

(** The sleeve already holds a position in the direction of the action. *)
Definition in_direction (held : list (string * F)) (action : string) : bool :=
  existsb (fun '(_, net) => (net >? nzero) && String.eqb action "BUY" || (net <? nzero) && String.eqb action "SELL") held.

(** [model_dump] sends every field. *)
Definition ALL_FIELDS : list string :=
  ["signal_id"; "symbol"; "side"; "qty"; "order_type"; "time_in_force"; "stop_loss_rate"; "take_profit_rate";
   "limit_price"; "decision_price"; "strategy_id"; "account_id"; "reduce_only"].

Definition worker_order (signal : SignalCandidate F) (qty : Z) (reference_price limit_price : option F)
    (strategy_id : string) : ExecutionOrderRequest F :=
  {| rq_signal_id := sc_signal_id signal; rq_symbol := sc_symbol signal; rq_side := candidate_action signal; rq_qty := qty;
     rq_order_type := if limit_price then "LIMIT" else "MARKET"; rq_time_in_force := if limit_price then "IOC" else "DAY";
     rq_stop_loss_rate := None; rq_take_profit_rate := None; rq_limit_price := limit_price;
     rq_decision_price := reference_price; rq_strategy_id := strategy_id; rq_account_id := "default";
     rq_reduce_only := false; rq_fields_set := ALL_FIELDS |}.

(** Sizing, the roster's gate and the submission of a signal the policy service approved. *)
Definition place_entry (cfg : WorkerSettings F) (signal : SignalCandidate F) (symbol : string) (bars : list (OHLCVBar F))
    (strategy_id : string) (approved_size : F) (w : EntryWorld F) : result exn unit * Run F :=
  let reference_price :=
    match ew_price w, last bars with Some p, _ => Some p | None, Some bar => Some (ob_close bar) | None, None => None end in
  match _compute_qty approved_size (default (nofZ 100000) (ew_account w)) reference_price with
  | Err e => (Err e, empty_run)
  | Ok qty =>
      let qty := participation_capped_qty qty
                   (average_daily_volume (map (fun b => Some (ob_volume b)) bars) (Some (wk_bars_per_day cfg)))
                   (wk_max_participation cfg) in
      if (qty <? 1)%Z then (Ok tt, empty_run) else
      let gate := may_open (ew_roster w) strategy_id (sc_symbol signal) None in
      if negb (permitted gate) then
        (Ok tt, gated (Gated strategy_id (sc_signal_id signal) (ga_reason gate) qty))
      else
      match (if wk_use_limit_orders cfg
             then marketable_limit_price reference_price (candidate_action signal) (wk_tolerance_bps cfg)
             else Ok None) with
      | Err (ValueErr e) => (Err (Uncaught e), empty_run)
      | Ok limit_price =>
          let order := worker_order signal qty reference_price limit_price strategy_id in
          if negb (valid_order_request order) then (Err (Uncaught "validation error for ExecutionOrderRequest"), empty_run)
          else
            (Ok tt, plus (event (Placed ("worker-" +:+ sc_signal_id signal) order (ew_submitted w)))
                      (if ew_submitted w then submitted
                       else failed (symbol +:+ ": order submission failed (" +:+ strategy_id +:+ ")")))
      end
  end.

Definition _execute_signal (cfg : WorkerSettings F) (signal : SignalCandidate F) (symbol : string)
    (bars : list (OHLCVBar F)) (strategy_id : string) (w : EntryWorld F) : result exn unit * Run F :=
  match ew_exposure w with
  | None => (Ok tt, failed (symbol +:+ ": position unknowable, entry not submitted (" +:+ strategy_id +:+ ")"))
  | Some held =>
      if in_direction held (upper (candidate_action signal)) then (Ok tt, empty_run) else
      match _market_context w bars with
      | Err e => (Err e, empty_run)
      | Ok context =>
          let request := entry_request signal context in
          let asked := event (AskedPolicy request) in
          let '(decision, size) := default ("REJECT", Some nzero) (ew_policy w) in
          if negb (String.eqb decision "APPROVE") then (Ok tt, asked) else
          let '(r, run) := place_entry cfg signal symbol bars strategy_id (default (sc_size_pct signal) size) w in
          (r, plus asked run)
      end
  end.

(** ** The challengers of a symbol *)

(** What a challenger finds: its proposal is read at a moment of its own. *)
Record ChallengerWorld := {
  ch_io : io;
  ch_db : DB F;
  ch_uuid : string;
  ch_now : datetime;
  ch_entry : EntryWorld F
}.

Definition _process_one_challenger (cfg : WorkerSettings F) (sv : LifecycleService F) (sleeve : Sleeve) (symbol : string)
    (ta : TASummary F) (bars : list (OHLCVBar F)) (w : ChallengerWorld) : result exn unit * Run F :=
  match challenger_parameters sv (ch_io w) (strategy_version sleeve) (ch_db w) with
  | None => (Ok tt, empty_run)
  | Some parameters =>
      match candidate_of (ch_uuid w) symbol (ch_now w) ("challenger:" +:+ strategy_version sleeve)
              (evaluate_rules ta (Some (block_threshold cfg)) None (Some bars) (map_to_list parameters)) with
      | Err e => (Err e, empty_run)
      | Ok signal =>
          let signal := _apply_entry_gates cfg signal (Some ta) bars in
          if String.eqb (candidate_action signal) "HOLD" then (Ok tt, generated) else
          let '(r, run) := _execute_signal cfg signal symbol bars (strategy_id sleeve) (ch_entry w) in
          (r, plus generated run)
      end
  end.

(** What a symbol finds; the roster is read once the champion has run. *)
Record SymbolWorld := {
  sw_ai : result exn (SignalCandidate F);
  sw_fetched : option (list (OHLCVBar F));
  sw_uuid : string;
  sw_now : datetime;
  sw_entry : EntryWorld F;
  sw_io : io;
  sw_db : DB F;
  sw_challengers : string -> ChallengerWorld
}.

(** An exception ends the challenger it happens in. *)
Definition _process_challengers (cfg : WorkerSettings F) (sv : LifecycleService F) (symbol : string)
    (ta : option (TASummary F)) (bars : list (OHLCVBar F)) (w : SymbolWorld) : Run F :=
  match use_ai cfg, ta with
  | false, Some ta =>
      foldl (fun run sleeve => plus run (snd (_process_one_challenger cfg sv sleeve symbol ta bars (sw_challengers w (strategy_id sleeve)))))
        empty_run (challengers sv (sw_io w) symbol (sw_db w))
  | _, _ => empty_run
  end.

Definition champion_signal (cfg : WorkerSettings F) (symbol : string) (w : SymbolWorld) : result exn (SignalCandidate F) :=
  let '(ta, bars) := _market_snapshot fpow symbol (wk_source cfg) (sw_now w) (sw_fetched w) in
  match (if use_ai cfg then sw_ai w
         else _build_deterministic_signal (block_threshold cfg) (sw_uuid w) symbol (sw_now w) ta None (Some bars)) with
  | Err e => Err e
  | Ok signal => Ok (_apply_entry_gates cfg signal ta bars)
  end.

Definition _process_symbol (cfg : WorkerSettings F) (sv : LifecycleService F) (symbol : string) (w : SymbolWorld)
    : result exn unit * Run F :=
  let '(ta, bars) := _market_snapshot fpow symbol (wk_source cfg) (sw_now w) (sw_fetched w) in
  match champion_signal cfg symbol w with
  | Err e => (Err e, empty_run)
  | Ok signal =>
      let '(r, run) :=
        if String.eqb (candidate_action signal) "HOLD" then (Ok tt, empty_run)
        else _execute_signal cfg signal symbol bars DEFAULT_LIVE_STRATEGY (sw_entry w) in
      let run := plus generated run in
      match r with
      | Err e => (Err e, run)
      | Ok _ => (Ok tt, plus run (_process_challengers cfg sv symbol ta bars w))
      end
  end.

(** The turn of a symbol in the loop: what it raised is an error of the cycle. *)
Definition symbol_turn (cfg : WorkerSettings F) (sv : LifecycleService F) (symbol : string) (w : SymbolWorld) : Run F :=
  let '(r, run) := _process_symbol cfg sv symbol w in
  plus (match r with Ok _ => run | Err e => plus run (failed (symbol +:+ ": " +:+ exn_text e)) end) processed.

(** ** Exit signals *)

(** A row of the portfolio, and what the check of it finds. *)
Record PositionWorld := {
  xp_symbol : string;
  xp_average_cost : F;
  xp_net_qty : Z;
  xp_opened_at : option datetime;
  xp_updated_at : option datetime;
  xp_fetched : option (list (OHLCVBar F));
  xp_price : option F;
  xp_now : datetime;
  xp_uuid : string;
  xp_write_ok : bool
}.

Definition exit_reasons (cfg : WorkerSettings F) (ta : TASummary F) (p : PositionWorld) : list string :=
  let entry := xp_average_cost p in
  let current := match xp_price p with Some x => x | None => default nzero (current_price ta) end in
  let rsi := rsi_14 (indicators ta) in
  let opened_at := match xp_opened_at p with Some t => Some t | None => xp_updated_at p end in
  when ((entry >? nzero) && (current <? entry * (n_one - wk_stop_loss_pct cfg))) "stop_loss_hit" ++
  when ((entry >? nzero) && (current >? entry * (n_one + wk_take_profit_pct cfg))) "take_profit_hit" ++
  when ((0 <? xp_net_qty p)%Z && (rsi >? nofZ 70)) "signal_reversal" ++
  when ((xp_net_qty p <? 0)%Z && (rsi <? nofZ 30)) "signal_reversal" ++
  when (match opened_at with Some t => (max_hold cfg <? xp_now p - t)%Z | None => false end) "max_hold_time".

Definition exit_signal (symbol : string) (reasons : list string) (ta : TASummary F) (p : PositionWorld) : SignalCandidate F :=
  {| sc_signal_id := xp_uuid p; sc_symbol := symbol; sc_ts := xp_now p; candidate_action := "EXIT";
     sc_confidence := nlit 95 100; sc_size_pct := n_one; sc_model_version := "strategy-exit-v1"; sc_risk_score := "LOW";
     sc_strategy := DEFAULT_LIVE_STRATEGY; sc_as_of := Some (as_of ta);
     sc_research_summary := Some (join ", " reasons); sc_acted_on := false |}.

Definition _build_exit_signal (cfg : WorkerSettings F) (p : PositionWorld) : option (SignalCandidate F) :=
  let symbol := upper (xp_symbol p) in
  if negb (str_true symbol) then None else
  match fst (_market_snapshot fpow symbol (wk_source cfg) (xp_now p) (xp_fetched p)) with
  | None => None
  | Some ta => match exit_reasons cfg ta p with [] => None | reasons => Some (exit_signal symbol reasons ta p) end
  end.

Definition _signal_exists (symbol action : string) (d : SignalDB F) : bool :=
  existsb (fun r => String.eqb (sg_symbol r) symbol && String.eqb (sg_action r) action && negb (acted_on r)) d.

(** The count of a pass that raised is lost with it. *)
Fixpoint _generate_exit_signals (cfg : WorkerSettings F) (positions : list PositionWorld) (emitted : Z) (d : SignalDB F)
    : result exn Z * SignalDB F :=
  match positions with
  | [] => (Ok emitted, d)
  | p :: positions =>
      match _build_exit_signal cfg p with
      | None => _generate_exit_signals cfg positions emitted d
      | Some s =>
          if _signal_exists (sc_symbol s) (candidate_action s) d then _generate_exit_signals cfg positions emitted d
          else match _persist_signal (xp_write_ok p) s d with
               | (Err e, d) => (Err e, d)
               | (Ok _, d) => _generate_exit_signals cfg positions (emitted + 1)%Z d
               end
      end
  end.

(** [_get_open_positions]: None when the portfolio could not be read. *)
Definition open_positions (rows : option (list PositionWorld)) : list PositionWorld :=
  List.filter (fun p => negb (xp_net_qty p =? 0)%Z) (default [] rows).

(** ** A cycle *)

Record WorkerWorld := {
  ww_positions : option (list PositionWorld);
  ww_symbols : string -> SymbolWorld
}.

Definition symbols_run (cfg : WorkerSettings F) (sv : LifecycleService F) (w : WorkerWorld) (symbols : list string) : Run F :=
  foldl (fun run symbol => plus run (symbol_turn cfg sv symbol (ww_symbols w symbol))) empty_run symbols.

Definition run_worker (cfg : WorkerSettings F) (sv : LifecycleService F) (w : WorkerWorld) (d : SignalDB F)
    : Run F * WorkerState * SignalDB F :=
  let '(exits, d) := _generate_exit_signals cfg (open_positions (ww_positions w)) 0%Z d in
  let result :=
    match exits with
    | Ok n => plus {| symbols_processed := 0; signals_generated := n; orders_submitted := 0; orders_gated := 0;
                      errors := []; events := [] |} (symbols_run cfg sv w (watchlist cfg))
    | Err _ => empty_run   (* last_run_error is set, and overwritten below *)
    end in
  (result, {| is_running := false;
              last_run_error := match errors result with [] => None | l => Some (join ", " l) end |}, d).
End worker.
Arguments PositionWorld F : clear implicits.
Arguments WorkerWorld F : clear implicits.
Arguments ChallengerWorld F : clear implicits.
Arguments SymbolWorld F : clear implicits.

(** ** A failure costs the symbol it happens in *)

Section contained.
Context {F : Type} `{HF : PyFloat F}.
Context (fpow : F -> F -> F).
Implicit Types (a b c : Run F).

Lemma plus_assoc a b c : plus a (plus b c) = plus (plus a b) c.
Proof. unfold plus. cbn. rewrite <- !app_assoc. f_equal; lia. Qed.
Lemma plus_empty_l a : plus empty_run a = a.
Proof. by destruct a. Qed.
Lemma plus_empty_r a : plus a empty_run = a.
Proof. destruct a. unfold plus, empty_run. cbn. rewrite !app_nil_r. f_equal; lia. Qed.

Lemma foldl_plus {A} (f : A -> Run F) xs a :
  foldl (fun run x => plus run (f x)) a xs = plus a (foldl (fun run x => plus run (f x)) empty_run xs).
Proof.
  revert a. induction xs as [|x xs IH]; intros a; cbn [foldl]; [by rewrite plus_empty_r|].
  rewrite IH, (IH (plus empty_run (f x))), plus_empty_l. by rewrite plus_assoc.
Qed.

Lemma foldl_plus_events {A} (f : A -> Run F) xs :
  events (foldl (fun run x => plus run (f x)) empty_run xs) = List.concat (map (fun x => events (f x)) xs) /\
  errors (foldl (fun run x => plus run (f x)) empty_run xs) = List.concat (map (fun x => errors (f x)) xs) /\
  symbols_processed (foldl (fun run x => plus run (f x)) empty_run xs) =
    foldr (fun x n => symbols_processed (f x) + n) 0 xs.
Proof.
  induction xs as [|x xs (IH1 & IH2 & IH3)]; [done|]. cbn [foldl]. rewrite foldl_plus, plus_empty_l.
  cbn [events errors symbols_processed plus map List.concat foldr]. by rewrite IH1, IH2, IH3.
Qed.

(** Nothing inside a turn counts a symbol as processed. *)
Lemma unprocessed cfg sv symbol w : symbols_processed (snd (_process_symbol fpow cfg sv symbol w)) = 0.
Proof.
  assert (forall cfg signal symbol bars strategy size ew,
    symbols_processed (snd (place_entry (F := F) cfg signal symbol bars strategy size ew)) = 0) as Hp.
  { intros. unfold place_entry. destruct (_compute_qty _ _ _); [|done]. destruct (_ <? 1); [done|].
    destruct (permitted _); [|done]. cbn [negb]. destruct (if wk_use_limit_orders _ then _ else _) as [lp|[]]; [|done].
    destruct (valid_order_request _); [|done]. cbn [negb]. by destruct (ew_submitted _). }
  assert (forall cfg signal symbol bars strategy ew,
    symbols_processed (snd (_execute_signal (F := F) cfg signal symbol bars strategy ew)) = 0) as He.
  { intros. unfold _execute_signal. destruct (ew_exposure _); [|done]. destruct (in_direction _ _); [done|].
    destruct (_market_context _ _); [|done]. destruct (default _ (ew_policy _)) as [decision size].
    destruct (String.eqb _ _); [|done]. cbn [negb].
    match goal with |- context [place_entry ?a ?b ?c ?d ?e ?f ?g] => specialize (Hp a b c d e f g);
      destruct (place_entry a b c d e f g) as [r run] end. cbn in *. lia. }
  assert (forall sleeve ta bars cw, symbols_processed (snd (_process_one_challenger (F := F) cfg sv sleeve symbol ta bars cw)) = 0) as Hc.
  { intros. unfold _process_one_challenger. destruct (challenger_parameters _ _ _ _); [|done].
    destruct (candidate_of _ _ _ _ _); [|done]. destruct (String.eqb _ _); [done|].
    match goal with |- context [_execute_signal ?a ?b ?c ?d ?e ?f] => specialize (He a b c d e f);
      destruct (_execute_signal a b c d e f) as [r run] end. cbn in *. lia. }
  unfold _process_symbol. destruct (_market_snapshot _ _ _ _ _) as [ta bars].
  destruct (champion_signal _ _ _ _) as [signal|]; [|done].
  assert (symbols_processed (_process_challengers cfg sv symbol ta bars w) = 0) as Hcs.
  { unfold _process_challengers. destruct (use_ai cfg); [done|]. destruct ta as [ta|]; [|done].
    destruct (foldl_plus_events (fun sleeve => snd (_process_one_challenger cfg sv sleeve symbol ta bars
      (sw_challengers w (strategy_id sleeve)))) (challengers sv (sw_io w) symbol (sw_db w))) as (_ & _ & ->).
    induction (challengers _ _ _ _) as [|sl l IH]; [done|]. cbn [foldr]. rewrite Hc. lia. }
  destruct (String.eqb _ _); [cbn; lia|].
  match goal with |- context [_execute_signal ?a ?b ?c ?d ?e ?f] => specialize (He a b c d e f);
    destruct (_execute_signal a b c d e f) as [[u|e'] run] end; cbn in *; lia.
Qed.

(** A failure costs the symbol it happens in and no other. Once the exit pass is through,
    a cycle goes over the whole watchlist, and what it does, and the errors it reports, are
    what each symbol does and reports in a turn of its own, one after the other, whatever
    any of them raises; and in a turn, what the champion does does not depend on the
    challengers, whose part comes after it. *)
Theorem worker_failures_are_contained cfg sv (w : WorkerWorld F) d :
  is_ok (fst (_generate_exit_signals fpow cfg (open_positions (ww_positions w)) 0 d)) = true ->
  let '(run, state, _) := run_worker fpow cfg sv w d in
  let turn symbol := symbol_turn fpow cfg sv symbol (ww_symbols w symbol) in
  symbols_processed run = Z.of_nat (length (watchlist cfg)) /\
  events run = List.concat (map (fun symbol => events (turn symbol)) (watchlist cfg)) /\
  errors run = List.concat (map (fun symbol => errors (turn symbol)) (watchlist cfg)) /\
  is_running state = false /\
  (forall symbol, exists rest, events (turn symbol) =
     events (symbol_turn fpow cfg sv symbol
       {| sw_ai := sw_ai (ww_symbols w symbol); sw_fetched := sw_fetched (ww_symbols w symbol);
          sw_uuid := sw_uuid (ww_symbols w symbol); sw_now := sw_now (ww_symbols w symbol);
          sw_entry := sw_entry (ww_symbols w symbol); sw_io := Some "unreachable"; sw_db := sw_db (ww_symbols w symbol);
          sw_challengers := sw_challengers (ww_symbols w symbol) |}) ++ rest).
Proof.
  unfold run_worker. destruct (_generate_exit_signals _ _ _ _ _) as [[n|e] d']; [intros _|done]. cbn zeta.
  destruct (foldl_plus_events (fun symbol => symbol_turn fpow cfg sv symbol (ww_symbols w symbol)) (watchlist cfg)) as (E1 & E2 & E3).
  cbn [symbols_processed events errors plus]. unfold symbols_run. rewrite E1, E2, E3. split; [|split; [done|split; [done|split; [done|]]]].
  - rewrite Z.add_0_l. clear. induction (watchlist cfg) as [|x xs IH]; [done|]. cbn [foldr length].
    rewrite IH. unfold symbol_turn. pose proof (unprocessed cfg sv x (ww_symbols w x)) as Hu.
    destruct (_process_symbol _ _ _ _ _) as [[u|e] run]; cbn in *; lia.
  - intros symbol. unfold symbol_turn, _process_symbol, champion_signal. cbn [sw_ai sw_fetched sw_uuid sw_now sw_entry].
    destruct (_market_snapshot _ _ _ _ _) as [ta bars]. destruct (if use_ai cfg then _ else _) as [signal|]; [|by exists []; rewrite app_nil_r].
    destruct (String.eqb _ _); [|destruct (_execute_signal _ _ _ _ _ _) as [[u|e'] run]; [|by exists []; rewrite app_nil_r]];
      cbn [events plus processed]; rewrite !app_nil_r;
      (assert (events (_process_challengers cfg sv symbol ta bars
        {| sw_ai := sw_ai (ww_symbols w symbol); sw_fetched := sw_fetched (ww_symbols w symbol);
          sw_uuid := sw_uuid (ww_symbols w symbol); sw_now := sw_now (ww_symbols w symbol);
          sw_entry := sw_entry (ww_symbols w symbol); sw_io := Some "unreachable"; sw_db := sw_db (ww_symbols w symbol);
          sw_challengers := sw_challengers (ww_symbols w symbol) |}) = []) as ->
        by (unfold _process_challengers, challengers; cbn [sw_io]; destruct (use_ai cfg); [done|]; destruct ta; [|done]; by destruct (_store sv)));
      rewrite !app_nil_r; eexists; reflexivity.
Qed.
End contained.

(** ** An order of the worker passed every guard *)

Section guards.
Context {F : Type} `{HF : PyFloat F}.
Context (fpow : F -> F -> F).

(** What stands in front of an order, on the figures its entry found. *)
Record passed_guards (cfg : WorkerSettings F) (bars : list (OHLCVBar F)) (ew : EntryWorld F)
    (request : PolicyEvaluationRequest F) (rq : ExecutionOrderRequest F) : Prop := {
  asked_for : pq_signal_id request = rq_signal_id rq /\ pq_symbol request = rq_symbol rq;
  in_context : exists context, _market_context ew bars = Ok context /\
    (data_age_seconds request, market_open request, event_blackout_active request) = context;
  approved : exists size, ew_policy ew = Some ("APPROVE", size);
  not_adding : exists held, ew_exposure ew = Some held /\ in_direction held (upper (rq_side rq)) = false;
  on_roster : permitted (may_open (ew_roster ew) (rq_strategy_id rq) (rq_symbol rq) None) = true;
  capped : 1 <= rq_qty rq /\ forall v,
    average_daily_volume (map (fun b => Some (ob_volume b)) bars) (Some (wk_bars_per_day cfg)) = Some v ->
    unusable (Some v) = false -> nleb (wk_max_participation cfg) nzero = false ->
    rq_qty rq <= ntrunc (nmul v (wk_max_participation cfg));
  well_formed : valid_order_request rq = true
}.

Lemma placed_by_entry cfg signal symbol bars strategy ew key rq accepted :
  Placed key rq accepted ∈ events (snd (_execute_signal cfg signal symbol bars strategy ew)) ->
  exists request, AskedPolicy request ∈ events (snd (_execute_signal cfg signal symbol bars strategy ew)) /\
    passed_guards cfg bars ew request rq /\ rq_strategy_id rq = strategy /\ rq_side rq = candidate_action signal /\
    key = "worker-" +:+ rq_signal_id rq /\ accepted = ew_submitted ew.
Proof.
  unfold _execute_signal. destruct (ew_exposure ew) as [held|] eqn:Ex; [|by intros ?%not_elem_of_nil].
  destruct (in_direction _ _) eqn:Ed; [by intros ?%not_elem_of_nil|].
  destruct (_market_context ew bars) as [context|] eqn:Ec; [|by intros ?%not_elem_of_nil].
  destruct (default _ (ew_policy ew)) as [decision size] eqn:Ep.
  destruct (String.eqb_spec decision "APPROVE") as [->|]; cbn [negb];
    [|by intros [? | ?%not_elem_of_nil]%elem_of_cons].
  set (request := entry_request signal context).
  destruct (place_entry _ _ _ _ _ _ _) as [r run] eqn:El. cbn [snd events plus event].
  intros [? |H]%elem_of_cons; [done|].
  exists request. split; [by apply elem_of_cons; left|].
  revert El H. unfold place_entry. destruct (_compute_qty _ _ _) as [q|]; [|by intros [= <- <-] ?%not_elem_of_nil].
  pose proof (participation_capped_bounds q
    (average_daily_volume (map (fun b => Some (ob_volume b)) bars) (Some (wk_bars_per_day cfg))) (wk_max_participation cfg)) as [_ Hb].
  set (n := participation_capped_qty _ _ _) in *. destruct (Z.ltb_spec n 1) as [|Hn]; [by intros [= <- <-] ?%not_elem_of_nil|].
  cbn zeta. destruct (permitted _) eqn:Eg; cbn [negb];
    [|by intros [= <- <-] [? | ?%not_elem_of_nil]%elem_of_cons].
  destruct (if wk_use_limit_orders cfg then _ else _) as [limit|[]]; [|by intros [= <- <-] ?%not_elem_of_nil].
  set (order := worker_order _ _ _ _ _). destruct (valid_order_request order) eqn:Ev; cbn [negb];
    [|by intros [= <- <-] ?%not_elem_of_nil].
  intros [= <- <-]. cbn [events plus event]. rewrite elem_of_app, list_elem_of_singleton.
  intros [[= -> -> ->]|H]; [|by destruct (ew_submitted ew); apply not_elem_of_nil in H].
  split; [|done]. constructor; try done.
  - unfold request, entry_request. by destruct context as [[a b] c].
  - exists context. split; [done|]. unfold request, entry_request. by destruct context as [[a b] c].
  - destruct (ew_policy ew) as [[d' s']|]; [|done]. cbn in Ep. injection Ep as -> ->. by exists size.
  - by exists held.
  - cbn [rq_qty worker_order order]. split; [lia|]. intros v Hv Hu Hp. rewrite <- Hv in Hu. specialize (Hb v Hv Hu Hp). lia.
Qed.

Lemma elem_of_concat_map {A B} (f : A -> list B) xs y :
  y ∈ List.concat (map f xs) <-> exists x, x ∈ xs /\ y ∈ f x.
Proof. setoid_rewrite list_elem_of_In. rewrite in_concat. setoid_rewrite in_map_iff. naive_solver. Qed.

(** The sleeve a signal of a symbol is traded for, and what its entry finds. *)
Definition sleeve_of (cfg : WorkerSettings F) (sv : LifecycleService F) (symbol : string) (sw : SymbolWorld F)
    (strategy : string) (ew : EntryWorld F) : Prop :=
  (strategy = DEFAULT_LIVE_STRATEGY /\ ew = sw_entry sw) \/
  (use_ai cfg = false /\ exists sleeve parameters, sleeve ∈ challengers sv (sw_io sw) symbol (sw_db sw) /\
     let cw := sw_challengers sw (strategy_id sleeve) in
     challenger_parameters sv (ch_io cw) (strategy_version sleeve) (ch_db cw) = Some parameters /\
     strategy = strategy_id sleeve /\ ew = ch_entry cw).

Lemma challenger_events cfg sv sleeve symbol ta bars cw e :
  e ∈ events (snd (_process_one_challenger cfg sv sleeve symbol ta bars cw)) <->
  exists parameters signal, challenger_parameters sv (ch_io cw) (strategy_version sleeve) (ch_db cw) = Some parameters /\
    candidate_of (ch_uuid cw) symbol (ch_now cw) ("challenger:" +:+ strategy_version sleeve)
      (evaluate_rules ta (Some (block_threshold cfg)) None (Some bars) (map_to_list parameters)) = Ok signal /\
    let signal := _apply_entry_gates cfg signal (Some ta) bars in
    candidate_action signal <> "HOLD" /\
    e ∈ events (snd (_execute_signal cfg signal symbol bars (strategy_id sleeve) (ch_entry cw))).
Proof.
  unfold _process_one_challenger. destruct (challenger_parameters _ _ _ _) as [parameters|].
  2: { split; [by intros ?%not_elem_of_nil|]. naive_solver. }
  destruct (candidate_of _ _ _ _ _) as [signal|] eqn:Ec.
  2: { split; [by intros ?%not_elem_of_nil|]. intros (p & s & [= <-] & H & _). by rewrite Ec in H. }
  destruct (String.eqb (candidate_action (_apply_entry_gates cfg signal (Some ta) bars)) "HOLD") eqn:Eh.
  - split; [by intros ?%not_elem_of_nil|]. intros (p & s & [= <-] & H & Hh & _). rewrite Ec in H. injection H as <-.
    by apply String.eqb_eq in Eh.
  - apply String.eqb_neq in Eh. split.
    + intros He. exists parameters, signal. split; [done|]. split; [done|]. split; [done|].
      by destruct (_execute_signal _ _ _ _ _ _).
    + intros (p & s & [= <-] & H & _ & He). rewrite Ec in H. injection H as <-. by destruct (_execute_signal _ _ _ _ _ _).
Qed.

Lemma challengers_events cfg sv symbol ta bars sw e :
  e ∈ events (_process_challengers cfg sv symbol ta bars sw) <->
  use_ai cfg = false /\ exists ta' sleeve, ta = Some ta' /\ sleeve ∈ challengers sv (sw_io sw) symbol (sw_db sw) /\
    e ∈ events (snd (_process_one_challenger cfg sv sleeve symbol ta' bars (sw_challengers sw (strategy_id sleeve)))).
Proof.
  unfold _process_challengers. destruct (use_ai cfg); [split; [by intros ?%not_elem_of_nil|naive_solver]|].
  destruct ta as [ta|]; [|split; [by intros ?%not_elem_of_nil|naive_solver]].
  destruct (foldl_plus_events (fun sleeve => snd (_process_one_challenger cfg sv sleeve symbol ta bars
    (sw_challengers sw (strategy_id sleeve)))) (challengers sv (sw_io sw) symbol (sw_db sw))) as (-> & _ & _).
  rewrite elem_of_concat_map. naive_solver.
Qed.

(** Every event of a turn is an event of some entry made for a sleeve. *)
Lemma turn_events cfg sv symbol sw e : e ∈ events (symbol_turn fpow cfg sv symbol sw) ->
  exists signal strategy ew bars, sleeve_of cfg sv symbol sw strategy ew /\ candidate_action signal <> "HOLD" /\
    e ∈ events (snd (_execute_signal cfg signal symbol bars strategy ew)) /\
    forall e', e' ∈ events (snd (_execute_signal cfg signal symbol bars strategy ew)) ->
      e' ∈ events (symbol_turn fpow cfg sv symbol sw).
Proof.
  assert (events (symbol_turn fpow cfg sv symbol sw) = events (snd (_process_symbol fpow cfg sv symbol sw))) as ->.
  { unfold symbol_turn. destruct (_process_symbol _ _ _ _ _) as [[u|x] run]; cbn; by rewrite !app_nil_r. }
  unfold _process_symbol. destruct (_market_snapshot _ _ _ _ _) as [ta bars].
  destruct (champion_signal _ _ _ _) as [signal|]; [|by intros ?%not_elem_of_nil].
  set (champion := if String.eqb _ _ then _ else _).
  assert (forall e, e ∈ events (_process_challengers cfg sv symbol ta bars sw) ->
    exists signal strategy ew bars', sleeve_of cfg sv symbol sw strategy ew /\ candidate_action signal <> "HOLD" /\
      e ∈ events (snd (_execute_signal cfg signal symbol bars' strategy ew)) /\
      forall e', e' ∈ events (snd (_execute_signal cfg signal symbol bars' strategy ew)) ->
        e' ∈ events (_process_challengers cfg sv symbol ta bars sw)) as Hch.
  { intros e0 (Hu & ta' & sleeve & Et & Hs & (ps & sg & Hp & Hc & Hh & He)%challenger_events)%challengers_events.
    exists (_apply_entry_gates cfg sg (Some ta') bars), (strategy_id sleeve), (ch_entry (sw_challengers sw (strategy_id sleeve))), bars.
    split; [right; split; [done|]; by exists sleeve, ps|]. split; [done|]. split; [done|].
    intros e' He'. apply challengers_events. split; [done|]. exists ta', sleeve. split; [done|]. split; [done|].
    apply challenger_events. by exists ps, sg. }
  assert (forall e, e ∈ events (snd champion) ->
    exists signal strategy ew, sleeve_of cfg sv symbol sw strategy ew /\ candidate_action signal <> "HOLD" /\
      snd champion = snd (_execute_signal cfg signal symbol bars strategy ew)) as Hc.
  { intros e0. unfold champion. destruct (String.eqb_spec (candidate_action signal) "HOLD"); [by intros ?%not_elem_of_nil|].
    intros _. exists signal, DEFAULT_LIVE_STRATEGY, (sw_entry sw). split; [by left|]. done. }
  intros He. destruct champion as [[u|x] run]; cbn [snd events plus generated app] in *.
  - apply elem_of_app in He as [He|He].
    + destruct (Hc e He) as (s & st & ew & Hs & Hh & Er). exists s, st, ew, bars. rewrite <- Er.
      split; [done|]. split; [done|]. split; [done|]. intros e' He'. apply elem_of_app. by left.
    + destruct (Hch e He) as (s & st & ew & b & Hs & Hh & He' & Hsub). exists s, st, ew, b.
      split; [done|]. split; [done|]. split; [done|]. intros e' H'. apply elem_of_app. right. by apply Hsub.
  - destruct (Hc e He) as (s & st & ew & Hs & Hh & Er). exists s, st, ew, bars. rewrite <- Er. done.
Qed.
Lemma run_events cfg sv (w : WorkerWorld F) d e : e ∈ events (fst (fst (run_worker fpow cfg sv w d))) ->
  exists symbol, symbol ∈ watchlist cfg /\ e ∈ events (symbol_turn fpow cfg sv symbol (ww_symbols w symbol)) /\
    forall e', e' ∈ events (symbol_turn fpow cfg sv symbol (ww_symbols w symbol)) ->
      e' ∈ events (fst (fst (run_worker fpow cfg sv w d))).
Proof.
  unfold run_worker. destruct (_generate_exit_signals _ _ _ _ _) as [[n|x] d']; [|by intros ?%not_elem_of_nil].
  destruct (foldl_plus_events (fun symbol => symbol_turn fpow cfg sv symbol (ww_symbols w symbol)) (watchlist cfg)) as (E & _ & _).
  cbn [fst events plus app]. unfold symbols_run. rewrite E. setoid_rewrite elem_of_concat_map. naive_solver.
Qed.

End guards.

(** ** One exit signal at a time *)

Section exits.
Context {F : Type} `{HF : PyFloat F}.
Context (fpow : F -> F -> F).

(** What happens to the table: an exit pass of the worker, a signal stored by the endpoint,
    and a consumer acting on one. *)
Inductive TableOp :=
| Pass (cfg : WorkerSettings F) (rows : option (list (PositionWorld F)))
| Writes (ok : bool) (s : SignalCandidate F)
| Acts (signal_id : string).
Definition table_op (d : SignalDB F) (o : TableOp) : SignalDB F :=
  match o with
  | Pass cfg rows => snd (_generate_exit_signals fpow cfg (open_positions rows) 0 d)
  | Writes ok s => snd (_persist_signal ok s d)
  | Acts i => snd (mark_signal_acted i d)
  end.
Definition is_pending_exit (symbol : string) (r : SignalRecord F) : bool :=
  String.eqb (sg_symbol r) symbol && String.eqb (sg_action r) "EXIT" && negb (acted_on r).
Definition pending_exits (symbol : string) (d : SignalDB F) : nat := length (List.filter (is_pending_exit symbol) d).

Lemma exists_pending symbol d : _signal_exists symbol "EXIT" d = true <-> (1 <= pending_exits symbol d)%nat.
Proof.
  unfold _signal_exists, pending_exits. fold (is_pending_exit symbol). induction d as [|r d IH]; [cbn; lia|].
  cbn [existsb List.filter]. destruct (is_pending_exit symbol r); cbn [orb length]; [split; [lia|done]|done].
Qed.

Lemma exit_of_position cfg p s : _build_exit_signal fpow cfg p = Some s ->
  candidate_action s = "EXIT" /\ sc_acted_on s = false.
Proof.
  unfold _build_exit_signal. destruct (str_true _); [|done]. cbn [negb]. destruct (fst _) as [ta|]; [|done].
  destruct (exit_reasons _ _ _); [done|]. by intros [= <-].
Qed.

Lemma stored_pending ok s symbol d : pending_exits symbol (snd (_persist_signal ok s d)) =
  (pending_exits symbol d + if is_ok (fst (_persist_signal ok s d)) && is_pending_exit symbol (record_of s) then 1 else 0)%nat.
Proof.
  unfold _persist_signal, pending_exits. destruct (ok && _); cbn [fst snd is_ok andb]; [|lia].
  rewrite List.filter_app, length_app. cbn [List.filter]. by destruct (is_pending_exit _ _).
Qed.

Lemma acted_pending i symbol d : (pending_exits symbol (snd (mark_signal_acted i d)) <= pending_exits symbol d)%nat.
Proof.
  unfold mark_signal_acted, pending_exits. destruct (List.find _ d); [cbn [snd]|done]. clear. unfold update_where.
  induction d as [|r d IH]; [done|]. cbn [map List.filter].
  destruct (String.eqb _ i).
  - assert (is_pending_exit symbol (acted r) = false) as -> by (unfold is_pending_exit; cbn; by rewrite !andb_false_r).
    destruct (is_pending_exit symbol r); cbn [length]; lia.
  - destruct (is_pending_exit symbol r); cbn [length]; lia.
Qed.

(** A pass keeps the table's exits to one a symbol, and leaves one for each position whose
    exit is due. *)
Lemma pass_pending cfg positions n d :
  (forall symbol, pending_exits symbol d <= 1)%nat ->
  let '(r, d') := _generate_exit_signals fpow cfg positions n d in
  (forall symbol, pending_exits symbol d <= pending_exits symbol d' <= 1)%nat /\
  (is_ok r = true -> forall p s, p ∈ positions -> _build_exit_signal fpow cfg p = Some s ->
     pending_exits (sc_symbol s) d' = 1%nat).
Proof.
  revert n d. induction positions as [|p positions IH]; intros n d Hd; cbn [_generate_exit_signals].
  { split; [intros symbol; by split|]. by intros _ p s ?%not_elem_of_nil. }
  assert (forall n d', (forall symbol, pending_exits symbol d <= pending_exits symbol d' <= 1)%nat ->
    (forall s, _build_exit_signal fpow cfg p = Some s -> pending_exits (sc_symbol s) d' = 1%nat) ->
    let '(r, d'') := _generate_exit_signals fpow cfg positions n d' in
    (forall symbol, pending_exits symbol d <= pending_exits symbol d'' <= 1)%nat /\
    (is_ok r = true -> forall q s, q ∈ p :: positions -> _build_exit_signal fpow cfg q = Some s ->
       pending_exits (sc_symbol s) d'' = 1%nat)) as Hgo.
  { intros m d1 H1 Hp. specialize (IH m d1 (fun s => proj2 (H1 s))).
    destruct (_generate_exit_signals fpow cfg positions m d1) as [r d2]. destruct IH as [I1 I2].
    split; [intros symbol; specialize (I1 symbol); specialize (H1 symbol); lia|].
    intros Hr q s [->|Hq]%elem_of_cons Hs; [|by apply (I2 Hr q)].
    specialize (Hp s Hs). specialize (I1 (sc_symbol s)). lia. }
  destruct (_build_exit_signal fpow cfg p) as [s|] eqn:Es; [|apply Hgo; [intros symbol; by split|done]].
  destruct (exit_of_position _ _ _ Es) as [Ea Ef]. rewrite Ea.
  destruct (_signal_exists (sc_symbol s) "EXIT" d) eqn:Ex.
  - apply Hgo; [intros symbol; by split|]. intros s' [= <-]. apply exists_pending in Ex. specialize (Hd (sc_symbol s)). lia.
  - assert (pending_exits (sc_symbol s) d = 0%nat) as H0.
    { destruct (pending_exits (sc_symbol s) d) eqn:E; [done|]. assert (false = true); [|done]. rewrite <- Ex.
      apply exists_pending. lia. }
    pose proof (stored_pending (xp_write_ok p) s) as Hst.
    destruct (_persist_signal (xp_write_ok p) s d) as [[u|e] d'] eqn:Ep.
    + assert (forall symbol, pending_exits symbol d' = pending_exits symbol d +
        if String.eqb (sc_symbol s) symbol then 1 else 0)%nat as Hn.
      { intros symbol. specialize (Hst symbol d). rewrite Ep in Hst. cbn [fst snd is_ok andb] in Hst. rewrite Hst.
        unfold is_pending_exit. cbn [record_of sg_symbol sg_action acted_on]. rewrite Ea, Ef. cbn. by rewrite !andb_true_r. }
      apply Hgo.
      * intros symbol. rewrite Hn. specialize (Hd symbol). destruct (String.eqb_spec (sc_symbol s) symbol) as [<-|]; lia.
      * intros s' [= <-]. rewrite Hn, H0, String.eqb_refl. done.
    + split; [|done]. intros symbol. specialize (Hst symbol d). rewrite Ep in Hst. cbn [fst snd is_ok andb] in Hst.
      rewrite Hst. specialize (Hd symbol). lia.
Qed.

(** A symbol never has two exit signals pending, and one whose exit is due has one.
    Whatever exit passes one worker makes, whatever entries are stored in between, and
    whatever is acted on, at most one exit of a symbol waits to be acted on; and after a
    pass that was not cut short, exactly one waits for each open position that has reached
    its stop, its target, an exhausted momentum or its longest holding time. *)
Theorem one_pending_exit (ops : list TableOp) :
  Forall (fun o => match o with Writes _ s => candidate_action s <> "EXIT" | _ => True end) ops ->
  let d := foldl table_op [] ops in
  (forall symbol, pending_exits symbol d <= 1)%nat /\
  forall cfg rows p s,
    let '(r, d') := _generate_exit_signals fpow cfg (open_positions rows) 0 d in
    is_ok r = true -> p ∈ open_positions rows -> _build_exit_signal fpow cfg p = Some s ->
    pending_exits (sc_symbol s) d' = 1%nat.
Proof.
  intros Hops d. assert (forall symbol, pending_exits symbol d <= 1)%nat as Hd.
  { subst d. induction ops as [|o ops IH] using rev_ind; [intros; unfold pending_exits; cbn; lia|].
    apply Forall_app in Hops as [Hops Ho]. rewrite Forall_singleton in Ho. specialize (IH Hops). rewrite foldl_app. cbn [foldl].
    intros symbol. destruct o as [cfg rows|ok s|i]; cbn [table_op].
    - pose proof (pass_pending cfg (open_positions rows) 0 _ IH) as Hp.
      destruct (_generate_exit_signals _ _ _ _ _) as [r d']. apply Hp.
    - rewrite stored_pending. assert (is_pending_exit symbol (record_of s) = false) as ->.
      { unfold is_pending_exit. cbn [record_of sg_action]. apply String.eqb_neq in Ho. by rewrite Ho, andb_false_r. }
      rewrite andb_false_r. specialize (IH symbol). lia.
    - pose proof (acted_pending i symbol (foldl table_op [] ops)). specialize (IH symbol). lia. }
  split; [done|]. intros cfg rows p s. pose proof (pass_pending cfg (open_positions rows) 0 d Hd) as Hp.
  destruct (_generate_exit_signals _ _ _ _ _) as [r d']. destruct Hp as [_ Hp]. intros Hr Hin Hs. by apply (Hp Hr p).
Qed.
End exits.
Arguments TableOp F : clear implicits.

(** ** The worker decides as the backtest does *)

Section as_backtested.
Context {F : Type} `{HF : PyFloat F} {HL : PyFloatLaws F}.
Context (fpow : F -> F -> F).
Implicit Types bars : list (OHLCVBar F).

Lemma nltb_not_nleb (x y : F) : nord x = true -> nord y = true -> nltb x y = negb (nleb y x).
Proof using HL.
  intros Hx Hy. destruct (nltb x y) eqn:El; [|by rewrite (nord_total x y Hx Hy El)].
  destruct (nleb y x) eqn:Ee; [|done]. apply nleb_nltb in Ee. congruence.
Qed.

(** Neither the figures of the last bar nor their average are NaN. *)
Definition volumes_of bars : list F := map (fun bar => nor (ob_volume bar) nzero) bars.
Definition mean_volume bars : F :=
  ndiv (nsum (last_n 20 (volumes_of bars))) (nofZ (Z.of_nat (Nat.min (length bars) 20))).
Definition ordered_volumes bars : Prop :=
  nord (default nzero (last (volumes_of bars))) = true /\ nord (mean_volume bars) = true.

Lemma volume_confirms_last bars : bars <> [] ->
  volume_confirms (volumes_of bars) (length bars - 1) VOLUME_LOOKBACK =
  nltb (mean_volume bars) (default nzero (last (volumes_of bars))).
Proof.
  intros Hb. assert (0 < length bars)%nat as Hn by (destruct bars; [done|cbn; lia]).
  assert (length (volumes_of bars) = length bars) as El by apply length_map.
  unfold volume_confirms, mean_volume, last_n. rewrite El. destruct (Nat.leb_spec (length bars) (length bars - 1)); [lia|].
  replace (length bars - 1 + 1)%nat with (length bars) by lia. cbv zeta. unfold VOLUME_LOOKBACK.
  rewrite take_ge by (rewrite length_drop; lia).
  assert (length (drop (length bars - 20) (volumes_of bars)) = Nat.min (length bars) 20) as Ew by (rewrite length_drop; lia).
  rewrite <- Ew. destruct (drop _ _) as [|v vs] eqn:E; [cbn in Ew; lia|]. f_equal.
  unfold at_. rewrite nth_lookup. unfold volumes_of in *. by rewrite last_lookup, El, Nat.sub_1_r.
Qed.

(** The worker's gates are the backtest's, at the last bar. *)
Lemma entry_gates_agree cfg signal sym bars source now s : bars <> [] -> candidate_action signal = action_str s ->
  let a := compute_adx (map ob_high bars) (map ob_low bars) (map ob_close bars) ADX_PERIOD in
  nltb (nround 4 a) (nofZ 20) = nltb a (nofZ 20) -> nord a = true -> ordered_volumes bars ->
  candidate_action (_apply_entry_gates cfg signal (Some (build_ta_summary fpow sym bars source now)) bars) =
  action_str (gates_at true (volume_confirm_enabled cfg) bars s).
Proof using HL.
  intros Hb Ha a Hra Hoa [Ho1 Ho2]. unfold _apply_entry_gates. rewrite Ha.
  destruct s; [|done|done]. cbn [action_str String.eqb Ascii.eqb Bool.eqb negb].
  assert (bars_count (build_ta_summary fpow sym bars source now) = length bars /\
    Indicators.adx (build_ta_summary fpow sym bars source now) = nround 4 a) as [-> ->].
  { unfold build_ta_summary. destruct (last bars) eqn:El; [|by apply last_None in El].
    destruct (compute_macd _ 12 26 9) as [[ml ms] mh]. destruct (compute_bollinger _ _ _ _) as [[u m] w]. by cbn. }
  unfold gates_at. fold a. cbn [andb]. unfold regime_is_tradable, adx_is_computable.
  destruct (Nat.leb_spec (ADX_PERIOD + 2) (length bars)) as [Hc|Hc]; cbn [negb].
  2: { destruct (Nat.ltb_spec (length bars) (ADX_PERIOD + 2)); [done|lia]. }
  destruct (Nat.ltb_spec (length bars) (ADX_PERIOD + 2)); [lia|]. unfold REGIME_ADX_FLOOR.
  rewrite Hra, (nltb_not_nleb a (nofZ 20) Hoa (nord_nlit 20 1)).
  destruct (nleb (nofZ 20) a); cbn [negb]; [|done].
  destruct (volume_confirm_enabled cfg); cbn [andb]; [|done].
  fold (volumes_of bars). rewrite volume_confirms_last by done.
  assert (length (volumes_of bars) = length bars) as El by apply length_map. rewrite El. fold (mean_volume bars).
  destruct (Nat.eqb_spec (length bars) 0) as [E0|_]; [by destruct bars|]. cbn [negb].
  destruct (last (volumes_of bars)) as [current|] eqn:Ec; [|apply last_None in Ec; rewrite Ec in El; by destruct bars].
  cbn [default] in *. change (Datatypes.id current) with current in *.
  rewrite (nltb_not_nleb (mean_volume bars) current) by done.
  by destruct (nleb current (mean_volume bars)).
Qed.

(** The rounding of the summary moves none of the figures across a threshold of the rule or
    of the regime gate, and none of those the gates compare is NaN. *)
Record rounding_neutral p bars : Prop := {
  some_bars : bars <> [];
  closes_true : Forall (fun x => ntrue x = true) (map ob_close bars);
  rule_kept : rounded_rule p (map ob_close bars) = momentum_at p bars;
  adx_kept : let a := compute_adx (map ob_high bars) (map ob_low bars) (map ob_close bars) ADX_PERIOD in
             nltb (nround 4 a) (nofZ 20) = nltb a (nofZ 20) /\ nord a = true;
  volumes_ordered : ordered_volumes bars
}.

(** A rule's candidate, through the gates. *)
Lemma gated_candidate cfg signal_id symbol now model sym bars source t threshold parameters p signal :
  rounding_neutral p bars -> params_wf p -> records parameters p -> momentum_warmup p <= Z.of_nat (length bars) ->
  candidate_of signal_id symbol now model
    (evaluate_rules (build_ta_summary fpow sym bars source t) threshold None (Some bars) parameters) = Ok signal ->
  exists s, last (Strategies.apply bars (momentum_signals bars p) true (volume_confirm_enabled cfg)) = Some s /\
    candidate_action (_apply_entry_gates cfg signal (Some (build_ta_summary fpow sym bars source t)) bars) = action_str s.
Proof using HL.
  intros [Hb Hc Hk [H5 H6] H7] Hwf Hr Hw Hs.
  rewrite momentum_on_prefixes by by apply params_wf_periods.
  rewrite apply_on_prefixes, last_on_prefixes by done. eexists. split; [done|].
  apply entry_gates_agree; try done.
  pose proof (rounded_decision fpow sym bars source t threshold None parameters p Hr Hb Hw Hc) as Hd.
  assert (sentiment_gate threshold None (rounded_rule p (map ob_close bars)) = momentum_at p bars) as Eg
    by (rewrite Hk; unfold sentiment_gate; by destruct (momentum_at p bars)).
  rewrite Eg in Hd. rewrite <- Hd.
  unfold candidate_of, candidate in Hs. by destruct (_ && _); [injection Hs as <-|].
Qed.

(** C20. The worker trades what was backtested. Once the configuration is warm, on bars where
    the summary's rounding moves no figure across a threshold: the champion's signal is
    what the gated backtest of the default configuration signals at the last bar; and an
    order placed for a challenger is on the side that the gated backtest of its recorded
    proposal signals there. *)
Theorem worker_decides_as_backtested cfg sv symbol (sw : SymbolWorld F) bars p :
  sw_fetched sw = Some bars -> rounding_neutral p bars -> params_wf p ->
  momentum_warmup p <= Z.of_nat (length bars) ->
  let backtested := last (Strategies.apply bars (momentum_signals bars p) true (volume_confirm_enabled cfg)) in
  (forall signal, use_ai cfg = false -> records [] p -> champion_signal fpow cfg symbol sw = Ok signal ->
     exists s, backtested = Some s /\ candidate_action signal = action_str s) /\
  (forall sleeve parameters key rq accepted, let cw := sw_challengers sw (strategy_id sleeve) in
     challenger_parameters sv (ch_io cw) (strategy_version sleeve) (ch_db cw) = Some parameters ->
     records (map_to_list parameters) p ->
     Placed key rq accepted ∈ events (snd (_process_one_challenger cfg sv sleeve symbol
       (build_ta_summary fpow symbol bars (wk_source cfg) (sw_now sw)) bars cw)) ->
     exists s, backtested = Some s /\ s <> HOLD /\ rq_side rq = action_str s).
Proof using HL.
  intros Hf Hff Hwf Hw. cbn zeta. split.
  - intros signal Hu Hr. unfold champion_signal, _market_snapshot. rewrite Hf, Hu.
    destruct bars as [|b0 bars0] eqn:Eb; [by destruct (some_bars _ _ Hff)|]. rewrite <- Eb in *.
    unfold _build_deterministic_signal. destruct (candidate_of _ _ _ _ _) as [sg|] eqn:Ec; [|done]. intros [= <-].
    by apply (gated_candidate _ _ _ _ _ _ _ _ _ _ _ _ _ Hff Hwf Hr Hw Ec).
  - intros sleeve parameters key rq accepted Hp Hr (p' & sg & Hp' & Hc & Hh & He)%challenger_events.
    rewrite Hp in Hp'. injection Hp' as <-.
    apply placed_by_entry in He as (request & _ & _ & _ & Hside & _).
    destruct (gated_candidate cfg _ _ _ _ _ _ _ _ _ _ _ _ Hff Hwf Hr Hw Hc) as (s & Hs & Ea).
    exists s. split; [done|]. rewrite Hside. split; [|done]. intros ->. by rewrite Ea in Hh.
Qed.
End as_backtested.

(** ** Concrete cycles *)

Module Rounds.
Definition fpow (x _ : spec_float) : spec_float := x.

(** A rising, noisy tape of whole cents, with rising volume. *)
Definition bar (i : nat) (c : spec_float) : OHLCVBar spec_float :=
  {| Indicators.ob_symbol := "MSFT"; ob_timestamp := days (Z.of_nat i); ob_open := c; ob_high := c; ob_low := c;
     ob_close := c; ob_volume := nofZ (100000 + 100 * Z.of_nat i) |}.
Definition tape : list (OHLCVBar spec_float) :=
  map (fun i => bar i (nlit (1000 + 2 * Z.of_nat i + Z.of_nat (i * i * 2 mod 31)) 100)) (List.seq 0 51).
Definition cfg (ai : bool) (symbols : list string) : WorkerSettings spec_float :=
  {| watchlist := symbols; use_ai := ai; block_threshold := nlit (-3) 10; volume_confirm_enabled := true;
     wk_stop_loss_pct := nlit 3 100; wk_take_profit_pct := nlit 6 100; max_hold := days 5;
     wk_max_participation := nlit 1 100; wk_use_limit_orders := true; wk_tolerance_bps := nofZ 10;
     wk_bars_per_day := nofZ 1; wk_source := "daily" |}.

(** The default strategy and a challenger on paper, with the challenger's proposal. *)
Definition proposal : ChallengerDict spec_float :=
  {| c_challenger_id := "c1"; c_strategy_id := "ema_rsi_macd"; c_symbol := "MSFT"; c_base_version := "v1";
     c_parameters := {[ "ema_fast" := nofZ 10; "ema_slow" := nofZ 40 ]}; c_rationale := ""; c_clamped := [];
     c_bounds_version := "b1"; c_generator := "g" |}.
Definition to_paper (st : string) (d : DB spec_float) : DB spec_float :=
  match get Demo.settings st "MSFT" None d with
  | Some s => Demo.run (OpTransition s "paper" "promoted" "ann" None) 6 d
  | None => d
  end.
Definition roster : DB spec_float :=
  to_paper "ema_rsi_macd-c1" (to_paper "ema_rsi_macd"
    (Demo.run (OpProposal "cmp" proposal None None 12 None true None) 5
      (Demo.run (OpRegister "ema_rsi_macd-c1" "MSFT" "c1" "equity" None "ann" "challenger") 5
        (Demo.run (OpRegister "ema_rsi_macd" "MSFT" "v1" "equity" None "ann" "human") 5 empty_db)))).
Definition service : LifecycleService spec_float := Ladder.service.

Definition entry (held : list (string * spec_float)) : EntryWorld spec_float :=
  {| ew_exposure := Some held; ew_account := Some (nofZ 50000); ew_session_open := true; ew_snapshot_age := Some 12;
     ew_now := 0; ew_blackout := Ok false; ew_policy := Some ("APPROVE", Some (nlit 2 100));
     ew_price := Some (nlit 1130 100);
     ew_roster := Some {| sn_settings := Demo.settings; sn_sleeve := Ok roster; sn_live_mode := Ok roster; sn_halt := Ok roster |};
     ew_submitted := true |}.
Definition symbol_world (ai : result exn (SignalCandidate spec_float)) (fetched : option (list (OHLCVBar spec_float)))
    (ew : EntryWorld spec_float) : SymbolWorld spec_float :=
  {| sw_ai := ai; sw_fetched := fetched; sw_uuid := "u1"; sw_now := days 51; sw_entry := ew; sw_io := None; sw_db := roster;
     sw_challengers := fun _ => {| ch_io := None; ch_db := roster; ch_uuid := "u2"; ch_now := days 51; ch_entry := entry [] |} |}.
Definition world (f : string -> SymbolWorld spec_float) : WorkerWorld spec_float :=
  {| ww_positions := None; ww_symbols := f |}.
Definition orders (run : Run spec_float) : list (string * string * Z) :=
  List.flat_map (fun e => match e with Placed _ rq _ => [(rq_strategy_id rq, rq_side rq, rq_qty rq)] | _ => [] end) (events run).

(** Both sleeves run on the tape. *)
Definition both : WorkerWorld spec_float :=
  world (fun _ => symbol_world (Err (RuntimeError "no model")) (Some tape) (entry [])).
Definition signal (action : string) : SignalCandidate spec_float :=
  {| sc_signal_id := "s1"; sc_symbol := "MSFT"; sc_ts := 0; candidate_action := action; sc_confidence := nlit 8 10;
     sc_size_pct := nlit 2 100; sc_model_version := "m1"; sc_risk_score := "LOW"; sc_strategy := DEFAULT_LIVE_STRATEGY;
     sc_as_of := None; sc_research_summary := None; sc_acted_on := false |}.

(** A position [qty] of MSFT, bought or sold at 10. *)
Definition position (qty : Z) (price : spec_float) (uuid : string) (ok : bool) : PositionWorld spec_float :=
  {| xp_symbol := "msft"; xp_average_cost := nofZ 10; xp_net_qty := qty; xp_opened_at := None; xp_updated_at := None;
     xp_fetched := Some (take 3 tape); xp_price := Some price; xp_now := days 51; xp_uuid := uuid; xp_write_ok := ok |}.
Definition exit_pass (uuid : string) : TableOp spec_float :=
  Pass (cfg false ["MSFT"]) (Some [position 5 (nofZ 9) uuid true]).
Definition exit_ops : list (TableOp spec_float) :=
  [exit_pass "e1"; Writes true (signal "BUY"); exit_pass "e2"; Acts "e1"].

(** The champion is asked for and placed, then the challenger. *)
Lemma challenger_order :
  match events (fst (fst (run_worker fpow (cfg false ["MSFT"]) service both []))) !! 3%nat with
  | Some (Placed _ rq _) => (rq_strategy_id rq, rq_side rq, rq_qty rq)
  | _ => ("", "", 0)
  end = ("ema_rsi_macd-c1", "BUY", 88).
Proof. vm_compute. reflexivity. Qed.
End Rounds.


(** The model is down for one of two symbols: the other is traded. *)
Lemma worker_failures_are_contained_witness :
  let w := Rounds.world (fun symbol => Rounds.symbol_world
    (if String.eqb symbol "AAPL" then Err (RuntimeError "no model") else Ok (Rounds.signal "SELL")) None (Rounds.entry [])) in
  let '(run, state, _) := run_worker Rounds.fpow (Rounds.cfg true ["AAPL"; "MSFT"]) Rounds.service w [] in
  symbols_processed run = 2 /\ is_running state = false /\
  Rounds.orders run = [("ema_rsi_macd", "SELL", 88)] /\ errors run = ["AAPL: no model"].
Proof.
  pose proof (worker_failures_are_contained Rounds.fpow (Rounds.cfg true ["AAPL"; "MSFT"]) Rounds.service
    (Rounds.world (fun symbol => Rounds.symbol_world
      (if String.eqb symbol "AAPL" then Err (RuntimeError "no model") else Ok (Rounds.signal "SELL")) None (Rounds.entry []))) [] eq_refl) as H.
  cbv zeta in *.
  match goal with |- let '(_, _) := ?x in _ => destruct x as [[run state] d'] eqn:E end.
  destruct H as (H1 & _ & _ & H4 & _). split; [exact H1|]. split; [exact H4|].
  vm_compute in E. injection E as <- _ _. split; reflexivity.
Defined.

Lemma one_pending_exit_witness :
  let d := foldl (table_op Rounds.fpow) [] Rounds.exit_ops in
  length d = 2%nat /\ pending_exits "MSFT" d = 0%nat /\
  (forall symbol, pending_exits symbol d <= 1)%nat /\
  pending_exits "MSFT" (table_op Rounds.fpow d (Rounds.exit_pass "e3")) = 1%nat.
Proof.
  destruct (one_pending_exit Rounds.fpow Rounds.exit_ops) as [H1 H2].
  { repeat constructor; discriminate. }
  split; [vm_compute; reflexivity|]. split; [vm_compute; reflexivity|]. split; [exact H1|].
  assert (exists s, _build_exit_signal Rounds.fpow (Rounds.cfg false ["MSFT"]) (Rounds.position 5 (nofZ 9) "e3" true) = Some s /\
    sc_symbol s = "MSFT") as (s & Es & Hs) by (eexists; split; [vm_compute; reflexivity|reflexivity]).
  specialize (H2 (Rounds.cfg false ["MSFT"]) (Some [Rounds.position 5 (nofZ 9) "e3" true]) (Rounds.position 5 (nofZ 9) "e3" true) s).
  rewrite Hs in H2. unfold Rounds.exit_pass, table_op at 1.
  destruct (_generate_exit_signals _ _ _ _ _) as [r d'] eqn:E. apply H2; [|by repeat constructor|exact Es].
  assert (is_ok (fst (r, d')) = true) as Hr; [|exact Hr]. rewrite <- E. vm_compute. reflexivity.
Defined.

Lemma worker_decides_as_backtested_witness :
  exists signal, champion_signal Rounds.fpow (Rounds.cfg false ["MSFT"]) "MSFT" (ww_symbols Rounds.both "MSFT") = Ok signal /\
    last (Strategies.apply Rounds.tape (momentum_signals Rounds.tape default_params) true true) = Some BUY /\
    candidate_action signal = action_str BUY.
Proof.
  destruct (worker_decides_as_backtested Rounds.fpow (Rounds.cfg false ["MSFT"]) Rounds.service "MSFT"
    (ww_symbols Rounds.both "MSFT") Rounds.tape default_params eq_refl) as [H _].
  - constructor; [discriminate| |vm_compute; reflexivity|split; vm_compute; reflexivity|split; vm_compute; reflexivity].
    apply List.Forall_forall. intros x Hx. revert x Hx. apply List.Forall_forall. vm_compute. repeat constructor.
  - unfold params_wf. split; [cbn; lia|]. by vm_compute.
  - vm_compute. discriminate.
  - destruct (champion_signal Rounds.fpow (Rounds.cfg false ["MSFT"]) "MSFT" (ww_symbols Rounds.both "MSFT")) as [signal|] eqn:E.
    2: { vm_compute in E. discriminate. }
    assert (last (Strategies.apply Rounds.tape (momentum_signals Rounds.tape default_params) true true) = Some BUY) as Hb
      by (vm_compute; reflexivity).
    destruct (H signal eq_refl ltac:(by repeat split) eq_refl) as (s & Hs & Ha).
    exists signal. split; [reflexivity|]. split; [exact Hb|]. change (volume_confirm_enabled (Rounds.cfg false ["MSFT"])) with true in Hs.
    rewrite Hb in Hs. injection Hs as <-. exact Ha.
Defined.

(** A write that fails in the exit pass ends the cycle before any symbol, and the error is
    overwritten: the status of the worker shows none. *)
Lemma exit_failure_is_hidden :
  let w := {| ww_positions := Some [Rounds.position 5 (nofZ 9) "e1" false]; ww_symbols := ww_symbols Rounds.both |} in
  let '(run, state, d) := run_worker Rounds.fpow (Rounds.cfg false ["MSFT"]) Rounds.service w [] in
  (run, state, d) = (empty_run, {| is_running := false; last_run_error := None |}, []).
Proof. vm_compute. reflexivity. Qed.

(** A short position that gains is closed as stopped out, and one that loses as having
    reached its target. *)
Lemma short_exits_are_mislabelled :
  let reasons price := sc_research_summary <$>
    _build_exit_signal Rounds.fpow (Rounds.cfg false ["MSFT"]) (Rounds.position (-5) price "e1" true) in
  (reasons (nofZ 9), reasons (nofZ 11)) = (Some (Some "stop_loss_hit"), Some (Some "take_profit_hit")).
Proof. vm_compute. reflexivity. Qed.

(** What the rule answers on too few bars is no candidate: the challenger fails where it
    should hold. *)
Lemma short_tape_fails_the_challenger :
  let bars := take 39 Rounds.tape in
  let rule := evaluate_rules (build_ta_summary Rounds.fpow "MSFT" bars "daily" 0) None None (Some bars)
                (map_to_list (c_parameters Rounds.proposal)) in
  (rs_action rule, is_ok (candidate_of "u" "MSFT" 0 "m" rule)) = (HOLD, false).
Proof. vm_compute. reflexivity. Qed.

(** Liquidity, the allowlist and the drawdown of the day are constants of the worker: the
    policy service sees a drawdown of nothing whatever the day has lost. And an entry of the
    worker carries neither stop nor target. *)
Lemma worker_reports_constants :
  map (fun e => match e with
    | AskedPolicy q => (neqb (liquidity_score q) (nlit 95 100), symbol_allowed q, neqb (daily_drawdown_pct q) nzero)
    | Placed _ rq _ => (true, true, match rq_stop_loss_rate rq, rq_take_profit_rate rq with None, None => true | _, _ => false end)
    | Gated _ _ _ _ => (false, false, false)
    end) (events (fst (fst (run_worker Rounds.fpow (Rounds.cfg false ["MSFT"]) Rounds.service Rounds.both [])))) =
  [(true, true, true); (true, true, true); (true, true, true); (true, true, true)].
Proof. vm_compute. reflexivity. Qed.
