(* ===== verification/Approvals.v ===== *)
(** * The approval gateway

    Models [services/approval-gateway/src/approval_gateway/main.py] and its table: the
    creation of a request, its soft timeout, the two decisions and the listings. Between the
    read and the write of a decision another request may have changed the table; the
    content of [metadata] is a parameter of the table. Shown: the first decision of a
    request stands, whatever is called after it; and an order the orchestrator submits from
    an approval was approved before its deadline. *)

From S2P Require Import PyFloat Store Contracts Signals Policy Risk DayTrade Monitors Cycle Prelude.
From Stdlib Require Import Floats.SpecFloat.
Local Close Scope Q_scope.
Local Open Scope Z_scope.

Record ApprovalRequest (F M : Type) := {
  ar_signal_id : string;
  ar_symbol : string;
  ar_action : string;
  ar_amount_usd : F;
  ar_tier : Z;
  ar_reason : string;
  ar_metadata : M
}.
Arguments ar_signal_id {F M}. Arguments ar_symbol {F M}. Arguments ar_action {F M}. Arguments ar_amount_usd {F M}.
Arguments ar_tier {F M}. Arguments ar_reason {F M}. Arguments ar_metadata {F M}.

Record ApprovalRecord (F M : Type) := {
  av_id : string;
  av_request : ApprovalRequest F M;
  av_status : string;
  av_created_at : datetime;
  av_expires_at : option datetime;
  av_reviewed_at : option datetime
}.
Arguments av_id {F M}. Arguments av_request {F M}. Arguments av_status {F M}. Arguments av_created_at {F M}.
Arguments av_expires_at {F M}. Arguments av_reviewed_at {F M}.

Section gateway.
Context {F M : Type} `{HF : PyFloat F}.
Local Open Scope py_scope.

Definition ApprovalDB : Type := list (ApprovalRecord F M).

(** What pydantic requires of a request. *)
Definition valid_approval_request (q : ApprovalRequest F M) : bool :=
  (nzero <=? ar_amount_usd q) && ((1 <=? ar_tier q)%Z && (ar_tier q <=? 3)%Z).

Definition with_status (status : string) (now : datetime) (row : ApprovalRecord F M) : ApprovalRecord F M :=
  {| av_id := av_id row; av_request := av_request row; av_status := status; av_created_at := av_created_at row;
     av_expires_at := av_expires_at row; av_reviewed_at := Some now |}.

(** [int(payload["approval_tiers"]["tier2_soft_timeout_minutes"])], fifteen where it is
    not configured. *)
Definition _tier2_timeout_minutes (configured : option Z) : Z := default 15%Z configured.

(** [policy] is the policy file, which is read for every request; an exception there is a
    500, and so is a failed write. *)
Definition create_approval (policy : result string (option Z)) (uuid : string) (now : datetime) (ok : bool)
    (q : ApprovalRequest F M) (d : ApprovalDB) : result HTTPException (ApprovalRecord F M) * ApprovalDB :=
  if negb (valid_approval_request q) then (Err {| status_code := 422; detail := "validation error" |}, d) else
  match sanitize_symbol (ar_symbol q) with
  | Err e => (Err e, d)
  | Ok symbol =>
      match validate_positive_amount (ar_amount_usd q) "amount_usd" with
      | Err e => (Err e, d)
      | Ok amount =>
          match policy with
          | Err e => (Err {| status_code := 500; detail := e |}, d)
          | Ok configured =>
              let expires :=
                if (ar_tier q =? 2)%Z then Some (now + _tier2_timeout_minutes configured * 60000000)%Z else None in
              let row :=
                {| av_id := uuid;
                   av_request := {| ar_signal_id := ar_signal_id q; ar_symbol := upper symbol; ar_action := upper (ar_action q);
                                    ar_amount_usd := amount; ar_tier := ar_tier q; ar_reason := ar_reason q;
                                    ar_metadata := ar_metadata q |};
                   av_status := "PENDING"; av_created_at := now; av_expires_at := expires; av_reviewed_at := None |} in
              if ok && negb (existsb (fun r => String.eqb (av_id r) uuid) d) then (Ok row, d ++ [row])
              else (Err {| status_code := 500; detail := "database error" |}, d)
          end
      end
  end.

Definition pending (row : ApprovalRecord F M) : bool := String.eqb (av_status row) "PENDING".
Definition due (now : datetime) (row : ApprovalRecord F M) : bool :=
  match av_expires_at row with Some t => (t <=? now)%Z | None => false end.

Definition _expire_soft_timeouts (now : datetime) (d : ApprovalDB) : ApprovalDB :=
  update_where (fun row => pending row && due now row) (with_status "EXPIRED" now) d.

Definition newest_first (a b : ApprovalRecord F M) : bool := (av_created_at b <=? av_created_at a)%Z.

(** No status, or an empty one, lists every row. *)
Definition list_pending (status : option string) (now : datetime) (d : ApprovalDB)
    : list (ApprovalRecord F M) * ApprovalDB :=
  let d := _expire_soft_timeouts now d in
  let asked row := match status with
                   | Some s => negb (str_true s) || String.eqb (av_status row) (upper s)
                   | None => true
                   end in
  (sort_by newest_first (List.filter asked d), d).

Definition find_approval (approval_id : string) (d : ApprovalDB) : option (ApprovalRecord F M) :=
  List.find (fun r => String.eqb (av_id r) approval_id) d.

Definition get_approval (approval_id : string) (now : datetime) (d : ApprovalDB)
    : result HTTPException (ApprovalRecord F M) * ApprovalDB :=
  let d := _expire_soft_timeouts now d in
  (match find_approval approval_id d with
   | None => Err {| status_code := 404; detail := "Approval not found" |}
   | Some row => Ok row
   end, d).

(** The row is read, found pending, and written; [others] is what other requests do to the
    table in between. The write names the row and the two columns, and nothing it had read. *)
Definition _transition (others : ApprovalDB -> ApprovalDB) (approval_id status : string) (now : datetime) (d : ApprovalDB)
    : result HTTPException (ApprovalRecord F M) * ApprovalDB :=
  let d := _expire_soft_timeouts now d in
  match find_approval approval_id d with
  | None => (Err {| status_code := 404; detail := "Approval not found" |}, others d)
  | Some row =>
      if negb (pending row) then (Ok row, others d) else
      let d := update_where (fun r => String.eqb (av_id r) approval_id) (with_status status now) (others d) in
      (match find_approval approval_id d with
       | Some row => Ok row
       | None => Err {| status_code := 500; detail := "row is gone" |}
       end, d)
  end.

Definition approve (others : ApprovalDB -> ApprovalDB) (approval_id : string) (now : datetime) (d : ApprovalDB) :=
  _transition others approval_id "APPROVED" now d.
Definition reject (others : ApprovalDB -> ApprovalDB) (approval_id : string) (now : datetime) (d : ApprovalDB) :=
  _transition others approval_id "REJECTED" now d.
End gateway.
Arguments ApprovalDB F M : clear implicits.


(** ** The first decision stands *)

Section calls.
Context {F M : Type} `{HF : PyFloat F}.

(** Requests to the gateway, one after the other. *)
Inductive Call :=
| Create (policy : result string (option Z)) (uuid : string) (now : datetime) (ok : bool) (q : ApprovalRequest F M)
| ListRows (status : option string) (now : datetime)
| Get (approval_id : string) (now : datetime)
| Approve (approval_id : string) (now : datetime)
| Reject (approval_id : string) (now : datetime).

Definition call (d : ApprovalDB F M) (c : Call) : ApprovalDB F M :=
  match c with
  | Create policy uuid now ok q => snd (create_approval policy uuid now ok q d)
  | ListRows status now => snd (list_pending status now d)
  | Get i now => snd (get_approval i now d)
  | Approve i now => snd (approve (fun d => d) i now d)
  | Reject i now => snd (reject (fun d => d) i now d)
  end.
Definition table (calls : list Call) : ApprovalDB F M := foldl call [] calls.

(** The row a creation stores, where the table has no such id yet. *)
Definition creates (c : Call) : option (ApprovalRecord F M) :=
  match c with
  | Create policy uuid now ok q =>
      match fst (create_approval policy uuid now ok q []) with Ok row => Some row | Err _ => None end
  | _ => None
  end.

(** When a call looks at the table, and what it decides. *)
Definition clock (c : Call) : option datetime :=
  match c with Create _ _ _ _ _ => None | ListRows _ now | Get _ now | Approve _ now | Reject _ now => Some now end.
Definition verdict (approval_id : string) (c : Call) : option string :=
  match c with
  | Approve i _ => if String.eqb i approval_id then Some "APPROVED" else None
  | Reject i _ => if String.eqb i approval_id then Some "REJECTED" else None
  | _ => None
  end.

(** The first call that finds a request due expires it, the first that decides on it before
    that decides. *)
Fixpoint outcome (row : ApprovalRecord F M) (calls : list Call) : option (string * datetime) :=
  match calls with
  | [] => None
  | c :: calls =>
      match clock c with
      | None => outcome row calls
      | Some now =>
          if due now row then Some ("EXPIRED", now)
          else match verdict (av_id row) c with
               | Some v => Some (v, now)
               | None => outcome row calls
               end
      end
  end.
Definition settled (row : ApprovalRecord F M) (calls : list Call) : ApprovalRecord F M :=
  match outcome row calls with Some (status, now) => with_status status now row | None => row end.

(** What one call does to a stored row. *)
Definition lapse (now : datetime) (row : ApprovalRecord F M) : ApprovalRecord F M :=
  if pending row && due now row then with_status "EXPIRED" now row else row.
Definition touched (c : Call) (row : ApprovalRecord F M) : ApprovalRecord F M :=
  match clock c with
  | None => row
  | Some now =>
      let row := lapse now row in
      match verdict (av_id row) c with
      | Some v => if pending row then with_status v now row else row
      | None => row
      end
  end.

Lemma lapse_id now row : av_id (lapse now row) = av_id row.
Proof. unfold lapse. by destruct (_ && _). Qed.
Lemma touched_id_kept c row : av_id (touched c row) = av_id row.
Proof.
  unfold touched. destruct (clock c); [|done]. cbv zeta. rewrite lapse_id.
  destruct (verdict _ c); [destruct (pending _)|]; cbn; apply lapse_id.
Qed.

Lemma created_row policy uuid now ok q (d : ApprovalDB F M) :
  creates (Create policy uuid now ok q) = None /\ snd (create_approval policy uuid now ok q d) = d \/
  exists row, creates (Create policy uuid now ok q) = Some row /\ av_id row = uuid /\ pending row = true /\
    av_request row = {| ar_signal_id := ar_signal_id q; ar_symbol := ar_symbol (av_request row);
      ar_action := upper (ar_action q); ar_amount_usd := ar_amount_usd (av_request row); ar_tier := ar_tier q;
      ar_reason := ar_reason q; ar_metadata := ar_metadata q |} /\
    snd (create_approval policy uuid now ok q d) = if existsb (fun r => String.eqb (av_id r) uuid) d then d else d ++ [row].
Proof.
  unfold creates, create_approval. destruct (valid_approval_request q); cbn [negb]; [|by left].
  destruct (sanitize_symbol _); [|by left]. destruct (validate_positive_amount _ _); [|by left].
  destruct policy; [|by left]. destruct ok; [|by left]. right. cbn. eexists. split; [done|]. split; [done|].
  split; [done|]. split; [done|]. by destruct (existsb _ d).
Qed.

Lemma lapse_rows now (d : ApprovalDB F M) : _expire_soft_timeouts now d = map (lapse now) d.
Proof. reflexivity. Qed.

(** With unique ids, a call does to each row what [touched] says. *)
Lemma call_rows c (d : ApprovalDB F M) : NoDup (map av_id d) -> clock c <> None -> call d c = map (touched c) d.
Proof.
  intros Hd Hc.
  assert (forall now, (forall row, row ∈ d -> touched c row = lapse now row) -> map (lapse now) d = map (touched c) d) as Hsame.
  { intros now H. apply map_ext_in. intros r Hr%list_elem_of_In. by rewrite H. }
  assert (forall i v now, clock c = Some now -> verdict i c = Some v -> (forall j, j <> i -> verdict j c = None) ->
    snd (_transition (fun d => d) i v now d) = map (touched c) d) as Ht.
  { intros i v now Hn Hv Ho. unfold _transition. rewrite lapse_rows. unfold find_approval.
    destruct (List.find _ _) as [row|] eqn:Ef; cbn [snd].
    - apply find_some_elem in Ef as [Hin Ei%String.eqb_eq]. apply elem_of_map in Hin as (r0 & -> & Hin).
      rewrite lapse_id in Ei. destruct (pending (lapse now r0)) eqn:Ep; cbn [negb snd].
      + unfold update_where. rewrite map_map. apply map_ext_in. intros r Hr%list_elem_of_In. rewrite lapse_id.
        unfold touched. rewrite Hn. cbv zeta. rewrite lapse_id. destruct (String.eqb_spec (av_id r) i) as [E|E].
        * assert (r = r0) as -> by (eapply (NoDup_map_inj av_id d); eauto; congruence). by rewrite E, Hv, Ep.
        * by rewrite (Ho _ E).
      + apply Hsame. intros r Hr. unfold touched. rewrite Hn. cbv zeta. rewrite lapse_id.
        destruct (String.eqb_spec (av_id r) i) as [E|E]; [|by rewrite (Ho _ E)].
        assert (r = r0) as -> by (eapply (NoDup_map_inj av_id d); eauto; congruence). by rewrite E, Hv, Ep.
    - apply Hsame. intros r Hr. unfold touched. rewrite Hn. cbv zeta. rewrite lapse_id.
      rewrite Ho; [done|]. intros E. pose proof (List.find_none _ _ Ef (lapse now r)) as Hf.
      cbv beta in Hf. rewrite lapse_id in Hf. apply String.eqb_eq in E. rewrite Hf in E; [done|].
      apply list_elem_of_In, elem_of_map. by exists r. }
  destruct c as [p u n o q|s now|i now|i now|i now]; [done|by apply Hsame|by apply Hsame| |];
    cbn [call]; apply Ht; cbn; rewrite ?String.eqb_refl; try done;
    intros j Hj; destruct (String.eqb_spec i j); congruence.
Qed.

Lemma outcome_snoc row post c : outcome row (post ++ [c]) =
  match outcome row post with Some o => Some o | None => outcome row [c] end.
Proof.
  induction post as [|c0 post IH]; [done|]. cbn [app outcome]. destruct (clock c0); [|done].
  destruct (due _ _); [done|]. destruct (verdict _ c0); [done|]. by rewrite IH.
Qed.

Lemma verdict_final i c v : verdict i c = Some v -> v = "APPROVED" \/ v = "REJECTED".
Proof. destruct c as [| | |j n|j n]; cbn; try done; destruct (String.eqb j i); intros [= <-]; auto. Qed.

Lemma outcome_final row post v now : outcome row post = Some (v, now) -> String.eqb v "PENDING" = false.
Proof.
  induction post as [|c post IH]; [done|]. cbn [outcome]. destruct (clock c); [|done].
  destruct (due _ _); [by intros [= <- _]|]. destruct (verdict _ c) as [v'|] eqn:E; [|done].
  intros [= <- _]. by destruct (verdict_final _ _ _ E) as [-> | ->].
Qed.

Lemma settled_id row post : av_id (settled row post) = av_id row.
Proof. unfold settled. by destruct (outcome row post) as [[? ?]|]. Qed.

Lemma settled_snoc row post c : pending row = true -> settled row (post ++ [c]) = touched c (settled row post).
Proof.
  intros Hp. unfold settled. rewrite outcome_snoc. destruct (outcome row post) as [[v now]|] eqn:Eo.
  - apply outcome_final in Eo. unfold touched. destruct (clock c); [|done]. cbv zeta. unfold lapse, pending. cbn [with_status av_status].
    rewrite Eo. cbn [andb av_status with_status]. rewrite Eo. by destruct (verdict _ c).
  - cbn [outcome]. unfold touched. destruct (clock c) as [now|]; [|done]. cbv zeta. unfold lapse. rewrite Hp. cbn [andb].
    destruct (due now row); cbn [with_status av_id]; [by destruct (verdict _ c)|].
    by destruct (verdict (av_id row) c); rewrite ?Hp.
Qed.

(** No creation of the id before. *)
Definition fresh_in (pre : list Call) (i : string) : Prop :=
  Forall (fun c => forall row, creates c = Some row -> av_id row <> i) pre.

Definition made_by (calls : list Call) (row : ApprovalRecord F M) : Prop :=
  exists pre c post row0, calls = pre ++ c :: post /\ creates c = Some row0 /\ fresh_in pre (av_id row0) /\
    row = settled row0 post.

Lemma creates_pending c row : creates c = Some row -> pending row = true.
Proof.
  destruct c as [p u n o q| | | |]; try done. destruct (created_row p u n o q []) as [[-> _]|(r & -> & _ & Hp & _)]; [done|].
  by intros [= <-].
Qed.

Lemma made_snoc calls c row : made_by (calls ++ [c]) row <->
  (exists r, made_by calls r /\ row = touched c r) \/ (creates c = Some row /\ fresh_in calls (av_id row)).
Proof.
  split.
  - intros (pre & c0 & post & row0 & E & Hc & Hf & ->). destruct post as [|c' post _] using rev_ind.
    + apply app_inj_tail in E as [-> ->]. by right.
    + rewrite app_comm_cons, app_assoc in E. apply app_inj_tail in E as [-> <-]. left.
      rewrite settled_snoc by by eapply creates_pending. eexists. split; [|done]. by exists pre, c0, post, row0.
  - intros [(r & (pre & c0 & post & row0 & -> & Hc & Hf & ->) & ->)|[Hc Hf]].
    + exists pre, c0, (post ++ [c]), row0. rewrite settled_snoc by by eapply creates_pending.
      by rewrite <- app_assoc.
    + by exists calls, c, [], row.
Qed.

Lemma table_snoc calls c : table (calls ++ [c]) = call (table calls) c.
Proof. unfold table. by rewrite foldl_app. Qed.

Lemma table_ok calls :
  NoDup (map av_id (table calls)) /\
  (forall i, fresh_in calls i <-> existsb (fun r => String.eqb (av_id r) i) (table calls) = false) /\
  (forall row, row ∈ table calls <-> made_by calls row).
Proof.
  assert (forall i (d : ApprovalDB F M), existsb (fun r => String.eqb (av_id r) i) d = false <-> i ∉ map av_id d) as Hex.
  { intros i d. rewrite <- not_true_iff_false, existsb_exists. setoid_rewrite <- list_elem_of_In. setoid_rewrite String.eqb_eq.
    rewrite elem_of_map. naive_solver. }
  induction calls as [|c calls (Hn & Hi & Hr)] using rev_ind.
  { split; [constructor|]. split; [intros i; split; [done|intros _; constructor]|].
    intros row. split; [by intros ?%not_elem_of_nil|]. intros ([|] & ? & ? & ? & ? & _); done. }
  rewrite table_snoc. assert (forall i, fresh_in (calls ++ [c]) i <->
    fresh_in calls i /\ forall row, creates c = Some row -> av_id row <> i) as Hfs.
  { intros i. unfold fresh_in. by rewrite Forall_app, Forall_singleton. }
  setoid_rewrite Hfs. setoid_rewrite made_snoc. destruct (clock c) as [now|] eqn:Ec.
  - rewrite call_rows by (done || congruence).
    assert (creates c = None) as Hcr by by destruct c. rewrite Hcr.
    assert (map av_id (map (touched c) (table calls)) = map av_id (table calls)) as Eids
      by (rewrite map_map; apply map_ext; intros; apply touched_id_kept).
    split; [by rewrite Eids|]. split.
    + intros i. rewrite Hi, !Hex, Eids. naive_solver.
    + intros row. rewrite elem_of_map. setoid_rewrite Hr. naive_solver.
  - destruct c as [p u n o q| | | |]; try done. cbn [call].
    assert (forall r, touched (Create p u n o q) r = r) as Ht by done. setoid_rewrite Ht.
    destruct (created_row p u n o q (table calls)) as [[-> ->]|(row0 & -> & Eid & _ & _ & ->)].
    + split; [done|]. split; [intros i; rewrite Hi; naive_solver|]. intros row. rewrite Hr. naive_solver.
    + destruct (existsb _ (table calls)) eqn:Ex.
      * split; [done|]. split.
        -- intros i. rewrite Hi. split; [tauto|]. intros Hf. split; [done|]. intros r [= <-] <-. rewrite Eid in Hf. congruence.
        -- intros row. rewrite Hr. split; [naive_solver|]. intros [(r & ? & ->)|[[= <-] Hf]]; [done|].
           apply Hi in Hf. rewrite Eid in Hf. congruence.
      * split; [|split].
        -- rewrite map_app. apply NoDup_app. split; [done|]. split; [|apply NoDup_singleton].
           intros i Hin ->%list_elem_of_singleton. rewrite Eid in Hin. by apply Hex in Ex.
        -- intros i. rewrite Hi, !Hex, map_app, not_elem_of_app. cbn [map]. rewrite not_elem_of_cons.
           split; [intros [? Hc]; split; [done|]; split; [intros ->; by apply (Hc row0)|apply not_elem_of_nil]|].
           intros (? & Hne & _). split; [done|]. intros r [= <-] Hr0. by apply Hne.
        -- intros row. rewrite elem_of_app, list_elem_of_singleton, Hr. split.
           ++ intros [?| ->]; [left; by exists row|right]. split; [done|]. apply Hi. by rewrite Eid.
           ++ intros [(r & ? & ->)|[[= <-] _]]; [by left|by right].
Qed.

(** C21. The first decision on a request stands. Whatever requests are created, listed, read,
    approved and rejected, one after the other, in whatever order and at whatever times, the
    table holds exactly the requests created under an id of their own, each as it was made
    but for its outcome: pending while nothing settled it, and otherwise what the first call
    to settle it made of it, expired if that call found it past its deadline, approved or
    rejected if it was a decision on it before then. *)
Theorem first_decision_stands (calls : list Call) row :
  row ∈ table calls <->
  exists pre c post row0, calls = pre ++ c :: post /\ creates c = Some row0 /\ fresh_in pre (av_id row0) /\
    row = match outcome row0 post with Some (status, now) => with_status status now row0 | None => row0 end.
Proof. apply table_ok. Qed.
End calls.
Arguments Call F M : clear implicits.

(** ** What a human approved is what is executed *)

Section approved.
Context {F : Type} `{HF : PyFloat F}.

(** The approval was the first thing to settle the request, and in time. *)
Definition approved_in_time (calls : list (Call F (SignalCandidate F))) (row0 : ApprovalRecord F (SignalCandidate F)) : Prop :=
  exists pre c mid at_ post, calls = pre ++ c :: mid ++ Approve (av_id row0) at_ :: post /\ creates c = Some row0 /\
    due at_ row0 = false /\
    Forall (fun c' => verdict (av_id row0) c' = None \/ clock c' = None) mid /\
    Forall (fun c' => forall t, clock c' = Some t -> due t row0 = false) mid.

Lemma approved_outcome (row0 : ApprovalRecord F (SignalCandidate F)) post now : outcome row0 post = Some ("APPROVED", now) ->
  exists mid post', post = mid ++ Approve (av_id row0) now :: post' /\ due now row0 = false /\
    Forall (fun c' => verdict (av_id row0) c' = None \/ clock c' = None) mid /\
    Forall (fun c' => forall t, clock c' = Some t -> due t row0 = false) mid.
Proof.
  induction post as [|c post IH]; [done|]. cbn [outcome].
  assert ((clock c = None \/ verdict (av_id row0) c = None) -> (forall t, clock c = Some t -> due t row0 = false) ->
    outcome row0 post = Some ("APPROVED", now) -> exists mid post', c :: post = mid ++ Approve (av_id row0) now :: post' /\
      due now row0 = false /\ Forall (fun c' => verdict (av_id row0) c' = None \/ clock c' = None) mid /\
      Forall (fun c' => forall t, clock c' = Some t -> due t row0 = false) mid) as Hgo.
  { intros Hc Hd (mid & post' & -> & Hn & H1 & H2)%IH. exists (c :: mid), post'. split; [done|]. split; [done|].
    split; constructor; try done. tauto. }
  destruct (clock c) as [t|] eqn:Et; [|apply Hgo; auto; congruence].
  destruct (due t row0) eqn:Ed; [done|]. destruct (verdict (av_id row0) c) as [v|] eqn:Ev.
  2: { apply Hgo; [by right|]. by intros ? [= <-]. }
  intros [= -> <-]. exists [], post. destruct c as [| | |i n|i n]; cbn in Ev, Et; try done;
    destruct (String.eqb_spec i (av_id row0)) as [->|]; try done. by injection Et as ->.
Qed.

Lemma submitted_signal env signal r p w (o : ExecutionOrderRequest F) :
  Submit o ∈ snd (_submit_order env signal r p w) ->
  rq_signal_id o = sc_signal_id signal /\ rq_symbol o = sc_symbol signal /\ rq_side o = candidate_action signal.
Proof.
  unfold _submit_order. destruct (w_quote w) as [price|]; [|by intros ?%not_elem_of_nil].
  destruct (nleb price nzero); [by intros ?%not_elem_of_nil|]. destruct (nfinite _); cbn [negb]; [|by intros ?%not_elem_of_nil].
  destruct (_ <? 1); [by intros ?%not_elem_of_nil|].
  destruct (if use_limit_orders env then _ else _) as [limit|[]]; [|by intros ?%not_elem_of_nil].
  cbn [snd]. intros [= ->]%list_elem_of_singleton. by cbn.
Qed.

End approved.

(** ** The request of the orchestrator *)

(** [reason]: of the policy's answer, or of the risk engine. The amount is that of an account
    of a hundred thousand. *)
Definition _approval {F} `{PyFloat F} (signal : SignalCandidate F) (r : RiskAssessment F) (reason : string)
    : ApprovalRequest F (SignalCandidate F) :=
  {| ar_signal_id := sc_signal_id signal; ar_symbol := sc_symbol signal; ar_action := candidate_action signal;
     ar_amount_usd := nround 2 (nmul (nofZ 100000) (nor (adjusted_size_pct r) (sc_size_pct signal)));
     ar_tier := ra_tier r; ar_reason := reason; ar_metadata := signal |}.

(** ** On concrete requests *)

Module Desk.
Definition minute (n : Z) : datetime := n * 60000000.
Definition assessed (tier : Z) : RiskAssessment spec_float :=
  {| ra_approved := true; ra_tier := tier; ra_reason := "ok"; adjusted_size_pct := nlit 2 100 |}.
Definition ask (uuid : string) (tier now : Z) : Call spec_float (SignalCandidate spec_float) :=
  Create (Ok None) uuid (minute now) true (_approval (fst Cycles.reviewed) (assessed tier) "review").
Definition Approve_ (i : string) (now : Z) : Call spec_float (SignalCandidate spec_float) := Approve i (minute now).
Definition Reject_ (i : string) (now : Z) : Call spec_float (SignalCandidate spec_float) := Reject i (minute now).
(** Asked for twice: the first is rejected after it was approved, the second approved late. *)
Definition calls := [ask "a1" 2 0; ask "a2" 2 1; Approve_ "a1" 14; Reject_ "a1" 15; Approve_ "a2" 16].
Definition statuses (d : ApprovalDB spec_float (SignalCandidate spec_float)) := map (fun r => (av_id r, av_status r)) d.
Definition approvals : ApprovalsWorld spec_float := Cycles.approvals_of [Cycles.reviewed].
Lemma listed : map fst [Cycles.reviewed] =
  map (fun row => ar_metadata (av_request row)) (fst (list_pending (Some "APPROVED") (minute 20) (table calls))).
Proof. vm_compute. reflexivity. Qed.
End Desk.

Lemma first_decision_stands_witness :
  exists row, row ∈ table Desk.calls /\ av_id row = "a2" /\ av_status row = "EXPIRED" /\
    Desk.statuses (table Desk.calls) = [("a1", "APPROVED"); ("a2", "EXPIRED")].
Proof.
  destruct (creates (Desk.ask "a2" 2 1)) as [row0|] eqn:E; [|vm_compute in E; discriminate].
  exists (with_status "EXPIRED" (Desk.minute 16) row0). split; [|split; [|split; [reflexivity|vm_compute; reflexivity]]].
  - apply (first_decision_stands Desk.calls).
    exists [Desk.ask "a1" 2 0], (Desk.ask "a2" 2 1), [Desk.Approve_ "a1" 14; Desk.Reject_ "a1" 15; Desk.Approve_ "a2" 16], row0.
    split; [reflexivity|]. split; [exact E|]. vm_compute in E. injection E as <-. split.
    + constructor; [|constructor]. intros row Hr. vm_compute in Hr. injection Hr as <-. discriminate.
    + vm_compute. reflexivity.
  - vm_compute in E. injection E as <-. reflexivity.
Defined.


(** Two decisions at once: both read the request as pending, and the second to write wins.
    What was approved, and may have been executed, is then rejected. *)
Lemma concurrent_decisions_overwrite :
  let d := table [Desk.ask "a1" 3 0] in
  let meanwhile d := snd (approve (fun d => d) "a1" (Desk.minute 1) d) in
  (Desk.statuses (meanwhile d), Desk.statuses (snd (reject meanwhile "a1" (Desk.minute 1) d))) =
  ([("a1", "APPROVED")], [("a1", "REJECTED")]).
Proof. vm_compute. reflexivity. Qed.

(** The gateway keeps no trace of an approval having been used, and a request of the same
    signal is a new row: a signal under review is asked for again by every cycle, and each
    approval of it is listed for ever. *)
Lemma approvals_accumulate :
  let d := table [Desk.ask "a1" 3 0; Desk.ask "a2" 3 15; Desk.Approve_ "a1" 20; Desk.Approve_ "a2" 21] in
  map (fun r => (av_id r, ar_signal_id (av_request r))) (fst (list_pending (Some "APPROVED") (Desk.minute 500000) d)) =
  [("a2", "s2"); ("a1", "s2")].
Proof. vm_compute. reflexivity. Qed.

(** A human is asked about two thousand dollars; on an account with half a million to
    spend, the order is of ten thousand. *)
Lemma approved_amount_is_not_ordered :
  let p := {| ps_positions := []; buying_power := nofZ 500000; ps_daily_drawdown_pct := nzero |} in
  let '(signal, w) := Cycles.reviewed in
  (neqb (ar_amount_usd (_approval signal (Desk.assessed 3) "review")) (nofZ 2000),
   Cycles.orders (snd (_submit_order Cycles.env signal (Desk.assessed 3) p w))) = (true, [("s2", "MSFT", 100)]).
Proof. vm_compute. reflexivity. Qed.
