(* ===== verification/Veto.v ===== *)
(** * The veto

    Models [libs/veto]: the policy with its environment ([policy.py]), the decision
    ([decision.py]) and the review ([review.py]). The archive is a class of reads, each of
    which may raise; the journal of [Journal] is an instance. The dictionaries a decision is
    printed as are left out, and [float(s)] of a text is a parameter. Shown: a review refuses
    exactly when a rule is broken on what it could read, and what it could not read is
    reported; and, coverage apart, a review of a past moment does not see what was recorded
    since. *)

From S2P Require Import PyFloat Store Contracts Policy Journal JournalTheorems Prelude.
From Stdlib Require Import Floats.SpecFloat.
Local Close Scope Q_scope.
Local Open Scope Z_scope.

(** ** decision.py *)

Definition REJECTED := "REJECTED".
Definition NO_OBJECTION := "NO_OBJECTION".

Record Objection (F : Type) := {
  rule : string;
  o_detail : fstr F;
  measure : option F;
  threshold : option F
}.
Arguments rule {F}. Arguments o_detail {F}. Arguments measure {F}. Arguments threshold {F}.

Record VetoDecision (F : Type) := {
  subject : string;
  v_as_of : datetime;
  policy_version : string;
  objections : list (Objection F);
  unchecked : list string
}.
Arguments subject {F}. Arguments v_as_of {F}. Arguments policy_version {F}. Arguments objections {F}. Arguments unchecked {F}.

Section decision.
Context {F : Type}.
Definition verdict (v : VetoDecision F) : string := match objections v with [] => NO_OBJECTION | _ => REJECTED end.
Definition rejected (v : VetoDecision F) : bool := match objections v with [] => false | _ => true end.
(** [__bool__]: there is no truth value. *)
Definition truth (v : VetoDecision F) : result string bool :=
  Err "A VetoDecision has no truth value. `not rejected` is not approval — the veto has no authority to approve — so check `.rejected` explicitly rather than letting a condition decide what this meant.".
End decision.

(** ** policy.py *)

Definition POLICY_VERSION := "1".

Record VetoPolicy (F : Type) := {
  min_archived_bars : Z;
  max_stale_minutes : F;
  max_gap_count : Z;
  window_hours : F;
  v_expected_interval_minutes : F;
  max_recent_rejected_orders : Z
}.
Arguments min_archived_bars {F}. Arguments max_stale_minutes {F}. Arguments max_gap_count {F}. Arguments window_hours {F}.
Arguments v_expected_interval_minutes {F}. Arguments max_recent_rejected_orders {F}.

Section policy.
Context {F : Type} `{HF : PyFloat F}.
Context (float_of : string -> option F).
Implicit Types environ : gmap string string.

Definition default_policy : VetoPolicy F :=
  {| min_archived_bars := 60; max_stale_minutes := nofZ 120; max_gap_count := 3; window_hours := nofZ 48;
     v_expected_interval_minutes := nofZ 15; max_recent_rejected_orders := 5 |}.

(** A field is overridden only where its variable is set, and refused where it does not
    parse. *)
Definition override {A} (cast : string -> option A) (caster variable : string) (d : A) environ : result string A :=
  match environ !! variable with
  | None => Ok d
  | Some raw =>
      if negb (str_true (strip raw)) then Ok d
      else match cast raw with
           | Some v => Ok v
           | None => Err (variable +:+ "=" +:+ py_repr raw +:+ " is not a valid " +:+ caster)
           end
  end.

Definition from_env environ : result string (VetoPolicy F) :=
  match override py_int "int" "VETO_MIN_ARCHIVED_BARS" (min_archived_bars default_policy) environ with Err e => Err e | Ok bars =>
  match override float_of "float" "VETO_MAX_STALE_MINUTES" (max_stale_minutes default_policy) environ with Err e => Err e | Ok stale =>
  match override py_int "int" "VETO_MAX_GAP_COUNT" (max_gap_count default_policy) environ with Err e => Err e | Ok gaps =>
  match override float_of "float" "VETO_WINDOW_HOURS" (window_hours default_policy) environ with Err e => Err e | Ok hours =>
  match override float_of "float" "VETO_EXPECTED_INTERVAL_MINUTES" (v_expected_interval_minutes default_policy) environ with Err e => Err e | Ok interval =>
  match override py_int "int" "VETO_MAX_REJECTED_ORDERS" (max_recent_rejected_orders default_policy) environ with Err e => Err e | Ok orders =>
  Ok {| min_archived_bars := bars; max_stale_minutes := stale; max_gap_count := gaps; window_hours := hours;
        v_expected_interval_minutes := interval; max_recent_rejected_orders := orders |}
  end end end end end end.
End policy.

(** ** review.py *)

(** What a review reads: the timestamps of the bars held, the cadences held, the gaps of a
    window where completeness is available, and which orders were rejected. *)
Class Archive (F J : Type) := {
  read_bars : string -> string -> datetime -> J -> result string (list datetime);
  read_timeframes : string -> J -> result string (pydict Z);
  read_gaps : string -> string -> datetime -> datetime -> F -> J -> result string Z;
  read_rejected : string -> datetime -> J -> result string (list bool)
}.

Section review.
Context {F J : Type} `{HF : PyFloat F} `{HA : Archive F J}.
Local Open Scope py_scope.

Definition newest (bars : list datetime) : option datetime :=
  match bars with [] => None | b :: bars => Some (foldl Z.max b bars) end.

Definition _staleness_minutes (bars : list datetime) (moment : datetime) : option F :=
  (fun t => nround 2 (total_seconds (moment - t)%Z / nofZ 60)) <$> newest bars.

Definition _other_timeframes_hint (journal : J) (symbol timeframe : string) : string :=
  match read_timeframes symbol journal with
  | Err _ => ""
  | Ok held =>
      match List.filter (fun '(tf, n) => negb (String.eqb tf timeframe) && negb (n =? 0)%Z) held with
      | [] => ""
      | held =>
          let listing := join ", " (map (fun '(tf, n) => str_of_Z n +:+ " at " +:+ tf)
                                      (sort_by (fun a b => String.leb (fst a) (fst b)) held)) in
          " (the archive does hold " +:+ listing +:+ " — was this the intended timeframe?)"
      end
  end.

(** [timedelta(hours=x)]: the whole hours exactly, the rest of the product rounded half to
    even. *)
Definition timedelta_hours (x : F) : Z :=
  Z.add (ntrunc x * 3600000000)%Z (ntrunc (nround 0 (nofZ 3600000000 * (x - nofZ (ntrunc x))))).

Definition history (subject timeframe : string) (journal : J) (active : VetoPolicy F) (bars : result string (list datetime))
    : list (Objection F) * list string :=
  match bars with
  | Err _ => ([], ["history: the bar archive could not be read"])
  | Ok bars =>
      let n := Z.of_nat (length bars) in
      if (n <? min_archived_bars active)%Z then
        ([{| rule := "insufficient_history";
             o_detail := lit (str_of_Z n +:+ " archived bars for " +:+ subject +:+ " at " +:+ timeframe +:+
               "; nothing downstream can rest on fewer than " +:+ str_of_Z (min_archived_bars active) +:+
               _other_timeframes_hint journal subject timeframe);
             measure := Some (nofZ n); threshold := Some (nofZ (min_archived_bars active)) |}], [])
      else ([], [])
  end.

Definition freshness (subject : string) (active : VetoPolicy F) (bars : result string (list datetime)) (moment : datetime)
    : list (Objection F) * list string :=
  match bars with
  | Err _ => ([], [])
  | Ok bars =>
      match _staleness_minutes bars moment with
      | None => ([], ["freshness: no dateable bar in the archive"])
      | Some stale =>
          if stale >? max_stale_minutes active then
            ([{| rule := "stale_series";
                 o_detail := [Lit ("the freshest bar for " +:+ subject +:+ " is "); Fmt ".0f" stale;
                              Lit " minutes old; this is reasoning about a memory"];
                 measure := Some stale; threshold := Some (max_stale_minutes active) |}], [])
          else ([], [])
      end
  end.

Definition coverage (subject : string) (active : VetoPolicy F) (gaps : result string Z) : list (Objection F) * list string :=
  match gaps with
  | Err _ => ([], ["coverage: completeness could not be computed"])
  | Ok gap_count =>
      if (max_gap_count active <? gap_count)%Z then
        ([{| rule := "gapped_series";
             o_detail := [Lit (str_of_Z gap_count +:+ " interior gaps in the last "); Fmt ".0f" (window_hours active);
                          Lit ("h of " +:+ subject +:+ "; the series cannot support a claim about continuity")];
             measure := Some (nofZ gap_count); threshold := Some (nofZ (max_gap_count active)) |}], [])
      else ([], [])
  end.

Definition tradeability (subject : string) (active : VetoPolicy F) (rows : result string (list bool))
    : list (Objection F) * list string :=
  match rows with
  | Err _ => ([], ["tradeability: execution records could not be read"])
  | Ok rows =>
      let rejected := Z.of_nat (length (List.filter Datatypes.id rows)) in
      if (max_recent_rejected_orders active <? rejected)%Z then
        ([{| rule := "orders_keep_being_rejected";
             o_detail := lit (str_of_Z rejected +:+ " rejected orders for " +:+ subject +:+ " in the archive; something is wrong with the instrument, a permission or a halt, and research that ignores it is research about a symbol the system cannot trade");
             measure := Some (nofZ rejected); threshold := Some (nofZ (max_recent_rejected_orders active)) |}], [])
      else ([], [])
  end.

(** The rules one after the other. *)
Definition review (journal : J) (subject_ : string) (moment : datetime) (active : VetoPolicy F) (timeframe : string)
    : VetoDecision F :=
  let bars := read_bars subject_ timeframe moment journal in
  let gaps := read_gaps subject_ timeframe (moment - timedelta_hours (window_hours active))%Z moment
                (v_expected_interval_minutes active) journal in
  let found := [history subject_ timeframe journal active bars; freshness subject_ active bars moment;
                coverage subject_ active gaps; tradeability subject_ active (read_rejected subject_ moment journal)] in
  {| subject := subject_; v_as_of := moment; policy_version := POLICY_VERSION;
     objections := List.concat (map fst found); unchecked := List.concat (map snd found) |}.
End review.

(** *** The journal as the archive *)

(** What each of the four reads meets. *)
Record Faults := { f_bars : io; f_timeframes : io; f_completeness : io; f_executions : io }.

(** The reads of the journal answer nothing where they fail; only completeness says so. *)
#[export] Instance journal_archive {F} `{PyFloat F} : Archive F (Journal F * Faults) := {
  read_bars symbol timeframe moment '(j, f) :=
    Ok (map b_bar_ts (bars_as_of symbol timeframe moment 1000 (f_bars f) j));
  read_timeframes symbol '(j, f) := Ok (bar_timeframes symbol (f_timeframes f) j);
  read_gaps symbol timeframe start stop interval '(j, f) :=
    k_gap_count <$> completeness symbol timeframe start stop interval (f_completeness f) j;
  read_rejected symbol moment '(j, f) :=
    Ok (map x_rejected (execution_rows None None (Some symbol) None (Some "default") None (Some moment) 5000 (f_executions f) j))
}.

(** ** A review refuses exactly when a rule is broken *)

Section refuses.
Context {F J : Type} `{HF : PyFloat F} `{HA : Archive F J}.
Implicit Types (journal : J) (active : VetoPolicy F).

(** The rules, on what the archive answered. *)
Inductive broken journal subject moment active timeframe : string -> Prop :=
| TooFewBars bars : read_bars subject timeframe moment journal = Ok bars ->
    Z.of_nat (length bars) < min_archived_bars active ->
    broken journal subject moment active timeframe "insufficient_history"
| Stale bars t : read_bars subject timeframe moment journal = Ok bars -> t ∈ bars ->
    Forall (fun t' => t' <= t) bars ->
    nltb (max_stale_minutes active) (nround 2 (ndiv (total_seconds (moment - t)) (nofZ 60))) = true ->
    broken journal subject moment active timeframe "stale_series"
| Gapped n : read_gaps subject timeframe (moment - timedelta_hours (window_hours active)) moment
      (v_expected_interval_minutes active) journal = Ok n ->
    max_gap_count active < n -> broken journal subject moment active timeframe "gapped_series"
| Untradeable rows : read_rejected subject moment journal = Ok rows ->
    max_recent_rejected_orders active < Z.of_nat (length (List.filter Datatypes.id rows)) ->
    broken journal subject moment active timeframe "orders_keep_being_rejected".

(** The checks that could not run. *)
Inductive unread journal subject moment active timeframe : string -> Prop :=
| NoArchive e : read_bars subject timeframe moment journal = Err e ->
    unread journal subject moment active timeframe "history: the bar archive could not be read"
| NoBar : read_bars subject timeframe moment journal = Ok [] ->
    unread journal subject moment active timeframe "freshness: no dateable bar in the archive"
| NoCoverage e : read_gaps subject timeframe (moment - timedelta_hours (window_hours active)) moment
      (v_expected_interval_minutes active) journal = Err e ->
    unread journal subject moment active timeframe "coverage: completeness could not be computed"
| NoExecutions e : read_rejected subject moment journal = Err e ->
    unread journal subject moment active timeframe "tradeability: execution records could not be read".

Lemma newest_spec bars t : newest bars = Some t <-> (t ∈ bars /\ Forall (fun t' => t' <= t) bars).
Proof.
  assert (forall l b, foldl Z.max b l ∈ b :: l /\ Forall (fun t' => t' <= foldl Z.max b l) (b :: l)) as H.
  { induction l as [|x l IH]; intros b; cbn [foldl]; [split; [constructor|repeat constructor; lia]|].
    destruct (IH (Z.max b x)) as [H1 H2]. apply Forall_cons in H2 as [H2 H3].
    split; [|repeat constructor; [lia|lia|done]].
    apply elem_of_cons in H1 as [H1|H1]; [|by do 2 apply list_elem_of_further].
    rewrite H1. destruct (Z.max_spec b x) as [[_ ->]|[_ ->]]; [apply list_elem_of_further|]; constructor. }
  destruct bars as [|b bars]; cbn [newest]; [split; [done|by intros [?%not_elem_of_nil _]]|].
  destruct (H bars b) as [H1 H2]. split; [by intros [= <-]|]. intros [Hin Hall]. f_equal.
  rewrite Forall_forall in Hall, H2. apply Z.le_antisymm; [by apply Hall|by apply H2].
Qed.

Lemma rules_of journal subject moment active timeframe r :
  (exists o, o ∈ objections (review journal subject moment active timeframe) /\ rule o = r) <->
  broken journal subject moment active timeframe r.
Proof.
  unfold review. cbn [objections map fst List.concat]. rewrite app_nil_r.
  setoid_rewrite elem_of_app. setoid_rewrite elem_of_app. setoid_rewrite elem_of_app.
  assert ((exists o, o ∈ fst (history subject timeframe journal active (read_bars subject timeframe moment journal)) /\ rule o = r) <->
    r = "insufficient_history" /\ exists bars, read_bars subject timeframe moment journal = Ok bars /\
      Z.of_nat (length bars) < min_archived_bars active) as H1.
  { unfold history. destruct (read_bars subject timeframe moment journal) as [bars|];
      [destruct (Z.ltb_spec (Z.of_nat (length bars)) (min_archived_bars active))|]; cbn [fst];
      try setoid_rewrite list_elem_of_singleton; try setoid_rewrite elem_of_nil; naive_solver lia. }
  assert ((exists o, o ∈ fst (freshness subject active (read_bars subject timeframe moment journal) moment) /\ rule o = r) <->
    r = "stale_series" /\ exists bars t, read_bars subject timeframe moment journal = Ok bars /\ t ∈ bars /\ Forall (fun t' => t' <= t) bars /\
      nltb (max_stale_minutes active) (nround 2 (ndiv (total_seconds (moment - t)) (nofZ 60))) = true) as H2.
  { unfold freshness, _staleness_minutes. destruct (read_bars subject timeframe moment journal) as [bars|].
    2: { cbn [fst]. setoid_rewrite elem_of_nil. naive_solver. }
    pose proof (newest_spec bars) as Hn. destruct (newest bars) as [t|]; cbn [fmap option_fmap option_map].
    - destruct (proj1 (Hn t) eq_refl) as [Ht Hall].
      destruct (nltb (max_stale_minutes active) _) eqn:E; cbn [fst].
      + setoid_rewrite list_elem_of_singleton. split; [intros (o & -> & <-); split; [done|]; by exists bars, t|].
        intros [-> _]. by eexists.
      + setoid_rewrite elem_of_nil. split; [naive_solver|]. intros (_ & bs & t' & [= <-] & Hin' & Hall' & E').
        assert (Some t = Some t') as [= <-] by (apply Hn; done). congruence.
    - cbn [fst]. setoid_rewrite elem_of_nil. split; [naive_solver|]. intros (_ & bs & t' & [= <-] & Hin' & Hall' & _).
      by pose proof (proj2 (Hn t') (conj Hin' Hall')). }
  assert ((exists o, o ∈ fst (coverage subject active (read_gaps subject timeframe (moment - timedelta_hours (window_hours active)) moment
      (v_expected_interval_minutes active) journal)) /\ rule o = r) <->
    r = "gapped_series" /\ exists n, read_gaps subject timeframe (moment - timedelta_hours (window_hours active)) moment
      (v_expected_interval_minutes active) journal = Ok n /\ max_gap_count active < n) as H3.
  { unfold coverage. destruct (read_gaps _ _ _ _ _ _) as [n|]; [destruct (Z.ltb_spec (max_gap_count active) n)|]; cbn [fst];
      try setoid_rewrite list_elem_of_singleton; try setoid_rewrite elem_of_nil; naive_solver lia. }
  assert ((exists o, o ∈ fst (tradeability subject active (read_rejected subject moment journal)) /\ rule o = r) <->
    r = "orders_keep_being_rejected" /\ exists rows, read_rejected subject moment journal = Ok rows /\
      max_recent_rejected_orders active < Z.of_nat (length (List.filter Datatypes.id rows))) as H4.
  { unfold tradeability. destruct (read_rejected _ _ _) as [rows|];
      [destruct (Z.ltb_spec (max_recent_rejected_orders active) (Z.of_nat (length (List.filter Datatypes.id rows))))|]; cbn [fst];
      try setoid_rewrite list_elem_of_singleton; try setoid_rewrite elem_of_nil; naive_solver lia. }
  assert (broken journal subject moment active timeframe r <->
    (exists o, o ∈ fst (history subject timeframe journal active (read_bars subject timeframe moment journal)) /\ rule o = r) \/
    (exists o, o ∈ fst (freshness subject active (read_bars subject timeframe moment journal) moment) /\ rule o = r) \/
    (exists o, o ∈ fst (coverage subject active (read_gaps subject timeframe (moment - timedelta_hours (window_hours active)) moment
      (v_expected_interval_minutes active) journal)) /\ rule o = r) \/
    (exists o, o ∈ fst (tradeability subject active (read_rejected subject moment journal)) /\ rule o = r)) as ->.
  { rewrite H1, H2, H3, H4. split.
    - intros [bars Hb Hl|bars t Hb Ht Ha Hl|n Hn Hl|rows Hr Hl]; eauto 12.
    - intros [(-> & bars & ? & ?)|[(-> & bars & t & ? & ? & ? & ?)|[(-> & n & ? & ?)|(-> & rows & ? & ?)]]];
        [by eapply TooFewBars|by eapply Stale|by eapply Gapped|by eapply Untradeable]. }
  clear. naive_solver.
Qed.

Lemma unchecked_of journal subject moment active timeframe u :
  u ∈ unchecked (review journal subject moment active timeframe) <-> unread journal subject moment active timeframe u.
Proof.
  unfold review. cbn [unchecked map snd List.concat]. rewrite app_nil_r, !elem_of_app.
  assert (unread journal subject moment active timeframe u <->
    (exists e, read_bars subject timeframe moment journal = Err e /\ u = "history: the bar archive could not be read") \/
    (read_bars subject timeframe moment journal = Ok [] /\ u = "freshness: no dateable bar in the archive") \/
    (exists e, read_gaps subject timeframe (moment - timedelta_hours (window_hours active)) moment
      (v_expected_interval_minutes active) journal = Err e /\ u = "coverage: completeness could not be computed") \/
    (exists e, read_rejected subject moment journal = Err e /\ u = "tradeability: execution records could not be read")) as ->.
  { split; [intros []; eauto 10|].
    intros [(e & ? & ->)|[[? ->]|[(e & ? & ->)|(e & ? & ->)]]];
      [by eapply NoArchive|by eapply NoBar|by eapply NoCoverage|by eapply NoExecutions]. }
  assert (u ∈ snd (history subject timeframe journal active (read_bars subject timeframe moment journal)) <->
    exists e, read_bars subject timeframe moment journal = Err e /\ u = "history: the bar archive could not be read") as H1.
  { unfold history. destruct (read_bars _ _ _ _); [destruct (_ <? min_archived_bars active)|]; cbn [snd];
      rewrite ?elem_of_nil, ?list_elem_of_singleton; naive_solver. }
  assert (u ∈ snd (freshness subject active (read_bars subject timeframe moment journal) moment) <->
    read_bars subject timeframe moment journal = Ok [] /\ u = "freshness: no dateable bar in the archive") as H2.
  { unfold freshness, _staleness_minutes. destruct (read_bars _ _ _ _) as [[|b bars]|]; cbn [newest fmap option_fmap option_map];
      [|destruct (nltb _ _)|]; cbn [snd]; rewrite ?elem_of_nil, ?list_elem_of_singleton; naive_solver. }
  assert (u ∈ snd (coverage subject active (read_gaps subject timeframe (moment - timedelta_hours (window_hours active)) moment
      (v_expected_interval_minutes active) journal)) <->
    exists e, read_gaps subject timeframe (moment - timedelta_hours (window_hours active)) moment
      (v_expected_interval_minutes active) journal = Err e /\ u = "coverage: completeness could not be computed") as H3.
  { unfold coverage. destruct (read_gaps _ _ _ _ _ _); [destruct (max_gap_count active <? _)|]; cbn [snd];
      rewrite ?elem_of_nil, ?list_elem_of_singleton; naive_solver. }
  assert (u ∈ snd (tradeability subject active (read_rejected subject moment journal)) <->
    exists e, read_rejected subject moment journal = Err e /\ u = "tradeability: execution records could not be read") as H4.
  { unfold tradeability. destruct (read_rejected _ _ _); [destruct (max_recent_rejected_orders active <? _)|]; cbn [snd];
      rewrite ?elem_of_nil, ?list_elem_of_singleton; naive_solver. }
  by rewrite H1, H2, H3, H4.
Qed.

(** The veto refuses exactly when a rule is broken on what it could read, and keeps no
    silence about the rest. Whatever archive it is given, and whichever of its reads fail:
    it rejects if and only if the symbol has too few bars, its freshest bar is too old, its
    window has too many gaps or too many of its orders were rejected, with an objection for
    each rule that is broken and for no other; a check that could not run is reported, and
    no other; and a review with no objection and nothing unchecked found every limit
    kept. *)
Theorem veto_refuses_on_its_rules journal subject moment active timeframe :
  let v := review journal subject moment active timeframe in
  (rejected v = true <-> exists r, broken journal subject moment active timeframe r) /\
  (forall r, (exists o, o ∈ objections v /\ rule o = r) <-> broken journal subject moment active timeframe r) /\
  (forall u, u ∈ unchecked v <-> unread journal subject moment active timeframe u) /\
  (rejected v = false -> unchecked v = [] -> exists bars t gaps rows,
     read_bars subject timeframe moment journal = Ok bars /\ min_archived_bars active <= Z.of_nat (length bars) /\
     newest bars = Some t /\
     nltb (max_stale_minutes active) (nround 2 (ndiv (total_seconds (moment - t)) (nofZ 60))) = false /\
     read_gaps subject timeframe (moment - timedelta_hours (window_hours active)) moment
       (v_expected_interval_minutes active) journal = Ok gaps /\ gaps <= max_gap_count active /\
     read_rejected subject moment journal = Ok rows /\
     Z.of_nat (length (List.filter Datatypes.id rows)) <= max_recent_rejected_orders active).
Proof.
  cbn zeta. pose proof (rules_of journal subject moment active timeframe) as Hr.
  pose proof (unchecked_of journal subject moment active timeframe) as Hu.
  assert (rejected (review journal subject moment active timeframe) = true <-> exists r, broken journal subject moment active timeframe r) as Hj.
  { unfold rejected. setoid_rewrite <- Hr. destruct (objections _) as [|o l]; [|split; [by exists (rule o), o; repeat constructor|done]].
    split; [done|]. by intros (r & o & ?%not_elem_of_nil & _). }
  split; [done|]. split; [done|]. split; [done|]. intros Hn He.
  assert (forall r, ~ broken journal subject moment active timeframe r) as Hb.
  { intros r Hbr. assert (false = true) by (rewrite <- Hn; apply Hj; by exists r). done. }
  assert (forall u, ~ unread journal subject moment active timeframe u) as Hd.
  { intros u Hun. apply Hu in Hun. rewrite He in Hun. by apply not_elem_of_nil in Hun. }
  destruct (read_bars subject timeframe moment journal) as [bars|e] eqn:Eb; [|by destruct (Hd _ (NoArchive _ _ _ _ _ e Eb))].
  destruct (read_gaps subject timeframe (moment - timedelta_hours (window_hours active)) moment
    (v_expected_interval_minutes active) journal) as [gaps|e] eqn:Eg; [|by destruct (Hd _ (NoCoverage _ _ _ _ _ e Eg))].
  destruct (read_rejected subject moment journal) as [rows|e] eqn:Er; [|by destruct (Hd _ (NoExecutions _ _ _ _ _ e Er))].
  destruct (newest bars) as [t|] eqn:En.
  2: { destruct bars; [by destruct (Hd _ (NoBar _ _ _ _ _ Eb))|done]. }
  exists bars, t, gaps, rows. pose proof (proj1 (newest_spec bars t) En) as [Ht Hall].
  split; [done|]. split. { apply Z.nlt_ge. intros Hlt. by destruct (Hb _ (TooFewBars _ _ _ _ _ _ Eb Hlt)). }
  split; [done|]. split. { apply not_true_iff_false. intros Hst. by destruct (Hb _ (Stale _ _ _ _ _ _ _ Eb Ht Hall Hst)). }
  split; [done|]. split. { apply Z.nlt_ge. intros Hlt. by destruct (Hb _ (Gapped _ _ _ _ _ _ Eg Hlt)). }
  split; [done|]. apply Z.nlt_ge. intros Hlt. by destruct (Hb _ (Untradeable _ _ _ _ _ _ Er Hlt)).
Qed.
End refuses.

(** ** No hindsight, coverage apart *)

Section hindsight.
Context {F : Type} `{HF : PyFloat F}.
Context (payload_hash : F -> F -> F -> F -> F -> string).

(** The objections but those about coverage; the hint lists what the archive holds now. *)
Definition but_coverage (v : VetoDecision F) : list (string * option F * option F) :=
  map (fun o => (rule o, measure o, threshold o))
    (List.filter (fun o => negb (String.eqb (rule o) "gapped_series")) (objections v)).

Lemma without_coverage (x : Journal F * Faults) subject c active timeframe :
  but_coverage (review x subject c active timeframe) =
  map (fun o => (rule o, measure o, threshold o))
    (fst (history subject timeframe x active (read_bars subject timeframe c x)) ++
     fst (freshness subject active (read_bars subject timeframe c x) c) ++
     fst (tradeability subject active (read_rejected subject c x))).
Proof.
  unfold but_coverage, review. cbn [objections map fst List.concat]. rewrite app_nil_r. f_equal.
  rewrite !List.filter_app.
  assert (forall l : list (Objection F), Forall (fun o => String.eqb (rule o) "gapped_series" = false) l ->
    List.filter (fun o => negb (String.eqb (rule o) "gapped_series")) l = l) as Hid.
  { induction 1 as [|o l Ho _ IH]; [done|]. cbn [List.filter]. by rewrite Ho, IH. }
  assert (List.filter (fun o => negb (String.eqb (rule o) "gapped_series")) (fst (coverage subject active
    (read_gaps subject timeframe (c - timedelta_hours (window_hours active)) c (v_expected_interval_minutes active) x))) = []) as ->.
  { unfold coverage. destruct (read_gaps _ _ _ _ _ _); [destruct (_ <? _)|]; done. }
  rewrite !Hid; [done|..].
  - unfold tradeability. destruct (read_rejected _ _ _); [destruct (_ <? _)|]; repeat constructor.
  - unfold freshness. destruct (read_bars _ _ _ _); [destruct (_staleness_minutes _ _); [destruct (nltb _ _)|]|]; repeat constructor.
  - unfold history. destruct (read_bars _ _ _ _); [destruct (_ <? _)|]; repeat constructor.
Qed.

(** A review of a past moment has no hindsight, coverage apart. Whatever the journal
    records after a moment, bars, revisions or orders, a review as of that moment finds
    what it found then about the history, the freshness and the tradeability of a symbol,
    with the same measures, and could check the same. *)
Theorem veto_has_no_hindsight c ws (j : Journal F) f subject active timeframe :
  Forall (fun '(w, now) => c < now /\ dated_after c w) ws ->
  let then_ := review (j, f) subject c active timeframe in
  let later := review (jruns payload_hash ws j, f) subject c active timeframe in
  but_coverage later = but_coverage then_ /\ unchecked later = unchecked then_.
Proof.
  intros Hw. destruct (jruns_extends payload_hash c ws j Hw) as [He _ _ _ _ _ _].
  set (j' := jruns payload_hash ws j) in *. cbv zeta.
  assert (read_bars subject timeframe c (j', f) = read_bars subject timeframe c (j, f)) as Eb.
  { cbn [read_bars journal_archive]. do 2 f_equal. by apply bars_later. }
  assert (read_rejected subject c (j', f) = read_rejected subject c (j, f)) as Er.
  { cbn [read_rejected journal_archive]. do 2 f_equal. by apply executions_later. }
  split.
  - rewrite !without_coverage, Eb, Er. rewrite !map_app. f_equal. unfold history.
    destruct (read_bars subject timeframe c (j, f)) as [bars|]; [cbv zeta; by destruct (_ <? min_archived_bars active)|done].
  - unfold review. rewrite Eb, Er. cbn [unchecked map snd List.concat].
    assert (forall bars, snd (history subject timeframe (j', f) active bars) = snd (history subject timeframe (j, f) active bars)) as ->.
    { intros bars. unfold history. destruct bars as [bars|]; [|done]. by destruct (_ <? min_archived_bars active). }
    do 2 f_equal. f_equal. unfold coverage. cbn [read_gaps journal_archive]. unfold completeness. rewrite He.
    destruct (enabled j); cbn [negb]; [|done]. destruct (f_completeness f); [done|]. cbn [fmap result_fmap k_gap_count].
    by repeat match goal with |- context [if ?b then _ else _] => destruct b end.
Qed.
End hindsight.

(** ** On a concrete archive *)

Module Archives.
Definition minutes (n : Z) : datetime := n * 60000000.
Definition hash (_ _ _ _ _ : spec_float) : string := "h".
Definition empty : Journal spec_float :=
  {| enabled := true; bars := []; prices := []; sentiments := []; headlines := [];
     researches := []; decisions := []; executions := [] |}.
(** A bar of AAPL every quarter of an hour, but one. *)
Definition seen (quarters : list Z) (at_ : datetime) : jwrite spec_float * datetime :=
  (WBars "aapl" "15m" (map (fun i => {| in_timestamp := Some (minutes (15 * i));
     in_ohlc := Some (nofZ 10, nofZ 10, nofZ 10, nofZ 10); in_volume := None |}) quarters) "feed" (JDict []) "u" None None None, at_).
Definition refused (at_ : datetime) : jwrite spec_float * datetime :=
  (WExecution "aapl" "buy" (nofZ 5) None None "MARKET" None "o" "s" "rejected" "ema" "v1" "paper" "default" "paper" nzero
     None false true None, at_).
Definition journal (ws : list (jwrite spec_float * datetime)) : Journal spec_float := jruns hash ws empty.
Definition answers : Faults := {| f_bars := None; f_timeframes := None; f_completeness := None; f_executions := None |}.
(** Four bars are enough here, and no gap is. *)
Definition policy : VetoPolicy spec_float :=
  {| min_archived_bars := 4; max_stale_minutes := nofZ 120; max_gap_count := 0; window_hours := nofZ 2;
     v_expected_interval_minutes := nofZ 15; max_recent_rejected_orders := 1 |}.
Definition rules (v : VetoDecision spec_float) := (map rule (objections v), unchecked v).
Definition holed := [seen [0; 1; 2; 4; 5] (minutes 76)].
Definition filled := [seen [3] (minutes 200)].
Definition at_ : datetime := minutes 80.
End Archives.

Lemma veto_refuses_on_its_rules_witness :
  let x := (Archives.journal Archives.holed, Archives.answers) in
  rejected (review x "aapl" Archives.at_ Archives.policy "15m") = true /\
  Archives.rules (review x "aapl" Archives.at_ Archives.policy "15m") = (["gapped_series"], []) /\
  broken x "aapl" Archives.at_ Archives.policy "15m" "gapped_series".
Proof.
  cbv zeta. split; [vm_compute; reflexivity|]. split; [vm_compute; reflexivity|].
  apply (veto_refuses_on_its_rules (Archives.journal Archives.holed, Archives.answers) "aapl" Archives.at_ Archives.policy "15m").
  destruct (objections (review (Archives.journal Archives.holed, Archives.answers) "aapl" Archives.at_ Archives.policy "15m")) as [|o l] eqn:E;
    [vm_compute in E; discriminate|].
  exists o. split; [apply list_elem_of_here|]. vm_compute in E. injection E as <- _. reflexivity.
Defined.

Lemma veto_has_no_hindsight_witness :
  let later := review (jruns Archives.hash Archives.filled (Archives.journal Archives.holed), Archives.answers) "aapl"
                 Archives.at_ Archives.policy "15m" in
  but_coverage later = [] /\ unchecked later = [].
Proof.
  cbv zeta. destruct (veto_has_no_hindsight Archives.hash Archives.at_ Archives.filled (Archives.journal Archives.holed)
    Archives.answers "aapl" Archives.policy "15m") as [H1 H2].
  - constructor; [|constructor]. split; [vm_compute; reflexivity|exact I].
  - rewrite H1, H2. split; vm_compute; reflexivity.
Defined.

(** A bar that arrives two hours later changes what the review of that moment finds about
    its gaps. *)
Lemma coverage_has_hindsight :
  let review_ ws := Archives.rules (review (Archives.journal ws, Archives.answers) "aapl" Archives.at_ Archives.policy "15m") in
  (review_ Archives.holed, review_ (Archives.holed ++ Archives.filled)) = ((["gapped_series"], []), ([], [])).
Proof. vm_compute. reflexivity. Qed.

(** The reads of the journal answer nothing where they fail: orders that cannot be read are
    no rejected orders, and nothing says that they were not checked; bars that cannot be
    read are an objection to the length of a history that may be long. *)
Lemma unreadable_executions_pass :
  let ws := Archives.holed ++ [Archives.refused (Archives.minutes 76); Archives.refused (Archives.minutes 77)] in
  let policy := {| min_archived_bars := 4; max_stale_minutes := nofZ 120; max_gap_count := 3; window_hours := nofZ 2;
                   v_expected_interval_minutes := nofZ 15; max_recent_rejected_orders := 1 |} in
  let review_ f := Archives.rules (review (Archives.journal ws, f) "aapl" Archives.at_ policy "15m") in
  let down b x := {| f_bars := b; f_timeframes := None; f_completeness := None; f_executions := x |} in
  (review_ (down None None), review_ (down None (Some "timeout")), fst (review_ (down (Some "timeout") (Some "timeout")))) =
  ((["orders_keep_being_rejected"], []), ([], []), ["insufficient_history"]).
Proof. vm_compute. reflexivity. Qed.

(** The rejections counted as recent are all there ever were: a symbol refused in its first
    hour is refused a year later. *)
Lemma rejections_never_age :
  let year := Archives.minutes 525600 in
  let ws := [Archives.refused (Archives.minutes 1); Archives.refused (Archives.minutes 2);
             Archives.seen [35037; 35038; 35039; 35040] year] in
  Archives.rules (review (Archives.journal ws, Archives.answers) "aapl" year
    {| min_archived_bars := 4; max_stale_minutes := nofZ 120; max_gap_count := 3; window_hours := nofZ 2;
       v_expected_interval_minutes := nofZ 15; max_recent_rejected_orders := 1 |} "15m") = (["orders_keep_being_rejected"], []).
Proof. vm_compute. reflexivity. Qed.

(** A policy variable that does not parse is refused, not ignored. *)
Lemma bad_variable_is_refused :
  from_env (F := spec_float) (fun _ => None) {[ "VETO_MAX_GAP_COUNT" := "three" ]} =
  Err ("VETO_MAX_GAP_COUNT=" +:+ py_repr "three" +:+ " is not a valid int").
Proof. vm_compute. reflexivity. Qed.
