(* ===== verification/Challengers.v ===== *)
(** * The challengers

    Models [libs/challengers]: the bounds and their clamp ([bounds.py]), a proposal and the
    only way to make one ([proposal.py]), the perturbations of a champion ([generate.py]),
    the comparison of two sleeves on paper ([compare.py]), the campaign that judges
    challengers together ([campaign.py]) and the learning cycle ([learning.py]), which writes
    to the store of [Store]. The digests, the rendering of an f-string, the walk-forward and
    the deflation are parameters; the dictionaries printed for a reader are left out. Shown:
    a proposal stays within the declared bounds, from its generation to the parameters a
    sleeve trades on paper; every trial of a campaign counts against each of its results;
    and a learning cycle writes nothing but proposals and its report. *)

From S2P Require Import PyFloat Store StoreProofs Contracts Policy Journal Attribution Evidence Service Veto Prelude.
From Stdlib Require Import Ascii Floats.SpecFloat.
Local Close Scope Q_scope.
Local Open Scope Z_scope.

(** ** bounds.py *)

Definition BOUNDS_VERSION := "1".

Record Bound (F : Type) := { low : F; high : F; integer : bool }.
Arguments low {F}. Arguments high {F}. Arguments integer {F}.

Record ChallengerBounds (F : Type) := {
  bounded : pydict (Bound F);
  max_challengers_per_campaign : nat
}.
Arguments bounded {F}. Arguments max_challengers_per_campaign {F}.

Section bounds.
Context {F : Type} `{HF : PyFloat F}.
Local Open Scope py_scope.

(** [round(x)] of NaN raises. *)
Definition clamp (b : Bound F) (value : F) : result string (F * bool) :=
  let pulled := nmin (nmax value (low b)) (high b) in
  if integer b then
    if negb (nfinite pulled) then Err "cannot convert float to integer" else
    let pulled := nofZ (ntrunc (nround 0 pulled)) in
    let pulled := nmin (nmax pulled (low b)) (high b) in
    Ok (pulled, negb (pulled =? value))
  else Ok (pulled, negb (pulled =? value)).

Definition whole (lo hi : Z) : Bound F := {| low := nofZ lo; high := nofZ hi; integer := true |}.
Definition between (lo hi : F) : Bound F := {| low := lo; high := hi; integer := false |}.

Definition default_bounds : ChallengerBounds F :=
  {| bounded :=
       [("ema_fast", whole 5 50); ("ema_slow", whole 20 120); ("rsi_buy_min", between (nofZ 30) (nofZ 55));
        ("rsi_buy_max", between (nofZ 60) (nofZ 85)); ("macd_hist_min", between nzero (nlit 5 10));
        ("bb_period", whole 8 40); ("bb_std", between n_one (nofZ 3)); ("rsi_oversold", between (nofZ 15) (nofZ 40));
        ("rsi_overbought", between (nofZ 60) (nofZ 85))];
     max_challengers_per_campaign := 8 |}.

Definition allows (bounds : ChallengerBounds F) (name : string) : bool := dict_in name (bounded bounds).
End bounds.

(** ** proposal.py *)

Record Clamp (F : Type) := { parameter : string; requested : F; applied : F }.
Arguments parameter {F}. Arguments requested {F}. Arguments applied {F}.

Record Challenger (F : Type) := {
  cg_strategy_id : string;
  cg_symbol : string;
  cg_base_version : string;
  cg_parameters : pydict F;
  cg_rationale : string;
  cg_clamped : list (Clamp F);
  cg_bounds_version : string;
  cg_generated_at : option datetime;
  cg_generator : string
}.
Arguments cg_strategy_id {F}. Arguments cg_symbol {F}. Arguments cg_base_version {F}. Arguments cg_parameters {F}.
Arguments cg_rationale {F}. Arguments cg_clamped {F}. Arguments cg_bounds_version {F}. Arguments cg_generated_at {F}.
Arguments cg_generator {F}.

Inductive ProposalError := NoRationale | UnboundedParameter (name : string) | Unconvertible (message : string).

(** [sorted(d)] and [sorted(d.items())]: a dict has each key once. *)
Definition by_key {A} (d : pydict A) : pydict A := sort_by (fun a b => String.leb (fst a) (fst b)) d.

Section proposal.
Context {F : Type} `{HF : PyFloat F}.
Context (digest : string -> string -> string -> pydict F -> string).

(** The first twelve digits of the digest of the identity and the parameters, by key. *)
Definition challenger_id (c : Challenger F) : string :=
  "chal-" +:+ digest (cg_strategy_id c) (cg_symbol c) (cg_base_version c) (by_key (cg_parameters c)).

Fixpoint clamp_all (bounds : ChallengerBounds F) (parameters : pydict F)
    : result ProposalError (pydict F * list (Clamp F)) :=
  match parameters with
  | [] => Ok ([], [])
  | (name, value) :: parameters =>
      match dict_get name (bounded bounds) with
      | None => Err (UnboundedParameter name)
      | Some b =>
          match clamp b value with
          | Err e => Err (Unconvertible e)
          | Ok (pulled, moved) =>
              match clamp_all bounds parameters with
              | Err e => Err e
              | Ok (applied, clamps) =>
                  Ok ((name, pulled) :: applied,
                      if moved then {| parameter := name; requested := value; applied := pulled |} :: clamps else clamps)
              end
          end
      end
  end.

Definition GENERATOR := "deterministic:perturbation/1".

Definition build_challenger (strategy symbol_ version_ : string) (parameters : pydict F) (rationale : string)
    (bounds : ChallengerBounds F) (generated_at : option datetime) (generator : string)
    : result ProposalError (Challenger F) :=
  if negb (str_true (strip rationale)) then Err NoRationale else
  match clamp_all bounds (by_key parameters) with
  | Err e => Err e
  | Ok (applied, clamps) =>
      Ok {| cg_strategy_id := strategy; cg_symbol := symbol_; cg_base_version := version_; cg_parameters := applied;
            cg_rationale := strip rationale; cg_clamped := clamps; cg_bounds_version := BOUNDS_VERSION;
            cg_generated_at := generated_at; cg_generator := generator |}
  end.
End proposal.

(** ** generate.py *)

Section generate.
Context {F : Type} `{HF : PyFloat F}.
Context (digest : string -> string -> string -> pydict F -> string) (render : fstr F -> string).
Local Open Scope py_scope.

Definition DEFAULT_STEPS : list F := [- nlit 2 10; nlit 2 10].

(** [d == d'] *)
Definition dict_eq (d d' : pydict F) : bool :=
  Nat.eqb (length d) (length d') &&
  forallb (fun '(k, v) => match dict_get k d' with Some v' => v =? v' | None => false end) d.

Definition known (bounds : ChallengerBounds F) (d : pydict F) : pydict F :=
  List.filter (fun '(k, _) => allows bounds k) d.

Definition rationale_of (axis : string) (step base : F) : string :=
  render [Lit axis; Lit " "; Fmt "+.0%" step; Lit " from the champion's "; Fmt "g" base;
          Lit ". Asks whether that value is a peak or a point on a slope — a champion sitting on a spike is fitted to the sample that chose it."].

(** What one step along an axis proposes. *)
Definition proposed (strategy symbol_ version_ : string) (champion : pydict F) (axis : string) (base step : F)
    (bounds : ChallengerBounds F) (generated_at : option datetime) : result ProposalError (Challenger F) :=
  build_challenger strategy symbol_ version_ (known bounds (dict_set axis (base * (n_one + step)) champion))
    (rationale_of axis step base) bounds generated_at GENERATOR.

(** The challengers so far, newest last; a perturbation that is the champion, or was
    proposed before, is left out. *)
Definition perturb_step (strategy symbol_ version_ : string) (champion : pydict F) (bounds : ChallengerBounds F)
    (generated_at : option datetime) (axis : string) (base : F) (acc : result ProposalError (list (Challenger F))) (step : F)
    : result ProposalError (list (Challenger F)) :=
  match acc with
  | Err e => Err e
  | Ok out =>
      match proposed strategy symbol_ version_ champion axis base step bounds generated_at with
      | Err e => Err e
      | Ok c =>
          if dict_eq (cg_parameters c) (known bounds champion) ||
             existsb (fun c' => String.eqb (challenger_id digest c') (challenger_id digest c)) out
          then Ok out else Ok (out ++ [c])
      end
  end.

Definition perturb_axis (strategy symbol_ version_ : string) (champion : pydict F) (bounds : ChallengerBounds F)
    (generated_at : option datetime) (steps : list F) (acc : result ProposalError (list (Challenger F))) (axis : string)
    : result ProposalError (list (Challenger F)) :=
  match acc, dict_get axis champion with
  | Err e, _ => Err e
  | Ok _, None => Err (Unconvertible ("KeyError: " +:+ axis))
  | Ok out, Some base => foldl (perturb_step strategy symbol_ version_ champion bounds generated_at axis base) (Ok out) steps
  end.

(** No axes, or an empty list of them, is every parameter of the champion, by name. *)
Definition perturbations (strategy symbol_ version_ : string) (champion : pydict F) (axes : option (list string))
    (steps : list F) (bounds : ChallengerBounds F) (generated_at : option datetime)
    : result ProposalError (list (Challenger F)) :=
  let axes := match axes with Some (a :: l) => a :: l | _ => map fst (by_key champion) end in
  match foldl (perturb_axis strategy symbol_ version_ champion bounds generated_at steps) (Ok [])
          (List.filter (allows bounds) axes) with
  | Err e => Err e
  | Ok out =>
      if (max_challengers_per_campaign bounds <? length out)%nat
      then Ok (take (max_challengers_per_campaign bounds)
                 (sort_by (fun a b => String.leb (challenger_id digest a) (challenger_id digest b)) out))
      else Ok out
  end.
End generate.

(** ** compare.py *)

Definition DERIVED_MARKER : ascii := "@".
Definition is_derived (strategy : string) : bool := negb (lacks DERIVED_MARKER strategy).

Definition derived_strategy_id (champion challenger : string) : result string string :=
  if is_derived champion
  then Err (py_repr champion +:+ " already looks derived; a challenger of a challenger is not a comparison, it is a search nobody is counting")
  else Ok (champion +:+ String DERIVED_MARKER "" +:+ challenger).

(** [split("@", 1)[0]] *)
Fixpoint champion_of (strategy : string) : string :=
  match strategy with
  | EmptyString => ""
  | String a s => if Ascii.eqb a DERIVED_MARKER then "" else String a (champion_of s)
  end.

Record Side (F : Type) := {
  label : string;
  side_strategy_id : string;
  trades : Z;
  realized_total : F;
  side_sharpe : option F;
  side_sharpe_annualised : option F;
  side_win_rate : option F;
  side_max_drawdown_amount : option F;
  span_days : option F
}.
Arguments label {F}. Arguments side_strategy_id {F}. Arguments trades {F}. Arguments realized_total {F}.
Arguments side_sharpe {F}. Arguments side_sharpe_annualised {F}. Arguments side_win_rate {F}.
Arguments side_max_drawdown_amount {F}. Arguments span_days {F}.

Record Comparison (F : Type) := {
  cmp_symbol : string;
  cmp_window : option datetime * option datetime;
  champion_side : Side F;
  challenger_side : Side F;
  cautions : list string
}.
Arguments cmp_symbol {F}. Arguments cmp_window {F}. Arguments champion_side {F}. Arguments challenger_side {F}.
Arguments cautions {F}.

Definition MIN_TRADES_TO_COMPARE : Z := 20.

Section compare.
Context {F : Type} `{HF : PyFloat F}.
Context (fpow : F -> F -> F).
Local Open Scope py_scope.

(** One side; None where the pairing refuses the rows. *)
Definition side_of (label_ strategy symbol_ environment_ account : string) (window : option datetime * option datetime)
    (e : io) (j : Journal F) : option (Side F) :=
  (fun trips =>
     let p := performance_from_trades fpow trips None in
     {| label := label_; side_strategy_id := strategy; trades := p_trades p; realized_total := p_realized_total p;
        side_sharpe := p_sharpe p; side_sharpe_annualised := p_sharpe_annualised p; side_win_rate := p_win_rate p;
        side_max_drawdown_amount := p_max_drawdown_amount p; span_days := p_span_days p |}) <$>
  load_round_trips (Some strategy) None (Some symbol_) (Some environment_) account (fst window) (snd window) 5000 e j.

Definition thin_caution (champion challenger : Side F) : list string :=
  match map label (List.filter (fun s => trades s <? MIN_TRADES_TO_COMPARE)%Z [champion; challenger]) with
  | [] => []
  | thin => [join " and " thin +:+ " has fewer than " +:+ str_of_Z MIN_TRADES_TO_COMPARE +:+
             " closed trades; a difference over this sample is dominated by which trades they happened to be"]
  end.

(** A span of zero is not counted. *)
Definition span_caution (champion challenger : Side F) : list string :=
  match span_days champion, span_days challenger with
  | Some a, Some b =>
      if ntrue a && ntrue b && (nmax a b >? nzero) && (nmin a b / nmax a b <? nlit 8 10)
      then ["the two sides did not trade over comparable spans, so they did not face the same market"] else []
  | _, _ => []
  end.

Definition empty_caution (champion challenger : Side F) : list string :=
  if (trades champion =? 0)%Z || (trades challenger =? 0)%Z
  then ["one side has no closed trades, so there is nothing to compare — not a result in either direction"] else [].

(** [e1], [e2]: what the reads of the two sides meet. *)
Definition compare (symbol_ champion challenger account environment_ : string) (window : option datetime * option datetime)
    (e1 e2 : io) (j : Journal F) : option (Comparison F) :=
  match side_of "champion" champion symbol_ environment_ account window e1 j with
  | None => None
  | Some a =>
      match side_of "challenger" challenger symbol_ environment_ account window e2 j with
      | None => None
      | Some b =>
          Some {| cmp_symbol := symbol_; cmp_window := window; champion_side := a; challenger_side := b;
                  cautions := thin_caution a b ++ span_caution a b ++ empty_caution a b |}
      end
  end.
End compare.

(** ** campaign.py *)

(** What a walk-forward reports. *)
Record Outcome (F : Type) := {
  oc_sharpe : option F;
  oc_trades : Z;
  oc_stability : option F;
  oc_deflated : option F;
  oc_trial_sharpes : list F;
  oc_n_trials : Z;
  oc_returns : list F
}.
Arguments oc_sharpe {F}. Arguments oc_trades {F}. Arguments oc_stability {F}. Arguments oc_deflated {F}.
Arguments oc_trial_sharpes {F}. Arguments oc_n_trials {F}. Arguments oc_returns {F}.

Record ChallengerResult (F : Type) := {
  cr_challenger : Challenger F;
  cr_sharpe : option F;
  cr_trades : Z;
  cr_stability : option F;
  cr_own_search : option F;
  cr_campaign : option F;
  trials_own_search : Z;
  trials_campaign : Z;
  cr_error : string
}.
Arguments cr_challenger {F}. Arguments cr_sharpe {F}. Arguments cr_trades {F}. Arguments cr_stability {F}.
Arguments cr_own_search {F}. Arguments cr_campaign {F}. Arguments trials_own_search {F}. Arguments trials_campaign {F}.
Arguments cr_error {F}.

Record CampaignResult (F : Type) := {
  results : list (ChallengerResult F);
  cp_pooled_trials : Z;
  cp_min_deflated_sharpe : F
}.
Arguments results {F}. Arguments cp_pooled_trials {F}. Arguments cp_min_deflated_sharpe {F}.

Section campaign.
Context {F : Type} `{HF : PyFloat F}.
Context (digest : string -> string -> string -> pydict F -> string).
Context (run_walk_forward : Challenger F -> result (string * string) (Outcome F)).
Context (deflate : list F -> list F -> result string (option F)).
Local Open Scope py_scope.

Definition evaluated (r : ChallengerResult F) : bool := negb (str_true (cr_error r)).

Definition survivors (c : CampaignResult F) : list (ChallengerResult F) :=
  List.filter (fun r => evaluated r &&
    match cr_campaign r with Some x => x >=? cp_min_deflated_sharpe c | None => false end) (results c).

Definition _verdict (c : CampaignResult F) : fstr F :=
  let ran := length (List.filter evaluated (results c)) in
  if Nat.eqb ran 0 then lit "nothing was evaluated" else
  match survivors c with
  | [] => [Lit "no challenger cleared a deflated Sharpe of "; Val (PFloat (cp_min_deflated_sharpe c));
           Lit (" against " +:+ str_of_Z (cp_pooled_trials c) +:+ " pooled trials. That is the expected outcome of most campaigns and is a result, not a failure — the alternative is a search that always finds something.")]
  | l => lit (str_of_Z (Z.of_nat (length l)) +:+ " of " +:+ str_of_Z (Z.of_nat ran) +:+ " challengers cleared the bar against " +:+
              str_of_Z (cp_pooled_trials c) +:+ " pooled trials. Each is a proposal: it is not registered and not promoted, and reaches live only through the same gates as anything else.")
  end.

(** The first of each id. *)
Fixpoint distinct (seen : list string) (l : list (Challenger F)) : list (Challenger F) :=
  match l with
  | [] => []
  | c :: l => if str_in (challenger_id digest c) seen then distinct seen l
              else c :: distinct (challenger_id digest c :: seen) l
  end.

(** The first pass over one challenger, whose exception is its name and its message: its result so far, and what the walk-forward said. *)
Definition walked (c : Challenger F) : ChallengerResult F * option (Outcome F) :=
  match run_walk_forward c with
  | Err (name, message) =>
      ({| cr_challenger := c; cr_sharpe := None; cr_trades := 0; cr_stability := None; cr_own_search := None;
          cr_campaign := None; trials_own_search := 0; trials_campaign := 0; cr_error := name +:+ ": " +:+ message |}, None)
  | Ok o =>
      ({| cr_challenger := c; cr_sharpe := oc_sharpe o; cr_trades := oc_trades o; cr_stability := oc_stability o;
          cr_own_search := oc_deflated o; cr_campaign := None; trials_own_search := oc_n_trials o;
          trials_campaign := 0; cr_error := "" |}, Some o)
  end.

Definition trials_of (x : ChallengerResult F * option (Outcome F)) : list F :=
  match snd x with Some o => oc_trial_sharpes o | None => [] end.

Definition judged (r : ChallengerResult F) (campaign : option F) (pool : Z) : ChallengerResult F :=
  {| cr_challenger := cr_challenger r; cr_sharpe := cr_sharpe r; cr_trades := cr_trades r; cr_stability := cr_stability r;
     cr_own_search := cr_own_search r; cr_campaign := campaign; trials_own_search := trials_own_search r;
     trials_campaign := pool; cr_error := cr_error r |}.

(** The second pass, on the trials of all. *)
Fixpoint judge (pooled : list F) (raw : list (ChallengerResult F * option (Outcome F)))
    : result string (list (ChallengerResult F)) :=
  match raw with
  | [] => Ok []
  | (r, None) :: raw => (cons r) <$> judge pooled raw
  | (r, Some o) :: raw =>
      match (match oc_returns o, pooled with [], _ | _, [] => Ok None | _, _ => deflate (oc_returns o) pooled end) with
      | Err e => Err e
      | Ok d => (cons (judged r d (Z.of_nat (length pooled)))) <$> judge pooled raw
      end
  end.

Definition evaluate_campaign (challengers : list (Challenger F)) (min_deflated_sharpe : F)
    : result string (CampaignResult F) :=
  let raw := map walked (distinct [] challengers) in
  let pooled := List.concat (map trials_of raw) in
  (fun l => {| results := l; cp_pooled_trials := Z.of_nat (length pooled); cp_min_deflated_sharpe := min_deflated_sharpe |})
  <$> judge pooled raw.
End campaign.

(** ** What the clamp promises *)

Section clamped.
Context {F : Type} `{HF : PyFloat F} {HL : PyFloatLaws F}.
Context (digest : string -> string -> string -> pydict F -> string).
Local Open Scope py_scope.
Implicit Types (b : Bound F) (bounds : ChallengerBounds F) (c : Challenger F).

(** Neither end is above the other, and neither is NaN. *)
Definition sane bounds : bool := forallb (fun '(_, b) => low b <=? high b) (bounded bounds).

(** In the interval, or NaN. *)
Definition in_range b (v : F) : bool := ((low b <=? v) && (v <=? high b)) || negb (nord v).

Definition in_bounds bounds (parameters : pydict F) : bool :=
  forallb (fun '(name, v) =>
    match dict_get name (bounded bounds) with Some b => in_range b v | None => false end) parameters.

Lemma nleb_refl (x : F) : nord x = true -> (x <=? x) = true.
Proof using HL.
  intros Hx. destruct (x <? x) eqn:E; [by apply nltb_nleb|by apply nord_total].
Qed.

Lemma pulled_in_range (lo hi v : F) : (lo <=? hi) = true -> nord v = true ->
  (lo <=? nmin (nmax v lo) hi) && (nmin (nmax v lo) hi <=? hi) = true.
Proof using HL.
  intros Hb Hv. destruct (nleb_nord _ _ Hb) as [Hlo Hhi]. unfold nmin, nmax.
  destruct (v <? lo) eqn:E1, (hi <? _) eqn:E2; apply andb_true_iff; split;
    auto using nleb_refl, nord_total.
Qed.

Lemma pulled_nan (lo hi v : F) : nord v = false -> nmin (nmax v lo) hi = v.
Proof using HL.
  intros Hv. unfold nmin, nmax.
  destruct (v <? lo) eqn:E1; [apply nltb_nleb, nleb_nord in E1 as [? ?]; congruence|].
  destruct (hi <? v) eqn:E2; [apply nltb_nleb, nleb_nord in E2 as [? ?]; congruence|done].
Qed.

Lemma clamp_in_range b v p moved : (low b <=? high b) = true -> clamp b v = Ok (p, moved) ->
  in_range b p = true /\ moved = negb (p =? v).
Proof using HL.
  intros Hb. unfold clamp, in_range. destruct (integer b).
  - destruct (negb _); [done|]. intros [= <- <-]. split; [|done].
    rewrite pulled_in_range; [done|done|apply nord_nlit].
  - intros [= <- <-]. split; [|done]. destruct (nord v) eqn:Ev.
    + by rewrite pulled_in_range.
    + rewrite pulled_nan, Ev by done. apply orb_true_r.
Qed.

Lemma sane_at bounds name b : sane bounds = true -> dict_get name (bounded bounds) = Some b ->
  (low b <=? high b) = true.
Proof. intros Hs Hb%dict_get_in. unfold sane in Hs. rewrite forallb_forall in Hs. by apply (Hs (name, b)), list_elem_of_In. Qed.

(** One entry of the parameters asked for, and what it became. *)
Definition clamps_to bounds (asked given : string * F) : Prop :=
  fst asked = fst given /\
  exists b moved, dict_get (fst asked) (bounded bounds) = Some b /\ clamp b (snd asked) = Ok (snd given, moved).

(** The record of what moved. *)
Definition record_of (x : (string * F) * (string * F)) : option (Clamp F) :=
  let '((name, v), (_, v')) := x in
  if negb (v' =? v) then Some {| parameter := name; requested := v; applied := v' |} else None.

Lemma clamp_all_ok bounds parameters applied clamps : clamp_all bounds parameters = Ok (applied, clamps) ->
  Forall2 (clamps_to bounds) parameters applied /\ clamps = omap record_of (combine parameters applied).
Proof.
  revert applied clamps. induction parameters as [|[name v] parameters IH]; cbn; intros applied clamps.
  - by intros [= <- <-].
  - destruct (dict_get name (bounded bounds)) as [b|] eqn:Eb; [|done].
    destruct (clamp b v) as [[p moved]|] eqn:Ec; [|done].
    destruct (clamp_all bounds parameters) as [[applied' clamps']|]; [|done].
    intros [= <- <-]. destruct (IH _ _ eq_refl) as [IH1 ->]. split.
    + constructor; [|done]. split; [done|]. by exists b, moved.
    + assert (moved = negb (p =? v)) as ->.
      { unfold clamp in Ec. destruct (integer b); [destruct (negb _); [done|]|]; by injection Ec as <- <-. }
      cbn. by destruct (negb (p =? v)).
Qed.

Lemma clamps_in_bounds bounds parameters applied : sane bounds = true ->
  Forall2 (clamps_to bounds) parameters applied -> in_bounds bounds applied = true.
Proof using HL.
  intros Hs H. unfold in_bounds. apply forallb_forall. intros [name v'] Hin%list_elem_of_In.
  apply list_elem_of_lookup in Hin as [i Hi].
  destruct (Forall2_lookup_r _ _ _ _ _ H Hi) as ([name' v] & _ & Hname & b & moved & Hb & Hc); cbn in *; subst.
  rewrite Hb. eapply clamp_in_range; [by eapply sane_at|done].
Qed.

Lemma built bounds strategy symbol_ version_ parameters rationale at_ generator c :
  build_challenger strategy symbol_ version_ parameters rationale bounds at_ generator = Ok c ->
  cg_strategy_id c = strategy /\ cg_symbol c = symbol_ /\ cg_base_version c = version_ /\
  str_true (cg_rationale c) = true /\
  Forall2 (clamps_to bounds) (by_key parameters) (cg_parameters c) /\
  cg_clamped c = omap record_of (combine (by_key parameters) (cg_parameters c)).
Proof.
  unfold build_challenger. destruct (str_true (strip rationale)) eqn:Er; [cbn|done].
  destruct (clamp_all bounds (by_key parameters)) as [[applied clamps]|] eqn:E; [|done].
  intros [= <-]. apply clamp_all_ok in E as [??]. by cbn.
Qed.

Lemma lookup_combine {A B} (l : list A) (k : list B) i x y :
  combine l k !! i = Some (x, y) <-> l !! i = Some x /\ k !! i = Some y.
Proof.
  revert k i. induction l as [|a l IH]; intros [|b k] [|i]; cbn; naive_solver.
Qed.

(** What the ones proposed are called. *)
Lemma clamped_keys bounds parameters applied : Forall2 (clamps_to bounds) parameters applied ->
  map fst applied = map fst parameters.
Proof. induction 1 as [|? ? ? ? [Hk _] _ IH]; cbn; [done|]. by rewrite IH, Hk. Qed.

Lemma clamp_all_refuses bounds parameters name v : (name, v) ∈ parameters -> allows bounds name = false ->
  exists e, clamp_all bounds parameters = Err e.
Proof.
  intros Hin Ha. induction parameters as [|[name' v'] parameters IH]; [by apply not_elem_of_nil in Hin|].
  cbn. destruct (dict_get name' (bounded bounds)) as [b|] eqn:Eb; [|eauto].
  destruct (clamp b v') as [[p m]|]; [|eauto].
  apply elem_of_cons in Hin as [[= -> ->]|Hin].
  - unfold allows, dict_in in Ha. by rewrite Eb in Ha.
  - destruct (IH Hin) as [e ->]. eauto.
Qed.

(** A challenger stays within the declared bounds, and says what they refused: where no
    bound is above itself, every parameter of a challenger has a declared bound and is
    within it or NaN; its parameters are the ones asked for, by name, each either the value
    asked for or one a clamp on the challenger records with the value asked for; and nothing
    is built with a parameter no bound declares, or without a rationale. *)
Theorem proposals_stay_in_bounds bounds strategy symbol_ version_ parameters rationale at_ generator :
  sane bounds = true ->
  match build_challenger strategy symbol_ version_ parameters rationale bounds at_ generator with
  | Err _ => True
  | Ok c =>
      in_bounds bounds (cg_parameters c) = true /\
      map fst (cg_parameters c) = map fst (by_key parameters) /\
      (forall i name v v', by_key parameters !! i = Some (name, v) -> cg_parameters c !! i = Some (name, v') ->
         (v' =? v) = true \/ {| parameter := name; requested := v; applied := v' |} ∈ cg_clamped c) /\
      (forall k, k ∈ cg_clamped c -> (parameter k, requested k) ∈ parameters /\
         (parameter k, applied k) ∈ cg_parameters c /\ (applied k =? requested k) = false) /\
      (forall name v, (name, v) ∈ parameters -> allows bounds name = true) /\
      str_true (cg_rationale c) = true
  end.
Proof using HL.
  intros Hs. destruct (build_challenger _ _ _ _ _ _ _ _) as [c|e] eqn:E; [|done].
  assert (forall name v, (name, v) ∈ parameters -> allows bounds name = true) as Hall.
  { intros name v Hin. destruct (allows bounds name) eqn:Ea; [done|]. exfalso.
    destruct (clamp_all_refuses bounds (by_key parameters) name v) as [e He]; [by apply elem_of_sort_by|done|].
    unfold build_challenger in E. rewrite He in E. by destruct (negb _). }
  apply built in E as (_ & _ & _ & Hr & Hc & Hk). split; [by eapply clamps_in_bounds|].
  split; [by eapply clamped_keys|]. split; [|split; [|done]].
  - intros i name v v' Hi Hi'. destruct (v' =? v) eqn:Ev; [by left|right].
    rewrite Hk. apply list_elem_of_omap. exists ((name, v), (name, v')). split; [|by cbn; rewrite Ev].
    apply list_elem_of_lookup. exists i. by apply lookup_combine.
  - intros k Hin. rewrite Hk in Hin. apply list_elem_of_omap in Hin as ([[name v] [name' v']] & Hin & Hrec).
    cbn in Hrec. destruct (v' =? v) eqn:Ev; [done|]. injection Hrec as <-. cbn.
    apply list_elem_of_lookup in Hin as [i [Hi Hi']%lookup_combine].
    destruct (Forall2_lookup_lr _ _ _ _ _ _ Hc Hi Hi') as [Hname _]; cbn in Hname; subst name'.
    repeat split; [|by eapply list_elem_of_lookup_2|done].
    apply (elem_of_sort_by (fun p q => String.leb (fst p) (fst q))). by eapply list_elem_of_lookup_2.
Qed.
End clamped.

(** ** What a generator emits *)

(** A fold over fallible steps, none of which forgives. *)
Lemma foldl_ok {A B X} (P : A -> Prop) (f : result X A -> B -> result X A) (l : list B) (a a' : A) :
  (forall e b, f (Err e) b = Err e) ->
  (forall b a a', b ∈ l -> P a -> f (Ok a) b = Ok a' -> P a') ->
  P a -> foldl f (Ok a) l = Ok a' -> P a'.
Proof.
  intros Herr. revert a. induction l as [|b l IH]; cbn; intros a Hstep Ha; [by intros [= <-]|].
  destruct (f (Ok a) b) as [a1|e] eqn:E.
  - apply IH; [|by eapply Hstep; [constructor| |]].
    intros b' a2 a2' Hb'. apply Hstep. by constructor.
  - assert (foldl f (Err e) l = Err e) as -> by (clear -Herr; induction l as [|b l IH]; cbn; [done|by rewrite Herr]).
    done.
Qed.

Section generated.
Context {F : Type} `{HF : PyFloat F} {HL : PyFloatLaws F}.
Context (digest : string -> string -> string -> pydict F -> string) (render : fstr F -> string).
Context (strategy symbol_ version_ : string) (champion : pydict F) (bounds : ChallengerBounds F) (at_ : option datetime).
Local Open Scope py_scope.

(** A challenger one step along one declared axis away from the champion, and not back on it. *)
Definition one_step (steps : list F) (c : Challenger F) : Prop :=
  exists axis base step, step ∈ steps /\ allows bounds axis = true /\ dict_get axis champion = Some base /\
    proposed render strategy symbol_ version_ champion axis base step bounds at_ = Ok c /\
    dict_eq (cg_parameters c) (known bounds champion) = false.

Definition proposals steps (out : list (Challenger F)) : Prop :=
  NoDup (map (challenger_id digest) out) /\ Forall (one_step steps) out.

Lemma perturb_step_ok steps axis base step out out' : step ∈ steps -> allows bounds axis = true ->
  dict_get axis champion = Some base -> proposals steps out ->
  perturb_step digest render strategy symbol_ version_ champion bounds at_ axis base (Ok out) step = Ok out' ->
  proposals steps out'.
Proof.
  intros Hs Ha Hb [Hnd Hall]. cbn. destruct (proposed _ _ _ _ _ _ _ _ _ _) as [c|] eqn:E; [|done].
  destruct (dict_eq _ _ || _) eqn:Ed; [by intros [= <-]|]. apply orb_false_iff in Ed as [Hne Hfresh].
  intros [= <-]. split.
  - rewrite map_app. apply NoDup_app. repeat split; [done| |apply NoDup_singleton].
    intros i Hi ->%list_elem_of_singleton. apply elem_of_map in Hi as (c' & Heq & Hc').
    apply not_true_iff_false in Hfresh. apply Hfresh, existsb_exists. exists c'.
    split; [by apply list_elem_of_In|]. by rewrite Heq, String.eqb_refl.
  - apply Forall_app. split; [done|]. constructor; [|done]. by exists axis, base, step.
Qed.

Lemma perturb_axes_ok steps axes out : Forall (fun a => allows bounds a = true) axes ->
  foldl (perturb_axis digest render strategy symbol_ version_ champion bounds at_ steps) (Ok []) axes = Ok out ->
  proposals steps out.
Proof.
  intros Hall H. revert H. apply foldl_ok; [by intros ? ?| |by split; constructor].
  intros axis a a' Hin Ha. cbn. destruct (dict_get axis champion) as [base|] eqn:Eb; [|done].
  apply foldl_ok; [by intros ? ?| |done]. intros step ? ? Hstep. apply perturb_step_ok; [done| |done].
  rewrite Forall_forall in Hall. by apply Hall.
Qed.

Lemma perturbations_ok axes steps out :
  perturbations digest render strategy symbol_ version_ champion axes steps bounds at_ = Ok out ->
  proposals steps out /\ (length out <= max_challengers_per_campaign bounds)%nat.
Proof.
  unfold perturbations. destruct (foldl _ _ _) as [l|] eqn:E; [|done].
  apply perturb_axes_ok in E as [Hnd Hall].
  2:{ apply Forall_forall. intros a [_ Ha]%elem_of_filter_b. done. }
  destruct (_ <? _)%nat eqn:El; intros [= <-].
  - split; [split|rewrite length_take; lia].
    + rewrite <- firstn_map. eapply sublist_NoDup; [|apply sublist_take].
      eapply NoDup_Permutation_proper; [apply Permutation_map, sort_by_perm|done].
    + apply Forall_take. by rewrite sort_by_perm.
  - apply Nat.ltb_ge in El. done.
Qed.

(** *** One axis at a time *)

Lemma dict_get_known name (d : pydict F) :
  dict_get name (known bounds d) = if allows bounds name then dict_get name d else None.
Proof.
  unfold known. induction d as [|[k v] d IH]; cbn; [by destruct (allows bounds name)|].
  destruct (allows bounds k) eqn:Ek; cbn; rewrite IH; destruct (String.eqb_spec name k) as [->|]; try done;
    by rewrite Ek.
Qed.

Lemma dict_get_by_key name (d : pydict F) : NoDup (dict_keys d) -> dict_get name (by_key d) = dict_get name d.
Proof.
  intros Hd. rewrite <- !lookup_dict. unfold by_key.
  rewrite (list_to_map_proper (sort_by _ d) d); [done| |apply sort_by_perm].
  eapply NoDup_Permutation_proper; [apply Permutation_map, sort_by_perm|done].
Qed.

Lemma nodup_known (d : pydict F) : NoDup (dict_keys d) -> NoDup (dict_keys (known bounds d)).
Proof. apply NoDup_map_filter. Qed.

(** What a value of a parameter is pulled to. *)
Definition clamped_value name (v : option F) : option F :=
  match dict_get name (bounded bounds), v with
  | Some b, Some v => match clamp b v with Ok (p, _) => Some p | Err _ => None end
  | _, _ => None
  end.

Lemma clamps_get name (asked given : pydict F) : Forall2 (clamps_to bounds) asked given ->
  dict_get name given = clamped_value name (dict_get name asked).
Proof.
  unfold clamped_value. induction 1 as [|[k v] [k' v'] asked given (Hk & b & m & Hb & Hc) _ IH]; cbn in *.
  - by destruct (dict_get name (bounded bounds)).
  - subst k'. destruct (String.eqb_spec name k) as [->|]; [by rewrite Hb, Hc|done].
Qed.

Lemma proposed_parameters axis base step c : NoDup (dict_keys champion) ->
  proposed render strategy symbol_ version_ champion axis base step bounds at_ = Ok c ->
  (forall name, dict_get name (cg_parameters c) =
     clamped_value name (if String.eqb name axis then Some (base * (n_one + step)) else dict_get name champion)) /\
  cg_strategy_id c = strategy /\ cg_symbol c = symbol_ /\ cg_base_version c = version_.
Proof.
  intros Hd (Hst & Hsy & Hv & _ & Hc & _)%built. split; [|done]. intros name. rewrite (clamps_get _ _ _ Hc).
  rewrite dict_get_by_key by by apply nodup_known, dict_nodup_set.
  rewrite dict_get_known, dict_get_set, (String.eqb_sym axis name).
  unfold clamped_value, allows, dict_in. by destruct (dict_get name (bounded bounds)).
Qed.

Lemma proposed_in_bounds axis base step c : sane bounds = true ->
  proposed render strategy symbol_ version_ champion axis base step bounds at_ = Ok c ->
  in_bounds bounds (cg_parameters c) = true.
Proof using HL. intros Hs (_ & _ & _ & _ & Hc & _)%built. by eapply clamps_in_bounds. Qed.

(** A generator's challengers are few, different and each one step from the champion:
    there are at most as many as the bounds allow, no two with one id, and none is the
    champion; each is the champion's bounded parameters, clamped, with one declared
    parameter moved by one of the steps, under the champion's own identity; and where no
    bound is above itself each of its parameters is within its bound or NaN. *)
Theorem challengers_are_one_step_away axes steps : NoDup (dict_keys champion) -> sane bounds = true ->
  match perturbations digest render strategy symbol_ version_ champion axes steps bounds at_ with
  | Err _ => True
  | Ok out =>
      (length out <= max_challengers_per_campaign bounds)%nat /\ NoDup (map (challenger_id digest) out) /\
      forall c, c ∈ out ->
        dict_eq (cg_parameters c) (known bounds champion) = false /\
        in_bounds bounds (cg_parameters c) = true /\
        cg_strategy_id c = strategy /\ cg_symbol c = symbol_ /\ cg_base_version c = version_ /\
        exists axis base step, step ∈ steps /\ allows bounds axis = true /\ dict_get axis champion = Some base /\
          forall name, dict_get name (cg_parameters c) =
            clamped_value name (if String.eqb name axis then Some (base * (n_one + step)) else dict_get name champion)
  end.
Proof using HL.
  intros Hd Hs. destruct (perturbations _ _ _ _ _ _ _ _ _ _) as [out|] eqn:E; [|done].
  apply perturbations_ok in E as [[Hnd Hall] Hlen]. split; [done|]. split; [done|]. intros c Hc.
  rewrite Forall_forall in Hall. destruct (Hall c Hc) as (axis & base & step & Hstep & Ha & Hb & Hp & Hne).
  destruct (proposed_parameters _ _ _ _ Hd Hp) as (Hget & Hst & Hsy & Hv).
  split; [done|]. split; [by eapply proposed_in_bounds|]. repeat split; try done. by exists axis, base, step.
Qed.
End generated.

(** ** Names of the sleeves challengers trade in *)

Lemma champion_of_prefix champion rest : is_derived champion = false ->
  champion_of (champion +:+ String DERIVED_MARKER rest) = champion /\
  is_derived (champion +:+ String DERIVED_MARKER rest) = true.
Proof.
  unfold is_derived. rewrite negb_false_iff. induction champion as [|a champion IH]; [done|].
  change (String a champion +:+ String DERIVED_MARKER rest) with (String a (champion +:+ String DERIVED_MARKER rest)).
  cbn [lacks champion_of]. destruct (Ascii.eqb a DERIVED_MARKER); [done|]. intros H.
  destruct (IH H) as [-> H2]. done.
Qed.

(** A challenger trades under a name that leads back to its champion, and no further:
    the name derived from a champion and a challenger is read back as that champion, is
    itself derived, and so is never the champion of another challenger. *)
Theorem derived_id_reverses champion challenger :
  match derived_strategy_id champion challenger with
  | Ok name => champion_of name = champion /\
      forall other, exists e, derived_strategy_id name other = Err e
  | Err _ => is_derived champion = true
  end.
Proof.
  unfold derived_strategy_id at 1. destruct (is_derived champion) eqn:E; [done|].
  destruct (champion_of_prefix champion challenger E) as [? H]. split; [done|].
  intros other. unfold derived_strategy_id.
  change (String DERIVED_MARKER "" +:+ challenger) with (String DERIVED_MARKER challenger). rewrite H. eauto.
Qed.

(** ** What a campaign charges for *)

Section pooled.
Context {F : Type} `{HF : PyFloat F}.
Context (digest : string -> string -> string -> pydict F -> string).
Context (run_walk_forward : Challenger F -> result (string * string) (Outcome F)).
Context (deflate : list F -> list F -> result string (option F)).
Local Open Scope py_scope.

(** The outcomes of the challengers that ran. *)
Definition ran (challengers : list (Challenger F)) : list (Outcome F) :=
  omap (fun c => match run_walk_forward c with Ok o => Some o | Err _ => None end) challengers.

Lemma distinct_ids seen l : NoDup (map (challenger_id digest) (distinct digest seen l)) /\
  (forall c, c ∈ distinct digest seen l -> c ∈ l /\ challenger_id digest c ∉ seen) /\
  (forall c, c ∈ l -> challenger_id digest c ∈ seen \/
     challenger_id digest c ∈ map (challenger_id digest) (distinct digest seen l)).
Proof.
  clear run_walk_forward deflate. revert seen. induction l as [|c l IH]; intros seen; cbn.
  - split; [constructor|]. split; by intros ? ?%not_elem_of_nil.
  - destruct (str_in _ seen) eqn:E.
    + apply str_in_spec in E. destruct (IH seen) as (H1 & H2 & H3). split; [done|]. split.
      * intros c' Hc'. rewrite elem_of_cons. naive_solver.
      * intros c' [->|Hc']%elem_of_cons; auto.
    + assert (challenger_id digest c ∉ seen) as Hc by (intros H%str_in_spec; congruence).
      destruct (IH (challenger_id digest c :: seen)) as (H1 & H2 & H3). cbn. split; [|split].
      * apply NoDup_cons. split; [|done]. intros (c' & Heq & Hc')%elem_of_map.
        apply H2 in Hc' as [_ Hn]. rewrite Heq in Hn. apply Hn. constructor.
      * intros c' [->|Hc']%elem_of_cons; [split; [constructor|done]|].
        apply H2 in Hc' as [? Hn]. rewrite not_elem_of_cons in Hn. split; [by constructor|naive_solver].
      * intros c' [->|Hc']%elem_of_cons; [right; constructor|].
        destruct (H3 c' Hc') as [[->|?]%elem_of_cons|?]; [right; by constructor|by left|right; by constructor].
Qed.

Lemma trials_ran l : List.concat (map trials_of (map (walked run_walk_forward) l)) = List.concat (map oc_trial_sharpes (ran l)).
Proof.
  unfold ran. induction l as [|c l IH]; [done|]. cbn [map List.concat omap list_omap]. rewrite IH.
  unfold walked, trials_of. destruct (run_walk_forward c) as [o|[n m]]; done.
Qed.

(** What the second pass makes of one challenger. *)
Definition judged_on (pooled : list F) (c : Challenger F) (r : ChallengerResult F) : Prop :=
  cr_challenger r = c /\
  match run_walk_forward c with
  | Err _ => evaluated r = false /\ cr_campaign r = None
  | Ok o =>
      evaluated r = true /\ trials_campaign r = Z.of_nat (length pooled) /\
      cr_sharpe r = oc_sharpe o /\ cr_trades r = oc_trades o /\ cr_stability r = oc_stability o /\
      cr_own_search r = oc_deflated o /\
      (if Nat.eqb (length (oc_returns o)) 0 || Nat.eqb (length pooled) 0 then cr_campaign r = None
       else deflate (oc_returns o) pooled = Ok (cr_campaign r))
  end.

Lemma judge_ok pooled l rs : judge deflate pooled (map (walked run_walk_forward) l) = Ok rs ->
  Forall2 (judged_on pooled) l rs.
Proof.
  revert rs. induction l as [|c l IH]; cbn [map judge]; intros rs; [by intros [= <-]|].
  unfold walked at 1. unfold judged_on. destruct (run_walk_forward c) as [o|[n m]] eqn:Er.
  - destruct (match oc_returns o with [] => _ | _ => _ end) as [d|] eqn:Ed; [|done].
    destruct (judge _ _ _) as [rs'|] eqn:Ej; [|done]. intros [= <-]. constructor; [|by apply IH].
    split; [done|]. rewrite Er. repeat split; cbn.
    destruct (oc_returns o), pooled; cbn; congruence.
  - destruct (judge _ _ _) as [rs'|] eqn:Ej; [|done]. intros [= <-]. constructor; [|by apply IH].
    split; [done|]. rewrite Er. split; [|done]. unfold evaluated; cbn. destruct n; done.
Qed.
Lemma judge_err pooled l e : judge deflate pooled (map (walked run_walk_forward) l) = Err e ->
  exists o, o ∈ ran l /\ deflate (oc_returns o) pooled = Err e.
Proof.
  unfold ran. induction l as [|c l IH]; cbn [map judge]; [done|].
  cbn [omap list_omap]. unfold walked at 1. destruct (run_walk_forward c) as [o|[n m]].
  - destruct (match oc_returns o with [] => _ | _ => _ end) as [d|e'] eqn:Ed.
    + destruct (judge _ _ _) as [rs'|e']; [done|]. intros [= ->].
      destruct (IH eq_refl) as (o' & Ho & Hd). exists o'. split; [by constructor|done].
    + intros [= ->]. exists o. split; [constructor|]. destruct (oc_returns o), pooled; done.
  - destruct (judge _ _ _) as [rs'|e']; [done|]. intros [= ->]. by apply IH.
Qed.

(** Every trial of a campaign is charged to every result of it: each id is evaluated
    once and none is dropped; the trials counted are those of all the challengers that ran,
    together, and each result's verdict is its own returns deflated against all of them, None
    where there are no returns or no trials, and never the figure of its own search; one that
    could not run says so and contributes nothing; what survives ran and cleared the bar; and
    the campaign fails only where the deflation of one of them does. *)
Theorem campaigns_charge_every_trial challengers min_deflated_sharpe :
  let tried := distinct digest [] challengers in
  let pooled := List.concat (map oc_trial_sharpes (ran tried)) in
  NoDup (map (challenger_id digest) tried) /\
  (forall c, c ∈ challengers -> challenger_id digest c ∈ map (challenger_id digest) tried) /\
  match evaluate_campaign digest run_walk_forward deflate challengers min_deflated_sharpe with
  | Ok campaign =>
      cp_pooled_trials campaign = Z.of_nat (length pooled) /\
      Forall2 (judged_on pooled) tried (results campaign) /\
      (forall r, r ∈ survivors campaign <-> r ∈ results campaign /\ evaluated r = true /\
         exists x, cr_campaign r = Some x /\ (x >=? min_deflated_sharpe) = true)
  | Err e => exists o, o ∈ ran tried /\ deflate (oc_returns o) pooled = Err e
  end.
Proof.
  destruct (distinct_ids [] challengers) as (H1 & _ & H3). cbv zeta. split; [done|]. split.
  { intros c Hc. destruct (H3 c Hc) as [[]%not_elem_of_nil|?]; done. }
  unfold evaluate_campaign. rewrite trials_ran.
  destruct (judge _ _ _) as [rs|e] eqn:E; cbn.
  - split; [done|]. split; [by apply judge_ok|]. intros r. unfold survivors; cbn.
    rewrite elem_of_filter_b, andb_true_iff.
    destruct (cr_campaign r) as [x|]; naive_solver.
  - by apply judge_err.
Qed.
End pooled.

(** ** On concrete proposals *)

Module Proposed.
(** The identity and the parameters, in hundredths. *)
Definition digest (strategy symbol_ version_ : string) (parameters : pydict spec_float) : string :=
  strategy +:+ symbol_ +:+ version_ +:+
  join "," (map (fun '(name, x) => name +:+ "=" +:+ str_of_Z (ntrunc (nmul (nofZ 100) x))) parameters).
Definition render (_ : fstr spec_float) : string := "a step".
Definition champion : pydict spec_float :=
  [("ema_fast", nofZ 20); ("ema_slow", nofZ 110); ("risk", nofZ 3)].
Definition short (c : Challenger spec_float) : pydict Z * list string :=
  (map (fun '(name, x) => (name, ntrunc x)) (cg_parameters c), map parameter (cg_clamped c)).
Definition short_all (r : result ProposalError (list (Challenger spec_float))) :=
  match r with Ok l => Ok (map short l) | Err e => Err e end.
Definition build (parameters : pydict spec_float) := build_challenger "ema" "AAPL" "v1" parameters "why not" default_bounds None GENERATOR.
Definition generated := perturbations digest render "ema" "AAPL" "v1" champion None DEFAULT_STEPS default_bounds None.
End Proposed.

Lemma bounds_are_sane : sane (F := spec_float) default_bounds = true.
Proof. vm_compute. reflexivity. Qed.

(** Sixty is more than the bound of fifty, and says so. *)
Lemma proposals_stay_in_bounds_witness :
  let parameters := [("rsi_buy_min", nofZ 40); ("ema_fast", nofZ 60)] in
  match Proposed.build parameters with
  | Ok c => Proposed.short c = ([("ema_fast", 50); ("rsi_buy_min", 40)], ["ema_fast"]) /\
      in_bounds default_bounds (cg_parameters c) = true
  | Err _ => False
  end.
Proof.
  cbv zeta.
  assert (match Proposed.build [("rsi_buy_min", nofZ 40); ("ema_fast", nofZ 60)] with
          | Ok c => Proposed.short c = ([("ema_fast", 50); ("rsi_buy_min", 40)], ["ema_fast"]) | Err _ => False end) as H
    by (vm_compute; reflexivity).
  pose proof (proposals_stay_in_bounds (F := spec_float) default_bounds "ema" "AAPL" "v1"
    [("rsi_buy_min", nofZ 40); ("ema_fast", nofZ 60)] "why not" None GENERATOR bounds_are_sane) as Hp.
  unfold Proposed.build in *. destruct (build_challenger _ _ _ _ _ _ _ _) as [c|e]; [|exact H].
  split; [exact H|]. exact (proj1 Hp).
Defined.

Lemma champion_keys : NoDup (dict_keys Proposed.champion).
Proof. apply (bool_decide_unpack _). vm_compute. exact I. Qed.

Lemma challengers_are_one_step_away_witness :
  match Proposed.generated with
  | Ok out =>
      map Proposed.short out =
        [([("ema_fast", 16); ("ema_slow", 110)], []); ([("ema_fast", 24); ("ema_slow", 110)], []);
         ([("ema_fast", 20); ("ema_slow", 88)], []); ([("ema_fast", 20); ("ema_slow", 120)], ["ema_slow"])] /\
      NoDup (map (challenger_id Proposed.digest) out)
  | Err _ => False
  end.
Proof.
  assert (match Proposed.generated with
    | Ok out => map Proposed.short out =
        [([("ema_fast", 16); ("ema_slow", 110)], []); ([("ema_fast", 24); ("ema_slow", 110)], []);
         ([("ema_fast", 20); ("ema_slow", 88)], []); ([("ema_fast", 20); ("ema_slow", 120)], ["ema_slow"])]
    | Err _ => False end) as H by (vm_compute; reflexivity).
  pose proof (challengers_are_one_step_away (F := spec_float) Proposed.digest Proposed.render "ema" "AAPL" "v1"
    Proposed.champion default_bounds None None DEFAULT_STEPS
    champion_keys bounds_are_sane) as Hp.
  unfold Proposed.generated in *. destruct (perturbations _ _ _ _ _ _ _ _ _ _) as [out|e]; [|exact H].
  split; [exact H|]. exact (proj1 (proj2 Hp)).
Defined.

(** NaN is in no interval and is pulled into none: a challenger holds it. *)
Lemma nan_is_not_clamped :
  match Proposed.build [("bb_std", S754_nan)] with
  | Ok c => cg_parameters c = [("bb_std", S754_nan)] /\ map parameter (cg_clamped c) = ["bb_std"]
  | Err _ => False
  end.
Proof. vm_compute. done. Qed.

(** A parameter without a bound is not proposed, whatever its value. *)
Lemma undeclared_is_refused : Proposed.build [("max_size_pct", nofZ 1)] = Err (UnboundedParameter "max_size_pct").
Proof. vm_compute. reflexivity. Qed.
