(* ===== verification/Learning.v ===== *)
(** * The learning cycle

    Models [libs/challengers] [learning.py] and the orchestrator's [learning_worker.py]: the
    cycle that perturbs a champion, judges the challengers together and records them, and
    the batch that runs it over the paper sleeves a human owns. The registry's files, the
    digests and the rendering of an f-string are parameters; the journal, the veto, the
    attribution, the walk-forward and the store are those of their own files. Shown: a batch
    changes nothing but the two research tables, which it only appends to; it proposes
    nothing without the evidence it asks for; and what it proposes is within its bounds,
    down to the parameters the sleeve of a challenger trades. *)

From S2P Require Import PyFloat Store StoreProofs Policy Journal JournalTheorems Attribution Evidence Service Indicators Strategies Backtest Stats Validation Veto Challengers Prelude.
From Stdlib Require Import Ascii Floats.SpecFloat.
Local Close Scope Q_scope.
Local Open Scope Z_scope.

(** ** learning.py *)

Record LearningThresholds (F : Type) := {
  min_paper_round_trips : Z;
  min_out_of_sample_trades : Z;
  min_parameter_stability : F;
  lt_min_deflated_sharpe : F
}.
Arguments min_paper_round_trips {F}. Arguments min_out_of_sample_trades {F}.
Arguments min_parameter_stability {F}. Arguments lt_min_deflated_sharpe {F}.

(** The dict [paper_feedback]: what the paper fills made, and the digest of the artifact
    they were made with. *)
Record PaperFeedback (F : Type) := {
  pf_performance : Performance F;
  strategy_artifact_sha256 : option string
}.
Arguments pf_performance {F}. Arguments strategy_artifact_sha256 {F}.

Record LearningCycleReport (F : Type) := {
  lr_campaign_id : string;
  lr_status : string;
  lr_strategy_id : string;
  lr_symbol : string;
  lr_base_version : string;
  lr_as_of : datetime;
  lr_paper_feedback : PaperFeedback F;
  lr_veto : VetoDecision F;
  lr_campaign : option (CampaignResult F);
  qualified_proposals : list string;
  recorded_proposal_ids : list Z;
  lr_deployment_authority : bool;
  lr_promotion_authority : bool
}.
Arguments lr_campaign_id {F}. Arguments lr_status {F}. Arguments lr_strategy_id {F}. Arguments lr_symbol {F}.
Arguments lr_base_version {F}. Arguments lr_as_of {F}. Arguments lr_paper_feedback {F}. Arguments lr_veto {F}.
Arguments lr_campaign {F}. Arguments qualified_proposals {F}. Arguments recorded_proposal_ids {F}.
Arguments lr_deployment_authority {F}. Arguments lr_promotion_authority {F}.

(** What ends a cycle: the store, a proposal refused, the deflation, or another exception of
    the worker's own. *)
Inductive LearningError :=
| InStore (e : StoreError)
| Refused (e : ProposalError)
| NotDeflated (message : string)
| Unusable (message : string).

(** The functions of the libraries a cycle calls, and what they render. *)
Class Digests (F : Type) := {
  challenger_digest : string -> string -> string -> pydict F -> string;
  campaign_digest : string -> string -> string -> pydict F -> datetime -> string;
  report_digest : LearningCycleReport F -> string;
  render : fstr F -> string;
  show_clamp : Clamp F -> string
}.

Section cycle.
Context {F : Type} `{HF : PyFloat F} {HD : Digests F}.
Local Abbreviation M := (prog (DB F) LearningError).
Local Open Scope py_scope.

Definition default_thresholds : LearningThresholds F :=
  {| min_paper_round_trips := 20; min_out_of_sample_trades := 30; min_parameter_stability := nlit 5 10;
     lt_min_deflated_sharpe := nlit 95 100 |}.

(** [to_dict()], as the store reads it. *)
Definition report_dict (r : LearningCycleReport F) : Report :=
  {| deployment_authority := Some (lr_deployment_authority r); promotion_authority := Some (lr_promotion_authority r);
     rep_content_hash := report_digest r; rep_campaign_id := lr_campaign_id r; rep_strategy_id := lr_strategy_id r;
     rep_symbol := lr_symbol r; rep_base_version := lr_base_version r; rep_status := lr_status r;
     rep_as_of := lr_as_of r |}.

Definition challenger_dict (c : Challenger F) : ChallengerDict F :=
  {| c_challenger_id := challenger_id challenger_digest c; c_strategy_id := cg_strategy_id c; c_symbol := cg_symbol c;
     c_base_version := cg_base_version c; c_parameters := list_to_map (cg_parameters c); c_rationale := cg_rationale c;
     c_clamped := map show_clamp (cg_clamped c); c_bounds_version := cg_bounds_version c;
     c_generator := cg_generator c |}.

(** The first sixteen digits of the digest. *)
Definition _campaign_id (strategy symbol_ version_ : string) (champion : pydict F) (as_of : datetime) : string :=
  "learn-" +:+ campaign_digest strategy (upper symbol_) version_ (by_key champion) as_of.

Definition _is_qualified (r : ChallengerResult F) (thresholds : LearningThresholds F) : bool :=
  evaluated r &&
  match cr_campaign r with Some x => x >=? lt_min_deflated_sharpe thresholds | None => false end &&
  match cr_sharpe r with Some x => x >? nzero | None => false end &&
  (min_out_of_sample_trades thresholds <=? cr_trades r)%Z &&
  match cr_stability r with Some x => x >=? min_parameter_stability thresholds | None => false end.

(** A call of the store from the cycle. *)
Definition in_store {A} (m : prog (DB F) StoreError A) : M A :=
  fun d => match m d with (Ok a, d') => (Ok a, d') | (Err e, d') => (Err (InStore e), d') end.

Definition finish (store : option StoreSettings) (account : string) (report : LearningCycleReport F)
    : M (LearningCycleReport F) :=
  match store with
  | None => mret report
  | Some settings => _ ← in_store (record_learning_cycle settings (report_dict report) (Some account)); mret report
  end.

(** [clock n] is the database's time at the [n]-th proposal. *)
Fixpoint record_all (settings : StoreSettings) (account campaign_id : string) (pool : Z) (qualified : list string)
    (clock : nat -> datetime) (n : nat) (rs : list (ChallengerResult F)) : M (list Z) :=
  match rs with
  | [] => mret []
  | r :: rs =>
      new_id ← in_store (record_challenger_proposal settings campaign_id (challenger_dict (cr_challenger r))
                  (cr_campaign r) (cr_own_search r) pool (cr_sharpe r)
                  (str_in (challenger_id challenger_digest (cr_challenger r)) qualified) (Some account) (clock n));
      rest ← record_all settings account campaign_id pool qualified clock (S n) rs;
      mret (new_id :: rest)
  end.

Definition of_proposals {A} (r : result ProposalError A) : M A :=
  match r with Ok a => mret a | Err e => raise (Refused e) end.
Definition of_campaign {A} (r : result string A) : M A :=
  match r with Ok a => mret a | Err e => raise (NotDeflated e) end.

Definition run_learning_cycle (strategy symbol_ version_ : string) (champion : pydict F) (paper_feedback : PaperFeedback F)
    (veto_decision : VetoDecision F) (run_walk_forward : Challenger F -> result (string * string) (Outcome F))
    (deflate : list F -> list F -> result string (option F)) (store : option StoreSettings) (account : string)
    (moment : datetime) (thresholds : LearningThresholds F) (bounds : ChallengerBounds F) (clock : nat -> datetime)
    : M (LearningCycleReport F) :=
  let campaign_id := _campaign_id strategy symbol_ version_ champion moment in
  let finish status campaign qualified recorded :=
    finish store account
      {| lr_campaign_id := campaign_id; lr_status := status; lr_strategy_id := strategy; lr_symbol := upper symbol_;
         lr_base_version := version_; lr_as_of := moment; lr_paper_feedback := paper_feedback; lr_veto := veto_decision;
         lr_campaign := campaign; qualified_proposals := qualified; recorded_proposal_ids := recorded;
         lr_deployment_authority := false; lr_promotion_authority := false |} in
  if rejected veto_decision then finish "VETOED" None [] [] else
  if negb (Nat.eqb (length (unchecked veto_decision)) 0) then finish "VETO_INCOMPLETE" None [] [] else
  if (p_trades (pf_performance paper_feedback) <? min_paper_round_trips thresholds)%Z
  then finish "INSUFFICIENT_PAPER_EVIDENCE" None [] [] else
  challengers ← of_proposals (perturbations challenger_digest render strategy symbol_ version_ champion None DEFAULT_STEPS
                                bounds (Some moment));
  if Nat.eqb (length challengers) 0 then finish "NO_CHALLENGERS" None [] [] else
  campaign ← of_campaign (evaluate_campaign challenger_digest run_walk_forward deflate challengers
                            (lt_min_deflated_sharpe thresholds));
  let qualified := map (fun r => challenger_id challenger_digest (cr_challenger r))
                     (List.filter (fun r => _is_qualified r thresholds) (results campaign)) in
  recorded ← match store with
             | None => mret []
             | Some settings => record_all settings account campaign_id (cp_pooled_trials campaign) qualified clock 0
                                  (results campaign)
             end;
  finish (match store with Some _ => "RECORDED" | None => "EVALUATED_UNRECORDED" end) (Some campaign) qualified recorded.
End cycle.

(** ** learning_worker.py *)

Record StrategyArtifact (F : Type) := {
  ar_strategy_id : string;
  ar_strategy_version : string;
  ar_timeframe : string;
  ar_parameters : pydict (pyval F);
  ar_sha256 : string
}.
Arguments ar_strategy_id {F}. Arguments ar_strategy_version {F}. Arguments ar_timeframe {F}.
Arguments ar_parameters {F}. Arguments ar_sha256 {F}.

(** A file of the registry: whether its resolved path is under the root, its length, its
    digest, and its JSON object; an entry the object lacks is None, and so is a
    [parameters] that is not an object. *)
Record Payload (F : Type) := {
  py_strategy_id : option string;
  py_strategy_version : option string;
  py_timeframe : option string;
  py_parameters : option (pydict (pyval F))
}.
Arguments py_strategy_id {F}. Arguments py_strategy_version {F}. Arguments py_timeframe {F}. Arguments py_parameters {F}.

Record RegistryFile (F : Type) := {
  rf_inside : bool;
  rf_size : Z;
  rf_sha256 : string;
  rf_payload : option (Payload F)
}.
Arguments rf_inside {F}. Arguments rf_size {F}. Arguments rf_sha256 {F}. Arguments rf_payload {F}.

Definition alphanumeric (a : ascii) : bool :=
  let n := nat_of_ascii a in
  ((48 <=? n) && (n <=? 57) || (65 <=? n) && (n <=? 90) || (97 <=? n) && (n <=? 122))%nat.

(** [_SAFE_ID.fullmatch(s)] *)
Definition _SAFE_ID (s : string) : bool :=
  match s with
  | EmptyString => false
  | String a rest =>
      alphanumeric a && (String.length rest <=? 63)%nat &&
      forallb (fun c => alphanumeric c || existsb (Ascii.eqb c) ["_"; "."; "-"]%char) (String.list_ascii_of_string rest)
  end.

(** [[1-9][0-9]*m], in full. *)
Fixpoint digits_then_m (s : string) : bool :=
  match s with
  | String "m" EmptyString => true
  | String a s => match digit_of a with Some _ => digits_then_m s | None => false end
  | EmptyString => false
  end.
Definition minutes_timeframe (s : string) : bool :=
  match s with
  | String a s => match digit_of a with Some d => (0 <? d) && digits_then_m s | None => false end
  | EmptyString => false
  end.

Section worker.
Context {F : Type} `{HF : PyFloat F} {HD : Digests F}.
Context (fpow : F -> F -> F) (fsqrt erf : F -> F) (_session_date : datetime -> string) (float_of : string -> option F).
Local Abbreviation M := (prog (DB F) LearningError).
Local Open Scope py_scope.

(** What pydantic makes of a value for a field; a name no field has is ignored. *)
Definition coerced (name : string) (v : pyval F) : result ValidationError (pyval F) :=
  if str_in name ["ema_fast"; "ema_slow"; "bb_period"] then
    match v with
    | PInt z => Ok (PInt z)
    | PBool b => Ok (PInt (Z.b2z b))
    | PFloat x => if nfinite x && (nofZ (ntrunc x) =? x) then Ok (PInt (ntrunc x)) else Err (OutOfBounds name)
    | PNone => Err (OutOfBounds name)
    end
  else
    match v with
    | PInt z => Ok (PFloat (nofZ z))
    | PBool b => Ok (PFloat (nofZ (Z.b2z b)))
    | PFloat x => Ok (PFloat x)
    | PNone => Err (OutOfBounds name)
    end.

(** [StrategyParams( **d )] of a dict with each key once. *)
Fixpoint assigned (d : pydict (pyval F)) (p : StrategyParams F) : result ValidationError (StrategyParams F) :=
  match d with
  | [] => Ok p
  | (name, v) :: d =>
      if negb (str_in name PARAM_FIELDS) then assigned d p else
      match coerced name v with
      | Err e => Err e
      | Ok v => assigned d (set_param name v p)
      end
  end.
Definition strategy_params (d : pydict (pyval F)) : result ValidationError (StrategyParams F) :=
  match assigned d default_params with Err e => Err e | Ok p => validate p end.

(** [model_dump()] *)
Definition model_dump (p : StrategyParams F) : pydict (pyval F) := map (fun name => (name, get_param name p)) PARAM_FIELDS.

(** [float(getattr(model, name))] *)
Definition float_field (p : StrategyParams F) (name : string) : F :=
  match get_param name p with PInt z => nofZ z | PFloat x => x | _ => nzero end.

Definition load_strategy_artifact (registry : string -> option (RegistryFile F)) (environ : gmap string string)
    (strategy version_ : string) : result string (StrategyArtifact F) :=
  if negb (_SAFE_ID strategy) || negb (_SAFE_ID version_) then Err "unsafe strategy artifact identity" else
  match registry (strategy +:+ "--" +:+ version_ +:+ ".json") with
  | None => Err "FileNotFoundError"
  | Some file =>
      if negb (rf_inside file) then Err "strategy artifact escaped its registry" else
      if 64 * 1024 <? rf_size file then Err "strategy artifact is too large" else
      let expected := lower (strip (default "" (environ !! "LEARNING_STRATEGY_SHA256"))) in
      if str_true expected && negb (String.eqb (rf_sha256 file) expected)
      then Err "strategy artifact digest mismatch" else
      match rf_payload file with
      | None => Err "JSONDecodeError"
      | Some payload =>
          if negb (bool_decide (py_strategy_id payload = Some strategy)) then Err "strategy artifact id mismatch" else
          if negb (bool_decide (py_strategy_version payload = Some version_))
          then Err "strategy artifact version mismatch" else
          let timeframe := default "" (py_timeframe payload) in
          if negb (String.eqb timeframe "1d") && negb (minutes_timeframe timeframe)
          then Err "unsupported strategy artifact timeframe" else
          match py_parameters payload with
          | None => Err "strategy artifact parameters must be an object"
          | Some parameters =>
              match strategy_params parameters with
              | Err _ => Err "ValidationError"
              | Ok _ => Ok {| ar_strategy_id := strategy; ar_strategy_version := version_; ar_timeframe := timeframe;
                              ar_parameters := parameters; ar_sha256 := rf_sha256 file |}
              end
          end
      end
  end%Z.

Definition _bar (symbol_ : string) (row : BarObservation F) : OHLCVBar F :=
  {| ob_symbol := symbol_; ob_timestamp := b_bar_ts row; ob_open := b_open row; ob_high := b_high row;
     ob_low := b_low row; ob_close := b_close row; ob_volume := nor (b_volume row) nzero |}.

Definition _one_point_grid (p : StrategyParams F) : ParameterGrid F :=
  {| pg_ema_fast := [sp_ema_fast p]; pg_ema_slow := [sp_ema_slow p]; pg_rsi_buy_min := [rsi_buy_min p];
     pg_rsi_buy_max := [rsi_buy_max p]; pg_macd_hist_min := [macd_hist_min p]; pg_bb_period := [bb_period p];
     pg_bb_std := [bb_std p]; pg_rsi_oversold := [rsi_oversold p]; pg_rsi_overbought := [rsi_overbought p] |}.

(** [BacktestRequest(symbol=..., strategy=..., timeframe=...)], the rest by default. *)
Definition request_of (symbol_ strategy timeframe_ : string) : BacktestRequest F :=
  {| bq_symbol := symbol_; bq_strategy := strategy; period_days := 180; initial_capital := nofZ 100000;
     risk_per_trade_pct := nlit 1 100; atr_stop_multiplier := nofZ 2; bq_params := default_params;
     timeframe := timeframe_; intraday_minutes := 15; commission_pct := nzero; spread_bps := nofZ 5;
     slippage_bps := n_one; regime_gate := false; volume_gate := false |}.

(** [int(os.getenv(name, default))] *)
Definition env_int (environ : gmap string string) (name : string) (d : Z) : option Z :=
  match environ !! name with None => Some d | Some s => py_int s end.

Definition outcome_of (w : WalkForwardResult F) : Outcome F :=
  {| oc_sharpe := Some (wf_out_of_sample_sharpe _ w); oc_trades := Z.of_nat (wf_out_of_sample_trades _ w);
     oc_stability := Some (parameter_stability _ w); oc_deflated := wf_deflated_sharpe_ratio _ w;
     oc_trial_sharpes := wf_trial_sharpes _ w; oc_n_trials := Z.of_nat (n_trials _ w);
     oc_returns := out_of_sample_returns _ w |}.

(** [evaluate]: the walk-forward of the champion's parameters with the candidate's over them. *)
Definition evaluate (environ : gmap string string) (champion_model : StrategyParams F) (request : BacktestRequest F)
    (bars : list (OHLCVBar F)) (candidate : Challenger F) : result (string * string) (Outcome F) :=
  let merged := foldl (fun d '(name, x) => dict_set name (PFloat x) d) (model_dump champion_model) (cg_parameters candidate) in
  match strategy_params merged with
  | Err _ => Err ("ValidationError", "1 validation error for StrategyParams")
  | Ok params =>
      match env_int environ "LEARNING_WF_SPLITS" 4 with
      | None => Err ("ValueError", "invalid literal for int() with base 10")
      | Some n =>
          match walk_forward fpow fsqrt erf _session_date render (with_params request params) bars
                  (_one_point_grid params) (Z.max 2 (Z.min 10 n)) None "sharpe" with
          | Ok w => Ok (outcome_of w)
          | Err (ValueError message) => Err ("ValueError", message)
          | Err (InStats _) => Err ("ValueError", "p must be strictly between 0 and 1")
          end
      end
  end.

Definition deflate (returns trials : list F) : result string (option F) :=
  match deflated_sharpe_ratio fpow fsqrt erf returns trials None with
  | Ok x => Ok x
  | Err _ => Err "p must be strictly between 0 and 1"
  end.

(** What one cycle of the batch returns. *)
Inductive SleeveOutcome := Skipped (status : string) | Reported (report : LearningCycleReport F) | Failed (e : LearningError).

Definition unusable {A} (r : result string A) : M A := match r with Ok a => mret a | Err e => raise (Unusable e) end.
Definition unusable_none {A} (message : string) (o : option A) : M A :=
  match o with Some a => mret a | None => raise (Unusable message) end.

(** What a cycle reads besides the store: the journal, what each of its reads meets, the
    registry and the environment. *)
Record Sources := {
  w_journal : Journal F;
  w_faults : Faults;
  w_fills : io;
  w_bars : io;
  w_registry : string -> option (RegistryFile F);
  w_environ : gmap string string
}.

(** The store of the worker. *)
Context (settings : StoreSettings).

Definition run_sleeve_learning_cycle (s : Sleeve) (w : Sources) (moment : datetime) (clock : nat -> datetime)
    : M SleeveOutcome :=
  if negb (String.eqb (state s) "paper") then mret (Skipped "SKIPPED_NOT_PAPER") else
  if negb (String.eqb (origin s) "human") then mret (Skipped "SKIPPED_CHALLENGER_ORIGIN") else
  if negb (str_true (strategy_version s)) then mret (Skipped "SKIPPED_UNVERSIONED") else
  artifact ← unusable (load_strategy_artifact (w_registry w) (w_environ w) (strategy_id s) (strategy_version s));
  champion_model ← unusable (match strategy_params (ar_parameters artifact) with Ok p => Ok p | Err _ => Err "ValidationError" end);
  strategy ← unusable (get_strategy fpow (strategy_id s));
  let champion := map (fun name => (name, float_field champion_model name)) (param_fields strategy) in
  policy ← unusable (from_env float_of (w_environ w));
  let veto_decision := review (w_journal w, w_faults w) (symbol s) moment policy (ar_timeframe artifact) in
  trips ← unusable_none "the fills cannot be paired"
            (load_round_trips (Some (strategy_id s)) (Some (strategy_version s)) (Some (symbol s)) (Some "paper")
               (account_id s) None (Some moment) 5000 (w_fills w) (w_journal w));
  let paper_feedback := {| pf_performance := performance_from_trades fpow trips None;
                           strategy_artifact_sha256 := Some (ar_sha256 artifact) |} in
  let bars := map (_bar (symbol s)) (bars_as_of (symbol s) (ar_timeframe artifact) moment 1000 (w_bars w) (w_journal w)) in
  let request := request_of (symbol s) (strategy_id s)
                   (if String.eqb (ar_timeframe artifact) "1d" then "daily" else "intraday") in
  minimum ← unusable_none "invalid literal for int() with base 10" (env_int (w_environ w) "LEARNING_MIN_PAPER_TRADES" 20);
  report ← run_learning_cycle (strategy_id s) (symbol s) (strategy_version s) champion paper_feedback veto_decision
    (evaluate (w_environ w) champion_model request bars) deflate (Some settings) (account_id s) moment
    {| min_paper_round_trips := Z.max 20 minimum; min_out_of_sample_trades := 30;
       min_parameter_stability := nlit 5 10; lt_min_deflated_sharpe := nlit 95 100 |}
    default_bounds clock;
  mret (Reported report).

(** The batch; the inputs of the [n]-th cycle are [inputs n]. A cycle that raises leaves what
    it committed. *)
Fixpoint each_sleeve (inputs : nat -> Sources * datetime * (nat -> datetime)) (n : nat) (sleeves : list Sleeve)
    (d : DB F) : list SleeveOutcome * DB F :=
  match sleeves with
  | [] => ([], d)
  | s :: sleeves =>
      let '(w, moment, clock) := inputs n in
      let '(r, d) := run_sleeve_learning_cycle s w moment clock d in
      let '(rs, d) := each_sleeve inputs (S n) sleeves d in
      ((match r with Ok o => o | Err e => Failed e end) :: rs, d)
  end.

Definition run_paper_learning_cycles (environ : gmap string string)
    (inputs : nat -> Sources * datetime * (nat -> datetime)) (d : DB F) : result string (list SleeveOutcome) * DB F :=
  match env_int environ "LEARNING_MAX_SLEEVES" 10 with
  | None => (Err "invalid literal for int() with base 10", d)
  | Some n =>
      let maximum := Z.to_nat (Z.max 1 (Z.min 50 n)) in
      let sleeves := take maximum
        (List.filter (fun s => String.eqb (state s) "paper" && String.eqb (origin s) "human") (all settings None d)) in
      let '(rs, d) := each_sleeve inputs 0 sleeves d in (Ok rs, d)
  end.
End worker.

(** ** What a cycle writes *)

Section growth.
Context {F : Type} `{HF : PyFloat F} {HD : Digests F}.
Implicit Types (d : DB F) (P : Proposal F -> Prop) (Q : LearningCycle -> Prop).

(** Nothing changes but the two research tables; they are appended to, by rows of [P] and of
    [Q]. *)
Definition grows P Q d d' : Prop :=
  d' = set_research (artifact d) (evidence_snapshot d) (challenger_proposal d') (learning_cycle d') d /\
  (exists ps, challenger_proposal d' = challenger_proposal d ++ ps /\ Forall P ps) /\
  (exists cs, learning_cycle d' = learning_cycle d ++ cs /\ Forall Q cs).

#[export] Instance grows_refl P Q : Reflexive (grows P Q).
Proof.
  intros d. split; [by destruct d|]. split; exists []; by rewrite app_nil_r.
Qed.
#[export] Instance grows_trans P Q : Transitive (grows P Q).
Proof.
  intros d1 d2 d3 (H1 & (ps & Hp & HP) & cs & Hc & HQ) (H2 & (ps' & Hp' & HP') & cs' & Hc' & HQ').
  split; [rewrite H2, H1; reflexivity|]. split.
  - exists (ps ++ ps'). rewrite Hp', Hp, app_assoc. split; [done|by apply Forall_app].
  - exists (cs ++ cs'). rewrite Hc', Hc, app_assoc. split; [done|by apply Forall_app].
Qed.

Lemma grows_weaken P P' Q d d' : (forall p, P p -> P' p) -> grows P Q d d' -> grows P' Q d d'.
Proof.
  intros HP (H1 & (ps & Hps & HPs) & H3). split; [done|]. split; [|done].
  exists ps. split; [done|]. eapply Forall_impl; eauto.
Qed.

(** A program that only grows the tables, whatever it returns or raises. *)
Definition growing {X A} P Q (m : prog (DB F) X A) : Prop := forall d, grows P Q d (snd (m d)).

Lemma growing_ret {X A} P Q (a : A) : growing P Q (mret a : prog (DB F) X A).
Proof. intros d. reflexivity. Qed.
Lemma growing_raise {X A} P Q (e : X) : growing P Q (raise e : prog (DB F) X A).
Proof. intros d. reflexivity. Qed.
Lemma growing_bind {X A B} P Q (m : prog (DB F) X A) (k : A -> prog (DB F) X B) :
  growing P Q m -> (forall a, growing P Q (k a)) -> growing P Q (m ≫= k).
Proof.
  intros Hm Hk d. specialize (Hm d). unfold mbind, prog_bind. destruct (m d) as [[a|e] d']; cbn in *; [|done].
  etransitivity; [done|apply Hk].
Qed.
Lemma growing_in_store {A} P Q (m : prog (DB F) StoreError A) : growing P Q m -> growing P Q (in_store m).
Proof. intros Hm d. specialize (Hm d). unfold in_store. by destruct (m d) as [[a|e] d']. Qed.


(** What a cycle makes of a result, and what it goes on with. *)
Lemma growing_proposals {A B} P Q (r : result ProposalError A) (k : A -> prog (DB F) LearningError B) :
  (forall a, r = Ok a -> growing P Q (k a)) -> growing P Q (of_proposals r ≫= k).
Proof. intros Hk d. destruct r as [a|e]; [by apply Hk|reflexivity]. Qed.
Lemma growing_campaign {A B} P Q (r : result string A) (k : A -> prog (DB F) LearningError B) :
  (forall a, r = Ok a -> growing P Q (k a)) -> growing P Q (of_campaign r ≫= k).
Proof. intros Hk d. destruct r as [a|e]; [by apply Hk|reflexivity]. Qed.
Lemma growing_unusable {A B} P Q (r : result string A) (k : A -> prog (DB F) LearningError B) :
  (forall a, r = Ok a -> growing P Q (k a)) -> growing P Q (unusable r ≫= k).
Proof. intros Hk d. destruct r as [a|e]; [by apply Hk|reflexivity]. Qed.
Lemma growing_unusable_none {A B} P Q message (o : option A) (k : A -> prog (DB F) LearningError B) :
  (forall a, o = Some a -> growing P Q (k a)) -> growing P Q (unusable_none message o ≫= k).
Proof. intros Hk d. destruct o as [a|]; [by apply Hk|reflexivity]. Qed.

(** The two writes. *)
Lemma growing_proposal P Q settings campaign_id c dsr own pool oos survived_ account now :
  (forall new_id, P {| p_id := new_id; p_campaign_id := campaign_id;
     p_challenger := {| c_challenger_id := c_challenger_id c; c_strategy_id := c_strategy_id c;
       c_symbol := upper (c_symbol c); c_base_version := c_base_version c; c_parameters := c_parameters c;
       c_rationale := c_rationale c; c_clamped := c_clamped c; c_bounds_version := c_bounds_version c;
       c_generator := c_generator c |};
     p_account_id := account_or settings account; deflated_sharpe_campaign := dsr; deflated_sharpe_own_search := own;
     pooled_trials := pool; Store.out_of_sample_sharpe := oos; survived := survived_; p_created_at := now |}) ->
  growing P Q (record_challenger_proposal settings campaign_id c dsr own pool oos survived_ account now : prog (DB F) StoreError Z).
Proof.
  intros HP d. unfold record_challenger_proposal, txn, mbind, prog_bind, reads, modifies, mret, prog_ret; cbn.
  destruct (List.find _ _) as [p|]; cbn; [reflexivity|]. split; [done|]. split.
  - eexists [_]. split; [done|]. constructor; [apply HP|constructor].
  - exists []. by rewrite app_nil_r.
Qed.

Lemma growing_cycle P Q settings report account :
  (forall new_id, deployment_authority report = Some false -> promotion_authority report = Some false ->
     Q {| l_id := new_id; l_account_id := account_or settings account;
          l_report := {| deployment_authority := Some false; promotion_authority := Some false;
            rep_content_hash := rep_content_hash report; rep_campaign_id := rep_campaign_id report;
            rep_strategy_id := rep_strategy_id report; rep_symbol := upper (rep_symbol report);
            rep_base_version := rep_base_version report; rep_status := rep_status report; rep_as_of := rep_as_of report |} |}) ->
  growing P Q (record_learning_cycle settings report account : prog (DB F) StoreError Z).
Proof.
  intros HQ d. unfold record_learning_cycle.
  destruct (bool_decide_reflect (deployment_authority report = Some false)) as [Hd|]; cbn [negb]; [|reflexivity].
  destruct (bool_decide_reflect (promotion_authority report = Some false)) as [Hp|]; cbn [negb]; [|reflexivity].
  destruct (negb _); [reflexivity|].
  unfold txn, mbind, prog_bind, reads, modifies, mret, prog_ret, raise; cbn.
  destruct (List.find _ _) as [c|]; cbn; [reflexivity|]. destruct (negb _); cbn; [reflexivity|].
  split; [done|]. split; [exists []; by rewrite app_nil_r|].
  eexists [_]. split; [done|]. constructor; [by apply HQ|constructor].
Qed.
End growth.

(** ** What a cycle proposes *)

Section proposes.
Context {F : Type} `{HF : PyFloat F} {HL : PyFloatLaws F} {HD : Digests F}.
Local Open Scope py_scope.
Implicit Types (d : DB F) (bounds : ChallengerBounds F) (thresholds : LearningThresholds F).

Definition result_id (r : ChallengerResult F) : string := challenger_id challenger_digest (cr_challenger r).

Lemma campaign_results run_walk_forward deflate (challengers : list (Challenger F)) bar campaign :
  evaluate_campaign challenger_digest run_walk_forward deflate challengers bar = Ok campaign ->
  NoDup (map result_id (results campaign)) /\ forall r, r ∈ results campaign -> cr_challenger r ∈ challengers.
Proof.
  unfold evaluate_campaign. destruct (judge _ _ _) as [rs|e] eqn:E; cbn; [|done]. intros [= <-]. cbn.
  apply judge_ok in E. destruct (distinct_ids challenger_digest [] challengers) as (Hnd & Hsub & _).
  assert (map cr_challenger rs = distinct challenger_digest [] challengers) as Heq.
  { clear -E. induction E as [|c r l rs [Hc _] _ IH]; cbn; [done|]. by rewrite Hc, IH. }
  split.
  - unfold result_id. rewrite <- (map_map cr_challenger (challenger_id challenger_digest)), Heq. done.
  - intros r Hr. apply Hsub. rewrite <- Heq. apply elem_of_map. eauto.
Qed.

Lemma survived_qualified (rs : list (ChallengerResult F)) thresholds r : NoDup (map result_id rs) -> r ∈ rs ->
  str_in (result_id r) (map result_id (List.filter (fun r => _is_qualified r thresholds) rs)) = true ->
  _is_qualified r thresholds = true.
Proof.
  intros Hnd Hr (r' & Heq & [Hr' Hq]%elem_of_filter_b)%str_in_spec%elem_of_map.
  by rewrite (NoDup_map_inj result_id rs r r').
Qed.

(** A proposal as a cycle may record it. *)
Definition sound_proposal (strategy symbol_ version_ : string) bounds thresholds (p : Proposal F) : Prop :=
  exists parameters (r : ChallengerResult F),
    (sane bounds = true -> in_bounds bounds parameters = true) /\ c_parameters (p_challenger p) = list_to_map parameters /\
    c_strategy_id (p_challenger p) = strategy /\ c_symbol (p_challenger p) = upper symbol_ /\
    c_base_version (p_challenger p) = version_ /\
    deflated_sharpe_campaign p = cr_campaign r /\ Store.out_of_sample_sharpe p = cr_sharpe r /\
    (survived p = true -> _is_qualified r thresholds = true).

Definition authorities (c : LearningCycle) : option bool * option bool :=
  (deployment_authority (l_report c), promotion_authority (l_report c)).
Definition no_authority (c : LearningCycle) : Prop := authorities c = (Some false, Some false).

Lemma growing_record_all P Q settings account campaign_id pool qualified clock n rs :
  (forall r m, r ∈ rs -> forall new_id, P {| p_id := new_id; p_campaign_id := campaign_id;
     p_challenger := let c := challenger_dict (cr_challenger r) in
       {| c_challenger_id := c_challenger_id c; c_strategy_id := c_strategy_id c;
       c_symbol := upper (c_symbol c); c_base_version := c_base_version c; c_parameters := c_parameters c;
       c_rationale := c_rationale c; c_clamped := c_clamped c; c_bounds_version := c_bounds_version c;
       c_generator := c_generator c |};
     p_account_id := account_or settings (Some account); deflated_sharpe_campaign := cr_campaign r;
     deflated_sharpe_own_search := cr_own_search r; pooled_trials := pool; Store.out_of_sample_sharpe := cr_sharpe r;
     survived := str_in (result_id r) qualified; p_created_at := clock m |}) ->
  growing P Q (record_all settings account campaign_id pool qualified clock n rs).
Proof.
  revert n. induction rs as [|r rs IH]; intros n HP; cbn [record_all]; [apply growing_ret|].
  apply growing_bind; [apply growing_in_store, growing_proposal; intros; apply HP; constructor|]. intros a.
  apply growing_bind; [|intros; apply growing_ret]. apply IH. intros. apply HP. by constructor.
Qed.

Lemma growing_finish P settings account (report : LearningCycleReport F) :
  growing P no_authority (finish settings account report).
Proof.
  unfold finish. destruct settings as [settings|]; [|apply growing_ret].
  apply growing_bind; [|intros; apply growing_ret]. apply growing_in_store, growing_cycle. done.
Qed.

(** A cycle, on what it was given. *)
Lemma growing_cycle_run strategy symbol_ version_ champion feedback veto run_walk_forward deflate store account moment
    thresholds bounds clock :
  growing (fun p => rejected veto = false /\ unchecked veto = [] /\
             (min_paper_round_trips thresholds <= p_trades (pf_performance feedback))%Z /\
             sound_proposal strategy symbol_ version_ bounds thresholds p)
    no_authority
    (run_learning_cycle strategy symbol_ version_ champion feedback veto run_walk_forward deflate store account moment
       thresholds bounds clock).
Proof using HL.
  unfold run_learning_cycle.
  destruct (rejected veto) eqn:Hrej; [apply growing_finish|].
  destruct (unchecked veto) as [|u us] eqn:Hun; cbn [length Nat.eqb negb]; [|apply growing_finish].
  destruct (_ <? _)%Z eqn:Htr; [apply growing_finish|]. apply Z.ltb_ge in Htr.
  apply growing_proposals. intros challengers Hch.
  destruct (length challengers =? 0)%nat; [apply growing_finish|].
  apply growing_campaign. intros campaign [Hnd Hin]%campaign_results.
  apply growing_bind; [|intros; apply growing_finish].
  destruct store as [settings|]; [|apply growing_ret].
  apply growing_record_all. intros r m Hr new_id. do 3 (split; [done|]). clear Hrej Hun Htr.
  apply perturbations_ok in Hch as [[_ Hall] _]. rewrite Forall_forall in Hall.
  destruct (Hall _ (Hin r Hr)) as (axis & base & step & _ & _ & _ & Hp & _).
  pose proof (fun Hs => proposed_in_bounds _ _ _ _ _ _ _ _ _ _ _ Hs Hp) as Hb.
  apply built in Hp as (Hst & Hsy & Hv & _). exists (cg_parameters (cr_challenger r)), r. cbn.
  rewrite Hst, Hsy, Hv. do 7 (split; [done|]). by apply survived_qualified.
Qed.
End proposes.

(** ** What a batch leaves *)

Section batch.
Context {F : Type} `{HF : PyFloat F} {HL : PyFloatLaws F} {HD : Digests F}.
Context (fpow : F -> F -> F) (fsqrt erf : F -> F) (_session_date : datetime -> string) (float_of : string -> option F).
Context (settings : StoreSettings).
Implicit Types (d : DB F) (w : Sources (F := F)) (s : Sleeve) (inputs : nat -> Sources (F := F) * datetime * (nat -> datetime)).

(** The thresholds of the worker, whatever its environment asks for. *)
Definition floor : LearningThresholds F :=
  {| min_paper_round_trips := 20; min_out_of_sample_trades := 30; min_parameter_stability := nlit 5 10;
     lt_min_deflated_sharpe := nlit 95 100 |}.

(** What a proposal of a sleeve needed. *)
Definition warranted s w moment (p : Proposal F) : Prop :=
  state s = "paper" /\ origin s = "human" /\ str_true (strategy_version s) = true /\
  exists artifact policy trips,
    load_strategy_artifact (w_registry w) (w_environ w) (strategy_id s) (strategy_version s) = Ok artifact /\
    from_env float_of (w_environ w) = Ok policy /\
    (let veto := review (w_journal w, w_faults w) (symbol s) moment policy (ar_timeframe artifact) in
     rejected veto = false /\ unchecked veto = []) /\
    load_round_trips (Some (strategy_id s)) (Some (strategy_version s)) (Some (symbol s)) (Some "paper")
      (account_id s) None (Some moment) 5000 (w_fills w) (w_journal w) = Some trips /\
    20 <= p_trades (performance_from_trades fpow trips None) /\
    sound_proposal (strategy_id s) (symbol s) (strategy_version s) default_bounds floor p.

Lemma growing_sleeve s w moment clock :
  growing (warranted s w moment) no_authority
    (run_sleeve_learning_cycle fpow fsqrt erf _session_date float_of settings s w moment clock).
Proof using HL.
  unfold run_sleeve_learning_cycle.
  destruct (String.eqb_spec (state s) "paper") as [Hst|]; [cbn [negb]|apply growing_ret].
  destruct (String.eqb_spec (origin s) "human") as [Hor|]; [cbn [negb]|apply growing_ret].
  destruct (str_true (strategy_version s)) eqn:Hv; [cbn [negb]|apply growing_ret].
  apply growing_unusable. intros artifact Ha. apply growing_unusable. intros model Hm.
  apply growing_unusable. intros strategy Hg. cbv zeta. apply growing_unusable. intros policy Hpol.
  apply growing_unusable_none. intros trips Ht. apply growing_unusable_none. intros minimum Hmin.
  apply growing_bind; [|intros; apply growing_ret].
  intros d. eapply grows_weaken; [|apply growing_cycle_run]. cbn [min_paper_round_trips pf_performance].
  intros p (Hrej & Hun & Htr & Hs). do 3 (split; [done|]). exists artifact, policy, trips.
  do 2 (split; [done|]). split; [done|]. split; [done|]. split; [lia|].
  destruct Hs as (parameters & r & Hs). by exists parameters, r.
Qed.

Lemma growing_each inputs n sleeves d :
  grows (fun p => exists i s, s ∈ sleeves /\ let '(w, moment, _) := inputs i in warranted s w moment p) no_authority d
    (snd (each_sleeve fpow fsqrt erf _session_date float_of settings inputs n sleeves d)) /\
  length (fst (each_sleeve fpow fsqrt erf _session_date float_of settings inputs n sleeves d)) = length sleeves.
Proof using HL.
  revert n d. induction sleeves as [|s sleeves IH]; intros n d; cbn [each_sleeve]; [by split|].
  destruct (inputs n) as [[w moment] clock] eqn:Ei.
  pose proof (growing_sleeve s w moment clock d) as Hg.
  destruct (run_sleeve_learning_cycle _ _ _ _ _ _ _ _ _ _ d) as [r d1]. cbn [snd] in Hg.
  destruct (IH (S n) d1) as [IH1 IH2].
  destruct (each_sleeve _ _ _ _ _ _ _ _ _ d1) as [rs d2]. cbn [fst snd length] in *. split; [|by rewrite IH2].
  etransitivity.
  - eapply grows_weaken; [|exact Hg]. intros p Hp. exists n, s. rewrite Ei. split; [constructor|done].
  - eapply grows_weaken; [|exact IH1]. intros p (i & s' & Hs' & Hp). exists i, s'. split; [by constructor|done].
Qed.

Lemma growing_batch environ inputs d :
  let d' := snd (run_paper_learning_cycles fpow fsqrt erf _session_date float_of settings environ inputs d) in
  grows (fun p => exists i s, s ∈ all settings None d /\ let '(w, moment, _) := inputs i in warranted s w moment p)
    no_authority d d'.
Proof using HL.
  cbv zeta. unfold run_paper_learning_cycles. destruct (env_int _ _ _) as [n|]; [|reflexivity].
  match goal with |- context [each_sleeve _ _ _ _ _ _ _ _ ?l _] => set (sleeves := l) end.
  destruct (growing_each inputs 0 sleeves d) as [Hg _].
  destruct (each_sleeve _ _ _ _ _ _ _ _ _ d) as [rs d']. cbn [snd] in *.
  eapply grows_weaken; [|exact Hg]. intros p (i & s & Hs & Hp). exists i, s. split; [|done].
  subst sleeves. apply elem_of_take in Hs as (k & Hk & _). apply list_elem_of_lookup_2 in Hk.
  by apply elem_of_filter_b in Hk as [? _].
Qed.

(** C17. Learning is inert: whatever the journal, the registry and the environment hold, and
    whether or not a cycle raises, a batch of learning cycles leaves every table of the store
    as it was but the proposals and the reports; it changes and removes none of those, and
    each report it appends has neither the authority to deploy nor to promote. At most fifty
    sleeves take part. *)
Theorem learning_is_inert environ inputs d :
  let '(r, d') := run_paper_learning_cycles fpow fsqrt erf _session_date float_of settings environ inputs d in
  d' = set_research (artifact d) (evidence_snapshot d) (challenger_proposal d') (learning_cycle d') d /\
  (exists ps, challenger_proposal d' = challenger_proposal d ++ ps) /\
  (exists cs, learning_cycle d' = learning_cycle d ++ cs /\ Forall no_authority cs) /\
  match r with Ok outcomes => (length outcomes <= 50)%nat | Err _ => d' = d end.
Proof using HL.
  pose proof (growing_batch environ inputs d) as (H1 & (ps & Hps & _) & H3). revert H1 Hps H3.
  unfold run_paper_learning_cycles. destruct (env_int _ _ _) as [n|]; [|eauto 10].
  match goal with |- context [each_sleeve _ _ _ _ _ _ _ _ ?l _] => set (sleeves := l) end.
  destruct (growing_each inputs 0 sleeves d) as [_ Hlen].
  destruct (each_sleeve _ _ _ _ _ _ _ _ _ d) as [rs d']. cbn [fst snd] in *. intros H1 Hps H3.
  split; [done|]. split; [by exists ps|]. split; [done|]. rewrite Hlen. subst sleeves. rewrite length_take. lia.
Qed.

(** Learning asks for evidence: a proposal that a sleeve's cycle adds to the store is of a
    sleeve a human owns and trades on paper, under a version whose artifact loads; the veto of
    that moment refused nothing and left nothing unchecked; at least twenty round trips were
    made on paper under that version, whatever the environment asks for; and where it is
    marked as surviving, its Sharpe ratio deflated against the whole campaign is at least
    0.95, its out-of-sample Sharpe ratio is positive, and it is over at least thirty trades. *)
Theorem learning_asks_for_evidence s w moment clock d :
  exists ps, challenger_proposal (snd (run_sleeve_learning_cycle fpow fsqrt erf _session_date float_of settings s w
                                    moment clock d)) = challenger_proposal d ++ ps /\
  Forall (fun p => warranted s w moment p /\
    (survived p = true ->
       (exists x, deflated_sharpe_campaign p = Some x /\ nleb (nlit 95 100) x = true) /\
       (exists x, Store.out_of_sample_sharpe p = Some x /\ nltb nzero x = true))) ps.
Proof using HL.
  destruct (growing_sleeve s w moment clock d) as (_ & (ps & Hps & HPs) & _). exists ps. split; [done|].
  eapply Forall_impl; [done|]. intros p Hp. split; [done|]. intros Hsv.
  destruct Hp as (_ & _ & _ & artifact & policy & trips & _ & _ & _ & _ & _ & Hsound).
  destruct Hsound as (parameters & r & _ & _ & _ & _ & _ & Hd & Ho & Hq).
  specialize (Hq Hsv). unfold _is_qualified in Hq. rewrite Hd, Ho.
  destruct (cr_campaign r) as [x|], (cr_sharpe r) as [y|]; reflect_bools; try done. eauto 10.
Qed.

(** The parameters of every proposal of a store are bounded. *)
Definition bounded_parameters (parameters : gmap string F) : Prop :=
  map_Forall (fun name v => exists b, dict_get name (Challengers.bounded (F := F) default_bounds) = Some b /\ in_range b v = true) parameters.
Definition bounded_store d : Prop := Forall (fun p => bounded_parameters (c_parameters (p_challenger p))) (challenger_proposal d).

Lemma bounded_of_dict (parameters : pydict F) : in_bounds default_bounds parameters = true ->
  bounded_parameters (list_to_map parameters).
Proof.
  unfold in_bounds. rewrite forallb_forall. intros H name v Hl. rewrite lookup_dict in Hl.
  apply dict_get_in, list_elem_of_In in Hl. specialize (H _ Hl). cbn [fst snd] in H.
  destruct (dict_get name _) as [b|]; [by exists b|done].
Qed.

(** C26. A challenger trades within its bounds: if every proposal of a store has bounded
    parameters, then after a batch of learning cycles every proposal still has, and so have
    the parameters the lifecycle service reads back for the sleeve of a challenger, each
    within its declared bound or NaN, and none without one. *)
Theorem challengers_trade_within_bounds environ inputs d : sane (F := F) default_bounds = true -> bounded_store d ->
  let d' := snd (run_paper_learning_cycles fpow fsqrt erf _session_date float_of settings environ inputs d) in
  bounded_store d' /\
  forall sv e id_ parameters, challenger_parameters sv e id_ d' = Some parameters -> bounded_parameters parameters.
Proof using HL.
  intros Hs Hd. cbv zeta. pose proof (growing_batch environ inputs d) as (_ & (ps & Hps & HPs) & _).
  assert (bounded_store (snd (run_paper_learning_cycles fpow fsqrt erf _session_date float_of settings environ inputs d)))
    as Hd'.
  { unfold bounded_store. rewrite Hps. apply Forall_app. split; [done|]. eapply Forall_impl; [done|].
    intros p (i & s & _ & Hp). destruct (inputs i) as [[w moment] clock].
    destruct Hp as (_ & _ & _ & artifact & policy & trips & _ & _ & _ & _ & _ & Hsound).
    destruct Hsound as (parameters & r & Hb & -> & _). by apply bounded_of_dict, Hb. }
  split; [done|]. intros sv e id_ parameters. unfold challenger_parameters.
  destruct (_store sv) as [st|]; [|done]. destruct e; [done|].
  destruct (challenger_proposals _ _ _ _ _ _ _) as [|p l] eqn:E; [done|]. intros [= <-].
  unfold bounded_store in Hd'. rewrite Forall_forall in Hd'. apply Hd'.
  assert (p ∈ challenger_proposals None None None (Some id_) None 1
    (snd (run_paper_learning_cycles fpow fsqrt erf _session_date float_of settings environ inputs d))) as Hp
    by (rewrite E; constructor).
  unfold challenger_proposals in Hp. apply elem_of_take in Hp as (k & Hk & _).
  apply list_elem_of_lookup_2, elem_of_sort_by, elem_of_filter_b in Hk as [? _]. done.
Qed.
End batch.

(** ** On a concrete paper account *)

Module Sleeves.
#[export] Instance plain : Digests spec_float := {|
  challenger_digest := Proposed.digest;
  campaign_digest := fun strategy symbol_ version_ _ at_ => strategy +:+ symbol_ +:+ version_ +:+ str_of_Z at_;
  report_digest := fun r => String.concat "" (repeat "0123456789abcdef" 4);
  render := Proposed.render;
  show_clamp := fun c => parameter c
|}.

Definition minutes (n : Z) : datetime := n * 60000000.
Definition bar (i : Z) : BarIn spec_float :=
  {| in_timestamp := Some (minutes (15 * i)); in_ohlc := Some (nofZ 10, nofZ 10, nofZ 10, nofZ 10); in_volume := None |}.
Definition fill (side id_ : string) (at_ : datetime) : jwrite spec_float * datetime :=
  (WExecution "AAPL" side (nofZ 5) None (Some (nofZ 10)) "MARKET" None id_ "s" "filled" "ema_rsi_macd" "v1" "paper" "default"
     "paper" nzero None false false None, at_).
(** A round trip an hour. *)
Definition trip (i : nat) : list (jwrite spec_float * datetime) :=
  let n := Z.of_nat i in
  [fill "BUY" ("b" +:+ str_of_Z n) (minutes (60 * n)); fill "SELL" ("s" +:+ str_of_Z n) (minutes (60 * n + 30))].
Definition journal (trips_ : nat) : Journal spec_float :=
  jruns Archives.hash
    ((WBars "AAPL" "15m" (map bar [76; 77; 78; 79; 80]) "feed" (JDict []) "u" None None None, minutes 1200) ::
     List.concat (map trip (List.seq 0 trips_))) Archives.empty.
Definition artifact_file : RegistryFile spec_float :=
  {| rf_inside := true; rf_size := 100; rf_sha256 := "ab";
     rf_payload := Some {| py_strategy_id := Some "ema_rsi_macd"; py_strategy_version := Some "v1";
                           py_timeframe := Some "15m"; py_parameters := Some [("ema_fast", PFloat (nofZ 20)); ("note", PNone)] |} |}.
Definition sources (trips_ : nat) : Sources (F := spec_float) :=
  {| w_journal := journal trips_; w_faults := Archives.answers; w_fills := None; w_bars := None;
     w_registry := fun path => if String.eqb path "ema_rsi_macd--v1.json" then Some artifact_file else None;
     w_environ := {[ "VETO_MIN_ARCHIVED_BARS" := "4" ]} |}.
Definition settings : StoreSettings := {| s_account_id := "default"; dependency_grace_seconds := 60; breaks_before_halt := 2 |}.
Definition sleeve_ (state_ origin_ : string) : Sleeve :=
  {| id := 1; strategy_id := "ema_rsi_macd"; strategy_version := "v1"; symbol := "AAPL"; asset_class := "equity";
     account_id := "default"; state := state_; version := 3; since := 0; Store.reason := "r"; probation_count := 0;
     position_environment := "paper"; origin := origin_ |}.
Definition store (rows : list Sleeve) : DB spec_float :=
  {| sleeve := rows; sleeve_next := 2; transition_log := []; environment := ∅;
     reconciliation := ∅; journal_health := ∅; artifact := []; evidence_snapshot := [];
     challenger_proposal := []; learning_cycle := [] |}.
Definition batch (trips_ : nat) (rows : list Sleeve) : result string (list (SleeveOutcome (F := spec_float))) * DB spec_float :=
  run_paper_learning_cycles (fun x _ => x) (fun x => x) (fun x => x) (fun _ => "day") (fun _ => None) settings ∅
    (fun _ => (sources trips_, minutes 1210, fun n => minutes (1210 + Z.of_nat n))) (store rows).
Definition told (o : SleeveOutcome (F := spec_float)) : string :=
  match o with Skipped status => status | Reported r => lr_status r | Failed (Unusable m) => m | Failed _ => "failed" end.
Definition summary (x : result string (list (SleeveOutcome (F := spec_float))) * DB spec_float) :=
  let '(r, d) := x in
  (match r with Ok l => map told l | Err e => [e] end,
   map (fun p => (map_to_list (ntrunc <$> c_parameters (p_challenger p)), survived p)) (challenger_proposal d),
   map (fun c => rep_status (l_report c)) (learning_cycle d)).
End Sleeves.
#[local] Existing Instance Sleeves.plain.

(** Twenty round trips are enough, nineteen are not; the archive is too short for any
    walk-forward, so every challenger is recorded as one that was not judged; a sleeve that is
    not on paper, or that came of a challenger, does not take part. *)
Lemma batch_on_twenty_trips :
  let '(said, proposals_, cycles) := Sleeves.summary (Sleeves.batch 20 [Sleeves.sleeve_ "paper" "human"]) in
  said = ["RECORDED"] /\ length proposals_ = 8%nat /\ existsb snd proposals_ = false /\ cycles = ["RECORDED"].
Proof. vm_compute. done. Qed.
Lemma batch_on_nineteen_trips :
  Sleeves.summary (Sleeves.batch 19 [Sleeves.sleeve_ "paper" "human"]) =
  (["INSUFFICIENT_PAPER_EVIDENCE"], [], ["INSUFFICIENT_PAPER_EVIDENCE"]).
Proof. vm_compute. reflexivity. Qed.
Lemma batch_leaves_the_rest_out :
  Sleeves.summary (Sleeves.batch 20 [Sleeves.sleeve_ "live" "human"; Sleeves.sleeve_ "paper" "challenger"]) = ([], [], []).
Proof. vm_compute. reflexivity. Qed.

(** The first challenger of the batch. *)
Definition first_id : string := "chal-ema_rsi_macdAAPLv1ema_fast=1600,ema_slow=5000,macd_hist_min=0,rsi_buy_max=7000,rsi_buy_min=4500".
Definition served : LifecycleService spec_float := {| _store := Some Sleeves.settings; _thresholds := Ladder.thresholds |}.

(** A proposal whose challenger was never judged is one the strategy service would trade:
    what is read back asks for an id, and not whether it survived. *)
Lemma unjudged_proposal_is_served :
  let d := snd (Sleeves.batch 20 [Sleeves.sleeve_ "paper" "human"]) in
  (fun m => ntrunc <$> m !! "ema_fast") <$> challenger_parameters served None first_id d = Some (Some 16) /\
  forallb (fun p => negb (survived p) && match deflated_sharpe_campaign p with None => true | Some _ => false end)
    (challenger_proposal d) = true.
Proof. cbv zeta. split; vm_compute; reflexivity. Qed.

Lemma first_is_served :
  match challenger_parameters served None first_id (snd (Sleeves.batch 20 [Sleeves.sleeve_ "paper" "human"])) with
  | Some _ => true | None => false
  end = true.
Proof. vm_compute. reflexivity. Qed.

Lemma challengers_trade_within_bounds_witness :
  let d := snd (Sleeves.batch 20 [Sleeves.sleeve_ "paper" "human"]) in
  match challenger_parameters served None first_id d with
  | Some parameters => bounded_parameters parameters
  | None => False
  end.
Proof.
  cbv zeta.
  destruct (challengers_trade_within_bounds (F := spec_float) (fun x _ => x) (fun x => x) (fun x => x) (fun _ => "day")
    (fun _ => None) Sleeves.settings ∅
    (fun _ => (Sleeves.sources 20, Sleeves.minutes 1210, fun n => Sleeves.minutes (1210 + Z.of_nat n)))
    (Sleeves.store [Sleeves.sleeve_ "paper" "human"]) bounds_are_sane (List.Forall_nil _)) as [_ H].
  change (run_paper_learning_cycles _ _ _ _ _ _ _ _ _) with (Sleeves.batch 20 [Sleeves.sleeve_ "paper" "human"]) in H.
  specialize (H served None first_id). pose proof first_is_served as Hf. revert H Hf.
  generalize (snd (Sleeves.batch 20 [Sleeves.sleeve_ "paper" "human"])). intros d H Hf.
  destruct (challenger_parameters served None first_id d) as [m|]; [exact (H m eq_refl)|discriminate].
Defined.

(** What the batch above leaves, by the theorem. *)
Lemma learning_is_inert_witness :
  let d := Sleeves.store [Sleeves.sleeve_ "paper" "human"] in
  let d' := snd (Sleeves.batch 20 [Sleeves.sleeve_ "paper" "human"]) in
  sleeve d' = sleeve d /\ length (challenger_proposal d') = 8%nat.
Proof.
  cbv zeta.
  assert (length (challenger_proposal (snd (Sleeves.batch 20 [Sleeves.sleeve_ "paper" "human"]))) = 8%nat) as Hn
    by (vm_compute; reflexivity).
  pose proof (learning_is_inert (F := spec_float) (fun x _ => x) (fun x => x) (fun x => x) (fun _ => "day")
    (fun _ => None) Sleeves.settings ∅
    (fun _ => (Sleeves.sources 20, Sleeves.minutes 1210, fun n => Sleeves.minutes (1210 + Z.of_nat n)))
    (Sleeves.store [Sleeves.sleeve_ "paper" "human"])) as H.
  change (run_paper_learning_cycles _ _ _ _ _ _ _ _ _) with (Sleeves.batch 20 [Sleeves.sleeve_ "paper" "human"]) in H.
  revert H Hn. generalize (Sleeves.batch 20 [Sleeves.sleeve_ "paper" "human"]). intros [r d'] (H & _) Hn.
  split; [rewrite H; reflexivity|exact Hn].
Defined.

Module Cycle1.
Definition s : Sleeve := Sleeves.sleeve_ "paper" "human".
Definition w : Sources (F := spec_float) := Sleeves.sources 20.
Definition fpow (x _ : spec_float) : spec_float := x.
Definition same (x : spec_float) : spec_float := x.
Definition run := run_sleeve_learning_cycle fpow same same (fun _ => "day") (fun _ => None) Sleeves.settings s w
  (Sleeves.minutes 1210) (fun n => Sleeves.minutes (1210 + Z.of_nat n)) (Sleeves.store []).
End Cycle1.

Lemma first_did_not_survive :
  match challenger_proposal (snd Cycle1.run) with p :: _ => survived p | [] => true end = false.
Proof. vm_compute. reflexivity. Qed.

(** The first proposal of a cycle was warranted. *)
Lemma learning_asks_for_evidence_witness :
  match challenger_proposal (snd Cycle1.run) with
  | p :: _ => warranted Cycle1.fpow (fun _ => None) Cycle1.s Cycle1.w (Sleeves.minutes 1210) p /\ survived p = false
  | [] => False
  end.
Proof.
  pose proof first_did_not_survive as Hf.
  destruct (learning_asks_for_evidence Cycle1.fpow Cycle1.same Cycle1.same (fun _ => "day") (fun _ => None)
    Sleeves.settings Cycle1.s Cycle1.w (Sleeves.minutes 1210) (fun n => Sleeves.minutes (1210 + Z.of_nat n))
    (Sleeves.store [])) as (ps & Hps & HPs).
  change (challenger_proposal (snd Cycle1.run) = [] ++ ps) in Hps. revert Hps Hf.
  generalize (challenger_proposal (snd Cycle1.run)). intros [|p l] Hps Hf; [discriminate|].
  split; [|exact Hf]. cbn [app] in Hps. subst ps. apply Forall_cons_1 in HPs as [[Hw _] _]. exact Hw.
Defined.
