(* ===== verification/Specialists.v ===== *)
(** * The specialists: arguments from the archive

    Models [libs/specialists/src/specialists]: [models.py] (evidence, claims, assessments,
    arguments), [archive.py] (the view a role is given), [roles.py] (the five roles and the
    declared gap), [report.py] and [reproduce.py].

    A role is handed no journal: what it can do is ask the archive one of its questions, so
    it is a program ([reader]) of those questions, which an archive answers ([run]).
    [json.loads] and the hash of an assessment's payload are parameters. *)

From S2P Require Import Prelude PyFloat Store Contracts Journal JournalTheorems Attribution Indicators Regime.
From Stdlib Require Import Floats.SpecFloat.

(** ** models.py *)

Definition STANCES : list string := ["bull"; "bear"; "neutral"].

Record EvidenceRef (F : Type) := {
  ev_source : string;
  ev_detail : string;
  ev_value : json F
}.
Arguments ev_source {F}. Arguments ev_detail {F}. Arguments ev_value {F}.

Record Claim (F : Type) := {
  statement : string;
  stance : string;
  measure : option F;
  cl_threshold : option F;
  evidence : list (EvidenceRef F)
}.
Arguments statement {F}. Arguments stance {F}. Arguments measure {F}.
Arguments cl_threshold {F}. Arguments evidence {F}.

Record Query := { q_source : string; q_detail : string; q_rows : nat }.

Record Assessment (F : Type) := {
  as_role : string;
  as_symbol : string;
  as_as_of : datetime;
  as_produced_by : string;
  as_claims : list (Claim F);
  as_unavailable : list string;
  as_queries : list Query
}.
Arguments as_role {F}. Arguments as_symbol {F}. Arguments as_as_of {F}.
Arguments as_produced_by {F}. Arguments as_claims {F}. Arguments as_unavailable {F}.
Arguments as_queries {F}.

Record Argument (F : Type) := {
  ag_symbol : string;
  ag_as_of : datetime;
  assessments : list (Assessment F)
}.
Arguments ag_symbol {F}. Arguments ag_as_of {F}. Arguments assessments {F}.

Section models.
Context {F : Type}.

(** [Claim.__post_init__]: a stance that is not one, or no evidence, is refused. *)
Definition make_claim (statement stance : string) (measure threshold : option F)
    (evidence : list (EvidenceRef F)) : result string (Claim F) :=
  if negb (str_in stance STANCES) then
    Err ("stance must be one of ('bull', 'bear', 'neutral'), got " +:+ py_repr stance)
  else match evidence with
  | [] => Err ("claim " +:+ py_repr statement +:+ " carries no evidence")
  | _ => Ok {| statement := statement; stance := stance; measure := measure;
               cl_threshold := threshold; evidence := evidence |}
  end.

Definition as_available (a : Assessment F) : bool :=
  match as_claims a with [] => false | _ => true end.

Definition by_stance (g : Argument F) (s : string) : list (string * Claim F) :=
  List.concat (map (fun a => map (fun c => (as_role a, c))
    (List.filter (fun c => String.eqb (stance c) s) (as_claims a))) (assessments g)).
Definition roles_reporting (g : Argument F) : list string :=
  map as_role (List.filter as_available (assessments g)).
Definition roles_silent (g : Argument F) : list string :=
  map as_role (List.filter (fun a => negb (as_available a)) (assessments g)).

(** What the digest is of: everything but the queries. *)
Definition conclusions (a : Assessment F)
    : string * string * datetime * string * list (Claim F) * list string :=
  (as_role a, as_symbol a, as_as_of a, as_produced_by a, as_claims a, as_unavailable a).

Context (encode : string * string * datetime * string * list (Claim F) * list string -> string).
Context (sha256 : string -> string).
Definition digest (a : Assessment F) : string := String.substring 0 16 (sha256 (encode (conclusions a))).
Definition argument_digest (g : Argument F) : string :=
  String.substring 0 16 (sha256 (join "|" (map digest (assessments g)))).
End models.

(** ** archive.py *)

(** A research row as it is read: its risk factors parsed. *)
Definition ResearchRow (F : Type) : Type := Observation (ResearchData F * json F).

(** The questions an archive answers, and nothing else. *)
Inductive ask :=
| AskAsOf
| AskQueries
| AskBars (symbol : string)
| AskSentiment (symbol : string)
| AskHeadlines (symbol : string)
| AskResearch (symbol : string)
| AskDecisions (symbol stage : option string)
| AskExecutions (symbol environment : option string).

Definition answer_of (F : Type) (q : ask) : Type :=
  match q with
  | AskAsOf => datetime
  | AskQueries => list Query
  | AskBars _ => list (BarObservation F)
  | AskSentiment _ => list (Observation (SentimentData F))
  | AskHeadlines _ => list (Observation HeadlineData)
  | AskResearch _ => list (ResearchRow F)
  | AskDecisions _ _ => list (Decision F)
  | AskExecutions _ _ => list (ExecutionQuality F)
  end.

(** A program that asks an archive, and returns or raises. *)
Inductive reader (F A : Type) : Type :=
| Ret (a : A)
| Raise (e : string)
| Ask (q : ask) (k : answer_of F q -> reader F A).
Arguments Ret {F A}. Arguments Raise {F A}. Arguments Ask {F A}.

#[export] Instance reader_ret F : MRet (reader F) := fun A => Ret.
#[export] Instance reader_bind F : MBind (reader F) :=
  fun A B f => fix go m := match m with
    | Ret a => f a
    | Raise e => Raise e
    | Ask q k => Ask q (fun x => go (k x))
    end.
Definition asking {F} (q : ask) : reader F (answer_of F q) := Ask q Ret.
Definition lifting {F A} (r : result string A) : reader F A :=
  match r with Ok a => Ret a | Err e => Raise e end.

(** [PointInTimeArchive]: a moment, a cadence, and the log of what was asked.
    [pa_faults n] is how the [n]th read of the journal goes. *)
Record PointInTimeArchive (F : Type) := {
  pa_journal : Journal F;
  pa_as_of : datetime;
  pa_timeframe : string;
  pa_faults : nat -> io;
  pa_queries : list Query
}.
Arguments pa_journal {F}. Arguments pa_as_of {F}. Arguments pa_timeframe {F}.
Arguments pa_faults {F}. Arguments pa_queries {F}.

Definition days (n : Z) : Z := n * 86400000000.

Section archive.
Context {F : Type} `{PyFloat F}.
Context (loads : string -> option (json F)).
Implicit Types a : PointInTimeArchive F.

Definition _safe {X} (rows : io -> list X) (detail source : string) a : list X * PointInTimeArchive F :=
  let rows := rows (pa_faults a (length (pa_queries a))) in
  (rows, {| pa_journal := pa_journal a; pa_as_of := pa_as_of a; pa_timeframe := pa_timeframe a;
            pa_faults := pa_faults a;
            pa_queries := pa_queries a ++ [{| q_source := source; q_detail := detail; q_rows := length rows |}] |}).

(** [research_as_of]: a row whose factors do not parse empties the read. *)
Definition parse_research (rows : list (Observation (ResearchData F))) : list (ResearchRow F) :=
  default [] (mapM (fun r =>
    v ← loads (str_or (risk_factors _ (ob_data r)) "[]");
    Some {| Journal.ob_symbol := Journal.ob_symbol r; ob_observed_at := ob_observed_at r; ob_data := (ob_data r, v) |}) rows).

Definition or_all (s : option string) : string := str_or (default "" s) "all".

Definition answer (q : ask) a : answer_of F q * PointInTimeArchive F :=
  match q with
  | AskAsOf => (pa_as_of a, a)
  | AskQueries => (pa_queries a, a)
  | AskBars symbol =>
      _safe (fun e => bars_as_of symbol (pa_timeframe a) (pa_as_of a) 1000 e (pa_journal a))
        ("bars_as_of(" +:+ symbol +:+ ", " +:+ pa_timeframe a +:+ ")") "bar_observations" a
  | AskSentiment symbol =>
      _safe (fun e => sentiment_as_of symbol (pa_as_of a) (days 7) 200 e (pa_journal a))
        ("sentiment_as_of(" +:+ symbol +:+ ")") "sentiment_observations" a
  | AskHeadlines symbol =>
      _safe (fun e => headlines_as_of symbol (pa_as_of a) (days 3) 100 e (pa_journal a))
        ("headlines_as_of(" +:+ symbol +:+ ")") "headline_observations" a
  | AskResearch symbol =>
      _safe (fun e => parse_research (research_as_of symbol (pa_as_of a) (days 14) 50 e (pa_journal a)))
        ("research_as_of(" +:+ symbol +:+ ")") "research_observations" a
  | AskDecisions symbol stage =>
      _safe (fun e => decisions_as_of (pa_as_of a) symbol stage None 500 e (pa_journal a))
        ("decisions_as_of(" +:+ or_all symbol +:+ ", stage=" +:+ or_all stage +:+ ")") "decisions" a
  | AskExecutions symbol env =>
      _safe (fun e => execution_rows None None symbol env (Some "default") None (Some (pa_as_of a)) 5000 e (pa_journal a))
        ("execution_rows(" +:+ or_all symbol +:+ ", " +:+ or_all env +:+ ")") "execution_quality" a
  end.

Fixpoint run {A} (m : reader F A) a : result string A * PointInTimeArchive F :=
  match m with
  | Ret x => (Ok x, a)
  | Raise e => (Err e, a)
  | Ask q k => let '(x, a) := answer q a in run (k x) a
  end.
End archive.

Definition open_archive {F} (j : Journal F) (as_of : datetime) (timeframe : string) (faults : nat -> io)
    : PointInTimeArchive F :=
  {| pa_journal := j; pa_as_of := as_of; pa_timeframe := timeframe; pa_faults := faults; pa_queries := [] |}.

(** ** roles.py *)

Record Specialist (F : Type) := {
  sp_role : string;
  input_scope : list string;
  produced_by : string;
  assess : string -> reader F (Assessment F)
}.
Arguments sp_role {F}. Arguments input_scope {F}. Arguments produced_by {F}. Arguments assess {F}.

Section roles.
Context {F : Type} `{PyFloat F}.
Local Open Scope py_scope.

Definition MIN_BARS_FOR_TECHNICALS : nat := 60.
Definition RSI_OVERBOUGHT : F := nofZ 70.
Definition RSI_OVERSOLD : F := nofZ 30.
Definition SENTIMENT_BULL_THRESHOLD : F := nlit 3 10.
Definition SENTIMENT_BEAR_THRESHOLD : F := nlit (-3) 10.
Definition SENTIMENT_MIN_OBSERVATIONS : nat := 3.
Definition NEWS_HEAVY_FLOW : nat := 8.

Definition str_of_nat (n : nat) : string := str_of_Z (Z.of_nat n).
Definition jfloat (x : F) : json F := JVal (PFloat x).
Definition jopt (x : option F) : json F := JVal (py_opt x).

(** [f"deterministic:{self.role}/{self.version}"] *)
Definition deterministic (role : string) : string := "deterministic:" +:+ role +:+ "/1".

Definition _blank (role producer symbol reason : string) : reader F (Assessment F) :=
  moment ← asking AskAsOf;
  queries ← asking AskQueries;
  Ret {| as_role := role; as_symbol := symbol; as_as_of := moment; as_produced_by := producer;
         as_claims := []; as_unavailable := [reason]; as_queries := queries |}.

(** The assessment each role ends with. *)
Definition concluded (role symbol : string) (claims : list (Claim F)) : reader F (Assessment F) :=
  moment ← asking AskAsOf;
  queries ← asking AskQueries;
  Ret {| as_role := role; as_symbol := symbol; as_as_of := moment; as_produced_by := deterministic role;
         as_claims := claims; as_unavailable := []; as_queries := queries |}.

Definition claiming (statement stance : string) (measure threshold : option F) (evidence : list (EvidenceRef F))
    : reader F (Claim F) := lifting (make_claim statement stance measure threshold evidence).

Definition regime_claim (symbol : string) (r : RegimeReading F) : reader F (Claim F) :=
  let evidence := [{| ev_source := "bar_observations";
    ev_detail := "bars_as_of(" +:+ symbol +:+ ") -> " +:+ str_of_nat (bars_used r) +:+ " bars";
    ev_value := JDict [("adx", jopt (rg_adx r)); ("net_move_pct", jopt (net_move_pct r))] |}] in
  if String.eqb (label r) "trending_up" then
    claiming "the archived series is in an established uptrend" "bull" (rg_adx r) (Some ADX_TREND_THRESHOLD) evidence
  else if String.eqb (label r) "trending_down" then
    claiming "the archived series is in an established downtrend" "bear" (rg_adx r) (Some ADX_TREND_THRESHOLD) evidence
  else
    claiming ("no directional trend: a trend-following entry here is " +:+
              "being taken in conditions it is not built for") "neutral" (rg_adx r) (Some ADX_TREND_THRESHOLD) evidence.

Definition volatility_claims (r : RegimeReading F) : reader F (list (Claim F)) :=
  if str_in (volatility r) ["calm"; "agitated"] then
    c ← claiming ("volatility is " +:+ volatility r +:+ " relative to this " +:+ "symbol's own recent range")
          "neutral" (atr_pct r) None
          [{| ev_source := "bar_observations";
              ev_detail := "ATR% against median bar range over " +:+ str_of_nat (bars_used r) +:+ " bars";
              ev_value := jopt (atr_pct r) |}];
    Ret [c]
  else Ret [].

Definition market_assess (symbol : string) : reader F (Assessment F) :=
  bars ← asking (AskBars symbol);
  if (length bars <? ADX_MIN_BARS)%nat then
    _blank "market" (deterministic "market") symbol
      ("need " +:+ str_of_nat ADX_MIN_BARS +:+ " archived bars to classify a regime, have " +:+ str_of_nat (length bars))
  else
  moment ← asking AskAsOf;
  let r := classify (map (fun b => raw_of (bar_of b)) bars) moment "as_of" in
  if negb (available r) then
    _blank "market" (deterministic "market") symbol (str_or (rg_reason r) "regime not classifiable")
  else
  trend ← regime_claim symbol r;
  more ← volatility_claims r;
  concluded "market" symbol (trend :: more).

Definition technical_assess (symbol : string) : reader F (Assessment F) :=
  bars ← asking (AskBars symbol);
  if (length bars <? MIN_BARS_FOR_TECHNICALS)%nat then
    _blank "technical" (deterministic "technical") symbol
      ("need " +:+ str_of_nat MIN_BARS_FOR_TECHNICALS +:+ " archived bars for the slower " +:+
       "averages to be measurements, have " +:+ str_of_nat (length bars))
  else
  let closes := map b_close bars in
  if (length closes <? MIN_BARS_FOR_TECHNICALS)%nat then
    _blank "technical" (deterministic "technical") symbol "archived bars are missing close prices"
  else
  let rsi := compute_rsi closes 14 in
  let '(_, _, histogram) := compute_macd closes 12 26 9 in
  let ema_20 := compute_ema closes 20 in
  let ema_50 := compute_ema closes 50 in
  let detail := "bars_as_of(" +:+ symbol +:+ ") -> " +:+ str_of_nat (length closes) +:+ " closes" in
  let ref name value := [{| ev_source := "bar_observations"; ev_detail := name +:+ "; " +:+ detail;
                            ev_value := jfloat value |}] in
  let r4 := nround 4 rsi in
  momentum ←
    (if rsi >=? RSI_OVERBOUGHT then
       claiming "momentum is stretched; entries here buy from a strong hand" "bear" (Some r4)
         (Some RSI_OVERBOUGHT) (ref "RSI(14)" r4)
     else if rsi <=? RSI_OVERSOLD then
       claiming "momentum is washed out" "bull" (Some r4) (Some RSI_OVERSOLD) (ref "RSI(14)" r4)
     else
       claiming "momentum is unremarkable and argues for neither side" "neutral" (Some r4) None (ref "RSI(14)" r4));
  let gap := nround 6 (ema_20 - ema_50) in
  structure ← claiming (if ema_20 >? ema_50 then "the fast average is above the slow one"
                        else "the fast average is below the slow one")
                (if ema_20 >? ema_50 then "bull" else "bear") (Some gap) (Some nzero) (ref "EMA(20) - EMA(50)" gap);
  let hist := nround 6 histogram in
  macd ← claiming (if histogram >? nzero then "MACD momentum is positive" else "MACD momentum is negative")
           (if histogram >? nzero then "bull" else "bear") (Some hist) (Some nzero) (ref "MACD histogram" hist);
  concluded "technical" symbol [momentum; structure; macd].

Definition sentiment_assess (symbol : string) : reader F (Assessment F) :=
  rows ← asking (AskSentiment symbol);
  if (length rows <? SENTIMENT_MIN_OBSERVATIONS)%nat then
    _blank "sentiment" (deterministic "sentiment") symbol
      ("need " +:+ str_of_nat SENTIMENT_MIN_OBSERVATIONS +:+ " archived sentiment scores " +:+
       "inside the lookback window, have " +:+ str_of_nat (length rows))
  else
  let scores := map (fun r => score _ (ob_data r)) rows in
  let mean := nsum scores / nlen scores in
  let latest := default nzero (last scores) in
  let evidence := [{| ev_source := "sentiment_observations";
    ev_detail := "sentiment_as_of(" +:+ symbol +:+ ") -> " +:+ str_of_nat (length rows) +:+ " scores";
    ev_value := JDict [("mean", jfloat (nround 4 mean)); ("latest", jfloat (nround 4 latest))] |}] in
  claim ←
    (if mean >=? SENTIMENT_BULL_THRESHOLD then
       claiming "archived sentiment runs positive across the window" "bull" (Some (nround 4 mean))
         (Some SENTIMENT_BULL_THRESHOLD) evidence
     else if mean <=? SENTIMENT_BEAR_THRESHOLD then
       claiming "archived sentiment runs negative across the window" "bear" (Some (nround 4 mean))
         (Some SENTIMENT_BEAR_THRESHOLD) evidence
     else
       claiming "archived sentiment is mixed and argues for neither side" "neutral" (Some (nround 4 mean))
         (Some SENTIMENT_BULL_THRESHOLD) evidence);
  concluded "sentiment" symbol [claim].

(** [len(x or [])] *)
Definition count_factors (v : json F) : result string nat :=
  match v with
  | JList l => Ok (length l)
  | JDict d => Ok (length d)
  | JStr s => Ok (String.length s)
  | JVal v =>
      if negb (py_true v) then Ok 0%nat else
      Err ("object of type '" +:+ match v with PBool _ => "bool" | PInt _ => "int" | _ => "float" end +:+ "' has no len()")
  end.

Definition stance_of (sentiment : string) : string :=
  if String.eqb sentiment "bullish" then "bull"
  else if String.eqb sentiment "bearish" then "bear" else "neutral".

(** [f"{x}"] of a datetime is a parameter. *)
Definition fundamentals_assess (show : datetime -> string) (symbol : string) : reader F (Assessment F) :=
  rows ← asking (AskResearch symbol);
  match last rows with
  | None => _blank "fundamentals" (deterministic "fundamentals") symbol
              "no archived research report inside the lookback window"
  | Some latest =>
      let '(report, factors) := ob_data latest in
      let view := Prelude.lower (sentiment _ report) in
      risk_count ← lifting (count_factors factors);
      let evidence := [{| ev_source := "research_observations";
        ev_detail := "research_as_of(" +:+ symbol +:+ ") -> " +:+ str_of_nat (length rows) +:+ " report(s); latest " +:+
                     "generated " +:+ show (generated_at _ report);
        ev_value := JDict [("sentiment", JStr view); ("confidence_modifier", jfloat (confidence_modifier F report));
                           ("risk_factors", JVal (PInt (Z.of_nat risk_count)))] |}] in
      claim ← claiming ("the research view archived at this moment called " +:+ symbol +:+ " " +:+ view)
                (stance_of view) (Some (nor (confidence_modifier _ report) nzero)) None evidence;
      more ← (if (risk_count =? 0)%nat then Ret [] else
        c ← claiming ("that view named " +:+ str_of_nat risk_count +:+ " risk factor(s) — caution, " +:+ "not a side")
              "neutral" (Some (nnat risk_count)) None evidence;
        Ret [c]);
      concluded "fundamentals" symbol (claim :: more)
  end.

Definition news_assess (symbol : string) : reader F (Assessment F) :=
  rows ← asking (AskHeadlines symbol);
  match last rows with
  | None => _blank "news" (deterministic "news") symbol "no archived headlines inside the lookback window"
  | Some latest =>
      let distinct := length (remove_dups (map (fun r => headline (ob_data r)) rows)) in
      let evidence := [{| ev_source := "headline_observations";
        ev_detail := "headlines_as_of(" +:+ symbol +:+ ") -> " +:+ str_of_nat (length rows) +:+ " rows";
        ev_value := JDict [("distinct", JVal (PInt (Z.of_nat distinct)));
                           ("latest", JStr (String.substring 0 200 (headline (ob_data latest))));
                           ("latest_source", JStr (hl_source (ob_data latest)))] |}] in
      let flow := if (NEWS_HEAVY_FLOW <=? distinct)%nat then "heavy — the symbol is in the news" else "light" in
      claim ← claiming ("archived news flow is " +:+ flow +:+ ": " +:+ str_of_nat distinct +:+ " distinct " +:+
                        "headline(s) in the window") "neutral" (Some (nnat distinct)) (Some (nnat NEWS_HEAVY_FLOW)) evidence;
      concluded "news" symbol [claim]
  end.

Context (show : datetime -> string).

Definition role_of (role scope : string) (f : string -> reader F (Assessment F)) : Specialist F :=
  {| sp_role := role; input_scope := [scope]; produced_by := deterministic role; assess := f |}.
Definition MarketSpecialist := role_of "market" "bar_observations" market_assess.
Definition TechnicalSpecialist := role_of "technical" "bar_observations" technical_assess.
Definition NewsSpecialist := role_of "news" "headline_observations" news_assess.
Definition SentimentSpecialist := role_of "sentiment" "sentiment_observations" sentiment_assess.
Definition FundamentalsSpecialist := role_of "fundamentals" "research_observations" (fundamentals_assess show).

(** A role of a roster: one that reads the archive, or [UnarchivedRole]. *)
Inductive Role :=
| Archived (s : Specialist F)
| Unarchived (role reason needed : string).

Definition role_name (r : Role) : string :=
  match r with Archived s => sp_role s | Unarchived role _ _ => role end.
Definition assess_role (r : Role) (symbol : string) : reader F (Assessment F) :=
  match r with
  | Archived s => assess s symbol
  | Unarchived role reason _ => _blank role ("unavailable:" +:+ role) symbol reason
  end.

Definition default_roster : list Role :=
  map Archived [MarketSpecialist; TechnicalSpecialist; NewsSpecialist; SentimentSpecialist; FundamentalsSpecialist].
End roles.

(** ** report.py and reproduce.py *)

Record ReproductionResult := {
  rr_role : string;
  rr_symbol : string;
  rr_as_of : datetime;
  rr_runs : nat;
  digests : list string
}.
Definition reproducible (r : ReproductionResult) : bool := (length (remove_dups (digests r)) =? 1)%nat.

Record SpecialistReport (F : Type) := {
  sr_as_of : datetime;
  specified : nat;
  with_an_archive : nat;
  blocked : list (string * (string * string));
  roles_verdict : string;
  results : list ReproductionResult;
  all_reproducible : option bool;
  arguments : list (Argument F)
}.
Arguments sr_as_of {F}. Arguments specified {F}. Arguments with_an_archive {F}. Arguments blocked {F}.
Arguments roles_verdict {F}. Arguments results {F}. Arguments all_reproducible {F}. Arguments arguments {F}.

Section report.
Context {F : Type} `{PyFloat F}.
Context (loads : string -> option (json F)).
Context (encode : string * string * datetime * string * list (Claim F) * list string -> string).
Context (sha256 : string -> string).
Context (show : datetime -> string).
Context (faults : nat -> io).          (** how the reads of an argument go *)
Context (run_faults : nat -> nat -> io).   (** and those of each repetition *)
Implicit Types j : Journal F.

(** One role over a fresh archive. *)
Definition assess_at (faults : nat -> io) (role : Role) j (symbol : string) (as_of : datetime)
    (timeframe : string) : result string (Assessment F) :=
  fst (run loads (assess_role role symbol) (open_archive j as_of timeframe faults)).

(** [roster or default_roster()] *)
Definition active_roster (roster : list (Role (F := F))) : list (Role (F := F)) :=
  match roster with [] => default_roster show | _ => roster end.

Fixpoint traverse {A B} (f : A -> result string B) (l : list A) : result string (list B) :=
  match l with
  | [] => Ok []
  | x :: l => y ← f x; ys ← traverse f l; Ok (y :: ys)
  end.

Definition build_argument j (symbol : string) (as_of : datetime) (roster : list (Role (F := F)))
    (timeframe : string) : result string (Argument F) :=
  all ← traverse (fun role => assess_at faults role j symbol as_of timeframe) (active_roster roster);
  Ok {| ag_symbol := symbol; ag_as_of := as_of; assessments := all |}.

Definition reproduce (role : Role) j (symbol : string) (as_of : datetime) (runs : nat) (timeframe : string)
    : result string ReproductionResult :=
  ds ← traverse (fun i => digest encode sha256 <$> assess_at (run_faults i) role j symbol as_of timeframe) (List.seq 0 runs);
  Ok {| rr_role := role_name role; rr_symbol := symbol; rr_as_of := as_of; rr_runs := runs; digests := ds |}.

Definition _roles_verdict (supported specified : nat) : string :=
  if (supported =? specified)%nat then "every specified role has a point-in-time archive to read"
  else str_of_nat supported +:+ " of " +:+ str_of_nat specified +:+
    " specified roles have a point-in-time archive. " +:+
    "The rest are blocked on storage that does not exist yet, and are " +:+
    "reported as unavailable rather than built against a live source — an " +:+
    "assessment 'as of' a past moment built from today's data is the " +:+
    "leakage the archive exists to prevent, and it would not be visible in " +:+
    "the output.".

Definition is_archived (r : Role (F := F)) : bool := match r with Archived _ => true | Unarchived _ _ _ => false end.

(** The first thing an unarchived role says of nothing in particular. *)
Definition block_of (r : Role (F := F)) : option (string * (string * string)) :=
  match r with
  | Archived _ => None
  | Unarchived role reason needed => Some (role, (reason, needed))
  end.

Definition build_report j (symbols : list string) (as_of : datetime) (check_reproducibility : bool)
    (roster : list (Role (F := F))) (timeframe : string) : result string (SpecialistReport F) :=
  let active := active_roster roster in
  args ← traverse (fun s => build_argument j s as_of active timeframe) symbols;
  reproductions ←
    (if check_reproducibility then
       traverse (fun '(s, role) => reproduce role j s as_of 3 timeframe)
         (s ← symbols; role ← List.filter is_archived active; [(s, role)])
     else Ok []);
  let blocked := foldl (fun d '(k, v) => dict_set k v d) [] (omap block_of active) in
  let specified := length active in
  let supported := (specified - length blocked)%nat in
  Ok {| sr_as_of := as_of; specified := specified; with_an_archive := supported; blocked := blocked;
        roles_verdict := _roles_verdict supported specified; results := reproductions;
        all_reproducible := match reproductions with [] => None | _ => Some (forallb reproducible reproductions) end;
        arguments := args |}.
End report.

(** ** What a program over an archive may do *)

Section logic.
Context {F : Type} `{HF : PyFloat F}.
Context (loads : string -> option (json F)).
Implicit Types a : PointInTimeArchive F.

(** [m] does not raise, and what it returns, with the archive after it, satisfies [Q]. *)
Definition wp {A} (m : reader F A) (Q : A -> PointInTimeArchive F -> Prop) a : Prop :=
  match run loads m a with (Ok x, a') => Q x a' | (Err _, _) => False end.

Lemma wp_bind {A B} (m : reader F A) (f : A -> reader F B) Q a :
  wp m (fun x => wp (f x) Q) a -> wp (m ≫= f) Q a.
Proof.
  unfold wp. revert a. induction m as [x|e|q k IH]; intros a; [done|done|].
  cbn. destruct (answer loads q a) as [x a']. apply IH.
Qed.
Lemma wp_ret {A} (x : A) (Q : A -> PointInTimeArchive F -> Prop) a : Q x a -> wp (Ret x) Q a.
Proof. done. Qed.
Lemma wp_ask q (Q : answer_of F q -> PointInTimeArchive F -> Prop) a :
  (forall x a', answer loads q a = (x, a') -> Q x a') -> wp (asking q) Q a.
Proof. unfold wp. cbn. destruct (answer loads q a) as [x a'] eqn:E. cbn. auto. Qed.
Lemma wp_mono {A} (m : reader F A) (P Q : A -> PointInTimeArchive F -> Prop) a :
  (forall x a', P x a' -> Q x a') -> wp m P a -> wp m Q a.
Proof. unfold wp. destruct (run loads m a) as [[x|e] a']; auto. Qed.

(** A claim of a role: one of the stances, with evidence, all of it from the role's scope. *)
Definition claim_ok (scope : list string) (c : Claim F) : Prop :=
  stance c ∈ STANCES /\ evidence c <> [] /\ Forall (fun r => ev_source r ∈ scope) (evidence c).

Lemma wp_claiming scope st stance measure threshold ref (Q : Claim F -> PointInTimeArchive F -> Prop) a :
  str_in stance STANCES = true -> ev_source ref ∈ scope ->
  (forall c, claim_ok scope c -> Q c a) -> wp (claiming st stance measure threshold [ref]) Q a.
Proof.
  intros Hs Hr HQ. unfold wp, claiming, make_claim. rewrite Hs. cbn. apply HQ.
  split; [by apply str_in_spec|]. cbn. split; [done|]. by repeat constructor.
Qed.

(** An assessment of a role: about what was asked, with the log of its reads; silent for
    one stated reason, or else made of claims. *)
Record sound (role producer : string) (scope : list string) (symbol : string) (as_of : datetime)
    (log : list Query) (x : Assessment F) : Prop := {
  so_role : as_role x = role;
  so_symbol : as_symbol x = symbol;
  so_as_of : as_as_of x = as_of;
  so_producer : as_produced_by x = producer;
  so_queries : as_queries x = log;
  so_said : (as_claims x = [] /\ exists reason, as_unavailable x = [reason] /\ reason <> "") \/
            (as_claims x <> [] /\ as_unavailable x = []);
  so_claims : Forall (claim_ok scope) (as_claims x)
}.

Lemma wp_blank role producer scope symbol reason a : reason <> "" ->
  wp (_blank role producer symbol reason)
    (fun x _ => sound role producer scope symbol (pa_as_of a) (pa_queries a) x) a.
Proof. intros Hr. unfold wp. cbn. constructor; cbn; try done; left; eauto. Qed.

Lemma wp_concluded role scope symbol c claims a : Forall (claim_ok scope) (c :: claims) ->
  wp (concluded role symbol (c :: claims))
    (fun x _ => sound role (deterministic role) scope symbol (pa_as_of a) (pa_queries a) x) a.
Proof. intros Hc. unfold wp. cbn. constructor; cbn; try done. by right. Qed.

(** What a role ends with after its one read. *)
Definition reports (role scope symbol : string) a (x : Assessment F) : Prop :=
  exists q, q_source q = scope /\
    sound role (deterministic role) [scope] symbol (pa_as_of a) (pa_queries a ++ [q]) x.

(** The archive after one read of the source. *)
Definition after (scope : string) a a' : Prop :=
  pa_as_of a' = pa_as_of a /\ exists q, q_source q = scope /\ pa_queries a' = pa_queries a ++ [q].

Lemma safe_after {X} (rows : io -> list X) detail scope a x a' :
  _safe rows detail scope a = (x, a') -> after scope a a'.
Proof. intros [= _ <-]. split; [done|]. eexists. split; [|reflexivity]. done. Qed.

Lemma wp_silent role scope symbol reason a a' : after scope a a' -> reason <> "" ->
  wp (_blank role (deterministic role) symbol reason) (fun x _ => reports role scope symbol a x) a'.
Proof.
  intros (Ht & q & Hq & Hl) Hr. eapply wp_mono; [|by apply (wp_blank _ _ [scope])]. cbn.
  intros x _ Hx. rewrite Ht, Hl in Hx. by exists q.
Qed.

Lemma wp_speaks role scope symbol c claims a a' : after scope a a' -> Forall (claim_ok [scope]) (c :: claims) ->
  wp (concluded role symbol (c :: claims)) (fun x _ => reports role scope symbol a x) a'.
Proof.
  intros (Ht & q & Hq & Hl) Hc. eapply wp_mono; [|by apply (wp_concluded _ [scope])]. cbn.
  intros x _ Hx. rewrite Ht, Hl in Hx. by exists q.
Qed.

Lemma append_nonempty (s t : string) : s <> "" -> s +:+ t <> "".
Proof. by destruct s. Qed.
Lemma str_or_nonempty s d : d <> "" -> str_or s d <> "".
Proof. intros Hd. unfold str_or. by destruct (decide (s = "")). Qed.
End logic.

#[local] Hint Resolve append_nonempty str_or_nonempty : core.

(** The steps of a role: it binds, it asks, it reads, it claims, and how it ends. *)
Ltac binds := lazymatch goal with |- wp ?l (?m ≫= ?f) ?Q ?a => apply (wp_bind l m f Q a) end.
Ltac asks := binds; lazymatch goal with |- wp ?l (asking ?q) ?Q ?a => apply (wp_ask l q Q a) end; cbn [answer].
Ltac reading := asks; intros rows a' Ha%safe_after.
Ltac a_claim scope := apply (wp_claiming _ [scope]); [done|cbn; constructor|intros ? ?; cbv beta].
Ltac returns := lazymatch goal with |- wp ?l (Ret ?x) ?Q ?a => apply (wp_ret l x Q a) end; cbv beta.
Ltac silent := cbv beta; apply wp_silent; auto.
Ltac speaks := cbv beta; apply wp_speaks; [assumption|repeat (constructor; [assumption|]); constructor].

Section role_theorems.
Context {F : Type} `{HF : PyFloat F}.
Context (loads : string -> option (json F)).
Implicit Types a : PointInTimeArchive F.

Lemma market_reports symbol a :
  wp loads (market_assess symbol) (fun x _ => reports "market" "bar_observations" symbol a x) a.
Proof.
  unfold market_assess. reading. destruct (length rows <? _)%nat; [by silent|].
  asks. intros moment a1 [= <- <-]. set (r := classify _ _ _).
  destruct (available r); cbn [negb]; [|by silent]. binds.
  unfold regime_claim. destruct (String.eqb _ _); [|destruct (String.eqb _ _)].
  all: a_claim "bar_observations"; binds; unfold volatility_claims.
  all: destruct (str_in _ _); [binds; a_claim "bar_observations"|].
  all: returns; speaks.
Qed.

Lemma technical_reports symbol a :
  wp loads (technical_assess symbol) (fun x _ => reports "technical" "bar_observations" symbol a x) a.
Proof.
  unfold technical_assess. reading. destruct (length rows <? _)%nat; [by silent|]. cbv zeta.
  destruct (length (map b_close rows) <? _)%nat; [by silent|].
  destruct (compute_macd _ _ _ _) as [[? ?] histogram]. binds.
  destruct (_ >=? _)%py; [|destruct (_ <=? _)%py].
  all: a_claim "bar_observations"; binds; destruct (_ >? _)%py.
  all: a_claim "bar_observations"; binds; destruct (histogram >? _)%py.
  all: a_claim "bar_observations"; speaks.
Qed.

Lemma sentiment_reports symbol a :
  wp loads (sentiment_assess symbol) (fun x _ => reports "sentiment" "sentiment_observations" symbol a x) a.
Proof.
  unfold sentiment_assess. reading. destruct (length rows <? _)%nat; [by silent|]. cbv zeta. binds.
  destruct (_ >=? _)%py; [|destruct (_ <=? _)%py].
  all: a_claim "sentiment_observations"; speaks.
Qed.

Lemma news_reports symbol a :
  wp loads (news_assess symbol) (fun x _ => reports "news" "headline_observations" symbol a x) a.
Proof.
  unfold news_assess. reading. destruct (last rows) as [latest|]; [|by silent]. cbv zeta. binds.
  a_claim "headline_observations"; speaks.
Qed.

(** Each research row of a symbol names its risk factors in a list. *)
Definition factors_listed (j : Journal F) : Prop :=
  Forall (fun r => exists l, loads (str_or (risk_factors _ (ob_data r)) "[]") = Some (JList l)) (researches j).

Lemma stance_of_ok s : str_in (stance_of s) STANCES = true.
Proof. unfold stance_of. by destruct (String.eqb s "bullish"), (String.eqb s "bearish"). Qed.

Lemma research_rows_listed j symbol as_of e (rows : list (ResearchRow F)) r :
  factors_listed j -> rows = parse_research loads (research_as_of symbol as_of (days 14) 50 e j) -> r ∈ rows ->
  exists l, snd (ob_data r) = JList l.
Proof.
  intros Hj -> Hr. unfold parse_research in Hr.
  destruct (mapM _ _) as [rs|] eqn:E; [|by apply not_elem_of_nil in Hr]. cbn in Hr.
  apply mapM_Some in E. apply list_elem_of_lookup in Hr as [i Hi].
  destruct (Forall2_lookup_r _ _ _ _ _ E Hi) as (o & Ho & Eo).
  assert (o ∈ researches j) as Hin.
  { apply list_elem_of_lookup_2 in Ho. unfold research_as_of, or_empty in Ho.
    destruct (enabled j), e; cbn [negb] in Ho; try by apply not_elem_of_nil in Ho.
    unfold windowed in Ho. apply list_elem_of_In, in_rev, list_elem_of_In in Ho. apply elem_of_take in Ho as (n & Ho & _).
    apply list_elem_of_lookup_2, elem_of_sort_by in Ho. by apply elem_of_filter_b in Ho as [? _]. }
  destruct (proj1 (Forall_forall _ _) Hj o Hin) as (l & Hl). rewrite Hl in Eo.
  cbn in Eo. simplify_eq. by exists l.
Qed.

Lemma fundamentals_reports show symbol a : factors_listed (pa_journal a) ->
  wp loads (fundamentals_assess show symbol) (fun x _ => reports "fundamentals" "research_observations" symbol a x) a.
Proof.
  intros Hj. unfold fundamentals_assess. asks. intros rows a' E. cbn [answer_of] in rows.
  assert (rows = parse_research loads (research_as_of symbol (pa_as_of a) (days 14) 50
    (pa_faults a (length (pa_queries a))) (pa_journal a))) as Erows by (by injection E).
  pose proof (safe_after _ _ _ _ _ _ E) as Ha. clear E.
  match goal with |- context [match ?x with Some _ => _ | None => _ end] => destruct x as [latest|] eqn:El end; [|by silent].
  apply last_Some_elem_of in El. destruct (research_rows_listed _ _ _ _ _ _ Hj Erows El) as (l & Hl).
  destruct (ob_data latest) as [report factors]. cbn in Hl. subst factors. cbv zeta.
  binds. unfold lifting, count_factors. returns. binds.
  apply (wp_claiming _ ["research_observations"]); [apply stance_of_ok|cbn; constructor|intros ? ?; cbv beta].
  binds. destruct (_ =? 0)%nat; [returns; speaks|]. binds. a_claim "research_observations". returns. speaks.
Qed.
End role_theorems.

(** ** The argument is evidenced *)

Section arguments.
Context {F : Type} `{HF : PyFloat F}.
Context (loads : string -> option (json F)).
Context (show : datetime -> string).
Context (faults : nat -> io).
Implicit Types j : Journal F.

(** What the argument of the default roster holds, role by role. *)
Definition role_scopes : list (string * string) :=
  [("market", "bar_observations"); ("technical", "bar_observations"); ("news", "headline_observations");
   ("sentiment", "sentiment_observations"); ("fundamentals", "research_observations")].

Definition says (symbol : string) (as_of : datetime) (rs : string * string) (x : Assessment F) : Prop :=
  exists q, q_source q = snd rs /\
    sound (fst rs) (deterministic (fst rs)) [snd rs] symbol as_of [q] x.

Lemma assess_says role f scope j symbol as_of timeframe :
  wp loads (f symbol) (fun x _ => reports role scope symbol (open_archive j as_of timeframe faults) x)
    (open_archive j as_of timeframe faults) ->
  exists x, assess_at loads faults (Archived (role_of role scope f)) j symbol as_of timeframe = Ok x /\
    says symbol as_of (role, scope) x.
Proof.
  unfold wp, assess_at. cbn [assess_role assess role_of].
  destruct (run loads (f symbol) _) as [[x|e] a']; [|done]. cbn [fst]. intros (q & Hq & Hs).
  exists x. split; [done|]. by exists q.
Qed.

Lemma traverse_ok {A B} (f : A -> result string B) (P : A -> B -> Prop) l :
  Forall (fun x => exists y, f x = Ok y /\ P x y) l -> exists ys, traverse f l = Ok ys /\ Forall2 P l ys.
Proof.
  induction 1 as [|x l (y & Hy & HP) _ (ys & Hys & Hl)]; cbn; [eauto using Forall2_nil|].
  rewrite Hy. cbn. rewrite Hys. cbn. eauto using Forall2_cons.
Qed.

Lemma roster_says j symbol as_of timeframe : factors_listed loads j ->
  Forall (fun p => exists x, assess_at loads faults (fst p) j symbol as_of timeframe = Ok x /\ says symbol as_of (snd p) x)
    (combine (default_roster show) role_scopes).
Proof.
  intros Hj. unfold default_roster, role_scopes. cbn [map combine].
  repeat (constructor; [apply assess_says|]); [..|constructor].
  - apply market_reports.
  - apply technical_reports.
  - apply news_reports.
  - apply sentiment_reports.
  - by apply fundamentals_reports.
Qed.
End arguments.

Section stances.
Context {F : Type}.
Implicit Types g : Argument F.

(** Every claim of the argument stands under exactly one of the stances. *)
Definition claims_of g : list (string * Claim F) :=
  List.concat (map (fun x => map (fun c => (as_role x, c)) (as_claims x)) (assessments g)).

Lemma by_stance_filter g s :
  by_stance g s = List.filter (fun p => String.eqb (stance (snd p)) s) (claims_of g).
Proof.
  unfold by_stance, claims_of. induction (assessments g) as [|x l IH]; [done|].
  cbn. rewrite IH, List.filter_app. f_equal. clear.
  induction (as_claims x) as [|c cs IH]; [done|]. cbn. destruct (String.eqb (stance c) s); cbn; by rewrite IH.
Qed.

Lemma stances_split g :
  Forall (fun p => stance (snd p) ∈ STANCES) (claims_of g) ->
  claims_of g ≡ₚ by_stance g "bull" ++ by_stance g "bear" ++ by_stance g "neutral".
Proof.
  rewrite !by_stance_filter. induction 1 as [|p l Hp _ IH]; [done|].
  unfold STANCES in Hp. rewrite !elem_of_cons in Hp.
  destruct Hp as [Hp|[Hp|[Hp|[]%not_elem_of_nil]]]; cbn [List.filter]; rewrite Hp; cbn [String.eqb Ascii.eqb Bool.eqb].
  all: etrans; [apply perm_skip, IH|]; cbn;
    first [done | apply Permutation_middle | rewrite !app_assoc; apply Permutation_middle].
Qed.

Lemma roles_split g :
  map as_role (assessments g) ≡ₚ roles_reporting g ++ roles_silent g.
Proof.
  unfold roles_reporting, roles_silent. induction (assessments g) as [|x l IH]; [done|]. cbn.
  destruct (as_available x); cbn; (etrans; [apply perm_skip, IH|]); [done|apply Permutation_middle].
Qed.
End stances.


(** ** No hindsight, whatever the roles *)

Section hindsight.
Context {F : Type} `{HF : PyFloat F}.
Context (payload_hash : F -> F -> F -> F -> F -> string).
Context (loads : string -> option (json F)).
Implicit Types a : PointInTimeArchive F.

(** The same archive over the journal as it is after some writes. *)
Definition later_archive (ws : list (jwrite F * datetime)) a : PointInTimeArchive F :=
  {| pa_journal := jruns payload_hash ws (pa_journal a); pa_as_of := pa_as_of a;
     pa_timeframe := pa_timeframe a; pa_faults := pa_faults a; pa_queries := pa_queries a |}.

Lemma safe_later {X} ws (rows rows' : io -> list X) detail source a :
  (forall e, rows' e = rows e) ->
  _safe rows' detail source (later_archive ws a) =
    (fst (_safe rows detail source a), later_archive ws (snd (_safe rows detail source a))).
Proof. intros Hr. unfold _safe, later_archive. cbn. by rewrite Hr. Qed.

Lemma answer_later ws q a :
  Forall (fun '(w, now) => pa_as_of a < now /\ dated_after (pa_as_of a) w) ws ->
  answer loads q (later_archive ws a) = (fst (answer loads q a), later_archive ws (snd (answer loads q a))) /\
  pa_as_of (snd (answer loads q a)) = pa_as_of a.
Proof.
  intros Hw. split; [|by destruct q].
  pose proof (fun sy w l e => observations_later payload_hash _ ws (pa_journal a) sy w l e Hw) as Ho.
  destruct q; [done|done|..]; cbn [answer]; apply safe_later; intros e; cbn [pa_journal pa_as_of pa_timeframe later_archive].
  - by apply bars_later.
  - by destruct (Ho symbol (days 7) 200%nat e) as (? & _).
  - by destruct (Ho symbol (days 3) 100%nat e) as (_ & ? & _).
  - by destruct (Ho symbol (days 14) 50%nat e) as (_ & _ & ->).
  - by apply decisions_later.
  - by apply executions_later.
Qed.

Lemma run_later {A} ws (m : reader F A) a :
  Forall (fun '(w, now) => pa_as_of a < now /\ dated_after (pa_as_of a) w) ws ->
  fst (run loads m (later_archive ws a)) = fst (run loads m a).
Proof.
  revert a. induction m as [x|e|q k IH]; intros a Hw; [done|done|]. cbn [run].
  destruct (answer_later ws q a Hw) as [-> Ht]. destruct (answer loads q a) as [x a']. cbn [fst snd] in *.
  apply IH. by rewrite Ht.
Qed.

Lemma assess_later faults ws role j symbol as_of timeframe :
  Forall (fun '(w, now) => as_of < now /\ dated_after as_of w) ws ->
  assess_at loads faults role (jruns payload_hash ws j) symbol as_of timeframe =
  assess_at loads faults role j symbol as_of timeframe.
Proof. intros Hw. exact (run_later ws (assess_role role symbol) (open_archive j as_of timeframe faults) Hw). Qed.

Lemma traverse_ext {A B} (f g : A -> result string B) l : (forall x, f x = g x) -> traverse f l = traverse g l.
Proof. intros E. induction l as [|x l IH]; [done|]. cbn. by rewrite E, IH. Qed.

Lemma argument_later show faults ws j symbol as_of roster timeframe :
  Forall (fun '(w, now) => as_of < now /\ dated_after as_of w) ws ->
  build_argument loads show faults (jruns payload_hash ws j) symbol as_of roster timeframe =
  build_argument loads show faults j symbol as_of roster timeframe.
Proof.
  intros Hw. unfold build_argument.
  rewrite (traverse_ext _ (fun role => assess_at loads faults role j symbol as_of timeframe)); [done|].
  intros role. by apply assess_later.
Qed.

Lemma reproduce_later encode sha256 run_faults ws role j symbol as_of runs timeframe :
  Forall (fun '(w, now) => as_of < now /\ dated_after as_of w) ws ->
  reproduce loads encode sha256 run_faults role (jruns payload_hash ws j) symbol as_of runs timeframe =
  reproduce loads encode sha256 run_faults role j symbol as_of runs timeframe.
Proof.
  intros Hw. unfold reproduce.
  rewrite (traverse_ext _ (fun i => digest encode sha256 <$> assess_at loads (run_faults i) role j symbol as_of timeframe)); [done|].
  intros i. by rewrite assess_later.
Qed.
End hindsight.


(** ** Reproduction *)

Lemma traverse_const {A B} (l : list A) (r : result string B) bs :
  traverse (fun _ => r) l = Ok bs -> l <> [] -> exists b, r = Ok b /\ bs = repeat b (length l).
Proof.
  revert bs. induction l as [|x l IH]; intros bs; [done|]. cbn. destruct r as [b|e]; [|done]. cbn.
  destruct (traverse _ l) as [bs'|] eqn:E; [|done]. cbn. intros [= <-] _. exists b. split; [done|].
  destruct l as [|y l]; [by injection E as <-|]. destruct (IH bs' eq_refl) as (b' & [= <-] & ->); [done|]. done.
Qed.

Lemma remove_dups_repeat (b : string) n : remove_dups (repeat b (S n)) = [b].
Proof.
  induction n as [|n IH]; [done|]. change (repeat b (S (S n))) with (b :: repeat b (S n)).
  cbn [remove_dups]. destruct (decide_rel _ _ _) as [|Hb]; [exact IH|]. destruct Hb. cbn. constructor.
Qed.

(** The repetitions cannot tell a role that isolates the past from one that does not: they
    read the same journal, so where no read fails in one of them and not in another,
    every role is reported as reproducible. *)
Lemma repetition_measures_determinism_only {F} `{PyFloat F} loads encode sha256 faults (role : Role)
    (j : Journal F) symbol as_of runs timeframe r : (1 <= runs)%nat ->
  reproduce loads encode sha256 (fun _ => faults) role j symbol as_of runs timeframe = Ok r -> reproducible r = true.
Proof.
  intros Hn. unfold reproduce.
  destruct (traverse _ _) as [ds|] eqn:E; [|done]. cbn. intros [= <-].
  apply traverse_const in E as (d & _ & ->); [|by destruct runs; [lia|]].
  unfold reproducible. cbn [digests]. rewrite length_seq. destruct runs as [|n]; [lia|]. by rewrite remove_dups_repeat.
Qed.

(** ** Concrete archives *)

Module Desk.
Definition bar (i : nat) : BarObservation spec_float :=
  {| b_symbol := "AAPL"; b_timeframe := "15m"; b_bar_ts := Z.of_nat i; b_open := nofZ 10; b_high := nofZ 10;
     b_low := nofZ 10; b_close := nofZ 10; b_volume := nofZ 0; b_source := "feed"; b_observed_at := Z.of_nat i;
     b_payload_hash := "h"; b_revision := 0; b_provider_meta := JDict [] |}.
Definition report (at_ : datetime) (factors : string) : Observation (ResearchData spec_float) :=
  {| Journal.ob_symbol := "AAPL"; ob_observed_at := at_;
     ob_data := {| sentiment := "bullish"; headline_summary := "s"; risk_factors := factors;
                   confidence_modifier := nofZ 0; model_version := "m"; generated_at := at_ |} |}.
Definition journal (n : nat) (rs : list (Observation (ResearchData spec_float))) : Journal spec_float :=
  {| enabled := true; bars := map bar (List.seq 0 n); prices := []; sentiments := []; headlines := [];
     researches := rs; decisions := []; executions := [] |}.
Definition loads (s : string) : option (json spec_float) :=
  if String.eqb s "[]" then Some (JList []) else if String.eqb s "[1]" then Some (JList [JVal (PInt 1)]) else None.
Definition show (_ : datetime) : string := "t".
Definition well (_ : nat) : io := None.
Definition hash (_ _ _ _ _ : spec_float) : string := "k".
Definition said (r : result string (Argument spec_float)) : list (string * string) :=
  match r with Ok g => map (fun p => (fst p, stance (snd p))) (claims_of g) | Err _ => [] end.
Definition silent (r : result string (Argument spec_float)) : list (string * list string) :=
  match r with Ok g => map (fun x => (as_role x, as_unavailable x)) (List.filter (fun x => negb (as_available x)) (assessments g))
  | Err _ => [] end.
(** A bar recorded after the moment 100. *)
Definition after_ : jwrite spec_float * datetime :=
  (WBars "AAPL" "15m" [{| in_timestamp := Some 5%Z; in_ohlc := Some (nofZ 1, nofZ 1, nofZ 1, nofZ 1); in_volume := None |}]
     "feed" (JDict []) "u" None None None, 200%Z).
End Desk.

Lemma desk_factors : factors_listed Desk.loads (Desk.journal 60 [Desk.report 50 "[1]"]).
Proof. constructor; [|constructor]. by eexists. Qed.

(** A tape that has not moved is argued to be bearish three times over: no loss is an RSI of
    a hundred, and averages that are equal are below. *)
Example flat_tape_is_bearish :
  let g := build_argument Desk.loads Desk.show Desk.well (Desk.journal 60 [Desk.report 50 "[1]"]) "AAPL" 100 [] "15m" in
  Desk.said g = [("market", "neutral"); ("technical", "bear"); ("technical", "bear"); ("technical", "bear");
                 ("fundamentals", "bull"); ("fundamentals", "neutral")].
Proof. vm_compute. reflexivity. Qed.

(** One report whose risk factors do not parse hides every other: the role says that none is
    archived. *)
Example one_bad_report_hides_the_rest :
  let g := build_argument Desk.loads Desk.show Desk.well
             (Desk.journal 0 [Desk.report 40 "[1]"; Desk.report 50 "{"]) "AAPL" 100 [] "15m" in
  List.last (Desk.silent g) ("", []) = ("fundamentals", ["no archived research report inside the lookback window"]).
Proof. vm_compute. reflexivity. Qed.


Lemma after_is_later : Forall (fun '(w, now) => 100 < now /\ dated_after 100 w) [Desk.after_].
Proof. repeat constructor. Qed.

