(* ===== verification/MarketData.v ===== *)
(** * Bars and prices from outside

    Models [libs/market_data/src/market_data/config.py] and [fetcher.py]: the settings, the
    three providers behind one interface ([Fetcher]), and [fetch_bars], which falls back
    from one to the other and archives what it serves. The data vendors' clients, the
    files, [json.loads], [float] and [fromisoformat] of text are parameters. *)

From S2P Require Import Journal Indicators Prelude PyFloat Store Contracts Policy Json.
From Stdlib Require Import String Floats.SpecFloat Ascii.

(** ** config.py *)

Definition YAHOO_SUPPORTED_MINUTES : list Z := [1; 2; 5; 15; 30; 60; 90].
Definition YAHOO_INTRADAY_MAX_DAYS (minutes : Z) : option Z :=
  if str_in (str_of_Z minutes) ["2"; "5"; "15"; "30"; "90"] then Some 59
  else if minutes =? 1 then Some 7 else if minutes =? 60 then Some 729 else None.

Record MarketDataSettings := {
  alpaca_api_key : string;
  alpaca_secret_key : string;
  alpaca_paper : bool;
  alpaca_feed : string;
  cache_ttl_seconds : Z;
  default_lookback_days : Z;
  ms_timeframe : string;
  intraday_minutes : Z;
  intraday_lookback_days : Z;
  streaming_enabled : bool;
  max_price_age_seconds : Z;
  force_yahoo : bool
}.

Implicit Types environ : gmap string string.

Definition getenv environ (name d : string) : string := default d (environ !! name).
Definition env_true environ (name d : string) : bool := String.eqb (lower (getenv environ name d)) "true".

(** [None] where a number does not parse. *)
Definition settings_from_env environ : option MarketDataSettings :=
  ttl ← py_int (getenv environ "MARKET_DATA_CACHE_TTL_SECONDS" "300");
  lookback ← py_int (getenv environ "MARKET_DATA_LOOKBACK_DAYS" "60");
  minutes ← py_int (getenv environ "INTRADAY_MINUTES" "15");
  days ← py_int (getenv environ "INTRADAY_LOOKBACK_DAYS" "5");
  age ← py_int (getenv environ "MAX_PRICE_AGE_SECONDS" "120");
  Some {| alpaca_api_key := getenv environ "ALPACA_API_KEY" "";
          alpaca_secret_key := getenv environ "ALPACA_SECRET_KEY" "";
          alpaca_paper := env_true environ "ALPACA_PAPER" "true";
          alpaca_feed := getenv environ "ALPACA_FEED" "iex";
          cache_ttl_seconds := ttl; default_lookback_days := lookback;
          ms_timeframe := getenv environ "MARKET_DATA_TIMEFRAME" "daily";
          intraday_minutes := minutes; intraday_lookback_days := days;
          streaming_enabled := env_true environ "STREAMING_ENABLED" "false";
          max_price_age_seconds := age;
          force_yahoo := str_in (lower (getenv environ "MARKET_DATA_PROVIDER" "")) ["yahoo"; "yfinance"] |}.

Definition has_alpaca_credentials (s : MarketDataSettings) : bool :=
  str_true (alpaca_api_key s) && str_true (alpaca_secret_key s) && negb (force_yahoo s).
Definition is_intraday (s : MarketDataSettings) : bool := String.eqb (lower (ms_timeframe s)) "intraday".
Definition can_stream (s : MarketDataSettings) : bool := streaming_enabled s && has_alpaca_credentials s.

Section limit.
Context {F : Type} `{PyFloat F}.
Context (float_of : string -> option F).
(** The environment is read at each call; [None] where the limit does not parse. *)
Definition price_age_limit_seconds environ (s : MarketDataSettings) : option F :=
  match environ !! "MAX_PRICE_AGE_SECONDS" with
  | Some explicit =>
      if str_true explicit then float_of explicit
      else Some (if is_intraday s then nofZ 120 else nofZ 86400)
  | None => Some (if is_intraday s then nofZ 120 else nofZ 86400)
  end.
End limit.

(** ** models.py *)

Record PriceSnapshot (F : Type) := {
  ps_symbol : string;
  ps_price : F;
  ps_timestamp : datetime;
  ps_source : string
}.
Arguments ps_symbol {F}. Arguments ps_price {F}. Arguments ps_timestamp {F}. Arguments ps_source {F}.

Definition snapshot_age {F} `{PyFloat F} (s : PriceSnapshot F) (now : datetime) : F :=
  nmax nzero (total_seconds (now - ps_timestamp s)).

(** ** fetcher.py *)

(** [DataUnavailableError], or any other exception. *)
Inductive FetchError :=
| Unavailable (message : string)
| Other (message : string).

(** [OHLCVFetcherProtocol] *)
Record Fetcher (F : Type) := {
  ft_name : string;
  ft_fetch : string -> Z -> result FetchError (list (OHLCVBar F));
  ft_intraday : string -> Z -> Z -> result FetchError (list (OHLCVBar F));
  ft_latest : string -> result FetchError (option (PriceSnapshot F))
}.
Arguments ft_name {F}. Arguments ft_fetch {F}. Arguments ft_intraday {F}. Arguments ft_latest {F}.

(** A bar as a vendor sends it, its stamp read as UTC where there is one. *)
Record Tick (F : Type) := {
  tk_timestamp : option datetime;
  tk_open : F; tk_high : F; tk_low : F; tk_close : F; tk_volume : F
}.
Arguments tk_timestamp {F}. Arguments tk_open {F}. Arguments tk_high {F}. Arguments tk_low {F}.
Arguments tk_close {F}. Arguments tk_volume {F}.

(** A file: not there, not readable or not JSON, or its document. *)
Inductive FileRead (F : Type) :=
| Missing
| Unparseable (message : string)
| Broken (message : string)      (** an error of the file system other than its absence *)
| Document (doc : json F).
Arguments Missing {F}. Arguments Unparseable {F}. Arguments Broken {F}. Arguments Document {F}.

(** What answers from outside the process. *)
Record Feeds (F : Type) := {
  (** the bars of a symbol: crypto or stock, daily ([None]) or of so many minutes *)
  alpaca_bars : bool -> string -> option Z -> datetime -> datetime -> result string (list (Tick F));
  alpaca_trade : bool -> string -> result string (option (F * option datetime));
  (** [Ticker(symbol).history(period, interval)] *)
  yahoo_rows : string -> string -> string -> result string (list (Tick F));
  read_file : string -> FileRead F
}.
Arguments alpaca_bars {F}. Arguments alpaca_trade {F}. Arguments yahoo_rows {F}. Arguments read_file {F}.

Definition ends_with (suffix s : string) : bool :=
  let n := String.length s in let k := String.length suffix in
  (k <=? n)%nat && String.eqb (String.substring (n - k) k s) suffix.

Definition contains (c : ascii) (s : string) : bool := existsb (Ascii.eqb c) (list_ascii_of_string s).

(** [s.replace(a, b)] of characters. *)
Definition replace_char (a b : ascii) (s : string) : string :=
  map_string (fun c => if Ascii.eqb c a then b else c) s.

Definition day : Z := 86400000000.

Section fetchers.
Context {F : Type} `{PyFloat F}.
Context (float_of : string -> option F).
(** [fromisoformat(str(v))] as UTC, and of the text with Z as +00:00. *)
Context (iso_of iso_of_z : json F -> option datetime).
Context (w : Feeds F).
Context (now : datetime).

Definition is_crypto (symbol : string) : bool :=
  contains "/" symbol || (ends_with "USD" (upper symbol) && (4 <? String.length symbol)%nat).

Definition bar_at (symbol : string) (t : Tick F) : OHLCVBar F :=
  {| ob_symbol := symbol; ob_timestamp := default now (tk_timestamp t); ob_open := tk_open t;
     ob_high := tk_high t; ob_low := tk_low t; ob_close := tk_close t; ob_volume := tk_volume t |}.
Definition by_timestamp (a b : OHLCVBar F) : bool := ob_timestamp a <=? ob_timestamp b.
Definition series_of (symbol : string) (ticks : list (Tick F)) : list (OHLCVBar F) :=
  sort_by by_timestamp (map (bar_at symbol) ticks).

Definition unavailable {A} (what symbol : string) (r : result string A) : result FetchError A :=
  match r with
  | Ok x => Ok x
  | Err e => Err (Unavailable (what +:+ " failed for " +:+ symbol +:+ ": " +:+ e))
  end.

Definition alpaca_fetch (symbol : string) (period_days : Z) : result FetchError (list (OHLCVBar F)) :=
  unavailable "Alpaca fetch" symbol
    (series_of symbol <$> alpaca_bars w (is_crypto symbol) symbol None (now - period_days * day) now).
Definition alpaca_fetch_intraday (symbol : string) (period_days minutes : Z) : result FetchError (list (OHLCVBar F)) :=
  unavailable "Alpaca intraday fetch" symbol
    (series_of symbol <$> alpaca_bars w (is_crypto symbol) symbol (Some minutes) (now - period_days * day) now).
(** An error is no price. *)
Definition alpaca_latest (symbol : string) : result FetchError (option (PriceSnapshot F)) :=
  match alpaca_trade w (is_crypto symbol) symbol with
  | Ok (Some (price, stamp)) =>
      Ok (Some {| ps_symbol := symbol; ps_price := price; ps_timestamp := default now stamp; ps_source := "alpaca_trade" |})
  | _ => Ok None
  end.
Definition AlpacaFetcher : Fetcher F :=
  {| ft_name := "AlpacaFetcher"; ft_fetch := alpaca_fetch; ft_intraday := alpaca_fetch_intraday;
     ft_latest := alpaca_latest |}.

Definition _history (symbol period interval : string) : result FetchError (list (OHLCVBar F)) :=
  match yahoo_rows w (replace_char "/" "-" symbol) period interval with
  | Err e => Err (Unavailable ("Yahoo Finance fetch failed for " +:+ symbol +:+ ": " +:+ e))
  | Ok [] => Err (Unavailable ("Yahoo Finance returned no " +:+ interval +:+ " data for " +:+ symbol))
  | Ok rows => Ok (series_of symbol rows)
  end.

Definition max_from (d : Z) (l : list Z) : Z := match l with [] => d | x :: l => foldl Z.max x l end.
Definition _nearest_yahoo_interval (minutes : Z) : Z :=
  if existsb (Z.eqb minutes) YAHOO_SUPPORTED_MINUTES then minutes
  else max_from 1 (List.filter (fun m => m <=? minutes) YAHOO_SUPPORTED_MINUTES).

Definition yahoo_window (minutes period_days : Z) : Z :=
  Z.max 1 (Z.min period_days (default 59 (YAHOO_INTRADAY_MAX_DAYS minutes))).
Definition yahoo_fetch (symbol : string) (period_days : Z) : result FetchError (list (OHLCVBar F)) :=
  _history symbol (str_of_Z period_days +:+ "d") "1d".
Definition yahoo_fetch_intraday (symbol : string) (period_days timeframe_minutes : Z) : result FetchError (list (OHLCVBar F)) :=
  let minutes := _nearest_yahoo_interval timeframe_minutes in
  _history symbol (str_of_Z (yahoo_window minutes period_days) +:+ "d") (str_of_Z minutes +:+ "m").
Definition yahoo_latest (symbol : string) : result FetchError (option (PriceSnapshot F)) :=
  match _history symbol "1d" "1m" with
  | Err (Other e) => Err (Other e)
  | Err (Unavailable _) => Ok None
  | Ok bars =>
      Ok ((fun b => {| ps_symbol := symbol; ps_price := ob_close b; ps_timestamp := ob_timestamp b;
                       ps_source := "yahoo_1m" |}) <$> last bars)
  end.
Definition YahooFinanceFetcher : Fetcher F :=
  {| ft_name := "YahooFinanceFetcher"; ft_fetch := yahoo_fetch; ft_intraday := yahoo_fetch_intraday;
     ft_latest := yahoo_latest |}.

(** *** FileDropFetcher *)

(** One row: [None] where a field is missing or is not what it should be. *)
Definition file_bar (symbol : string) (row : json F) : option (OHLCVBar F) :=
  stamp ← field "timestamp" row ≫= iso_of;
  o ← field "open" row ≫= json_float float_of;
  h ← field "high" row ≫= json_float float_of;
  l ← field "low" row ≫= json_float float_of;
  c ← field "close" row ≫= json_float float_of;
  v ← match field "volume" row with None => Some nzero | Some v => json_float float_of v end;
  Some {| ob_symbol := upper symbol; ob_timestamp := stamp; ob_open := o; ob_high := h; ob_low := l;
          ob_close := c; ob_volume := v |}.

Definition _read_bars (directory symbol timeframe : string) : result FetchError (list (OHLCVBar F)) :=
  let path := directory +:+ "/" +:+ upper symbol +:+ "_" +:+ timeframe +:+ ".json" in
  match read_file w path with
  | Missing => Err (Unavailable ("No bar file for " +:+ symbol +:+ " at " +:+ path))
  | Unparseable e => Err (Unavailable ("Unreadable bar file " +:+ path +:+ ": " +:+ e))
  | Broken e => Err (Other e)
  | Document doc =>
      match field "bars" doc with
      | None => Err (Unavailable ("Unreadable bar file " +:+ path))
      | Some rows =>
          match iterate rows with
          | None => Err (Other "object is not iterable")
          | Some rows =>
              match mapM (file_bar symbol) rows with
              | None => Err (Unavailable ("Malformed bar in " +:+ path))
              | Some [] => Err (Unavailable ("Bar file " +:+ path +:+ " is empty"))
              | Some bars => Ok (sort_by by_timestamp bars)
              end
          end
      end
  end.

Definition within (period_days : Z) (bars : list (OHLCVBar F)) : list (OHLCVBar F) :=
  List.filter (fun b => now - period_days * day <=? ob_timestamp b) bars.

Definition file_fetch (directory symbol : string) (period_days : Z) : result FetchError (list (OHLCVBar F)) :=
  bars ← _read_bars directory symbol "1d";
  match within period_days bars with
  | [] => Err (Unavailable ("No bars for " +:+ symbol +:+ " inside the last " +:+ str_of_Z period_days +:+ " day(s)"))
  | windowed => Ok windowed
  end.
Definition file_fetch_intraday (directory symbol : string) (period_days timeframe_minutes : Z)
    : result FetchError (list (OHLCVBar F)) :=
  within period_days <$> _read_bars directory symbol (str_of_Z timeframe_minutes +:+ "m").

(** The quote of a symbol and when it was made; [None] where it is not usable. *)
Definition quote_of (symbol : string) (doc : json F) : option (F * datetime) :=
  quote ← field "quotes" doc ≫= field (upper symbol);
  price ← field "price" quote ≫= json_float float_of;
  raw ← match field "ts" quote with Some v => Some v | None => field "timestamp" quote end;
  stamp ← match raw with JVal PNone => None | _ => iso_of_z raw end;
  Some (price, stamp).
Definition file_latest (directory symbol : string) : result FetchError (option (PriceSnapshot F)) :=
  match read_file w (directory +:+ "/quotes.json") with
  | Broken e => Err (Other e)
  | Missing | Unparseable _ => Ok None
  | Document doc =>
      match quote_of symbol doc with
      | None => Ok None
      | Some (price, stamp) =>
          if nleb price nzero then Ok None
          else Ok (Some {| ps_symbol := upper symbol; ps_price := price; ps_timestamp := stamp; ps_source := "file_quote" |})
      end
  end.
Definition FileDropFetcher (directory : string) : Fetcher F :=
  {| ft_name := "FileDropFetcher"; ft_fetch := file_fetch directory; ft_intraday := file_fetch_intraday directory;
     ft_latest := file_latest directory |}.

Definition get_fetcher environ (s : MarketDataSettings) : result FetchError (Fetcher F) :=
  if String.eqb (lower (getenv environ "MARKET_DATA_PROVIDER" "")) "file" then
    let directory := strip (getenv environ "MARKET_DATA_FILE_DIR" "") in
    if negb (str_true directory) then Err (Unavailable "MARKET_DATA_PROVIDER=file requires MARKET_DATA_FILE_DIR")
    else Ok (FileDropFetcher directory)
  else if has_alpaca_credentials s then Ok AlpacaFetcher else Ok YahooFinanceFetcher.
End fetchers.

(** ** fetch_bars *)

(** How one write of the archive goes. *)
Record Archiving := { ar_uuid : string; ar_now : datetime; ar_decision : io; ar_number : io; ar_insert : io }.

Section fetching.
Context {F : Type} `{PyFloat F}.
Context (payload_hash : F -> F -> F -> F -> F -> string).
Context (float_of : string -> option F).
Context (iso_of iso_of_z : json F -> option datetime).
Context (w : Feeds F).
Context (now : datetime).
Context (io_of : Archiving).
Implicit Types j : Journal F.

Definition bar_in (b : OHLCVBar F) : BarIn F :=
  {| in_timestamp := Some (ob_timestamp b); in_ohlc := Some (ob_open b, ob_high b, ob_low b, ob_close b);
     in_volume := Some (ob_volume b) |}.
Definition _archive (symbol : string) (bars : list (OHLCVBar F)) (timeframe source : string) j : Journal F :=
  snd (record_bars payload_hash symbol timeframe (map bar_in bars) source (JDict []) (ar_uuid io_of) (ar_now io_of)
         (ar_decision io_of) (ar_number io_of) (ar_insert io_of) j).

Definition is_alpaca (f : Fetcher F) : bool := String.eqb (ft_name f) "AlpacaFetcher".
Definition minutes_of (s : MarketDataSettings) : string := str_of_Z (intraday_minutes s) +:+ "m".

Definition serve (symbol timeframe source : string) (r : result FetchError (list (OHLCVBar F))) j
    : result FetchError (list (OHLCVBar F)) * Journal F :=
  match r with
  | Ok bars => (Ok bars, _archive symbol bars timeframe source j)
  | Err e => (Err e, j)
  end.

Definition fetch_bars environ (s : MarketDataSettings) (symbol : string) j
    : result FetchError (list (OHLCVBar F)) * Journal F :=
  match get_fetcher float_of iso_of iso_of_z w now environ s with
  | Err e => (Err e, j)
  | Ok fetcher =>
      let daily := ft_fetch fetcher symbol (default_lookback_days s) in
      if negb (is_intraday s) then serve symbol "1d" (ft_name fetcher) daily j else
      match ft_intraday fetcher symbol (intraday_lookback_days s) (intraday_minutes s) with
      | Ok intraday => serve symbol (minutes_of s) (ft_name fetcher) (Ok intraday) j
      | Err (Other e) => (Err (Other e), j)
      | Err (Unavailable _) =>
          if is_alpaca fetcher then
            match yahoo_fetch_intraday w now symbol (intraday_lookback_days s) (intraday_minutes s) with
            | Ok fallback => serve symbol (minutes_of s) "YahooFinanceFetcher" (Ok fallback) j
            | Err (Other e) => (Err (Other e), j)
            | Err (Unavailable _) => serve symbol "1d" (ft_name fetcher) daily j
            end
          else serve symbol "1d" (ft_name fetcher) daily j
      end
  end.

Definition latest_price environ (s : MarketDataSettings) (symbol : string)
    : result FetchError (option (PriceSnapshot F)) :=
  fetcher ← get_fetcher float_of iso_of iso_of_z w now environ s;
  snapshot ← ft_latest fetcher symbol;
  match snapshot with
  | Some snapshot => Ok (Some snapshot)
  | None => if is_alpaca fetcher then yahoo_latest w now symbol else Ok None
  end.
End fetching.

(** ** Theorems *)

Section theorems.
Context {F : Type} `{HF : PyFloat F}.

Lemma sorted_snoc {A} (R : A -> A -> Prop) l x y : StronglySorted R (l ++ [x]) -> y ∈ l -> R y x.
Proof.
  induction l as [|z l IH]; [by intros _ ?%not_elem_of_nil|]. cbn.
  intros [Hl Hz]%StronglySorted_inv. rewrite elem_of_cons. intros [->|Hy]; [|auto].
  rewrite List.Forall_forall in Hz. apply Hz, in_or_app. right. by left.
Qed.

(** A window that is not empty ends with the newest bar. *)
Lemma last_within now days (l : list (OHLCVBar F)) :
  StronglySorted (fun a b => ob_timestamp a <= ob_timestamp b) l -> within now days l <> [] ->
  last (within now days l) = last l.
Proof.
  unfold within. destruct l as [|x l _] using rev_ind; [done|]. intros Hs.
  rewrite List.filter_app, last_snoc. cbn [List.filter].
  destruct (_ <=? ob_timestamp x) eqn:Ex; [by rewrite last_snoc|]. rewrite app_nil_r. intros Hne. destruct Hne.
  destruct (List.filter _ l) as [|y rest] eqn:Ef; [done|]. exfalso.
  assert (y ∈ List.filter (fun b => now - days * day <=? ob_timestamp b) l) as Hy by (rewrite Ef; constructor).
  apply elem_of_filter_b in Hy as [Hy Hw]. pose proof (sorted_snoc _ _ _ _ Hs Hy). cbn in *. lia.
Qed.
End theorems.

(** Files fail closed. A series served from a file is every row of the file, none dropped and
    none made up, in order of time and at least one; what is served of it is what is
    inside the window, and for daily bars at least one is; and a quote is served only
    with the date and the price of the file, and never one at or below zero. *)
Theorem file_drop_fails_closed {F} `{PyFloat F} float_of iso_of iso_of_z (w : Feeds F) now directory symbol :
  (forall timeframe bars, _read_bars float_of iso_of w directory symbol timeframe = Ok bars ->
     exists doc list_ rows parsed,
       read_file w (directory +:+ "/" +:+ upper symbol +:+ "_" +:+ timeframe +:+ ".json") = Document doc /\
       field "bars" doc = Some list_ /\ iterate list_ = Some rows /\
       map Some parsed = map (file_bar float_of iso_of symbol) rows /\ bars ≡ₚ parsed /\ bars <> [] /\
       StronglySorted (fun a b => ob_timestamp a <= ob_timestamp b) bars) /\
  (forall days bars, file_fetch float_of iso_of w now directory symbol days = Ok bars ->
     bars <> [] /\ Forall (fun b => now - days * day <= ob_timestamp b) bars /\
     exists all, _read_bars float_of iso_of w directory symbol "1d" = Ok all /\ last bars = last all) /\
  (forall s, file_latest float_of iso_of_z w directory symbol = Ok (Some s) ->
     exists doc, read_file w (directory +:+ "/quotes.json") = Document doc /\
       quote_of float_of iso_of_z symbol doc = Some (ps_price s, ps_timestamp s) /\ nleb (ps_price s) nzero = false).
Proof.
  assert (forall timeframe bars, _read_bars float_of iso_of w directory symbol timeframe = Ok bars ->
     exists doc list_ rows parsed,
       read_file w (directory +:+ "/" +:+ upper symbol +:+ "_" +:+ timeframe +:+ ".json") = Document doc /\
       field "bars" doc = Some list_ /\ iterate list_ = Some rows /\
       map Some parsed = map (file_bar float_of iso_of symbol) rows /\ bars ≡ₚ parsed /\ bars <> [] /\
       StronglySorted (fun a b => ob_timestamp a <= ob_timestamp b) bars) as Hread.
  { intros timeframe bars. unfold _read_bars. cbv zeta. destruct (read_file w _) as [| | |doc] eqn:Ed; [done..|].
    destruct (field "bars" doc) as [list_|] eqn:Ef; [|done]. destruct (iterate list_) as [rows|] eqn:Ei; [|done].
    destruct (mapM _ rows) as [[|p parsed]|] eqn:Em; [done| |done]. intros Eb.
    assert (bars = sort_by by_timestamp (p :: parsed)) as -> by congruence. clear Eb.
    exists doc, list_, rows, (p :: parsed). repeat split; try done.
    - apply mapM_Some in Em. clear -Em. induction Em as [|x y l k Hxy _ IH]; [done|]. cbn [map]. by rewrite Hxy, IH.
    - apply sort_by_perm.
    - intros E. pose proof (sort_by_perm by_timestamp (p :: parsed)) as Hp. rewrite E in Hp.
      by apply Permutation_nil_cons in Hp.
    - apply sort_by_key_sorted. }
  split; [exact Hread|]. split.
  - intros days bars. unfold file_fetch. destruct (_read_bars _ _ _ _ _ _) as [all|] eqn:Er; [|done]. cbn.
    destruct (within now days all) as [|b windowed] eqn:Ew; [done|]. intros [= <-].
    split; [done|]. split.
    + rewrite <- Ew. apply Forall_forall. intros x Hx. unfold within in Hx.
      apply elem_of_filter_b in Hx as [_ Hx]. by apply Z.leb_le.
    + exists all. split; [done|]. rewrite <- Ew. apply last_within; [|by rewrite Ew].
      by destruct (Hread _ _ Er) as (_ & _ & _ & _ & _ & _ & _ & _ & _ & _ & Hs).
  - intros s. unfold file_latest. destruct (read_file w _) as [| | |doc] eqn:Ed; [done..|].
    destruct (quote_of _ _ _ doc) as [[price stamp]|] eqn:Eq; [|done].
    destruct (nleb price nzero) eqn:Ep; [done|]. intros [= <-]. by exists doc.
Qed.

(** Bars are served exactly where they are archived. What [fetch_bars] returns is archived
    under the cadence that was asked for, or as daily bars, with the provider that gave
    it; an error archives nothing. Under an intraday setting daily bars are served only
    where the provider had no intraday bars and, if that is Alpaca, Yahoo had none either. *)
Theorem fetch_archives_what_it_serves {F} `{PyFloat F} payload_hash float_of iso_of iso_of_z (w : Feeds F) now io_of
    environ s symbol (j : Journal F) :
  match fetch_bars payload_hash float_of iso_of iso_of_z w now io_of environ s symbol j with
  | (Err _, j') => j' = j
  | (Ok bars, j') => exists fetcher, get_fetcher float_of iso_of iso_of_z w now environ s = Ok fetcher /\
      let intraday := ft_intraday fetcher symbol (intraday_lookback_days s) (intraday_minutes s) in
      let fallback := yahoo_fetch_intraday w now symbol (intraday_lookback_days s) (intraday_minutes s) in
      exists timeframe source, j' = _archive payload_hash io_of symbol bars timeframe source j /\
        ((timeframe = minutes_of s /\ is_intraday s = true /\
            ((source = ft_name fetcher /\ intraday = Ok bars) \/ (source = "YahooFinanceFetcher" /\ fallback = Ok bars))) \/
         (timeframe = "1d" /\ source = ft_name fetcher /\ ft_fetch fetcher symbol (default_lookback_days s) = Ok bars /\
            (is_intraday s = true -> (exists e, intraday = Err (Unavailable e)) /\
               (is_alpaca fetcher = true -> exists e, fallback = Err (Unavailable e)))))
  end.
Proof.
  unfold fetch_bars. destruct (get_fetcher _ _ _ _ _ _ _) as [fetcher|e]; [|done]. cbv zeta.
  destruct (is_intraday s) eqn:Ei; cbn [negb].
  2: { destruct (ft_fetch _ _ _) as [bars|e] eqn:Ef; cbn [serve]; [|done].
       exists fetcher. split; [done|]. eexists _, _. split; [done|]. right. naive_solver. }
  destruct (ft_intraday _ _ _ _) as [bars|[e|e]] eqn:Eb; cbn [serve]; [|..|done].
  { exists fetcher. split; [done|]. eexists _, _. split; [done|]. left. naive_solver. }
  destruct (is_alpaca fetcher) eqn:Ea.
  - destruct (yahoo_fetch_intraday _ _ _ _ _) as [bars|[e'|e']] eqn:Ey; cbn [serve]; [|..|done].
    + exists fetcher. split; [done|]. eexists _, _. split; [done|]. left. naive_solver.
    + destruct (ft_fetch _ _ _) as [bars|e2] eqn:Ef; cbn [serve]; [|done].
      exists fetcher. split; [done|]. eexists _, _. split; [done|]. right. split_and!; [done..|]. intros _. split; by eexists.
  - destruct (ft_fetch _ _ _) as [bars|e2] eqn:Ef; cbn [serve]; [|done].
    exists fetcher. split; [done|]. eexists _, _. split; [done|]. right. split_and!; [done..|]. intros _. split; [by eexists|congruence].
Qed.

(** ** Concrete feeds *)

Module Vendors.
Definition at_ (minute : Z) : datetime := minute * 60000000.
Definition now : datetime := at_ 100000.
Definition tick (minute : Z) (p : spec_float) : Tick spec_float :=
  {| tk_timestamp := Some (at_ minute); tk_open := p; tk_high := p; tk_low := p; tk_close := p; tk_volume := nofZ 1 |}.
(** Yahoo serves what it is asked for; the other feeds are down. *)
Definition yahoo (_ _ interval : string) : result string (list (Tick spec_float)) :=
  if String.eqb interval "5m" then Ok [tick 99990 (nofZ 10); tick 99995 (nofZ 11)] else Err "no such interval".
Definition row (minute : Z) (p : json spec_float) : json spec_float :=
  JDict [("timestamp", JVal (PInt minute)); ("open", p); ("high", p); ("low", p); ("close", p)].
Definition files (path : string) : FileRead spec_float :=
  if String.eqb path "/feed/AAPL_1d.json" then
    Document (JDict [("bars", JList [row 99000 (JVal (PInt 11)); row 98000 (JVal (PInt 10))])])
  else if String.eqb path "/feed/AAPL_15m.json" then
    Document (JDict [("bars", JList [row 10 (JVal (PInt 10))])])
  else if String.eqb path "/feed/quotes.json" then
    Document (JDict [("quotes", JDict [("AAPL", JDict [("price", JVal (PFloat S754_nan)); ("ts", JVal (PInt 99999))])])])
  else Missing.
Definition feeds : Feeds spec_float :=
  {| alpaca_bars := fun _ _ _ _ _ => Err "down"; alpaca_trade := fun _ _ => Err "down";
     yahoo_rows := yahoo; read_file := files |}.
Definition iso (v : json spec_float) : option datetime :=
  match v with JVal (PInt minute) => Some (at_ minute) | _ => None end.
Definition float_of (_ : string) : option spec_float := None.
Definition hash (_ _ _ _ _ : spec_float) : string := "h".
Definition archiving : Archiving := {| ar_uuid := "u"; ar_now := now; ar_decision := None; ar_number := None; ar_insert := None |}.
Definition journal : Journal spec_float :=
  {| enabled := true; bars := []; prices := []; sentiments := []; headlines := [];
     researches := []; decisions := []; executions := [] |}.
Definition ten_minutes : gmap string string :=
  list_to_map [("MARKET_DATA_TIMEFRAME", "intraday"); ("INTRADAY_MINUTES", "10")].
Definition drop : gmap string string :=
  list_to_map [("MARKET_DATA_TIMEFRAME", "intraday"); ("MARKET_DATA_PROVIDER", "file"); ("MARKET_DATA_FILE_DIR", "/feed")].
Definition cadences (j : Journal spec_float) : list (string * datetime) :=
  map (fun b => (b_timeframe b, b_bar_ts b)) (bars j).
Definition fetched environ : result FetchError nat * list (string * datetime) :=
  match settings_from_env environ with
  | None => (Err (Other "settings"), [])
  | Some s =>
      let '(r, j) := fetch_bars hash float_of iso iso feeds now archiving environ s "AAPL" journal in
      (match r with Ok bs => Ok (List.length bs) | Err e => Err e end, cadences j)
  end.
End Vendors.

(** Asked for ten-minute bars, Yahoo is asked for five-minute ones, and they are archived as
    ten-minute bars. *)
Example snapped_bars_are_misfiled :
  Vendors.fetched Vendors.ten_minutes =
    (Ok 2%nat, [("10m", Vendors.at_ 99990); ("10m", Vendors.at_ 99995)]).
Proof. vm_compute. reflexivity. Qed.

(** A feeder that stopped writing intraday bars is an empty series and not an outage: the
    daily bars of the same directory are not tried. *)
Example stale_intraday_is_no_outage : Vendors.fetched Vendors.drop = (Ok 0%nat, []).
Proof. vm_compute. reflexivity. Qed.

(** A quote whose price is not a number is served. *)
Example nan_quote_is_served :
  file_latest Vendors.float_of Vendors.iso Vendors.feeds "/feed" "aapl" =
    Ok (Some {| ps_symbol := "AAPL"; ps_price := S754_nan; ps_timestamp := Vendors.at_ 99999; ps_source := "file_quote" |}).
Proof. vm_compute. reflexivity. Qed.

(** The rows of a file come back in order. *)
Example file_rows_are_sorted :
  (fun bs => map (fun b => ob_timestamp b) bs) <$> file_fetch Vendors.float_of Vendors.iso Vendors.feeds Vendors.now "/feed" "aapl" 5 =
    Ok [Vendors.at_ 98000; Vendors.at_ 99000].
Proof. vm_compute. reflexivity. Qed.

Lemma file_drop_fails_closed_witness :
  exists bars, file_fetch Vendors.float_of Vendors.iso Vendors.feeds Vendors.now "/feed" "aapl" 5 = Ok bars /\
    Forall (fun b => Vendors.now - 5 * day <= ob_timestamp b) bars.
Proof.
  destruct (file_drop_fails_closed Vendors.float_of Vendors.iso Vendors.iso Vendors.feeds Vendors.now "/feed" "aapl")
    as (_ & Hf & _).
  destruct (file_fetch Vendors.float_of Vendors.iso Vendors.feeds Vendors.now "/feed" "aapl" 5) as [bars|e] eqn:E;
    [|vm_compute in E; discriminate E].
  exists bars. split; [reflexivity|]. exact (proj1 (proj2 (Hf 5 bars E))).
Defined.
