(* ===== verification/Prices.v ===== *)
(** * The current price, the bar stream and the session clock

    Models [libs/market_data/src/market_data/realtime.py] (the cache, the source that
    resolves a price through three tiers, the stream manager), [stream.py] (the buffers and
    the reconnection) and [clock.py] (the session). The bar stream and other callers may
    record prices between any two accesses of the cache, which has a lock of its own: the
    accesses of a call are numbered, and [pw_others] is what is recorded before each. *)

From S2P Require Import Journal Indicators Prelude PyFloat Store Contracts Policy MarketData.
From Stdlib Require Import Floats.SpecFloat.

(** ** LivePriceCache *)

Section cache.
Context {F : Type} `{PyFloat F}.
Local Open Scope py_scope.

Abbreviation Cache := (gmap string (PriceSnapshot F)).
Implicit Types c : Cache.

Definition record (s : PriceSnapshot F) c : Cache := <[upper (ps_symbol s) := s]> c.
Definition bar_snapshot (b : OHLCVBar F) : PriceSnapshot F :=
  {| ps_symbol := ob_symbol b; ps_price := ob_close b; ps_timestamp := ob_timestamp b; ps_source := "stream_bar" |}.
Definition record_bar (b : OHLCVBar F) c : Cache := record (bar_snapshot b) c.
Definition peek (symbol : string) c : option (PriceSnapshot F) := c !! upper symbol.
Definition cache_get (symbol : string) (limit : F) (now : datetime) c : option (PriceSnapshot F) :=
  match peek symbol c with
  | None => None
  | Some s => if snapshot_age s now >? limit then None else Some s
  end.
Definition symbols c : list string := sort_by String.leb (map fst (map_to_list c)).
Definition clear c : Cache := ∅.

(** ** RealtimePriceSource *)

(** What a resolution is answered from outside: the clock at each reading, what others
    record in the cache before each access, whether a fetcher can be built and how it
    answers, and how the write of the archive goes. *)
Record PriceWorld := {
  pw_clock : nat -> datetime;
  pw_others : nat -> list (PriceSnapshot F);
  pw_fetcher : result FetchError (Fetcher F);
  pw_archive : io
}.

Record PriceState := { ps_cache : Cache; ps_journal : Journal F }.
Implicit Types st : PriceState.

Definition with_cache (f : Cache -> Cache) st : PriceState :=
  {| ps_cache := f (ps_cache st); ps_journal := ps_journal st |}.
(** The [n]th access of the cache, after what others recorded. *)
Definition access (w : PriceWorld) (n : nat) st : PriceState :=
  with_cache (fun c => foldl (fun c s => record s c) c (pw_others w n)) st.

Context (settings : MarketDataSettings).

Definition _from_last_bar (symbol : string) (fetcher : Fetcher F) : option (PriceSnapshot F) :=
  match (if is_intraday settings then ft_intraday fetcher symbol 1 (intraday_minutes settings)
         else ft_fetch fetcher symbol 1) with
  | Err _ => None
  | Ok bars =>
      (fun b => {| ps_symbol := symbol; ps_price := ob_close b; ps_timestamp := ob_timestamp b; ps_source := "last_bar" |})
        <$> last bars
  end.

Definition _archive_price (s : PriceSnapshot F) (accepted : bool) (now : datetime) (e : io) st : PriceState :=
  {| ps_cache := ps_cache st;
     ps_journal := record_price (ps_symbol s) (ps_price s) (Some (ps_timestamp s)) (ps_source s) accepted now e (ps_journal st) |}.

(** A snapshot in hand: cached unless a later one is held, judged, and its verdict archived. *)
Definition judge_snapshot (w : PriceWorld) (symbol : string) (limit : F) (s : PriceSnapshot F) st
    : option (PriceSnapshot F) * PriceState :=
  let st := access w 2 st in
  let prior := peek symbol (ps_cache st) in
  let keep := match prior with None => true | Some p => (ps_timestamp p <=? ps_timestamp s)%Z end in
  let st := if keep then with_cache (record s) (access w 3 st) else st in
  let accepted := snapshot_age s (pw_clock w 2) <=? limit in
  let st := _archive_price s accepted (pw_clock w 3) (pw_archive w) st in
  (if accepted then Some s else None, st).

(** Tiers 2 and 3. *)
Definition _resolve_uncached (w : PriceWorld) (symbol : string) (limit : F) st
    : option (PriceSnapshot F) * PriceState :=
  match pw_fetcher w with
  | Err _ => (None, st)
  | Ok fetcher =>
      match (match ft_latest fetcher symbol with Ok s => s | Err _ => None end) with
      | Some s => judge_snapshot w symbol limit s st
      | None =>
          let st := access w 1 st in
          match cache_get symbol limit (pw_clock w 1) (ps_cache st) with
          | Some cached => (Some cached, st)
          | None =>
              match _from_last_bar symbol fetcher with
              | None => (None, st)
              | Some s => judge_snapshot w symbol limit s st
              end
          end
      end
  end.

Definition FILL_CACHE_TOLERANCE_SECONDS : F := nofZ 5.

(** The cache within the tolerance, then the other tiers within the limit. *)
Definition resolve (w : PriceWorld) (symbol : string) (tolerance limit : F) st
    : option (PriceSnapshot F) * PriceState :=
  let st := access w 0 st in
  match cache_get symbol tolerance (pw_clock w 0) (ps_cache st) with
  | Some cached => (Some cached, st)
  | None => _resolve_uncached w symbol limit st
  end.

(** [limit] is the age limit of the settings, which is read at each call. *)
Definition get_snapshot (w : PriceWorld) (symbol : string) (limit : F) st := resolve w symbol limit limit st.
Definition _snapshot_with_tolerance (w : PriceWorld) (symbol : string) (tolerance limit : F) st :=
  resolve w symbol (nmin tolerance limit) limit st.
Definition get_price (w : PriceWorld) (symbol : string) (limit : F) st : option F * PriceState :=
  let '(s, st) := get_snapshot w symbol limit st in (ps_price <$> s, st).
Definition get_fresh_price (w : PriceWorld) (symbol : string) (limit : F) st : option F * PriceState :=
  let '(s, st) := _snapshot_with_tolerance w symbol FILL_CACHE_TOLERANCE_SECONDS limit st in (ps_price <$> s, st).
Definition age_seconds (w : PriceWorld) (symbol : string) (limit : F) st : option F * PriceState :=
  let '(s, st) := get_snapshot w symbol limit st in ((fun s => snapshot_age s (pw_clock w 4)) <$> s, st).
End cache.

(** ** StreamManager and AlpacaStreamFetcher *)

Section stream.
Context {F : Type} `{PyFloat F}.

Record Stream := {
  sm_symbols : list string;
  sm_buffers : gmap string (list (OHLCVBar F));
  sm_task : option bool;          (** the background task, and whether it is done *)
  sm_started_at : option datetime
}.

Definition running (m : Stream) : bool := match sm_task m with Some finished => negb finished | None => false end.

Definition stream_start (s : MarketDataSettings) (now : datetime) (m : Stream) : bool * Stream :=
  if negb (can_stream s) then (false, m)
  else if running m then (true, m)
  else match sm_symbols m with
  | [] => (false, m)
  | _ => (true, {| sm_symbols := sm_symbols m;
                   sm_buffers := list_to_map (map (fun x => (upper x, [])) (sm_symbols m));
                   sm_task := Some false; sm_started_at := Some now |})
  end.
Definition stream_stop (m : Stream) : Stream :=
  {| sm_symbols := sm_symbols m; sm_buffers := sm_buffers m; sm_task := None; sm_started_at := None |}.

(** A bar of the feed; [None] is one that could not be read. *)
Definition _handle_bar (buffer_size : nat) (b : option (OHLCVBar F)) (m : Stream) (c : gmap string (PriceSnapshot F))
    : Stream * gmap string (PriceSnapshot F) :=
  match b with
  | None => (m, c)
  | Some b =>
      let buffers := match sm_buffers m !! ob_symbol b with
        | Some held => <[ob_symbol b := last_n buffer_size (held ++ [b])]> (sm_buffers m)
        | None => sm_buffers m end in
      ({| sm_symbols := sm_symbols m; sm_buffers := buffers; sm_task := sm_task m; sm_started_at := sm_started_at m |},
       record_bar b c)
  end.

(** [bars[-n:]], and -0 is 0. *)
Definition latest_bars (symbol : string) (n : nat) (m : Stream) : list (OHLCVBar F) :=
  let bars := default [] (sm_buffers m !! upper symbol) in
  if (n <? length bars)%nat then (if (n =? 0)%nat then bars else last_n n bars) else bars.

(** How a connection ends. *)
Inductive connection := Closed | Cancelled | Failed.
(** What the reconnection does next. *)
Inductive reconnection := Connect | Sleep (seconds : Z) | GiveUp | Leave.

(** The loop, against the endings of its connections and whether a stop was asked for during
    each; what it did, in order. *)
Fixpoint _reconnect_loop (max_attempts attempt : nat) (ends : list (connection * bool)) : list reconnection :=
  match ends with
  | [] => [Connect]
  | (how, stopped) :: ends =>
      Connect :: match how with
      | Closed => if stopped then [Leave] else _reconnect_loop max_attempts 0 ends
      | Cancelled => [Leave]
      | Failed =>
          let attempt := S attempt in
          if (max_attempts <? attempt)%nat then [GiveUp]
          else Sleep (Z.min (2 ^ Z.of_nat attempt) 60) ::
               (if stopped then [Leave] else _reconnect_loop max_attempts attempt ends)
      end
  end.
End stream.

(** ** clock.py *)

Record MarketSession := { is_open : bool; ss_source : string; ss_reason : string }.

(** The time of a moment in New York: the weekday, and the microseconds since midnight.
    [None] is a database of time zones that is not there. *)
Record Zone := { zone : option (datetime -> Z * Z) }.

Section clock.
Context (tz : Zone).
Definition _REGULAR_OPEN : Z := (9 * 60 + 30) * 60000000.
Definition _REGULAR_CLOSE : Z := 16 * 60 * 60000000.

Definition _heuristic_session (now : datetime) : MarketSession :=
  match zone tz with
  | None => {| is_open := true; ss_source := "heuristic"; ss_reason := "timezone_database_unavailable" |}
  | Some eastern =>
      let '(weekday, time) := eastern now in
      if 5 <=? weekday then {| is_open := false; ss_source := "heuristic"; ss_reason := "weekend" |}
      else if negb ((_REGULAR_OPEN <=? time) && (time <=? _REGULAR_CLOSE)) then
        {| is_open := false; ss_source := "heuristic"; ss_reason := "outside_session_hours" |}
      else {| is_open := true; ss_source := "heuristic"; ss_reason := "holiday_calendar_not_checked" |}
  end.

(** The cached answer of the broker's clock and the monotonic microsecond it was read. *)
Definition ClockCache : Type := option (bool * Z).
Definition _CLOCK_CACHE_TTL : Z := 30000000.

Definition _alpaca_session (monotonic_now : Z) (clock : result string bool) (cache : ClockCache)
    : option MarketSession * ClockCache :=
  let poll := match clock with
    | Ok open => (Some {| is_open := open; ss_source := "alpaca_clock"; ss_reason := "" |}, Some (open, monotonic_now))
    | Err _ => (None, cache)
    end in
  match cache with
  | Some (open, at_) =>
      if monotonic_now - at_ <? _CLOCK_CACHE_TTL
      then (Some {| is_open := open; ss_source := "alpaca_clock_cached"; ss_reason := "" |}, cache)
      else poll
  | None => poll
  end.

Definition market_session (s : MarketDataSettings) (now : datetime) (monotonic_now : Z) (clock : result string bool)
    (cache : ClockCache) : MarketSession * ClockCache :=
  if has_alpaca_credentials s then
    let '(session, cache) := _alpaca_session monotonic_now clock cache in
    (default (_heuristic_session now) session, cache)
  else (_heuristic_session now, cache).

Definition reset_clock_cache : ClockCache := None.
End clock.

(** ** Prices are fresh *)

Section fresh.
Context {F : Type} `{HF : PyFloat F}.
Local Open Scope py_scope.
Implicit Types (st : PriceState (F := F)) (w : PriceWorld (F := F)) (s : PriceSnapshot F).

(** Not older than the limit, at one of the readings of the clock. *)
Definition fresh w (limit : F) s : Prop := exists n, (snapshot_age s (pw_clock w n) >? limit) = false.
(** The journal after a verdict. *)
Definition judged w s (accepted : bool) (j : Journal F) : Journal F :=
  record_price (ps_symbol s) (ps_price s) (Some (ps_timestamp s)) (ps_source s) accepted (pw_clock w 3) (pw_archive w) j.

Lemma cache_get_spec symbol (limit : F) now c s :
  cache_get symbol limit now c = Some s -> peek symbol c = Some s /\ (snapshot_age s now >? limit) = false.
Proof. unfold cache_get. destruct (peek symbol c) as [s'|]; [|done]. destruct (_ >? _) eqn:E; [done|]. by intros [= <-]. Qed.

Lemma judge_spec w symbol limit s st r st' :
  judge_snapshot w symbol limit s st = (r, st') ->
  let accepted := snapshot_age s (pw_clock w 2) <=? limit in
  r = (if accepted then Some s else None) /\ ps_journal st' = judged w s accepted (ps_journal st).
Proof. unfold judge_snapshot. cbv zeta. intros [= <- <-]. split; [done|]. by destruct (match peek _ _ with Some _ => _ | None => _ end). Qed.

(** What a resolution answers: from the cache, or with a verdict in the journal. *)
Inductive answered w (tolerance limit : F) st : option (PriceSnapshot F) -> Journal F -> Prop :=
| FromCache s n : (snapshot_age s (pw_clock w n) >? tolerance) = false \/ (snapshot_age s (pw_clock w n) >? limit) = false ->
    answered w tolerance limit st (Some s) (ps_journal st)
| Accepted s : (snapshot_age s (pw_clock w 2) <=? limit) = true ->
    answered w tolerance limit st (Some s) (judged w s true (ps_journal st))
| Refused s : (snapshot_age s (pw_clock w 2) <=? limit) = false ->
    answered w tolerance limit st None (judged w s false (ps_journal st))
| NoPrice : answered w tolerance limit st None (ps_journal st).

Lemma judge_answered w symbol tolerance limit s st st0 r st' :
  judge_snapshot w symbol limit s st = (r, st') -> ps_journal st = ps_journal st0 ->
  answered w tolerance limit st0 r (ps_journal st').
Proof.
  intros Hj Ej. apply judge_spec in Hj as [-> ->]. rewrite Ej.
  destruct (_ <=? _) eqn:E; [by apply Accepted|by apply Refused].
Qed.

Lemma resolve_answered settings w symbol tolerance limit st r st' :
  resolve settings w symbol tolerance limit st = (r, st') -> answered w tolerance limit st r (ps_journal st').
Proof.
  unfold resolve. cbv zeta. destruct (cache_get _ _ _ _) as [s|] eqn:Ec.
  { intros [= <- <-]. cbn [ps_journal access with_cache]. apply cache_get_spec in Ec as [_ Ec]. by apply (FromCache _ _ _ _ _ 0); left. }
  unfold _resolve_uncached. destruct (pw_fetcher w) as [fetcher|e]; [|intros [= <- <-]; cbn [ps_journal access with_cache]; apply NoPrice].
  destruct (match ft_latest fetcher symbol with Ok s => s | Err _ => None end) as [s|].
  { intros Hj. by eapply judge_answered. }
  cbv zeta. destruct (cache_get _ limit _ _) as [s|] eqn:Ec'.
  { intros [= <- <-]. cbn [ps_journal access with_cache]. apply cache_get_spec in Ec' as [_ Ec']. by apply (FromCache _ _ _ _ _ 1); right. }
  destruct (_from_last_bar settings symbol fetcher) as [s|]; [|intros [= <- <-]; cbn [ps_journal access with_cache]; apply NoPrice].
  intros Hj. by eapply judge_answered.
Qed.

Context `{HL : !PyFloatLaws F}.

Lemma age_ordered s now : nord (snapshot_age s now) = true.
Proof using HL. unfold snapshot_age, nmax, total_seconds, nzero. destruct (_ >? _); apply nord_nlit. Qed.

Lemma fresh_weaken (age tolerance limit : F) : nord age = true -> nord tolerance = true ->
  (age >? nmin tolerance limit) = false -> (age >? limit) = false.
Proof using HL.
  intros Ha Ho. unfold nmin. destruct (limit <? tolerance) eqn:El; [done|]. intros Ht.
  destruct (limit <? age) eqn:E; [|done]. exfalso.
  destruct (nleb_nord _ _ (nltb_nleb _ _ E)) as [Hol _].
  pose proof (nord_total _ _ Hol Ho El) as Hle. pose proof (nord_total _ _ Ho Ha Ht) as Hat.
  pose proof (nleb_nltb _ _ (nleb_trans _ _ _ Hat Hle)). congruence.
Qed.

Lemma tolerance_bounds (age tolerance limit : F) : nord age = true ->
  (age >? nmin tolerance limit) = false -> (age >? tolerance) = false.
Proof using HL.
  intros Ha. unfold nmin. destruct (limit <? tolerance) eqn:El; [|done]. intros Ht.
  destruct (nleb_nord _ _ (nltb_nleb _ _ El)) as [Hol _].
  apply nleb_nltb. exact (nleb_trans _ _ _ (nord_total _ _ Hol Ha Ht) (nltb_nleb _ _ El)).
Qed.

Lemma answered_fresh w tolerance limit st r j :
  (forall s n, (snapshot_age s (pw_clock w n) >? tolerance) = false -> (snapshot_age s (pw_clock w n) >? limit) = false) ->
  answered w tolerance limit st r j ->
  (forall s, r = Some s -> fresh w limit s) /\
  (j = ps_journal st \/ exists s, j = judged w s (match r with Some _ => true | None => false end) (ps_journal st) /\
     match r with Some s' => s' = s | None => (snapshot_age s (pw_clock w 2) <=? limit) = false end).
Proof using HL.
  intros Hw. destruct 1 as [s n Hf|s Hf|s Hf|]; (split; [|eauto 6]).
  - intros s' [= <-]. exists n. destruct Hf; auto.
  - intros s' [= <-]. exists 2%nat. by apply nleb_nltb.
  - done.
  - done.
Qed.
End fresh.


(** ** The resolver keeps the later observation *)

Section later.
Context {F : Type} `{HF : PyFloat F}.
Implicit Types (st : PriceState (F := F)) (w : PriceWorld (F := F)) (s : PriceSnapshot F).

(** A fetcher answers about the symbol it is asked. *)
Definition about (f : Fetcher F) : Prop :=
  forall symbol s, ft_latest f symbol = Ok (Some s) -> upper (ps_symbol s) = upper symbol.

Lemma fetchers_answer_about float_of iso_of iso_of_z (v : Feeds F) now environ settings f :
  get_fetcher float_of iso_of iso_of_z v now environ settings = Ok f -> about f.
Proof.
  unfold get_fetcher. intros Hf symbol s.
  assert (f = AlpacaFetcher v now \/ f = YahooFinanceFetcher v now \/
    exists d, f = FileDropFetcher float_of iso_of iso_of_z v now d) as [->|[->|[d ->]]].
  { destruct (String.eqb _ _); [destruct (negb _); [done|]|destruct (has_alpaca_credentials _)];
      injection Hf as <-; eauto. }
  - cbn. unfold alpaca_latest. destruct (alpaca_trade _ _ _) as [[[p t]|]|]; [|done..]. by intros [= <-].
  - cbn. unfold yahoo_latest. destruct (_history _ _ _ _ _) as [bars|[e|e]]; [|done..].
    destruct (last bars) as [b|]; [|done]. by intros [= <-].
  - cbn. unfold file_latest. destruct (read_file _ _) as [| | |doc]; [done..|].
    destruct (quote_of _ _ _ _) as [[p t]|]; [|done]. destruct (nleb p nzero); [done|]. intros [= <-].
    apply upper_idemp.
Qed.

(** Nothing held is replaced by something observed earlier. *)
Definition keeps_later (c c' : gmap string (PriceSnapshot F)) : Prop :=
  forall k old, c !! k = Some old -> exists new, c' !! k = Some new /\ ps_timestamp old <= ps_timestamp new.

Lemma keeps_later_refl c : keeps_later c c.
Proof. intros k old Hk. by exists old. Qed.

Lemma access_alone w n st : pw_others w n = [] -> access w n st = st.
Proof. unfold access, with_cache. intros ->. by destruct st. Qed.

Lemma judge_keeps w symbol limit s st r st' :
  (forall n, pw_others w n = []) -> upper (ps_symbol s) = upper symbol ->
  judge_snapshot w symbol limit s st = (r, st') -> keeps_later (ps_cache st) (ps_cache st').
Proof.
  intros Ho Hs. unfold judge_snapshot. rewrite !access_alone by apply Ho. unfold peek. intros [= _ <-].
  cbn [ps_cache _archive_price]. destruct (ps_cache st !! upper symbol) as [p|] eqn:Ep.
  - destruct (Z.leb_spec (ps_timestamp p) (ps_timestamp s)) as [Hle|]; [|apply keeps_later_refl].
    cbn. intros k old Hk. unfold record. destruct (decide (upper (ps_symbol s) = k)) as [<-|Hne].
    + rewrite lookup_insert_eq. exists s. split; [done|]. rewrite Hs, Ep in Hk. by injection Hk as ->.
    + rewrite lookup_insert_ne by done. by exists old.
  - cbn. intros k old Hk. unfold record. rewrite lookup_insert_ne by congruence. by exists old.
Qed.
End later.

(** Where nothing else writes, resolving a price never replaces what is held of a symbol by an
    earlier observation, whichever of the three providers is configured. *)
Theorem resolver_keeps_the_later {F} `{PyFloat F} float_of iso_of iso_of_z (v : Feeds F) now environ settings
    (w : PriceWorld) symbol tolerance limit st r st' :
  (forall n, pw_others w n = []) ->
  pw_fetcher w = get_fetcher float_of iso_of iso_of_z v now environ settings ->
  resolve settings w symbol tolerance limit st = (r, st') -> keeps_later (ps_cache st) (ps_cache st').
Proof.
  intros Ho Hf. unfold resolve, _resolve_uncached. rewrite !access_alone by apply Ho. cbv zeta.
  destruct (cache_get _ _ _ _) as [s|]; [intros [= _ <-]; apply keeps_later_refl|].
  destruct (pw_fetcher w) as [fetcher|e] eqn:Ef; [|intros [= _ <-]; apply keeps_later_refl].
  pose proof (fetchers_answer_about _ _ _ _ _ _ _ _ (eq_sym Hf)) as Ha.
  destruct (ft_latest fetcher symbol) as [[s|]|] eqn:El; [by apply judge_keeps; [|apply Ha]|..].
  all: destruct (cache_get _ _ _ _) as [s|]; [intros [= _ <-]; apply keeps_later_refl|].
  all: destruct (_from_last_bar _ _ _) as [s|] eqn:Eb; [|intros [= _ <-]; apply keeps_later_refl].
  all: apply judge_keeps; [done|]; unfold _from_last_bar in Eb.
  all: destruct (if is_intraday settings then _ else _) as [bars|]; [|done].
  all: destruct (last bars) as [b|]; [|done]; by injection Eb as <-.
Qed.

(** ** The clock *)

(** A poll of the session: the time of day, the monotonic clock and what the broker said. *)
Record Poll := { po_now : datetime; po_mono : Z; po_clock : result string bool }.

Section polls.
Context (tz : Zone) (s : MarketDataSettings).

Definition poll (acc : list MarketSession * ClockCache) (p : Poll) : list MarketSession * ClockCache :=
  let '(answer, cache) := market_session tz s (po_now p) (po_mono p) (po_clock p) (snd acc) in
  (fst acc ++ [answer], cache).
Definition polls (l : list Poll) : list MarketSession * ClockCache := foldl poll ([], None) l.

(** The cached answer is the broker's, at a poll. *)
Definition cache_read (l : list Poll) (cache : ClockCache) : Prop :=
  match cache with
  | None => True
  | Some (open, at_) => exists p, p ∈ l /\ po_clock p = Ok open /\ po_mono p = at_
  end.

(** An answer at a poll: the heuristic of the moment, or what the broker's clock said at this
    poll or at one less than thirty seconds before. *)
Definition grounded (l : list Poll) (p : Poll) (a : MarketSession) : Prop :=
  a = _heuristic_session tz (po_now p) \/
  exists q, q ∈ l /\ po_clock q = Ok (is_open a) /\ po_mono p - po_mono q < _CLOCK_CACHE_TTL.

Lemma session_grounded l p cache a cache' : cache_read l cache ->
  market_session tz s (po_now p) (po_mono p) (po_clock p) cache = (a, cache') ->
  grounded (l ++ [p]) p a /\ cache_read (l ++ [p]) cache'.
Proof.
  intros Hc. assert (cache_read (l ++ [p]) cache) as Hc'.
  { destruct cache as [[open t]|]; [|done]. destruct Hc as (q & Hq & Hr). exists q. split; [|done]. apply elem_of_app. by left. }
  assert (p ∈ l ++ [p]) as Hp by (apply elem_of_app; right; constructor).
  unfold market_session. destruct (has_alpaca_credentials s).
  2: { intros [= <- <-]. split; [by left|done]. }
  assert (forall open, po_clock p = Ok open ->
    grounded (l ++ [p]) p {| is_open := open; ss_source := "alpaca_clock"; ss_reason := "" |} /\
    cache_read (l ++ [p]) (Some (open, po_mono p))) as Hnew.
  { intros open Ho. split; [right|]; exists p; [|done]. split; [done|]. split; [done|]. unfold _CLOCK_CACHE_TTL. lia. }
  unfold _alpaca_session. destruct cache as [[open t]|].
  - destruct (Z.ltb_spec (po_mono p - t) _CLOCK_CACHE_TTL) as [Ht|Ht].
    + intros [= <- <-]. split; [right|done]. destruct Hc' as (q & Hq & Ho & Hm). exists q. cbn. by subst t.
    + destruct (po_clock p) as [o|e] eqn:Eo; intros [= <- <-]; [by apply Hnew|split; [by left|done]].
  - destruct (po_clock p) as [o|e] eqn:Eo; intros [= <- <-]; [by apply Hnew|split; [by left|done]].
Qed.
End polls.

(** The session is the broker's or says it is a guess: at any poll of any sequence, the answer
    is what the broker's clock said at that poll or less than thirty seconds before, or else
    the heuristic, which is open on weekdays from half past nine to four in New York (and,
    without a database of time zones, always). *)
Theorem session_is_recent tz s (l : list Poll) :
  Forall2 (fun p a => grounded tz l p a) l (fst (polls tz s l)) /\
  (forall now eastern, zone tz = Some eastern ->
     is_open (_heuristic_session tz now) = true <->
     fst (eastern now) < 5 /\ _REGULAR_OPEN <= snd (eastern now) <= _REGULAR_CLOSE).
Proof.
  split.
  - assert (Forall2 (fun p a => grounded tz l p a) l (fst (polls tz s l)) /\ cache_read l (snd (polls tz s l))) as [? _]; [|done].
    induction l as [|p l [IH Hc]] using rev_ind; [done|]. unfold polls. rewrite foldl_app. cbn [foldl]. fold (polls tz s l).
    unfold poll. destruct (market_session _ _ _ _ _ _) as [a cache'] eqn:Em. cbn [fst snd].
    destruct (session_grounded tz s l p _ _ _ Hc Em) as [Hg Hc']. split; [|done].
    apply Forall2_app; [|by constructor]. eapply Forall2_impl; [exact IH|].
    intros q b [?|(q' & Hq & Hr)]; [by left|right]. exists q'. split; [|done]. apply elem_of_app. by left.
  - intros now eastern Hz. unfold _heuristic_session. rewrite Hz. destruct (eastern now) as [wd t]. cbn [fst snd].
    destruct (Z.leb_spec 5 wd); cbn; [split; [done|lia]|].
    destruct (Z.leb_spec _REGULAR_OPEN t), (Z.leb_spec t _REGULAR_CLOSE); cbn; (split; [done|lia]) || (split; [lia|done]) || idtac.
    all: split; [intros; lia|done].
Qed.

(** ** The reconnection *)

(** It waits between two seconds and a minute, and gives up only after more failures in a row
    than it is allowed. *)
Definition failed_run (n : nat) (ends : list (connection * bool)) : Prop :=
  exists before failed after, ends = before ++ failed ++ after /\ length failed = n /\
    Forall (fun e => fst e = Failed) failed.

Lemma failed_run_cons n e ends : failed_run n ends -> failed_run n (e :: ends).
Proof. intros (b & f & a & -> & Hn & Hf). by exists (e :: b), f, a. Qed.

Lemma reconnect_gives_up max_attempts ends : forall attempt, (attempt <= max_attempts)%nat ->
  GiveUp ∈ _reconnect_loop max_attempts attempt ends ->
  failed_run (S max_attempts) ends \/
  exists failed after, ends = failed ++ after /\ length failed = (S max_attempts - attempt)%nat /\
    Forall (fun e => fst e = Failed) failed.
Proof.
  induction ends as [|[how stopped] ends IH]; intros attempt Ha; cbn [_reconnect_loop].
  { by intros ?%list_elem_of_singleton. }
  rewrite elem_of_cons. intros [Hg|Hg]; [done|]. destruct how.
  - destruct stopped; [by apply list_elem_of_singleton in Hg|].
    destruct (IH 0%nat ltac:(lia) Hg) as [Hr|(f & a & -> & Hn & Hf)]; left; [by apply failed_run_cons|].
    apply failed_run_cons. exists [], f, a. split; [done|]. split; [lia|done].
  - by apply list_elem_of_singleton in Hg.
  - destruct (Nat.ltb_spec max_attempts (S attempt)) as [Hl|Hl].
    + right. exists [(Failed, stopped)], ends. split; [done|]. cbn. split; [lia|]. by constructor.
    + rewrite elem_of_cons in Hg. destruct Hg as [Hg|Hg]; [done|].
      destruct stopped; [by apply list_elem_of_singleton in Hg|].
      destruct (IH (S attempt) Hl Hg) as [Hr|(f & a & -> & Hn & Hf)]; [left; by apply failed_run_cons|right].
      exists ((Failed, false) :: f), a. split; [done|]. cbn. split; [lia|]. by constructor.
Qed.

(** The reconnection waits between two seconds and a minute, and gives up only after more
    connections in a row ended in an error than it is allowed. *)
Theorem reconnection_backs_off max_attempts ends :
  Forall (fun r => match r with Sleep n => 2 <= n <= 60 | _ => True end) (_reconnect_loop max_attempts 0 ends) /\
  (GiveUp ∈ _reconnect_loop max_attempts 0 ends -> failed_run (S max_attempts) ends).
Proof.
  split.
  - generalize 0%nat. induction ends as [|[how stopped] ends IH]; intros attempt; cbn [_reconnect_loop].
    { repeat constructor. }
    constructor; [done|]. destruct how; [destruct stopped; [by repeat constructor|apply IH]|by repeat constructor|].
    destruct (_ <? _)%nat; [by repeat constructor|]. constructor.
    + pose proof (Z.pow_le_mono_r 2 1 (Z.of_nat (S attempt)) ltac:(lia) ltac:(lia)). lia.
    + destruct stopped; [by repeat constructor|apply IH].
  - intros Hg. destruct (reconnect_gives_up max_attempts ends 0 ltac:(lia) Hg) as [|(f & a & -> & Hn & Hf)]; [done|].
    exists [], f, a. split; [done|]. split; [lia|done].
Qed.

(** ** Concrete prices *)

Module Ticks.
Definition at_ (second : Z) : datetime := second * 1000000.
Definition quote (p : Z) (second : Z) (source : string) : PriceSnapshot spec_float :=
  {| ps_symbol := "AAPL"; ps_price := nofZ p; ps_timestamp := at_ second; ps_source := source |}.
Definition provider (answer : option (PriceSnapshot spec_float)) : Fetcher spec_float :=
  {| ft_name := "fake"; ft_fetch := fun _ _ => Err (Unavailable "down"); ft_intraday := fun _ _ _ => Err (Unavailable "down");
     ft_latest := fun _ => Ok answer |}.
Definition world (second : Z) (others : nat -> list (PriceSnapshot spec_float)) (answer : option (PriceSnapshot spec_float))
    : PriceWorld :=
  {| pw_clock := fun _ => at_ second; pw_others := others; pw_fetcher := Ok (provider answer); pw_archive := None |}.
Definition alone (_ : nat) : list (PriceSnapshot spec_float) := [].
(** A quote a thousand seconds old. *)
Definition stale : PriceWorld := world 1000 alone (Some (quote 10 0 "file_quote")).
Definition state : PriceState := {| ps_cache := ∅; ps_journal := Vendors.journal |}.
Definition settings : option MarketDataSettings := settings_from_env ∅.
Definition ask (second : Z) (answer : option (PriceSnapshot spec_float)) (st : PriceState) : option (option spec_float * PriceState) :=
  (fun s => get_fresh_price s (world second alone answer) "aapl" (nofZ 120) st) <$> settings.
Definition bar (second p : Z) : OHLCVBar spec_float :=
  {| Indicators.ob_symbol := "AAPL"; ob_timestamp := at_ second; ob_open := nofZ p; ob_high := nofZ p; ob_low := nofZ p;
     ob_close := nofZ p; ob_volume := nofZ 1 |}.
End Ticks.

(** A quote dated in the future has age zero: it is served for as long as its date has not come
    and gone, and what the provider says in the meantime is never asked. *)
Example future_quote_is_always_fresh :
  let st := match Ticks.ask 0 (Some (Ticks.quote 10 90000 "file_quote")) Ticks.state with Some (_, st) => st | None => Ticks.state end in
  fst <$> Ticks.ask 86400 (Some (Ticks.quote 20 86400 "file_quote")) st = Some (Some (nofZ 10)).
Proof. vm_compute. reflexivity. Qed.

(** The stream writes without looking: a bar replaces a trade that was seen after it. *)
Example stream_bar_replaces_later_trade :
  let c := record_bar (Ticks.bar 60 10) (record (Ticks.quote 11 110 "alpaca_trade") ∅) in
  (fun s => (ps_price s, ps_timestamp s)) <$> peek "aapl" c = Some (nofZ 10, Ticks.at_ 60).
Proof. vm_compute. reflexivity. Qed.

(** The failures add up over connections that worked in between, because only an ending without
    an error resets the count. *)
Example eleven_failures_end_the_stream :
  List.last (_reconnect_loop 10 0 (repeat (Failed, false) 11)) Connect = GiveUp.
Proof. vm_compute. reflexivity. Qed.

(** [bars[-0:]] is every bar. *)
Example no_bars_is_all_bars :
  length (latest_bars "aapl" 0 {| sm_symbols := ["AAPL"]; sm_buffers := {["AAPL" := [Ticks.bar 1 1; Ticks.bar 2 2]]};
    sm_task := Some false; sm_started_at := None |}) = 2%nat.
Proof. vm_compute. reflexivity. Qed.

(** Without a database of time zones the market is always open. *)
Example no_zone_is_open : is_open (_heuristic_session {| zone := None |} 0) = true.
Proof. reflexivity. Qed.

