(* ===== verification/Pipeline.v ===== *)
(** * The AI pipeline of the strategy service

    Models [services/strategy-service/src/strategy_service/ai_pipeline.py]: what the model is
    asked, how its answer becomes a candidate, the sentiment and research that move its
    confidence, the rules that may answer first, and the rules it falls back to. The market
    data, the two services and the language model are answers of the outside ([AIWorld]),
    any of which may fail; a body they reply with is validated where it arrives, which may
    raise. Of the technical summary a candidate carries, only its moment is kept. *)

From S2P Require Import PyFloat Policy Json Store Contracts Indicators Strategies Signals Worker Prompts Prelude.
From Stdlib Require Import Ascii QArith Lqa Floats.SpecFloat.
Local Open Scope Z_scope.

(** A GET: no answer, or a status and the outcome of validating the body. *)
Inductive Fetch (A : Type) :=
| NoAnswer (exc : string)
| Status (code : Z) (body : result string A).
Arguments NoAnswer {A}. Arguments Status {A}.

(** [ResearchReport], as far as the pipeline reads it. *)
Record Research (F : Type) := {
  rr_sentiment : string;
  rr_headline_summary : string;
  rr_risk_factors : list string;
  rr_macro_context : string;
  rr_confidence_modifier : F
}.
Arguments rr_sentiment {F}. Arguments rr_headline_summary {F}. Arguments rr_risk_factors {F}.
Arguments rr_macro_context {F}. Arguments rr_confidence_modifier {F}.

Record AISettings (F : Type) := {
  prefer_deterministic : bool;
  fallback_to_deterministic : bool;
  sentiment_weight : F;
  sentiment_block_threshold : F;
  claude_model : string
}.
Arguments prefer_deterministic {F}. Arguments fallback_to_deterministic {F}. Arguments sentiment_weight {F}.
Arguments sentiment_block_threshold {F}. Arguments claude_model {F}.

Section pipeline.
Context {F : Type} `{HF : PyFloat F}.
Context (fpow : F -> F -> F).
(** [json.loads], the characters of a formatted message, and [float] of a text. *)
Context (loads : string -> option (json F)) (text : fstr F -> string) (float_of : string -> option F).
Local Open Scope py_scope.

(** What one call finds; a content block of the model may have no text. The fallback fetches
    the bars and the sentiment a second time. *)
Record AIWorld := {
  aw_uuid : string;
  aw_now : datetime;
  aw_source : string;
  aw_bars : result string (list (OHLCVBar F));
  aw_research : Fetch (Research F);
  aw_sentiment : Fetch F;
  aw_model : string -> string -> result string (list (option string));
  aw_bars_again : result string (list (OHLCVBar F));
  aw_sentiment_again : Fetch (json F)
}.
Implicit Types (w : AIWorld) (cfg : AISettings F) (prompt : PromptArtifact).

(** ** What is read *)

(** [_get_ta_summary]: an error is no data. *)
Definition _get_ta_summary (symbol : string) w : option (TASummary F) * option (list (OHLCVBar F)) :=
  match aw_bars w with
  | Err _ | Ok [] => (None, None)
  | Ok bars => (Some (build_ta_summary fpow symbol bars (aw_source w) (aw_now w)), Some bars)
  end.
Definition _get_research w : option (Research F) :=
  match aw_research w with Status 200 (Ok report) => Some report | _ => None end.
(** Never None: every failure is a score of zero. *)
Definition _get_sentiment w : F :=
  match aw_sentiment w with Status 200 (Ok score) => score | _ => nzero end.

(** ** What the model is asked *)

Definition newline : string := chr 10.
Definition technical_part (ta : option (TASummary F)) : fstr F :=
  match ta with
  | Some ta =>
      let ind := indicators ta in
      [Lit (newline +:+ "Technical Analysis:" +:+ newline +:+
            "  Trend: " +:+ trend_direction ta +:+ newline +:+
            "  Signal tags: " +:+ str_or (join ", " (signal_tags ta)) "none" +:+ newline +:+ "  RSI(14): ");
       Fmt ".1f" (rsi_14 ind); Lit (newline +:+ "  MACD histogram: "); Fmt ".6f" (macd_histogram ind);
       Lit (newline +:+ "  Bollinger position (0=lower,1=upper): "); Fmt ".2f" (bb_position ind);
       Lit (newline +:+ "  EMA20: "); Fmt ".2f" (ema_20 ind); Lit ", EMA50: "; Fmt ".2f" (ema_50 ind);
       Lit (newline +:+ "  Current price: "); Val (py_opt (current_price ta))]
  | None => lit (newline +:+ "Technical Analysis: Unavailable")
  end.
Definition research_part (research : option (Research F)) : string :=
  match research with
  | Some r =>
      newline +:+ "Research Context:" +:+ newline +:+
      "  Sentiment: " +:+ rr_sentiment r +:+ newline +:+
      "  Headlines: " +:+ rr_headline_summary r +:+ newline +:+
      "  Risk factors: " +:+ str_or (join "; " (take 3 (rr_risk_factors r))) "none" +:+ newline +:+
      "  Macro: " +:+ rr_macro_context r
  | None => newline +:+ "Research Context: Unavailable"
  end.
Definition context_block (symbol : string) (ta : option (TASummary F)) (research : option (Research F)) : string :=
  join newline ["Symbol: " +:+ symbol; text (technical_part ta); research_part research].
Definition user_message (symbol : string) (ta : option (TASummary F)) (research : option (Research F)) : string :=
  untrusted_block "market-and-research-context" (context_block symbol ta research) MAX_CHARS.

(** ** What it answers *)

Definition parse_error : json F :=
  JDict [("action", JStr "HOLD"); ("confidence", JVal (PFloat (nlit 1 2))); ("risk_score", JStr "MEDIUM");
         ("reasoning", JStr "parse error")].
Definition _parse_json (s : string) : json F :=
  match loads (strip s) with
  | Some doc => doc
  | None =>
      match braced s with
      | Some block => default parse_error (loads block)
      | None => parse_error
      end
  end.

Definition _call_claude (symbol : string) (ta : option (TASummary F)) (research : option (Research F)) prompt w
    : result string (json F) :=
  blocks ← aw_model w (content prompt) (user_message symbol ta research);
  Ok (_parse_json (String.concat "" (omap (fun block => block) blocks))).

(** ** How an answer becomes a candidate *)

(** [_SIZE_BY_RISK.get(risk, 0.015)]: a list or a dict is no key. *)
Definition size_for (risk : json F) : option F :=
  match risk with
  | JStr s =>
      Some (if String.eqb s "LOW" then _SIZE_BY_RISK LOW
            else if String.eqb s "MEDIUM" then _SIZE_BY_RISK MEDIUM
            else if String.eqb s "HIGH" then _SIZE_BY_RISK HIGH else nlit 15 1000)
  | JVal _ => Some (nlit 15 1000)
  | JList _ | JDict _ => None
  end.

(** The answer's confidence with the research and the sentiment. *)
Definition blended cfg (raw : F) (research : option (Research F)) (sentiment : F) : F :=
  let modifier := match research with Some r => rr_confidence_modifier r | None => nzero end in
  let technical_confidence := nmax nzero (nmin (nlit 95 100) (raw + modifier)) in
  let sentiment_component := nmax nzero (nmin n_one ((sentiment + n_one) / nofZ 2)) in
  let weight := nmax nzero (nmin n_one (sentiment_weight cfg)) in
  nmax nzero (nmin (nlit 95 100) ((n_one - weight) * technical_confidence + weight * sentiment_component)).

Definition ACTIONS : list string := ["BUY"; "SELL"; "HOLD"; "EXIT"].
Definition ai_version cfg prompt : string :=
  "strategy-ai-v1/" +:+ claude_model cfg +:+ "/prompt-" +:+ String.substring 0 12 (pa_sha256 prompt).
(** [ai_result.get(key, otherwise)] *)
Definition answer_or (k : string) (otherwise : json F) (d : list (string * json F)) : json F :=
  default otherwise (dict_get k d).
Definition research_summary_of (research : option (Research F)) : option string :=
  r ← research;
  if str_true (rr_headline_summary r) then Some (String.substring 0 200 (rr_headline_summary r)) else None.

Definition ai_candidate cfg prompt (symbol : string) (ta : option (TASummary F)) (research : option (Research F))
    (sentiment : F) (answer : json F) w : result exn (SignalCandidate F) :=
  match answer with
  | JDict d =>
      match json_float float_of (answer_or "confidence" (JVal (PFloat (nlit 6 10))) d) with
      | None => Err (Uncaught "float()")
      | Some raw =>
          let risk := answer_or "risk_score" (JStr "MEDIUM") d in
          match size_for risk, answer_or "action" (JStr "HOLD") d, risk with
          | None, _, _ => Err (Uncaught "unhashable type")
          | Some size, JStr action, JStr risk =>
              if negb (str_in action ACTIONS) then Err (Uncaught "validation error for SignalCandidate") else
              candidate {| sc_signal_id := aw_uuid w; sc_symbol := upper symbol; sc_ts := aw_now w;
                candidate_action := action; sc_confidence := nround 4 (blended cfg raw research sentiment);
                sc_size_pct := size; sc_model_version := ai_version cfg prompt; sc_risk_score := risk;
                sc_strategy := DEFAULT_LIVE_STRATEGY; sc_as_of := as_of <$> ta;
                sc_research_summary := research_summary_of research; sc_acted_on := false |}
          | Some _, _, _ => Err (Uncaught "validation error for SignalCandidate")
          end
      end
  | _ => Err (Uncaught "AttributeError")
  end.

Definition dated (ta : TASummary F) (s : SignalCandidate F) : SignalCandidate F :=
  {| sc_signal_id := sc_signal_id s; sc_symbol := sc_symbol s; sc_ts := sc_ts s; candidate_action := candidate_action s;
     sc_confidence := sc_confidence s; sc_size_pct := sc_size_pct s; sc_model_version := sc_model_version s;
     sc_risk_score := sc_risk_score s; sc_strategy := sc_strategy s; sc_as_of := Some (as_of ta);
     sc_research_summary := sc_research_summary s; sc_acted_on := sc_acted_on s |}.

(** The rules' signal, where they are preferred and sure: it carries the summary. *)
Definition rules_first cfg (symbol : string) (ta : option (TASummary F)) (bars : option (list (OHLCVBar F)))
    (sentiment : F) w : option (result exn (SignalCandidate F)) :=
  match ta with
  | Some ta =>
      if prefer_deterministic cfg then
        let rule := evaluate_rules ta (Some (sentiment_block_threshold cfg)) (Some sentiment) bars [] in
        if rs_confidence rule >=? nlit 75 100
        then Some (dated ta <$> candidate_of (aw_uuid w) symbol (aw_now w) "strategy-rule-v1" rule)
        else None
      else None
  | None => None
  end.

Definition _do_generate cfg prompt (symbol : string) w : result exn (SignalCandidate F) :=
  let '(ta, bars) := _get_ta_summary symbol w in
  let research := _get_research w in
  let sentiment := _get_sentiment w in
  match rules_first cfg symbol ta bars sentiment w with
  | Some answer => answer
  | None =>
      match _call_claude symbol ta research prompt w with
      | Err exc => Err (Uncaught exc)
      | Ok answer => ai_candidate cfg prompt symbol ta research sentiment answer w
      end
  end.

(** ** The fallback *)

(** [resp.json().get("score")]; whatever goes wrong, there is no score. *)
Definition fallback_score w : json F :=
  match aw_sentiment_again w with
  | Status 200 (Ok (JDict d)) => json_get "score" d
  | _ => JVal PNone
  end.
(** A number, or nothing; what is neither cannot be compared with the threshold. *)
Definition comparable (score : json F) : option (option F) :=
  match score with
  | JVal v => Some (py_float v)
  | _ => None
  end.
(** The score is compared where the rules say BUY, and nowhere else. *)
Definition fallback cfg (symbol : string) w : result exn (SignalCandidate F) :=
  let '(ta, bars) :=
    match aw_bars_again w with
    | Err _ => (None, None)
    | Ok [] => (None, Some [])
    | Ok bars => (Some (build_ta_summary fpow symbol bars "unknown" (aw_now w)), Some bars)
    end in
  let build score :=
    _build_deterministic_signal (sentiment_block_threshold cfg) (aw_uuid w) symbol (aw_now w) ta score bars in
  match comparable (fallback_score w), ta with
  | Some score, _ => build score
  | None, Some summary =>
      match rs_action (evaluate_rules summary (Some (sentiment_block_threshold cfg)) None bars []) with
      | BUY => Err (Uncaught "TypeError")
      | _ => build None
      end
  | None, None => build None
  end.

Definition generate cfg prompt (symbol : string) w : result exn (SignalCandidate F) :=
  match _do_generate cfg prompt symbol w with
  | Ok s => Ok s
  | Err e => if fallback_to_deterministic cfg then fallback cfg symbol w else Err e
  end.

(** The pipeline is built, which loads its prompt, and then asked. *)
Definition ai_signal cfg (prompt : result string PromptArtifact) (symbol : string) w : result exn (SignalCandidate F) :=
  match prompt with
  | Err e => Err (Uncaught e)
  | Ok prompt => generate cfg prompt symbol w
  end.
End pipeline.
Arguments AIWorld F : clear implicits.

(** ** Whatever the model says, the candidate is within its bounds *)

Section bounds.
Context (fpow : Q -> Q -> Q).
Context (loads : string -> option (json Q)) (text : fstr Q -> string) (float_of : string -> option Q).
Implicit Types (w : AIWorld Q) (cfg : AISettings Q).

Definition AI_CAP : Q := nlit 95 100.

(** A figure cut to [0, 0.95], before and after it is rounded. *)
Definition capped (c : Q) : Prop := (0 <= c)%Q /\ (c <= AI_CAP)%Q.
Lemma cap_capped x : capped (nmax nzero (nmin (nlit 95 100) x)).
Proof.
  unfold capped, AI_CAP. rewrite Q_nmax_spec, Q_nmin_spec.
  assert (nzero == 0)%Q as -> by reflexivity. assert (nlit 95 100 == 95 # 100)%Q as -> by reflexivity.
  split; [apply Q.le_max_l|]. apply Q.max_lub; [lra|apply Q.le_min_l].
Qed.
Lemma capped_round c : capped c -> capped (nround 4 c).
Proof.
  intros [H0 H1]. apply (Q_round_mono 4) in H0, H1. split; [|refine (Qle_trans _ _ _ H1 _); by vm_compute].
  refine (Qle_trans _ _ _ _ H0). by vm_compute.
Qed.
Lemma blended_capped cfg raw research sentiment : capped (nround 4 (blended cfg raw research sentiment)).
Proof. apply capped_round, cap_capped. Qed.

Lemma capped_min c k : (0 <= c)%Q -> (0 <= k)%Q -> (k <= AI_CAP)%Q -> capped (nmin c k).
Proof. intros Hc H0 H1. split; rewrite Q_nmin_spec; [by apply Q.min_glb|exact (Qle_trans _ _ _ (Q.le_min_r _ _) H1)]. Qed.
Lemma rule_confidence_capped adx rsi macd fast slow action : capped (_rule_confidence adx rsi macd fast slow action).
Proof.
  unfold _rule_confidence. cbv zeta.
  apply capped_min; [|by vm_compute|by vm_compute].
  set (agree := match action with BUY => _ | SELL => _ | HOLD => _ end).
  clearbody agree. by destruct agree, (_ >? _)%py.
Qed.
Lemma bonus_capped bars action c reasoning : capped c -> capped (fst (_pattern_bonus bars action c reasoning)).
Proof.
  intros Hc. unfold _pattern_bonus. destruct bars as [bars|]; [|done]. destruct (_ <? _)%nat; [done|]. cbv zeta.
  assert (capped (nmin (nlit 95 100) (nadd c (nlit 1 10)))) as Hb.
  { destruct Hc as [H0 _]. split; rewrite Q_nmin_spec; [|apply Q.le_min_l].
    apply Q.min_glb; [by vm_compute|]. change (0 <= c + (1 # 10))%Q. lra. }
  destruct action; repeat case_match; cbn [fst]; done.
Qed.

Lemma rules_capped ta threshold score bars :
  let r := evaluate_rules ta threshold score bars [] in
  capped (rs_confidence r) /\ Strategies.size_pct r = _SIZE_BY_RISK (Strategies.risk_score r).
Proof.
  cbv zeta. unfold evaluate_rules.
  replace (rule_averages _ _ _ _) with (inl nat (ema_20 (indicators ta), ema_50 (indicators ta))) by reflexivity.
  cbv beta iota zeta. match goal with |- context[_rule_confidence ?a ?b ?c ?d ?e ?f] =>
    pose proof (rule_confidence_capped a b c d e f) as Hconf; set (conf := _rule_confidence a b c d e f) in *;
    clearbody conf; set (action := f) in *; clearbody action end.
  assert (capped (nmin conf (nlit 55 100))) as Hmin by (apply capped_min; [apply Hconf|by vm_compute|by vm_compute]).
  assert (forall act why c, capped c -> capped (nround 4 (fst (_pattern_bonus bars act c why)))) as Hp.
  { intros. by apply capped_round, bonus_capped. }
  destruct action; [destruct score as [x|]; [destruct (nltb x _)|]|..]; cbv beta iota zeta;
    (match goal with |- context[_pattern_bonus bars ?a ?c ?w] => specialize (Hp a w c); destruct (_pattern_bonus bars a c w) end);
    (split; [by apply Hp|done]).
Qed.

(** ** Every answer is a candidate within its bounds *)

Definition bounded (s : SignalCandidate Q) : Prop :=
  candidate_action s ∈ ACTIONS /\ capped (sc_confidence s) /\ (exists r, sc_size_pct s = _SIZE_BY_RISK r).

Lemma candidate_same (s s' : SignalCandidate Q) : candidate s = Ok s' -> s' = s.
Proof. unfold candidate. destruct (_ && _); congruence. Qed.
Lemma bounded_candidate (s : SignalCandidate Q) : bounded s -> candidate s = Ok s.
Proof.
  intros (_ & [H0 H1] & r & Hr). unfold candidate. rewrite Hr.
  assert (nleb nzero (sc_confidence s) = true) as -> by by apply Q_nleb.
  assert (nleb (sc_confidence s) n_one = true) as ->.
  { apply Q_nleb. refine (Qle_trans _ _ _ H1 _). by vm_compute. }
  by destruct r.
Qed.

Lemma action_listed a : action_str a ∈ ACTIONS.
Proof. apply str_in_spec. by destruct a. Qed.
Lemma rule_candidate id symbol now v ta threshold score bars :
  exists s, candidate_of id symbol now v (evaluate_rules ta threshold score bars []) = Ok s /\
    bounded s /\ sc_symbol s = upper symbol /\ sc_model_version s = v /\ sc_acted_on s = false.
Proof.
  pose proof (rules_capped ta threshold score bars) as [Hc Hs]. unfold candidate_of.
  rewrite bounded_candidate; [eexists; split; [done|]|]; repeat split; cbn; try done; try apply Hc; try apply action_listed;
    by exists (Strategies.risk_score (evaluate_rules ta threshold score bars [])).
Qed.
Lemma deterministic_candidate threshold id symbol now ta score bars :
  exists s, _build_deterministic_signal threshold id symbol now ta score bars = Ok s /\
    bounded s /\ sc_symbol s = upper symbol /\ sc_acted_on s = false /\
    (sc_model_version s = "strategy-rule-v1" \/
     sc_model_version s = "strategy-rule-v1/no-data" /\ candidate_action s = "HOLD").
Proof.
  unfold _build_deterministic_signal. destruct ta as [ta|].
  - destruct (rule_candidate id symbol now "strategy-rule-v1" ta (Some threshold) score bars) as (s & E & ? & ? & ? & ?).
    exists s. by split_and!; try left.
  - match goal with |- context[candidate ?c] => assert (bounded c) as Hb end.
    { split; [by apply str_in_spec|]. split; [by split|by exists HIGH]. }
    rewrite bounded_candidate by exact Hb. eexists. split; [done|]. split; [exact Hb|]. split_and!; [done..|by right].
Qed.

Notation signal_of := (ai_signal fpow loads text float_of).

Lemma size_for_risk (risk : json Q) size : size_for risk = Some size -> exists r, size = _SIZE_BY_RISK r.
Proof.
  destruct risk as [v|s| |]; cbn; [|destruct (String.eqb s "LOW"), (String.eqb s "MEDIUM"), (String.eqb s "HIGH")|done|done];
    intros [= <-]; by (exists LOW + exists MEDIUM + exists HIGH).
Qed.
Lemma ai_candidate_bounded cfg prompt symbol ta research sentiment answer w s :
  ai_candidate float_of cfg prompt symbol ta research sentiment answer w = Ok s ->
  bounded s /\ sc_symbol s = upper symbol /\ sc_acted_on s = false /\ sc_model_version s = ai_version cfg prompt.
Proof.
  unfold ai_candidate. destruct answer as [| | |d]; try done. destruct (json_float _ _) as [raw|]; [|done].
  destruct (size_for _) as [size|] eqn:Es; [|done]. destruct (answer_or "action" _ d) as [|action| |]; try done.
  destruct (answer_or "risk_score" _ d) as [|risk| |]; try done. destruct (str_in action ACTIONS) eqn:Ea; [|done].
  cbn [negb]. intros E%candidate_same. subst s. split_and!; try done.
  split; [by apply str_in_spec|]. split; [apply blended_capped|by apply size_for_risk in Es].
Qed.

(** The candidate a call answers, by where it comes from: the model, the rules, or no data. *)
Definition from_source cfg (prompt : result string PromptArtifact) (s : SignalCandidate Q) : Prop :=
  (exists a, prompt = Ok a /\ sc_model_version s = ai_version cfg a) \/
  sc_model_version s = "strategy-rule-v1" \/
  sc_model_version s = "strategy-rule-v1/no-data" /\ candidate_action s = "HOLD".
Definition sound cfg prompt symbol (s : SignalCandidate Q) : Prop :=
  bounded s /\ sc_symbol s = upper symbol /\ sc_acted_on s = false /\ from_source cfg prompt s.

Lemma rules_first_sound cfg prompt symbol ta bars sentiment w s :
  rules_first cfg symbol ta bars sentiment w = Some (Ok s) -> sound cfg prompt symbol s.
Proof.
  unfold rules_first. destruct ta as [ta|]; [|done]. destruct (prefer_deterministic cfg); [|done]. destruct (_ >=? _)%py; [|done].
  destruct (rule_candidate (aw_uuid w) symbol (aw_now w) "strategy-rule-v1" ta (Some (sentiment_block_threshold cfg)) (Some sentiment) bars)
    as (s0 & -> & Hb & Hs & Hv & Ha). intros [= <-]. unfold sound. split_and!; try done. right. by left.
Qed.
Lemma fallback_sound cfg prompt symbol w :
  match fallback fpow cfg symbol w with
  | Ok s => sound cfg prompt symbol s
  | Err _ => comparable (fallback_score w) = None
  end.
Proof.
  unfold fallback. destruct (match aw_bars_again w with Err _ => _ | Ok _ => _ end) as [ta bars].
  assert (forall score, match _build_deterministic_signal (sentiment_block_threshold cfg) (aw_uuid w) symbol (aw_now w) ta score bars with
    | Ok s => sound cfg prompt symbol s | Err _ => False end) as Hb.
  { intros score. destruct (deterministic_candidate (sentiment_block_threshold cfg) (aw_uuid w) symbol (aw_now w) ta score bars)
      as (s & -> & H1 & H2 & H3 & H4). unfold sound. split_and!; try done. right. exact H4. }
  destruct (comparable _) as [score|]; [specialize (Hb score); by destruct (_build_deterministic_signal _ _ _ _ _ _ _)|].
  destruct ta as [ta|]; [destruct (rs_action _); [done|..]|]; specialize (Hb None); by destruct (_build_deterministic_signal _ _ _ _ _ _ _).
Qed.

End bounds.

(** ** Concrete answers, at binary64 *)

Module Oracle.
Definition cfg : AISettings spec_float :=
  {| prefer_deterministic := false; fallback_to_deterministic := true; sentiment_weight := nlit 3 10;
     sentiment_block_threshold := nlit (-3) 10; claude_model := "m" |}.
Definition prompt : result string PromptArtifact :=
  Ok {| prompt_id := "strategy-system-v1"; content := "You trade."; pa_sha256 := "0123456789abcdef" |}.
(** A model that answers with one document, whatever it is asked. *)
Definition loads (doc : json spec_float) (s : string) : option (json spec_float) :=
  if String.eqb s "{doc}" then Some doc else None.
Definition text (_ : fstr spec_float) : string := "t".
Definition float_of (s : string) : option spec_float := if String.eqb s "nan" then Some S754_nan else None.
Definition doc (action : string) (confidence : json spec_float) (risk : string) : json spec_float :=
  JDict [("action", JStr action); ("confidence", confidence); ("risk_score", JStr risk)].
Definition figure (n : Z) : json spec_float := JVal (PFloat (nlit n 100)).
Definition nowhere : AIWorld spec_float :=
  {| aw_uuid := "u"; aw_now := 0; aw_source := "YahooFetcher"; aw_bars := Err "down"; aw_research := NoAnswer "down";
     aw_sentiment := NoAnswer "down"; aw_model := fun _ _ => Ok [None; Some "Here: {doc} as asked"];
     aw_bars_again := Err "down"; aw_sentiment_again := NoAnswer "down" |}.
(** With bars, a model that is down, and a score of the sentiment service. *)
Definition scored (score : json spec_float) : AIWorld spec_float :=
  {| aw_uuid := "u"; aw_now := 0; aw_source := "YahooFetcher"; aw_bars := Ok Rounds.tape; aw_research := NoAnswer "down";
     aw_sentiment := NoAnswer "down"; aw_model := fun _ _ => Err "overloaded"; aw_bars_again := Ok Rounds.tape;
     aw_sentiment_again := Status 200 (Ok (JDict [("score", score)])) |}.
Definition asked (d : json spec_float) (w : AIWorld spec_float) : result exn (SignalCandidate spec_float) :=
  ai_signal Rounds.fpow (loads d) text float_of cfg prompt "msft" w.
Definition answer (r : result exn (SignalCandidate spec_float)) : option (string * spec_float * spec_float) :=
  match r with Ok s => Some (candidate_action s, sc_confidence s, sc_size_pct s) | Err _ => None end.
End Oracle.

(** With every source down the model is asked all the same, and its BUY is a candidate, where
    the rules would hold for want of observations. *)
Example model_buys_without_data :
  Oracle.answer (Oracle.asked (Oracle.doc "BUY" (Oracle.figure 90) "LOW") Oracle.nowhere) =
    Some ("BUY", nlit 78 100, nlit 2 100) /\
  Oracle.answer (fallback Rounds.fpow Oracle.cfg "msft" Oracle.nowhere) = Some ("HOLD", nzero, nlit 5 1000).
Proof. split; vm_compute; reflexivity. Qed.

(** The service that is down weighs what it weighs when it is up: it pulls the confidence to
    the middle, up as well as down. *)
Example sentiment_outage_moves_confidence :
  map (fun n => Oracle.answer (Oracle.asked (Oracle.doc "BUY" (Oracle.figure n) "LOW") Oracle.nowhere)) [20; 90] =
    [Some ("BUY", nlit 29 100, nlit 2 100); Some ("BUY", nlit 78 100, nlit 2 100)].
Proof. vm_compute. reflexivity. Qed.

(** A confidence that is not a number is the highest one there is. *)
Example nan_confidence_is_the_highest :
  blended Oracle.cfg S754_nan None nzero = blended Oracle.cfg n_one None nzero /\
  Oracle.answer (Oracle.asked (Oracle.doc "BUY" (JStr "nan") "LOW") Oracle.nowhere) = Some ("BUY", nlit 815 1000, nlit 2 100).
Proof. split; vm_compute; reflexivity. Qed.

(** A risk the table does not know, a high one in lower case among them, has the size of a
    medium one: three times that of a high one. *)
Example lower_case_risk_is_medium :
  map (fun risk => size_for (JStr risk : json spec_float)) ["HIGH"; "high"; "extreme"] =
    [Some (nlit 5 1000); Some (nlit 15 1000); Some (nlit 15 1000)].
Proof. vm_compute. reflexivity. Qed.

(** The fallback does not validate the score: one that is a text ends the call, where none at
    all would have let the rules answer. *)
Example text_score_breaks_the_fallback :
  Oracle.answer (Oracle.asked (JDict []) (Oracle.scored (JVal PNone))) <> None /\
  is_ok (Oracle.asked (JDict []) (Oracle.scored (JStr "0.1"))) = false.
Proof. split; vm_compute; [discriminate|reflexivity]. Qed.

(** The prompt is loaded before the pipeline can fall back: without it there is no signal. *)
Example missing_prompt_is_no_fallback :
  ai_signal Rounds.fpow (Oracle.loads (JDict [])) Oracle.text Oracle.float_of Oracle.cfg (Err "Prompt registry does not exist") "msft"
    (Oracle.scored (JVal PNone)) = Err (Uncaught "Prompt registry does not exist").
Proof. reflexivity. Qed.
