(* ===== verification/Desk.v ===== *)
(** * The operator's desk: manual trades, quotes, charts, and the worker's schedule

    Models the rest of [services/strategy-service/src/strategy_service/main.py], [config.py]
    and [scheduler.py]. A manual trade makes its calls one after another (the two that are
    gathered are both reads), so a run is the list of the calls it made; what the services
    answer is a function of the calls so far ([Services]), and each answer may be missing, be
    an error, or hold no JSON. *)

From S2P Require Import PyFloat Policy Json Store Contracts Indicators Strategies Signals MarketData Prelude.
From Stdlib Require Import Ascii QArith Floats.SpecFloat.
Local Open Scope Z_scope.

(** An answer of FastAPI, or an exception nothing catches. *)
Inductive Failure := Http (code : Z) (why : string) | Crash (message : string).

(** ** config.py *)

Record StrategySettings (F : Type) := {
  database_url : string;
  anthropic_api_key : string;
  claude_model : string;
  prompt_id : string;
  prompt_sha256 : string;
  fallback_to_deterministic : bool;
  watchlist_raw : string;
  research_service_url : string;
  worker_enabled : bool;
  worker_interval_minutes : Z;
  policy_service_url : string;
  execution_service_url : string;
  portfolio_service_url : string;
  sentiment_service_url : string;
  sentiment_weight : F;
  sentiment_block_threshold : F;
  earnings_blackout_days : Z;
  stop_loss_pct : F;
  take_profit_pct : F;
  max_hold_hours : Z;
  volume_confirm_enabled : bool;
  prefer_deterministic : bool
}.
Arguments database_url {F}. Arguments research_service_url {F}. Arguments policy_service_url {F}.
Arguments execution_service_url {F}. Arguments portfolio_service_url {F}. Arguments sentiment_service_url {F}.
Arguments anthropic_api_key {F}. Arguments claude_model {F}. Arguments prompt_id {F}. Arguments prompt_sha256 {F}.
Arguments fallback_to_deterministic {F}. Arguments watchlist_raw {F}. Arguments worker_enabled {F}.
Arguments worker_interval_minutes {F}. Arguments sentiment_weight {F}. Arguments sentiment_block_threshold {F}.
Arguments earnings_blackout_days {F}. Arguments stop_loss_pct {F}. Arguments take_profit_pct {F}.
Arguments max_hold_hours {F}. Arguments volume_confirm_enabled {F}. Arguments prefer_deterministic {F}.

Section settings.
Context {F : Type} `{HF : PyFloat F}.
Context (float_of : string -> option F) (environ : gmap string string).

Definition flag (name d : string) : bool := String.eqb (lower (getenv environ name d)) "true".
(** [None] where a number does not parse: the module does not load. *)
Definition strategy_settings : option (StrategySettings F) :=
  minutes ← py_int (getenv environ "WORKER_INTERVAL_MINUTES" "15");
  weight ← float_of (getenv environ "SENTIMENT_WEIGHT" "0.3");
  threshold ← float_of (getenv environ "SENTIMENT_BLOCK_THRESHOLD" "-0.3");
  blackout ← py_int (getenv environ "EARNINGS_BLACKOUT_DAYS" "2");
  stop ← float_of (getenv environ "STOP_LOSS_PCT" "0.03");
  target ← float_of (getenv environ "TAKE_PROFIT_PCT" "0.06");
  hold ← py_int (getenv environ "MAX_HOLD_HOURS" "48");
  Some {| database_url := getenv environ "STRATEGY_DATABASE_URL" "sqlite+pysqlite:///./strategy-service.db";
          research_service_url := getenv environ "RESEARCH_SERVICE_URL" "http://localhost:8005";
          policy_service_url := getenv environ "POLICY_SERVICE_URL" "http://localhost:8001";
          execution_service_url := getenv environ "EXECUTION_SERVICE_URL" "http://localhost:8002";
          portfolio_service_url := getenv environ "PORTFOLIO_SERVICE_URL" "http://localhost:8004";
          sentiment_service_url := getenv environ "SENTIMENT_SERVICE_URL" "http://localhost:8008";
          anthropic_api_key := getenv environ "ANTHROPIC_API_KEY" "";
          claude_model := getenv environ "STRATEGY_CLAUDE_MODEL" "claude-haiku-4-5-20251001";
          prompt_id := getenv environ "STRATEGY_PROMPT_ID" "strategy-system-v1";
          prompt_sha256 := getenv environ "STRATEGY_PROMPT_SHA256" "";
          fallback_to_deterministic := flag "STRATEGY_FALLBACK_DETERMINISTIC" "true";
          watchlist_raw := getenv environ "STRATEGY_WATCHLIST" "AAPL,MSFT,GOOGL,BTC/USD,ETH/USD";
          worker_enabled := flag "WORKER_ENABLED" "false";
          worker_interval_minutes := minutes;
          sentiment_weight := weight; sentiment_block_threshold := threshold;
          earnings_blackout_days := blackout; stop_loss_pct := stop; take_profit_pct := target;
          max_hold_hours := hold; volume_confirm_enabled := flag "VOLUME_CONFIRM_ENABLED" "true";
          prefer_deterministic := flag "PREFER_DETERMINISTIC" "false" |}.

(** The non-empty items of a comma-separated list, in upper case. *)
Definition symbols_in (raw : string) : list string :=
  map (fun s => upper (strip s)) (List.filter (fun s => str_true (strip s)) (split_on "," raw)).
Definition watchlist (s : StrategySettings F) : list string := symbols_in (watchlist_raw s).

(** The environment is read at each call. *)
Definition use_ai (s : StrategySettings F) : bool :=
  let explicit := lower (getenv environ "USE_AI" "") in
  if String.eqb explicit "false" then false
  else if String.eqb explicit "true" then str_true (anthropic_api_key s)
  else str_true (anthropic_api_key s) && negb (prefer_deterministic s).
End settings.

(** ** scheduler.py and the worker's endpoints *)

(** The time in New York: the day of the week, Monday being 0, and the microseconds of the
    day; [None] without a database of time zones. *)
Definition _is_market_hours (now_et : option (Z * Z)) : bool :=
  match now_et with
  | None => true
  | Some (weekday, micros) =>
      if 5 <=? weekday then false else (34200000000 <=? micros) && (micros <=? 57600000000)
  end.

Inductive JobStart := AlreadyRunning | OutsideHours | RunsNow.
Definition _run_job (is_running : bool) (now_et : option (Z * Z)) : JobStart :=
  if is_running then AlreadyRunning else if negb (_is_market_hours now_et) then OutsideHours else RunsNow.
(** The trigger of an operator does not ask for the hours. *)
Definition trigger_worker_run (is_running : bool) : JobStart := if is_running then AlreadyRunning else RunsNow.

(** ** The manual trade *)

Record ManualTradeRequest := {
  mt_symbol : string;
  mt_side : string;
  mt_qty : Z;
  mt_order_type : string;
  mt_strategy_id : string;
  mt_account_id : string
}.
Definition sized (lo hi : nat) (s : string) : bool := (lo <=? String.length s)%nat && (String.length s <=? hi)%nat.
Definition valid_trade (q : ManualTradeRequest) : bool :=
  sized 1 32 (mt_symbol q) && str_in (mt_side q) ["BUY"; "SELL"] && ((1 <=? mt_qty q) && (mt_qty q <=? 1000000)) &&
  String.eqb (mt_order_type q) "MARKET" && sized 1 128 (mt_strategy_id q) && sized 1 128 (mt_account_id q).

(** What the policy service and the execution service are asked. *)
Record PolicyAsk (F : Type) := {
  pa_signal_id : string;
  pa_symbol : string;
  pa_action : string;
  pa_confidence : F;
  pa_size_pct : F;
  pa_risk_score : string;
  pa_data_age_seconds : Z;
  pa_market_open : bool;
  pa_liquidity_score : F;
  pa_gross_exposure_pct : F;
  pa_daily_drawdown_pct : F
}.
Arguments pa_signal_id {F}. Arguments pa_symbol {F}. Arguments pa_action {F}. Arguments pa_confidence {F}.
Arguments pa_size_pct {F}. Arguments pa_risk_score {F}. Arguments pa_data_age_seconds {F}. Arguments pa_market_open {F}.
Arguments pa_liquidity_score {F}. Arguments pa_gross_exposure_pct {F}. Arguments pa_daily_drawdown_pct {F}.
Record OrderAsk (F : Type) := {
  oa_signal_id : string;
  oa_symbol : string;
  oa_side : string;
  oa_qty : Z;
  oa_order_type : string;
  oa_time_in_force : string;
  oa_decision_price : F;
  oa_strategy_id : string;
  oa_account_id : string
}.
Arguments oa_signal_id {F}. Arguments oa_symbol {F}. Arguments oa_side {F}. Arguments oa_qty {F}. Arguments oa_order_type {F}.
Arguments oa_time_in_force {F}. Arguments oa_decision_price {F}. Arguments oa_strategy_id {F}. Arguments oa_account_id {F}.
Inductive Call (F : Type) :=
| GetAccount
| GetPortfolio
| EvaluatePolicy (q : PolicyAsk F)
| SubmitOrder (o : OrderAsk F) (idempotency_key : string).
Arguments GetAccount {F}. Arguments GetPortfolio {F}. Arguments EvaluatePolicy {F}. Arguments SubmitOrder {F}.

(** An exception of httpx, or a status and a body, [None] where it is not JSON. *)
Inductive Answer (F : Type) :=
| HttpError
| Replied (code : Z) (body : option (json F)).
Arguments HttpError {F}. Arguments Replied {F}.
Definition Services (F : Type) : Type := list (Call F) -> Call F -> Answer F.

Inductive Declined (F : Type) :=
| RequiresApproval (reasons : json F)
| RejectedByPolicy (decision reasons : json F).
Arguments RequiresApproval {F}. Arguments RejectedByPolicy {F}.
Inductive ManualResult (F : Type) :=
| NotOrdered (why : Declined F)
| Submitted (order_id order_status : json F) (symbol side : string) (qty : Z) (policy_decision : json F).
Arguments NotOrdered {F}. Arguments Submitted {F}.

Section manual.
Context {F : Type} `{HF : PyFloat F}.
Context (fpow : F -> F -> F) (float_of : string -> option F) (environ : gmap string string).
Local Open Scope py_scope.
Implicit Types (bars : list (OHLCVBar F)) (calls : list (Call F)) (services : Services F).

(** The kinds of exception the handler tells apart: those of httpx, TypeError and ValueError
    are an unavailable dependency. *)
Inductive Raised := Dependency | Refused (code : Z) (why : string) | Unexpected (message : string).
Definition exchange services (c : Call F) : prog (list (Call F)) Raised (Answer F) :=
  fun calls => (Ok (services calls c), calls ++ [c]).
(** [resp.raise_for_status(); resp.json()] *)
Definition succeeded (code : Z) : bool := ((200 <=? code) && (code <? 300))%Z.
Definition status_checked (a : Answer F) : prog (list (Call F)) Raised (option (json F)) :=
  match a with
  | Replied code body => if succeeded code then mret body else raise Dependency
  | HttpError => raise Dependency
  end.
Definition parsed (body : option (json F)) : prog (list (Call F)) Raised (json F) :=
  match body with Some doc => mret doc | None => raise Dependency end.
(** [doc.get(k, otherwise)] *)
Definition got (k : string) (otherwise doc : json F) : prog (list (Call F)) Raised (json F) :=
  match doc with
  | JDict d => mret (default otherwise (dict_get k d))
  | _ => raise (Unexpected "AttributeError")
  end.
(** [float(doc.get(k, 0.0))] *)
Definition figure (k : string) (doc : json F) : prog (list (Call F)) Raised F :=
  v ← got k (JVal (PFloat nzero)) doc;
  match json_float float_of v with Some x => mret x | None => raise Dependency end.

Definition data_age_seconds (now observed_at : datetime) : Z :=
  Z.max 0 (ntrunc (total_seconds (now - observed_at)%Z : F)).
Definition volumes bars : list F := List.filter (fun v => v >? nzero) (map ob_volume (last_n 20 bars)).
Definition average_volume bars : F :=
  match volumes bars with [] => nzero | vs => nsum vs / nnat (length vs) end.
Definition liquidity_score bars (latest : OHLCVBar F) : F :=
  if average_volume bars >? nzero then nmin n_one (ob_volume latest / average_volume bars) else nzero.

(** What the operator has before the services are asked. *)
Record Desk := {
  dk_signal_id : string;
  dk_now : datetime;
  dk_later : datetime;
  dk_settings : MarketDataSettings;
  dk_source : string;
  dk_fetched : option (list (OHLCVBar F))
}.
Implicit Types (d : Desk).

Definition policy_ask (q : ManualTradeRequest) (symbol signal_id : string) (age : Z) (liquidity equity notional exposure realized : F)
    : PolicyAsk F :=
  {| pa_signal_id := signal_id; pa_symbol := symbol; pa_action := mt_side q; pa_confidence := nlit 80 100;
     pa_size_pct := nmin n_one (notional / equity); pa_risk_score := "MEDIUM"; pa_data_age_seconds := age;
     pa_market_open := true; pa_liquidity_score := liquidity;
     pa_gross_exposure_pct := nmin n_one (nabs exposure / equity);
     pa_daily_drawdown_pct := nmin n_one (nmax nzero (- realized) / equity) |}.
Definition order_ask (q : ManualTradeRequest) (symbol signal_id : string) (price : F) : OrderAsk F :=
  {| oa_signal_id := signal_id; oa_symbol := symbol; oa_side := mt_side q; oa_qty := mt_qty q;
     oa_order_type := mt_order_type q; oa_time_in_force := "DAY"; oa_decision_price := price;
     oa_strategy_id := mt_strategy_id q; oa_account_id := mt_account_id q |}.

(** [v == word] *)
Definition says (word : string) (v : json F) : bool := match v with JStr s => String.eqb s word | _ => false end.
(** The body of the [try]: [inl] is what it returns early. *)
Definition submit services (q : ManualTradeRequest) (symbol signal_id : string) (age : Z) (liquidity price : F)
    : prog (list (Call F)) Raised (Declined F + (option (json F) * json F)) :=
  account_resp ← exchange services GetAccount;
  portfolio_resp ← exchange services GetPortfolio;
  account_body ← status_checked account_resp;
  portfolio_body ← status_checked portfolio_resp;
  account ← parsed account_body;
  portfolio ← parsed portfolio_body;
  equity ← figure "equity" account;
  buying_power ← figure "buying_power" account;
  let notional := price * nofZ (mt_qty q) in
  if (equity <=? nzero) || (buying_power <? notional)
  then raise (Refused 409 "Account state cannot support the requested notional") else
  exposure ← figure "gross_exposure" portfolio;
  realized ← figure "realized_pnl" portfolio;
  policy_resp ← exchange services
    (EvaluatePolicy (policy_ask q symbol signal_id age liquidity equity notional exposure realized));
  policy_body ← status_checked policy_resp;
  policy ← parsed policy_body;
  decision ← got "decision" (JVal PNone) policy;
  if says "REVIEW" decision then reasons ← got "reasons" (JList []) policy; mret (inl (RequiresApproval reasons))
  else if negb (says "APPROVE" decision)
  then reasons ← got "reasons" (JList []) policy; mret (inl (RejectedByPolicy decision reasons))
  else
    order_resp ← exchange services (SubmitOrder (order_ask q symbol signal_id price) signal_id);
    order_body ← status_checked order_resp;
    mret (inr (order_body, decision)).

(** What is read of the order is read after the [try]. *)
Definition conclude (q : ManualTradeRequest) (symbol : string) (answer : Declined F + (option (json F) * json F))
    : result Failure (ManualResult F) :=
  match answer with
  | inl why => Ok (NotOrdered why)
  | inr (Some (JDict order), decision) =>
      Ok (Submitted (json_get "order_id" order) (json_get "status" order) symbol (mt_side q) (mt_qty q) decision)
  | inr (Some _, _) => Err (Crash "AttributeError")
  | inr (None, _) => Err (Crash "JSONDecodeError")
  end.

Definition manual_trade (x_internal_key x_admin_key : option string) services (q : ManualTradeRequest) d
    : result Failure (ManualResult F) * list (Call F) :=
  match verify_admin_key environ x_internal_key x_admin_key with
  | Err e => (Err (Http (status_code e) (detail e)), [])
  | Ok _ =>
      if negb (valid_trade q) then (Err (Http 422 "validation error"), []) else
      match sanitize_symbol (mt_symbol q) with
      | Err e => (Err (Http (status_code e) (detail e)), [])
      | Ok symbol =>
          let '(ta, bars) := _market_snapshot fpow symbol (dk_source d) (dk_now d) (dk_fetched d) in
          match ta, last bars with
          | None, _ | _, None => (Err (Http 409 "Current market data is unavailable"), [])
          | Some _, Some latest =>
              let age := data_age_seconds (dk_later d) (ob_timestamp latest) in
              if negb (is_intraday (dk_settings d) && (age <=? 120)%Z)
              then (Err (Http 409 "Manual entry requires fresh intraday market data"), []) else
              let '(r, calls) := submit services q symbol (dk_signal_id d) age
                                   (liquidity_score bars latest) (ob_close latest) [] in
              (match r with
               | Ok answer => conclude q symbol answer
               | Err Dependency => Err (Http 502 "A required trading dependency is unavailable")
               | Err (Refused code why) => Err (Http code why)
               | Err (Unexpected message) => Err (Crash message)
               end, calls)
          end
      end
  end.
End manual.
Arguments Desk F : clear implicits.

(** ** Quotes and charts *)

Record Quote (F : Type) := {
  qt_symbol : string; qt_price : option F; qt_trend : string; qt_rsi : F; qt_macd_histogram : F; qt_ema_20 : F; qt_ema_50 : F;
  qt_bb_position : F; qt_signal_tags : list string; qt_as_of : datetime; qt_data_source : string
}.
Arguments qt_symbol {F}. Arguments qt_price {F}. Arguments qt_trend {F}. Arguments qt_rsi {F}. Arguments qt_macd_histogram {F}.
Arguments qt_ema_20 {F}. Arguments qt_ema_50 {F}. Arguments qt_bb_position {F}. Arguments qt_signal_tags {F}.
Arguments qt_as_of {F}. Arguments qt_data_source {F}.
Record QuoteRow (F : Type) := { rw_symbol : string; rw_price : option F; rw_change_pct : option F; rw_direction : string }.
Arguments rw_symbol {F}. Arguments rw_price {F}. Arguments rw_change_pct {F}. Arguments rw_direction {F}.
Record Chart (F : Type) := {
  ct_symbol : string; ct_bars : list (OHLCVBar F); ct_ema_20 : list (string * F); ct_ema_50 : list (string * F);
  ct_rsi : F; ct_macd_line : F; ct_macd_signal : F; ct_macd_histogram : F; ct_bb_upper : F; ct_bb_middle : F; ct_bb_lower : F;
  ct_trend : string; ct_signal_tags : list string; ct_data_source : string
}.
Arguments ct_symbol {F}. Arguments ct_bars {F}. Arguments ct_ema_20 {F}. Arguments ct_ema_50 {F}. Arguments ct_rsi {F}.
Arguments ct_macd_line {F}. Arguments ct_macd_signal {F}. Arguments ct_macd_histogram {F}. Arguments ct_bb_upper {F}.
Arguments ct_bb_middle {F}. Arguments ct_bb_lower {F}. Arguments ct_trend {F}. Arguments ct_signal_tags {F}. Arguments ct_data_source {F}.

Section quotes.
Context {F : Type} `{HF : PyFloat F}.
Context (fpow : F -> F -> F) (day_of : datetime -> string).
Local Open Scope py_scope.
Implicit Types (fetcher : Fetcher F) (bars : list (OHLCVBar F)).

(** The provider's live price, where it has one above zero; whatever it raises is no price. *)
Definition live_price fetcher (symbol : string) : option F :=
  match ft_latest fetcher symbol with
  | Ok (Some s) => if ps_price s >? nzero then Some (ps_price s) else None
  | _ => None
  end.

(** The bars a page needs, or the answer in their place. *)
Definition bars_for fetcher (symbol : string) (days : Z) (missing : string) : result Failure (list (OHLCVBar F)) :=
  match ft_fetch fetcher (upper symbol) days with
  | Err (Unavailable e) => Err (Http 503 e)
  | Err (Other e) => Err (Crash e)
  | Ok [] => Err (Http 404 (missing +:+ symbol))
  | Ok bars => Ok bars
  end.

Definition get_quote fetcher (symbol : string) (now : datetime) : result Failure (Quote F) :=
  bars ← bars_for fetcher symbol 30 "No market data for ";
  let ta := build_ta_summary fpow (upper symbol) bars "unknown" now in
  let ind := indicators ta in
  Ok {| qt_symbol := ta_symbol ta;
        qt_price := match live_price fetcher (upper symbol) with Some p => Some p | None => current_price ta end;
        qt_trend := trend_direction ta; qt_rsi := nround 2 (rsi_14 ind); qt_macd_histogram := nround 6 (macd_histogram ind);
        qt_ema_20 := nround 4 (ema_20 ind); qt_ema_50 := nround 4 (ema_50 ind); qt_bb_position := nround 4 (bb_position ind);
        qt_signal_tags := signal_tags ta; qt_as_of := as_of ta; qt_data_source := data_source ta |}.

(** Each bar's day, with the average of the closes up to it. *)
Definition overlay bars (period : nat) : list (string * F) :=
  imap (fun i b => (day_of (ob_timestamp b), nround 4 (compute_ema (take (S i) (map ob_close bars)) period))) bars.
Definition get_chart fetcher (symbol : string) (days : Z) (now : datetime) : result Failure (Chart F) :=
  if negb ((7 <=? days) && (days <=? 365))%Z then Err (Http 422 "validation error") else
  bars ← bars_for fetcher symbol days "No chart data for ";
  let ta := build_ta_summary fpow (upper symbol) bars "unknown" now in
  let ind := indicators ta in
  Ok {| ct_symbol := upper symbol; ct_bars := bars; ct_ema_20 := overlay bars 20; ct_ema_50 := overlay bars 50;
        ct_rsi := nround 2 (rsi_14 ind); ct_macd_line := nround 6 (macd_line ind); ct_macd_signal := nround 6 (macd_signal ind);
        ct_macd_histogram := nround 6 (macd_histogram ind); ct_bb_upper := nround 4 (bb_upper ind);
        ct_bb_middle := nround 4 (bb_middle ind); ct_bb_lower := nround 4 (bb_lower ind);
        ct_trend := trend_direction ta; ct_signal_tags := signal_tags ta; ct_data_source := data_source ta |}.

(** The price of a row, and the close it is compared with. *)
Definition row_figures (live : option F) bars : option F * option F :=
  let close_before n := ob_close <$> nth_error (rev bars) n in
  match live with
  | None => (close_before 0%nat, close_before 1%nat)
  | Some price => (Some price, close_before 0%nat)
  end.
Definition _quote_row fetcher (sym : string) : QuoteRow F :=
  let bars := match ft_fetch fetcher sym 5 with Ok bars => bars | Err _ => [] end in
  match row_figures (live_price fetcher sym) bars with
  | (None, _) => {| rw_symbol := sym; rw_price := None; rw_change_pct := None; rw_direction := "neutral" |}
  | (Some price, reference) =>
      match reference with
      | Some reference =>
          if negb (ntrue reference)
          then {| rw_symbol := sym; rw_price := Some (nround 4 price); rw_change_pct := Some nzero; rw_direction := "neutral" |}
          else
            let change_pct := (price - reference) / reference * nofZ 100 in
            {| rw_symbol := sym; rw_price := Some (nround 4 price); rw_change_pct := Some (nround 2 change_pct);
               rw_direction := if change_pct >=? nzero then "up" else "down" |}
      | None => {| rw_symbol := sym; rw_price := Some (nround 4 price); rw_change_pct := Some nzero; rw_direction := "neutral" |}
      end
  end.
Definition get_quotes fetcher (symbols : string) : list (QuoteRow F) :=
  map (_quote_row fetcher) (take 10 (symbols_in symbols)).
End quotes.

(** ** The eToro watchlists *)

Record Watchlist (F : Type) := { wl_name : json F; wl_id : json F; wl_items : list (json F * json F) }.
Arguments wl_name {F}. Arguments wl_id {F}. Arguments wl_items {F}.

Section watchlists.
Context {F : Type} `{HF : PyFloat F}.
Implicit Types (doc item : json F).

(** [doc.get("...", [])], iterated. *)
Definition listed (k : string) doc : option (list (json F)) :=
  match doc with JDict d => iterate (default (JList []) (dict_get k d)) | _ => None end.
(** Whether ["market" in item], where that can be asked: a dict, a list or a text can be. *)
Definition has_market item : option bool :=
  match item with
  | JDict d => Some (match dict_get "market" d with Some _ => true | None => false end)
  | JList l => Some (existsb (fun v => match v with JStr s => String.eqb s "market" | _ => false end) l)
  | JStr s => Some (match String.index 0 "market" s with Some _ => true | None => false end)
  | JVal _ => None
  end.
Definition market_item item : option (json F * json F) :=
  market ← field "market" item; name ← field "symbolName" market; shown ← field "displayName" market; Some (name, shown).
Fixpoint market_items (items : list (json F)) : option (list (json F * json F)) :=
  match items with
  | [] => Some []
  | item :: items =>
      marked ← has_market item;
      if (marked : bool) then x ← market_item item; rest ← market_items items; Some (x :: rest) else market_items items
  end.
Definition watchlist_of doc : option (Watchlist F) :=
  items ← listed "items" doc; found ← market_items items;
  name ← field "name" doc; id ← field "watchlistId" doc;
  Some {| wl_name := name; wl_id := id; wl_items := found |}.
(** [None] where something raises, whose text is then the error. *)
Definition etoro_watchlist (environ : gmap string string) (reply : option (json F)) : result string (list (Watchlist F)) :=
  if negb (str_true (getenv environ "ETORO_API_KEY" "") && str_true (getenv environ "ETORO_USER_KEY" ""))
  then Err "eToro credentials not configured" else
  match doc ← reply; lists ← listed "watchlists" doc; mapM watchlist_of lists with
  | Some lists => Ok lists
  | None => Err "unavailable"
  end.
End watchlists.

(** ** A manual order was checked *)

Section checked.
Context {F : Type} `{HF : PyFloat F}.
Context (fpow : F -> F -> F) (float_of : string -> option F) (environ : gmap string string).
Implicit Types (services : Services F) (calls : list (Call F)).
Notation trade := (manual_trade fpow float_of environ).

(** A service answered the call with a document. *)
Definition answered services calls (c : Call F) (doc : json F) : Prop :=
  exists code, services calls c = Replied code (Some doc) /\ succeeded code = true.
(** [float(doc.get(k, 0.0))] of a dict. *)
Definition read_figure (k : string) (doc : json F) (x : F) : Prop :=
  exists d, doc = JDict d /\ json_float float_of (default (JVal (PFloat nzero)) (dict_get k d)) = Some x.

Definition orders (c : Call F) : bool := match c with SubmitOrder _ _ => true | _ => false end.

(** How a run that submitted an order went: every call was answered, what was read was enough,
    and the policy said APPROVE to this trade. *)
Definition checked_run services (q : ManualTradeRequest) (symbol id : string) (age : Z) (liquidity price : F) calls : Prop :=
  exists account portfolio policy equity power exposure realized,
    let notional := nmul price (nofZ (mt_qty q)) in
    let ask := policy_ask q symbol id age liquidity equity notional exposure realized in
    (answered services [] GetAccount account /\ answered services [GetAccount] GetPortfolio portfolio) /\
    (read_figure "equity" account equity /\ read_figure "buying_power" account power /\
     read_figure "gross_exposure" portfolio exposure /\ read_figure "realized_pnl" portfolio realized) /\
    (nleb equity nzero = false /\ nltb power notional = false) /\
    (answered services [GetAccount; GetPortfolio] (EvaluatePolicy ask) (JDict policy) /\
     dict_get "decision" policy = Some (JStr "APPROVE")) /\
    calls = [GetAccount; GetPortfolio; EvaluatePolicy ask; SubmitOrder (order_ask q symbol id price) id].

Lemma bind_inv {S E A B} (m : prog S E A) (k : A -> prog S E B) s r s' :
  (m ≫= k) s = (r, s') ->
  (exists e, m s = (Err e, s') /\ r = Err e) \/ (exists a s1, m s = (Ok a, s1) /\ k a s1 = (r, s')).
Proof. unfold mbind, prog_bind. destruct (m s) as [[a|e] s1]; [right; by exists a, s1|left]. exists e. by injection H as <- <-. Qed.

(** A step that only reads what it was given: the calls are as they were. *)
Definition reads_only {A} (m : prog (list (Call F)) Raised A) (P : A -> Prop) : Prop :=
  forall calls r calls', m calls = (r, calls') -> calls' = calls /\ forall a, r = Ok a -> P a.
Lemma status_checked_reads a : reads_only (status_checked a)
  (fun body => exists code, a = Replied code body /\ succeeded code = true).
Proof.
  intros calls r calls'. unfold status_checked, raise, mret, prog_ret. destruct a as [|code body]; [|destruct (succeeded code) eqn:E];
    intros [= <- <-]; split; try done; intros ? [= <-]; eauto.
Qed.
Lemma status_checked_ends a calls r calls' : status_checked a calls = (r, calls') ->
  calls' = calls /\ (r = Err Dependency \/ exists body, r = Ok body).
Proof.
  unfold status_checked, raise, mret, prog_ret. destruct a as [|code body]; [|destruct (succeeded code)]; intros [= <- <-]; eauto.
Qed.
Lemma parsed_reads body : reads_only (parsed body) (fun doc => body = Some doc).
Proof. intros calls r calls'. destruct body; intros [= <- <-]; split; try done. by intros ? [= <-]. Qed.
Lemma got_reads k otherwise doc : reads_only (got k otherwise doc)
  (fun v => exists d, doc = JDict d /\ v = default otherwise (dict_get k d)).
Proof. intros calls r calls'. destruct doc; intros [= <- <-]; split; try done. intros ? [= <-]. eauto. Qed.
Lemma figure_reads k doc : reads_only (figure float_of k doc) (read_figure k doc).
Proof.
  intros calls r calls' [(e & E & ->)|(v & s1 & E & E')]%bind_inv.
  - apply got_reads in E as [-> _]. by split.
  - apply got_reads in E as [-> Hv]. destruct (Hv v eq_refl) as (d & -> & ->).
    destruct (json_float _ _) as [x|] eqn:Ex; injection E' as <- <-; (split; [done|]); [|done].
    intros ? [= <-]. by exists d.
Qed.

(** One step of a program: it leaves the calls as they are, and what it raises ends the run
    without an order. *)
Ltac unordered := left; split; [reflexivity|intros ? [=]].
Ltac reading H lemma :=
  apply bind_inv in H as [(? & H & ->)|(? & ? & ?E & H)];
  [apply lemma in H as [-> _]; unordered|
   match goal with E : _ = (Ok ?a, _) |- _ => apply lemma in E as [-> E]; specialize (E a eq_refl) end].
Ltac sending H := apply bind_inv in H as [(? & [=] & _)|(? & ? & [= <- <-] & H)]; cbn [app] in H.

Lemma submit_cases services q symbol id age liquidity price r calls :
  submit float_of services q symbol id age liquidity price [] = (r, calls) ->
  (existsb orders calls = false /\ forall x, r <> Ok (inr x)) \/
  (checked_run services q symbol id age liquidity price calls /\ (r = Err Dependency \/ exists x, r = Ok (inr x))).
Proof.
  intros H. unfold submit in H. do 2 sending H.
  do 2 reading H status_checked_reads. do 2 reading H parsed_reads. do 2 reading H figure_reads. cbv zeta in H.
  destruct (_ || _) eqn:Eg; [injection H as <- <-; unordered|]. apply orb_false_iff in Eg.
  do 2 reading H figure_reads. sending H. reading H status_checked_reads. reading H parsed_reads. reading H got_reads.
  destruct (says "REVIEW" _) eqn:Er; [reading H got_reads; injection H as <- <-; unordered|].
  destruct (says "APPROVE" _) eqn:Ea; cbn [negb] in H; [|reading H got_reads; injection H as <- <-; unordered].
  right. apply bind_inv in H as [(? & [=] & _)|(answer & sent & [= <- <-] & H)]. cbn [app] in H.
  repeat match goal with E : exists _, _ |- _ => destruct E as (? & ? & ?) end. subst.
  match goal with Ea : says "APPROVE" (default _ (dict_get "decision" ?p)) = true |- _ =>
    destruct (dict_get "decision" p) as [[|w| |]|] eqn:Ed; try discriminate Ea; apply String.eqb_eq in Ea; subst w end.
  match goal with E1 : read_figure "equity" ?acc ?eq, E2 : read_figure "buying_power" _ ?po,
    E3 : read_figure "gross_exposure" ?port ?ex, E4 : read_figure "realized_pnl" _ ?re |- _ =>
    rename eq into equity, po into power, ex into exposure, re into realized, acc into account, port into portfolio end.
  assert (calls = [GetAccount; GetPortfolio;
    EvaluatePolicy (policy_ask q symbol id age liquidity equity (nmul price (nofZ (mt_qty q))) exposure realized);
    SubmitOrder (order_ask q symbol id price) id] /\ (r = Err Dependency \/ exists x, r = Ok (inr x))) as [-> Hr].
  { apply bind_inv in H as [(? & [-> [[= ->]|[? ?]]]%status_checked_ends & ->)|(body & ? & E & [= <- <-])]; try done; eauto.
    apply status_checked_ends in E as [-> _]. eauto. }
  split; [|exact Hr]. match goal with Ed : dict_get "decision" ?p = _ |- _ => exists account, portfolio, p, equity, power, exposure, realized end.
  cbv zeta. destruct Eg. unfold answered. by split_and!; try (eexists; split; eassumption).
Qed.

(** What an operator is told: [false] where the answer says that nothing was ordered. *)
Definition may_have_ordered (r : result Failure (ManualResult F)) : bool :=
  match r with
  | Ok (Submitted _ _ _ _ _ _) | Err (Crash _) => true
  | Err (Http code _) => Z.eqb code 502
  | _ => false
  end.

End checked.

(** ** The chart and the ticker *)

Section pages.
Context {F : Type} `{HF : PyFloat F}.
Context (fpow : F -> F -> F) (day_of : datetime -> string).

(** The overlay of a chart, which averages anew for every bar, is the one-pass series of the
    backtest, rounded. *)
Lemma overlay_is_the_series (bars : list (OHLCVBar F)) period : (1 <= period)%nat ->
  map snd (overlay day_of bars period) = map (nround 4) (_ema_series (map ob_close bars) period).
Proof.
  intros Hp. rewrite ema_series_agrees by done. unfold overlay, on_prefixes. rewrite length_map.
  apply list_eq. intros i. rewrite !list_lookup_fmap, list_lookup_imap.
  destruct (bars !! i) as [b|] eqn:E.
  - rewrite lookup_seq_lt by by eapply lookup_lt_Some. done.
  - rewrite lookup_seq_ge by by apply lookup_ge_None. done.
Qed.

(** One row for each of the first ten symbols, whatever fails; a row without a price is one
    whose provider has neither a live price nor a bar. *)
Lemma every_symbol_has_its_row (fetcher : Fetcher F) raw :
  map rw_symbol (get_quotes fetcher raw) = take 10 (symbols_in raw) /\
  Forall (fun row => rw_price row = None <->
    live_price fetcher (rw_symbol row) = None /\
    match ft_fetch fetcher (rw_symbol row) 5 with Ok (_ :: _) => False | _ => True end) (get_quotes fetcher raw).
Proof.
  assert (forall s, rw_symbol (_quote_row fetcher s) = s) as Hs.
  { intros s. unfold _quote_row. destruct (row_figures _ _) as [[p|] [r|]]; try done. by destruct (negb _). }
  unfold get_quotes. split.
  - rewrite map_map. rewrite <- (map_id (take 10 _)) at 2. apply map_ext. exact Hs.
  - apply Forall_map, Forall_forall. intros s _. rewrite Hs. unfold _quote_row, row_figures.
    destruct (live_price fetcher s) as [p|]; [split; [|by intros []]; by repeat case_match|].
    destruct (ft_fetch fetcher s 5) as [[|b bars]|]; [by split| |by split].
    assert (exists x l, rev (b :: bars) = x :: l) as (x & l & ->).
    { destruct (rev (b :: bars)) as [|x l] eqn:E; [|eauto]. apply (f_equal length) in E. by rewrite length_rev in E. }
    cbn [nth_error fmap option_fmap option_map]. split; [by repeat case_match|by intros []].
Qed.
End pages.

(** ** Concrete trades *)

Module Trades.
Definition fpow (x _ : Q) : Q := x.
Definition float_of (_ : string) : option Q := None.
Definition environ : gmap string string := list_to_map [("INTERNAL_API_KEY", "in"); ("ADMIN_API_KEY", "ad")].
Definition minute : Z := 60000000.
Definition bar (at_ : datetime) : OHLCVBar Q :=
  {| ob_symbol := "MSFT"; ob_timestamp := at_; ob_open := 100%Q; ob_high := 100%Q; ob_low := 100%Q; ob_close := 100%Q;
     ob_volume := 1000%Q |}.
Definition settings : MarketDataSettings :=
  {| alpaca_api_key := ""; alpaca_secret_key := ""; alpaca_paper := true; alpaca_feed := "iex"; cache_ttl_seconds := 60;
     default_lookback_days := 90; ms_timeframe := "intraday"; intraday_minutes := 15; intraday_lookback_days := 5;
     streaming_enabled := false; max_price_age_seconds := 120; force_yahoo := true |}.
(** A request at minute [now] of a desk whose last bar began at minute [began]. *)
Definition desk (id : string) (now began : Z) : Desk Q :=
  {| dk_signal_id := id; dk_now := now * minute; dk_later := now * minute; dk_settings := settings; dk_source := "intraday";
     dk_fetched := Some [bar (began * minute)] |}.
Definition trade : ManualTradeRequest :=
  {| mt_symbol := " msft"; mt_side := "BUY"; mt_qty := 10; mt_order_type := "MARKET"; mt_strategy_id := "ema_rsi_macd";
     mt_account_id := "default" |}.
Definition money (x : Q) : json Q := JVal (PFloat x).
(** Ten thousand in the account, profits since the first day, and one answer of the policy
    and of the execution service. *)
Definition services (decision : string) (placed : Answer Q) : Services Q := fun _ c =>
  match c with
  | GetAccount => Replied 200 (Some (JDict [("equity", money 10000%Q); ("buying_power", money 10000%Q)]))
  | GetPortfolio => Replied 200 (Some (JDict [("gross_exposure", money 2500%Q); ("realized_pnl", money 900%Q)]))
  | EvaluatePolicy _ => Replied 200 (Some (JDict [("decision", JStr decision); ("reasons", JList [])]))
  | SubmitOrder _ _ => placed
  end.
Definition accepted : Answer Q := Replied 200 (Some (JDict [("order_id", JStr "o1"); ("status", JStr "ACCEPTED")])).
Definition run (s : Services Q) (d : Desk Q) := manual_trade fpow float_of environ (Some "in") (Some "ad") s trade d.
Definition keys (calls : list (Call Q)) : list string :=
  omap (fun c => match c with SubmitOrder _ k => Some k | _ => None end) calls.
End Trades.


(** An order whose answer is lost is an unavailable dependency. Asked again, the desk orders
    again: the key is of the request, and the request is new. *)
Example lost_answer_orders_twice :
  let run id := Trades.run (Trades.services "APPROVE" HttpError) (Trades.desk id 1 0) in
  fst (run "manual-1") = Err (Http 502 "A required trading dependency is unavailable") /\
  Trades.keys (snd (run "manual-1")) ++ Trades.keys (snd (run "manual-2")) = ["manual-1"; "manual-2"].
Proof. vm_compute. by split. Qed.

(** A placed order whose answer is not JSON ends in an exception. *)
Example unreadable_answer_crashes_after_the_order :
  let r := Trades.run (Trades.services "APPROVE" (Replied 201 None)) (Trades.desk "manual-1" 1 0) in
  fst r = Err (Crash "JSONDecodeError") /\ Trades.keys (snd r) = ["manual-1"].
Proof. vm_compute. by split. Qed.

(** A bar is stamped when it begins: the last whole bar of a quarter of an hour is never two
    minutes old, so at that cadence the desk is closed. *)
Example whole_bar_is_never_fresh :
  map (fun now => fst (Trades.run (Trades.services "APPROVE" Trades.accepted) (Trades.desk "m" now 0))) [15; 20; 29] =
    repeat (Err (Http 409 "Manual entry requires fresh intraday market data")) 3.
Proof. vm_compute. reflexivity. Qed.

(** A trade that needs approval is answered so, and nobody is asked: no call is made. *)
Example review_asks_nobody :
  let r := Trades.run (Trades.services "REVIEW" Trades.accepted) (Trades.desk "manual-1" 1 0) in
  fst r = Ok (NotOrdered (RequiresApproval (JList []))) /\ length (snd r) = 3%nat.
Proof. vm_compute. by split. Qed.

(** The drawdown of the day is what has been lost since the beginning: with nine hundred
    gained before, it is nothing whatever the day has lost. *)
Example gains_hide_the_drawdown :
  omap (fun c => match c with EvaluatePolicy q => Some (Qred (pa_daily_drawdown_pct q)) | _ => None end)
    (snd (Trades.run (Trades.services "APPROVE" Trades.accepted) (Trades.desk "manual-1" 1 0))) = [0%Q].
Proof. vm_compute. reflexivity. Qed.
