(* ===== verification/Sources.v ===== *)
(** * Research and sentiment

    Models [services/research-service/src/research_service] ([researcher.py], [cache.py] and
    the endpoints of [main.py]) and [services/sentiment-aggregator/src/sentiment_aggregator/main.py].
    The model, the news providers and the journal's database are answers of the outside. The
    list of risk factors is kept in the cache as the JSON the same code writes and reads, and
    is a list here. The searches of one request look their symbols up before any of them is
    answered, and are stored in the order they end. *)

From S2P Require Import PyFloat Policy Json Store Contracts Journal Prompts Prelude.
From Stdlib Require Import Ascii QArith Lqa Floats.SpecFloat.
Local Open Scope Z_scope.

(** A failed request: an answer of FastAPI, or an exception nothing catches. *)
Inductive Failure := Http (e : HTTPException) | Crash (message : string).

(** ** researcher.py *)

Record ResearchReport (F : Type) := {
  rp_symbol : string;
  rp_generated_at : datetime;
  rp_sentiment : string;
  rp_headline_summary : string;
  rp_risk_factors : list string;
  rp_macro_context : string;
  rp_confidence_modifier : F;
  rp_cached : bool
}.
Arguments rp_symbol {F}. Arguments rp_generated_at {F}. Arguments rp_sentiment {F}. Arguments rp_headline_summary {F}.
Arguments rp_risk_factors {F}. Arguments rp_macro_context {F}. Arguments rp_confidence_modifier {F}. Arguments rp_cached {F}.

Section researcher.
Context {F : Type} `{HF : PyFloat F}.
(** [json.loads], and [float] of a text. *)
Context (loads : string -> option (json F)) (float_of : string -> option F).
Local Open Scope py_scope.

Definition UNAVAILABLE : string := "Research unavailable — using neutral assumptions.".
Definition _NEUTRAL_STUB : json F :=
  JDict [("sentiment", JStr "neutral"); ("headline_summary", JStr UNAVAILABLE); ("risk_factors", JList []);
         ("macro_context", JStr ""); ("confidence_modifier", JVal (PFloat nzero))].
Definition _build_stub (symbol : string) (now : datetime) : ResearchReport F :=
  {| rp_symbol := upper symbol; rp_generated_at := now; rp_sentiment := "neutral"; rp_headline_summary := UNAVAILABLE;
     rp_risk_factors := []; rp_macro_context := ""; rp_confidence_modifier := nzero; rp_cached := false |}.

Definition _parse_json (text : string) : json F :=
  match loads text with
  | Some doc => doc
  | None =>
      match braced text with
      | Some block => default _NEUTRAL_STUB (loads block)
      | None => _NEUTRAL_STUB
      end
  end.
Definition _extract_text (blocks : list (option string)) : string := strip (join (chr 10) (omap (fun b => b) blocks)).

Definition text_of (v : json F) : option string := match v with JStr s => Some s | _ => None end.
Definition texts_of (v : json F) : option (list string) := match v with JList l => mapM text_of l | _ => None end.
(** The constraint pydantic puts on a report. *)
Definition within_modifier (m : F) : bool := (nlit (-2) 10 <=? m) && (m <=? nlit 2 10).

(** The report of an answer; [None] where something raises. *)
Definition report_of (symbol : string) (now : datetime) (data : json F) : option (ResearchReport F) :=
  match data with
  | JDict d =>
      let got k otherwise := default otherwise (dict_get k d) in
      modifier ← json_float float_of (got "confidence_modifier" (JVal (PFloat nzero)));
      sentiment ← text_of (got "sentiment" (JStr "neutral"));
      summary ← text_of (got "headline_summary" (JStr ""));
      risks ← texts_of (got "risk_factors" (JList []));
      macro ← text_of (got "macro_context" (JStr ""));
      if within_modifier modifier
      then Some {| rp_symbol := upper symbol; rp_generated_at := now; rp_sentiment := sentiment; rp_headline_summary := summary;
                   rp_risk_factors := risks; rp_macro_context := macro; rp_confidence_modifier := modifier; rp_cached := false |}
      else None
  | _ => None
  end.

(** [AIResearcher.research]: the answer of the model to the question, when it came. *)
Definition question (symbol : string) : string := untrusted_block "requested-symbol" symbol 64.
Definition research (prompt : PromptArtifact) (symbol : string) (ask : string -> string -> result string (list (option string)))
    (now : datetime) : ResearchReport F :=
  match ask (content prompt) (question symbol) with
  | Ok blocks => default (_build_stub symbol now) (report_of symbol now (_parse_json (_extract_text blocks)))
  | Err _ => _build_stub symbol now
  end.
End researcher.

(** ** cache.py *)

Record CacheRow (F : Type) := { cr_report : ResearchReport F; cr_expires_at : datetime; cr_model_version : string }.
Arguments cr_report {F}. Arguments cr_expires_at {F}. Arguments cr_model_version {F}.

Section cache.
Context {F : Type} `{HF : PyFloat F}.
(** [json.dumps] of the risk factors, for the journal. *)
Context (dumps : list string -> string).
Implicit Types (r : ResearchReport F) (rows : list (CacheRow F)) (j : Journal F).

Definition marked (cached : bool) r : ResearchReport F :=
  {| rp_symbol := rp_symbol r; rp_generated_at := rp_generated_at r; rp_sentiment := rp_sentiment r;
     rp_headline_summary := rp_headline_summary r; rp_risk_factors := rp_risk_factors r;
     rp_macro_context := rp_macro_context r; rp_confidence_modifier := rp_confidence_modifier r; rp_cached := cached |}.
Definition row_symbol (row : CacheRow F) : string := rp_symbol (cr_report row).
Definition generated_after (a b : CacheRow F) : bool := rp_generated_at (cr_report b) <=? rp_generated_at (cr_report a).

Definition research_cache_get (symbol : string) (now : datetime) rows : option (ResearchReport F) :=
  match sort_by generated_after
          (List.filter (fun row => String.eqb (row_symbol row) (upper symbol) && (now <? cr_expires_at row)) rows) with
  | row :: _ => Some (marked true (cr_report row))
  | [] => None
  end.

(** A second. *)
Definition second : Z := 1000000.
Definition cache_row (ttl : Z) (model : string) r : CacheRow F :=
  {| cr_report := {| rp_symbol := upper (rp_symbol r); rp_generated_at := rp_generated_at r; rp_sentiment := rp_sentiment r;
                     rp_headline_summary := rp_headline_summary r; rp_risk_factors := rp_risk_factors r;
                     rp_macro_context := rp_macro_context r; rp_confidence_modifier := rp_confidence_modifier r;
                     rp_cached := false |};
     cr_expires_at := rp_generated_at r + ttl * second; cr_model_version := model |}.
(** The delete and the insert are one transaction. *)
Definition cache_set (ttl : Z) (model : string) r rows : list (CacheRow F) :=
  List.filter (fun row => negb (String.eqb (row_symbol row) (upper (rp_symbol r)))) rows ++ [cache_row ttl model r].
(** What is archived of it before. *)
Definition archive (model : string) r (now : datetime) (e : io) j : Journal F :=
  record_research (rp_symbol r) (rp_sentiment r) (rp_headline_summary r) (dumps (rp_risk_factors r))
    (rp_confidence_modifier r) model (Some (rp_generated_at r)) now e j.
End cache.

(** ** The endpoints of the research service *)

Section service.
Context {F : Type} `{HF : PyFloat F}.
Context (loads : string -> option (json F)) (float_of : string -> option F) (dumps : list string -> string).
Local Open Scope Z_scope.

Record ResearchSettings := {
  rg_database_url : string;
  rg_api_key : string;
  rg_ttl : Z;
  rg_model : string;
  rg_prompt_id : string;
  rg_prompt_sha256 : string;
  rg_max_symbols : Z
}.
(** [None] where a number does not parse: the module does not load. *)
Definition research_settings (environ : gmap string string) : option ResearchSettings :=
  ttl ← py_int (env_get environ "RESEARCH_CACHE_TTL_SECONDS" "1800");
  limit ← py_int (env_get environ "RESEARCH_MAX_SYMBOLS" "10");
  Some {| rg_database_url := env_get environ "RESEARCH_DATABASE_URL" "sqlite+pysqlite:///./research-service.db";
          rg_api_key := env_get environ "ANTHROPIC_API_KEY" ""; rg_ttl := ttl;
          rg_model := env_get environ "RESEARCH_CLAUDE_MODEL" "claude-opus-4-6";
          rg_prompt_id := env_get environ "RESEARCH_PROMPT_ID" "research-system-v1";
          rg_prompt_sha256 := env_get environ "RESEARCH_PROMPT_SHA256" ""; rg_max_symbols := limit |}.
(** [l[:n]] *)
Definition upto {A} (n : Z) (l : list A) : list A :=
  if 0 <=? n then take (Z.to_nat n) l else take (length l - Z.to_nat (- n)) l.
(** What one symbol of a request finds: the moments, the model, and the journal's database. *)
Record Search := {
  se_looked_up : datetime;
  se_answered : datetime;
  se_ask : string -> string -> result string (list (option string));
  se_io : io
}.
Implicit Types (cfg : ResearchSettings) (rows : list (CacheRow F)) (j : Journal F).

(** The symbols of a request; the first malformed one refuses it. *)
Fixpoint sanitized (symbols : list string) : result HTTPException (list string) :=
  match symbols with
  | [] => Ok []
  | s :: symbols => s ← sanitize_symbol s; rest ← sanitized symbols; Ok (upper s :: rest)
  end.

Inductive Plan := Hit (r : ResearchReport F) | NoKey | Miss.
Definition plan cfg rows (w : Search) (symbol : string) : Plan :=
  match research_cache_get symbol (se_looked_up w) rows with
  | Some r => Hit r
  | None => if str_true (rg_api_key cfg) then Miss else NoKey
  end.
Definition is_miss (p : Plan) : bool := match p with Miss => true | _ => false end.
(** A search without a prompt fails, and its request with it. *)
Definition report_for (prompt : result string PromptArtifact) (w : Search) (symbol : string) (p : Plan) : ResearchReport F :=
  match p with
  | Hit r => r
  | NoKey => _build_stub symbol (se_looked_up w)
  | Miss =>
      match prompt with
      | Ok prompt => research loads float_of prompt symbol (se_ask w) (se_answered w)
      | Err _ => _build_stub symbol (se_answered w)
      end
  end.
Definition stored cfg (x : list (CacheRow F) * Journal F) (w : Search) (r : ResearchReport F) : list (CacheRow F) * Journal F :=
  let '(rows, j) := x in (cache_set (rg_ttl cfg) (rg_model cfg) r rows, archive dumps (rg_model cfg) r (se_answered w) (se_io w) j).

(** [finished]: the positions of the searches in the order they end. *)
Definition get_research_reports cfg (prompt : result string PromptArtifact) (symbols : list string) (world : nat -> Search)
    (finished : list nat) (x : list (CacheRow F) * Journal F)
    : result Failure (list (ResearchReport F)) * (list (CacheRow F) * Journal F) :=
  match sanitized (upto (rg_max_symbols cfg) symbols) with
  | Err e => (Err (Http e), x)
  | Ok symbols =>
      let plans := imap (fun i s => (s, plan cfg (fst x) (world i) s)) symbols in
      let reports := imap (fun i sp => report_for prompt (world i) (fst sp) (snd sp)) plans in
      match prompt, existsb (fun sp => is_miss (snd sp)) plans with
      | Err e, true => (Err (Crash e), x)
      | _, _ =>
          (Ok reports,
           foldl (fun x i =>
             match plans !! i, reports !! i with
             | Some (_, Miss), Some r => stored cfg x (world i) r
             | _, _ => x
             end) x finished)
      end
  end.

Definition get_symbol_report (symbol : string) (now : datetime) rows : result Failure (ResearchReport F) :=
  match research_cache_get (upper symbol) now rows with
  | Some r => Ok r
  | None => Err (Http {| status_code := 404; detail := "No cached report for " +:+ upper symbol |})
  end.

(** The newest row of each symbol, expired or not. *)
Definition newest rows (row : CacheRow F) : bool :=
  forallb (fun other => negb (String.eqb (row_symbol other) (row_symbol row)) || generated_after row other) rows.
Definition list_reports (limit : nat) rows : list (ResearchReport F) :=
  take limit (map (fun row => marked false (cr_report row)) (sort_by generated_after (List.filter (newest rows) rows))).
End service.

(** ** The sentiment aggregator *)

Definition POSITIVE_WORDS : list string := ["beat"; "surge"; "gain"; "bullish"; "growth"; "record"; "upside"; "strong"].
Definition NEGATIVE_WORDS : list string := ["miss"; "drop"; "loss"; "bearish"; "fraud"; "weak"; "downside"; "lawsuit"].

(** [text.split()] *)
Fixpoint split_words (word : string) (s : string) : list string :=
  let ended := if String.eqb word "" then [] else [String.rev word] in
  match s with
  | EmptyString => ended
  | String a s => if is_space a then ended ++ split_words "" s else split_words (String a word) s
  end.
(** [word.strip] of punctuation: stops, brackets and quotes. *)
Definition punctuation (a : ascii) : bool :=
  existsb (Nat.eqb (nat_of_ascii a)) [46; 44; 58; 59; 33; 63; 40; 41; 91; 93; 123; 125; 34; 39]%nat.
Fixpoint lstrip_marks (s : string) : string :=
  match s with
  | String a s' => if punctuation a then lstrip_marks s' else s
  | EmptyString => ""
  end.
Definition strip_marks (s : string) : string := String.rev (lstrip_marks (String.rev (lstrip_marks s))).
Definition words_of (text : string) : list string := map (fun w => lower (strip_marks w)) (split_words "" text).

Section scores.
Context {F : Type} `{HF : PyFloat F}.
Local Open Scope py_scope.

(** How many words of the list are in each text, summed over the texts. *)
Definition hits (vocabulary : list string) (texts : list string) : nat :=
  list_sum (map (fun text => length (List.filter (fun w => str_in w (words_of text)) vocabulary)) texts).
Definition _score_texts (texts : list string) : F :=
  let pos := Z.of_nat (hits POSITIVE_WORDS texts) in
  let neg := Z.of_nat (hits NEGATIVE_WORDS texts) in
  let total := (pos + neg)%Z in
  if (total =? 0)%Z then nzero
  else nround 3 (nmax (- n_one) (nmin n_one (nofZ (pos - neg) / nofZ total))).

Record SentimentScore := {
  ss_symbol : string;
  ss_score : F;
  ss_confidence : F;
  ss_sources_used : list string;
  ss_cached_at : datetime
}.
Definition sentiment_score (s : SentimentScore) : result string SentimentScore :=
  if ((- n_one <=? ss_score s) && (ss_score s <=? n_one)) && ((nzero <=? ss_confidence s) && (ss_confidence s <=? n_one))
  then Ok s else Err "validation error for SentimentScore".
Definition confidence_in (sources texts : nat) : F :=
  nmin n_one (nlit 25 100 + nlit 15 100 * nofZ (Z.of_nat sources) + nlit 5 100 * nofZ (Z.of_nat (Nat.min texts 5))).
End scores.
Arguments SentimentScore F : clear implicits.

Section aggregator.
Context {F : Type} `{HF : PyFloat F}.
(** [datetime.fromisoformat] of a text, its Z replaced, and [str] of a value that is none. *)
Context (iso : string -> option datetime) (repr : json F -> string).
Implicit Types (item : json F) (j : Journal F).

(** A response: none, or a status and a body, [None] where it is not JSON. *)
Definition Response : Type := option (Z * option (json F)).

(** [" ".join(filter(None, values))] *)
Definition joined (values : list (json F)) : option string :=
  join " " <$> mapM (fun v => match v with JStr s => Some s | _ => None end) (List.filter json_true values).
(** The texts of the items up to the first that raises, and whether none did. *)
Fixpoint collect (f : json F -> option string) (items : list (json F)) : list string * bool :=
  match items with
  | [] => ([], true)
  | item :: items =>
      match f item with
      | Some text => let '(texts, ok) := collect f items in (text :: texts, ok)
      | None => ([], false)
      end
  end.
Definition two_fields (k1 k2 : string) item : option string :=
  a ← field_get k1 item; b ← field_get k2 item; joined [a; b].
Definition message_of item : option string :=
  match item with JDict d => Some (json_str repr (get_or ["message"; "text"] (JStr "") d)) | _ => None end.

(** [doc.get(k, [])] *)
Definition listing (k : string) (doc : json F) : option (json F) :=
  match doc with JDict d => Some (default (JList []) (dict_get k d)) | _ => None end.
(** [rows[:5]], iterated. *)
Definition first_five (rows : json F) : option (list (json F)) :=
  match rows with
  | JList l => Some (take 5 l)
  | JStr s => take 5 <$> iterate (JStr s)
  | _ => None
  end.

(** The items a provider answered with; [None] where something raises before them. *)
Definition newsapi_items (doc : json F) : option (list (json F)) := rows ← listing "articles" doc; iterate rows.
Definition alphavantage_items (doc : json F) : option (list (json F)) := rows ← listing "feed" doc; first_five rows.
Definition etoro_items (doc : json F) : option (list (json F)) :=
  match doc with JDict d => first_five (get_or ["items"; "posts"] (JList []) d) | _ => None end.

(** A headline and its date, as they are archived: an unparseable date is none, one that is no
    text and not false cannot be archived, and without a headline it is not looked at. *)
Definition headline_of item : option (string * option datetime) :=
  let text := json_str repr (json_or [default (JVal PNone) (field_get "title" item)] (JStr "")) in
  match default (JVal PNone) (field_get "publishedAt" item) with
  | JStr s => Some (text, iso s)
  | v => if json_true v && str_true (strip text) then None else Some (text, None)
  end.
Fixpoint archivable (items : list (option (string * option datetime))) : list (string * option datetime) :=
  match items with
  | Some x :: items => x :: archivable items
  | _ => []
  end.
Definition _archive_headlines (symbol : string) (items : list (option (string * option datetime))) (source : string)
    (now : datetime) (e : io) j : Journal F := record_headlines symbol (archivable items) source now e j.

(** What the calls gather: the texts, the sources, the journal. *)
Record Gathered := { ga_texts : list string; ga_sources : list string; ga_journal : Journal F }.
Record Provider := {
  pv_name : string;
  pv_items : json F -> option (list (json F));
  pv_text : json F -> option string;
  pv_headline : option (json F -> option (string * option datetime))
}.
(** One provider's block: the texts it came to stay, whatever raises later. *)
Definition gather (symbol : string) (p : Provider) (answer : Response) (now : datetime) (e : io) (g : Gathered) : Gathered :=
  match answer with
  | Some (code, Some doc) =>
      match pv_items p doc with
      | Some items =>
          let '(texts, ok) := collect (pv_text p) items in
          let texts := ga_texts g ++ texts in
          if ok && (code =? 200)
          then {| ga_texts := texts; ga_sources := ga_sources g ++ [pv_name p];
                  ga_journal := match pv_headline p with
                                | Some f => _archive_headlines symbol (map f items) (pv_name p) now e (ga_journal g)
                                | None => ga_journal g
                                end |}
          else {| ga_texts := texts; ga_sources := ga_sources g; ga_journal := ga_journal g |}
      | None => g
      end
  | _ => g
  end.

Definition newsapi : Provider :=
  {| pv_name := "newsapi"; pv_items := newsapi_items; pv_text := two_fields "title" "description"; pv_headline := Some headline_of |}.
Definition alphavantage : Provider :=
  {| pv_name := "alphavantage"; pv_items := alphavantage_items; pv_text := two_fields "title" "summary";
     pv_headline := Some (fun item => Some (json_str repr (json_or [default (JVal PNone) (field_get "title" item)] (JStr "")), None)) |}.
Definition etoro_social : Provider :=
  {| pv_name := "etoro_social"; pv_items := etoro_items; pv_text := message_of; pv_headline := None |}.

Record Sentiments := { sn_cache : gmap string (SentimentScore F * datetime); sn_journal : Journal F }.
(** The keys that are set, the answers, and the journal's database. *)
Record Asked := {
  as_newsapi : option Response;
  as_alphavantage : option Response;
  as_etoro : option Response;
  as_io : io
}.
Definition CACHE_TTL : Z := 300 * second.

Definition ask_provider (symbol : string) (p : Provider) (answer : option Response) (now : datetime) (e : io) (g : Gathered) : Gathered :=
  match answer with Some answer => gather symbol p answer now e g | None => g end.
Definition _fetch_sentiment (symbol : string) (now : datetime) (a : Asked) (s : Sentiments)
    : result string (SentimentScore F) * Sentiments :=
  let ask :=
    let g := ask_provider symbol etoro_social (as_etoro a) now (as_io a)
            (ask_provider symbol alphavantage (as_alphavantage a) now (as_io a)
            (ask_provider symbol newsapi (as_newsapi a) now (as_io a)
              {| ga_texts := []; ga_sources := []; ga_journal := sn_journal s |})) in
    let score := _score_texts (ga_texts g) in
    let confidence := confidence_in (length (ga_sources g)) (length (ga_texts g)) in
    match sentiment_score {| ss_symbol := symbol; ss_score := score; ss_confidence := nround 2 confidence;
                             ss_sources_used := ga_sources g; ss_cached_at := now |} with
    | Err e => (Err e, {| sn_cache := sn_cache s; sn_journal := ga_journal g |})
    | Ok sentiment =>
        (Ok sentiment,
         {| sn_cache := <[symbol := (sentiment, now + CACHE_TTL)]> (sn_cache s);
            sn_journal := record_sentiment symbol score confidence (ga_sources g) now (as_io a) (ga_journal g) |})
    end in
  match sn_cache s !! symbol with
  | Some (held, until) => if now <? until then (Ok held, s) else ask
  | None => ask
  end.
Definition get_sentiment (symbol : string) : datetime -> Asked -> Sentiments -> result string (SentimentScore F) * Sentiments :=
  _fetch_sentiment (upper symbol).
End aggregator.

(** ** The cache of reports is a map *)

Section held.
Context {F : Type} `{HF : PyFloat F}.

Record CacheSet := { st_ttl : Z; st_model : string; st_report : ResearchReport F }.
Definition rows_after (sets : list CacheSet) : list (CacheRow F) :=
  foldl (fun rows o => cache_set (st_ttl o) (st_model o) (st_report o) rows) [] sets.
(** What was set last for each symbol. *)
Definition held_after (sets : list CacheSet) : gmap string (CacheRow F) :=
  foldl (fun m o => <[upper (rp_symbol (st_report o)) := cache_row (st_ttl o) (st_model o) (st_report o)]> m) ∅ sets.

Lemma filter_filter {A} (p q : A -> bool) l : List.filter p (List.filter q l) = List.filter (fun x => q x && p x) l.
Proof. induction l as [|x l IH]; [done|]. cbn. destruct (q x); cbn; [destruct (p x)|]; by rewrite ?IH. Qed.

Lemma rows_of_symbol sets s :
  List.filter (fun row => String.eqb (row_symbol row) s) (rows_after sets) = option_list (held_after sets !! s).
Proof.
  induction sets as [|o sets IH] using rev_ind; [done|]. unfold rows_after, held_after in *. rewrite !foldl_app. cbn [foldl].
  set (rows := foldl _ [] sets) in *. set (m := foldl _ ∅ sets) in *.
  unfold cache_set. rewrite List.filter_app, filter_filter. set (k := upper (rp_symbol (st_report o))).
  cbn [List.filter]. change (row_symbol (cache_row _ _ _)) with k.
  destruct (decide (s = k)) as [->|Hn].
  - rewrite String.eqb_refl, lookup_insert_eq. cbn [option_list].
    assert (List.filter (fun x => negb (String.eqb (row_symbol x) k) && String.eqb (row_symbol x) k) rows = []) as ->; [|done].
    clear IH. clearbody rows. induction rows as [|x l IH]; [done|]. cbn. by destruct (String.eqb (row_symbol x) k).
  - rewrite lookup_insert_ne by done. apply String.eqb_neq in Hn as Hk. rewrite String.eqb_sym, Hk, app_nil_r, <- IH.
    apply List.filter_ext. intros x. destruct (String.eqb_spec (row_symbol x) s) as [->|]; [by rewrite Hk|by rewrite andb_false_r].
Qed.

(** The cache of reports is a map with an expiry. Whatever was stored before, in any order
    and under any time to live, the table, which is deleted from and inserted into, answers
    a question about a symbol with the report stored last for it, marked as cached, while it
    is not expired, and with nothing else. *)
Theorem research_cache_is_a_map (sets : list CacheSet) symbol now :
  research_cache_get symbol now (rows_after sets) =
  (row ← held_after sets !! upper symbol; if now <? cr_expires_at row then Some (marked true (cr_report row)) else None).
Proof.
  unfold research_cache_get. rewrite <- filter_filter, rows_of_symbol.
  destruct (held_after sets !! upper symbol) as [row|]; [|done]. cbn. by destruct (now <? cr_expires_at row).
Qed.
End held.
Arguments CacheSet F : clear implicits.

(** ** Every symbol of a request has its report *)

Section reports.
Context (loads : string -> option (json Q)) (float_of : string -> option Q) (dumps : list string -> string).

Definition rows_within (rows : list (CacheRow Q)) : Prop :=
  Forall (fun row => within_modifier (rp_confidence_modifier (cr_report row)) = true) rows.

Lemma report_within symbol now data r : report_of float_of symbol now data = Some r ->
  within_modifier (rp_confidence_modifier r) = true /\ rp_symbol r = upper symbol /\ rp_cached r = false.
Proof.
  unfold report_of. destruct data as [| | |d]; try done. intros H.
  repeat (apply bind_Some in H as (? & _ & H)). destruct (within_modifier _) eqn:E; [|done]. by injection H as <-.
Qed.
Lemma research_within prompt symbol ask now :
  let r := research loads float_of prompt symbol ask now in
  within_modifier (rp_confidence_modifier r) = true /\ rp_symbol r = upper symbol /\ rp_cached r = false.
Proof.
  cbv zeta. unfold research. destruct (ask _ _) as [blocks|]; [|done].
  destruct (report_of _ _ _ _) eqn:E; [by apply report_within in E|done].
Qed.
Lemma research_cache_get_within symbol now rows r : rows_within rows -> research_cache_get symbol now rows = Some r ->
  within_modifier (rp_confidence_modifier r) = true /\ rp_symbol r = upper symbol /\ rp_cached r = true.
Proof.
  intros Hr. unfold research_cache_get. set (l := List.filter _ rows).
  assert (Forall (fun row => within_modifier (rp_confidence_modifier (cr_report row)) = true /\ row_symbol row = upper symbol)
    (sort_by generated_after l)) as Hs.
  { apply Forall_forall. intros row Hrow. rewrite elem_of_sort_by in Hrow. apply list_elem_of_In, filter_In in Hrow as [Hin Hp].
    apply andb_true_iff in Hp as [Hp _]. apply String.eqb_eq in Hp. split; [|done].
    by eapply (proj1 (Forall_forall _ _) Hr), list_elem_of_In. }
  destruct (sort_by _ l) as [|row rest]; [done|]. intros [= <-]. by inversion Hs as [|? ? [? ?]].
Qed.
Lemma cache_set_within ttl model r rows : rows_within rows ->
  within_modifier (rp_confidence_modifier r) = true -> rows_within (cache_set ttl model r rows).
Proof.
  intros Hr Hm. unfold rows_within, cache_set. apply Forall_app. split; [|by constructor].
  apply Forall_forall. intros row Hrow. apply list_elem_of_In, filter_In in Hrow as [Hin _].
  by eapply (proj1 (Forall_forall _ _) Hr), list_elem_of_In.
Qed.

(** A report that is served or stored has a modifier within two tenths, and is about the symbol
    in its place; a request that is answered answers every symbol. *)
Lemma reports_answer_their_symbols cfg prompt symbols world finished rows j r x' :
  rows_within rows ->
  get_research_reports loads float_of dumps cfg prompt symbols world finished (rows, j) = (r, x') ->
  rows_within (fst x') /\
  match r with
  | Ok reports =>
      exists syms, sanitized (upto (rg_max_symbols cfg) symbols) = Ok syms /\ map rp_symbol reports = map upper syms /\
        Forall (fun r => within_modifier (rp_confidence_modifier r) = true) reports
  | Err (Http e) => sanitized (upto (rg_max_symbols cfg) symbols) = Err e /\ x' = (rows, j)
  | Err (Crash e) => prompt = Err e /\ x' = (rows, j)
  end.
Proof.
  intros Hw. unfold get_research_reports. destruct (sanitized _) as [syms|e]; [|by intros [= <- <-]]. cbn [fst].
  set (plans := imap _ syms). set (reports := imap _ plans).
  assert (forall i r, reports !! i = Some r -> exists s, syms !! i = Some s /\
    within_modifier (rp_confidence_modifier r) = true /\ rp_symbol r = upper s) as Hr.
  { intros i r0. unfold reports, plans. rewrite !list_lookup_imap. destruct (syms !! i) as [s|]; [|done]. cbn.
    intros [= <-]. exists s. split; [done|]. unfold report_for, plan. destruct (research_cache_get _ _ _) as [hit|] eqn:Ec.
    - apply research_cache_get_within in Ec as (? & ? & _); done.
    - destruct (str_true _); [|done]. destruct prompt; [|done]. split; apply research_within. }
  set (final := foldl _ (rows, j) finished).
  assert (rows_within (fst final)) as Hf.
  { unfold final. clear final. assert (rows_within (fst (rows, j))) as H0 by done. revert H0. generalize (rows, j).
    induction finished as [|i l IH]; intros x Hx; [done|]. cbn [foldl]. apply IH.
    destruct (plans !! i) as [[s p]|]; [|done]. destruct p; try done. destruct (reports !! i) as [r0|] eqn:Er; [|done].
    destruct x as [rows0 j0]. cbn. apply cache_set_within; [done|]. by destruct (Hr i r0 Er) as (? & _ & ? & _). }
  assert (map rp_symbol reports = map upper syms /\ Forall (fun r => within_modifier (rp_confidence_modifier r) = true) reports) as [Hm Ha].
  { split.
    - apply list_eq. intros i. rewrite !list_lookup_fmap. destruct (reports !! i) as [r0|] eqn:Er.
      + destruct (Hr i r0 Er) as (s & -> & _ & E). cbn. by rewrite E.
      + unfold reports, plans in Er. rewrite !list_lookup_imap in Er. by destruct (syms !! i).
    - apply Forall_lookup. intros i r0 Er. by destruct (Hr i r0 Er) as (? & _ & ? & _). }
  destruct prompt as [p|e]; [|destruct (existsb _ plans)]; intros [= <- <-]; (split; [done|]); eauto.
Qed.
End reports.

(** ** A sentiment is a score, and a recent one *)

Section sentiment.
Context (iso : string -> option datetime) (repr : json Q -> string).
Notation fetch := (_fetch_sentiment iso repr).

Definition in_bounds (s : SentimentScore Q) : Prop :=
  ((-1 <= ss_score s)%Q /\ (ss_score s <= 1)%Q) /\ ((0 <= ss_confidence s)%Q /\ (ss_confidence s <= 1)%Q).

Lemma round_between k (lo hi x : Q) : (nround k lo == lo)%Q -> (nround k hi == hi)%Q -> (lo <= x)%Q -> (x <= hi)%Q ->
  (lo <= nround k x)%Q /\ (nround k x <= hi)%Q.
Proof. intros El Eh Hl Hh. apply (Q_round_mono k) in Hl, Hh. rewrite El in Hl. rewrite Eh in Hh. done. Qed.

Lemma score_bounds texts : ((-1 <= _score_texts (F := Q) texts)%Q /\ (_score_texts (F := Q) texts <= 1)%Q).
Proof.
  unfold _score_texts. destruct (_ =? 0); [by split; vm_compute|].
  apply round_between; [reflexivity..| |]; rewrite Q_nmax_spec; [apply Q.le_max_l|].
  apply Q.max_lub; [by vm_compute|]. rewrite Q_nmin_spec. apply Q.le_min_l.
Qed.
Lemma confidence_bounds sources texts :
  ((0 <= nround 2 (confidence_in (F := Q) sources texts))%Q /\ (nround 2 (confidence_in (F := Q) sources texts) <= 1)%Q).
Proof.
  apply round_between; [reflexivity..| |]; unfold confidence_in; rewrite Q_nmin_spec; [|apply Q.le_min_l].
  apply Q.min_glb; [by vm_compute|].
  assert (forall n, (0 <= nofZ (F := Q) (Z.of_nat n))%Q) as Hn.
  { intros n. change (nofZ (Z.of_nat n)) with (Z.of_nat n # 1)%Q. unfold Qle. cbn. lia. }
  pose proof (Hn sources) as H1. pose proof (Hn (Nat.min texts 5)) as H2.
  revert H1 H2. generalize (nofZ (F := Q) (Z.of_nat sources)) (nofZ (F := Q) (Z.of_nat (Nat.min texts 5))).
  intros x y Hx Hy. change (0 <= (25 # 100) + (15 # 100) * x + (5 # 100) * y)%Q. lra.
Qed.

Lemma scored_ok symbol texts sources now :
  let s := {| ss_symbol := symbol; ss_score := _score_texts (F := Q) texts;
              ss_confidence := nround 2 (confidence_in (length sources) (length texts)); ss_sources_used := sources; ss_cached_at := now |} in
  sentiment_score s = Ok s /\ in_bounds s.
Proof.
  cbv zeta. pose proof (score_bounds texts) as Hs. pose proof (confidence_bounds (length sources) (length texts)) as Hc.
  split; [|by split]. unfold sentiment_score. cbn [ss_score ss_confidence].
  destruct Hs as [H1 H2], Hc as [H3 H4]. apply Q_nleb in H1, H2, H3, H4.
  change (- n_one)%py with (-1 : Q). change n_one with (1 : Q). change nzero with (0 : Q). by rewrite H1, H2, H3, H4.
Qed.

(** The calls of the service, from a cache that is empty. *)
Record SentimentCall := { sc_symbol : string; sc_now : datetime; sc_asked : Asked (F := Q) }.
Definition after_calls (j : Journal Q) (calls : list SentimentCall) : Sentiments :=
  foldl (fun s c => snd (get_sentiment iso repr (sc_symbol c) (sc_now c) (sc_asked c) s))
    {| sn_cache := ∅; sn_journal := j |} calls.
Definition cache_sound (s : Sentiments (F := Q)) : Prop :=
  forall k held until, sn_cache s !! k = Some (held, until) ->
    ss_symbol held = k /\ in_bounds held /\ until = ss_cached_at held + CACHE_TTL.

Lemma fetch_sound symbol now a s : cache_sound s ->
  let '(r, s') := fetch symbol now a s in
  cache_sound s' /\ exists score, r = Ok score /\ ss_symbol score = symbol /\ in_bounds score /\
    (ss_cached_at score = now \/ s' = s /\ now < ss_cached_at score + CACHE_TTL).
Proof.
  intros Hs. unfold _fetch_sentiment.
  set (g := ask_provider _ _ (as_etoro a) _ _ _).
  destruct (scored_ok symbol (ga_texts g) (ga_sources g) now) as [-> Hb]. cbv zeta in Hb.
  match goal with |- context[(Ok ?x, ?y)] => set (score := x) in *; set (s1 := y) end.
  assert (cache_sound s1) as H1.
  { intros k held until Hk. cbn [s1 sn_cache] in Hk. apply lookup_insert_Some in Hk as [[<- [= <- <-]]|[_ Hk]]; [|by apply Hs]. done. }
  destruct (sn_cache s !! symbol) as [[held until]|] eqn:Ek; [destruct (Z.ltb_spec now until)|].
  - split; [done|]. destruct (Hs _ _ _ Ek) as (E1 & E2 & ->). exists held. eauto 10.
  - split; [done|]. exists score. eauto 10.
  - split; [done|]. exists score. eauto 10.
Qed.

(** A sentiment is bounded and recent. Whatever was asked before and whatever the providers
    answer, errors and documents of any shape among them, a request is answered, with a
    score of its symbol between minus one and one and a confidence between zero and one,
    made now or less than the time to live ago; in the second case nothing is asked and
    nothing is archived. *)
Theorem sentiment_is_bounded_and_recent j calls symbol now a :
  let s := after_calls j calls in
  let '(r, s') := get_sentiment iso repr symbol now a s in
  exists score, r = Ok score /\ ss_symbol score = upper symbol /\ in_bounds score /\
    (ss_cached_at score = now \/ s' = s /\ now < ss_cached_at score + CACHE_TTL).
Proof.
  cbv zeta. assert (cache_sound (after_calls j calls)) as Hs.
  { induction calls as [|c calls IH] using rev_ind; [intros k held until Hk; cbn in Hk; by rewrite lookup_empty in Hk|].
    unfold after_calls in *. rewrite foldl_app. cbn [foldl]. unfold get_sentiment.
    pose proof (fetch_sound (upper (sc_symbol c)) (sc_now c) (sc_asked c) _ IH) as H.
    fold (after_calls j calls) in *. destruct (fetch _ _ _ _). apply H. }
  pose proof (fetch_sound (upper symbol) now a _ Hs) as H. unfold get_sentiment. destruct (fetch _ _ _ _). apply H.
Qed.
End sentiment.

(** ** Concrete requests *)

Module Bureau.
Definition loads (_ : string) : option (json Q) := None.
Definition float_of (_ : string) : option Q := None.
Definition dumps (_ : list string) : string := "[]".
Definition cfg : ResearchSettings := 
  {| rg_database_url := ""; rg_api_key := "k"; rg_ttl := 1800; rg_model := "m"; rg_prompt_id := "research-system-v1";
     rg_prompt_sha256 := ""; rg_max_symbols := 10 |}.
Definition prompt : result string PromptArtifact := Ok {| prompt_id := "research-system-v1"; content := "c"; pa_sha256 := "d" |}.
(** A search at a second of the clock; the model is down. *)
Definition down (at_ : Z) : Search :=
  {| se_looked_up := at_ * second; se_answered := at_ * second; se_ask := fun _ _ => Err "overloaded"; se_io := None |}.
Definition journal : Journal Q :=
  {| enabled := true; bars := []; prices := []; sentiments := []; headlines := []; researches := []; decisions := []; executions := [] |}.
Definition ask (prompt : result string PromptArtifact) (at_ : Z) x :=
  get_research_reports loads float_of dumps cfg prompt ["aapl"] (fun _ => down at_) [0%nat] x.
Definition told (r : result Failure (list (ResearchReport Q))) : option (list (string * bool)) :=
  match r with Ok reports => Some (map (fun r => (rp_headline_summary r, rp_cached r)) reports) | Err _ => None end.
Definition iso (_ : string) : option datetime := None.
Definition repr (_ : json Q) : string := "?".
Definition none : Asked (F := Q) := {| as_newsapi := None; as_alphavantage := None; as_etoro := None; as_io := None |}.
(** AlphaVantage answers 200 and says that the limit is reached. *)
Definition limited : Asked (F := Q) :=
  {| as_newsapi := None; as_alphavantage := Some (Some (200, Some (JDict [("Information", JStr "rate limit")])));
     as_etoro := None; as_io := None |}.
Definition sentiment (a : Asked (F := Q)) := get_sentiment iso repr "aapl" 0 a {| sn_cache := ∅; sn_journal := journal |}.
Definition summary (r : result string (SentimentScore Q)) : option (Q * Q * list string) :=
  match r with Ok s => Some (Qred (ss_score s), Qred (ss_confidence s), ss_sources_used s) | Err _ => None end.
End Bureau.

(** A model that is down is a neutral report: it is served from the cache for half an hour
    more, and archived as research. *)
Example failure_is_cached_as_research :
  let '(r1, x1) := Bureau.ask Bureau.prompt 0 ([], Bureau.journal) in
  let '(r2, x2) := Bureau.ask Bureau.prompt 1700 x1 in
  Bureau.told r1 = Some [(UNAVAILABLE, false)] /\ Bureau.told r2 = Some [(UNAVAILABLE, true)] /\
  map (fun o => Journal.sentiment Q (ob_data o)) (researches (snd x2)) = ["neutral"].
Proof. vm_compute. by repeat split. Qed.

(** Without its prompt a search raises, where every failure is to be a neutral stub. *)
Example missing_prompt_fails_the_request :
  fst (Bureau.ask (Err "Prompt registry does not exist") 0 ([], Bureau.journal)) = Err (Crash "Prompt registry does not exist").
Proof. reflexivity. Qed.

(** A report that has expired is not served by its symbol and is listed. *)
Example expired_reports_are_listed :
  let rows := fst (snd (Bureau.ask Bureau.prompt 0 ([], Bureau.journal))) in
  research_cache_get "AAPL" (1800 * second) rows = None /\ length (list_reports 20 rows) = 1%nat.
Proof. vm_compute. by split. Qed.

(** A source that said nothing raises the confidence as one that was read; and without any
    source the neutral score of no text is archived as a score. *)
Example rate_limited_source_counts :
  Bureau.summary (fst (Bureau.sentiment Bureau.limited)) = Some (0%Q, (2 # 5)%Q, ["alphavantage"]) /\
  Bureau.summary (fst (Bureau.sentiment Bureau.none)) = Some (0%Q, (1 # 4)%Q, []) /\
  length (sentiments (sn_journal (snd (Bureau.sentiment Bureau.none)))) = 1%nat.
Proof. vm_compute. by repeat split. Qed.
