(* ===== verification/AuditLog.v ===== *)
(** * The audit log and the notifications

    Models [services/audit-logger/src/audit_logger/main.py], the two readers of the week's
    spend (the orchestrator's [_weekly_spend] and the policy service's), and
    [services/notification-service/src/notification_service/main.py]. The log is its rows in
    insertion order; the metadata of a row, which the service writes as JSON and reads back,
    is the document. A notification is one object that two queues and the task that sends it
    share: the queues hold references. *)

From S2P Require Import PyFloat Policy Json Store Contracts Prelude.
From Stdlib Require Import Ascii QArith Floats.SpecFloat.
Local Open Scope Z_scope.

(** A failed request: an answer of FastAPI, or an exception nothing catches. *)
Inductive Failure := Http (e : HTTPException) | Crash (message : string).

(** ** The audit log *)

Record AuditEvent (F : Type) := {
  ae_event_id : option string;
  ae_event_type : string;
  ae_symbol : option string;
  ae_signal_id : option string;
  ae_decision : option string;
  ae_reasoning : string;
  ae_metadata : list (string * json F);
  ae_timestamp : datetime
}.
Arguments ae_event_id {F}. Arguments ae_event_type {F}. Arguments ae_symbol {F}. Arguments ae_signal_id {F}.
Arguments ae_decision {F}. Arguments ae_reasoning {F}. Arguments ae_metadata {F}. Arguments ae_timestamp {F}.

Record AuditEventRecord (F : Type) := {
  ar_event_id : string;
  ar_event_type : string;
  ar_symbol : option string;
  ar_signal_id : option string;
  ar_decision : option string;
  ar_reasoning : string;
  ar_metadata : list (string * json F);
  ar_timestamp : datetime
}.
Arguments ar_event_id {F}. Arguments ar_event_type {F}. Arguments ar_symbol {F}. Arguments ar_signal_id {F}.
Arguments ar_decision {F}. Arguments ar_reasoning {F}. Arguments ar_metadata {F}. Arguments ar_timestamp {F}.

Section log.
Context {F : Type} `{HF : PyFloat F}.
Context (environ : gmap string string) (float_of : string -> option F).
Implicit Types (e : AuditEvent F) (log : list (AuditEventRecord F)).

(** [a if a else b] of an optional text. *)
Definition given (a : option string) : option string := match a with Some s => if str_true s then Some s else None | None => None end.

Definition audit_record (uuid : string) e : AuditEventRecord F :=
  {| ar_event_id := default uuid (given (ae_event_id e)); ar_event_type := ae_event_type e;
     ar_symbol := upper <$> given (ae_symbol e); ar_signal_id := ae_signal_id e; ar_decision := ae_decision e;
     ar_reasoning := ae_reasoning e; ar_metadata := ae_metadata e; ar_timestamp := ae_timestamp e |}.
Definition has_id (i : string) (row : AuditEventRecord F) : bool := String.eqb (ar_event_id row) i.
(** The id is the primary key; what is answered is the row. *)
Definition create_log (x_internal_key : option string) (uuid : string) e log
    : result Failure (AuditEventRecord F) * list (AuditEventRecord F) :=
  match verify_internal_key environ x_internal_key with
  | Err exc => (Err (Http exc), log)
  | Ok _ =>
      let row := audit_record uuid e in
      if existsb (has_id (ar_event_id row)) log then (Err (Crash "IntegrityError"), log) else (Ok row, log ++ [row])
  end.

Definition logged_later (a b : AuditEventRecord F) : bool := ar_timestamp b <=? ar_timestamp a.
Definition logged (symbol event_type : option string) (since : option datetime) (row : AuditEventRecord F) : bool :=
  (match given symbol with Some s => bool_decide (ar_symbol row = Some (upper s)) | None => true end) &&
  (match given event_type with Some t => String.eqb (ar_event_type row) t | None => true end) &&
  (match since with Some t => t <=? ar_timestamp row | None => true end).
Definition list_logs (symbol event_type : option string) (since : option datetime) (limit : Z) log
    : result Failure (list (AuditEventRecord F)) :=
  if negb ((1 <=? limit) && (limit <=? 1000)) then Err (Http {| status_code := 422; detail := "validation error" |})
  else Ok (take (Z.to_nat limit) (sort_by logged_later (List.filter (logged symbol event_type since) log))).

Definition get_log (i : string) log : result Failure (AuditEventRecord F) :=
  match List.find (has_id i) log with
  | Some row => Ok row
  | None => Err (Http {| status_code := 404; detail := "Audit event not found" |})
  end.

(** ** The summary *)

Definition day : Z := 86400000000.
Definition today_start (now : datetime) : datetime := now - now mod day.
(** The first of January 1970 was a Thursday. *)
Definition week_start (now : datetime) : datetime := today_start now - ((now / day + 3) mod 7) * day.

Definition is_trade (row : AuditEventRecord F) : bool := str_in (ar_event_type row) ["order.submitted"; "signal.approved"].
Definition of_type (t : string) (since : datetime) (row : AuditEventRecord F) : bool :=
  String.eqb (ar_event_type row) t && (since <=? ar_timestamp row).
(** [float(meta.get("notional_usd", 0))]; a row that raises adds nothing. *)
Definition notional_usd (row : AuditEventRecord F) : option F :=
  json_float float_of (default (JVal (PInt 0)) (dict_get "notional_usd" (ar_metadata row))).

(** [Counter(symbols)], in the order the symbols are met. *)
Definition counter (symbols : list string) : list (string * nat) :=
  foldl (fun counts s => dict_set s (S (default 0%nat (dict_get s counts))) counts) [] symbols.
Definition more_common (a b : string * nat) : bool := Nat.leb (snd b) (snd a).
Definition most_common (n : nat) (counts : list (string * nat)) : list string := map fst (take n (sort_by more_common counts)).

Record AuditSummary := {
  as_total_trades : nat;
  as_approved_today : nat;
  as_rejected_today : nat;
  as_weekly_spend : F;
  as_top_symbols_traded : list string
}.
Definition get_summary (now : datetime) log : AuditSummary :=
  let count p := length (List.filter p log) in
  {| as_total_trades := count is_trade;
     as_approved_today := count (of_type "signal.approved" (today_start now));
     as_rejected_today := count (of_type "signal.rejected" (today_start now));
     as_weekly_spend := nround 2 (nsum (omap notional_usd (List.filter (of_type "order.submitted" (week_start now)) log)));
     as_top_symbols_traded := most_common 5 (counter (omap (fun row => if is_trade row then given (ar_symbol row) else None) log)) |}.

(** ** What is spent in a week *)

Definition week_ago (now : datetime) : datetime := now - 7 * day.
Definition executed_rows (now : datetime) log : list (AuditEventRecord F) :=
  match list_logs None (Some "trade.executed") (Some (week_ago now)) 1000 log with Ok rows => rows | Err _ => [] end.
(** [float(row.get("metadata", {}).get("amount_usd", 0.0))] *)
Definition amount_usd (row : AuditEventRecord F) : option F :=
  json_float float_of (default (JVal (PFloat nzero)) (dict_get "amount_usd" (ar_metadata row))).
(** The orchestrator's; [None] where an amount raises, which nothing catches. The log may be
    out of reach. *)
Definition _weekly_spend (now : datetime) (log : option (list (AuditEventRecord F))) : option F :=
  match log with
  | Some log => amounts ← mapM amount_usd (executed_rows now log); Some (nround 2 (nsum amounts))
  | None => Some nzero
  end.
(** The policy service's: everything that raises is no spend. *)
Definition policy_weekly_spend (now : datetime) (log : option (list (AuditEventRecord F))) : F :=
  match log with
  | Some log => default nzero (amounts ← mapM amount_usd (executed_rows now log); Some (nsum amounts))
  | None => nzero
  end.
End log.
Arguments AuditSummary F : clear implicits.

(** ** The notifications *)

Record NotificationEvent (F : Type) := {
  ne_tier : Z;
  ne_symbol : option string;
  ne_action : string;
  ne_amount_usd : F;
  ne_reason : string;
  ne_signal_id : option string;
  ne_timestamp : datetime
}.
Arguments ne_tier {F}. Arguments ne_symbol {F}. Arguments ne_action {F}. Arguments ne_amount_usd {F}. Arguments ne_reason {F}.
Arguments ne_signal_id {F}. Arguments ne_timestamp {F}.
(** The payload: the event, and what became of its webhook. *)
Record Payload (F : Type) := { py_event : NotificationEvent F; py_webhook_status : option string }.
Arguments py_event {F}. Arguments py_webhook_status {F}.

(** What [urlsplit] finds in a URL. *)
Record Url := { url_scheme : string; url_hostname : option string; url_has_user : bool; url_has_password : bool; url_fragment : string }.

Section notify.
Context {F : Type} `{HF : PyFloat F}.
Context (urlsplit : string -> Url).

(** The settings: [None] is the [ValueError]. *)
Definition verified_webhook_url (webhook_url allowed_hosts : string) : option string :=
  let raw := strip webhook_url in
  if negb (str_true raw) then Some "" else
  let parsed := urlsplit raw in
  let allowed := map (fun h => lower (strip h)) (List.filter (fun h => str_true (strip h)) (split_on "," allowed_hosts)) in
  if negb (String.eqb (url_scheme parsed) "https") ||
     (match given (url_hostname parsed) with Some h => negb (str_in (lower h) allowed) | None => true end) ||
     url_has_user parsed || url_has_password parsed || str_true (url_fragment parsed)
  then None else Some raw.

(** The objects, and the two queues of references to them, the newest first. *)
Record Notices := { nt_heap : list (Payload F); nt_history : list nat; nt_pending : list nat }.
Definition MAXLEN : nat := 50.
(** [deque.appendleft] *)
Definition appendleft (i : nat) (queue : list nat) : list nat := take MAXLEN (i :: queue).
Definition set_status (status : string) (p : Payload F) : Payload F :=
  {| py_event := py_event p; py_webhook_status := Some status |}.
Definition mark (i : nat) (status : string) (n : Notices) : Notices :=
  {| nt_heap := alter (set_status status) i (nt_heap n); nt_history := nt_history n; nt_pending := nt_pending n |}.

(** Up to the request of the webhook, which is awaited; [Some url] where there is one. *)
Definition notify_start (webhook_url allowed_hosts : string) (e : NotificationEvent F) (n : Notices) : nat * option string * Notices :=
  let i := length (nt_heap n) in
  let n := {| nt_heap := nt_heap n ++ [{| py_event := e; py_webhook_status := None |}];
              nt_history := appendleft i (nt_history n);
              nt_pending := if 2 <=? ne_tier e then appendleft i (nt_pending n) else nt_pending n |} in
  match verified_webhook_url webhook_url allowed_hosts with
  | None => (i, None, mark i "misconfigured" n)
  | Some url => (i, if str_true url then Some url else None, n)
  end.
(** The request: the key, the constraints of the event, and the start. *)
Definition valid_event (e : NotificationEvent F) : bool := ((1 <=? ne_tier e) && (ne_tier e <=? 3)) && nleb nzero (ne_amount_usd e).
Definition notify (environ : gmap string string) (x_internal_key : option string) (webhook_url allowed_hosts : string)
    (e : NotificationEvent F) (n : Notices) : result Failure (nat * option string) * Notices :=
  match verify_internal_key environ x_internal_key with
  | Err exc => (Err (Http exc), n)
  | Ok _ =>
      if negb (valid_event e) then (Err (Http {| status_code := 422; detail := "validation error" |}), n)
      else let '(i, url, n) := notify_start webhook_url allowed_hosts e n in (Ok (i, url), n)
  end.
(** After it: [ok] is false where it raised. *)
Definition notify_end (i : nat) (ok : bool) (n : Notices) : Notices := if ok then n else mark i "failed" n.

Definition payloads (n : Notices) (queue : list nat) : list (Payload F) := omap (fun i => nt_heap n !! i) queue.
Definition history (n : Notices) : list (Payload F) := payloads n (nt_history n).
Definition pending (n : Notices) : list (Payload F) := payloads n (nt_pending n).
End notify.
Arguments Notices F : clear implicits.

(** ** The log is append-only, and keeps what it answered *)

Section append.
Context {F : Type} `{HF : PyFloat F}.
Context (environ : gmap string string).
Implicit Types (log : list (AuditEventRecord F)).

Record Post := { po_key : option string; po_uuid : string; po_event : AuditEvent F }.
Definition posted log (p : Post) : list (AuditEventRecord F) := snd (create_log environ (po_key p) (po_uuid p) (po_event p) log).
Definition log_after log (posts : list Post) : list (AuditEventRecord F) := foldl posted log posts.

Lemma has_id_absent i log : existsb (has_id i) log = false <-> i ∉ map ar_event_id log.
Proof.
  induction log as [|row log IH]; cbn; [by split; [intros _ []%elem_of_nil|]|].
  rewrite orb_false_iff, IH, elem_of_cons. unfold has_id. rewrite String.eqb_neq. naive_solver.
Qed.

Lemma posted_cases log p :
  posted log p = log \/
  exists row, row = audit_record (po_uuid p) (po_event p) /\ existsb (has_id (ar_event_id row)) log = false /\
    verify_internal_key environ (po_key p) = Ok tt /\ posted log p = log ++ [row].
Proof.
  unfold posted, create_log. destruct (verify_internal_key _ _) as [[]|]; [|by left].
  destruct (existsb _ log) eqn:E; [by left|]. right. eauto 10.
Qed.

Lemma log_grows posts log : exists rows, log_after log posts = log ++ rows.
Proof.
  unfold log_after. revert log. induction posts as [|p posts IH]; intros log; [exists []; by rewrite app_nil_r|]. cbn [foldl].
  destruct (IH (posted log p)) as [rows ->].
  destruct (posted_cases log p) as [->|(row & _ & _ & _ & ->)]; [by exists rows|exists (row :: rows)]. by rewrite <- app_assoc.
Qed.
Lemma log_ids posts log : NoDup (map ar_event_id log) -> NoDup (map ar_event_id (log_after log posts)).
Proof.
  unfold log_after. revert log. induction posts as [|p posts IH]; intros log Hn; [done|]. cbn [foldl]. apply IH.
  destruct (posted_cases log p) as [->|(row & _ & Ha & _ & ->)]; [done|]. rewrite map_app. apply NoDup_app.
  split; [done|]. apply has_id_absent in Ha. split; [|apply NoDup_singleton]. by intros i Hi ->%list_elem_of_singleton.
Qed.


(** ** What the readers see *)

(** The week's spend is of every trade executed in the seven days, as long as there are no
    more than a thousand. *)
Lemma executed_rows_are_the_week now log :
  (length (List.filter (logged None (Some "trade.executed") (Some (week_ago now))) log) <= 1000)%nat ->
  executed_rows now log ≡ₚ List.filter (of_type "trade.executed" (week_ago now)) log.
Proof.
  intros Hl. unfold executed_rows, list_logs. change (negb _) with false. cbv iota.
  rewrite take_ge; [apply sort_by_perm|]. by rewrite (Permutation_length (sort_by_perm _ _)).
Qed.

(** Every type of event the stack posts to the log: all of them are the orchestrator's. *)
Definition POSTED_TYPES : list string :=
  ["lifecycle.demoted"; "orchestrator.validation"; "orchestrator.live_mode"; "signal.rejected"; "signal.paper_only";
   "signal.review"; "trade.executed"; "trade.executed.approval"; "orchestrator.cycle"; "reconciliation.break";
   "approval.stale_rejected"].
(** The summary counts the types that nobody posts: it shows no trade, no approval and no spend. *)
Lemma summary_shows_no_trade float_of now log : Forall (fun row => ar_event_type row ∈ POSTED_TYPES) log ->
  let s := get_summary float_of now log in
  as_total_trades s = 0%nat /\ as_approved_today s = 0%nat /\ as_weekly_spend s = nround 2 nzero /\ as_top_symbols_traded s = [].
Proof.
  intros Ht. assert (forall row, row ∈ log -> is_trade row = false /\
    forall since, of_type "signal.approved" since row = false /\ of_type "order.submitted" since row = false) as Hf.
  { intros row Hr. pose proof (proj1 (Forall_forall _ _) Ht row Hr) as Hin. apply str_in_spec in Hin.
    unfold is_trade, of_type, str_in in *. revert Hin. generalize (ar_event_type row). intros t Hin.
    cbn [existsb POSTED_TYPES] in Hin. rewrite !orb_true_iff, !String.eqb_eq in Hin.
    split; [|intros since]; naive_solver. }
  assert (forall (p : AuditEventRecord F -> bool), (forall row, row ∈ log -> p row = false) -> List.filter p log = []) as Hnil.
  { intros p Hp. clear -Hp. induction log as [|row log IH]; [done|]. cbn. rewrite (Hp row) by left.
    apply IH. intros x Hx. apply Hp. by right. }
  assert (forall (f : AuditEventRecord F -> option string), (forall row, row ∈ log -> f row = None) -> omap f log = []) as Ho.
  { intros f Hp. clear -Hp. induction log as [|row log IH]; [done|]. cbn. rewrite (Hp row) by left.
    apply IH. intros x Hx. apply Hp. by right. }
  cbv zeta. unfold get_summary. cbn [as_total_trades as_approved_today as_weekly_spend as_top_symbols_traded].
  rewrite Ho by (intros row Hr; by rewrite (proj1 (Hf row Hr))).
  rewrite !Hnil; [done|..]; intros row Hr; by apply Hf.
Qed.
End append.
Arguments Post F : clear implicits.

(** ** The queues hold the last fifty *)

Section queues.
Context {F : Type} `{HF : PyFloat F}.
Context (urlsplit : string -> Url) (webhook_url allowed_hosts : string).

Inductive NoticeStep := Starts (e : NotificationEvent F) | Ends (i : nat) (ok : bool).
Definition notice_step (n : Notices F) (s : NoticeStep) : Notices F :=
  match s with
  | Starts e => snd (notify_start urlsplit webhook_url allowed_hosts e n)
  | Ends i ok => notify_end i ok n
  end.
Definition notices_after (steps : list NoticeStep) : Notices F :=
  foldl notice_step {| nt_heap := []; nt_history := []; nt_pending := [] |} steps.
Definition started (steps : list NoticeStep) : list (NotificationEvent F) :=
  omap (fun s => match s with Starts e => Some e | Ends _ _ => None end) steps.
(** Whether the [i]-th event waits for somebody. *)
Definition needs_answer (events : list (NotificationEvent F)) (i : nat) : bool :=
  match events !! i with Some e => 2 <=? ne_tier e | None => false end.

Lemma mark_same i status (n : Notices F) :
  map py_event (nt_heap (mark i status n)) = map py_event (nt_heap n) /\
  nt_history (mark i status n) = nt_history n /\ nt_pending (mark i status n) = nt_pending n.
Proof.
  split; [|done]. cbn. apply list_eq. intros j. rewrite !list_lookup_fmap.
  destruct (decide (i = j)) as [->|]; [rewrite list_lookup_alter_eq; by destruct (nt_heap n !! j)|by rewrite list_lookup_alter_ne].
Qed.
Lemma take_appendleft i l : appendleft i (take MAXLEN l) = take MAXLEN (i :: l).
Proof. unfold appendleft, MAXLEN. cbn [take]. f_equal. rewrite take_take. done. Qed.
Lemma needs_answer_snoc events e i : (i < length events)%nat -> needs_answer (events ++ [e]) i = needs_answer events i.
Proof. intros Hi. unfold needs_answer. by rewrite lookup_app_l. Qed.

(** However notifications overlap, the objects are the events in the order they came; the
    history refers to the last fifty of them, and the queue of what waits for an answer to
    the last fifty of the second tier and above: an answer takes nothing from it. *)
Lemma queues_hold_the_last_fifty steps :
  let n := notices_after steps in
  let events := started steps in
  map py_event (nt_heap n) = events /\
  nt_history n = take MAXLEN (rev (List.seq 0 (length events))) /\
  nt_pending n = take MAXLEN (List.filter (needs_answer events) (rev (List.seq 0 (length events)))).
Proof.
  cbv zeta. induction steps as [|s steps (Hh & Hi & Hp)] using rev_ind; [done|].
  unfold notices_after, started in *. rewrite foldl_app, omap_app. cbn [foldl]. fold (notices_after steps) in *.
  set (n := notices_after steps) in *. set (events := omap _ steps) in *.
  destruct s as [e|i ok].
  - change (omap _ [Starts e]) with [e]. rewrite length_app, Nat.add_1_r, seq_S, rev_app_distr. cbn [rev app Nat.add].
    assert (length (nt_heap n) = length events) as El by by rewrite <- Hh, length_map.
    set (n1 := {| nt_heap := nt_heap n ++ [{| py_event := e; py_webhook_status := None |}];
                  nt_history := appendleft (length (nt_heap n)) (nt_history n);
                  nt_pending := if 2 <=? ne_tier e then appendleft (length (nt_heap n)) (nt_pending n) else nt_pending n |}).
    assert (map py_event (nt_heap n1) = events ++ [e] /\ nt_history n1 = take MAXLEN (length events :: rev (List.seq 0 (length events))) /\
      nt_pending n1 = take MAXLEN (List.filter (needs_answer (events ++ [e])) (length events :: rev (List.seq 0 (length events))))) as H1.
    { unfold n1. cbn [nt_heap nt_history nt_pending]. rewrite El, Hi, Hp, map_app, Hh.
      split; [done|]. split; [apply take_appendleft|]. cbn [List.filter].
      assert (List.filter (needs_answer (events ++ [e])) (rev (List.seq 0 (length events))) =
        List.filter (needs_answer events) (rev (List.seq 0 (length events)))) as ->.
      { apply filter_ext_in. intros j Hj%in_rev%in_seq. apply needs_answer_snoc. lia. }
      assert (needs_answer (events ++ [e]) (length events) = (2 <=? ne_tier e)) as ->.
      { unfold needs_answer. by rewrite list_lookup_middle. }
      destruct (2 <=? ne_tier e); [apply take_appendleft|done]. }
    cbn [notice_step]. unfold notify_start. fold n1. destruct (verified_webhook_url _ _ _); [exact H1|]. cbn [snd].
    destruct (mark_same (length (nt_heap n)) "misconfigured" n1) as (-> & -> & ->). exact H1.
  - change (omap _ [Ends i ok]) with (@nil (NotificationEvent F)). rewrite app_nil_r. cbn [notice_step]. unfold notify_end.
    destruct ok; [done|]. destruct (mark_same i "failed" n) as (-> & -> & ->). done.
Qed.
End queues.

(** ** Concrete rows *)

Module Rows.
Definition environ : gmap string string := list_to_map [("INTERNAL_API_KEY", "in")].
Definition float_of (_ : string) : option Q := None.
Definition event (type : string) (amount : json Q) : AuditEvent Q :=
  {| ae_event_id := None; ae_event_type := type; ae_symbol := Some "aapl"; ae_signal_id := Some "s"; ae_decision := None;
     ae_reasoning := "order_submitted"; ae_metadata := [("amount_usd", amount)]; ae_timestamp := 10 * day |}.
Definition post (uuid type : string) (amount : json Q) : Post Q := {| po_key := Some "in"; po_uuid := uuid; po_event := event type amount |}.
Definition usd (x : Q) : json Q := JVal (PFloat x).
Definition log (posts : list (Post Q)) : list (AuditEventRecord Q) := log_after environ [] posts.
(** A trade of four hundred, and one of three hundred from an approval. *)
Definition traded : list (AuditEventRecord Q) :=
  log [post "e1" "trade.executed" (usd 400%Q); post "e2" "trade.executed.approval" (usd 300%Q)].
Definition urlsplit (_ : string) : Url :=
  {| url_scheme := "https"; url_hostname := Some "hooks.example"; url_has_user := false; url_has_password := false; url_fragment := "" |}.
Definition notice : NotificationEvent Q :=
  {| ne_tier := 2; ne_symbol := None; ne_action := "approve"; ne_amount_usd := 300%Q; ne_reason := ""; ne_signal_id := Some "s"; ne_timestamp := 0 |}.
End Rows.

(** Seven hundred were spent: the week counts four hundred, and the summary of the log, which
    looks for other types, none at all. *)
Example spend_is_seen_in_part :
  _weekly_spend Rows.float_of (11 * day) (Some Rows.traded) = Some (nround 2 400%Q) /\
  Qred (as_weekly_spend (get_summary Rows.float_of (11 * day) Rows.traded)) = 0%Q /\
  as_total_trades (get_summary Rows.float_of (11 * day) Rows.traded) = 0%nat.
Proof. vm_compute. by repeat split. Qed.

(** One row whose amount is no number: the policy service sees no spend in the whole week, and
    the orchestrator's cycle ends with an exception. *)
Example one_bad_amount_empties_the_week :
  let log := Rows.log [Rows.post "e1" "trade.executed" (Rows.usd 400%Q); Rows.post "e2" "trade.executed" (JStr "n/a")] in
  Qred (policy_weekly_spend Rows.float_of (11 * day) (Some log)) = 0%Q /\ _weekly_spend Rows.float_of (11 * day) (Some log) = None.
Proof. vm_compute. by split. Qed.

(** Both queues refer to one object: a webhook that fails is seen in each. *)
Example failure_is_seen_in_both_queues :
  let n := notices_after Rows.urlsplit "https://hooks.example/x" "hooks.example" [Starts Rows.notice; Starts Rows.notice; Ends 0 false] in
  map py_webhook_status (history n) = [None; Some "failed"] /\ map py_webhook_status (pending n) = [None; Some "failed"].
Proof. vm_compute. by split. Qed.
