(* ===== verification/Brokers.v ===== *)
(** * The real-money brokers

    Models [libs/brokers/src/brokers/alpaca_broker.py] and [etoro_broker.py], and the choice
    between them in [__init__.py]. The vendor's client is a class of operations over a state
    of its own ([AlpacaClient], [EtoroApi]): what it answers, what it keeps, and, for the
    wait, what its clock reads. Both adapters are venues of the execution service, and the
    last part is about the service with such a venue behind it. *)

From S2P Require Import Prelude PyFloat Routing Store Contracts PaperBroker Journal Service Router Execution Policy Json.
From Stdlib Require Import QArith Floats.SpecFloat.
Local Open Scope Z_scope.

(** ** The choice of a broker *)

Definition getenv (environ : gmap string string) (name default_ : string) : string := default default_ (environ !! name).

(** The class of the broker and its [is_live_trading]. *)
Definition get_broker (environ : gmap string string) : string * bool :=
  let broker_name := lower (strip (getenv environ "BROKER" "")) in
  let paper := ("PaperBroker", false) in
  let alpaca :=
    if str_in broker_name [""; "alpaca"] && str_true (getenv environ "ALPACA_API_KEY" "") &&
       str_true (getenv environ "ALPACA_SECRET_KEY" "")
    then ("AlpacaBroker", negb (String.eqb (lower (getenv environ "ALPACA_PAPER" "true")) "true"))
    else paper in
  if String.eqb broker_name "etoro" && str_true (getenv environ "ETORO_API_KEY" "") &&
     str_true (getenv environ "ETORO_USER_KEY" "")
  then ("EtoroBroker", negb (String.eqb (lower (getenv environ "ETORO_DEMO" "true")) "true"))
  else alpaca.

(** ** Alpaca *)

(** A market order, or a limit order where there is a limit. *)
Record AlpacaRequest (F : Type) := {
  al_symbol : string;
  al_qty : Z;
  al_buy : bool;
  al_time_in_force : string;
  al_limit_price : option F
}.
Arguments al_symbol {F}. Arguments al_qty {F}. Arguments al_buy {F}.
Arguments al_time_in_force {F}. Arguments al_limit_price {F}.

(** The order a close answers with; [JVal PNone] for an attribute it lacks. *)
Record ClosedOrder (F : Type) := {
  co_id : option string;
  co_qty : json F;
  co_side : string;
  co_filled_avg_price : json F
}.
Arguments co_id {F}. Arguments co_qty {F}. Arguments co_side {F}. Arguments co_filled_avg_price {F}.

(** The fields of a position as the vendor has them. *)
Record AlpacaPosition (F : Type) := {
  ap_symbol : string;
  ap_qty : json F; ap_market_value : json F; ap_avg_entry_price : json F; ap_unrealized_pl : json F
}.
Arguments ap_symbol {F}. Arguments ap_qty {F}. Arguments ap_market_value {F}.
Arguments ap_avg_entry_price {F}. Arguments ap_unrealized_pl {F}.

(** [TradingClient], with the clock and the sleep of the process. *)
Class AlpacaClient (F R : Type) := {
  submit_order : AlpacaRequest F -> R -> result string string * R;
  get_order_by_id : string -> R -> result string (json F) * R;
  cancel_order_by_id : string -> R -> result string unit * R;
  client_account : R -> result string (json F * json F * json F) * R;
  get_all_positions : R -> result string (list (AlpacaPosition F)) * R;
  client_close : string -> option F -> R -> result string (ClosedOrder F) * R;
  client_monotonic : R -> Z * R;
  client_sleep : Z -> R -> R
}.

Record AlpacaBroker (R : Type) := { al_paper : bool; al_client : R }.
Arguments al_paper {R}. Arguments al_client {R}.

Definition _FILL_POLL_INTERVAL : Z := 500000.
Definition _FILL_POLL_TIMEOUT : Z := 10000000.
(** The loop reads the clock at most this often: twenty intervals make the timeout. *)
Definition POLLS : nat := 21.

Section alpaca.
Context {F : Type} `{HF : PyFloat F}.
Context {R : Type} `{HC : AlpacaClient F R}.
Context (float_of : string -> option F).
Implicit Types (q : ExecutionOrderRequest F) (r : R) (b : AlpacaBroker R).

Definition with_client r b : AlpacaBroker R := {| al_paper := al_paper b; al_client := r |}.

(** The price of one poll: an error is logged and is no price. *)
Definition polled (answer : result string (json F)) : option F :=
  match answer with
  | Ok (JVal PNone) => None
  | Ok price => json_float float_of price
  | Err _ => None
  end.
(** [None] where the fuel runs out. *)
Fixpoint poll_fill (fuel : nat) (order_id : string) (deadline : Z) r : option (option F * R) :=
  match fuel with
  | O => None
  | S fuel =>
      let '(now, r) := client_monotonic r in
      if now <? deadline then
        let '(answer, r) := get_order_by_id order_id r in
        match polled answer with
        | Some price => Some (Some price, r)
        | None => poll_fill fuel order_id deadline (client_sleep _FILL_POLL_INTERVAL r)
        end
      else Some (None, r)
  end.
Definition _wait_for_fill (order_id : string) r : option F * R :=
  let '(now, r) := client_monotonic r in
  default (None, r) (poll_fill POLLS order_id (now + _FILL_POLL_TIMEOUT) r).

Definition alpaca_request q : AlpacaRequest F :=
  {| al_symbol := rq_symbol q; al_qty := rq_qty q;
     al_buy := String.eqb (upper (rq_side q)) "BUY";
     al_time_in_force :=
       (let tif := upper (rq_time_in_force q) in if str_in tif ["DAY"; "GTC"; "IOC"] then tif else "DAY");
     al_limit_price :=
       if String.eqb (upper (rq_order_type q)) "LIMIT" && opt_true (rq_limit_price q) then rq_limit_price q else None |}.

Definition _do_submit q b : result string (BrokerResult F) * AlpacaBroker R :=
  match submit_order (alpaca_request q) (al_client b) with
  | (Err exc, r) => (Err exc, with_client r b)
  | (Ok order_id, r) =>
      let '(price, r) := if al_paper b then _wait_for_fill order_id r else (None, r) in
      (Ok {| br_status := ACCEPTED; br_external_order_id := order_id; br_fill_price := price;
             br_rejection_reason := None |}, with_client r b)
  end.

Definition rejection (uuid : string) (why : string) : BrokerResult F :=
  {| br_status := REJECTED; br_external_order_id := uuid; br_fill_price := None;
     br_rejection_reason := Some (lit why) |}.

(** The stop and the target of the request are not sent. *)
Definition alpaca_place_order q (uuid : string) b : BrokerResult F * AlpacaBroker R :=
  match _do_submit q b with
  | (Ok answer, b) => (answer, b)
  | (Err exc, b) => (rejection uuid ("alpaca_error: " +:+ exc), b)
  end.

Definition alpaca_mode b : string := if al_paper b then "paper" else "live".
Definition no_account (mode_ : string) : AccountInfo F :=
  {| buying_power := nzero; equity := nzero; ai_cash := nzero; mode := mode_ |}.
Definition alpaca_get_account b : AccountInfo F * AlpacaBroker R :=
  let '(answer, r) := client_account (al_client b) in
  (match answer with
   | Err _ => no_account (alpaca_mode b)
   | Ok (power, worth, money) =>
       match json_float float_of power, json_float float_of worth, json_float float_of money with
       | Some power, Some worth, Some money =>
           {| buying_power := power; equity := worth; ai_cash := money; mode := alpaca_mode b |}
       | _, _, _ => no_account (alpaca_mode b)
       end
   end, with_client r b).

Definition alpaca_cancel_order (order_id : string) b : bool * AlpacaBroker R :=
  let '(answer, r) := cancel_order_by_id order_id (al_client b) in (is_ok answer, with_client r b).

Definition alpaca_position (p : AlpacaPosition F) : option (BrokerPosition F) :=
  qty ← json_float float_of (ap_qty p);
  value ← json_float float_of (ap_market_value p);
  price ← json_float float_of (ap_avg_entry_price p);
  pnl ← json_float float_of (ap_unrealized_pl p);
  Some {| bp_symbol := ap_symbol p; bp_qty := qty; bp_position_id := None; bp_market_value := value;
          bp_average_price := price; bp_unrealized_pnl := pnl |}.
(** One position that does not convert empties the list, and so does an error. *)
Definition alpaca_get_positions b : list (BrokerPosition F) * AlpacaBroker R :=
  let '(answer, r) := get_all_positions (al_client b) in
  (match answer with
   | Ok ps => default [] (mapM alpaca_position ps)
   | Err _ => []
   end, with_client r b).

Definition alpaca_closed (position_id symbol : string) (units : option F) (o : ClosedOrder F) : option (Closed F) :=
  qty ← match units with
        | Some u => if ntrue u then Some u
                    else json_float float_of (json_or [co_qty o] (JVal (PFloat nzero)))
        | None => json_float float_of (json_or [co_qty o] (JVal (PFloat nzero)))
        end;
  price ← match co_filled_avg_price o with
          | JVal PNone => Some None
          | v => p ← json_float float_of v; Some (Some p)
          end;
  Some (ClosedFill (upper (co_side o)) (Some qty) price (default position_id (co_id o))).
Definition alpaca_close_position (position_id : string) (units : option F) (symbol : string) b
    : result CloseError (Closed F) * AlpacaBroker R :=
  if negb (str_true symbol) then (Err (BadValue "alpaca_close_requires_symbol"), b) else
  let '(answer, r) := client_close symbol units (al_client b) in
  (Ok match answer with
      | Ok o => default NotClosed (alpaca_closed position_id symbol units o)
      | Err _ => NotClosed
      end, with_client r b).

#[export] Instance alpaca_venue : Venue F (AlpacaBroker R) := {
  v_place q t b := let '(answer, b) := alpaca_place_order q (tk_broker_uuid t) b in (Ok answer, b);
  v_close := Some (fun position_id _ units symbol _ b => alpaca_close_position position_id units symbol b);
  v_requires_match := false;
  v_positions := Some (fun _ b => alpaca_get_positions b);
  v_resolver := None
}.
End alpaca.

(** ** eToro *)

(** A reply: an error status, no body, a body that is not JSON, or its document. *)
Inductive Reply (F : Type) :=
| BadStatus (message : string)
| NoContent
| NotJson (message : string)
| Body (doc : json F).
Arguments BadStatus {F}. Arguments NoContent {F}. Arguments NotJson {F}. Arguments Body {F}.

(** [httpx.Client.request]: method, path, query parameters and body. *)
Class EtoroApi (F R : Type) := {
  api_request : string -> string -> list (string * string) -> list (string * json F) -> R -> result string (Reply F) * R
}.

Record EtoroBroker (R : Type) := {
  et_demo : bool;
  et_instrument_cache : gmap string Z;
  et_client : R
}.
Arguments et_demo {R}. Arguments et_instrument_cache {R}. Arguments et_client {R}.

(** What an exception is, to a caller that tells ValueError apart. *)
Inductive Exc := ValueErr (message : string) | OtherErr (message : string).
Definition exc_text (e : Exc) : string := match e with ValueErr m | OtherErr m => m end.

Section etoro.
Context {F : Type} `{HF : PyFloat F}.
Context {R : Type} `{HC : EtoroApi F R}.
Context (float_of : string -> option F) (truncate : F -> option Z) (repr : json F -> string).
Implicit Types (q : ExecutionOrderRequest F) (b : EtoroBroker R).
Abbreviation dict := (list (string * json F)).
Local Abbreviation none := (JVal PNone : json F).

Definition _execution_prefix b : string := if et_demo b then "demo/" else "".
Definition with_cache m b : EtoroBroker R :=
  {| et_demo := et_demo b; et_instrument_cache := m; et_client := et_client b |}.

(** A document that is not a dict is wrapped. *)
Definition _request (method path : string) (params : list (string * string)) (body : dict) b
    : result Exc dict * EtoroBroker R :=
  let '(answer, r) := api_request method path params body (et_client b) in
  (match answer with
   | Err exc => Err (OtherErr exc)
   | Ok (BadStatus exc) => Err (OtherErr exc)
   | Ok NoContent => Ok []
   | Ok (NotJson exc) => Err (ValueErr exc)
   | Ok (Body (JDict d)) => Ok d
   | Ok (Body doc) => Ok [("items", doc)]
   end, {| et_demo := et_demo b; et_instrument_cache := et_instrument_cache b; et_client := r |}).

Fixpoint _extract_fill_price_from (ks : list string) (payload : dict) : option F :=
  match ks with
  | [] => None
  | k :: ks =>
      match json_get k payload with
      | JVal (PBool _ as v) | JVal (PInt _ as v) | JVal (PFloat _ as v) => py_float v
      | _ => _extract_fill_price_from ks payload
      end
  end.
Definition _extract_fill_price : dict -> option F :=
  _extract_fill_price_from ["fillPrice"; "price"; "executedPrice"].

(** [int(item["instrumentId"])] *)
Definition instrument_of (item : json F) : result Exc Z :=
  match item with
  | JDict d =>
      match dict_get "instrumentId" d with
      | Some v => match json_int truncate v with
                  | Some i => Ok i
                  | None => Err (match v with
                                 | JStr _ => ValueErr "invalid literal for int()"
                                 | JVal (PFloat x) => if (x =? x)%py then OtherErr "OverflowError" else ValueErr "NaN"
                                 | _ => OtherErr "TypeError"
                                 end)
                  end
      | None => Err (OtherErr "KeyError")
      end
  | _ => Err (OtherErr "TypeError")
  end.
(** The first item of the symbol: [None] where none is. *)
Fixpoint matching (normalized : string) (items : list (json F)) : result Exc (option Z) :=
  match items with
  | [] => Ok None
  | item :: items =>
      match item with
      | JDict d =>
          if String.eqb (upper (json_str repr (json_or [json_get "internalSymbolFull" d] (JStr "")))) normalized
          then i ← instrument_of item; Ok (Some i)
          else matching normalized items
      | _ => Err (OtherErr "AttributeError")
      end
  end.
(** The item of the symbol or else the first one. *)
Definition found_instrument (normalized : string) (payload : dict) : result Exc Z :=
  let not_found := Err (ValueErr ("instrument_not_found:" +:+ normalized)) in
  match get_or ["items"; "results"; "instruments"] (JDict payload) payload with
  | JList items =>
      match matching normalized items with
      | Err e => Err e
      | Ok (Some i) => Ok i
      | Ok None => match items with [] => not_found | item :: _ => instrument_of item end
      end
  | _ => not_found
  end.
Definition _resolve_instrument_id (symbol : string) b : result Exc Z * EtoroBroker R :=
  let normalized := upper symbol in
  match et_instrument_cache b !! normalized with
  | Some cached => (Ok cached, b)
  | None =>
      let '(answer, b) := _request "GET" "/market-data/search"
        [("fields", "instrumentId,internalSymbolFull,displayname"); ("internalSymbolFull", normalized)] [] b in
      match (payload ← answer; found_instrument normalized payload) with
      | Ok i => (Ok i, with_cache (<[normalized := i]> (et_instrument_cache b)) b)
      | Err e => (Err e, b)
      end
  end.

(** The quantity of the order is the amount. *)
Definition open_order (instrument : Z) q (stop take_profit : option F) : dict :=
  [("InstrumentID", JVal (PInt instrument)); ("IsBuy", JVal (PBool (String.eqb (upper (rq_side q)) "BUY")));
   ("Leverage", JVal (PInt 1)); ("Amount", JVal (PFloat (nofZ (rq_qty q))))] ++
  match stop with
  | None => [("IsNoStopLoss", JVal (PBool true))]
  | Some rate => [("StopLossRate", JVal (PFloat rate))]
  end ++
  match take_profit with
  | None => [("IsNoTakeProfit", JVal (PBool true))]
  | Some rate => [("TakeProfitRate", JVal (PFloat rate))]
  end.
Definition open_path b : string := "/trading/execution/" +:+ _execution_prefix b +:+ "market-open-orders".
Definition etoro_answer (uuid : string) (response : dict) : BrokerResult F :=
  let taken := match response with [] => false | _ => true end in
  {| br_status := if taken then ACCEPTED else REJECTED;
     br_external_order_id := json_str repr (get_or ["positionId"; "orderId"; "id"] (JStr uuid) response);
     br_fill_price := _extract_fill_price response;
     br_rejection_reason := if taken then None else Some (lit "etoro_order_rejected") |}.
Definition etoro_place_order q (uuid : string) b : BrokerResult F * EtoroBroker R :=
  match _resolve_instrument_id (rq_symbol q) b with
  | (Err e, b) => (rejection uuid ("etoro_error: " +:+ exc_text e), b)
  | (Ok instrument, b) =>
      match _request "POST" (open_path b +:+ "/by-amount") []
              (open_order instrument q (rq_stop_loss_rate q) (rq_take_profit_rate q)) b with
      | (Err e, b) => (rejection uuid ("etoro_error: " +:+ exc_text e), b)
      | (Ok response, b) => (etoro_answer uuid response, b)
      end
  end.

Definition etoro_cancel_order (order_id : string) b : bool * EtoroBroker R :=
  let '(answer, b) := _request "DELETE" (open_path b +:+ "/" +:+ order_id) [] [] b in (is_ok answer, b).

Definition etoro_position (item : json F) : option (BrokerPosition F) :=
  match item with
  | JDict d =>
      let number ks := json_float float_of (get_or ks (JVal (PFloat nzero)) d) in
      qty ← number ["amount"; "qty"];
      value ← number ["marketValue"; "market_value"];
      price ← number ["averageOpen"; "average_price"];
      pnl ← number ["profitLoss"; "unrealized_pnl"];
      let id := json_str repr (get_or ["positionId"; "PositionId"; "id"] (JStr "") d) in
      Some {| bp_symbol := upper (json_str repr (get_or ["internalSymbolFull"; "symbol"] (JStr "") d));
              bp_qty := qty; bp_position_id := if str_true id then Some id else None;
              bp_market_value := value; bp_average_price := price; bp_unrealized_pnl := pnl |}
  | _ => None
  end.
Definition portfolio_path b : string := "/trading/info/" +:+ _execution_prefix b +:+ "portfolio".
Definition etoro_get_positions b : list (BrokerPosition F) * EtoroBroker R :=
  let '(answer, b) := _request "GET" (portfolio_path b) [] [] b in
  (match answer with
   | Ok payload =>
       default [] (iterate (get_or ["positions"; "Positions"] (JList []) payload) ≫= mapM etoro_position)
   | Err _ => []
   end, b).

Definition etoro_mode b : string := if et_demo b then "paper" else "live".
Definition etoro_get_account b : AccountInfo F * EtoroBroker R :=
  match _request "GET" (portfolio_path b) [] [] b with
  | (Err _, b) => (no_account (etoro_mode b), b)
  | (Ok portfolio, b) =>
      match _request "GET" ("/trading/info/" +:+ _execution_prefix b +:+ "pnl") [] [] b with
      | (Err _, b) => (no_account (etoro_mode b), b)
      | (Ok pnl, b) =>
          let zero := JVal (PFloat nzero) in
          let info :=
            worth ← json_float float_of
              (json_or [json_get "equity" portfolio; json_get "Equity" portfolio; json_get "equity" pnl; json_get "Equity" pnl] zero);
            money ← json_float float_of (get_or ["cash"; "Cash"] zero portfolio);
            power ← json_float float_of (get_or ["availableFunds"; "AvailableFunds"; "buyingPower"] (JVal (PFloat worth)) portfolio);
            Some {| buying_power := power; equity := worth; ai_cash := money; mode := etoro_mode b |} in
          (default (no_account (etoro_mode b)) info, b)
      end
  end.

Definition etoro_close_position (position_id : string) (instrument : Z) (units : option F) (symbol uuid : string) b
    : result CloseError (Closed F) * EtoroBroker R :=
  let body := [("InstrumentId", JVal (PInt instrument))] ++
    match units with Some u => [("UnitsToDeduct", JVal (PFloat u))] | None => [] end in
  let '(answer, b) := _request "POST"
    ("/trading/execution/" +:+ _execution_prefix b +:+ "market-close-orders/positions/" +:+ position_id) [] body b in
  (Ok match answer with
      | Err _ => NotClosed
      | Ok response =>
          ClosedFill (upper (json_str repr (json_or [json_get "side" response] (JStr ""))))
            (Some (nor (default nzero units) nzero)) (_extract_fill_price response)
            (json_str repr (get_or ["orderId"; "id"] (JStr uuid) response))
      end, b).

Definition is_dict (v : json F) : bool := match v with JDict _ => true | _ => false end.
Definition etoro_get_order_history b : list (json F) * EtoroBroker R :=
  let '(answer, b) := _request "GET" ("/trading/info/" +:+ _execution_prefix b +:+ "trade/history")
    [("minDate", "1970-01-01")] [] b in
  (match answer with
   | Ok payload => List.filter is_dict (default [] (iterate (get_or ["trades"; "history"; "items"] (JList []) payload)))
   | Err _ => []
   end, b).

#[export] Instance etoro_venue : Venue F (EtoroBroker R) := {
  v_place q t b := let '(answer, b) := etoro_place_order q (tk_broker_uuid t) b in (Ok answer, b);
  v_close := Some (fun position_id instrument units symbol t b =>
    etoro_close_position position_id instrument units symbol (tk_broker_uuid t) b);
  v_requires_match := true;
  v_positions := Some (fun _ b => etoro_get_positions b);
  v_resolver := Some (fun symbol b =>
    let '(answer, b) := _resolve_instrument_id symbol b in
    (match answer with
     | Ok i => Ok i
     | Err (ValueErr m) => Err (BadValue m)
     | Err (OtherErr m) => Err (BrokerCrash m)
     end, b))
}.
End etoro.

(** ** The choice *)

(** Without a variable that says so, no broker of real money is chosen. *)
Theorem live_broker_is_asked_for environ :
  snd (get_broker environ) = true ->
  exists name v, (name = "ETORO_DEMO" \/ name = "ALPACA_PAPER") /\ environ !! name = Some v /\ lower v <> "true".
Proof.
  unfold get_broker, getenv. cbv zeta. intros H.
  assert (forall name, negb (String.eqb (lower (default "true" (environ !! name))) "true") = true ->
    exists v, environ !! name = Some v /\ lower v <> "true") as Hn.
  { intros name E. apply negb_true_iff, String.eqb_neq in E. destruct (environ !! name) as [v|]; [by exists v|done]. }
  destruct (String.eqb _ "etoro" && _ && _); cbn [snd] in H.
  - destruct (Hn _ H) as (v & ? & ?). exists "ETORO_DEMO", v. auto.
  - destruct (str_in _ _ && _ && _); [|done]. destruct (Hn _ H) as (v & ? & ?). exists "ALPACA_PAPER", v. auto.
Qed.

(** ** The wait for a fill *)

(** The clock does not go back, and a sleep takes its time. *)
Class ClockLaws (F R : Type) `{AlpacaClient F R} := {
  time_of : R -> Z;
  reading_is_now (r : R) : time_of r <= fst (client_monotonic r) <= time_of (snd (client_monotonic r));
  polling_takes_time id (r : R) : time_of r <= time_of (snd (get_order_by_id id r));
  sleeping_takes_time d (r : R) : time_of r + d <= time_of (client_sleep d r)
}.

Section wait.
Context {F : Type} `{HF : PyFloat F}.
Context {R : Type} `{HC : AlpacaClient F R} `{HT : !ClockLaws F R}.
Context (float_of : string -> option F).

(** What a wait ends with: a price some poll gave, or none, and then the time is up. *)
Definition waited (id : string) (deadline : Z) (res : option F * R) : Prop :=
  match fst res with
  | Some p => exists r, polled float_of (fst (get_order_by_id id r)) = Some p
  | None => deadline <= time_of (snd res)
  end.

Lemma poll_fill_ends id deadline fuel : forall r,
  deadline - time_of r <= Z.of_nat fuel * _FILL_POLL_INTERVAL ->
  exists res, poll_fill float_of (S fuel) id deadline r = Some res /\ waited id deadline res.
Proof.
  induction fuel as [|fuel IH]; intros r Hd; cbn [poll_fill]; pose proof (reading_is_now r) as Hnow;
    destruct (client_monotonic r) as [now r1]; cbn [fst snd] in Hnow.
  - destruct (Z.ltb_spec now deadline); [lia|]. eexists. split; [done|]. cbn. lia.
  - destruct (Z.ltb_spec now deadline); [|eexists; split; [done|]; cbn; lia].
    pose proof (polling_takes_time id r1) as Hp. destruct (get_order_by_id id r1) as [answer r2] eqn:Eg. cbn [snd] in Hp.
    destruct (polled float_of answer) as [price|] eqn:Ep.
    + eexists. split; [done|]. cbn. exists r1. by rewrite Eg.
    + apply IH. pose proof (sleeping_takes_time _FILL_POLL_INTERVAL r2). lia.
Qed.

(** C40. The wait for a fill ends: whatever the client answers to its polls, and if it never
    answers, the loop of the code stops within twenty polls of its twenty-one readings of
    the clock, and then with a price that a poll gave, or without one after the ten seconds
    are over. The fuel of the model is not what stops it. *)
Theorem wait_for_fill_ends id (r : R) :
  let '(now, r1) := client_monotonic r in
  poll_fill float_of POLLS id (now + _FILL_POLL_TIMEOUT) r1 = Some (_wait_for_fill float_of id r) /\
  waited id (now + _FILL_POLL_TIMEOUT) (_wait_for_fill float_of id r).
Proof.
  unfold _wait_for_fill. pose proof (reading_is_now r) as Hnow. destruct (client_monotonic r) as [now r1].
  cbn [fst snd] in Hnow. destruct (poll_fill_ends id (now + _FILL_POLL_TIMEOUT) 20 r1) as (res & E & Hw).
  { unfold _FILL_POLL_TIMEOUT, _FILL_POLL_INTERVAL. lia. }
  change 21%nat with POLLS in E. rewrite E. by split.
Qed.
End wait.

(** ** What is sent *)

(** What the vendor was sent: a submission that fails may have been sent all the same. *)
Class SentLaws (F R : Type) `{AlpacaClient F R} := {
  sent : R -> list (AlpacaRequest F);
  submit_sends q (r : R) : sent (snd (submit_order q r)) = sent r ++ [q] \/
    is_ok (fst (submit_order q r)) = false /\ sent (snd (submit_order q r)) = sent r;
  polling_sends_nothing id (r : R) : sent (snd (get_order_by_id id r)) = sent r;
  reading_sends_nothing (r : R) : sent (snd (client_monotonic r)) = sent r;
  sleeping_sends_nothing d (r : R) : sent (client_sleep d r) = sent r
}.

Section orders.
Context {F : Type} `{HF : PyFloat F}.
Context {R : Type} `{HC : AlpacaClient F R} `{HS : !SentLaws F R}.
Context (float_of : string -> option F).
Implicit Types (q : ExecutionOrderRequest F) (b : AlpacaBroker R).

Lemma poll_fill_sends_nothing fuel id deadline : forall r res,
  poll_fill float_of fuel id deadline r = Some res -> sent (snd res) = sent r.
Proof.
  induction fuel as [|fuel IH]; intros r res; [done|]. cbn [poll_fill].
  pose proof (reading_sends_nothing r) as E1. destruct (client_monotonic r) as [now r1]. cbn [snd] in E1.
  destruct (now <? deadline); [|intros [= <-]; by rewrite <- E1].
  pose proof (polling_sends_nothing id r1) as E2. destruct (get_order_by_id id r1) as [answer r2]. cbn [snd] in E2.
  destruct (polled float_of answer); [intros [= <-]; cbn; congruence|].
  intros Hp%IH. rewrite Hp, sleeping_sends_nothing. congruence.
Qed.
Lemma wait_sends_nothing id r : sent (snd (_wait_for_fill float_of id r)) = sent r.
Proof.
  unfold _wait_for_fill. pose proof (reading_sends_nothing r) as E. destruct (client_monotonic r) as [now r1].
  cbn [snd] in E. destruct (poll_fill _ _ _ _ _) as [res|] eqn:Ep; [|done]. cbn.
  rewrite (poll_fill_sends_nothing _ _ _ _ _ Ep). done.
Qed.

End orders.

(** ** What a close proves of its position *)

(** A venue that closes by an opaque id is asked to close only a position of the symbol that
    the venue itself lists under that id, and no more units of it than it holds. *)
Theorem close_names_its_position {F B} `{PyFloat F} `{HV : Venue F B} t symbol position_id (units : option F) (b b' : B) c :
  close_with t symbol position_id units b = (Ok c, b') -> v_requires_match = true ->
  exists read ps b1 p, v_positions = Some read /\ read t b = (ps, b1) /\ p ∈ ps /\
    upper (bp_symbol p) = symbol /\ bp_position_id p = Some position_id /\
    forall u, units = Some u -> (u >? nabs (bp_qty p))%py = false.
Proof.
  unfold close_with. intros Hc Hm. destruct v_close as [close|]; [|done]. rewrite Hm in Hc.
  destruct v_positions as [read|]; [|done]. destruct (read t b) as [ps b1] eqn:Er.
  destruct (close_guard true (Some ps) symbol position_id units) as [e|] eqn:Eg; [done|].
  exists read, ps, b1. unfold close_guard in Eg. cbn [negb] in Eg.
  destruct (List.filter _ ps) as [|p l] eqn:Ef; [done|].
  assert (In p (List.filter (fun p => String.eqb (upper (bp_symbol p)) symbol &&
    bool_decide (bp_position_id p = Some position_id)) ps)) as Hin by (rewrite Ef; by left).
  apply filter_In in Hin as [Hin Hp]. apply andb_true_iff in Hp as [Hp1 Hp2].
  apply String.eqb_eq in Hp1. apply bool_decide_eq_true in Hp2.
  exists p. split; [done|]. split; [done|]. split; [by apply list_elem_of_In|]. split; [done|]. split; [done|].
  intros u ->. by destruct (u >? nabs (bp_qty p))%py.
Qed.

(** ** The execution service with a live Alpaca account behind it *)

Section live_alpaca.
Context {F : Type} `{HF : PyFloat F}.
Context {S R : Type} `{HS : Venue F S} `{HC : AlpacaClient F R}.
Context {W : Type} `{HW : LifecycleReads W}.
Context (hash_payload : ExecutionOrderRequest F -> string) (sql_sum : list F -> F) (render : fstr F -> string).
Context (max_position_qty : Z) (float_of : string -> option F).
#[local] Existing Instance alpaca_venue.
#[local] Instance live_venue : Venue F (AlpacaBroker R) := alpaca_venue float_of.

Lemma live_place_has_no_price q t (b : AlpacaBroker R) r b' :
  al_paper b = false -> v_place q t b = (r, b') ->
  al_paper b' = false /\ exists answer, r = Ok answer /\ br_fill_price answer = None.
Proof.
  intros Hb. cbn. unfold alpaca_place_order, _do_submit. rewrite Hb.
  destruct (submit_order _ _) as [[id|exc] r1]; intros [= <- <-]; cbn; eauto.
Qed.

(** What a live Alpaca account fills is never seen: the adapter of a live account does not
    wait for its fills, so whatever order arrives, nothing the service journals for the
    live environment is filled, and the net position that its cap is compared with does
    not move. *)
Theorem live_alpaca_fills_are_unseen (w : W) t rivals q k (x x' : Exec F S (AlpacaBroker R)) res :
  create_order hash_payload sql_sum render max_position_qty w t rivals q k x = (res, x') ->
  al_paper (ex_real x) = false ->
  al_paper (ex_real x') = false /\
  (exists rows, executions (ex_journal x') = executions (ex_journal x) ++ rows /\
     Forall (fun row => x_environment row = "live" -> x_filled row = false) rows) /\
  forall st sy ac e, net_position sql_sum st sy "live" ac e (ex_journal x') =
                     net_position sql_sum st sy "live" ac e (ex_journal x).
Proof.
  intros Hc Hb. destruct (create_cases _ _ _ _ _ _ _ _ _ _ _ _ Hc)
    as [(Hs & Hr & Hj)|(s & routed & a & r & Hs & Hcl & Hp & Hj)].
  { rewrite Hr, Hj. split; [done|]. split; [|done]. exists []. by rewrite app_nil_r. }
  assert (al_paper (ex_real x') = false /\
    (environment_of routed = "live" -> forall answer, r = Ok answer -> br_fill_price answer = None)) as [Hb' Hnone].
  { destruct Hcl as [_ <- Ha _ _ _]. pose proof (routed_environment _ _ _ _ _ _ _ _ Ha) as He. destruct a.
    - destruct Hp as [_ ->]. split; [done|]. rewrite He. done.
    - destruct Hp as [Hp _]. apply live_place_has_no_price in Hp as (? & answer & -> & ?); [|done].
      split; [done|]. by intros _ ? [= <-]. }
  split; [done|].
  assert (executions (ex_journal x') = executions (ex_journal x) /\ enabled (ex_journal x') = enabled (ex_journal x) \/
    exists row, executions (ex_journal x') = executions (ex_journal x) ++ [row] /\
      enabled (ex_journal x') = enabled (ex_journal x) /\ (x_environment row = "live" -> x_filled row = false)) as Hrow.
  { destruct Hj as [->|(answer & o & -> & ->)]; [by left|].
    unfold _record_execution_quality, record_execution, _insert. destruct (enabled (ex_journal x)) eqn:Een; [|by left].
    destruct (tk_record t); [by left|]. right. eexists. split; [reflexivity|]. cbn [enabled x_environment x_filled negb].
    split; [done|]. intros He. by rewrite (Hnone He answer eq_refl). }
  destruct Hrow as [[Ex Een]|(row & Ex & Een & Hrow)].
  - split; [exists []; rewrite app_nil_r; by split|]. intros. unfold net_position. by rewrite Ex, Een.
  - split; [exists [row]; split; [done|by constructor]|]. intros st sy ac e. unfold net_position. rewrite Ex, Een.
    rewrite List.filter_app. cbn [List.filter]. destruct (in_scope st sy "live" ac row) eqn:Ei; [|by rewrite app_nil_r].
    unfold in_scope in Ei. rewrite !andb_true_iff, !String.eqb_eq in Ei. rewrite Hrow by naive_solver. by rewrite app_nil_r.
Qed.
End live_alpaca.

(** ** Concrete vendors *)

Module Alpaca.
(** An account whose orders fill at a moment; its clock is moved by sleeping. *)
Record Client := { c_sent : list (AlpacaRequest Q); c_time : Z; c_fills_at : Z }.
#[global] Instance client : AlpacaClient Q Client := {
  submit_order q c := (Ok ("order-" +:+ str_of_Z (Z.of_nat (length (c_sent c)))),
    {| c_sent := c_sent c ++ [q]; c_time := c_time c; c_fills_at := c_fills_at c |});
  get_order_by_id _ c := (Ok (JVal (if c_fills_at c <=? c_time c then PFloat 100%Q else PNone)), c);
  cancel_order_by_id _ c := (Ok tt, c);
  client_account c := (Err "down", c);
  get_all_positions c := (Err "down", c);
  client_close _ _ c := (Err "down", c);
  client_monotonic c := (c_time c, c);
  client_sleep d c := {| c_sent := c_sent c; c_time := c_time c + d; c_fills_at := c_fills_at c |}
}.
#[global] Instance clock_laws : ClockLaws Q Client.
Proof. refine {| time_of := c_time |}; intros; cbn; lia. Defined.
#[global] Instance sent_laws : SentLaws Q Client.
Proof. refine {| sent := c_sent |}; try by intros. intros. by left. Defined.
Definition account (paper : bool) (fills_at : Z) : AlpacaBroker Client :=
  {| al_paper := paper; al_client := {| c_sent := []; c_time := 0; c_fills_at := fills_at |} |}.
Definition no_text (_ : string) : option Q := None.
Definition eight : ExecutionOrderRequest Q := Shop.order "ema" "BUY" 8 false.

(** The service with the live account, in front of a sleeve that is live. *)
#[global] Instance venue : Venue Q (AlpacaBroker Client) := alpaca_venue no_text.
Definition tick (n : Z) : Tick Q :=
  {| tk_env := {| connects := true; configured_broker := ("AlpacaBroker", true); max_age_setting := 600; clock := 20 |};
     tk_now := n; tk_mark := fun _ => Some 100%Q; tk_writable := true;
     tk_broker_uuid := "b" +:+ str_of_Z n; tk_order_uuid := "o" +:+ str_of_Z n;
     tk_unplaced_uuid := "u" +:+ str_of_Z n; tk_fill_uuid := "f" +:+ str_of_Z n; tk_net := None; tk_record := None |}.
Definition desk : Exec Q (PaperBroker Q) (AlpacaBroker Client) :=
  {| ex_router := build_router true true; ex_simulated := init 1000 1000000%Q 0%Q None; ex_real := account false 0;
     ex_journal := JournalTheorems.Demo.empty; ex_db := {| db_orders := []; db_fills := []; db_events := [] |} |}.
Definition buy (n : Z) (x : Exec Q (PaperBroker Q) (AlpacaBroker Client)) :=
  create_order Shop.hash nsum Shop.text 10 Desk.world (tick n) [] eight ("k" +:+ str_of_Z n) x.
Definition status {x : Type} (r : result Failure (ExecutionOrderResponse Q) * x) : option string :=
  match fst r with Ok response => Some (rs_status response) | Err _ => None end.
Definition after (n : nat) : Exec Q (PaperBroker Q) (AlpacaBroker Client) :=
  foldl (fun x i => snd (buy (Z.of_nat i) x)) desk (List.seq 0 n).
End Alpaca.

(** Three orders for eight shares each, against a cap of ten: all three are accepted and sent,
    and the journal still has the sleeve flat. *)
Example cap_never_binds_at_live_alpaca :
  map (fun n => Alpaca.status (Alpaca.buy (Z.of_nat n) (Alpaca.after n))) (List.seq 0 3) =
    [Some "ACCEPTED"; Some "ACCEPTED"; Some "ACCEPTED"] /\
  map al_qty (Alpaca.c_sent (al_client (ex_real (Alpaca.after 3)))) = [8; 8; 8] /\
  option_map Qred (net_position nsum "ema" "AAPL" "live" "default" None (ex_journal (Alpaca.after 3))) = Some 0%Q.
Proof. repeat split; vm_compute; reflexivity. Qed.

Lemma live_alpaca_fills_are_unseen_witness :
  let x := snd (create_order Shop.hash nsum Shop.text 10 Desk.world (Alpaca.tick 1) [] Alpaca.eight "k1" Alpaca.desk) in
  net_position nsum "ema" "AAPL" "live" "default" None (ex_journal x) = Some 0%Q.
Proof.
  refine (eq_trans (proj2 (proj2 (live_alpaca_fills_are_unseen Shop.hash nsum Shop.text 10 Alpaca.no_text Desk.world
    (Alpaca.tick 1) [] Alpaca.eight "k1" Alpaca.desk _ _ (surjective_pairing _) eq_refl)) "ema" "AAPL" "default" None) _).
  vm_compute. reflexivity.
Defined.


Lemma wait_for_fill_ends_witness :
  fst (_wait_for_fill Alpaca.no_text "order-0" (al_client (Alpaca.account true 3000000))) = Some 100%Q /\
  fst (_wait_for_fill Alpaca.no_text "order-0" (al_client (Alpaca.account true 30000000))) = None /\
  10000000 <= time_of (snd (_wait_for_fill Alpaca.no_text "order-0" (al_client (Alpaca.account true 30000000)))).
Proof.
  split; [vm_compute; reflexivity|]. split; [vm_compute; reflexivity|].
  pose proof (wait_for_fill_ends Alpaca.no_text "order-0" (al_client (Alpaca.account true 30000000))) as H.
  cbn [client_monotonic Alpaca.client] in H. destruct H as [_ H]. unfold waited in H.
  vm_compute (fst _) in H. exact H.
Defined.

Module Etoro.
(** What each request was, and one answer to all of them. *)
Record Client := { c_requests : list (string * string * list (string * json Q)); c_search : Reply Q; c_trade : result string (Reply Q) }.
#[global] Instance api : EtoroApi Q Client := {
  api_request method path _ body c :=
    (if String.eqb method "GET" then Ok (c_search c) else c_trade c,
     {| c_requests := c_requests c ++ [(method, path, body)]; c_search := c_search c; c_trade := c_trade c |})
}.
Definition item (symbol : string) (id : Z) : json Q :=
  JDict [("internalSymbolFull", JStr symbol); ("instrumentId", JVal (PInt id))].
Definition account (search : list (json Q)) (trade : result string (Reply Q)) : EtoroBroker Client :=
  {| et_demo := false; et_instrument_cache := ∅;
     et_client := {| c_requests := []; c_search := Body (JDict [("items", JList search)]); c_trade := trade |} |}.
Definition taken : result string (Reply Q) := Ok (Body (JDict [("positionId", JVal (PInt 77)); ("price", JVal (PFloat 5%Q))])).
Definition text (_ : string) : option Q := None.
Definition trunc (q : Q) : option Z := Some (Qnum q ÷ Zpos (Qden q)).
Definition repr (_ : json Q) : string := "?".
(** A limit order at 100 for eight shares. *)
Definition limited : ExecutionOrderRequest Q :=
  {| rq_signal_id := "sig"; rq_symbol := "AAPL"; rq_side := "BUY"; rq_qty := 8;
     rq_order_type := "LIMIT"; rq_time_in_force := "IOC"; rq_stop_loss_rate := None;
     rq_take_profit_rate := None; rq_limit_price := Some 100%Q; rq_decision_price := Some 100%Q;
     rq_strategy_id := "ema"; rq_account_id := "default"; rq_reduce_only := false;
     rq_fields_set := ["strategy_id"; "account_id"] |}.
Definition order search trade := etoro_place_order trunc repr limited "u" (account search trade).
Definition posted (b : EtoroBroker Client) : list (list (string * json Q)) :=
  map snd (List.filter (fun r => String.eqb (fst (fst r)) "POST") (c_requests (et_client b))).
End Etoro.

(** A search without the symbol is answered by its first item: a position in another instrument
    is opened, and it is the answer to an order for this symbol. *)
Example etoro_opens_another_instrument :
  let '(res, b) := Etoro.order [Etoro.item "AAPL.RTH" 5] Etoro.taken in
  br_status res = ACCEPTED /\ br_external_order_id res = "77" /\
  map (json_get "InstrumentID") (Etoro.posted b) = [JVal (PInt 5)] /\ et_instrument_cache b !! "AAPL" = Some 5.
Proof. vm_compute. repeat split. Qed.

(** Eight shares at a limit of a hundred become eight units of money, at the market. *)
Example etoro_orders_an_amount_at_market :
  Etoro.posted (snd (Etoro.order [Etoro.item "AAPL" 5] Etoro.taken)) =
    [[("InstrumentID", JVal (PInt 5)); ("IsBuy", JVal (PBool true)); ("Leverage", JVal (PInt 1));
      ("Amount", JVal (PFloat 8%Q)); ("IsNoStopLoss", JVal (PBool true)); ("IsNoTakeProfit", JVal (PBool true))]].
Proof. vm_compute. reflexivity. Qed.

(** An answer that is lost on the way, or has no body, is a rejection: the order was sent. *)
Example lost_answer_is_a_rejection :
  map (fun trade => let '(res, b) := Etoro.order [Etoro.item "AAPL" 5] trade in (br_status res, length (Etoro.posted b)))
    [Err "read timeout"; Ok NoContent] = [(REJECTED, 1%nat); (REJECTED, 1%nat)].
Proof. vm_compute. reflexivity. Qed.
