(* ===== verification/Operator.v ===== *)
(** * The operator's side of the orchestrator

    Models the rest of [services/autonomy-orchestrator/src/autonomy_orchestrator/main.py] and
    [update_policy_config] of [policy_config.py]: the policy file and its writers, the busy
    flags of the cycle and of the learner, the scheduled job and the trigger, the two live
    switches, the endpoints of the lifecycle, and the reads of the services around it. The
    cycle itself is [Cycle.run_cycle]; here it is a task that starts and ends. A file is
    written in two steps, as the code writes it: emptied, then filled. *)

From S2P Require Import Prelude PyFloat Routing Store StoreProofs StoreTheorems Contracts Journal Evidence Service.
From S2P Require Import Policy Signals Json.
From Stdlib Require Import Ascii Floats.SpecFloat.

(** An answer of FastAPI, or an exception nothing catches. *)
Inductive Failure := Http (e : HTTPException) | Crash (message : string).
Definition http (code : Z) (why : string) : Failure := Http {| status_code := code; detail := why |}.

(** ** The policy file *)

Record Baseline (F : Type) := { bl_config : PolicyConfig F; bl_trading_mode : option string }.
Arguments bl_config {F}. Arguments bl_trading_mode {F}.

Section file.
Context {F : Type} `{HF : PyFloat F}.
Implicit Types f : Baseline F.

(** [yaml.safe_load("") or {}] *)
Definition empty_file : Baseline F :=
  {| bl_config :=
       {| kill_switch := PNone; symbol_allowlist := None; trading_hours := None; weekly_notional_cap_usd := None;
          max_position_size_pct := None; cfg_max_daily_drawdown_pct := None; tier1_alert_threshold_usd := None;
          tier3_hard_approval_required_usd := None; max_concurrent_positions := None; cfg_risk_per_trade_pct := None;
          cfg_atr_stop_multiplier := None; max_sector_concentration := None |};
     bl_trading_mode := None |}.

Definition set_kill_switch (active : bool) f : Baseline F :=
  let c := bl_config f in
  {| bl_config :=
       {| kill_switch := PBool active; symbol_allowlist := symbol_allowlist c; trading_hours := trading_hours c;
          weekly_notional_cap_usd := weekly_notional_cap_usd c; max_position_size_pct := max_position_size_pct c;
          cfg_max_daily_drawdown_pct := cfg_max_daily_drawdown_pct c;
          tier1_alert_threshold_usd := tier1_alert_threshold_usd c;
          tier3_hard_approval_required_usd := tier3_hard_approval_required_usd c;
          max_concurrent_positions := max_concurrent_positions c; cfg_risk_per_trade_pct := cfg_risk_per_trade_pct c;
          cfg_atr_stop_multiplier := cfg_atr_stop_multiplier c; max_sector_concentration := max_sector_concentration c |};
     bl_trading_mode := bl_trading_mode f |}.
Definition set_trading_mode (mode_ : string) f : Baseline F :=
  {| bl_config := bl_config f; bl_trading_mode := Some mode_ |}.

(** One statement of [update_policy_config]: the load, the truncation of [write_text], its
    write. *)
Inductive Writer :=
| Starting
| Loaded (payload : Baseline F)
| Opened (payload : Baseline F)
| Written (payload : Baseline F).
Definition write_step (updates : Baseline F -> Baseline F) (w : Writer) f : Writer * Baseline F :=
  match w with
  | Starting => (Loaded (updates f), f)
  | Loaded payload => (Opened payload, empty_file)
  | Opened payload => (Written payload, payload)
  | Written payload => (Written payload, f)
  end.
(** [update_policy_config], alone. *)
Definition update_policy_config (updates : Baseline F -> Baseline F) f : Baseline F :=
  let '(w, f) := write_step updates Starting f in
  let '(w, f) := write_step updates w f in
  snd (write_step updates w f).

(** ** The switches *)

Context (environ : gmap string string).
Record Keys := { x_internal_key : option string; x_admin_key : option string }.
Definition internal (k : Keys) : result HTTPException unit := verify_internal_key environ (x_internal_key k).
Definition admin (k : Keys) : result HTTPException unit := verify_admin_key environ (x_internal_key k) (x_admin_key k).

(** A handler behind its dependency. *)
Definition guarded {A S} (check : result HTTPException unit) (handler : S -> result Failure A * S) (s : S) : result Failure A * S :=
  match check with Err e => (Err (Http e), s) | Ok _ => handler s end.

Definition toggle_kill_switch (k : Keys) (active : bool) : Baseline F -> result Failure bool * Baseline F :=
  guarded (admin k) (fun f => let f := update_policy_config (set_kill_switch active) f in
                              (Ok (py_true (kill_switch (bl_config f))), f)).

Definition CONFIRMATION : string := "I CONFIRM LIVE TRADING".
(** Why live mode may not be enabled. *)
Definition live_mode_refusal (confirmation : string) f : option string :=
  let c := bl_config f in
  if negb (String.eqb confirmation CONFIRMATION) then Some "Confirmation string mismatch"
  else if py_true (kill_switch c) then Some "Kill switch must be off before enabling live mode"
  else if negb (opt_true (weekly_notional_cap_usd c)) then Some "Weekly cap must be set before enabling live mode"
  else match default [] (symbol_allowlist c) with
       | [] => Some "Symbol allowlist must be non-empty before enabling live mode"
       | _ => None
       end.
Definition live_mode (k : Keys) (enable : bool) (confirmation : string) : Baseline F -> result Failure string * Baseline F :=
  guarded (admin k) (fun f =>
    if enable then
      match live_mode_refusal confirmation f with
      | Some why => (Err (http 400 why), f)
      | None => (Ok "live", update_policy_config (set_trading_mode "live") f)
      end
    else (Ok "demo", update_policy_config (set_trading_mode "demo") f)).

(** ** The busy flags *)

(** A flag, and how many of the tasks it stands for are awaiting something. *)
Record Busy := { busy : bool; inflight : nat }.
Definition idle : Busy := {| busy := false; inflight := 0 |}.
Definition task_enters (b : Busy) : Busy := {| busy := true; inflight := S (inflight b) |}.
Definition task_leaves (b : Busy) : Busy := {| busy := false; inflight := pred (inflight b) |}.

(** What a request to run comes to. *)
Inductive Start := Skipped | Halted (why : string) | BusyAlready | Started.

(** [run_cycle] up to its first await. *)
Definition start_cycle f (b : Busy) : Start * Busy :=
  if py_true (kill_switch (bl_config f)) then (Halted "kill_switch_active", b) else (Started, task_enters b).

(** The scheduled job. [read] is what the file holds at each reading. *)
Definition run_job (local_now : string -> option LocalTime) (read : nat -> Baseline F) (b : Busy) : result string Start * Busy :=
  if busy b then (Ok Skipped, b) else
  match is_market_hours local_now (bl_config (read 0%nat)) with
  | Err e => (Err e, b)
  | Ok false => (Ok Skipped, b)
  | Ok true => let '(s, b) := start_cycle (read 1%nat) b in (Ok s, b)
  end.

Definition trigger_cycle (k : Keys) (read : nat -> Baseline F) : Busy -> result Failure Start * Busy :=
  guarded (internal k) (fun b =>
    if py_true (kill_switch (bl_config (read 0%nat))) then (Ok (Halted "kill_switch_active"), b)
    else if busy b then (Ok BusyAlready, b)
    else let '(s, b) := start_cycle (read 1%nat) b in (Ok s, b)).

(** [_run_learning_cycles] up to its thread, and the [finally]. *)
Definition start_learning (b : Busy) : Start * Busy := if busy b then (BusyAlready, b) else (Started, task_enters b).
Definition learning_cycle_now (k : Keys) : Busy -> result Failure Start * Busy :=
  guarded (internal k) (fun b => let '(s, b) := start_learning b in (Ok s, b)).

Inductive LearningSummary := LearningCompleted (cycles : nat) | LearningFailed (error_type : string).
Definition learning_summary {A} (reports : result string (list A)) : LearningSummary :=
  match reports with Ok l => LearningCompleted (length l) | Err e => LearningFailed e end.

(** The tasks of the process: each of them runs to its first await without interruption. *)
Record Tasks := { tk_cycle : Busy; tk_learning : Busy }.
Definition with_cycle b (t : Tasks) : Tasks := {| tk_cycle := b; tk_learning := tk_learning t |}.
Definition with_learning b (t : Tasks) : Tasks := {| tk_cycle := tk_cycle t; tk_learning := b |}.
Inductive task_step : Tasks -> Tasks -> Prop :=
| JobTicks local_now read t : task_step t (with_cycle (snd (run_job local_now read (tk_cycle t))) t)
| CycleTriggered k read t : task_step t (with_cycle (snd (trigger_cycle k read (tk_cycle t))) t)
| CycleEnds t : (0 < inflight (tk_cycle t))%nat -> task_step t (with_cycle (task_leaves (tk_cycle t)) t)
| LearnerTicks t : task_step t (with_learning (snd (start_learning (tk_learning t))) t)
| LearnerTriggered k t : task_step t (with_learning (snd (learning_cycle_now k (tk_learning t))) t)
| LearnerEnds t : (0 < inflight (tk_learning t))%nat -> task_step t (with_learning (task_leaves (tk_learning t)) t).
End file.
Arguments Writer F : clear implicits.

(** ** The endpoints of the lifecycle *)

Section lifecycle.
Context {F : Type} `{HF : PyFloat F}.
Context (environ : gmap string string).
Context (fpow : F -> F -> F) (evidence_hash : Scope -> gmap string (pyval F) -> list SourceRef -> string).
(** [str(exc)] of the framework's exception. *)
Context (http_text : HTTPException -> string).
(** What other processes do to the database between the statements of a method. *)
Context (world : nat -> DB F -> DB F).
Implicit Types (sv : LifecycleService F) (k : Keys) (d : DB F).

Record SleeveAnswer := { sa_sleeve : string; sa_state : string; sa_reason : string }.
Definition answer_of (s : Sleeve) : SleeveAnswer := {| sa_sleeve := key s; sa_state := state s; sa_reason := Store.reason s |}.

(** [sanitize_symbol] inside the [try]: its refusal is an exception like any other. *)
Definition sanitized {A} (symbol_ : string) (call : string -> prog (DB F) StoreError A) : prog (DB F) StoreError A :=
  match sanitize_symbol symbol_ with
  | Ok s => call s
  | Err e => raise (OtherException (http_text e))
  end.
Definition unavailable (e : StoreError) : Failure := http 503 (exn_str e).
Definition answered {A B} (on_error : StoreError -> Failure) (f : A -> B) (call : prog (DB F) StoreError A) d
    : result Failure B * DB F :=
  let '(r, d) := call d in (match r with Ok a => Ok (f a) | Err e => Err (on_error e) end, d).

Definition lifecycle_register sv k (strategy symbol_ version_ : string) (now : datetime) : DB F -> result Failure SleeveAnswer * DB F :=
  guarded (internal environ k) (answered unavailable answer_of
    (sanitized symbol_ (fun s => register_sleeve sv strategy s version_ "equity" None "operator" "human" now))).

Record PromotionRequest := { artifact_ids : list Z; correlation_artifact_id : option Z; paper_window_days : option F }.
Definition no_request : PromotionRequest :=
  {| artifact_ids := []; correlation_artifact_id := None; paper_window_days := None |}.
Record PromotionAnswer := {
  pa_sleeve : option string;
  pa_state : option string;
  pa_promoted : bool;
  pa_passed : list (fstr F);
  pa_failed : list (fstr F);
  pa_reason : fstr F
}.
Definition promotion_answer (r : option Sleeve * GateResult F) : PromotionAnswer :=
  {| pa_sleeve := key <$> fst r; pa_state := state <$> fst r; pa_promoted := allowed (snd r);
     pa_passed := passed (snd r); pa_failed := failed (snd r); pa_reason := Evidence.reason (snd r) |}.
Definition lifecycle_promote sv k (strategy symbol_ : string) (request : option PromotionRequest) (j : Journal F)
    (e_exec e_rows e_bars : io) (now : datetime) : DB F -> result Failure PromotionAnswer * DB F :=
  let body := default no_request request in
  guarded (admin environ k) (answered unavailable promotion_answer
    (sanitized symbol_ (fun s => promote fpow evidence_hash world sv strategy s (artifact_ids body)
       (correlation_artifact_id body) (paper_window_days body) j e_exec e_rows e_bars "operator" None now))).

Definition demotion_error (e : StoreError) : Failure :=
  match e with LifecycleUnavailableError m => http 404 m | _ => unavailable e end.
Definition unknown_state (to_ : string) : Failure :=
  http 422 ("Unknown state " +:+ py_repr to_ +:+ ". Available: " +:+ String.concat ", " STATES).
Definition lifecycle_demote sv k (strategy symbol_ to_ why : string) (now : datetime) : DB F -> result Failure SleeveAnswer * DB F :=
  guarded (internal environ k) (fun d =>
    if negb (str_in to_ STATES) then (Err (unknown_state to_), d) else
    answered demotion_error answer_of
      (sanitized symbol_ (fun s => demote world sv strategy s to_ why "operator" None now)) d).

(** The operator's switch; an error of the store is not caught. *)
Definition lifecycle_live_mode sv k (enabled : bool) (why who : string) : DB F -> result Failure bool * DB F :=
  guarded (admin environ k) (fun d =>
    match _store sv with
    | None => (Err (http 503 "no lifecycle authority configured"), d)
    | Some settings => answered (fun e => Crash (exn_str e)) (fun b => b) (set_live_mode settings enabled who why None) d
    end).

Record LifecycleStatus := {
  ls_counts : list (string * nat);
  ls_trading : list string;
  ls_live_mode_enabled : bool;
  ls_sleeves : list SleeveAnswer
}.
Definition counts_of (sleeves : list Sleeve) : list (string * nat) :=
  foldl (fun counts s => dict_set (state s) (S (default 0%nat (dict_get (state s) counts))) counts) [] sleeves.
(** [None] where no authority is configured. [e]: what the read raises, if anything. *)
Definition lifecycle_status sv (e : io) d : result Failure (option LifecycleStatus) :=
  match _store sv with
  | None => Ok None
  | Some settings =>
      match e with
      | Some exc => Err (http 503 ("lifecycle_unavailable: " +:+ exc))
      | None =>
          let sleeves := all settings None d in
          Ok (Some {| ls_counts := counts_of sleeves;
                      ls_trading := map key (List.filter (fun s => String.eqb (state s) "live") sleeves);
                      ls_live_mode_enabled := live_mode_enabled settings None d;
                      ls_sleeves := map answer_of sleeves |})
      end
  end.

(** The endpoints that write, as one type of request. *)
Inductive Endpoint :=
| Register (strategy symbol_ version_ : string)
| Promote (strategy symbol_ : string) (request : option PromotionRequest) (j : Journal F) (e_exec e_rows e_bars : io)
| Demote (strategy symbol_ to_ why : string)
| LiveMode (enabled : bool) (why who : string).
Definition serve sv k (e : Endpoint) (now : datetime) d : DB F :=
  match e with
  | Register st sy v => snd (lifecycle_register sv k st sy v now d)
  | Promote st sy request j e1 e2 e3 => snd (lifecycle_promote sv k st sy request j e1 e2 e3 now d)
  | Demote st sy to_ why => snd (lifecycle_demote sv k st sy to_ why now d)
  | LiveMode enabled why who => snd (lifecycle_live_mode sv k enabled why who d)
  end.
End lifecycle.
Arguments PromotionRequest F : clear implicits.
Arguments Endpoint F : clear implicits.

(** ** What the orchestrator asks around *)

Section reads.
Context {F : Type} `{HF : PyFloat F}.
Context (environ : gmap string string) (float_of : string -> option F).
Local Open Scope py_scope.

(** [int(os.getenv(name, default))] *)
Definition env_int (name : string) (otherwise : Z) : option Z :=
  match environ !! name with Some text => py_int text | None => Some otherwise end.

(** [None] where a variable does not parse: the ValueError is not caught. *)
Definition _cycle_interval_seconds (interval_minutes : Z) : option Z :=
  match environ !! "ORCHESTRATOR_INTERVAL_SECONDS" with
  | Some explicit => if str_true explicit then Z.max 10 <$> py_int explicit else Some (Z.max 10 (interval_minutes * 60))
  | None => Some (Z.max 10 (interval_minutes * 60))
  end%Z.
Definition _risk_check_interval_seconds (name : string) (intraday : bool) : option Z :=
  let standard := Some (if intraday then 60 else 300)%Z in
  match environ !! name with
  | Some explicit =>
      if str_true explicit then
        minutes ← float_of explicit;
        if nfinite (minutes * nofZ 60) then Some (Z.max 10 (ntrunc (minutes * nofZ 60))) else None
      else standard
  | None => standard
  end.

(** What is streamed; the file may fail to load. *)
Definition _stream_symbols (config : result string (PolicyConfig F)) : option (list string) :=
  let explicit := strip (default "" (environ !! "STREAM_SYMBOLS")) in
  if str_true explicit then
    Some (map (fun s => upper (strip s)) (List.filter (fun s => str_true (strip s)) (split_on ","%char explicit)))
  else
    match config with
    | Err _ => Some []
    | Ok config => (fun limit => slice_to limit (map upper (default [] (symbol_allowlist config)))) <$> env_int "STREAM_SYMBOL_LIMIT" 30
    end.

(** An answer of another service: it cannot be reached, or a status with a body. *)
Inductive Reply (A : Type) := Down (exc : string) | Replied (status : Z) (body : A).
Arguments Down {A}. Arguments Replied {A}.

Inductive DependencyStatus := DepOk | DepDegraded (code : Z) | DepDown (error : string).
Definition _check_dependency (answer : Reply unit) : DependencyStatus :=
  match answer with
  | Replied status _ => if (status =? 200)%Z then DepOk else DepDegraded status
  | Down exc => DepDown exc
  end.

(** A body that does not convert is caught with the rest. *)
Definition _account_equity (answer : Reply (option F)) : option F :=
  match answer with
  | Replied status equity => if (status =? 200)%Z then equity else None
  | Down _ => None
  end.
Definition _get_quote_price (answer : Reply (option F)) (own : option F) : option F :=
  match answer with
  | Replied status (Some price) => if (status =? 200)%Z then Some price else own
  | _ => own
  end.
Definition _portfolio_positions {A} (answer : Reply (list A)) : list A :=
  match answer with
  | Replied status rows => if (status =? 200)%Z then rows else []
  | Down _ => []
  end.
Definition _bars_per_day (intraday : bool) (minutes : Z) : F :=
  if negb intraday then n_one else nmax n_one (nofZ 390 / nofZ (Z.max 1 minutes)).

(** A row of the pending signals: its symbol, and the candidate it validates to. *)
Record SignalRow := { sr_symbol : string; sr_validate : string -> result string (SignalCandidate F) }.
(** A row whose symbol is malformed is skipped; one that does not validate raises. *)
Fixpoint validated (rows : list SignalRow) : result string (list (SignalCandidate F)) :=
  match rows with
  | [] => Ok []
  | row :: rows =>
      match sanitize_symbol (sr_symbol row) with
      | Err _ => validated rows
      | Ok s => signal ← sr_validate row s; rest ← validated rows; Ok (signal :: rest)
      end
  end.
(** Not reached, or not a success: no signals. *)
Definition _pending_signals (answer : Reply (list SignalRow)) : result string (list (SignalCandidate F)) :=
  match answer with
  | Down _ => Ok []
  | Replied status rows => if (status <? 200) || (300 <=? status) then Ok [] else validated rows
  end%Z.

(** The advisory gate: why a signal may not reach the broker. *)
Definition _lifecycle_gate {W} `{LifecycleReads W} (authority : option W) (signal : SignalCandidate F) (strategy : string)
    : option string :=
  let answer := may_open authority strategy (sc_symbol signal) None in
  if permitted answer then None else Some (ga_reason answer).

(** *** The allowlist *)

Record Validation := { valid : list string; invalid : list string; unknown : list string }.
Definition no_validation : Validation := {| valid := []; invalid := []; unknown := [] |}.
Definition bucket (status_ : string) (symbol_ : string) (v : Validation) : Validation :=
  if String.eqb status_ "valid" then {| valid := valid v ++ [symbol_]; invalid := invalid v; unknown := unknown v |}
  else if String.eqb status_ "invalid" then {| valid := valid v; invalid := invalid v ++ [symbol_]; unknown := unknown v |}
  else {| valid := valid v; invalid := invalid v; unknown := unknown v ++ [symbol_] |}.
Definition status_of (answer : Reply string) : string :=
  match answer with
  | Down _ => "unknown"
  | Replied code text => if (code =? 200)%Z then lower text else "unknown"
  end.
Definition well_formed (allowlist : list string) : list string :=
  omap (fun s => match sanitize_symbol s with Ok s => Some s | Err _ => None end) allowlist.
Definition _validate_allowlist_symbols (config : PolicyConfig F) (ask : string -> Reply string) : Validation :=
  foldl (fun v s => bucket (status_of (ask s)) s v) no_validation (well_formed (default [] (symbol_allowlist config))).
End reads.
Arguments Down {A}. Arguments Replied {A}.

(** ** The switches hold what they were set to *)

Lemma update_is_the_update {F} (updates : Baseline F -> Baseline F) f : update_policy_config updates f = updates f.
Proof. done. Qed.

(** A request that leaves the mode live was confirmed by an admin, over a file with the kill
    switch off, a weekly cap and symbols, and changes nothing else of it; the kill switch
    is what its last request said. *)
Theorem live_mode_is_confirmed {F} `{PyFloat F} environ k enable confirmation (f : Baseline F) r f' :
  live_mode environ k enable confirmation f = (r, f') ->
  bl_config f' = bl_config f /\
  (bl_trading_mode f' = Some "live" -> bl_trading_mode f = Some "live" \/
     admin environ k = Ok tt /\ enable = true /\ confirmation = CONFIRMATION /\
     py_true (kill_switch (bl_config f)) = false /\ opt_true (weekly_notional_cap_usd (bl_config f)) = true /\
     default [] (symbol_allowlist (bl_config f)) <> []).
Proof.
  unfold live_mode, guarded. destruct (admin environ k) as [[]|e]; [|intros [= _ <-]; auto].
  destruct enable; [|intros [= _ <-]; cbn; split; [done|discriminate]].
  destruct (live_mode_refusal confirmation f) as [why|] eqn:Er; [intros [= _ <-]; auto|].
  intros [= _ <-]. cbn. split; [done|]. intros _. right. unfold live_mode_refusal in Er.
  destruct (String.eqb_spec confirmation CONFIRMATION); [|done].
  destruct (py_true _); [done|]. destruct (opt_true _); [|done].
  by destruct (default [] (symbol_allowlist (bl_config f))).
Qed.

(** ** One task at a time *)

Definition single (b : Busy) : Prop := inflight b = if busy b then 1%nat else 0%nat.
Lemma single_enter b : single b -> busy b = false -> single (task_enters b).
Proof. unfold single. cbn. intros Hi E. by rewrite Hi, E. Qed.
Lemma single_leave b : single b -> (0 < inflight b)%nat -> single (task_leaves b).
Proof. unfold single. cbn. destruct (busy b); lia. Qed.
Lemma single_start_cycle {F} `{PyFloat F} (f : Baseline F) b : single b -> busy b = false -> single (snd (start_cycle f b)).
Proof. intros Hb E. unfold start_cycle. destruct (py_true _); [done|by apply single_enter]. Qed.

Definition singly (t : Tasks) : Prop := single (tk_cycle t) /\ single (tk_learning t).
Lemma singly_step {F} `{PyFloat F} environ t t' : task_step (F := F) environ t t' -> singly t -> singly t'.
Proof.
  intros Ht [Hc Hl]. destruct Ht as [now read t|k read t|t Hi|t|k t|t Hi]; split; cbn; try done.
  - unfold run_job. destruct (busy (tk_cycle t)) eqn:Eb; [done|].
    destruct (is_market_hours _ _) as [[]|]; [|done..].
    pose proof (single_start_cycle (read 1%nat) _ Hc Eb). by destruct (start_cycle _ _).
  - unfold trigger_cycle, guarded. destruct (internal _ _); [|done]. destruct (py_true _); [done|].
    destruct (busy (tk_cycle t)) eqn:Eb; [done|].
    pose proof (single_start_cycle (read 1%nat) _ Hc Eb). by destruct (start_cycle _ _).
  - by apply single_leave.
  - unfold start_learning. destruct (busy (tk_learning t)) eqn:Eb; [done|]. by apply single_enter.
  - unfold learning_cycle_now, guarded, start_learning. destruct (internal _ _); [|done].
    destruct (busy (tk_learning t)) eqn:Eb; [done|]. by apply single_enter.
  - by apply single_leave.
Qed.


(** ** Who can make a sleeve live *)

Section authority.
Context {F : Type} `{HF : PyFloat F}.
Context (environ : gmap string string) (fpow : F -> F -> F).
Context (evidence_hash : Scope -> gmap string (pyval F) -> list SourceRef -> string) (http_text : HTTPException -> string).
Context (settings : StoreSettings) (artifact_hash : Artifact F -> string).
Local Abbreviation quiet := (fun (_ : nat) (d : DB F) => d).
Implicit Types d : DB F.

(** Every row of the one is a row of the other, or has the state. *)
Definition rows_kept (to_ : string) d d' : Prop := forall r, r ∈ sleeve d' -> r ∈ sleeve d \/ state r = to_.
Lemma rows_kept_refl to_ d : rows_kept to_ d d.
Proof. intros r. by left. Qed.
Lemma rows_kept_moved to_ f r t d : (forall x, state (f x) = to_) -> rows_kept to_ d (moved f r t d).
Proof.
  intros Hf x Hx. apply elem_of_update_where in Hx as (y & Hy & ->).
  destruct (at_version _ _ y); [by right|by left].
Qed.

Lemma transition_rows s to_ why who ev now d : NoDup (map id (sleeve d)) ->
  rows_kept to_ d (snd (transition s to_ why who ev None now d)).
Proof.
  intros Hn. pose proof (transition_cases s to_ why who ev now d Hn) as Hc. cbn zeta in Hc.
  destruct (transition _ _ _ _ _ _ _ d) as [[r|e] d']; cbn [snd].
  - destruct Hc as (r0 & _ & _ & _ & _ & _ & _ & ->). by apply rows_kept_moved.
  - destruct Hc as [-> _]. apply rows_kept_refl.
Qed.

Lemma demote_rows sv st sy to_ why who account now d : NoDup (map id (sleeve d)) ->
  rows_kept to_ d (snd (demote quiet sv st sy to_ why who account now d)).
Proof.
  intros Hn. unfold demote, _require, mbind, prog_bind, mret, prog_ret, reads, raise, others, modifies, catch.
  destruct (_store sv) as [stt|]; [|apply rows_kept_refl].
  destruct (get _ _ _ _ d) as [s|]; [|apply rows_kept_refl].
  pose proof (transition_cases s to_ why who None now d Hn) as Hc. cbn zeta in Hc.
  pose proof (transition_rows s to_ why who None now d Hn) as Ht.
  destruct (transition s _ _ _ _ _ _ d) as [[r|e] d1]; cbn [snd] in Ht |- *; [done|].
  destruct Hc as [-> _]. destruct e; cbn [snd]; try apply rows_kept_refl.
  destruct (get _ _ _ _ d) as [fresh|]; [|apply rows_kept_refl].
  destruct (String.eqb _ _); [apply rows_kept_refl|]. by apply transition_rows.
Qed.

Lemma register_rows sv st sy ver ac account who origin_ now d :
  NoDup (map id (sleeve d)) -> NoDup (map ident (sleeve d)) ->
  rows_kept "candidate" d (snd (register_sleeve sv st sy ver ac account who origin_ now d)).
Proof.
  intros Hn Hi. unfold register_sleeve, _require, mbind, prog_bind, mret, prog_ret, raise.
  destruct (_store sv) as [stt|]; [|apply rows_kept_refl].
  pose proof (register_cases stt st sy ver ac account who origin_ now d Hn Hi) as Hc. cbn zeta in Hc.
  destruct (register _ _ _ _ _ _ _ _ _ d) as [[r|e] d']; cbn [snd].
  - destruct Hc as [(_ & _ & _ & ->)|[(r0 & _ & _ & _ & _ & ->)|(_ & _ & _ & _ & Hs & _ & _ & _ & _ & ->)]].
    + apply rows_kept_refl.
    + by apply rows_kept_moved.
    + intros x Hx. cbn in Hx. apply elem_of_app in Hx as [Hx| ->%list_elem_of_singleton]; auto.
  - destruct Hc as [-> _]. apply rows_kept_refl.
Qed.

Lemma promote_rows sv st sy ids corr w j e1 e2 e3 who account now d : NoDup (map id (sleeve d)) ->
  match promote fpow evidence_hash quiet sv st sy ids corr w j e1 e2 e3 who account now d with
  | (Ok (_, g), d') => allowed g = false -> sleeve d' = sleeve d
  | (Err _, d') => sleeve d' = sleeve d
  end.
Proof.
  intros Hn. unfold promote, _require, mbind, prog_bind, mret, prog_ret, reads, raise, others, modifies.
  destruct (_store sv) as [stt|]; [|done]. destruct (get _ _ _ _ d) as [s|]; [|done].
  destruct (NEXT_STATE _) as [next|]; [|done].
  destruct (Service.evaluate _ _ _ _ _ _ _ _ _ _ _) as [e [g|exc]]; [|done].
  destruct (allowed g) eqn:Eg; cbn [negb]; [|done]. destruct (de_scope e) as [scope|]; [|done].
  pose proof (record_evidence_cases evidence_hash scope (de_metrics e) (de_source_artifacts e) now d) as Hr.
  destruct (record_evidence _ _ _ _ _ d) as [[i|exc] d1]; [|by subst]. destruct Hr as [(Es & _) _].
  pose proof (transition_cases s (default next (target g)) ("promoted: all " +:+ str_of_Z (Z.of_nat (length (passed g))) +:+ " gates passed")
    who (Some i) now d1) as Hc. rewrite Es in Hc. specialize (Hc Hn). cbn zeta in Hc.
  destruct (transition _ _ _ _ _ _ _ d1) as [[r|exc] d2]; [intros E; congruence|]. destruct Hc as [-> _]. done.
Qed.

(** C3. Two endpoints can make a sleeve live, and one of them asks nothing: where no other
    process interferes, a sleeve that is live after a request, and whose row was not there
    before, was promoted by an admin through every gate on its evidence, or was "demoted"
    to live with the internal key. Registering and switching the mode never do. *)
Theorem two_endpoints_make_live sv k e now d seen r :
  reachable settings evidence_hash artifact_hash d seen -> _store sv = Some settings ->
  r ∈ sleeve (serve environ fpow evidence_hash http_text quiet sv k e now d) -> state r = "live" ->
  r ∈ sleeve d \/
  (exists st sy request j e1 e2 e3 s found g d', e = Promote st sy request j e1 e2 e3 /\ admin environ k = Ok tt /\
     sanitize_symbol sy = Ok s /\
     promote fpow evidence_hash quiet sv st s (artifact_ids (default no_request request))
       (correlation_artifact_id (default no_request request)) (paper_window_days (default no_request request))
       j e1 e2 e3 "operator" None now d = (Ok (found, g), d') /\ allowed g = true) \/
  (exists st sy why, e = Demote st sy "live" why /\ internal environ k = Ok tt).
Proof.
  intros Hi Hst Hr Hl. pose proof (reachable_inv _ _ _ _ _ Hi) as Hinv.
  pose proof (inv_ids _ _ Hinv) as Hn. pose proof (inv_idents _ _ Hinv) as Hd.
  assert (forall to_ d', rows_kept to_ d d' -> r ∈ sleeve d' -> to_ <> "live" -> r ∈ sleeve d) as Hkept.
  { intros to_ d' Hk Hr' Hto. destruct (Hk r Hr') as [|E]; [done|congruence]. }
  destruct e as [st sy v|st sy request j e1 e2 e3|st sy to_ why|enabled why who]; cbn [serve] in Hr.
  - left. unfold lifecycle_register, guarded, answered, sanitized in Hr.
    destruct (internal environ k); [|done]. destruct (sanitize_symbol sy) as [s|]; [|done].
    pose proof (register_rows sv st s v "equity" None "operator" "human" now d Hn Hd) as Hk.
    destruct (register_sleeve _ _ _ _ _ _ _ _ _ d) as [res d']. by eapply Hkept.
  - unfold lifecycle_promote, guarded, answered, sanitized in Hr.
    destruct (admin environ k) as [[]|] eqn:Ea; [|by left]. destruct (sanitize_symbol sy) as [s|] eqn:Es; [|by left].
    pose proof (promote_rows sv st s (artifact_ids (default no_request request))
      (correlation_artifact_id (default no_request request)) (paper_window_days (default no_request request))
      j e1 e2 e3 "operator" None now d Hn) as Hp.
    destruct (promote _ _ _ _ _ _ _ _ _ _ _ _ _ _ _ _ _) as [[[found g]|err] d'] eqn:Ep; cbn [snd] in Hr.
    + destruct (allowed g) eqn:Eg; [|left; by rewrite Hp in Hr by done].
      right. left. exists st, sy, request, j, e1, e2, e3, s, found, g, d'. by split_and!.
    + left. by rewrite Hp in Hr.
  - unfold lifecycle_demote, guarded, answered, sanitized in Hr.
    destruct (internal environ k) as [[]|] eqn:Ea; [|by left]. destruct (negb _); [by left|].
    destruct (sanitize_symbol sy) as [s|]; [|by left].
    destruct (String.eqb_spec to_ "live") as [->|Hto]; [right; right; by exists st, sy, why|]. left.
    pose proof (demote_rows sv st s to_ why "operator" None now d Hn) as Hk.
    destruct (demote _ _ _ _ _ _ _ _ _ d) as [res d']. by eapply Hkept.
  - left. unfold lifecycle_live_mode, guarded, answered in Hr. destruct (admin environ k); [|done].
    destruct (_store sv); done.
Qed.
End authority.

(** ** The allowlist is accounted for *)

Lemma bucket_spec status_ s v :
  valid (bucket status_ s v) ++ invalid (bucket status_ s v) ++ unknown (bucket status_ s v) ≡ₚ
  (valid v ++ invalid v ++ unknown v) ++ [s].
Proof.
  unfold bucket. destruct (String.eqb _ "valid"); [|destruct (String.eqb _ "invalid")]; cbn; rewrite <- !app_assoc; [| |done].
  - apply Permutation_app_head. rewrite (app_assoc (invalid v)). apply Permutation_app_comm.
  - do 2 apply Permutation_app_head. apply Permutation_app_comm.
Qed.

(** Every symbol of the allowlist that is well formed is in exactly one bucket of the answer,
    as often as it is listed: nothing is dropped because a service was down. *)
Theorem allowlist_is_accounted_for {F} `{PyFloat F} (config : PolicyConfig F) ask :
  let v := _validate_allowlist_symbols config ask in
  valid v ++ invalid v ++ unknown v ≡ₚ well_formed (default [] (symbol_allowlist config)) /\
  Forall (fun s => exists code text, ask s = Replied code text /\ code = 200 /\ lower text = "valid") (valid v).
Proof.
  cbv zeta. unfold _validate_allowlist_symbols.
  induction (well_formed _) as [|s l [IHp IHv]] using rev_ind; [by split|]. rewrite foldl_app. cbn [foldl].
  set (v := foldl _ _ l) in *. split; [by rewrite bucket_spec, IHp|].
  unfold bucket. destruct (String.eqb_spec (status_of (ask s)) "valid") as [E|]; cbn [valid].
  - apply Forall_app. split; [done|]. constructor; [|done]. unfold status_of in E.
    destruct (ask s) as [exc|code text]; [done|]. destruct (Z.eqb_spec code 200); [|done]. by exists code, text.
  - by destruct (String.eqb _ "invalid").
Qed.

(** ** Concrete requests *)

Module Office.
Definition environ : gmap string string := list_to_map [("INTERNAL_API_KEY", "in"); ("ADMIN_API_KEY", "ad")].
(** A service of the stack: it has the internal key only. *)
Definition service_key : Keys := {| x_internal_key := Some "in"; x_admin_key := None |}.
Definition admin_key : Keys := {| x_internal_key := Some "in"; x_admin_key := Some "ad" |}.
Definition service : LifecycleService spec_float := Ladder.service.
Definition power : spec_float -> spec_float -> spec_float := Ladder.fpow.
Definition http_text (e : HTTPException) : string := detail e.
Definition quiet (_ : nat) (d : DB spec_float) : DB spec_float := d.
Definition candidate : DB spec_float := StoreTheorems.Demo.registered "human".
Definition asked (e : Endpoint spec_float) : DB spec_float :=
  serve environ power StoreTheorems.Demo.ehash http_text quiet service service_key e 30 candidate.
Definition states (d : DB spec_float) : list string := map state (sleeve d).
(** A file with trading allowed, and the same file stopped. *)
Definition open_file : Baseline spec_float := set_trading_mode "demo" (set_kill_switch false empty_file).
Definition stopped_file : Baseline spec_float := set_kill_switch true open_file.
Definition stopped (f : Baseline spec_float) : bool := py_true (kill_switch (bl_config f)).
(** The writers take turns, as the list says: [true] is the kill switch, [false] the mode. *)
Definition turn (acc : Writer spec_float * Writer spec_float * Baseline spec_float) (first : bool) :=
  let '(w1, w2, f) := acc in
  if first then let '(w1, f) := write_step (set_kill_switch true) w1 f in (w1, w2, f)
  else let '(w2, f) := write_step (set_trading_mode "demo") w2 f in (w1, w2, f).
Definition interleaved (turns : list bool) : Baseline spec_float := snd (foldl turn (Starting, Starting, open_file) turns).
Definition signal : SignalCandidate spec_float :=
  {| sc_signal_id := "s"; sc_symbol := "AAPL"; sc_ts := 0; candidate_action := "EXIT"; sc_confidence := nofZ 1;
     sc_size_pct := nofZ 1; sc_model_version := "v"; sc_risk_score := "LOW"; sc_strategy := "ema_rsi_macd";
     sc_as_of := None; sc_research_summary := None; sc_acted_on := false |}.
Definition good : SignalRow (F := spec_float) := {| sr_symbol := "AAPL"; sr_validate := fun _ => Ok signal |}.
Definition bad : SignalRow (F := spec_float) := {| sr_symbol := "AAPL"; sr_validate := fun _ => Err "confidence" |}.
End Office.

(** With the internal key, which every service has, a candidate that never traded on paper is
    "demoted" to live: no gate is asked, and no admin. *)
Example demote_endpoint_goes_live :
  Office.states Office.candidate = ["candidate"] /\
  Office.states (Office.asked (Demote "ema" "aapl" "live" "please")) = ["live"] /\
  admin Office.environ Office.service_key = Err {| status_code := 401; detail := "Invalid admin API key" |}.
Proof. vm_compute. repeat split. Qed.

(** A malformed symbol is the server's fault. *)
Example malformed_symbol_is_unavailable :
  fst (lifecycle_register Office.environ Office.http_text Office.service Office.service_key "ema" "a b" "v1" 30 Office.candidate) =
    Err (http 503 "Invalid symbol format: 'a b'").
Proof. vm_compute. reflexivity. Qed.

(** Two operators at once: one stops trading while the other touches the mode. Both are
    answered, and trading is not stopped. *)
Example kill_switch_is_lost :
  Office.stopped (Office.interleaved [true; true; true; false; false; false]) = true /\
  Office.stopped (Office.interleaved [false; true; true; true; false; false]) = false.
Proof. split; vm_compute; reflexivity. Qed.

(** While the file is written it is empty: a cycle that starts then finds no kill switch. *)
Example kill_switch_is_off_while_the_file_is_written :
  let '(w, f) := write_step (set_trading_mode "demo") Starting Office.stopped_file in
  let '(_, f) := write_step (set_trading_mode "demo") w f in
  Office.stopped Office.stopped_file = true /\ fst (start_cycle f idle) = Started.
Proof. vm_compute. by split. Qed.

(** One row that does not validate ends the read, where a service that is down does not: the
    exception leaves the cycle before its exits. *)
Example one_bad_row_stops_the_cycle :
  _pending_signals (Down "refused") = Ok ([] : list (SignalCandidate spec_float)) /\
  _pending_signals (Replied 200 [Office.good; Office.bad]) = Err "confidence".
Proof. by split. Qed.


Lemma two_endpoints_make_live_witness :
  exists r, r ∈ sleeve (Office.asked (Demote "ema" "aapl" "live" "please")) /\ state r = "live" /\
    r ∉ sleeve Office.candidate /\ internal Office.environ Office.service_key = Ok tt.
Proof.
  set (r := transitioned "live" "please" 2 0 POSITION_LIVE 30 (StoreTheorems.Demo.sleeve0 "human")).
  assert (r ∈ sleeve (Office.asked (Demote "ema" "aapl" "live" "please"))) as Hr by (vm_compute; left).
  assert (r ∉ sleeve Office.candidate) as Hn.
  { intros [=]%list_elem_of_singleton. }
  exists r. split; [exact Hr|]. split; [reflexivity|]. split; [exact Hn|].
  destruct (two_endpoints_make_live Office.environ Office.power StoreTheorems.Demo.ehash Office.http_text StoreTheorems.Demo.settings
    StoreTheorems.Demo.ahash Office.service Office.service_key (Demote "ema" "aapl" "live" "please") 30 Office.candidate
    (StoreTheorems.Demo.registered_seen "human") r (StoreTheorems.Demo.registered_reachable "human") eq_refl Hr eq_refl)
    as [H|[(? & ? & ? & ? & ? & ? & ? & ? & ? & ? & ? & H & _)|(? & ? & ? & _ & H)]].
  - destruct (Hn H).
  - discriminate H.
  - exact H.
Defined.
