(* ===== verification/Clients.v ===== *)
(** * What the two loops see of the other services

    Models the clients of [services/strategy-service/src/strategy_service/worker.py] and of
    [services/autonomy-orchestrator/src/autonomy_orchestrator/main.py]: what each makes of an
    answer that may be missing, be an error, or hold no JSON or the wrong one; and the start
    of the orchestrator, its jobs and its health sweep. [Worker] and [Cycle] take what these
    make of the answers as inputs: here they are computed, so that an order of the worker
    rests on the answers themselves. A parameter reads a number or a date from a text. *)

From S2P Require Import PyFloat Policy Json Store PaperBroker Router Execution JournalTheorems Brokers Service Health Contracts Indicators Journal Signals DayTrade Reconcile Monitors Risk Cycle Worker Operator AuditLog Desk Prelude.
From Stdlib Require Import Ascii QArith Floats.SpecFloat.
Local Close Scope Q_scope.
Local Open Scope Z_scope.

(** ** The worker *)

Section worker_clients.
Context {F : Type} `{HF : PyFloat F}.
Context (fpow : F -> F -> F) (float_of : string -> option F) (repr : json F -> string) (iso : string -> option datetime).
Local Open Scope py_scope.
Implicit Types (a : Answer F) (row : list (string * json F)).

(** The body of a 200 that holds JSON. *)
Definition body_of_200 a : option (json F) :=
  match a with Replied code body => if (code =? 200)%Z then body else None | HttpError => None end.
(** [int(x)] of a float: NaN and the infinities raise. *)
Definition truncate (x : F) : option Z := if nfinite x then Some (ntrunc x) else None.
(** [float(row.get(k, d))] *)
Definition float_at (k : string) (d : F) row : option F :=
  json_float float_of (default (JVal (PFloat d)) (dict_get k row)).
Definition as_dict (v : json F) : option (list (string * json F)) := match v with JDict d => Some d | _ => None end.

(** None is a position that cannot be known. *)
Definition _get_sleeve_position a : option (list (string * F)) :=
  doc ← body_of_200 a; data ← field_get "net_by_environment" doc; nets ← as_dict data;
  mapM (fun '(env, net) => x ← json_float float_of net; Some (env, x)) nets.

Definition DEFAULT_POWER : F := nofZ 100000.
Definition _get_buying_power a : F :=
  default DEFAULT_POWER (doc ← body_of_200 a; account ← as_dict doc; float_at "buying_power" DEFAULT_POWER account).

(** The gross exposure and the drawdown of the day. *)
Record PortfolioContext := { pc_gross_exposure_pct : F; pc_daily_drawdown_pct : F }.
Definition portfolio_context (gross drawdown : F) : option PortfolioContext :=
  if (gross >=? nzero) && (gross <=? n_one) && (drawdown >=? nzero) && (drawdown <=? n_one)
  then Some {| pc_gross_exposure_pct := gross; pc_daily_drawdown_pct := drawdown |} else None.
Definition flat_context : PortfolioContext := {| pc_gross_exposure_pct := nzero; pc_daily_drawdown_pct := nzero |}.
Definition market_values (rows : list (json F)) : option (list F) :=
  mapM (fun v => p ← as_dict v; x ← float_at "market_value" nzero p; Some (nabs x)) rows.
Definition _get_portfolio_context a : PortfolioContext :=
  default flat_context (doc ← body_of_200 a; rows ← iterate doc; values ← market_values rows;
    portfolio_context (nround 4 (nmin (nsum values / nofZ 100000) n_one)) nzero).

Definition policy_failed : json F :=
  JDict [("decision", JStr "REJECT"); ("reasons", JList [JStr "policy_call_failed"]); ("approved_size_pct", JVal (PFloat nzero))].
Definition _call_policy a : json F := default policy_failed (body_of_200 a).
(** What [_execute_signal] reads of it: the decision, and for an approval the size. What is
    not a dict raises, and so does a size that is not a number. *)
Definition policy_seen (doc : json F) : result exn (string * option F) :=
  match doc with
  | JDict d =>
      let decision := match dict_get "decision" d with Some (JStr s) => s | _ => "" end in
      if negb (String.eqb decision "APPROVE") then Ok (decision, None) else
      match dict_get "approved_size_pct" d with
      | None => Ok (decision, None)
      | Some v => match json_float float_of v with
                  | Some x => Ok (decision, Some x)
                  | None => Err (Uncaught "could not convert to float")
                  end
      end
  | _ => Err (Uncaught "AttributeError")
  end.

Definition _submit_order a : bool :=
  match a with Replied code _ => (code =? 200)%Z || (code =? 201)%Z | HttpError => false end.

(** The roster's gate, and the record of what it refused. *)
Definition _lifecycle_gate {W} `{LifecycleReads W} (authority : option W) (signal : SignalCandidate F) (strategy_id : string)
    : option string :=
  let answer := may_open authority strategy_id (sc_symbol signal) None in
  if permitted answer then None else Some (ga_reason answer).
Definition _record_gated_decision (signal : SignalCandidate F) (symbol : string) (qty : Z) (reference_price : option F)
    (gate uuid : string) (now : datetime) (e : io) (j : Journal F) : Journal F :=
  snd (record_decision "lifecycle_gate" "not_traded" symbol (candidate_action signal) gate
    (JDict [("strategy", JStr (sc_strategy signal)); ("confidence", JVal (PFloat (sc_confidence signal)));
            ("reference_price", match reference_price with Some p => JVal (PFloat p) | None => JVal PNone end)])
    (JDict [("would_have_traded", JVal (PBool true)); ("qty", JVal (PInt qty))])
    (sc_signal_id signal) None uuid now e j).

(** ** The positions of the exit pass *)

Definition _get_open_positions a : list (list (string * json F)) :=
  default [] (doc ← body_of_200 a; rows ← iterate doc;
    kept ← mapM (fun v => row ← as_dict v; qty ← json_int truncate (default (JVal (PInt 0)) (dict_get "net_qty" row));
                          Some (if (qty =? 0)%Z then [] else [row])) rows;
    Some (List.concat kept)).

(** A "Z" becomes an offset; what is not a date is none. *)
Fixpoint with_offset (text : string) : string :=
  match text with
  | EmptyString => ""
  | String c rest => if Nat.eqb (nat_of_ascii c) 90 then "+00:00" +:+ with_offset rest else String c (with_offset rest)
  end.
Definition _parse_datetime (v : json F) : option datetime :=
  if negb (json_true v) then None else iso (with_offset (json_str repr v)).

(** What the check of one position finds besides its row. *)
Record RowWorld := {
  rw_fetched : option (list (OHLCVBar F));
  rw_price : option F;
  rw_now : datetime;
  rw_uuid : string;
  rw_write_ok : bool
}.
(** The row as [_build_exit_signal] reads it; [None] is a cost that is no number. *)
Definition position_world row (w : RowWorld) : option (PositionWorld F) :=
  cost ← float_at "average_cost" nzero row;
  qty ← json_int truncate (default (JVal (PInt 0)) (dict_get "net_qty" row));
  Some {| xp_symbol := json_str repr (default (JStr "") (dict_get "symbol" row)); xp_average_cost := cost; xp_net_qty := qty;
          xp_opened_at := _parse_datetime (json_get "opened_at" row); xp_updated_at := _parse_datetime (json_get "updated_at" row);
          xp_fetched := rw_fetched w; xp_price := rw_price w; xp_now := rw_now w; xp_uuid := rw_uuid w; xp_write_ok := rw_write_ok w |}.
Definition exit_of_row (cfg : WorkerSettings F) row (w : RowWorld) : result exn (option (SignalCandidate F)) :=
  let symbol := upper (json_str repr (default (JStr "") (dict_get "symbol" row))) in
  if negb (str_true symbol) then Ok None else
  match fst (_market_snapshot fpow symbol (wk_source cfg) (rw_now w) (rw_fetched w)), position_world row w with
  | None, _ => Ok None
  | Some _, Some p => Ok (_build_exit_signal fpow cfg p)
  | Some _, None => Err (Uncaught "could not convert string to float")
  end.

(** ** An entry, on the answers it gets *)

(** The answers, and what an entry finds that is not an answer. *)
Record EntryAnswers := {
  en_exposure : Answer F;
  en_account : Answer F;
  en_portfolio : Answer F;
  en_policy : Answer F;
  en_order : Answer F;
  en_own : EntryWorld F
}.
(** What raises ends the entry; the policy is asked of an entry that gets that far. *)
Definition entry_world (x : EntryAnswers) (policy : string * option F) : EntryWorld F :=
  {| ew_exposure := _get_sleeve_position (en_exposure x); ew_account := Some (_get_buying_power (en_account x));
     ew_session_open := ew_session_open (en_own x); ew_snapshot_age := ew_snapshot_age (en_own x); ew_now := ew_now (en_own x);
     ew_blackout := ew_blackout (en_own x); ew_policy := Some policy; ew_price := ew_price (en_own x);
     ew_roster := ew_roster (en_own x); ew_submitted := _submit_order (en_order x) |}.
Definition execute_on_answers (cfg : WorkerSettings F) (signal : SignalCandidate F) (symbol : string) (bars : list (OHLCVBar F))
    (strategy_id : string) (x : EntryAnswers) : result exn unit * Run F :=
  match policy_seen (_call_policy (en_policy x)) with
  | Ok policy => _execute_signal cfg signal symbol bars strategy_id (entry_world x policy)
  | Err e =>
      match _execute_signal cfg signal symbol bars strategy_id (entry_world x ("", None)) with
      | (Ok tt, run) => match events run with [] => (Ok tt, run) | _ => (Err e, run) end
      | (Err e, run) => (Err e, run)
      end
  end.
End worker_clients.
Arguments PortfolioContext F : clear implicits.
Arguments EntryAnswers F : clear implicits.
Arguments RowWorld F : clear implicits.

(** ** An order rests on answers *)

Section rests.
Context {F : Type} `{HF : PyFloat F}.
Context (fpow : F -> F -> F) (float_of : string -> option F).

Lemma body_is_200 (a : Answer F) doc : body_of_200 a = Some doc -> a = Replied 200 (Some doc).
Proof. destruct a as [|code body]; [done|]. cbn. destruct (Z.eqb_spec code 200) as [->|]; [by intros ->|done]. Qed.

Lemma approved_answer (a : Answer F) size : policy_seen float_of (_call_policy a) = Ok ("APPROVE", size) ->
  exists d, a = Replied 200 (Some (JDict d)) /\ dict_get "decision" d = Some (JStr "APPROVE").
Proof.
  unfold _call_policy. destruct (body_of_200 a) as [doc|] eqn:Eb; [|done]. apply body_is_200 in Eb as ->.
  change (default policy_failed (Some doc)) with doc. unfold policy_seen. destruct doc as [| | |d]; try done.
  intros H. exists d. split; [done|]. revert H.
  set (decision := match dict_get "decision" d with Some (JStr s) => s | _ => "" end).
  destruct (String.eqb_spec decision "APPROVE") as [Ed|Hd]; [intros _|cbn [negb]; by intros [= ?]].
  unfold decision in Ed. destruct (dict_get "decision" d) as [[]|]; try discriminate Ed. by rewrite Ed.
Qed.

(** What [execute_on_answers] submits went through [_execute_signal] on a policy that was seen. *)
Lemma placed_on_answers cfg signal symbol bars strategy (x : EntryAnswers F) key rq accepted :
  Placed key rq accepted ∈ events (snd (execute_on_answers float_of cfg signal symbol bars strategy x)) ->
  exists size, let w := entry_world float_of x ("APPROVE", size) in
    policy_seen float_of (_call_policy (en_policy x)) = Ok ("APPROVE", size) /\
    Placed key rq accepted ∈ events (snd (_execute_signal cfg signal symbol bars strategy w)) /\
    exists request, passed_guards cfg bars w request rq.
Proof.
  unfold execute_on_answers. destruct (policy_seen _ _) as [policy|e].
  - intros Hp. pose proof Hp as (request & _ & Hg & _)%placed_by_entry.
    destruct (approved _ _ _ _ _ Hg) as [size E]. cbn in E. injection E as ->.
    exists size. cbv zeta. split_and!; eauto.
  - set (w := entry_world _ _ _). intros Hp.
    assert (Placed key rq accepted ∈ events (snd (_execute_signal cfg signal symbol bars strategy w))) as (request & _ & Hg & _)%placed_by_entry.
    { destruct (_execute_signal _ _ _ _ _ _) as [[[]|] run]; cbn [snd] in *; [|done]. by destruct (events run) eqn:E; cbn [snd] in Hp; rewrite E in Hp. }
    destruct (approved _ _ _ _ _ Hg) as [size E]. discriminate E.
Qed.

(** The environments and the quantities of a document of positions. *)
Definition nets_of (d : list (string * json F)) (held : list (string * F)) : Prop :=
  exists nets, dict_get "net_by_environment" d = Some (JDict nets) /\
    Forall2 (fun n h => fst n = fst h /\ json_float float_of (snd n) = Some (snd h)) nets held.

Lemma sleeve_position_answer (a : Answer F) held : _get_sleeve_position float_of a = Some held ->
  exists d, a = Replied 200 (Some (JDict d)) /\ nets_of d held.
Proof.
  unfold _get_sleeve_position. intros (doc & ->%body_is_200 & (data & Hd & Hf)%bind_Some)%bind_Some.
  destruct doc as [| | |d]; try done. cbn in Hd. injection Hd as <-.
  unfold json_get in Hf. destruct (dict_get "net_by_environment" d) as [v|] eqn:E; [|done]. cbn in Hf.
  destruct v as [| | |nets]; try done. cbn in Hf. exists d. split; [done|]. exists nets. split; [done|].
  apply mapM_Some in Hf. eapply Forall2_impl; [exact Hf|]. intros [env net] [env' y]. cbn.
  intros (x & Hx & [= <- <-])%bind_Some. done.
Qed.

(** C8. The worker trades on answers. Whatever the services answer, an order that leaves the
    worker rests on a 200 of the execution service that lists what the sleeve holds, none of
    it in the direction of the order, and on a 200 of the policy service whose decision is
    APPROVE; and it counts as submitted only where the execution service answered 200 or
    201. An answer that is missing, an error, not JSON or of another shape is none of these. *)
Theorem worker_trades_on_answers cfg signal symbol bars strategy (x : EntryAnswers F) key rq accepted :
  Placed key rq accepted ∈ events (snd (execute_on_answers float_of cfg signal symbol bars strategy x)) ->
  (exists d held, en_exposure x = Replied 200 (Some (JDict d)) /\ nets_of d held /\ in_direction held (upper (rq_side rq)) = false) /\
  (exists d, en_policy x = Replied 200 (Some (JDict d)) /\ dict_get "decision" d = Some (JStr "APPROVE")) /\
  (accepted = true -> exists code body, en_order x = Replied code body /\ (code = 200 \/ code = 201)).
Proof.
  intros (size & Hp & Hin & request & Hg)%placed_on_answers. split_and!.
  - destruct (not_adding _ _ _ _ _ Hg) as (held & Hh & Hd). cbn in Hh.
    apply sleeve_position_answer in Hh as (d & E & Hn). eauto 10.
  - by apply approved_answer in Hp.
  - intros ->. assert (_submit_order (en_order x) = true) as Ho.
    { by apply placed_by_entry in Hin as (? & _ & _ & _ & _ & _ & ->). }
    destruct (en_order x) as [|code body]; [done|]. exists code, body. split; [done|]. cbn in Ho.
    apply orb_true_iff in Ho as [H|H]; apply Z.eqb_eq in H; auto.
Qed.
End rests.

(** ** The orchestrator *)

Section orchestrator_clients.
Context {F : Type} `{HF : PyFloat F}.
Context (environ : gmap string string) (float_of : string -> option F).
Local Open Scope py_scope.

(** The header is sent where there is a key. *)
Definition _internal_headers (internal_api_key : string) : option string :=
  let key := str_or internal_api_key (default "" (environ !! "INTERNAL_API_KEY")) in if str_true key then Some key else None.

(** The signals that wait with the action EXIT, as [_pending_signals] reads all of them. *)
Definition _pending_exit_signals (answer : Reply (list (SignalRow (F := F)))) : result string (list (SignalCandidate F)) :=
  match answer with
  | Down _ => Ok []
  | Operator.Replied status rows => if ((status <? 200) || (300 <=? status))%Z then Ok [] else validated rows
  end.

(** *** Notifications *)

Definition _notify (signal : SignalCandidate F) (r : RiskAssessment F) (reasons : list string) (now : datetime) : NotificationEvent F :=
  {| ne_tier := ra_tier r; ne_symbol := Some (sc_symbol signal); ne_action := candidate_action signal;
     ne_amount_usd := nround 2 (nofZ 100000 * nor (adjusted_size_pct r) (sc_size_pct signal));
     ne_reason := join "; " (match reasons with [] => [ra_reason r] | _ => reasons end);
     ne_signal_id := Some (sc_signal_id signal); ne_timestamp := now |}.

(** The body the smart notifications post, and what the service makes of a body: the tier, the
    action and the amount are required. *)
Definition _send_smart_notification (event_type message : string) (tier : Z) (ts : string) : list (string * json F) :=
  [("event_type", JStr event_type); ("message", JStr message); ("tier", JVal (PInt tier)); ("ts", JStr ts)].
Definition text_at (k : string) (body : list (string * json F)) : option string :=
  match dict_get k body with Some (JStr s) => Some s | _ => None end.
Definition parse_event (body : list (string * json F)) (now : datetime) : option (NotificationEvent F) :=
  tier ← (v ← dict_get "tier" body; json_int truncate v);
  action ← text_at "action" body;
  amount ← (v ← dict_get "amount_usd" body; json_float float_of v);
  Some {| ne_tier := tier; ne_symbol := text_at "symbol" body; ne_action := action; ne_amount_usd := amount;
          ne_reason := default "" (text_at "reason" body); ne_signal_id := text_at "signal_id" body; ne_timestamp := now |}.
(** [float(order.get(...))] of both figures, then the text. *)
Definition _notify_trade_executed (symbol : string) (order : list (string * json F)) : option (fstr F) :=
  entry ← float_at float_of "entry_price" nzero order; qty ← float_at float_of "qty" nzero order;
  Some [Lit "Trade: BUY "; Fmt "g" qty; Lit ("x " +:+ symbol +:+ " @ $"); Fmt ".2f" entry].

(** *** What a call leaves behind it, at a service that answers or not *)

Definition _audit (reachable : bool) (uuid : string) (e : AuditEvent F) (log : list (AuditEventRecord F)) : list (AuditEventRecord F) :=
  if reachable then snd (create_log environ (_internal_headers "") uuid e log) else log.
Definition _mark_signal_acted (reachable : bool) (signal_id : string) (d : SignalDB F) : SignalDB F :=
  if reachable then snd (mark_signal_acted signal_id d) else d.

(** *** Exits: the close request of a monitor, at the endpoint of the execution service *)

Definition close_request (uuid : string) (p : ClosePayload (F := F)) : ClosePositionRequest F :=
  {| cl_symbol := cp_symbol p; cl_position_id := cp_position_id p; cl_signal_id := uuid; cl_units := None; cl_qty := cp_qty p;
     cl_strategy_id := cp_strategy_id p; cl_account_id := cp_account_id p;
     cl_fields_set := ["signal_id"; "symbol"; "qty"; "position_id"; "strategy_id"; "account_id"] |}.
(** [raise_for_status]: every success confirms. *)
Definition _trigger_exit (a : Answer F) : bool := match a with Replied code _ => succeeded code | HttpError => false end.
Definition _trigger_close (a : Answer F) : bool := match a with Replied code _ => succeeded code | HttpError => false end.

(** *** Dependencies and the reconciliation *)

Definition health_deps (urls : list (string * string)) (answer : string -> Reply unit) : list (string * DependencyStatus) :=
  map (fun '(name, url) => (name, _check_dependency (answer url))) urls.

(** The last result, or a fresh one; and whether entries are blocked. *)
Definition reconciliation_status (refresh : bool) (views : Views F) (now : datetime) (r : Reconciler F)
    : ReconciliationResult F * bool * Reconciler F :=
  let '(res, r) := match refresh, last_result r with false, Some res => (res, r) | _, _ => check views now r end in
  (res, entries_blocked r, r).

(** *** The jobs *)

Record Job := { job_id : string; job_seconds : Z; job_first : option datetime }.
Definition job (id : string) (seconds : Z) : Job := {| job_id := id; job_seconds := seconds; job_first := None |}.
Definition learning_enabled : bool := String.eqb (lower (default "false" (environ !! "LEARNING_ENABLED"))) "true".
(** What is added, in order; [None] is a setting that does not parse. *)
Definition scheduled_jobs (interval_minutes : Z) (intraday : bool) (now : datetime) : option (list Job) :=
  cycle ← _cycle_interval_seconds environ interval_minutes;
  stops ← _risk_check_interval_seconds environ float_of "STOP_LOSS_CHECK_INTERVAL_MINUTES" intraday;
  reconciles ← env_int environ "RECONCILE_INTERVAL_SECONDS" 300;
  targets ← _risk_check_interval_seconds environ float_of "TAKE_PROFIT_CHECK_INTERVAL_MINUTES" intraday;
  sweeps ← env_int environ "HEALTH_SWEEP_INTERVAL_SECONDS" 900;
  learning ← (if learning_enabled then every ← env_int environ "LEARNING_INTERVAL_SECONDS" 86400; Some [every] else Some []);
  Some ([job "autonomy_orchestrator" cycle; job "stop_loss_check" stops; job "position_reconciliation" reconciles;
         job "take_profit_check" targets; job "lifecycle_health_sweep" sweeps] ++
        map (fun every => {| job_id := "paper_learning_cycle"; job_seconds := Z.max 3600 every;
                             job_first := Some (now + seconds 600)%Z |}) learning).
(** A scheduler that runs is kept; without a loop the new one is dropped. *)
Definition _start_scheduler (scheduler : option (list Job)) (loop_running : bool) (interval_minutes : Z) (intraday : bool) (now : datetime)
    : option (option (list Job)) :=
  match scheduler with
  | Some jobs => Some (Some jobs)
  | None => jobs ← scheduled_jobs interval_minutes intraday now; Some (if loop_running then Some jobs else None)
  end.

(** *** The health sweep *)

Inductive LastSweep := SweptNever | SweepFailed (error : string) | Swept (res : SweepResult) (at_ : datetime).
(** [demotion.split(":")[0]] *)
Definition demoted_symbol (demotion : string) : string := hd "" (split_on ":" demotion).
Definition demotion_event (demotion : string) (now : datetime) : AuditEvent F :=
  {| ae_event_id := None; ae_event_type := "lifecycle.demoted"; ae_symbol := Some (demoted_symbol demotion);
     ae_signal_id := Some "health-sweep"; ae_decision := Some "DEMOTE"; ae_reasoning := demotion;
     ae_metadata := [("source", JStr "health_sweep")]; ae_timestamp := now |}.
Definition _run_health_sweep {D} (text : StoreError -> string) (sweep : prog D StoreError SweepResult) (now : datetime) (d : D)
    : LastSweep * list (AuditEvent F) * D :=
  match sweep d with
  | (Err e, d) => (SweepFailed (text e), [], d)
  | (Ok res, d) => (Swept res now, map (fun x => demotion_event x now) (demoted res), d)
  end.

(** *** The start *)

(** The state of a new process, over the files the last one left; the month is the one it is. *)
Definition lifespan (stops : StateFile (StopLossRecord F)) (targets : StateFile (TakeProfitRecord F))
    (day_file : option (Sessions * Counts)) (today : Z) (breaks_before_halt : Z) (month : Z * Z) : OrchestratorState F :=
  {| running := false;
     risk := {| stop_loss_monitor := Some (Monitors.start stops); take_profit_monitor := Some (Monitors.start targets);
                day_trades := _load day_file today; monthly_realized_loss_usd := nzero;
                monthly_realized_profit_usd := nzero; notices := [] |};
     weekly_notional_used := nzero; trades_today := 0;
     reconciler := {| _breaks_before_halt := breaks_before_halt; _consecutive_breaks := 0; last_result := None |};
     monthly_reset := month |}.
End orchestrator_clients.

(** ** What holds of the start, the jobs and the messages *)

Section orchestrated.
Context {F : Type} `{HF : PyFloat F}.
Context (environ : gmap string string) (float_of : string -> option F).

(** Whatever the settings are, the jobs that start are the cycle, the two monitors, the
    reconciliation and the sweep, once each, and the learner after them where it is enabled;
    a cycle, a stop and a target wait ten seconds or more, and the learner an hour. *)
Lemma jobs_are_scheduled_once interval intraday now jobs :
  scheduled_jobs environ float_of interval intraday now = Some jobs ->
  NoDup (map job_id jobs) /\
  map job_id jobs = ["autonomy_orchestrator"; "stop_loss_check"; "position_reconciliation"; "take_profit_check"; "lifecycle_health_sweep"]
                    ++ (if learning_enabled environ then ["paper_learning_cycle"] else []) /\
  forall j, j ∈ jobs -> job_id j ∉ ["position_reconciliation"; "lifecycle_health_sweep"] -> 10 <= job_seconds j.
Proof.
  unfold scheduled_jobs. intros (c & Hc & (s & Hs & (r & _ & (t & Ht & (w & _ & (l & Hl & [= <-])%bind_Some)%bind_Some)%bind_Some)%bind_Some)%bind_Some)%bind_Some.
  assert (10 <= c) as Hc10.
  { revert Hc. unfold _cycle_interval_seconds. destruct (environ !! _) as [e|]; [destruct (str_true e)|]; [|intros [= <-]; lia..].
    by intros (x & -> & _)%fmap_Some || (intros (x & _ & ->)%fmap_Some; lia). }
  assert (forall name x, _risk_check_interval_seconds environ float_of name intraday = Some x -> 10 <= x) as Hr.
  { intros name x. unfold _risk_check_interval_seconds.
    destruct (environ !! name) as [e|]; [destruct (str_true e)|]; [|intros [= <-]; destruct intraday; lia..].
    intros (m & _ & Hm)%bind_Some. destruct (nfinite _); [|done]. injection Hm as <-. lia. }
  assert (l = if learning_enabled environ then l else []) as El by (destruct (learning_enabled environ); [done|by injection Hl as <-]).
  assert (map job_id (map (fun every => {| job_id := "paper_learning_cycle"; job_seconds := Z.max 3600 every; job_first := Some (now + seconds 600) |}) l)
          = if learning_enabled environ then ["paper_learning_cycle"] else []) as En.
  { destruct (learning_enabled environ); [|by rewrite El]. by apply bind_Some in Hl as (e & _ & [= <-]). }
  cbn [map app]. rewrite En. cbn [job_id job]. split_and!; [|done|].
  - by destruct (learning_enabled environ); apply (bool_decide_unpack _); vm_compute.
  - intros j Hj Hn. repeat (apply elem_of_cons in Hj as [->|Hj]; [try (by destruct Hn; set_solver); cbn; eauto|]).
    apply elem_of_map in Hj as (e & -> & _). cbn. lia.
Qed.

(** A smart notification is never taken: its body has no action and no amount. *)
Lemma smart_notifications_are_refused event_type message tier ts now :
  parse_event float_of (_send_smart_notification (F := F) event_type message tier ts) now = None.
Proof. unfold parse_event, _send_smart_notification. cbn. by destruct (Z.eqb_spec 0 tier). Qed.

(** The event of a demotion names the symbol of the sleeve, where a symbol has no colon. *)
Lemma split_before (s rest : string) : forall_chars (fun c => negb (Nat.eqb (nat_of_ascii c) 58)) s = true ->
  hd "" (split_on ":" (s +:+ String ":" rest)) = s.
Proof.
  induction s as [|c s IH]; [done|]. cbn [forall_chars]. intros [Hc Hs]%andb_true_iff. specialize (IH Hs).
  change (String c s +:+ String ":" rest) with (String c (s +:+ String ":" rest)). cbn [split_on].
  destruct (Ascii.eqb_spec c ":") as [->|]; [done|]. destruct (split_on ":" _) as [|x xs]; cbn [hd] in *; by rewrite IH || by rewrite <- IH.
Qed.
Lemma demotion_names_its_symbol (s : Sleeve) why now : forall_chars (fun c => negb (Nat.eqb (nat_of_ascii c) 58)) (symbol s) = true ->
  ae_symbol (demotion_event (F := F) (key s +:+ ": " +:+ why) now) = Some (symbol s).
Proof.
  intros Hs. unfold demotion_event, demoted_symbol, key. cbn [ae_symbol]. f_equal.
  rewrite !append_assoc. exact (split_before (symbol s) (strategy_id s +:+ ": " +:+ why) Hs).
Qed.

(** A new process has the protection of its files, and a month without losses. *)
Lemma restart_reopens_the_month stops targets file today breaks month limits :
  nleb (monthly_loss_limit_usd limits) nzero = false -> nleb (monthly_profit_target_usd limits) nzero = false ->
  let s := lifespan (F := F) stops targets file today breaks month in
  (tracked <$> stop_loss_monitor (risk s)) = Some (load_records stops) /\
  (tracked <$> take_profit_monitor (risk s)) = Some (load_records targets) /\
  fst (_monthly_limits_ok limits month s) = true.
Proof.
  intros Hl Hp. cbv zeta. split_and!; [done..|]. unfold _monthly_limits_ok, _check_monthly_reset. cbn [lifespan monthly_reset].
  rewrite !Z.eqb_refl. cbn [andb fst lifespan risk monthly_realized_loss_usd monthly_realized_profit_usd]. by rewrite Hl, Hp.
Qed.
End orchestrated.

(** ** Concrete answers *)

Module Wire.
Definition text_float (_ : string) : option spec_float := None.
Definition doc (kvs : list (string * json spec_float)) : Answer spec_float := Desk.Replied 200 (Some (JDict kvs)).
Definition flat : Answer spec_float := doc [("net_by_environment", JDict [("paper", JVal (PFloat nzero))])].
Definition power (x : Z) : Answer spec_float := doc [("buying_power", JVal (PInt x))].
Definition approve : Answer spec_float := doc [("decision", JStr "APPROVE"); ("approved_size_pct", JVal (PFloat (nlit 2 100)))].
Definition answers (exposure account policy : Answer spec_float) : EntryAnswers spec_float :=
  {| en_exposure := exposure; en_account := account; en_portfolio := HttpError; en_policy := policy; en_order := doc [];
     en_own := Rounds.entry [] |}.
Definition execute (x : EntryAnswers spec_float) : result exn unit * Run spec_float :=
  execute_on_answers text_float (Rounds.cfg false ["MSFT"]) (Rounds.signal "BUY") "MSFT" Rounds.tape DEFAULT_LIVE_STRATEGY x.
Definition quantities (x : EntryAnswers spec_float) : list Z := map snd (Rounds.orders (snd (execute x))).

(** A row of the portfolio, priced at 9 against a cost. *)
Definition no_dates (_ : string) : option datetime := None.
Definition position (cost : json spec_float) : list (string * json spec_float) :=
  [("symbol", JStr "msft"); ("net_qty", JVal (PInt 5)); ("average_cost", cost)].
Definition world : RowWorld spec_float :=
  {| rw_fetched := Some (take 3 Rounds.tape); rw_price := Some (nofZ 9); rw_now := days 51; rw_uuid := "u"; rw_write_ok := true |}.
Definition exit_ (cost : json spec_float) : option bool :=
  match exit_of_row Rounds.fpow text_float (fun _ => "") no_dates (Rounds.cfg false ["MSFT"]) (position cost) world with
  | Ok s => Some (match s with Some _ => true | None => false end)
  | Err _ => None
  end.
End Wire.

Lemma worker_trades_on_answers_witness :
  exists key rq, Placed key rq true ∈ events (snd (Wire.execute (Wire.answers Wire.flat (Wire.power 50000) Wire.approve))) /\
    rq_qty rq = 88 /\ in_direction [("paper", nzero (F := spec_float))] (upper (rq_side rq)) = false.
Proof.
  destruct (events (snd (Wire.execute (Wire.answers Wire.flat (Wire.power 50000) Wire.approve))) !! 1%nat) as [[|?|key rq [|]]|] eqn:E;
    try (vm_compute in E; discriminate E).
  exists key, rq. apply list_elem_of_lookup_2 in E as Hin. split; [exact Hin|].
  split; [vm_compute in E; by injection E as _ <-|].
  destruct (worker_trades_on_answers Wire.text_float (Rounds.cfg false ["MSFT"]) (Rounds.signal "BUY") "MSFT" Rounds.tape
    DEFAULT_LIVE_STRATEGY _ key rq true Hin) as ((d & held & Hd & (nets & Hn & Hf) & Hi) & _ & _).
  injection Hd as <-. injection Hn as <-. apply Forall2_cons_inv_l in Hf as ([env net] & rest & (He & Hx) & Hrest & ->).
  apply Forall2_nil_inv_l in Hrest as ->. cbn in He, Hx. subst env. injection Hx as <-. exact Hi.
Defined.

(** An account that cannot be read has a hundred thousand to spend: the order is twice the one
    of the account there is. The policy service or the position being out of reach is no order. *)
Example unread_account_doubles_the_order :
  Wire.quantities (Wire.answers Wire.flat (Wire.power 50000) Wire.approve) = [88] /\
  Wire.quantities (Wire.answers Wire.flat HttpError Wire.approve) = [176] /\
  Wire.quantities (Wire.answers HttpError (Wire.power 50000) Wire.approve) = [] /\
  Wire.quantities (Wire.answers Wire.flat (Wire.power 50000) HttpError) = [].
Proof. vm_compute. repeat split. Qed.

(** A portfolio that cannot be read is a flat one without a loss. *)
Example unread_portfolio_is_flat :
  _get_portfolio_context Wire.text_float HttpError = flat_context /\
  _get_portfolio_context Wire.text_float (Desk.Replied 500 None) = flat_context.
Proof. split; reflexivity. Qed.

(** A row whose cost is null ends the exit pass, for the positions after it too; at a cost of
    ten it is a stop. *)
Example cost_of_nothing_ends_the_pass :
  Wire.exit_ (JVal (PFloat (nofZ 10))) = Some true /\ Wire.exit_ (JVal PNone) = None.
Proof. vm_compute. split; reflexivity. Qed.

(** The interval of the reconciliation has no floor. *)
Example reconciliation_has_no_floor :
  (fun jobs => map job_seconds (List.filter (fun j => String.eqb (job_id j) "position_reconciliation") jobs)) <$>
    scheduled_jobs (F := spec_float) {[ "RECONCILE_INTERVAL_SECONDS" := "0" ]} Wire.text_float 5 true 0 = Some [0].
Proof. vm_compute. reflexivity. Qed.

(** ** A close that was only submitted *)

(** What the endpoint of the execution service answers a close with. *)
Definition close_answer {F} (r : result Execution.Failure (bool * string)) : Answer F :=
  match r with
  | Ok (confirmed, environment) =>
      Desk.Replied 200 (Some (JDict [("status", JStr (if (confirmed : bool) then "closed" else "close_submitted"));
                                     ("environment", JStr environment)]))
  | Err (Execution.Http e) => Desk.Replied (status_code e) None
  | Err (Execution.Crash _) => Desk.Replied 500 None
  end.

Module Exits.
(** A live Alpaca account: a close is taken, and its order has no fill yet. *)
Record Client := { closes : list string }.
#[global] Instance client : AlpacaClient Q Client := {
  submit_order q c := (Err "down", c);
  get_order_by_id _ c := (Err "down", c);
  cancel_order_by_id _ c := (Ok tt, c);
  client_account c := (Err "down", c);
  get_all_positions c := (Err "down", c);
  client_close symbol units c :=
    (Ok {| co_id := Some "c1"; co_qty := JVal (PInt 8); co_side := "sell"; co_filled_avg_price := JVal PNone |},
     {| closes := closes c ++ [symbol] |});
  client_monotonic c := (0, c);
  client_sleep d c := c
}.
Definition no_text (_ : string) : option Q := None.
#[global] Instance venue : Venue Q (AlpacaBroker Client) := alpaca_venue no_text.
Definition shop : Exec Q (PaperBroker Q) (AlpacaBroker Client) :=
  {| ex_router := build_router true true; ex_simulated := init 1000 1000000%Q 0%Q None;
     ex_real := {| al_paper := false; al_client := {| closes := [] |} |};
     ex_journal := JournalTheorems.Demo.empty; ex_db := {| db_orders := []; db_fills := []; db_events := [] |} |}.
(** A stop of the live sleeve at 90, and a price of 80. *)
Definition stop : StopLossRecord Q :=
  {| ss_symbol := "AAPL"; ss_entry_price := 100%Q; stop_price := 90%Q; ss_position_id := "p1"; ss_qty := 8%Q; ss_side := "BUY";
     ss_strategy_id := "ema"; ss_account_id := "default"; ss_created_at := 0 |}.
Definition guarded : Monitor (StopLossRecord Q) := register (F := Q) stop true (Monitors.start Missing).
Definition closed := close_order Router.Desk.world (Alpaca.tick 1) (close_request "u" (close_payload (F := Q) stop)) shop.
Definition turn : Turn Q (StopLossRecord Q) :=
  {| quote := At 80%Q; exit_confirmed := _trigger_exit (F := Q) (close_answer (fst closed)); meanwhile := []; write_ok := true |}.
End Exits.

(** The broker has taken the close and filled nothing; the endpoint says [close_submitted] with
    a 200, which the monitor takes for an exit: the stop is dropped, and the position is open. *)
Example submitted_close_drops_the_stop :
  fst Exits.closed = Ok (false, "live") /\ Exits.closes (al_client (ex_real (snd Exits.closed))) = ["AAPL"] /\
  executions (ex_journal (snd Exits.closed)) = [] /\
  length (tracked Exits.guarded) = 1%nat /\ tracked (snd (check_all [Exits.turn] Exits.guarded)) = [].
Proof. vm_compute. repeat split. Qed.
