(* ===== verification/Migrations.v ===== *)
(** * The migrations of the databases

    Models [tools/migrate.py], which applies the numbered SQL files to the lifecycle
    database, and [_migrate_additive_schema] of [libs/journal/src/journal/store.py], which
    adds the columns of later releases to a journal of an earlier one. What a script does to
    the objects of the database is a parameter, as is the digest of a file; a transaction is
    [txn], and what fails in it is an exception. *)

From S2P Require Import Policy Prelude.
From Stdlib Require Import Ascii.
Local Open Scope Z_scope.

(** ** discover *)

Record Migration := { mg_version : string; mg_name : string; mg_up : string; mg_down : option string }.

(** The text without a suffix, and the leading digits of a text with what follows them. *)
Definition without_suffix (suffix s : string) : option string :=
  let n := (String.length s - String.length suffix)%nat in
  if String.eqb (String.substring n (String.length suffix) s) suffix && (String.length suffix <=? String.length s)%nat
  then Some (String.substring 0 n s) else None.
Fixpoint leading_digits (s : string) : string * string :=
  match s with
  | EmptyString => ("", "")
  | String a s' => match digit_of a with
                   | Some _ => let '(d, rest) := leading_digits s' in (String a d, rest)
                   | None => ("", s)
                   end
  end.
(** [VERSION_PATTERN]: digits, an underscore, a name, and the direction. *)
Definition parse_name (file : string) : option (string * string * bool) :=
  '(stem, is_up) ← match without_suffix ".up.sql" file with
                   | Some stem => Some (stem, true)
                   | None => (fun stem => (stem, false)) <$> without_suffix ".down.sql" file
                   end;
  let '(version, rest) := leading_digits stem in
  match rest with
  | String a name => if str_true version && Ascii.eqb a "_" && str_true name then Some (version, name, is_up) else None
  | EmptyString => None
  end.

(** The files of the directory by name, with what they hold. *)
Definition by_name {A} (a b : string * A) : bool := String.leb (fst a) (fst b).
Definition file_found (acc : list (string * (string * string)) * list (string * string)) (file : string * string)
    : list (string * (string * string)) * list (string * string) :=
  let '(ups, downs) := acc in
  match parse_name (fst file) with
  | None => (ups, downs)
  | Some (version, name, true) => (dict_set version (name, snd file) ups, downs)
  | Some (version, _, false) => (ups, dict_set version (snd file) downs)
  end.
Definition discover (directory : list (string * string)) : list Migration :=
  let '(ups, downs) := foldl file_found ([], []) (sort_by by_name directory) in
  map (fun '(v, (name, script)) => {| mg_version := v; mg_name := name; mg_up := script; mg_down := dict_get v downs |})
      (sort_by by_name ups).

(** ** The database *)

(** The bookkeeping table, once a script has made it, and everything else. *)
Record Database (O : Type) := { recorded : option (list (string * string)); objects : O }.
Arguments recorded {O}. Arguments objects {O}.

Inductive MigrationError :=
| Changed (version stored on_disk : string)
| NoDownScript (version : string)
| Database_error (message : string).

Section migrate.
Context {O : Type} (sha256 : string -> string) (exec : string -> Database O -> result string (Database O)).
Abbreviation DB := (Database O).
Implicit Types (d : DB) (m : Migration).

Definition checksum m : string := String.substring 0 16 (sha256 (mg_up m)).
(** Nothing is applied where there is no table. *)
Definition applied_versions d : list (string * string) := default [] (recorded d).

Definition _execute_script (sql : string) : prog DB MigrationError unit :=
  fun d => match exec sql d with Ok d => (Ok tt, d) | Err e => (Err (Database_error e), d) end.
Definition rows_of (f : list (string * string) -> list (string * string)) : prog DB MigrationError unit :=
  fun d => match recorded d with
           | Some rows => (Ok tt, {| recorded := Some (f rows); objects := objects d |})
           | None => (Err (Database_error "relation lifecycle.schema_migrations does not exist"), d)
           end.
(** [ON CONFLICT DO NOTHING] *)
Definition record_version (v c : string) : prog DB MigrationError unit :=
  rows_of (fun rows => if dict_in v rows then rows else rows ++ [(v, c)]).
Definition forget_version (v : string) : prog DB MigrationError unit := rows_of (dict_pop v).

Definition apply_one m : prog DB MigrationError unit :=
  txn (_ ← _execute_script (mg_up m); record_version (mg_version m) (checksum m)).
(** What was applied is read once, before the first. *)
Fixpoint up_loop (already : list (string * string)) (migrations : list Migration) (applied : list string)
    : prog DB MigrationError (list string) :=
  match migrations with
  | [] => mret applied
  | m :: migrations =>
      match dict_get (mg_version m) already with
      | Some stored =>
          if str_true stored && negb (String.eqb stored (checksum m)) then raise (Changed (mg_version m) stored (checksum m))
          else up_loop already migrations applied
      | None => _ ← apply_one m; up_loop already migrations (applied ++ [mg_version m])
      end
  end.
Definition up (migrations : list Migration) : prog DB MigrationError (list string) :=
  fun d => up_loop (applied_versions d) migrations [] d.

(** The record goes first: the script may drop the table it is in. *)
Definition revert_one (v script : string) : prog DB MigrationError unit :=
  txn (_ ← forget_version v; _execute_script script).
Definition find_version (migrations : list Migration) (v : string) : option Migration :=
  List.find (fun m => String.eqb (mg_version m) v) migrations.
Fixpoint down_loop (migrations : list Migration) (versions reverted : list string) : prog DB MigrationError (list string) :=
  match versions with
  | [] => mret reverted
  | v :: versions =>
      match find_version migrations v ≫= mg_down with
      | None => raise (NoDownScript v)
      | Some script => _ ← revert_one v script; down_loop migrations versions (reverted ++ [v])
      end
  end.
Definition newest_first d : list string := sort_by (fun a b => String.leb b a) (map fst (applied_versions d)).
Definition down (migrations : list Migration) (steps : Z) : prog DB MigrationError (list string) :=
  fun d => down_loop migrations (slice_to steps (newest_first d)) [] d.

Definition status (migrations : list Migration) d : list (string * string * bool) :=
  map (fun m => (mg_version m, mg_name m, dict_in (mg_version m) (applied_versions d))) migrations.
End migrate.

(** The URL of the command line, or that of the environment; [None] ends the program. *)
Definition _url (explicit : option string) (environ : gmap string string) : option string :=
  let url := match explicit with
             | Some u => if str_true u then u else default "" (environ !! "LIFECYCLE_DATABASE_URL")
             | None => default "" (environ !! "LIFECYCLE_DATABASE_URL")
             end in
  if str_true url then Some url else None.

(** ** What is discovered has each version once, in the order of the text *)

Lemma file_found_nodup acc file : NoDup (dict_keys (fst acc)) -> NoDup (dict_keys (fst (file_found acc file))).
Proof.
  destruct acc as [ups downs]. unfold file_found. destruct (parse_name _) as [[[v name] []]|]; cbn [fst]; auto using dict_nodup_set.
Qed.
Lemma discovered_versions dir : NoDup (map mg_version (discover dir)).
Proof.
  unfold discover. set (files := sort_by by_name dir).
  assert (forall acc, NoDup (dict_keys (fst acc)) -> NoDup (dict_keys (fst (foldl file_found acc files)))) as Hf.
  { induction files as [|file files IH]; intros acc Ha; [done|]. cbn [foldl]. by apply IH, file_found_nodup. }
  specialize (Hf ([], []) (NoDup_nil_2)). destruct (foldl file_found ([], []) files) as [ups downs]. cbn [fst] in Hf.
  rewrite map_map. erewrite (List.map_ext _ fst); [|by intros [v [name script]]].
  unfold dict_keys in Hf. by rewrite sort_by_perm.
Qed.

(** ** An interrupted migration resumes *)

Section resumes.
Context {O : Type} (sha256 : string -> string).
Abbreviation DB := (Database O).
Implicit Types (d : DB) (m : Migration) (ms : list Migration) (exec : string -> DB -> result string DB).

(** The script of a migration leaves the rows of the bookkeeping table alone; the one that makes
    the table makes it empty. *)
Definition keeps_rows exec m : Prop := forall d d', exec (mg_up m) d = Ok d' -> applied_versions d' = applied_versions d.
(** What succeeded before succeeds again, in the same way. *)
Definition extends exec exec' : Prop := forall sql d d', exec sql d = Ok d' -> exec' sql d = Ok d'.

Lemma dict_get_snoc {V} k (l : list (string * V)) v c :
  dict_get k (l ++ [(v, c)]) = match dict_get k l with Some x => Some x | None => if String.eqb k v then Some c else None end.
Proof. induction l as [|[k' x] l IH]; [done|]. cbn. by destruct (String.eqb k k'). Qed.

Lemma apply_one_inv exec m d r d' : keeps_rows exec m -> apply_one sha256 exec m d = (r, d') ->
  match r with
  | Ok _ => applied_versions d' = (if dict_in (mg_version m) (applied_versions d) then applied_versions d
                                   else applied_versions d ++ [(mg_version m, checksum sha256 m)])
  | Err _ => d' = d
  end.
Proof.
  intros Hk. unfold apply_one, txn, mbind, prog_bind, _execute_script, record_version, rows_of.
  destruct (exec (mg_up m) d) as [d1|] eqn:E; [|by intros [= <- <-]]. apply Hk in E as Hr. rewrite <- Hr.
  destruct (recorded d1) as [rows|] eqn:E1; intros [= <- <-]; [|done].
  unfold applied_versions. cbn [recorded]. by rewrite E1.
Qed.
Lemma apply_one_extends exec exec' m d d' : extends exec exec' ->
  apply_one sha256 exec m d = (Ok tt, d') -> apply_one sha256 exec' m d = (Ok tt, d').
Proof.
  intros He. unfold apply_one. rewrite !txn_ok, !bind_ok. intros ([] & d1 & H1 & H2). exists tt, d1. split; [|done].
  revert H1. unfold _execute_script. destruct (exec _ _) as [x|] eqn:E; intros [= <-]. by rewrite (He _ _ _ E).
Qed.

Lemma all_cons (P : Migration -> Prop) m ms : (forall m', m' ∈ m :: ms -> P m') -> P m /\ forall m', m' ∈ ms -> P m'.
Proof. intros H. split; [apply H; left|]. intros m' Hm. apply H. by right. Qed.

(** The versions a run starts from only matter at the migrations that are left. *)
Lemma up_loop_ext exec already already' ms applied d :
  (forall m, m ∈ ms -> dict_get (mg_version m) already = dict_get (mg_version m) already') ->
  up_loop sha256 exec already ms applied d = up_loop sha256 exec already' ms applied d.
Proof.
  revert applied d. induction ms as [|m ms IH]; intros applied d Ha; [done|]. cbn [up_loop].
  rewrite <- (Ha m) by left. destruct (dict_get _ already) as [stored|].
  - destruct (_ && _); [done|]. apply IH. intros m' Hm. apply Ha. by right.
  - unfold mbind, prog_bind. destruct (apply_one _ _ _ _) as [[]]; [|done]. apply IH. intros m' Hm. apply Ha. by right.
Qed.
Lemma up_loop_acc exec already ms applied d :
  up_loop sha256 exec already ms applied d =
  let '(r, d') := up_loop sha256 exec already ms [] d in ((fun l => applied ++ l) <$> r, d').
Proof.
  revert applied d. induction ms as [|m ms IH]; intros applied d; [cbn; by rewrite app_nil_r|]. cbn [up_loop].
  destruct (dict_get _ _) as [stored|]; [destruct (_ && _); [done|apply IH]|].
  unfold mbind, prog_bind. destruct (apply_one _ _ _ _) as [[]]; [|done].
  rewrite IH, (IH ([] ++ _)). destruct (up_loop _ _ _ _ _ _) as [[l|]]; [|done]. cbn. by rewrite <- app_assoc.
Qed.
Lemma up_loop_keeps exec already ms applied d r d' v c : (forall m, m ∈ ms -> keeps_rows exec m) ->
  up_loop sha256 exec already ms applied d = (r, d') ->
  dict_get v (applied_versions d) = Some c -> dict_get v (applied_versions d') = Some c.
Proof.
  intros Hk. revert applied d. induction ms as [|m ms IH]; intros applied d; cbn [up_loop]; [by intros [= _ <-]|].
  apply all_cons in Hk as [Hm Hk]. specialize (IH Hk).
  destruct (dict_get _ already) as [stored|]; [destruct (_ && _); [by intros [= _ <-]|apply IH]|].
  unfold mbind, prog_bind. destruct (apply_one _ _ _ _) as [[u|e] d1] eqn:E; apply (apply_one_inv _ _ _ _ _ Hm) in E; cbn in E.
  - intros Hu Hv. apply (IH _ _ Hu). rewrite E. destruct (dict_in _ _); [done|]. by rewrite dict_get_snoc, Hv.
  - subst d1. by intros [= _ <-].
Qed.

Lemma resume_loop exec exec' ms already applied d r d' vs d2 : (forall m, m ∈ ms -> keeps_rows exec m) -> extends exec exec' -> NoDup (map mg_version ms) ->
  (forall m, m ∈ ms -> dict_get (mg_version m) already = dict_get (mg_version m) (applied_versions d)) ->
  up_loop sha256 exec already ms applied d = (r, d') -> up_loop sha256 exec' already ms [] d = (Ok vs, d2) ->
  exists first second, vs = first ++ second /\ up_loop sha256 exec' (applied_versions d') ms [] d' = (Ok second, d2) /\
    (is_ok r = true -> second = []).
Proof.
  intros Hk He. revert already applied d vs. induction ms as [|m ms IH]; intros already applied d vs Hn Ha.
  { cbn. intros [= <- <-] [= <- <-]. by exists [], []. }
  apply all_cons in Hk as [Hkm Hk]. specialize (IH Hk).
  cbn [map] in Hn. apply NoDup_cons in Hn as [Hm Hn]. cbn [up_loop].
  assert (forall m', m' ∈ ms -> mg_version m' <> mg_version m) as Hne.
  { intros m' Hin E. apply Hm. rewrite <- E. apply list_elem_of_fmap. eauto. }
  pose proof (Ha m ltac:(by left)) as Hv. destruct (dict_get (mg_version m) already) as [stored|] eqn:Es.
  - destruct (str_true stored && negb (String.eqb stored (checksum sha256 m))) eqn:Ec; [done|]. intros Hr Hr'.
    destruct (IH _ _ _ _ Hn ltac:(intros; apply Ha; by right) Hr Hr') as (first & second & -> & Hs & Hok).
    exists first, second. split; [done|]. split; [|done].
    rewrite (up_loop_keeps _ _ _ _ _ _ _ _ _ Hk Hr (eq_sym Hv)). by rewrite Ec.
  - unfold mbind, prog_bind. destruct (apply_one sha256 exec m d) as [[[]|e] d1] eqn:E.
    + rewrite (apply_one_extends _ _ _ _ _ He E). intros Hr Hr'. rewrite up_loop_acc in Hr'.
      destruct (up_loop sha256 exec' already ms [] d1) as [[vs'|] d2'] eqn:Er'; [|done]. injection Hr' as <- <-.
      apply (apply_one_inv _ _ _ _ _ Hkm) in E. cbn in E. unfold dict_in in E. rewrite <- Hv in E. cbn in E.
      destruct (IH already (applied ++ [mg_version m]) d1 vs' Hn) as (first & second & -> & Hs & Hok); [|exact Hr|exact Er'|].
      { intros m' Hin. rewrite E, dict_get_snoc, <- (Ha m') by (by right).
        destruct (String.eqb_spec (mg_version m') (mg_version m)) as [Eq|]; [exfalso; exact (Hne m' Hin Eq)|]. by case_match. }
      exists (mg_version m :: first), second. split; [done|]. split; [|done].
      rewrite (up_loop_keeps _ _ _ _ _ _ _ (mg_version m) (checksum sha256 m) Hk Hr).
      * by rewrite String.eqb_refl, andb_false_r.
      * by rewrite E, dict_get_snoc, <- Hv, String.eqb_refl.
    + apply (apply_one_inv _ _ _ _ _ Hkm) in E as E'. cbn in E'. subst d1. intros [= <- <-] Hr'.
      exists [], vs. split; [done|]. split; [|done]. rewrite <- Hv.
      unfold mbind, prog_bind. destruct (apply_one sha256 exec' m d) as [[u|] d1]; [|done].
      by rewrite <- (up_loop_ext _ already) by (intros; apply Ha; by right).
Qed.

(** What a complete run leaves applied. *)
Lemma up_loop_applies exec already ms applied d vs d' : (forall m, m ∈ ms -> keeps_rows exec m) ->
  (forall m, m ∈ ms -> dict_get (mg_version m) already = None \/
     exists c, dict_get (mg_version m) already = Some c /\ dict_get (mg_version m) (applied_versions d) = Some c) ->
  up_loop sha256 exec already ms applied d = (Ok vs, d') ->
  forall m, m ∈ ms -> dict_in (mg_version m) (applied_versions d') = true.
Proof.
  intros Hk. revert applied d. induction ms as [|m ms IH]; intros applied d Ha Hr m' Hm; [by apply not_elem_of_nil in Hm|].
  apply all_cons in Hk as [Hkm Hk]. specialize (IH Hk).
  cbn [up_loop] in Hr. destruct (Ha m ltac:(by left)) as [E|(c & E & Ed)]; rewrite E in Hr.
  - unfold mbind, prog_bind in Hr. destruct (apply_one _ _ _ _) as [[u|] d1] eqn:Eo; [|done].
    apply (apply_one_inv _ _ _ _ _ Hkm) in Eo. cbn in Eo.
    assert (exists c, dict_get (mg_version m) (applied_versions d1) = Some c) as [c Hc].
    { rewrite Eo. unfold dict_in. destruct (dict_get (mg_version m) (applied_versions d)) as [x|] eqn:Ex; [by exists x|].
      rewrite dict_get_snoc, Ex, String.eqb_refl. eauto. }
    apply elem_of_cons in Hm as [->|Hm]; [unfold dict_in; by rewrite (up_loop_keeps _ _ _ _ _ _ _ _ _ Hk Hr Hc)|].
    eapply (IH _ d1); [|exact Hr|exact Hm]. intros m1 H1. destruct (Ha m1 ltac:(by right)) as [?|(c1 & ? & Hd)]; [by left|right].
    exists c1. split; [done|]. rewrite Eo. destruct (dict_in _ _); [done|]. by rewrite dict_get_snoc, Hd.
  - destruct (_ && _); [done|]. apply elem_of_cons in Hm as [->|Hm].
    + unfold dict_in. by rewrite (up_loop_keeps _ _ _ _ _ _ _ _ _ Hk Hr Ed).
    + eapply IH; [|exact Hr|exact Hm]. intros. apply Ha. by right.
Qed.

End resumes.

(** ** The columns of a journal of an earlier release *)

(** A cell as text, [None] being NULL; a row has a cell for each column. *)
Definition Row : Type := list (string * option string).
Record Table := { columns : list string; rows : list Row }.
Definition Tables : Type := list (string * Table).

(** The columns of later releases, with what a row of before has in them. *)
Definition additions : list (string * list (string * option string)) :=
  [("execution_quality",
    [("strategy_id", Some ""); ("strategy_version", Some ""); ("environment", Some "paper"); ("account_id", Some "default");
     ("portfolio_id", Some "default"); ("broker", Some ""); ("decision_id", Some ""); ("order_intent_id", Some "");
     ("requested_at", None); ("submitted_at", None); ("filled_at", None); ("fees", Some "0"); ("spread_bps", None);
     ("filled_qty", Some "0"); ("cancelled", Some "0"); ("rejected", Some "0")]);
   ("bar_observations",
    [("observed_at", None); ("payload_hash", Some ""); ("revision", Some "0"); ("provider_meta", Some "{}")])].

Definition add_column (existing : list string) (t : Table) (c : string * option string) : Table :=
  if str_in (fst c) existing then t
  else {| columns := columns t ++ [fst c]; rows := map (fun r => r ++ [c]) (rows t) |}.
(** [UPDATE ... SET observed_at = recorded_at WHERE observed_at IS NULL] *)
Definition observe (r : Row) : Row :=
  match dict_get "observed_at" r with
  | Some None => dict_set "observed_at" (default None (dict_get "recorded_at" r)) r
  | _ => r
  end.
Definition extend_table (name : string) (t : Table) : Table :=
  match dict_get name additions with
  | None => t
  | Some added =>
      let t := foldl (add_column (columns t)) t added in
      if String.eqb name "bar_observations" then {| columns := columns t; rows := map observe (rows t) |} else t
  end.
(** One transaction over the tables that are there. *)
Definition _migrate_additive_schema (d : Tables) : Tables := map (fun '(name, t) => (name, extend_table name t)) d.

(** A row has its columns, each once. *)
Definition table_ok (t : Table) : Prop := NoDup (columns t) /\ Forall (fun r => dict_keys r = columns t) (rows t).
(** What a row keeps: every cell, but for a bar that was observed at no moment. *)
Definition kept (r r' : Row) : Prop :=
  forall c v, dict_get c r = Some v -> dict_get c r' = Some v \/ (c = "observed_at" /\ v = None).

Section additive.
Implicit Types (t : Table) (r : Row).

Lemma kept_app r l : kept r (r ++ l).
Proof.
  intros c v H. left. induction r as [|[c' v'] r IH]; [done|]. cbn in *. destruct (String.eqb c c'); auto.
Qed.
Lemma kept_trans r1 r2 r3 : kept r1 r2 -> kept r2 r3 -> kept r1 r3.
Proof. intros H1 H2 c v H. destruct (H1 c v H) as [E|]; [|by right]. by destruct (H2 c v E); [left|right]. Qed.
Lemma kept_observe r : kept r (observe r).
Proof.
  intros c v H. unfold observe. destruct (dict_get "observed_at" r) as [[]|] eqn:E; [by left| |by left].
  rewrite dict_get_set. destruct (String.eqb_spec "observed_at" c) as [<-|]; [|by left]. right. rewrite E in H. by injection H.
Qed.

(** The columns of a list that are not there yet, added to a table and to its rows. *)
Definition missing (existing : list string) (added : list (string * option string)) : list (string * option string) :=
  List.filter (fun c => negb (str_in (fst c) existing)) added.
Lemma add_columns existing t added :
  foldl (add_column existing) t added =
  {| columns := columns t ++ map fst (missing existing added); rows := map (fun r => r ++ missing existing added) (rows t) |}.
Proof.
  revert t. induction added as [|c added IH]; intros t.
  - destruct t as [cols rs]. cbn. rewrite app_nil_r. f_equal. induction rs as [|r rs IHr]; [done|]. cbn. by rewrite app_nil_r, <- IHr.
  - cbn [foldl missing List.filter]. rewrite IH. unfold add_column. fold (missing existing added).
    destruct (str_in _ _); [done|]. cbn. rewrite map_map, <- app_assoc. f_equal. apply List.map_ext. intros r. by rewrite <- app_assoc.
Qed.
Lemma dict_keys_app r l : dict_keys (r ++ l) = dict_keys r ++ map fst l.
Proof. unfold dict_keys. by rewrite map_app. Qed.
Lemma observe_keys r : dict_keys (observe r) = dict_keys r.
Proof.
  unfold observe. destruct (dict_get "observed_at" r) as [[]|] eqn:E; [done| |done]. rewrite dict_keys_set. unfold dict_in. by rewrite E.
Qed.
Lemma observe_observe r : observe (observe r) = observe r.
Proof.
  unfold observe at 2 3. destruct (dict_get "observed_at" r) as [[x|]|] eqn:E; [unfold observe; by rewrite E| |unfold observe; by rewrite E].
  unfold observe. rewrite !dict_get_set, String.eqb_refl. destruct (default None (dict_get "recorded_at" r)) as [x|] eqn:Er; [done|].
  change (String.eqb "observed_at" "recorded_at") with false. cbv iota. rewrite Er. apply dict_set_set.
Qed.
Lemma missing_none existing added : missing (existing ++ map fst (missing existing added)) added = [].
Proof.
  unfold missing at 1. set (more := missing existing added). assert (forall c, c ∈ added -> fst c ∈ existing ++ map fst more) as Hin.
  { intros c Hc. apply elem_of_app. destruct (str_in (fst c) existing) eqn:E; [left; by apply str_in_spec|right].
    apply elem_of_map. exists c. split; [done|]. apply elem_of_filter_b. by rewrite E. }
  revert Hin. generalize (existing ++ map fst more). intros l Hin. clear more. induction added as [|c added IH]; [done|].
  cbn [List.filter]. assert (fst c ∈ l) as Hc%str_in_spec by (apply Hin; left). rewrite Hc. cbn [negb].
  apply IH. intros c' Hc'. apply Hin. by right.
Qed.
Lemma additions_distinct name added : dict_get name additions = Some added -> NoDup (map fst added).
Proof.
  unfold additions. cbn [dict_get]. repeat (destruct (String.eqb _ _); [intros [= <-]; by apply (bool_decide_unpack _); vm_compute|]). done.
Qed.
Lemma missing_ok existing added : NoDup existing -> NoDup (map fst added) -> NoDup (existing ++ map fst (missing existing added)).
Proof.
  intros He Ha. apply NoDup_app. split; [done|]. split.
  - intros c Hc (x & -> & [_ Hx]%elem_of_filter_b)%elem_of_map. apply str_in_spec in Hc. by rewrite Hc in Hx.
  - by apply NoDup_map_filter.
Qed.

Lemma forall2_map_kept (f : Row -> Row) rs : (forall r, kept r (f r)) -> Forall2 kept rs (map f rs).
Proof. intros Hf. induction rs as [|r rs IH]; constructor; auto. Qed.
(** Columns that are all there are not added. *)
Lemma nothing_added existing added t : columns t = existing ++ map fst (missing existing added) ->
  foldl (add_column (columns t)) t added = t.
Proof.
  intros E. rewrite add_columns, E, missing_none. destruct t as [cols rs]. cbn in *. rewrite app_nil_r, <- E. f_equal.
  rewrite <- (List.map_id rs) at 2. apply List.map_ext. intros r. apply app_nil_r.
Qed.
Lemma added_ok t added : table_ok t -> NoDup (map fst added) ->
  let t' := foldl (add_column (columns t)) t added in table_ok t' /\ Forall2 kept (rows t) (rows t').
Proof.
  intros [Hn Hr] Hd. cbv zeta. rewrite add_columns. split; [split|].
  - by apply missing_ok.
  - apply Forall_forall. intros r' (r & -> & Hin)%elem_of_map. rewrite dict_keys_app. cbn [columns]. f_equal.
    by apply (proj1 (Forall_forall _ _) Hr).
  - apply forall2_map_kept. intros r. apply kept_app.
Qed.
Lemma observed_ok t : table_ok t ->
  let t' := {| columns := columns t; rows := map observe (rows t) |} in table_ok t' /\ Forall2 kept (rows t) (rows t').
Proof.
  intros [Hn Hr]. split; [split; [done|]|apply forall2_map_kept, kept_observe].
  apply Forall_forall. intros r' (r & -> & Hin)%elem_of_map. rewrite observe_keys. by apply (proj1 (Forall_forall _ _) Hr).
Qed.

(** The additive schema is additive: the columns of before stay where they are, every added one
    is there, once, no row is lost and no cell of one, but for the moment of a bar that had
    none; and starting again changes nothing. *)
Lemma additive_schema_is_additive name t : table_ok t ->
  let t' := extend_table name t in
  table_ok t' /\ (exists more, columns t' = columns t ++ more) /\ Forall2 kept (rows t) (rows t') /\
  (forall added c, dict_get name additions = Some added -> c ∈ map fst added -> c ∈ columns t') /\
  extend_table name t' = t'.
Proof.
  intros Ht. cbv zeta. unfold extend_table. destruct (dict_get name additions) as [added|] eqn:Ea.
  2: { split; [done|]. split; [exists []; by rewrite app_nil_r|]. split; [|done].
       rewrite <- (List.map_id (rows t)) at 2. apply forall2_map_kept. by left. }
  set (t1 := foldl (add_column (columns t)) t added).
  destruct (added_ok t added Ht (additions_distinct _ _ Ea)) as [H1 H2]. fold t1 in H1, H2.
  assert (columns t1 = columns t ++ map fst (missing (columns t) added)) as Hc by (unfold t1; by rewrite add_columns).
  assert (forall added0 c, Some added = Some added0 -> c ∈ map fst added0 -> c ∈ columns t1) as Hall.
  { intros ? c [= <-] (x & -> & Hx)%elem_of_map. rewrite Hc. apply elem_of_app.
    destruct (str_in (fst x) (columns t)) eqn:E; [left; by apply str_in_spec|].
    right. apply elem_of_map. exists x. split; [done|]. apply elem_of_filter_b. by rewrite E. }
  destruct (String.eqb name "bar_observations").
  - destruct (observed_ok t1 H1) as [H3 H4]. split; [done|]. split; [by eexists|]. split.
    { clear -H2 H4. cbn [rows] in H4. revert H2 H4. generalize (rows t), (rows t1), (map observe (rows t1)).
      intros l1 l2 l3 H. revert l3. induction H as [|r1 r2 l1 l2 Hk _ IH]; intros l3 H3; inversion H3; subst; constructor;
        [by eapply kept_trans|by apply IH]. }
    split; [done|]. cbn [columns].
    assert (foldl (add_column (columns t1)) {| columns := columns t1; rows := map observe (rows t1) |} added =
            {| columns := columns t1; rows := map observe (rows t1) |}) as ->
      by exact (nothing_added (columns t) added {| columns := columns t1; rows := map observe (rows t1) |} Hc).
    cbn [columns rows]. f_equal. rewrite map_map. apply List.map_ext. intros r. apply observe_observe.
  - split; [done|]. split; [by eexists|]. split; [done|]. split; [done|]. exact (nothing_added (columns t) added t1 Hc).
Qed.
End additive.

(** ** Concrete directories *)

Module Scripts.
(** A database whose objects are the scripts that ran; "broken" is one that fails, and "core"
    makes the table. *)
Definition run (sound : bool) (sql : string) (d : Database (list string)) : result string (Database (list string)) :=
  if String.eqb sql "b" && negb sound then Err "syntax error"
  else Ok {| recorded := if String.eqb sql "core" then Some (default [] (recorded d)) else recorded d; objects := objects d ++ [sql] |}.
Definition digest (s : string) : string := s.
Definition empty : Database (list string) := {| recorded := None; objects := [] |}.
Definition directory : list (string * string) :=
  [("0002_b.up.sql", "b"); ("0001_core.up.sql", "core"); ("0001_core.down.sql", "drop core"); ("0002_b.down.sql", "drop b");
   ("0003_c.up.sql", "c"); ("0003_c.down.sql", "drop c"); ("readme.sql", "?")].
Definition migrated : Database (list string) := snd (up digest (run true) (discover directory) empty).
Definition stopped : Database (list string) := snd (up digest (run false) (discover directory) empty).
End Scripts.


(** A negative number of steps is an index from the end: all but the oldest are reverted. *)
Example minus_one_step_reverts_all_but_one :
  fst (down (Scripts.run true) (discover Scripts.directory) 1 Scripts.migrated) = Ok ["0003"] /\
  fst (down (Scripts.run true) (discover Scripts.directory) (-1) Scripts.migrated) = Ok ["0003"; "0002"].
Proof. vm_compute. split; reflexivity. Qed.

(** Versions are ordered as text: the tenth runs before the second, and the second is the one
    that is rolled back first. *)
Example tenth_runs_before_the_second :
  map mg_version (discover [("2_b.up.sql", "b"); ("10_c.up.sql", "c")]) = ["10"; "2"].
Proof. vm_compute. reflexivity. Qed.

(** Of two files of one version the first by name is dropped without a word. *)
Example second_file_of_a_version_replaces_the_first :
  map (fun m => (mg_version m, mg_up m)) (discover [("0002_a.up.sql", "a"); ("0002_b.up.sql", "b")]) = [("0002", "b")].
Proof. vm_compute. reflexivity. Qed.

(** A file that changed since it was applied stops the run at its turn: what comes before it by
    version has been applied. *)
Example drift_is_found_at_its_turn :
  let d := {| recorded := Some [("0002", "old")]; objects := ["old"] |} in
  let '(r, d') := up Scripts.digest (Scripts.run true) (discover Scripts.directory) d in
  r = Err (Changed "0002" "old" "b") /\ objects d' = ["old"; "core"].
Proof. vm_compute. split; reflexivity. Qed.

(** A journal of the first release, opened by this one. *)
Example first_journal_is_extended :
  let bars := {| columns := ["id"; "recorded_at"]; rows := [[("id", Some "1"); ("recorded_at", Some "monday")]] |} in
  match _migrate_additive_schema [("bar_observations", bars)] with
  | [(_, t)] => columns t = ["id"; "recorded_at"; "observed_at"; "payload_hash"; "revision"; "provider_meta"] /\
                map (dict_get "observed_at") (rows t) = [Some (Some "monday")]
  | _ => False
  end.
Proof. vm_compute. split; reflexivity. Qed.
